(* ===== verification/_CoqProject ===== *)
-Q . S2P
Prelude.v
Json.v
Base64.v
Sha256.v
Schema.v
Files.v
Storage.v
StorageProps.v
Ledger.v
LedgerProps.v
Engine.v
EngineProps.v
Tokens.v
TokenProps.v
Policy.v
PolicyProps.v
Fortress.v
FortressProps.v
Skills.v
Memory.v
MemoryProps.v
Providers.v
ProviderProps.v
Cognition.v
CognitionProps.v
Observability.v
Gateway.v
GatewayProps.v
ProviderProxy.v
ProviderProxyProps.v
ObservabilityProps.v
Diagnosis.v
DiagnosisProps.v
Operations.v
OperationsProps.v
Checkpoints.v
CheckpointProps.v
Execution.v
Remediation.v
RemediationProps.v
Learning.v
LearningSpec.v
LearningProps.v
ExecutionProps.v
Autonomy.v
AutonomyProps.v
StateBackup.v
StateBackupProps.v
Updates.v
Lock.v
LockProps.v
Continuous.v
ContinuousProps.v
Discovery.v
DiscoveryProps.v
Isolation.v
Twin.v
Adapters.v
Boundary.v
Text.v
Autostart.v
Panel.v
ControlPlane.v
Runtime.v
Gates.v
Collector.v
Phase1.v
Policies.v
GatewayRuntime.v
Concrete.v
WitnessStore.v
WitnessAuthority.v
WitnessOps.v
WitnessGateway.v
WitnessExecution.v
WitnessAutonomy.v
WitnessLearning.v
WitnessDiscovery.v
WitnessIsolation.v
WitnessScripts.v
