(* ===== verification/Prelude.v ===== *)
(** Verification library for the Immune-System repository: a sovereign maintenance
    system in Python that watches protected systems, diagnoses incidents, and lets
    cognitive providers propose work that only runs under policy.

    * The program and this library

    The program's state is one SQLite database, a tree of files, and the clock.  The
    model keeps it as [World] (Schema.v): the tables as records of row lists, one
    record of tables per component; the files as a map from resolved paths to byte
    strings; the seal file; and the number of draws made from time and randomness.
    A method is a computation of the monad [M World] (below): it returns a value or
    raises an exception class with its message, and leaves a world either way.
    [transaction] is BEGIN IMMEDIATE/COMMIT/ROLLBACK; statements outside it stay
    when a later one raises, as in autocommit.

    Files, by component (sources under src/; a Props file holds the theorems of the
    model it is named after, and a model without one ends with its theorems):
    - Prelude: exceptions, the monad, the calculus [respects] for frame properties and
      invariants, [raises] for error paths, exact numbers, text, tables, ORDER BY.
    - Json: JSON values and dictionaries; the interface [JsonText] of json.dumps,
      json.loads and number parsing with its round-trip laws (Concrete has an instance of
      it).  Base64, Sha256: executable base64url, SHA-256 and HMAC.
    - Schema, Files: the world, its tables, file-system operations.
    - Storage: immune_core/storage.py and models.py, the durable task queue; StorageProps
      begins with its abstract invariant.
    - Ledger: audit.py and immune_vault/audit_seal.py.
    - Engine: acceptance.py and engine.py, the mission state machine; EngineProps ends with
      the measure of the work left in the queue.
    - Tokens: identity.py, privilege.py and immune_fortress/capability.py.
    - Policy: policy.py and immune_fortress/policy_authority.py.
    - Fortress: immune_fortress root_trust.py, bootstrap.py, adapter_manifest.py.
    - Skills: immune_lab/admission.py and skills.py.  Memory: memory.py and
      immune_vault/memory_seal.py.
    - Providers, Cognition: providers.py and cognition.py, proposals and their queueing.
    - Observability, Diagnosis, Remediation: observability.py, diagnosis.py,
      remediation.py.  Checkpoints: checkpoints.py.
    - Gateway: immune_gateway (contracts, protocol, runtime_config, ingress, egress,
      adapter_sandbox, the handler of server).  Adapters: immune_gateway/adapters.py.
    - Operations: operations.py, runbooks.py and operator_dispatch.py.
    - Execution: immune_core/execution.py, workers.py and immune_execution_broker
      execution.py and workers.py.  Isolation: immune_execution_broker/isolation.py, the
      container runner that the adapter sandbox of Gateway is given.
    - ProviderProxy: immune_provider_proxy (sanitizer, http_provider, runtime).
    - Autonomy: autonomy.py, the maintenance cycle over the interface [WorkerContract],
      which Execution's worker discharges.
    - Learning, LearningSpec: learning.py; LearningSpec is its abstract transition system
      and invariant, LearningProps the refinement.
    - Updates: update_manager.py.  Discovery: discovery.py.
    - Twin: immune_twin (sandbox, gateway_adapter), on a state of its own.
    - StateBackup: state_backup.py.  Lock: the SupervisorLock of continuous.py, as one
      call and as interleaved system calls.  Continuous: continuous.py, watchdog.py.
    - Boundary: immune_fortress/boundary.py, the static inspection of the core, on syntax
      trees.  Text: the text functions of the standard library the files below use.
      Autostart: autostart.py.  Panel: immune_presentation/panel.py.  ControlPlane:
      immune_control_plane/cli.py and the constructors it calls.
    - The processes and gates under scripts/: Runtime (immune_runtime.py), GatewayRuntime
      (immune_gateway_runtime.py and the two status scripts), Phase1 (phase1_validator.py),
      Gates (final_mission_gate.py, verify_provider_live_attestation.py), Collector
      (collect_donors.py, run_donor_lab.py).  Policies: the declared policies under
      policies/, seven Rego files.
    - Concrete and the Witness files: a running environment, and each theorem that has
      hypotheses applied to a concrete run.

    * What the theorems show

    Queue: every method keeps the store well formed, the best due task is served, a
    lease is exclusive for as long as it lasts, submission is idempotent.  Ledger: appends keep the chain
    valid; a known head or a seal pins the history up to a SHA-256 collision.  Engine:
    histories are legal and COMPLETED needs a verified proof.  Authority: tokens mean
    what was signed, capabilities are exactly bound and spent once, the guard permits
    exactly what each of its rules allows.  Knowledge: promotion and approval are gated and
    sealed content is pinned.  Repair: checkpoints restore exactly, validation rolls
    back, incidents resolve only through their gates.  Boundary: external data is
    bounded, signed, fresh and carries no authority; nothing leaves unauthorised or
    unrecorded.  Operators: commands enter the queue only under authority, dispatch
    only registered actions, exceptions are decided once, health is green only on
    evidence.  Execution: no process without every gate; a failed change is rolled
    back; a worker's report is what happened; containers are checked before they start
    and always removed.  Autonomy: the worker loop terminates and drains the queue, and
    learns only from proven work.  Learning: the engine refines its abstract transition
    system, so knowledge only moves forward and one version per lineage is promoted;
    promotion is gated.  Releases: activation is atomic.  Providers: a call is confined
    and what it is sent is sanitised.  Discovery: a failing sensor is isolated.  Twin:
    snapshots restore, the adapter is confined, the guard fails closed.  Supervision: the lock excludes while
    fresh, cycles are recorded, backups restore.  Processes: no state is opened before the
    source tree is attested; the gateway's process brings data and no authority, and a
    system that fails does not stop the others.  Specification: the guard and the
    acceptance gate enforce the declared Rego policies on the requests that give them what
    they compare, and the validator's evidence is accepted by its readers.
    Releases of the product: the gates pass only on the evidence they name; donors are
    collected only with a verified licence.  Operators' tools: the command line writes only
    under the identity secret, the panel shows what the sensors prove, the unit runs the
    planned command, the core is confined to what the inspection allows.  Some theorems state where the code
    falls short of its intent (retries after crashes, seals of an empty ledger, stale
    locks, the replay window, foreign tasks in the dispatcher, tasks recovered under the
    wrong worker, malformed observations, the actuator's receipt, shipped adapters that
    cannot act, the keys of the declared policies the guard does not read, incident states
    the declared machine does not have, undecodable output of a timed-out change, signed pushes that the gateway's process drops, the lock the runtime never
    renews, evidence without a commit or of a failed validation, moved upstreams).

    * Abstractions, bounds and fuel

    Floats are exact rationals, so sums do not round; integers are unbounded as in
    Python and table columns hold what Python stores.  Text is its UTF-8 bytes;
    strip, lower and upper act on ASCII.  Time, uuid4 and token draws are numbered
    ([Entropy]); nothing is assumed of them except where a theorem says so.
    hmac.compare_digest is equality, except where a non-ASCII argument makes it raise
    (Fortress, Gateway).  File trees have no symbolic links and no empty directories.
    Rows that tie under ORDER BY come in rowid order.  A dictionary is an association
    list in insertion order.  Everything external is an argument: providers, probes,
    adapters, verifiers, sensors, the process environment, subprocess.run, docker, git, the
    network, the Python parser; the SQLite image of
    a backup is the interface [SqliteImage].  Recursion is structural; the JSON parser
    of the concrete instance takes the length of its text as fuel, which
    [fuel_length] shows to be enough, and loops of the sources run over lists or a
    given number of turns.  The tables of a world exist: the constructors' CREATE TABLE IF NOT
    EXISTS leaves them alone (their checks of keys are modelled), and only the runtime process,
    whose order of effects matters, creates the database file.

    * Not modelled

    The validators of the later phases and bootstrap_phase1.py, which drive the modelled
    components with sample data or write fixed texts; provider_live_smoke.py, which reports
    the causes of chained exceptions; modules of one constant that name their replacement;
    argparse, sockets and server objects; donors/, vendored third-party code that the
    system never runs. *)

From Stdlib Require Export QArith Lqa Ascii.
From stdpp Require Export base strings list gmap sorting.

(** ** Exceptions and results *)

(** The exception classes the sources raise or catch.  The sqlite3 and built-in
    classes are those the modelled statements can raise. *)
Inductive exn_class :=
| StateError | ValueError | KeyError | TypeError | AttributeError | PermissionError
| OSError | IntegrityError | OperationalError | IdentityError | PrivilegeError | CapabilityError
| SovereignAuthorizationError | MemoryError | MemoryIntegrityError
| MemorySealError | AuditSealError | SkillError | CheckpointError
| DiagnosisError | RemediationError | RootTrustError | AdapterManifestError
| CognitionError | AutonomyError | ContinuousOperationError | BackupError
| ProviderError | ProviderUnavailable | ProviderProtocolError | JSONDecodeError
| GatewayAuthenticationError | GatewayAuthorizationError | GatewayProtocolError | GatewayReplayError
| GatewayAdapterError | AdapterSandboxError | SandboxIsolationError | OperationsError | DispatchError | ExecutionError
| AuthorizationError | UpdateError | LearningError | ProviderConfigurationError | SandboxViolation
| SystemExit | RuntimeError | FileNotFoundError | CalledProcessError | SyntaxError
| PanelError | AutostartError | ProviderAttestationError | ProgrammingError | URLError | TimeoutError.

#[export] Instance exn_class_eq_dec : EqDecision exn_class.
Proof. solve_decision. Defined.

(** An exception value: its class and its message. *)
Record exn := Exn { exn_cls : exn_class; exn_msg : string }.

#[export] Instance exn_eq_dec : EqDecision exn.
Proof. solve_decision. Defined.

(** [type(exc).__name__] and [str(exc)] *)
Definition class_name (c : exn_class) : string :=
  match c with
  | StateError => "StateError" | ValueError => "ValueError" | KeyError => "KeyError"
  | TypeError => "TypeError" | AttributeError => "AttributeError" | PermissionError => "PermissionError"
  | OSError => "OSError" | IntegrityError => "IntegrityError" | OperationalError => "OperationalError"
  | IdentityError => "IdentityError" | PrivilegeError => "PrivilegeError" | CapabilityError => "CapabilityError"
  | SovereignAuthorizationError => "SovereignAuthorizationError" | MemoryError => "MemoryError"
  | MemoryIntegrityError => "MemoryIntegrityError" | MemorySealError => "MemorySealError"
  | AuditSealError => "AuditSealError" | SkillError => "SkillError" | CheckpointError => "CheckpointError"
  | DiagnosisError => "DiagnosisError" | RemediationError => "RemediationError"
  | RootTrustError => "RootTrustError" | AdapterManifestError => "AdapterManifestError"
  | CognitionError => "CognitionError" | AutonomyError => "AutonomyError"
  | ContinuousOperationError => "ContinuousOperationError" | BackupError => "BackupError"
  | ProviderError => "ProviderError" | ProviderUnavailable => "ProviderUnavailable"
  | ProviderProtocolError => "ProviderProtocolError" | JSONDecodeError => "JSONDecodeError"
  | GatewayAuthenticationError => "GatewayAuthenticationError" | GatewayAuthorizationError => "GatewayAuthorizationError"
  | GatewayProtocolError => "GatewayProtocolError" | GatewayReplayError => "GatewayReplayError"
  | GatewayAdapterError => "GatewayAdapterError" | AdapterSandboxError => "AdapterSandboxError"
  | SandboxIsolationError => "SandboxIsolationError"
  | OperationsError => "OperationsError" | DispatchError => "DispatchError"
  | ExecutionError => "ExecutionError" | AuthorizationError => "AuthorizationError"
  | UpdateError => "UpdateError" | LearningError => "LearningError"
  | ProviderConfigurationError => "ProviderConfigurationError" | SandboxViolation => "SandboxViolation"
  | SystemExit => "SystemExit" | RuntimeError => "RuntimeError" | FileNotFoundError => "FileNotFoundError"
  | CalledProcessError => "CalledProcessError" | SyntaxError => "SyntaxError" | PanelError => "PanelError"
  | AutostartError => "AutostartError" | ProviderAttestationError => "ProviderAttestationError"
  | ProgrammingError => "ProgrammingError" | URLError => "URLError" | TimeoutError => "TimeoutError"
  end.
Definition exn_text (e : exn) : string :=
  match exn_cls e with KeyError => "'" +:+ exn_msg e +:+ "'" | _ => exn_msg e end.

Inductive result (A : Type) :=
| Ok (a : A)
| Raise (e : exn).
Arguments Ok {A} a.
Arguments Raise {A} e.

Definition is_Ok {A} (r : result A) : bool :=
  match r with Ok _ => true | Raise _ => false end.

(** The check of a constructor that is given a key. *)
Definition demand_key (what secret : string) : result unit :=
  if Nat.ltb (String.length secret) 32
  then Raise (Exn ValueError (what +:+ " must contain at least 32 bytes")) else Ok tt.
Lemma demand_key_Ok what secret : demand_key what secret = Ok tt ↔ 32 ≤ String.length secret.
Proof. unfold demand_key. destruct (Nat.ltb_spec (String.length secret) 32); split; (done || lia). Qed.

(** ** The state-and-exception monad

    A computation runs in a world and returns a result together with the world
    it leaves behind.  A raised exception keeps the world: statements executed
    in autocommit mode before an exception stay executed, as they do in the
    sources. *)
Definition M (S A : Type) : Type := S → result A * S.

Section monad.
Context {S : Type}.

#[export] Instance M_ret : MRet (M S) := λ A a w, (Ok a, w).
#[export] Instance M_bind : MBind (M S) := λ A B f m w,
  match m w with
  | (Ok a, w') => f a w'
  | (Raise e, w') => (Raise e, w')
  end.
#[export] Instance M_fmap : FMap (M S) := λ A B f m w,
  match m w with
  | (Ok a, w') => (Ok (f a), w')
  | (Raise e, w') => (Raise e, w')
  end.

Definition throw {A} (c : exn_class) (msg : string) : M S A :=
  λ w, (Raise (Exn c msg), w).
Definition reraise {A} (e : exn) : M S A := λ w, (Raise e, w).
Definition get_world : M S S := λ w, (Ok w, w).
Definition gets {A} (f : S → A) : M S A := λ w, (Ok (f w), w).
Definition modify (f : S → S) : M S unit := λ w, (Ok tt, f w).

(** [if b: raise c(msg)] *)
Definition raise_if (b : bool) (c : exn_class) (msg : string) : M S unit :=
  if b then throw c msg else mret tt.

(** [try: m except e: h e] *)
Definition catch {A} (m : M S A) (h : exn → M S A) : M S A := λ w,
  match m w with
  | (Ok a, w') => (Ok a, w')
  | (Raise e, w') => h e w'
  end.

(** [try: r = m] where the handler only looks at the exception *)
Definition attempt {A} (m : M S A) : M S (result A) := λ w, let '(r, w') := m w in (Ok r, w').

(** A pure result raised into the monad. *)
Definition lift_result {A} (r : result A) : M S A := λ w, (r, w).

(** [for x in l: f x], collecting the results. *)
Fixpoint for_each {A B} (l : list A) (f : A → M S B) : M S (list B) :=
  match l with
  | [] => mret []
  | x :: l' => y ← f x; ys ← for_each l' f; mret (y :: ys)
  end.
End monad.

Lemma bind_Ok {S A B} (m : M S A) (f : A → M S B) w a w' :
  m w = (Ok a, w') → (m ≫= f) w = f a w'.
Proof. intros H. unfold mbind, M_bind. by rewrite H. Qed.

Lemma bind_Raise {S A B} (m : M S A) (f : A → M S B) w e w' :
  m w = (Raise e, w') → (m ≫= f) w = (Raise e, w').
Proof. intros H. unfold mbind, M_bind. by rewrite H. Qed.

Lemma bind_Ok_inv {S A B} (m : M S A) (f : A → M S B) w b w2 :
  (m ≫= f) w = (Ok b, w2) → ∃ a w1, m w = (Ok a, w1) ∧ f a w1 = (Ok b, w2).
Proof. unfold mbind, M_bind. destruct (m w) as [[a|e] w1]; naive_solver. Qed.

Lemma raise_if_Ok_inv {S} b c msg (w w' : S) u :
  raise_if b c msg w = (Ok u, w') → b = false ∧ w' = w.
Proof. destruct b; unfold raise_if, throw, mret, M_ret; naive_solver. Qed.

(** Decomposes a successful run into the runs of its parts. *)
Ltac minv_step H :=
  match type of H with
  | (mbind _ _) _ = (Ok _, _) =>
      let a := fresh "a" in let w := fresh "w" in let H1 := fresh "Hm" in
      apply bind_Ok_inv in H as (a & w & H1 & H); try minv_step H1
  | raise_if _ _ _ _ = (Ok _, _) =>
      let E := fresh "Hg" in
      apply raise_if_Ok_inv in H as [E ->]
  | mret _ _ = (Ok _, _) => injection H as ? ?; subst
  | gets _ _ = (Ok _, _) => injection H as ? ?; subst
  | modify _ _ = (Ok _, _) => injection H as ? ?; subst
  | throw _ _ _ = (Ok _, _) => discriminate H
  | reraise _ _ = (Ok _, _) => discriminate H
  end.
Ltac minv H := repeat (minv_step H; cbn beta iota in H).

(** ** Relations every run respects

    [respects R m]: whatever world [m] starts in, and whether it returns or
    raises, the world it leaves is [R]-related to the first.  For a preorder
    [R] the rules below make the property compositional; invariants are the
    instance [R w w' := I w → I w']. *)
Definition respects {S A} (R : relation S) (m : M S A) : Prop :=
  ∀ w, R w (snd (m w)).

Definition keeps {S} (I : S → Prop) : relation S := λ w w', I w → I w'.

#[export] Instance keeps_preorder {S} (I : S → Prop) : PreOrder (keeps I).
Proof. split; [intros w H; exact H | intros x y z; unfold keeps; auto]. Qed.

Section respects.
Context {S : Type} (R : relation S) `{!PreOrder R}.

Lemma respects_ret {A} (a : A) : respects R (mret a).
Proof. intros w. apply PreOrder_Reflexive. Qed.
Lemma respects_throw {A} c msg : respects R (throw (A:=A) c msg).
Proof. intros w. apply PreOrder_Reflexive. Qed.
Lemma respects_reraise {A} e : respects R (reraise (A:=A) e).
Proof. intros w. apply PreOrder_Reflexive. Qed.
Lemma respects_gets {A} (f : S → A) : respects R (gets f).
Proof. intros w. apply PreOrder_Reflexive. Qed.
Lemma respects_lift {A} (r : result A) : respects R (lift_result r).
Proof. intros w. apply PreOrder_Reflexive. Qed.
Lemma respects_raise_if b c msg : respects R (raise_if b c msg).
Proof. destruct b; intros w; apply PreOrder_Reflexive. Qed.
Lemma respects_bind {A B} (m : M S A) (f : A → M S B) :
  respects R m → (∀ a, respects R (f a)) → respects R (m ≫= f).
Proof.
  intros Hm Hf w. specialize (Hm w). unfold mbind, M_bind.
  destruct (m w) as [[a|e] w1]; simpl in *; [|done].
  etrans; [exact Hm | apply Hf].
Qed.
Lemma respects_fmap {A B} (f : A → B) (m : M S A) :
  respects R m → respects R (f <$> m).
Proof.
  intros Hm w. specialize (Hm w). unfold fmap, M_fmap.
  destruct (m w) as [[a|e] w1]; simpl in *; done.
Qed.
Lemma respects_catch {A} (m : M S A) h :
  respects R m → (∀ e, respects R (h e)) → respects R (catch m h).
Proof.
  intros Hm Hh w. specialize (Hm w). unfold catch.
  destruct (m w) as [[a|e] w1]; simpl in *; [done|].
  etrans; [exact Hm | apply Hh].
Qed.
Lemma respects_attempt {A} (m : M S A) : respects R m → respects R (attempt m).
Proof. intros Hm w. specialize (Hm w). unfold attempt. by destruct (m w) as [r w1]. Qed.
Lemma respects_for_each {A B} (l : list A) (f : A → M S B) :
  (∀ x, respects R (f x)) → respects R (for_each l f).
Proof.
  intros Hf. induction l as [|x l IH]; [apply respects_ret|]. cbn [for_each].
  apply respects_bind; [apply Hf|]. intros y.
  apply respects_bind; [exact IH|]. intros ys. apply respects_ret.
Qed.
Lemma respects_run {A} (m : M S A) w r w' :
  respects R m → m w = (r, w') → R w w'.
Proof. intros H E. specialize (H w). by rewrite E in H. Qed.
End respects.

(** The same at one starting world: for steps that are only safe because of what
    earlier steps found. *)
Definition respects_at {S A} (R : relation S) (m : M S A) (w : S) : Prop := R w (snd (m w)).

Section respects_at.
Context {S : Type} (R : relation S) `{!PreOrder R}.

Lemma respects_at_any {A} (m : M S A) w : respects R m → respects_at R m w.
Proof. intros Hm. apply Hm. Qed.
Lemma respects_of_at {A} (m : M S A) : (∀ w, respects_at R m w) → respects R m.
Proof. intros Hm. exact Hm. Qed.
Lemma respects_at_bind {A B} (m : M S A) (k : A → M S B) w :
  respects_at R m w → (∀ a w', m w = (Ok a, w') → respects_at R (k a) w') → respects_at R (m ≫= k) w.
Proof.
  unfold respects_at. intros Hm Hk. unfold mbind, M_bind.
  destruct (m w) as [[a|e] w1]; simpl in *; [|done]. etrans; [exact Hm | by apply Hk].
Qed.
End respects_at.

Lemma lift_Ok_inv {S A} (r : result A) (w w' : S) a :
  lift_result r w = (Ok a, w') → r = Ok a ∧ w' = w.
Proof. unfold lift_result. naive_solver. Qed.

Lemma bind_lift_Ok {S A B} (a : A) (f : A → M S B) w : (lift_result (Ok a) ≫= f) w = f a w.
Proof. done. Qed.

(** Running the primitive steps. *)
Lemma bind_ret_run {S A B} (a : A) (f : A → M S B) w : (mret a ≫= f) w = f a w.
Proof. done. Qed.
Lemma bind_gets_run {S A B} (g : S → A) (f : A → M S B) w : (gets g ≫= f) w = f (g w) w.
Proof. done. Qed.
Lemma bind_modify_run {S B} (g : S → S) (f : unit → M S B) w : (modify g ≫= f) w = f tt (g w).
Proof. done. Qed.
Lemma bind_raise_if_run {S B} b c msg (f : unit → M S B) w : b = false → (raise_if b c msg ≫= f) w = f tt w.
Proof. by intros ->. Qed.

Create HintDb respects.
#[export] Hint Resolve respects_ret respects_throw respects_reraise respects_gets
  respects_lift respects_raise_if : respects.

(** Splits a run into its primitive steps; the hint database closes them. *)
Ltac respects_step :=
  match goal with
  | |- respects _ (mbind _ _) => apply respects_bind; [try typeclasses eauto| |intros ?]
  | |- respects _ (fmap _ _) => apply respects_fmap; [try typeclasses eauto|]
  | |- respects _ (catch _ _) => apply respects_catch; [try typeclasses eauto| |intros ?]
  | |- respects _ (attempt _) => apply respects_attempt
  | |- respects _ (for_each _ _) => apply respects_for_each; [try typeclasses eauto|intros ?]
  | |- respects _ (let '(_, _) := ?x in _) => destruct x
  | |- respects _ (match ?x with _ => _ end) => destruct x
  | |- respects _ _ => solve [auto with respects typeclass_instances nocore]
  | |- respects _ _ => solve [eauto 6 with respects]
  end.
Ltac solve_respects := repeat (cbn beta iota zeta; respects_step).

(** ** Which exceptions a run can raise *)
Definition raises {S A} (P : exn_class → Prop) (m : M S A) : Prop :=
  ∀ w e w', m w = (Raise e, w') → P (exn_cls e).
Section raises.
Context {S : Type} (P : exn_class → Prop).
Lemma raises_ret {A} (a : A) : raises P (mret a : M S A).
Proof. by intros w e w'. Qed.
Lemma raises_gets {A} (f : S → A) : raises P (gets f).
Proof. by intros w e w'. Qed.
Lemma raises_modify (f : S → S) : raises P (modify f).
Proof. by intros w e w'. Qed.
Lemma raises_throw {A} c msg : P c → raises P (throw c msg : M S A).
Proof. by intros Hc w e w' [= <- _]. Qed.
Lemma raises_raise_if b c msg : P c → raises P (raise_if b c msg : M S unit).
Proof. intros Hc. destruct b; [by apply raises_throw | apply raises_ret]. Qed.
Lemma raises_bind {A B} (m : M S A) (f : A → M S B) : raises P m → (∀ a, raises P (f a)) → raises P (m ≫= f).
Proof.
  intros Hm Hf w e w'. unfold mbind, M_bind. destruct (m w) as [[a|e1] w1] eqn:E; [apply Hf|].
  intros [= <- _]. exact (Hm _ _ _ E).
Qed.
End raises.
Create HintDb raises.
#[export] Hint Resolve raises_ret raises_gets raises_modify raises_throw raises_raise_if : raises.
Ltac raises_step :=
  match goal with
  | |- raises _ (mbind _ _) => apply raises_bind; [|intros ?]
  | |- raises _ (match ?x with _ => _ end) => destruct x
  | |- raises _ _ => solve [auto with raises]
  end.
Ltac solve_raises := repeat (cbn beta iota zeta; raises_step).

(** ** Exact numbers standing for Python floats *)
Definition qle (a b : Q) : bool := Qle_bool a b.
Definition qlt (a b : Q) : bool := negb (Qle_bool b a).
Definition py_max (a b : Q) : Q := if qlt a b then b else a.
Definition py_min (a b : Q) : Q := if qlt b a then b else a.

Lemma qle_true a b : qle a b = true ↔ (a <= b)%Q.
Proof. apply Qle_bool_iff. Qed.
Lemma qle_false a b : qle a b = false ↔ (b < a)%Q.
Proof.
  unfold qle. destruct (Qle_bool a b) eqn:E.
  - apply Qle_bool_iff in E. split; [done|]. intros H. lra.
  - split; [|done]. intros _. apply Qnot_le_lt. intros H.
    apply Qle_bool_iff in H. congruence.
Qed.
Lemma qlt_true a b : qlt a b = true ↔ (a < b)%Q.
Proof. unfold qlt. rewrite negb_true_iff. apply qle_false. Qed.
Lemma qlt_false a b : qlt a b = false ↔ (b <= a)%Q.
Proof. unfold qlt. rewrite negb_false_iff. apply qle_true. Qed.

Lemma py_max_ge a b : (a <= py_max a b)%Q ∧ (b <= py_max a b)%Q.
Proof.
  unfold py_max. destruct (qlt a b) eqn:E;
    [apply qlt_true in E | apply qlt_false in E]; split; lra.
Qed.
Lemma clamp_unit q : (0 <= py_max 0 (py_min 1 q))%Q ∧ (py_max 0 (py_min 1 q) <= 1)%Q.
Proof.
  unfold py_max, py_min. repeat case_match;
    repeat match goal with
    | H : qlt _ _ = true |- _ => apply qlt_true in H
    | H : qlt _ _ = false |- _ => apply qlt_false in H
    end; split; lra.
Qed.

(** ** Strings: [==], [str.strip()], [in] *)
Declare Scope imm_scope.
Delimit Scope imm_scope with imm.
Notation "a =s b" := (String.eqb a b) (at level 70) : imm_scope.
Open Scope imm_scope.

Definition str_in (s : string) (l : list string) : bool := existsb (String.eqb s) l.

Lemma str_in_iff s l : str_in s l = true ↔ s ∈ l.
Proof.
  unfold str_in. rewrite existsb_exists. setoid_rewrite list_elem_of_In.
  split; [intros (x & Hx & ->%String.eqb_eq); done|].
  intros H. exists s. by rewrite String.eqb_refl.
Qed.

(** Python's ASCII white space: 9-13, 28-31 and 32. *)
Definition is_space (c : ascii) : bool :=
  let n := nat_of_ascii c in
  (Nat.leb 9 n && Nat.leb n 13) || (Nat.leb 28 n && Nat.leb n 32).

Fixpoint lstrip (s : string) : string :=
  match s with
  | EmptyString => EmptyString
  | String c s' => if is_space c then lstrip s' else s
  end.
Fixpoint rstrip (s : string) : string :=
  match s with
  | EmptyString => EmptyString
  | String c s' =>
      match rstrip s' with
      | EmptyString => if is_space c then EmptyString else String c EmptyString
      | s'' => String c s''
      end
  end.
Definition strip (s : string) : string := lstrip (rstrip s).

(** [len(s)] of a text kept as its UTF-8 bytes: continuation bytes do not count *)
Definition continuation (c : ascii) : bool := N.leb 128 (N_of_ascii c) && N.ltb (N_of_ascii c) 192.
Fixpoint char_count (s : string) : nat :=
  match s with
  | EmptyString => 0
  | String c s' => (if continuation c then 0 else 1) + char_count s'
  end.
(** [s[:n]] *)
Fixpoint char_take (n : nat) (s : string) : string :=
  match s with
  | EmptyString => EmptyString
  | String c s' => if continuation c then String c (char_take n s')
                   else match n with O => EmptyString | S m => String c (char_take m s') end
  end.
Lemma char_take_count n s : char_count (char_take n s) ≤ n.
Proof.
  revert n. induction s as [|c s IH]; intros n; [simpl; lia|]. simpl. destruct (continuation c) eqn:E; simpl.
  - rewrite E. simpl. apply IH.
  - destruct n; simpl; [lia|]. rewrite E. simpl. specialize (IH n). lia.
Qed.
(** [any(ch.isspace() for ch in s)] *)
Fixpoint has_space (s : string) : bool :=
  match s with EmptyString => false | String c s' => is_space c || has_space s' end.

(** [not s.strip()] *)
Definition blank (s : string) : bool := strip s =s "".

Lemma lstrip_idem s : lstrip (lstrip s) = lstrip s.
Proof. induction s as [|c s IH]; [done|]. simpl. destruct (is_space c) eqn:E; [done|]. simpl. by rewrite E. Qed.
Lemma rstrip_idem s : rstrip (rstrip s) = rstrip s.
Proof.
  induction s as [|c s IH]; [done|]. simpl.
  destruct (rstrip s) as [|d s'] eqn:E.
  - destruct (is_space c) eqn:Ec; [done|]. simpl. by rewrite Ec.
  - cbn [rstrip] in IH |- *. by rewrite IH.
Qed.
Lemma rstrip_lstrip s : rstrip (lstrip s) = lstrip (rstrip s).
Proof.
  induction s as [|c s IH]; [done|]. simpl. destruct (is_space c) eqn:Ec.
  - rewrite IH. destruct (rstrip s) as [|d s']; [done|]. by cbn [lstrip]; rewrite Ec.
  - simpl. destruct (rstrip s); by cbn [lstrip]; rewrite Ec.
Qed.
Lemma strip_idem s : strip (strip s) = strip s.
Proof. unfold strip. by rewrite rstrip_lstrip, rstrip_idem, lstrip_idem. Qed.

Lemma length_app_s s t : String.length (s +:+ t) = String.length s + String.length t.
Proof. induction s as [|c s IH]; [done|]. change (String c s +:+ t) with (String c (s +:+ t)). simpl. by rewrite IH. Qed.
Lemma app_cons c s t : String c s +:+ t = String c (s +:+ t).
Proof. done. Qed.
Lemma app_nil_s s : s +:+ "" = s.
Proof. induction s as [|c s IH]; [done|]. by rewrite app_cons, IH. Qed.
Lemma app_assoc_s s t u : (s +:+ t) +:+ u = s +:+ t +:+ u.
Proof. induction s as [|c s IH]; [done|]. by rewrite !app_cons, IH. Qed.

(** [s + "\n"], the line end of the text files *)
Definition newline : string := String (ascii_of_nat 10) EmptyString.

Lemma rstrip_newline s : rstrip (s +:+ newline) = rstrip s.
Proof.
  induction s as [|c s IH]; [reflexivity|]. change (String c s +:+ newline) with (String c (s +:+ newline)).
  cbn [rstrip]. by rewrite IH.
Qed.

(** ** Tables

    A SQLite table is the list of its rows in rowid order. *)
Section table.
Context {R : Type} (key : R → string).

Definition has_key (k : string) (r : R) : bool := key r =s k.
(** [SELECT ... WHERE key = k] on a unique column, [fetchone()] *)
Definition find_row (k : string) (rows : list R) : option R := List.find (has_key k) rows.
Definition row_exists (k : string) (rows : list R) : bool := existsb (has_key k) rows.
(** [UPDATE ... SET f WHERE p] *)
Definition update_where (p : R → bool) (f : R → R) (rows : list R) : list R :=
  map (λ r, if p r then f r else r) rows.
Definition update_row (k : string) (f : R → R) : list R → list R := update_where (has_key k) f.
(** A unique column. *)
Definition unique_key (rows : list R) : Prop := NoDup (map key rows).

Lemma find_row_Some k rows r : find_row k rows = Some r → r ∈ rows ∧ key r = k.
Proof.
  intros [Hin Hk]%List.find_some. unfold has_key in Hk.
  apply String.eqb_eq in Hk. by apply list_elem_of_In in Hin.
Qed.
Lemma find_row_None k rows : find_row k rows = None ↔ k ∉ map key rows.
Proof.
  unfold find_row, has_key. induction rows as [|r rows IH]; simpl.
  - split; [|done]. intros _ H. by apply elem_of_nil in H.
  - destruct (String.eqb_spec (key r) k) as [->|Hne].
    + split; [done|]. intros H. destruct H. by left.
    + rewrite IH, not_elem_of_cons. by split; [intros H; split; [intros ->|] | intros [_ H]].
Qed.
Lemma row_exists_true k rows : row_exists k rows = true ↔ k ∈ map key rows.
Proof.
  unfold row_exists, has_key. rewrite existsb_exists, list_elem_of_fmap.
  setoid_rewrite <- list_elem_of_In. setoid_rewrite String.eqb_eq. naive_solver.
Qed.
Lemma row_exists_false k rows : row_exists k rows = false ↔ k ∉ map key rows.
Proof. rewrite <- row_exists_true. destruct (row_exists k rows); naive_solver. Qed.
Lemma update_where_keys p f rows :
  (∀ r, key (f r) = key r) → map key (update_where p f rows) = map key rows.
Proof.
  intros Hf. unfold update_where. rewrite map_map. apply map_ext.
  intros r. destruct (p r); auto.
Qed.
Lemma update_row_keys k f rows :
  (∀ r, key (f r) = key r) → map key (update_row k f rows) = map key rows.
Proof. apply update_where_keys. Qed.
Lemma find_update_eq k f rows :
  (∀ r, key (f r) = key r) → find_row k (update_row k f rows) = f <$> find_row k rows.
Proof.
  intros Hf. unfold find_row, update_row, update_where, has_key.
  induction rows as [|r rows IH]; [done|]. simpl.
  destruct (key r =s k) eqn:E; [by rewrite Hf, E | by rewrite E].
Qed.
Lemma find_update_ne k k' f rows :
  (∀ r, key (f r) = key r) → k ≠ k' → find_row k (update_row k' f rows) = find_row k rows.
Proof.
  intros Hf Hk. unfold find_row, update_row, update_where, has_key.
  induction rows as [|r rows IH]; [done|]. simpl.
  destruct (String.eqb_spec (key r) k') as [E|E].
  - rewrite Hf. destruct (String.eqb_spec (key r) k); [congruence|done].
  - by destruct (String.eqb_spec (key r) k).
Qed.
Lemma find_row_app k rows rows' :
  find_row k (rows ++ rows') =
    match find_row k rows with Some r => Some r | None => find_row k rows' end.
Proof.
  unfold find_row. induction rows as [|r rows IH]; [done|]. simpl. by destruct (has_key k r).
Qed.
Lemma find_row_snoc k rows r :
  key r ∉ map key rows →
  find_row k (rows ++ [r]) = if key r =s k then Some r else find_row k rows.
Proof.
  intros Hr. rewrite find_row_app. unfold find_row at 2, has_key. simpl.
  destruct (String.eqb_spec (key r) k) as [<-|E].
  - by rewrite (proj2 (find_row_None (key r) rows) Hr).
  - by destruct (find_row k rows).
Qed.
Lemma unique_key_snoc rows r :
  unique_key rows → key r ∉ map key rows → unique_key (rows ++ [r]).
Proof.
  unfold unique_key. intros Hu Hr. rewrite map_app. apply NoDup_app. simpl.
  split_and!; [done| |apply NoDup_singleton]. by intros x Hx ->%list_elem_of_singleton.
Qed.
Lemma find_row_unique rows r : unique_key rows → r ∈ rows → find_row (key r) rows = Some r.
Proof.
  unfold unique_key, find_row, has_key. induction rows as [|x rows IH]; simpl.
  - intros _ H. by apply elem_of_nil in H.
  - intros [Hx Hnd]%NoDup_cons [->|Hin]%elem_of_cons; [by rewrite String.eqb_refl|].
    destruct (String.eqb_spec (key x) (key r)) as [E|E]; [|by apply IH].
    destruct Hx. rewrite E. by apply list_elem_of_fmap_2.
Qed.
Lemma update_row_Forall (P : R → Prop) k f rows :
  Forall P rows → (∀ r, r ∈ rows → key r = k → P r → P (f r)) → Forall P (update_row k f rows).
Proof.
  intros H Hf. unfold update_row, update_where, has_key. rewrite Forall_forall in *.
  intros x Hx. apply list_elem_of_fmap in Hx as (r & -> & Hr).
  destruct (String.eqb_spec (key r) k); auto.
Qed.
End table.

(** ** [ORDER BY]: a stable sort, whose head is what [LIMIT 1] returns *)
Section order_by.
Context {R : Type} (leb : R → R → bool).

Fixpoint insert_by (x : R) (l : list R) : list R :=
  match l with
  | [] => [x]
  | y :: l' => if leb x y then x :: l else y :: insert_by x l'
  end.
Fixpoint order_by (l : list R) : list R :=
  match l with
  | [] => []
  | x :: l' => insert_by x (order_by l')
  end.

Lemma insert_by_perm x l : insert_by x l ≡ₚ x :: l.
Proof.
  induction l as [|y l IH]; [done|]. simpl. destruct (leb x y); [done|].
  rewrite IH. apply Permutation_swap.
Qed.
Lemma order_by_perm l : order_by l ≡ₚ l.
Proof. induction l as [|x l IH]; [done|]. simpl. by rewrite insert_by_perm, IH. Qed.

Context (leb_total : ∀ x y, leb x y = true ∨ leb y x = true).
Context (leb_trans : ∀ x y z, leb x y = true → leb y z = true → leb x z = true).

Lemma insert_by_sorted x l :
  StronglySorted (λ a b, leb a b = true) l →
  StronglySorted (λ a b, leb a b = true) (insert_by x l).
Proof.
  induction 1 as [|y l Hl IH Hy]; simpl; [repeat constructor|].
  destruct (leb x y) eqn:E.
  - constructor; [by constructor|]. constructor; [done|].
    eapply Forall_impl; [exact Hy|]. simpl. eauto.
  - constructor; [done|]. rewrite insert_by_perm. constructor; [|done].
    destruct (leb_total x y); congruence.
Qed.
Lemma order_by_sorted l : StronglySorted (λ a b, leb a b = true) (order_by l).
Proof. induction l; simpl; [constructor | by apply insert_by_sorted]. Qed.

Lemma order_by_head_least l x :
  head (order_by l) = Some x → x ∈ l ∧ ∀ y, y ∈ l → leb x y = true.
Proof.
  intros H. pose proof (order_by_sorted l) as Hs. pose proof (order_by_perm l) as Hp.
  destruct (order_by l) as [|z l'] eqn:E; [done|]. injection H as ->.
  inversion_clear Hs as [|? ? _ Hall]. split.
  - rewrite <- Hp. by left.
  - intros y Hy. rewrite <- Hp in Hy. apply elem_of_cons in Hy as [->|Hy].
    + by destruct (leb_total x x).
    + rewrite Forall_forall in Hall. auto.
Qed.
Lemma order_by_head_None l : head (order_by l) = None ↔ l = [].
Proof.
  split; [|by intros ->]. intros H. pose proof (order_by_perm l) as Hp.
  destruct (order_by l); [|done]. by apply Permutation_nil_l in Hp.
Qed.
End order_by.
