(* ===== verification/Json.v ===== *)
(** JSON values and Python dictionaries.

    [json] is the type of the values the sources pass as [dict[str, Any]]
    payloads.  A dictionary is its list of items in insertion order.  The text
    format of the [json] module is an interface ([JsonText]) with its documented
    round trip as laws; [jcanon] is the key-sorted form [sort_keys=True] prints
    and parses back. *)

From stdpp Require Import countable pretty.
From S2P Require Import Prelude.

(** ** Values *)
Inductive json :=
| JNull
| JBool (b : bool)
| JInt (z : Z)
| JNum (q : Q)
| JStr (s : string)
| JList (l : list json)
| JObj (kvs : list (string * json)).

Abbreviation dict := (list (string * json)).

Section json_ind.
Context (P : json → Prop).
Context (HNull : P JNull) (HBool : ∀ b, P (JBool b)) (HInt : ∀ z, P (JInt z)).
Context (HNum : ∀ q, P (JNum q)) (HStr : ∀ s, P (JStr s)).
Context (HList : ∀ l, Forall P l → P (JList l)).
Context (HObj : ∀ kvs, Forall (λ p, P p.2) kvs → P (JObj kvs)).

Fixpoint json_ind' (v : json) : P v :=
  match v with
  | JNull => HNull
  | JBool b => HBool b
  | JInt z => HInt z
  | JNum q => HNum q
  | JStr s => HStr s
  | JList l => HList l
      ((fix go l := match l return Forall P l with
        | [] => Forall_nil_2 P
        | x :: l' => Forall_cons_2 P x l' (json_ind' x) (go l') end) l)
  | JObj kvs => HObj kvs
      ((fix go l := match l return Forall (λ p, P p.2) l with
        | [] => Forall_nil_2 _
        | x :: l' => Forall_cons_2 _ x l' (json_ind' x.2) (go l') end) kvs)
  end.
End json_ind.

(** ** Dictionary operations *)

(** [d.get(k)] *)
Fixpoint dget (d : dict) (k : string) : option json :=
  match d with
  | [] => None
  | (k', v) :: d' => if k' =s k then Some v else dget d' k
  end.

(** [d[k] = v]: in place when the key is there, appended otherwise *)
Fixpoint dset (d : dict) (k : string) (v : json) : dict :=
  match d with
  | [] => [(k, v)]
  | (k', v') :: d' => if k' =s k then (k, v) :: d' else (k', v') :: dset d' k v
  end.

(** [{**d, **d'}] *)
Definition dupdate (d d' : dict) : dict := fold_left (λ acc kv, dset acc kv.1 kv.2) d' d.

(** [d.pop(k)] leaves *)
Definition dpop (d : dict) (k : string) : dict := filter (λ kv, kv.1 ≠ k) d.

(** [d.get(k) is True] *)
Definition is_true (d : dict) (k : string) : bool :=
  match dget d k with Some (JBool true) => true | _ => false end.

(** [bool(v)] *)
Definition truthy (v : json) : bool :=
  match v with
  | JNull => false
  | JBool b => b
  | JInt z => negb (Z.eqb z 0)
  | JNum q => negb (Qeq_bool q 0)
  | JStr s => negb (s =s "")
  | JList l => negb (Nat.eqb (length l) 0)
  | JObj d => negb (Nat.eqb (length d) 0)
  end.

(** [bool(d.get(k, default))] *)
Definition get_truthy (d : dict) (k : string) (default : bool) : bool :=
  match dget d k with Some v => truthy v | None => default end.

Definition jopt_str (o : option string) : json :=
  match o with Some s => JStr s | None => JNull end.

Lemma dget_dset_eq d k v : dget (dset d k v) k = Some v.
Proof.
  induction d as [|[k' v'] d IH]; simpl; [by rewrite String.eqb_refl|].
  destruct (k' =s k) eqn:E; simpl; [by rewrite String.eqb_refl | by rewrite E].
Qed.
Lemma dget_dset_ne d k k' v : k ≠ k' → dget (dset d k v) k' = dget d k'.
Proof.
  intros Hk. induction d as [|[k0 v0] d IH]; simpl.
  - by destruct (String.eqb_spec k k').
  - destruct (String.eqb_spec k0 k) as [E|E]; simpl.
    + subst k0. by destruct (String.eqb_spec k k').
    + by rewrite IH.
Qed.

(** ** Key order *)
Lemma string_leb_trans s1 s2 s3 :
  String.leb s1 s2 = true → String.leb s2 s3 = true → String.leb s1 s3 = true.
Proof.
  unfold String.leb. revert s2 s3. induction s1 as [|a s1 IH]; intros [|b s2] [|c s3]; simpl; try done.
  specialize (IH s2 s3). unfold Ascii.compare.
  destruct (N.compare_spec (N_of_ascii a) (N_of_ascii b)) as [E|E|E]; [|intros _|done];
  destruct (N.compare_spec (N_of_ascii b) (N_of_ascii c)) as [F|F|F]; try done;
  destruct (N.compare_spec (N_of_ascii a) (N_of_ascii c)) as [G|G|G];
    try done; try (exfalso; lia); auto.
Qed.

Definition key_leb (p q : string * json) : bool := String.leb p.1 q.1.
Definition sort_keys (d : dict) : dict := order_by key_leb d.

Fixpoint jcanon (v : json) : json :=
  match v with
  | JList l => JList (map jcanon l)
  | JObj kvs => JObj (sort_keys (map (λ p, (p.1, jcanon p.2)) kvs))
  | _ => v
  end.

Lemma key_leb_total p q : key_leb p q = true ∨ key_leb q p = true.
Proof. apply String.leb_total. Qed.
Lemma key_leb_trans p q r : key_leb p q = true → key_leb q r = true → key_leb p r = true.
Proof. apply string_leb_trans. Qed.

Lemma order_by_fixed {R} (leb : R → R → bool) l :
  StronglySorted (λ a b, leb a b = true) l → order_by leb l = l.
Proof.
  induction 1 as [|x l Hl IH Hx]; [done|]. simpl. rewrite IH.
  destruct l as [|y l]; [done|]. inversion_clear Hx as [|? ? Hxy _]. simpl. by rewrite Hxy.
Qed.

Lemma sorted_map_keys (f : string * json → string * json) d :
  (∀ p, (f p).1 = p.1) →
  StronglySorted (λ a b, key_leb a b = true) d →
  StronglySorted (λ a b, key_leb a b = true) (map f d).
Proof.
  intros Hf. induction 1 as [|x l Hl IH Hx]; [constructor|]. simpl. constructor; [done|].
  rewrite Forall_map. eapply Forall_impl; [exact Hx|]. intros y. unfold key_leb. simpl.
  by rewrite !Hf.
Qed.

Lemma jcanon_idem v : jcanon (jcanon v) = jcanon v.
Proof.
  induction v as [| | | | |l IH|kvs IH] using json_ind'; try done; simpl; f_equal.
  - rewrite map_map. apply map_ext_in. intros x Hx%list_elem_of_In.
    rewrite Forall_forall in IH. auto.
  - set (f := λ p : string * json, (p.1, jcanon p.2)).
    assert (Hfix : map f (sort_keys (map f kvs)) = sort_keys (map f kvs)).
    { rewrite <- (map_id (sort_keys (map f kvs))) at 2. apply map_ext_in.
      intros p Hp%list_elem_of_In. unfold sort_keys in Hp. rewrite order_by_perm in Hp.
      apply list_elem_of_fmap in Hp as (q & -> & Hq). unfold f. simpl.
      rewrite Forall_forall in IH. by rewrite IH. }
    rewrite Hfix. apply order_by_fixed, order_by_sorted; [apply key_leb_total|apply key_leb_trans].
Qed.

(** Sorting the keys does not change what a key is bound to. *)
Lemma dget_insert_by p d k : dget (insert_by key_leb p d) k = if p.1 =s k then Some p.2 else dget d k.
Proof.
  induction d as [|[k' v'] d IH]; simpl; [by destruct p|]. destruct p as [k0 v0]. unfold key_leb at 1. simpl in *.
  destruct (String.leb k0 k') eqn:E; [done|]. simpl. rewrite IH.
  destruct (String.eqb_spec k' k) as [->|]; [|done]. destruct (String.eqb_spec k0 k) as [->|]; [|done].
  destruct (String.leb_total k k); congruence.
Qed.
Lemma dget_sort_keys d k : dget (sort_keys d) k = dget d k.
Proof.
  unfold sort_keys. induction d as [|[k' v'] d IH]; [done|]. cbn [order_by]. rewrite dget_insert_by, IH. done.
Qed.
Lemma dget_map_jcanon d k : dget (map (λ p, (p.1, jcanon p.2)) d) k = jcanon <$> dget d k.
Proof. induction d as [|[k' v'] d IH]; [done|]. simpl. by destruct (k' =s k). Qed.
Lemma jcanon_obj_dget d d' k : jcanon (JObj d) = jcanon (JObj d') → jcanon <$> dget d k = jcanon <$> dget d' k.
Proof.
  simpl. intros [= E]. rewrite <- !dget_map_jcanon, <- dget_sort_keys, E, dget_sort_keys. done.
Qed.

(** ** The text format *)

(** The option sets the sources call [json.dumps] with. *)
Inductive dump_style :=
| Compact        (* sort_keys, separators, ensure_ascii=False *)
| CompactAscii   (* sort_keys, separators *)
| Sorted         (* sort_keys *)
| SortedUnicode  (* sort_keys, ensure_ascii=False *)
| Indented       (* sort_keys, indent *)
| IndentedUnicode (* sort_keys, indent, ensure_ascii=False *)
| CompactInOrder (* separators, ensure_ascii=False: insertion order *)
| Plain.         (* no option: insertion order *)

Definition sorts (st : dump_style) : bool :=
  match st with Plain | CompactInOrder => false | _ => true end.
Definition printed (st : dump_style) (v : json) : json := if sorts st then jcanon v else v.

(** [json.dumps], [json.loads] and [str] of the values whose text the model
    does not fix.  Laws: parsing a printed value gives that value, with the
    keys in the printed order; a final line end is ignored; sorted printing does
    not depend on key order. *)
Class JsonText := {
  dumps : dump_style → json → string;
  loads : string → option json;
  repr : json → string;
  parse_int : string → option Z;
  parse_float : string → option Q;
  loads_dumps : ∀ st v, loads (dumps st v) = Some (printed st v);
  loads_newline : ∀ s, loads (s +:+ newline) = loads s;
  dumps_printed : ∀ st v, dumps st (printed st v) = dumps st v;
}.

(** [str(v)] *)
Definition py_str `{JsonText} (v : json) : string :=
  match v with
  | JStr s => s
  | JNull => "None"
  | JBool true => "True"
  | JBool false => "False"
  | JInt z => pretty z
  | _ => repr v
  end.

(** [str(d.get(k, default))] *)
Definition get_str `{JsonText} (d : dict) (k default : string) : string :=
  match dget d k with Some v => py_str v | None => default end.

(** [int(v)] *)
Definition py_int `{JsonText} (v : json) : result Z :=
  match v with
  | JInt z => Ok z
  | JBool b => Ok (if b then 1%Z else 0%Z)
  | JNum q => Ok (Z.quot (Qnum q) (Zpos (Qden q)))
  | JStr s => match parse_int s with
              | Some z => Ok z
              | None => Raise (Exn ValueError "invalid literal for int()")
              end
  | _ => Raise (Exn TypeError "int() argument must be a string or a real number")
  end.

(** [float(v)] *)
Definition py_float `{JsonText} (v : json) : result Q :=
  match v with
  | JInt z => Ok (inject_Z z)
  | JBool b => Ok (if b then 1%Q else 0%Q)
  | JNum q => Ok q
  | JStr s => match parse_float s with
              | Some q => Ok q
              | None => Raise (Exn ValueError "could not convert string to float")
              end
  | _ => Raise (Exn TypeError "float() argument must be a string or a real number")
  end.

(** [isinstance(v, int)] with the integer it stands for; [bool] is a subclass. *)
Definition as_int (v : option json) : option Z :=
  match v with
  | Some (JInt z) => Some z
  | Some (JBool b) => Some (if b then 1%Z else 0%Z)
  | _ => None
  end.

Lemma dumps_jcanon `{JsonText} st v : sorts st = true → dumps st (jcanon v) = dumps st v.
Proof. intros Hs. pose proof (dumps_printed st v) as E. unfold printed in E. by rewrite Hs in E. Qed.

Lemma dumps_inj `{JsonText} st v v' : dumps st v = dumps st v' → printed st v = printed st v'.
Proof. intros E. pose proof (loads_dumps st v) as L. rewrite E, loads_dumps in L. congruence. Qed.
