(* ===== verification/Base64.v ===== *)
(** URL-safe base64 without padding, as the token authorities use it.

    [b2a] and [a2b] are CPython's [binascii.b2a_base64] and (non-strict)
    [binascii.a2b_base64] on byte strings; [b64u_encode] and [b64u_decode] are
    the helpers of identity.py, privilege.py and capability.py. *)

From S2P Require Import Prelude.
Local Open Scope N_scope.

(** ** Alphabet (urlsafe: [-] and [_] in place of [+] and [/]) *)
Definition b64_char (n : N) : ascii :=
  if n <? 26 then ascii_of_N (65 + n)
  else if n <? 52 then ascii_of_N (97 + (n - 26))
  else if n <? 62 then ascii_of_N (48 + (n - 52))
  else if n =? 62 then "-"%char else "_"%char.

(** [urlsafe_b64decode] first maps [-] to [+] and [_] to [/]: both spellings decode. *)
Definition b64_val (c : ascii) : option N :=
  let n := N_of_ascii c in
  if (65 <=? n) && (n <=? 90) then Some (n - 65)
  else if (97 <=? n) && (n <=? 122) then Some (n - 97 + 26)
  else if (48 <=? n) && (n <=? 57) then Some (n - 48 + 52)
  else if (n =? 45) || (n =? 43) then Some 62
  else if (n =? 95) || (n =? 47) then Some 63
  else None.

(** [base64.urlsafe_b64encode(data).rstrip(b"=")] *)
Fixpoint b64u_encode (s : string) : string :=
  match s with
  | EmptyString => EmptyString
  | String a EmptyString =>
      let x := N_of_ascii a in
      String (b64_char (x / 4)) (String (b64_char (x mod 4 * 16)) EmptyString)
  | String a (String b EmptyString) =>
      let x := N_of_ascii a in let y := N_of_ascii b in
      String (b64_char (x / 4)) (String (b64_char (x mod 4 * 16 + y / 16))
        (String (b64_char (y mod 16 * 4)) EmptyString))
  | String a (String b (String c rest)) =>
      let x := N_of_ascii a in let y := N_of_ascii b in let z := N_of_ascii c in
      String (b64_char (x / 4)) (String (b64_char (x mod 4 * 16 + y / 16))
        (String (b64_char (y mod 16 * 4 + z / 64)) (String (b64_char (z mod 64)) (b64u_encode rest))))
  end.

(** The decoder's state: position in the quad, bits left over, pads seen. *)
Fixpoint a2b (quad_pos left pads : N) (s : string) : option string :=
  match s with
  | EmptyString => if quad_pos =? 0 then Some EmptyString else None
  | String ch s' =>
      if Ascii.eqb ch "=" then
        let pads' := if 2 <=? quad_pos then pads + 1 else pads in
        if (2 <=? quad_pos) && (4 <=? quad_pos + pads') then Some EmptyString
        else a2b quad_pos left pads' s'
      else
        match b64_val ch with
        | None => a2b quad_pos left pads s'
        | Some v =>
            if quad_pos =? 0 then a2b 1 v 0 s'
            else if quad_pos =? 1 then
              String (ascii_of_N (left * 4 + v / 16)) <$> a2b 2 (v mod 16) 0 s'
            else if quad_pos =? 2 then
              String (ascii_of_N (left * 16 + v / 4)) <$> a2b 3 (v mod 4) 0 s'
            else String (ascii_of_N (left * 64 + v)) <$> a2b 0 0 0 s'
        end
  end.

Fixpoint is_ascii (s : string) : bool :=
  match s with
  | EmptyString => true
  | String c s' => (N_of_ascii c <? 128) && is_ascii s'
  end.

Fixpoint repeat_char (n : nat) (c : ascii) : string :=
  match n with O => EmptyString | S n' => String c (repeat_char n' c) end.

(** ["=" * (-len(data) % 4)] *)
Definition pad_of (s : string) : string :=
  repeat_char (Z.to_nat ((- Z.of_nat (String.length s)) mod 4)) "="%char.

(** [base64.urlsafe_b64decode((data + pad).encode("ascii"))]; [None] is the
    exception of a non-ASCII character or of bad padding. *)
Definition b64u_decode (s : string) : option string :=
  if is_ascii s then a2b 0 0 0 (s +:+ pad_of s) else None.

(** ** Round trip *)
Definition sextets : list N := map N.of_nat (seq 0 64).
Lemma sextet_in n : n < 64 → In n sextets.
Proof. intros Hn. apply in_map_iff. exists (N.to_nat n). split; [lia|]. apply in_seq. lia. Qed.

Lemma b64_char_val n : n < 64 → b64_val (b64_char n) = Some n.
Proof.
  intros Hn%sextet_in.
  assert (forallb (λ n, bool_decide (b64_val (b64_char n) = Some n)) sextets = true) as H
    by (vm_compute; reflexivity).
  rewrite forallb_forall in H. by apply H, bool_decide_eq_true in Hn.
Qed.
Lemma b64_char_plain n : n < 64 →
  Ascii.eqb (b64_char n) "=" = false ∧ (N_of_ascii (b64_char n) <? 128) = true
  ∧ Ascii.eqb (b64_char n) "." = false.
Proof.
  intros Hn%sextet_in.
  assert (forallb (λ n, negb (Ascii.eqb (b64_char n) "=") && ((N_of_ascii (b64_char n) <? 128)
    && negb (Ascii.eqb (b64_char n) "."))) sextets = true) as H by (vm_compute; reflexivity).
  rewrite forallb_forall in H. apply H in Hn. rewrite !andb_true_iff, !negb_true_iff in Hn. done.
Qed.
Lemma byte_bound c : N_of_ascii c < 256.
Proof. apply N_ascii_bounded. Qed.
Lemma ascii_eq_of c n : n = N_of_ascii c → ascii_of_N n = c.
Proof. intros ->. apply ascii_N_embedding. Qed.

(** A quad whose first character is read in state 0. *)
Lemma a2b_char q l p n s : n < 64 →
  a2b q l p (String (b64_char n) s) =
    (if q =? 0 then a2b 1 n 0 s
     else if q =? 1 then String (ascii_of_N (l * 4 + n / 16)) <$> a2b 2 (n mod 16) 0 s
     else if q =? 2 then String (ascii_of_N (l * 16 + n / 4)) <$> a2b 3 (n mod 4) 0 s
     else String (ascii_of_N (l * 64 + n)) <$> a2b 0 0 0 s).
Proof.
  intros Hn. cbn [a2b]. destruct (b64_char_plain n Hn) as (-> & _ & _).
  by rewrite b64_char_val.
Qed.

Ltac b64_arith :=
  repeat match goal with c : ascii |- _ =>
    lazymatch goal with
    | _ : N_of_ascii c < 256 |- _ => fail
    | _ => pose proof (byte_bound c)
    end end;
  zify; Z.to_euclidean_division_equations; lia.

Lemma string_ind3 (P : string → Prop) :
  P "" → (∀ a, P (String a "")) → (∀ a b, P (String a (String b ""))) →
  (∀ a b c s, P s → P (String a (String b (String c s)))) → ∀ s, P s.
Proof.
  intros H0 H1 H2 H3.
  assert (∀ n s, (String.length s <= n)%nat → P s) as H.
  { induction n as [|n IH]; intros s Hs.
    - destruct s; [done | simpl in Hs; lia].
    - destruct s as [|a [|b [|c s]]]; auto. apply H3, IH. simpl in Hs. lia. }
  intros s. by apply (H (String.length s)).
Qed.

Lemma pad_of_shift a b c d s : pad_of (String a (String b (String c (String d s)))) = pad_of s.
Proof.
  unfold pad_of. f_equal. f_equal. simpl String.length.
  rewrite !Nat2Z.inj_succ. zify; Z.to_euclidean_division_equations; lia.
Qed.

Lemma append_cons a s t : String a s +:+ t = String a (s +:+ t).
Proof. reflexivity. Qed.

Ltac b64_bytes := repeat first [reflexivity | apply ascii_eq_of; b64_arith | f_equal].

Lemma a2b_encode s : a2b 0 0 0 (b64u_encode s +:+ pad_of (b64u_encode s)) = Some s.
Proof.
  induction s as [|a|a b|a b c s IH] using string_ind3; [done| | |]; cbn [b64u_encode].
  - change (pad_of _) with "=="%string. rewrite !append_cons.
    do 2 (rewrite a2b_char by b64_arith; cbn [N.eqb Pos.eqb]). simpl. b64_bytes.
  - change (pad_of _) with "="%string. rewrite !append_cons.
    do 3 (rewrite a2b_char by b64_arith; cbn [N.eqb Pos.eqb]). simpl. b64_bytes.
  - rewrite pad_of_shift, !append_cons.
    do 4 (rewrite a2b_char by b64_arith; cbn [N.eqb Pos.eqb]). rewrite IH. simpl. b64_bytes.
Qed.

Fixpoint has_dot (s : string) : bool :=
  match s with
  | EmptyString => false
  | String c s' => Ascii.eqb c "." || has_dot s'
  end.

Lemma is_ascii_char n t : n < 64 → is_ascii (String (b64_char n) t) = is_ascii t.
Proof. intros Hn. simpl. by destruct (b64_char_plain n Hn) as (_ & -> & _). Qed.
Lemma has_dot_char n t : n < 64 → has_dot (String (b64_char n) t) = has_dot t.
Proof. intros Hn. simpl. by destruct (b64_char_plain n Hn) as (_ & _ & ->). Qed.

Lemma encode_ascii s : is_ascii (b64u_encode s) = true.
Proof.
  induction s as [|a|a b|a b c s IH] using string_ind3; [done| | |]; cbn [b64u_encode];
    rewrite !is_ascii_char by b64_arith; done.
Qed.
Lemma encode_no_dot s : has_dot (b64u_encode s) = false.
Proof.
  induction s as [|a|a b|a b c s IH] using string_ind3; [done| | |]; cbn [b64u_encode];
    rewrite !has_dot_char by b64_arith; done.
Qed.

Lemma b64u_decode_encode s : b64u_decode (b64u_encode s) = Some s.
Proof. unfold b64u_decode. rewrite encode_ascii. apply a2b_encode. Qed.

Lemma b64u_encode_inj s s' : b64u_encode s = b64u_encode s' → s = s'.
Proof. intros E. apply (f_equal b64u_decode) in E. rewrite !b64u_decode_encode in E. congruence. Qed.

Example b64_demo : b64u_encode "any carnal pleas" = "YW55IGNhcm5hbCBwbGVhcw"%string
  ∧ b64u_decode "YW55IGNhcm5hbCBwbGVhcw" = Some "any carnal pleas"%string
  ∧ b64u_decode "YW55IGNhcm5hbCBwbGVhcx" = Some "any carnal pleas"%string.
Proof. vm_compute. done. Qed.
