(* ===== verification/Sha256.v ===== *)
(** SHA-256 and HMAC-SHA-256 on byte strings: the [hashlib] and [hmac] calls
    of the sources, executable on [N] with 32-bit wrap-around written out.

    The theorems of the development use no secrecy or collision assumption:
    where a property rests on the hash, the statement names the two messages,
    among the texts the components hashed, whose collision a violation would
    exhibit ([sha256_collide]). *)

From S2P Require Import Prelude.
Local Open Scope N_scope.

(** ** 32-bit words *)
Definition w32 (x : N) : N := N.land x 4294967295.
Definition add32 (x y : N) : N := w32 (x + y).
Definition rotr (n x : N) : N := N.lor (N.shiftr x n) (w32 (N.shiftl x (32 - n))).
Definition not32 (x : N) : N := N.lxor x 4294967295.

Definition ch (x y z : N) : N := N.lxor (N.land x y) (N.land (not32 x) z).
Definition maj (x y z : N) : N := N.lxor (N.lxor (N.land x y) (N.land x z)) (N.land y z).
Definition bsig0 (x : N) : N := N.lxor (N.lxor (rotr 2 x) (rotr 13 x)) (rotr 22 x).
Definition bsig1 (x : N) : N := N.lxor (N.lxor (rotr 6 x) (rotr 11 x)) (rotr 25 x).
Definition ssig0 (x : N) : N := N.lxor (N.lxor (rotr 7 x) (rotr 18 x)) (N.shiftr x 3).
Definition ssig1 (x : N) : N := N.lxor (N.lxor (rotr 17 x) (rotr 19 x)) (N.shiftr x 10).

(** The round constants are the first 32 bits of the fractional parts of the cube
    roots of the first 64 primes, the initial state those of the square roots of
    the first 8. *)
Fixpoint cube_root (bits : nat) (n r : N) : N :=
  match bits with
  | O => r
  | S b => let r' := N.setbit r (N.of_nat b) in cube_root b n (if r' * r' * r' <=? n then r' else r)
  end.
Definition is_prime (n : N) : bool :=
  forallb (λ d, negb (n mod N.of_nat d =? 0)) (seq 2 (N.to_nat n - 2)).
Definition primes : list N := List.filter is_prime (map N.of_nat (seq 2 310)).
Definition k256 : list N := Eval vm_compute in map (λ p, w32 (cube_root 40 (N.shiftl p 96) 0)) primes.
Definition h256 : list N := Eval vm_compute in map (λ p, w32 (N.sqrt (N.shiftl p 64))) (take 8 primes).

(** ** Message schedule and compression *)

(** The window holds the last 16 words, oldest first. *)
Definition next_word (win : list N) : N :=
  match win with
  | w0 :: w1 :: _ :: _ :: _ :: _ :: _ :: _ :: _ :: w9 :: _ :: _ :: _ :: _ :: w14 :: _ =>
      add32 (add32 (ssig1 w14) w9) (add32 (ssig0 w1) w0)
  | _ => 0
  end.

Definition round (st : list N) (k w : N) : list N :=
  match st with
  | [a; b; c; d; e; f; g; h] =>
      let t1 := add32 (add32 (add32 h (bsig1 e)) (add32 (ch e f g) k)) w in
      let t2 := add32 (bsig0 a) (maj a b c) in
      [add32 t1 t2; a; b; c; add32 d t1; e; f; g]
  | _ => st
  end.

Fixpoint rounds (ks win st : list N) : list N :=
  match ks, win with
  | k :: ks', w :: win' => rounds ks' (win' ++ [next_word win]) (round st k w)
  | _, _ => st
  end.

Definition compress (st block : list N) : list N :=
  zip_with add32 st (rounds k256 block st).

(** ** Bytes, padding, blocks *)
Fixpoint bytes_of (s : string) : list N :=
  match s with EmptyString => [] | String c s' => N_of_ascii c :: bytes_of s' end.
Fixpoint string_of_bytes (l : list N) : string :=
  match l with [] => EmptyString | b :: l' => String (ascii_of_N b) (string_of_bytes l') end.

Definition be_bytes (n : nat) (x : N) : list N :=
  map (λ i, N.land (N.shiftr x (8 * N.of_nat i)) 255) (rev (seq 0 n)).

Definition pad256 (msg : list N) : list N :=
  let len := N.of_nat (length msg) in
  let zeros := N.to_nat ((119 - len mod 64) mod 64) in
  msg ++ [128] ++ replicate zeros 0 ++ be_bytes 8 (8 * len).

Fixpoint words (l : list N) : list N :=
  match l with
  | a :: b :: c :: d :: l' => (((a * 256 + b) * 256 + c) * 256 + d) :: words l'
  | _ => []
  end.

Fixpoint blocks (fuel : nat) (st ws : list N) : list N :=
  match fuel with
  | O => st
  | S fuel' =>
      match ws with
      | [] => st
      | _ => blocks fuel' (compress st (take 16 ws)) (drop 16 ws)
      end
  end.

(** [hashlib.sha256(msg).digest()]: every block consumes 16 words, so the
    number of words is fuel enough. *)
Definition sha256 (msg : string) : string :=
  let ws := words (pad256 (bytes_of msg)) in
  string_of_bytes (flat_map (be_bytes 4) (blocks (length ws) h256 ws)).

(** [hmac.new(key, msg, hashlib.sha256).digest()] *)
Definition hmac_key (key : string) : list N :=
  let kb := bytes_of (if Nat.leb (String.length key) 64 then key else sha256 key) in
  kb ++ replicate (64 - length kb) 0.
Definition hmac (key msg : string) : string :=
  let kb := hmac_key key in
  let pad c := string_of_bytes (map (N.lxor c) kb) in
  sha256 (pad 0x5c +:+ sha256 (pad 0x36 +:+ msg)).

(** ** [.hexdigest()] *)
Definition hex_digit (n : N) : ascii := ascii_of_N (if n <? 10 then 48 + n else 87 + n).
Fixpoint hex (s : string) : string :=
  match s with
  | EmptyString => EmptyString
  | String c s' =>
      String (hex_digit (N_of_ascii c / 16)) (String (hex_digit (N_of_ascii c mod 16)) (hex s'))
  end.

Definition sha256_hex (msg : string) : string := hex (sha256 msg).
Definition hmac_hex (key msg : string) : string := hex (hmac key msg).

(** Two different messages with one digest. *)
Definition sha256_collide (m1 m2 : string) : Prop := m1 ≠ m2 ∧ sha256_hex m1 = sha256_hex m2.
(** A collision between messages of two lists. *)
Definition sha256_collide_in (l1 l2 : list string) : Prop :=
  ∃ m1 m2, m1 ∈ l1 ∧ m2 ∈ l2 ∧ sha256_collide m1 m2.

Lemma sha256_eq_or_collide m1 m2 :
  sha256_hex m1 = sha256_hex m2 → m1 = m2 ∨ sha256_collide m1 m2.
Proof. intros E. destruct (decide (m1 = m2)) as [|Hne]; [by left|]. by right. Qed.
Lemma sha256_collide_here m1 m2 l1 l2 :
  m1 ∈ l1 → m2 ∈ l2 → sha256_collide m1 m2 → sha256_collide_in l1 l2.
Proof. intros ? ? ?. by exists m1, m2. Qed.
Lemma sha256_collide_in_mono l1 l2 l1' l2' :
  l1 ⊆ l1' → l2 ⊆ l2' → sha256_collide_in l1 l2 → sha256_collide_in l1' l2'.
Proof. intros S1 S2 (m1 & m2 & H1 & H2 & Hc). exists m1, m2. auto. Qed.

(** ** [str.lower()] leaves a hex digest as it is *)
Definition lower_char (c : ascii) : ascii :=
  let n := N_of_ascii c in if (65 <=? n) && (n <=? 90) then ascii_of_N (n + 32) else c.
Fixpoint lower (s : string) : string :=
  match s with EmptyString => EmptyString | String c s' => String (lower_char c) (lower s') end.

Definition nibbles : list N := map N.of_nat (seq 0 16).
Lemma lower_hex_digit n : n < 16 → lower_char (hex_digit n) = hex_digit n.
Proof.
  intros Hn. assert (In n nibbles) as Hin.
  { apply in_map_iff. exists (N.to_nat n). split; [lia|]. apply in_seq. lia. }
  assert (forallb (λ n, bool_decide (lower_char (hex_digit n) = hex_digit n)) nibbles = true) as H
    by (vm_compute; reflexivity).
  rewrite forallb_forall in H. by apply H, bool_decide_eq_true in Hin.
Qed.

Lemma lower_hex s : lower (hex s) = hex s.
Proof.
  induction s as [|c s IH]; [done|]. cbn [hex lower]. pose proof (N_ascii_bounded c).
  rewrite !lower_hex_digit, IH; [done| |];
    zify; Z.to_euclidean_division_equations; lia.
Qed.

Lemma lower_hmac_hex k m : lower (hmac_hex k m) = hmac_hex k m.
Proof. apply lower_hex. Qed.

Lemma length_hex s : String.length (hex s) = (2 * String.length s)%nat.
Proof. induction s as [|c s IH]; [done|]. cbn [hex String.length]. rewrite IH. lia. Qed.

(** ** Published test vectors *)
Example sha256_abc : sha256_hex "abc" =
  "ba7816bf8f01cfea414140de5dae2223b00361a396177a9cb410ff61f20015ad"%string.
Proof. vm_compute. reflexivity. Qed.
Example sha256_two_blocks :
  sha256_hex "abcdbcdecdefdefgefghfghighijhijkijkljklmklmnlmnomnopnopq" =
  "248d6a61d20638b8e5c026930c3e6039a33ce45964ff2167f6ecedd419db06c1"%string.
Proof. vm_compute. reflexivity. Qed.
Example hmac_jefe : hmac_hex "Jefe" "what do ya want for nothing?" =
  "5bdcc146bf60754e6a042426089575c75a003f089d2739839dec58b964ec3843"%string.
Proof. vm_compute. reflexivity. Qed.

#[global] Opaque sha256 hmac.
