(* ===== verification/Schema.v ===== *)
(** The state of the system: the SQLite tables, the files and the sources of
    time and randomness.

    One record per table, one field per column (a nullable column is an
    [option], a REAL column an exact rational), as the [CREATE TABLE]
    statements of the components declare them.  [DB] is the database the
    [SQLiteStateStore] connection owns and every component shares; [World] adds
    the file system, the audit seal file and the count of values drawn from
    the clock and from the random generators. *)

From S2P Require Import Prelude.

(** ** Rows *)

(** table [missions] *)
Record mission_row := {
  m_id : string;
  m_system_id : string;
  m_state : string;
  m_version : Z;
  m_created_at : Q;
  m_updated_at : Q
}.

(** table [tasks] *)
Record task_row := {
  t_id : string;
  t_mission_id : string;
  t_kind : string;
  t_payload_json : string;
  t_state : string;
  t_priority : Z;
  t_idempotency_key : string;
  t_attempts : Z;
  t_max_attempts : Z;
  t_next_run_at : Q;
  t_lease_owner : option string;
  t_lease_until : option Q;
  t_last_error : option string;
  t_created_at : Q;
  t_updated_at : Q
}.

(** table [transitions] *)
Record transition_row := {
  tr_seq : Z;
  tr_entity_type : string;
  tr_entity_id : string;
  tr_from_state : option string;
  tr_to_state : string;
  tr_reason : string;
  tr_at : Q
}.

(** table [audit_events] *)
Record audit_row := {
  a_seq : Z;
  a_event_id : string;
  a_ts : Q;
  a_actor : string;
  a_action : string;
  a_mission_id : option string;
  a_payload_json : string;
  a_prev_hash : string;
  a_event_hash : string
}.

(** tables [used_privilege_grants] and [used_action_capabilities] *)
Record used_row := {
  u_id : string;
  u_used_at : Q
}.

(** table [cognitive_memory] *)
Record memory_row := {
  mm_id : string;
  mm_mission_id : option string;
  mm_kind : string;
  mm_source : string;
  mm_content_json : string;
  mm_evidence_json : string;
  mm_confidence : Q;
  mm_state : string;
  mm_content_sha256 : string;
  mm_created_at : Q;
  mm_promoted_at : option Q;
  mm_validator_subject : option string
}.

(** table [memory_promotion_seals] *)
Record memory_seal_row := {
  ms_memory_id : string;
  ms_content_sha256 : string;
  ms_validator_subject : string;
  ms_sealed_at : Q;
  ms_signature : string
}.

(** table [cognitive_skills] *)
Record skill_row := {
  s_skill_id : string;
  s_version : string;
  s_capability : string;
  s_donor_id : string;
  s_donor_json : string;
  s_evidence_json : string;
  s_state : string;
  s_authority : string;
  s_executable : Z;
  s_created_at : Q;
  s_updated_at : Q
}.

(** table [obs_signals] *)
Record signal_row := {
  sg_id : string;
  sg_sensor_id : string;
  sg_kind : string;
  sg_subject : string;
  sg_ts : Q;
  sg_severity : string;
  sg_attributes_json : string;
  sg_fingerprint : string;
  sg_correlation_key : string;
  sg_raw_sha256 : string;
  sg_duplicate : Z
}.

(** table [obs_metrics] *)
Record metric_row := {
  mt_name : string;
  mt_subject : string;
  mt_ts : Q;
  mt_value : Q;
  mt_labels_json : string
}.

(** table [obs_logs] *)
Record log_row := {
  lg_ts : Q;
  lg_source : string;
  lg_level : string;
  lg_message : string;
  lg_fields_json : string;
  lg_sha256 : string
}.

(** table [obs_traces] *)
Record trace_row := {
  sp_span_id : string;
  sp_trace_id : string;
  sp_parent_span_id : option string;
  sp_name : string;
  sp_started_at : Q;
  sp_ended_at : option Q;
  sp_status : string;
  sp_attributes_json : string
}.

(** table [obs_sensor_health] *)
Record health_row := {
  hl_sensor_id : string;
  hl_state : string;
  hl_consecutive_failures : Z;
  hl_last_success : option Q;
  hl_last_failure : option Q;
  hl_last_error : option string
}.

(** table [obs_evidence] *)
Record evidence_row := {
  ev_id : string;
  ev_mission_id : option string;
  ev_kind : string;
  ev_created_at : Q;
  ev_payload_json : string;
  ev_payload_sha256 : string
}.

(** table [obs_resources] *)
Record resource_row := {
  rs_resource_id : string;
  rs_kind : string;
  rs_name : string;
  rs_attributes_json : string;
  rs_first_seen : Q;
  rs_last_seen : Q
}.

(** table [obs_dependencies] *)
Record dependency_row := {
  dp_src : string;
  dp_dst : string;
  dp_relation : string;
  dp_attributes_json : string;
  dp_first_seen : Q;
  dp_last_seen : Q
}.

(** table [diag_incidents] *)
Record incident_row := {
  in_id : string;
  in_mission_id : string;
  in_correlation_key : string;
  in_title : string;
  in_state : string;
  in_root_hypothesis_id : option string;
  in_created_at : Q;
  in_updated_at : Q
}.

(** table [diag_incident_signals] *)
Record incident_signal_row := {
  is_incident_id : string;
  is_signal_id : string;
  is_evidence_id : string
}.

(** table [diag_hypotheses] *)
Record hypothesis_row := {
  hy_id : string;
  hy_incident_id : string;
  hy_statement : string;
  hy_state : string;
  hy_confidence : Q;
  hy_created_at : Q;
  hy_updated_at : Q
}.

(** table [diag_hypothesis_evidence] *)
Record hyp_evidence_row := {
  he_hypothesis_id : string;
  he_evidence_id : string;
  he_polarity : string;
  he_weight : Q;
  he_kind : string;
  he_created_at : Q
}.

(** table [diag_attempts] *)
Record attempt_row := {
  at_id : string;
  at_incident_id : string;
  at_hypothesis_id : string;
  at_strategy : string;
  at_test_name : string;
  at_outcome : string;
  at_progress_score : Q;
  at_evidence_id : string;
  at_strategy_fingerprint : string;
  at_created_at : Q
}.

(** table [diag_corrections] *)
Record correction_row := {
  co_id : string;
  co_incident_id : string;
  co_mission_id : string;
  co_hypothesis_id : string;
  co_description : string;
  co_task_kind : string;
  co_argv_json : string;
  co_risk_json : string;
  co_validation_json : string;
  co_state : string;
  co_task_id : option string;
  co_checkpoint_id : option string;
  co_plan_evidence_id : string;
  co_created_at : Q;
  co_updated_at : Q
}.

(** table [diag_validations] *)
Record validation_row := {
  va_id : string;
  va_correction_id : string;
  va_passed : bool;
  va_rolled_back : bool;
  va_checks_json : string;
  va_evidence_id : string;
  va_created_at : Q
}.

(** the singleton row of table [runtime_state] *)
Record runtime_row := {
  rt_state : string;
  rt_boot_count : Z;
  rt_started_at : option Q;
  rt_heartbeat_at : option Q;
  rt_last_backup_at : option Q;
  rt_last_backup_id : option string;
  rt_last_restore_drill_at : option Q;
  rt_last_restore_drill_ok : option bool;
  rt_last_error : option string
}.

(** table [runtime_cycles] *)
Record cycle_row := {
  cy_id : string;
  cy_started_at : Q;
  cy_completed_at : Q;
  cy_state : string;
  cy_recovered_leases : Z;
  cy_probes_ok : Z;
  cy_probes_failed : Z;
  cy_backup_id : option string;
  cy_restore_drill_ok : option bool;
  cy_evidence_id : string
}.

(** table [gateway_nonces] *)
Record nonce_row := {
  gn_system_id : string;
  gn_nonce : string;
  gn_accepted_at : Q;
  gn_expires_at : Q
}.

(** table [gateway_egress_receipts] *)
Record receipt_row := {
  ge_evidence_id : string;
  ge_mission_id : string;
  ge_system_id : string;
  ge_adapter_id : string;
  ge_action : string;
  ge_ok : bool;
  ge_external_reference : option string;
  ge_detail : string;
  ge_created_at : Q
}.

(** table [op_notifications] *)
Record notification_row := {
  no_id : string;
  no_kind : string;
  no_severity : string;
  no_subject : string;
  no_mission_id : option string;
  no_incident_id : option string;
  no_payload_json : string;
  no_fingerprint : string;
  no_state : string;
  no_created_at : Q;
  no_updated_at : Q
}.

(** table [op_human_exceptions] *)
Record exception_row := {
  hx_id : string;
  hx_mission_id : string;
  hx_incident_id : option string;
  hx_reason : string;
  hx_required_action : string;
  hx_consequence : string;
  hx_continuation : string;
  hx_state : string;
  hx_requested_at : Q;
  hx_decided_at : option Q;
  hx_decided_by : option string;
  hx_decision_note : option string
}.

(** table [op_commands] *)
Record command_row := {
  oc_id : string;
  oc_mission_id : string;
  oc_action : string;
  oc_target : option string;
  oc_parameters_json : string;
  oc_requested_by : string;
  oc_policy_decision : string;
  oc_state : string;
  oc_task_id : option string;
  oc_human_exception_id : option string;
  oc_created_at : Q
}.

(** table [op_reports] *)
Record report_row := {
  rp_id : string;
  rp_report_type : string;
  rp_mission_id : option string;
  rp_incident_id : option string;
  rp_content_json : string;
  rp_content_sha256 : string;
  rp_created_at : Q
}.

(** table [learning_knowledge] *)
Record knowledge_row := {
  kn_id : string;
  kn_lineage_key : string;
  kn_version : Z;
  kn_mission_id : string;
  kn_system_id : string;
  kn_incident_id : string;
  kn_correction_id : string;
  kn_kind : string;
  kn_target_scope : string;
  kn_state : string;
  kn_confidence : Q;
  kn_content_json : string;
  kn_content_sha256 : string;
  kn_remediation_signature : string;
  kn_provenance_json : string;
  kn_skill_id : option string;
  kn_skill_version : option string;
  kn_created_at : Q;
  kn_promoted_at : option Q;
  kn_reviewed_at : option Q;
  kn_supersedes_id : option string
}.

(** table [learning_outcomes] *)
Record outcome_row := {
  lo_id : string;
  lo_knowledge_id : string;
  lo_correction_id : string;
  lo_validation_id : string;
  lo_mission_id : string;
  lo_system_id : string;
  lo_outcome : string;
  lo_evidence_id : string;
  lo_remediation_signature : string;
  lo_created_at : Q
}.

(** table [learning_reviews] *)
Record review_row := {
  lr_id : string;
  lr_knowledge_id : string;
  lr_reviewer_subject : string;
  lr_verdict : string;
  lr_confidence_before : Q;
  lr_confidence_after : Q;
  lr_evidence_json : string;
  lr_created_at : Q
}.

(** ** The database, a group of tables per owner *)
Record StoreTables := {
  missions : list mission_row;
  tasks : list task_row;
  transitions : list transition_row
}.
Record LedgerTables := {
  audit_events : list audit_row;
  audit_sequence : Z
}.
Record AuthorityTables := {
  used_privilege_grants : list used_row;
  used_action_capabilities : list used_row
}.
Record KnowledgeTables := {
  cognitive_memory : list memory_row;
  memory_promotion_seals : list memory_seal_row;
  cognitive_skills : list skill_row
}.
Record ObsTables := {
  obs_signals : list signal_row;
  obs_metrics : list metric_row;
  obs_logs : list log_row;
  obs_traces : list trace_row;
  obs_sensor_health : list health_row;
  obs_evidence : list evidence_row;
  obs_resources : list resource_row;
  obs_dependencies : list dependency_row
}.
Record DiagTables := {
  diag_incidents : list incident_row;
  diag_incident_signals : list incident_signal_row;
  diag_hypotheses : list hypothesis_row;
  diag_hypothesis_evidence : list hyp_evidence_row;
  diag_attempts : list attempt_row;
  diag_corrections : list correction_row;
  diag_validations : list validation_row
}.
Record RuntimeTables := {
  runtime_table : bool; (* whether sqlite_master lists [runtime_state] *)
  runtime_state : option runtime_row;
  runtime_cycles : list cycle_row
}.

Record GatewayTables := {
  gateway_nonces : list nonce_row;
  gateway_egress_receipts : list receipt_row
}.
Record OpsTables := {
  op_notifications : list notification_row;
  op_human_exceptions : list exception_row;
  op_commands : list command_row;
  op_reports : list report_row
}.
Record LearningTables := {
  learning_knowledge : list knowledge_row;
  learning_outcomes : list outcome_row;
  learning_reviews : list review_row
}.

Record DB := {
  db_store :> StoreTables;
  db_ledger :> LedgerTables;
  db_authority :> AuthorityTables;
  db_knowledge :> KnowledgeTables;
  db_obs :> ObsTables;
  db_diag :> DiagTables;
  db_runtime :> RuntimeTables;
  db_gateway :> GatewayTables;
  db_ops :> OpsTables;
  db_learning :> LearningTables
}.

(** The tables right after the [_init_schema] methods have run. *)
Definition empty_db : DB := {|
  db_store := {| missions := []; tasks := []; transitions := [] |};
  db_ledger := {| audit_events := []; audit_sequence := 0%Z |};
  db_authority := {| used_privilege_grants := []; used_action_capabilities := [] |};
  db_knowledge := {| cognitive_memory := []; memory_promotion_seals := []; cognitive_skills := [] |};
  db_obs := {| obs_signals := []; obs_metrics := []; obs_logs := []; obs_traces := []; obs_sensor_health := []; obs_evidence := []; obs_resources := []; obs_dependencies := [] |};
  db_diag := {| diag_incidents := []; diag_incident_signals := []; diag_hypotheses := []; diag_hypothesis_evidence := []; diag_attempts := []; diag_corrections := []; diag_validations := [] |};
  db_runtime := {| runtime_table := false; runtime_state := None; runtime_cycles := [] |};
  db_gateway := {| gateway_nonces := []; gateway_egress_receipts := [] |};
  db_ops := {| op_notifications := []; op_human_exceptions := []; op_commands := []; op_reports := [] |};
  db_learning := {| learning_knowledge := []; learning_outcomes := []; learning_reviews := [] |}
|}.

Definition with_store (f : StoreTables → StoreTables) (d : DB) : DB := {|
  db_store := f (db_store d); db_ledger := db_ledger d; db_authority := db_authority d;
  db_knowledge := db_knowledge d; db_obs := db_obs d; db_diag := db_diag d;
  db_runtime := db_runtime d; db_gateway := db_gateway d; db_ops := db_ops d;
  db_learning := db_learning d
|}.
Definition with_ledger (f : LedgerTables → LedgerTables) (d : DB) : DB := {|
  db_store := db_store d; db_ledger := f (db_ledger d); db_authority := db_authority d;
  db_knowledge := db_knowledge d; db_obs := db_obs d; db_diag := db_diag d;
  db_runtime := db_runtime d; db_gateway := db_gateway d; db_ops := db_ops d;
  db_learning := db_learning d
|}.
Definition with_authority (f : AuthorityTables → AuthorityTables) (d : DB) : DB := {|
  db_store := db_store d; db_ledger := db_ledger d; db_authority := f (db_authority d);
  db_knowledge := db_knowledge d; db_obs := db_obs d; db_diag := db_diag d;
  db_runtime := db_runtime d; db_gateway := db_gateway d; db_ops := db_ops d;
  db_learning := db_learning d
|}.
Definition with_knowledge (f : KnowledgeTables → KnowledgeTables) (d : DB) : DB := {|
  db_store := db_store d; db_ledger := db_ledger d; db_authority := db_authority d;
  db_knowledge := f (db_knowledge d); db_obs := db_obs d; db_diag := db_diag d;
  db_runtime := db_runtime d; db_gateway := db_gateway d; db_ops := db_ops d;
  db_learning := db_learning d
|}.
Definition with_obs (f : ObsTables → ObsTables) (d : DB) : DB := {|
  db_store := db_store d; db_ledger := db_ledger d; db_authority := db_authority d;
  db_knowledge := db_knowledge d; db_obs := f (db_obs d); db_diag := db_diag d;
  db_runtime := db_runtime d; db_gateway := db_gateway d; db_ops := db_ops d;
  db_learning := db_learning d
|}.
Definition with_diag (f : DiagTables → DiagTables) (d : DB) : DB := {|
  db_store := db_store d; db_ledger := db_ledger d; db_authority := db_authority d;
  db_knowledge := db_knowledge d; db_obs := db_obs d; db_diag := f (db_diag d);
  db_runtime := db_runtime d; db_gateway := db_gateway d; db_ops := db_ops d;
  db_learning := db_learning d
|}.
Definition with_runtime (f : RuntimeTables → RuntimeTables) (d : DB) : DB := {|
  db_store := db_store d; db_ledger := db_ledger d; db_authority := db_authority d;
  db_knowledge := db_knowledge d; db_obs := db_obs d; db_diag := db_diag d;
  db_runtime := f (db_runtime d); db_gateway := db_gateway d; db_ops := db_ops d;
  db_learning := db_learning d
|}.
Definition with_gateway (f : GatewayTables → GatewayTables) (d : DB) : DB := {|
  db_store := db_store d; db_ledger := db_ledger d; db_authority := db_authority d;
  db_knowledge := db_knowledge d; db_obs := db_obs d; db_diag := db_diag d;
  db_runtime := db_runtime d; db_gateway := f (db_gateway d); db_ops := db_ops d;
  db_learning := db_learning d
|}.
Definition with_ops (f : OpsTables → OpsTables) (d : DB) : DB := {|
  db_store := db_store d; db_ledger := db_ledger d; db_authority := db_authority d;
  db_knowledge := db_knowledge d; db_obs := db_obs d; db_diag := db_diag d;
  db_runtime := db_runtime d; db_gateway := db_gateway d; db_ops := f (db_ops d);
  db_learning := db_learning d
|}.
Definition with_learning_tables (f : LearningTables → LearningTables) (d : DB) : DB := {|
  db_store := db_store d; db_ledger := db_ledger d; db_authority := db_authority d; db_knowledge := db_knowledge d; db_obs := db_obs d;
  db_diag := db_diag d; db_runtime := db_runtime d; db_gateway := db_gateway d; db_ops := db_ops d;
  db_learning := f (db_learning d)
|}.

Definition set_missions (f : list mission_row → list mission_row) : DB → DB := with_store (λ d, {|
  missions := f (missions d); tasks := tasks d; transitions := transitions d |}).
Definition set_tasks (f : list task_row → list task_row) : DB → DB := with_store (λ d, {|
  missions := missions d; tasks := f (tasks d); transitions := transitions d |}).
Definition set_transitions (f : list transition_row → list transition_row) : DB → DB := with_store (λ d, {|
  missions := missions d; tasks := tasks d; transitions := f (transitions d) |}).
Definition set_audit_events (f : list audit_row → list audit_row) : DB → DB := with_ledger (λ d, {|
  audit_events := f (audit_events d); audit_sequence := audit_sequence d |}).
Definition set_audit_sequence (f : Z → Z) : DB → DB := with_ledger (λ d, {|
  audit_events := audit_events d; audit_sequence := f (audit_sequence d) |}).
Definition set_used_privilege_grants (f : list used_row → list used_row) : DB → DB := with_authority (λ d, {|
  used_privilege_grants := f (used_privilege_grants d);
  used_action_capabilities := used_action_capabilities d |}).
Definition set_used_action_capabilities (f : list used_row → list used_row) : DB → DB := with_authority (λ d, {|
  used_privilege_grants := used_privilege_grants d;
  used_action_capabilities := f (used_action_capabilities d) |}).
Definition set_cognitive_memory (f : list memory_row → list memory_row) : DB → DB := with_knowledge (λ d, {|
  cognitive_memory := f (cognitive_memory d); memory_promotion_seals := memory_promotion_seals d;
  cognitive_skills := cognitive_skills d |}).
Definition set_memory_promotion_seals (f : list memory_seal_row → list memory_seal_row) : DB → DB := with_knowledge (λ d, {|
  cognitive_memory := cognitive_memory d; memory_promotion_seals := f (memory_promotion_seals d);
  cognitive_skills := cognitive_skills d |}).
Definition set_cognitive_skills (f : list skill_row → list skill_row) : DB → DB := with_knowledge (λ d, {|
  cognitive_memory := cognitive_memory d; memory_promotion_seals := memory_promotion_seals d;
  cognitive_skills := f (cognitive_skills d) |}).
Definition set_obs_signals (f : list signal_row → list signal_row) : DB → DB := with_obs (λ d, {|
  obs_signals := f (obs_signals d); obs_metrics := obs_metrics d; obs_logs := obs_logs d;
  obs_traces := obs_traces d; obs_sensor_health := obs_sensor_health d;
  obs_evidence := obs_evidence d; obs_resources := obs_resources d;
  obs_dependencies := obs_dependencies d |}).
Definition set_obs_metrics (f : list metric_row → list metric_row) : DB → DB := with_obs (λ d, {|
  obs_signals := obs_signals d; obs_metrics := f (obs_metrics d); obs_logs := obs_logs d;
  obs_traces := obs_traces d; obs_sensor_health := obs_sensor_health d;
  obs_evidence := obs_evidence d; obs_resources := obs_resources d;
  obs_dependencies := obs_dependencies d |}).
Definition set_obs_logs (f : list log_row → list log_row) : DB → DB := with_obs (λ d, {|
  obs_signals := obs_signals d; obs_metrics := obs_metrics d; obs_logs := f (obs_logs d);
  obs_traces := obs_traces d; obs_sensor_health := obs_sensor_health d;
  obs_evidence := obs_evidence d; obs_resources := obs_resources d;
  obs_dependencies := obs_dependencies d |}).
Definition set_obs_traces (f : list trace_row → list trace_row) : DB → DB := with_obs (λ d, {|
  obs_signals := obs_signals d; obs_metrics := obs_metrics d; obs_logs := obs_logs d;
  obs_traces := f (obs_traces d); obs_sensor_health := obs_sensor_health d;
  obs_evidence := obs_evidence d; obs_resources := obs_resources d;
  obs_dependencies := obs_dependencies d |}).
Definition set_obs_sensor_health (f : list health_row → list health_row) : DB → DB := with_obs (λ d, {|
  obs_signals := obs_signals d; obs_metrics := obs_metrics d; obs_logs := obs_logs d;
  obs_traces := obs_traces d; obs_sensor_health := f (obs_sensor_health d);
  obs_evidence := obs_evidence d; obs_resources := obs_resources d;
  obs_dependencies := obs_dependencies d |}).
Definition set_obs_evidence (f : list evidence_row → list evidence_row) : DB → DB := with_obs (λ d, {|
  obs_signals := obs_signals d; obs_metrics := obs_metrics d; obs_logs := obs_logs d;
  obs_traces := obs_traces d; obs_sensor_health := obs_sensor_health d;
  obs_evidence := f (obs_evidence d); obs_resources := obs_resources d;
  obs_dependencies := obs_dependencies d |}).
Definition set_obs_resources (f : list resource_row → list resource_row) : DB → DB := with_obs (λ d, {|
  obs_signals := obs_signals d; obs_metrics := obs_metrics d; obs_logs := obs_logs d;
  obs_traces := obs_traces d; obs_sensor_health := obs_sensor_health d;
  obs_evidence := obs_evidence d; obs_resources := f (obs_resources d);
  obs_dependencies := obs_dependencies d |}).
Definition set_obs_dependencies (f : list dependency_row → list dependency_row) : DB → DB := with_obs (λ d, {|
  obs_signals := obs_signals d; obs_metrics := obs_metrics d; obs_logs := obs_logs d;
  obs_traces := obs_traces d; obs_sensor_health := obs_sensor_health d;
  obs_evidence := obs_evidence d; obs_resources := obs_resources d;
  obs_dependencies := f (obs_dependencies d) |}).
Definition set_diag_incidents (f : list incident_row → list incident_row) : DB → DB := with_diag (λ d, {|
  diag_incidents := f (diag_incidents d); diag_incident_signals := diag_incident_signals d;
  diag_hypotheses := diag_hypotheses d; diag_hypothesis_evidence := diag_hypothesis_evidence d;
  diag_attempts := diag_attempts d; diag_corrections := diag_corrections d;
  diag_validations := diag_validations d |}).
Definition set_diag_incident_signals (f : list incident_signal_row → list incident_signal_row) : DB → DB := with_diag (λ d, {|
  diag_incidents := diag_incidents d; diag_incident_signals := f (diag_incident_signals d);
  diag_hypotheses := diag_hypotheses d; diag_hypothesis_evidence := diag_hypothesis_evidence d;
  diag_attempts := diag_attempts d; diag_corrections := diag_corrections d;
  diag_validations := diag_validations d |}).
Definition set_diag_hypotheses (f : list hypothesis_row → list hypothesis_row) : DB → DB := with_diag (λ d, {|
  diag_incidents := diag_incidents d; diag_incident_signals := diag_incident_signals d;
  diag_hypotheses := f (diag_hypotheses d); diag_hypothesis_evidence := diag_hypothesis_evidence d;
  diag_attempts := diag_attempts d; diag_corrections := diag_corrections d;
  diag_validations := diag_validations d |}).
Definition set_diag_hypothesis_evidence (f : list hyp_evidence_row → list hyp_evidence_row) : DB → DB := with_diag (λ d, {|
  diag_incidents := diag_incidents d; diag_incident_signals := diag_incident_signals d;
  diag_hypotheses := diag_hypotheses d; diag_hypothesis_evidence := f (diag_hypothesis_evidence d);
  diag_attempts := diag_attempts d; diag_corrections := diag_corrections d;
  diag_validations := diag_validations d |}).
Definition set_diag_attempts (f : list attempt_row → list attempt_row) : DB → DB := with_diag (λ d, {|
  diag_incidents := diag_incidents d; diag_incident_signals := diag_incident_signals d;
  diag_hypotheses := diag_hypotheses d; diag_hypothesis_evidence := diag_hypothesis_evidence d;
  diag_attempts := f (diag_attempts d); diag_corrections := diag_corrections d;
  diag_validations := diag_validations d |}).
Definition set_diag_corrections (f : list correction_row → list correction_row) : DB → DB := with_diag (λ d, {|
  diag_incidents := diag_incidents d; diag_incident_signals := diag_incident_signals d;
  diag_hypotheses := diag_hypotheses d; diag_hypothesis_evidence := diag_hypothesis_evidence d;
  diag_attempts := diag_attempts d; diag_corrections := f (diag_corrections d);
  diag_validations := diag_validations d |}).
Definition set_diag_validations (f : list validation_row → list validation_row) : DB → DB := with_diag (λ d, {|
  diag_incidents := diag_incidents d; diag_incident_signals := diag_incident_signals d;
  diag_hypotheses := diag_hypotheses d; diag_hypothesis_evidence := diag_hypothesis_evidence d;
  diag_attempts := diag_attempts d; diag_corrections := diag_corrections d;
  diag_validations := f (diag_validations d) |}).
Definition set_runtime_state (f : option runtime_row → option runtime_row) : DB → DB := with_runtime (λ d, {|
  runtime_table := runtime_table d; runtime_state := f (runtime_state d); runtime_cycles := runtime_cycles d |}).
Definition set_runtime_table (b : bool) : DB → DB := with_runtime (λ d, {|
  runtime_table := b; runtime_state := runtime_state d; runtime_cycles := runtime_cycles d |}).
Definition set_runtime_cycles (f : list cycle_row → list cycle_row) : DB → DB := with_runtime (λ d, {|
  runtime_table := runtime_table d; runtime_state := runtime_state d; runtime_cycles := f (runtime_cycles d) |}).
Definition set_gateway_nonces (f : list nonce_row → list nonce_row) : DB → DB := with_gateway (λ d, {|
  gateway_nonces := f (gateway_nonces d); gateway_egress_receipts := gateway_egress_receipts d |}).
Definition set_gateway_egress_receipts (f : list receipt_row → list receipt_row) : DB → DB := with_gateway (λ d, {|
  gateway_nonces := gateway_nonces d; gateway_egress_receipts := f (gateway_egress_receipts d) |}).
Definition set_op_notifications (f : list notification_row → list notification_row) : DB → DB := with_ops (λ d, {|
  op_notifications := f (op_notifications d); op_human_exceptions := op_human_exceptions d; op_commands := op_commands d; op_reports := op_reports d |}).
Definition set_op_human_exceptions (f : list exception_row → list exception_row) : DB → DB := with_ops (λ d, {|
  op_notifications := op_notifications d; op_human_exceptions := f (op_human_exceptions d); op_commands := op_commands d; op_reports := op_reports d |}).
Definition set_op_commands (f : list command_row → list command_row) : DB → DB := with_ops (λ d, {|
  op_notifications := op_notifications d; op_human_exceptions := op_human_exceptions d; op_commands := f (op_commands d); op_reports := op_reports d |}).
Definition set_op_reports (f : list report_row → list report_row) : DB → DB := with_ops (λ d, {|
  op_notifications := op_notifications d; op_human_exceptions := op_human_exceptions d; op_commands := op_commands d; op_reports := f (op_reports d) |}).
Definition set_learning_knowledge (f : list knowledge_row → list knowledge_row) : DB → DB := with_learning_tables (λ d, {|
  learning_knowledge := f (learning_knowledge d);
  learning_outcomes := learning_outcomes d;
  learning_reviews := learning_reviews d |}).
Definition set_learning_outcomes (f : list outcome_row → list outcome_row) : DB → DB := with_learning_tables (λ d, {|
  learning_knowledge := learning_knowledge d;
  learning_outcomes := f (learning_outcomes d);
  learning_reviews := learning_reviews d |}).
Definition set_learning_reviews (f : list review_row → list review_row) : DB → DB := with_learning_tables (λ d, {|
  learning_knowledge := learning_knowledge d;
  learning_outcomes := learning_outcomes d;
  learning_reviews := f (learning_reviews d) |}).

(** ** Files

    A path is the list of its components below the file-system root; a file is
    its bytes.  Directories are the prefixes of file paths; there are no
    symbolic links. *)
Abbreviation path := (list string).

(** ** The world *)
Record World := {
  w_db : DB;
  w_files : gmap path string;
  w_seal_file : option (list string);
  w_tick : nat;
}.

Definition init_world : World :=
  {| w_db := empty_db; w_files := ∅; w_seal_file := None; w_tick := 0 |}.

Definition with_db (f : DB → DB) (w : World) : World :=
  {| w_db := f (w_db w); w_files := w_files w; w_seal_file := w_seal_file w; w_tick := w_tick w |}.
Definition with_files (f : gmap path string → gmap path string) (w : World) : World :=
  {| w_db := w_db w; w_files := f (w_files w); w_seal_file := w_seal_file w; w_tick := w_tick w |}.
Definition with_seal_file (f : option (list string) → option (list string)) (w : World) : World :=
  {| w_db := w_db w; w_files := w_files w; w_seal_file := f (w_seal_file w); w_tick := w_tick w |}.
Definition tick (w : World) : World :=
  {| w_db := w_db w; w_files := w_files w; w_seal_file := w_seal_file w; w_tick := S (w_tick w) |}.

Abbreviation IO := (M World).

(** Time and randomness: what the n-th draw returns. *)
Class Entropy := {
  time_at : nat → Q;      (* time.time() *)
  monotonic_at : nat → Q; (* time.monotonic() *)
  uuid_at : nat → string; (* str(uuid.uuid4()) *)
  token_at : nat → string (* secrets.token_hex(16) *)
}.

(** [uuid.uuid4().hex] from its dashed text *)
Fixpoint drop_dashes (s : string) : string :=
  match s with
  | EmptyString => EmptyString
  | String c s' => if Ascii.eqb c "-" then drop_dashes s' else String c (drop_dashes s')
  end.

Section primitives.
Context `{Entropy}.

Definition time_time : IO Q := λ w, (Ok (time_at (w_tick w)), tick w).
Definition monotonic : IO Q := λ w, (Ok (monotonic_at (w_tick w)), tick w).
Definition uuid4 : IO string := λ w, (Ok (uuid_at (w_tick w)), tick w).
Definition token_hex : IO string := λ w, (Ok (token_at (w_tick w)), tick w).

(** [uuid.uuid4().hex] *)
Definition uuid_hex : IO string := u ← uuid4; mret (drop_dashes u).

(** [time.time() if now is None else float(now)] *)
Definition now_or_time (now : option Q) : IO Q :=
  match now with Some t => mret t | None => time_time end.
(** [int(time.time() if now is None else now)] for an integer [now] *)
Definition int_now (now : option Z) : IO Z :=
  match now with
  | Some t => mret t
  | None => t ← time_time; mret (Z.quot (Qnum t) (Zpos (Qden t)))
  end.
Definition float_now (now : option Z) : option Q := inject_Z <$> now.
End primitives.

(** One SQL query, one SQL statement. *)
Definition query {A} (f : DB → A) : IO A := gets (λ w, f (w_db w)).
Definition exec (f : DB → DB) : IO unit := modify (with_db f).

(** [BEGIN IMMEDIATE; try: m; COMMIT except: ROLLBACK; raise]: a raised
    exception restores the tables. *)
Definition transaction {A} (m : IO A) : IO A := λ w,
  match m w with
  | (Ok a, w') => (Ok a, w')
  | (Raise e, w') => (Raise e, with_db (λ _, w_db w) w')
  end.

Lemma transaction_Ok_inv {A} (m : IO A) w a w' :
  transaction m w = (Ok a, w') → m w = (Ok a, w').
Proof. unfold transaction. destruct (m w) as [[]]; naive_solver. Qed.

(** A world relation that only looks at the tables. *)
Definition on_db (R : relation DB) : relation World := λ w w', R (w_db w) (w_db w').

#[export] Instance on_db_preorder (R : relation DB) `{!PreOrder R} : PreOrder (on_db R).
Proof.
  split; [intros w; unfold on_db; reflexivity |].
  intros x y z. unfold on_db. apply transitivity.
Qed.

Section respects_primitives.
Context (R : relation DB) `{!PreOrder R}.

Lemma respects_exec f : (∀ d, R d (f d)) → respects (on_db R) (exec f).
Proof. intros Hf w. apply Hf. Qed.
Lemma respects_query {A} (f : DB → A) : respects (on_db R) (query f).
Proof. intros w. unfold on_db. simpl. reflexivity. Qed.
Lemma respects_time `{Entropy} : respects (on_db R) time_time.
Proof. intros w. unfold on_db. simpl. reflexivity. Qed.
Lemma respects_monotonic `{Entropy} : respects (on_db R) monotonic.
Proof. intros w. unfold on_db. simpl. reflexivity. Qed.
Lemma respects_uuid `{Entropy} : respects (on_db R) uuid4.
Proof. intros w. unfold on_db. simpl. reflexivity. Qed.
Lemma respects_token `{Entropy} : respects (on_db R) token_hex.
Proof. intros w. unfold on_db. simpl. reflexivity. Qed.
Lemma respects_now `{Entropy} now : respects (on_db R) (now_or_time now).
Proof. destruct now; [apply respects_ret; typeclasses eauto | apply respects_time]. Qed.
Lemma respects_int_now `{Entropy} now : respects (on_db R) (int_now now).
Proof.
  destruct now; [apply respects_ret; typeclasses eauto|].
  apply respects_bind; [typeclasses eauto | apply respects_time |].
  intros t. apply respects_ret; typeclasses eauto.
Qed.
Lemma respects_transaction {A} (m : IO A) :
  respects (on_db R) m → respects (on_db R) (transaction m).
Proof.
  intros Hm w. specialize (Hm w). unfold transaction.
  destruct (m w) as [[a|e] w']; simpl in *; [done|]. unfold on_db. simpl. reflexivity.
Qed.
End respects_primitives.

Lemma respects_write_files R `{!PreOrder R} f : respects (on_db R) (modify (with_files f)).
Proof. intros w. unfold on_db. simpl. reflexivity. Qed.

#[export] Hint Resolve respects_query respects_time respects_monotonic respects_uuid respects_token respects_now
  respects_int_now respects_write_files : respects.

(** Unfolds the primitives of a run in a hypothesis or the goal. *)
Ltac io_simpl :=
  unfold query, exec, time_time, uuid4, token_hex, gets, modify, throw, mret, M_ret, raise_if in *;
  simpl in *.

(** [respects] goals over the database: transactions, statements, then the
    generic rules. *)
Ltac io_respects_step :=
  match goal with
  | |- respects _ (transaction _) => apply respects_transaction; [try typeclasses eauto|]
  | |- respects _ (exec _) => apply respects_exec; intros ?; solve [reflexivity | exact (λ H, H) | eauto with respects]
  | |- _ => respects_step
  end.
Ltac io_respects := repeat (cbn beta iota zeta; io_respects_step).

Lemma respects_db {A} (R : relation DB) (m : IO A) w :
  respects (on_db R) m → R (w_db w) (w_db (snd (m w))).
Proof. intros Hm. apply Hm. Qed.
Lemma respects_keeps {A} (I : DB → Prop) (m : IO A) w :
  respects (on_db (keeps I)) m → I (w_db w) → I (w_db (snd (m w))).
Proof. intros Hm. apply Hm. Qed.

(** Walks a straight-line computation from one world, remembering what each
    guard and query established and that the steps before a write left the
    tables alone. *)
Lemma query_Ok_inv {A} (f : DB → A) w a w' : query f w = (Ok a, w') → a = f (w_db w) ∧ w' = w.
Proof. unfold query, gets. naive_solver. Qed.
#[export] Instance eq_preorder {A} : PreOrder (@eq A).
Proof. split; [intros x; reflexivity | intros x y z; apply eq_trans]. Qed.
Lemma steady_run {A} (m : IO A) w r w' : respects (on_db eq) m → m w = (r, w') → w_db w' = w_db w.
Proof. intros Hm E. symmetry. apply (respects_run _ _ _ _ _ Hm E). Qed.

Ltac at_step_inv H :=
  lazymatch type of H with
  | raise_if _ _ _ _ = _ =>
      let E := fresh "Hg" in apply raise_if_Ok_inv in H as [E ->]
  | lift_result _ _ = _ =>
      let E := fresh "Hl" in apply lift_Ok_inv in H as [E ->]
  | query _ _ = _ => apply query_Ok_inv in H as [-> ->]
  | ?m ?w = (?r, ?w') => let E := fresh "Hdb" in
      try assert (w_db w' = w_db w) as E
        by (apply (steady_run m w r w'); [solve [auto with respects typeclass_instances nocore | io_respects] | exact H])
  end.
Ltac at_step := cbv beta zeta;
  lazymatch goal with
  | |- respects_at _ (mbind _ _) _ =>
      apply respects_at_bind; [typeclasses eauto
      | try solve [apply respects_at_any; solve [auto with respects typeclass_instances nocore | io_respects]]
      | let a := fresh "x" in let w := fresh "w" in let H := fresh "Hm" in
        intros a w H; at_step_inv H]
  end.

(** ** Steps that leave the files alone *)
Definition same_files : relation World := λ w w', w_files w' = w_files w.
#[export] Instance same_files_preorder : PreOrder same_files.
Proof. split; [by intros w | intros x y z; unfold same_files; congruence]. Qed.

Section same_files.
Lemma files_exec f : respects same_files (exec f).
Proof. by intros w. Qed.
Lemma files_query {A} (f : DB → A) : respects same_files (query f).
Proof. by intros w. Qed.
Lemma files_now `{Entropy} now : respects same_files (now_or_time now).
Proof. intros w. by destruct now. Qed.
Lemma files_uuid `{Entropy} : respects same_files uuid4.
Proof. by intros w. Qed.
Lemma files_transaction {A} (m : IO A) : respects same_files m → respects same_files (transaction m).
Proof. intros Hm w. specialize (Hm w). unfold transaction. by destruct (m w) as [[a|e] w']. Qed.
End same_files.
#[export] Hint Resolve files_exec files_query files_now files_uuid files_transaction : respects.
