(* ===== verification/Files.v ===== *)
(** The file operations the components use, on the file map of the world: path
    resolution ([pathlib], POSIX), subtrees, [copytree] and tree removal. *)

From S2P Require Import Prelude Json Sha256 Schema.

(** ** Paths *)

(** [s.split("/")] *)
Fixpoint split_slash (s : string) : list string :=
  match s with
  | EmptyString => [""]
  | String c s' =>
      if Ascii.eqb c "/" then "" :: split_slash s'
      else match split_slash s' with
           | x :: rest => String c x :: rest
           | [] => [String c ""]
           end
  end.

(** Adds components to a path, dropping empty ones and dots and going up on
    [..], as [Path.resolve] does without symbolic links. *)
Fixpoint walk (base : path) (parts : list string) : path :=
  match parts with
  | [] => base
  | x :: rest =>
      if (x =s "") || (x =s ".") then walk base rest
      else if x =s ".." then walk (removelast base) rest
      else walk (base ++ [x]) rest
  end.

(** [(base / rel).resolve()]; an absolute [rel] replaces the base *)
Definition resolve_join (base : path) (rel : string) : path :=
  match rel with
  | String c _ => if Ascii.eqb c "/" then walk [] (split_slash rel) else walk base (split_slash rel)
  | EmptyString => base
  end.

(** [self.root in p.parents] *)
Definition inside (root p : path) : bool := bool_decide (root `prefix_of` p ∧ root ≠ p).
(** [p == self.root or self.root in p.parents] *)
Definition within (root p : path) : bool := bool_decide (root `prefix_of` p).

(** What is left of a path below a directory. *)
Fixpoint strip_prefix (root p : path) : option path :=
  match root, p with
  | [], _ => Some p
  | x :: root', y :: p' => if x =s y then strip_prefix root' p' else None
  | _ :: _, [] => None
  end.

Lemma strip_prefix_Some root p rel : strip_prefix root p = Some rel ↔ p = root ++ rel.
Proof.
  revert p. induction root as [|x root IH]; intros [|y p]; simpl; [naive_solver|naive_solver|done|].
  destruct (String.eqb_spec x y) as [->|]; [|naive_solver]. rewrite IH. naive_solver.
Qed.

(** [as_posix] *)
Fixpoint posix (p : path) : string :=
  match p with
  | [] => ""
  | [x] => x
  | x :: rest => x +:+ "/" +:+ posix rest
  end.

(** ** Paths and their text *)
Fixpoint no_slash (s : string) : bool :=
  match s with EmptyString => true | String c s' => negb (Ascii.eqb c "/") && no_slash s' end.
Definition path_ok (p : path) : Prop := p ≠ [] ∧ Forall (λ x, no_slash x = true) p.

Lemma split_slash_ne s : split_slash s ≠ [].
Proof. destruct s as [|c s]; simpl; [done|]. destruct (Ascii.eqb c "/"); [done|]. by destruct (split_slash s). Qed.
Lemma split_slash_plain s : no_slash s = true → split_slash s = [s].
Proof.
  induction s as [|c s IH]; [done|]. simpl. intros [Hc%negb_true_iff Hs]%andb_true_iff.
  by rewrite Hc, (IH Hs).
Qed.
Lemma split_slash_cons s t : no_slash s = true → split_slash (s +:+ "/" +:+ t) = s :: split_slash t.
Proof.
  induction s as [|c s IH]; [done|]. simpl. intros [Hc%negb_true_iff Hs]%andb_true_iff.
  change (String c s +:+ "/" +:+ t) with (String c (s +:+ "/" +:+ t)). simpl. by rewrite Hc, (IH Hs).
Qed.
Lemma split_posix p : path_ok p → split_slash (posix p) = p.
Proof.
  intros [Hne Hall]. induction p as [|x p IH]; [done|]. inversion_clear Hall as [|? ? Hx Hp].
  destruct p as [|y p]; [by apply split_slash_plain|]. cbn [posix].
  rewrite split_slash_cons by done. f_equal. by apply IH.
Qed.

(** ** Subtrees *)

(** The files below a directory, by their relative path. *)
Definition below (root : path) (files : gmap path string) : list (path * string) :=
  omap (λ kv : path * string, (λ rel, (rel, kv.2)) <$> strip_prefix root kv.1) (map_to_list files).
Definition subtree (root : path) (files : gmap path string) : gmap path string :=
  list_to_map (below root files).

(** [shutil.copytree(src, dst, dirs_exist_ok=True)] of a subtree *)
Definition graft (root : path) (tree files : gmap path string) : gmap path string :=
  kmap (app root) tree ∪ files.
(** every file below a directory removed *)
Definition clear (root : path) (files : gmap path string) : gmap path string :=
  filter (λ kv : path * string, strip_prefix root kv.1 = None) files.

(** [p.exists()]: a file, or a directory with a file below *)
Definition path_exists (p : path) (files : gmap path string) : bool :=
  match below p files with [] => false | _ => true end.
(** [p.is_file()] *)
Definition is_file (p : path) (files : gmap path string) : bool := bool_decide (is_Some (files !! p)).

Lemma elem_of_below root files rel c : (rel, c) ∈ below root files ↔ files !! (root ++ rel) = Some c.
Proof.
  unfold below. rewrite list_elem_of_omap. split.
  - intros ([p c'] & Hin & E). apply elem_of_map_to_list in Hin. simpl in E.
    destruct (strip_prefix root p) as [r|] eqn:Er; [|done]. injection E as -> ->.
    apply strip_prefix_Some in Er as ->. done.
  - intros Hf. exists (root ++ rel, c). split; [by apply elem_of_map_to_list|]. simpl.
    by rewrite (proj2 (strip_prefix_Some _ _ _) eq_refl).
Qed.
Lemma NoDup_below root files : NoDup (below root files).*1.
Proof.
  unfold below. pose proof (NoDup_fst_map_to_list files) as Hnd. revert Hnd.
  induction (map_to_list files) as [|[p c] l IH]; simpl; [constructor|].
  intros [Hp Hl]%NoDup_cons. destruct (strip_prefix root p) as [r|] eqn:Er; simpl; [|auto].
  apply NoDup_cons. split; [|auto]. intros Hin. apply Hp. apply list_elem_of_fmap in Hin as ([r' c'] & E & Hx).
  simpl in E. subst r'. apply list_elem_of_omap in Hx as ([p' c''] & Hx & Ex). simpl in Ex.
  destruct (strip_prefix root p') as [r'|] eqn:Er'; [|done]. injection Ex as -> ->.
  apply strip_prefix_Some in Er, Er'. apply list_elem_of_fmap. exists (p', c'). split; [|done]. simpl. congruence.
Qed.

Lemma lookup_subtree root files rel : subtree root files !! rel = files !! (root ++ rel).
Proof.
  apply option_eq. intros c. unfold subtree.
  rewrite <- elem_of_list_to_map by apply NoDup_below. apply elem_of_below.
Qed.
Lemma lookup_graft_in root tree files rel c :
  tree !! rel = Some c → graft root tree files !! (root ++ rel) = Some c.
Proof. intros Ht. unfold graft. apply lookup_union_Some_l. by rewrite lookup_kmap by typeclasses eauto. Qed.
Lemma lookup_graft_out root tree files p :
  strip_prefix root p = None → graft root tree files !! p = files !! p.
Proof.
  intros Hp. unfold graft. apply lookup_union_r. apply lookup_kmap_None; [typeclasses eauto|].
  intros rel ->. by rewrite (proj2 (strip_prefix_Some _ _ _) eq_refl) in Hp.
Qed.
Lemma lookup_clear root files p :
  clear root files !! p = match strip_prefix root p with None => files !! p | Some _ => None end.
Proof.
  unfold clear. destruct (strip_prefix root p) as [rel|] eqn:E.
  - apply map_lookup_filter_None. right. intros c _. simpl. by rewrite E.
  - destruct (files !! p) as [c|] eqn:Ef.
    + by apply map_lookup_filter_Some.
    + apply map_lookup_filter_None. by left.
Qed.

(** Clearing a directory and copying a tree into it leaves that tree there and
    everything else as it was. *)
Lemma subtree_restore root tree files : subtree root (graft root tree (clear root files)) = tree.
Proof.
  apply map_eq. intros rel. rewrite lookup_subtree. destruct (tree !! rel) as [c|] eqn:E.
  - by apply lookup_graft_in.
  - unfold graft. rewrite lookup_union_r.
    + by rewrite lookup_clear, (proj2 (strip_prefix_Some _ _ _) eq_refl).
    + by rewrite lookup_kmap by typeclasses eauto.
Qed.
Lemma subtree_graft_fresh root tree files :
  path_exists root files = false → subtree root (graft root tree files) = tree.
Proof.
  unfold path_exists. intros Hex. destruct (below root files) as [|] eqn:Hb; [|done].
  apply map_eq. intros rel. rewrite lookup_subtree. destruct (tree !! rel) as [c|] eqn:E.
  - by apply lookup_graft_in.
  - unfold graft. rewrite lookup_union_r by (by rewrite lookup_kmap by typeclasses eauto).
    destruct (files !! (root ++ rel)) as [c|] eqn:Ef; [|done].
    apply elem_of_below in Ef. rewrite Hb in Ef. by apply elem_of_nil in Ef.
Qed.

(** ** Inventories *)

(** Component-wise order of paths. *)
Fixpoint path_leb (p q : path) : bool :=
  match p, q with
  | [], _ => true
  | _ :: _, [] => false
  | x :: p', y :: q' => match String.compare x y with Lt => true | Gt => false | Eq => path_leb p' q' end
  end.
Definition entry_leb (a b : path * string) : bool := path_leb a.1 b.1.
Definition inventory_of (root : path) (files : gmap path string) : list (path * string) :=
  order_by entry_leb (map_to_list (subtree root files)).
