(* ===== verification/Storage.v ===== *)
(** immune_core/storage.py: the durable state store.

    Missions, the leased task queue and the transition log, one definition per
    method of [SQLiteStateStore], and the [TaskLease] of models.py.  The
    invariant [store_wf] is kept by every method. *)

From S2P Require Import Prelude Json Schema.

(** ** Row updates: the [SET] clauses of the statements *)

Definition mission_set_state (st : string) (ts : Q) (r : mission_row) : mission_row :=
  {| m_id := m_id r; m_system_id := m_system_id r; m_state := st;
     m_version := m_version r + 1; m_created_at := m_created_at r; m_updated_at := ts |}.

(** [SET state=?, lease_owner=?, lease_until=?, updated_at=?] with the attempt
    counter, the schedule and the error as given. *)
Definition task_set (st : string) (attempts : Z) (next_run : Q) (owner : option string)
    (lease_until : option Q) (err : option string) (ts : Q) (r : task_row) : task_row :=
  {| t_id := t_id r; t_mission_id := t_mission_id r; t_kind := t_kind r;
     t_payload_json := t_payload_json r; t_state := st; t_priority := t_priority r;
     t_idempotency_key := t_idempotency_key r; t_attempts := attempts;
     t_max_attempts := t_max_attempts r; t_next_run_at := next_run; t_lease_owner := owner;
     t_lease_until := lease_until; t_last_error := err; t_created_at := t_created_at r;
     t_updated_at := ts |}.

Definition task_release (st : string) (ts : Q) (r : task_row) : task_row :=
  task_set st (t_attempts r) (t_next_run_at r) None None (t_last_error r) ts r.
Definition task_lease (worker : string) (until ts : Q) (r : task_row) : task_row :=
  task_set "RUNNING" (t_attempts r + 1) (t_next_run_at r) (Some worker) (Some until) (t_last_error r) ts r.
Definition task_failure (st : string) (next_run : Q) (err : string) (ts : Q) (r : task_row) : task_row :=
  task_set st (t_attempts r) next_run None None (Some err) ts r.

(** [INSERT INTO transitions]; the AUTOINCREMENT key follows the log. *)
Definition add_transition (entity_type entity_id : string) (from_state : option string)
    (to_state reason : string) (at_ : Q) (l : list transition_row) : list transition_row :=
  l ++ [{| tr_seq := Z.of_nat (length l) + 1; tr_entity_type := entity_type;
           tr_entity_id := entity_id; tr_from_state := from_state; tr_to_state := to_state;
           tr_reason := reason; tr_at := at_ |}].

(** The lease handed to a worker (models.py). *)
Record TaskLease := {
  l_id : string;
  l_mission_id : string;
  l_kind : string;
  l_payload : json;
  l_attempts : Z;
  l_max_attempts : Z;
  l_lease_owner : string;
  l_lease_until : Q;
}.

(** ** Queries *)
Definition opt_eqs (o : option string) (s : string) : bool :=
  match o with Some x => x =s s | None => false end.

(** [state='RUNNING' AND lease_until IS NOT NULL AND lease_until<=?] *)
Definition lease_expired (ts : Q) (r : task_row) : bool :=
  (t_state r =s "RUNNING") && match t_lease_until r with Some u => qle u ts | None => false end.

(** [state='QUEUED' AND next_run_at<=? (AND mission_id=?)] *)
Definition claimable (ts : Q) (mission_id : option string) (r : task_row) : bool :=
  (t_state r =s "QUEUED") && qle (t_next_run_at r) ts
  && match mission_id with None => true | Some m => t_mission_id r =s m end.

(** [ORDER BY priority DESC, created_at ASC] *)
Definition claim_leb (r s : task_row) : bool :=
  (t_priority s <? t_priority r)%Z
  || ((t_priority s =? t_priority r)%Z && qle (t_created_at r) (t_created_at s)).

(** The row [claim_next] selects. *)
Definition claim_row (ts : Q) (mission_id : option string) (rows : list task_row) : option task_row :=
  head (order_by claim_leb (List.filter (claimable ts mission_id) rows)).

(** [row["state"] == "RUNNING" and row["lease_owner"] == worker_id] *)
Definition leased_by (worker : string) (r : task_row) : bool :=
  (t_state r =s "RUNNING") && opt_eqs (t_lease_owner r) worker.

(** ** Methods *)
Section store.
Context `{JsonText, Entropy}.

Definition create_mission (mission_id system_id state : string) (now : option Q) : IO unit :=
  ts ← now_or_time now;
  rows ← query missions;
  _ ← raise_if (row_exists m_id mission_id rows) IntegrityError "UNIQUE constraint failed: missions.id";
  _ ← exec (set_missions (λ l, l ++ [{| m_id := mission_id; m_system_id := system_id;
        m_state := state; m_version := 1; m_created_at := ts; m_updated_at := ts |}]));
  exec (set_transitions (add_transition "mission" mission_id None state "created" ts)).

Definition get_mission (mission_id : string) : IO (option mission_row) :=
  query (λ d, find_row m_id mission_id (missions d)).

Definition set_mission_state (mission_id to_state reason : string) (now : option Q) : IO unit :=
  ts ← now_or_time now;
  transaction (
    row ← get_mission mission_id;
    match row with
    | None => throw StateError "mission not found"
    | Some r =>
        _ ← exec (set_missions (update_row m_id mission_id (mission_set_state to_state ts)));
        exec (set_transitions
          (add_transition "mission" mission_id (Some (m_state r)) to_state reason ts))
    end).

(** [INSERT INTO tasks]: primary key, unique key and foreign key. *)
Definition insert_task (r : task_row) : IO unit :=
  rows ← query tasks;
  _ ← raise_if (row_exists t_id (t_id r) rows) IntegrityError "UNIQUE constraint failed: tasks.id";
  _ ← raise_if (row_exists t_idempotency_key (t_idempotency_key r) rows)
        IntegrityError "UNIQUE constraint failed: tasks.idempotency_key";
  mrows ← query missions;
  _ ← raise_if (negb (row_exists m_id (t_mission_id r) mrows))
        IntegrityError "FOREIGN KEY constraint failed";
  exec (set_tasks (λ l, l ++ [r])).

Definition new_task (tid mission_id kind : string) (payload : dict) (key : string)
    (priority max_attempts : Z) (ts : Q) : task_row :=
  {| t_id := tid; t_mission_id := mission_id; t_kind := kind;
     t_payload_json := dumps CompactAscii (JObj payload); t_state := "QUEUED";
     t_priority := priority; t_idempotency_key := key; t_attempts := 0;
     t_max_attempts := max_attempts; t_next_run_at := ts; t_lease_owner := None;
     t_lease_until := None; t_last_error := None; t_created_at := ts; t_updated_at := ts |}.

Definition submit_task (mission_id kind : string) (payload : dict) (idempotency_key : string)
    (priority max_attempts : Z) (task_id : option string) (now : option Q) : IO string :=
  ts ← now_or_time now;
  _ ← raise_if (max_attempts <? 1)%Z ValueError "max_attempts must be >= 1";
  existing ← query (λ d, find_row t_idempotency_key idempotency_key (tasks d));
  match existing with
  | Some r => mret (t_id r)
  | None =>
      tid ← match task_id with
            | Some t => if t =s "" then uuid4 else mret t
            | None => uuid4
            end;
      transaction (
        existing ← query (λ d, find_row t_idempotency_key idempotency_key (tasks d));
        match existing with
        | Some r => mret (t_id r)
        | None =>
            _ ← insert_task (new_task tid mission_id kind payload idempotency_key priority max_attempts ts);
            _ ← exec (set_transitions (add_transition "task" tid None "QUEUED" "submitted" ts));
            mret tid
        end)
  end.

Definition get_task (task_id : string) : IO (option (task_row * json)) :=
  row ← query (λ d, find_row t_id task_id (tasks d));
  match row with
  | None => mret None
  | Some r =>
      match loads (t_payload_json r) with
      | Some payload => mret (Some (r, payload))
      | None => throw JSONDecodeError "Expecting value"
      end
  end.

Definition recover_row (ts : Q) (r : task_row) : IO unit :=
  _ ← exec (set_tasks (update_row t_id (t_id r) (task_release "QUEUED" ts)));
  exec (set_transitions
    (add_transition "task" (t_id r) (Some "RUNNING") "QUEUED" "lease_expired_recovered" ts)).

Definition recover_expired_leases (now : option Q) : IO Z :=
  ts ← now_or_time now;
  transaction (
    rows ← query (λ d, List.filter (lease_expired ts) (tasks d));
    _ ← for_each rows (recover_row ts);
    mret (Z.of_nat (length rows))).

Definition lease_of (r : task_row) (worker : string) (until : Q) (payload : json) : TaskLease :=
  {| l_id := t_id r; l_mission_id := t_mission_id r; l_kind := t_kind r; l_payload := payload;
     l_attempts := t_attempts r + 1; l_max_attempts := t_max_attempts r;
     l_lease_owner := worker; l_lease_until := until |}.

(** The claim transaction; the payload is parsed after the COMMIT, where the
    handler's ROLLBACK has no transaction left to undo. *)
Definition claim_next (worker_id : string) (lease_seconds : Q) (now : option Q)
    (mission_id : option string) : IO (option TaskLease) :=
  ts ← now_or_time now;
  _ ← raise_if (qle lease_seconds 0) ValueError "lease_seconds must be positive";
  _ ← recover_expired_leases (Some ts);
  claimed ← transaction (
    row ← query (λ d, claim_row ts mission_id (tasks d));
    match row with
    | None => mret None
    | Some r =>
        let lease_until := (ts + lease_seconds)%Q in
        _ ← exec (set_tasks (update_row t_id (t_id r) (task_lease worker_id lease_until ts)));
        _ ← exec (set_transitions
              (add_transition "task" (t_id r) (Some "QUEUED") "RUNNING" ("claimed:" +:+ worker_id) ts));
        mret (Some r)
    end);
  match claimed with
  | None => mret None
  | Some r =>
      match loads (t_payload_json r) with
      | Some payload => mret (Some (lease_of r worker_id (ts + lease_seconds)%Q payload))
      | None => throw OperationalError "cannot rollback - no transaction is active"
      end
  end.

Definition finish_running (task_id worker_id state reason : string) (now : option Q) : IO unit :=
  ts ← now_or_time now;
  transaction (
    row ← query (λ d, find_row t_id task_id (tasks d));
    match row with
    | None => throw StateError "task is not leased by this worker"
    | Some r =>
        _ ← raise_if (negb (leased_by worker_id r)) StateError "task is not leased by this worker";
        _ ← exec (set_tasks (update_row t_id task_id (task_release state ts)));
        exec (set_transitions (add_transition "task" task_id (Some "RUNNING") state reason ts))
    end).

Definition complete_task (task_id worker_id : string) (now : option Q) : IO unit :=
  finish_running task_id worker_id "COMPLETED" "completed" now.

Definition block_task (task_id worker_id reason : string) (now : option Q) : IO unit :=
  finish_running task_id worker_id "BLOCKED" reason now.

Definition fail_task (task_id worker_id error : string) (retry_delay : Q) (now : option Q) : IO string :=
  ts ← now_or_time now;
  transaction (
    row ← query (λ d, find_row t_id task_id (tasks d));
    match row with
    | None => throw StateError "task is not leased by this worker"
    | Some r =>
        _ ← raise_if (negb (leased_by worker_id r)) StateError "task is not leased by this worker";
        let retry := (t_attempts r <? t_max_attempts r)%Z in
        let target := if retry then "QUEUED" else "FAILED" in
        let next_run := (ts + py_max 0 retry_delay)%Q in
        _ ← exec (set_tasks (update_row t_id task_id (task_failure target next_run error ts)));
        _ ← exec (set_transitions
              (add_transition "task" task_id (Some "RUNNING") target ("failure:" +:+ error) ts));
        mret target
    end).

(** [ORDER BY created_at, id] *)
Definition task_order (r s : task_row) : bool :=
  qlt (t_created_at r) (t_created_at s)
  || (Qeq_bool (t_created_at r) (t_created_at s) && String.leb (t_id r) (t_id s)).
Definition list_tasks (mission_id : string) : IO (list task_row) :=
  query (λ d, order_by task_order (List.filter (λ r, t_mission_id r =s mission_id) (tasks d))).

Definition list_transitions (entity_type entity_id : string) : IO (list transition_row) :=
  query (λ d, List.filter (λ r, (tr_entity_type r =s entity_type) && (tr_entity_id r =s entity_id))
                (transitions d)).
End store.
