(* ===== verification/StorageProps.v ===== *)
(** The invariant of the state store, kept by every method of storage.py:
    unique keys, the foreign key, the shape of leases, and a transition log
    that replays to the current state of every mission and task. *)

From S2P Require Import Prelude Json Schema Storage.

(** ** What the log says *)

(** The last state recorded for an entity. *)
Definition logs (ty id : string) (t : transition_row) : bool :=
  (tr_entity_type t =s ty) && (tr_entity_id t =s id).
Definition logged_state (l : list transition_row) (ty id : string) : option string :=
  fold_left (λ acc t, if logs ty id t then Some (tr_to_state t) else acc) l None.

(** Every entry leaves the state the log before it ends in, and the sequence
    numbers count from one. *)
Inductive log_ok : list transition_row → Prop :=
| log_ok_nil : log_ok []
| log_ok_snoc l t :
    log_ok l →
    tr_from_state t = logged_state l (tr_entity_type t) (tr_entity_id t) →
    tr_seq t = (Z.of_nat (length l) + 1)%Z →
    log_ok (l ++ [t]).

Lemma logged_state_add ty id from to reason ts l ty' id' :
  logged_state (add_transition ty id from to reason ts l) ty' id'
  = if (ty =s ty') && (id =s id') then Some to else logged_state l ty' id'.
Proof. unfold logged_state, add_transition. rewrite fold_left_app. reflexivity. Qed.

Lemma log_ok_add ty id from to reason ts l :
  log_ok l → logged_state l ty id = from → log_ok (add_transition ty id from to reason ts l).
Proof. intros Hl Hfrom. by apply log_ok_snoc. Qed.

(** ** The invariant *)
Definition task_states : list string := ["QUEUED"; "RUNNING"; "COMPLETED"; "BLOCKED"; "FAILED"].

(** A running task carries a lease, no other task does. *)
Definition lease_ok (r : task_row) : Prop :=
  if t_state r =s "RUNNING"
  then is_Some (t_lease_owner r) ∧ is_Some (t_lease_until r) ∧ (1 ≤ t_attempts r)%Z
  else t_lease_owner r = None ∧ t_lease_until r = None.

Record task_ok `{JsonText} (mids : list string) (r : task_row) : Prop := {
  ok_mission : t_mission_id r ∈ mids;
  ok_state : t_state r ∈ task_states;
  ok_lease : lease_ok r;
  ok_attempts : (0 ≤ t_attempts r)%Z;
  ok_max : (1 ≤ t_max_attempts r)%Z;
  ok_payload : is_Some (loads (t_payload_json r));
}.

Record store_wf `{JsonText} (d : StoreTables) : Prop := {
  wf_missions : unique_key m_id (missions d);
  wf_tasks : unique_key t_id (tasks d);
  wf_keys : unique_key t_idempotency_key (tasks d);
  wf_rows : Forall (task_ok (map m_id (missions d))) (tasks d);
  wf_log : log_ok (transitions d);
  wf_log_missions : ∀ id,
    logged_state (transitions d) "mission" id = m_state <$> find_row m_id id (missions d);
  wf_log_tasks : ∀ id,
    logged_state (transitions d) "task" id = t_state <$> find_row t_id id (tasks d);
}.

(** The invariant over the whole database. *)
Definition db_wf `{JsonText} (d : DB) : Prop := store_wf d.
Abbreviation keeps_store := (on_db (keeps db_wf)).

Lemma empty_db_wf `{JsonText} : db_wf empty_db.
Proof. split; try constructor; done. Qed.

(** ** The four kinds of write *)
Section writes.
Context `{JsonText} (d : StoreTables) (Hd : store_wf d).

Lemma wf_mission_insert r reason ts :
  m_id r ∉ map m_id (missions d) →
  store_wf {| missions := missions d ++ [r]; tasks := tasks d;
              transitions := add_transition "mission" (m_id r) None (m_state r) reason ts (transitions d) |}.
Proof.
  intros Hnew. destruct Hd as [Hm Ht Hk Hr Hl Hlm Hlt]. split; simpl; try done.
  - by apply unique_key_snoc.
  - eapply Forall_impl; [exact Hr|]. intros x [? ? ? ? ? ?]. split; try done.
    rewrite map_app. apply elem_of_app. by left.
  - apply log_ok_add; [done|]. by rewrite Hlm, (proj2 (find_row_None _ _ _) Hnew).
  - intros id. rewrite logged_state_add, find_row_snoc, Hlm by done. simpl. by case_match.
  - intros id. rewrite logged_state_add. apply Hlt.
Qed.

Lemma wf_mission_update id r to ts reason :
  find_row m_id id (missions d) = Some r →
  store_wf {| missions := update_row m_id id (mission_set_state to ts) (missions d); tasks := tasks d;
              transitions := add_transition "mission" id (Some (m_state r)) to reason ts (transitions d) |}.
Proof.
  intros Hfind. destruct Hd as [Hm Ht Hk Hr Hl Hlm Hlt].
  assert (Hkeys : map m_id (update_row m_id id (mission_set_state to ts) (missions d))
    = map m_id (missions d)) by (by apply update_row_keys).
  split; simpl; unfold unique_key in *; rewrite ?Hkeys; try done.
  - apply log_ok_add; [done|]. by rewrite Hlm, Hfind.
  - intros id'. rewrite logged_state_add. simpl. destruct (String.eqb_spec id id') as [<-|E].
    + by rewrite find_update_eq, Hfind.
    + by rewrite find_update_ne.
  - intros id'. rewrite logged_state_add. apply Hlt.
Qed.

Lemma wf_task_insert r reason ts :
  t_id r ∉ map t_id (tasks d) → t_idempotency_key r ∉ map t_idempotency_key (tasks d) →
  task_ok (map m_id (missions d)) r →
  store_wf {| missions := missions d; tasks := tasks d ++ [r];
              transitions := add_transition "task" (t_id r) None (t_state r) reason ts (transitions d) |}.
Proof.
  intros Hid Hkey Hok. destruct Hd as [Hm Ht Hk Hr Hl Hlm Hlt].
  split; simpl; try done; [by apply unique_key_snoc | by apply unique_key_snoc | | | |].
  - apply Forall_app. split; [done|]. by apply Forall_singleton.
  - apply log_ok_add; [done|]. by rewrite Hlt, (proj2 (find_row_None _ _ _) Hid).
  - intros id. rewrite logged_state_add. apply Hlm.
  - intros id. rewrite logged_state_add, find_row_snoc, Hlt by done. simpl. by case_match.
Qed.

(** Every [UPDATE tasks] of the module: one row, its keys untouched. *)
Lemma wf_task_update id r g reason ts :
  find_row t_id id (tasks d) = Some r →
  (∀ x, t_id (g x) = t_id x) → (∀ x, t_idempotency_key (g x) = t_idempotency_key x) →
  task_ok (map m_id (missions d)) (g r) →
  store_wf {| missions := missions d; tasks := update_row t_id id g (tasks d);
              transitions := add_transition "task" id (Some (t_state r)) (t_state (g r)) reason ts
                               (transitions d) |}.
Proof.
  intros Hfind Hgid Hgkey Hok. destruct Hd as [Hm Ht Hk Hr Hl Hlm Hlt].
  split; simpl; unfold unique_key in *; try done.
  - by rewrite update_row_keys.
  - unfold update_row. by rewrite update_where_keys.
  - apply update_row_Forall; [done|]. intros x Hx Hxid Hxok.
    assert (x = r) as ->; [|done].
    pose proof (find_row_unique t_id _ x Ht Hx) as E. rewrite Hxid, Hfind in E. congruence.
  - apply log_ok_add; [done|]. by rewrite Hlt, Hfind.
  - intros id'. rewrite logged_state_add. apply Hlm.
  - intros id'. rewrite logged_state_add. simpl. destruct (String.eqb_spec id id') as [<-|E].
    + by rewrite find_update_eq, Hfind.
    + by rewrite find_update_ne.
Qed.
End writes.

(** ** Every method keeps the invariant *)

(** Runs the primitives of a straight-line computation. *)
Ltac run_io :=
  unfold transaction, mbind, M_bind, query, exec, gets, modify, raise_if, throw, mret, M_ret; simpl.

Lemma task_ok_set `{JsonText} mids r st att nr ow un er ts :
  task_ok mids r → st ∈ task_states → (0 ≤ att)%Z → lease_ok (task_set st att nr ow un er ts r) →
  task_ok mids (task_set st att nr ow un er ts r).
Proof. intros [? ? ? ? ? ?] ? ? ?. by split. Qed.

Lemma wf_find_ok `{JsonText} d id r :
  store_wf d → find_row t_id id (tasks d) = Some r → task_ok (map m_id (missions d)) r ∧ t_id r = id.
Proof.
  intros Hd Hf. apply find_row_Some in Hf as [Hin ?]. split; [|done].
  pose proof (wf_rows d Hd) as Hr. rewrite Forall_forall in Hr. auto.
Qed.

Lemma leased_by_true worker r :
  leased_by worker r = true → t_state r = "RUNNING" ∧ t_lease_owner r = Some worker.
Proof.
  unfold leased_by, opt_eqs. intros [->%String.eqb_eq Ho]%andb_true_iff. split; [done|].
  destruct (t_lease_owner r); [|done]. by apply String.eqb_eq in Ho as ->.
Qed.

Section keeps.
Context `{JsonText, Entropy}.

Lemma create_mission_keeps mid sid st now : respects keeps_store (create_mission mid sid st now).
Proof.
  unfold create_mission. respects_step; [auto with respects typeclass_instances|].
  intros w Hw. run_io. destruct (row_exists m_id mid _) eqn:E; simpl; [done|].
  apply row_exists_false in E.
  by apply (wf_mission_insert _ Hw {| m_id := mid; m_system_id := sid; m_state := st;
    m_version := 1; m_created_at := a; m_updated_at := a |}).
Qed.

Lemma get_mission_respects R `{!PreOrder R} mid : respects (on_db R) (get_mission mid).
Proof. apply respects_query; typeclasses eauto. Qed.

Lemma set_mission_state_keeps mid st reason now :
  respects keeps_store (set_mission_state mid st reason now).
Proof.
  unfold set_mission_state, get_mission. respects_step; [auto with respects typeclass_instances|].
  intros w Hw. run_io. destruct (find_row m_id mid _) as [r|] eqn:E; simpl; [|done].
  by apply (wf_mission_update _ Hw).
Qed.

Lemma new_task_ok mids tid mid kind payload key prio maxa ts :
  mid ∈ mids → (1 ≤ maxa)%Z → task_ok mids (new_task tid mid kind payload key prio maxa ts).
Proof. intros. split; simpl; try done; [by left | rewrite loads_dumps; by eexists]. Qed.

Lemma submit_task_keeps mid kind payload key prio maxa tid now :
  respects keeps_store (submit_task mid kind payload key prio maxa tid now).
Proof.
  unfold submit_task. respects_step; [auto with respects typeclass_instances|].
  destruct (maxa <? 1)%Z eqn:Emax; [unfold raise_if; intros w; by run_io|].
  apply Z.ltb_ge in Emax. respects_step; [auto with respects typeclass_instances|].
  respects_step; [auto with respects typeclass_instances|].
  destruct a1; [auto with respects typeclass_instances|].
  apply respects_bind; [typeclasses eauto | destruct tid as [t|]; [destruct (t =s "")|];
    auto with respects typeclass_instances |]. intros t.
  intros w Hw. unfold insert_task. run_io.
  destruct (find_row t_idempotency_key key _) eqn:E1; simpl; [done|].
  destruct (row_exists t_id t _) eqn:E2; simpl; [done|].
  destruct (row_exists t_idempotency_key key _) eqn:E3; simpl; [done|].
  destruct (row_exists m_id mid _) eqn:E4; simpl; [|done].
  apply row_exists_false in E2, E3. apply row_exists_true in E4.
  by apply (wf_task_insert _ Hw (new_task t mid kind payload key prio maxa a)); [..|apply new_task_ok].
Qed.

Lemma finish_running_keeps id worker st reason now :
  st ∈ task_states → st ≠ "RUNNING" →
  respects keeps_store (finish_running id worker st reason now).
Proof.
  intros Hst Hrun. unfold finish_running. respects_step; [auto with respects typeclass_instances|].
  intros w Hw. run_io. destruct (find_row t_id id _) as [r|] eqn:E; simpl; [|done].
  destruct (leased_by worker r) eqn:El; simpl; [|done].
  apply leased_by_true in El as [Es _]. destruct (wf_find_ok _ _ _ Hw E) as [Hok _].
  rewrite <- Es. apply (wf_task_update _ Hw id r (task_release st a)); try done.
  apply task_ok_set; [done|done|by apply Hok|]. unfold lease_ok. simpl.
  by destruct (String.eqb_spec st "RUNNING").
Qed.

Lemma complete_task_keeps id worker now : respects keeps_store (complete_task id worker now).
Proof. apply finish_running_keeps; [unfold task_states; set_solver | done]. Qed.
Lemma block_task_keeps id worker reason now : respects keeps_store (block_task id worker reason now).
Proof. apply finish_running_keeps; [unfold task_states; set_solver | done]. Qed.

Lemma fail_task_keeps id worker err delay now : respects keeps_store (fail_task id worker err delay now).
Proof.
  unfold fail_task. respects_step; [auto with respects typeclass_instances|].
  intros w Hw. run_io. destruct (find_row t_id id _) as [r|] eqn:E; simpl; [|done].
  destruct (leased_by worker r) eqn:El; simpl; [|done].
  apply leased_by_true in El as [Es _]. destruct (wf_find_ok _ _ _ Hw E) as [Hok _].
  set (target := if (t_attempts r <? t_max_attempts r)%Z then "QUEUED" else "FAILED").
  rewrite <- Es. apply (wf_task_update _ Hw id r (task_failure target (a + py_max 0 delay) err a)); try done.
  assert (Ht : target ∈ task_states ∧ target =s "RUNNING" = false).
  { unfold target, task_states. destruct (_ <? _)%Z; split; (done || set_solver). }
  apply task_ok_set; [done|apply Ht|by apply Hok|]. unfold lease_ok. simpl. by rewrite (proj2 Ht).
Qed.

(** One recovered row. *)
Lemma wf_recover d id r ts :
  store_wf d → find_row t_id id (tasks d) = Some r → t_state r = "RUNNING" →
  store_wf {| missions := missions d; tasks := update_row t_id id (task_release "QUEUED" ts) (tasks d);
              transitions := add_transition "task" id (Some "RUNNING") "QUEUED"
                               "lease_expired_recovered" ts (transitions d) |}.
Proof.
  intros Hd E Es. destruct (wf_find_ok _ _ _ Hd E) as [Hok _].
  rewrite <- Es at 1. apply (wf_task_update _ Hd id r (task_release "QUEUED" ts)); try done.
  apply task_ok_set; [done|unfold task_states; set_solver|by apply Hok|done].
Qed.

(** The loop over the expired rows: each is still running when it is reached. *)
Definition running_in (w : World) (r : task_row) : Prop :=
  ∃ x, find_row t_id (t_id r) (tasks (w_db w)) = Some x ∧ t_state x = "RUNNING".

Definition recovered (ts : Q) (r : task_row) (w : World) : World :=
  with_db (λ d, set_transitions (add_transition "task" (t_id r) (Some "RUNNING") "QUEUED"
                   "lease_expired_recovered" ts)
                 (set_tasks (update_row t_id (t_id r) (task_release "QUEUED" ts)) d)) w.

Lemma recover_loop_cons ts r rows w :
  for_each (r :: rows) (recover_row ts) w
  = match for_each rows (recover_row ts) (recovered ts r w) with
    | (Ok ys, w2) => (Ok (tt :: ys), w2)
    | (Raise e, w2) => (Raise e, w2)
    end.
Proof. reflexivity. Qed.

Lemma recover_loop_keeps ts rows : ∀ w,
  db_wf (w_db w) → NoDup (map t_id rows) → Forall (running_in w) rows →
  db_wf (w_db (snd (for_each rows (recover_row ts) w))).
Proof.
  induction rows as [|r rows IH]; intros w Hw Hnd Hall; [done|].
  change (NoDup (t_id r :: map t_id rows)) in Hnd. apply NoDup_cons in Hnd as [Hr Hnd].
  inversion_clear Hall as [|? ? (y & Hy & Hs) Hall'].
  rewrite recover_loop_cons. set (w1 := recovered ts r w).
  assert (Hw1 : db_wf (w_db w1)) by (apply (wf_recover (w_db w) (t_id r) y ts); done).
  assert (Hall1 : Forall (running_in w1) rows).
  { rewrite Forall_forall in Hall' |- *. intros t Ht. destruct (Hall' t Ht) as (z & Hz & Hzs).
    exists z. split; [|done]. simpl. rewrite find_update_ne; [done|done|].
    intros E. apply Hr. rewrite <- E. by apply list_elem_of_fmap_2. }
  specialize (IH w1 Hw1 Hnd Hall1). destruct (for_each rows (recover_row ts) w1) as [[ys|e] w2]; exact IH.
Qed.

Lemma expired_running w ts :
  db_wf (w_db w) →
  let rows := List.filter (lease_expired ts) (tasks (w_db w)) in
  NoDup (map t_id rows) ∧ Forall (running_in w) rows.
Proof.
  intros Hw rows. pose proof (wf_tasks _ Hw) as Hu. split.
  - unfold rows. clear rows. unfold unique_key in Hu. revert Hu.
    generalize (tasks (w_db w)) as l. induction l as [|r l IH]; intros Hu; [done|].
    apply NoDup_cons in Hu as [Hr Hu]. simpl. destruct (lease_expired ts r); [|by apply IH].
    apply NoDup_cons. split; [|by apply IH]. intros Hin. apply Hr.
    apply list_elem_of_fmap in Hin as (x & -> & Hx). apply list_elem_of_fmap_2.
    apply list_elem_of_In, filter_In in Hx as [Hx _]. by apply list_elem_of_In.
  - apply Forall_forall. intros r Hr. apply list_elem_of_In, filter_In in Hr as [Hr He].
    apply list_elem_of_In in Hr. exists r. split; [by apply find_row_unique|].
    unfold lease_expired in He. apply andb_true_iff in He as [He _]. by apply String.eqb_eq.
Qed.

Lemma recover_keeps now : respects keeps_store (recover_expired_leases now).
Proof.
  unfold recover_expired_leases. respects_step; [auto with respects typeclass_instances|].
  apply respects_transaction; [typeclasses eauto|]. intros w Hw.
  destruct (expired_running w a Hw) as [Hnd Hrun].
  pose proof (recover_loop_keeps a _ w Hw Hnd Hrun) as Hk. revert Hk. run_io.
  destruct (for_each _ (recover_row a) w) as [[ys|e] w2]; exact id.
Qed.

Lemma claim_row_Some ts mid rows r :
  claim_row ts mid rows = Some r → r ∈ rows ∧ claimable ts mid r = true.
Proof.
  unfold claim_row. intros Hh.
  assert (Hin : r ∈ order_by claim_leb (List.filter (claimable ts mid) rows)).
  { destruct (order_by _ _); [done|]. injection Hh as ->. by left. }
  rewrite order_by_perm in Hin. apply list_elem_of_In, filter_In in Hin as [Hin Hc].
  by apply list_elem_of_In in Hin.
Qed.

Lemma claim_keeps worker secs now mid : respects keeps_store (claim_next worker secs now mid).
Proof.
  unfold claim_next. respects_step; [auto with respects typeclass_instances|].
  respects_step; [auto with respects typeclass_instances|].
  respects_step; [apply recover_keeps|].
  respects_step; [|solve_respects].
  apply respects_transaction; [typeclasses eauto|]. intros w Hw. run_io.
  destruct (claim_row a mid _) as [r|] eqn:E; simpl; [|done].
  apply claim_row_Some in E as [Hin Hc]. unfold claimable in Hc.
  apply andb_true_iff in Hc as [[Hq%String.eqb_eq _]%andb_true_iff _].
  pose proof (find_row_unique t_id _ r (wf_tasks _ Hw) Hin) as Hf.
  destruct (wf_find_ok _ _ _ Hw Hf) as [Hok _].
  rewrite <- Hq. apply (wf_task_update _ Hw (t_id r) r (task_lease worker (a + secs) a)); try done.
  pose proof (ok_attempts _ _ Hok).
  apply task_ok_set; [done|unfold task_states; set_solver|lia|]. unfold lease_ok. simpl.
  split_and!; [by eexists|by eexists|lia].
Qed.
End keeps.

#[export] Hint Resolve create_mission_keeps set_mission_state_keeps submit_task_keeps
  complete_task_keeps block_task_keeps fail_task_keeps recover_keeps claim_keeps : respects.

(** * What the state store guarantees: closed forms of its methods on
    well-formed tables, and the properties of the queue that follow. *)

(** The rows after [recover_expired_leases]. *)
Definition recover_rows (ts : Q) (rows : list task_row) : list task_row :=
  update_where (lease_expired ts) (task_release "QUEUED" ts) rows.

(** The statement of one store call, results and exceptions dropped. *)
Inductive store_op :=
| OpCreate (mid sid st : string) (now : option Q)
| OpSetState (mid st reason : string) (now : option Q)
| OpSubmit (mid kind : string) (payload : dict) (key : string) (prio maxa : Z)
    (tid : option string) (now : option Q)
| OpRecover (now : option Q)
| OpClaim (worker : string) (secs : Q) (now : option Q) (mid : option string)
| OpComplete (id worker : string) (now : option Q)
| OpBlock (id worker reason : string) (now : option Q)
| OpFail (id worker err : string) (delay : Q) (now : option Q).

Section props.
Context `{JsonText, Entropy}.

Definition run_store_op (o : store_op) (w : World) : World :=
  match o with
  | OpCreate mid sid st now => snd (create_mission mid sid st now w)
  | OpSetState mid st reason now => snd (set_mission_state mid st reason now w)
  | OpSubmit mid kind payload key prio maxa tid now =>
      snd (submit_task mid kind payload key prio maxa tid now w)
  | OpRecover now => snd (recover_expired_leases now w)
  | OpClaim worker secs now mid => snd (claim_next worker secs now mid w)
  | OpComplete id worker now => snd (complete_task id worker now w)
  | OpBlock id worker reason now => snd (block_task id worker reason now w)
  | OpFail id worker err delay now => snd (fail_task id worker err delay now w)
  end.

Definition run_store_ops (ops : list store_op) (w : World) : World :=
  fold_left (λ w o, run_store_op o w) ops w.

Lemma run_store_op_wf o w : db_wf (w_db w) → db_wf (w_db (run_store_op o w)).
Proof.
  destruct o; simpl.
  - apply create_mission_keeps.
  - apply set_mission_state_keeps.
  - apply submit_task_keeps.
  - apply recover_keeps.
  - apply claim_keeps.
  - apply complete_task_keeps.
  - apply block_task_keeps.
  - apply fail_task_keeps.
Qed.

Lemma run_store_ops_wf ops : ∀ w, db_wf (w_db w) → db_wf (w_db (run_store_ops ops w)).
Proof.
  induction ops as [|o ops IH]; intros w Hw; [done|].
  apply IH, run_store_op_wf, Hw.
Qed.

(** C1. Whatever methods of the store are called, in whatever order, and
    whether they return or raise, the tables stay well formed: keys are
    unique, every task belongs to a mission, a task carries a lease exactly
    while it is running, its payload parses, and the transition log replays
    to the current state of every mission and every task. *)
Theorem store_invariant ops : db_wf (w_db (run_store_ops ops init_world)).
Proof. apply run_store_ops_wf, empty_db_wf. Qed.

(** ** Recovery *)
Lemma task_release_idem st ts r : task_release st ts (task_release st ts r) = task_release st ts r.
Proof. reflexivity. Qed.

Definition release_ids (ts : Q) (ids : list string) (rows : list task_row) : list task_row :=
  map (λ x, if str_in (t_id x) ids then task_release "QUEUED" ts x else x) rows.

Lemma release_ids_cons ts id ids rows :
  release_ids ts ids (update_row t_id id (task_release "QUEUED" ts) rows)
  = release_ids ts (id :: ids) rows.
Proof.
  unfold release_ids, update_row, update_where, has_key. rewrite map_map. apply map_ext.
  intros x. simpl. destruct (t_id x =s id) eqn:E; simpl; [|done].
  by destruct (str_in (t_id x) ids).
Qed.

Lemma recover_loop_run ts rows : ∀ w, ∃ l w',
  for_each rows (recover_row ts) w = (Ok l, w') ∧
  tasks (w_db w') = release_ids ts (map t_id rows) (tasks (w_db w)) ∧
  missions (w_db w') = missions (w_db w) ∧ db_ledger (w_db w') = db_ledger (w_db w).
Proof.
  induction rows as [|r rows IH]; intros w.
  - exists [], w. split_and!; try done. unfold release_ids. simpl. by rewrite map_id.
  - destruct (IH (recovered ts r w)) as (l & w' & E & Ht & Hm & Hl).
    exists (tt :: l), w'. rewrite recover_loop_cons, E. split_and!; try done.
    rewrite Ht. simpl. by rewrite <- release_ids_cons.
Qed.

Lemma release_expired ts rows :
  unique_key t_id rows →
  release_ids ts (map t_id (List.filter (lease_expired ts) rows)) rows = recover_rows ts rows.
Proof.
  intros Hu. unfold release_ids, recover_rows, update_where. apply map_ext_in. intros x Hx.
  apply list_elem_of_In in Hx.
  destruct (str_in (t_id x) _) eqn:E.
  - apply str_in_iff, list_elem_of_fmap in E as (y & Hid & Hy).
    apply list_elem_of_In, filter_In in Hy as [Hy Hexp]. apply list_elem_of_In in Hy.
    assert (x = y) as ->; [|by rewrite Hexp].
    pose proof (find_row_unique t_id _ x Hu Hx) as Ex.
    pose proof (find_row_unique t_id _ y Hu Hy) as Ey. rewrite Hid, Ey in Ex. congruence.
  - destruct (lease_expired ts x) eqn:Hexp; [|done].
    assert (str_in (t_id x) (map t_id (List.filter (lease_expired ts) rows)) = true); [|congruence].
    apply str_in_iff, list_elem_of_fmap_2, list_elem_of_In, filter_In.
    split; [by apply list_elem_of_In|done].
Qed.

Lemma recover_run ts w :
  db_wf (w_db w) → ∃ w',
    recover_expired_leases (Some ts) w
      = (Ok (Z.of_nat (length (List.filter (lease_expired ts) (tasks (w_db w))))), w') ∧
    tasks (w_db w') = recover_rows ts (tasks (w_db w)) ∧
    missions (w_db w') = missions (w_db w) ∧ db_ledger (w_db w') = db_ledger (w_db w) ∧ db_wf (w_db w').
Proof.
  intros Hw.
  destruct (recover_loop_run ts (List.filter (lease_expired ts) (tasks (w_db w))) w)
    as (l & w' & E & Ht & Hm & Hl).
  exists w'. unfold recover_expired_leases, now_or_time. run_io. rewrite E.
  rewrite Ht, (release_expired ts _ (wf_tasks _ Hw)). split_and!; try done.
  pose proof (recover_keeps (Some ts) w Hw) as Hk. revert Hk.
  unfold recover_expired_leases, now_or_time. run_io. rewrite E. done.
Qed.

Lemma recover_rows_none_expired ts rows :
  List.filter (lease_expired ts) (recover_rows ts rows) = [].
Proof.
  unfold recover_rows, update_where. induction rows as [|r rows IH]; [done|]. simpl.
  destruct (lease_expired ts r) eqn:E; simpl; [|by rewrite E].
  unfold lease_expired at 1. simpl. done.
Qed.

(** Crash recovery: [recover_expired_leases] returns the number of running
    tasks whose lease has expired, requeues exactly those (clearing their
    lease), leaves every other row alone, and run again at the same instant
    finds nothing left to recover. *)
Theorem recover_expired_leases_correct ts w (Hw : db_wf (w_db w)) :
  ∃ w', recover_expired_leases (Some ts) w
          = (Ok (Z.of_nat (length (List.filter (lease_expired ts) (tasks (w_db w))))), w')
    ∧ tasks (w_db w') = recover_rows ts (tasks (w_db w))
    ∧ ∃ w'', recover_expired_leases (Some ts) w' = (Ok 0%Z, w'')
        ∧ tasks (w_db w'') = tasks (w_db w').
Proof.
  destruct (recover_run ts w Hw) as (w' & E & Ht & _ & _ & Hw'). exists w'. split_and!; try done.
  destruct (recover_run ts w' Hw') as (w'' & E' & Ht' & _ & _ & _). exists w''.
  rewrite E', Ht', Ht, recover_rows_none_expired. split; [done|].
  unfold recover_rows at 1, update_where. rewrite <- (map_id (recover_rows ts (tasks (w_db w)))) at 2.
  apply map_ext_in. intros x Hx. destruct (lease_expired ts x) eqn:Ee; [|done].
  pose proof (recover_rows_none_expired ts (tasks (w_db w))) as Hn.
  assert (In x []) as []. rewrite <- Hn. by apply filter_In.
Qed.

(** ** Claiming *)
Lemma claim_leb_total r s : claim_leb r s = true ∨ claim_leb s r = true.
Proof.
  unfold claim_leb. destruct (Z.ltb_spec (t_priority s) (t_priority r)); [by left|].
  destruct (Z.ltb_spec (t_priority r) (t_priority s)); [by right|]. simpl.
  assert (t_priority r = t_priority s) as -> by lia. rewrite Z.eqb_refl. simpl.
  rewrite !qle_true. destruct (Qlt_le_dec (t_created_at r) (t_created_at s)); [left; lra | right; lra].
Qed.
Lemma claim_leb_trans r s t : claim_leb r s = true → claim_leb s t = true → claim_leb r t = true.
Proof.
  unfold claim_leb. rewrite !orb_true_iff, !andb_true_iff, !Z.ltb_lt, !Z.eqb_eq, !qle_true.
  intros [?|[? ?]] [?|[? ?]]; [left; lia|left; lia|left; lia|right]. split; [lia|lra].
Qed.

Lemma claim_row_best ts mid rows r :
  claim_row ts mid rows = Some r →
  r ∈ rows ∧ claimable ts mid r = true ∧ ∀ s, s ∈ rows → claimable ts mid s = true → claim_leb r s = true.
Proof.
  intros Hc. pose proof (claim_row_Some _ _ _ _ Hc) as [? ?]. split_and!; [done..|].
  intros s Hs Hsc. apply (order_by_head_least _ claim_leb_total claim_leb_trans) in Hc as [_ Hbest].
  apply Hbest. apply list_elem_of_In, filter_In. split; [by apply list_elem_of_In|done].
Qed.
Lemma claim_row_none ts mid rows :
  claim_row ts mid rows = None ↔ ∀ s, s ∈ rows → claimable ts mid s = false.
Proof.
  unfold claim_row. rewrite order_by_head_None. split.
  - intros E s Hs. destruct (claimable ts mid s) eqn:Ec; [|done].
    assert (In s []) as []. rewrite <- E. apply filter_In. by rewrite <- list_elem_of_In.
  - intros Hn. destruct (List.filter _ rows) as [|s l] eqn:E; [done|].
    assert (In s (List.filter (claimable ts mid) rows)) as Hin by (rewrite E; by left).
    apply filter_In in Hin as [Hin Hc]. apply list_elem_of_In in Hin. rewrite Hn in Hc; done.
Qed.

Definition claim_outcome (worker : string) (secs ts : Q) (mid : option string) (w : World)
    (res : result (option TaskLease)) (w' : World) : Prop :=
  let rows := recover_rows ts (tasks (w_db w)) in
  match claim_row ts mid rows with
  | None => res = Ok None ∧ tasks (w_db w') = rows
  | Some r => ∃ payload, loads (t_payload_json r) = Some payload
      ∧ res = Ok (Some (lease_of r worker (ts + secs)%Q payload))
      ∧ tasks (w_db w') = update_row t_id (t_id r) (task_lease worker (ts + secs) ts) rows
  end.

Lemma claim_run worker secs ts mid w :
  db_wf (w_db w) → (0 < secs)%Q → ∃ res w',
    claim_next worker secs (Some ts) mid w = (res, w') ∧ claim_outcome worker secs ts mid w res w'
    ∧ db_wf (w_db w').
Proof.
  intros Hw Hs. destruct (recover_run ts w Hw) as (w1 & E1 & Ht1 & _ & _ & Hw1).
  pose proof (claim_keeps worker secs (Some ts) mid w Hw) as Hk. revert Hk.
  unfold claim_outcome, claim_next, now_or_time. rewrite <- Ht1. run_io.
  rewrite (proj2 (qle_false secs 0)) by done. unfold mret, M_ret in *. rewrite E1.
  destruct (claim_row ts mid (tasks (w_db w1))) as [r|] eqn:Ec; simpl.
  - apply claim_row_Some in Ec as [Hin _].
    pose proof (wf_rows _ Hw1) as Hr. rewrite Forall_forall in Hr.
    destruct (ok_payload _ _ (Hr r Hin)) as [payload Hp]. rewrite Hp. simpl.
    intros Hk. eexists _, _. split; [done|]. split; [|exact Hk]. by exists payload.
  - intros Hk. eexists _, _. split; [done|]. split; [done|exact Hk].
Qed.

(** C2. [claim_next] serves the queue in order: after requeuing expired leases
    it leases a due QUEUED task (of the requested mission) of the highest
    priority and, among those, the earliest created; exactly that row becomes
    RUNNING with the worker's lease and one more attempt.  It returns None
    exactly when no task is due. *)
Theorem claim_next_best worker secs ts mid w
    (Hw : db_wf (w_db w)) (Hsecs : (0 < secs)%Q) :
  let rows := recover_rows ts (tasks (w_db w)) in
  (∃ r payload w',
     claim_next worker secs (Some ts) mid w = (Ok (Some (lease_of r worker (ts + secs)%Q payload)), w')
     ∧ r ∈ rows ∧ claimable ts mid r = true ∧ loads (t_payload_json r) = Some payload
     ∧ (∀ s, s ∈ rows → claimable ts mid s = true → claim_leb r s = true)
     ∧ tasks (w_db w') = update_row t_id (t_id r) (task_lease worker (ts + secs) ts) rows)
  ∨ (∃ w', claim_next worker secs (Some ts) mid w = (Ok None, w')
     ∧ (∀ s, s ∈ rows → claimable ts mid s = false) ∧ tasks (w_db w') = rows).
Proof.
  intros rows. destruct (claim_run worker secs ts mid w Hw Hsecs) as (res & w' & E & Ho & _).
  unfold claim_outcome in Ho. fold rows in Ho. rewrite E.
  destruct (claim_row ts mid rows) as [r|] eqn:Ec.
  - left. destruct Ho as (payload & Hp & -> & Ht). apply claim_row_best in Ec as (? & ? & ?).
    by exists r, payload, w'.
  - right. destruct Ho as [-> Ht]. exists w'. by rewrite <- claim_row_none.
Qed.

(** A row with a live lease survives recovery, and cannot be claimed. *)
Lemma live_lease_kept ts r u :
  t_state r = "RUNNING" → t_lease_until r = Some u → (ts < u)%Q →
  lease_expired ts r = false ∧ ∀ mid, claimable ts mid r = false.
Proof.
  intros Hs Hu Hlt. unfold lease_expired, claimable. rewrite Hs, Hu. simpl.
  rewrite (proj2 (qle_false u ts)) by done. done.
Qed.

Lemma recover_rows_find ts rows id :
  find_row t_id id (recover_rows ts rows)
  = (λ r, if lease_expired ts r then task_release "QUEUED" ts r else r) <$> find_row t_id id rows.
Proof.
  unfold recover_rows, update_where, find_row, has_key. induction rows as [|r rows IH]; [done|]. simpl.
  assert (t_id (if lease_expired ts r then task_release "QUEUED" ts r else r) = t_id r) as ->
    by (by destruct (lease_expired ts r)).
  by destruct (t_id r =s id).
Qed.

Lemma recovered_claim_keeps worker secs ts mid w res w' r u :
  db_wf (w_db w) → claim_outcome worker secs ts mid w res w' →
  t_state r = "RUNNING" → t_lease_until r = Some u → (ts < u)%Q →
  find_row t_id (t_id r) (tasks (w_db w)) = Some r →
  find_row t_id (t_id r) (tasks (w_db w')) = Some r ∧ ∀ l, res = Ok (Some l) → l_id l ≠ t_id r.
Proof.
  intros Hw Ho Hst Hu Hlt Hf. unfold claim_outcome in Ho.
  destruct (live_lease_kept ts r u Hst Hu Hlt) as [Hne Hnc].
  assert (Hrec : find_row t_id (t_id r) (recover_rows ts (tasks (w_db w))) = Some r)
    by (by rewrite recover_rows_find, Hf; simpl; rewrite Hne).
  destruct (claim_row ts mid _) as [s|] eqn:Ec.
  - destruct Ho as (payload & _ & -> & ->). apply claim_row_best in Ec as (Hin & Hc & _).
    assert (Hids : t_id s ≠ t_id r).
    { intros Eid. destruct (recover_run ts w Hw) as (w1 & _ & Ht1 & _ & _ & Hw1).
      rewrite <- Ht1 in Hin, Hrec. pose proof (find_row_unique t_id _ s (wf_tasks _ Hw1) Hin) as Es.
      rewrite Eid, Hrec in Es. injection Es as ->. by rewrite Hnc in Hc. }
    split; [|by intros l [= <-]]. rewrite find_update_ne; [done|done|congruence].
  - destruct Ho as [-> ->]. done.
Qed.

(** The row a claim leased. *)
Lemma claimed_row worker secs ts mid w l w' :
  db_wf (w_db w) → claim_outcome worker secs ts mid w (Ok (Some l)) w' →
  ∃ r, l_id l = t_id r ∧ find_row t_id (t_id r) (tasks (w_db w')) = Some r ∧ t_state r = "RUNNING"
    ∧ t_lease_owner r = Some worker ∧ t_lease_until r = Some (ts + secs)%Q.
Proof.
  intros Hw Ho. unfold claim_outcome in Ho. destruct (claim_row ts mid _) as [r|] eqn:Ec; [|by destruct Ho].
  destruct Ho as (payload & _ & [= ->] & Ht). apply claim_row_best in Ec as (Hin & _ & _).
  destruct (recover_run ts w Hw) as (w0 & _ & Ht0 & _ & _ & Hw0). rewrite <- Ht0 in Hin, Ht.
  pose proof (find_row_unique t_id _ r (wf_tasks _ Hw0) Hin) as Hr.
  exists (task_lease worker (ts + secs) ts r). split_and!; try done.
  rewrite Ht. by rewrite find_update_eq; [simpl; rewrite Hr|].
Qed.

(** A call that takes the time from the clock is the call at that time. *)
Lemma claim_at worker secs now mid w :
  ∃ w0, w_db w0 = w_db w
    ∧ claim_next worker secs now mid w = claim_next worker secs (Some (default (time_at (w_tick w)) now)) mid w0.
Proof. destruct now as [t|]; [by exists w|by exists (tick w)]. Qed.
Lemma recover_at now w :
  ∃ w0, w_db w0 = w_db w
    ∧ recover_expired_leases now w = recover_expired_leases (Some (default (time_at (w_tick w)) now)) w0.
Proof. destruct now as [t|]; [by exists w|by exists (tick w)]. Qed.

(** [o], called in the state [w], leaves a lease of [id] until [until] to its [worker]: it
    is not late enough to find it expired, and is not the worker's own report on it. *)
Definition leaves_lease (worker id : string) (until : Q) (o : store_op) (w : World) : Prop :=
  match o with
  | OpRecover now | OpClaim _ _ now _ => (default (time_at (w_tick w)) now < until)%Q
  | OpComplete id' worker' _ | OpBlock id' worker' _ _ | OpFail id' worker' _ _ _ => ¬ (id' = id ∧ worker' = worker)
  | OpCreate _ _ _ _ | OpSetState _ _ _ _ | OpSubmit _ _ _ _ _ _ _ _ => True
  end.
Fixpoint leave_lease (worker id : string) (until : Q) (ops : list store_op) (w : World) : Prop :=
  match ops with
  | [] => True
  | o :: ops => leaves_lease worker id until o w ∧ leave_lease worker id until ops (run_store_op o w)
  end.

(** The row [r] stays as it is. *)
Definition keeps_row (r : task_row) : relation DB := λ d d',
  find_row t_id (t_id r) (tasks d) = Some r → find_row t_id (t_id r) (tasks d') = Some r.
#[local] Instance keeps_row_preorder r : PreOrder (keeps_row r).
Proof. split; [by intros d Hd|]. intros a b c Hab Hbc Ha. auto. Qed.

Lemma keeps_row_update r id f d :
  (∀ x, t_id (f x) = t_id x) → id ≠ t_id r → keeps_row r d (set_tasks (update_row t_id id f) d).
Proof. intros Hf Hne Hr. simpl. rewrite find_update_ne; [done|done|congruence]. Qed.
Lemma insert_task_keeps_row r x : respects (on_db (keeps_row r)) (insert_task x).
Proof.
  intros w. unfold insert_task. run_io. destruct (row_exists t_id _ _); simpl; [by intros Hr|].
  destruct (row_exists t_idempotency_key _ _); simpl; [by intros Hr|]. destruct (row_exists m_id _ _); simpl; [|by intros Hr].
  unfold on_db, keeps_row. simpl. intros Hr. by rewrite find_row_app, Hr.
Qed.

(** A report on another task, or by a worker that does not hold the lease. *)
Lemma report_keeps_row r owner id worker (f : task_row → task_row) d x :
  t_lease_owner r = Some owner → ¬ (id = t_id r ∧ worker = owner) → (∀ x, t_id (f x) = t_id x) →
  find_row t_id id (tasks d) = Some x → leased_by worker x = true →
  find_row t_id (t_id r) (tasks d) = Some r → find_row t_id (t_id r) (update_row t_id id f (tasks d)) = Some r.
Proof.
  intros Ho Hne Hf Hx [_ Hw]%leased_by_true Hr. rewrite find_update_ne; [done|done|]. intros E.
  apply Hne. rewrite <- E, Hr in Hx. injection Hx as <-. split; [done|congruence].
Qed.
Lemma finish_keeps_row r owner id worker st reason now :
  t_lease_owner r = Some owner → ¬ (id = t_id r ∧ worker = owner) →
  respects (on_db (keeps_row r)) (finish_running id worker st reason now).
Proof.
  intros Ho Hne. unfold finish_running. respects_step; [auto with respects typeclass_instances|].
  intros w. run_io. destruct (find_row t_id id _) as [x|] eqn:E; simpl; [|by intros Hr].
  destruct (leased_by worker x) eqn:El; simpl; [|by intros Hr].
  unfold on_db, keeps_row. simpl. intros Hr. by eapply (report_keeps_row r owner id worker).
Qed.
Lemma fail_keeps_row r owner id worker err delay now :
  t_lease_owner r = Some owner → ¬ (id = t_id r ∧ worker = owner) →
  respects (on_db (keeps_row r)) (fail_task id worker err delay now).
Proof.
  intros Ho Hne. unfold fail_task. respects_step; [auto with respects typeclass_instances|].
  intros w. run_io. destruct (find_row t_id id _) as [x|] eqn:E; simpl; [|by intros Hr].
  destruct (leased_by worker x) eqn:El; simpl; [|by intros Hr].
  unfold on_db, keeps_row. simpl. intros Hr. by eapply (report_keeps_row r owner id worker).
Qed.

(** The calls that ask for expired leases find this one live. *)
Lemma claim_bad_secs worker secs now mid w :
  (secs <= 0)%Q → w_db (snd (claim_next worker secs now mid w)) = w_db w.
Proof.
  intros Hs. destruct (claim_at worker secs now mid w) as (w0 & D & ->). rewrite <- D.
  unfold claim_next, now_or_time. run_io. by rewrite (proj2 (qle_true secs 0)).
Qed.
Lemma op_keeps_row r owner until o w :
  db_wf (w_db w) → t_state r = "RUNNING" → t_lease_owner r = Some owner → t_lease_until r = Some until →
  leaves_lease owner (t_id r) until o w → keeps_row r (w_db w) (w_db (run_store_op o w)).
Proof.
  intros Hw Hst Ho Hu Hl. destruct o; simpl in *.
  - unfold create_mission. by apply respects_db; io_respects.
  - unfold set_mission_state, get_mission. by apply respects_db; io_respects.
  - unfold submit_task. pose proof (insert_task_keeps_row r). apply respects_db. io_respects.
  - destruct (recover_at now w) as (w0 & D & ->). rewrite <- D in Hw |- *. intros Hr.
    destruct (recover_run (default (time_at (w_tick w)) now) w0 Hw) as (w1 & -> & Ht & _).
    simpl. rewrite Ht, recover_rows_find, Hr. simpl. by rewrite (proj1 (live_lease_kept _ _ _ Hst Hu Hl)).
  - destruct (Qlt_le_dec 0 secs) as [Hs|Hs]; [|rewrite claim_bad_secs by done; by intros ?].
    destruct (claim_at worker secs now mid w) as (w0 & D & ->). rewrite <- D in Hw |- *. intros Hr.
    destruct (claim_run worker secs (default (time_at (w_tick w)) now) mid w0 Hw Hs) as (res & w1 & E & Hout & _).
    rewrite E. by eapply recovered_claim_keeps.
  - by apply respects_db; eapply finish_keeps_row.
  - by apply respects_db; eapply finish_keeps_row.
  - by apply respects_db; eapply fail_keeps_row.
Qed.
Lemma ops_keep_row r owner until ops : ∀ w,
  db_wf (w_db w) → t_state r = "RUNNING" → t_lease_owner r = Some owner → t_lease_until r = Some until →
  leave_lease owner (t_id r) until ops w → keeps_row r (w_db w) (w_db (run_store_ops ops w)).
Proof.
  induction ops as [|o ops IH]; intros w Hw Hst Ho Hu Hl; [by intros ?|]. destruct Hl as [Hl Hls]. intros Hr.
  apply (IH (run_store_op o w)); [by apply run_store_op_wf|done..|]. by eapply op_keeps_row.
Qed.

(** C3. Leases are exclusive for as long as they last: whatever store calls follow a
    claim that returned a lease, as long as none is late enough to find it expired and
    none is the holder's own report on the task, the task stays RUNNING under that
    worker's lease with its expiry, and no claim by anybody before the expiry returns
    it. *)
Theorem lease_exclusive worker secs ts mid w l w1 ops
    (Hw : db_wf (w_db w)) (Hsecs : (0 < secs)%Q)
    (Hclaim : claim_next worker secs (Some ts) mid w = (Ok (Some l), w1))
    (Hops : leave_lease worker (l_id l) (ts + secs) ops w1) :
  let w2 := run_store_ops ops w1 in
  (∃ r, find_row t_id (l_id l) (tasks (w_db w2)) = Some r ∧ t_state r = "RUNNING"
        ∧ t_lease_owner r = Some worker ∧ t_lease_until r = Some (ts + secs)%Q)
  ∧ ∀ worker' secs' now' mid' l' w3,
      (default (time_at (w_tick w2)) now' < ts + secs)%Q →
      claim_next worker' secs' now' mid' w2 = (Ok (Some l'), w3) → l_id l' ≠ l_id l.
Proof.
  intros w2. destruct (claim_run worker secs ts mid w Hw Hsecs) as (res & w1' & E1 & Hout & Hw1).
  rewrite Hclaim in E1. injection E1 as <- <-.
  destruct (claimed_row _ _ _ _ _ _ _ Hw Hout) as (r & Hid & Hr & Hst & Ho & Hu).
  rewrite Hid in Hops |- *. assert (Hr2 : find_row t_id (t_id r) (tasks (w_db w2)) = Some r)
    by exact (ops_keep_row r worker _ ops w1 Hw1 Hst Ho Hu Hops Hr).
  split; [by exists r|]. intros worker' secs' now' mid' l' w3 Hlive Hother.
  assert (Hw2 : db_wf (w_db w2)) by by apply run_store_ops_wf.
  destruct (Qlt_le_dec 0 secs') as [Hs|Hs].
  2: { revert Hother. unfold claim_next. intros (t & ? & _ & Hrun)%bind_Ok_inv.
       apply bind_Ok_inv in Hrun as (? & ? & [Hq _]%raise_if_Ok_inv & _). by rewrite (proj2 (qle_true secs' 0)) in Hq. }
  destruct (claim_at worker' secs' now' mid' w2) as (w0 & D & E0). rewrite E0 in Hother. rewrite <- D in Hw2, Hr2.
  destruct (claim_run worker' secs' (default (time_at (w_tick w2)) now') mid' w0 Hw2 Hs) as (res & w4 & E4 & Hout' & _).
  rewrite Hother in E4. injection E4 as <- <-.
  by eapply (recovered_claim_keeps _ _ _ _ _ _ _ r).
Qed.

(** ** Finishing *)

(** Only the lease holder finishes a task: [complete_task] and
    [block_task] by the worker holding the lease put the task in its final
    state, clear the lease and log the transition; by anyone else, or on a
    task that is not running, they raise StateError and change no table. *)
Theorem finish_running_correct task_id worker state reason ts w :
  finish_running task_id worker state reason (Some ts) w =
  match find_row t_id task_id (tasks (w_db w)) with
  | Some r =>
      if leased_by worker r
      then (Ok tt, with_db (λ d,
              set_transitions (add_transition "task" task_id (Some "RUNNING") state reason ts)
                (set_tasks (update_row t_id task_id (task_release state ts)) d)) w)
      else (Raise (Exn StateError "task is not leased by this worker"), w)
  | None => (Raise (Exn StateError "task is not leased by this worker"), w)
  end.
Proof.
  unfold finish_running, now_or_time. run_io. destruct w as [d f s k].
  destruct (find_row t_id task_id _) as [r|]; simpl; [|done].
  by destruct (leased_by worker r).
Qed.

Lemma fail_task_run task_id worker err delay ts w r :
  find_row t_id task_id (tasks (w_db w)) = Some r → leased_by worker r = true →
  let target := if (t_attempts r <? t_max_attempts r)%Z then "QUEUED" else "FAILED" in
  ∃ w' r', fail_task task_id worker err delay (Some ts) w = (Ok target, w')
    ∧ find_row t_id task_id (tasks (w_db w')) = Some r'
    ∧ t_state r' = target ∧ t_attempts r' = t_attempts r ∧ t_last_error r' = Some err
    ∧ t_lease_owner r' = None ∧ (ts <= t_next_run_at r')%Q ∧ (ts + delay <= t_next_run_at r')%Q
    ∧ (∀ id, id ≠ task_id → find_row t_id id (tasks (w_db w')) = find_row t_id id (tasks (w_db w))).
Proof.
  intros Hfind Hlease target. set (f := task_failure target (ts + py_max 0 delay) err ts).
  eexists _, (f r). split.
  { unfold fail_task, now_or_time. run_io. rewrite Hfind, Hlease. simpl. reflexivity. }
  destruct (py_max_ge 0 delay). simpl. split_and!; try done; try lra.
  - by rewrite find_update_eq, Hfind.
  - intros id Hne. by rewrite find_update_ne.
Qed.

(** Bounded retry: [fail_task] by the lease holder requeues the task while
    it has attempts left, due no earlier than now plus the non-negative part
    of the delay, and otherwise makes it FAILED; the row keeps its attempt
    count and records the error. *)
Theorem fail_task_correct task_id worker err delay ts w r
    (Hfind : find_row t_id task_id (tasks (w_db w)) = Some r)
    (Hlease : leased_by worker r = true) :
  let target := if (t_attempts r <? t_max_attempts r)%Z then "QUEUED" else "FAILED" in
  ∃ w' r', fail_task task_id worker err delay (Some ts) w = (Ok target, w')
    ∧ find_row t_id task_id (tasks (w_db w')) = Some r'
    ∧ t_state r' = target ∧ t_attempts r' = t_attempts r ∧ t_last_error r' = Some err
    ∧ t_lease_owner r' = None ∧ (ts <= t_next_run_at r')%Q ∧ (ts + delay <= t_next_run_at r')%Q
    ∧ (∀ id, id ≠ task_id → find_row t_id id (tasks (w_db w')) = find_row t_id id (tasks (w_db w))).
Proof. by apply fail_task_run. Qed.

(** A report that returned put the task in the state it says. *)
Lemma finish_running_Ok task_id worker state reason now w u w' :
  finish_running task_id worker state reason now w = (Ok u, w') →
  ∃ r, find_row t_id task_id (tasks (w_db w')) = Some r ∧ t_state r = state.
Proof.
  unfold finish_running. intros (ts & w1 & _ & Hr)%bind_Ok_inv.
  apply transaction_Ok_inv, bind_Ok_inv in Hr as (row & ? & [-> ->]%query_Ok_inv & Hr).
  destruct (find_row t_id task_id _) as [r|] eqn:E; [|done].
  apply bind_Ok_inv in Hr as (? & ? & [_ ->]%raise_if_Ok_inv & Hr).
  apply bind_Ok_inv in Hr as (? & w2 & [= _ <-] & [= _ <-]). simpl.
  exists (task_release state ts r). by rewrite find_update_eq, E.
Qed.
Lemma fail_task_Ok task_id worker err delay now w state w' :
  fail_task task_id worker err delay now w = (Ok state, w') →
  (state = "QUEUED" ∨ state = "FAILED")
  ∧ ∃ r, find_row t_id task_id (tasks (w_db w')) = Some r ∧ t_state r = state.
Proof.
  unfold fail_task. intros (ts & w1 & _ & Hr)%bind_Ok_inv.
  apply transaction_Ok_inv, bind_Ok_inv in Hr as (row & ? & [-> ->]%query_Ok_inv & Hr).
  destruct (find_row t_id task_id _) as [r|] eqn:E; [|done].
  apply bind_Ok_inv in Hr as (? & ? & [_ ->]%raise_if_Ok_inv & Hr).
  apply bind_Ok_inv in Hr as (? & w2 & [= _ <-] & Hr). apply bind_Ok_inv in Hr as (? & w3 & [= _ <-] & Hr).
  injection Hr as <- <-. simpl. split; [by destruct (_ <? _)%Z; auto|].
  eexists. rewrite find_update_eq, E by done. done.
Qed.

(** ** Submission *)

(** A submission that returned leaves a task under its key: an earlier one, or the
    one asked for. *)
Lemma submit_task_run mid kind payload key prio maxa tid now w id w1 :
  submit_task mid kind payload key prio maxa tid now w = (Ok id, w1) →
  ∃ r, find_row t_idempotency_key key (tasks (w_db w1)) = Some r ∧ t_id r = id
    ∧ (find_row t_idempotency_key key (tasks (w_db w)) = Some r
       ∨ ∃ ts, r = new_task id mid kind payload key prio maxa ts).
Proof.
  unfold submit_task. intros (ts & w0 & Hts & Hr)%bind_Ok_inv.
  assert (w_db w0 = w_db w) as <- by (destruct now; by injection Hts as _ <-).
  apply bind_Ok_inv in Hr as (u & w0' & [_ ->]%raise_if_Ok_inv & Hr).
  apply bind_Ok_inv in Hr as (ex & w0' & [= <- <-] & Hr).
  destruct (find_row t_idempotency_key key _) as [r|] eqn:E; [injection Hr as <- <-; exists r; auto|].
  apply bind_Ok_inv in Hr as (t & w3 & Ht & Hr). assert (w_db w3 = w_db w0) as D3.
  { destruct tid as [t0|]; [destruct (t0 =s "")|]; by injection Ht as _ <-. }
  apply transaction_Ok_inv, bind_Ok_inv in Hr as (ex & w4 & [= <- <-] & Hr). rewrite <- D3 in E.
  rewrite E in Hr. pose proof E as E2.
  apply find_row_None in E2. unfold insert_task in Hr. revert Hr. run_io.
  destruct (row_exists t_id t _); simpl; [done|].
  destruct (row_exists t_idempotency_key key _); simpl; [done|].
  destruct (row_exists m_id mid _); simpl; [|done].
  intros [= <- <-]. simpl. rewrite find_row_snoc by done. simpl. rewrite String.eqb_refl. eexists. split_and!; try done. right. by eexists.
Qed.

(** Submission is idempotent: once a submission with some idempotency key
    has returned a task id, every later submission with that key, whatever
    else it asks for, returns the same id and changes nothing. *)
Theorem submit_task_idempotent mid kind payload key prio maxa tid now w id w1
    mid' kind' payload' prio' maxa' tid' ts'
    (Hfirst : submit_task mid kind payload key prio maxa tid now w = (Ok id, w1))
    (Hmax : (1 ≤ maxa')%Z) :
  submit_task mid' kind' payload' key prio' maxa' tid' (Some ts') w1 = (Ok id, w1).
Proof.
  apply submit_task_run in Hfirst as (r & Hr & <- & _). unfold submit_task, now_or_time. run_io.
  rewrite (proj2 (Z.ltb_ge _ _)) by done. run_io. by rewrite Hr.
Qed.

(** ** Attempts and crashes *)

(** One task with one allowed attempt whose worker never answers. *)
Definition crash_ops (n : nat) : list store_op :=
  [OpCreate "m" "s" "CREATED" (Some 0%Q); OpSubmit "m" "k" [] "key" 0 1 (Some "t") (Some 0%Q)]
  ++ map (λ k, OpClaim "worker" 1 (Some (inject_Z (Z.of_nat k))) None) (seq 1 n).

Definition crashed (n : nat) (w : World) : Prop :=
  db_wf (w_db w) ∧ ∃ r, tasks (w_db w) = [r] ∧ t_attempts r = Z.of_nat n ∧ t_max_attempts r = 1%Z
    ∧ t_next_run_at r = 0%Q
    ∧ (t_state r = "QUEUED" ∨ t_state r = "RUNNING" ∧ ∃ u, t_lease_until r = Some u
          ∧ (u <= inject_Z (Z.of_nat (S n)))%Q).

Lemma crash_claimable ts r :
  (0 <= ts)%Q → t_next_run_at r = 0%Q →
  (t_state r = "QUEUED" ∨ t_state r = "RUNNING" ∧ ∃ u, t_lease_until r = Some u ∧ (u <= ts)%Q) →
  ∃ r', recover_rows ts [r] = [r'] ∧ claim_row ts None [r'] = Some r'
    ∧ t_attempts r' = t_attempts r ∧ t_max_attempts r' = t_max_attempts r ∧ t_next_run_at r' = 0%Q.
Proof.
  intros Hts Hn Hst. unfold recover_rows, update_where, claim_row, lease_expired, claimable. simpl.
  apply qle_true in Hts. destruct Hst as [E|[E (u & Hu & Hle)]]; rewrite E; simpl.
  - exists r. by rewrite E, Hn, Hts.
  - rewrite Hu, (proj2 (qle_true u ts) Hle). eexists. split; [done|]. simpl. by rewrite Hn, Hts.
Qed.

Lemma crash_step n w :
  crashed n w → crashed (S n) (run_store_op (OpClaim "worker" 1 (Some (inject_Z (Z.of_nat (S n)))) None) w).
Proof.
  intros [Hw (r & Ht & Ha & Hm & Hn & Hst)]. set (ts := inject_Z (Z.of_nat (S n))) in *.
  assert (Hts : (0 <= ts)%Q) by (unfold ts, Qle; simpl; lia).
  destruct (crash_claimable ts r Hts Hn Hst) as (r' & Hr & Hc & Ha' & Hm' & Hn').
  simpl. destruct (claim_run "worker" 1 ts None w Hw) as (res & w' & E & Ho & Hw'); [done|].
  rewrite E. cbn [snd]. split; [exact Hw'|]. unfold claim_outcome in Ho. rewrite Ht, Hr, Hc in Ho.
  destruct Ho as (payload & _ & _ & Ht'). rewrite Ht'. unfold update_row, update_where, has_key. simpl.
  rewrite String.eqb_refl. eexists. split; [done|]. simpl. split_and!; [lia|lia|done|]. right.
  split; [done|]. eexists. split; [done|]. unfold ts, Qle. simpl. lia.
Qed.

(** [max_attempts] bounds reported failures only, not crashes: a task
    submitted with a single allowed attempt whose workers let their lease
    expire is recovered and claimed again without limit, so its attempt
    counter exceeds any bound. *)
Theorem attempts_unbounded_on_crash n :
  ∃ r, tasks (w_db (run_store_ops (crash_ops n) init_world)) = [r]
    ∧ t_max_attempts r = 1%Z ∧ t_attempts r = Z.of_nat n.
Proof.
  assert (Hc : crashed n (run_store_ops (crash_ops n) init_world)).
  { induction n as [|n IH].
    - split; [apply run_store_ops_wf, empty_db_wf|]. eexists. split; [reflexivity|].
      simpl. split_and!; try done. by left.
    - unfold crash_ops. rewrite seq_S, map_app, app_assoc. unfold run_store_ops.
      rewrite fold_left_app. simpl fold_left. apply crash_step. exact IH. }
  destruct Hc as [_ (r & Ht & Ha & Hm & _)]. by exists r.
Qed.
End props.
