(* ===== verification/Ledger.v ===== *)
(** immune_core/audit.py and immune_vault/audit_seal.py: the hash-chained audit
    ledger and its externally signed seals. *)

From S2P Require Import Prelude Json Sha256 Schema.

Definition ZERO_HASH : string :=
  "0000000000000000000000000000000000000000000000000000000000000000".

(** [str(previous["event_hash"]) if previous else ZERO_HASH]; rows are kept in
    the order of [seq], the table's integer primary key. *)
Definition head_hash (rows : list audit_row) : string :=
  match last rows with Some r => a_event_hash r | None => ZERO_HASH end.

(** The event dictionary whose canonical text is hashed. *)
Definition event_json (event_id : string) (ts : Q) (actor action : string)
    (mission_id : option string) (payload : json) (prev_hash : string) : json :=
  JObj [("event_id", JStr event_id); ("ts", JNum ts); ("actor", JStr actor);
        ("action", JStr action); ("mission_id", jopt_str mission_id);
        ("payload", payload); ("prev_hash", JStr prev_hash)].

Section ledger.
Context `{JsonText, Entropy}.

(** [hashlib.sha256(self._canonical(event)).hexdigest()] *)
Definition event_digest (e : json) : string := sha256_hex (dumps Compact e).

Definition row_event (r : audit_row) (payload : json) : json :=
  event_json (a_event_id r) (a_ts r) (a_actor r) (a_action r) (a_mission_id r) payload (a_prev_hash r).

Definition audit_append (actor action : string) (payload : dict) (mission_id event_id : option string)
    (now : option Q) : IO string :=
  ts ← now_or_time now;
  eid ← match event_id with
        | Some e => if e =s "" then uuid4 else mret e
        | None => uuid4
        end;
  transaction (
    rows ← query audit_events;
    let prev_hash := head_hash rows in
    let event_hash := event_digest (event_json eid ts actor action mission_id (JObj payload) prev_hash) in
    _ ← raise_if (row_exists a_event_id eid rows)
          IntegrityError "UNIQUE constraint failed: audit_events.event_id";
    _ ← raise_if (row_exists a_event_hash event_hash rows)
          IntegrityError "UNIQUE constraint failed: audit_events.event_hash";
    sequence ← query audit_sequence;
    _ ← exec (set_audit_sequence (λ n, n + 1)%Z);
    _ ← exec (set_audit_events (λ l, l ++
          [{| a_seq := sequence + 1; a_event_id := eid; a_ts := ts; a_actor := actor;
              a_action := action; a_mission_id := mission_id;
              a_payload_json := dumps Compact (JObj payload); a_prev_hash := prev_hash;
              a_event_hash := event_hash |}]));
    mret event_hash).

(** The body of [verify_chain]'s loop, from the hash expected next. *)
Fixpoint check_rows (expected_prev : string) (rows : list audit_row) : result (bool * option Z) :=
  match rows with
  | [] => Ok (true, None)
  | r :: rest =>
      if negb (a_prev_hash r =s expected_prev) then Ok (false, Some (a_seq r))
      else match loads (a_payload_json r) with
           | None => Raise (Exn JSONDecodeError "Expecting value")
           | Some payload =>
               if negb (event_digest (row_event r payload) =s a_event_hash r)
               then Ok (false, Some (a_seq r))
               else check_rows (a_event_hash r) rest
           end
  end.

Definition verify_chain : IO (bool * option Z) :=
  rows ← query audit_events; lift_result (check_rows ZERO_HASH rows).

Definition audit_count : IO Z := query (λ d, Z.of_nat (length (audit_events d))).

(** An audit entry as the components write it. *)
Definition audit (actor action : string) (mission_id : option string) (payload : dict)
    (now : option Q) : IO string :=
  audit_append actor action payload mission_id None now.
End ledger.

(** ** The vault: seals in an external, append-only file *)
Section vault.
Context `{JsonText, Entropy}.
Context (secret : string).

(** [AuditSealVault(secret, seal_file)] *)
Definition audit_seal_vault_init : result unit := demand_key "audit seal key" secret.

Definition seal_sign (payload : dict) : string := hmac_hex secret (dumps CompactAscii (JObj payload)).

Definition seal_payload (generation seq : Z) (head : string) (ts : Q) : dict :=
  [("generation", JInt generation); ("seq", JInt seq); ("head_hash", JStr head); ("ts", JNum ts)].

Definition seal_record (generation seq : Z) (head : string) (ts : Q) : dict :=
  let payload := seal_payload generation seq head ts in
  dset payload "signature" (JStr (seal_sign payload)).

(** [SELECT seq,event_hash ... ORDER BY seq DESC LIMIT 1] *)
Definition ledger_head (rows : list audit_row) : Z * string :=
  match last rows with Some r => (a_seq r, a_event_hash r) | None => (0%Z, ZERO_HASH) end.

Definition seal (generation : Z) (now : option Q) : IO dict :=
  rows ← query audit_events;
  let '(seq, head) := ledger_head rows in
  ts ← now_or_time now;
  let record := seal_record generation seq head ts in
  _ ← modify (with_seal_file (λ f,
        Some (default [] f ++ [dumps CompactAscii (JObj record)])));
  mret record.

(** [item["k"]] and [int(item["k"])] *)
Definition item (d : dict) (k : string) : result json :=
  match dget d k with Some v => Ok v | None => Raise (Exn KeyError k) end.
Definition item_int (d : dict) (k : string) : result Z :=
  match item d k with Ok v => py_int v | Raise e => Raise e end.

(** One line of the seal file against the generation and sequence seen so far. *)
Definition check_seal_line (last_generation last_seq : Z) (line : string) : result (Z * Z * dict) :=
  match loads line with
  | None => Raise (Exn JSONDecodeError "Expecting value")
  | Some (JObj d) =>
      let signature := get_str d "signature" "" in
      let payload := dpop d "signature" in
      if negb (seal_sign payload =s signature) then Raise (Exn AuditSealError "audit seal signature invalid")
      else match item_int payload "generation" with
           | Raise e => Raise e
           | Ok g =>
               if (g <=? last_generation)%Z then Raise (Exn AuditSealError "audit seal rollback detected")
               else match item_int payload "seq" with
                    | Raise e => Raise e
                    | Ok s =>
                        if (s <? last_seq)%Z then Raise (Exn AuditSealError "audit seal rollback detected")
                        else Ok (g, s, dset payload "signature" (JStr signature))
                    end
           end
  | Some _ => Raise (Exn AttributeError "object has no attribute 'pop'")
  end.

Fixpoint check_seal_lines (last_generation last_seq : Z) (lines : list string) : result (list dict) :=
  match lines with
  | [] => Ok []
  | line :: rest =>
      match check_seal_line last_generation last_seq line with
      | Raise e => Raise e
      | Ok (g, s, record) =>
          match check_seal_lines g s rest with
          | Raise e => Raise e
          | Ok records => Ok (record :: records)
          end
      end
  end.

Definition verify_all : IO (list dict) :=
  file ← gets w_seal_file;
  match file with
  | None => throw AuditSealError "audit seal file missing"
  | Some lines => lift_result (check_seal_lines 0 (-1) lines)
  end.

Definition find_seq (seq : Z) (rows : list audit_row) : option audit_row :=
  List.find (λ r, (a_seq r =? seq)%Z) rows.

Definition verify_against_ledger : IO bool :=
  records ← verify_all;
  match last records with
  | None => throw AuditSealError "audit seal file is empty"
  | Some latest =>
      seq ← lift_result (item_int latest "seq");
      if (seq =? 0)%Z then
        n ← audit_count;
        if (n =? 0)%Z then
          head ← lift_result (item latest "head_hash");
          mret (match head with JStr h => h =s ZERO_HASH | _ => false end)
        else mret false
      else
        rows ← query audit_events;
        match find_seq seq rows with
        | None => throw AuditSealError "ledger diverges from external signed seal"
        | Some r =>
            head ← lift_result (item latest "head_hash");
            if a_event_hash r =s py_str head then mret true
            else throw AuditSealError "ledger diverges from external signed seal"
        end
  end.
End vault.
