(* ===== verification/LedgerProps.v ===== *)
(** The audit ledger is append-only, always verifies, and cannot be rewritten
    behind a known head hash or a signed seal without a SHA-256 collision; the seals of the vault pin its history. *)

From S2P Require Import Prelude Json Sha256 Schema Ledger.

Section chain.
Context `{JsonText}.

(** ** Chains of rows *)
Definition row_ok (prev : string) (r : audit_row) : Prop :=
  a_prev_hash r = prev ∧
  ∃ payload, loads (a_payload_json r) = Some payload
             ∧ event_digest (row_event r payload) = a_event_hash r.

Fixpoint chained (prev : string) (rows : list audit_row) : Prop :=
  match rows with
  | [] => True
  | r :: rest => row_ok prev r ∧ chained (a_event_hash r) rest
  end.

Definition head_from (prev : string) (rows : list audit_row) : string :=
  match last rows with Some r => a_event_hash r | None => prev end.

Lemma head_from_snoc prev rows r : head_from prev (rows ++ [r]) = a_event_hash r.
Proof. unfold head_from. by rewrite last_snoc. Qed.

Lemma head_from_cons prev r rows : head_from prev (r :: rows) = head_from (a_event_hash r) rows.
Proof. unfold head_from. rewrite last_cons. by destruct (last rows). Qed.

Lemma chained_snoc prev rows r :
  chained prev (rows ++ [r]) ↔ chained prev rows ∧ row_ok (head_from prev rows) r.
Proof.
  revert prev. induction rows as [|x rows IH]; intros prev; simpl; [tauto|].
  rewrite IH, head_from_cons. tauto.
Qed.

Lemma check_rows_true prev rows : check_rows prev rows = Ok (true, None) ↔ chained prev rows.
Proof.
  revert prev. induction rows as [|r rows IH]; intros prev; simpl; [done|]. unfold row_ok.
  destruct (String.eqb_spec (a_prev_hash r) prev) as [Hp|Hp]; simpl; [|split; [done|tauto]].
  destruct (loads (a_payload_json r)) as [payload|] eqn:El.
  - destruct (String.eqb_spec (event_digest (row_event r payload)) (a_event_hash r)) as [Hh|Hh]; simpl.
    + rewrite IH. split; [|tauto]. intros Hc. split; [|done]. split; [done|]. by exists payload.
    + split; [done|]. intros [[_ (p & [= ->] & ?)] _]. done.
  - split; [done|]. intros [[_ (p & ? & _)] _]. done.
Qed.

(** ** The digest does not depend on the key order of the payload *)
Lemma event_digest_canon eid ts actor action mid p prev :
  event_digest (event_json eid ts actor action mid (jcanon p) prev)
  = event_digest (event_json eid ts actor action mid p prev).
Proof.
  unfold event_digest. rewrite <- (dumps_jcanon Compact (event_json _ _ _ _ _ p _)) by done.
  rewrite <- (dumps_jcanon Compact (event_json _ _ _ _ _ (jcanon p) _)) by done.
  do 2 f_equal. unfold event_json. simpl. by rewrite jcanon_idem.
Qed.

(** What a row says, up to the spelling of its payload text. *)
Record event_view := {
  v_event_id : string; v_ts : Q; v_actor : string; v_action : string;
  v_mission_id : option string; v_payload : option json; v_prev_hash : string; v_event_hash : string;
}.
Definition view (r : audit_row) : event_view :=
  {| v_event_id := a_event_id r; v_ts := a_ts r; v_actor := a_actor r; v_action := a_action r;
     v_mission_id := a_mission_id r; v_payload := jcanon <$> loads (a_payload_json r);
     v_prev_hash := a_prev_hash r; v_event_hash := a_event_hash r |}.

Lemma jopt_str_inj o o' : jcanon (jopt_str o) = jcanon (jopt_str o') → o = o'.
Proof. destruct o, o'; simpl; congruence. Qed.

(** The text whose digest a row is checked against. *)
Definition hashed_text (r : audit_row) : string :=
  match loads (a_payload_json r) with Some p => dumps Compact (row_event r p) | None => "" end.

(** Two verified rows with one hash say the same. *)
Lemma row_ok_inj p1 p2 r1 r2 :
  row_ok p1 r1 → row_ok p2 r2 → a_event_hash r1 = a_event_hash r2 →
  view r1 = view r2 ∨ sha256_collide (hashed_text r1) (hashed_text r2).
Proof.
  intros [_ (q1 & L1 & D1)] [_ (q2 & L2 & D2)] E. pose proof E as Eh. rewrite <- D1, <- D2 in E.
  apply sha256_eq_or_collide in E as [E|]; [left | right; unfold hashed_text; by rewrite L1, L2].
  apply dumps_inj in E. unfold printed, row_event, event_json in E. simpl in E.
  injection E as E1 E2 E3 E4 E5 E6 E7. apply jopt_str_inj in E4. unfold view. rewrite L1, L2. simpl.
  congruence.
Qed.

Lemma chained_inj rows1 : ∀ rows2 prev,
  length rows1 = length rows2 → chained prev rows1 → chained prev rows2 →
  head_from prev rows1 = head_from prev rows2 →
  map view rows1 = map view rows2 ∨ sha256_collide_in (map hashed_text rows1) (map hashed_text rows2).
Proof.
  induction rows1 as [|r1 rows1 IH] using rev_ind; intros rows2 prev Hlen H1 H2 Hh.
  - destruct rows2; [by left|done].
  - destruct rows2 as [|r2 rows2 _] using rev_ind; [rewrite length_app in Hlen; simpl in Hlen; lia|].
    rewrite !length_app in Hlen. simpl in Hlen. rewrite !head_from_snoc in Hh.
    apply chained_snoc in H1 as [H1 R1], H2 as [H2 R2].
    rewrite !map_app. destruct (row_ok_inj _ _ _ _ R1 R2 Hh) as [Hv|Hc].
    2:{ right. eapply sha256_collide_here; [| |exact Hc]; simpl; set_solver. }
    pose proof (f_equal v_prev_hash Hv) as Hp. simpl in Hp.
    rewrite (proj1 R1), (proj1 R2) in Hp.
    destruct (IH rows2 prev) as [Hm|Hc]; [lia|done|done|done| |].
    + left. simpl. by rewrite Hm, Hv.
    + right. eapply sha256_collide_in_mono; [| |exact Hc]; set_solver.
Qed.

(** Tamper evidence: two ledgers that both verify, are equally long and
    end in the same hash contain the same events, field by field (event id,
    time, actor, action, mission, payload, hashes), unless two of their event
    texts are a SHA-256 collision. *)
Theorem verified_ledger_determined rows1 rows2
    (H1 : check_rows ZERO_HASH rows1 = Ok (true, None))
    (H2 : check_rows ZERO_HASH rows2 = Ok (true, None))
    (Hlen : length rows1 = length rows2)
    (Hhead : head_hash rows1 = head_hash rows2) :
  map view rows1 = map view rows2 ∨ sha256_collide_in (map hashed_text rows1) (map hashed_text rows2).
Proof. apply (chained_inj _ _ ZERO_HASH); try done; by apply check_rows_true. Qed.

(** [verify_chain] locates the damage: when it reports a sequence number,
    the rows before that one form a valid chain and the reported row breaks
    it, by its link or by its hash. *)
Theorem verify_chain_locates rows seq
    (Hbad : check_rows ZERO_HASH rows = Ok (false, seq)) :
  ∃ before r after, rows = before ++ r :: after ∧ seq = Some (a_seq r)
    ∧ chained ZERO_HASH before ∧ ¬ row_ok (head_from ZERO_HASH before) r.
Proof.
  revert Hbad. generalize ZERO_HASH as prev. induction rows as [|r rows IH]; intros prev; simpl; [done|].
  destruct (String.eqb_spec (a_prev_hash r) prev) as [Hp|Hp]; simpl.
  2:{ intros [= <-]. exists [], r, rows. split_and!; try done. by intros [? _]. }
  destruct (loads (a_payload_json r)) as [payload|] eqn:El; [|done].
  destruct (String.eqb_spec (event_digest (row_event r payload)) (a_event_hash r)) as [Hh|Hh]; simpl.
  2:{ intros [= <-]. exists [], r, rows. split_and!; try done.
      intros [_ (q & Hq & ?)]. rewrite El in Hq. by injection Hq as ->. }
  intros (before & x & after & -> & Hs & Hc & Hn)%IH.
  exists (r :: before), x, after. rewrite head_from_cons. split_and!; try done.
  split; [|done]. split; [done|]. by exists payload.
Qed.
End chain.

(** ** Append *)
Section append.
Context `{JsonText, Entropy}.

Record ledger_wf (d : LedgerTables) : Prop := {
  lw_chain : chained ZERO_HASH (audit_events d);
  lw_seq : map a_seq (audit_events d) = map Z.of_nat (seq 1 (length (audit_events d)));
  lw_count : audit_sequence d = Z.of_nat (length (audit_events d));
}.

(** Nothing is removed or changed, and a well-formed ledger stays so. *)
Definition ledger_ext (d d' : DB) : Prop :=
  audit_events d `prefix_of` audit_events d' ∧ (ledger_wf d → ledger_wf d').

#[export] Instance ledger_ext_preorder : PreOrder ledger_ext.
Proof.
  split; [by split|]. intros x y z [P1 W1] [P2 W2]. split; [by etrans|auto].
Qed.

Lemma ledger_ext_frame d d' : db_ledger d' = db_ledger d → ledger_ext d d'.
Proof. intros E. split; rewrite E; done. Qed.

Definition new_event (eid : string) (ts : Q) (actor action : string) (mid : option string)
    (payload : dict) (d : LedgerTables) : audit_row :=
  let prev := head_hash (audit_events d) in
  {| a_seq := audit_sequence d + 1; a_event_id := eid; a_ts := ts; a_actor := actor;
     a_action := action; a_mission_id := mid; a_payload_json := dumps Compact (JObj payload);
     a_prev_hash := prev;
     a_event_hash := event_digest (event_json eid ts actor action mid (JObj payload) prev) |}.

Lemma new_event_ok eid ts actor action mid payload d :
  row_ok (head_hash (audit_events d)) (new_event eid ts actor action mid payload d).
Proof.
  split; [done|]. simpl. exists (jcanon (JObj payload)). split; [apply loads_dumps|].
  apply event_digest_canon.
Qed.

Lemma ledger_wf_append eid ts actor action mid payload d :
  ledger_wf d →
  ledger_wf {| audit_events := audit_events d ++ [new_event eid ts actor action mid payload d];
               audit_sequence := audit_sequence d + 1 |}.
Proof.
  intros [Hc Hs Hn]. split; simpl.
  - apply chained_snoc. split; [done|]. apply new_event_ok.
  - rewrite map_app, Hs, length_app. simpl.
    rewrite Nat.add_1_r, seq_S, map_app. simpl. do 2 f_equal. lia.
  - rewrite length_app, Hn. simpl. lia.
Qed.

Definition appended (eid : string) (ts : Q) (actor action : string) (mid : option string)
    (payload : dict) (d : DB) : DB :=
  set_audit_events (λ l, l ++ [new_event eid ts actor action mid payload d])
    (set_audit_sequence (λ n, n + 1)%Z d).

(** The two outcomes of an append once its id and time are drawn. *)
Lemma audit_append_run actor action payload mid eid now w r w' :
  audit_append actor action payload mid eid now w = (r, w') →
  ∃ e ts w0, w_db w0 = w_db w ∧ w_files w0 = w_files w ∧ w_seal_file w0 = w_seal_file w ∧
    let ev := new_event e ts actor action mid payload (w_db w) in
    (row_exists a_event_id e (audit_events (w_db w)) = false
     ∧ row_exists a_event_hash (a_event_hash ev) (audit_events (w_db w)) = false
     ∧ r = Ok (a_event_hash ev) ∧ w' = with_db (appended e ts actor action mid payload) w0)
    ∨ (∃ msg, r = Raise (Exn IntegrityError msg)) ∧ w' = w0.
Proof.
  unfold audit_append. intros E.
  assert (∃ ts w1, now_or_time now w = (Ok ts, w1) ∧ w_db w1 = w_db w ∧ w_files w1 = w_files w
    ∧ w_seal_file w1 = w_seal_file w) as (ts & w1 & E1 & D1 & F1 & S1)
    by (destruct now; simpl; eexists _, _; done).
  rewrite (bind_Ok _ _ _ _ _ E1) in E.
  set (draw := match eid with Some e => _ | None => _ end) in E.
  assert (∃ e w2, draw w1 = (Ok e, w2) ∧ w_db w2 = w_db w ∧ w_files w2 = w_files w
    ∧ w_seal_file w2 = w_seal_file w) as (e & w2 & E2 & D2 & F2 & S2).
  { unfold draw. destruct eid as [e|]; [destruct (e =s "")|]; eexists _, _; split; try reflexivity; done. }
  rewrite (bind_Ok _ _ _ _ _ E2) in E. exists e, ts, w2. split_and!; try done. revert E.
  unfold transaction, mbind, M_bind, query, gets, exec, modify, raise_if, throw, mret, M_ret.
  rewrite <- D2. destruct (row_exists a_event_id e _) eqn:X1; simpl.
  { intros [= <- <-]. right. split; [by eexists|]. by destruct w2. }
  destruct (row_exists a_event_hash _ _) eqn:X2; simpl.
  { intros [= <- <-]. right. split; [by eexists|]. by destruct w2. }
  intros [= <- <-]. left. split_and!; try done.
Qed.

(** A returning audit entry changed the ledger and nothing else. *)
Lemma audit_Ok_run actor action mid payload now w h w' :
  audit actor action mid payload now w = (Ok h, w') →
  ∃ e ts, w_db w' = appended e ts actor action mid payload (w_db w)
    ∧ w_files w' = w_files w ∧ w_seal_file w' = w_seal_file w.
Proof.
  intros (e & ts & w0 & D & F & S & [(_ & _ & _ & ->)|[[x [=]] _]])%audit_append_run.
  exists e, ts. simpl. by rewrite D.
Qed.

(** An audit entry never touches files, and can only fail as a uniqueness error. *)
Lemma audit_outcome actor action mid payload now w r w' :
  audit actor action mid payload now w = (r, w') →
  w_files w' = w_files w ∧ ∀ e, r = Raise e → exn_cls e = IntegrityError.
Proof.
  intros (e & ts & w0 & D & F & S & [(_ & _ & -> & ->)|[[x ->] ->]])%audit_append_run; simpl.
  - by split.
  - split; [done|]. by intros e' [= <-].
Qed.

Lemma files_audit actor action mid payload now : respects same_files (audit actor action mid payload now).
Proof.
  intros w. destruct (audit actor action mid payload now w) as [r w'] eqn:E. by apply audit_outcome in E as [? _].
Qed.

Lemma audit_append_ext actor action payload mid eid now :
  respects (on_db ledger_ext) (audit_append actor action payload mid eid now).
Proof.
  intros w. destruct (audit_append actor action payload mid eid now w) as [r w'] eqn:E.
  apply audit_append_run in E as (e & ts & w0 & D0 & _ & _ & [(_ & _ & -> & ->)|[_ ->]]); simpl.
  - unfold on_db. simpl. rewrite D0. split; [by eexists|].
    intros Hw. exact (ledger_wf_append e ts actor action mid payload (w_db w) Hw).
  - unfold on_db. rewrite D0. reflexivity.
Qed.

Lemma audit_ext actor action mid payload now :
  respects (on_db ledger_ext) (audit actor action mid payload now).
Proof. apply audit_append_ext. Qed.

Lemma append_seal_file actor action payload mid eid now w :
  w_seal_file (snd (audit_append actor action payload mid eid now w)) = w_seal_file w.
Proof.
  destruct (audit_append actor action payload mid eid now w) as [r w'] eqn:E.
  by apply audit_append_run in E as (e & ts & w0 & _ & _ & S0 & [(_ & _ & _ & ->)|[_ ->]]).
Qed.

Lemma verify_chain_ext : respects (on_db ledger_ext) verify_chain.
Proof. unfold verify_chain. solve_respects. Qed.

Lemma audit_append_frame R `{!PreOrder R} actor action payload mid eid now :
  (∀ e ts d, R d (appended e ts actor action mid payload d)) →
  respects (on_db R) (audit_append actor action payload mid eid now).
Proof.
  intros HR w. destruct (audit_append actor action payload mid eid now w) as [r w'] eqn:E.
  apply audit_append_run in E as (e & ts & w0 & D0 & _ & _ & [(_ & _ & -> & ->)|[_ ->]]); simpl;
    unfold on_db; simpl; rewrite D0; [apply HR | reflexivity].
Qed.

Lemma audit_frame R `{!PreOrder R} actor action mid payload now :
  (∀ e ts d, R d (appended e ts actor action mid payload d)) →
  respects (on_db R) (audit actor action mid payload now).
Proof. intros HR. by apply audit_append_frame. Qed.

(** C4. Every append leaves a ledger that verifies: starting from a
    well-formed ledger, [append] keeps all earlier events in place and, when
    it returns, has added one event whose hash it returns; [verify_chain] then
    answers (True, None).  When it raises, the tables are as before. *)
Theorem append_keeps_chain_valid actor action payload mid eid now w r w'
    (Hw : ledger_wf (w_db w))
    (Hrun : audit_append actor action payload mid eid now w = (r, w')) :
  verify_chain w' = (Ok (true, None), w')
  ∧ match r with
    | Ok h => ∃ ev, audit_events (w_db w') = audit_events (w_db w) ++ [ev]
                ∧ a_event_hash ev = h ∧ a_actor ev = actor ∧ a_action ev = action
                ∧ a_mission_id ev = mid ∧ loads (a_payload_json ev) = Some (jcanon (JObj payload))
    | Raise _ => w_db w' = w_db w
    end.
Proof.
  pose proof (respects_run _ _ _ _ _ (audit_append_ext actor action payload mid eid now) Hrun) as [_ Hk].
  split.
  - unfold verify_chain, mbind, M_bind, query, gets, lift_result.
    by rewrite (proj2 (check_rows_true _ _) (lw_chain _ (Hk Hw))).
  - apply audit_append_run in Hrun as (e & ts & w0 & D0 & _ & _ & [(_ & _ & -> & ->)|[[x ->] ->]]); [|done].
    eexists. simpl. rewrite D0. split_and!; try done. apply loads_dumps.
Qed.
End append.

#[export] Hint Resolve audit_append_ext audit_ext verify_chain_ext files_audit : respects.
#[export] Hint Extern 4 (respects (on_db _) (audit _ _ _ _ _)) =>
  apply audit_frame; [typeclasses eauto | intros ? ? ?; first [reflexivity | exact (λ H, H)]] : respects.
#[export] Hint Extern 1 (ledger_ext _ _) => apply ledger_ext_frame; reflexivity : respects.

(** * The signed seals of immune_vault/audit_seal.py pin the history of the
    ledger: growth keeps them valid, rewriting what they cover is detected. *)

Section seal.
Context `{JsonText, Entropy}.
Context (secret : string).

(** ** Seal lines *)
Definition seal_line (g s : Z) (h : string) (ts : Q) : string :=
  dumps CompactAscii (JObj (seal_record secret g s h ts)).

(** The record [verify_all] returns for a line: the keys in sorted order. *)
Definition parsed_record (g s : Z) (h : string) (ts : Q) : dict :=
  [("generation", JInt g); ("head_hash", JStr h); ("seq", JInt s); ("ts", JNum ts);
   ("signature", JStr (seal_sign secret (seal_payload g s h ts)))].

Lemma check_seal_line_run g0 s0 g s h ts :
  check_seal_line secret g0 s0 (seal_line g s h ts)
  = if (g <=? g0)%Z then Raise (Exn AuditSealError "audit seal rollback detected")
    else if (s <? s0)%Z then Raise (Exn AuditSealError "audit seal rollback detected")
    else Ok (g, s, parsed_record g s h ts).
Proof.
  unfold check_seal_line, seal_line. rewrite loads_dumps. simpl.
  set (sorted := [("generation", JInt g); ("head_hash", JStr h); ("seq", JInt s); ("ts", JNum ts)]).
  assert (seal_sign secret sorted = seal_sign secret (seal_payload g s h ts)) as Hsig.
  { unfold seal_sign. rewrite <- (dumps_jcanon CompactAscii (JObj (seal_payload g s h ts))) by done.
    reflexivity. }
  change (dpop _ _) with sorted. change (get_str _ _ _) with (seal_sign secret (seal_payload g s h ts)).
  by rewrite Hsig, String.eqb_refl.
Qed.

Lemma check_seal_line_ok g0 s0 g s h ts :
  (g0 < g)%Z → (s0 ≤ s)%Z →
  check_seal_line secret g0 s0 (seal_line g s h ts) = Ok (g, s, parsed_record g s h ts).
Proof.
  intros Hg Hs. rewrite check_seal_line_run.
  by rewrite (proj2 (Z.leb_gt g g0)), (proj2 (Z.ltb_ge s s0)) by done.
Qed.

(** The generation and sequence a list of lines ends in. *)
Fixpoint seal_frontier (g s : Z) (lines : list string) : result (Z * Z) :=
  match lines with
  | [] => Ok (g, s)
  | line :: rest =>
      match check_seal_line secret g s line with
      | Ok (g', s', _) => seal_frontier g' s' rest
      | Raise e => Raise e
      end
  end.

Lemma check_seal_lines_snoc lines : ∀ g s g1 s1 line g2 s2 rec,
  seal_frontier g s lines = Ok (g1, s1) → check_seal_line secret g1 s1 line = Ok (g2, s2, rec) →
  ∃ recs, check_seal_lines secret g s (lines ++ [line]) = Ok (recs ++ [rec]).
Proof.
  induction lines as [|l lines IH]; intros g s g1 s1 line g2 s2 rec Hf Hl; simpl in *.
  - injection Hf as -> ->. exists []. by rewrite Hl.
  - destruct (check_seal_line secret g s l) as [[[g' s'] r]|]; [|done].
    destruct (IH _ _ _ _ _ _ _ _ Hf Hl) as [recs E]. rewrite E. by exists (r :: recs).
Qed.

Lemma check_seal_lines_last lines : ∀ g s recs line,
  check_seal_lines secret g s (lines ++ [line]) = Ok recs →
  ∃ g1 s1 g2 s2 rec, check_seal_line secret g1 s1 line = Ok (g2, s2, rec) ∧ last recs = Some rec.
Proof.
  induction lines as [|l lines IH]; intros g s recs line; simpl.
  - destruct (check_seal_line secret g s line) as [[[g' s'] r]|] eqn:E; [|done].
    intros [= <-]. by eexists _, _, _, _, _.
  - destruct (check_seal_line secret g s l) as [[[g' s'] r]|]; [|done].
    destruct (check_seal_lines secret g' s' (lines ++ [line])) as [recs'|] eqn:E; [|done].
    intros [= <-]. destruct (IH _ _ _ _ E) as (g1 & s1 & g2 & s2 & rec & Hc & Hlast).
    exists g1, s1, g2, s2, rec. split; [done|]. rewrite last_cons. by rewrite Hlast.
Qed.

(** ** Numbered ledgers *)
Lemma find_seq_nth rows k n :
  map a_seq rows = map Z.of_nat (seq k (length rows)) → (k ≤ n)%nat → (n < k + length rows)%nat →
  find_seq (Z.of_nat n) rows = rows !! (n - k)%nat.
Proof.
  revert k. induction rows as [|r rows IH]; intros k E Hk Hn; [simpl in Hn; lia|].
  simpl in E. injection E as Er E. unfold find_seq. simpl. rewrite Er.
  destruct (Z.eqb_spec (Z.of_nat k) (Z.of_nat n)) as [Ek|Ek].
  - assert (n = k) as -> by lia. by rewrite Nat.sub_diag.
  - simpl in Hn. change (find_seq (Z.of_nat n) rows = (r :: rows) !! (n - k)%nat).
    rewrite (IH (S k)) by (done || lia). replace (n - k)%nat with (S (n - S k)) by lia. done.
Qed.

Lemma find_seq_last d n rows' :
  ledger_wf d → length rows' = S n → rows' `prefix_of` audit_events d →
  find_seq (Z.of_nat (S n)) (audit_events d) = last rows'.
Proof.
  intros Hd Hn [l Hl]. assert (length (audit_events d) = (S n + length l)%nat) as Hlen
    by (rewrite Hl, length_app; lia).
  rewrite (find_seq_nth _ 1) by (try apply (lw_seq _ Hd); lia).
  rewrite Hl, last_lookup, Hn. simpl. rewrite Nat.sub_0_r, lookup_app_l by lia. done.
Qed.

Lemma ledger_head_wf d :
  ledger_wf d → ledger_head (audit_events d) = (Z.of_nat (length (audit_events d)), head_hash (audit_events d)).
Proof.
  intros Hd. unfold ledger_head, head_hash.
  destruct (audit_events d) as [|r l _] eqn:E using rev_ind; [done|]. rewrite last_snoc. f_equal.
  pose proof (lw_seq _ Hd) as Hs. rewrite E, map_app, length_app in Hs. simpl in Hs.
  rewrite Nat.add_1_r, seq_S, map_app in Hs. simpl in Hs.
  apply app_inj_tail in Hs as [_ ->]. rewrite length_app. simpl. lia.
Qed.

Lemma verify_all_snoc w lines line g1 s1 g2 s2 rec :
  w_seal_file w = Some (lines ++ [line]) → seal_frontier 0 (-1) lines = Ok (g1, s1) →
  check_seal_line secret g1 s1 line = Ok (g2, s2, rec) →
  ∃ recs, verify_all secret w = (Ok (recs ++ [rec]), w).
Proof.
  intros Hf Hfr Hl. destruct (check_seal_lines_snoc _ _ _ _ _ _ _ _ _ Hfr Hl) as [recs E].
  exists recs. unfold verify_all, mbind, M_bind, gets, lift_result. by rewrite Hf, E.
Qed.

(** The check of a non-empty ledger against the latest record. *)
Lemma verify_against_run w recs g s h ts :
  verify_all secret w = (Ok (recs ++ [parsed_record g s h ts]), w) → s ≠ 0%Z →
  verify_against_ledger secret w
  = match find_seq s (audit_events (w_db w)) with
    | Some r => if a_event_hash r =s h then (Ok true, w)
                else (Raise (Exn AuditSealError "ledger diverges from external signed seal"), w)
    | None => (Raise (Exn AuditSealError "ledger diverges from external signed seal"), w)
    end.
Proof.
  intros E Hs. unfold verify_against_ledger. rewrite (bind_Ok _ _ _ _ _ E), last_snoc.
  unfold mbind, M_bind, lift_result, query, gets, mret, M_ret, throw. simpl.
  destruct (Z.eqb_spec s 0) as [?|_]; [done|].
  destruct (find_seq s _) as [r|]; [|done]. by destruct (a_event_hash r =s h).
Qed.

(** The ledger and the seal file a seal leaves. *)
Lemma seal_run g now w :
  ledger_wf (w_db w) → ∃ ts w',
    seal secret g now w = (Ok (seal_record secret g (Z.of_nat (length (audit_events (w_db w))))
                                 (head_hash (audit_events (w_db w))) ts), w')
    ∧ w_db w' = w_db w
    ∧ w_seal_file w' = Some (default [] (w_seal_file w) ++
        [seal_line g (Z.of_nat (length (audit_events (w_db w)))) (head_hash (audit_events (w_db w))) ts]).
Proof.
  intros Hw. unfold seal, mbind, M_bind, query, gets. rewrite (ledger_head_wf _ Hw).
  destruct now as [t|]; simpl; [exists t | exists (time_at (w_tick w))]; eexists; done.
Qed.

(** Seals survive growth: after [seal] on a non-empty ledger with a
    generation above all earlier ones, [verify_against_ledger] answers True,
    and keeps answering True whatever is appended to the ledger later. *)
Theorem seal_valid_under_growth g now w g0 s0 rec w1 w2
    (Hw : ledger_wf (w_db w)) (Hne : audit_events (w_db w) ≠ [])
    (Hold : seal_frontier 0 (-1) (default [] (w_seal_file w)) = Ok (g0, s0))
    (Hgen : (g0 < g)%Z) (Hseq : (s0 ≤ Z.of_nat (length (audit_events (w_db w))))%Z)
    (Hseal : seal secret g now w = (Ok rec, w1))
    (Hgrow : ledger_ext (w_db w1) (w_db w2)) (Hfile : w_seal_file w2 = w_seal_file w1) :
  verify_against_ledger secret w2 = (Ok true, w2).
Proof.
  destruct (seal_run g now w Hw) as (ts & w1' & E & D & F). rewrite Hseal in E. injection E as _ <-.
  assert (∃ n, length (audit_events (w_db w)) = S n) as [n Hn]
    by (destruct (audit_events (w_db w)); [done | by eexists]).
  rewrite Hn in *.
  assert (Hl := check_seal_line_ok g0 s0 g (Z.of_nat (S n)) (head_hash (audit_events (w_db w))) ts Hgen Hseq).
  destruct (verify_all_snoc w2 _ _ _ _ _ _ _ (eq_trans Hfile F) Hold Hl) as [recs Ev].
  rewrite (verify_against_run _ _ _ _ _ _ Ev) by lia.
  rewrite D in Hgrow. destruct Hgrow as [Hpre Hwf].
  rewrite (find_seq_last _ _ _ (Hwf Hw) Hn Hpre). unfold head_hash.
  destruct (last (audit_events (w_db w))) as [r|] eqn:Elast; [by rewrite String.eqb_refl|].
  by apply last_None in Elast.
Qed.

Lemma chained_prefix prev l1 l2 : chained prev (l1 ++ l2) → chained prev l1.
Proof.
  revert prev. induction l1 as [|r l1 IH]; intros prev; simpl; [done|].
  intros [? Hc]. split; [done|]. by eapply IH.
Qed.

(** C5. History covered by a seal cannot be rewritten: if the latest seal was
    taken of a ledger [d0], and a (possibly different) ledger with a valid
    chain passes [verify_against_ledger], then its first events are exactly
    those of [d0], unless two event texts of the two ledgers collide. *)
Theorem sealed_history_unchanged d0 lines g ts w
    (Hd0 : ledger_wf d0) (Hne : audit_events d0 ≠ []) (Hw : ledger_wf (w_db w))
    (Hfile : w_seal_file w = Some (lines ++
       [seal_line g (Z.of_nat (length (audit_events d0))) (head_hash (audit_events d0)) ts]))
    (Hok : verify_against_ledger secret w = (Ok true, w)) :
  map view (audit_events d0) = map view (take (length (audit_events d0)) (audit_events (w_db w)))
  ∨ sha256_collide_in (map hashed_text (audit_events d0))
      (map hashed_text (take (length (audit_events d0)) (audit_events (w_db w)))).
Proof.
  assert (∃ n, length (audit_events d0) = S n) as [n Hn]
    by (destruct (audit_events d0); [done | by eexists]).
  unfold verify_against_ledger in Hok. apply bind_Ok_inv in Hok as (recs & w' & Hall & Hok).
  unfold verify_all, mbind, M_bind, gets, lift_result in Hall. rewrite Hfile in Hall.
  injection Hall as Hall <-.
  destruct (check_seal_lines_last _ _ _ _ _ Hall) as (g1 & s1 & g2 & s2 & rec & Hl & Hlast).
  rewrite check_seal_line_run in Hl.
  destruct (g <=? g1)%Z; [done|]. destruct (_ <? s1)%Z; [done|]. injection Hl as _ _ <-.
  assert (Hf : ∃ r, find_seq (Z.of_nat (S n)) (audit_events (w_db w)) = Some r
                   ∧ a_event_hash r = head_hash (audit_events d0)).
  { revert Hok. rewrite Hlast, Hn.
    unfold mbind, M_bind, lift_result, query, gets, mret, M_ret, throw. simpl.
    destruct (find_seq _ _) as [r|]; [|done].
    destruct (String.eqb_spec (a_event_hash r) (head_hash (audit_events d0))); [|done].
    intros _. by exists r. }
  destruct Hf as (r & Hr & Hh). set (rows := audit_events (w_db w)) in *.
  assert (Hlen : (S n ≤ length rows)%nat).
  { unfold find_seq in Hr. apply List.find_some in Hr as [Hin Hz%Z.eqb_eq].
    assert (In (a_seq r) (map a_seq rows)) as Hin' by (by apply in_map).
    unfold rows in Hin'. rewrite (lw_seq _ Hw), Hz in Hin'.
    apply in_map_iff in Hin' as (k & Ek & Hk%in_seq). fold rows in Hk. lia. }
  assert (Htake : length (take (S n) rows) = S n) by (rewrite length_take; lia).
  assert (Hlast' : last (take (S n) rows) = Some r).
  { rewrite <- Hr. symmetry. apply (find_seq_last _ _ _ Hw Htake). exists (drop (S n) rows).
    by rewrite take_drop. }
  rewrite Hn. apply (chained_inj _ _ ZERO_HASH); [lia|apply (lw_chain _ Hd0)| |].
  - apply (chained_prefix _ _ (drop (S n) rows)). rewrite take_drop. apply (lw_chain _ Hw).
  - unfold head_from at 2. rewrite Hlast', Hh. done.
Qed.

(** A seal taken of an empty ledger stops verifying as soon as the first
    event is appended: [verify_against_ledger] then answers False although
    the ledger has only grown. *)
Theorem empty_seal_rejects_growth g now w g0 s0 rec w1 actor action payload mid eid t h w2
    (Hw : ledger_wf (w_db w)) (Hempty : audit_events (w_db w) = [])
    (Hold : seal_frontier 0 (-1) (default [] (w_seal_file w)) = Ok (g0, s0))
    (Hgen : (g0 < g)%Z) (Hseq : (s0 ≤ 0)%Z)
    (Hseal : seal secret g now w = (Ok rec, w1))
    (Happend : audit_append actor action payload mid eid t w1 = (Ok h, w2)) :
  verify_against_ledger secret w2 = (Ok false, w2).
Proof.
  destruct (seal_run g now w Hw) as (ts & w1' & E & D & F). rewrite Hseal in E. injection E as _ <-.
  rewrite Hempty in F. simpl in F.
  apply audit_append_run in Happend as (e & t' & w0 & D0 & _ & F0 & [(_ & _ & _ & ->)|[[x Hx] _]]); [|done].
  assert (Hl := check_seal_line_ok g0 s0 g 0 (head_hash []) ts Hgen Hseq).
  rewrite <- F0 in F.
  destruct (verify_all_snoc (with_db (appended e t' actor action mid payload) w0) _ _ _ _ _ _ _ F Hold Hl)
    as [recs Ev].
  unfold verify_against_ledger. rewrite (bind_Ok _ _ _ _ _ Ev), last_snoc.
  unfold audit_count, mbind, M_bind, lift_result, query, gets, mret, M_ret. simpl.
  rewrite D0, D, Hempty. done.
Qed.
End seal.
