(* ===== verification/Engine.v ===== *)
(** immune_core/acceptance.py and immune_core/engine.py: MISSION_PROVEN and the
    durable mission engine. *)

From S2P Require Import Prelude Json Sha256 Schema Storage Ledger.

(** ** Acceptance *)
Definition REQUIRED_GATES : list string :=
  ["scope_explicit"; "observable_result_achieved"; "relevant_tests_passed"; "regression_validated";
   "recovery_validated"; "security_validated"; "evidence_preserved"; "no_critical_blocker";
   "independent_audit_passed"].

Record MissionProof := {
  p_scope_id : string;
  p_proven : bool;
  p_missing_gates : list string;
  p_gates_digest : string;
  p_signature : string;
}.

Section acceptance.
Context `{JsonText, Entropy}.
Context (secret : string).

(** [MissionProofEngine(audit, secret)] *)
Definition mission_proof_engine_init : result unit := demand_key "proof secret" secret.

Definition gates_digest (gates : dict) : string :=
  sha256_hex (dumps CompactAscii (JObj (map (λ name, (name, JBool (is_true gates name))) REQUIRED_GATES))).

Definition proof_payload (scope_id : string) (proven : bool) (missing : list string) (digest : string) : string :=
  dumps CompactAscii (JObj
    [("scope_id", JStr scope_id); ("proven", JBool proven);
     ("missing_gates", JList (map JStr missing)); ("gates_digest", JStr digest)]).

(** [tuple(name for name in REQUIRED_GATES if gates.get(name) is not True)] *)
Definition missing_gates (gates : dict) : list string :=
  List.filter (λ name, negb (is_true gates name)) REQUIRED_GATES.

Definition evaluated_proof (scope_id : string) (gates : dict) : MissionProof :=
  let missing := missing_gates gates in
  let proven := match missing with [] => true | _ => false end in
  let digest := gates_digest gates in
  {| p_scope_id := scope_id; p_proven := proven; p_missing_gates := missing; p_gates_digest := digest;
     p_signature := hmac_hex secret (proof_payload scope_id proven missing digest) |}.

Definition evaluate (scope_id : string) (gates : dict) : IO MissionProof :=
  let proof := evaluated_proof scope_id gates in
  _ ← audit "acceptance-engine" "mission_proof_evaluated" (Some scope_id)
        [("proven", JBool (p_proven proof));
         ("missing_gates", JList (map JStr (p_missing_gates proof)));
         ("gates_digest", JStr (p_gates_digest proof))] None;
  mret proof.

Definition verify_proof (proof : MissionProof) (scope_id : string) : bool :=
  if negb (p_scope_id proof =s scope_id) || negb (p_proven proof)
     || match p_missing_gates proof with [] => false | _ => true end
  then false
  else hmac_hex secret (proof_payload (p_scope_id proof) (p_proven proof) (p_missing_gates proof)
                          (p_gates_digest proof)) =s p_signature proof.
End acceptance.

(** ** Mission state machine *)
Definition MISSION_TRANSITIONS : list (string * list string) :=
  [("CREATED", ["AUTHORIZED"; "CANCELLED"]);
   ("AUTHORIZED", ["DISCOVERING"; "RUNNING"; "CANCELLED"; "FAILED_SAFE"]);
   ("DISCOVERING", ["RUNNING"; "DEGRADED"; "BLOCKED"; "FAILED_SAFE"; "CANCELLED"]);
   ("RUNNING", ["DEGRADED"; "BLOCKED"; "WAITING_HUMAN"; "CONTAINED"; "VALIDATING"; "FAILED_SAFE"; "CANCELLED"]);
   ("DEGRADED", ["RUNNING"; "BLOCKED"; "WAITING_HUMAN"; "CONTAINED"; "VALIDATING"; "FAILED_SAFE"; "CANCELLED"]);
   ("BLOCKED", ["RUNNING"; "WAITING_HUMAN"; "CONTAINED"; "FAILED_SAFE"; "CANCELLED"]);
   ("WAITING_HUMAN", ["RUNNING"; "CONTAINED"; "FAILED_SAFE"; "CANCELLED"]);
   ("CONTAINED", ["RUNNING"; "WAITING_HUMAN"; "VALIDATING"; "FAILED_SAFE"; "CANCELLED"]);
   ("VALIDATING", ["RUNNING"; "DEGRADED"; "COMPLETED"; "FAILED_SAFE"]);
   ("COMPLETED", []);
   ("FAILED_SAFE", ["RUNNING"; "CANCELLED"]);
   ("CANCELLED", [])].

(** [MISSION_TRANSITIONS.get(from_state, set())] *)
Fixpoint table_get (k : string) (t : list (string * list string)) : list string :=
  match t with
  | [] => []
  | (k', v) :: t' => if k' =s k then v else table_get k t'
  end.
Definition allowed (from_state to_state : string) : bool :=
  str_in to_state (table_get from_state MISSION_TRANSITIONS).

(** ** The engine *)
Section engine.
Context `{JsonText, Entropy}.
(** The key of the proof engine, when one was given. *)
Context (proof_engine : option string).

Definition engine_create_mission (mission_id system_id : string) : IO unit :=
  _ ← create_mission mission_id system_id "CREATED" None;
  _ ← audit "sovereign-engine" "mission_created" (Some mission_id) [("system_id", JStr system_id)] None;
  mret tt.

(** [self.proof_engine is None or proof is None or not self.proof_engine.verify(...)] *)
Definition proof_accepted (proof : option MissionProof) (mission_id : string) : bool :=
  match proof_engine, proof with
  | Some secret, Some p => verify_proof secret p mission_id
  | _, _ => false
  end.

Definition transition_mission (mission_id to_state reason : string) (proof : option MissionProof) : IO unit :=
  current ← get_mission mission_id;
  match current with
  | None => throw StateError "mission not found"
  | Some row =>
      let from_state := m_state row in
      _ ← raise_if (negb (allowed from_state to_state)) StateError
            ("invalid mission transition " +:+ from_state +:+ "->" +:+ to_state);
      _ ← raise_if ((to_state =s "COMPLETED") && negb (proof_accepted proof mission_id))
            StateError "COMPLETED requires verified MISSION_PROVEN";
      _ ← set_mission_state mission_id to_state reason None;
      _ ← audit "sovereign-engine" "mission_transition" (Some mission_id)
            [("from", JStr from_state); ("to", JStr to_state); ("reason", JStr reason);
             ("mission_proven", JBool match proof with Some p => p_proven p | None => false end)] None;
      mret tt
  end.

Definition engine_submit_task (mission_id kind : string) (payload : dict) (idempotency_key : string)
    (priority max_attempts : Z) (now : option Q) : IO string :=
  task_id ← submit_task mission_id kind payload idempotency_key priority max_attempts None now;
  _ ← audit "sovereign-engine" "task_submitted" (Some mission_id)
        [("task_id", JStr task_id); ("kind", JStr kind); ("idempotency_key", JStr idempotency_key)] None;
  mret task_id.

Definition engine_claim_next (worker_id : string) (lease_seconds : Q) (now : option Q)
    (mission_id : option string) : IO (option TaskLease) :=
  lease ← claim_next worker_id lease_seconds now mission_id;
  match lease with
  | None => mret None
  | Some l =>
      _ ← audit worker_id "task_claimed" (Some (l_mission_id l))
            [("task_id", JStr (l_id l)); ("attempt", JInt (l_attempts l));
             ("lease_until", JNum (l_lease_until l))] None;
      mret (Some l)
  end.

Definition engine_complete_task (lease : TaskLease) (now : option Q) : IO unit :=
  _ ← complete_task (l_id lease) (l_lease_owner lease) now;
  _ ← audit (l_lease_owner lease) "task_completed" (Some (l_mission_id lease))
        [("task_id", JStr (l_id lease)); ("attempt", JInt (l_attempts lease))] None;
  mret tt.

Definition engine_fail_task (lease : TaskLease) (error : string) (retry_delay : Q) (now : option Q) : IO string :=
  state ← fail_task (l_id lease) (l_lease_owner lease) error retry_delay now;
  _ ← audit (l_lease_owner lease) "task_failed" (Some (l_mission_id lease))
        [("task_id", JStr (l_id lease)); ("attempt", JInt (l_attempts lease)); ("error", JStr error);
         ("next_state", JStr state)] None;
  mret state.

Definition engine_block_task (lease : TaskLease) (reason : string) (now : option Q) : IO unit :=
  _ ← block_task (l_id lease) (l_lease_owner lease) reason now;
  _ ← audit (l_lease_owner lease) "task_blocked" (Some (l_mission_id lease))
        [("task_id", JStr (l_id lease)); ("reason", JStr reason)] None;
  mret tt.

(** [SELECT state, COUNT( * ) AS n FROM tasks GROUP BY state] *)
Definition state_counts (rows : list task_row) : dict :=
  map (λ s, (s, JInt (Z.of_nat (length (List.filter (λ r, t_state r =s s) rows)))))
    (remove_dups (order_by String.leb (map t_state rows))).

Definition resume (now : option Q) : IO dict :=
  recovered ← recover_expired_leases now;
  rows ← query tasks;
  let summary := dset (state_counts rows) "recovered_leases" (JInt recovered) in
  _ ← audit "sovereign-engine" "runtime_resume" None summary None;
  mret summary.
End engine.
