(* ===== verification/EngineProps.v ===== *)
(** The mission engine: legal histories, COMPLETED only on a verified proof,
    and what a proof attests; progress of the task queue. *)

From S2P Require Import Prelude Json Sha256 Schema Storage StorageProps Ledger LedgerProps Engine.

(** ** Acceptance *)
Section acceptance.
Context `{JsonText, Entropy} (secret : string).

Lemma missing_gates_nil gates :
  missing_gates gates = [] ↔ ∀ g, g ∈ REQUIRED_GATES → is_true gates g = true.
Proof.
  unfold missing_gates. generalize REQUIRED_GATES as l. induction l as [|g l IH]; simpl.
  - split; [|done]. intros _ g Hg. by apply elem_of_nil in Hg.
  - destruct (is_true gates g) eqn:E; simpl.
    + rewrite IH. split; [intros Hl x [->|Hx]%elem_of_cons; auto|]. intros Hl x Hx. apply Hl. by right.
    + split; [done|]. intros Hl. rewrite Hl in E; [done|by left].
Qed.

(** MISSION_PROVEN means all nine gates: the proof [evaluate] issues for a
    scope passes [verify] for that scope exactly when every required gate is
    the boolean True, and it never verifies for another scope. *)
Theorem evaluate_verify_iff scope scope' gates :
  verify_proof secret (evaluated_proof secret scope gates) scope' = true
  ↔ scope' = scope ∧ ∀ g, g ∈ REQUIRED_GATES → is_true gates g = true.
Proof.
  rewrite <- missing_gates_nil. unfold verify_proof, evaluated_proof. simpl.
  destruct (String.eqb_spec scope scope') as [<-|Hne]; simpl; [|split; [done|intros [-> _]; done]].
  destruct (missing_gates gates) as [|g l] eqn:E; simpl; [|split; [done|by intros [_ ?]]].
  rewrite String.eqb_refl. done.
Qed.

(** Only signatures made with the engine's key verify: a proof accepted for
    a scope is marked proven, misses no gate, names that scope, and carries
    the HMAC of exactly those fields. *)
Theorem verify_proof_sound proof scope :
  verify_proof secret proof scope = true →
  p_scope_id proof = scope ∧ p_proven proof = true ∧ p_missing_gates proof = []
  ∧ p_signature proof = hmac_hex secret (proof_payload scope true [] (p_gates_digest proof)).
Proof.
  unfold verify_proof. destruct (String.eqb_spec (p_scope_id proof) scope) as [Es|]; [|done]. simpl.
  destruct (p_proven proof); [|done]. simpl. destruct (p_missing_gates proof); [|done].
  intros <-%String.eqb_eq. by rewrite Es.
Qed.
End acceptance.

(** ** Histories *)
Definition legal (t : transition_row) : Prop :=
  tr_entity_type t = "mission" →
  match tr_from_state t with
  | None => tr_to_state t = "CREATED"
  | Some f => allowed f (tr_to_state t) = true
  end.
Definition history_legal (d : DB) : Prop := Forall legal (transitions d).

(** The calls of the engine's interface. *)
Inductive engine_op :=
| ECreate (mid sid : string)
| ETransition (mid to reason : string) (proof : option MissionProof)
| ESubmit (mid kind : string) (payload : dict) (key : string) (prio maxa : Z) (now : option Q)
| EClaim (worker : string) (secs : Q) (now : option Q) (mid : option string)
| EComplete (l : TaskLease) (now : option Q)
| EFail (l : TaskLease) (err : string) (delay : Q) (now : option Q)
| EBlock (l : TaskLease) (reason : string) (now : option Q)
| EResume (now : option Q).

(** The state a mission is in. *)
Definition mission_state (mid : string) (d : DB) : option string := m_state <$> find_row m_id mid (missions d).

Definition same_missions (d d' : DB) : Prop := missions d' = missions d.
#[export] Instance same_missions_preorder : PreOrder same_missions.
Proof. split; [done|]. intros x y z. unfold same_missions. congruence. Qed.

Section engine.
Context `{JsonText, Entropy} (proof_engine : option string).

Definition run_engine_op (o : engine_op) (w : World) : World :=
  match o with
  | ECreate mid sid => snd (engine_create_mission mid sid w)
  | ETransition mid to reason proof => snd (transition_mission proof_engine mid to reason proof w)
  | ESubmit mid kind payload key prio maxa now =>
      snd (engine_submit_task mid kind payload key prio maxa now w)
  | EClaim worker secs now mid => snd (engine_claim_next worker secs now mid w)
  | EComplete l now => snd (engine_complete_task l now w)
  | EFail l err delay now => snd (engine_fail_task l err delay now w)
  | EBlock l reason now => snd (engine_block_task l reason now w)
  | EResume now => snd (resume now w)
  end.
Definition run_engine (ops : list engine_op) (w : World) : World :=
  fold_left (λ w o, run_engine_op o w) ops w.

(** *** The task methods of the store do not touch missions *)
Lemma submit_task_missions mid kind payload key prio maxa tid now :
  respects (on_db same_missions) (submit_task mid kind payload key prio maxa tid now).
Proof. unfold submit_task, insert_task. io_respects. Qed.
Lemma recover_missions now : respects (on_db same_missions) (recover_expired_leases now).
Proof. unfold recover_expired_leases, recover_row. io_respects. Qed.
Lemma claim_missions worker secs now mid : respects (on_db same_missions) (claim_next worker secs now mid).
Proof. unfold claim_next. io_respects; try apply recover_missions; io_respects. Qed.
Lemma finish_missions id worker st reason now :
  respects (on_db same_missions) (finish_running id worker st reason now).
Proof. unfold finish_running. io_respects. Qed.
Lemma fail_missions id worker err delay now :
  respects (on_db same_missions) (fail_task id worker err delay now).
Proof. unfold fail_task. io_respects. Qed.

(** *** Every operation keeps the history legal *)
Lemma legal_task_add id from to reason ts d :
  keeps history_legal d (set_transitions (add_transition "task" id from to reason ts) d).
Proof.
  intros Hd. unfold history_legal, add_transition. simpl. apply Forall_app. split; [done|].
  apply Forall_singleton. intros E. discriminate E.
Qed.
Lemma legal_mission_add id from to reason ts d :
  match from with None => to = "CREATED" | Some f => allowed f to = true end →
  keeps history_legal d (set_transitions (add_transition "mission" id from to reason ts) d).
Proof.
  intros Hok Hd. unfold history_legal, add_transition. simpl. apply Forall_app. split; [done|].
  apply Forall_singleton. intros _. exact Hok.
Qed.
#[local] Hint Resolve legal_task_add legal_mission_add : respects.

Lemma create_mission_legal mid sid now :
  respects (on_db (keeps history_legal)) (create_mission mid sid "CREATED" now).
Proof. unfold create_mission. io_respects. Qed.
Lemma submit_task_legal mid kind payload key prio maxa tid now :
  respects (on_db (keeps history_legal)) (submit_task mid kind payload key prio maxa tid now).
Proof. unfold submit_task, insert_task. io_respects. Qed.
Lemma recover_legal now : respects (on_db (keeps history_legal)) (recover_expired_leases now).
Proof. unfold recover_expired_leases, recover_row. io_respects. Qed.
Lemma claim_legal worker secs now mid :
  respects (on_db (keeps history_legal)) (claim_next worker secs now mid).
Proof. unfold claim_next. io_respects; try apply recover_legal; io_respects. Qed.
Lemma finish_legal id worker st reason now :
  respects (on_db (keeps history_legal)) (finish_running id worker st reason now).
Proof. unfold finish_running. io_respects. Qed.
Lemma fail_legal id worker err delay now :
  respects (on_db (keeps history_legal)) (fail_task id worker err delay now).
Proof. unfold fail_task. io_respects. Qed.

(** What [set_mission_state] does to the tables of an existing mission. *)
Lemma set_mission_state_run mid to reason now w row :
  find_row m_id mid (missions (w_db w)) = Some row → ∃ ts w0,
    w_db w0 = w_db w ∧
    set_mission_state mid to reason now w
    = (Ok tt, with_db (λ d, set_transitions (add_transition "mission" mid (Some (m_state row)) to reason ts)
                (set_missions (update_row m_id mid (mission_set_state to ts)) d)) w0).
Proof.
  intros Hf. unfold set_mission_state, get_mission.
  assert (∃ ts w1, now_or_time now w = (Ok ts, w1) ∧ w_db w1 = w_db w) as (ts & w1 & E1 & D1)
    by (destruct now; simpl; eexists _, _; done).
  exists ts, w1. split; [done|]. rewrite (bind_Ok _ _ _ _ _ E1).
  unfold transaction, mbind, M_bind, query, gets, exec, modify. rewrite D1, Hf. done.
Qed.

(** The transition, past its guards. *)
Lemma transition_mission_cases mid to reason proof w :
  w_db (snd (transition_mission proof_engine mid to reason proof w)) = w_db w
  ∨ ∃ row ts,
      find_row m_id mid (missions (w_db w)) = Some row ∧ allowed (m_state row) to = true
      ∧ (to = "COMPLETED" → proof_accepted proof_engine proof mid = true)
      ∧ db_store (w_db (snd (transition_mission proof_engine mid to reason proof w)))
        = db_store (set_transitions (add_transition "mission" mid (Some (m_state row)) to reason ts)
              (set_missions (update_row m_id mid (mission_set_state to ts)) (w_db w))).
Proof.
  unfold transition_mission, get_mission.
  destruct (find_row m_id mid (missions (w_db w))) as [row|] eqn:Hf.
  2:{ left. unfold mbind, M_bind, query, gets. by rewrite Hf. }
  rewrite (bind_Ok (query _) _ w (Some row) w) by (unfold query, gets; by rewrite Hf). cbv zeta.
  destruct (allowed (m_state row) to) eqn:Ha; [|by left].
  destruct ((to =s "COMPLETED") && negb (proof_accepted proof_engine proof mid)) eqn:Hp.
  { left. unfold mbind, M_bind, raise_if. done. }
  destruct (set_mission_state_run mid to reason None w row Hf) as (ts & w0 & D0 & E).
  right. exists row, ts. split_and!; try done.
  { intros ->. simpl in Hp. by destruct (proof_accepted proof_engine proof mid). }
  rewrite (bind_Ok (raise_if (negb true) _ _) _ w tt w) by done.
  rewrite (bind_Ok (raise_if false _ _) _ w tt w) by done. rewrite (bind_Ok _ _ _ _ _ E).
  set (w1 := with_db _ w0). set (tail := mbind _ _).
  assert (R : respects (on_db (λ d d', db_store d' = db_store d)) tail).
  { assert (PreOrder (λ d d' : DB, db_store d' = db_store d)) by (split; congruence).
    unfold tail. io_respects. }
  specialize (R w1). unfold on_db in R. rewrite R. unfold w1. simpl. by rewrite D0.
Qed.

#[local] Hint Resolve create_mission_legal submit_task_legal claim_legal finish_legal fail_legal
  recover_legal submit_task_missions claim_missions finish_missions fail_missions
  recover_missions : respects.

(** Everything but a transition, one relation at a time. *)
Definition is_transition (o : engine_op) : bool :=
  match o with ETransition _ _ _ _ => true | _ => false end.
Definition is_create (o : engine_op) : bool :=
  match o with ECreate _ _ => true | _ => false end.

Ltac engine_unfold :=
  unfold engine_create_mission, engine_submit_task, engine_claim_next, engine_complete_task,
    engine_fail_task, engine_block_task, resume, complete_task, block_task.

Lemma engine_op_legal o w : history_legal (w_db w) → history_legal (w_db (run_engine_op o w)).
Proof.
  destruct o as [| mid to reason proof | | | | | |]; simpl;
    try solve [apply (respects_keeps history_legal); engine_unfold; io_respects].
  intros Hd. destruct (transition_mission_cases mid to reason proof w) as
    [->|(row & ts & _ & Ha & _ & E)]; [done|]. unfold history_legal. rewrite E.
  by apply (legal_mission_add mid (Some (m_state row)) to reason ts (w_db w)).
Qed.
Lemma engine_op_wf o w : db_wf (w_db w) → db_wf (w_db (run_engine_op o w)).
Proof.
  destruct o as [| mid to reason proof | | | | | |]; simpl;
    try solve [apply (respects_keeps db_wf);
      unfold engine_create_mission, engine_submit_task, engine_claim_next, engine_complete_task,
        engine_fail_task, engine_block_task, resume; io_respects].
  intros Hd. destruct (transition_mission_cases mid to reason proof w) as
    [->|(row & ts & Hf & _ & _ & E)]; [done|]. unfold db_wf. rewrite E.
  by apply (wf_mission_update _ Hd mid row to ts reason).
Qed.
Lemma engine_op_missions o w :
  is_transition o = false → is_create o = false → missions (w_db (run_engine_op o w)) = missions (w_db w).
Proof.
  destruct o; try done; intros _ _; simpl;
    apply (respects_db same_missions); engine_unfold; io_respects.
Qed.

(** C6. Mission histories are legal: whatever the engine is asked to do, the
    transition log of every mission starts at CREATED, every later step is one
    MISSION_TRANSITIONS allows from the state the log was in, and the log ends
    in the mission's current state. *)
Theorem engine_history_legal ops :
  let d := w_db (run_engine ops init_world) in
  history_legal d ∧ log_ok (transitions d)
  ∧ ∀ mid, logged_state (transitions d) "mission" mid = mission_state mid d.
Proof.
  intros d.
  assert (∀ ops w, history_legal (w_db w) ∧ db_wf (w_db w) →
    history_legal (w_db (run_engine ops w)) ∧ db_wf (w_db (run_engine ops w))) as Hrun.
  { clear. induction ops as [|o ops IH]; intros w [Hl Hw]; [done|].
    apply IH. split; [by apply engine_op_legal | by apply engine_op_wf]. }
  destruct (Hrun ops init_world) as [Hl Hw]; [split; [by constructor | apply empty_db_wf]|].
  split_and!; [done | apply (wf_log _ Hw) | apply (wf_log_missions _ Hw)].
Qed.

Lemma create_mission_state mid mid' sid w :
  mission_state mid (w_db (run_engine_op (ECreate mid' sid) w)) = mission_state mid (w_db w)
  ∨ mission_state mid (w_db (run_engine_op (ECreate mid' sid) w)) = Some "CREATED".
Proof.
  set (R := λ d d', mission_state mid d' = mission_state mid d ∨ mission_state mid d' = Some "CREATED").
  assert (PreOrder R).
  { split; [by left|]. intros x y z [E1|E1] [E2|E2]; unfold R; rewrite E2, ?E1; auto. }
  apply (respects_db R). unfold engine_create_mission.
  apply respects_bind; [typeclasses eauto| |intros _].
  2:{ apply respects_bind; [typeclasses eauto| |intros _; apply respects_ret; typeclasses eauto].
      apply audit_frame; [typeclasses eauto|]. intros. by left. }
  unfold create_mission. apply respects_bind; [typeclasses eauto|auto with respects|]. intros ts w1.
  unfold mbind, M_bind, query, gets, exec, modify, raise_if, throw, mret, M_ret. simpl.
  destruct (row_exists m_id mid' _) eqn:Ex; simpl; [by left|]. apply row_exists_false in Ex.
  unfold on_db, R, mission_state. simpl. rewrite find_row_snoc by done. simpl.
  destruct (mid' =s mid); [by right|by left].
Qed.

(** C7. COMPLETED requires a verified MISSION_PROVEN: after any sequence of
    engine calls, a mission is COMPLETED only if one of the calls was its
    transition to COMPLETED carrying a proof that the configured proof engine
    verified for this very mission. *)
Theorem completed_requires_proof ops mid
    (Hdone : mission_state mid (w_db (run_engine ops init_world)) = Some "COMPLETED") :
  ∃ reason proof secret, ETransition mid "COMPLETED" reason (Some proof) ∈ ops
    ∧ proof_engine = Some secret ∧ verify_proof secret proof mid = true.
Proof.
  revert Hdone. induction ops as [|o ops IH] using rev_ind; [done|].
  unfold run_engine. rewrite fold_left_app. cbn [fold_left]. fold (run_engine ops init_world).
  set (w := run_engine ops init_world) in *. intros Hd.
  assert (Hstep : mission_state mid (w_db w) = Some "COMPLETED" ∨
    ∃ reason proof, o = ETransition mid "COMPLETED" reason proof
      ∧ proof_accepted proof_engine proof mid = true).
  { destruct o as [mid' sid|mid' to reason proof|o1|o2|o3|o4|o5|o6] eqn:Eo;
      try (left; unfold mission_state in *; by rewrite engine_op_missions in Hd).
    - destruct (create_mission_state mid mid' sid w) as [E|E]; rewrite E in Hd; [by left|done].
    - simpl in Hd. destruct (transition_mission_cases mid' to reason proof w) as
        [E|(row & ts & Hf & _ & Hp & E)]; [rewrite E in Hd; by left|].
      unfold mission_state in Hd |- *. rewrite E in Hd. simpl in Hd.
      destruct (String.eqb_spec mid mid') as [<-|Hne].
      + rewrite find_update_eq, Hf in Hd by done. injection Hd as ->. right. exists reason, proof. auto.
      + rewrite find_update_ne in Hd by done. by left. }
  destruct Hstep as [Hbefore|(reason & proof & -> & Hacc)].
  - destruct (IH Hbefore) as (reason & proof & secret & Hin & ?). exists reason, proof, secret.
    split; [apply elem_of_app; by left|done].
  - unfold proof_accepted in Hacc. destruct proof_engine as [secret|], proof as [p|]; try done.
    exists reason, p, secret. split; [apply elem_of_app; right; by left|done].
Qed.

(** The states the engine cannot leave are exactly COMPLETED and CANCELLED;
    in particular FAILED_SAFE can be left again, for RUNNING or CANCELLED. *)
Theorem terminal_states from :
  from ∈ map fst MISSION_TRANSITIONS →
  ((∀ to, allowed from to = false) ↔ from = "COMPLETED" ∨ from = "CANCELLED")
  ∧ allowed "FAILED_SAFE" "RUNNING" = true.
Proof.
  intros Hin. split; [|done]. apply list_elem_of_In in Hin. simpl in Hin. split.
  - intros Hno. repeat destruct Hin as [<-|Hin]; auto; try done;
      first [specialize (Hno "CANCELLED"); done | specialize (Hno "RUNNING"); done].
  - intros [->| ->] to; reflexivity.
Qed.
End engine.

(** ** Queueing *)

(** Missions are kept and tasks only added, queued and not yet tried. *)
Definition store_queues (d d' : StoreTables) : Prop :=
  missions d' = missions d
  ∧ ∃ l, tasks d' = tasks d ++ l ∧ Forall (λ t, t_state t = "QUEUED" ∧ t_attempts t = 0%Z) l.
#[export] Instance store_queues_preorder : PreOrder store_queues.
Proof.
  split.
  - intros d. split; [done|]. exists []. by rewrite app_nil_r.
  - intros a b c (M1 & l1 & T1 & F1) (M2 & l2 & T2 & F2). split; [congruence|].
    exists (l1 ++ l2). split; [by rewrite T2, T1, app_assoc | by apply Forall_app].
Qed.
Lemma store_queues_transitions f d : store_queues (db_store d) (db_store (set_transitions f d)).
Proof. split; [done|]. exists []. by rewrite app_nil_r. Qed.
Lemma store_queues_task t d :
  t_state t = "QUEUED" → t_attempts t = 0%Z → store_queues (db_store d) (db_store (set_tasks (λ l, l ++ [t]) d)).
Proof. split; [done|]. exists [t]. split; [done|]. by repeat constructor. Qed.

(** A relation on tables that a submission respects: it allows new transitions, a
    new queued task and a ledger entry. *)
Lemma submit_respects `{JsonText, Entropy} (R : relation DB) `{!PreOrder R} mid kind payload key prio maxa now :
  (∀ f d, R d (set_transitions f d)) →
  (∀ t d, t_state t = "QUEUED" → t_attempts t = 0%Z → R d (set_tasks (λ l, l ++ [t]) d)) →
  (∀ actor action mid payload now, respects (on_db R) (audit actor action mid payload now)) →
  respects (on_db R) (engine_submit_task mid kind payload key prio maxa now).
Proof. intros Ht Hn Ha. unfold engine_submit_task, submit_task, insert_task. io_respects. Qed.

Lemma files_submit `{JsonText, Entropy} mid kind payload key prio maxa now :
  respects same_files (engine_submit_task mid kind payload key prio maxa now).
Proof.
  unfold engine_submit_task, submit_task, insert_task.
  repeat (cbn beta iota zeta; first [respects_step | apply files_transaction]).
Qed.
#[export] Hint Resolve files_submit : respects.

(** *** A task's work order is immutable: only its progress changes *)
Definition task_core (r : task_row) : string * string * string * string * string * Z * Z :=
  (t_id r, t_mission_id r, t_kind r, t_payload_json r, t_idempotency_key r, t_priority r, t_max_attempts r).
Definition cores_grow (d d' : DB) : Prop := ∃ l, map task_core (tasks d') = map task_core (tasks d) ++ l.
#[export] Instance cores_grow_preorder : PreOrder cores_grow.
Proof.
  split; [intros d; exists []; by rewrite app_nil_r|].
  intros a b c [l1 E1] [l2 E2]. exists (l1 ++ l2). by rewrite E2, E1, app_assoc.
Qed.
Definition same_cores (d d' : DB) : Prop := map task_core (tasks d') = map task_core (tasks d).
#[export] Instance same_cores_preorder : PreOrder same_cores.
Proof. split; [done|]. intros a b c E1 E2. unfold same_cores in *. congruence. Qed.
Lemma same_cores_update k f d : (∀ r, task_core (f r) = task_core r) → same_cores d (set_tasks (update_row t_id k f) d).
Proof.
  intros Hf. unfold same_cores, set_tasks, update_row, update_where. simpl. rewrite map_map.
  apply map_ext. intros r. by destruct (has_key _ _ _).
Qed.
Lemma cores_same d d' : same_cores d d' → cores_grow d d'.
Proof. intros E. exists []. by rewrite app_nil_r. Qed.
Lemma cores_update k f d : (∀ r, task_core (f r) = task_core r) → cores_grow d (set_tasks (update_row t_id k f) d).
Proof. intros Hf. by apply cores_same, same_cores_update. Qed.
Lemma cores_add t d : cores_grow d (set_tasks (λ l, l ++ [t]) d).
Proof. exists [task_core t]. simpl. by rewrite map_app. Qed.
Lemma cores_transitions f d : cores_grow d (set_transitions f d).
Proof. exists []. by rewrite app_nil_r. Qed.
Lemma cores_in d d' t : cores_grow d d' → t ∈ tasks d → ∃ t', t' ∈ tasks d' ∧ task_core t' = task_core t.
Proof.
  intros [l E] Hin. assert (task_core t ∈ map task_core (tasks d')) as (t' & ? & ?)%list_elem_of_fmap; [|by exists t'].
  rewrite E. apply elem_of_app. left. by apply list_elem_of_fmap_2.
Qed.

Section cores.
Context `{JsonText, Entropy}.
#[local] Hint Extern 1 (cores_grow _ (set_tasks (update_row _ _ _) _)) => apply cores_update; done : respects.
#[local] Hint Resolve cores_add cores_transitions : respects.
Lemma cores_audit actor action mid payload now : respects (on_db cores_grow) (audit actor action mid payload now).
Proof. apply audit_frame; [typeclasses eauto|]. intros f g d. exists []. by rewrite app_nil_r. Qed.
#[local] Hint Resolve cores_audit : respects.
Lemma cores_submit mid kind payload key prio maxa now :
  respects (on_db cores_grow) (engine_submit_task mid kind payload key prio maxa now).
Proof. unfold engine_submit_task, submit_task, insert_task. io_respects. Qed.
#[local] Hint Extern 1 (same_cores _ (set_tasks (update_row _ _ _) _)) => apply same_cores_update; done : respects.
Lemma same_cores_recover now : respects (on_db same_cores) (recover_expired_leases now).
Proof. unfold recover_expired_leases, recover_row. io_respects. Qed.
#[local] Hint Resolve same_cores_recover : respects.
Lemma same_cores_claim worker secs now mid : respects (on_db same_cores) (engine_claim_next worker secs now mid).
Proof.
  assert (∀ actor action mid payload now, respects (on_db same_cores) (audit actor action mid payload now)).
  { intros. apply audit_frame; [typeclasses eauto|done]. }
  unfold engine_claim_next, claim_next. io_respects.
Qed.
Lemma cores_complete lease now : respects (on_db cores_grow) (engine_complete_task lease now).
Proof. unfold engine_complete_task, complete_task, finish_running. io_respects. Qed.
Lemma cores_block lease reason now : respects (on_db cores_grow) (engine_block_task lease reason now).
Proof. unfold engine_block_task, block_task, finish_running. io_respects. Qed.
Lemma cores_fail lease err delay now : respects (on_db cores_grow) (engine_fail_task lease err delay now).
Proof. unfold engine_fail_task, fail_task. io_respects. Qed.

(** A lease carries the work order of a stored task. *)
Lemma engine_claim_Some worker secs now mid w l w1 :
  engine_claim_next worker secs now mid w = (Ok (Some l), w1) →
  ∃ r, r ∈ tasks (w_db w1) ∧ t_id r = l_id l ∧ t_mission_id r = l_mission_id l ∧ t_kind r = l_kind l
    ∧ loads (t_payload_json r) = Some (l_payload l) ∧ l_lease_owner l = worker.
Proof.
  unfold engine_claim_next. intros (lo & w2 & Hc & Hb)%bind_Ok_inv. destruct lo as [l'|]; [|done].
  apply bind_Ok_inv in Hb as (h & w3 & Hb & [= <- <-]). apply audit_Ok_run in Hb as (e & tsa & D & _). rewrite D. simpl.
  unfold claim_next in Hc. apply bind_Ok_inv in Hc as (ts & w4 & _ & Hc).
  apply bind_Ok_inv in Hc as (? & ? & [_ ->]%raise_if_Ok_inv & Hc). apply bind_Ok_inv in Hc as (n & w5 & _ & Hc).
  apply bind_Ok_inv in Hc as (co & w6 & Ht%transaction_Ok_inv & Hc). destruct co as [r|]; [|done].
  destruct (loads (t_payload_json r)) as [payload|] eqn:Hp; [|done]. injection Hc as <- <-.
  apply bind_Ok_inv in Ht as (row & ? & [-> ->]%query_Ok_inv & Ht).
  destruct (claim_row ts mid _) as [r'|] eqn:Er; [|done]. injection Ht as -> <-.
  apply claim_row_Some in Er as [Hin _].
  destruct (cores_in _ _ r (cores_update (t_id r) (task_lease worker (ts + secs)%Q ts) (w_db w5) (λ _, eq_refl)) Hin)
    as (r'' & Hin' & [= E1 E2 E3 E4 _ _ _]).
  exists r''. split_and!; [exact Hin'|by rewrite ?E1, ?E2, ?E3, ?E4..].
Qed.

(** A claimed task is stored RUNNING under the claimer's lease. *)
Lemma engine_claim_leased worker secs now mid w l w1 :
  engine_claim_next worker secs now mid w = (Ok (Some l), w1) →
  ∃ r, find_row t_id (l_id l) (tasks (w_db w1)) = Some r ∧ t_state r = "RUNNING" ∧ t_lease_owner r = Some worker.
Proof.
  unfold engine_claim_next. intros (lo & w2 & Hc & Hb)%bind_Ok_inv. destruct lo as [l'|]; [|done].
  apply bind_Ok_inv in Hb as (h & w3 & Hb & [= <- <-]). apply audit_Ok_run in Hb as (e & tsa & D & _). rewrite D. simpl.
  unfold claim_next in Hc. apply bind_Ok_inv in Hc as (ts & w4 & _ & Hc).
  apply bind_Ok_inv in Hc as (? & ? & [_ ->]%raise_if_Ok_inv & Hc). apply bind_Ok_inv in Hc as (n & w5 & _ & Hc).
  apply bind_Ok_inv in Hc as (co & w6 & Ht%transaction_Ok_inv & Hc). destruct co as [r|]; [|done].
  destruct (loads (t_payload_json r)) as [payload|] eqn:Hp; [|done]. injection Hc as <- <-.
  apply bind_Ok_inv in Ht as (row & ? & [-> ->]%query_Ok_inv & Ht).
  destruct (claim_row ts mid _) as [r'|] eqn:Er; [|done]. injection Ht as -> <-.
  apply claim_row_Some in Er as [Hin _].
  change (∃ x, find_row t_id (t_id r) (update_row t_id (t_id r) (task_lease worker (ts + secs)%Q ts) (tasks (w_db w5))) = Some x
    ∧ t_state x = "RUNNING" ∧ t_lease_owner x = Some worker).
  rewrite find_update_eq by done. destruct (find_row t_id (t_id r) (tasks (w_db w5))) as [y|] eqn:Ef; [by eexists|].
  apply find_row_None in Ef. destruct Ef. by apply list_elem_of_fmap_2.
Qed.

(** A submission that returned leaves its task in the queue under its key. *)
Lemma engine_submit_run mid kind payload key prio maxa now w id w1 :
  engine_submit_task mid kind payload key prio maxa now w = (Ok id, w1) →
  ∃ t, t ∈ tasks (w_db w1) ∧ t_id t = id ∧ t_idempotency_key t = key
    ∧ (t ∈ tasks (w_db w) ∨ ∃ ts, t = new_task id mid kind payload key prio maxa ts).
Proof.
  unfold engine_submit_task. intros (id' & w2 & Hs & Hb)%bind_Ok_inv.
  apply bind_Ok_inv in Hb as (h & w3 & Hb & [= <- <-]).
  apply submit_task_run in Hs as (t & [Ht Hk]%find_row_Some & Hid & Hor).
  apply audit_Ok_run in Hb as (e & ts & D & _). exists t. rewrite D. split_and!; try done.
  destruct Hor as [[? _]%find_row_Some|?]; auto.
Qed.
Lemma engine_submit_stored mid kind payload key prio maxa now w id w1 :
  engine_submit_task mid kind payload key prio maxa now w = (Ok id, w1) →
  ∃ t, t ∈ tasks (w_db w1) ∧ t_id t = id ∧ t_idempotency_key t = key.
Proof. intros (t & ? & ? & ? & _)%engine_submit_run. by exists t. Qed.
End cores.
#[export] Hint Resolve cores_submit same_cores_claim cores_complete cores_block cores_fail : respects.

(** * Progress of the task queue: the attempts left in it are a measure that every
    claim followed by a report strictly decreases, whatever the report. *)

(** ** The measure *)

(** A task that can still be claimed at [ts]: queued, or running under a lease that
    recovery will take back. *)
Definition pending (ts : Q) (r : task_row) : bool := (t_state r =s "QUEUED") || lease_expired ts r.
(** The claims it can still take: a queued task is claimed at least once more. *)
Definition remaining (r : task_row) : nat := Z.to_nat (Z.max 1 (t_max_attempts r - t_attempts r)).
Definition weight (ts : Q) (mid : string) (r : task_row) : nat :=
  if pending ts r && (t_mission_id r =s mid) then remaining r else 0.
Definition work (ts : Q) (mid : string) (rows : list task_row) : nat := sum_list (map (weight ts mid) rows).

Lemma weight_recover ts mid r :
  weight ts mid (if lease_expired ts r then task_release "QUEUED" ts r else r) = weight ts mid r.
Proof.
  destruct (lease_expired ts r) eqn:E; [|done]. unfold weight, pending. rewrite E, orb_true_r. cbn. done.
Qed.
Lemma work_recover ts mid rows : work ts mid (recover_rows ts rows) = work ts mid rows.
Proof.
  unfold work, recover_rows, update_where. rewrite map_map. f_equal. apply map_ext. intros r. apply weight_recover.
Qed.
Lemma work_update ts mid id g rows r :
  unique_key t_id rows → find_row t_id id rows = Some r →
  work ts mid (update_row t_id id g rows) + weight ts mid r = work ts mid rows + weight ts mid (g r).
Proof.
  unfold work, unique_key, find_row, update_row, update_where, has_key. intros Hu. induction rows as [|x rows IH]; [done|].
  cbn [List.find map sum_list]. apply NoDup_cons in Hu as [Hx Hu]. destruct (String.eqb_spec (t_id x) id) as [E|E].
  - intros [= ->]. rewrite (map_ext_in _ (λ y, y)).
    + rewrite map_id. cbn. lia.
    + intros y Hy. destruct (String.eqb_spec (t_id y) id) as [E'|]; [|done]. destruct Hx. rewrite E, <- E'.
      by apply list_elem_of_fmap_2, list_elem_of_In.
  - intros Hf. cbn. specialize (IH Hu Hf). lia.
Qed.
(** No work left: nothing can be claimed. *)
Lemma work_zero ts mid rows : work ts mid rows = 0 → ∀ r, r ∈ rows → claimable ts (Some mid) r = false.
Proof.
  unfold work. induction rows as [|x rows IH]; intros Hz r Hr; [by apply elem_of_nil in Hr|]. cbn in Hz.
  apply elem_of_cons in Hr as [->|Hr]; [|apply IH; [lia|done]].
  unfold claimable. destruct (t_state x =s "QUEUED") eqn:Es; [|done]. destruct (t_mission_id x =s mid) eqn:Em;
    [|by rewrite andb_false_r].
  unfold weight, pending, remaining in Hz. rewrite Es, Em in Hz. cbn in Hz. lia.
Qed.

Section progress.
Context `{JsonText, Entropy}.

(** ** What a claim and a report write *)
Lemma engine_claim_run worker ts mid w :
  db_wf (w_db w) → ∀ lo w1, engine_claim_next worker 30 (Some ts) (Some mid) w = (Ok lo, w1) →
  let rows := recover_rows ts (tasks (w_db w)) in
  unique_key t_id rows ∧
  match lo with
  | None => tasks (w_db w1) = rows ∧ ∀ r, r ∈ rows → claimable ts (Some mid) r = false
  | Some l => ∃ r, r ∈ rows ∧ claimable ts (Some mid) r = true
      ∧ (∀ s, s ∈ rows → claimable ts (Some mid) s = true → claim_leb r s = true)
      ∧ l_id l = t_id r ∧ l_kind l = t_kind r ∧ l_lease_owner l = worker
      ∧ tasks (w_db w1) = update_row t_id (t_id r) (task_lease worker (ts + 30) ts) rows
  end.
Proof.
  intros Hw lo w1 Hrun rows. split.
  { destruct (recover_run ts w Hw) as (wr & _ & Ht & _ & _ & Hwr). unfold rows. rewrite <- Ht. apply Hwr. }
  unfold engine_claim_next in Hrun. destruct (claim_run worker 30 ts (Some mid) w Hw ltac:(done)) as (res & w2 & Hc & Ho & _).
  unfold claim_outcome in Ho. fold rows in Ho. unfold mbind, M_bind in Hrun. rewrite Hc in Hrun.
  destruct (claim_row ts (Some mid) rows) as [r|] eqn:Er.
  - destruct Ho as (payload & _ & -> & Ht). apply bind_Ok_inv in Hrun as (h & w3 & Hb & [= <- <-]).
    apply audit_Ok_run in Hb as (e & tsa & D & _). apply claim_row_best in Er as (Hin & Hcl & Hbest). exists r. rewrite D.
    split_and!; try done.
  - destruct Ho as [-> Ht]. injection Hrun as <- <-. split; [done|]. by apply claim_row_none.
Qed.

Lemma finish_running_tasks id worker st reason now w u w' :
  finish_running id worker st reason now w = (Ok u, w') →
  ∃ ts r, find_row t_id id (tasks (w_db w)) = Some r ∧ tasks (w_db w') = update_row t_id id (task_release st ts) (tasks (w_db w)).
Proof.
  unfold finish_running. intros (ts & w1 & Hts & Hr)%bind_Ok_inv.
  assert (tasks (w_db w1) = tasks (w_db w)) as E1 by (destruct now; by injection Hts as _ <-).
  apply transaction_Ok_inv, bind_Ok_inv in Hr as (row & ? & [-> ->]%query_Ok_inv & Hr). rewrite E1 in Hr.
  destruct (find_row t_id id (tasks (w_db w))) as [r|] eqn:E; [|done].
  apply bind_Ok_inv in Hr as (? & ? & [_ ->]%raise_if_Ok_inv & Hr).
  apply bind_Ok_inv in Hr as (? & w2 & [= _ <-] & [= _ <-]). exists ts, r. split; [done|]. cbn. by rewrite E1.
Qed.
Lemma fail_task_tasks id worker err delay now w st w' :
  fail_task id worker err delay now w = (Ok st, w') →
  ∃ ts next r, find_row t_id id (tasks (w_db w)) = Some r
    ∧ st = (if (t_attempts r <? t_max_attempts r)%Z then "QUEUED" else "FAILED")
    ∧ tasks (w_db w') = update_row t_id id (task_failure st next err ts) (tasks (w_db w)).
Proof.
  unfold fail_task. intros (ts & w1 & Hts & Hr)%bind_Ok_inv.
  assert (tasks (w_db w1) = tasks (w_db w)) as E1 by (destruct now; by injection Hts as _ <-).
  apply transaction_Ok_inv, bind_Ok_inv in Hr as (row & ? & [-> ->]%query_Ok_inv & Hr). rewrite E1 in Hr.
  destruct (find_row t_id id (tasks (w_db w))) as [r|] eqn:E; [|done].
  apply bind_Ok_inv in Hr as (? & ? & [_ ->]%raise_if_Ok_inv & Hr).
  apply bind_Ok_inv in Hr as (? & w2 & [= _ <-] & Hr). apply bind_Ok_inv in Hr as (? & w3 & [= _ <-] & Hr).
  injection Hr as <- <-. eexists ts, _, r. split; [done|]. split; [done|]. cbn. by rewrite E1.
Qed.

(** What a report makes of a claimed row. *)
Record reported_by (g : task_row → task_row) (r : task_row) : Prop := {
  rb_attempts : t_attempts (g r) = t_attempts r;
  rb_max : t_max_attempts (g r) = t_max_attempts r;
  rb_state : t_state (g r) ∈ ["COMPLETED"; "BLOCKED"; "FAILED"]
             ∨ t_state (g r) = "QUEUED" ∧ (t_attempts r < t_max_attempts r)%Z;
}.
Lemma reported_weight ts mid g r :
  reported_by g r → (weight ts mid (g r) ≤ Z.to_nat (t_max_attempts r - t_attempts r))%nat.
Proof.
  intros [Ha Hm [Hs|[Hs Hlt]]].
  - unfold weight, pending, lease_expired. rewrite !elem_of_cons, elem_of_nil in Hs.
    destruct Hs as [-> |[-> |[-> |[]]]]; cbn; lia.
  - unfold weight, remaining. rewrite Ha, Hm. destruct (_ && _); lia.
Qed.

(** A claim and its report use up at least one attempt of the queue. *)
Lemma claim_report_progress worker ts mid w l w1 w2 g rows' r1 :
  db_wf (w_db w) → engine_claim_next worker 30 (Some ts) (Some mid) w = (Ok (Some l), w1) →
  tasks (w_db w2) = tasks (w_db w1) → find_row t_id (l_id l) (tasks (w_db w2)) = Some r1 → reported_by g r1 →
  rows' = update_row t_id (l_id l) g (tasks (w_db w2)) → work ts mid rows' < work ts mid (tasks (w_db w)).
Proof.
  intros Hw Hc E2 Hf Hg ->. apply (engine_claim_run worker ts mid w Hw) in Hc as (Hu & r & Hin & Hcl & _ & Hid & _ & _ & Ht).
  rewrite E2, Ht in *. set (rows := recover_rows ts (tasks (w_db w))) in *. rewrite Hid in *.
  pose proof (find_row_unique t_id rows r Hu Hin) as Hr. rewrite find_update_eq, Hr in Hf by done. injection Hf as <-.
  set (lease := task_lease worker (ts + 30) ts) in *.
  assert (unique_key t_id (update_row t_id (t_id r) lease rows)) as Hu1 by (unfold unique_key; by rewrite update_row_keys).
  pose proof (work_update ts mid (t_id r) lease rows r Hu Hr) as W1.
  assert (find_row t_id (t_id r) (update_row t_id (t_id r) lease rows) = Some (lease r)) as Hr1 by (by rewrite find_update_eq, Hr).
  pose proof (work_update ts mid (t_id r) g _ _ Hu1 Hr1) as W2.
  assert (weight ts mid (lease r) = 0) as W0.
  { assert (ts < ts + 30)%Q as Hlt by lra. unfold weight, pending, lease_expired, lease.
    change (t_lease_until (task_lease worker (ts + 30) ts r)) with (Some (ts + 30)%Q). cbv beta iota.
    by rewrite (proj2 (qle_false (ts + 30) ts) Hlt). }
  assert (weight ts mid r = remaining r) as Wr.
  { unfold claimable in Hcl. apply andb_true_iff in Hcl as [[Hs _]%andb_true_iff Hm]. unfold weight, pending. by rewrite Hs, Hm. }
  pose proof (reported_weight ts mid g _ Hg) as Wg. change (t_max_attempts (lease r)) with (t_max_attempts r) in Wg.
  change (t_attempts (lease r)) with (t_attempts r + 1)%Z in Wg. unfold remaining in Wr.
  rewrite <- (work_recover ts mid (tasks (w_db w))). fold rows. lia.
Qed.

(** ** The three reports *)
Lemma complete_reports lease now w u w' :
  engine_complete_task lease now w = (Ok u, w') →
  ∃ g r, find_row t_id (l_id lease) (tasks (w_db w)) = Some r ∧ reported_by g r
    ∧ tasks (w_db w') = update_row t_id (l_id lease) g (tasks (w_db w)).
Proof.
  unfold engine_complete_task. intros (? & w1 & (ts & r & Hr & Ht)%finish_running_tasks & Hrun)%bind_Ok_inv.
  apply bind_Ok_inv in Hrun as (? & w2 & (e & tsa & D & _)%audit_Ok_run & [= _ <-]).
  exists (task_release "COMPLETED" ts), r. rewrite D. split_and!; try done. split; try done. left. by left.
Qed.
Lemma block_reports lease reason now w u w' :
  engine_block_task lease reason now w = (Ok u, w') →
  ∃ g r, find_row t_id (l_id lease) (tasks (w_db w)) = Some r ∧ reported_by g r
    ∧ tasks (w_db w') = update_row t_id (l_id lease) g (tasks (w_db w)).
Proof.
  unfold engine_block_task. intros (? & w1 & (ts & r & Hr & Ht)%finish_running_tasks & Hrun)%bind_Ok_inv.
  apply bind_Ok_inv in Hrun as (? & w2 & (e & tsa & D & _)%audit_Ok_run & [= _ <-]).
  exists (task_release "BLOCKED" ts), r. rewrite D. split_and!; try done. split; try done. left. right. by left.
Qed.
Lemma fail_reports lease err delay now w st w' :
  engine_fail_task lease err delay now w = (Ok st, w') →
  ∃ g r, find_row t_id (l_id lease) (tasks (w_db w)) = Some r ∧ reported_by g r
    ∧ tasks (w_db w') = update_row t_id (l_id lease) g (tasks (w_db w)).
Proof.
  unfold engine_fail_task. intros (? & w1 & (ts & next & r & Hr & -> & Ht)%fail_task_tasks & Hrun)%bind_Ok_inv.
  apply bind_Ok_inv in Hrun as (? & w2 & (e & tsa & D & _)%audit_Ok_run & [= _ <-]).
  eexists _, r. rewrite D. split; [done|]. split; [|exact Ht]. split; try done. cbn.
  destruct (Z.ltb_spec (t_attempts r) (t_max_attempts r)); [by right|]. left. right. right. by left.
Qed.
End progress.
