(* ===== verification/Tokens.v ===== *)
(** Signed tokens: immune_core/identity.py, immune_core/privilege.py and
    immune_fortress/capability.py, with the [Principal] of models.py. *)

From S2P Require Import Prelude Json Base64 Sha256 Schema Ledger.

(** ** Principals *)
Record Principal := {
  pr_subject : string;
  pr_kind : string;
  pr_scopes : list string;
  pr_issuer : string;
  pr_issued_at : Z;
  pr_expires_at : Z;
  pr_token_id : string;
}.

Definition has_scope (p : Principal) (scope : string) : bool :=
  str_in scope (pr_scopes p) || str_in "*" (pr_scopes p).

(** ** Token text *)

(** [token.split(".", 1)] into two parts *)
Fixpoint split_dot (s : string) : option (string * string) :=
  match s with
  | EmptyString => None
  | String c s' =>
      if Ascii.eqb c "." then Some (EmptyString, s')
      else match split_dot s' with
           | Some (a, b) => Some (String c a, b)
           | None => None
           end
  end.

(** [sorted(set(...))] *)
Definition sorted_set (l : list string) : list string := order_by String.leb (remove_dups l).

Section tokens.
Context `{JsonText, Entropy}.

(** [f"{body}.{sig}"] with both parts base64url text *)
Definition sign_body (secret body : string) : string := b64u_encode (hmac secret body).
Definition seal_token (secret : string) (payload : dict) : string :=
  let body := b64u_encode (dumps CompactAscii (JObj payload)) in
  body +:+ "." +:+ sign_body secret body.

(** The [try] block of the three verifiers: split, recompute the signature,
    decode, compare, parse.  [canonical] is the extra check of identity.py
    that the signature text is the canonical encoding of its bytes. *)
Definition open_token (cls : exn_class) (canonical : bool) (bad_signature malformed : string)
    (secret token : string) : result json :=
  match split_dot token with
  | None => Raise (Exn cls malformed)
  | Some (body, provided_sig) =>
      if negb (is_ascii body) then Raise (Exn cls malformed)
      else match b64u_decode provided_sig with
           | None => Raise (Exn cls malformed)
           | Some actual =>
               if canonical && negb (b64u_encode actual =s provided_sig)
               then Raise (Exn cls "non-canonical signature encoding")
               else if negb (hmac secret body =s actual) then Raise (Exn cls bad_signature)
               else match b64u_decode body ≫= loads with
                    | None => Raise (Exn cls malformed)
                    | Some payload => Ok payload
                    end
           end
  end.

(** [payload.get] needs a dictionary. *)
Definition as_dict (v : json) : result dict :=
  match v with JObj d => Ok d | _ => Raise (Exn AttributeError "object has no attribute 'get'") end.

(** [payload.get(k) == s] for a string [s] *)
Definition claim_is (d : dict) (k s : string) : bool :=
  match dget d k with Some (JStr x) => x =s s | _ => false end.
(** the same against an optional string ([None] compares with null) *)
Definition claim_is_opt (d : dict) (k : string) (o : option string) : bool :=
  match o with
  | Some s => claim_is d k s
  | None => match dget d k with None | Some JNull => true | _ => false end
  end.

(** ** Identity *)
Section identity.
Context (secret issuer : string).

Definition identity_payload (subject kind : string) (scopes : list string) (iat exp : Z) (jti : string) : dict :=
  [("sub", JStr subject); ("kind", JStr kind); ("scopes", JList (map JStr (sorted_set scopes)));
   ("iss", JStr issuer); ("iat", JInt iat); ("exp", JInt exp); ("jti", JStr jti)].

Definition identity_issue (subject kind : string) (scopes : list string) (ttl_seconds : Z)
    (now : option Z) : IO string :=
  _ ← raise_if (blank subject || blank kind) ValueError "subject and kind are required";
  _ ← raise_if (ttl_seconds <=? 0)%Z ValueError "ttl_seconds must be positive";
  issued ← int_now now;
  jti ← token_hex;
  mret (seal_token secret (identity_payload subject kind scopes issued (issued + ttl_seconds) jti)).

(** [tuple(str(x) for x in payload.get("scopes", []))] *)
Fixpoint chars (s : string) : list string :=
  match s with EmptyString => [] | String c s' => String c EmptyString :: chars s' end.
Definition scopes_of (d : dict) : result (list string) :=
  match dget d "scopes" with
  | None => Ok []
  | Some (JList l) => Ok (map py_str l)
  | Some (JStr s) => Ok (chars s)
  | Some (JObj kvs) => Ok (map fst kvs)
  | Some _ => Raise (Exn TypeError "object is not iterable")
  end.

(** The checks after the signature, at time [current]. *)
Definition identity_check (v : json) (required_scope : option string) (current : Z) : result Principal :=
  match as_dict v with
  | Raise e => Raise e
  | Ok d =>
      if negb (claim_is d "iss" issuer) then Raise (Exn IdentityError "invalid issuer")
      else match as_int (dget d "iat"), as_int (dget d "exp") with
           | Some iat, Some exp =>
               if (current + 30 <? iat)%Z then Raise (Exn IdentityError "token issued in the future")
               else if (exp <=? current)%Z then Raise (Exn IdentityError "expired token")
               else match scopes_of d with
                    | Raise e => Raise e
                    | Ok scopes =>
                        let principal :=
                          {| pr_subject := get_str d "sub" ""; pr_kind := get_str d "kind" "";
                             pr_scopes := scopes; pr_issuer := issuer; pr_issued_at := iat;
                             pr_expires_at := exp; pr_token_id := get_str d "jti" "" |} in
                        if (pr_subject principal =s "") || (pr_kind principal =s "")
                           || (pr_token_id principal =s "")
                        then Raise (Exn IdentityError "incomplete identity")
                        else match required_scope with
                             | Some scope =>
                                 if negb (scope =s "") && negb (has_scope principal scope)
                                 then Raise (Exn IdentityError "required scope missing")
                                 else Ok principal
                             | None => Ok principal
                             end
                    end
           | _, _ => Raise (Exn IdentityError "invalid temporal claims")
           end
  end.

Definition identity_verify (token : string) (required_scope : option string) (now : option Z) : IO Principal :=
  payload ← lift_result
    (open_token IdentityError true "invalid signature" "malformed identity token" secret token);
  current ← int_now now;
  lift_result (identity_check payload required_scope current).
End identity.

(** The identity authority a component was built with: its key and issuer. *)
Record IdentityAuthority := { ia_secret : string; ia_issuer : string }.
Definition ia_verify (ia : IdentityAuthority) := identity_verify (ia_secret ia) (ia_issuer ia).

(** [try: ... except IdentityError as exc: raise cls(f"{prefix}{exc}")] *)
Definition wrap_identity {A} (cls : exn_class) (prefix : string) (m : IO A) : IO A :=
  catch m (λ e, if bool_decide (exn_cls e = IdentityError)
                then throw cls (prefix +:+ exn_msg e) else reraise e).

(** ** Privilege grants *)
Record PrivilegeGrant := {
  g_token : string; g_grant_id : string; g_mission_id : string; g_task_id : string;
  g_worker_id : string; g_action : string; g_checkpoint_id : string; g_expires_at : Z;
}.

Section privilege.
Context (secret issuer : string) (identities : IdentityAuthority).
Definition PRIVILEGE_MAX_TTL : Z := 300.
(** [PrivilegeAuthority(secret, ...)]; its table is there already *)
Definition privilege_authority_init : result unit := demand_key "privilege secret" secret.

Definition grant_payload (jti sub mission_id task_id worker_id action checkpoint_id : string) (iat exp : Z) : dict :=
  [("iss", JStr issuer); ("jti", JStr jti); ("sub", JStr sub); ("mission_id", JStr mission_id);
   ("task_id", JStr task_id); ("worker_id", JStr worker_id); ("action", JStr action);
   ("checkpoint_id", JStr checkpoint_id); ("iat", JInt iat); ("exp", JInt exp)].

Definition privilege_issue (authorizer_token mission_id task_id worker_id action checkpoint_id : string)
    (ttl_seconds : Z) (now : option Z) : IO PrivilegeGrant :=
  _ ← raise_if (existsb blank [mission_id; task_id; worker_id; action; checkpoint_id]) PrivilegeError
        "privilege grant requires exact mission, task, worker, action and checkpoint";
  _ ← raise_if ((ttl_seconds <=? 0) || (PRIVILEGE_MAX_TTL <? ttl_seconds))%Z PrivilegeError
        "privilege grant ttl outside sovereign limit";
  authorizer ← wrap_identity PrivilegeError "invalid privilege authorizer: "
        (ia_verify identities authorizer_token (Some "grant:privileged") now);
  issued ← int_now now;
  grant_id ← token_hex;
  let exp := (issued + ttl_seconds)%Z in
  let token := seal_token secret
    (grant_payload grant_id (pr_subject authorizer) mission_id task_id worker_id action checkpoint_id issued exp) in
  _ ← audit (pr_subject authorizer) "privilege_grant_issued" (Some mission_id)
        [("grant_id", JStr grant_id); ("task_id", JStr task_id); ("worker_id", JStr worker_id);
         ("action", JStr action); ("checkpoint_id", JStr checkpoint_id); ("expires_at", JInt exp)] None;
  mret {| g_token := token; g_grant_id := grant_id; g_mission_id := mission_id; g_task_id := task_id;
          g_worker_id := worker_id; g_action := action; g_checkpoint_id := checkpoint_id;
          g_expires_at := exp |}.

(** The first expected claim the payload does not carry. *)
Fixpoint claim_mismatch (d : dict) (claims : list (string * option string)) : option string :=
  match claims with
  | [] => None
  | (k, v) :: rest => if claim_is_opt d k v then claim_mismatch d rest else Some k
  end.

Definition grant_claims (mission_id task_id worker_id action checkpoint_id : string) :=
  [("mission_id", Some mission_id); ("task_id", Some task_id); ("worker_id", Some worker_id);
   ("action", Some action); ("checkpoint_id", Some checkpoint_id)].

(** The checks after the signature: the grant id, or the refusal. *)
Definition grant_check (v : json) (mission_id task_id worker_id action checkpoint_id : string)
    (current : Z) : result string :=
  match as_dict v with
  | Raise e => Raise e
  | Ok d =>
      if negb (claim_is d "iss" issuer) then Raise (Exn PrivilegeError "invalid privilege issuer")
      else match py_int (default (JInt 0) (dget d "exp")) with
           | Raise e => Raise e
           | Ok exp =>
               if (exp <=? current)%Z then Raise (Exn PrivilegeError "privilege grant expired")
               else match claim_mismatch d (grant_claims mission_id task_id worker_id action checkpoint_id) with
                    | Some key => Raise (Exn PrivilegeError ("privilege grant target mismatch: " +:+ key))
                    | None =>
                        let grant_id := get_str d "jti" "" in
                        if grant_id =s "" then Raise (Exn PrivilegeError "missing privilege grant id")
                        else Ok grant_id
                    end
           end
  end.

Definition privilege_consume (grant_token mission_id task_id worker_id action checkpoint_id : string)
    (now : option Z) : IO string :=
  payload ← lift_result (open_token PrivilegeError false "invalid privilege signature"
                           "malformed privilege grant" secret grant_token);
  current ← int_now now;
  grant_id ← lift_result (grant_check payload mission_id task_id worker_id action checkpoint_id current);
  _ ← transaction (
        used ← query used_privilege_grants;
        _ ← raise_if (row_exists u_id grant_id used) PrivilegeError "privilege grant already consumed";
        exec (set_used_privilege_grants (λ l, l ++ [{| u_id := grant_id; u_used_at := inject_Z current |}])));
  _ ← audit worker_id "privilege_grant_consumed" (Some mission_id)
        [("grant_id", JStr grant_id); ("task_id", JStr task_id); ("action", JStr action);
         ("checkpoint_id", JStr checkpoint_id)] None;
  mret grant_id.
End privilege.

(** ** Action capabilities *)
Definition parameter_digest (parameters : dict) : string := sha256_hex (dumps Compact (JObj parameters)).

Record ActionCapability := {
  c_token : string; c_capability_id : string; c_mission_id : string; c_system_id : string;
  c_action : string; c_checkpoint_id : option string; c_expires_at : Z;
}.

Section capability.
Context (secret issuer : string) (identities : IdentityAuthority).
Definition CAPABILITY_MAX_TTL : Z := 90.
(** [ActionCapabilityAuthority(secret, ...)] *)
Definition capability_authority_init : result unit := demand_key "capability secret" secret.

Definition capability_payload (jti sub mission_id system_id action digest : string)
    (checkpoint_id : option string) (iat exp : Z) : dict :=
  [("iss", JStr issuer); ("jti", JStr jti); ("sub", JStr sub); ("mission_id", JStr mission_id);
   ("system_id", JStr system_id); ("action", JStr action); ("parameters_sha256", JStr digest);
   ("checkpoint_id", jopt_str checkpoint_id); ("iat", JInt iat); ("exp", JInt exp)].

Definition capability_issue (authorizer_token mission_id system_id action : string) (parameters : dict)
    (checkpoint_id : option string) (ttl_seconds : Z) (now : option Z) : IO ActionCapability :=
  principal ← wrap_identity CapabilityError "invalid capability authorizer: "
        (ia_verify identities authorizer_token (Some "capability:issue") now);
  _ ← raise_if (existsb blank [mission_id; system_id; action]) CapabilityError
        "capability requires mission, system and action";
  _ ← raise_if ((ttl_seconds <=? 0) || (CAPABILITY_MAX_TTL <? ttl_seconds))%Z CapabilityError
        "capability ttl outside sovereign limit";
  issued ← int_now now;
  cid ← token_hex;
  let exp := (issued + ttl_seconds)%Z in
  mret {| c_token := seal_token secret (capability_payload cid (pr_subject principal) mission_id system_id
            action (parameter_digest parameters) checkpoint_id issued exp);
          c_capability_id := cid; c_mission_id := mission_id; c_system_id := system_id;
          c_action := action; c_checkpoint_id := checkpoint_id; c_expires_at := exp |}.

Definition capability_claims (mission_id system_id action digest : string) (checkpoint_id : option string) :=
  [("mission_id", Some mission_id); ("system_id", Some system_id); ("action", Some action);
   ("parameters_sha256", Some digest); ("checkpoint_id", checkpoint_id)].

Definition capability_check (v : json) (mission_id system_id action : string) (parameters : dict)
    (checkpoint_id : option string) (current : Z) : result string :=
  match as_dict v with
  | Raise e => Raise e
  | Ok d =>
      if negb (claim_is d "iss" issuer) then Raise (Exn CapabilityError "capability expired or wrong issuer")
      else match py_int (default (JInt 0) (dget d "exp")) with
           | Raise e => Raise e
           | Ok exp =>
               if (exp <=? current)%Z then Raise (Exn CapabilityError "capability expired or wrong issuer")
               else match claim_mismatch d
                      (capability_claims mission_id system_id action (parameter_digest parameters) checkpoint_id) with
                    | Some key => Raise (Exn CapabilityError ("capability target mismatch: " +:+ key))
                    | None =>
                        let cid := get_str d "jti" "" in
                        if cid =s "" then Raise (Exn CapabilityError "capability id missing") else Ok cid
                    end
           end
  end.

Definition capability_consume (token mission_id system_id action : string) (parameters : dict)
    (checkpoint_id : option string) (now : option Z) : IO string :=
  payload ← lift_result (open_token CapabilityError false "invalid capability signature"
                           "malformed capability" secret token);
  current ← int_now now;
  cid ← lift_result (capability_check payload mission_id system_id action parameters checkpoint_id current);
  _ ← transaction (
        used ← query used_action_capabilities;
        _ ← raise_if (row_exists u_id cid used) CapabilityError "capability already consumed";
        exec (set_used_action_capabilities (λ l, l ++ [{| u_id := cid; u_used_at := inject_Z current |}])));
  mret cid.
End capability.
End tokens.

Lemma ia_verify_respects `{JsonText, Entropy} R `{!PreOrder R} ia token scope now :
  respects (on_db R) (ia_verify ia token scope now).
Proof. unfold ia_verify, identity_verify. io_respects. Qed.
#[export] Hint Resolve ia_verify_respects : respects.
