(* ===== verification/TokenProps.v ===== *)
(** Tokens mean what was signed: round trips, soundness of the verifiers,
    single use and exact binding of privilege grants and action capabilities. *)

From S2P Require Import Prelude Json Base64 Sha256 Schema Ledger LedgerProps Tokens.

(** ** Token text *)
Lemma split_dot_app a b : has_dot a = false → split_dot (a +:+ "." +:+ b) = Some (a, b).
Proof.
  induction a as [|c a IH]; [done|]. rewrite append_cons. simpl.
  intros [-> Ha]%orb_false_iff. by rewrite (IH Ha).
Qed.
Lemma split_dot_inv s a b : split_dot s = Some (a, b) → s = a +:+ "." +:+ b ∧ has_dot a = false.
Proof.
  revert a b. induction s as [|c s IH]; intros a b; simpl; [done|].
  destruct (Ascii.eqb_spec c ".") as [->|Hc]; [by intros [= <- <-]|].
  destruct (split_dot s) as [[a' b']|]; [|done]. intros [= <- <-].
  destruct (IH a' b' eq_refl) as [-> Hd]. split; [done|]. simpl. rewrite Hd.
  by destruct (Ascii.eqb_spec c ".").
Qed.

Section token_text.
Context `{JsonText}.

Lemma open_seal_token cls canonical bad malformed secret payload :
  open_token cls canonical bad malformed secret (seal_token secret payload)
  = Ok (jcanon (JObj payload)).
Proof.
  unfold open_token, seal_token, sign_body.
  rewrite split_dot_app by apply encode_no_dot. rewrite encode_ascii, b64u_decode_encode. simpl.
  rewrite !String.eqb_refl, andb_false_r. simpl.
  rewrite b64u_decode_encode. simpl. by rewrite loads_dumps.
Qed.

(** What an accepted token is. *)
Definition carries (secret token : string) (v : json) : Prop :=
  ∃ body sig, token = body +:+ "." +:+ sig ∧ has_dot body = false
    ∧ b64u_decode sig = Some (hmac secret body) ∧ b64u_decode body ≫= loads = Some v.

Lemma open_token_inv cls canonical bad malformed secret token v :
  open_token cls canonical bad malformed secret token = Ok v →
  carries secret token v
  ∧ (canonical = true → ∃ body, token = body +:+ "." +:+ sign_body secret body).
Proof.
  unfold open_token, sign_body. destruct (split_dot token) as [[body sig]|] eqn:Es; [|done].
  apply split_dot_inv in Es as [-> Hd]. destruct (is_ascii body); [|done]. simpl.
  destruct (b64u_decode sig) as [actual|] eqn:Ed; [|done].
  destruct (canonical && _) eqn:Ec; [done|].
  destruct (String.eqb_spec (hmac secret body) actual) as [<-|]; [|done]. simpl.
  destruct (b64u_decode body ≫= loads) as [v'|] eqn:Ev; [|done]. intros [= <-]. split.
  - by exists body, sig.
  - intros ->. simpl in Ec. apply negb_false_iff, String.eqb_eq in Ec. exists body. by rewrite Ec.
Qed.

(** Two accepted tokens with one body carry one value, whatever the spelling
    of their signatures. *)
Lemma carries_fun secret token v v' : carries secret token v → carries secret token v' → v = v'.
Proof.
  intros (b & s & E & Hb & _ & V) (b' & s' & E' & Hb' & _ & V').
  assert (b = b') as <-; [|congruence].
  pose proof (split_dot_app b s Hb) as P. pose proof (split_dot_app b' s' Hb') as P'.
  rewrite <- E in P. rewrite <- E' in P'. congruence.
Qed.
Lemma carries_seal_token secret payload v :
  carries secret (seal_token secret payload) v → v = jcanon (JObj payload).
Proof.
  intros Hc. eapply carries_fun; [exact Hc|].
  apply (open_token_inv IdentityError false "" ""). apply open_seal_token.
Qed.
End token_text.

Lemma blank_nonempty s : blank s = false → s ≠ "".
Proof. by intros H ->. Qed.

(** ** The clock of a verification *)
Section clock.
Context `{Entropy}.
Definition clock (now : option Z) (w : World) : Z :=
  match now with
  | Some t => t
  | None => let t := time_at (w_tick w) in Z.quot (Qnum t) (Zpos (Qden t))
  end.
Definition after_clock (now : option Z) (w : World) : World :=
  match now with Some _ => w | None => tick w end.

Lemma int_now_run now w : int_now now w = (Ok (clock now w), after_clock now w).
Proof. by destruct now. Qed.
Lemma after_clock_db now w : w_db (after_clock now w) = w_db w.
Proof. by destruct now. Qed.
Lemma bind_int_now {B} now (f : Z → IO B) w :
  (int_now now ≫= f) w = f (clock now w) (after_clock now w).
Proof. by rewrite (bind_Ok _ _ _ _ _ (int_now_run now w)). Qed.
End clock.

(** ** Identity *)
Section identity_props.
Context `{JsonText, Entropy}.
Context (secret issuer : string).

Lemma identity_check_inv v scope t p :
  identity_check issuer v scope t = Ok p →
  ∃ d, v = JObj d ∧ claim_is d "iss" issuer = true
    ∧ as_int (dget d "iat") = Some (pr_issued_at p) ∧ as_int (dget d "exp") = Some (pr_expires_at p)
    ∧ pr_subject p = get_str d "sub" "" ∧ pr_kind p = get_str d "kind" ""
    ∧ pr_token_id p = get_str d "jti" "" ∧ scopes_of d = Ok (pr_scopes p) ∧ pr_issuer p = issuer
    ∧ (pr_issued_at p <= t + 30 ∧ t < pr_expires_at p)%Z
    ∧ pr_subject p ≠ "" ∧ pr_kind p ≠ "" ∧ pr_token_id p ≠ ""
    ∧ (∀ s, scope = Some s → s ≠ "" → has_scope p s = true).
Proof.
  unfold identity_check. destruct v as [| | | | | |d]; try done. cbn [as_dict].
  destruct (claim_is d "iss" issuer) eqn:Ei; [|done]. cbn [negb].
  destruct (as_int (dget d "iat")) as [iat|] eqn:E1; [|done].
  destruct (as_int (dget d "exp")) as [exp|] eqn:E2; [|done].
  destruct (Z.ltb_spec (t + 30) iat); [done|]. destruct (Z.leb_spec exp t); [done|].
  destruct (scopes_of d) as [scopes|] eqn:E3; [|done]. cbv zeta.
  set (q := {| pr_subject := _ |}). destruct (_ || _) eqn:Enz; [done|].
  rewrite !orb_false_iff, !String.eqb_neq in Enz. destruct Enz as [[? ?] ?].
  intros Hq.
  assert (q = p ∧ ∀ s, scope = Some s → s ≠ "" → has_scope p s = true) as [<- Hsc].
  { destruct scope as [s|]; [|by injection Hq as <-].
    destruct (String.eqb_spec s "") as [->|]; simpl in Hq.
    - injection Hq as <-. split; [done|]. by intros s [= <-].
    - destruct (has_scope q s) eqn:Eh; [|done]. injection Hq as <-. split; [done|].
      by intros s' [= <-]. }
  exists d. split_and!; done.
Qed.

(** An identity token is accepted only when it is the text the holder of
    the key signs: its signature is the canonical encoding of the HMAC of its
    body.  The principal returned is the one the signed payload names, from
    this issuer, complete, unexpired, not issued more than 30 seconds ahead,
    and it holds the required scope. *)
Theorem identity_verify_sound token scope now w p w'
    (Hrun : identity_verify secret issuer token scope now w = (Ok p, w')) :
  (∃ body, token = body +:+ "." +:+ sign_body secret body)
  ∧ (∃ d, carries secret token (JObj d) ∧ claim_is d "iss" issuer = true
      ∧ pr_subject p = get_str d "sub" "" ∧ pr_kind p = get_str d "kind" ""
      ∧ scopes_of d = Ok (pr_scopes p))
  ∧ (pr_issued_at p <= clock now w + 30 ∧ clock now w < pr_expires_at p)%Z
  ∧ pr_subject p ≠ "" ∧ pr_kind p ≠ "" ∧ pr_token_id p ≠ ""
  ∧ (∀ s, scope = Some s → s ≠ "" → has_scope p s = true)
  ∧ w_db w' = w_db w.
Proof.
  unfold identity_verify in Hrun. apply bind_Ok_inv in Hrun as (v & w1 & [Hv ->]%lift_Ok_inv & Hrun).
  rewrite bind_int_now in Hrun. apply lift_Ok_inv in Hrun as [Hc ->].
  apply open_token_inv in Hv as [Hcar Hcan].
  apply identity_check_inv in Hc as (d & -> & ? & ? & ? & ? & ? & ? & ? & ? & ? & ? & ? & ? & ?).
  split_and!; eauto 10 using after_clock_db; lia.
Qed.

Lemma map_py_str_JStr l : map py_str (map JStr l) = l.
Proof. rewrite map_map. apply map_id. Qed.
Lemma map_jcanon_JStr l : map jcanon (map JStr l) = map JStr l.
Proof. by rewrite map_map. Qed.

Lemma sorted_set_in s l : s ∈ sorted_set l ↔ s ∈ l.
Proof. unfold sorted_set. by rewrite order_by_perm, elem_of_remove_dups. Qed.

(** The dictionary an issued token parses back to. *)
Definition identity_claims (subject kind : string) (scopes : list string) (iat exp : Z) (jti : string) : dict :=
  [("exp", JInt exp); ("iat", JInt iat); ("iss", JStr issuer); ("jti", JStr jti); ("kind", JStr kind);
   ("scopes", JList (map JStr (sorted_set scopes))); ("sub", JStr subject)].
Lemma jcanon_identity_payload subject kind scopes iat exp jti :
  jcanon (JObj (identity_payload issuer subject kind scopes iat exp jti))
  = JObj (identity_claims subject kind scopes iat exp jti).
Proof.
  unfold identity_payload, identity_claims. cbn. by rewrite map_jcanon_JStr.
Qed.

#[local] Arguments has_scope : simpl never.
#[local] Arguments sorted_set : simpl never.

Lemma has_scope_in p s : s ∈ pr_scopes p → has_scope p s = true.
Proof. intros Hs. unfold has_scope. by rewrite (proj2 (str_in_iff _ _) Hs). Qed.

(** Round trip: a token [issue] returns is accepted by [verify] from 30
    seconds before its issue time until it expires, for every scope it was
    issued with, and gives back the subject, the kind, exactly the scopes and
    the validity window of the issue call. *)
Theorem identity_issue_verify subject kind scopes ttl now w token w1 now' w2 scope
    (Hissue : identity_issue secret issuer subject kind scopes ttl now w = (Ok token, w1))
    (Hdraw : ∀ n, token_at n ≠ "")
    (Hearly : (clock now w - 30 <= clock now' w2)%Z)
    (Hlate : (clock now' w2 < clock now w + ttl)%Z)
    (Hscope : scope ∈ scopes) :
  ∃ p, identity_verify secret issuer token (Some scope) now' w2 = (Ok p, after_clock now' w2)
    ∧ pr_subject p = subject ∧ pr_kind p = kind ∧ (∀ s, s ∈ pr_scopes p ↔ s ∈ scopes)
    ∧ pr_issuer p = issuer ∧ pr_issued_at p = clock now w ∧ pr_expires_at p = (clock now w + ttl)%Z.
Proof.
  unfold identity_issue in Hissue. minv Hissue. apply orb_false_iff in Hg as [Hs Hk].
  apply blank_nonempty in Hs, Hk. rewrite int_now_run in Hm. injection Hm as <- <-.
  unfold token_hex in Hm0. injection Hm0 as <- <-. simpl in *.
  set (jti := token_at _). specialize (Hdraw (w_tick (after_clock now w))). fold jti in Hdraw.
  eexists. split.
  - unfold identity_verify. rewrite open_seal_token, jcanon_identity_payload.
    rewrite bind_lift_Ok, bind_int_now. unfold identity_check. cbn.
    rewrite String.eqb_refl. cbn.
    rewrite (proj2 (Z.ltb_ge _ _)) by lia. rewrite (proj2 (Z.leb_gt _ _)) by lia.
    rewrite map_py_str_JStr.
    rewrite (proj2 (String.eqb_neq subject "") Hs), (proj2 (String.eqb_neq kind "") Hk),
      (proj2 (String.eqb_neq jti "") Hdraw). cbn.
    rewrite has_scope_in by (by apply sorted_set_in). cbn. by rewrite andb_false_r.
  - cbn. split_and!; try done. intros s. apply sorted_set_in.
Qed.
End identity_props.

(** ** What the verifiers of grants and capabilities accept *)
Section claims.
Context `{JsonText, Entropy}.

Lemma claim_mismatch_None d claims :
  claim_mismatch d claims = None ↔ Forall (λ c, claim_is_opt d c.1 c.2 = true) claims.
Proof.
  induction claims as [|[k v] claims IH]; simpl; [by split|].
  rewrite Forall_cons. simpl. destruct (claim_is_opt d k v); [tauto|]. by split; [|intros [? _]].
Qed.

Lemma open_token_same_body cls canonical bad malformed secret token token' v :
  open_token cls canonical bad malformed secret token = Ok v →
  (fst <$> split_dot token') = (fst <$> split_dot token) →
  open_token cls canonical bad malformed secret token' = Ok v
  ∨ ∃ msg, open_token cls canonical bad malformed secret token' = Raise (Exn cls msg).
Proof.
  unfold open_token. destruct (split_dot token) as [[body sig]|]; [|done].
  destruct (split_dot token') as [[body' sig']|]; [|done]. simpl. intros Hv [= ->].
  destruct (is_ascii body); [|by right; eexists]. simpl in *.
  destruct (b64u_decode sig) as [x|]; [|done]. destruct (canonical && _); [done|].
  destruct (negb _); [done|].
  destruct (b64u_decode sig') as [y|]; [|by right; eexists].
  destruct (canonical && negb (b64u_encode y =s sig')); [by right; eexists|].
  destruct (negb (hmac secret body =s y)); [by right; eexists|]. by left.
Qed.

Lemma grant_check_inv issuer v mid tid wid action cid t gid :
  grant_check issuer v mid tid wid action cid t = Ok gid →
  ∃ d exp, v = JObj d ∧ claim_is d "iss" issuer = true
    ∧ py_int (default (JInt 0) (dget d "exp")) = Ok exp ∧ (t < exp)%Z
    ∧ Forall (λ c, claim_is_opt d c.1 c.2 = true) (grant_claims mid tid wid action cid)
    ∧ gid = get_str d "jti" "" ∧ gid ≠ "".
Proof.
  unfold grant_check. destruct v as [| | | | | |d]; try done. cbn [as_dict].
  destruct (claim_is d "iss" issuer) eqn:Ei; [|done]. cbn [negb].
  destruct (py_int _) as [exp|] eqn:Ee; [|done]. destruct (Z.leb_spec exp t); [done|].
  destruct (claim_mismatch d _) as [|] eqn:Em; [done|]. cbv zeta.
  destruct (String.eqb_spec (get_str d "jti" "") ""); [done|]. intros [= <-].
  apply claim_mismatch_None in Em. by exists d, exp.
Qed.

(** Whatever target is asked for, a payload that passed once has one id. *)
Lemma grant_check_again issuer v mid tid wid action cid t gid mid' tid' wid' action' cid' t' :
  grant_check issuer v mid tid wid action cid t = Ok gid →
  grant_check issuer v mid' tid' wid' action' cid' t' = Ok gid
  ∨ ∃ msg, grant_check issuer v mid' tid' wid' action' cid' t' = Raise (Exn PrivilegeError msg).
Proof.
  intros (d & exp & -> & Ei & Ee & _ & _ & -> & Hne)%grant_check_inv.
  unfold grant_check. cbn [as_dict]. rewrite Ei, Ee. cbn [negb]. destruct (exp <=? t')%Z; [by right; eexists|].
  destruct (claim_mismatch d _); [by right; eexists|]. cbv zeta.
  apply String.eqb_neq in Hne. rewrite Hne. by left.
Qed.

Lemma capability_check_inv issuer v mid sid action ps cp t gid :
  capability_check issuer v mid sid action ps cp t = Ok gid →
  ∃ d exp, v = JObj d ∧ claim_is d "iss" issuer = true
    ∧ py_int (default (JInt 0) (dget d "exp")) = Ok exp ∧ (t < exp)%Z
    ∧ Forall (λ c, claim_is_opt d c.1 c.2 = true)
        (capability_claims mid sid action (parameter_digest ps) cp)
    ∧ gid = get_str d "jti" "" ∧ gid ≠ "".
Proof.
  unfold capability_check. destruct v as [| | | | | |d]; try done. cbn [as_dict].
  destruct (claim_is d "iss" issuer) eqn:Ei; [|done]. cbn [negb].
  destruct (py_int _) as [exp|] eqn:Ee; [|done]. destruct (Z.leb_spec exp t); [done|].
  destruct (claim_mismatch d _) as [|] eqn:Em; [done|]. cbv zeta.
  destruct (String.eqb_spec (get_str d "jti" "") ""); [done|]. intros [= <-].
  apply claim_mismatch_None in Em. by exists d, exp.
Qed.

Lemma capability_check_again issuer v mid sid action ps cp t gid mid' sid' action' ps' cp' t' :
  capability_check issuer v mid sid action ps cp t = Ok gid →
  capability_check issuer v mid' sid' action' ps' cp' t' = Ok gid
  ∨ ∃ msg, capability_check issuer v mid' sid' action' ps' cp' t' = Raise (Exn CapabilityError msg).
Proof.
  intros (d & exp & -> & Ei & Ee & _ & _ & -> & Hne)%capability_check_inv.
  unfold capability_check. cbn [as_dict]. rewrite Ei, Ee. cbn [negb].
  destruct (exp <=? t')%Z; [by right; eexists|].
  destruct (claim_mismatch d _); [by right; eexists|]. cbv zeta.
  apply String.eqb_neq in Hne. rewrite Hne. by left.
Qed.
End claims.

(** ** Single use *)
Section single_use.
Context `{JsonText, Entropy}.

(** A use recorded stays recorded. *)
Definition used_ext (d d' : DB) : Prop :=
  used_privilege_grants d `prefix_of` used_privilege_grants d'
  ∧ used_action_capabilities d `prefix_of` used_action_capabilities d'.
#[export] Instance used_ext_preorder : PreOrder used_ext.
Proof.
  split; [by split|]. intros x y z [? ?] [? ?]. split; by etrans.
Qed.
Lemma used_ext_frame d d' : db_authority d' = db_authority d → used_ext d d'.
Proof. intros E. unfold used_ext. rewrite E. done. Qed.

Hint Extern 1 (used_ext _ _) => first [apply used_ext_frame; reflexivity
  | split; simpl; solve [reflexivity | by apply prefix_app_r]] : respects.

Lemma audit_used_ext actor action mid payload now :
  respects (on_db used_ext) (audit actor action mid payload now).
Proof. apply audit_frame; [typeclasses eauto|]. intros e ts d. by apply used_ext_frame. Qed.
Hint Resolve audit_used_ext : respects.

Lemma privilege_issue_used_ext s i ia auth m t wk a c ttl now :
  respects (on_db used_ext) (privilege_issue s i ia auth m t wk a c ttl now).
Proof. unfold privilege_issue, wrap_identity. io_respects. Qed.
Lemma privilege_consume_used_ext s i tok m t wk a c now :
  respects (on_db used_ext) (privilege_consume s i tok m t wk a c now).
Proof. unfold privilege_consume. io_respects. Qed.
Lemma capability_issue_used_ext s i ia auth m sy a ps c ttl now :
  respects (on_db used_ext) (capability_issue s i ia auth m sy a ps c ttl now).
Proof. unfold capability_issue, wrap_identity. io_respects. Qed.
Lemma capability_consume_used_ext s i tok m sy a ps c now :
  respects (on_db used_ext) (capability_consume s i tok m sy a ps c now).
Proof. unfold capability_consume. io_respects. Qed.

(** Any call of the two authorities, returning or raising. *)
Inductive authority_step (w : World) : World → Prop :=
| step_privilege_issue s i ia auth m t wk a c ttl now :
    authority_step w (snd (privilege_issue s i ia auth m t wk a c ttl now w))
| step_privilege_consume s i tok m t wk a c now :
    authority_step w (snd (privilege_consume s i tok m t wk a c now w))
| step_capability_issue s i ia auth m sy a ps c ttl now :
    authority_step w (snd (capability_issue s i ia auth m sy a ps c ttl now w))
| step_capability_consume s i tok m sy a ps c now :
    authority_step w (snd (capability_consume s i tok m sy a ps c now w)).

Lemma authority_steps_used_ext w w' : rtc authority_step w w' → used_ext (w_db w) (w_db w').
Proof.
  induction 1 as [w|w w1 w2 Hs _ IH]; [reflexivity|]. etrans; [|exact IH].
  destruct Hs; [apply privilege_issue_used_ext | apply privilege_consume_used_ext
    | apply capability_issue_used_ext | apply capability_consume_used_ext].
Qed.

Lemma row_exists_prefix {R} (key : R → string) k l l' :
  l `prefix_of` l' → row_exists key k l = true → row_exists key k l' = true.
Proof.
  intros [l2 ->]. rewrite !row_exists_true, map_app, elem_of_app. by left.
Qed.
Lemma row_exists_snoc {R} (key : R → string) r l : row_exists key (key r) (l ++ [r]) = true.
Proof. rewrite row_exists_true, map_app, elem_of_app. right. by left. Qed.

(** What a successful consumption did. *)
Lemma privilege_consume_Ok_inv s i tok m t wk a c now w g w' :
  privilege_consume s i tok m t wk a c now w = (Ok g, w') →
  ∃ v, open_token PrivilegeError false "invalid privilege signature" "malformed privilege grant" s tok = Ok v
    ∧ grant_check i v m t wk a c (clock now w) = Ok g
    ∧ row_exists u_id g (used_privilege_grants (w_db w)) = false
    ∧ used_ext (set_used_privilege_grants (λ l, l ++ [{| u_id := g; u_used_at := inject_Z (clock now w) |}]) (w_db w))
        (w_db w').
Proof.
  unfold privilege_consume. intros Hrun.
  apply bind_Ok_inv in Hrun as (v & w1 & [Hv ->]%lift_Ok_inv & Hrun). rewrite bind_int_now in Hrun.
  apply bind_Ok_inv in Hrun as (g' & w1 & [Hg ->]%lift_Ok_inv & Hrun).
  apply bind_Ok_inv in Hrun as (? & w2 & Htx%transaction_Ok_inv & Hrun). unfold query, exec in Htx. minv Htx.
  apply bind_Ok_inv in Hrun as (? & w3 & Hau & Hrun). minv Hrun.
  exists v. rewrite after_clock_db in *. split_and!; try done.
  pose proof (respects_run _ _ _ _ _ (audit_used_ext _ _ _ _ _) Hau) as Hx.
  unfold on_db in Hx. simpl in Hx. by rewrite after_clock_db in Hx.
Qed.

Lemma capability_consume_Ok_inv s i tok m sy a ps c now w g w' :
  capability_consume s i tok m sy a ps c now w = (Ok g, w') →
  ∃ v, open_token CapabilityError false "invalid capability signature" "malformed capability" s tok = Ok v
    ∧ capability_check i v m sy a ps c (clock now w) = Ok g
    ∧ row_exists u_id g (used_action_capabilities (w_db w)) = false
    ∧ w_db w' = set_used_action_capabilities
        (λ l, l ++ [{| u_id := g; u_used_at := inject_Z (clock now w) |}]) (w_db w).
Proof.
  unfold capability_consume. intros Hrun.
  apply bind_Ok_inv in Hrun as (v & w1 & [Hv ->]%lift_Ok_inv & Hrun). rewrite bind_int_now in Hrun.
  apply bind_Ok_inv in Hrun as (g' & w1 & [Hg ->]%lift_Ok_inv & Hrun).
  apply bind_Ok_inv in Hrun as (? & w2 & Htx%transaction_Ok_inv & Hrun). unfold query, exec in Htx. minv Htx. minv Hrun.
  exists v. simpl. rewrite after_clock_db in *. by split_and!.
Qed.

(** A privilege grant is used once: after one successful consumption and
    any further calls of the authorities, consuming the token again, for any
    target, at any time, or with its signature spelled differently, is refused
    with a PrivilegeError and changes nothing. *)
Theorem privilege_single_use s i tok m t wk a c now w g w1 w2 tok' m' t' wk' a' c' now' r w3
    (Hfirst : privilege_consume s i tok m t wk a c now w = (Ok g, w1))
    (Hlater : rtc authority_step w1 w2)
    (Hbody : (fst <$> split_dot tok') = (fst <$> split_dot tok))
    (Hagain : privilege_consume s i tok' m' t' wk' a' c' now' w2 = (r, w3)) :
  (∃ msg, r = Raise (Exn PrivilegeError msg)) ∧ w_db w3 = w_db w2.
Proof.
  apply privilege_consume_Ok_inv in Hfirst as (v & Hv & Hg & _ & [Hu _]).
  apply authority_steps_used_ext in Hlater as [Hp _].
  assert (row_exists u_id g (used_privilege_grants (w_db w2)) = true) as Hin.
  { eapply row_exists_prefix; [exact Hp|]. eapply row_exists_prefix; [exact Hu|]. simpl.
    exact (row_exists_snoc u_id {| u_id := g; u_used_at := _ |} _). }
  revert Hagain. unfold privilege_consume.
  destruct (open_token_same_body _ _ _ _ _ _ _ _ Hv Hbody) as [->|[msg ->]].
  2:{ intros [= <- <-]. by split; [eexists|]. }
  rewrite bind_lift_Ok, bind_int_now.
  destruct (grant_check_again _ _ _ _ _ _ _ _ _ m' t' wk' a' c' (clock now' w2) Hg) as [->|[msg ->]].
  2:{ intros [= <- <-]. split; [by eexists|]. apply after_clock_db. }
  rewrite bind_lift_Ok. unfold mbind at 1, M_bind at 1.
  unfold transaction. unfold mbind at 1, M_bind at 1. unfold query, gets.
  rewrite after_clock_db, Hin. simpl. intros [= <- <-]. split; [by eexists|]. done.
Qed.

(** C9. A capability is used once, whatever action, parameters or checkpoint
    the later attempts name. *)
Theorem capability_single_use s i tok m sy a ps c now w g w1 w2 tok' m' sy' a' ps' c' now' r w3
    (Hfirst : capability_consume s i tok m sy a ps c now w = (Ok g, w1))
    (Hlater : rtc authority_step w1 w2)
    (Hbody : (fst <$> split_dot tok') = (fst <$> split_dot tok))
    (Hagain : capability_consume s i tok' m' sy' a' ps' c' now' w2 = (r, w3)) :
  (∃ msg, r = Raise (Exn CapabilityError msg)) ∧ w_db w3 = w_db w2.
Proof.
  apply capability_consume_Ok_inv in Hfirst as (v & Hv & Hg & _ & Hu).
  apply authority_steps_used_ext in Hlater as [_ Hp].
  assert (row_exists u_id g (used_action_capabilities (w_db w2)) = true) as Hin.
  { eapply row_exists_prefix; [exact Hp|]. rewrite Hu. simpl.
    exact (row_exists_snoc u_id {| u_id := g; u_used_at := _ |} _). }
  revert Hagain. unfold capability_consume.
  destruct (open_token_same_body _ _ _ _ _ _ _ _ Hv Hbody) as [->|[msg ->]].
  2:{ intros [= <- <-]. by split; [eexists|]. }
  rewrite bind_lift_Ok, bind_int_now.
  destruct (capability_check_again _ _ _ _ _ _ _ _ _ m' sy' a' ps' c' (clock now' w2) Hg) as [->|[msg ->]].
  2:{ intros [= <- <-]. split; [by eexists|]. apply after_clock_db. }
  rewrite bind_lift_Ok. unfold mbind at 1, M_bind at 1.
  unfold transaction. unfold mbind at 1, M_bind at 1. unfold query, gets.
  rewrite after_clock_db, Hin. simpl. intros [= <- <-]. split; [by eexists|]. done.
Qed.
End single_use.

(** ** Exact binding of what was issued *)
Section binding.
Context `{JsonText, Entropy}.

Lemma wrap_identity_Ok {A} cls prefix (m : IO A) w a w' :
  wrap_identity cls prefix m w = (Ok a, w') → m w = (Ok a, w').
Proof.
  unfold wrap_identity, catch. destruct (m w) as [[x|e] w1]; [done|].
  destruct (bool_decide _); done.
Qed.

(** The dictionaries the tokens parse back to. *)
Definition grant_dict (i jti sub m t wk a c : string) (iat exp : Z) : dict :=
  [("action", JStr a); ("checkpoint_id", JStr c); ("exp", JInt exp); ("iat", JInt iat); ("iss", JStr i);
   ("jti", JStr jti); ("mission_id", JStr m); ("sub", JStr sub); ("task_id", JStr t); ("worker_id", JStr wk)].
Lemma jcanon_grant_payload i jti sub m t wk a c iat exp :
  jcanon (JObj (grant_payload i jti sub m t wk a c iat exp))
  = JObj (grant_dict i jti sub m t wk a c iat exp).
Proof. reflexivity. Qed.

Definition capability_dict (i jti sub m sy a digest : string) (c : option string) (iat exp : Z) : dict :=
  [("action", JStr a); ("checkpoint_id", jopt_str c); ("exp", JInt exp); ("iat", JInt iat); ("iss", JStr i);
   ("jti", JStr jti); ("mission_id", JStr m); ("parameters_sha256", JStr digest); ("sub", JStr sub);
   ("system_id", JStr sy)].
Lemma jcanon_capability_payload i jti sub m sy a digest c iat exp :
  jcanon (JObj (capability_payload i jti sub m sy a digest c iat exp))
  = JObj (capability_dict i jti sub m sy a digest c iat exp).
Proof. unfold capability_payload, capability_dict. cbn. by destruct c. Qed.

(** The claims of a target hold of the dictionary exactly for the issued target. *)
Lemma grant_dict_claims i jti sub m t wk a c iat exp m' t' wk' a' c' :
  Forall (λ k, claim_is_opt (grant_dict i jti sub m t wk a c iat exp) k.1 k.2 = true)
    (grant_claims m' t' wk' a' c')
  ↔ (m', t', wk', a', c') = (m, t, wk, a, c).
Proof.
  unfold grant_claims. rewrite !Forall_cons, Forall_nil. cbn. rewrite !String.eqb_eq. naive_solver.
Qed.
Lemma claim_opt_self d k c : dget d k = Some (jopt_str c) → claim_is_opt d k c = true.
Proof. unfold claim_is_opt, claim_is. intros ->. destruct c; [apply String.eqb_refl | done]. Qed.
Lemma claim_opt_inv d k c c' : dget d k = Some (jopt_str c) → claim_is_opt d k c' = true → c' = c.
Proof.
  unfold claim_is_opt, claim_is. intros ->. destruct c, c'; simpl; try done. by intros ->%String.eqb_eq.
Qed.
Lemma capability_dict_claims i jti sub m sy a digest c iat exp m' sy' a' digest' c' :
  Forall (λ k, claim_is_opt (capability_dict i jti sub m sy a digest c iat exp) k.1 k.2 = true)
    (capability_claims m' sy' a' digest' c')
  ↔ (m', sy', a', digest', c') = (m, sy, a, digest, c).
Proof.
  unfold capability_claims. rewrite !Forall_cons, Forall_nil. cbn [fst snd]. cbn -[claim_is_opt].
  set (d := capability_dict _ _ _ _ _ _ _ _ _ _).
  assert (claim_is_opt d "checkpoint_id" c' = true ↔ c' = c) as ->.
  { split; [by apply claim_opt_inv | intros ->; by apply claim_opt_self]. }
  cbn. rewrite !String.eqb_eq. naive_solver.
Qed.

Lemma parameter_digest_inj ps ps' :
  parameter_digest ps = parameter_digest ps' → jcanon (JObj ps) = jcanon (JObj ps')
  ∨ sha256_collide (dumps Compact (JObj ps)) (dumps Compact (JObj ps')).
Proof.
  intros [E|]%sha256_eq_or_collide; [|by right]. left. by apply dumps_inj in E.
Qed.
Lemma parameter_digest_canon ps ps' :
  jcanon (JObj ps) = jcanon (JObj ps') → parameter_digest ps = parameter_digest ps'.
Proof.
  intros E. unfold parameter_digest.
  by rewrite <- (dumps_jcanon Compact (JObj ps)), E, dumps_jcanon by done.
Qed.

(** What a successful issue built. *)
Lemma privilege_issue_Ok_inv s i ia auth m t wk a c ttl now w g w' :
  privilege_issue s i ia auth m t wk a c ttl now w = (Ok g, w') →
  ∃ sub issued n, (0 < ttl <= 300)%Z ∧ g_grant_id g = token_at n ∧ g_expires_at g = (issued + ttl)%Z
    ∧ (∀ z, now = Some z → issued = z)
    ∧ existsb blank [m; t; wk; a; c] = false
    ∧ g_token g = seal_token s (grant_payload i (token_at n) sub m t wk a c issued (issued + ttl))
    ∧ ∃ p w0, ia_verify ia auth (Some "grant:privileged") now w = (Ok p, w0) ∧ sub = pr_subject p.
Proof.
  unfold privilege_issue. intros Hrun. minv Hrun. apply wrap_identity_Ok in Hm.
  rewrite int_now_run in Hm0. injection Hm0 as <- <-.
  unfold token_hex in Hm1. injection Hm1 as <- <-. unfold PRIVILEGE_MAX_TTL in *.
  apply orb_false_iff in Hg0 as [?%Z.leb_gt ?%Z.ltb_ge].
  eexists _, _, _. split_and!; try done; [by intros z -> | by eexists _, _].
Qed.

Lemma capability_issue_Ok_inv s i ia auth m sy a ps c ttl now w g w' :
  capability_issue s i ia auth m sy a ps c ttl now w = (Ok g, w') →
  ∃ sub issued n, (0 < ttl <= 90)%Z ∧ c_capability_id g = token_at n ∧ c_expires_at g = (issued + ttl)%Z
    ∧ (∀ z, now = Some z → issued = z)
    ∧ existsb blank [m; sy; a] = false
    ∧ c_token g = seal_token s
        (capability_payload i (token_at n) sub m sy a (parameter_digest ps) c issued (issued + ttl))
    ∧ ∃ p w0, ia_verify ia auth (Some "capability:issue") now w = (Ok p, w0) ∧ sub = pr_subject p.
Proof.
  unfold capability_issue. intros Hrun. minv Hrun. apply wrap_identity_Ok in Hm.
  rewrite int_now_run in Hm0. injection Hm0 as <- <-.
  unfold token_hex in Hm1. injection Hm1 as <- <-. unfold CAPABILITY_MAX_TTL in *.
  apply orb_false_iff in Hg0 as [?%Z.leb_gt ?%Z.ltb_ge].
  eexists _, _, _. split_and!; try done; [by intros z -> | by eexists _, _].
Qed.

(** A privilege grant is issued only to an authorizer with the scope
    grant:privileged, for at most 300 seconds, and is consumed only for
    exactly the mission, task, worker, action and checkpoint it was issued
    for, before it expires. *)
Theorem privilege_exactly_bound s i ia auth m t wk a c ttl now w g w1 m' t' wk' a' c' now' w2 id w3
    (Hissue : privilege_issue s i ia auth m t wk a c ttl now w = (Ok g, w1))
    (Hconsume : privilege_consume s i (g_token g) m' t' wk' a' c' now' w2 = (Ok id, w3)) :
  (m', t', wk', a', c') = (m, t, wk, a, c) ∧ id = g_grant_id g
  ∧ (clock now' w2 < g_expires_at g)%Z
  ∧ (∃ issued, (g_expires_at g <= issued + 300)%Z ∧ (∀ z, now = Some z → issued = z))
  ∧ ∃ p w0, ia_verify ia auth (Some "grant:privileged") now w = (Ok p, w0)
      ∧ has_scope p "grant:privileged" = true.
Proof.
  apply privilege_issue_Ok_inv in Hissue as (sub & issued & n & ? & -> & -> & Hz & _ & Et & p & w0 & Hp & _).
  apply privilege_consume_Ok_inv in Hconsume as (v & Hv & Hg & _ & _). rewrite Et in Hv.
  rewrite open_seal_token, jcanon_grant_payload in Hv. injection Hv as <-.
  apply grant_check_inv in Hg as (d & exp & [= <-] & _ & [= <-] & Hlt & Hf & -> & _).
  apply grant_dict_claims in Hf. split_and!; try done.
  - exists issued. split; [lia | done].
  - exists p, w0. split; [done|]. unfold ia_verify, identity_verify in Hp.
    apply bind_Ok_inv in Hp as (v & ? & _ & Hp). rewrite bind_int_now in Hp.
    apply lift_Ok_inv in Hp as [Hp _]. apply identity_check_inv in Hp as (? & Hp). by apply Hp.
Qed.

(** A token signed over a capability payload is consumed for its target only. *)
Lemma capability_payload_bound s i jti sub m sy a ps c iat exp m' sy' a' ps' c' now w id w' :
  capability_consume s i (seal_token s (capability_payload i jti sub m sy a (parameter_digest ps) c iat exp))
    m' sy' a' ps' c' now w = (Ok id, w') →
  (m', sy', a', c') = (m, sy, a, c) ∧ (clock now w < exp)%Z
  ∧ (jcanon (JObj ps') = jcanon (JObj ps) ∨ sha256_collide (dumps Compact (JObj ps)) (dumps Compact (JObj ps'))).
Proof.
  intros (v & Hv & Hg & _)%capability_consume_Ok_inv.
  rewrite open_seal_token, jcanon_capability_payload in Hv. injection Hv as <-.
  apply capability_check_inv in Hg as (d & e & [= <-] & _ & [= <-] & Hlt & Hf & _).
  apply capability_dict_claims in Hf as [= -> -> -> Ed ->]. apply parameter_digest_inj in Ed. split_and!; try done.
  destruct Ed as [Ed|[Hne Ed]]; [by left|right]. done.
Qed.

(** C8. A capability authorises exactly one call: consuming it succeeds, at
    most 90 seconds after its issue, if the mission, the system, the action,
    the checkpoint and the parameters (up to key order) are those it was
    issued for and it was not used before, and only then, unless two
    parameter sets collide under SHA-256. *)
Theorem capability_exactly_bound s i ia auth m sy a ps c ttl now w g w1 m' sy' a' ps' c' now' w2
    (Hissue : capability_issue s i ia auth m sy a ps c ttl now w = (Ok g, w1))
    (Hdraw : c_capability_id g ≠ "") :
  let accepted := ∃ w3, capability_consume s i (c_token g) m' sy' a' ps' c' now' w2
                        = (Ok (c_capability_id g), w3) in
  let matches := (m', sy', a', c') = (m, sy, a, c) ∧ jcanon (JObj ps') = jcanon (JObj ps)
                 ∧ (clock now' w2 < c_expires_at g)%Z
                 ∧ row_exists u_id (c_capability_id g) (used_action_capabilities (w_db w2)) = false in
  (matches → accepted) ∧ (accepted → matches ∨ sha256_collide (dumps Compact (JObj ps)) (dumps Compact (JObj ps')))
  ∧ ∃ issued, (c_expires_at g <= issued + 90)%Z ∧ (∀ z, now = Some z → issued = z).
Proof.
  apply capability_issue_Ok_inv in Hissue as (sub & issued & n & Httl & En & Ex & Hz & _ & Et & _).
  rewrite En, Ex, Et in *. intros accepted matches. split_and!; [| |exists issued; split; [lia|done]].
  - intros (Em & Ep%parameter_digest_canon & Hlt & Hu). eexists. unfold capability_consume.
    rewrite open_seal_token, jcanon_capability_payload, bind_lift_Ok, bind_int_now.
    unfold capability_check. cbn [as_dict]. rewrite (proj2 (claim_mismatch_None _ _)).
    2:{ apply capability_dict_claims. congruence. }
    cbn. rewrite String.eqb_refl. cbn. rewrite (proj2 (Z.leb_gt _ _)) by lia.
    rewrite (proj2 (String.eqb_neq _ _) Hdraw).
    unfold lift_result, mbind, M_bind, transaction, query, gets. rewrite after_clock_db, Hu. done.
  - intros [w3 Hc]. pose proof Hc as (v & _ & _ & Hu & _)%capability_consume_Ok_inv.
    apply capability_payload_bound in Hc as (Em & Hlt & Ed).
    destruct Ed as [Ed|]; [left | by right]. done.
Qed.
End binding.
