(* ===== verification/Policy.v ===== *)
(** immune_core/policy.py and immune_fortress/policy_authority.py: the policy
    guard and the sovereign policy authority, with the [PolicyDecision] of
    models.py. *)

From S2P Require Import Prelude Json Sha256 Schema Storage Ledger Tokens.

(** ** Decisions *)
Definition POLICY_VERSION : string := "IMUNE-DNA-001/1.0.0".

Record PolicyDecision := {
  pd_decision : string;
  pd_reason : string;
  pd_restrictions : list string;
  pd_policy_version : string;
}.

Definition permitted (d : PolicyDecision) : bool :=
  str_in (pd_decision d) ["PERMITIR"; "PERMITIR_COM_RESTRIÇÕES"].

Definition decision (kind reason : string) : PolicyDecision :=
  {| pd_decision := kind; pd_reason := reason; pd_restrictions := []; pd_policy_version := POLICY_VERSION |}.

(** ** The constitution file *)
Definition CR : ascii := ascii_of_nat 13.
Definition LF : ascii := ascii_of_nat 10.

(** [raw.replace(b"\r\n", b"\n").replace(b"\r", b"\n")] *)
Fixpoint replace_crlf (s : string) : string :=
  match s with
  | EmptyString => EmptyString
  | String c s' =>
      match s' with
      | String d s'' => if Ascii.eqb c CR && Ascii.eqb d LF then String LF (replace_crlf s'')
                        else String c (replace_crlf s')
      | EmptyString => String c EmptyString
      end
  end.
Fixpoint replace_cr (s : string) : string :=
  match s with
  | EmptyString => EmptyString
  | String c s' => String (if Ascii.eqb c CR then LF else c) (replace_cr s')
  end.
Definition canonical_text (raw : string) : string := replace_cr (replace_crlf raw).

Definition constitution_ok (files : gmap path string) (constitution_path : path) (expected : string) : bool :=
  match files !! constitution_path with
  | None => false
  | Some raw =>
      if sha256_hex raw =s expected then true
      else sha256_hex (canonical_text raw) =s expected
  end.

(** ** The decision procedure *)
Definition FINANCIAL_FLAGS : list string :=
  ["new_cost"; "purchase"; "subscription"; "trial_with_billing_risk"; "commercial_license"].
Definition DONOR_GATES : list string :=
  ["open_source"; "license_verified"; "origin_pinned"; "artifact_hash_verified"; "security_scanned";
   "laboratory_approved"].

Section policy.
Context `{JsonText, Entropy}.

(** [str(request.get("required_scope", "")).strip()] *)
Definition request_scope (request : dict) : string := strip (get_str request "required_scope" "").

(** The decision [_evaluate_verified] records, given the constitution check. *)
Definition decide_verified (constitution : bool) (principal : Principal) (request : dict) : PolicyDecision :=
  if negb constitution then decision "BLOQUEAR" "constituição ausente ou hash divergente"
  else if negb (forallb (is_true request) ["mission_authorized"; "system_authorized"; "scope_ok"])
  then decision "BLOQUEAR" "missão, sistema ou escopo não autorizado"
  else if negb (request_scope request =s "") && negb (has_scope principal (request_scope request))
  then decision "BLOQUEAR" "identidade sem escopo exigido"
  else if existsb (is_true request) FINANCIAL_FLAGS
  then decision "EXIGIR_APROVAÇÃO_HUMANA" "ação financeira exige autorização humana explícita"
  else if is_true request "disables_security_control"
  then decision "BLOQUEAR" "controle de segurança não pode ser desativado"
  else if is_true request "logs_plaintext_secret" || is_true request "prompt_contains_unredacted_secret"
  then decision "BLOQUEAR" "segredo em texto aberto é proibido"
  else if is_true request "irreversible" && negb (is_true request "recovery_verified")
  then decision "EXIGIR_APROVAÇÃO_HUMANA" "ação irreversível sem recuperação comprovada"
  else if is_true request "material_change" && negb (is_true request "checkpoint_valid")
  then decision "EXIGIR_CHECKPOINT" "mudança material exige checkpoint válido"
  else if is_true request "donor_component"
  then if negb (forallb (is_true request) DONOR_GATES) || negb (claim_is request "authority" "adapter-only")
       then decision "BLOQUEAR" "doador não passou por todos os gates OSS"
       else {| pd_decision := "PERMITIR_COM_RESTRIÇÕES";
               pd_reason := "doador aprovado somente por adapter";
               pd_restrictions := ["no_direct_execution"; "policy_guard_required"];
               pd_policy_version := POLICY_VERSION |}
  else decision "PERMITIR" "ação autorizada dentro da missão".

Record PolicyGuard := {
  pg_identity : IdentityAuthority;
  pg_constitution_path : path;
  pg_expected_constitution_sha256 : string;
}.

(** [request.get("mission_id")], a [str | None] for [AuditLedger.append] *)
Definition request_mission (request : dict) : option string :=
  match dget request "mission_id" with Some (JStr m) => Some m | _ => None end.

Definition record_payload (request : dict) (d : PolicyDecision) : dict :=
  [("request_action", default JNull (dget request "action")); ("decision", JStr (pd_decision d));
   ("reason", JStr (pd_reason d)); ("restrictions", JList (map JStr (pd_restrictions d)));
   ("policy_version", JStr (pd_policy_version d))].

Definition policy_record (principal : option Principal) (request : dict) (d : PolicyDecision) : IO PolicyDecision :=
  _ ← audit (match principal with Some p => pr_subject p | None => "unverified" end) "policy_decision"
        (request_mission request) (record_payload request d) None;
  mret d.

Definition evaluate_verified (g : PolicyGuard) (principal : Principal) (request : dict) : IO PolicyDecision :=
  files ← gets w_files;
  let ok := constitution_ok files (pg_constitution_path g) (pg_expected_constitution_sha256 g) in
  policy_record (Some principal) request (decide_verified ok principal request).

Definition evaluate_token (g : PolicyGuard) (token : string) (request : dict) (now : option Z) : IO PolicyDecision :=
  let scope := request_scope request in
  let required_scope := if scope =s "" then None else Some scope in
  verified ← catch (p ← ia_verify (pg_identity g) token required_scope now; mret (inl p))
    (λ e, if bool_decide (exn_cls e = IdentityError) then mret (inr (exn_msg e)) else reraise e);
  match verified with
  | inr msg => policy_record None request (decision "BLOQUEAR" ("identidade inválida: " +:+ msg))
  | inl principal => evaluate_verified g principal request
  end.
End policy.

(** ** The sovereign policy authority *)
Definition ACTIVE_STATES : list string := ["AUTHORIZED"; "DISCOVERING"; "RUNNING"; "DEGRADED"; "VALIDATING"].

Record ActionRule := {
  ar_required_scope : string;
  ar_material_change : bool;
  ar_irreversible : bool;
  ar_checkpoint_required : bool;
}.

Record ActionIntent := {
  ai_mission_id : string;
  ai_system_id : string;
  ai_action : string;
  ai_parameters : dict;
  ai_checkpoint_id : option string;
}.

Record AuthorizedAction := {
  aa_decision : PolicyDecision;
  aa_capability : ActionCapability;
}.

Section authority.
Context `{JsonText, Entropy}.

(** What the authority was built with.  The two verifiers are callables the
    caller supplies. *)
Record SovereignPolicyAuthority := {
  sa_identities : IdentityAuthority;
  sa_policy : PolicyGuard;
  sa_capability_secret : string;
  sa_capability_issuer : string;
  sa_capability_identities : IdentityAuthority;
  sa_action_catalog : gmap string (gmap string ActionRule);
  sa_checkpoint_verifier : string → ActionIntent → IO bool;
  sa_recovery_verifier : option string → ActionIntent → IO bool;
}.
Context (A : SovereignPolicyAuthority).

Definition action_rule (intent : ActionIntent) : IO ActionRule :=
  match sa_action_catalog A !! ai_system_id intent ≫= λ actions, actions !! ai_action intent with
  | Some rule => mret rule
  | None => throw SovereignAuthorizationError "action is not present in sovereign action catalog"
  end.

Definition mission_facts (mission : option mission_row) (intent : ActionIntent) : bool * bool :=
  match mission with
  | Some m => (str_in (m_state m) ACTIVE_STATES, m_system_id m =s ai_system_id intent)
  | None => (false, false)
  end.

Definition checkpoint_fact (rule : ActionRule) (intent : ActionIntent) : IO bool :=
  if ar_checkpoint_required rule || ar_material_change rule
  then match ai_checkpoint_id intent with
       | Some c => if c =s "" then mret false else sa_checkpoint_verifier A c intent
       | None => mret false
       end
  else mret true.

Definition recovery_fact (rule : ActionRule) (intent : ActionIntent) : IO bool :=
  if ar_irreversible rule then sa_recovery_verifier A (ai_checkpoint_id intent) intent else mret true.

Definition intent_request (intent : ActionIntent) (rule : ActionRule)
    (mission_authorized system_authorized checkpoint_valid recovery_verified : bool) : dict :=
  [("mission_id", JStr (ai_mission_id intent)); ("action", JStr (ai_action intent));
   ("required_scope", JStr (ar_required_scope rule)); ("mission_authorized", JBool mission_authorized);
   ("system_authorized", JBool system_authorized);
   ("scope_ok", JBool (negb (ar_required_scope rule =s "")));
   ("material_change", JBool (ar_material_change rule)); ("checkpoint_valid", JBool checkpoint_valid);
   ("irreversible", JBool (ar_irreversible rule)); ("recovery_verified", JBool recovery_verified)].

Definition authorize (requester_token : string) (intent : ActionIntent) (now : option Z) : IO AuthorizedAction :=
  mission ← get_mission (ai_mission_id intent);
  rule ← action_rule intent;
  let '(mission_authorized, system_authorized) := mission_facts mission intent in
  checkpoint_valid ← checkpoint_fact rule intent;
  recovery_verified ← recovery_fact rule intent;
  d ← evaluate_token (sa_policy A) requester_token
        (intent_request intent rule mission_authorized system_authorized checkpoint_valid recovery_verified) now;
  _ ← raise_if (negb (permitted d)) SovereignAuthorizationError (pd_decision d +:+ ": " +:+ pd_reason d);
  issuer_token ← identity_issue (ia_secret (sa_identities A)) (ia_issuer (sa_identities A))
        "sovereign-policy-authority" "policy" ["capability:issue"] 60 now;
  capability ← capability_issue (sa_capability_secret A) (sa_capability_issuer A) (sa_capability_identities A)
        issuer_token (ai_mission_id intent) (ai_system_id intent) (ai_action intent) (ai_parameters intent)
        (ai_checkpoint_id intent) 45 now;
  mret {| aa_decision := d; aa_capability := capability |}.
End authority.
