(* ===== verification/PolicyProps.v ===== *)
(** The policy guard permits exactly what every rule allows, records each
    decision, and the sovereign authority derives what it permits. *)

From S2P Require Import Prelude Json Sha256 Schema Storage Ledger LedgerProps Tokens TokenProps Policy.

(** ** Line endings *)
Lemma replace_cr_no_cr s : replace_crlf (replace_cr s) = replace_cr s ∧ replace_cr (replace_cr s) = replace_cr s.
Proof.
  induction s as [|c s [IH1 IH2]]; [done|]. cbn [replace_cr]. split.
  - destruct (replace_cr s) as [|d t] eqn:E; [done|].
    assert (Ascii.eqb (if Ascii.eqb c CR then LF else c) CR = false) as Hc by (by destruct (Ascii.eqb c CR) eqn:?).
    cbn [replace_crlf] in *. rewrite Hc. simpl. by rewrite IH1.
  - rewrite IH2. by destruct (Ascii.eqb c CR) eqn:Hc; [|rewrite Hc].
Qed.
Lemma canonical_text_idem s : canonical_text (canonical_text s) = canonical_text s.
Proof. unfold canonical_text. destruct (replace_cr_no_cr (replace_crlf s)) as [-> ->]. done. Qed.

(** The guard accepts a constitution file only when its text is the approved
    one up to line endings: if the approved text (itself in LF form) has the
    expected digest, every accepted file normalises to it, or its text collides with it. *)
Theorem constitution_pinned files p approved raw
    (Happroved : canonical_text approved = approved)
    (Hfile : files !! p = Some raw)
    (Hok : constitution_ok files p (sha256_hex approved) = true) :
  canonical_text raw = approved ∨ sha256_collide raw approved ∨ sha256_collide (canonical_text raw) approved.
Proof.
  unfold constitution_ok in Hok. rewrite Hfile in Hok.
  destruct (String.eqb_spec (sha256_hex raw) (sha256_hex approved)) as [E|_].
  - apply sha256_eq_or_collide in E as [->|]; [by left | right; by left].
  - apply String.eqb_eq, sha256_eq_or_collide in Hok as [?|?]; [by left | right; by right].
Qed.

Section policy_props.
Context `{JsonText, Entropy}.

(** ** What is permitted *)
Record request_allowed (principal : Principal) (request : dict) : Prop := {
  ra_facts : ∀ k, k ∈ ["mission_authorized"; "system_authorized"; "scope_ok"] → is_true request k = true;
  ra_scope : request_scope request = "" ∨ has_scope principal (request_scope request) = true;
  ra_free : ∀ k, k ∈ FINANCIAL_FLAGS → is_true request k = false;
  ra_security : is_true request "disables_security_control" = false;
  ra_secrets : is_true request "logs_plaintext_secret" = false
               ∧ is_true request "prompt_contains_unredacted_secret" = false;
  ra_recovery : is_true request "irreversible" = true → is_true request "recovery_verified" = true;
  ra_checkpoint : is_true request "material_change" = true → is_true request "checkpoint_valid" = true;
  ra_donor : is_true request "donor_component" = true →
    (∀ k, k ∈ DONOR_GATES → is_true request k = true) ∧ claim_is request "authority" "adapter-only" = true;
}.

Lemma forallb_keys request l : forallb (is_true request) l = true ↔ ∀ k, k ∈ l → is_true request k = true.
Proof. rewrite forallb_forall. by setoid_rewrite list_elem_of_In. Qed.
Lemma existsb_keys request l : existsb (is_true request) l = false ↔ ∀ k, k ∈ l → is_true request k = false.
Proof.
  induction l as [|k l IH]; simpl; [split; [intros _ k Hk; by apply elem_of_nil in Hk|done]|].
  rewrite orb_false_iff, IH. setoid_rewrite elem_of_cons. naive_solver.
Qed.

Lemma guard_passed a b : a && negb b = false ↔ (a = true → b = true).
Proof. destruct a, b; naive_solver. Qed.
Lemma scope_guard request principal :
  negb (request_scope request =s "") && negb (has_scope principal (request_scope request)) = false
  ↔ request_scope request = "" ∨ has_scope principal (request_scope request) = true.
Proof. rewrite <- String.eqb_eq. destruct (_ =s _), (has_scope _ _); naive_solver. Qed.
Lemma donor_guard request :
  negb (forallb (is_true request) DONOR_GATES) || negb (claim_is request "authority" "adapter-only") = false
  ↔ (∀ k, k ∈ DONOR_GATES → is_true request k = true) ∧ claim_is request "authority" "adapter-only" = true.
Proof. by rewrite orb_false_iff, !negb_false_iff, forallb_keys. Qed.

(** A branch that refuses: the rule it tests is one of [request_allowed]. *)
Ltac refuses E := split; [done | intros [_ []]; exfalso;
  first [done | apply not_true_iff_false in E; apply E | apply not_false_iff_true in E; apply E];
  rewrite ?negb_false_iff, ?forallb_keys, ?existsb_keys, ?scope_guard, ?guard_passed, ?orb_false_iff; auto].

Lemma decide_permits_iff ok principal request :
  permitted (decide_verified ok principal request) = true ↔ ok = true ∧ request_allowed principal request.
Proof.
  unfold decide_verified. destruct ok; cbn [negb]; [|naive_solver].
  destruct (negb (forallb _ _)) eqn:E1; [refuses E1|].
  destruct (negb (request_scope request =s "") && _) eqn:E2; [refuses E2|].
  destruct (existsb _ _) eqn:E3; [refuses E3|].
  destruct (is_true request "disables_security_control") eqn:E4; [refuses E4|].
  destruct (is_true request "logs_plaintext_secret" || _) eqn:E5; [refuses E5|].
  destruct (is_true request "irreversible" && _) eqn:E6; [refuses E6|].
  destruct (is_true request "material_change" && _) eqn:E7; [refuses E7|].
  rewrite negb_false_iff, forallb_keys in E1. rewrite existsb_keys in E3. rewrite scope_guard in E2.
  rewrite orb_false_iff in E5. rewrite guard_passed in E6, E7.
  destruct (is_true request "donor_component") eqn:E8.
  - destruct (negb (forallb _ DONOR_GATES) || _) eqn:E9.
    + split; [done|]. intros [_ Ha]. pose proof (proj2 (donor_guard request) (ra_donor _ _ Ha E8)). congruence.
    + rewrite donor_guard in E9. split; [|done]. intros _. split; [done|]. by split.
  - split; [|done]. intros _. split; [done|]. split; try done. congruence.
Qed.

Lemma decide_restrictions ok principal request :
  permitted (decide_verified ok principal request) = true →
  pd_restrictions (decide_verified ok principal request)
  = if is_true request "donor_component" then ["no_direct_execution"; "policy_guard_required"] else [].
Proof. unfold decide_verified. repeat case_match; done. Qed.

(** The keys of a request the guard reads. *)
Definition GUARD_KEYS : list string :=
  ["mission_authorized"; "system_authorized"; "scope_ok"; "required_scope"; "disables_security_control";
   "logs_plaintext_secret"; "prompt_contains_unredacted_secret"; "irreversible"; "recovery_verified"; "material_change";
   "checkpoint_valid"; "donor_component"; "authority"] ++ FINANCIAL_FLAGS ++ DONOR_GATES.

Lemma decide_reads ok principal request request' :
  (∀ k, k ∈ GUARD_KEYS → dget request' k = dget request k) →
  decide_verified ok principal request' = decide_verified ok principal request.
Proof.
  intros Hk. assert (∀ k, str_in k GUARD_KEYS = true → is_true request' k = is_true request k) as Ht.
  { intros k Hin%str_in_iff. unfold is_true. by rewrite Hk. }
  assert (∀ l, forallb (λ k, str_in k GUARD_KEYS) l = true →
    forallb (is_true request') l = forallb (is_true request) l ∧ existsb (is_true request') l = existsb (is_true request) l) as Hl.
  { induction l as [|k l IH]; [done|]. cbn [forallb existsb]. intros [Hin Hin']%andb_true_iff.
    rewrite (Ht k Hin). by destruct (IH Hin') as [-> ->]. }
  assert (dget request' "required_scope" = dget request "required_scope") as Hs by by apply Hk, str_in_iff.
  assert (dget request' "authority" = dget request "authority") as Ha by by apply Hk, str_in_iff.
  unfold decide_verified, request_scope, get_str, claim_is. rewrite Hs, Ha, (proj1 (Hl DONOR_GATES eq_refl)).
  rewrite (proj2 (Hl FINANCIAL_FLAGS eq_refl)), (proj1 (Hl ["mission_authorized"; "system_authorized"; "scope_ok"] eq_refl)).
  by rewrite !Ht by reflexivity.
Qed.

(** C10. Deny by default, in the rules the guard has: a verified identity is permitted
    exactly when the constitution is intact, mission, system and scope are authorised,
    the principal holds the scope, no financial flag, not the security flag and neither
    of the two plaintext-secret flags the guard reads is set, irreversible work has
    proven recovery, material change has a checkpoint, and donor components passed every
    gate as adapter-only; donor work is permitted with restrictions only.  The decision
    depends on no other key of the request: in particular not on exposes_secret,
    restrictions_required, checkpoint_required and recovery_procedure_defined, which
    policies/*.rego decide on as well. *)
Theorem policy_permits_iff ok principal request :
  let d := decide_verified ok principal request in
  (permitted d = true ↔ ok = true ∧ request_allowed principal request)
  ∧ (permitted d = true →
     pd_restrictions d = if is_true request "donor_component"
                         then ["no_direct_execution"; "policy_guard_required"] else [])
  ∧ ∀ request', (∀ k, k ∈ GUARD_KEYS → dget request' k = dget request k) → decide_verified ok principal request' = d.
Proof. split_and!; [apply decide_permits_iff | apply decide_restrictions | by apply decide_reads]. Qed.

(** ** Decisions are recorded *)

(** What the ledger says about a decision. *)
Definition decision_event (actor : string) (request : dict) (d : PolicyDecision) (ev : audit_row) : Prop :=
  a_actor ev = actor ∧ a_action ev = "policy_decision" ∧ a_mission_id ev = request_mission request
  ∧ loads (a_payload_json ev) = Some (jcanon (JObj (record_payload request d))).

Lemma policy_record_run p request d w d' w' :
  policy_record p request d w = (Ok d', w') →
  d' = d ∧ w_files w' = w_files w ∧ (∃ ev, audit_events (w_db w') = audit_events (w_db w) ++ [ev]
    ∧ decision_event (match p with Some p => pr_subject p | None => "unverified" end) request d ev)
  ∧ db_store (w_db w') = db_store (w_db w) ∧ db_authority (w_db w') = db_authority (w_db w).
Proof.
  unfold policy_record. intros (h & w1 & (e & ts & D & F & _)%audit_Ok_run & Hr)%bind_Ok_inv.
  injection Hr as <- <-. rewrite D. split_and!; try done. eexists. split; [done|].
  split_and!; try done. apply loads_dumps.
Qed.

Definition scope_asked (request : dict) : option string :=
  if request_scope request =s "" then None else Some (request_scope request).

Lemma ia_verify_world ia token scope now w r w' :
  ia_verify ia token scope now w = (r, w') → w_db w' = w_db w ∧ w_files w' = w_files w.
Proof.
  unfold ia_verify, identity_verify, lift_result, mbind, M_bind.
  destruct (open_token _ _ _ _ _ _) as [v|e]; [|by intros [= _ <-]].
  rewrite int_now_run. intros [= _ <-]. by destruct now.
Qed.

Lemma files_ia_verify ia token scope now : respects same_files (ia_verify ia token scope now).
Proof. intros w. destruct (ia_verify _ _ _ _ w) as [r w'] eqn:E. by apply ia_verify_world in E as [_ ?]. Qed.
Lemma files_evaluate_token g token request now : respects same_files (evaluate_token g token request now).
Proof. pose proof files_ia_verify. unfold evaluate_token, evaluate_verified, policy_record. solve_respects. Qed.

Lemma evaluate_token_run g token request now w d w' :
  evaluate_token g token request now w = (Ok d, w') →
  ∃ actor ev, audit_events (w_db w') = audit_events (w_db w) ++ [ev] ∧ decision_event actor request d ev
  ∧ db_store (w_db w') = db_store (w_db w) ∧ db_authority (w_db w') = db_authority (w_db w)
  ∧ ((permitted d = false ∧ actor = "unverified")
     ∨ ∃ p w1, ia_verify (pg_identity g) token (scope_asked request) now w = (Ok p, w1)
        ∧ actor = pr_subject p
        ∧ d = decide_verified (constitution_ok (w_files w) (pg_constitution_path g)
                                 (pg_expected_constitution_sha256 g)) p request).
Proof.
  unfold evaluate_token. fold (scope_asked request). intros (v & w1 & Hv & Hr)%bind_Ok_inv.
  assert (w_db w1 = w_db w ∧ w_files w1 = w_files w ∧
    match v with
    | inl p => ∃ w1, ia_verify (pg_identity g) token (scope_asked request) now w = (Ok p, w1)
    | inr _ => True
    end) as (D & F & Hp).
  { revert Hv. unfold catch, mbind, M_bind.
    destruct (ia_verify _ _ _ _ _) as [[p|e] w2] eqn:E; pose proof (ia_verify_world _ _ _ _ _ _ _ E) as [? ?].
    - intros [= <- <-]. split_and!; try done. by eexists.
    - destruct (bool_decide _); [|done]. by intros [= <- <-]. }
  destruct v as [p|msg].
  - destruct Hp as [w2 Hp]. unfold evaluate_verified in Hr.
    apply bind_Ok_inv in Hr as (files & w3 & [= <- <-] & Hr).
    apply policy_record_run in Hr as (-> & _ & (ev & Hev & He) & Hs & Ha).
    rewrite D, F in *. exists (pr_subject p), ev. split_and!; try done. right. by exists p, w2.
  - apply policy_record_run in Hr as (-> & _ & (ev & Hev & He) & Hs & Ha). rewrite D in *.
    exists "unverified", ev. split_and!; try done. by left.
Qed.

(** Every policy evaluation that returns leaves exactly one ledger event
    with the decision, its reason and the actor, and touches neither missions
    and tasks nor used tokens.  A permit is given only to a token that verified
    for the scope asked, under an intact constitution, for a request every rule
    allows. *)
Theorem policy_decision_recorded g token request now w d w'
    (Hrun : evaluate_token g token request now w = (Ok d, w')) :
  ∃ actor ev, audit_events (w_db w') = audit_events (w_db w) ++ [ev] ∧ decision_event actor request d ev
  ∧ db_store (w_db w') = db_store (w_db w) ∧ db_authority (w_db w') = db_authority (w_db w)
  ∧ (permitted d = true →
     ∃ p w1, ia_verify (pg_identity g) token (scope_asked request) now w = (Ok p, w1)
       ∧ actor = pr_subject p ∧ request_allowed p request
       ∧ constitution_ok (w_files w) (pg_constitution_path g) (pg_expected_constitution_sha256 g) = true).
Proof.
  apply evaluate_token_run in Hrun as (actor & ev & Ha & He & Hs & Hu & Hd).
  exists actor, ev. split_and!; try done. intros Hp.
  destruct Hd as [[Hf _]|(p & w1 & Hv & -> & ->)]; [congruence|].
  apply decide_permits_iff in Hp as [? ?]. by exists p, w1.
Qed.
End policy_props.
#[export] Hint Resolve files_ia_verify files_evaluate_token : respects.

(** ** The sovereign authority *)
Section authorize_props.
Context `{JsonText, Entropy}.

(** What [authorize] established about an intent, called in the state [w], before it
    issued: [w1] and [w2] are the states the checkpoint and the recovery verifier left,
    where the requester's token was verified as that of [p]. *)
Record intent_authorised (A : SovereignPolicyAuthority) (tok : string) (intent : ActionIntent)
    (now : option Z) (w : World) (m : mission_row) (rule : ActionRule) (cv rv : bool) (p : Principal)
    (w1 w2 : World) : Prop := {
  ia_mission : find_row m_id (ai_mission_id intent) (missions (w_db w)) = Some m;
  ia_active : m_state m ∈ ACTIVE_STATES;
  ia_system : m_system_id m = ai_system_id intent;
  ia_rule : sa_action_catalog A !! ai_system_id intent ≫= (λ acts, acts !! ai_action intent) = Some rule;
  ia_scoped : ar_required_scope rule ≠ "";
  ia_checked : checkpoint_fact A rule intent w = (Ok cv, w1);
  ia_recovered : recovery_fact A rule intent w1 = (Ok rv, w2);
  ia_checkpoint : ar_material_change rule = true →
    ∃ c, ai_checkpoint_id intent = Some c ∧ c ≠ "" ∧ sa_checkpoint_verifier A c intent w = (Ok true, w1);
  ia_recovery : ar_irreversible rule = true →
    sa_recovery_verifier A (ai_checkpoint_id intent) intent w1 = (Ok true, w2);
  ia_requester : ∃ w3, let scope := strip (ar_required_scope rule) in
    ia_verify (pg_identity (sa_policy A)) tok (if scope =s "" then None else Some scope) now w2 = (Ok p, w3);
  ia_holds : strip (ar_required_scope rule) = "" ∨ has_scope p (strip (ar_required_scope rule)) = true;
  ia_constitution : constitution_ok (w_files w2) (pg_constitution_path (sa_policy A))
    (pg_expected_constitution_sha256 (sa_policy A)) = true;
}.

Lemma request_material intent rule ma sa cv rv :
  is_true (intent_request intent rule ma sa cv rv) "material_change" = ar_material_change rule.
Proof. unfold is_true. simpl. by destruct (ar_material_change rule). Qed.
Lemma request_irreversible intent rule ma sa cv rv :
  is_true (intent_request intent rule ma sa cv rv) "irreversible" = ar_irreversible rule.
Proof. unfold is_true. simpl. by destruct (ar_irreversible rule). Qed.
Lemma request_checkpoint intent rule ma sa cv rv :
  is_true (intent_request intent rule ma sa cv rv) "checkpoint_valid" = cv.
Proof. by destruct cv. Qed.
Lemma request_recovery intent rule ma sa cv rv :
  is_true (intent_request intent rule ma sa cv rv) "recovery_verified" = rv.
Proof. by destruct rv. Qed.

Lemma checkpoint_fact_true A rule intent w w' :
  checkpoint_fact A rule intent w = (Ok true, w') → ar_material_change rule = true →
  ∃ c, ai_checkpoint_id intent = Some c ∧ c ≠ "" ∧ sa_checkpoint_verifier A c intent w = (Ok true, w').
Proof.
  unfold checkpoint_fact. intros Hc Hm. rewrite Hm, orb_true_r in Hc.
  destruct (ai_checkpoint_id intent) as [c|]; [|done].
  destruct (String.eqb_spec c ""); [done|]. by exists c.
Qed.
Lemma recovery_fact_true A rule intent w w' :
  recovery_fact A rule intent w = (Ok true, w') → ar_irreversible rule = true →
  sa_recovery_verifier A (ai_checkpoint_id intent) intent w = (Ok true, w').
Proof. unfold recovery_fact. intros Hc Hm. by rewrite Hm in Hc. Qed.

Lemma mission_facts_true m intent :
  mission_facts m intent = (true, true) →
  ∃ r, m = Some r ∧ m_state r ∈ ACTIVE_STATES ∧ m_system_id r = ai_system_id intent.
Proof.
  destruct m as [r|]; [|done]. cbn [mission_facts]. intros [Ha Hs]%pair_equal_spec. apply str_in_iff in Ha. apply String.eqb_eq in Hs. by exists r.
Qed.

(** C12. The sovereign authority derives what it authorises: when [authorize] returns,
    the stored mission is in an active state and belongs to the intent's system; the
    action is in the catalogue under a scope that is not the empty text; for a
    material change the verifier accepted the intent's checkpoint in the state
    [authorize] was called in, and for an irreversible action the recovery in the state
    that left; in the state after both the requester's token verified and, unless the
    rule's scope is white space (for which the guard asks none), holds it stripped,
    under an intact constitution; and the returned capability can be consumed only
    for this mission, system, action and checkpoint with these parameters (or SHA-256
    collides). *)
Theorem authorize_sound A tok intent now w aa w'
    (Hrun : authorize A tok intent now w = (Ok aa, w')) :
  (∃ m rule cv rv p w1 w2, intent_authorised A tok intent now w m rule cv rv p w1 w2)
  ∧ permitted (aa_decision aa) = true
  ∧ ∀ m' sy' a' ps' c' now' w2 id w3,
      capability_consume (sa_capability_secret A) (sa_capability_issuer A) (c_token (aa_capability aa))
        m' sy' a' ps' c' now' w2 = (Ok id, w3) →
      (m', sy', a', c') = (ai_mission_id intent, ai_system_id intent, ai_action intent, ai_checkpoint_id intent)
      ∧ (jcanon (JObj ps') = jcanon (JObj (ai_parameters intent))
         ∨ sha256_collide (dumps Compact (JObj (ai_parameters intent))) (dumps Compact (JObj ps'))).
Proof.
  unfold authorize in Hrun. apply bind_Ok_inv in Hrun as (m & w0 & [= <- <-] & Hrun).
  apply bind_Ok_inv in Hrun as (rule & w1 & Hrule & Hrun).
  assert (w1 = w) as -> by (unfold action_rule in Hrule; destruct (_ ≫= _); [by injection Hrule as _ <-|done]).
  destruct (mission_facts _ intent) as [ma sa] eqn:Hfacts.
  apply bind_Ok_inv in Hrun as (cv & w2 & Hcv & Hrun).
  apply bind_Ok_inv in Hrun as (rv & w3 & Hrv & Hrun).
  apply bind_Ok_inv in Hrun as (d & w4 & Hd & Hrun).
  apply bind_Ok_inv in Hrun as (? & w5 & [Hperm%negb_false_iff ->]%raise_if_Ok_inv & Hrun).
  apply bind_Ok_inv in Hrun as (tk & w6 & _ & Hrun).
  apply bind_Ok_inv in Hrun as (cap & w7 & Hcap & Hrun). injection Hrun as <- <-. cbn [aa_decision aa_capability].
  apply evaluate_token_run in Hd as (? & ? & _ & _ & _ & _ & [[? _]|(p & wv & Hv & _ & ->)]); [congruence|].
  split_and!; [|done|].
  - pose proof (proj1 (decide_permits_iff _ _ _) Hperm) as [Hcon [Hf Hs _ _ _ Hr Hc _]].
    pose proof (Hf "mission_authorized" ltac:(set_solver)) as F1.
    pose proof (Hf "system_authorized" ltac:(set_solver)) as F2.
    pose proof (Hf "scope_ok" ltac:(set_solver)) as F3. clear Hf.
    assert (ma = true ∧ sa = true ∧ ar_required_scope rule ≠ "") as (-> & -> & Hne).
    { revert F1 F2 F3. unfold is_true. simpl. destruct ma, sa, (String.eqb_spec (ar_required_scope rule) ""); done. }
    apply mission_facts_true in Hfacts as (r & Hr0 & Hact & Hsys). exists r, rule, cv, rv, p, w2, w3.
    unfold action_rule in Hrule. destruct (sa_action_catalog A !! _ ≫= _) as [rl|] eqn:Ec; [|done].
    injection Hrule as <-. split; try done.
    + intros Hm. rewrite request_material, request_checkpoint in Hc. rewrite (Hc Hm) in Hcv.
      by eapply checkpoint_fact_true.
    + intros Hm. rewrite request_irreversible, request_recovery in Hr. rewrite (Hr Hm) in Hrv.
      by eapply recovery_fact_true.
    + by exists wv.
  - intros m' sy' a' ps' c' now' w8 id w9 Hcons.
    apply capability_issue_Ok_inv in Hcap as (sub & issued & n & _ & _ & _ & _ & _ & Et & _).
    rewrite Et in Hcons. apply capability_payload_bound in Hcons. tauto.
Qed.

(** The catalogue flag checkpoint_required has no effect of its own: for an
    action that is not a material change the decision is the same whether the
    checkpoint verified or not, so a missing or refused checkpoint never stops
    an action whose rule requires one. *)
Theorem checkpoint_required_not_enforced ok p intent rule ma sa rv cv cv'
    (Hminor : ar_material_change rule = false) :
  decide_verified ok p (intent_request intent rule ma sa cv rv)
  = decide_verified ok p (intent_request intent rule ma sa cv' rv).
Proof.
  unfold decide_verified. rewrite !request_material, Hminor. reflexivity.
Qed.
End authorize_props.
