(* ===== verification/Fortress.v ===== *)
(** immune_fortress: the root of trust over the source tree (root_trust.py), the
    fail-closed boot gate (bootstrap.py) and the adapter manifest authority
    (adapter_manifest.py). *)

From S2P Require Import Prelude Json Base64 Sha256 Schema Files Tokens.

(** [hmac.compare_digest(a, b)] on two strings: non-ASCII text is refused *)
Definition compare_digest (a b : string) : result bool :=
  if is_ascii a && is_ascii b then Ok (a =s b)
  else Raise (Exn TypeError "comparing strings with non-ASCII characters is not supported").

(** ** Key providers *)

(** The [RootKeyProvider] protocol. *)
Record RootKeyProvider := {
  kp_provider_id : string;
  kp_hardware_backed : bool;
  kp_sign : string → string;
  kp_verify : string → string → result bool;
}.
(** What its clients rely on: a provider accepts its own signatures. *)
Class SoundKey (kp : RootKeyProvider) := sound_key : ∀ payload, kp_verify kp payload (kp_sign kp payload) = Ok true.

(** [ExternalHMACRootKey] *)
Definition hmac_root_key (secret : string) : RootKeyProvider :=
  {| kp_provider_id := "external-hmac-lab"; kp_hardware_backed := false;
     kp_sign := hmac_hex secret;
     kp_verify := λ payload signature, compare_digest (hmac_hex secret payload) (lower signature) |}.
Definition root_key_init (secret : string) : result RootKeyProvider :=
  if Nat.ltb (String.length secret) 32 then Raise (Exn ValueError "root key must contain at least 32 bytes")
  else Ok (hmac_root_key secret).

(** ** Root manifests *)
Record RootManifest := {
  rm_generation : Z; rm_source_commit : string; rm_files : list (string * string); rm_signer : string;
}.

(** [d[k] = v] on a dict of strings *)
Fixpoint sset (d : list (string * string)) (k v : string) : list (string * string) :=
  match d with
  | [] => [(k, v)]
  | (k', v') :: d' => if k' =s k then (k, v) :: d' else (k', v') :: sset d' k v
  end.

(** [Path(rel).as_posix()]: empty and dot components dropped, one leading slash
    kept, or exactly two *)
Definition name_part (x : string) : bool := negb ((x =s "") || (x =s ".")).
Definition anchor (rel : string) : string :=
  match rel with
  | String a (String b rest) =>
      if Ascii.eqb a "/" then
        if Ascii.eqb b "/" then match rest with
                                | String c _ => if Ascii.eqb c "/" then "/" else "//"
                                | EmptyString => "//"
                                end
        else "/"
      else ""
  | String a EmptyString => if Ascii.eqb a "/" then "/" else ""
  | EmptyString => ""
  end.
Definition as_posix (rel : string) : string :=
  let parts := List.filter name_part (split_slash rel) in
  let name := anchor rel +:+ posix parts in
  if name =s "" then "." else name.

Section root_trust.
Context `{JsonText}.
Context (root : path) (kp : RootKeyProvider).

Definition rm_canonical (m : RootManifest) : string :=
  dumps CompactAscii (JObj [("generation", JInt (rm_generation m)); ("source_commit", JStr (rm_source_commit m));
    ("files", JObj (map (λ p, (p.1, JStr p.2)) (rm_files m))); ("signer", JStr (rm_signer m))]).

(** The loop of [build]. *)
Fixpoint build_files (files : gmap path string) (rels : list string) (acc : list (string * string))
    : result (list (string * string)) :=
  match rels with
  | [] => Ok acc
  | rel :: rest =>
      let p := resolve_join root rel in
      if negb (inside root p) then Raise (Exn RootTrustError "manifest path escapes repository")
      else match files !! p with
           | None => Raise (Exn RootTrustError ("manifest file missing: " +:+ rel))
           | Some bytes => build_files files rest (sset acc (as_posix rel) (sha256_hex bytes))
           end
  end.

Definition root_build (files : gmap path string) (paths : list string) (generation : Z) (source_commit : string)
    : result (RootManifest * string) :=
  if (generation <? 1)%Z || blank source_commit
  then Raise (Exn RootTrustError "generation and source commit are required")
  else match build_files files (sorted_set paths) [] with
       | Raise e => Raise e
       | Ok fs => let m := {| rm_generation := generation; rm_source_commit := source_commit; rm_files := fs;
                              rm_signer := kp_provider_id kp |} in
                  Ok (m, kp_sign kp (rm_canonical m))
       end.

(** The loop of [verify]. *)
Fixpoint verify_files (files : gmap path string) (l : list (string * string)) : result unit :=
  match l with
  | [] => Ok tt
  | (rel, expected) :: rest =>
      let p := resolve_join root rel in
      let failure := Raise (Exn RootTrustError ("root manifest integrity failure: " +:+ rel)) in
      if negb (inside root p) then failure
      else match files !! p with
           | None => failure
           | Some bytes => match compare_digest (sha256_hex bytes) expected with
                           | Raise e => Raise e
                           | Ok false => failure
                           | Ok true => verify_files files rest
                           end
           end
  end.

Definition root_verify (files : gmap path string) (m : RootManifest) (signature : string) (minimum_generation : Z)
    : result unit :=
  if (rm_generation m <? minimum_generation)%Z then Raise (Exn RootTrustError "root manifest rollback detected")
  else match kp_verify kp (rm_canonical m) signature with
       | Raise e => Raise e
       | Ok false => Raise (Exn RootTrustError "root manifest signature invalid")
       | Ok true => verify_files files (rm_files m)
       end.

(** ** The boot gate *)
Record BootAttestation := {
  ba_mode : string; ba_operational : bool; ba_reason : string; ba_generation : Z; ba_signer : string;
  ba_hardware_backed : bool;
}.

Definition attest (files : gmap path string) (m : RootManifest) (signature : string) (minimum_generation : Z)
    (require_hardware_backed : bool) : result BootAttestation :=
  let answer mode operational reason hardware :=
    {| ba_mode := mode; ba_operational := operational; ba_reason := reason; ba_generation := rm_generation m;
       ba_signer := rm_signer m; ba_hardware_backed := hardware |} in
  if require_hardware_backed && negb (kp_hardware_backed kp)
  then Ok (answer "CONTAINED_READ_ONLY" false "hardware-backed root of trust required" false)
  else match root_verify files m signature minimum_generation with
       | Raise e => if bool_decide (exn_cls e = RootTrustError)
                    then Ok (answer "CONTAINED_READ_ONLY" false (exn_msg e) (kp_hardware_backed kp))
                    else Raise e
       | Ok _ => Ok (answer "OPERATIONAL" true "root attestation verified" (kp_hardware_backed kp))
       end.
End root_trust.

(** ** Adapter manifests *)
Record AdapterManifest := {
  am_adapter_id : string; am_version : string; am_image_sha256 : string; am_capabilities : list string;
  am_execution_mode : string; am_network_policy : string;
}.
Record SignedAdapterManifest := { sm_manifest : AdapterManifest; sm_signature : string; sm_signer : string }.

(** [s.removeprefix(prefix)] *)
Fixpoint removeprefix_go (prefix s : string) : option string :=
  match prefix, s with
  | EmptyString, _ => Some s
  | String a prefix', String b s' => if Ascii.eqb a b then removeprefix_go prefix' s' else None
  | String _ _, EmptyString => None
  end.
Definition removeprefix (prefix s : string) : string := default s (removeprefix_go prefix s).

Definition is_hex_digit (c : ascii) : bool :=
  let n := N_of_ascii c in ((48 <=? n) && (n <=? 57) || (97 <=? n) && (n <=? 102))%N.
Fixpoint all_hex (s : string) : bool :=
  match s with EmptyString => true | String c s' => is_hex_digit c && all_hex s' end.

Section adapters.
Context `{JsonText}.
Context (secret signer : string).

Definition adapter_authority_init : result unit :=
  if Nat.ltb (String.length secret) 32
  then Raise (Exn ValueError "adapter manifest key must contain at least 32 bytes") else Ok tt.

Definition am_canonical (m : AdapterManifest) : string :=
  dumps CompactAscii (JObj [("adapter_id", JStr (am_adapter_id m)); ("version", JStr (am_version m));
    ("image_sha256", JStr (am_image_sha256 m)); ("capabilities", JList (map JStr (sorted_set (am_capabilities m))));
    ("execution_mode", JStr (am_execution_mode m)); ("network_policy", JStr (am_network_policy m))]).

Definition am_validate (m : AdapterManifest) : result unit :=
  if blank (am_adapter_id m) || blank (am_version m) || bool_decide (am_capabilities m = [])
  then Raise (Exn AdapterManifestError "adapter manifest identity/version/capabilities required")
  else
    let digest := removeprefix "sha256:" (lower (am_image_sha256 m)) in
    if negb (Nat.eqb (String.length digest) 64) || negb (all_hex digest)
    then Raise (Exn AdapterManifestError "adapter image_sha256 must be an exact sha256 digest")
    else if negb (am_execution_mode m =s "container-disposable")
    then Raise (Exn AdapterManifestError "adapter must execute as a disposable container")
    else if negb (am_network_policy m =s "deny-by-default")
    then Raise (Exn AdapterManifestError "adapter network policy must be deny-by-default")
    else Ok tt.

Definition am_sign (m : AdapterManifest) : result SignedAdapterManifest :=
  match am_validate m with
  | Raise e => Raise e
  | Ok _ => Ok {| sm_manifest := m; sm_signature := hmac_hex secret (am_canonical m); sm_signer := signer |}
  end.

Definition am_verify (s : SignedAdapterManifest) : result unit :=
  if negb (sm_signer s =s signer) then Raise (Exn AdapterManifestError "adapter manifest signer mismatch")
  else match am_validate (sm_manifest s) with
       | Raise e => Raise e
       | Ok _ =>
           match compare_digest (hmac_hex secret (am_canonical (sm_manifest s))) (lower (sm_signature s)) with
           | Raise e => Raise e
           | Ok false => Raise (Exn AdapterManifestError "adapter manifest signature invalid")
           | Ok true => Ok tt
           end
       end.
End adapters.
