(* ===== verification/FortressProps.v ===== *)
(** The boot gate is operational only on the signed files, and stays closed
    otherwise; what the root of trust builds, it accepts; adapters run only as
    signed, disposable containers. *)

From S2P Require Import Prelude Json Base64 Sha256 Schema Files Tokens TokenProps Fortress.

(** ** Hex digests are ASCII *)
Lemma is_ascii_hex s : is_ascii (hex s) = true.
Proof.
  induction s as [|c s IH]; [done|]. cbn [hex is_ascii]. rewrite IH. pose proof (N_ascii_bounded c) as Hc.
  assert (∀ n, (n < 16)%N → (N_of_ascii (hex_digit n) <? 128)%N = true) as Hd.
  { intros n Hn. apply N.ltb_lt. unfold hex_digit. rewrite N_ascii_embedding; destruct (n <? 10)%N eqn:?; lia. }
  rewrite !Hd; [done| |]; zify; Z.to_euclidean_division_equations; lia.
Qed.
Lemma compare_digest_refl s : compare_digest (hex s) (hex s) = Ok true.
Proof. unfold compare_digest. by rewrite is_ascii_hex, String.eqb_refl. Qed.
Lemma compare_digest_true a b : compare_digest a b = Ok true → a = b.
Proof. unfold compare_digest. destruct (_ && _); [|done]. intros [= E%String.eqb_eq]. done. Qed.

#[export] Instance hmac_sound_key secret : SoundKey (hmac_root_key secret).
Proof. intros payload. cbn [hmac_root_key kp_verify kp_sign]. rewrite lower_hmac_hex. apply compare_digest_refl. Qed.

(** ** Names *)
Lemma split_slash_no_slash s : Forall (λ x, no_slash x = true) (split_slash s).
Proof.
  induction s as [|c s IH]; [by repeat constructor|]. cbn [split_slash].
  destruct (Ascii.eqb c "/") eqn:E; [by constructor|].
  destruct (split_slash s) as [|x l]; inversion_clear IH; constructor; simpl; rewrite ?E; done.
Qed.
Lemma walk_filter parts : ∀ base, walk base (List.filter name_part parts) = walk base parts.
Proof.
  unfold name_part. induction parts as [|x parts IH]; intros base; [done|]. cbn [List.filter walk].
  destruct ((x =s "") || (x =s ".")) eqn:E; cbn [negb]; [apply IH|]. cbn [walk]. rewrite E, !IH. done.
Qed.
Lemma name_parts_ok s : let parts := List.filter name_part (split_slash s) in parts = [] ∨ path_ok parts.
Proof.
  intros parts. destruct (decide (parts = [])) as [|Hne]; [by left|]. right. split; [done|].
  apply Forall_forall. intros x Hx. apply list_elem_of_In, filter_In in Hx as [Hx _].
  pose proof (split_slash_no_slash s) as Hs. rewrite Forall_forall in Hs. by apply Hs, list_elem_of_In.
Qed.

Definition absolute (rel : string) : bool := match rel with String c _ => Ascii.eqb c "/" | EmptyString => false end.
Lemma resolve_join_walk base rel :
  resolve_join base rel = walk (if absolute rel then [] else base) (split_slash rel).
Proof. destruct rel as [|c rel]; [done|]. unfold resolve_join, absolute. by destruct (Ascii.eqb c "/"). Qed.
Lemma anchor_cases rel :
  (anchor rel = "" ∧ absolute rel = false) ∨ ((anchor rel = "/" ∨ anchor rel = "//") ∧ absolute rel = true).
Proof.
  destruct rel as [|a [|b rest]]; simpl; [by left| |]; destruct (Ascii.eqb a "/"); auto.
  destruct (Ascii.eqb b "/"); [|auto]. destruct rest as [|c rest]; [auto|]. destruct (Ascii.eqb c "/"); auto.
Qed.
Lemma walk_posix parts base :
  parts = [] ∨ path_ok parts → walk base (split_slash (posix parts)) = walk base parts.
Proof. intros [->|Hok]; [done|]. by rewrite split_posix. Qed.
Lemma posix_relative s : absolute (posix (List.filter name_part (split_slash s))) = false.
Proof.
  pose proof (split_slash_no_slash s) as Hs. induction (split_slash s) as [|x l IH]; [done|].
  inversion_clear Hs as [|? ? Hx Hl]. cbn [List.filter]. destruct (name_part x) eqn:En; [|by apply IH].
  destruct x as [|c x]; [done|]. simpl in Hx. apply andb_true_iff in Hx as [Hc%negb_true_iff _].
  destruct (List.filter name_part l); exact Hc.
Qed.

(** A name and its normal form lead to the same file. *)
Lemma resolve_as_posix root rel : resolve_join root (as_posix rel) = resolve_join root rel.
Proof.
  unfold as_posix. set (parts := List.filter name_part (split_slash rel)).
  assert (∀ b, walk b (split_slash (posix parts)) = walk b (split_slash rel)) as Hw.
  { intros b. rewrite walk_posix by apply name_parts_ok. apply walk_filter. }
  rewrite (resolve_join_walk root rel). destruct (anchor_cases rel) as [[-> ->]|[[-> | ->] ->]].
  - change ("" +:+ posix parts) with (posix parts). destruct (String.eqb_spec (posix parts) "") as [E|_].
    + rewrite <- Hw, E. done.
    + rewrite resolve_join_walk. unfold parts at 1. rewrite posix_relative. apply Hw.
  - change ("/" +:+ posix parts =s "") with false. cbn iota. rewrite resolve_join_walk. apply Hw.
  - change ("//" +:+ posix parts =s "") with false. cbn iota. rewrite resolve_join_walk. apply Hw.
Qed.

Section fortress_props.
Context `{JsonText}.
Context (root : path) (kp : RootKeyProvider).

(** ** Attestation *)

(** A manifest entry and the file it names agree. *)
Definition file_matches (files : gmap path string) (e : string * string) : Prop :=
  inside root (resolve_join root e.1) = true
  ∧ ∃ bytes, files !! resolve_join root e.1 = Some bytes ∧ sha256_hex bytes = e.2.

Lemma verify_files_Ok files l : verify_files root files l = Ok tt → Forall (file_matches files) l.
Proof.
  induction l as [|[rel h] l IH]; [constructor|]. cbn [verify_files].
  destruct (inside root (resolve_join root rel)) eqn:Ei; [|done]. cbn [negb].
  destruct (files !! _) as [bytes|] eqn:Ef; [|done].
  destruct (compare_digest _ _) as [[]|] eqn:Ec; try done. intros Hr. constructor; [|by apply IH].
  split; [done|]. exists bytes. split; [done|]. by apply compare_digest_true.
Qed.
Lemma verify_files_matches files l : Forall (file_matches files) l → verify_files root files l = Ok tt.
Proof.
  induction 1 as [|[rel h] l (Hi & bytes & Hf & Hh) _ IH]; [done|]. cbn [verify_files fst snd] in *.
  rewrite Hi, Hf. cbn [negb]. rewrite <- Hh. unfold sha256_hex. by rewrite compare_digest_refl.
Qed.

(** The boot gate fails closed: an attestation is either OPERATIONAL, and
    then the manifest is not older than the minimum generation, its signature
    verified, every file it lists is inside the root with the listed digest, and
    a required hardware key was there; or CONTAINED_READ_ONLY and not
    operational. *)
Theorem boot_gate_fails_closed files m signature min_gen hw a
    (Hrun : attest root kp files m signature min_gen hw = Ok a) :
  (ba_operational a = false ∧ ba_mode a = "CONTAINED_READ_ONLY")
  ∨ (ba_operational a = true ∧ ba_mode a = "OPERATIONAL"
     ∧ (min_gen <= rm_generation m)%Z ∧ kp_verify kp (rm_canonical m) signature = Ok true
     ∧ Forall (file_matches files) (rm_files m) ∧ (hw = true → kp_hardware_backed kp = true)).
Proof.
  unfold attest in Hrun. destruct (hw && negb (kp_hardware_backed kp)) eqn:Eh; [injection Hrun as <-; by left|].
  destruct (root_verify root kp files m signature min_gen) as [u|e] eqn:Ev.
  2:{ destruct (bool_decide _); [|done]. injection Hrun as <-. by left. }
  injection Hrun as <-. right. unfold root_verify in Ev.
  destruct (rm_generation m <? min_gen)%Z eqn:Eg; [done|]. apply Z.ltb_ge in Eg.
  destruct (kp_verify kp (rm_canonical m) signature) as [[]|] eqn:Ek; try done. destruct u.
  split_and!; try done; [by apply verify_files_Ok|].
  intros ->. simpl in Eh. by apply negb_false_iff in Eh.
Qed.

(** A booted tree is the signed tree: if the same manifest is attested
    operational on two file systems, every file it lists has the same contents
    in both, or two of those contents are a SHA-256 collision. *)
Theorem attested_files_pinned files1 files2 m s1 s2 g1 g2 h1 h2 a1 a2 rel digest
    (Hrun1 : attest root kp files1 m s1 g1 h1 = Ok a1) (Hop1 : ba_operational a1 = true)
    (Hrun2 : attest root kp files2 m s2 g2 h2 = Ok a2) (Hop2 : ba_operational a2 = true)
    (Hlisted : (rel, digest) ∈ rm_files m) :
  ∃ b1 b2, files1 !! resolve_join root rel = Some b1 ∧ files2 !! resolve_join root rel = Some b2
    ∧ (b1 = b2 ∨ sha256_collide b1 b2).
Proof.
  assert (∀ files s g h a, attest root kp files m s g h = Ok a → ba_operational a = true →
    Forall (file_matches files) (rm_files m)) as Hm.
  { intros files s g h a. unfold attest. destruct (h && _); [by intros [= <-]|].
    destruct (root_verify root kp files m s g) as [u|e] eqn:Ev.
    2:{ destruct (bool_decide _); [by intros [= <-] | done]. }
    intros _ _. unfold root_verify in Ev. destruct (_ <? _)%Z; [done|].
    destruct (kp_verify _ _ _) as [[]|]; try done. destruct u. by apply verify_files_Ok. }
  pose proof (Hm _ _ _ _ _ Hrun1 Hop1) as M1. pose proof (Hm _ _ _ _ _ Hrun2 Hop2) as M2.
  rewrite Forall_forall in M1, M2. destruct (M1 _ Hlisted) as (_ & b1 & F1 & D1), (M2 _ Hlisted) as (_ & b2 & F2 & D2).
  exists b1, b2. split_and!; try done. apply sha256_eq_or_collide. simpl in *. congruence.
Qed.

(** ** Building *)
Lemma sset_in d k v e : e ∈ sset d k v → e = (k, v) ∨ e ∈ d.
Proof.
  induction d as [|[k' v'] d IH]; simpl; [set_solver|]. destruct (k' =s k); set_solver.
Qed.
Lemma build_files_matches files rels : ∀ acc fs,
  build_files root files rels acc = Ok fs → Forall (file_matches files) acc → Forall (file_matches files) fs.
Proof.
  induction rels as [|rel rels IH]; intros acc fs; cbn [build_files]; [by intros [= <-]|].
  destruct (inside root (resolve_join root rel)) eqn:Ei; [|done]. cbn [negb].
  destruct (files !! _) as [bytes|] eqn:Ef; [|done]. intros Hb Hacc. apply (IH _ _ Hb).
  apply Forall_forall. intros e [->|He]%sset_in; [|by eapply Forall_forall in He].
  split; cbn [fst snd]; rewrite resolve_as_posix; [done|]. by exists bytes.
Qed.

(** What the root of trust builds, the boot gate accepts: a manifest built
    with a key provider that accepts its own signatures boots operational on any
    file system that agrees on the files it lists, for every minimum generation
    up to its own. *)
Theorem built_manifest_boots `{!SoundKey kp} files paths generation commit m signature files' min_gen
    (Hbuild : root_build root kp files paths generation commit = Ok (m, signature))
    (Hsame : ∀ e, e ∈ rm_files m → files' !! resolve_join root e.1 = files !! resolve_join root e.1)
    (Hgen : (min_gen <= generation)%Z) :
  ∃ a, attest root kp files' m signature min_gen false = Ok a
    ∧ ba_operational a = true ∧ ba_generation a = generation ∧ ba_signer a = kp_provider_id kp.
Proof.
  unfold root_build in Hbuild. destruct (_ || _); [done|].
  destruct (build_files root files (sorted_set paths) []) as [fs|e] eqn:Eb; [|done].
  injection Hbuild as <- <-. apply build_files_matches in Eb; [|constructor].
  unfold attest, root_verify. cbn [rm_generation rm_files rm_signer andb] in *.
  rewrite (proj2 (Z.ltb_ge _ _)) by lia. rewrite sound_key, verify_files_matches; [by eexists|].
  apply Forall_forall. intros e He. eapply Forall_forall in Eb as (Hi & b & Hf & Hd); [|exact He].
  split; [done|]. exists b. by rewrite Hsame.
Qed.
End fortress_props.

(** ** Adapters *)
Section adapter_props.
Context `{JsonText}.
Context (secret signer : string).

(** Only disposable, isolated adapters are accepted: a verified adapter
    manifest names this signer, an image digest of 64 hex digits, the disposable
    container mode and the deny-by-default network, and carries the authority's
    signature over exactly this manifest; what the authority signs, it
    verifies. *)
Theorem adapter_manifest_gated s :
  (am_verify secret signer s = Ok tt →
     sm_signer s = signer ∧ am_execution_mode (sm_manifest s) = "container-disposable"
     ∧ am_network_policy (sm_manifest s) = "deny-by-default" ∧ am_capabilities (sm_manifest s) ≠ []
     ∧ String.length (removeprefix "sha256:" (lower (am_image_sha256 (sm_manifest s)))) = 64
     ∧ lower (sm_signature s) = hmac_hex secret (am_canonical (sm_manifest s)))
  ∧ (∀ m, am_sign secret signer m = Ok s → am_verify secret signer s = Ok tt).
Proof.
  split.
  - unfold am_verify. destruct (String.eqb_spec (sm_signer s) signer) as [Es|]; [|done]. cbn [negb].
    destruct (am_validate (sm_manifest s)) as [u|] eqn:Ev; [|done].
    destruct (compare_digest _ _) as [[]|] eqn:Ec; try done. intros _. apply compare_digest_true in Ec.
    unfold am_validate in Ev. destruct (_ || _ || bool_decide _) eqn:E1; [done|].
    apply orb_false_iff in E1 as [_ E1%bool_decide_eq_false].
    destruct (negb (Nat.eqb _ 64) || _) eqn:E2; [done|].
    apply orb_false_iff in E2 as [E2%negb_false_iff%Nat.eqb_eq _].
    destruct (String.eqb_spec (am_execution_mode (sm_manifest s)) "container-disposable"); [|done].
    destruct (String.eqb_spec (am_network_policy (sm_manifest s)) "deny-by-default"); [|done]. done.
  - intros m. unfold am_sign. destruct (am_validate m) as [u|] eqn:Ev; [|done]. intros [= <-].
    unfold am_verify. cbn [sm_signer sm_manifest sm_signature]. rewrite String.eqb_refl, Ev, lower_hmac_hex. cbn [negb].
    unfold hmac_hex. by rewrite compare_digest_refl.
Qed.
End adapter_props.
