(* ===== verification/Skills.v ===== *)
(** immune_lab/admission.py and immune_core/skills.py: the laboratory gate and
    the versioned skill registry.

    The theorems follow the definitions. *)

From S2P Require Import Prelude Json Schema Storage Ledger Tokens LedgerProps.

(** ** Laboratory *)
Inductive Decision := REJECTED | QUARANTINED | APPROVED.
#[export] Instance Decision_eq_dec : EqDecision Decision.
Proof. solve_decision. Defined.

Definition decision_value (d : Decision) : string :=
  match d with REJECTED => "rejected" | QUARANTINED => "quarantined" | APPROVED => "approved" end.

Definition REQUIRED_EVIDENCE : list string :=
  ["origin_integrity"; "license_audit"; "security_scan"; "functional_test"; "isolation_test"; "rollback_test"].

Record LabResult := {
  lr_donor_id : string;
  lr_capability : string;
  lr_decision : Decision;
  lr_authority : string;
  lr_executable : bool;
  lr_missing_evidence : list string;
  lr_reason : string;
}.

Section lab.
Context `{JsonText}.

(** [donor.get("status") not in {...}]; a set lookup needs a hashable value. *)
Definition status_known (donor : dict) : result bool :=
  match dget donor "status" with
  | Some (JStr s) => Ok (str_in s ["collected"; "metadata_verified"; "artifact_collected"])
  | Some (JList _) | Some (JObj _) => Raise (Exn TypeError "unhashable type")
  | _ => Ok false
  end.

Definition missing_evidence (evidence : dict) : list string :=
  List.filter (λ name, negb (is_true evidence name)) REQUIRED_EVIDENCE.

Definition evaluate_donor (donor evidence : dict) : result LabResult :=
  let donor_id := strip (get_str donor "id" "") in
  let capability := strip (get_str donor "purpose" "") in
  if (donor_id =s "") || (capability =s "") || negb (get_truthy donor "resolved_commit" false)
  then Ok {| lr_donor_id := if donor_id =s "" then "unknown" else donor_id; lr_capability := capability;
             lr_decision := REJECTED; lr_authority := "none"; lr_executable := false;
             lr_missing_evidence := []; lr_reason := "mandatory provenance is incomplete" |}
  else match status_known donor with
       | Raise e => Raise e
       | Ok false =>
           Ok {| lr_donor_id := donor_id; lr_capability := capability; lr_decision := REJECTED;
                 lr_authority := "none"; lr_executable := false; lr_missing_evidence := [];
                 lr_reason := "collection failed or was rejected" |}
       | Ok true =>
           match missing_evidence evidence with
           | [] => Ok {| lr_donor_id := donor_id; lr_capability := capability; lr_decision := APPROVED;
                         lr_authority := "adapter-only"; lr_executable := false; lr_missing_evidence := [];
                         lr_reason := "approved for adapter integration; execution remains policy-gated" |}
           | missing => Ok {| lr_donor_id := donor_id; lr_capability := capability;
                              lr_decision := QUARANTINED; lr_authority := "none"; lr_executable := false;
                              lr_missing_evidence := missing; lr_reason := "laboratory evidence is incomplete" |}
           end
       end.

(** [{**asdict(r), "decision": r.decision.value}] *)
Definition lab_entry (r : LabResult) : json :=
  JObj [("donor_id", JStr (lr_donor_id r)); ("capability", JStr (lr_capability r));
        ("decision", JStr (decision_value (lr_decision r))); ("authority", JStr (lr_authority r));
        ("executable", JBool (lr_executable r));
        ("missing_evidence", JList (map JStr (lr_missing_evidence r))); ("reason", JStr (lr_reason r))].

Fixpoint evaluate_all (donors : list dict) (evidence_by_id : list (string * dict)) : result (list LabResult) :=
  match donors with
  | [] => Ok []
  | d :: rest =>
      let evidence := match List.find (λ p, p.1 =s get_str d "id" "None") evidence_by_id with
                      | Some p => p.2 | None => [] end in
      match evaluate_donor d evidence with
      | Raise e => Raise e
      | Ok r => match evaluate_all rest evidence_by_id with
                | Raise e => Raise e
                | Ok rs => Ok (r :: rs)
                end
      end
  end.

Definition count_decision (d : Decision) (rs : list LabResult) : Z :=
  Z.of_nat (length (List.filter (λ r, bool_decide (lr_decision r = d)) rs)).

Definition build_catalog (donors : list dict) (evidence_by_id : list (string * dict)) : result dict :=
  match evaluate_all donors evidence_by_id with
  | Raise e => Raise e
  | Ok results => Ok
      [("schema", JInt 1);
       ("sovereign_boundary", JObj [("default_authority", JStr "none"); ("direct_execution", JBool false);
          ("policy_guard_required", JBool true); ("mission_proven_required", JBool true)]);
       ("summary", JObj [("total", JInt (Z.of_nat (length results)));
          ("approved", JInt (count_decision APPROVED results));
          ("quarantined", JInt (count_decision QUARANTINED results));
          ("rejected", JInt (count_decision REJECTED results))]);
       ("donors", JList (map lab_entry results))]
  end.
End lab.

(** ** Registry *)
Record SkillRecord := {
  sk_skill_id : string;
  sk_version : string;
  sk_capability : string;
  sk_donor_id : string;
  sk_state : string;
  sk_authority : string;
  sk_executable : bool;
  sk_evidence : dict;
  sk_donor : dict;
  sk_created_at : Q;
  sk_updated_at : Q;
}.

Section registry.
Context `{JsonText, Entropy}.
Context (identity : IdentityAuthority).

Definition validate_version (version : string) : IO string :=
  let value := strip version in
  _ ← raise_if ((value =s "") || Nat.ltb 80 (char_count value) || has_space value)
        ValueError "invalid skill version";
  mret value.

(** [WHERE skill_id=? AND version=?], the primary key *)
Definition skill_at (skill_id version : string) (r : skill_row) : bool :=
  (s_skill_id r =s skill_id) && (s_version r =s version).

(** [dict(json.loads(text))] of a column that holds an object *)
Definition load_dict (text : string) : result dict :=
  match loads text with
  | None => Raise (Exn JSONDecodeError "Expecting value")
  | Some (JObj d) => Ok d
  | Some _ => Raise (Exn TypeError "cannot convert to a dictionary")
  end.

Definition skill_record (r : skill_row) : result SkillRecord :=
  match load_dict (s_evidence_json r), load_dict (s_donor_json r) with
  | Ok evidence, Ok donor => Ok
      {| sk_skill_id := s_skill_id r; sk_version := s_version r; sk_capability := s_capability r;
         sk_donor_id := s_donor_id r; sk_state := s_state r; sk_authority := s_authority r;
         sk_executable := negb (s_executable r =? 0)%Z; sk_evidence := evidence; sk_donor := donor;
         sk_created_at := s_created_at r; sk_updated_at := s_updated_at r |}
  | Raise e, _ => Raise e
  | _, Raise e => Raise e
  end.

Definition skill_get (skill_id version : string) : IO SkillRecord :=
  row ← query (λ d, List.find (skill_at skill_id version) (cognitive_skills d));
  match row with
  | None => throw SkillError "skill not found"
  | Some r => lift_result (skill_record r)
  end.

(** [f"{t}"] of a tuple of plain names *)
Definition tuple_repr (l : list string) : string :=
  match l with
  | [] => "()"
  | [x] => "('" +:+ x +:+ "',)"
  | x :: rest => "('" +:+ x +:+ "'" +:+ fold_right (λ y acc, ", '" +:+ y +:+ "'" +:+ acc) ")" rest
  end.

Definition no_evidence : dict := map (λ name, (name, JBool false)) REQUIRED_EVIDENCE.

Definition register_donor_skill (registrar_token skill_id version capability : string) (donor : dict)
    (now : option Z) : IO SkillRecord :=
  principal ← ia_verify identity registrar_token (Some "skill:register") now;
  _ ← raise_if (blank skill_id || blank capability) ValueError "skill_id and capability are required";
  version ← validate_version version;
  lab ← lift_result (evaluate_donor donor []);
  _ ← raise_if (bool_decide (lr_decision lab = REJECTED)) SkillError ("donor rejected: " +:+ lr_reason lab);
  ts ← now_or_time (float_now now);
  rows ← query cognitive_skills;
  _ ← raise_if (existsb (skill_at (strip skill_id) version) rows) SkillError
        "skill version already exists or could not be registered";
  _ ← exec (set_cognitive_skills (λ l, l ++
        [{| s_skill_id := strip skill_id; s_version := version; s_capability := strip capability;
            s_donor_id := get_str donor "id" "None"; s_donor_json := dumps Compact (JObj donor);
            s_evidence_json := dumps Sorted (JObj no_evidence); s_state := "QUARANTINED";
            s_authority := "none"; s_executable := 0; s_created_at := ts; s_updated_at := ts |}]));
  _ ← audit (pr_subject principal) "skill_registered" None
        [("skill_id", JStr (strip skill_id)); ("version", JStr version);
         ("donor_id", JStr (get_str donor "id" "None"))] None;
  skill_get skill_id version.

(** The [SET] clauses. *)
Definition skill_set_evidence (evidence : dict) (ts : Q) (r : skill_row) : skill_row :=
  {| s_skill_id := s_skill_id r; s_version := s_version r; s_capability := s_capability r;
     s_donor_id := s_donor_id r; s_donor_json := s_donor_json r;
     s_evidence_json := dumps Sorted (JObj evidence); s_state := s_state r; s_authority := s_authority r;
     s_executable := s_executable r; s_created_at := s_created_at r; s_updated_at := ts |}.
Definition skill_set_state (state authority : string) (ts : Q) (r : skill_row) : skill_row :=
  {| s_skill_id := s_skill_id r; s_version := s_version r; s_capability := s_capability r;
     s_donor_id := s_donor_id r; s_donor_json := s_donor_json r; s_evidence_json := s_evidence_json r;
     s_state := state; s_authority := authority; s_executable := 0; s_created_at := s_created_at r;
     s_updated_at := ts |}.

Definition record_evidence (validator_token skill_id version evidence_name : string) (passed : bool)
    (now : option Z) : IO SkillRecord :=
  principal ← ia_verify identity validator_token (Some "skill:validate") now;
  _ ← raise_if (negb (str_in evidence_name REQUIRED_EVIDENCE)) SkillError "unknown laboratory evidence";
  record ← skill_get skill_id version;
  _ ← raise_if (negb (sk_state record =s "QUARANTINED")) SkillError
        "evidence can only be changed while quarantined";
  let evidence := dset (sk_evidence record) evidence_name (JBool passed) in
  ts ← now_or_time (float_now now);
  _ ← exec (set_cognitive_skills (update_where (skill_at skill_id version) (skill_set_evidence evidence ts)));
  _ ← audit (pr_subject principal) "skill_evidence_recorded" None
        [("skill_id", JStr skill_id); ("version", JStr version); ("evidence", JStr evidence_name);
         ("passed", JBool passed)] None;
  skill_get skill_id version.

Definition skill_approve (approver_token skill_id version : string) (now : option Z) : IO SkillRecord :=
  principal ← ia_verify identity approver_token (Some "skill:approve") now;
  record ← skill_get skill_id version;
  _ ← raise_if (negb (sk_state record =s "QUARANTINED")) SkillError "only quarantined skills can be approved";
  lab ← lift_result (evaluate_donor (sk_donor record) (sk_evidence record));
  _ ← raise_if (negb (bool_decide (lr_decision lab = APPROVED))) SkillError
        ("skill laboratory gate failed: " +:+ lr_reason lab +:+ "; missing="
         +:+ tuple_repr (lr_missing_evidence lab));
  _ ← raise_if (negb (lr_authority lab =s "adapter-only") || lr_executable lab) SkillError
        "laboratory attempted to grant forbidden authority";
  ts ← now_or_time (float_now now);
  _ ← exec (set_cognitive_skills
        (update_where (skill_at skill_id version) (skill_set_state "APPROVED" "adapter-only" ts)));
  _ ← audit (pr_subject principal) "skill_approved" None
        [("skill_id", JStr skill_id); ("version", JStr version); ("authority", JStr "adapter-only");
         ("executable", JBool false)] None;
  skill_get skill_id version.

Definition skill_suspend (operator_token skill_id version reason : string) (now : option Z) : IO SkillRecord :=
  principal ← ia_verify identity operator_token (Some "skill:suspend") now;
  record ← skill_get skill_id version;
  _ ← raise_if (negb (sk_state record =s "APPROVED")) SkillError "only approved skills can be suspended";
  ts ← now_or_time (float_now now);
  _ ← exec (set_cognitive_skills
        (update_where (skill_at skill_id version) (skill_set_state "SUSPENDED" "none" ts)));
  _ ← audit (pr_subject principal) "skill_suspended" None
        [("skill_id", JStr skill_id); ("version", JStr version); ("reason", JStr reason)] None;
  skill_get skill_id version.

Definition skill_retire (operator_token skill_id version reason : string) (now : option Z) : IO SkillRecord :=
  principal ← ia_verify identity operator_token (Some "skill:suspend") now;
  record ← skill_get skill_id version;
  _ ← raise_if (negb (str_in (sk_state record) ["QUARANTINED"; "APPROVED"; "SUSPENDED"])) SkillError
        "skill cannot be retired from current state";
  ts ← now_or_time (float_now now);
  _ ← exec (set_cognitive_skills
        (update_where (skill_at skill_id version) (skill_set_state "RETIRED" "none" ts)));
  _ ← audit (pr_subject principal) "skill_retired" None
        [("skill_id", JStr skill_id); ("version", JStr version); ("reason", JStr reason)] None;
  skill_get skill_id version.

(** [ORDER BY updated_at DESC] *)
Definition newest_first (r s : skill_row) : bool := qle (s_updated_at s) (s_updated_at r).

Definition resolve_approved (skill_id : string) (version : option string) : IO SkillRecord :=
  version ← match version with
            | Some v => mret v
            | None =>
                row ← query (λ d, head (order_by newest_first (List.filter
                        (λ r, (s_skill_id r =s skill_id) && (s_state r =s "APPROVED")) (cognitive_skills d))));
                match row with
                | None => throw SkillError "no approved skill version"
                | Some r => mret (s_version r)
                end
            end;
  record ← skill_get skill_id version;
  _ ← raise_if (negb (sk_state record =s "APPROVED") || negb (sk_authority record =s "adapter-only")
                || sk_executable record) SkillError "skill is not eligible for cognitive adapter use";
  mret record.
End registry.

(** * Skills never gain execution authority, are approved only with the complete
    laboratory evidence, and only move forward in their lifecycle. *)

(** ** Laboratory *)
Section lab_props.
Context `{JsonText}.

Lemma missing_evidence_nil evidence :
  missing_evidence evidence = [] ↔ ∀ name, name ∈ REQUIRED_EVIDENCE → is_true evidence name = true.
Proof.
  unfold missing_evidence. generalize REQUIRED_EVIDENCE as l. induction l as [|x l IH]; simpl.
  - split; [|done]. intros _ name Hn. by apply elem_of_nil in Hn.
  - destruct (is_true evidence x) eqn:E; simpl.
    + rewrite IH. setoid_rewrite elem_of_cons. naive_solver.
    + split; [done|]. intros Hall. rewrite Hall in E by (by left). done.
Qed.

(** The laboratory grants nothing by presence: it approves a donor exactly
    when the provenance is complete (identity, purpose, pinned commit), the
    collection succeeded and all six evidence items are literally True; the
    authority is adapter-only then and none otherwise, and no result is ever
    executable. *)
Theorem evaluate_donor_approves_iff donor evidence lab
    (Hlab : evaluate_donor donor evidence = Ok lab) :
  (lr_decision lab = APPROVED ↔
    blank (get_str donor "id" "") = false ∧ blank (get_str donor "purpose" "") = false
    ∧ get_truthy donor "resolved_commit" false = true ∧ status_known donor = Ok true
    ∧ ∀ name, name ∈ REQUIRED_EVIDENCE → is_true evidence name = true)
  ∧ lr_authority lab = (if bool_decide (lr_decision lab = APPROVED) then "adapter-only" else "none")
  ∧ lr_executable lab = false.
Proof.
  revert Hlab. unfold evaluate_donor, blank. rewrite <- missing_evidence_nil.
  destruct (strip (get_str donor "id" "") =s "") eqn:E1; simpl; [intros [= <-]; naive_solver|].
  destruct (strip (get_str donor "purpose" "") =s "") eqn:E2; simpl; [intros [= <-]; naive_solver|].
  destruct (get_truthy donor "resolved_commit" false) eqn:E3; simpl; [|intros [= <-]; naive_solver].
  destruct (status_known donor) as [[|]|e]; [|intros [= <-]; naive_solver|done].
  destruct (missing_evidence evidence); intros [= <-]; naive_solver.
Qed.
End lab_props.

(** ** The registry *)
Section skill_props.
Context `{JsonText, Entropy}.

Definition skill_states : list string := ["QUARANTINED"; "APPROVED"; "SUSPENDED"; "RETIRED"].
Definition skill_key (r : skill_row) : string * string := (s_skill_id r, s_version r).

Record skill_ok (r : skill_row) : Prop := {
  sk_ok_exec : s_executable r = 0%Z;
  sk_ok_state : s_state r ∈ skill_states;
  sk_ok_authority : s_authority r = (if s_state r =s "APPROVED" then "adapter-only" else "none");
  sk_ok_id : strip (s_skill_id r) = s_skill_id r;
  sk_ok_lab : s_state r = "APPROVED" → ∃ donor evidence lab,
    load_dict (s_donor_json r) = Ok donor ∧ load_dict (s_evidence_json r) = Ok evidence
    ∧ evaluate_donor donor evidence = Ok lab ∧ lr_decision lab = APPROVED;
}.
Record skills_wf (d : KnowledgeTables) : Prop := {
  sk_rows : Forall skill_ok (cognitive_skills d);
  sk_keys : NoDup (map skill_key (cognitive_skills d));
}.

(** The order in which a skill moves. *)
Definition state_rank (s : string) : nat :=
  if s =s "QUARANTINED" then 0 else if s =s "APPROVED" then 1 else if s =s "SUSPENDED" then 2 else 3.

(** How a row may change: same key, same donor, forward in the lifecycle, and
    with the evidence frozen once it has left quarantine. *)
Definition skill_moves (r r' : skill_row) : Prop :=
  skill_key r' = skill_key r ∧ s_donor_json r' = s_donor_json r
  ∧ (state_rank (s_state r) <= state_rank (s_state r'))
  ∧ (s_state r ≠ "QUARANTINED" → s_evidence_json r' = s_evidence_json r).
Definition skills_evolve (d d' : DB) : Prop :=
  skills_wf d → skills_wf d' ∧ ∀ r, r ∈ cognitive_skills d → ∃ r', r' ∈ cognitive_skills d' ∧ skill_moves r r'.

Lemma skill_moves_refl r : skill_moves r r.
Proof. done. Qed.
Lemma state_rank_quarantined s : state_rank s = 0 → s = "QUARANTINED".
Proof.
  unfold state_rank. destruct (String.eqb_spec s "QUARANTINED"); [done|]. simpl. repeat case_match; done.
Qed.
Lemma skill_moves_trans r1 r2 r3 : skill_moves r1 r2 → skill_moves r2 r3 → skill_moves r1 r3.
Proof.
  intros (K1 & D1 & R1 & E1) (K2 & D2 & R2 & E2). split_and!; [congruence|congruence|lia|].
  intros Hq. rewrite E2; [auto|]. intros E.
  apply Hq, state_rank_quarantined. rewrite E in R1. unfold state_rank in R1 at 2. simpl in R1. lia.
Qed.

#[export] Instance skills_evolve_preorder : PreOrder skills_evolve.
Proof.
  split.
  - intros d Hd. split; [done|]. intros r Hr. by exists r.
  - intros x y z H1 H2 Hx. destruct (H1 Hx) as [Hy M1]. destruct (H2 Hy) as [Hz M2]. split; [done|].
    intros r Hr. destruct (M1 r Hr) as (r' & Hr' & Hm). destruct (M2 r' Hr') as (r'' & Hr'' & Hm').
    exists r''. split; [done|]. by eapply skill_moves_trans.
Qed.
Lemma skills_evolve_frame (d d' : DB) : cognitive_skills d' = cognitive_skills d → skills_evolve d d'.
Proof.
  intros E [Hr Hk]. split; [split; rewrite E; done|]. rewrite E. intros r Hin. by exists r.
Qed.
Hint Extern 1 (skills_evolve _ _) => apply skills_evolve_frame; reflexivity : respects.

Lemma audit_skills actor action mid payload now :
  respects (on_db skills_evolve) (audit actor action mid payload now).
Proof. apply audit_frame; [typeclasses eauto|]. intros. by apply skills_evolve_frame. Qed.
Lemma skill_get_respects R `{!PreOrder R} id v : respects (on_db R) (skill_get id v).
Proof. unfold skill_get. io_respects. Qed.
Hint Resolve audit_skills skill_get_respects : respects.

Lemma skill_get_inv id v w rec w' :
  skill_get id v w = (Ok rec, w') →
  w' = w ∧ ∃ r, List.find (skill_at id v) (cognitive_skills (w_db w)) = Some r ∧ skill_record r = Ok rec.
Proof.
  unfold skill_get. intros (row & w1 & [-> ->]%query_Ok_inv & Hr)%bind_Ok_inv.
  destruct (List.find _ _) as [r|]; [|done]. apply lift_Ok_inv in Hr as [Hr ->]. split; [done|]. by exists r.
Qed.
Lemma skill_record_inv r rec :
  skill_record r = Ok rec →
  load_dict (s_evidence_json r) = Ok (sk_evidence rec) ∧ load_dict (s_donor_json r) = Ok (sk_donor rec)
  ∧ sk_state rec = s_state r ∧ sk_authority rec = s_authority r ∧ sk_executable rec = negb (s_executable r =? 0)%Z
  ∧ sk_skill_id rec = s_skill_id r ∧ sk_version rec = s_version r.
Proof.
  unfold skill_record. destruct (load_dict _) as [e|]; [|done].
  destruct (load_dict (s_donor_json r)) as [dn|]; [|done]. by intros [= <-].
Qed.

Lemma skill_at_true id v r : skill_at id v r = true ↔ skill_key r = (id, v).
Proof. unfold skill_at, skill_key. rewrite andb_true_iff, !String.eqb_eq. naive_solver. Qed.

(** The row found is the only one an [UPDATE] on its key touches. *)
Lemma find_skill_unique d id v r x :
  skills_wf d → List.find (skill_at id v) (cognitive_skills d) = Some r →
  x ∈ cognitive_skills d → skill_at id v x = true → x = r.
Proof.
  intros [_ Hk] [Hr Hat]%List.find_some Hx Hxat. apply list_elem_of_In in Hr.
  apply skill_at_true in Hat, Hxat.
  apply list_elem_of_lookup in Hr as [i Hi], Hx as [j Hj].
  assert (i = j) as <-.
  { apply (NoDup_lookup (skill_key <$> cognitive_skills d) _ _ (id, v) Hk); rewrite list_lookup_fmap.
    - rewrite Hi. simpl. by rewrite Hat.
    - rewrite Hj. simpl. by rewrite Hxat. }
  congruence.
Qed.

(** Every [UPDATE cognitive_skills] of the module. *)
Lemma skills_update (d : DB) id v r g :
  List.find (skill_at id v) (cognitive_skills d) = Some r →
  (skill_ok r → skill_ok (g r)) → skill_moves r (g r) → (∀ x, skill_key (g x) = skill_key x) →
  skills_evolve d (set_cognitive_skills (update_where (skill_at id v) g) d).
Proof.
  intros Hf Hok Hmv Hkey Hd.
  assert (∀ x, x ∈ cognitive_skills d → skill_at id v x = true → x = r) as Hu
    by (intros x; by apply find_skill_unique).
  destruct Hd as [Hr Hk]. rewrite Forall_forall in Hr. split; [split; simpl|].
  - apply Forall_forall. intros y Hy. apply list_elem_of_fmap in Hy as (x & -> & Hx).
    destruct (skill_at id v x) eqn:E; [|by apply Hr]. pose proof (Hu x Hx E) as ->. by apply Hok, Hr.
  - unfold update_where. rewrite map_map.
    rewrite (map_ext _ skill_key); [done|]. intros x. by destruct (skill_at id v x).
  - intros x Hx. exists (if skill_at id v x then g x else x). split.
    + simpl. apply list_elem_of_fmap. by exists x.
    + destruct (skill_at id v x) eqn:E; [|apply skill_moves_refl]. by rewrite (Hu x Hx E).
Qed.

Lemma skills_insert (d : DB) r :
  existsb (skill_at (s_skill_id r) (s_version r)) (cognitive_skills d) = false → skill_ok r →
  skills_evolve d (set_cognitive_skills (λ l, l ++ [r]) d).
Proof.
  intros He Hok [Hr Hk]. split; [split; simpl|].
  - apply Forall_app. split; [done|]. by apply Forall_singleton.
  - rewrite map_app. apply NoDup_app. split_and!; [done| |apply NoDup_singleton].
    intros k Hin Hx. apply list_elem_of_singleton in Hx as ->.
    apply list_elem_of_fmap in Hin as (x & Ex & Hx). apply not_true_iff_false in He. apply He.
    apply existsb_exists. exists x. split; [by apply list_elem_of_In|]. apply skill_at_true. by rewrite <- Ex.
  - intros x Hx. exists x. split; [|apply skill_moves_refl]. simpl. apply elem_of_app. by left.
Qed.

(** ** Every operation evolves the registry *)
Lemma no_evidence_loads : load_dict (dumps Sorted (JObj no_evidence)) = Ok (sort_keys no_evidence).
Proof. unfold load_dict. rewrite loads_dumps. reflexivity. Qed.

Lemma register_evolves ia tok id v cap donor now :
  respects (on_db skills_evolve) (register_donor_skill ia tok id v cap donor now).
Proof.
  unfold register_donor_skill, validate_version. apply respects_of_at. intros w.
  do 8 at_step.
  apply respects_at_bind; [typeclasses eauto | | intros; apply respects_at_any; io_respects].
  unfold respects_at, on_db, exec, modify. simpl. apply skills_insert; [done|].
  split; simpl; try done; [by left | apply strip_idem].
Qed.

Lemma skill_ok_state r st ts :
  skill_ok r → st ∈ skill_states → st ≠ "APPROVED" → skill_ok (skill_set_state st "none" ts r).
Proof.
  intros [? ? ? ? ?] Hst Hne. split; simpl; try done. by rewrite (proj2 (String.eqb_neq _ _) Hne).
Qed.

(** The common shape: find the row, pass the guards, update it. *)
Ltac found Hm :=
  apply skill_get_inv in Hm as (-> & ?r & ?Hf & (?Hev & ?Hdn & ?Hst & _)%skill_record_inv).
Ltac update_found :=
  apply respects_at_bind; [typeclasses eauto | | intros; apply respects_at_any; io_respects];
  unfold respects_at, on_db, exec, modify; simpl; eapply skills_update;
  [match goal with H : w_db _ = _ |- _ => rewrite H; eassumption end | | |done].

Lemma record_evidence_evolves ia tok id v name passed now :
  respects (on_db skills_evolve) (record_evidence ia tok id v name passed now).
Proof.
  unfold record_evidence. apply respects_of_at. intros w. do 5 at_step. found Hm0.
  apply negb_false_iff, String.eqb_eq in Hg0. rewrite Hst in Hg0. update_found.
  - intros [? ? ? ? ?]. split; simpl; try done. by rewrite Hg0.
  - split_and!; try done.
Qed.
Lemma approve_evolves ia tok id v now :
  respects (on_db skills_evolve) (skill_approve ia tok id v now).
Proof.
  unfold skill_approve. apply respects_of_at. intros w. do 7 at_step. found Hm0.
  apply negb_false_iff, String.eqb_eq in Hg. rewrite Hst in Hg. apply negb_false_iff, bool_decide_eq_true in Hg0.
  update_found.
  - intros [? ? ? ? ?]. split; simpl; try done; [right; by left|]. intros _. by eexists _, _, _.
  - split_and!; try done. rewrite Hg. simpl. unfold state_rank. simpl. lia.
Qed.
Lemma suspend_evolves ia tok id v reason now :
  respects (on_db skills_evolve) (skill_suspend ia tok id v reason now).
Proof.
  unfold skill_suspend. apply respects_of_at. intros w. do 4 at_step. found Hm0.
  apply negb_false_iff, String.eqb_eq in Hg. rewrite Hst in Hg. update_found.
  - intros Hok. apply skill_ok_state; [done|unfold skill_states; set_solver|done].
  - split_and!; try done. rewrite Hg. unfold state_rank. simpl. lia.
Qed.
Lemma retire_evolves ia tok id v reason now :
  respects (on_db skills_evolve) (skill_retire ia tok id v reason now).
Proof.
  unfold skill_retire. apply respects_of_at. intros w. do 4 at_step. found Hm0. update_found.
  - intros Hok. apply skill_ok_state; [done|unfold skill_states; set_solver|done].
  - split_and!; try done. unfold state_rank. simpl. repeat case_match; lia.
Qed.

(** ** Reachability *)
Inductive skill_step (ia : IdentityAuthority) (w : World) : World → Prop :=
| step_register tok id v cap donor now : skill_step ia w (snd (register_donor_skill ia tok id v cap donor now w))
| step_evidence tok id v name passed now : skill_step ia w (snd (record_evidence ia tok id v name passed now w))
| step_approve tok id v now : skill_step ia w (snd (skill_approve ia tok id v now w))
| step_suspend tok id v reason now : skill_step ia w (snd (skill_suspend ia tok id v reason now w))
| step_retire tok id v reason now : skill_step ia w (snd (skill_retire ia tok id v reason now w)).

Lemma skill_steps_evolve ia w w' : rtc (skill_step ia) w w' → skills_evolve (w_db w) (w_db w').
Proof.
  induction 1 as [w|w w1 w2 Hs _ IH]; [reflexivity|]. etrans; [|exact IH].
  destruct Hs; [apply register_evolves | apply record_evidence_evolves | apply approve_evolves
    | apply suspend_evolves | apply retire_evolves].
Qed.
Lemma skills_wf_empty (d : KnowledgeTables) : cognitive_skills d = [] → skills_wf d.
Proof. intros E. split; rewrite E; constructor. Qed.

(** No skill ever gains execution authority: after any sequence of registry
    calls from an empty registry, returning or raising, every stored skill is
    non-executable, has authority adapter-only exactly when it is APPROVED and
    none otherwise, and an APPROVED skill has a donor with complete provenance
    and all six evidence items True; keys stay unique. *)
Theorem skills_never_executable ia w w'
    (Hstart : cognitive_skills (w_db w) = [])
    (Hreach : rtc (skill_step ia) w w') :
  skills_wf (w_db w').
Proof. by apply (skill_steps_evolve ia w w' Hreach), skills_wf_empty. Qed.

(** Skills only move forward (QUARANTINED, APPROVED, SUSPENDED, RETIRED),
    are never deleted, keep their donor record, and keep their laboratory
    evidence once they have left quarantine. *)
Theorem skill_lifecycle_monotone ia w w' r
    (Hwf : skills_wf (w_db w))
    (Hreach : rtc (skill_step ia) w w')
    (Hr : r ∈ cognitive_skills (w_db w)) :
  ∃ r', r' ∈ cognitive_skills (w_db w') ∧ skill_moves r r'.
Proof. by apply (skill_steps_evolve ia w w' Hreach Hwf). Qed.

(** A cognitive adapter is only ever handed an approved skill: in a
    well-formed registry [resolve_approved] returns only a stored APPROVED,
    adapter-only, non-executable version of the skill asked for, whose donor and
    evidence the laboratory approves. *)
Theorem resolve_approved_sound id v w rec w'
    (Hwf : skills_wf (w_db w))
    (Hrun : resolve_approved id v w = (Ok rec, w')) :
  w' = w ∧ sk_skill_id rec = id ∧ (∀ x, v = Some x → sk_version rec = x)
  ∧ sk_state rec = "APPROVED" ∧ sk_authority rec = "adapter-only" ∧ sk_executable rec = false
  ∧ ∃ lab, evaluate_donor (sk_donor rec) (sk_evidence rec) = Ok lab ∧ lr_decision lab = APPROVED.
Proof.
  unfold resolve_approved in Hrun. apply bind_Ok_inv in Hrun as (ver & w1 & Hv & Hrun).
  assert (w1 = w ∧ ∀ x, v = Some x → ver = x) as [-> Hx].
  { destruct v as [x|]; [injection Hv as <- <-; split; [done|by intros y [= ->]]|].
    apply bind_Ok_inv in Hv as (row & w2 & [-> ->]%query_Ok_inv & Hv). destruct (head _); [|done].
    by injection Hv as <- <-. }
  apply bind_Ok_inv in Hrun as (rec' & w2 & (-> & r & Hf & Hrec)%skill_get_inv & Hrun).
  apply bind_Ok_inv in Hrun as (? & w3 & [Hg ->]%raise_if_Ok_inv & Hrun). injection Hrun as -> <-.
  rewrite !orb_false_iff, !negb_false_iff, !String.eqb_eq in Hg. destruct Hg as [[Hs Ha] He].
  apply List.find_some in Hf as [Hin [= Hi Hvv]%skill_at_true].
  apply skill_record_inv in Hrec as (Hev & Hdn & Hst & _ & _ & Hid & Hver).
  split_and!; try done; [congruence | intros y E; rewrite Hver, Hvv; auto |].
  pose proof (sk_rows _ Hwf) as Hall. rewrite Forall_forall in Hall. apply list_elem_of_In in Hin.
  destruct (sk_ok_lab _ (Hall r Hin)) as (dn & ev & lab & Ed & Ee & Hl & Hap); [congruence|].
  exists lab. split; [|done]. congruence.
Qed.

(** [register_donor_skill] stores the stripped identifier but looks the new
    row up under the identifier as given: called with surrounding white space
    on a well-formed registry it never returns, although the row may have been
    stored. *)
Theorem register_unstripped_never_returns ia tok id v cap donor now w r w'
    (Hwf : skills_wf (w_db w))
    (Hid : strip id ≠ id)
    (Hrun : register_donor_skill ia tok id v cap donor now w = (r, w')) :
  ∃ e, r = Raise e.
Proof.
  destruct r as [rec|e]; [exfalso|by exists e].
  pose proof (respects_run _ _ _ _ _ (register_evolves ia tok id v cap donor now) Hrun Hwf) as [Hwf' _].
  unfold register_donor_skill in Hrun.
  do 10 (apply bind_Ok_inv in Hrun as (? & ? & ? & Hrun)).
  apply skill_get_inv in Hrun as (-> & r & [Hin [= Hi _]%skill_at_true]%List.find_some & _).
  pose proof (sk_rows _ Hwf') as Hall. rewrite Forall_forall in Hall. apply list_elem_of_In in Hin.
  apply Hid. rewrite <- Hi. by apply sk_ok_id, Hall.
Qed.
End skill_props.
