(* ===== verification/Memory.v ===== *)
(** immune_core/memory.py and immune_vault/memory_seal.py: quarantine-first
    cognitive memory and the sealed vault of promoted memory. *)

From S2P Require Import Prelude Json Sha256 Schema Ledger Tokens.

Record MemoryRecord := {
  mr_id : string;
  mr_mission_id : option string;
  mr_kind : string;
  mr_source : string;
  mr_content : json;
  mr_evidence_ids : list json;
  mr_confidence : Q;
  mr_state : string;
  mr_content_sha256 : string;
  mr_created_at : Q;
  mr_promoted_at : option Q;
}.

(** ** Row updates *)
Definition memory_set (state : string) (promoted_at : option Q) (validator : string) (r : memory_row) : memory_row :=
  {| mm_id := mm_id r; mm_mission_id := mm_mission_id r; mm_kind := mm_kind r; mm_source := mm_source r;
     mm_content_json := mm_content_json r; mm_evidence_json := mm_evidence_json r;
     mm_confidence := mm_confidence r; mm_state := state; mm_content_sha256 := mm_content_sha256 r;
     mm_created_at := mm_created_at r; mm_promoted_at := promoted_at; mm_validator_subject := Some validator |}.
Definition memory_promoted (ts : Q) (validator : string) : memory_row → memory_row :=
  memory_set "PROMOTED" (Some ts) validator.
Definition memory_rejected (validator : string) (r : memory_row) : memory_row :=
  memory_set "REJECTED" (mm_promoted_at r) validator r.

Section memory.
Context `{JsonText, Entropy}.
Context (identity : IdentityAuthority).

Definition memory_canonical (content : json) : string := dumps Compact content.
Definition memory_hash (content : json) : string := sha256_hex (memory_canonical content).

(** [tuple(sorted(set(str(x).strip() for x in evidence_ids if str(x).strip())))] *)
Definition evidence_tuple (evidence_ids : list string) : list string :=
  sorted_set (map strip (List.filter (λ x, negb (blank x)) evidence_ids)).

Definition memory_record (kind source : string) (content : dict) (evidence_ids : list string)
    (mission_id : option string) (confidence : Q) (now : option Q) : IO string :=
  _ ← raise_if (blank kind || blank source) ValueError "memory kind, source and object content are required";
  _ ← raise_if (negb (qle 0 confidence && qle confidence 1)) ValueError "memory confidence outside 0..1";
  let evidence := evidence_tuple evidence_ids in
  memory_id ← uuid4;
  ts ← now_or_time now;
  rows ← query cognitive_memory;
  _ ← raise_if (row_exists mm_id memory_id rows) IntegrityError "UNIQUE constraint failed: cognitive_memory.id";
  _ ← exec (set_cognitive_memory (λ l, l ++
        [{| mm_id := memory_id; mm_mission_id := mission_id; mm_kind := strip kind; mm_source := strip source;
            mm_content_json := memory_canonical (JObj content);
            mm_evidence_json := dumps Plain (JList (map JStr evidence)); mm_confidence := confidence;
            mm_state := "QUARANTINED"; mm_content_sha256 := memory_hash (JObj content);
            mm_created_at := ts; mm_promoted_at := None; mm_validator_subject := None |}]));
  _ ← audit "cognitive-memory" "memory_quarantined" mission_id
        [("memory_id", JStr memory_id); ("kind", JStr (strip kind));
         ("evidence_count", JInt (Z.of_nat (length evidence)))] None;
  mret memory_id.

(** [tuple(json.loads(text))] *)
Definition load_tuple (text : string) : result (list json) :=
  match loads text with
  | None => Raise (Exn JSONDecodeError "Expecting value")
  | Some (JList l) => Ok l
  | Some (JObj kvs) => Ok (map (λ p, JStr p.1) kvs)
  | Some (JStr s) => Ok (map JStr (chars s))
  | Some _ => Raise (Exn TypeError "object is not iterable")
  end.

Definition row_to_record (r : memory_row) : result MemoryRecord :=
  match loads (mm_content_json r) with
  | None => Raise (Exn JSONDecodeError "Expecting value")
  | Some content =>
      if negb (memory_hash content =s mm_content_sha256 r)
      then Raise (Exn MemoryIntegrityError ("memory integrity mismatch: " +:+ mm_id r))
      else match load_tuple (mm_evidence_json r) with
           | Raise e => Raise e
           | Ok evidence => Ok
               {| mr_id := mm_id r; mr_mission_id := mm_mission_id r; mr_kind := mm_kind r;
                  mr_source := mm_source r; mr_content := content; mr_evidence_ids := evidence;
                  mr_confidence := mm_confidence r; mr_state := mm_state r;
                  mr_content_sha256 := mm_content_sha256 r; mr_created_at := mm_created_at r;
                  mr_promoted_at := mm_promoted_at r |}
           end
  end.

Definition memory_get (memory_id : string) : IO (option MemoryRecord) :=
  row ← query (λ d, find_row mm_id memory_id (cognitive_memory d));
  match row with
  | None => mret None
  | Some r => rec ← lift_result (row_to_record r); mret (Some rec)
  end.

(** [set(record.evidence_ids).issubset(validated)], [validated] a set of strings *)
Definition evidence_validated (evidence : list json) (validated : list string) : bool :=
  forallb (λ v, match v with JStr s => str_in s validated | _ => false end) evidence.

Definition memory_promote (memory_id validator_token : string) (validated_evidence_ids : list string)
    (independent_validation reproducible : bool) (now : option Z) : IO MemoryRecord :=
  principal ← ia_verify identity validator_token (Some "memory:promote") now;
  found ← memory_get memory_id;
  match found with
  | None => throw MemoryError "memory not found"
  | Some record =>
      _ ← raise_if (negb (mr_state record =s "QUARANTINED")) MemoryError
            "only quarantined memory can be promoted";
      _ ← raise_if (match mr_evidence_ids record with [] => true | _ => false end) MemoryError
            "memory without evidence cannot be promoted";
      _ ← raise_if (negb (evidence_validated (mr_evidence_ids record) validated_evidence_ids)) MemoryError
            "not all memory evidence was validated";
      _ ← raise_if (negb independent_validation || negb reproducible) MemoryError
            "memory promotion requires independent reproducible validation";
      ts ← now_or_time (float_now now);
      _ ← exec (set_cognitive_memory
            (update_row mm_id memory_id (memory_promoted ts (pr_subject principal))));
      _ ← audit (pr_subject principal) "memory_promoted" (mr_mission_id record)
            [("memory_id", JStr memory_id);
             ("evidence_count", JInt (Z.of_nat (length (mr_evidence_ids record))))] None;
      promoted ← memory_get memory_id;
      match promoted with
      | None => throw MemoryError "memory disappeared after promotion"
      | Some rec => mret rec
      end
  end.

Definition memory_reject (memory_id validator_token reason : string) (now : option Z) : IO unit :=
  principal ← ia_verify identity validator_token (Some "memory:promote") now;
  found ← memory_get memory_id;
  match found with
  | None => throw MemoryError "only quarantined memory can be rejected"
  | Some record =>
      _ ← raise_if (negb (mr_state record =s "QUARANTINED")) MemoryError
            "only quarantined memory can be rejected";
      _ ← exec (set_cognitive_memory (update_row mm_id memory_id (memory_rejected (pr_subject principal))));
      _ ← audit (pr_subject principal) "memory_rejected" (mr_mission_id record)
            [("memory_id", JStr memory_id); ("reason", JStr reason)] None;
      mret tt
  end.

(** [ORDER BY promoted_at DESC]; NULL sorts below every number *)
Definition promoted_first (r s : memory_row) : bool :=
  match mm_promoted_at r, mm_promoted_at s with
  | Some p, Some q => qle q p
  | Some _, None => true
  | None, Some _ => false
  | None, None => true
  end.

(** [if kind:] / [if mission_id:] add their clause only for a non-empty value *)
Definition recalled (kind mission_id : option string) (r : memory_row) : bool :=
  (mm_state r =s "PROMOTED")
  && match kind with Some k => (k =s "") || (mm_kind r =s k) | None => true end
  && match mission_id with
     | Some m => (m =s "") || match mm_mission_id r with Some x => x =s m | None => true end
     | None => true
     end.

Definition recall_promoted (kind mission_id : option string) (limit : Z) : IO (list MemoryRecord) :=
  _ ← raise_if ((limit <? 1) || (200 <? limit))%Z ValueError "memory recall limit outside 1..200";
  rows ← query (λ d, take (Z.to_nat limit)
           (order_by promoted_first (List.filter (recalled kind mission_id) (cognitive_memory d))));
  for_each rows (λ r, lift_result (row_to_record r)).

(** ** The sealed vault *)
Context (secret : string).

(** [SealedMemoryVault(memory, store, secret)] *)
Definition memory_vault_init : result unit := demand_key "memory seal key" secret.

Definition memory_signature (memory_id content_sha256 validator_subject : string) (sealed_at : Q) : string :=
  hmac_hex secret (dumps CompactAscii (JObj
    [("memory_id", JStr memory_id); ("content_sha256", JStr content_sha256);
     ("validator_subject", JStr validator_subject); ("sealed_at", JNum sealed_at)])).

(** [INSERT OR REPLACE]: the row with this key is removed, the new one is last *)
Definition replace_seal (r : memory_seal_row) (l : list memory_seal_row) : list memory_seal_row :=
  List.filter (λ x, negb (ms_memory_id x =s ms_memory_id r)) l ++ [r].

Definition vault_promote (memory_id validator_token : string) (validated_evidence_ids : list string)
    (independent_validation reproducible : bool) (now : option Z) : IO MemoryRecord :=
  rec ← memory_promote memory_id validator_token validated_evidence_ids independent_validation reproducible now;
  row ← query (λ d, find_row mm_id memory_id (cognitive_memory d));
  sealed_at ← match row ≫= mm_promoted_at with
              | Some t => mret t
              | None => now_or_time (float_now now)
              end;
  let validator := match row with Some r => default "None" (mm_validator_subject r) | None => "" end in
  let signature := memory_signature (mr_id rec) (mr_content_sha256 rec) validator sealed_at in
  _ ← exec (set_memory_promotion_seals (replace_seal
        {| ms_memory_id := mr_id rec; ms_content_sha256 := mr_content_sha256 rec;
           ms_validator_subject := validator; ms_sealed_at := sealed_at; ms_signature := signature |}));
  mret rec.

Definition vault_verify (memory_id : string) : IO bool :=
  loaded ← catch (rec ← memory_get memory_id; mret (inl rec))
    (λ e, if bool_decide (exn_cls e = MemoryIntegrityError) then mret (inr tt) else reraise e);
  match loaded with
  | inr _ => mret false
  | inl rec =>
      row ← query (λ d, find_row ms_memory_id memory_id (memory_promotion_seals d));
      match rec, row with
      | Some rec, Some row =>
          if negb (mr_state rec =s "PROMOTED") then mret false
          else if negb (mr_content_sha256 rec =s ms_content_sha256 row) then mret false
          else mret (memory_signature memory_id (ms_content_sha256 row) (ms_validator_subject row)
                       (ms_sealed_at row) =s ms_signature row)
      | _, _ => mret false
      end
  end.
End memory.
