(* ===== verification/MemoryProps.v ===== *)
(** Memory is promoted only through its gates, its content never changes, and a
    sealed memory cannot be altered without a SHA-256 collision. *)

From S2P Require Import Prelude Json Sha256 Schema Ledger LedgerProps Tokens Memory.

Section memory_props.
Context `{JsonText, Entropy}.

Definition memory_states : list string := ["QUARANTINED"; "PROMOTED"; "REJECTED"].

(** ** Invariant *)
Record memory_ok (r : memory_row) : Prop := {
  mo_state : mm_state r ∈ memory_states;
  mo_record : ∃ rec, row_to_record r = Ok rec;
  mo_confidence : (0 <= mm_confidence r)%Q ∧ (mm_confidence r <= 1)%Q;
  mo_promoted : mm_state r = "PROMOTED" ↔ is_Some (mm_promoted_at r);
  mo_validator : mm_state r = "QUARANTINED" ↔ mm_validator_subject r = None;
  mo_evidence : mm_state r = "PROMOTED" → ∃ e l, load_tuple (mm_evidence_json r) = Ok (e :: l);
}.
Record memory_wf (d : KnowledgeTables) : Prop := {
  mw_rows : Forall memory_ok (cognitive_memory d);
  mw_keys : unique_key mm_id (cognitive_memory d);
}.

(** How a row may change: what was recorded stays; only a quarantined memory
    changes its state, and only then its seal. *)
Definition memory_moves (r r' : memory_row) : Prop :=
  mm_id r' = mm_id r ∧ mm_mission_id r' = mm_mission_id r ∧ mm_kind r' = mm_kind r
  ∧ mm_source r' = mm_source r ∧ mm_content_json r' = mm_content_json r
  ∧ mm_evidence_json r' = mm_evidence_json r ∧ mm_confidence r' = mm_confidence r
  ∧ mm_content_sha256 r' = mm_content_sha256 r ∧ mm_created_at r' = mm_created_at r
  ∧ (mm_state r ≠ "QUARANTINED" → r' = r).
Definition memory_evolves (d d' : DB) : Prop :=
  memory_wf d → memory_wf d'
  ∧ ∀ id r, find_row mm_id id (cognitive_memory d) = Some r →
      (∃ r', find_row mm_id id (cognitive_memory d') = Some r' ∧ memory_moves r r')
      ∧ (mm_state r ≠ "QUARANTINED" →
         find_row ms_memory_id id (memory_promotion_seals d')
         = find_row ms_memory_id id (memory_promotion_seals d)).

Lemma memory_moves_refl r : memory_moves r r.
Proof. by split_and!. Qed.
Lemma memory_moves_trans r1 r2 r3 : memory_moves r1 r2 → memory_moves r2 r3 → memory_moves r1 r3.
Proof.
  intros (?&?&?&?&?&?&?&?&?&F1) (?&?&?&?&?&?&?&?&?&F2). split_and!; try congruence.
  intros Hq. pose proof (F1 Hq) as ->. auto.
Qed.
#[export] Instance memory_evolves_preorder : PreOrder memory_evolves.
Proof.
  split.
  - intros d Hd. split; [done|]. intros id r Hr. split; [|done]. exists r. split; [done|apply memory_moves_refl].
  - intros x y z H1 H2 Hx. destruct (H1 Hx) as [Hy M1]. destruct (H2 Hy) as [Hz M2].
    split; [done|]. intros id r Hr. destruct (M1 id r Hr) as [(r' & Hr' & Hm) S1].
    destruct (M2 id r' Hr') as [(r'' & Hr'' & Hm') S2]. split.
    + exists r''. split; [done|]. by eapply memory_moves_trans.
    + intros Hq. assert (r' = r) as -> by (by apply Hm). rewrite S2 by done. auto.
Qed.
Lemma memory_evolves_frame (d d' : DB) : db_knowledge d' = db_knowledge d → memory_evolves d d'.
Proof.
  intros E Hd. rewrite E. split; [done|]. intros id r Hr. split; [|done].
  exists r. split; [done|apply memory_moves_refl].
Qed.
Hint Extern 1 (memory_evolves _ _) => apply memory_evolves_frame; reflexivity : respects.
Lemma audit_memory actor action mid payload now :
  respects (on_db memory_evolves) (audit actor action mid payload now).
Proof. apply audit_frame; [typeclasses eauto|]. intros. by apply memory_evolves_frame. Qed.
Lemma memory_get_respects R `{!PreOrder R} id : respects (on_db R) (memory_get id).
Proof. unfold memory_get. io_respects. Qed.
Hint Resolve audit_memory memory_get_respects : respects.

(** ** Rows and records *)
Lemma memory_get_inv id w o w' :
  memory_get id w = (Ok o, w') → w' = w ∧
  match o with
  | Some rec => ∃ r, find_row mm_id id (cognitive_memory (w_db w)) = Some r ∧ row_to_record r = Ok rec
  | None => find_row mm_id id (cognitive_memory (w_db w)) = None
  end.
Proof.
  unfold memory_get. intros (row & w1 & [-> ->]%query_Ok_inv & Hr)%bind_Ok_inv.
  destruct (find_row _ _ _) as [r|]; [|by injection Hr as <- <-].
  apply bind_Ok_inv in Hr as (rec & w2 & [Hrec ->]%lift_Ok_inv & Hr). injection Hr as <- <-.
  split; [done|]. by exists r.
Qed.
Lemma row_to_record_inv r rec :
  row_to_record r = Ok rec →
  loads (mm_content_json r) = Some (mr_content rec) ∧ memory_hash (mr_content rec) = mm_content_sha256 r
  ∧ load_tuple (mm_evidence_json r) = Ok (mr_evidence_ids rec)
  ∧ mr_id rec = mm_id r ∧ mr_state rec = mm_state r ∧ mr_kind rec = mm_kind r
  ∧ mr_mission_id rec = mm_mission_id r ∧ mr_content_sha256 rec = mm_content_sha256 r
  ∧ mr_promoted_at rec = mm_promoted_at r.
Proof.
  unfold row_to_record. destruct (loads _) as [c|]; [|done].
  destruct (String.eqb_spec (memory_hash c) (mm_content_sha256 r)) as [Eh|]; [|done]. simpl.
  destruct (load_tuple _) as [e|]; [|done]. by intros [= <-].
Qed.
Lemma row_to_record_set st p v r rec :
  row_to_record r = Ok rec → ∃ rec', row_to_record (memory_set st p v r) = Ok rec'.
Proof.
  unfold row_to_record. simpl. destruct (loads _) as [c|]; [|done].
  destruct (negb _); [done|]. destruct (load_tuple _) as [e|]; [|done]. intros _. by eexists.
Qed.

Lemma memory_hash_canon v : memory_hash (jcanon v) = memory_hash v.
Proof. unfold memory_hash, memory_canonical. by rewrite dumps_jcanon. Qed.

Lemma memory_update (d : DB) id r g :
  find_row mm_id id (cognitive_memory d) = Some r → (∀ x, mm_id (g x) = mm_id x) →
  (memory_ok r → memory_ok (g r)) → memory_moves r (g r) →
  memory_evolves d (set_cognitive_memory (update_row mm_id id g) d).
Proof.
  intros Hf Hid Hok Hmv [Hr Hk]. split; [split; simpl|].
  - apply update_row_Forall; [done|]. intros x Hx Ex Hxok.
    pose proof (find_row_unique mm_id _ x Hk Hx) as E. rewrite Ex, Hf in E. injection E as ->. auto.
  - unfold unique_key. by rewrite update_row_keys.
  - intros id' r' Hr'. split; [|done]. simpl. destruct (decide (id' = id)) as [->|Hne].
    + rewrite find_update_eq by done. rewrite Hf in Hr' |- *. injection Hr' as <-. by eexists.
    + rewrite find_update_ne by done. exists r'. split; [done|apply memory_moves_refl].
Qed.

Lemma memory_insert (d : DB) r :
  row_exists mm_id (mm_id r) (cognitive_memory d) = false → memory_ok r →
  memory_evolves d (set_cognitive_memory (λ l, l ++ [r]) d).
Proof.
  intros He%row_exists_false Hok [Hr Hk]. split; [split; simpl|].
  - apply Forall_app. split; [done|]. by apply Forall_singleton.
  - by apply unique_key_snoc.
  - intros id' r' Hr'. split; [|done]. exists r'. split; [|apply memory_moves_refl]. simpl.
    rewrite find_row_snoc by done. destruct (String.eqb_spec (mm_id r) id') as [E|]; [|done].
    apply find_row_Some in Hr' as [Hin Eid]. destruct He. rewrite E, <- Eid. by apply list_elem_of_fmap_2.
Qed.

(** ** Every operation evolves the memory *)
Lemma record_evolves kind source content ev mid conf now :
  respects (on_db memory_evolves) (memory_record kind source content ev mid conf now).
Proof.
  unfold memory_record. apply respects_of_at. intros w. do 6 at_step.
  apply respects_at_bind; [typeclasses eauto | | intros; apply respects_at_any; io_respects].
  unfold respects_at, on_db, exec, modify. simpl. apply memory_insert; [done|].
  apply negb_false_iff, andb_true_iff in Hg0 as [?%qle_true ?%qle_true].
  split; simpl; try done; [by left|].
  unfold row_to_record, memory_canonical. simpl. rewrite loads_dumps.
  fold (memory_hash (JObj content)). rewrite <- (memory_hash_canon (JObj content)). simpl.
  rewrite String.eqb_refl. simpl. unfold load_tuple. rewrite loads_dumps. simpl. by eexists.
Qed.

Lemma memory_ok_set r st p v :
  memory_ok r → st ∈ memory_states → st ≠ "QUARANTINED" → (st = "PROMOTED" ↔ is_Some p) →
  (st = "PROMOTED" → ∃ e l, load_tuple (mm_evidence_json r) = Ok (e :: l)) →
  memory_ok (memory_set st p v r).
Proof.
  intros [? [rec Hrec] ? ? ? ?] Hst Hq Hp He. split; simpl; try done.
  by eapply row_to_record_set.
Qed.

Ltac memory_write :=
  apply respects_at_bind; [typeclasses eauto | | intros; apply respects_at_any; io_respects];
  unfold respects_at, on_db, exec, modify; simpl; eapply memory_update;
  [first [eassumption | match goal with H : w_db ?w = _ |- context [w_db ?w] => rewrite H; eassumption end]
  | done | |].

Lemma promote_evolves ia id tok val indep repr_ now :
  respects (on_db memory_evolves) (memory_promote ia id tok val indep repr_ now).
Proof.
  unfold memory_promote. apply respects_of_at. intros w. at_step. at_step.
  apply memory_get_inv in Hm0 as [-> Ho]. destruct x0 as [rec|]; [|apply respects_at_any; auto with respects typeclass_instances].
  destruct Ho as (r & Hf & (_ & _ & Hev & _ & Hst & _)%row_to_record_inv). do 5 at_step.
  apply negb_false_iff, String.eqb_eq in Hg. rewrite Hst in Hg. memory_write.
  - intros Hok. destruct (mr_evidence_ids rec) as [|e l] eqn:El; [done|].
    apply memory_ok_set; [done|unfold memory_states; set_solver|done| |by eexists _, _].
    split; [by eexists|done].
  - split_and!; done.
Qed.
Lemma reject_evolves ia id tok reason now :
  respects (on_db memory_evolves) (memory_reject ia id tok reason now).
Proof.
  unfold memory_reject. apply respects_of_at. intros w. at_step. at_step.
  apply memory_get_inv in Hm0 as [-> Ho]. destruct x0 as [rec|]; [|apply respects_at_any; auto with respects typeclass_instances].
  destruct Ho as (r & Hf & (_ & _ & Hev & _ & Hst & _)%row_to_record_inv). at_step.
  apply negb_false_iff, String.eqb_eq in Hg. rewrite Hst in Hg. memory_write.
  - intros Hok. pose proof (mo_promoted r Hok) as Hp. rewrite Hg in Hp.
    apply memory_ok_set; [done|unfold memory_states; set_solver|done| |done].
    split; [done|]. intros Hs%Hp. done.
  - split_and!; done.
Qed.

(** What a successful promotion found and did. *)
Lemma memory_promote_Ok_inv ia id tok val indep repr_ now w rec w' :
  memory_promote ia id tok val indep repr_ now w = (Ok rec, w') →
  ∃ p w0 r ts, ia_verify ia tok (Some "memory:promote") now w = (Ok p, w0)
    ∧ find_row mm_id id (cognitive_memory (w_db w)) = Some r ∧ mm_state r = "QUARANTINED"
    ∧ (∃ ev, load_tuple (mm_evidence_json r) = Ok ev ∧ ev ≠ [] ∧ evidence_validated ev val = true)
    ∧ indep = true ∧ repr_ = true
    ∧ db_knowledge (w_db w') = db_knowledge
        (set_cognitive_memory (update_row mm_id id (memory_promoted ts (pr_subject p))) (w_db w))
    ∧ row_to_record (memory_promoted ts (pr_subject p) r) = Ok rec.
Proof.
  unfold memory_promote. intros Hrun. apply bind_Ok_inv in Hrun as (p & w0 & Hp & Hrun).
  pose proof (steady_run _ _ _ _ (ia_verify_respects eq ia tok _ now) Hp) as D0.
  apply bind_Ok_inv in Hrun as (o & w1 & (-> & Ho)%memory_get_inv & Hrun). rewrite D0 in Ho.
  destruct o as [rec0|]; [|done]. destruct Ho as (r & Hf & Hrec).
  apply row_to_record_inv in Hrec as (_ & _ & Hev & _ & Hst & _).
  do 4 (apply bind_Ok_inv in Hrun as (? & ? & [?Hg ->]%raise_if_Ok_inv & Hrun)).
  apply bind_Ok_inv in Hrun as (ts & w2 & Hts & Hrun).
  assert (w_db w2 = w_db w) as D2.
  { rewrite <- D0. refine (steady_run _ _ _ _ _ Hts). auto with respects typeclass_instances. }
  apply bind_Ok_inv in Hrun as (? & w3 & [= _ <-] & Hrun).
  apply bind_Ok_inv in Hrun as (? & w4 & (e & at_ & D4 & _)%audit_Ok_run & Hrun).
  apply bind_Ok_inv in Hrun as (o & w5 & (-> & Ho)%memory_get_inv & Hrun).
  simpl in D4. rewrite D2 in D4.
  destruct o as [rec1|]; [|done]. injection Hrun as -> <-. destruct Ho as (r1 & Hf1 & Hrec1).
  rewrite D4 in Hf1. simpl in Hf1. rewrite find_update_eq, Hf in Hf1 by done. injection Hf1 as <-.
  apply negb_false_iff, String.eqb_eq in Hg. rewrite Hst in Hg. apply negb_false_iff in Hg1.
  apply orb_false_iff in Hg2 as [?%negb_false_iff ?%negb_false_iff].
  exists p, w0, r, ts. split_and!; try done.
  - exists (mr_evidence_ids rec0). split_and!; try done. by intros E; rewrite E in Hg0.
  - by rewrite D4.
Qed.

(** Memory is promoted only through its gates: when [promote] returns, the
    validator's token verified for memory:promote, the memory was quarantined,
    its evidence is not empty and all of it was validated, and the validation
    was declared independent and reproducible; the row is then PROMOTED under
    the validator's name and every other row is as before. *)
Theorem memory_promotion_gated ia id tok val indep repr_ now w rec w'
    (Hrun : memory_promote ia id tok val indep repr_ now w = (Ok rec, w')) :
  indep = true ∧ repr_ = true
  ∧ ∃ p w0 r r', ia_verify ia tok (Some "memory:promote") now w = (Ok p, w0)
    ∧ find_row mm_id id (cognitive_memory (w_db w)) = Some r ∧ mm_state r = "QUARANTINED"
    ∧ (∃ ev, load_tuple (mm_evidence_json r) = Ok ev ∧ ev ≠ [] ∧ evidence_validated ev val = true)
    ∧ find_row mm_id id (cognitive_memory (w_db w')) = Some r' ∧ row_to_record r' = Ok rec
    ∧ mm_state r' = "PROMOTED" ∧ mm_validator_subject r' = Some (pr_subject p) ∧ memory_moves r r'
    ∧ (∀ id', id' ≠ id → find_row mm_id id' (cognitive_memory (w_db w'))
                         = find_row mm_id id' (cognitive_memory (w_db w))).
Proof.
  apply memory_promote_Ok_inv in Hrun as (p & w0 & r & ts & Hp & Hf & Hq & Hev & -> & -> & D & Hrec).
  split_and!; try done. exists p, w0, r, (memory_promoted ts (pr_subject p) r). rewrite D.
  split_and!; try done.
  - simpl. by rewrite find_update_eq, Hf.
  - intros id' Hne. simpl. by rewrite find_update_ne.
Qed.

(** What [record] stores is what [get] returns: after a successful record
    the memory reads back with the content (up to key order), the stripped kind
    and source, the distinct non-blank evidence ids, in quarantine. *)
Theorem memory_record_get kind source content ev mid conf now w id w'
    (Hrun : memory_record kind source content ev mid conf now w = (Ok id, w')) :
  ∃ rec, memory_get id w' = (Ok (Some rec), w')
    ∧ mr_id rec = id ∧ mr_content rec = jcanon (JObj content) ∧ mr_state rec = "QUARANTINED"
    ∧ mr_kind rec = strip kind ∧ mr_source rec = strip source ∧ mr_mission_id rec = mid
    ∧ mr_confidence rec = conf ∧ (0 <= conf)%Q ∧ (conf <= 1)%Q ∧ mr_promoted_at rec = None
    ∧ mr_evidence_ids rec = map JStr (evidence_tuple ev)
    ∧ (∀ s, s ∈ evidence_tuple ev ↔ s ≠ "" ∧ ∃ x, x ∈ ev ∧ strip x = s).
Proof.
  unfold memory_record in Hrun.
  apply bind_Ok_inv in Hrun as (? & ? & [Hb ->]%raise_if_Ok_inv & Hrun).
  apply bind_Ok_inv in Hrun as (? & ? & [Hc ->]%raise_if_Ok_inv & Hrun).
  apply bind_Ok_inv in Hrun as (mem & w1 & [= <- <-] & Hrun).
  apply bind_Ok_inv in Hrun as (ts & w2 & Hts & Hrun).
  apply bind_Ok_inv in Hrun as (rows & w3 & [-> ->]%query_Ok_inv & Hrun).
  apply bind_Ok_inv in Hrun as (? & ? & [Hu ->]%raise_if_Ok_inv & Hrun).
  apply bind_Ok_inv in Hrun as (? & ? & [= _ <-] & Hrun).
  apply bind_Ok_inv in Hrun as (? & w4 & (e & at_ & D4 & _)%audit_Ok_run & Hrun). injection Hrun as <- <-.
  apply row_exists_false in Hu. apply negb_false_iff, andb_true_iff in Hc as [?%qle_true ?%qle_true].
  eexists. split.
  - unfold memory_get, query, gets, mbind, M_bind. rewrite D4. simpl.
    rewrite find_row_snoc by done. simpl. rewrite String.eqb_refl. unfold lift_result, row_to_record, memory_canonical.
    simpl. rewrite loads_dumps. fold (memory_hash (JObj content)). rewrite <- (memory_hash_canon (JObj content)).
    simpl. rewrite String.eqb_refl. simpl. unfold load_tuple. rewrite loads_dumps. reflexivity.
  - simpl. split_and!; try done. intros s. unfold evidence_tuple, sorted_set.
    rewrite order_by_perm, elem_of_remove_dups, list_elem_of_fmap. split.
    + intros (y & -> & Hx). apply list_elem_of_In, filter_In in Hx as [Hx Hnb]. apply list_elem_of_In in Hx.
      split; [|by exists y]. apply negb_true_iff in Hnb. by apply String.eqb_neq in Hnb.
    + intros (Hne & y & Hx & <-). exists y. split; [done|]. apply list_elem_of_In, filter_In.
      split; [by apply list_elem_of_In|]. apply negb_true_iff. by apply String.eqb_neq.
Qed.

(** ** The vault *)
Lemma find_replace_seal_eq r l : find_row ms_memory_id (ms_memory_id r) (replace_seal r l) = Some r.
Proof.
  unfold replace_seal. rewrite find_row_app.
  assert (find_row ms_memory_id (ms_memory_id r)
            (List.filter (λ x, negb (ms_memory_id x =s ms_memory_id r)) l) = None) as ->.
  { apply find_row_None. intros Hin. apply list_elem_of_fmap in Hin as (x & E & Hx).
    apply list_elem_of_In, filter_In in Hx as [_ Hx%negb_true_iff]. rewrite <- E, String.eqb_refl in Hx. done. }
  unfold find_row, has_key. simpl. by rewrite String.eqb_refl.
Qed.
Lemma find_replace_seal_ne id r l :
  id ≠ ms_memory_id r → find_row ms_memory_id id (replace_seal r l) = find_row ms_memory_id id l.
Proof.
  intros Hne. unfold replace_seal, find_row, has_key. induction l as [|x l IH]; simpl.
  - by destruct (String.eqb_spec (ms_memory_id r) id).
  - destruct (String.eqb_spec (ms_memory_id x) (ms_memory_id r)) as [E|E]; simpl; [|by rewrite IH].
    destruct (String.eqb_spec (ms_memory_id x) id); [congruence|done].
Qed.

Lemma vault_promote_Ok_inv ia secret id tok val indep repr_ now w rec w' :
  vault_promote ia secret id tok val indep repr_ now w = (Ok rec, w') →
  ∃ w1 p w0 r ts, memory_promote ia id tok val indep repr_ now w = (Ok rec, w1)
    ∧ ia_verify ia tok (Some "memory:promote") now w = (Ok p, w0)
    ∧ find_row mm_id id (cognitive_memory (w_db w)) = Some r ∧ mm_state r = "QUARANTINED"
    ∧ find_row mm_id id (cognitive_memory (w_db w1)) = Some (memory_promoted ts (pr_subject p) r)
    ∧ row_to_record (memory_promoted ts (pr_subject p) r) = Ok rec ∧ mr_id rec = id
    ∧ w_db w' = set_memory_promotion_seals (replace_seal
        {| ms_memory_id := id; ms_content_sha256 := mr_content_sha256 rec; ms_validator_subject := pr_subject p;
           ms_sealed_at := ts;
           ms_signature := memory_signature secret id (mr_content_sha256 rec) (pr_subject p) ts |}) (w_db w1).
Proof.
  unfold vault_promote. intros Hrun. apply bind_Ok_inv in Hrun as (rec' & w1 & Hp & Hrun).
  pose proof Hp as (p & w0 & r & ts & Hv & Hf & Hq & _ & _ & _ & D & Hrec)%memory_promote_Ok_inv.
  assert (find_row mm_id id (cognitive_memory (w_db w1)) = Some (memory_promoted ts (pr_subject p) r)) as Hf1.
  { rewrite D. simpl. by rewrite find_update_eq, Hf. }
  apply bind_Ok_inv in Hrun as (row & w2 & [-> ->]%query_Ok_inv & Hrun). rewrite Hf1 in Hrun. simpl in Hrun.
  apply bind_Ok_inv in Hrun as (t & w3 & [= <- <-] & Hrun).
  apply bind_Ok_inv in Hrun as (? & w4 & [= _ <-] & Hrun). injection Hrun as <- <-.
  assert (mr_id rec' = id) as Eid.
  { apply row_to_record_inv in Hrec as (_ & _ & _ & -> & _). by apply find_row_Some in Hf as [_ ?]. }
  exists w1, p, w0, r, ts. rewrite Eid in *. by split_and!.
Qed.

Lemma vault_promote_evolves ia secret id tok val indep repr_ now :
  respects (on_db memory_evolves) (vault_promote ia secret id tok val indep repr_ now).
Proof.
  intros w. destruct (vault_promote ia secret id tok val indep repr_ now w) as [[rec|e] w'] eqn:E.
  - apply vault_promote_Ok_inv in E as (w1 & p & w0 & r & ts & Hm & _ & Hf & Hq & Hf1 & _ & _ & D).
    pose proof (respects_run _ _ _ _ _ (promote_evolves ia id tok val indep repr_ now) Hm) as He.
    unfold on_db in *. simpl. rewrite D. intros Hwf. destruct (He Hwf) as [[Hr Hk] Hmv].
    split; [by split|]. intros id' r' Hf'. destruct (Hmv id' r' Hf') as [Ha Hb]. split; [exact Ha|].
    intros Hst. rewrite <- Hb by done. simpl. apply find_replace_seal_ne. simpl.
    intros ->. rewrite Hf in Hf'. congruence.
  - revert E. unfold vault_promote, mbind at 1, M_bind at 1.
    destruct (memory_promote _ _ _ _ _ _ _ w) as [[rec|e'] w1] eqn:Hm.
    + unfold query, gets, mbind, M_bind, exec, modify. simpl.
      pose proof Hm as (p & w0 & r & ts & _ & Hf & _ & _ & _ & _ & D & _)%memory_promote_Ok_inv.
      assert (find_row mm_id id (cognitive_memory (w_db w1)) = Some (memory_promoted ts (pr_subject p) r)) as ->
        by (rewrite D; simpl; by rewrite find_update_eq, Hf). done.
    + intros [= _ <-]. exact (respects_run _ _ _ _ _ (promote_evolves ia id tok val indep repr_ now) Hm).
Qed.

(** Any call of the memory and its vault, returning or raising. *)
Inductive memory_step (ia : IdentityAuthority) (secret : string) (w : World) : World → Prop :=
| step_record kind source content ev mid conf now :
    memory_step ia secret w (snd (memory_record kind source content ev mid conf now w))
| step_promote id tok val indep repr_ now :
    memory_step ia secret w (snd (memory_promote ia id tok val indep repr_ now w))
| step_reject id tok reason now : memory_step ia secret w (snd (memory_reject ia id tok reason now w))
| step_vault id tok val indep repr_ now :
    memory_step ia secret w (snd (vault_promote ia secret id tok val indep repr_ now w)).

Lemma memory_steps_evolve ia secret w w' :
  rtc (memory_step ia secret) w w' → memory_evolves (w_db w) (w_db w').
Proof.
  induction 1 as [w|w w1 w2 Hs _ IH]; [reflexivity|]. etrans; [|exact IH].
  destruct Hs; [apply record_evolves | apply promote_evolves | apply reject_evolves | apply vault_promote_evolves].
Qed.

(** Memory is immutable evidence: whatever sequence of memory and vault
    calls runs, a recorded memory keeps its id, mission, kind, source, content,
    digest, evidence and confidence; only a quarantined one changes state, and a
    promoted or rejected one never changes again.  The table stays well formed:
    every row reads back, promoted rows have evidence, a validator and a time. *)
Theorem memory_immutable ia secret w w' id r
    (Hwf : memory_wf (w_db w))
    (Hreach : rtc (memory_step ia secret) w w')
    (Hr : find_row mm_id id (cognitive_memory (w_db w)) = Some r) :
  memory_wf (w_db w')
  ∧ ∃ r', find_row mm_id id (cognitive_memory (w_db w')) = Some r' ∧ memory_moves r r'.
Proof.
  destruct (memory_steps_evolve _ _ _ _ Hreach Hwf) as [Hw Hm]. split; [done|]. by apply Hm.
Qed.

Lemma vault_verify_run secret id w :
  vault_verify secret id w =
    match find_row mm_id id (cognitive_memory (w_db w)) with
    | None => (Ok false, w)
    | Some r =>
        match row_to_record r with
        | Raise e => if bool_decide (exn_cls e = MemoryIntegrityError) then (Ok false, w) else (Raise e, w)
        | Ok rec =>
            match find_row ms_memory_id id (memory_promotion_seals (w_db w)) with
            | None => (Ok false, w)
            | Some row =>
                (Ok ((mr_state rec =s "PROMOTED") && (mr_content_sha256 rec =s ms_content_sha256 row)
                     && (memory_signature secret id (ms_content_sha256 row) (ms_validator_subject row)
                           (ms_sealed_at row) =s ms_signature row)), w)
            end
        end
    end.
Proof.
  unfold vault_verify, memory_get, catch, query, gets, mbind, M_bind, lift_result.
  destruct (find_row mm_id id _) as [r|]; simpl; [|by repeat case_match].
  destruct (row_to_record r) as [rec|e]; simpl; [|by destruct (bool_decide _)].
  destruct (find_row ms_memory_id id (memory_promotion_seals (w_db w))) as [row|]; [|done].
  destruct (mr_state rec =s "PROMOTED"); [|done]. by destruct (mr_content_sha256 rec =s ms_content_sha256 row).
Qed.

(** A vault promotion stays verifiable: from a well-formed memory, after
    [promote] returned and any further memory and vault calls, [verify] answers
    True for that memory. *)
Theorem vault_promote_verifies ia secret id tok val indep repr_ now w rec w1 w2
    (Hwf : memory_wf (w_db w))
    (Hrun : vault_promote ia secret id tok val indep repr_ now w = (Ok rec, w1))
    (Hlater : rtc (memory_step ia secret) w1 w2) :
  vault_verify secret id w2 = (Ok true, w2).
Proof.
  pose proof (respects_run _ _ _ _ _ (vault_promote_evolves ia secret id tok val indep repr_ now) Hrun Hwf) as [Hwf1 _].
  apply vault_promote_Ok_inv in Hrun as (wm & p & w0 & r & ts & _ & _ & _ & _ & Hf & Hrec & Hid & D).
  set (r1 := memory_promoted ts (pr_subject p) r) in *.
  assert (find_row mm_id id (cognitive_memory (w_db w1)) = Some r1) as Hf1 by (by rewrite D).
  destruct (memory_steps_evolve _ _ _ _ Hlater Hwf1) as [_ Hm].
  destruct (Hm id r1 Hf1) as [(r2 & Hf2 & Hmv) Hs]. assert (r2 = r1) as -> by (by apply Hmv).
  rewrite vault_verify_run, Hf2, Hrec, Hs, D by done. simpl. set (sr := {| ms_memory_id := id |}).
  change id with (ms_memory_id sr) at 1. rewrite find_replace_seal_eq. subst sr. simpl.
  apply row_to_record_inv in Hrec as (_ & _ & _ & _ & -> & _ & _ & -> & _). simpl. by rewrite !String.eqb_refl.
Qed.

(** A verified seal pins the content: if [verify] answers True for a memory
    in two worlds with the same seal row, the content is the same in both up to
    key order, or SHA-256 collides; a verified seal was signed with the vault
    key over exactly this memory, digest, validator and time. *)
Theorem vault_verify_pins_content secret id w1 w2 w1' w2' r1 r2 row
    (H1 : vault_verify secret id w1 = (Ok true, w1')) (H2 : vault_verify secret id w2 = (Ok true, w2'))
    (Hr1 : find_row mm_id id (cognitive_memory (w_db w1)) = Some r1)
    (Hr2 : find_row mm_id id (cognitive_memory (w_db w2)) = Some r2)
    (Hs1 : find_row ms_memory_id id (memory_promotion_seals (w_db w1)) = Some row)
    (Hs2 : find_row ms_memory_id id (memory_promotion_seals (w_db w2)) = Some row) :
  (∃ c1 c2, loads (mm_content_json r1) = Some c1 ∧ loads (mm_content_json r2) = Some c2
     ∧ (jcanon c1 = jcanon c2 ∨ sha256_collide (memory_canonical c1) (memory_canonical c2)))
  ∧ mm_state r1 = "PROMOTED" ∧ mm_state r2 = "PROMOTED"
  ∧ ms_signature row = memory_signature secret id (mm_content_sha256 r1) (ms_validator_subject row) (ms_sealed_at row).
Proof.
  rewrite vault_verify_run, Hr1, Hs1 in H1. rewrite vault_verify_run, Hr2, Hs2 in H2.
  destruct (row_to_record r1) as [rec1|e1] eqn:R1; [|by destruct (bool_decide _)].
  destruct (row_to_record r2) as [rec2|e2] eqn:R2; [|by destruct (bool_decide _)].
  apply row_to_record_inv in R1 as (L1 & D1 & _ & _ & S1 & _ & _ & C1 & _).
  apply row_to_record_inv in R2 as (L2 & D2 & _ & _ & S2 & _ & _ & C2 & _).
  injection H1 as H1 _. injection H2 as H2 _.
  rewrite !andb_true_iff, !String.eqb_eq in H1, H2.
  destruct H1 as [[P1 E1] G1], H2 as [[P2 E2] G2]. split_and!; [|congruence|congruence|congruence].
  exists (mr_content rec1), (mr_content rec2). split_and!; try done.
  assert (memory_hash (mr_content rec1) = memory_hash (mr_content rec2)) as Eh by congruence.
  apply sha256_eq_or_collide in Eh as [Eh|]; [left | by right]. by apply dumps_inj in Eh.
Qed.

(** ** Recall *)
Lemma for_each_lift {A B} (f : A → result B) l (w : World) ys w' :
  for_each l (λ x, lift_result (f x)) w = (Ok ys, w') → w' = w ∧ Forall2 (λ x y, f x = Ok y) l ys.
Proof.
  revert w ys w'. induction l as [|x l IH]; intros w ys w'; simpl; [intros [= <- <-]; by split|].
  intros (y & w1 & [Hy ->]%lift_Ok_inv & (zs & w2 & (-> & Hzs)%IH & [= <- <-])%bind_Ok_inv)%bind_Ok_inv.
  split; [done|]. by constructor.
Qed.
Lemma promoted_first_total r s : promoted_first r s = true ∨ promoted_first s r = true.
Proof.
  unfold promoted_first. destruct (mm_promoted_at r) as [a|], (mm_promoted_at s) as [b|]; try tauto.
  rewrite !qle_true. destruct (Qlt_le_dec a b); [right|left]; lra.
Qed.
Lemma promoted_first_trans r s t :
  promoted_first r s = true → promoted_first s t = true → promoted_first r t = true.
Proof.
  unfold promoted_first. destruct (mm_promoted_at r), (mm_promoted_at s), (mm_promoted_at t); try done.
  rewrite !qle_true. lra.
Qed.

(** Recall returns promoted knowledge only: at most the limit, every record
    is a stored PROMOTED row whose content matches its digest, of the kind
    asked for and of the mission asked for or of none, newest promotion first. *)
Theorem recall_promoted_sound kind mid limit w recs w'
    (Hrun : recall_promoted kind mid limit w = (Ok recs, w')) :
  w' = w ∧ (1 <= limit <= 200)%Z ∧ (Z.of_nat (length recs) <= limit)%Z
  ∧ ∃ rows, Forall2 (λ r rec, row_to_record r = Ok rec) rows recs
    ∧ (∀ r, r ∈ rows → r ∈ cognitive_memory (w_db w) ∧ recalled kind mid r = true)
    ∧ StronglySorted (λ r s, promoted_first r s = true) rows.
Proof.
  unfold recall_promoted in Hrun. apply bind_Ok_inv in Hrun as (? & ? & [Hg ->]%raise_if_Ok_inv & Hrun).
  apply bind_Ok_inv in Hrun as (rows & ? & [-> ->]%query_Ok_inv & Hrun).
  apply for_each_lift in Hrun as [-> Hf]. apply orb_false_iff in Hg as [?%Z.ltb_ge ?%Z.ltb_ge].
  set (all := order_by promoted_first _) in *. pose proof (Forall2_length _ _ _ Hf) as Hlen.
  rewrite length_take in Hlen. split_and!; [done|lia|lia|lia|]. eexists. split_and!; [exact Hf| |].
  - intros r Hr. assert (r ∈ all) as Ha by (rewrite <- (take_drop (Z.to_nat limit) all); apply elem_of_app; by left).
    unfold all in Ha. rewrite order_by_perm in Ha. apply list_elem_of_In, filter_In in Ha as [Ha Hc].
    by apply list_elem_of_In in Ha.
  - assert (StronglySorted (λ r s, promoted_first r s = true) all) as Hs
      by (apply order_by_sorted; [apply promoted_first_total | apply promoted_first_trans]).
    rewrite <- (take_drop (Z.to_nat limit) all) in Hs. by apply StronglySorted_app_1_l in Hs.
Qed.
End memory_props.
