(* ===== verification/Providers.v ===== *)
(** immune_core/providers.py: requests to and proposals from cognitive providers,
    and the manager that selects one.

    A provider is code given from outside: its call is any computation that
    answers or raises, and may pass its deadline. *)

From S2P Require Import Prelude Json Base64 Sha256 Schema Ledger Tokens.

Record ProviderRequest := {
  rq_mission_id : string; rq_objective : string; rq_untrusted_observations : list dict;
  rq_validated_memory : list dict; rq_skill_context : list dict; rq_max_tokens : Z;
}.

Record ProviderProposal := {
  pp_provider_id : string; pp_summary : string; pp_hypotheses : list string; pp_recommended_tasks : list dict;
  pp_confidence : Q; pp_degraded : bool; pp_metadata : dict;
}.

(** The [CognitiveProvider] protocol, with whether a call would still be running
    when its deadline passes. *)
Record CognitiveProvider := {
  cp_provider_id : string;
  cp_locality : option string;
  cp_cost_per_call : option Q;
  cp_propose : ProviderRequest → Q → IO ProviderProposal;
  cp_late : ProviderRequest → Q → World → bool;
}.

(** [except ProviderError] *)
Definition provider_error (c : exn_class) : bool :=
  match c with ProviderError | ProviderUnavailable | ProviderProtocolError => true | _ => false end.

Definition PROPOSAL_FIELDS : list string := ["summary"; "hypotheses"; "recommended_tasks"; "confidence"].
Definition TASK_FIELDS : list string := ["kind"; "payload"; "skill_id"; "risk"].

Section providers.
Context `{JsonText, Entropy}.

(** ** Requests *)
Definition output_contract : json :=
  JObj [("type", JStr "proposal_only"); ("direct_execution", JBool false);
        ("required_fields", JList (map JStr PROPOSAL_FIELDS)); ("exact_top_level_keys", JList (map JStr PROPOSAL_FIELDS));
        ("forbidden_wrappers", JList (map JStr ["answer"; "result"; "data"; "response"; "output"]));
        ("recommended_task_schema",
           JObj [("kind", JStr "non-empty string"); ("payload", JStr "JSON object"); ("skill_id", JStr "string or null");
                 ("risk", JStr "JSON object"); ("additional_fields", JBool false)])].

Definition to_wire (r : ProviderRequest) : result dict :=
  if (rq_mission_id r =s "") || blank (rq_objective r)
  then Raise (Exn ValueError "mission_id and objective are required")
  else if ((rq_max_tokens r <? 64) || (32768 <? rq_max_tokens r))%Z
  then Raise (Exn ValueError "max_tokens outside sovereign bounds")
  else Ok [("mission_id", JStr (rq_mission_id r)); ("objective", JStr (rq_objective r));
           ("untrusted_observations",
              JList (map (λ o, JObj [("trust", JStr "UNTRUSTED_DATA"); ("data", JObj o)]) (rq_untrusted_observations r)));
           ("validated_memory", JList (map JObj (rq_validated_memory r)));
           ("skill_context", JList (map JObj (rq_skill_context r)));
           ("output_contract", output_contract)].

(** ** Proposals *)
Definition protocol_error {A} (msg : string) : result A := Raise (Exn ProviderProtocolError msg).

(** [set(d) - allowed], sorted *)
Definition unknown_keys (allowed : list string) (d : dict) : list string :=
  sorted_set (List.filter (λ k, negb (str_in k allowed)) (map fst d)).

Definition string_list (v : json) : option (list string) :=
  match v with
  | JList l => mapM (λ x, match x with JStr s => Some s | _ => None end) l
  | _ => None
  end.
Definition object_list (v : json) : option (list dict) :=
  match v with
  | JList l => mapM (λ x, match x with JObj d => Some d | _ => None end) l
  | _ => None
  end.

(** [str(task.get("skill_id", "")).strip() or None] *)
Definition normal_skill_id (task : dict) : json :=
  let s := strip (get_str task "skill_id" "") in if s =s "" then JNull else JStr s.
(** [dict(risk) if isinstance(risk, dict) else {}] *)
Definition normal_risk (task : dict) : dict :=
  match dget task "risk" with Some (JObj d) => d | _ => [] end.

Definition normal_task (task : dict) : result dict :=
  match unknown_keys TASK_FIELDS task with
  | (_ :: _) as extra =>
      protocol_error ("task contains unsupported fields: " +:+ py_str (JList (map JStr extra)))
  | [] =>
      match dget task "kind" with
      | Some (JStr kind) =>
          if blank kind then protocol_error "task kind is required"
          else match default (JObj []) (dget task "payload") with
               | JObj payload => Ok [("kind", JStr (strip kind)); ("payload", JObj payload);
                                     ("skill_id", normal_skill_id task); ("risk", JObj (normal_risk task))]
               | _ => protocol_error "task payload must be an object"
               end
      | _ => protocol_error "task kind is required"
      end
  end.

Fixpoint normal_tasks (tasks : list dict) : result (list dict) :=
  match tasks with
  | [] => Ok []
  | t :: rest => match normal_task t with
                 | Raise e => Raise e
                 | Ok t' => match normal_tasks rest with Raise e => Raise e | Ok rest' => Ok (t' :: rest') end
                 end
  end.

Definition proposal_from_mapping (provider_id : string) (raw metadata : dict) : result ProviderProposal :=
  match unknown_keys PROPOSAL_FIELDS raw with
  | (_ :: _) as unknown =>
      protocol_error ("provider returned unknown fields: " +:+ py_str (JList (map JStr unknown)))
  | [] =>
      match dget raw "summary" with
      | Some (JStr summary) =>
          if blank summary then protocol_error "proposal summary is required"
          else match string_list (default (JList []) (dget raw "hypotheses")) with
               | None => protocol_error "hypotheses must be a list of strings"
               | Some hypotheses =>
                   match object_list (default (JList []) (dget raw "recommended_tasks")) with
                   | None => protocol_error "recommended_tasks must be a list of at most 16 objects"
                   | Some tasks =>
                       if Nat.ltb 16 (length tasks)
                       then protocol_error "recommended_tasks must be a list of at most 16 objects"
                       else match normal_tasks tasks with
                            | Raise e => Raise e
                            | Ok normalized =>
                                match py_float (default (JNum 0) (dget raw "confidence")) with
                                | Raise _ => protocol_error "confidence must be numeric"
                                | Ok confidence =>
                                    if negb (qle 0 confidence && qle confidence 1)
                                    then protocol_error "confidence outside 0..1"
                                    else Ok {| pp_provider_id := provider_id; pp_summary := strip summary;
                                               pp_hypotheses := take 32 hypotheses;
                                               pp_recommended_tasks := normalized; pp_confidence := confidence;
                                               pp_degraded := false; pp_metadata := metadata |}
                                end
                            end
                   end
               end
      | _ => protocol_error "proposal summary is required"
      end
  end.

(** [DeterministicNoAIProvider] *)
Definition no_ai_proposal : ProviderProposal :=
  {| pp_provider_id := "deterministic-no-ai"; pp_summary := "AI unavailable; deterministic safe mode remains active";
     pp_hypotheses := []; pp_recommended_tasks := []; pp_confidence := 0; pp_degraded := true;
     pp_metadata := [("mode", JStr "DEGRADED_NO_AI")] |}.
Definition no_ai_provider : CognitiveProvider :=
  {| cp_provider_id := "deterministic-no-ai"; cp_locality := Some "local"; cp_cost_per_call := Some 0%Q;
     cp_propose := λ _ _, mret no_ai_proposal; cp_late := λ _ _ _, false |}.

(** ** The manager *)
Record ProviderManager := {
  pm_providers : list CognitiveProvider;
  pm_identity : IdentityAuthority;
  pm_fallback : CognitiveProvider;
}.
Definition provider_manager (owner_scope : string) (providers : list CognitiveProvider) (identity : IdentityAuthority)
    (fallback : option CognitiveProvider) : result ProviderManager :=
  if negb (owner_scope =s "immune-core") then Raise (Exn ValueError "provider manager must be owned by immune-core")
  else Ok {| pm_providers := providers; pm_identity := identity; pm_fallback := default no_ai_provider fallback |}.

Definition paid_authorized (identity : IdentityAuthority) (token : option string) (now : option Z) : IO bool :=
  match token with
  | None => mret false
  | Some t =>
      if t =s "" then mret false
      else catch (_ ← ia_verify identity t (Some "provider:paid") now; mret true)
             (λ e, if bool_decide (exn_cls e = IdentityError) then mret false else reraise e)
  end.

(** [_call_with_timeout]: a late call is abandoned, not undone *)
Definition call_provider (p : CognitiveProvider) (request : ProviderRequest) (timeout : Q) : IO ProviderProposal :=
  late ← gets (cp_late p request timeout);
  answer ← attempt (cp_propose p request timeout);
  if late : bool then throw ProviderUnavailable "provider deadline exceeded" else lift_result answer.

(** [max(0.0, float(getattr(provider, "cost_per_call", 0.0)))] *)
Definition call_cost (p : CognitiveProvider) : Q := py_max 0 (default 0%Q (cp_cost_per_call p)).

(** The [try] block of the loop. *)
Definition ask (p : CognitiveProvider) (request : ProviderRequest) (timeout : Q) (started : Q) : IO ProviderProposal :=
  proposal ← call_provider p request timeout;
  _ ← raise_if (negb (pp_provider_id proposal =s cp_provider_id p)) ProviderProtocolError "provider identity mismatch";
  ended ← monotonic;
  _ ← audit "provider-manager" "provider_proposal" (Some (rq_mission_id request))
        [("provider_id", JStr (cp_provider_id p)); ("locality", JStr (default "unknown" (cp_locality p)));
         ("duration_seconds", JNum (ended - started)); ("cost", JNum (call_cost p));
         ("task_count", JInt (Z.of_nat (length (pp_recommended_tasks proposal))))] None;
  mret proposal.

(** The loop over the providers; [spent] grows only where the loop returns. *)
Fixpoint ask_providers (ps : list CognitiveProvider) (request : ProviderRequest) (timeout : Q) (paid_allowed : bool)
    (max_cost spent : Q) : IO (option ProviderProposal) :=
  match ps with
  | [] => mret None
  | p :: rest =>
      let cost := call_cost p in
      if qlt 0 cost && (negb paid_allowed || qlt max_cost (spent + cost)) then
        _ ← audit "provider-manager" "provider_skipped_financial_gate" (Some (rq_mission_id request))
              [("provider_id", JStr (cp_provider_id p)); ("cost", JNum cost)] None;
        ask_providers rest request timeout paid_allowed max_cost spent
      else
        started ← monotonic;
        answer ← catch (proposal ← ask p request timeout started; mret (Some proposal))
          (λ e, if provider_error (exn_cls e) then
                  _ ← audit "provider-manager" "provider_failed" (Some (rq_mission_id request))
                        [("provider_id", JStr (cp_provider_id p)); ("error", JStr (exn_text e))] None;
                  mret None
                else reraise e);
        match answer with
        | Some proposal => mret (Some proposal)
        | None => ask_providers rest request timeout paid_allowed max_cost spent
        end
  end.

Definition manager_propose (pm : ProviderManager) (request : ProviderRequest) (timeout : Q)
    (paid_authorizer_token : option string) (max_cost : Q) (now : option Z) : IO ProviderProposal :=
  _ ← raise_if (qle timeout 0 || qlt max_cost 0) ValueError "invalid provider limits";
  paid_allowed ← paid_authorized (pm_identity pm) paid_authorizer_token now;
  answer ← ask_providers (pm_providers pm) request timeout paid_allowed max_cost 0;
  match answer with
  | Some proposal => mret proposal
  | None =>
      fallback ← cp_propose (pm_fallback pm) request timeout;
      _ ← audit "provider-manager" "provider_degraded_fallback" (Some (rq_mission_id request))
            [("provider_id", JStr (pp_provider_id fallback))] None;
      mret fallback
  end.
End providers.
