(* ===== verification/ProviderProps.v ===== *)
(** What a provider's answer becomes: a bounded, normalised proposal; and what the
    manager's financial gate keeps from being called. *)

From S2P Require Import Prelude Json Base64 Sha256 Schema Ledger LedgerProps Tokens TokenProps PolicyProps.
From S2P Require Import Providers.

Section provider_props.
Context `{JsonText, Entropy}.

(** ** Proposals *)
Lemma unknown_keys_nil allowed d k v : unknown_keys allowed d = [] → dget d k = Some v → k ∈ allowed.
Proof.
  unfold unknown_keys. intros Hn Hk. apply str_in_iff, not_false_iff_true. intros Hf.
  assert (k ∈ sorted_set (List.filter (λ k, negb (str_in k allowed)) (map fst d))) as Hin.
  { apply sorted_set_in, list_elem_of_In, filter_In. rewrite Hf. split; [|done]. clear -Hk.
    induction d as [|[k' v'] d IH]; [done|]. simpl in *. destruct (String.eqb_spec k' k) as [->|]; auto. }
  rewrite Hn in Hin. by apply elem_of_nil in Hin.
Qed.

(** A task as the coordinator gets it: exactly the four fields of the contract. *)
Record task_normal (raw task : dict) : Prop := {
  tn_known : ∀ k v, dget raw k = Some v → k ∈ TASK_FIELDS;
  tn_shape : ∃ kind payload, dget raw "kind" = Some (JStr kind) ∧ blank kind = false
    ∧ default (JObj []) (dget raw "payload") = JObj payload
    ∧ task = [("kind", JStr (strip kind)); ("payload", JObj payload);
              ("skill_id", normal_skill_id raw); ("risk", JObj (normal_risk raw))];
}.

Lemma normal_task_Ok raw task : normal_task raw = Ok task → task_normal raw task.
Proof.
  unfold normal_task. destruct (unknown_keys TASK_FIELDS raw) eqn:Eu; [|done].
  destruct (dget raw "kind") as [[| | | |kind| |]|] eqn:Ek; try done. destruct (blank kind) eqn:Eb; [done|].
  destruct (default _ _) as [| | | | | |payload] eqn:Ep; try done. intros [= <-].
  split; [intros k v; by apply unknown_keys_nil|]. by exists kind, payload.
Qed.
Lemma normal_tasks_Ok raws : ∀ tasks, normal_tasks raws = Ok tasks → Forall2 task_normal raws tasks.
Proof.
  induction raws as [|raw raws IH]; intros tasks; cbn [normal_tasks]; [by intros [= <-]|].
  destruct (normal_task raw) eqn:Et; [|done]. destruct (normal_tasks raws); [|done]. intros [= <-].
  constructor; [by apply normal_task_Ok | by apply IH].
Qed.

(** An untrusted answer becomes a bounded proposal or an error: an accepted
    mapping has only the contract's fields, and the proposal carries the caller's
    provider id, a stripped non-empty summary, at most 32 of the stated hypotheses,
    a confidence between 0 and 1, is not marked degraded, and has one normalised
    task per stated task, at most 16, each with a non-empty kind, an object payload,
    a skill and a risk object and nothing else. *)
Theorem proposal_normalised pid raw metadata p
    (Hok : proposal_from_mapping pid raw metadata = Ok p) :
  (∀ k v, dget raw k = Some v → k ∈ PROPOSAL_FIELDS)
  ∧ pp_provider_id p = pid ∧ pp_degraded p = false ∧ (0 <= pp_confidence p <= 1)%Q
  ∧ (∃ summary, dget raw "summary" = Some (JStr summary) ∧ pp_summary p = strip summary ∧ pp_summary p ≠ "")
  ∧ (∃ hs, string_list (default (JList []) (dget raw "hypotheses")) = Some hs ∧ pp_hypotheses p = take 32 hs)
  ∧ ∃ raws, object_list (default (JList []) (dget raw "recommended_tasks")) = Some raws ∧ length raws ≤ 16
      ∧ Forall2 task_normal raws (pp_recommended_tasks p).
Proof.
  unfold proposal_from_mapping in Hok. destruct (unknown_keys PROPOSAL_FIELDS raw) eqn:Eu; [|done].
  destruct (dget raw "summary") as [[| | | |summary| |]|] eqn:Es; try done. destruct (blank summary) eqn:Eb; [done|].
  destruct (string_list _) as [hs|] eqn:Eh; [|done]. destruct (object_list _) as [raws|] eqn:Er; [|done].
  destruct (Nat.ltb 16 (length raws)) eqn:El; [done|]. apply Nat.ltb_ge in El.
  destruct (normal_tasks raws) as [tasks|] eqn:Et; [|done]. destruct (py_float _) as [c|] eqn:Ec; [|done].
  destruct (qle 0 c && qle c 1) eqn:Eq; [|done]. injection Hok as <-. cbn.
  apply andb_true_iff in Eq as [?%qle_true ?%qle_true].
  split_and!; try done; [intros k v; by apply unknown_keys_nil | | by exists hs |].
  - exists summary. split_and!; try done. by apply String.eqb_neq.
  - exists raws. split_and!; try done. by apply normal_tasks_Ok.
Qed.

(** ** The financial gate *)

(** The provider may not be called: it costs, and the call is not authorised or
    is over the limit. *)
Definition priced_out (paid_allowed : bool) (max_cost : Q) (p : CognitiveProvider) : bool :=
  qlt 0 (call_cost p) && (negb paid_allowed || qlt max_cost (call_cost p)).

(** The same provider with other code behind it. *)
Definition impostor (code : ProviderRequest → Q → IO ProviderProposal) (p : CognitiveProvider) : CognitiveProvider :=
  {| cp_provider_id := cp_provider_id p; cp_locality := cp_locality p; cp_cost_per_call := cp_cost_per_call p;
     cp_propose := code; cp_late := λ _ _ _, false |}.
Definition swap_priced_out code (paid_allowed : bool) (max_cost : Q) (p : CognitiveProvider) : CognitiveProvider :=
  if priced_out paid_allowed max_cost p then impostor code p else p.

Lemma bind_ext {A B} (m : IO A) (f g : A → IO B) w : (∀ a w', f a w' = g a w') → (m ≫= f) w = (m ≫= g) w.
Proof. intros E. unfold mbind, M_bind. by destruct (m w) as [[a|e] w1]. Qed.

Lemma gate_test p paid_allowed max_cost :
  qlt 0 (call_cost p) && (negb paid_allowed || qlt max_cost (0 + call_cost p)) = priced_out paid_allowed max_cost p.
Proof.
  unfold priced_out. do 2 f_equal. unfold qlt. f_equal. apply eq_true_iff_eq. rewrite !Qle_bool_iff.
  by rewrite Qplus_0_l.
Qed.

Lemma ask_providers_swap code ps request timeout paid_allowed max_cost w :
  ask_providers (map (swap_priced_out code paid_allowed max_cost) ps) request timeout paid_allowed max_cost 0 w
  = ask_providers ps request timeout paid_allowed max_cost 0 w.
Proof.
  revert w. induction ps as [|p ps IH]; intros w; [done|]. cbn [map ask_providers].
  destruct (priced_out paid_allowed max_cost p) eqn:Ep.
  - assert (swap_priced_out code paid_allowed max_cost p = impostor code p) as ->.
    { unfold swap_priced_out. by rewrite Ep. }
    change (call_cost (impostor code p)) with (call_cost p). rewrite gate_test, Ep.
    apply bind_ext. intros _ w'. apply IH.
  - assert (swap_priced_out code paid_allowed max_cost p = p) as ->.
    { unfold swap_priced_out. by rewrite Ep. }
    rewrite gate_test, Ep. apply bind_ext. intros started w1. apply bind_ext. intros [a|] w2; [done | apply IH].
Qed.

(** No paid provider runs without authority: when the paid token does not
    verify for provider:paid, no provider with a cost is called, and otherwise none
    whose cost is over the limit; the whole run is the same whatever code stands
    behind those providers. *)
Theorem paid_provider_never_called code pm request timeout token max_cost now w paid_allowed w1
    (Hauth : paid_authorized (pm_identity pm) token now w = (Ok paid_allowed, w1)) :
  let pm' := {| pm_providers := map (swap_priced_out code paid_allowed max_cost) (pm_providers pm);
                pm_identity := pm_identity pm; pm_fallback := pm_fallback pm |} in
  manager_propose pm' request timeout token max_cost now w = manager_propose pm request timeout token max_cost now w.
Proof.
  intros pm'. unfold manager_propose, raise_if. destruct (_ || _); [done|]. rewrite !bind_ret_run.
  rewrite !(bind_Ok _ _ _ _ _ Hauth). subst pm'. cbn [pm_providers pm_fallback].
  unfold mbind at 1, M_bind at 1. rewrite ask_providers_swap. done.
Qed.

(** ** What is returned *)
Lemma paid_authorized_true ia token now w w' :
  paid_authorized ia token now w = (Ok true, w') →
  ∃ t p w1, token = Some t ∧ ia_verify ia t (Some "provider:paid") now w = (Ok p, w1).
Proof.
  unfold paid_authorized. destruct token as [t|]; [|done]. destruct (t =s ""); [done|].
  unfold catch, mbind, M_bind. destruct (ia_verify _ _ _ _ _) as [[p|e] w1] eqn:E; [by exists t, p, w1|].
  by destruct (bool_decide _).
Qed.

(** The event the manager records about a proposal. *)
Definition manager_event (action : string) (mission provider : string) (ev : audit_row) : Prop :=
  a_actor ev = "provider-manager" ∧ a_action ev = action ∧ a_mission_id ev = Some mission
  ∧ ∃ d, loads (a_payload_json ev) = Some (JObj d) ∧ dget d "provider_id" = Some (JStr provider).

Lemma manager_event_recorded action mission provider payload w h w' :
  audit "provider-manager" action (Some mission) (("provider_id", JStr provider) :: payload) None w = (Ok h, w') →
  ∃ ev, last (audit_events (w_db w')) = Some ev ∧ manager_event action mission provider ev.
Proof.
  intros (e & ts & D & _)%audit_Ok_run. rewrite D. simpl. rewrite last_snoc. eexists. split; [done|].
  split_and!; try done. 
  exists (sort_keys (map (λ p, (p.1, jcanon p.2)) (("provider_id", JStr provider) :: payload))).
  split; [exact (loads_dumps Compact (JObj (("provider_id", JStr provider) :: payload)))|]. by rewrite dget_sort_keys, dget_map_jcanon.
Qed.

Lemma ask_Ok p request timeout started w prop w' :
  ask p request timeout started w = (Ok prop, w') →
  pp_provider_id prop = cp_provider_id p ∧ (∃ wa wb, cp_propose p request timeout wa = (Ok prop, wb))
  ∧ ∃ ev, last (audit_events (w_db w')) = Some ev
      ∧ manager_event "provider_proposal" (rq_mission_id request) (cp_provider_id p) ev.
Proof.
  unfold ask. intros (prop' & w1 & Hcall & Hr)%bind_Ok_inv.
  apply bind_Ok_inv in Hr as (? & ? & [Hid%negb_false_iff%String.eqb_eq ->]%raise_if_Ok_inv & Hr).
  apply bind_Ok_inv in Hr as (ended & w2 & _ & Hr). apply bind_Ok_inv in Hr as (h & w3 & Ha & Hr).
  injection Hr as <- <-. split_and!; [done| |by eapply manager_event_recorded].
  unfold call_provider in Hcall. rewrite bind_gets_run in Hcall.
  apply bind_Ok_inv in Hcall as (answer & wb & Hat & Hcall). unfold attempt in Hat.
  destruct (cp_propose p request timeout w) as [r wc] eqn:Ep. injection Hat as <- <-.
  destruct (cp_late _ _ _ _); [done|]. apply lift_Ok_inv in Hcall as [-> _]. by exists w, wc.
Qed.

Lemma ask_providers_Some ps request timeout paid_allowed max_cost w prop w' :
  ask_providers ps request timeout paid_allowed max_cost 0 w = (Ok (Some prop), w') →
  ∃ p, p ∈ ps ∧ priced_out paid_allowed max_cost p = false ∧ pp_provider_id prop = cp_provider_id p
    ∧ (∃ wa wb, cp_propose p request timeout wa = (Ok prop, wb))
    ∧ ∃ ev, last (audit_events (w_db w')) = Some ev
        ∧ manager_event "provider_proposal" (rq_mission_id request) (cp_provider_id p) ev.
Proof.
  revert w. induction ps as [|p ps IH]; intros w; cbn [ask_providers]; [done|]. rewrite gate_test.
  destruct (priced_out paid_allowed max_cost p) eqn:Ep.
  - intros (h & w1 & _ & (q & Hq & Hrest)%IH)%bind_Ok_inv. exists q. split; [by right|done].
  - intros (started & w1 & _ & Hr)%bind_Ok_inv. apply bind_Ok_inv in Hr as (answer & w2 & Ha & Hr).
    destruct answer as [a|].
    2:{ apply IH in Hr as (q & Hq & Hrest). exists q. split; [by right|done]. }
    injection Hr as -> ->. exists p. split; [left|]. split; [done|].
    unfold catch in Ha. destruct ((ask p request timeout started ≫= _) w1) as [[x|e] wx] eqn:E.
    + injection Ha as -> ->. apply bind_Ok_inv in E as (y & wy & Hy & [= -> ->]). by apply ask_Ok in Hy.
    + destruct (provider_error _); [|done]. by apply bind_Ok_inv in Ha as (? & ? & _ & [=]).
Qed.

(** What the manager returns has a payer and a record: the proposal comes from
    a configured provider under its own id, free of charge or within the limit and
    paid for by a token that verified for provider:paid, or from the fallback; and
    the last event of the ledger names the mission and the provider. *)
Theorem manager_proposal_accounted pm request timeout token max_cost now w prop w'
    (Hrun : manager_propose pm request timeout token max_cost now w = (Ok prop, w')) :
  (0 < timeout)%Q ∧ (0 <= max_cost)%Q ∧
  ((∃ p, p ∈ pm_providers pm ∧ pp_provider_id prop = cp_provider_id p
      ∧ (∃ wa wb, cp_propose p request timeout wa = (Ok prop, wb))
      ∧ (call_cost p == 0 ∨ (call_cost p <= max_cost ∧
           ∃ t pr w1, token = Some t ∧ ia_verify (pm_identity pm) t (Some "provider:paid") now w = (Ok pr, w1)))%Q
      ∧ ∃ ev, last (audit_events (w_db w')) = Some ev
          ∧ manager_event "provider_proposal" (rq_mission_id request) (cp_provider_id p) ev)
   ∨ ((∃ wa wb, cp_propose (pm_fallback pm) request timeout wa = (Ok prop, wb))
      ∧ ∃ ev, last (audit_events (w_db w')) = Some ev
          ∧ manager_event "provider_degraded_fallback" (rq_mission_id request) (pp_provider_id prop) ev)).
Proof.
  unfold manager_propose in Hrun. apply bind_Ok_inv in Hrun as (? & ? & [Hlim ->]%raise_if_Ok_inv & Hrun).
  apply orb_false_iff in Hlim as [?%qle_false ?%qlt_false]. split_and!; [done..|].
  apply bind_Ok_inv in Hrun as (paid & w1 & Hpaid & Hrun). apply bind_Ok_inv in Hrun as (answer & w2 & Hask & Hrun).
  destruct answer as [a|].
  - injection Hrun as -> ->. left. apply ask_providers_Some in Hask as (p & Hin & Hgate & Hid & Hcall & Hev).
    exists p. split_and!; try done. unfold priced_out in Hgate.
    destruct (qlt 0 (call_cost p)) eqn:Ec.
    + simpl in Hgate. apply orb_false_iff in Hgate as [->%negb_false_iff ?%qlt_false]. right.
      split; [done|]. by eapply paid_authorized_true.
    + apply qlt_false in Ec. left. pose proof (py_max_ge 0 (default 0%Q (cp_cost_per_call p))) as [? _].
      fold (call_cost p) in *. lra.
  - right. apply bind_Ok_inv in Hrun as (fb & w3 & Hfb & Hrun). apply bind_Ok_inv in Hrun as (h & w4 & Ha & Hrun).
    injection Hrun as <- <-. split; [by exists w2, w3|]. by eapply manager_event_recorded.
Qed.
End provider_props.
