(* ===== verification/Cognition.v ===== *)
(** immune_core/cognition.py: the cognitive core, which asks for proposals and
    quarantines what was learned, and the coordinator, which turns a proposal into
    queued tasks under the policy guard. *)

From stdpp Require Import pretty.
From S2P Require Import Prelude Json Base64 Sha256 Schema Storage Ledger Engine Tokens Policy Skills Memory.
From S2P Require Import Providers.

Definition COGNITIVE_MISSION_STATES : list string := ["AUTHORIZED"; "DISCOVERING"; "RUNNING"; "DEGRADED"; "VALIDATING"].
Definition ALLOWED_RISK : list string :=
  ["new_cost"; "purchase"; "subscription"; "trial_with_billing_risk"; "commercial_license"; "disables_security_control";
   "logs_plaintext_secret"; "prompt_contains_unredacted_secret"; "irreversible"; "recovery_verified"].

Record QueueResult := { qr_queued_task_ids : list string; qr_rejected : list (nat * string) }.

Section cognition.
Context `{JsonText, Entropy}.

(** ** The core *)
Definition memory_context (r : MemoryRecord) : dict :=
  [("memory_id", JStr (mr_id r)); ("kind", JStr (mr_kind r)); ("content", mr_content r);
   ("evidence_ids", JList (mr_evidence_ids r)); ("confidence", JNum (mr_confidence r)); ("state", JStr (mr_state r))].
Definition skill_context (s : SkillRecord) : dict :=
  [("skill_id", JStr (sk_skill_id s)); ("version", JStr (sk_version s)); ("capability", JStr (sk_capability s));
   ("donor_id", JStr (sk_donor_id s)); ("authority", JStr (sk_authority s)); ("executable", JBool false)].

Definition core_propose (pm : ProviderManager) (mission_id objective : string) (observations : list dict)
    (requested_skills : list (string * option string)) (memory_kind paid_authorizer_token : option string)
    (max_cost timeout : Q) (now : option Z) : IO ProviderProposal :=
  promoted ← recall_promoted memory_kind (Some mission_id) 20;
  skills ← for_each requested_skills (λ sv, resolve_approved (fst sv) (snd sv));
  proposal ← manager_propose pm
    {| rq_mission_id := mission_id; rq_objective := objective; rq_untrusted_observations := observations;
       rq_validated_memory := map memory_context promoted; rq_skill_context := map skill_context skills;
       rq_max_tokens := 1200 |} timeout paid_authorizer_token max_cost now;
  _ ← audit "cognitive-core" "cognitive_proposal_created" (Some mission_id)
        [("provider_id", JStr (pp_provider_id proposal));
         ("task_count", JInt (Z.of_nat (length (pp_recommended_tasks proposal))));
         ("memory_count", JInt (Z.of_nat (length promoted))); ("skill_count", JInt (Z.of_nat (length skills)));
         ("degraded", JBool (pp_degraded proposal))] None;
  mret proposal.

Definition quarantine_learning (mission_id : string) (proposal : ProviderProposal) (outcome : dict)
    (evidence_ids : list string) : IO string :=
  memory_record "cognitive-outcome" ("provider:" +:+ pp_provider_id proposal)
    [("proposal_summary", JStr (pp_summary proposal)); ("hypotheses", JList (map JStr (pp_hypotheses proposal)));
     ("outcome", JObj outcome)]
    evidence_ids (Some mission_id) (pp_confidence proposal) None.

(** ** The coordinator *)
Definition policy_request (mission_id : string) (task : dict) (mission_state : string) : dict :=
  let risk := normal_risk task in
  [("mission_id", JStr mission_id); ("action", JStr "enqueue_cognitive_proposal");
   ("required_scope", JStr "cognition:authorize");
   ("mission_authorized", JBool (str_in mission_state COGNITIVE_MISSION_STATES)); ("system_authorized", JBool true);
   ("scope_ok", JBool true); ("material_change", JBool false)]
  ++ omap (λ k, (λ v, (k, v)) <$> dget risk k) ALLOWED_RISK.

Definition idempotency_key (mission_id provider_id : string) (index : nat) (task : dict) : string :=
  "cognition:" +:+ sha256_hex (mission_id +:+ "|" +:+ provider_id +:+ "|" +:+ pretty index +:+ "|"
                               +:+ dumps Compact (JObj task)).

(** [skill_id = task.get("skill_id")] where it is true *)
Definition named_skill (task : dict) : option json :=
  match dget task "skill_id" with Some v => if truthy v then Some v else None | None => None end.

(** The skill gate: the reason of a rejection. *)
Definition skill_gate (task : dict) : IO (option string) :=
  match named_skill task with
  | None => mret None
  | Some v =>
      catch (_ ← resolve_approved (py_str v) None; mret None)
        (λ e, if bool_decide (exn_cls e = SkillError) then mret (Some ("skill gate: " +:+ exn_msg e)) else reraise e)
  end.

(** [dict(task.get("payload", {}))] *)
Definition task_payload (task : dict) : result dict :=
  match default (JObj []) (dget task "payload") with
  | JObj d => Ok d
  | _ => Raise (Exn TypeError "cannot convert to a dictionary")
  end.

Definition provenance (proposal : ProviderProposal) (task : dict) : json :=
  JObj [("provider_id", JStr (pp_provider_id proposal)); ("proposal_confidence", JNum (pp_confidence proposal));
        ("skill_id", default JNull (dget task "skill_id"))].

(** The body of the loop: the id of the queued task, or the reason of the
    rejection. *)
Definition queue_task (guard : PolicyGuard) (mission_id mission_state : string) (proposal : ProviderProposal)
    (controller_token : string) (priority max_attempts : Z) (now : option Z) (index : nat) (task : dict)
    : IO (string + string) :=
  gate ← skill_gate task;
  match gate with
  | Some reason => mret (inr reason)
  | None =>
      d ← evaluate_token guard controller_token (policy_request mission_id task mission_state) now;
      if negb (permitted d) then
        _ ← audit "cognitive-coordinator" "cognitive_task_rejected" (Some mission_id)
              [("index", JInt (Z.of_nat index)); ("provider_id", JStr (pp_provider_id proposal));
               ("decision", JStr (pd_decision d)); ("reason", JStr (pd_reason d))] None;
        mret (inr (pd_decision d +:+ ": " +:+ pd_reason d))
      else
        payload ← lift_result (task_payload task);
        kind ← lift_result (item task "kind");
        task_id ← engine_submit_task mission_id (py_str kind)
                    (dset payload "cognitive_provenance" (provenance proposal task))
                    (idempotency_key mission_id (pp_provider_id proposal) index task) priority max_attempts (float_now now);
        _ ← audit "cognitive-coordinator" "cognitive_task_queued" (Some mission_id)
              [("task_id", JStr task_id); ("provider_id", JStr (pp_provider_id proposal));
               ("index", JInt (Z.of_nat index)); ("skill_id", default JNull (dget task "skill_id"))] None;
        mret (inl task_id)
  end.

Definition queued_of (l : list (nat * (string + string))) : list string :=
  omap (λ o : nat * (string + string), match snd o with inl t => Some t | inr _ => None end) l.
Definition rejected_of (l : list (nat * (string + string))) : list (nat * string) :=
  omap (λ o : nat * (string + string), match snd o with inr r => Some (fst o, r) | inl _ => None end) l.

Definition queue_proposal (guard : PolicyGuard) (mission_id : string) (proposal : ProviderProposal)
    (controller_token : string) (priority max_attempts : Z) (now : option Z) : IO QueueResult :=
  mission ← get_mission mission_id;
  match mission with
  | None => throw CognitionError "mission not found"
  | Some m =>
      let tasks := pp_recommended_tasks proposal in
      outcomes ← for_each (zip (seq 0 (length tasks)) tasks) (λ it,
        o ← queue_task guard mission_id (m_state m) proposal controller_token priority max_attempts now (fst it) (snd it);
        mret (fst it, o));
      mret {| qr_queued_task_ids := queued_of outcomes; qr_rejected := rejected_of outcomes |}
  end.
End cognition.
