(* ===== verification/CognitionProps.v ===== *)
(** The coordinator queues a proposed task only for an approved skill, an active
    mission and a permitted controller, and does nothing else. *)

From stdpp Require Import pretty.
From S2P Require Import Prelude Json Base64 Sha256 Schema Storage StorageProps Ledger LedgerProps Engine.
From S2P Require Import EngineProps Tokens TokenProps Policy PolicyProps Skills Memory Providers.
From S2P Require Import ProviderProps Cognition.

(** A loop returns the results of its body, each in the state the ones before it
    left. *)
Lemma for_each_Forall2 {S A B} (f : A → M S B) (R : relation S) (P : S → A → B → S → Prop) `{!PreOrder R} l :
  (∀ x, respects R (f x)) → (∀ x w y w', f x w = (Ok y, w') → P w x y w') →
  ∀ w ys w', for_each l f w = (Ok ys, w') → Forall2 (λ x y, ∃ w0 w1, R w w0 ∧ P w0 x y w1 ∧ R w1 w') l ys.
Proof.
  intros HR HP. induction l as [|x l IH]; intros w ys w'; cbn [for_each]; [by intros [= <- _]|].
  intros (y & w1 & Hy & Hr)%bind_Ok_inv. apply bind_Ok_inv in Hr as (ys' & w2 & Hys & [= <- <-]).
  constructor.
  - exists w, w1. split_and!; [reflexivity | by eapply HP |].
    eapply respects_run; [|exact Hys]. by apply respects_for_each.
  - eapply Forall2_impl; [by eapply IH|]. intros x' y' (w3 & w4 & H3 & HP3 & H4). exists w3, w4. split_and!; try done.
    etrans; [by eapply respects_run | done].
Qed.

Section cognition_props.
Context `{JsonText, Entropy}.

(** ** The coordinator queues, and nothing else *)

(** Missions and every table but tasks, transitions and the ledger are kept;
    tasks are only added, queued and not yet tried. *)
Definition only_queues (d d' : DB) : Prop :=
  store_queues (db_store d) (db_store d')
  ∧ db_authority d' = db_authority d ∧ db_knowledge d' = db_knowledge d ∧ db_obs d' = db_obs d
  ∧ db_diag d' = db_diag d ∧ db_runtime d' = db_runtime d ∧ db_gateway d' = db_gateway d ∧ db_ops d' = db_ops d
  ∧ db_learning d' = db_learning d.

#[export] Instance only_queues_preorder : PreOrder only_queues.
Proof.
  split; [by intros d|].
  intros a b c (S1 & A1 & K1 & O1 & D1 & R1 & G1 & P1 & L1) (S2 & A2 & K2 & O2 & D2 & R2 & G2 & P2 & L2).
  split_and!; try congruence. by etrans.
Qed.

Lemma audit_only_queues actor action mid payload now :
  respects (on_db only_queues) (audit actor action mid payload now).
Proof. by apply audit_frame; [typeclasses eauto|]. Qed.
Lemma submit_only_queues mid kind payload key prio maxa now :
  respects (on_db only_queues) (engine_submit_task mid kind payload key prio maxa now).
Proof.
  apply submit_respects; [typeclasses eauto|..]; [| |apply audit_only_queues].
  - intros f d. split; [apply store_queues_transitions | done].
  - intros t d Hs Ha. split; [by apply store_queues_task | done].
Qed.

(** ** The gates *)
Lemma resolve_approved_world id v w r w' : resolve_approved id v w = (r, w') → w' = w.
Proof.
  unfold resolve_approved, skill_get, raise_if, lift_result, query, mbind, M_bind, gets, mret, M_ret, throw.
  repeat case_match; naive_solver.
Qed.
Lemma skill_gate_run task w r w' :
  skill_gate task w = (r, w') →
  w' = w ∧ (r = Ok None → ∀ v, named_skill task = Some v → ∃ rec, resolve_approved (py_str v) None w = (Ok rec, w)).
Proof.
  unfold skill_gate. destruct (named_skill task) as [v|]; [|by intros [= <- <-]].
  unfold catch, mbind, M_bind. destruct (resolve_approved _ _ _) as [[rec|e] w1] eqn:E;
    pose proof (resolve_approved_world _ _ _ _ _ E) as ->.
  - intros [= <- <-]. split; [done|]. intros _ ? [= <-]. by exists rec.
  - destruct (bool_decide _); by intros [= <- <-].
Qed.

Lemma dget_omap_risk risk keys k :
  dget (omap (λ k, (λ v, (k, v)) <$> dget risk k) keys) k = if str_in k keys then dget risk k else None.
Proof.
  induction keys as [|k' keys IH]; [done|]. cbn [omap list_omap str_in existsb].
  destruct (dget risk k') as [v|] eqn:E; cbn [fmap option_fmap option_map dget];
    destruct (String.eqb_spec k k') as [->|Hne]; cbn [orb]; rewrite ?String.eqb_refl.
  - done.
  - destruct (String.eqb_spec k' k); [congruence|]. apply IH.
  - rewrite IH. rewrite E. by destruct (str_in k' keys).
  - apply IH.
Qed.
Lemma policy_request_risk mid task st k :
  k ∈ ALLOWED_RISK → is_true (policy_request mid task st) k = is_true (normal_risk task) k.
Proof.
  intros Hk. unfold is_true, policy_request.
  assert (∀ fixed rest : dict, (∀ v, (k, v) ∉ fixed) → dget (fixed ++ rest) k = dget rest k) as Happ.
  { intros fixed rest. induction fixed as [|[k' v'] fixed IH]; intros Hn; [done|]. simpl.
    destruct (String.eqb_spec k' k) as [->|]; [destruct (Hn v'); by left|]. apply IH. intros v Hv. apply (Hn v). by right. }
  rewrite Happ, dget_omap_risk, (proj2 (str_in_iff _ _) Hk); [done|].
  intros v Hv. rewrite !elem_of_cons, elem_of_nil in Hv. unfold ALLOWED_RISK in Hk. rewrite !elem_of_cons, elem_of_nil in Hk.
  naive_solver.
Qed.

(** What the coordinator established before it queued a task. *)
Record task_authorised (guard : PolicyGuard) (token : string) (now : option Z) (w : World) (m : mission_row)
    (task : dict) : Prop := {
  ta_skill : ∀ v, named_skill task = Some v → ∃ rec lab,
    sk_skill_id rec = py_str v ∧ sk_state rec = "APPROVED" ∧ sk_executable rec = false
    ∧ evaluate_donor (sk_donor rec) (sk_evidence rec) = Ok lab ∧ lr_decision lab = APPROVED;
  ta_mission : m_state m ∈ COGNITIVE_MISSION_STATES;
  ta_controller : ∃ p w1 w2, ia_verify (pg_identity guard) token (Some "cognition:authorize") now w1 = (Ok p, w2)
    ∧ has_scope p "cognition:authorize" = true;
  ta_constitution :
    constitution_ok (w_files w) (pg_constitution_path guard) (pg_expected_constitution_sha256 guard) = true;
  ta_risk : ∀ k, k ∈ FINANCIAL_FLAGS ∨ k ∈ ["disables_security_control"; "logs_plaintext_secret";
                                            "prompt_contains_unredacted_secret"] →
    is_true (normal_risk task) k = false;
  ta_recovery : is_true (normal_risk task) "irreversible" = true → is_true (normal_risk task) "recovery_verified" = true;
}.

Lemma permitted_authorised guard token now w m mid task p w1 :
  skills_wf (w_db w) → skill_gate task w = (Ok None, w) →
  ia_verify (pg_identity guard) token (Some "cognition:authorize") now w = (Ok p, w1) →
  permitted (decide_verified (constitution_ok (w_files w) (pg_constitution_path guard)
    (pg_expected_constitution_sha256 guard)) p (policy_request mid task (m_state m))) = true →
  task_authorised guard token now w m task.
Proof.
  intros Hwf Hg Hv [Hcon [Hf Hs Hfree Hsec [Hlog Hprompt] Hrec _ _]]%decide_permits_iff. split.
  - intros v Hn. apply skill_gate_run in Hg as [_ Hg]. destruct (Hg eq_refl v Hn) as [rec Hr].
    apply resolve_approved_sound in Hr as (_ & Hid & _ & Hst & _ & Hex & lab & Hlab & Hd); [|done]. by exists rec, lab.
  - specialize (Hf "mission_authorized" ltac:(set_solver)). apply str_in_iff.
    destruct (str_in (m_state m) COGNITIVE_MISSION_STATES) eqn:Es; [done|].
    revert Hf. unfold is_true, policy_request. by rewrite Es.
  - exists p, w, w1. split; [done|]. by destruct Hs.
  - done.
  - intros k Hk. rewrite <- (policy_request_risk mid task (m_state m)).
    + destruct Hk as [Hk|Hk]; [by apply Hfree|]. rewrite !elem_of_cons, elem_of_nil in Hk. naive_solver.
    + unfold FINANCIAL_FLAGS, ALLOWED_RISK in *. set_solver.
  - rewrite <- !(policy_request_risk mid task (m_state m)) by (unfold ALLOWED_RISK; set_solver). done.
Qed.

Lemma task_authorised_later guard token now w w' m task :
  w_files w' = w_files w → task_authorised guard token now w' m task → task_authorised guard token now w m task.
Proof. intros E []. split; try done. by rewrite <- E. Qed.

(** ** Runs of the coordinator *)
Definition queue_frame : relation World := λ w w', w_files w' = w_files w ∧ only_queues (w_db w) (w_db w').
#[export] Instance queue_frame_preorder : PreOrder queue_frame.
Proof.
  split; [by intros w|]. intros x y z [F1 Q1] [F2 Q2]. split; [congruence | by etrans].
Qed.
Lemma queue_frame_split {A} (m : IO A) :
  respects same_files m → respects (on_db only_queues) m → respects queue_frame m.
Proof. intros Hf Hq w. split; [apply Hf | apply Hq]. Qed.

Lemma skill_gate_frame R `{!PreOrder R} task : respects R (skill_gate task).
Proof. intros w. destruct (skill_gate task w) as [r w'] eqn:E. apply skill_gate_run in E as [-> _]. simpl. reflexivity. Qed.

Lemma queue_task_frame guard mid st prop token prio maxa now index task :
  respects queue_frame (queue_task guard mid st prop token prio maxa now index task).
Proof.
  apply queue_frame_split; unfold queue_task.
  - pose proof (skill_gate_frame same_files). solve_respects.
  - unfold evaluate_token, evaluate_verified, policy_record.
    pose proof audit_only_queues. pose proof submit_only_queues. pose proof (skill_gate_frame (on_db only_queues)).
    io_respects.
Qed.

(** One task of a proposal: queued under all gates, or rejected. *)
Definition task_outcome (guard : PolicyGuard) (mid : string) (m : mission_row) (prop : ProviderProposal) (token : string)
    (now : option Z) (w : World) (it : nat * dict) (o : nat * (string + string)) (w' : World) : Prop :=
  fst o = fst it ∧
  match snd o with
  | inl id => (skills_wf (w_db w) → task_authorised guard token now w m (snd it))
      ∧ ∃ t, t ∈ tasks (w_db w') ∧ t_id t = id
          ∧ t_idempotency_key t = idempotency_key mid (pp_provider_id prop) (fst it) (snd it)
  | inr reason => tasks (w_db w') = tasks (w_db w)
  end.

Lemma queue_task_run guard mid m prop token prio maxa now index task w o w' :
  queue_task guard mid (m_state m) prop token prio maxa now index task w = (Ok o, w') →
  task_outcome guard mid m prop token now w (index, task) (index, o) w'.
Proof.
  unfold queue_task. intros (gate & w1 & Hg & Hr)%bind_Ok_inv. pose proof (skill_gate_run _ _ _ _ Hg) as [-> _].
  destruct gate as [reason|]; [by injection Hr as <- <-|].
  apply bind_Ok_inv in Hr as (d & w2 & Hd & Hr).
  apply evaluate_token_run in Hd as (actor & ev & _ & _ & Es & _ & Hd).
  destruct (permitted d) eqn:Hp; cbn [negb] in Hr.
  - destruct Hd as [[? _]|(p & wv & Hv & _ & ->)]; [congruence|].
    apply bind_Ok_inv in Hr as (payload & w3 & [_ ->]%lift_Ok_inv & Hr).
    apply bind_Ok_inv in Hr as (kind & w4 & [_ ->]%lift_Ok_inv & Hr).
    apply bind_Ok_inv in Hr as (tid & w5 & Hs & Hr). apply bind_Ok_inv in Hr as (h & w6 & Ha & [= <- <-]).
    split; [done|]. split.
    + intros Hwf. eapply permitted_authorised; [done..|]. exact Hp.
    + apply engine_submit_stored in Hs as (t & Ht). apply audit_Ok_run in Ha as (e1 & t1 & D1 & _).
      exists t. by rewrite D1.
  - apply bind_Ok_inv in Hr as (h & w3 & (e & ts & D & _)%audit_Ok_run & [= <- <-]).
    split; [done|]. simpl. rewrite D. simpl. by rewrite Es.
Qed.

Lemma queued_of_in id l : id ∈ queued_of l ↔ ∃ i, (i, inl id) ∈ l.
Proof.
  unfold queued_of. rewrite list_elem_of_omap. split.
  - intros ([i [t|r]] & Hin & [= ->]). by exists i.
  - intros [i Hin]. by exists (i, inl id).
Qed.
Lemma outcomes_counted l : length (queued_of l) + length (rejected_of l) = length l.
Proof.
  unfold queued_of, rejected_of in *. induction l as [|[i [t|r]] l IH]; [done|..]; cbn [omap list_omap length snd fst].
  - rewrite <- IH. lia.
  - rewrite <- IH. lia.
Qed.

(** C19. The coordinator only queues what passed every gate: when [queue_proposal]
    returns, the mission is stored, each task of the proposal is either queued or
    rejected, and a queued id is that of a stored task under the key of its
    proposal, whose skill, if it names one, is approved by the laboratory, under a
    mission in a cognitive state, a controller token verified for
    cognition:authorize, an intact constitution and no forbidden risk.  Nothing
    else changes: files, missions and every other table stay, and tasks are only
    added, QUEUED and untried. *)
Theorem queue_proposal_gated guard mid prop token prio maxa now w qr w'
    (Hwf : skills_wf (w_db w))
    (Hrun : queue_proposal guard mid prop token prio maxa now w = (Ok qr, w')) :
  ∃ m, find_row m_id mid (missions (w_db w)) = Some m
    ∧ length (qr_queued_task_ids qr) + length (qr_rejected qr) = length (pp_recommended_tasks prop)
    ∧ w_files w' = w_files w ∧ only_queues (w_db w) (w_db w')
    ∧ ∀ id, id ∈ qr_queued_task_ids qr → ∃ index task t,
        pp_recommended_tasks prop !! index = Some task ∧ task_authorised guard token now w m task
        ∧ t ∈ tasks (w_db w') ∧ t_id t = id
        ∧ t_idempotency_key t = idempotency_key mid (pp_provider_id prop) index task.
Proof.
  unfold queue_proposal in Hrun. apply bind_Ok_inv in Hrun as (m & w1 & [-> ->]%query_Ok_inv & Hrun).
  destruct (find_row m_id mid _) as [m|] eqn:Hm; [|done].
  apply bind_Ok_inv in Hrun as (os & w2 & Hos & [= <- <-]). exists m. split; [done|]. cbn.
  set (body := λ it : nat * dict, o ← queue_task guard mid (m_state m) prop token prio maxa now it.1 it.2; mret (it.1, o)) in Hos.
  assert (∀ it, respects queue_frame (body it)) as Hb.
  { intros it. apply respects_bind; [typeclasses eauto | apply queue_task_frame|]. intros o.
    apply respects_ret. typeclasses eauto. }
  pose proof (respects_run _ _ _ _ _ (respects_for_each queue_frame _ body Hb) Hos) as [Hf Hq].
  pose proof Hos as H2. apply (for_each_Forall2 body queue_frame (task_outcome guard mid m prop token now) _ Hb) in H2.
  2:{ intros [i task] wi o wj Hrun. apply bind_Ok_inv in Hrun as (o' & wk & Ho & [= <- <-]). by apply queue_task_run in Ho. }
  split_and!; [|done..|].
  - rewrite outcomes_counted. apply Forall2_length in H2. rewrite <- H2, length_zip, length_seq. lia.
  - intros id [i Hin]%queued_of_in. apply list_elem_of_lookup in Hin as [k Hk].
    destruct (Forall2_lookup_r _ _ _ _ _ H2 Hk) as ([i' task] & Hit & w3 & w4 & [F3 Q3] & [Hi Hout] & [_ Q4]).
    cbn in Hi, Hout. subst i'. destruct Hout as (Ha & t & Ht & Hid & Hkey). apply lookup_zip_with_Some in Hit as (i'' & task' & [= -> ->] & Hi & Htask).
    apply lookup_seq in Hi as [-> _]. exists k, task', t. split_and!; try done.
    + apply (task_authorised_later _ _ _ _ w3); [done|]. apply Ha.
      destruct Q3 as (_ & _ & -> & _). done.
    + destruct Q4 as ((_ & l & -> & _) & _). set_solver.
Qed.

(** A null skill is not no skill: the contract allows a null skill_id, but the
    normalisation turns it into the text None, and as long as no skill of that name
    is registered the skill gate rejects the task. *)
Theorem null_skill_rejected raw task w
    (Hnull : dget raw "skill_id" = Some JNull)
    (Htask : normal_task raw = Ok task)
    (Hnone : ∀ s, s ∈ cognitive_skills (w_db w) → s_skill_id s ≠ "None") :
  dget task "skill_id" = Some (JStr "None")
  ∧ skill_gate task w = (Ok (Some "skill gate: no approved skill version"), w).
Proof.
  apply normal_task_Ok in Htask as [_ (kind & payload & _ & _ & _ & ->)].
  assert (normal_skill_id raw = JStr "None") as E by (unfold normal_skill_id, get_str; by rewrite Hnull).
  rewrite E. split; [done|]. unfold skill_gate, named_skill. cbn [dget String.eqb Ascii.eqb Bool.eqb truthy py_str].
  unfold catch, resolve_approved, query, mbind, M_bind, gets. cbn.
  assert (List.filter (λ r, (s_skill_id r =s "None") && (s_state r =s "APPROVED")) (cognitive_skills (w_db w)) = []) as ->.
  { induction (cognitive_skills (w_db w)) as [|s l IH]; [done|]. cbn [List.filter].
    destruct (String.eqb_spec (s_skill_id s) "None") as [E'|_]; [destruct (Hnone s ltac:(left) E')|]. apply IH.
    intros s' Hs'. apply Hnone. by right. }
  done.
Qed.
End cognition_props.
