(* ===== verification/Observability.v ===== *)
(** immune_core/observability.py: signals, metrics, logs, traces, sensor health,
    evidence, inventory, the signal processor and the anomaly detector. *)

From S2P Require Import Prelude Json Sha256 Schema Ledger.

(** ** Values *)
Record Signal := {
  si_id : string; si_sensor_id : string; si_kind : string; si_subject : string; si_ts : Q;
  si_severity : string; si_attributes : dict; si_fingerprint : string; si_correlation_key : string;
  si_raw_sha256 : string;
}.
Record ProcessedSignal := { ps_signal : Signal; ps_duplicate : bool; ps_correlation_count : Z }.
Record EvidenceRef := {
  er_id : string; er_mission_id : option string; er_kind : string; er_payload_sha256 : string; er_created_at : Q;
}.

(** [str.upper()] on ASCII letters *)
Definition upper_char (c : ascii) : ascii :=
  let n := N_of_ascii c in if (N.leb 97 n && N.leb n 122)%bool then ascii_of_N (n - 32) else c.
Fixpoint upper (s : string) : string :=
  match s with EmptyString => EmptyString | String c s' => String (upper_char c) (upper s') end.

(** [LIMIT n]; a negative limit is no limit *)
Definition sql_limit {A} (n : Z) (l : list A) : list A := if (n <? 0)%Z then l else take (Z.to_nat n) l.

Section observability.
Context `{JsonText, Entropy}.
(** Whether the store was given an audit ledger. *)
Context (audited : bool).

Definition obs_digest (v : json) : string := sha256_hex (dumps Compact v).

(** ** Signals *)
Definition signal_of (p : ProcessedSignal) : signal_row :=
  let s := ps_signal p in
  {| sg_id := si_id s; sg_sensor_id := si_sensor_id s; sg_kind := si_kind s; sg_subject := si_subject s;
     sg_ts := si_ts s; sg_severity := si_severity s; sg_attributes_json := dumps Sorted (JObj (si_attributes s));
     sg_fingerprint := si_fingerprint s; sg_correlation_key := si_correlation_key s;
     sg_raw_sha256 := si_raw_sha256 s; sg_duplicate := if ps_duplicate p then 1 else 0 |}.

(** [INSERT OR REPLACE] *)
Definition replace_signal (r : signal_row) (l : list signal_row) : list signal_row :=
  List.filter (λ x, negb (sg_id x =s sg_id r)) l ++ [r].

Definition record_signal (p : ProcessedSignal) : IO unit :=
  exec (set_obs_signals (replace_signal (signal_of p))).

Definition same_fingerprint (fingerprint : string) (since : Q) (r : signal_row) : bool :=
  (sg_fingerprint r =s fingerprint) && qle since (sg_ts r).
Definition recent_fingerprint_count (fingerprint : string) (since : Q) : IO Z :=
  query (λ d, Z.of_nat (length (List.filter (same_fingerprint fingerprint since) (obs_signals d)))).

Definition correlated (key : string) (since : Q) (r : signal_row) : bool :=
  (sg_correlation_key r =s key) && qle since (sg_ts r) && (sg_duplicate r =? 0)%Z.
Definition recent_correlation_count (key : string) (since : Q) : IO Z :=
  query (λ d, Z.of_nat (length (List.filter (correlated key since) (obs_signals d)))).

(** ** Metrics and logs *)
Definition record_metric (name subject : string) (value : Q) (labels : dict) (ts : option Q) : IO unit :=
  when ← now_or_time ts;
  exec (set_obs_metrics (λ l, l ++ [{| mt_name := name; mt_subject := subject; mt_ts := when;
    mt_value := value; mt_labels_json := dumps Sorted (JObj labels) |}])).

Definition newest_metric (r s : metric_row) : bool := qle (mt_ts s) (mt_ts r).
Definition metric_of (name subject : string) (before : option Q) (r : metric_row) : bool :=
  (mt_name r =s name) && (mt_subject r =s subject)
  && match before with None => true | Some t => qlt (mt_ts r) t end.
Definition metric_values (name subject : string) (limit : Z) (before : option Q) : IO (list Q) :=
  query (λ d, rev (map mt_value (sql_limit limit
    (order_by newest_metric (List.filter (metric_of name subject before) (obs_metrics d)))))).

Definition record_log (source level message : string) (fields : dict) (ts : option Q) : IO string :=
  when ← now_or_time ts;
  let digest := obs_digest (JObj [("ts", JNum when); ("source", JStr source); ("level", JStr (upper level));
                                  ("message", JStr message); ("fields", JObj fields)]) in
  _ ← exec (set_obs_logs (λ l, l ++ [{| lg_ts := when; lg_source := source; lg_level := upper level;
        lg_message := message; lg_fields_json := dumps Sorted (JObj fields); lg_sha256 := digest |}]));
  mret digest.

(** ** Traces *)
Definition start_span (name : string) (trace_id parent_span_id : option string) (attributes : dict)
    (ts : option Q) : IO (string * string) :=
  trace ← match trace_id with
          | Some t => if t =s "" then uuid_hex else mret t
          | None => uuid_hex
          end;
  span ← uuid_hex;
  when ← now_or_time ts;
  rows ← query obs_traces;
  _ ← raise_if (row_exists sp_span_id span rows) IntegrityError "UNIQUE constraint failed: obs_traces.span_id";
  _ ← exec (set_obs_traces (λ l, l ++ [{| sp_span_id := span; sp_trace_id := trace;
        sp_parent_span_id := parent_span_id; sp_name := name; sp_started_at := when; sp_ended_at := None;
        sp_status := "RUNNING"; sp_attributes_json := dumps Sorted (JObj attributes) |}]));
  mret (trace, span).

Definition span_end (when : Q) (status attributes_json : string) (r : trace_row) : trace_row :=
  {| sp_span_id := sp_span_id r; sp_trace_id := sp_trace_id r; sp_parent_span_id := sp_parent_span_id r;
     sp_name := sp_name r; sp_started_at := sp_started_at r; sp_ended_at := Some when; sp_status := status;
     sp_attributes_json := attributes_json |}.

Definition end_span (span_id status : string) (attributes : dict) (ts : option Q) : IO unit :=
  when ← now_or_time ts;
  row ← query (λ d, find_row sp_span_id span_id (obs_traces d));
  match row with
  | None => throw KeyError "unknown span"
  | Some r =>
      match loads (sp_attributes_json r) with
      | None => throw JSONDecodeError "Expecting value"
      | Some (JObj merged) =>
          exec (set_obs_traces (update_row sp_span_id span_id
            (span_end when status (dumps Sorted (JObj (dupdate merged attributes))))))
      | Some _ => throw AttributeError "object has no attribute 'update'"
      end
  end.

(** ** Sensor health *)

(** [INSERT ... ON CONFLICT(key) DO UPDATE] *)
Definition upsert {R} (key : R → string) (r : R) (f : R → R) (l : list R) : list R :=
  if row_exists key (key r) l then update_row key (key r) f l else l ++ [r].

(** The row after one more outcome. *)
Definition next_health (sensor_id : string) (ok : bool) (error : option string) (when : Q)
    (row : option health_row) : health_row :=
  let failures := match row with Some r => hl_consecutive_failures r | None => 0%Z end in
  let last_success := row ≫= hl_last_success in
  let last_failure := row ≫= hl_last_failure in
  if ok then {| hl_sensor_id := sensor_id; hl_state := "HEALTHY"; hl_consecutive_failures := 0;
                hl_last_success := Some when; hl_last_failure := last_failure; hl_last_error := None |}
  else {| hl_sensor_id := sensor_id;
          hl_state := if (failures + 1 <? 3)%Z then "DEGRADED" else "FAILED";
          hl_consecutive_failures := failures + 1; hl_last_success := last_success;
          hl_last_failure := Some when; hl_last_error := error |}.

Definition update_sensor_health (sensor_id : string) (ok : bool) (error : option string) (ts : option Q) : IO unit :=
  when ← now_or_time ts;
  row ← query (λ d, find_row hl_sensor_id sensor_id (obs_sensor_health d));
  let r := next_health sensor_id ok error when row in
  exec (set_obs_sensor_health (upsert hl_sensor_id r (λ _, r))).

Definition sensor_health (sensor_id : string) : IO (option health_row) :=
  query (λ d, find_row hl_sensor_id sensor_id (obs_sensor_health d)).

(** ** Evidence *)
Definition evidence (kind : string) (payload : dict) (mission_id : option string) (ts : option Q) : IO EvidenceRef :=
  when ← now_or_time ts;
  eid ← uuid4;
  let digest := obs_digest (JObj payload) in
  rows ← query obs_evidence;
  _ ← raise_if (row_exists ev_id eid rows) IntegrityError "UNIQUE constraint failed: obs_evidence.id";
  _ ← exec (set_obs_evidence (λ l, l ++ [{| ev_id := eid; ev_mission_id := mission_id; ev_kind := kind;
        ev_created_at := when; ev_payload_json := dumps Compact (JObj payload); ev_payload_sha256 := digest |}]));
  _ ← (if audited
       then audit "observability" "evidence_recorded" mission_id
              [("evidence_id", JStr eid); ("kind", JStr kind); ("sha256", JStr digest)] (Some when)
       else mret "");
  mret {| er_id := eid; er_mission_id := mission_id; er_kind := kind; er_payload_sha256 := digest;
          er_created_at := when |}.

Definition evidence_intact (r : evidence_row) : bool :=
  match loads (ev_payload_json r) with
  | None => false
  | Some payload => obs_digest payload =s ev_payload_sha256 r
  end.

Definition verify_evidence (evidence_id : string) : IO bool :=
  row ← query (λ d, find_row ev_id evidence_id (obs_evidence d));
  mret (match row with None => false | Some r => evidence_intact r end).

(** ** Inventory *)
Definition upsert_resource (resource_id kind name : string) (attributes : dict) (ts : Q) : IO unit :=
  let payload := dumps Sorted (JObj attributes) in
  exec (set_obs_resources (upsert rs_resource_id
    {| rs_resource_id := resource_id; rs_kind := kind; rs_name := name; rs_attributes_json := payload;
       rs_first_seen := ts; rs_last_seen := ts |}
    (λ r, {| rs_resource_id := rs_resource_id r; rs_kind := kind; rs_name := name; rs_attributes_json := payload;
             rs_first_seen := rs_first_seen r; rs_last_seen := ts |}))).

Definition dependency_at (src dst relation : string) (r : dependency_row) : bool :=
  (dp_src r =s src) && (dp_dst r =s dst) && (dp_relation r =s relation).
Definition upsert_dependency (src dst relation : string) (attributes : dict) (ts : Q) : IO unit :=
  let payload := dumps Sorted (JObj attributes) in
  exec (set_obs_dependencies (λ l,
    if existsb (dependency_at src dst relation) l
    then update_where (dependency_at src dst relation)
           (λ r, {| dp_src := dp_src r; dp_dst := dp_dst r; dp_relation := dp_relation r;
                    dp_attributes_json := payload; dp_first_seen := dp_first_seen r; dp_last_seen := ts |}) l
    else l ++ [{| dp_src := src; dp_dst := dst; dp_relation := relation; dp_attributes_json := payload;
                  dp_first_seen := ts; dp_last_seen := ts |}])).

Definition load_json (text : string) : result json :=
  match loads text with Some v => Ok v | None => Raise (Exn JSONDecodeError "Expecting value") end.

Definition resource_json (r : resource_row) : IO json :=
  attributes ← lift_result (load_json (rs_attributes_json r));
  mret (JObj [("id", JStr (rs_resource_id r)); ("kind", JStr (rs_kind r)); ("name", JStr (rs_name r));
              ("attributes", attributes)]).
Definition dependency_json (r : dependency_row) : IO json :=
  attributes ← lift_result (load_json (dp_attributes_json r));
  mret (JObj [("src", JStr (dp_src r)); ("dst", JStr (dp_dst r)); ("relation", JStr (dp_relation r));
              ("attributes", attributes)]).

(** [ORDER BY src,dst,relation] *)
Definition dependency_leb (r s : dependency_row) : bool :=
  match String.compare (dp_src r) (dp_src s) with
  | Lt => true
  | Gt => false
  | Eq => match String.compare (dp_dst r) (dp_dst s) with
          | Lt => true
          | Gt => false
          | Eq => String.leb (dp_relation r) (dp_relation s)
          end
  end.

Definition inventory_snapshot : IO dict :=
  resources ← query obs_resources;
  rs ← for_each (order_by (λ r s, String.leb (rs_resource_id r) (rs_resource_id s)) resources) resource_json;
  dependencies ← query obs_dependencies;
  ds ← for_each (order_by dependency_leb dependencies) dependency_json;
  let core := [("resources", JList rs); ("dependencies", JList ds)] in
  mret (core ++ [("sha256", JStr (obs_digest (JObj core)))]).

(** ** Signal processor *)
Definition SEVERITIES : list string := ["debug"; "info"; "warning"; "error"; "critical"].

(** [s or default] on a string *)
Definition str_or (s default : string) : string := if s =s "" then default else s.
(** [d.get(k)] when it is truthy *)
Definition truthy_get (d : dict) (k : string) : option json :=
  match dget d k with Some v => if truthy v then Some v else None | None => None end.

Definition signature_attributes (attributes : dict) : dict :=
  List.filter (λ kv, negb (str_in kv.1 ["value"; "ts"; "timestamp"; "duration_ms"])) attributes.
Definition fingerprint_of (kind subject : string) (attributes : dict) : string :=
  obs_digest (JObj [("kind", JStr kind); ("subject", JStr subject);
                    ("attributes", JObj (signature_attributes attributes))]).

(** [dict(observation.get("attributes") or {})] *)
Definition observation_attributes (observation : dict) : result dict :=
  match truthy_get observation "attributes" with
  | None => Ok []
  | Some (JObj d) => Ok d
  | Some _ => Raise (Exn TypeError "cannot convert to a dictionary")
  end.

Definition observed_kind (observation : dict) : string :=
  str_or (strip (get_str observation "kind" "event")) "event".
Definition observed_subject (sensor_id : string) (observation : dict) : string :=
  str_or (strip (get_str observation "subject" sensor_id)) sensor_id.
Definition observed_severity (observation : dict) : string :=
  let severity := lower (get_str observation "severity" "info") in
  if str_in severity SEVERITIES then severity else "info".
Definition correlation_key_of (kind subject : string) (attributes : dict) : string :=
  match truthy_get attributes "correlation_key" with
  | Some v => py_str v
  | None => match truthy_get attributes "incident_key" with
            | Some v => py_str v
            | None => kind +:+ ":" +:+ subject
            end
  end.

(** The signal an observation becomes. *)
Definition make_signal (sid sensor_id : string) (observation attributes : dict) (when : Q) : Signal :=
  let kind := observed_kind observation in
  let subject := observed_subject sensor_id observation in
  let severity := observed_severity observation in
  {| si_id := sid; si_sensor_id := sensor_id; si_kind := kind; si_subject := subject; si_ts := when;
     si_severity := severity; si_attributes := attributes;
     si_fingerprint := fingerprint_of kind subject attributes;
     si_correlation_key := correlation_key_of kind subject attributes;
     si_raw_sha256 := obs_digest (JObj [("sensor_id", JStr sensor_id); ("kind", JStr kind);
       ("subject", JStr subject); ("severity", JStr severity); ("attributes", JObj attributes)]) |}.

Definition ingest (dedupe_window correlation_window : Q) (sensor_id : string) (observation : dict)
    (ts : option Q) : IO ProcessedSignal :=
  default_ts ← now_or_time ts;
  when ← lift_result (py_float (default (JNum default_ts) (dget observation "ts")));
  attributes ← lift_result (observation_attributes observation);
  let unnamed := make_signal "" sensor_id observation attributes when in
  seen ← recent_fingerprint_count (si_fingerprint unnamed) (when - dedupe_window)%Q;
  let duplicate := (0 <? seen)%Z in
  sid ← uuid4;
  let signal := make_signal sid sensor_id observation attributes when in
  count ← recent_correlation_count (si_correlation_key signal) (when - correlation_window)%Q;
  let processed := {| ps_signal := signal; ps_duplicate := duplicate;
                      ps_correlation_count := count + (if duplicate then 0 else 1) |} in
  _ ← record_signal processed;
  mret processed.

(** ** Anomaly detector *)
Definition qabs (q : Q) : Q := if qlt q 0 then - q else q.
Definition q_sort (l : list Q) : list Q := order_by qle l.

(** [statistics.median] of a non-empty list *)
Definition median (l : list Q) : Q :=
  let s := q_sort l in
  let n := length s in
  if Nat.odd n then nth (n / 2) s 0%Q
  else ((nth (n / 2 - 1) s 0 + nth (n / 2) s 0) / 2)%Q.

Record Anomaly := {
  an_anomaly : bool; an_score : Q; an_baseline : option Q; an_samples : Z; an_value : Q;
}.

Definition list_max (l : list Q) : Q := match l with [] => 0 | x :: r => fold_left py_max r x end.
Definition list_min (l : list Q) : Q := match l with [] => 0 | x :: r => fold_left py_min r x end.

(** The verdict on a value given the history before it. *)
Definition judge (min_samples : Z) (threshold : Q) (history : list Q) (value : Q) : Anomaly :=
  let samples := Z.of_nat (length history) in
  if (samples <? min_samples)%Z
  then {| an_anomaly := false; an_score := 0; an_baseline := None; an_samples := samples; an_value := value |}
  else
    let baseline := median history in
    let mad := median (map (λ v, qabs (v - baseline)) history) in
    if qlt 0 mad
    then let score := (qabs (value - baseline) / ((7413 # 5000) * mad))%Q in
         {| an_anomaly := qle threshold score; an_score := score; an_baseline := Some baseline;
            an_samples := samples; an_value := value |}
    else let spread := (list_max history - list_min history)%Q in
         let epsilon := py_max (py_max (qabs baseline * (1 # 20)) (spread * 2)) (1 # 1000000000) in
         {| an_anomaly := qlt epsilon (qabs (value - baseline));
            an_score := (qabs (value - baseline) / epsilon)%Q; an_baseline := Some baseline;
            an_samples := samples; an_value := value |}.

Definition observe (min_samples : Z) (threshold : Q) (history_limit : Z) (name subject : string)
    (value ts : Q) (labels : dict) : IO Anomaly :=
  history ← metric_values name subject history_limit (Some ts);
  (* [statistics.median] raises on an empty history, possible when min_samples <= 0 *)
  _ ← raise_if (match history with [] => (min_samples <=? 0)%Z | _ => false end) ValueError
        "no median for empty data";
  _ ← record_metric name subject value labels (Some ts);
  mret (judge min_samples threshold history value).

(** ** Dependency graph *)
Definition graph_add (src dst relation : string) (attributes : dict) (ts : option Q) : IO unit :=
  when ← now_or_time ts; upsert_dependency src dst relation attributes when.
Definition downstream (resource_id : string) : IO (list string) :=
  query (λ d, order_by String.leb
    (map dp_src (List.filter (λ r, dp_dst r =s resource_id) (obs_dependencies d)))).
Definition upstream (resource_id : string) : IO (list string) :=
  query (λ d, order_by String.leb
    (map dp_dst (List.filter (λ r, dp_src r =s resource_id) (obs_dependencies d)))).
End observability.
