(* ===== verification/Gateway.v ===== *)
(** immune_gateway: the only door between protected systems and the core.

    contracts.py, protocol.py, runtime_config.py, ingress.py, egress.py,
    adapter_sandbox.py and the request handler of server.py.  The environment, the
    protected-system adapters and the container runner are arguments: their code is
    not part of the gateway. *)

From stdpp Require Import pretty.
From S2P Require Import Prelude Json Base64 Sha256 Schema Files Storage Ledger Tokens Observability.
From S2P Require Import Fortress Providers.

(** ** Contracts *)
Record GatewayObservation := {
  go_system_id : string; go_kind : string; go_subject : string; go_severity : string; go_attributes : dict;
  go_ts : option Q;
}.
Record IngressReceipt := {
  ir_system_id : string; ir_signal_id : string; ir_evidence_id : string; ir_accepted_at : Q;
}.
Record AdapterActionPolicy := {
  ap_required_scope : string; ap_material_change : bool; ap_irreversible : bool; ap_checkpoint_required : bool;
}.
Record EgressRequest := {
  eq_mission_id : string; eq_system_id : string; eq_action : string; eq_parameters : dict;
  eq_checkpoint_id : option string;
}.
Record EgressReceipt := {
  ec_mission_id : string; ec_system_id : string; ec_adapter_id : string; ec_action : string; ec_ok : bool;
  ec_external_reference : option string; ec_evidence_id : string; ec_detail : string;
}.

(** The [ProtectedSystemAdapter] protocol. *)
Record ProtectedSystemAdapter := {
  pa_adapter_id : string;
  pa_system_id : string;
  pa_collect : Q → IO (option GatewayObservation);
  pa_action_policy : string → IO AdapterActionPolicy;
  pa_verify_checkpoint : option string → IO bool;
  pa_recovery_ready : option string → string → IO bool;
  pa_execute : string → dict → Q → IO json;
}.

(** [except GatewayError] *)
Definition gateway_error (c : exn_class) : bool :=
  match c with
  | GatewayAuthenticationError | GatewayAuthorizationError | GatewayProtocolError | GatewayReplayError
  | GatewayAdapterError => true
  | _ => false
  end.

(** ** Protocol *)
Definition ALLOWED_INGRESS_FIELDS : list string := ["kind"; "subject"; "severity"; "attributes"; "ts"].
Definition ALLOWED_SEVERITIES : list string := ["debug"; "info"; "warning"; "error"; "critical"].

Definition body_digest (body : string) : string := sha256_hex body.
Definition signed_material (system_id : string) (timestamp : Z) (nonce body : string) : string :=
  system_id +:+ newline +:+ pretty timestamp +:+ newline +:+ nonce +:+ newline +:+ body_digest body.
Definition external_signature (secret system_id : string) (timestamp : Z) (nonce body : string) : string :=
  hmac_hex secret (signed_material system_id timestamp nonce body).

Definition shape_error {A} (msg : string) : result A := Raise (Exn GatewayProtocolError msg).

(** [for item in items: check(item)], the shared budget threaded through. *)
Definition spend {A} (check : A → nat → result nat) : list A → nat → result nat :=
  fix items (l : list A) (budget : nat) : result nat :=
    match l with
    | [] => Ok budget
    | item :: rest => match check item budget with Raise e => Raise e | Ok budget => items rest budget end
    end.

(** The budget counts the values visited so far. *)
Fixpoint validate_json_shape (depth : nat) (value : json) (budget : nat) : result nat :=
  if Nat.ltb 8 depth then shape_error "external payload exceeds maximum nesting"
  else
    let budget := S budget in
    if Nat.ltb 2048 budget then shape_error "external payload exceeds structural budget"
    else match value with
    | JNull | JBool _ | JInt _ | JNum _ => Ok budget
    | JStr s => if Nat.ltb 16384 (char_count s) then shape_error "external string exceeds sovereign bound" else Ok budget
    | JList l =>
        if Nat.ltb 256 (length l) then shape_error "external list exceeds sovereign bound"
        else spend (validate_json_shape (S depth)) l budget
    | JObj d =>
        if Nat.ltb 256 (length d) then shape_error "external object exceeds sovereign bound"
        else spend (λ p budget, if (p.1 =s "") || Nat.ltb 256 (char_count p.1)
                                then shape_error "external object key is invalid"
                                else validate_json_shape (S depth) p.2 budget) d budget
    end.

Section gateway.
Context `{JsonText, Entropy}.

Definition decode_observation (system_id body : string) : result GatewayObservation :=
  match loads body with
  | None => shape_error "gateway ingress requires UTF-8 JSON"
  | Some (JObj raw) =>
      match unknown_keys ALLOWED_INGRESS_FIELDS raw with
      | (_ :: _) as unknown =>
          shape_error ("external control/unknown fields rejected: " +:+ py_str (JList (map JStr unknown)))
      | [] =>
          let kind := strip (get_str raw "kind" "") in
          let subject := strip (get_str raw "subject" "") in
          let severity := strip (lower (get_str raw "severity" "info")) in
          if (kind =s "") || (subject =s "") || Nat.ltb 160 (char_count kind) || Nat.ltb 256 (char_count subject)
          then shape_error "gateway observation kind/subject is invalid"
          else if negb (str_in severity ALLOWED_SEVERITIES) then shape_error "gateway observation severity is invalid"
          else match default (JObj []) (dget raw "attributes") with
               | JObj attrs =>
                   match validate_json_shape 0 (JObj attrs) 0 with
                   | Raise e => Raise e
                   | Ok _ =>
                       let observation ts :=
                         {| go_system_id := system_id; go_kind := kind; go_subject := subject; go_severity := severity;
                            go_attributes := attrs; go_ts := ts |} in
                       match default JNull (dget raw "ts") with
                       | JNull => Ok (observation None)
                       | v => match py_float v with
                              | Ok ts => Ok (observation (Some ts))
                              | Raise _ => shape_error "gateway observation ts must be numeric"
                              end
                       end
                   end
               | _ => shape_error "gateway observation attributes must be an object"
               end
      end
  | Some _ => shape_error "gateway ingress must be an object"
  end.

(** ** Runtime configuration *)
Record SystemBinding := {
  sb_system_id : string; sb_adapter : string; sb_enabled : bool; sb_ingress : string;
  sb_peer_secret_env : option string; sb_config : dict;
}.
Record GatewayRuntimeConfig := {
  gc_owner_scope : string; gc_bind_host : string; gc_bind_port : Z; gc_max_body_bytes : Z;
  gc_max_clock_skew_seconds : Z; gc_nonce_ttl_seconds : Z; gc_systems : list SystemBinding; gc_source_path : string;
}.

Definition INLINE_SECRETS : list string := ["secret"; "api_key"; "token"; "password"].
Definition has_key (d : dict) (k : string) : bool := if dget d k then true else false.
(** [v == 1] *)
Definition equals_one (v : option json) : bool :=
  match v with
  | Some (JInt z) => Z.eqb z 1
  | Some (JBool b) => b
  | Some (JNum q) => Qeq_bool q 1
  | _ => false
  end.

(** [item.get("peer_secret_env")], stripped and in its name space *)
Definition secret_env_of (item : dict) : result (option string) :=
  match default JNull (dget item "peer_secret_env") with
  | JNull => Ok None
  | v => let s := strip (py_str v) in
         if String.prefix "IMMUNE_GATEWAY_" s then Ok (Some s)
         else shape_error "peer secret env must use IMMUNE_GATEWAY_ namespace"
  end.

(** One turn of the loop over the systems. *)
Definition load_binding (seen : list string) (item : json) : result SystemBinding :=
  match item with
  | JObj item =>
      if existsb (has_key item) INLINE_SECRETS then shape_error "inline system secrets are forbidden"
      else
        let sid := strip (get_str item "id" "") in
        let adapter := strip (get_str item "adapter" "") in
        let ingress := strip (get_str item "ingress" "push-signed") in
        if (sid =s "") || str_in sid seen || (adapter =s "") then shape_error "system id/adapter missing or duplicated"
        else if negb (str_in ingress ["push-signed"; "pull"; "disabled"]) then shape_error "unsupported ingress mode"
        else match secret_env_of item with
             | Raise e => Raise e
             | Ok secret_env =>
                 if (ingress =s "push-signed") && negb (if secret_env then true else false)
                 then shape_error "push-signed system requires peer_secret_env"
                 else match default (JObj []) (dget item "config") with
                      | JObj config => Ok {| sb_system_id := sid; sb_adapter := adapter;
                                             sb_enabled := get_truthy item "enabled" true; sb_ingress := ingress;
                                             sb_peer_secret_env := secret_env; sb_config := config |}
                      | _ => shape_error "system config must be an object"
                      end
             end
  | _ => shape_error "system binding must be an object"
  end.
Fixpoint load_bindings (seen : list string) (items : list json) : result (list SystemBinding) :=
  match items with
  | [] => Ok []
  | item :: rest =>
      match load_binding seen item with
      | Raise e => Raise e
      | Ok b => match load_bindings (sb_system_id b :: seen) rest with Raise e => Raise e | Ok bs => Ok (b :: bs) end
      end
  end.

(** [d.get(k, {})] that must be an object *)
Definition sub_object (d : dict) (k msg : string) : result dict :=
  match default (JObj []) (dget d k) with JObj o => Ok o | _ => shape_error msg end.
(** [int(d.get(k, n))] *)
Definition get_int (d : dict) (k : string) (n : Z) : result Z := py_int (default (JInt n) (dget d k)).

Definition rbind {A B} (r : result A) (k : A → result B) : result B :=
  match r with Ok a => k a | Raise e => Raise e end.

Definition load_config (files : gmap path string) (source : path) : result GatewayRuntimeConfig :=
  match files !! source ≫= loads with
  | None => shape_error "gateway runtime configuration unavailable"
  | Some (JObj raw) =>
      if negb (equals_one (dget raw "schema")) || negb (claim_is raw "owner_scope" "immune-gateway")
      then shape_error "gateway configuration must be schema 1 and owner_scope immune-gateway"
      else if existsb (has_key raw) INLINE_SECRETS then shape_error "inline gateway secrets are forbidden"
      else
        rbind (sub_object raw "bind" "bind must be an object") (λ bind,
        let host := get_str bind "host" "127.0.0.1" in
        rbind (get_int bind "port" 4020) (λ port,
        if negb ((1 <=? port) && (port <=? 65535))%Z then shape_error "gateway bind port outside valid range"
        else
        rbind (sub_object raw "limits" "limits must be an object") (λ limits,
        rbind (get_int limits "max_body_bytes" 65536) (λ max_body,
        rbind (get_int limits "max_clock_skew_seconds" 60) (λ skew,
        rbind (get_int limits "nonce_ttl_seconds" 300) (λ nonce_ttl,
        if negb ((1024 <=? max_body) && (max_body <=? 1048576))%Z || negb ((5 <=? skew) && (skew <=? 300))%Z
           || negb ((30 <=? nonce_ttl) && (nonce_ttl <=? 3600))%Z
        then shape_error "gateway limits outside sovereign bounds"
        else match default (JList []) (dget raw "systems") with
             | JList systems =>
                 rbind (load_bindings [] systems) (λ bindings,
                 Ok {| gc_owner_scope := "immune-gateway"; gc_bind_host := host; gc_bind_port := port;
                       gc_max_body_bytes := max_body; gc_max_clock_skew_seconds := skew;
                       gc_nonce_ttl_seconds := nonce_ttl; gc_systems := bindings; gc_source_path := "/" +:+ posix source |})
             | _ => shape_error "systems must be a list"
             end))))))
  | Some _ => Raise (Exn AttributeError "object has no attribute 'get'")
  end.

Definition binding (config : GatewayRuntimeConfig) (system_id : string) : result SystemBinding :=
  match List.find (λ b, (sb_system_id b =s system_id) && sb_enabled b) (gc_systems config) with
  | Some b => Ok b
  | None => shape_error "system is not registered/enabled at gateway"
  end.

(** [environ]: the process environment *)
Definition peer_secret (environ : string → option string) (config : GatewayRuntimeConfig) (system_id : string)
    : result string :=
  rbind (binding config system_id) (λ b,
  match sb_peer_secret_env b with
  | Some env =>
      if negb (sb_ingress b =s "push-signed") || (env =s "")
      then shape_error "system does not use signed push ingress"
      else let value := default "" (environ env) in
           if Nat.ltb (String.length value) 32
           then shape_error ("missing/weak peer secret environment: " +:+ env)
           else Ok value
  | None => shape_error "system does not use signed push ingress"
  end).

Definition public_status (environ : string → option string) (config : GatewayRuntimeConfig) : dict :=
  [("owner_scope", JStr (gc_owner_scope config));
   ("bind", JObj [("host", JStr (gc_bind_host config)); ("port", JInt (gc_bind_port config))]);
   ("systems", JList (map (λ b, JObj
      [("id", JStr (sb_system_id b)); ("adapter", JStr (sb_adapter b)); ("enabled", JBool (sb_enabled b));
       ("ingress", JStr (sb_ingress b));
       ("credential_present", JBool match sb_peer_secret_env b with
                                    | Some env => negb (env =s "") && negb (default "" (environ env) =s "")
                                    | None => false
                                    end)]) (gc_systems config)));
   ("source_path", JStr (gc_source_path config))].

(** ** Ingress *)
Section ingress.
Context (environ : string → option string) (config : GatewayRuntimeConfig)
  (adapters : gmap string ProtectedSystemAdapter).

Definition nonce_at (system_id nonce : string) (r : nonce_row) : bool :=
  (gn_system_id r =s system_id) && (gn_nonce r =s nonce).

Definition claim_nonce (system_id nonce : string) (now : Q) : IO unit :=
  _ ← raise_if (Nat.ltb (char_count nonce) 16 || Nat.ltb 128 (char_count nonce) || has_space nonce)
        GatewayAuthenticationError "invalid gateway nonce";
  _ ← exec (set_gateway_nonces (List.filter (λ r, qlt now (gn_expires_at r))));
  rows ← query gateway_nonces;
  _ ← raise_if (existsb (nonce_at system_id nonce) rows) GatewayReplayError "replayed gateway nonce";
  exec (set_gateway_nonces (λ l, l ++ [{| gn_system_id := system_id; gn_nonce := nonce; gn_accepted_at := now;
          gn_expires_at := now + inject_Z (gc_nonce_ttl_seconds config) |}])).

(** [verify_signature] with the nonce claimed by [claim]: the claim is its only statement of SQL. *)
Definition verify_signature_with (claim : string → string → Q → IO unit) (system_id body : string) (timestamp : Z)
    (nonce signature : string) (now : option Q) : IO unit :=
  current ← now_or_time now;
  b ← lift_result (binding config system_id);
  _ ← raise_if (negb (sb_ingress b =s "push-signed")) GatewayAuthenticationError
        "system does not accept external push ingress";
  _ ← raise_if (qlt (inject_Z (gc_max_clock_skew_seconds config)) (qabs (current - inject_Z timestamp)))
        GatewayAuthenticationError "gateway timestamp outside allowed skew";
  _ ← raise_if (gc_max_body_bytes config <? Z.of_nat (String.length body))%Z GatewayProtocolError
        "gateway body exceeds configured limit";
  secret ← lift_result (peer_secret environ config system_id);
  ok ← lift_result (compare_digest (external_signature secret system_id timestamp nonce body) (lower signature));
  _ ← raise_if (negb ok) GatewayAuthenticationError "invalid gateway signature";
  claim system_id nonce current.
Definition verify_signature (system_id body : string) (timestamp : Z) (nonce signature : string) (now : option Q)
    : IO unit :=
  verify_signature_with claim_nonce system_id body timestamp nonce signature now.

(** [d.setdefault(k, v)] *)
Definition dsetdefault (d : dict) (k : string) (v : json) : dict := if dget d k then d else dset d k v.

Definition marked_attributes (o : GatewayObservation) (source : string) : dict :=
  dsetdefault
    (dset (dset (dset (go_attributes o) "trust" (JStr "UNTRUSTED_EXTERNAL_DATA"))
             "source_system_id" (JStr (go_system_id o))) "gateway_source" (JStr source))
    "correlation_key" (JStr ("gateway:" +:+ go_system_id o +:+ ":" +:+ go_subject o)).

Definition accept (o : GatewayObservation) (source : string) (now : option Q) : IO IngressReceipt :=
  b ← lift_result (binding config (go_system_id o));
  _ ← raise_if (sb_ingress b =s "disabled") GatewayAuthorizationError "gateway ingress disabled for system";
  accepted ← now_or_time now;
  let event_ts := default accepted (go_ts o) in
  processed ← ingest 60 300 ("gateway:" +:+ go_system_id o)
    [("ts", JNum event_ts); ("kind", JStr (go_kind o)); ("subject", JStr (go_subject o));
     ("severity", JStr (go_severity o)); ("attributes", JObj (marked_attributes o source))] (Some event_ts);
  ev ← evidence true "gateway_external_observation"
    [("system_id", JStr (go_system_id o)); ("signal_id", JStr (si_id (ps_signal processed)));
     ("kind", JStr (go_kind o)); ("subject", JStr (go_subject o)); ("trust", JStr "UNTRUSTED_EXTERNAL_DATA");
     ("source", JStr source)] None (Some accepted);
  _ ← audit "immune-gateway" "gateway_ingress_accepted" None
        [("system_id", JStr (go_system_id o)); ("signal_id", JStr (si_id (ps_signal processed)));
         ("evidence_id", JStr (er_id ev)); ("source", JStr source)] (Some accepted);
  mret {| ir_system_id := go_system_id o; ir_signal_id := si_id (ps_signal processed); ir_evidence_id := er_id ev;
          ir_accepted_at := accepted |}.

Definition ingest_signed (system_id body : string) (timestamp : Z) (nonce signature : string) (now : option Q)
    : IO IngressReceipt :=
  _ ← verify_signature system_id body timestamp nonce signature now;
  o ← lift_result (decode_observation system_id body);
  accept o "signed-push" now.

Definition collect_once (system_id : string) (timeout : Q) (now : option Q) : IO (option IngressReceipt) :=
  b ← lift_result (binding config system_id);
  _ ← raise_if (negb (sb_ingress b =s "pull")) GatewayProtocolError "system is not configured for pull collection";
  match adapters !! system_id with
  | None => throw GatewayProtocolError "gateway pull adapter unavailable"
  | Some adapter =>
      observation ← pa_collect adapter timeout;
      match observation with
      | None => mret None
      | Some o =>
          _ ← raise_if (negb (go_system_id o =s system_id)) GatewayProtocolError
                "adapter returned observation for another system";
          receipt ← accept o ("adapter:" +:+ pa_adapter_id adapter) now;
          mret (Some receipt)
      end
  end.

(** ** The HTTP handler *)
Record http_request := {
  hq_path : string; hq_content_length : option string; hq_timestamp : option string; hq_nonce : option string;
  hq_signature : option string; hq_stream : string;
}.
Record http_response := { hr_status : Z; hr_payload : dict }.
Definition respond (status : Z) (payload : dict) : http_response := {| hr_status := status; hr_payload := payload |}.

(** [s.strip("/")] *)
Fixpoint lstrip_slash (s : string) : string :=
  match s with String c s' => if Ascii.eqb c "/" then lstrip_slash s' else s | EmptyString => EmptyString end.
Fixpoint rstrip_slash (s : string) : string :=
  match s with
  | EmptyString => EmptyString
  | String c s' => match rstrip_slash s' with
                   | EmptyString => if Ascii.eqb c "/" then EmptyString else String c EmptyString
                   | s'' => String c s''
                   end
  end.

(** [int(text)] *)
Definition int_header (text : string) : result Z := py_int (JStr text).

Definition do_GET (path : string) : http_response :=
  if path =s "/health" then respond 200 [("ok", JBool true); ("service", JStr "immune-gateway")]
  else respond 404 [("error", JStr "not_found")].
(** [do_PUT], [do_DELETE], [do_PATCH] *)
Definition do_other : http_response := respond 405 [("error", JStr "method_not_allowed")].

(** [do_POST] with the observation taken by [take]. *)
Definition do_POST_with (take : string → string → Z → string → string → IO IngressReceipt) (q : http_request)
    : IO http_response :=
  match removeprefix_go "/v1/telemetry/" (hq_path q) with
  | None => mret (respond 404 [("error", JStr "not_found")])
  | Some rest =>
      let system_id := lstrip_slash (rstrip_slash rest) in
      match int_header (default "0" (hq_content_length q)) with
      | Raise _ => mret (respond 400 [("error", JStr "bad_length")])
      | Ok length =>
          if ((length <? 1) || (gc_max_body_bytes config <? length))%Z
          then mret (respond 413 [("error", JStr "body_limit")])
          else catch
            (timestamp ← lift_result (int_header (default "" (hq_timestamp q)));
             receipt ← take system_id (String.substring 0 (Z.to_nat length) (hq_stream q)) timestamp
                         (default "" (hq_nonce q)) (default "" (hq_signature q));
             mret (respond 202 [("accepted", JBool true); ("signal_id", JStr (ir_signal_id receipt));
                                ("evidence_id", JStr (ir_evidence_id receipt))]))
            (λ e, match exn_cls e with
                  | ValueError | JSONDecodeError =>
                      mret (respond 403 [("accepted", JBool false); ("error", JStr (class_name (exn_cls e)))])
                  | c => if gateway_error c
                         then mret (respond 403 [("accepted", JBool false); ("error", JStr (class_name c))])
                         else reraise e
                  end)
      end
  end.
Definition do_POST (q : http_request) : IO http_response :=
  do_POST_with (λ system_id body timestamp nonce signature, ingest_signed system_id body timestamp nonce signature None) q.
End ingress.

(** ** Egress *)
Definition EGRESS_MISSION_STATES : list string := ["AUTHORIZED"; "DISCOVERING"; "RUNNING"; "DEGRADED"; "VALIDATING"].

Section egress.
Context (identity : IdentityAuthority) (capability_secret capability_issuer : string)
  (config : GatewayRuntimeConfig) (adapters : gmap string ProtectedSystemAdapter).

(** [except c as exc: raise GatewayAuthorizationError(f"{prefix}{exc}")] *)
Definition deny_on {A} (c : exn_class) (prefix : string) (m : IO A) : IO A :=
  catch m (λ e, if bool_decide (exn_cls e = c) then throw GatewayAuthorizationError (prefix +:+ exn_msg e) else reraise e).

(** The checks of [execute], up to the call of the adapter. *)
Definition egress_authorize (request : EgressRequest) (internal_token capability_token : string) (now : option Z)
    : IO (Principal * ProtectedSystemAdapter * string) :=
  principal ← deny_on IdentityError "invalid internal gateway identity: "
                (ia_verify identity internal_token (Some "gateway:egress") now);
  mission ← get_mission (eq_mission_id request);
  match mission with
  | None => throw GatewayAuthorizationError "egress mission is not active"
  | Some m =>
      _ ← raise_if (negb (str_in (m_state m) EGRESS_MISSION_STATES)) GatewayAuthorizationError
            "egress mission is not active";
      _ ← raise_if (negb (m_system_id m =s eq_system_id request)) GatewayAuthorizationError
            "egress target differs from mission protected system";
      b ← lift_result (binding config (eq_system_id request));
      match adapters !! eq_system_id request with
      | None => throw GatewayProtocolError "protected-system adapter unavailable or mismatched"
      | Some adapter =>
          _ ← raise_if (negb (pa_system_id adapter =s eq_system_id request)
                        || negb (pa_adapter_id adapter =s sb_adapter b)) GatewayProtocolError
                "protected-system adapter unavailable or mismatched";
          policy ← catch (pa_action_policy adapter (eq_action request))
                     (λ _, throw GatewayAuthorizationError "adapter action is not registered");
          _ ← raise_if (ap_required_scope policy =s "") GatewayAuthorizationError
                "adapter action lacks required scope";
          checkpoint_valid ← pa_verify_checkpoint adapter (eq_checkpoint_id request);
          _ ← raise_if ((ap_checkpoint_required policy || ap_material_change policy) && negb checkpoint_valid)
                GatewayAuthorizationError "adapter checkpoint verification failed";
          ready ← (if ap_irreversible policy
                   then pa_recovery_ready adapter (eq_checkpoint_id request) (eq_action request) else mret true);
          _ ← raise_if (negb ready) GatewayAuthorizationError "adapter recovery verification failed";
          capability_id ← deny_on CapabilityError "invalid action capability: "
            (capability_consume capability_secret capability_issuer capability_token (eq_mission_id request)
               (eq_system_id request) (eq_action request) (eq_parameters request) (eq_checkpoint_id request) now);
          mret (principal, adapter, capability_id)
      end
  end.

Definition external_reference (result : dict) : option string :=
  match default JNull (dget result "external_reference") with JNull => None | v => Some (py_str v) end.

(** The rest of [execute]: the call, its evidence, the receipt and the ledger entry. *)
Definition egress_perform (request : EgressRequest) (principal : Principal) (adapter : ProtectedSystemAdapter)
    (capability_id : string) (timeout : Q) (now : option Z) : IO EgressReceipt :=
  started ← now_or_time (float_now now);
  answer ← pa_execute adapter (eq_action request) (eq_parameters request) timeout;
  match answer with
  | JObj result =>
      let ok := get_truthy result "ok" false in
      let reference := external_reference result in
      let detail := char_take 2048 (get_str result "detail" "") in
      ev ← evidence true "gateway_egress_result"
        [("system_id", JStr (eq_system_id request)); ("adapter_id", JStr (pa_adapter_id adapter));
         ("action", JStr (eq_action request)); ("ok", JBool ok); ("external_reference", jopt_str reference);
         ("principal", JStr (pr_subject principal)); ("capability_id", JStr capability_id);
         ("checkpoint_id", jopt_str (eq_checkpoint_id request))] (Some (eq_mission_id request)) (Some started);
      rows ← query gateway_egress_receipts;
      _ ← raise_if (row_exists ge_evidence_id (er_id ev) rows) IntegrityError
            "UNIQUE constraint failed: gateway_egress_receipts.evidence_id";
      _ ← exec (set_gateway_egress_receipts (λ l, l ++ [{| ge_evidence_id := er_id ev;
            ge_mission_id := eq_mission_id request; ge_system_id := eq_system_id request;
            ge_adapter_id := pa_adapter_id adapter; ge_action := eq_action request; ge_ok := ok;
            ge_external_reference := reference; ge_detail := detail; ge_created_at := started |}]));
      _ ← audit (pr_subject principal) "gateway_egress_completed" (Some (eq_mission_id request))
            [("system_id", JStr (eq_system_id request)); ("adapter_id", JStr (pa_adapter_id adapter));
             ("action", JStr (eq_action request)); ("ok", JBool ok); ("evidence_id", JStr (er_id ev));
             ("capability_id", JStr capability_id)] (Some started);
      mret {| ec_mission_id := eq_mission_id request; ec_system_id := eq_system_id request;
              ec_adapter_id := pa_adapter_id adapter; ec_action := eq_action request; ec_ok := ok;
              ec_external_reference := reference; ec_evidence_id := er_id ev; ec_detail := detail |}
  | _ => throw GatewayProtocolError "adapter egress result must be an object"
  end.

Definition egress_execute (request : EgressRequest) (internal_token capability_token : string) (timeout : Q)
    (now : option Z) : IO EgressReceipt :=
  authorized ← egress_authorize request internal_token capability_token now;
  let '(principal, adapter, capability_id) := authorized in
  egress_perform request principal adapter capability_id timeout now.
End egress.

(** ** Disposable adapters *)

(** [ContainerSandboxRunner], as the sandbox calls it. *)
Record SandboxRunner := {
  sr_image_sha256 : string → Q → IO string;
  sr_run_json_probe : string → list string → list (string * string) → Q → IO dict;
}.

(** [DisposableAdapterSandbox.__init__] *)
Definition adapter_sandbox (secret signer : string) (s : SignedAdapterManifest) : result SignedAdapterManifest :=
  rbind (am_verify secret signer s) (λ _, Ok s).

(** [except SandboxIsolationError as exc: raise AdapterSandboxError(...)] *)
Definition contained {A} (prefix : string) (m : IO A) : IO A :=
  catch m (λ e, if bool_decide (exn_cls e = SandboxIsolationError)
                then throw AdapterSandboxError (prefix +:+ exn_msg e) else reraise e).

Definition run_json_probe (runner : SandboxRunner) (s : SignedAdapterManifest) (action image_ref : string)
    (command : list string) (env : list (string * string)) (timeout : Q) : IO dict :=
  let action := strip action in
  _ ← raise_if (negb (str_in action (am_capabilities (sm_manifest s)))) AdapterSandboxError
        "adapter action outside signed manifest capability allowlist";
  actual ← contained "adapter image attestation failed: " (sr_image_sha256 runner image_ref timeout);
  let expected := removeprefix "sha256:" (lower (am_image_sha256 (sm_manifest s))) in
  _ ← raise_if (negb (actual =s expected)) AdapterSandboxError "adapter runtime image differs from signed manifest";
  contained "adapter sandbox containment failed: " (sr_run_json_probe runner image_ref command env timeout).
End gateway.
