(* ===== verification/GatewayProps.v ===== *)
(** The gateway lets data in and no authority: what it accepts is bounded, signed
    and fresh; what it sends out was authorised and is recorded. *)

From stdpp Require Import pretty.
From S2P Require Import Prelude Json Base64 Sha256 Schema Files Storage Ledger LedgerProps Tokens TokenProps.
From S2P Require Import Observability Fortress FortressProps Providers PolicyProps Gateway.

(** ** The shape of external data *)

(** The number of values in a JSON value, its depth, and whether every string,
    list, object and key in it is of an allowed size. *)
Definition sum_over {A} (n : A → nat) (l : list A) : nat := foldr (λ x acc, n x + acc) 0 l.
Definition max_over {A} (n : A → nat) (l : list A) : nat := foldr (λ x acc, Nat.max (n x) acc) 0 l.
Fixpoint json_nodes (v : json) : nat :=
  match v with
  | JList l => S (sum_over json_nodes l)
  | JObj d => S (sum_over (λ p, json_nodes p.2) d)
  | _ => 1
  end.
Fixpoint json_depth (v : json) : nat :=
  match v with
  | JList l => max_over (λ x, S (json_depth x)) l
  | JObj d => max_over (λ p, S (json_depth p.2)) d
  | _ => 0
  end.
Definition key_bounded (k : string) : bool := negb (k =s "") && Nat.leb (char_count k) 256.
Fixpoint json_bounded (v : json) : bool :=
  match v with
  | JStr s => Nat.leb (char_count s) 16384
  | JList l => Nat.leb (length l) 256 && forallb json_bounded l
  | JObj d => Nat.leb (length d) 256 && forallb (λ p, key_bounded p.1 && json_bounded p.2) d
  | _ => true
  end.

(** A value at some depth fits the budget that is left. *)
Definition shape_ok (depth budget : nat) (v : json) : Prop :=
  depth + json_depth v ≤ 8 ∧ budget + json_nodes v ≤ 2048 ∧ json_bounded v = true.

Lemma ltb_leb n m : Nat.ltb n m = negb (Nat.leb m n).
Proof. destruct (Nat.ltb_spec n m), (Nat.leb_spec m n); simpl; lia || done. Qed.
Lemma key_test k : (k =s "") || Nat.ltb 256 (char_count k) = negb (key_bounded k).
Proof. unfold key_bounded. rewrite ltb_leb. by destruct (k =s ""), (Nat.leb _ _). Qed.

(** A loop over items each of which needs [n] of the budget and satisfies [P]. *)
Lemma spend_iff {A} (check : A → nat → result nat) (P : A → Prop) (n : A → nat) l :
  Forall (λ x, ∀ b u, check x b = Ok u ↔ P x ∧ b + n x ≤ 2048 ∧ u = b + n x) l →
  ∀ b u, b ≤ 2048 → spend check l b = Ok u ↔ Forall P l ∧ b + sum_over n l ≤ 2048 ∧ u = b + sum_over n l.
Proof.
  induction 1 as [|x l Hx _ IH]; intros b u Hb; cbn [spend sum_over foldr].
  { rewrite Nat.add_0_r. split; [by intros [= <-] | by intros (_ & _ & ->)]. }
  fold (sum_over n l). rewrite Forall_cons. destruct (check x b) as [b1|e] eqn:Ec.
  - apply Hx in Ec as (Hp & Hn & ->). fold (spend check). rewrite IH by done. rewrite !Nat.add_assoc. tauto.
  - split; [done|]. intros ([Hp _] & Hn & _). assert (check x b = Ok (b + n x)) by (apply Hx; split_and!; [done|lia|done]).
    congruence.
Qed.
Lemma Forall_max_over {A} (n : A → nat) (P : A → bool) depth l :
  depth ≤ 8 →
  Forall (λ x, depth + n x ≤ 8 ∧ P x = true) l ↔ depth + max_over n l ≤ 8 ∧ forallb P l = true.
Proof.
  intros Hd. induction l as [|x l IH]; cbn [max_over foldr forallb].
  - rewrite Nat.add_0_r. split; [done | by constructor].
  - rewrite Forall_cons, IH, andb_true_iff. fold (max_over n l). split; [intros ([] & ? & ?)|intros (? & ? & ?)]; split_and!; lia || done.
Qed.

Lemma validate_shape_iff v : ∀ depth budget used,
  validate_json_shape depth v budget = Ok used ↔ shape_ok depth budget v ∧ used = budget + json_nodes v.
Proof.
  unfold shape_ok.
  induction v as [|b|z|q|s|l IH|d IH] using json_ind'; intros depth budget used; cbn [validate_json_shape];
    unfold shape_error; rewrite !ltb_leb;
    (destruct (Nat.leb_spec depth 8) as [Hd|]; cbn [negb]; [|split; [done | cbn [json_nodes]; lia]]);
    (destruct (Nat.leb_spec (S budget) 2048) as [Hb|]; cbn [negb]; [|split; [done | cbn [json_nodes]; lia]]);
    cbn [json_depth json_nodes json_bounded].
  1-4: split; [intros [= <-]; split_and!; lia || done | intros [_ ->]; f_equal; lia].
  - destruct (Nat.leb (char_count s) 16384); cbn [negb]; [|naive_solver].
    split; [intros [= <-]; split_and!; lia || done | intros [_ ->]; f_equal; lia].
  - destruct (Nat.leb (length l) 256); cbn [negb andb]; [|naive_solver].
    rewrite (spend_iff _ (λ x, depth + S (json_depth x) ≤ 8 ∧ json_bounded x = true) json_nodes); [|
      eapply Forall_impl; [exact IH|]; intros x Hx b u; cbn beta in Hx |- *; rewrite Hx, Nat.add_succ_comm; tauto | done].
    rewrite Forall_max_over by done. rewrite !Nat.add_succ_r. cbn [Nat.add]. tauto.
  - destruct (Nat.leb (length d) 256); cbn [negb andb]; [|naive_solver].
    rewrite (spend_iff _ (λ p, depth + S (json_depth p.2) ≤ 8 ∧ key_bounded p.1 && json_bounded p.2 = true)
               (λ p, json_nodes p.2)); [| |done].
    + rewrite (Forall_max_over (λ p : string * json, S (json_depth p.2)) (λ p, key_bounded p.1 && json_bounded p.2)) by done.
      rewrite !Nat.add_succ_r. cbn [Nat.add]. tauto.
    + eapply Forall_impl; [exact IH|]. intros p Hp b u. cbn beta in Hp |- *. rewrite key_test.
      destruct (key_bounded p.1); cbn [negb andb]; [rewrite Hp, Nat.add_succ_comm; tauto | naive_solver].
Qed.

(** C20. The structural check of external data is exact: [validate_json_shape]
    accepts a value exactly when it is nested at most 8 deep, holds at most 2048
    values, and every string, list, object and key in it is within its bound; and
    then the budget spent is the number of values. *)
Theorem validate_json_shape_exact v used :
  validate_json_shape 0 v 0 = Ok used
  ↔ json_depth v ≤ 8 ∧ json_nodes v ≤ 2048 ∧ json_bounded v = true ∧ used = json_nodes v.
Proof. rewrite validate_shape_iff. unfold shape_ok. cbn [Nat.add]. tauto. Qed.

Section gateway_props.
Context `{JsonText, Entropy}.
Context (environ : string → option string) (config : GatewayRuntimeConfig)
  (adapters : gmap string ProtectedSystemAdapter).

(** ** Signatures and nonces *)

(** What the gateway checks of a signed message at time [t], nonces apart. *)
Record message_ok (sid body : string) (ts : Z) (nonce sig : string) (t : Q) (secret : string) : Prop := {
  mo_binding : ∃ b, binding config sid = Ok b ∧ sb_ingress b = "push-signed";
  mo_secret : peer_secret environ config sid = Ok secret;
  mo_skew : (qabs (t - inject_Z ts) <= inject_Z (gc_max_clock_skew_seconds config))%Q;
  mo_size : (Z.of_nat (String.length body) <= gc_max_body_bytes config)%Z;
  mo_signature : lower sig = external_signature secret sid ts nonce body;
  mo_nonce : 16 ≤ char_count nonce ≤ 128 ∧ has_space nonce = false;
}.

Definition live_nonces (t : Q) (d : DB) : list nonce_row := List.filter (λ r, qlt t (gn_expires_at r)) (gateway_nonces d).
Definition claimed (sid nonce : string) (t : Q) : nonce_row :=
  {| gn_system_id := sid; gn_nonce := nonce; gn_accepted_at := t;
     gn_expires_at := t + inject_Z (gc_nonce_ttl_seconds config) |}.

Lemma claim_nonce_run sid nonce t w r w' :
  claim_nonce config sid nonce t w = (r, w') →
  (gateway_nonces (w_db w') = gateway_nonces (w_db w) ∧ r ≠ Ok tt)
  ∨ (gateway_nonces (w_db w') = live_nonces t (w_db w) ∧ r ≠ Ok tt)
  ∨ (r = Ok tt ∧ 16 ≤ char_count nonce ≤ 128 ∧ has_space nonce = false
     ∧ existsb (nonce_at sid nonce) (live_nonces t (w_db w)) = false
     ∧ gateway_nonces (w_db w') = live_nonces t (w_db w) ++ [claimed sid nonce t]).
Proof.
  unfold claim_nonce, raise_if. destruct (_ || _ || _) eqn:En; [intros [= <- <-]; left; by split|].
  unfold exec, query, mbind, M_bind, modify, gets, mret, M_ret. cbn.
  fold (live_nonces t (w_db w)). destruct (existsb _ _) eqn:Ex; intros [= <- <-]; right; [left; by split|right].
  rewrite !orb_false_iff, !Nat.ltb_ge in En. by destruct En as [[? ?] ?].
Qed.

Lemma verify_signature_Ok sid body ts nonce sig t w w' :
  verify_signature environ config sid body ts nonce sig (Some t) w = (Ok tt, w') →
  (∃ secret, message_ok sid body ts nonce sig t secret)
  ∧ existsb (nonce_at sid nonce) (live_nonces t (w_db w)) = false
  ∧ gateway_nonces (w_db w') = live_nonces t (w_db w) ++ [claimed sid nonce t].
Proof.
  unfold verify_signature, verify_signature_with, now_or_time. rewrite bind_ret_run. intros Hr.
  apply bind_Ok_inv in Hr as (b & w1 & [Hb ->]%lift_Ok_inv & Hr).
  apply bind_Ok_inv in Hr as (? & ? & [Hi%negb_false_iff%String.eqb_eq ->]%raise_if_Ok_inv & Hr).
  apply bind_Ok_inv in Hr as (? & ? & [Hs%qlt_false ->]%raise_if_Ok_inv & Hr).
  apply bind_Ok_inv in Hr as (? & ? & [Hl%Z.ltb_ge ->]%raise_if_Ok_inv & Hr).
  apply bind_Ok_inv in Hr as (secret & ? & [Hp ->]%lift_Ok_inv & Hr).
  apply bind_Ok_inv in Hr as (ok & ? & [Hc ->]%lift_Ok_inv & Hr).
  apply bind_Ok_inv in Hr as (? & ? & [->%negb_false_iff ->]%raise_if_Ok_inv & Hr).
  apply compare_digest_true in Hc. apply claim_nonce_run in Hr as [[_ ?]|[[_ ?]|(_ & ? & ? & ? & ?)]]; [done..|].
  split_and!; try done. exists secret. split; try done. by exists b.
Qed.

Lemma verify_signature_accepts sid body ts nonce sig t w secret :
  message_ok sid body ts nonce sig t secret →
  existsb (nonce_at sid nonce) (live_nonces t (w_db w)) = false →
  ∃ w', verify_signature environ config sid body ts nonce sig (Some t) w = (Ok tt, w').
Proof.
  intros [(b & Hb & Hi) Hp Hs Hl Hsig [[Hn1 Hn2] Hsp]] Hfresh. unfold verify_signature, verify_signature_with, now_or_time. rewrite bind_ret_run, Hb, bind_lift_Ok.
  rewrite Hi. cbn [String.eqb Ascii.eqb Bool.eqb negb]. rewrite bind_raise_if_run by done.
  rewrite bind_raise_if_run by (by apply qlt_false). rewrite bind_raise_if_run by (by apply Z.ltb_ge).
  rewrite Hp, bind_lift_Ok, Hsig. unfold external_signature, hmac_hex. rewrite compare_digest_refl.
  rewrite bind_lift_Ok, bind_raise_if_run by done. unfold claim_nonce.
  rewrite bind_raise_if_run by (rewrite !orb_false_iff, !Nat.ltb_ge; done).
  unfold exec, query, mbind, M_bind, modify, gets, raise_if. cbn. fold (live_nonces t (w_db w)). rewrite Hfresh. by eexists.
Qed.

(** ** Replays *)

(** What may happen between two messages up to time [until]: other signed messages
    at some time before, and anything that leaves the nonces alone. *)
Inductive ingress_step (until : Q) : World → World → Prop :=
| other_message sid body ts nonce sig t w : (t <= until)%Q →
    ingress_step until w (snd (ingest_signed environ config sid body ts nonce sig (Some t) w))
| nonces_kept w w' : gateway_nonces (w_db w') = gateway_nonces (w_db w) → ingress_step until w w'.

(** Nonces that outlive [until] stay. *)
Definition live_kept (until : Q) : relation DB := λ d d',
  ∀ r, r ∈ gateway_nonces d → (until < gn_expires_at r)%Q → r ∈ gateway_nonces d'.
#[export] Instance live_kept_preorder until : PreOrder (live_kept until).
Proof. split; [by intros d r|]. intros x y z H1 H2 r Hr Hu. auto. Qed.

Lemma live_kept_frame until (d d' : DB) : gateway_nonces d' = gateway_nonces d → live_kept until d d'.
Proof. intros E r. by rewrite E. Qed.
Lemma audit_live until actor action mid payload now :
  respects (on_db (live_kept until)) (audit actor action mid payload now).
Proof. apply audit_frame; [typeclasses eauto|]. intros f g d. by apply live_kept_frame. Qed.
Lemma accept_live until o source now : respects (on_db (live_kept until)) (accept config o source now).
Proof.
  pose proof (audit_live until). pose proof (live_kept_frame until).
  unfold accept, ingest, recent_fingerprint_count, recent_correlation_count, record_signal, evidence. io_respects.
Qed.
Lemma claim_nonce_live until sid nonce t :
  (t <= until)%Q → respects (on_db (live_kept until)) (claim_nonce config sid nonce t).
Proof.
  intros Ht w. destruct (claim_nonce config sid nonce t w) as [r w'] eqn:E. unfold on_db, live_kept. simpl.
  assert (∀ x, x ∈ gateway_nonces (w_db w) → (until < gn_expires_at x)%Q → x ∈ live_nonces t (w_db w)) as Hl.
  { intros x Hx Hu. apply list_elem_of_In, filter_In. split; [by apply list_elem_of_In|]. apply qlt_true. lra. }
  apply claim_nonce_run in E as [[-> _]|[[-> _]|(_ & _ & _ & _ & ->)]]; auto. set_solver.
Qed.
Lemma verify_signature_live until sid body ts nonce sig t :
  (t <= until)%Q → respects (on_db (live_kept until)) (verify_signature environ config sid body ts nonce sig (Some t)).
Proof.
  intros Ht. pose proof (claim_nonce_live until sid nonce t Ht). unfold verify_signature, verify_signature_with, now_or_time.
  match goal with |- respects ?R (mbind ?k (mret ?a)) => change (respects R (k a)); cbn beta end. io_respects.
Qed.
Lemma ingress_steps_live until w w' : rtc (ingress_step until) w w' → live_kept until (w_db w) (w_db w').
Proof.
  induction 1 as [w|w w1 w2 [sid body ts nonce sig t w' Ht|w' w'' E] _ IH]; [reflexivity|etrans; [|exact IH]..].
  - pose proof (verify_signature_live until sid body ts nonce sig t Ht). pose proof (accept_live until).
    apply (respects_db _ (ingest_signed environ config sid body ts nonce sig (Some t))). unfold ingest_signed. io_respects.
  - by apply live_kept_frame.
Qed.

Lemma skew_bounds a b c : (qabs (a - b) <= c)%Q → (a <= b + c)%Q ∧ (b <= a + c)%Q.
Proof.
  unfold qabs. destruct (qlt (a - b) 0) eqn:E; [apply qlt_true in E|apply qlt_false in E]; intros Hq; split; lra.
Qed.

(** C21. A signed message is accepted once: when nonces live more than twice the
    allowed clock skew, a message that was accepted is never accepted again, at any
    time and after any other messages up to then, for every body and signature sent
    under its system, timestamp and nonce. *)
Theorem no_replay sid body ts nonce sig t w w1 w2 body' sig' t' r w3
    (Hconfig : (2 * gc_max_clock_skew_seconds config < gc_nonce_ttl_seconds config)%Z)
    (Hfirst : verify_signature environ config sid body ts nonce sig (Some t) w = (Ok tt, w1))
    (Hlater : rtc (ingress_step t') w1 w2)
    (Hagain : verify_signature environ config sid body' ts nonce sig' (Some t') w2 = (r, w3)) :
  ∃ e, r = Raise e.
Proof.
  destruct r as [[]|e]; [exfalso|by exists e].
  apply verify_signature_Ok in Hfirst as ((s1 & [_ _ Hs1 _ _ _]) & _ & Hn1).
  apply verify_signature_Ok in Hagain as ((s2 & [_ _ Hs2 _ _ _]) & Hfresh & _).
  apply skew_bounds in Hs1 as [_ Hb1], Hs2 as [Hb2 _].
  assert (t' < gn_expires_at (claimed sid nonce t))%Q as Hlive.
  { cbn [claimed gn_expires_at]. rewrite Zlt_Qlt, inject_Z_mult in Hconfig. change (inject_Z 2) with 2%Q in Hconfig. lra. }
  assert (claimed sid nonce t ∈ live_nonces t' (w_db w2)) as Hin.
  { apply list_elem_of_In, filter_In. split; [|by apply qlt_true]. apply list_elem_of_In.
    apply (ingress_steps_live _ _ _ Hlater); [rewrite Hn1; set_solver | done]. }
  apply not_true_iff_false in Hfresh. apply Hfresh, existsb_exists. exists (claimed sid nonce t).
  split; [by apply list_elem_of_In|]. unfold nonce_at. cbn. by rewrite !String.eqb_refl.
Qed.

(** The bounds of the configuration do not ensure that: when nonces live no
    longer than twice the skew, which the loader accepts, every message the gateway
    accepts at the early end of its window is accepted a second time at the late
    end. *)
Theorem replay_window_open sid body ts nonce sig w w1
    (Hconfig : (gc_nonce_ttl_seconds config <= 2 * gc_max_clock_skew_seconds config)%Z)
    (Hfirst : verify_signature environ config sid body ts nonce sig
                (Some (inject_Z ts - inject_Z (gc_max_clock_skew_seconds config))%Q) w = (Ok tt, w1)) :
  ∃ w2, verify_signature environ config sid body ts nonce sig
          (Some (inject_Z ts + inject_Z (gc_max_clock_skew_seconds config))%Q) w1 = (Ok tt, w2).
Proof.
  rewrite Zle_Qle, inject_Z_mult in Hconfig. change (inject_Z 2) with 2%Q in Hconfig.
  apply verify_signature_Ok in Hfirst as ((secret & [Hb Hp Hs Hl Hsig Hnonce]) & Hfresh & Hn).
  pose proof (skew_bounds _ _ _ Hs) as [? ?].
  apply (verify_signature_accepts _ _ _ _ _ _ _ secret).
  - split; try done. unfold qabs. destruct (qlt _ _) eqn:E; [apply qlt_true in E|]; lra.
  - unfold live_nonces at 1. rewrite Hn, List.filter_app, existsb_app. apply orb_false_iff. split.
    + apply not_true_iff_false. intros (x & [Hx _]%filter_In & Hat)%existsb_exists.
      apply not_true_iff_false in Hfresh. apply Hfresh, existsb_exists. by exists x.
    + cbn [List.filter claimed gn_expires_at]. destruct (qlt _ _) eqn:E; [|done]. apply qlt_true in E. lra.
Qed.

(** ** Data may enter, authority may not *)

(** Missions, tasks, used tokens, knowledge, diagnosis, runtime, operations and
    receipts are untouched. *)
Definition no_authority (d d' : DB) : Prop :=
  db_store d' = db_store d ∧ db_authority d' = db_authority d ∧ db_knowledge d' = db_knowledge d
  ∧ db_diag d' = db_diag d ∧ db_runtime d' = db_runtime d ∧ db_ops d' = db_ops d
  ∧ gateway_egress_receipts d' = gateway_egress_receipts d ∧ db_learning d' = db_learning d.
#[export] Instance no_authority_preorder : PreOrder no_authority.
Proof.
  split; [by intros d|]. intros x y z (A1 & A2 & A3 & A4 & A5 & A6 & A7 & A8) (B1 & B2 & B3 & B4 & B5 & B6 & B7 & B8).
  split_and!; congruence.
Qed.
Lemma audit_no_authority actor action mid payload now :
  respects (on_db no_authority) (audit actor action mid payload now).
Proof. by apply audit_frame; [typeclasses eauto|]. Qed.

Definition data_only : relation World := λ w w', w_files w' = w_files w ∧ no_authority (w_db w) (w_db w').

Lemma ingest_signed_data_only sid body ts nonce sig now :
  respects data_only (ingest_signed environ config sid body ts nonce sig now).
Proof.
  assert (respects same_files (ingest_signed environ config sid body ts nonce sig now)) as Hf.
  { unfold ingest_signed, verify_signature, verify_signature_with, claim_nonce, accept, ingest, recent_fingerprint_count,
      recent_correlation_count, record_signal, evidence. solve_respects. }
  assert (respects (on_db no_authority) (ingest_signed environ config sid body ts nonce sig now)) as Ha.
  { pose proof audit_no_authority.
    assert (∀ f d, no_authority d (set_gateway_nonces f d)) by done.
    assert (∀ f d, no_authority d (set_obs_signals f d)) by done.
    assert (∀ f d, no_authority d (set_obs_evidence f d)) by done.
    unfold ingest_signed, verify_signature, verify_signature_with, claim_nonce, accept, ingest,
      recent_fingerprint_count, recent_correlation_count, record_signal, evidence. io_respects. }
  intros w. split; [apply Hf | apply Ha].
Qed.

(** An observation stored as untrusted data of its system: its own attributes, marked. *)
Definition untrusted_signal (o : GatewayObservation) (source signal_id : string) (d : DB) : Prop :=
  ∃ s attrs, s ∈ obs_signals d ∧ sg_id s = signal_id ∧ loads (sg_attributes_json s) = Some (JObj attrs)
    ∧ JObj attrs = jcanon (JObj (marked_attributes o source))
    ∧ dget attrs "trust" = Some (JStr "UNTRUSTED_EXTERNAL_DATA")
    ∧ dget attrs "source_system_id" = Some (JStr (go_system_id o)).

Lemma marked_attributes_trust o source :
  dget (marked_attributes o source) "trust" = Some (JStr "UNTRUSTED_EXTERNAL_DATA")
  ∧ dget (marked_attributes o source) "source_system_id" = Some (JStr (go_system_id o)).
Proof.
  unfold marked_attributes, dsetdefault. destruct (dget (dset _ _ _) "correlation_key");
    rewrite ?(dget_dset_ne _ "correlation_key"), ?(dget_dset_ne _ "gateway_source") by done;
    (split; [rewrite dget_dset_ne by done|]; apply dget_dset_eq).
Qed.
Lemma ingest_stored dw cw sensor ts kind subject severity attrs now w p w' :
  attrs ≠ [] →
  ingest dw cw sensor [("ts", ts); ("kind", kind); ("subject", subject); ("severity", severity);
                       ("attributes", JObj attrs)] now w = (Ok p, w') →
  signal_of p ∈ obs_signals (w_db w') ∧ si_attributes (ps_signal p) = attrs.
Proof.
  intros Hne. unfold ingest. intros (dts & w1 & _ & Hr)%bind_Ok_inv.
  apply bind_Ok_inv in Hr as (when & w2 & [_ ->]%lift_Ok_inv & Hr).
  apply bind_Ok_inv in Hr as (attributes & w3 & [Ha ->]%lift_Ok_inv & Hr).
  apply bind_Ok_inv in Hr as (seen & w4 & _ & Hr). apply bind_Ok_inv in Hr as (id & w5 & _ & Hr).
  apply bind_Ok_inv in Hr as (count & w6 & _ & Hr). apply bind_Ok_inv in Hr as (? & w7 & [= _ <-] & [= <- <-]).
  split; [unfold w_db, with_db; simpl; set_solver|]. cbn.
  assert (observation_attributes [("ts", ts); ("kind", kind); ("subject", subject); ("severity", severity);
            ("attributes", JObj attrs)] = Ok attrs) as E by (by destruct attrs).
  congruence.
Qed.
Definition same_signals : relation DB := λ d d', obs_signals d' = obs_signals d.
#[export] Instance same_signals_preorder : PreOrder same_signals.
Proof. split; [by intros d | intros x y z; unfold same_signals; congruence]. Qed.
Lemma evidence_same_signals kind payload mid ts : respects (on_db same_signals) (evidence true kind payload mid ts).
Proof. unfold evidence. io_respects. Qed.

Lemma accept_Ok o source now w r w' :
  accept config o source now w = (Ok r, w') → untrusted_signal o source (ir_signal_id r) (w_db w').
Proof.
  unfold accept. intros (b & w1 & _ & Hr)%bind_Ok_inv. apply bind_Ok_inv in Hr as (? & w2 & _ & Hr).
  apply bind_Ok_inv in Hr as (accepted & w3 & _ & Hr). apply bind_Ok_inv in Hr as (p & w4 & Hp & Hr).
  apply bind_Ok_inv in Hr as (ev & w5 & Hev & Hr). apply bind_Ok_inv in Hr as (h & w6 & Ha & [= <- <-]).
  pose proof (marked_attributes_trust o source) as [Ht Hs].
  apply ingest_stored in Hp as [Hin Hat]; [|intros E; by rewrite E in Ht].
  pose proof (respects_run _ _ _ _ _ (evidence_same_signals _ _ _ _) Hev) as E5.
  apply audit_Ok_run in Ha as (e & ats & D & _).
  exists (signal_of p), (sort_keys (map (λ p, (p.1, jcanon p.2)) (marked_attributes o source))).
  rewrite D, !dget_sort_keys, !dget_map_jcanon, Ht, Hs. unfold on_db, same_signals in E5.
  split_and!; try done; [by rewrite <- E5 in Hin|]. cbn [signal_of sg_attributes_json]. rewrite Hat.
  exact (loads_dumps Sorted (JObj (marked_attributes o source))).
Qed.

Lemma peer_secret_length sid secret : peer_secret environ config sid = Ok secret → 32 ≤ String.length secret.
Proof.
  unfold peer_secret, rbind. destruct (binding config sid) as [b|]; [|done].
  destruct (sb_peer_secret_env b) as [env|]; [|done]. destruct (_ || _); [done|].
  destruct (Nat.ltb _ 32) eqn:E; [done|]. intros [= <-]. by apply Nat.ltb_ge in E.
Qed.

Lemma decode_observation_system sid body o : decode_observation sid body = Ok o → go_system_id o = sid.
Proof.
  unfold decode_observation, shape_error. repeat case_match; try done; by intros [= <-].
Qed.

Lemma ingest_signed_Ok sid body ts nonce sig now w r w' :
  ingest_signed environ config sid body ts nonce sig now w = (Ok r, w') →
  let t := default (time_at (w_tick w)) now in
  ∃ secret, message_ok sid body ts nonce sig t secret ∧ 32 ≤ String.length secret
    ∧ existsb (nonce_at sid nonce) (live_nonces t (w_db w)) = false
    ∧ ∃ o, decode_observation sid body = Ok o ∧ untrusted_signal o "signed-push" (ir_signal_id r) (w_db w').
Proof.
  intros Hrun t. unfold ingest_signed in Hrun. apply bind_Ok_inv in Hrun as ([] & w1 & Hv & Hr).
  assert (∃ w0, w_db w0 = w_db w
    ∧ verify_signature environ config sid body ts nonce sig (Some t) w0 = (Ok tt, w1)) as (w0 & D & Hv0).
  { destruct now as [n|]; [by exists w|]. by exists (tick w). }
  apply verify_signature_Ok in Hv0 as ((secret & Hm) & Hfresh & _). rewrite D in Hfresh.
  apply bind_Ok_inv in Hr as (o & w2 & [Hd ->]%lift_Ok_inv & Hacc).
  apply accept_Ok in Hacc. exists secret. split_and!; try done; [by eapply peer_secret_length, mo_secret|]. by exists o.
Qed.

(** C22. Data may enter, authority may not: whatever a POST carries and however it
    ends, files, missions, tasks, used tokens, memory, skills, diagnosis, runtime,
    operator records and egress receipts stay as they were; and it is answered 202
    only when the body of the request, of the declared length within the limit,
    the system named by its path, its timestamp, nonce and signature headers are
    within the clock skew at the time the request was taken, signed under the
    secret (of at least 32 bytes) of that enabled push-signed system, with a nonce
    not in use, and the attributes of the observation the body holds are stored,
    marked, as an untrusted signal of that system. *)
Theorem post_brings_data_only q w r w'
    (Hrun : do_POST environ config q w = (r, w')) :
  w_files w' = w_files w ∧ no_authority (w_db w) (w_db w')
  ∧ ∀ resp, r = Ok resp → hr_status resp = 202%Z →
      ∃ rest len ts secret o signal_id,
        removeprefix_go "/v1/telemetry/" (hq_path q) = Some rest
        ∧ int_header (default "0" (hq_content_length q)) = Ok len
        ∧ (1 <= len <= gc_max_body_bytes config)%Z
        ∧ int_header (default "" (hq_timestamp q)) = Ok ts
        ∧ let sid := lstrip_slash (rstrip_slash rest) in
          let body := String.substring 0 (Z.to_nat len) (hq_stream q) in
          let nonce := default "" (hq_nonce q) in
          let t := time_at (w_tick w) in
          message_ok sid body ts nonce (default "" (hq_signature q)) t secret ∧ 32 ≤ String.length secret
          ∧ existsb (nonce_at sid nonce) (live_nonces t (w_db w)) = false
          ∧ decode_observation sid body = Ok o ∧ go_system_id o = sid
          ∧ dget (hr_payload resp) "signal_id" = Some (JStr signal_id)
          ∧ untrusted_signal o "signed-push" signal_id (w_db w').
Proof.
  assert (Hother : ∀ resp, hr_status resp ≠ 202%Z → r = Ok resp → w' = w →
    w_files w' = w_files w ∧ no_authority (w_db w) (w_db w') ∧ ∀ resp', r = Ok resp' → hr_status resp' ≠ 202%Z).
  { intros resp Hne -> ->. split_and!; try done. by intros ? [= <-]. }
  unfold do_POST, do_POST_with in Hrun. destruct (removeprefix_go _ _) as [rest|] eqn:Erest;
    [|injection Hrun as <- <-; edestruct Hother as (? & ? & Hx); [|done..|]; [done|naive_solver]].
  destruct (int_header (default "0" _)) as [len|] eqn:Elen;
    [|injection Hrun as <- <-; edestruct Hother as (? & ? & Hx); [|done..|]; [done|naive_solver]].
  destruct ((len <? 1) || _)%Z eqn:Hlim; [injection Hrun as <- <-; edestruct Hother as (? & ? & Hx); [|done..|]; [done|naive_solver]|].
  clear Hother. unfold catch in Hrun.
  match type of Hrun with context [(?m ≫= ?k) w] => destruct ((m ≫= k) w) as [[resp0|e] w1] eqn:Em end.
  - injection Hrun as <- <-. apply bind_Ok_inv in Em as (ts & w2 & [Ets ->]%lift_Ok_inv & Em).
    apply bind_Ok_inv in Em as (receipt & w3 & Hi & [= <- <-]).
    pose proof (respects_run _ _ _ _ _ (ingest_signed_data_only _ _ _ _ _ _) Hi) as [Hf Ha]. split_and!; try done.
    intros ? [= <-] _. apply ingest_signed_Ok in Hi as (secret & Hm & Hlen & Hfresh & o & Hd & Hu).
    apply orb_false_iff in Hlim as [Hl1%Z.ltb_ge Hl2%Z.ltb_ge].
    exists rest, len, ts, secret, o, (ir_signal_id receipt). cbv zeta. split_and!; try done. by eapply decode_observation_system.
  - assert (data_only w w1) as [Hf Ha].
    { unfold mbind, M_bind in Em. destruct (lift_result _ w) as [[ts|e'] w2] eqn:El; unfold lift_result in El;
        injection El as _ <-; [|by injection Em as _ <-].
      destruct (ingest_signed _ _ _ _ _ _ _ _ _) as [[rc|e''] w3] eqn:Ei; [done|]. injection Em as _ <-.
      exact (respects_run _ _ _ _ _ (ingest_signed_data_only _ _ _ _ _ _) Ei). }
    assert (w' = w1 ∧ ∀ resp, r = Ok resp → hr_status resp = 403%Z) as [-> H403].
    { clear -Hrun. destruct e as [c msg]. cbn [exn_cls] in Hrun.
      destruct c; simpl in Hrun; injection Hrun as <- <-; (split; [done|]); intros ? E; by simplify_eq. }
    split_and!; try done. intros resp Hr H202. specialize (H403 resp Hr). congruence.
Qed.
End gateway_props.

(** ** Egress *)
Section egress_props.
Context `{JsonText, Entropy}.
Context (identity : IdentityAuthority) (capability_secret capability_issuer : string)
  (config : GatewayRuntimeConfig) (adapters : gmap string ProtectedSystemAdapter).

Lemma deny_on_Ok {A} c prefix (m : IO A) w a w' : deny_on c prefix m w = (Ok a, w') → m w = (Ok a, w').
Proof. unfold deny_on, catch. destruct (m w) as [[x|e] w1]; [done|]. by destruct (bool_decide _). Qed.

(** What [execute] established before it called the adapter. *)
Record egress_authorised (request : EgressRequest) (internal_token capability_token : string) (now : option Z)
    (w : World) (p : Principal) (adapter : ProtectedSystemAdapter) (cid : string) : Prop := {
  ea_identity : ∃ w1, ia_verify identity internal_token (Some "gateway:egress") now w = (Ok p, w1);
  ea_mission : ∃ m, find_row m_id (eq_mission_id request) (missions (w_db w)) = Some m
    ∧ m_state m ∈ EGRESS_MISSION_STATES ∧ m_system_id m = eq_system_id request;
  ea_adapter : adapters !! eq_system_id request = Some adapter ∧ pa_system_id adapter = eq_system_id request
    ∧ ∃ b, binding config (eq_system_id request) = Ok b ∧ pa_adapter_id adapter = sb_adapter b;
  ea_policy : ∃ policy w1 w2, pa_action_policy adapter (eq_action request) w1 = (Ok policy, w2)
    ∧ ap_required_scope policy ≠ ""
    ∧ (ap_checkpoint_required policy = true ∨ ap_material_change policy = true →
         ∃ w1 w2, pa_verify_checkpoint adapter (eq_checkpoint_id request) w1 = (Ok true, w2))
    ∧ (ap_irreversible policy = true →
         ∃ w1 w2, pa_recovery_ready adapter (eq_checkpoint_id request) (eq_action request) w1 = (Ok true, w2));
  ea_capability : ∃ w1 w2, capability_consume capability_secret capability_issuer capability_token
    (eq_mission_id request) (eq_system_id request) (eq_action request) (eq_parameters request)
    (eq_checkpoint_id request) now w1 = (Ok cid, w2);
}.

Lemma egress_authorize_Ok request itok ctok now w p adapter cid w' :
  egress_authorize identity capability_secret capability_issuer config adapters request itok ctok now w
    = (Ok (p, adapter, cid), w') →
  egress_authorised request itok ctok now w p adapter cid
  ∧ row_exists u_id cid (used_action_capabilities (w_db w')) = true.
Proof.
  unfold egress_authorize. intros (p' & w1 & Hid%deny_on_Ok & Hr)%bind_Ok_inv.
  pose proof (ia_verify_world _ _ _ _ _ _ _ Hid) as [D1 _].
  apply bind_Ok_inv in Hr as (mission & ? & [-> ->]%query_Ok_inv & Hr). rewrite D1 in Hr.
  destruct (find_row m_id _ _) as [m|] eqn:Hm; [|done].
  apply bind_Ok_inv in Hr as (? & ? & [Hst%negb_false_iff%str_in_iff ->]%raise_if_Ok_inv & Hr).
  apply bind_Ok_inv in Hr as (? & ? & [Hsys%negb_false_iff%String.eqb_eq ->]%raise_if_Ok_inv & Hr).
  apply bind_Ok_inv in Hr as (b & ? & [Hb ->]%lift_Ok_inv & Hr).
  destruct (adapters !! eq_system_id request) as [ad|] eqn:Had; [|done].
  apply bind_Ok_inv in Hr as (? & ? & [Hmatch ->]%raise_if_Ok_inv & Hr).
  apply orb_false_iff in Hmatch as [Hs%negb_false_iff%String.eqb_eq Ha%negb_false_iff%String.eqb_eq].
  apply bind_Ok_inv in Hr as (policy & w2 & Hpol & Hr).
  apply bind_Ok_inv in Hr as (? & ? & [Hscope%String.eqb_neq ->]%raise_if_Ok_inv & Hr).
  apply bind_Ok_inv in Hr as (valid & w3 & Hcv & Hr).
  apply bind_Ok_inv in Hr as (? & ? & [Hck ->]%raise_if_Ok_inv & Hr).
  apply bind_Ok_inv in Hr as (ready & w4 & Hready & Hr).
  apply bind_Ok_inv in Hr as (? & ? & [->%negb_false_iff ->]%raise_if_Ok_inv & Hr).
  apply bind_Ok_inv in Hr as (cid' & w5 & Hcap%deny_on_Ok & [= -> -> -> <-]).
  split.
  - split.
    + by exists w1.
    + by exists m.
    + split_and!; try done. by exists b.
    + unfold catch in Hpol. destruct (pa_action_policy _ _ w1) as [[pol|e] wp] eqn:Ep; [|done]. injection Hpol as -> ->.
      exists policy, w1, w2. split_and!; try done.
      * intros Hreq. assert (valid = true) as -> by (destruct valid, (ap_checkpoint_required policy), (ap_material_change policy); naive_solver).
        by exists w2, w3.
      * intros Hirr. rewrite Hirr in Hready. by exists w3, w4.
    + by exists w4, w5.
  - apply capability_consume_Ok_inv in Hcap as (v & _ & _ & _ & ->).
    exact (row_exists_snoc u_id {| u_id := cid; u_used_at := _ |} _).
Qed.

(** C39. Nothing leaves without authority: when [execute] returns, the internal
    identity verified for gateway:egress, the stored mission is active and owns the
    target, the adapter is the one bound to the target, its policy for the action
    has a scope and its checkpoint and recovery demands were met, and a capability
    for exactly this mission, system, action, parameters and checkpoint was
    consumed; that capability was already spent when the adapter was called, with
    the requested action and parameters, and the result is on record in a receipt. *)
Theorem egress_authorised_and_recorded request itok ctok timeout now w rc w'
    (Hrun : egress_execute identity capability_secret capability_issuer config adapters request itok ctok timeout now w
            = (Ok rc, w')) :
  ∃ p adapter cid result wa wb row,
    egress_authorised request itok ctok now w p adapter cid
    ∧ row_exists u_id cid (used_action_capabilities (w_db wa)) = true
    ∧ pa_execute adapter (eq_action request) (eq_parameters request) timeout wa = (Ok (JObj result), wb)
    ∧ ec_ok rc = get_truthy result "ok" false ∧ ec_external_reference rc = external_reference result
    ∧ row ∈ gateway_egress_receipts (w_db w') ∧ ge_evidence_id row = ec_evidence_id rc
    ∧ (ge_mission_id row, ge_system_id row, ge_action row, ge_ok row, ge_detail row)
      = (eq_mission_id request, eq_system_id request, eq_action request, ec_ok rc, ec_detail rc)
    ∧ char_count (ec_detail rc) ≤ 2048.
Proof.
  unfold egress_execute in Hrun. apply bind_Ok_inv in Hrun as ([[p adapter] cid] & w1 & [Hauth Hspent]%egress_authorize_Ok & Hrun).
  unfold egress_perform in Hrun. apply bind_Ok_inv in Hrun as (started & w2 & Hnow & Hrun).
  assert (w_db w2 = w_db w1) as D2 by (by destruct now; injection Hnow as _ <-).
  apply bind_Ok_inv in Hrun as (answer & w3 & Hexec & Hrun). destruct answer as [| | | | | |result]; try done.
  apply bind_Ok_inv in Hrun as (ev & w4 & _ & Hrun).
  apply bind_Ok_inv in Hrun as (rows & ? & [-> ->]%query_Ok_inv & Hrun).
  apply bind_Ok_inv in Hrun as (? & ? & [_ ->]%raise_if_Ok_inv & Hrun).
  apply bind_Ok_inv in Hrun as (? & w5 & [= _ <-] & Hrun).
  apply bind_Ok_inv in Hrun as (h & w6 & (e & ts & D & _)%audit_Ok_run & [= <- <-]).
  eexists p, adapter, cid, result, w2, w3, _. rewrite D. split_and!; try done.
  - by rewrite D2.
  - simpl. apply elem_of_app. right. by left.
  - done.
  - done.
  - apply char_take_count.
Qed.
End egress_props.
