(* ===== verification/ProviderProxyProps.v ===== *)
(** What reaches a provider is clean and bounded, whatever was observed; a
    configuration that loads names no secret and always builds a manager. *)

From stdpp Require Import pretty.
From S2P Require Import Prelude Json Sha256 Schema Files Tokens Fortress Observability TokenProps Providers ProviderProps Gateway GatewayProps.
From S2P Require Import ProviderProxy.

(** ** The sanitizer *)
Lemma clean_list_map child n l : fst (clean_list child n l) = map (λ v, fst (child v)) (take n l).
Proof.
  revert l. induction n as [|n IH]; intros [|v l]; try done. specialize (IH l). cbn [clean_list take map].
  destruct (clean_list child n l) as [out f]. simpl in IH. destruct (child v) as [c g] eqn:E. simpl. by rewrite IH.
Qed.
Definition clean_entry (child : json → json) (p : string * json) : string * json :=
  (p.1, if secret_key p.1 then JStr "[REDACTED]" else child p.2).
Lemma clean_items_map child n d : fst (clean_items child n d) = map (clean_entry (λ v, fst (child v))) (take n d).
Proof.
  revert d. induction n as [|n IH]; intros [|[k v] d]; try done. specialize (IH d). cbn [clean_items take map].
  unfold clean_entry at 1. cbn [fst snd]. destruct (clean_items child n d) as [out f]. simpl in IH.
  destruct (secret_key k); simpl; [by rewrite IH|]. destruct (child v) as [c g]. simpl. by rewrite IH.
Qed.

Lemma sanitize_deep depth v : 8 < depth → sanitize depth v = (JStr "[TRUNCATED_DEPTH]", false).
Proof. intros Hd. destruct v; simpl; by rewrite (proj2 (Nat.ltb_lt _ _) Hd). Qed.
(** The value [sanitize] returns, by cases. *)
Lemma sanitize_value depth v :
  depth ≤ 8 →
  fst (sanitize depth v) = match v with
    | JObj d => JObj (map (clean_entry (λ v, fst (sanitize (S depth) v))) (take 128 d))
    | JList l => JList (map (λ v, fst (sanitize (S depth) v)) (take 128 l))
    | JStr s => JStr (fst (clean_text s))
    | v => v
    end.
Proof.
  intros Hd. destruct v as [| | | |s|l|d]; cbn [sanitize]; rewrite (proj2 (Nat.ltb_ge _ _) Hd); try done.
  - by destruct (clean_text s).
  - rewrite <- clean_list_map. by destruct (clean_list _ _ _).
  - rewrite <- clean_items_map. by destruct (clean_items _ _ _).
Qed.

(** A text without control characters. *)
Fixpoint all_printable (s : string) : bool :=
  match s with EmptyString => true | String c s' => printable c && all_printable s' end.
Definition text_clean (s : string) : bool := negb (marked s) && Nat.leb (char_count s) 4096 && all_printable s.
Fixpoint value_clean (v : json) : bool :=
  match v with
  | JStr s => text_clean s
  | JList l => Nat.leb (length l) 128 && forallb value_clean l
  | JObj d => Nat.leb (length d) 128
              && forallb (λ p, if secret_key p.1 then match p.2 with JStr s => s =s "[REDACTED]" | _ => false end
                               else value_clean p.2) d
  | _ => true
  end.

Lemma keep_printable_clean s : all_printable (keep_printable s) = true.
Proof. induction s as [|c s IH]; [done|]. simpl. destruct (printable c) eqn:E; simpl; rewrite ?E; done. Qed.
Lemma char_take_printable n s : all_printable s = true → all_printable (char_take n s) = true.
Proof.
  revert n. induction s as [|c s IH]; intros n; [done|]. simpl. intros [Hc Hs]%andb_true_iff.
  destruct (continuation c); simpl; [by rewrite Hc, IH|]. destruct n; simpl; [done|]. by rewrite Hc, IH.
Qed.
Lemma keep_printable_id s : all_printable s = true → keep_printable s = s.
Proof. induction s as [|c s IH]; [done|]. simpl. intros [-> Hs]%andb_true_iff. by rewrite IH. Qed.
Lemma char_take_id n s : char_count s ≤ n → char_take n s = s.
Proof.
  revert n. induction s as [|c s IH]; intros n; [done|]. simpl. destruct (continuation c); simpl; intros Hn; [f_equal; by apply IH|].
  destruct n; [lia|]. f_equal. apply IH. lia.
Qed.
Lemma clean_text_clean s : text_clean (fst (clean_text s)) = true.
Proof.
  unfold clean_text. destruct (marked (char_take 4096 (keep_printable s))) eqn:E; [vm_compute; reflexivity|].
  unfold text_clean. cbn [fst]. rewrite E. cbn [negb andb]. apply andb_true_iff. split.
  - apply Nat.leb_le, char_take_count.
  - apply char_take_printable, keep_printable_clean.
Qed.
Lemma text_clean_fixed s : text_clean s = true → clean_text s = (s, false).
Proof.
  unfold text_clean, clean_text. rewrite !andb_true_iff, negb_true_iff, Nat.leb_le. intros [[Hm Hn] Hp].
  by rewrite keep_printable_id, char_take_id, Hm.
Qed.

Lemma sanitize_clean v : ∀ depth, value_clean (fst (sanitize depth v)) = true.
Proof.
  induction v as [|b|z|q|s|l IH|d IH] using json_ind'; intros depth;
    (destruct (Nat.ltb_spec 8 depth) as [Hd|Hd]; [by rewrite sanitize_deep|]); rewrite sanitize_value by done; try done.
  - apply clean_text_clean.
  - cbn [value_clean]. rewrite length_map, length_take, andb_true_iff, Nat.leb_le. split; [lia|].
    apply forallb_forall. intros x (v & <- & Hv)%in_map_iff. apply list_elem_of_In, elem_of_take in Hv as (i & Hi & _).
    rewrite Forall_lookup in IH. by apply (IH i).
  - cbn [value_clean]. rewrite length_map, length_take, andb_true_iff, Nat.leb_le. split; [lia|].
    apply forallb_forall. intros x (p & <- & Hp)%in_map_iff. apply list_elem_of_In, elem_of_take in Hp as (i & Hi & _).
    unfold clean_entry. cbn [fst snd]. destruct (secret_key p.1); [done|]. rewrite Forall_lookup in IH. by apply (IH i).
Qed.
Lemma max_over_le {A} (n : A → nat) l k : (∀ x, x ∈ l → n x ≤ k) → max_over n l ≤ k.
Proof. intros Hl. induction l as [|x l IH]; simpl; [lia|]. apply Nat.max_lub; [apply Hl; by left|]. apply IH. intros y Hy. apply Hl. by right. Qed.
Lemma sanitize_depth v : ∀ depth, depth ≤ 9 → depth + json_depth (fst (sanitize depth v)) ≤ 9.
Proof.
  induction v as [|b|z|q|s|l IH|d IH] using json_ind'; intros depth H9;
    (destruct (Nat.ltb_spec 8 depth) as [Hd|Hd]; [rewrite sanitize_deep by done; simpl; lia|]);
    rewrite sanitize_value by done; cbn [json_depth]; try lia.
  - enough (max_over (λ x, S (json_depth x)) (map (λ v, fst (sanitize (S depth) v)) (take 128 l)) ≤ 9 - depth) by lia.
    apply max_over_le. intros x (v & -> & Hv)%list_elem_of_fmap. apply elem_of_take in Hv as (i & Hi & _).
    rewrite Forall_lookup in IH. specialize (IH i v Hi (S depth)). lia.
  - enough (max_over (λ p : string * json, S (json_depth p.2)) (map (clean_entry (λ v, fst (sanitize (S depth) v))) (take 128 d))
            ≤ 9 - depth) by lia.
    apply max_over_le. intros x (p & -> & Hp)%list_elem_of_fmap. apply elem_of_take in Hp as (i & Hi & _).
    rewrite Forall_lookup in IH. specialize (IH i p Hi (S depth)). unfold clean_entry. cbn [fst snd].
    destruct (secret_key p.1); simpl; lia.
Qed.

(** What is sent to a provider is clean and bounded: whatever the value, the sanitized
    one is at most 9 levels deep with at most 128 entries per object or list, its
    texts have at most 4096 characters, no control characters and none of the
    instruction markers, every entry under a secret key is redacted, and sanitizing
    it again changes nothing. *)
Theorem sanitize_sound v :
  let out := fst (sanitize 0 v) in
  value_clean out = true ∧ json_depth out ≤ 9 ∧ fst (sanitize 0 out) = out.
Proof.
  intros out. split_and!; [apply sanitize_clean|apply (sanitize_depth v 0); lia|]. unfold out. generalize 0. clear.
  induction v as [|b|z|q|s|l IH|d IH] using json_ind'; intros depth;
    (destruct (Nat.ltb_spec 8 depth) as [Hd|Hd]; [by rewrite !sanitize_deep|]).
  1-4: by rewrite !(sanitize_value depth) by done.
  - rewrite (sanitize_value depth (JStr s) Hd), sanitize_value by done. by rewrite (text_clean_fixed _ (clean_text_clean s)).
  - rewrite (sanitize_value depth (JList l) Hd), sanitize_value by done. f_equal.
    rewrite (take_ge (map _ _)) by (rewrite length_map, length_take; lia). rewrite map_map.
    apply map_ext_in. intros v Hv. apply list_elem_of_In, elem_of_take in Hv as (i & Hi & _).
    rewrite Forall_lookup in IH. by apply (IH i).
  - rewrite (sanitize_value depth (JObj d) Hd), sanitize_value by done. f_equal.
    rewrite (take_ge (map _ _)) by (rewrite length_map, length_take; lia). rewrite map_map.
    apply map_ext_in. intros p Hp. apply list_elem_of_In, elem_of_take in Hp as (i & Hi & _).
    unfold clean_entry. cbn [fst snd]. destruct (secret_key p.1); [done|]. f_equal.
    rewrite Forall_lookup in IH. by apply (IH i).
Qed.

(** ** Requests *)
Lemma sorted_set_nil l : sorted_set l = [] → l = [].
Proof.
  intros E. destruct l as [|x l]; [done|]. assert (x ∈ sorted_set (x :: l)) as Hin by (apply sorted_set_in; by left).
  rewrite E in Hin. by apply elem_of_nil in Hin.
Qed.
Lemma dget_key (d : dict) k v : dget d k = Some v → k ∈ map fst d.
Proof.
  induction d as [|[k' v'] d IH]; simpl; [done|]. destruct (String.eqb_spec k' k) as [->|]; intros E; [by left|].
  right. by apply IH.
Qed.
Lemma reserved_absent options k :
  reserved_in options = [] → k ∈ RESERVED_REQUEST_FIELDS → lower (strip k) = k → dget options k = None.
Proof.
  intros E%sorted_set_nil Hk Hn. destruct (dget options k) as [v|] eqn:Ed; [|done].
  apply dget_key in Ed. apply list_elem_of_fmap in Ed as (p & -> & Hp).
  assert (p.1 ∈ List.filter (λ k, str_in k RESERVED_REQUEST_FIELDS) (map (λ p, lower (strip p.1)) options)) as Hin.
  { apply list_elem_of_In, filter_In. split; [|by apply str_in_iff]. apply in_map_iff. exists p. by rewrite list_elem_of_In in Hp. }
  rewrite E in Hin. by apply elem_of_nil in Hin.
Qed.
Lemma dsetdefault_ne d k k' v : k ≠ k' → dget (dsetdefault d k v) k' = dget d k'.
Proof. intros Hk. unfold dsetdefault. destruct (dget d k); [done|]. by apply dget_dset_ne. Qed.

Section proxy.
Context `{JsonText, Entropy} (environ : string → option string)
  (urlopen : string → string → list (string * string) → Q → IO string).

Lemma http_provider_Ok p p' :
  http_provider p = Ok p' → p' = p ∧ reserved_in (hp_request_options p) = [] ∧ hp_owner_scope p = "immune-provider-proxy" ∧
    http_endpoint (hp_endpoint p) = true ∧ str_in (hp_locality p) ["local"; "external"] = true.
Proof.
  unfold http_provider. destruct (str_in (hp_locality p) _); [|done]. cbn [negb].
  destruct (http_endpoint _); [|by rewrite orb_true_r]. cbn [negb]. rewrite orb_false_r.
  destruct (_ || _); [done|]. destruct (qlt _ _); [done|]. destruct (hp_owner_scope p =s _) eqn:Eo; [|done]. cbn [negb].
  destruct (reserved_in _); [|done]. intros [= <-]. split_and!; try done. by apply String.eqb_eq.
Qed.
Definition fixed_messages (wire : dict) : json :=
  JList [JObj [("role", JStr "system"); ("content", JStr SYSTEM_BOUNDARY)];
         JObj [("role", JStr "user"); ("content", JStr (dumps SortedUnicode (fst (sanitize 0 (JObj wire)))))]].

Lemma request_body_fields p request wire :
  reserved_in (hp_request_options p) = [] →
  let body := request_body p request wire in
  dget body "model" = Some (JStr (hp_model p)) ∧ dget body "max_tokens" = Some (JInt (rq_max_tokens request)) ∧
  dget body "messages" = Some (fixed_messages wire) ∧
  ∀ k, k ∈ ["tools"; "tool_choice"; "authorization"; "api_key"] → dget body k = None.
Proof.
  intros Hres body. unfold body, request_body. split_and!.
  - rewrite !dget_dset_ne by done. apply dget_dset_eq.
  - rewrite dget_dset_ne by done. apply dget_dset_eq.
  - apply dget_dset_eq.
  - intros k Hk. assert (k ∈ RESERVED_REQUEST_FIELDS ∧ lower (strip k) = k ∧ k ∉ ["model"; "max_tokens"; "messages"; "temperature"])
      as (Hr & Hn & Hne).
    { rewrite !elem_of_cons, elem_of_nil in Hk. destruct Hk as [->|[->|[->|[->|[]]]]];
        (split; [apply str_in_iff; reflexivity|split; [reflexivity|]]); intros Hi%str_in_iff; discriminate Hi. }
    rewrite !elem_of_cons in Hne. rewrite !dget_dset_ne, dsetdefault_ne by naive_solver. by apply reserved_absent.
Qed.
Lemma exchange_Ok endpoint body headers timeout w v w' :
  exchange urlopen endpoint body headers timeout w = (Ok v, w') →
  ∃ text, urlopen endpoint body headers timeout w = (Ok text, w') ∧ loads text = Some v.
Proof.
  unfold exchange, catch, mbind, M_bind. destruct (urlopen _ _ _ _ w) as [[text|e] w1].
  - destruct (loads text) as [u|] eqn:El; [|done]. intros [= <- <-]. by exists text.
  - by destruct (exn_cls e).
Qed.

(** The headers of a request: the credential comes from the environment. *)
Definition headers_of (p : HTTPProvider) (headers : list (string * string)) : Prop :=
  headers = [("Content-Type", "application/json"); ("Accept", "application/json")] ∨
  ∃ env secret, hp_api_key_env p = Some env ∧ environ env = Some secret ∧ secret ≠ "" ∧
    headers = [("Content-Type", "application/json"); ("Accept", "application/json"); ("Authorization", "Bearer " +:+ secret)].

Lemma authorization_Ok p (w : World) headers w' :
  match hp_api_key_env p return IO (list (string * string)) with
  | Some env =>
      if env =s "" then mret []
      else _ ← raise_if (default "" (environ env) =s "") ProviderUnavailable ("missing credential environment: " +:+ env);
           mret [("Authorization", "Bearer " +:+ default "" (environ env))]
  | None => mret []
  end w = (Ok headers, w') →
  w' = w ∧ headers_of p ([("Content-Type", "application/json"); ("Accept", "application/json")] ++ headers).
Proof.
  unfold headers_of. destruct (hp_api_key_env p) as [env|]; [|intros [= <- <-]; by split; [|left]].
  destruct (env =s ""); [intros [= <- <-]; by split; [|left]|]. intros Hrun. minv Hrun. split; [done|]. right.
  destruct (environ env) as [secret|] eqn:Ee; [|done]. exists env, secret. split_and!; try done. by apply String.eqb_neq.
Qed.

(** A provider call is confined: when [propose] of a constructed HTTP provider returns,
    exactly one exchange took place, with its endpoint; the body named its model and the
    requested token bound, the fixed system boundary and the sanitized request as the only
    messages, and no tools or credential; a credential, if any, was the value of the
    configured environment variable.  The proposal carries the provider's own id, is not
    marked degraded, recommends at most 16 tasks and has a confidence within 0..1. *)
Theorem provider_call_confined p request timeout w proposal w' :
  http_provider p = Ok p → http_propose environ urlopen p request timeout w = (Ok proposal, w') →
  ∃ wire headers text, to_wire request = Ok wire ∧
    let body := request_body p request wire in
    urlopen (hp_endpoint p) (dumps CompactInOrder (JObj body)) headers timeout w = (Ok text, w') ∧
    dget body "model" = Some (JStr (hp_model p)) ∧ dget body "max_tokens" = Some (JInt (rq_max_tokens request)) ∧
    dget body "messages" = Some (fixed_messages wire) ∧
    (∀ k, k ∈ ["tools"; "tool_choice"; "authorization"; "api_key"] → dget body k = None) ∧
    headers_of p headers ∧ pp_provider_id proposal = hp_provider_id p ∧ pp_degraded proposal = false ∧
    length (pp_recommended_tasks proposal) ≤ 16 ∧ (0 <= pp_confidence proposal <= 1)%Q.
Proof.
  intros (_ & Hres & _)%http_provider_Ok Hrun. unfold http_propose in Hrun. minv Hrun.
  apply lift_Ok_inv in Hm as [Hwire ->]. apply authorization_Ok in Hm0 as [-> Hh].
  apply exchange_Ok in Hm1 as (text & Hopen & _). destruct (answer_content _) as [[| | | | | |parsed]|]; try discriminate Hrun.
  apply lift_Ok_inv in Hrun as [Hp ->].
  destruct (proposal_normalised _ _ _ _ Hp) as (_ & Hid & Hdeg & Hc & _ & _ & raws & _ & Hlen & Hall).
  apply Forall2_length in Hall. destruct (request_body_fields p request a0 Hres) as (? & ? & ? & ?).
  eexists _, _, text. split_and!; try done. by rewrite <- Hall.
Qed.

(** ** Configuration *)
(** No key of the value, at any depth, names a secret. *)
Fixpoint names_no_secret (v : json) : bool :=
  match v with
  | JObj d => forallb (λ p, negb (inline_secret p.1) && names_no_secret p.2) d
  | JList l => forallb names_no_secret l
  | _ => true
  end.
Lemma check_no_inline_secrets_iff v : ∀ at_, check_no_inline_secrets v at_ = Ok tt ↔ names_no_secret v = true.
Proof.
  induction v as [|b|z|q|s|l IH|d IH] using json_ind'; intros at_; try done; cbn [check_no_inline_secrets names_no_secret].
  - generalize 0. induction IH as [|v l Hv _ IHl]; intros i; [done|]. cbn [check_elements forallb].
    rewrite andb_true_iff, <- (Hv (at_ +:+ "[" +:+ pretty i +:+ "]")), <- (IHl (S i)).
    destruct (check_no_inline_secrets v _) as [[]|]; naive_solver.
  - induction IH as [|[k v] d Hv _ IHd]; [done|]. cbn [check_items forallb fst snd] in *.
    rewrite !andb_true_iff, <- (Hv (at_ +:+ "." +:+ k)), <- IHd. destruct (inline_secret k); [naive_solver|].
    destruct (check_no_inline_secrets v _) as [[]|]; naive_solver.
Qed.

(** A profile the loader accepts: the HTTP client accepts it, and its credential is
    named, not contained. *)
Definition profile_sound (p : ProviderProfile) : Prop :=
  (∀ c, rc_owner_scope c = "immune-provider-proxy" → http_provider (profile_provider c p) = Ok (profile_provider c p)) ∧
  (pf_locality p = "external" → falsy_env (pf_api_key_env p) = false) ∧
  (falsy_env (pf_api_key_env p) = false → String.prefix "IMMUNE_" (default "" (pf_api_key_env p)) = true) ∧
  names_no_secret (JObj (pf_request_options p)) = true.

Lemma load_profile_Ok seen i item p : load_profile seen i item = Ok p → profile_sound p ∧ pf_id p ∉ seen.
Proof.
  unfold load_profile. destruct item as [| | | | | |item]; try done. destruct (List.find _ item) as [[]|]; [done|].
  destruct (get_int _ _ _) as [priority|]; [|done]. cbn [rbind]. destruct (py_float _) as [cost|]; [|done]. cbn [rbind].
  destruct (_ || _) eqn:Eid; [done|]. apply orb_false_iff in Eid as [Eid Eseen].
  destruct (_ =s "openai-compatible-http"); [|done]. cbn [negb].
  destruct (http_endpoint _) eqn:Eh; [|done]. cbn [negb orb]. destruct (strip (get_str item "model" "") =s "") eqn:Em; [done|].
  destruct (str_in (lower _) ["local"; "external"]) eqn:El; [|done]. cbn [negb]. destruct (qlt cost 0) eqn:Ec; [done|].
  destruct (_ && falsy_env _) eqn:Ex; [done|]. destruct (_ && negb _) eqn:En; [done|].
  destruct (default (JObj []) (dget item "request_options")) as [| | | | | |options]; try done. destruct (reserved_in options) eqn:Er; [|done].
  destruct (check_no_inline_secrets _ _) as [[]|] eqn:Es; [|done]. intros [= <-].
  apply check_no_inline_secrets_iff in Es. unfold profile_sound, http_provider, profile_provider.
  cbn [hp_locality hp_provider_id hp_endpoint hp_model hp_cost_per_call hp_owner_scope hp_request_options
       pf_locality pf_id pf_endpoint pf_model pf_cost_per_call pf_request_options pf_api_key_env].
  split; [split_and!|intros Hi%str_in_iff; congruence]; try done.
  - intros c ->. by rewrite El, Eid, Eh, Em, Ec, Er.
  - intros El2. rewrite El2 in Ex. exact Ex.
  - intros Ef. rewrite Ef in En. cbn in En. by destruct (String.prefix _ _).
Qed.
Lemma load_profiles_Ok items : ∀ seen i ps,
  load_profiles seen i items = Ok ps →
  Forall profile_sound ps ∧ NoDup (map pf_id ps) ∧ Forall (λ p, pf_id p ∉ seen) ps.
Proof.
  induction items as [|item items IH]; intros seen i ps; cbn [load_profiles]; [intros [= <-]; by repeat constructor|].
  destruct (load_profile _ _ _) as [p|] eqn:Ep; [|done]. cbn [rbind].
  destruct (load_profiles _ _ _) as [rest|] eqn:Er; [|done]. intros [= <-].
  apply load_profile_Ok in Ep as [Hp Hn]. apply IH in Er as (Hrest & Hnd & Hseen). split_and!; [by constructor| |].
  - cbn. constructor; [|done]. intros (q & Heq & Hq)%list_elem_of_fmap. rewrite Forall_forall in Hseen.
    apply (Hseen q Hq). rewrite <- Heq. by left.
  - constructor; [done|]. eapply Forall_impl; [exact Hseen|]. intros q Hq Hin. apply Hq. by right.
Qed.
Lemma profile_leb_total p q : profile_leb p q = true ∨ profile_leb q p = true.
Proof.
  unfold profile_leb. rewrite !orb_true_iff, !andb_true_iff, !Z.ltb_lt, !Z.eqb_eq.
  destruct (Z.lt_trichotomy (pf_priority p) (pf_priority q)) as [|[E|]]; [by right; left| |by left; left].
  destruct (String.leb_total (pf_id p) (pf_id q)); [left|right]; right; by split.
Qed.
Lemma profile_leb_trans p q r : profile_leb p q = true → profile_leb q r = true → profile_leb p r = true.
Proof.
  unfold profile_leb. rewrite !orb_true_iff, !andb_true_iff, !Z.ltb_lt, !Z.eqb_eq.
  intros [?|[? Hpq]] [?|[? Hqr]]; [left; lia..|]. right. split; [lia|]. by eapply string_leb_trans.
Qed.
Lemma load_providers_Ok files source c :
  load_providers files source = Ok c →
  rc_owner_scope c = "immune-provider-proxy" ∧ StronglySorted (λ p q, profile_leb p q = true) (rc_providers c) ∧
  Forall profile_sound (rc_providers c) ∧ NoDup (map pf_id (rc_providers c)).
Proof.
  unfold load_providers. destruct (_ ≫= _) as [[| | | | | |raw]|]; try done.
  destruct (check_no_inline_secrets _ _); [|done]. cbn [rbind]. destruct (equals_one _); [|done]. cbn [negb].
  destruct (_ =s "immune-provider-proxy"); [|done]. cbn [negb]. destruct (_ =s "priority"); [|done]. cbn [negb].
  destruct (dget raw "providers") as [[| | | | |items|]|]; try done.
  destruct (load_profiles _ _ _) as [ps|] eqn:Ep; [|done]. intros [= <-].
  apply load_profiles_Ok in Ep as (Hs & Hn & _). cbn [rc_providers rc_owner_scope].
  split_and!; [done|apply order_by_sorted; [apply profile_leb_total|apply profile_leb_trans]| |].
  - by rewrite order_by_perm.
  - by rewrite order_by_perm.
Qed.
Lemma build_providers_Ok c l :
  rc_owner_scope c = "immune-provider-proxy" → Forall profile_sound l → build_providers c l = Ok (map (profile_provider c) l).
Proof.
  intros Hc. induction 1 as [|p l [Hp _] _ IH]; [done|]. cbn [build_providers map]. by rewrite (Hp c Hc), IH.
Qed.

(** A configuration that loads is usable and holds no secret: whatever file [load]
    accepts, the provider ids are distinct and ordered by decreasing priority; no
    request option at any depth names a secret, an external provider names the
    environment variable of its credential and the name lies in the IMMUNE_ namespace;
    and [build_manager] succeeds with exactly the enabled providers, in order. *)
Theorem loaded_config_builds files source c late identity :
  load_providers files source = Ok c →
  NoDup (map pf_id (rc_providers c)) ∧ StronglySorted (λ p q, profile_leb p q = true) (rc_providers c) ∧
  (∀ p, p ∈ rc_providers c →
     names_no_secret (JObj (pf_request_options p)) = true ∧
     (pf_locality p = "external" → ∃ env, pf_api_key_env p = Some env ∧ String.prefix "IMMUNE_" env = true)) ∧
  ∃ m, build_manager environ urlopen c late identity = Ok m ∧
    map cp_provider_id (pm_providers m) = map pf_id (List.filter pf_enabled (rc_providers c)).
Proof.
  intros (Hc & Hsort & Hall & Hnd)%load_providers_Ok. split_and!; try done.
  - intros p Hp. rewrite Forall_forall in Hall. destruct (Hall p Hp) as (_ & Hext & Hns & Hopt). split; [done|].
    intros Hl. specialize (Hns (Hext Hl)). specialize (Hext Hl). destruct (pf_api_key_env p) as [env|]; [|done]. by exists env.
  - assert (Forall profile_sound (enabled_profiles c)) as He.
    { rewrite Forall_forall in *. intros p Hp. apply Hall. by apply list_elem_of_In, filter_In in Hp as [Hp%list_elem_of_In _]. }
    unfold build_manager. rewrite (build_providers_Ok _ _ Hc He). cbn [rbind]. eexists. split; [reflexivity|].
    cbn [pm_providers]. by rewrite !map_map.
Qed.
End proxy.
