(* ===== verification/ObservabilityProps.v ===== *)
(** Evidence is tamper evident, duplicate signals are exactly the repeated
    fingerprints of the window, sensor health counts consecutive failures. *)

From S2P Require Import Prelude Json Sha256 Schema Ledger LedgerProps Observability.

Section evidence_props.
Context `{JsonText, Entropy}.

(** Evidence is only ever added, under fresh ids. *)
Definition evidence_ext (d d' : DB) : Prop :=
  obs_evidence d `prefix_of` obs_evidence d'
  ∧ (unique_key ev_id (obs_evidence d) → unique_key ev_id (obs_evidence d')).
#[export] Instance evidence_ext_preorder : PreOrder evidence_ext.
Proof. split; [by split|]. intros x y z [? ?] [? ?]. split; [by etrans|auto]. Qed.
Lemma evidence_ext_frame (d d' : DB) : obs_evidence d' = obs_evidence d → evidence_ext d d'.
Proof. intros E. split; by rewrite E. Qed.

Lemma find_row_prefix {R} (key : R → string) k l l' r :
  l `prefix_of` l' → find_row key k l = Some r → find_row key k l' = Some r.
Proof. intros [m ->] Hf. by rewrite find_row_app, Hf. Qed.

Lemma evidence_run audited kind payload mid ts w ref w' :
  evidence audited kind payload mid ts w = (Ok ref, w') →
  ∃ r, find_row ev_id (er_id ref) (obs_evidence (w_db w')) = Some r ∧ evidence_intact r = true
    ∧ ev_payload_sha256 r = obs_digest (JObj payload) ∧ er_payload_sha256 ref = obs_digest (JObj payload)
    ∧ ev_kind r = kind ∧ ev_mission_id r = mid.
Proof.
  unfold evidence. intros Hrun. apply bind_Ok_inv in Hrun as (when & w1 & Hw & Hrun).
  apply bind_Ok_inv in Hrun as (eid & w2 & He & Hrun).
  apply bind_Ok_inv in Hrun as (rows & w3 & [-> ->]%query_Ok_inv & Hrun).
  apply bind_Ok_inv in Hrun as (? & ? & [Hu%row_exists_false ->]%raise_if_Ok_inv & Hrun).
  apply bind_Ok_inv in Hrun as (? & w4 & [= _ <-] & Hrun).
  apply bind_Ok_inv in Hrun as (? & w5 & Ha & Hrun). injection Hrun as <- <-. simpl.
  assert (obs_evidence (w_db w5) = obs_evidence (w_db w2) ++
    [{| ev_id := eid; ev_mission_id := mid; ev_kind := kind; ev_created_at := when;
        ev_payload_json := dumps Compact (JObj payload); ev_payload_sha256 := obs_digest (JObj payload) |}]) as ->.
  { destruct audited; [|by injection Ha as _ <-]. by apply audit_Ok_run in Ha as (? & ? & -> & _). }
  rewrite find_row_snoc by done. simpl. rewrite String.eqb_refl. eexists. split_and!; try done.
  unfold evidence_intact. simpl. rewrite loads_dumps. unfold obs_digest.
  apply String.eqb_eq. f_equal. exact (dumps_jcanon Compact (JObj payload) eq_refl).
Qed.

Hint Extern 1 (evidence_ext _ _) => apply evidence_ext_frame; reflexivity : respects.
Lemma audit_evidence_ext actor action mid payload now :
  respects (on_db evidence_ext) (audit actor action mid payload now).
Proof. apply audit_frame; [typeclasses eauto|]. intros. by apply evidence_ext_frame. Qed.
Hint Resolve audit_evidence_ext : respects.

Lemma evidence_ext_add (d : DB) r :
  row_exists ev_id (ev_id r) (obs_evidence d) = false → evidence_ext d (set_obs_evidence (λ l, l ++ [r]) d).
Proof.
  intros He%row_exists_false. split; simpl; [by apply prefix_app_r|]. intros Hu. by apply unique_key_snoc.
Qed.

Lemma evidence_extends audited kind payload mid ts :
  respects (on_db evidence_ext) (evidence audited kind payload mid ts).
Proof.
  unfold evidence. apply respects_of_at. intros w. do 4 at_step.
  apply respects_at_bind; [typeclasses eauto | | intros; apply respects_at_any; io_respects].
  unfold respects_at, on_db, exec, modify. simpl. by apply evidence_ext_add.
Qed.

(** Any call of the observability store, returning or raising. *)
Inductive obs_step (audited : bool) (w : World) : World → Prop :=
| step_signal p : obs_step audited w (snd (record_signal p w))
| step_ingest dw cw s o ts : obs_step audited w (snd (ingest dw cw s o ts w))
| step_metric n s v l ts : obs_step audited w (snd (record_metric n s v l ts w))
| step_observe m t h n s v ts l : obs_step audited w (snd (observe m t h n s v ts l w))
| step_log s l m f ts : obs_step audited w (snd (record_log s l m f ts w))
| step_start n t p a ts : obs_step audited w (snd (start_span n t p a ts w))
| step_end s st a ts : obs_step audited w (snd (end_span s st a ts w))
| step_health s ok e ts : obs_step audited w (snd (update_sensor_health s ok e ts w))
| step_evidence k p m ts : obs_step audited w (snd (evidence audited k p m ts w))
| step_resource r k n a ts : obs_step audited w (snd (upsert_resource r k n a ts w))
| step_dependency s d r a ts : obs_step audited w (snd (graph_add s d r a ts w)).

Lemma obs_steps_extend audited w w' : rtc (obs_step audited) w w' → evidence_ext (w_db w) (w_db w').
Proof.
  induction 1 as [w|w w1 w2 Hs _ IH]; [reflexivity|]. etrans; [|exact IH]. change (on_db evidence_ext w w1).
  destruct Hs; [| | | | | | | |apply evidence_extends| |];
    match goal with |- on_db ?R ?w (snd (?m ?w)) => assert (respects (on_db R) m) as Hk; [|apply Hk] end;
    unfold ingest, observe, graph_add;
    unfold record_signal, record_metric, record_log, start_span, end_span, update_sensor_health, upsert_resource,
      upsert_dependency, uuid_hex, recent_fingerprint_count, recent_correlation_count, metric_values; io_respects.
Qed.

(** Evidence is tamper evident: what [evidence] recorded verifies in every
    later state of the store, and whenever a stored row carries the digest of
    the returned reference and verifies, its payload is the recorded one up to
    key order, or SHA-256 collides. *)
Theorem evidence_tamper_evident audited kind payload mid ts w ref w1 w2
    (Hrun : evidence audited kind payload mid ts w = (Ok ref, w1))
    (Hlater : rtc (obs_step audited) w1 w2) :
  verify_evidence (er_id ref) w2 = (Ok true, w2)
  ∧ ∀ r, evidence_intact r = true → ev_payload_sha256 r = er_payload_sha256 ref →
      ∃ p, loads (ev_payload_json r) = Some p
        ∧ (jcanon p = jcanon (JObj payload) ∨ sha256_collide (dumps Compact p) (dumps Compact (JObj payload))).
Proof.
  apply evidence_run in Hrun as (r & Hf & Hi & _ & Hd & _). split.
  - apply obs_steps_extend in Hlater as [Hp _]. pose proof (find_row_prefix _ _ _ _ _ Hp Hf) as Hf2.
    unfold verify_evidence, query, gets, mbind, M_bind. rewrite Hf2, Hi. done.
  - intros x Hx Ed. rewrite Hd in Ed. unfold evidence_intact in Hx.
    destruct (loads (ev_payload_json x)) as [p|]; [|done]. apply String.eqb_eq in Hx. rewrite Ed in Hx.
    exists p. split; [done|]. apply sha256_eq_or_collide in Hx as [Hx|]; [left | by right]. by apply dumps_inj in Hx.
Qed.
End evidence_props.

(** ** Signals *)
Section signal_props.
Context `{JsonText, Entropy}.

Lemma filter_nonempty {A} (f : A → bool) l : (0 <? Z.of_nat (length (List.filter f l)))%Z = existsb f l.
Proof. induction l as [|x l IH]; [done|]. simpl. destruct (f x); [|done]. simpl. apply Z.ltb_lt. lia. Qed.

Lemma filter_fresh {R} (key : R → string) k l :
  row_exists key k l = false → List.filter (λ x, negb (key x =s k)) l = l.
Proof.
  unfold row_exists, has_key. induction l as [|x l IH]; [done|]. simpl.
  intros [-> Hl]%orb_false_iff. simpl. by rewrite IH.
Qed.

(** The text behind a signal's fingerprint. *)
Definition fingerprint_text (kind subject : string) (attributes : dict) : string :=
  dumps Compact (JObj [("kind", JStr kind); ("subject", JStr subject);
                       ("attributes", JObj (signature_attributes attributes))]).

(** Deduplication and correlation of signals: [ingest] marks a signal as a
    duplicate exactly when the store holds a signal of the same fingerprint
    inside the window; equal fingerprints mean the same kind, subject and
    attributes (volatile ones aside), or SHA-256 collides.  The correlation
    count it returns is the number of non-duplicate signals of the key inside
    the window once the new one is stored, under a fresh id. *)
Theorem ingest_deduplicates dw cw sensor obs ts w p w'
    (Hrun : ingest dw cw sensor obs ts w = (Ok p, w'))
    (Hfresh : row_exists sg_id (si_id (ps_signal p)) (obs_signals (w_db w)) = false)
    (Hwindow : (0 <= cw)%Q) :
  let s := ps_signal p in
  ps_duplicate p = existsb (same_fingerprint (si_fingerprint s) (si_ts s - dw)) (obs_signals (w_db w))
  ∧ obs_signals (w_db w') = obs_signals (w_db w) ++ [signal_of p]
  ∧ ps_correlation_count p = Z.of_nat (length (List.filter (correlated (si_correlation_key s) (si_ts s - cw))
                                               (obs_signals (w_db w'))))
  ∧ si_severity s ∈ SEVERITIES
  ∧ si_fingerprint s = fingerprint_of (si_kind s) (si_subject s) (si_attributes s)
  ∧ ∀ kind subject attrs, fingerprint_of kind subject attrs = si_fingerprint s →
      (kind = si_kind s ∧ subject = si_subject s
       ∧ jcanon (JObj (signature_attributes attrs)) = jcanon (JObj (signature_attributes (si_attributes s))))
      ∨ sha256_collide (fingerprint_text kind subject attrs)
          (fingerprint_text (si_kind s) (si_subject s) (si_attributes s)).
Proof.
  unfold ingest in Hrun. apply bind_Ok_inv in Hrun as (t0 & w1 & Ht & Hrun).
  assert (w_db w1 = w_db w) as D1 by (destruct ts; injection Ht as _ <-; done).
  apply bind_Ok_inv in Hrun as (when & ? & [_ ->]%lift_Ok_inv & Hrun). cbv zeta in Hrun.
  apply bind_Ok_inv in Hrun as (attrs & ? & [_ ->]%lift_Ok_inv & Hrun).
  apply bind_Ok_inv in Hrun as (seen & ? & [-> ->]%query_Ok_inv & Hrun).
  apply bind_Ok_inv in Hrun as (sid & w2 & [= <- <-] & Hrun).
  apply bind_Ok_inv in Hrun as (cnt & ? & [-> ->]%query_Ok_inv & Hrun).
  apply bind_Ok_inv in Hrun as (? & w3 & [= _ <-] & Hrun). injection Hrun as <- <-.
  set (sg := make_signal (uuid_at _) _ _ _ _) in *.
  change (si_fingerprint (make_signal "" sensor obs attrs when)) with (si_fingerprint sg) in *.
  assert (si_ts sg = when) as Et by done. cbn [ps_signal ps_duplicate ps_correlation_count w_db with_db tick] in *.
  rewrite Et, D1 in *. rewrite filter_nonempty in *. set (dup := existsb _ (obs_signals (w_db w))) in *.
  set (pr := {| ps_signal := sg |}).
  assert (obs_signals (set_obs_signals (replace_signal (signal_of pr)) (w_db w))
    = obs_signals (w_db w) ++ [signal_of pr]) as E.
  { simpl. unfold replace_signal. by rewrite (filter_fresh sg_id). }
  split_and!; try done.
  - rewrite E, List.filter_app, length_app, Nat2Z.inj_add. f_equal. cbn [List.filter]. unfold correlated.
    change (sg_correlation_key (signal_of pr)) with (si_correlation_key sg).
    change (sg_ts (signal_of pr)) with when. change (sg_duplicate (signal_of pr)) with (if dup then 1 else 0)%Z.
    rewrite String.eqb_refl, (proj2 (qle_true _ _)) by lra. by destruct dup.
  - unfold sg. cbn [si_severity make_signal]. unfold observed_severity.
    destruct (str_in _ SEVERITIES) eqn:Es; [by apply str_in_iff | unfold SEVERITIES; set_solver].
  - intros k sb at_ Ef. apply sha256_eq_or_collide in Ef as [Ef|]; [left | by right].
    apply dumps_inj in Ef. unfold printed in Ef. cbn in Ef. injection Ef as Ea -> ->.
    split_and!; try done. simpl. by rewrite Ea.
Qed.

(** ** Sensor health *)

(** Outcomes reported for one sensor, the latest first, and the world they leave. *)
Record outcome := { oc_ok : bool; oc_error : option string; oc_ts : Q }.
Fixpoint after_reports (sensor : string) (l : list outcome) (w : World) : World :=
  match l with
  | [] => w
  | o :: l' => snd (update_sensor_health sensor (oc_ok o) (oc_error o) (Some (oc_ts o)) (after_reports sensor l' w))
  end.
(** Failures since the latest success. *)
Fixpoint streak (l : list outcome) : Z :=
  match l with
  | [] => 0
  | o :: l' => if oc_ok o then 0 else streak l' + 1
  end.
Definition latest (ok : bool) (l : list outcome) : option Q := oc_ts <$> List.find (λ o, Bool.eqb (oc_ok o) ok) l.

Lemma find_upsert {R} (key : R → string) r l :
  find_row key (key r) (upsert key r (λ _, r) l) = Some r.
Proof.
  unfold upsert, row_exists, find_row, update_row, update_where, has_key.
  induction l as [|x l IH]; simpl; [by rewrite String.eqb_refl|].
  destruct (key x =s key r) eqn:E; simpl; [by rewrite String.eqb_refl|].
  destruct (existsb _ l); simpl; rewrite E; exact IH.
Qed.
Lemma find_upsert_ne {R} (key : R → string) k r l :
  k ≠ key r → find_row key k (upsert key r (λ _, r) l) = find_row key k l.
Proof.
  intros Hne. unfold upsert. destruct (row_exists key (key r) l).
  - unfold find_row, update_row, update_where, has_key. induction l as [|x l IH]; [done|]. simpl.
    destruct (String.eqb_spec (key x) (key r)) as [E|E]; [|by destruct (key x =s k)].
    destruct (String.eqb_spec (key r) k); [congruence|]. destruct (String.eqb_spec (key x) k); [congruence|done].
  - rewrite find_row_app. destruct (find_row key k l); [done|]. unfold find_row, has_key. simpl.
    by destruct (String.eqb_spec (key r) k).
Qed.

(** The row of a sensor after its reports, and one report more. *)
Definition health_after (sensor : string) (l : list outcome) (w : World) (s : string) : option health_row :=
  find_row hl_sensor_id s (obs_sensor_health (w_db (after_reports sensor l w))).
Lemma next_health_id sensor ok err t row : hl_sensor_id (next_health sensor ok err t row) = sensor.
Proof. by destruct ok. Qed.
Lemma health_after_cons sensor o l w :
  health_after sensor (o :: l) w sensor
  = Some (next_health sensor (oc_ok o) (oc_error o) (oc_ts o) (health_after sensor l w sensor)).
Proof.
  unfold health_after. cbn [after_reports]. unfold update_sensor_health, mbind, M_bind, query, exec, gets, modify. simpl.
  set (r := next_health _ _ _ _ _).
  pose proof (find_upsert hl_sensor_id r (obs_sensor_health (w_db (after_reports sensor l w)))) as E.
  unfold r in E at 1. rewrite next_health_id in E. exact E.
Qed.
Lemma health_after_other sensor o l w s :
  s ≠ sensor → health_after sensor (o :: l) w s = health_after sensor l w s.
Proof.
  intros Hne. unfold health_after. cbn [after_reports].
  unfold update_sensor_health, mbind, M_bind, query, exec, gets, modify. simpl.
  apply find_upsert_ne. by rewrite next_health_id.
Qed.

(** What the row of a sensor knows about its reports. *)
Lemma health_after_counts sensor l w :
  find_row hl_sensor_id sensor (obs_sensor_health (w_db w)) = None →
  let row := health_after sensor l w sensor in
  match row with Some r => hl_consecutive_failures r | None => 0%Z end = streak l
  ∧ row ≫= hl_last_success = latest true l ∧ row ≫= hl_last_failure = latest false l ∧ (0 <= streak l)%Z.
Proof.
  intros Hnew. induction l as [|o l (I1 & I2 & I3 & I4)].
  - unfold health_after. simpl. by rewrite Hnew.
  - cbv zeta. rewrite health_after_cons. simpl. unfold next_health, latest. simpl.
    destruct (oc_ok o); simpl; rewrite ?I1, ?I2, ?I3; split_and!; try done; lia.
Qed.

(** Sensor health counts consecutive failures: after any sequence of
    reports for a sensor that had none, its row says HEALTHY when the last
    report succeeded, DEGRADED after one or two failures in a row and FAILED
    from the third on, with the exact count and the times of the latest success
    and failure; rows of other sensors are not touched. *)
Theorem sensor_health_counts sensor o l w
    (Hnew : find_row hl_sensor_id sensor (obs_sensor_health (w_db w)) = None) :
  let reports := o :: l in
  let n := streak reports in
  ∃ r, find_row hl_sensor_id sensor (obs_sensor_health (w_db (after_reports sensor reports w))) = Some r
    ∧ hl_consecutive_failures r = n
    ∧ hl_state r = (if (n =? 0)%Z then "HEALTHY" else if (n <? 3)%Z then "DEGRADED" else "FAILED")
    ∧ hl_last_success r = latest true reports ∧ hl_last_failure r = latest false reports
    ∧ ∀ other, other ≠ sensor →
        find_row hl_sensor_id other (obs_sensor_health (w_db (after_reports sensor reports w)))
        = find_row hl_sensor_id other (obs_sensor_health (w_db w)).
Proof.
  cbv zeta. destruct (health_after_counts sensor l w Hnew) as (I1 & I2 & I3 & I4).
  eexists. split; [apply health_after_cons|]. unfold next_health, latest. simpl. split_and!.
  1-4: destruct (oc_ok o); simpl; rewrite ?I1, ?I2, ?I3; try done.
  - by rewrite (proj2 (Z.eqb_neq (streak l + 1) 0)) by lia.
  - intros other Hne. transitivity (health_after sensor l w other); [by apply health_after_other|].
    clear I1 I2 I3 I4. induction l as [|o' l IH]; [done|]. by rewrite health_after_other.
Qed.
End signal_props.
