(* ===== verification/Diagnosis.v ===== *)
(** immune_core/diagnosis.py: incidents, hypotheses, diagnostic attempts and the
    progress detector. *)

From S2P Require Import Prelude Json Sha256 Schema Ledger Observability.

Record IncidentRef := {
  ir_id : string; ir_mission_id : string; ir_correlation_key : string; ir_state : string;
  ir_root_hypothesis_id : option string;
}.
Record HypothesisRef := {
  hr_id : string; hr_incident_id : string; hr_statement : string; hr_state : string; hr_confidence : Q;
}.
Record AttemptRef := {
  atr_id : string; atr_incident_id : string; atr_hypothesis_id : string; atr_strategy : string;
  atr_test_name : string; atr_outcome : string; atr_progress_score : Q; atr_evidence_id : string;
}.

Definition ACTIVE_INCIDENT_STATES : list string :=
  ["OPEN"; "INVESTIGATING"; "ROOT_CAUSE_CONFIRMED"; "REMEDIATING"; "VALIDATING"; "BLOCKED"].

(** ** Row updates *)
Definition incident_set (state : string) (root : option string) (ts : Q) (r : incident_row) : incident_row :=
  {| in_id := in_id r; in_mission_id := in_mission_id r; in_correlation_key := in_correlation_key r;
     in_title := in_title r; in_state := state; in_root_hypothesis_id := root;
     in_created_at := in_created_at r; in_updated_at := ts |}.
Definition incident_touch (ts : Q) (r : incident_row) : incident_row :=
  incident_set (in_state r) (in_root_hypothesis_id r) ts r.
Definition incident_state_to (state : string) (ts : Q) (r : incident_row) : incident_row :=
  incident_set state (in_root_hypothesis_id r) ts r.

Definition hypothesis_set (state : string) (confidence ts : Q) (r : hypothesis_row) : hypothesis_row :=
  {| hy_id := hy_id r; hy_incident_id := hy_incident_id r; hy_statement := hy_statement r; hy_state := state;
     hy_confidence := confidence; hy_created_at := hy_created_at r; hy_updated_at := ts |}.

Definition incident_ref (r : incident_row) : IncidentRef :=
  {| ir_id := in_id r; ir_mission_id := in_mission_id r; ir_correlation_key := in_correlation_key r;
     ir_state := in_state r; ir_root_hypothesis_id := in_root_hypothesis_id r |}.
Definition hypothesis_ref (r : hypothesis_row) : HypothesisRef :=
  {| hr_id := hy_id r; hr_incident_id := hy_incident_id r; hr_statement := hy_statement r;
     hr_state := hy_state r; hr_confidence := hy_confidence r |}.

(** ** Queries *)
Definition open_incident (mission_id key : string) (r : incident_row) : bool :=
  (in_mission_id r =s mission_id) && (in_correlation_key r =s key) && negb (in_state r =s "RESOLVED").
Definition oldest_incident (r s : incident_row) : bool := qle (in_created_at r) (in_created_at s).

Definition weight_sum (polarity hypothesis_id : string) (rows : list hyp_evidence_row) : Q :=
  fold_left (λ acc r, if (he_hypothesis_id r =s hypothesis_id) && (he_polarity r =s polarity)
                      then (acc + he_weight r)%Q else acc) rows 0%Q.

(** [outcome IN ('SUPPORTED','CONFIRMED') AND progress_score>0] *)
Definition positive_test (incident_id hypothesis_id : string) (r : attempt_row) : bool :=
  (at_incident_id r =s incident_id) && (at_hypothesis_id r =s hypothesis_id)
  && str_in (at_outcome r) ["SUPPORTED"; "CONFIRMED"] && qlt 0 (at_progress_score r).
Definition refuted_test (incident_id hypothesis_id : string) (r : attempt_row) : bool :=
  (at_incident_id r =s incident_id) && (at_hypothesis_id r =s hypothesis_id) && (at_outcome r =s "REFUTED").

(** [alt_refute <= alt_support and refuted_test is None] *)
Definition undiscriminated (incident_id alternative_id : string) (ev : list hyp_evidence_row)
    (attempts : list attempt_row) : bool :=
  qle (weight_sum "refute" alternative_id ev) (weight_sum "support" alternative_id ev)
  && negb (existsb (refuted_test incident_id alternative_id) attempts).

Definition evidence_link (h e p : string) (r : hyp_evidence_row) : bool :=
  (he_hypothesis_id r =s h) && (he_evidence_id r =s e) && (he_polarity r =s p).
Definition signal_link (i s : string) (r : incident_signal_row) : bool :=
  (is_incident_id r =s i) && (is_signal_id r =s s).

Section diagnosis.
Context `{JsonText, Entropy}.
Context (audited : bool).

Definition diag_digest (v : json) : string := sha256_hex (dumps Compact v).

Definition incident_row_of (incident_id : string) : IO incident_row :=
  row ← query (λ d, find_row in_id incident_id (diag_incidents d));
  match row with
  | None => throw DiagnosisError "incident not found"
  | Some r => mret r
  end.

Definition incident (incident_id : string) : IO IncidentRef :=
  r ← incident_row_of incident_id; mret (incident_ref r).

Definition signal_payload (signal_id : string) (s : signal_row) : dict :=
  [("signal_id", JStr signal_id); ("sensor_id", JStr (sg_sensor_id s)); ("kind", JStr (sg_kind s));
   ("subject", JStr (sg_subject s)); ("severity", JStr (sg_severity s));
   ("fingerprint", JStr (sg_fingerprint s)); ("raw_sha256", JStr (sg_raw_sha256 s))].

Definition create_or_attach_from_signal (signal_id mission_id : string) (title : option string)
    (now : option Q) : IO IncidentRef :=
  signal ← query (λ d, find_row sg_id signal_id (obs_signals d));
  match signal with
  | None => throw DiagnosisError "signal not found"
  | Some s =>
      when ← now_or_time now;
      let key := sg_correlation_key s in
      existing ← query (λ d, head (order_by oldest_incident
                   (List.filter (open_incident mission_id key) (diag_incidents d))));
      incident_id ← match existing with
        | None =>
            iid ← uuid4;
            rows ← query diag_incidents;
            _ ← raise_if (row_exists in_id iid rows) IntegrityError
                  "UNIQUE constraint failed: diag_incidents.id";
            _ ← exec (set_diag_incidents (λ l, l ++
                  [{| in_id := iid; in_mission_id := mission_id; in_correlation_key := key;
                      in_title := str_or (default "" title) ("Incident " +:+ key); in_state := "OPEN";
                      in_root_hypothesis_id := None; in_created_at := when; in_updated_at := when |}]));
            mret iid
        | Some r =>
            _ ← exec (set_diag_incidents (update_row in_id (in_id r) (incident_touch when)));
            mret (in_id r)
        end;
      ev ← evidence audited "incident_signal" (signal_payload signal_id s) (Some mission_id) (Some when);
      _ ← exec (set_diag_incident_signals (λ l,
            if existsb (signal_link incident_id signal_id) l then l
            else l ++ [{| is_incident_id := incident_id; is_signal_id := signal_id; is_evidence_id := er_id ev |}]));
      _ ← exec (set_diag_incidents (update_where
            (λ r, (in_id r =s incident_id) && (in_state r =s "OPEN")) (incident_state_to "INVESTIGATING" when)));
      _ ← audit "diagnosis-engine" "incident_signal_attached" (Some mission_id)
            [("incident_id", JStr incident_id); ("signal_id", JStr signal_id); ("evidence_id", JStr (er_id ev))]
            (Some when);
      incident incident_id
  end.

Definition add_hypothesis (incident_id statement : string) (confidence : Q) (now : option Q) : IO HypothesisRef :=
  _ ← raise_if (blank statement) DiagnosisError "hypothesis statement is required";
  inc ← incident_row_of incident_id;
  _ ← raise_if (in_state inc =s "RESOLVED") DiagnosisError "resolved incident cannot accept new hypotheses";
  when ← now_or_time now;
  hid ← uuid4;
  let row := {| hy_id := hid; hy_incident_id := incident_id; hy_statement := strip statement;
                hy_state := "ACTIVE"; hy_confidence := py_max 0 (py_min 1 confidence);
                hy_created_at := when; hy_updated_at := when |} in
  rows ← query diag_hypotheses;
  _ ← raise_if (row_exists hy_id hid rows) IntegrityError "UNIQUE constraint failed: diag_hypotheses.id";
  _ ← exec (set_diag_hypotheses (λ l, l ++ [row]));
  _ ← audit "diagnosis-engine" "hypothesis_created" (Some (in_mission_id inc))
        [("incident_id", JStr incident_id); ("hypothesis_id", JStr hid)] (Some when);
  mret (hypothesis_ref row).

Definition hypothesis (hypothesis_id : string) : IO HypothesisRef :=
  row ← query (λ d, find_row hy_id hypothesis_id (diag_hypotheses d));
  match row with
  | None => throw DiagnosisError "hypothesis not found"
  | Some r => mret (hypothesis_ref r)
  end.

(** support and refute *)
Definition evidence_weights (hypothesis_id : string) : IO (Q * Q) :=
  query (λ d, (weight_sum "support" hypothesis_id (diag_hypothesis_evidence d),
               weight_sum "refute" hypothesis_id (diag_hypothesis_evidence d))).

Definition weighed_state (support refute : Q) : string :=
  if qlt refute support then "SUPPORTED" else if qlt support refute then "REFUTED" else "ACTIVE".
Definition weighed_confidence (support refute : Q) : Q :=
  py_max 0 (py_min 1 ((1 # 2) + (3 # 25) * (support - refute))).

Definition link_evidence (hypothesis_id evidence_id polarity : string) (weight : Q) (kind : string)
    (now : option Q) : IO HypothesisRef :=
  hyp ← hypothesis hypothesis_id;
  _ ← raise_if (negb (str_in polarity ["support"; "refute"])) DiagnosisError "polarity must be support or refute";
  _ ← raise_if (qle weight 0) DiagnosisError "evidence weight must be positive";
  ok ← verify_evidence evidence_id;
  _ ← raise_if (negb ok) DiagnosisError "evidence integrity verification failed";
  when ← now_or_time now;
  _ ← exec (set_diag_hypothesis_evidence (λ l,
        List.filter (λ r, negb (evidence_link hypothesis_id evidence_id polarity r)) l ++
        [{| he_hypothesis_id := hypothesis_id; he_evidence_id := evidence_id; he_polarity := polarity;
            he_weight := weight; he_kind := kind; he_created_at := when |}]));
  weights ← evidence_weights hypothesis_id;
  let '(support, refute) := weights in
  _ ← exec (set_diag_hypotheses (update_row hy_id hypothesis_id
        (hypothesis_set (weighed_state support refute) (weighed_confidence support refute) when)));
  inc ← incident_row_of (hr_incident_id hyp);
  _ ← audit "diagnosis-engine" "hypothesis_evidence_linked" (Some (in_mission_id inc))
        [("incident_id", JStr (hr_incident_id hyp)); ("hypothesis_id", JStr hypothesis_id);
         ("evidence_id", JStr evidence_id); ("polarity", JStr polarity); ("kind", JStr kind)] (Some when);
  hypothesis hypothesis_id.

Definition strategy_digest (strategy test_name : string) : string :=
  diag_digest (JObj [("strategy", JStr (strip strategy)); ("test_name", JStr (strip test_name))]).

Definition record_attempt (incident_id hypothesis_id strategy test_name outcome : string) (progress_score : Q)
    (evidence_id : string) (now : option Q) : IO AttemptRef :=
  hyp ← hypothesis hypothesis_id;
  _ ← raise_if (negb (hr_incident_id hyp =s incident_id)) DiagnosisError "hypothesis does not belong to incident";
  _ ← raise_if (blank strategy || blank test_name) DiagnosisError "strategy and test name are required";
  ok ← verify_evidence evidence_id;
  _ ← raise_if (negb ok) DiagnosisError "attempt evidence integrity verification failed";
  when ← now_or_time now;
  aid ← uuid4;
  let normalized := upper (strip outcome) in
  rows ← query diag_attempts;
  _ ← raise_if (row_exists at_id aid rows) IntegrityError "UNIQUE constraint failed: diag_attempts.id";
  _ ← exec (set_diag_attempts (λ l, l ++
        [{| at_id := aid; at_incident_id := incident_id; at_hypothesis_id := hypothesis_id;
            at_strategy := strip strategy; at_test_name := strip test_name; at_outcome := normalized;
            at_progress_score := progress_score; at_evidence_id := evidence_id;
            at_strategy_fingerprint := strategy_digest strategy test_name; at_created_at := when |}]));
  inc ← incident_row_of incident_id;
  _ ← audit "diagnosis-engine" "diagnostic_attempt_recorded" (Some (in_mission_id inc))
        [("incident_id", JStr incident_id); ("hypothesis_id", JStr hypothesis_id); ("attempt_id", JStr aid);
         ("strategy", JStr strategy); ("test_name", JStr test_name); ("outcome", JStr normalized);
         ("progress_score", JNum progress_score); ("evidence_id", JStr evidence_id)] (Some when);
  mret {| atr_id := aid; atr_incident_id := incident_id; atr_hypothesis_id := hypothesis_id;
          atr_strategy := strip strategy; atr_test_name := strip test_name; atr_outcome := normalized;
          atr_progress_score := progress_score; atr_evidence_id := evidence_id |}.

(** [ORDER BY confidence DESC, created_at ASC] *)
Definition rank_leb (r s : hypothesis_row) : bool :=
  qlt (hy_confidence s) (hy_confidence r)
  || (Qeq_bool (hy_confidence s) (hy_confidence r) && qle (hy_created_at r) (hy_created_at s)).
Definition rank_hypotheses (incident_id : string) : IO (list HypothesisRef) :=
  query (λ d, map hypothesis_ref (order_by rank_leb
    (List.filter (λ r, hy_incident_id r =s incident_id) (diag_hypotheses d)))).

Definition alternative (incident_id hypothesis_id : string) (r : hypothesis_row) : bool :=
  (hy_incident_id r =s incident_id) && negb (hy_id r =s hypothesis_id).

Definition confirm_root_cause (incident_id hypothesis_id : string) (now : option Q) : IO HypothesisRef :=
  inc ← incident_row_of incident_id;
  hyp ← hypothesis hypothesis_id;
  _ ← raise_if (negb (hr_incident_id hyp =s incident_id)) DiagnosisError "hypothesis does not belong to incident";
  weights ← evidence_weights hypothesis_id;
  let '(support, refute) := weights in
  _ ← raise_if (qle support 0 || qle support refute) DiagnosisError "root cause requires net supporting evidence";
  attempts ← query diag_attempts;
  _ ← raise_if (negb (existsb (positive_test incident_id hypothesis_id) attempts)) DiagnosisError
        "root cause requires a positive discriminating test";
  alternatives ← query (λ d, List.filter (alternative incident_id hypothesis_id) (diag_hypotheses d));
  ev ← query diag_hypothesis_evidence;
  _ ← for_each alternatives (λ r,
        raise_if (undiscriminated incident_id (hy_id r) ev attempts) DiagnosisError
          "competing hypothesis has not been discriminated");
  when ← now_or_time now;
  _ ← exec (set_diag_hypotheses (update_row hy_id hypothesis_id (hypothesis_set "ROOT_CAUSE" 1 when)));
  _ ← exec (set_diag_incidents (update_row in_id incident_id
        (incident_set "ROOT_CAUSE_CONFIRMED" (Some hypothesis_id) when)));
  _ ← audit "diagnosis-engine" "root_cause_confirmed" (Some (in_mission_id inc))
        [("incident_id", JStr incident_id); ("hypothesis_id", JStr hypothesis_id)] (Some when);
  hypothesis hypothesis_id.

Definition set_incident_state (incident_id state : string) (now : option Q) : IO IncidentRef :=
  _ ← raise_if (negb (str_in state (ACTIVE_INCIDENT_STATES ++ ["RESOLVED"]))) DiagnosisError
        "invalid incident state";
  inc ← incident_row_of incident_id;
  when ← now_or_time now;
  _ ← exec (set_diag_incidents (update_row in_id incident_id (incident_state_to state when)));
  _ ← audit "diagnosis-engine" "incident_state_changed" (Some (in_mission_id inc))
        [("incident_id", JStr incident_id); ("from", JStr (in_state inc)); ("to", JStr state)] (Some when);
  incident incident_id.

Definition resolve_incident (incident_id validation_evidence_id : string)
    (recovery_verified regression_verified : bool) (now : option Q) : IO IncidentRef :=
  inc ← incident_row_of incident_id;
  _ ← raise_if (negb (in_state inc =s "VALIDATING")
                || match in_root_hypothesis_id inc with Some h => h =s "" | None => true end)
        DiagnosisError "incident must be validating with confirmed root cause";
  _ ← raise_if (negb recovery_verified || negb regression_verified) DiagnosisError
        "recovery and regression validation are mandatory";
  ok ← verify_evidence validation_evidence_id;
  _ ← raise_if (negb ok) DiagnosisError "validation evidence integrity verification failed";
  set_incident_state incident_id "RESOLVED" now.

(** ** Progress detector *)
Record ProgressStatus := { st_state : string; st_reason : string; st_fingerprint : option string }.
Definition newest_attempt (r s : attempt_row) : bool := qle (at_created_at s) (at_created_at r).

Definition last_attempts (threshold : Z) (incident_id : string) (rows : list attempt_row) : list attempt_row :=
  take (Z.to_nat threshold) (order_by newest_attempt (List.filter (λ r, at_incident_id r =s incident_id) rows)).

Definition progress_of (threshold : Z) (rows : list attempt_row) : ProgressStatus :=
  if (Z.of_nat (length rows) <? threshold)%Z
  then {| st_state := "PROGRESSING"; st_reason := "insufficient repeated attempts"; st_fingerprint := None |}
  else match remove_dups (map at_strategy_fingerprint rows) with
       | [f] => if forallb (λ r, qle (at_progress_score r) 0) rows
                then {| st_state := "STALLED"; st_reason := "same strategy repeated without measurable progress";
                        st_fingerprint := Some f |}
                else {| st_state := "PROGRESSING"; st_reason := "strategy or evidence changed";
                        st_fingerprint := None |}
       | _ => {| st_state := "PROGRESSING"; st_reason := "strategy or evidence changed"; st_fingerprint := None |}
       end.

(** The constructor check and [status]. *)
Definition progress_detector (repeat_threshold : Z) : IO unit :=
  raise_if (repeat_threshold <? 2)%Z ValueError "repeat_threshold must be >= 2".
Definition progress_status (threshold : Z) (incident_id : string) : IO ProgressStatus :=
  query (λ d, progress_of threshold (last_attempts threshold incident_id (diag_attempts d))).

Definition require_strategy_change (threshold : Z) (incident_id strategy test_name : string) : IO unit :=
  status ← progress_status threshold incident_id;
  if negb (st_state status =s "STALLED") then mret tt
  else raise_if (match st_fingerprint status with Some f => strategy_digest strategy test_name =s f | None => false end)
         DiagnosisError "stalled loop requires a different diagnostic strategy".

Definition STRATEGIES : list string :=
  ["controlled_reproduction"; "counterfactual"; "dependency_isolation"; "bisection"; "configuration_diff";
   "fault_injection"].
Definition suggest_strategy (incident_id : string) : IO string :=
  query (λ d, let used := map at_strategy (List.filter (λ r, at_incident_id r =s incident_id) (diag_attempts d)) in
              default "independent_reproduction" (List.find (λ c, negb (str_in c used)) STRATEGIES)).
End diagnosis.
