(* ===== verification/DiagnosisProps.v ===== *)
(** Root causes are confirmed only on discriminating evidence; the diagnosis
    tables stay consistent; a stalled investigation must change its strategy. *)

From S2P Require Import Prelude Json Sha256 Schema Ledger LedgerProps Observability Diagnosis.

Section diag_invariant.
Context `{JsonText, Entropy}.

Definition hypothesis_states : list string := ["ACTIVE"; "SUPPORTED"; "REFUTED"; "ROOT_CAUSE"].

(** ** Invariant *)
Record hypothesis_ok (incidents : list string) (r : hypothesis_row) : Prop := {
  hok_state : hy_state r ∈ hypothesis_states;
  hok_confidence : (0 <= hy_confidence r)%Q ∧ (hy_confidence r <= 1)%Q;
  hok_incident : hy_incident_id r ∈ incidents;
  hok_statement : blank (hy_statement r) = false;
}.
Definition root_ok (hyps : list hypothesis_row) (r : incident_row) : Prop :=
  ∀ h, in_root_hypothesis_id r = Some h →
    ∃ x, find_row hy_id h hyps = Some x ∧ hy_incident_id x = in_id r.
Record diag_wf (d : DiagTables) : Prop := {
  dw_incidents : unique_key in_id (diag_incidents d);
  dw_hypotheses : unique_key hy_id (diag_hypotheses d);
  dw_states : Forall (λ r, in_state r ∈ ACTIVE_INCIDENT_STATES ++ ["RESOLVED"]) (diag_incidents d);
  dw_roots : Forall (root_ok (diag_hypotheses d)) (diag_incidents d);
  dw_hyp_ok : Forall (hypothesis_ok (map in_id (diag_incidents d))) (diag_hypotheses d);
  dw_weights : Forall (λ r, he_polarity r ∈ ["support"; "refute"] ∧ (0 < he_weight r)%Q) (diag_hypothesis_evidence d);
  dw_attempts : Forall (λ r, at_strategy_fingerprint r = strategy_digest (at_strategy r) (at_test_name r))
                  (diag_attempts d);
}.
Definition db_diag_wf (d : DB) : Prop := diag_wf d.
Abbreviation keeps_diag := (on_db (keeps db_diag_wf)).

(** ** Writes *)
Section writes.
Context (d : DB) (Hd : diag_wf d).

Lemma diag_incident_update p g :
  (∀ r, in_id (g r) = in_id r) →
  (∀ r, r ∈ diag_incidents d → p r = true → in_state (g r) ∈ ACTIVE_INCIDENT_STATES ++ ["RESOLVED"]) →
  (∀ r, r ∈ diag_incidents d → p r = true → root_ok (diag_hypotheses d) (g r)) →
  diag_wf (set_diag_incidents (update_where p g) d).
Proof.
  intros Hid Hst Hrt. destruct Hd as [Hi Hh Hs Hr Hy Hw Ha].
  split; simpl; unfold unique_key in *; rewrite ?update_where_keys by done; try done.
  - apply Forall_forall. intros y Hin. apply list_elem_of_fmap in Hin as (x & -> & Hx).
    destruct (p x) eqn:E; [auto|]. rewrite Forall_forall in Hs. auto.
  - apply Forall_forall. intros y Hin. apply list_elem_of_fmap in Hin as (x & -> & Hx).
    destruct (p x) eqn:E; [auto|]. rewrite Forall_forall in Hr. auto.
Qed.

Lemma diag_incident_insert r :
  in_id r ∉ map in_id (diag_incidents d) → in_state r ∈ ACTIVE_INCIDENT_STATES ++ ["RESOLVED"] →
  in_root_hypothesis_id r = None → diag_wf (set_diag_incidents (λ l, l ++ [r]) d).
Proof.
  intros Hn Hst Hrt. destruct Hd as [Hi Hh Hs Hr Hy Hw Ha]. split; simpl; try done.
  - by apply unique_key_snoc.
  - apply Forall_app. split; [done|]. by apply Forall_singleton.
  - apply Forall_app. split; [done|]. apply Forall_singleton. intros h E. congruence.
  - rewrite map_app. eapply Forall_impl; [exact Hy|]. intros x [? ? Hx ?]. split; try done.
    apply elem_of_app. by left.
Qed.

Lemma diag_hypothesis_insert r :
  hy_id r ∉ map hy_id (diag_hypotheses d) → hypothesis_ok (map in_id (diag_incidents d)) r →
  diag_wf (set_diag_hypotheses (λ l, l ++ [r]) d).
Proof.
  intros Hn Hok. destruct Hd as [Hi Hh Hs Hr Hy Hw Ha]. split; simpl; try done.
  - by apply unique_key_snoc.
  - eapply Forall_impl; [exact Hr|]. intros x Hx h E. destruct (Hx h E) as (y & Hy' & Ey).
    exists y. split; [|done]. rewrite find_row_app. by rewrite Hy'.
  - apply Forall_app. split; [done|]. by apply Forall_singleton.
Qed.

Lemma diag_hypothesis_update id st conf ts :
  st ∈ hypothesis_states → (0 <= conf)%Q ∧ (conf <= 1)%Q →
  diag_wf (set_diag_hypotheses (update_row hy_id id (hypothesis_set st conf ts)) d).
Proof.
  intros Hst Hc. destruct Hd as [Hi Hh Hs Hr Hy Hw Ha]. split; simpl; try done.
  - unfold unique_key. by rewrite update_row_keys.
  - eapply Forall_impl; [exact Hr|]. intros x Hx h E. destruct (Hx h E) as (y & Hy' & Ey).
    destruct (decide (h = id)) as [->|Hne].
    + rewrite find_update_eq, Hy' by done. eexists. split; [done|]. done.
    + rewrite find_update_ne by done. by exists y.
  - apply update_row_Forall; [done|]. intros x Hx _ [? ? ? ?]. split; done.
Qed.
End writes.

Lemma find_incident_in (d : DiagTables) id r :
  find_row in_id id (diag_incidents d) = Some r → r ∈ diag_incidents d ∧ in_id r = id.
Proof. apply find_row_Some. Qed.

Lemma incident_row_of_inv id w r w' :
  incident_row_of id w = (Ok r, w') → w' = w ∧ find_row in_id id (diag_incidents (w_db w)) = Some r.
Proof.
  unfold incident_row_of. intros (row & ? & [-> ->]%query_Ok_inv & Hr)%bind_Ok_inv.
  destruct (find_row _ _ _); [|done]. by injection Hr as <- <-.
Qed.
Lemma hypothesis_inv id w h w' :
  hypothesis id w = (Ok h, w') →
  w' = w ∧ ∃ r, find_row hy_id id (diag_hypotheses (w_db w)) = Some r ∧ h = hypothesis_ref r.
Proof.
  unfold hypothesis. intros (row & ? & [-> ->]%query_Ok_inv & Hr)%bind_Ok_inv.
  destruct (find_row _ _ _) as [r|]; [|done]. injection Hr as <- <-. split; [done|]. by exists r.
Qed.

(** Reads, and writes to other tables. *)
Section reads.
Context (R : relation DB) `{!PreOrder R}.
Lemma incident_row_of_respects id : respects (on_db R) (incident_row_of id).
Proof. unfold incident_row_of. io_respects. Qed.
Lemma hypothesis_respects id : respects (on_db R) (hypothesis id).
Proof. unfold hypothesis. io_respects. Qed.
Lemma verify_evidence_respects id : respects (on_db R) (verify_evidence id).
Proof. unfold verify_evidence. io_respects. Qed.
Lemma evidence_weights_respects id : respects (on_db R) (evidence_weights id).
Proof. apply respects_query; typeclasses eauto. Qed.
End reads.
Hint Resolve incident_row_of_respects hypothesis_respects verify_evidence_respects evidence_weights_respects : respects.
Lemma incident_respects R `{!PreOrder R} id : respects (on_db R) (incident id).
Proof. unfold incident. io_respects. Qed.
Hint Resolve incident_respects : respects.

Lemma audit_diag actor action mid payload now : respects keeps_diag (audit actor action mid payload now).
Proof. apply audit_frame; [typeclasses eauto|]. intros e ts d. exact (λ H, H). Qed.
Hint Resolve audit_diag : respects.
Lemma evidence_diag audited kind payload mid ts : respects keeps_diag (evidence audited kind payload mid ts).
Proof. unfold evidence. io_respects. Qed.
Hint Resolve evidence_diag : respects.
End diag_invariant.

#[export] Hint Resolve incident_row_of_respects hypothesis_respects verify_evidence_respects evidence_weights_respects
  incident_respects audit_diag evidence_diag : respects.

Abbreviation keeps_diag := (on_db (keeps db_diag_wf)).

(** ** Every operation keeps the invariant *)
Section diag_keeps.
Context `{JsonText, Entropy}.

(** One write whose effect is known, the rest by the rules. *)
Ltac write :=
  apply respects_at_bind; [typeclasses eauto | | intros; try (apply respects_at_any; io_respects)];
  [unfold respects_at, on_db, exec, modify, keeps, db_diag_wf; simpl; intros Hwf].

Lemma diag_signals_update (d : DB) f : keeps db_diag_wf d (set_diag_incident_signals f d).
Proof. intros [Hi Hh Hs Hr Hy Hw Ha]. by split. Qed.

Lemma active_state s : s ∈ ACTIVE_INCIDENT_STATES → s ∈ ACTIVE_INCIDENT_STATES ++ ["RESOLVED"].
Proof. intros. apply elem_of_app. by left. Qed.

Lemma create_or_attach_keeps audited sid mid title now :
  respects keeps_diag (create_or_attach_from_signal audited sid mid title now).
Proof.
  unfold create_or_attach_from_signal. apply respects_of_at. intros w. at_step.
  destruct (find_row sg_id sid _) as [s|]; [|apply respects_at_any; io_respects].
  at_step. at_step. apply respects_at_bind; [typeclasses eauto| |intros iid w2 _].
  - destruct (head _) as [r|].
    + write. apply diag_incident_update; [done|done| |].
      * intros y Hy _. pose proof (dw_states _ Hwf) as Hs. rewrite Forall_forall in Hs. exact (Hs y Hy).
      * intros y Hy _. pose proof (dw_roots _ Hwf) as Hr. rewrite Forall_forall in Hr. exact (Hr y Hy).
    + do 3 at_step. write. apply diag_incident_insert; [done|by apply row_exists_false| |done].
      apply active_state. by left.
  - at_step. apply respects_at_bind; [typeclasses eauto | exact (diag_signals_update _ _) | intros ? ? _]. write.
    apply diag_incident_update; [done|done| |].
    + intros y Hy _. apply active_state. right. by left.
    + intros y Hy _. pose proof (dw_roots _ Hwf) as Hr. rewrite Forall_forall in Hr. exact (Hr y Hy).
Qed.

Lemma add_hypothesis_keeps iid st conf now : respects keeps_diag (add_hypothesis iid st conf now).
Proof.
  unfold add_hypothesis. apply respects_of_at. intros w. do 7 at_step.
  apply incident_row_of_inv in Hm as [-> [Hin Eid]%find_incident_in]. write.
  apply diag_hypothesis_insert; [done|by apply row_exists_false|].
  split; simpl; [by left|apply clamp_unit| |].
  - rewrite Hdb1, Hdb0, <- Eid. by apply list_elem_of_fmap_2.
  - unfold blank in *. by rewrite strip_idem.
Qed.

Lemma weighed_state_ok s r : weighed_state s r ∈ hypothesis_states.
Proof. unfold weighed_state, hypothesis_states. repeat case_match; set_solver. Qed.

Lemma link_evidence_keeps hid eid pol wt kind now : respects keeps_diag (link_evidence hid eid pol wt kind now).
Proof.
  unfold link_evidence. apply respects_of_at. intros w. do 6 at_step.
  apply negb_false_iff, str_in_iff in Hg. apply qle_false in Hg0.
  apply respects_at_bind; [typeclasses eauto | | intros ? ? _].
  { unfold respects_at, on_db, exec, modify, keeps, db_diag_wf. simpl. intros [Hi Hh Hs Hr Hyp Hw Ha].
    split; simpl; try done. apply Forall_app. split; [|by apply Forall_singleton].
    apply Forall_forall. intros y Hy. apply list_elem_of_In, filter_In in Hy as [Hy _].
    rewrite Forall_forall in Hw. by apply Hw, list_elem_of_In. }
  at_step. destruct x5 as [sup ref]. write.
  apply diag_hypothesis_update; [done|apply weighed_state_ok|apply clamp_unit].
Qed.

Lemma record_attempt_keeps iid hid st tn oc ps eid now :
  respects keeps_diag (record_attempt iid hid st tn oc ps eid now).
Proof.
  unfold record_attempt. apply respects_of_at. intros w. do 9 at_step. write.
  destruct Hwf as [Hi Hh Hs Hr Hy Hw Ha]. split; simpl; try done.
  apply Forall_app. split; [done|]. apply Forall_singleton. simpl. unfold strategy_digest. by rewrite !strip_idem.
Qed.

Lemma confirm_root_cause_keeps iid hid now : respects keeps_diag (confirm_root_cause iid hid now).
Proof.
  unfold confirm_root_cause. apply respects_of_at. intros w. do 4 at_step. destruct x2 as [sup ref].
  do 7 at_step.
  apply incident_row_of_inv in Hm as [-> Hfi]. apply hypothesis_inv in Hm0 as (-> & r & Hfh & ->).
  apply negb_false_iff, String.eqb_eq in Hg. simpl in Hg.
  apply respects_at_bind; [typeclasses eauto | | intros ? ? [= _ <-]].
  { unfold respects_at, on_db, exec, modify, keeps, db_diag_wf. simpl. intros Hwf.
    apply diag_hypothesis_update; [done|unfold hypothesis_states; set_solver|split; lra]. }
  write. apply (diag_incident_update
    (set_diag_hypotheses (update_row hy_id hid (hypothesis_set "ROOT_CAUSE" 1 x5)) (w_db w4)) Hwf); [done| |].
  - intros y Hy _. simpl. apply active_state. do 2 right. by left.
  - intros y Hy Ex h [= <-]. simpl. unfold has_key in Ex. apply String.eqb_eq in Ex.
    rewrite find_update_eq by done.
    match goal with |- ∃ x, hypothesis_set _ _ _ <$> ?f = _ ∧ _ => assert (f = Some r) as -> by congruence end.
    eexists. split; [done|]. simpl. congruence.
Qed.

Lemma set_incident_state_keeps iid st now : respects keeps_diag (set_incident_state iid st now).
Proof.
  unfold set_incident_state. apply respects_of_at. intros w. do 3 at_step.
  apply negb_false_iff, str_in_iff in Hg. write. apply diag_incident_update; [done|done|done|].
  intros y Hy _. pose proof (dw_roots _ Hwf) as Hr. rewrite Forall_forall in Hr. exact (Hr y Hy).
Qed.
Hint Resolve set_incident_state_keeps : respects.
Lemma resolve_incident_keeps iid eid a b now : respects keeps_diag (resolve_incident iid eid a b now).
Proof. unfold resolve_incident. io_respects. Qed.
End diag_keeps.

(** ** What the engine guarantees *)
Section diag_claims.
Context `{JsonText, Entropy}.

(** Any call of the incident engine, returning or raising. *)
Inductive diag_step (audited : bool) (w : World) : World → Prop :=
| step_attach s m t now : diag_step audited w (snd (create_or_attach_from_signal audited s m t now w))
| step_hypothesis i s c now : diag_step audited w (snd (add_hypothesis i s c now w))
| step_link h e p wt k now : diag_step audited w (snd (link_evidence h e p wt k now w))
| step_attempt i h s t o ps e now : diag_step audited w (snd (record_attempt i h s t o ps e now w))
| step_confirm i h now : diag_step audited w (snd (confirm_root_cause i h now w))
| step_state i s now : diag_step audited w (snd (set_incident_state i s now w))
| step_resolve i e a b now : diag_step audited w (snd (resolve_incident i e a b now w)).

(** C14. The diagnosis tables stay consistent under every sequence of engine
    calls, returning or raising: incident and hypothesis ids are unique, every
    incident is in one of the states the engine knows (its ACTIVE_INCIDENT_STATES or
    RESOLVED, most of which the declared state machine of incidents does not have), a
    root cause names a stored hypothesis of that incident, every hypothesis belongs
    to a stored incident and has a confidence in [0, 1], evidence weights are
    positive and the fingerprint of every attempt is the digest of its strategy and
    test. *)
Theorem diagnosis_invariant audited w w'
    (Hwf : diag_wf (w_db w))
    (Hreach : rtc (diag_step audited) w w') :
  diag_wf (w_db w').
Proof.
  revert Hwf. induction Hreach as [w|w w1 w2 Hs _ IH]; intros Hwf; [done|]. apply IH.
  destruct Hs; [apply create_or_attach_keeps | apply add_hypothesis_keeps | apply link_evidence_keeps
    | apply record_attempt_keeps | apply confirm_root_cause_keeps | apply set_incident_state_keeps
    | apply resolve_incident_keeps]; exact Hwf.
Qed.

Lemma for_each_raise_if {A} (l : list A) (b : A → bool) c msg (w : World) ys w' :
  for_each l (λ x, raise_if (b x) c msg) w = (Ok ys, w') → w' = w ∧ ∀ x, x ∈ l → b x = false.
Proof.
  revert w ys w'. induction l as [|x l IH]; intros w ys w'; simpl.
  - intros [= _ <-]. split; [done|]. intros x Hx. by apply elem_of_nil in Hx.
  - intros (y & w1 & [Hb ->]%raise_if_Ok_inv & (zs & w2 & (-> & Hl)%IH & [= _ <-])%bind_Ok_inv)%bind_Ok_inv.
    split; [done|]. intros z [->|Hz]%elem_of_cons; auto.
Qed.

(** A root cause is confirmed only on discriminating evidence: when
    [confirm_root_cause] returns, the hypothesis belongs to the incident, its
    supporting evidence is positive and outweighs the refuting evidence, some
    test of it was positive with progress, and every competing hypothesis of
    the incident is outweighed by refuting evidence or has a refuting test; the
    hypothesis is then ROOT_CAUSE with confidence 1 and the incident names it. *)
Theorem confirm_root_cause_sound iid hid now w h w'
    (Hrun : confirm_root_cause iid hid now w = (Ok h, w')) :
  (∃ r, find_row hy_id hid (diag_hypotheses (w_db w)) = Some r ∧ hy_incident_id r = iid)
  ∧ (let ev := diag_hypothesis_evidence (w_db w) in
     (0 < weight_sum "support" hid ev)%Q ∧ (weight_sum "refute" hid ev < weight_sum "support" hid ev)%Q
     ∧ (∃ a, a ∈ diag_attempts (w_db w) ∧ positive_test iid hid a = true)
     ∧ ∀ alt, alt ∈ diag_hypotheses (w_db w) → hy_incident_id alt = iid → hy_id alt ≠ hid →
         (weight_sum "support" (hy_id alt) ev < weight_sum "refute" (hy_id alt) ev)%Q
         ∨ ∃ a, a ∈ diag_attempts (w_db w) ∧ refuted_test iid (hy_id alt) a = true)
  ∧ hr_state h = "ROOT_CAUSE" ∧ hr_confidence h = 1%Q
  ∧ ∃ i, find_row in_id iid (diag_incidents (w_db w')) = Some i
      ∧ in_state i = "ROOT_CAUSE_CONFIRMED" ∧ in_root_hypothesis_id i = Some hid.
Proof.
  unfold confirm_root_cause in Hrun.
  apply bind_Ok_inv in Hrun as (inc & ? & (-> & Hfi)%incident_row_of_inv & Hrun).
  apply bind_Ok_inv in Hrun as (hyp & ? & (-> & r & Hfh & ->)%hypothesis_inv & Hrun).
  apply bind_Ok_inv in Hrun as (? & ? & [Hg1%negb_false_iff%String.eqb_eq ->]%raise_if_Ok_inv & Hrun).
  apply bind_Ok_inv in Hrun as (ws & ? & [-> ->]%query_Ok_inv & Hrun).
  apply bind_Ok_inv in Hrun as (? & ? & [[Hs0%qle_false Hs1%qle_false]%orb_false_iff ->]%raise_if_Ok_inv & Hrun).
  apply bind_Ok_inv in Hrun as (atts & ? & [-> ->]%query_Ok_inv & Hrun).
  apply bind_Ok_inv in Hrun as (? & ? & [Hpos%negb_false_iff%existsb_exists ->]%raise_if_Ok_inv & Hrun).
  apply bind_Ok_inv in Hrun as (alts & ? & [-> ->]%query_Ok_inv & Hrun).
  apply bind_Ok_inv in Hrun as (evs & ? & [-> ->]%query_Ok_inv & Hrun).
  apply bind_Ok_inv in Hrun as (? & ? & [-> Halt]%for_each_raise_if & Hrun).
  apply bind_Ok_inv in Hrun as (when & w1 & Hn & Hrun).
  assert (w_db w1 = w_db w) as D1 by (refine (steady_run _ _ _ _ _ Hn); auto with respects typeclass_instances).
  apply bind_Ok_inv in Hrun as (? & ? & [= _ <-] & Hrun).
  apply bind_Ok_inv in Hrun as (? & ? & [= _ <-] & Hrun).
  apply bind_Ok_inv in Hrun as (? & w2 & (e & t & D2 & _)%audit_Ok_run & Hrun).
  apply hypothesis_inv in Hrun as (-> & r' & Hf' & ->).
  rewrite D2 in Hf'. simpl in Hf'. rewrite D1, find_update_eq, Hfh in Hf' by done. injection Hf' as <-.
  cbv zeta. split_and!; try done; [by exists r| | |].
  - destruct Hpos as (a & Ha%list_elem_of_In & Hp). by exists a.
  - intros alt Hin Hai Hne. assert (alt ∈ List.filter (alternative iid hid) (diag_hypotheses (w_db w))) as Hal.
    { apply list_elem_of_In, filter_In. split; [by apply list_elem_of_In|]. unfold alternative.
      rewrite Hai, String.eqb_refl. simpl. apply negb_true_iff. by apply String.eqb_neq. }
    apply Halt in Hal. unfold undiscriminated in Hal. apply andb_false_iff in Hal as [Hq%qle_false|Hq]; [by left|].
    right. apply negb_false_iff, existsb_exists in Hq as (a & Ha%list_elem_of_In & Hp). by exists a.
  - rewrite D2. simpl. rewrite D1, find_update_eq, Hfi by done. by eexists.
Qed.

(** Resolution through the gate: when [resolve_incident] returns, the
    incident was VALIDATING with a confirmed root cause, recovery and regression
    were verified and the validation evidence is intact; it is then RESOLVED
    with its root cause kept. *)
Theorem resolve_incident_gated iid eid recovery regression now w ref w'
    (Hrun : resolve_incident iid eid recovery regression now w = (Ok ref, w')) :
  recovery = true ∧ regression = true
  ∧ (∃ i h, find_row in_id iid (diag_incidents (w_db w)) = Some i ∧ in_state i = "VALIDATING"
       ∧ in_root_hypothesis_id i = Some h ∧ h ≠ "" ∧ ir_root_hypothesis_id ref = Some h)
  ∧ (∃ r, find_row ev_id eid (obs_evidence (w_db w)) = Some r ∧ evidence_intact r = true)
  ∧ ir_state ref = "RESOLVED".
Proof.
  unfold resolve_incident in Hrun.
  apply bind_Ok_inv in Hrun as (inc & ? & (-> & Hfi)%incident_row_of_inv & Hrun).
  apply bind_Ok_inv in Hrun as (? & ? & [[Hv%negb_false_iff%String.eqb_eq Hr]%orb_false_iff ->]%raise_if_Ok_inv & Hrun).
  apply bind_Ok_inv in Hrun as (? & ? & [[Ha%negb_false_iff Hb%negb_false_iff]%orb_false_iff ->]%raise_if_Ok_inv & Hrun).
  apply bind_Ok_inv in Hrun as (ok & ? & Hok & Hrun). unfold verify_evidence in Hok.
  apply bind_Ok_inv in Hok as (row & ? & [-> ->]%query_Ok_inv & [= <- <-]).
  apply bind_Ok_inv in Hrun as (? & ? & [Hev%negb_false_iff ->]%raise_if_Ok_inv & Hrun).
  unfold set_incident_state in Hrun.
  apply bind_Ok_inv in Hrun as (? & ? & [_ ->]%raise_if_Ok_inv & Hrun).
  apply bind_Ok_inv in Hrun as (inc' & ? & (-> & Hfi')%incident_row_of_inv & Hrun).
  apply bind_Ok_inv in Hrun as (when & w1 & Hn & Hrun).
  assert (w_db w1 = w_db w) as D1 by (refine (steady_run _ _ _ _ _ Hn); auto with respects typeclass_instances).
  apply bind_Ok_inv in Hrun as (? & ? & [= _ <-] & Hrun).
  apply bind_Ok_inv in Hrun as (? & w2 & (e & t & D2 & _)%audit_Ok_run & Hrun).
  unfold incident in Hrun. apply bind_Ok_inv in Hrun as (i & ? & (-> & Hi)%incident_row_of_inv & [= <- <-]).
  rewrite D2 in Hi. simpl in Hi. rewrite D1, find_update_eq, Hfi in Hi by done. injection Hi as <-. simpl.
  split_and!; try done.
  - destruct (in_root_hypothesis_id inc) as [h|] eqn:Eh; [|done]. apply String.eqb_neq in Hr.
    exists inc, h. by split_and!.
  - destruct (find_row ev_id eid _) as [r|]; [|done]. by exists r.
Qed.

(** One fingerprint, no progress. *)
Definition stalled (threshold : Z) (rows : list attempt_row) : Prop :=
  (threshold <= Z.of_nat (length rows))%Z
  ∧ (∀ r s, r ∈ rows → s ∈ rows → at_strategy_fingerprint r = at_strategy_fingerprint s)
  ∧ (∀ r, r ∈ rows → (at_progress_score r <= 0)%Q).

Lemma remove_dups_single (l : list string) :
  l ≠ [] → (∀ x y, x ∈ l → y ∈ l → x = y) → ∃ f, remove_dups l = [f].
Proof.
  intros Hne Hall. pose proof (NoDup_remove_dups l) as Hnd.
  assert (∀ x y, x ∈ remove_dups l → y ∈ remove_dups l → x = y) as Hr
    by (intros x y; rewrite !elem_of_remove_dups; apply Hall).
  assert (remove_dups l ≠ []) as Hn.
  { destruct l as [|x l]; [done|]. intros E. assert (x ∈ remove_dups (x :: l)) as Hx
      by (apply elem_of_remove_dups; by left). rewrite E in Hx. by apply elem_of_nil in Hx. }
  destruct (remove_dups l) as [|a [|b m]]; [done|by exists a|].
  assert (a = b) as <- by (apply Hr; set_solver). apply NoDup_cons in Hnd as [Hnd _]. destruct Hnd. by left.
Qed.

Lemma progress_stalled threshold rows :
  (2 <= threshold)%Z →
  (st_state (progress_of threshold rows) = "STALLED" ↔ stalled threshold rows)
  ∧ (st_state (progress_of threshold rows) = "STALLED" →
     ∃ f, st_fingerprint (progress_of threshold rows) = Some f ∧ ∀ r, r ∈ rows → at_strategy_fingerprint r = f).
Proof.
  intros Hthr. unfold progress_of, stalled.
  destruct (Z.ltb_spec (Z.of_nat (length rows)) threshold); [split; [split; [done|lia]|done]|].
  set (fps := map at_strategy_fingerprint rows).
  assert (∀ f, remove_dups fps = [f] → ∀ r, r ∈ rows → at_strategy_fingerprint r = f) as Hone.
  { intros f Ef r Hr. assert (at_strategy_fingerprint r ∈ remove_dups fps) as Hx
      by (apply elem_of_remove_dups; by apply list_elem_of_fmap_2).
    rewrite Ef in Hx. by apply list_elem_of_singleton in Hx. }
  assert ((∃ f, remove_dups fps = [f]) ∨ ¬ (∀ r s, r ∈ rows → s ∈ rows →
    at_strategy_fingerprint r = at_strategy_fingerprint s)) as [[f Ef]|Hno].
  { destruct (remove_dups fps) as [|a [|b m]] eqn:E; [right|left; by eexists|right]; intros Hall.
    all: destruct (remove_dups_single fps) as [f Ef]; [destruct rows; simpl in *; [lia|done]| |congruence].
    all: intros x y Hx Hy; apply list_elem_of_fmap in Hx as (r & -> & Hr), Hy as (s & -> & Hs); auto. }
  - rewrite Ef. destruct (forallb _ rows) eqn:Eb; simpl.
    + rewrite forallb_forall in Eb. split; [|intros _; exists f; auto]. split; [|done]. intros _.
      split_and!; [done| |].
      * intros r s Hr Hs. by rewrite (Hone f Ef r Hr), (Hone f Ef s Hs).
      * intros r Hr. apply qle_true, Eb. by apply list_elem_of_In.
    + split; [|done]. split; [done|]. intros (_ & _ & Hall). exfalso. apply not_true_iff_false in Eb. apply Eb.
      apply forallb_forall. intros r Hr%list_elem_of_In. by apply qle_true, Hall.
  - destruct (remove_dups fps) as [|a [|b m]] eqn:E.
    2:{ destruct Hno. intros r s Hr Hs. by rewrite (Hone a eq_refl r Hr), (Hone a eq_refl s Hs). }
    all: split; [|done]; split; [done|]; by intros (_ & Ha & _).
Qed.

(** The text behind an attempt's strategy fingerprint. *)
Definition strategy_text (strategy test_name : string) : string :=
  dumps Compact (JObj [("strategy", JStr (strip strategy)); ("test_name", JStr (strip test_name))]).

(** A stalled investigation must change its strategy: the detector says
    STALLED exactly when the last [threshold] attempts of the incident share one
    fingerprint and none made progress; it refuses the next strategy and test
    only then, and only when they repeat those of the stalled attempts (or
    collide with one of them under SHA-256), and it always refuses that repetition. *)
Theorem stalled_requires_change threshold iid strategy test_name w
    (Hwf : diag_wf (w_db w)) (Hthr : (2 <= threshold)%Z) :
  let rows := last_attempts threshold iid (diag_attempts (w_db w)) in
  let repeats := ∀ r, r ∈ rows → strip (at_strategy r) = strip strategy ∧ strip (at_test_name r) = strip test_name in
  (st_state (progress_of threshold rows) = "STALLED" ↔ stalled threshold rows)
  ∧ (stalled threshold rows ∧ repeats →
     ∃ msg, require_strategy_change threshold iid strategy test_name w = (Raise (Exn DiagnosisError msg), w))
  ∧ (∀ e w', require_strategy_change threshold iid strategy test_name w = (Raise e, w') →
       stalled threshold rows ∧ (repeats ∨ ∃ r, r ∈ rows
         ∧ sha256_collide (strategy_text (at_strategy r) (at_test_name r)) (strategy_text strategy test_name))).
Proof.
  intros rows repeats. destruct (progress_stalled threshold rows Hthr) as [Hst Hfp].
  assert (∀ r, r ∈ rows → at_strategy_fingerprint r = strategy_digest (at_strategy r) (at_test_name r)) as Hdig.
  { intros r Hr. pose proof (dw_attempts _ Hwf) as Ha. rewrite Forall_forall in Ha. apply Ha.
    unfold rows, last_attempts in Hr.
    assert (r ∈ order_by newest_attempt (List.filter (λ r, at_incident_id r =s iid) (diag_attempts (w_db w)))) as Ho
      by (rewrite <- (take_drop (Z.to_nat threshold)); apply elem_of_app; by left).
    rewrite order_by_perm in Ho. apply list_elem_of_In, filter_In in Ho as [Ho _]. by apply list_elem_of_In. }
  assert (require_strategy_change threshold iid strategy test_name w =
    if negb (st_state (progress_of threshold rows) =s "STALLED") then (Ok tt, w)
    else raise_if (match st_fingerprint (progress_of threshold rows) with
           | Some f => strategy_digest strategy test_name =s f | None => false end)
           DiagnosisError "stalled loop requires a different diagnostic strategy" w) as ->
    by (unfold require_strategy_change, progress_status, query, gets, mbind, M_bind; by destruct (negb _)).
  split_and!; [done| |].
  - intros [Hs Hrep]. apply Hst in Hs. rewrite Hs. simpl. destruct (Hfp Hs) as (f & -> & Hall).
    apply Hst in Hs as (Hlen & _). destruct rows as [|r rs] eqn:Er; [simpl in Hlen; lia|].
    assert (strategy_digest strategy test_name = f) as ->.
    { rewrite <- (Hall r) by (by left). rewrite Hdig by (by left). destruct (Hrep r) as [E1 E2]; [by left|].
      unfold strategy_digest. by rewrite E1, E2. }
    rewrite String.eqb_refl. by eexists.
  - intros e w' He. destruct (String.eqb_spec (st_state (progress_of threshold rows)) "STALLED") as [Hs|]; [|done].
    simpl in He. split; [by apply Hst|]. destruct (Hfp Hs) as (f & Ef & Hall). rewrite Ef in He.
    destruct (String.eqb_spec (strategy_digest strategy test_name) f) as [Ed|]; [|done].
    destruct (decide (rows = [])) as [->|Hne]; [left; intros r Hr; by apply elem_of_nil in Hr|].
    assert (∀ r, r ∈ rows → (strip (at_strategy r) = strip strategy ∧ strip (at_test_name r) = strip test_name)
      ∨ sha256_collide (strategy_text (at_strategy r) (at_test_name r)) (strategy_text strategy test_name)) as Hall2.
    { intros r Hr. assert (strategy_digest (at_strategy r) (at_test_name r) = strategy_digest strategy test_name) as E
        by (rewrite <- Hdig, Hall by done; done).
      apply sha256_eq_or_collide in E as [E|]; [left | by right].
      apply dumps_inj in E. unfold printed in E. simpl in E. by injection E as -> ->. }
    clear -Hall2. induction rows as [|r rs IH]; [left; intros r Hr; by apply elem_of_nil in Hr|].
    destruct (Hall2 r) as [Hr|Hc]; [by left| |right; exists r; split; [by left|done]].
    destruct IH as [IH|(x & Hx & Hc)]; [intros x Hx; apply Hall2; by right| |right; exists x; split; [by right|done]].
    left. intros x [->|Hx]%elem_of_cons; auto.
Qed.
End diag_claims.
