(* ===== verification/Operations.v ===== *)
(** immune_core/operations.py, runbooks.py and operator_dispatch.py: notifications,
    human exceptions, operator commands, the read model, incident reports, runbooks
    and the dispatcher that turns an operator command into a registered task. *)

From stdpp Require Import pretty.
From S2P Require Import Prelude Json Base64 Sha256 Schema Storage Ledger Engine Tokens Policy Observability.

Record NotificationRef := {
  nr_id : string; nr_kind : string; nr_severity : string; nr_subject : string; nr_state : string; nr_created_at : Q;
}.
Record HumanExceptionRef := {
  hr_id : string; hr_mission_id : string; hr_reason : string; hr_required_action : string; hr_consequence : string;
  hr_continuation : string; hr_state : string;
}.
Record OperatorCommandRef := {
  cm_id : string; cm_mission_id : string; cm_action : string; cm_state : string; cm_task_id : option string;
}.

Definition has_char (c : ascii) (s : string) : bool := if String.index 0 (String c EmptyString) s then true else false.

Section operations.
Context `{JsonText, Entropy}.

Definition op_canonical (v : json) : string := dumps Compact v.
Definition op_sha256 (v : json) : string := sha256_hex (op_canonical v).

(** ** Notifications *)
Definition NOTIFICATION_SEVERITIES : list string := ["INFO"; "WARNING"; "ERROR"; "CRITICAL"].

Definition notification_fingerprint (kind subject : string) (mission_id incident_id : option string) : string :=
  op_sha256 (JObj [("kind", JStr kind); ("subject", JStr subject); ("mission_id", jopt_str mission_id);
                   ("incident_id", jopt_str incident_id)]).
Definition open_with (fingerprint : string) (r : notification_row) : bool :=
  (no_fingerprint r =s fingerprint) && (no_state r =s "OPEN").
Definition notification_refresh (payload severity : string) (when : Q) (r : notification_row) : notification_row :=
  {| no_id := no_id r; no_kind := no_kind r; no_severity := severity; no_subject := no_subject r;
     no_mission_id := no_mission_id r; no_incident_id := no_incident_id r; no_payload_json := payload;
     no_fingerprint := no_fingerprint r; no_state := no_state r; no_created_at := no_created_at r;
     no_updated_at := when |}.
Definition notification_close (when : Q) (r : notification_row) : notification_row :=
  {| no_id := no_id r; no_kind := no_kind r; no_severity := no_severity r; no_subject := no_subject r;
     no_mission_id := no_mission_id r; no_incident_id := no_incident_id r; no_payload_json := no_payload_json r;
     no_fingerprint := no_fingerprint r; no_state := "CLOSED"; no_created_at := no_created_at r;
     no_updated_at := when |}.

(** [INSERT INTO op_notifications]: primary key and the unique open fingerprint *)
Definition insert_notification (r : notification_row) : IO unit :=
  rows ← query op_notifications;
  _ ← raise_if (row_exists no_id (no_id r) rows) IntegrityError "UNIQUE constraint failed: op_notifications.id";
  _ ← raise_if ((no_state r =s "OPEN") && existsb (open_with (no_fingerprint r)) rows) IntegrityError
        "UNIQUE constraint failed: op_notifications.fingerprint";
  exec (set_op_notifications (λ l, l ++ [r])).

Definition notify (kind severity subject : string) (payload : dict) (mission_id incident_id : option string)
    (now : option Q) : IO NotificationRef :=
  _ ← raise_if (blank kind || blank subject) OperationsError "notification kind and subject are required";
  when ← now_or_time now;
  let normalized := upper (strip severity) in
  _ ← raise_if (negb (str_in normalized NOTIFICATION_SEVERITIES)) OperationsError "invalid notification severity";
  let fingerprint := notification_fingerprint kind subject mission_id incident_id in
  existing ← query (λ d, List.find (open_with fingerprint) (op_notifications d));
  match existing with
  | Some r =>
      _ ← exec (set_op_notifications
            (update_row no_id (no_id r) (notification_refresh (op_canonical (JObj payload)) normalized when)));
      mret {| nr_id := no_id r; nr_kind := no_kind r; nr_severity := normalized; nr_subject := no_subject r;
              nr_state := "OPEN"; nr_created_at := no_created_at r |}
  | None =>
      nid ← uuid4;
      _ ← insert_notification {| no_id := nid; no_kind := strip kind; no_severity := normalized;
            no_subject := strip subject; no_mission_id := mission_id; no_incident_id := incident_id;
            no_payload_json := op_canonical (JObj payload); no_fingerprint := fingerprint; no_state := "OPEN";
            no_created_at := when; no_updated_at := when |};
      _ ← audit "notification-service" "notification_opened" mission_id
            [("notification_id", JStr nid); ("kind", JStr kind); ("severity", JStr normalized);
             ("incident_id", jopt_str incident_id)] (Some when);
      mret {| nr_id := nid; nr_kind := strip kind; nr_severity := normalized; nr_subject := strip subject;
              nr_state := "OPEN"; nr_created_at := when |}
  end.

Definition close_notification (notification_id : string) (now : option Q) : IO unit :=
  when ← now_or_time now;
  row ← query (λ d, find_row no_id notification_id (op_notifications d));
  match row with
  | None => throw OperationsError "notification not found"
  | Some r =>
      if negb (no_state r =s "OPEN") then mret tt
      else
        _ ← exec (set_op_notifications (update_row no_id notification_id (notification_close when)));
        _ ← audit "notification-service" "notification_closed" (no_mission_id r)
              [("notification_id", JStr notification_id)] (Some when);
        mret tt
  end.

(** ** Human exceptions *)
Definition request_human_exception (mission_id reason required_action consequence continuation : string)
    (incident_id : option string) (now : option Q) : IO HumanExceptionRef :=
  _ ← raise_if (existsb blank [reason; required_action; consequence; continuation]) OperationsError
        "human exception requires reason, one concrete action, consequence and continuation";
  _ ← raise_if (has_char (ascii_of_nat 10) (strip required_action)) OperationsError
        "required action must be one concrete action";
  mission ← get_mission mission_id;
  match mission with
  | None => throw OperationsError "mission not found"
  | Some _ =>
      when ← now_or_time now;
      xid ← uuid4;
      rows ← query op_human_exceptions;
      _ ← raise_if (row_exists hx_id xid rows) IntegrityError "UNIQUE constraint failed: op_human_exceptions.id";
      _ ← exec (set_op_human_exceptions (λ l, l ++ [{| hx_id := xid; hx_mission_id := mission_id;
            hx_incident_id := incident_id; hx_reason := strip reason; hx_required_action := strip required_action;
            hx_consequence := strip consequence; hx_continuation := strip continuation; hx_state := "PENDING";
            hx_requested_at := when; hx_decided_at := None; hx_decided_by := None; hx_decision_note := None |}]));
      _ ← audit "human-exception-gate" "human_exception_requested" (Some mission_id)
            [("human_exception_id", JStr xid); ("incident_id", jopt_str incident_id);
             ("required_action", JStr (strip required_action))] (Some when);
      _ ← notify "WAITING_HUMAN" "WARNING" ("Human action required for " +:+ mission_id)
            [("human_exception_id", JStr xid); ("required_action", JStr (strip required_action));
             ("reason", JStr (strip reason))] (Some mission_id) incident_id (Some when);
      mret {| hr_id := xid; hr_mission_id := mission_id; hr_reason := strip reason;
              hr_required_action := strip required_action; hr_consequence := strip consequence;
              hr_continuation := strip continuation; hr_state := "PENDING" |}
  end.

Definition exception_decide (state : string) (when : Q) (subject note : string) (r : exception_row) : exception_row :=
  {| hx_id := hx_id r; hx_mission_id := hx_mission_id r; hx_incident_id := hx_incident_id r; hx_reason := hx_reason r;
     hx_required_action := hx_required_action r; hx_consequence := hx_consequence r;
     hx_continuation := hx_continuation r; hx_state := state; hx_requested_at := hx_requested_at r;
     hx_decided_at := Some when; hx_decided_by := Some subject; hx_decision_note := Some note |}.

Definition decide_human_exception (identity : IdentityAuthority) (exception_id token : string) (approve : bool)
    (note : string) (now : option Z) : IO HumanExceptionRef :=
  row ← query (λ d, find_row hx_id exception_id (op_human_exceptions d));
  match row with
  | None => throw OperationsError "human exception not found"
  | Some r =>
      _ ← raise_if (negb (hx_state r =s "PENDING")) OperationsError "human exception already decided";
      principal ← ia_verify identity token (Some "human:approve") now;
      let state := if approve then "APPROVED" else "REJECTED" in
      when ← now_or_time (float_now now);
      _ ← exec (set_op_human_exceptions
            (update_row hx_id exception_id (exception_decide state when (pr_subject principal) (strip note))));
      _ ← audit (pr_subject principal) "human_exception_decided" (Some (hx_mission_id r))
            [("human_exception_id", JStr exception_id); ("decision", JStr state)] (Some when);
      mret {| hr_id := hx_id r; hr_mission_id := hx_mission_id r; hr_reason := hx_reason r;
              hr_required_action := hx_required_action r; hr_consequence := hx_consequence r;
              hr_continuation := hx_continuation r; hr_state := state |}
  end.

(** ** The read model *)
Definition TERMINAL_TASK_STATES : list string := ["COMPLETED"; "FAILED"; "BLOCKED"].

Definition missions_view (d : DB) : list mission_row :=
  order_by (λ r s, qlt (m_updated_at s) (m_updated_at r)
                   || (Qeq_bool (m_updated_at r) (m_updated_at s) && String.leb (m_id r) (m_id s))) (missions d).
(** [WHERE mission_id=?] when an id is given *)
Definition of_mission {R} (key : R → string) (mission_id : option string) (rows : list R) : list R :=
  match mission_id with
  | Some m => if m =s "" then rows else List.filter (λ r, key r =s m) rows
  | None => rows
  end.
Definition newest {R} (ts : R → Q) (r s : R) : bool := qle (ts s) (ts r).
Definition incidents_view (mission_id : option string) (d : DB) : list incident_row :=
  order_by (newest in_updated_at) (of_mission in_mission_id mission_id (diag_incidents d)).
Definition tasks_view (mission_id : option string) (d : DB) : list task_row :=
  order_by (newest t_created_at) (of_mission t_mission_id mission_id (tasks d)).
Definition notifications_view (open_only : bool) (d : DB) : list notification_row :=
  order_by (newest no_created_at)
    (if open_only then List.filter (λ r, no_state r =s "OPEN") (op_notifications d) else op_notifications d).
Definition exceptions_view (pending_only : bool) (d : DB) : list exception_row :=
  order_by (newest hx_requested_at)
    (if pending_only then List.filter (λ r, hx_state r =s "PENDING") (op_human_exceptions d) else op_human_exceptions d).

(** [GROUP BY lease_owner]: the owner, its running tasks, its latest lease *)
Definition running_of (owner : string) (r : task_row) : bool :=
  (t_state r =s "RUNNING") && bool_decide (t_lease_owner r = Some owner).
Definition max_until (l : list task_row) : option Q :=
  foldr (λ r acc, match t_lease_until r, acc with
                  | Some q, Some m => Some (py_max q m)
                  | Some q, None => Some q
                  | None, m => m
                  end) None l.
Definition workers_view (d : DB) : list (string * nat * option Q) :=
  let owners := omap (λ r, if t_state r =s "RUNNING" then t_lease_owner r else None) (tasks d) in
  map (λ o, let l := List.filter (running_of o) (tasks d) in (o, length l, max_until l))
    (order_by String.leb (remove_dups owners)).

Record system_health_view := {
  sh_state : string; sh_reason : string; sh_fresh : bool; sh_failed : list string; sh_degraded : list string;
  sh_stale : list string; sh_sensors : list health_row;
}.
Definition stale_sensor (freshness when : Q) (r : health_row) : bool :=
  match hl_last_success r with None => true | Some t => qlt freshness (when - t) end.
Definition health_of (freshness when : Q) (rows : list health_row) : system_health_view :=
  let sensors := order_by (λ r s, String.leb (hl_sensor_id r) (hl_sensor_id s)) rows in
  let stale := map hl_sensor_id (List.filter (stale_sensor freshness when) sensors) in
  let failed := map hl_sensor_id (List.filter (λ r, hl_state r =s "FAILED") sensors) in
  let degraded := map hl_sensor_id (List.filter (λ r, hl_state r =s "DEGRADED") sensors) in
  let fresh := match stale with [] => true | _ => false end in
  match sensors, failed, degraded ++ stale with
  | [], _, _ => {| sh_state := "UNKNOWN"; sh_reason := "no sensor health evidence"; sh_fresh := false; sh_failed := [];
                   sh_degraded := []; sh_stale := []; sh_sensors := [] |}
  | _, _ :: _, _ => {| sh_state := "FAILED"; sh_reason := "sensor failure"; sh_fresh := fresh; sh_failed := failed;
                       sh_degraded := []; sh_stale := stale; sh_sensors := sensors |}
  | _, [], _ :: _ => {| sh_state := "DEGRADED"; sh_reason := "degraded or stale evidence"; sh_fresh := fresh;
                        sh_failed := []; sh_degraded := degraded; sh_stale := stale; sh_sensors := sensors |}
  | _, [], [] => {| sh_state := "HEALTHY"; sh_reason := "all configured sensors healthy with fresh success evidence";
                    sh_fresh := true; sh_failed := []; sh_degraded := []; sh_stale := []; sh_sensors := sensors |}
  end.
Definition system_health (freshness : Q) (now : option Q) : IO system_health_view :=
  when ← now_or_time now;
  query (λ d, health_of freshness when (obs_sensor_health d)).

(** [SELECT ... JOIN (SELECT name,subject,MAX(ts) ... GROUP BY name,subject)]: the
    rows at the latest time of their series *)
Definition same_series (r s : metric_row) : bool := (mt_name r =s mt_name s) && (mt_subject r =s mt_subject s).
Definition latest_metric (rows : list metric_row) (r : metric_row) : bool :=
  forallb (λ s, negb (same_series r s) || qle (mt_ts s) (mt_ts r)) rows.
Definition latest_metrics_view (limit : Z) (d : DB) : list metric_row :=
  sql_limit limit
    (order_by (λ r s, negb (String.leb (mt_name s) (mt_name r))
                      || ((mt_name r =s mt_name s) && String.leb (mt_subject r) (mt_subject s)))
       (List.filter (latest_metric (obs_metrics d)) (obs_metrics d))).

(** [json.loads(text)] *)
Definition loads_or_raise (text : string) : result json :=
  match loads text with Some v => Ok v | None => Raise (Exn JSONDecodeError "invalid JSON") end.

Record dashboard_view := {
  db_health : system_health_view; db_missions : list mission_row; db_active_incidents : list incident_row;
  db_active_tasks : list task_row; db_workers : list (string * nat * option Q); db_metrics : list metric_row;
  db_notifications : list notification_row; db_pending : list exception_row; db_generated_at : Q;
}.
Definition dashboard (freshness : Q) (now : option Q) : IO dashboard_view :=
  health ← system_health freshness now;
  d ← query (λ d : DB, d);
  let d : DB := d in
  _ ← for_each (latest_metrics_view 32 d) (λ r, lift_result (loads_or_raise (mt_labels_json r)));
  when ← now_or_time now;
  mret {| db_health := health; db_missions := missions_view d;
          db_active_incidents :=
            List.filter (λ i, negb (str_in (in_state i) ["RESOLVED"; "CLOSED_WITH_RISK"])) (incidents_view None d);
          db_active_tasks := List.filter (λ t, negb (str_in (t_state t) TERMINAL_TASK_STATES)) (tasks_view None d);
          db_workers := workers_view d; db_metrics := latest_metrics_view 32 d;
          db_notifications := notifications_view true d; db_pending := exceptions_view true d;
          db_generated_at := when |}.

(** ** Operator commands *)
Definition ACTION_SCOPES : list (string * string) :=
  [("diagnose", "operator:diagnose"); ("rollback", "operator:rollback"); ("cancel", "operator:cancel");
   ("approve", "operator:approve"); ("restore", "operator:restore"); ("runbook", "operator:runbook")].
Definition action_scope (action : string) : option string := snd <$> List.find (λ p, fst p =s action) ACTION_SCOPES.

(** [dict(params.get("risk") or {})] *)
Definition command_risk (params : dict) : result dict :=
  match truthy_get params "risk" with
  | None => Ok []
  | Some (JObj d) => Ok d
  | Some _ => Raise (Exn TypeError "cannot convert to a dictionary")
  end.

Definition command_request (mission_id action scope mission_state : string) (params risk : dict) : dict :=
  let recovers := str_in action ["rollback"; "restore"] in
  [("mission_id", JStr mission_id); ("action", JStr ("operator:" +:+ action)); ("required_scope", JStr scope);
   ("mission_authorized", JBool (negb (str_in mission_state ["CANCELLED"; "COMPLETED"])));
   ("system_authorized", JBool true); ("scope_ok", JBool true); ("material_change", JBool false);
   ("checkpoint_valid", JBool (recovers && get_truthy params "checkpoint_id" false));
   ("irreversible", JBool (get_truthy risk "irreversible" false));
   ("recovery_verified", JBool (get_truthy risk "recovery_verified" recovers));
   ("new_cost", JBool (get_truthy risk "new_cost" false)); ("purchase", JBool (get_truthy risk "purchase" false));
   ("subscription", JBool (get_truthy risk "subscription" false));
   ("disables_security_control", JBool (get_truthy risk "disables_security_control" false))].

(** [row["state"] == "APPROVED"] of the exception of this mission *)
Definition exception_approved (mission_id : string) (human_exception_id : option string) : IO unit :=
  match human_exception_id with
  | None => throw OperationsError "approve command requires human exception"
  | Some xid =>
      _ ← raise_if (xid =s "") OperationsError "approve command requires human exception";
      row ← query (λ d, List.find (λ r, (hx_id r =s xid) && (hx_mission_id r =s mission_id)) (op_human_exceptions d));
      raise_if match row with Some r => negb (hx_state r =s "APPROVED") | None => true end OperationsError
        "human exception has not been explicitly approved"
  end.

Definition submit_command (identity : IdentityAuthority) (guard : PolicyGuard) (mission_id action operator_token : string)
    (target : option string) (parameters : dict) (human_exception_id : option string) (now : option Z)
    : IO OperatorCommandRef :=
  let normalized := lower (strip action) in
  match action_scope normalized with
  | None => throw OperationsError "unsupported operator command"
  | Some scope =>
      mission ← get_mission mission_id;
      match mission with
      | None => throw OperationsError "mission not found"
      | Some m =>
          principal ← ia_verify identity operator_token (Some scope) now;
          _ ← (if normalized =s "approve" then exception_approved mission_id human_exception_id else mret tt);
          risk ← lift_result (command_risk parameters);
          d ← evaluate_token guard operator_token
                (command_request mission_id normalized scope (m_state m) parameters risk) now;
          _ ← raise_if (negb (permitted d)) OperationsError ("PolicyGuard: " +:+ pd_decision d +:+ ": " +:+ pd_reason d);
          cid ← uuid4;
          when ← now_or_time (float_now now);
          task_id ← engine_submit_task mission_id "operator_command"
            [("operator_command_id", JStr cid); ("action", JStr normalized); ("target", jopt_str target);
             ("parameters", JObj parameters); ("requested_by", JStr (pr_subject principal));
             ("human_exception_id", jopt_str human_exception_id)]
            ("operator:" +:+ cid) (if str_in normalized ["rollback"; "restore"; "cancel"] then 100 else 10) 1 (Some when);
          rows ← query op_commands;
          _ ← raise_if (row_exists oc_id cid rows) IntegrityError "UNIQUE constraint failed: op_commands.id";
          _ ← exec (set_op_commands (λ l, l ++ [{| oc_id := cid; oc_mission_id := mission_id; oc_action := normalized;
                oc_target := target; oc_parameters_json := op_canonical (JObj parameters);
                oc_requested_by := pr_subject principal; oc_policy_decision := pd_decision d; oc_state := "QUEUED";
                oc_task_id := Some task_id; oc_human_exception_id := human_exception_id; oc_created_at := when |}]));
          _ ← audit (pr_subject principal) "operator_command_queued" (Some mission_id)
                [("operator_command_id", JStr cid); ("action", JStr normalized); ("target", jopt_str target);
                 ("task_id", JStr task_id); ("policy_decision", JStr (pd_decision d))] (Some when);
          mret {| cm_id := cid; cm_mission_id := mission_id; cm_action := normalized; cm_state := "QUEUED";
                  cm_task_id := Some task_id |}
      end
  end.

(** ** Events to notifications *)
Definition critical_failure (mission_id subject : string) (incident_id evidence_id : option string) (now : option Q) :=
  notify "CRITICAL_FAILURE" "CRITICAL" subject [("evidence_id", jopt_str evidence_id)] (Some mission_id) incident_id now.
Definition recovery (mission_id subject : string) (incident_id evidence_id : option string) (now : option Q) :=
  notify "RECOVERY" "INFO" subject [("evidence_id", jopt_str evidence_id)] (Some mission_id) incident_id now.
Definition mission_blocked (mission_id reason : string) (incident_id : option string) (now : option Q) :=
  notify "MISSION_BLOCKED" "ERROR" ("Mission " +:+ mission_id +:+ " blocked") [("reason", JStr reason)]
    (Some mission_id) incident_id now.
Definition rollback_event (mission_id checkpoint_id : string) (incident_id : option string) (now : option Q) :=
  notify "ROLLBACK" "WARNING" ("Rollback for " +:+ mission_id) [("checkpoint_id", JStr checkpoint_id)]
    (Some mission_id) incident_id now.
Definition completion (mission_id proof_id : string) (now : option Q) :=
  notify "MISSION_PROVEN" "INFO" ("Mission " +:+ mission_id +:+ " proven") [("proof_id", JStr proof_id)]
    (Some mission_id) None now.

(** ** Reports *)
Definition incident_json (r : incident_row) : json :=
  JObj [("id", JStr (in_id r)); ("mission_id", JStr (in_mission_id r));
        ("correlation_key", JStr (in_correlation_key r)); ("title", JStr (in_title r)); ("state", JStr (in_state r));
        ("root_hypothesis_id", jopt_str (in_root_hypothesis_id r)); ("created_at", JNum (in_created_at r));
        ("updated_at", JNum (in_updated_at r))].
Definition hypothesis_json (r : hypothesis_row) : json :=
  JObj [("id", JStr (hy_id r)); ("incident_id", JStr (hy_incident_id r)); ("statement", JStr (hy_statement r));
        ("state", JStr (hy_state r)); ("confidence", JNum (hy_confidence r)); ("created_at", JNum (hy_created_at r));
        ("updated_at", JNum (hy_updated_at r))].
Definition attempt_json (r : attempt_row) : json :=
  JObj [("id", JStr (at_id r)); ("incident_id", JStr (at_incident_id r)); ("hypothesis_id", JStr (at_hypothesis_id r));
        ("strategy", JStr (at_strategy r)); ("test_name", JStr (at_test_name r)); ("outcome", JStr (at_outcome r));
        ("progress_score", JNum (at_progress_score r)); ("evidence_id", JStr (at_evidence_id r));
        ("strategy_fingerprint", JStr (at_strategy_fingerprint r)); ("created_at", JNum (at_created_at r))].
Definition correction_json (r : correction_row) : json :=
  JObj [("id", JStr (co_id r)); ("incident_id", JStr (co_incident_id r)); ("mission_id", JStr (co_mission_id r));
        ("hypothesis_id", JStr (co_hypothesis_id r)); ("description", JStr (co_description r));
        ("task_kind", JStr (co_task_kind r)); ("argv_json", JStr (co_argv_json r)); ("risk_json", JStr (co_risk_json r));
        ("validation_json", JStr (co_validation_json r)); ("state", JStr (co_state r));
        ("task_id", jopt_str (co_task_id r)); ("checkpoint_id", jopt_str (co_checkpoint_id r));
        ("plan_evidence_id", JStr (co_plan_evidence_id r)); ("created_at", JNum (co_created_at r));
        ("updated_at", JNum (co_updated_at r))].
Definition validation_json (r : validation_row) : json :=
  JObj [("id", JStr (va_id r)); ("correction_id", JStr (va_correction_id r));
        ("passed", JInt (if va_passed r then 1 else 0)); ("rolled_back", JInt (if va_rolled_back r then 1 else 0));
        ("checks_json", JStr (va_checks_json r)); ("evidence_id", JStr (va_evidence_id r));
        ("created_at", JNum (va_created_at r))].
Definition evidence_json (r : evidence_row) : json :=
  JObj [("id", JStr (ev_id r)); ("mission_id", jopt_str (ev_mission_id r)); ("kind", JStr (ev_kind r));
        ("created_at", JNum (ev_created_at r)); ("payload_sha256", JStr (ev_payload_sha256 r))].

Definition oldest {R} (ts : R → Q) (r s : R) : bool := qle (ts r) (ts s).

Record built_report := { br_id : string; br_sha256 : string; br_content : json }.

Definition build_incident (incident_id : string) (requirement_ids : list string) (now : option Q) : IO built_report :=
  row ← query (λ d, find_row in_id incident_id (diag_incidents d));
  match row with
  | None => throw OperationsError "incident not found"
  | Some inc =>
      d ← query (λ d : DB, d);
      let d : DB := d in
      let hypotheses := order_by (oldest hy_created_at)
        (List.filter (λ r, hy_incident_id r =s incident_id) (diag_hypotheses d)) in
      let attempts := order_by (oldest at_created_at)
        (List.filter (λ r, at_incident_id r =s incident_id) (diag_attempts d)) in
      let corrections := order_by (oldest co_created_at)
        (List.filter (λ r, co_incident_id r =s incident_id) (diag_corrections d)) in
      let validations := flat_map (λ c, order_by (oldest va_created_at)
        (List.filter (λ r, va_correction_id r =s co_id c) (diag_validations d))) corrections in
      let evidence_ids := sorted_set (map at_evidence_id attempts ++ map co_plan_evidence_id corrections
                                      ++ map va_evidence_id validations) in
      let found := omap (λ e, find_row ev_id e (obs_evidence d)) evidence_ids in
      let reqs := match requirement_ids with [] => ["incident-diagnosis"; "remediation-validation"] | l => l end in
      tests ← for_each validations (λ v, lift_result (loads_or_raise (va_checks_json v)));
      let trace := map (λ req, JObj
        [("requirement", JStr req);
         ("actions", JList (map (λ a, JStr (at_test_name a)) attempts ++ map (λ c, JStr (co_description c)) corrections));
         ("tests", JList tests); ("evidence_ids", JList (map JStr evidence_ids))]) reqs in
      generated ← now_or_time now;
      let content := JObj
        [("report_type", JStr "incident"); ("incident", incident_json inc);
         ("hypotheses", JList (map hypothesis_json hypotheses)); ("attempts", JList (map attempt_json attempts));
         ("corrections", JList (map correction_json corrections));
         ("validations", JList (map validation_json validations)); ("evidence", JList (map evidence_json found));
         ("traceability", JList trace); ("generated_at", JNum generated)] in
      rid ← uuid4;
      let digest := op_sha256 content in
      rows ← query op_reports;
      _ ← raise_if (row_exists rp_id rid rows) IntegrityError "UNIQUE constraint failed: op_reports.id";
      _ ← exec (set_op_reports (λ l, l ++ [{| rp_id := rid; rp_report_type := "incident";
            rp_mission_id := Some (in_mission_id inc); rp_incident_id := Some incident_id;
            rp_content_json := op_canonical content; rp_content_sha256 := digest; rp_created_at := generated |}]));
      _ ← audit "report-builder" "report_generated" (Some (in_mission_id inc))
            [("report_id", JStr rid); ("incident_id", JStr incident_id); ("sha256", JStr digest)] (Some generated);
      mret {| br_id := rid; br_sha256 := digest; br_content := content |}
  end.

Definition verify_report (report_id : string) : IO bool :=
  row ← query (λ d, find_row rp_id report_id (op_reports d));
  mret match row with
       | None => false
       | Some r => match loads (rp_content_json r) with
                   | None => false
                   | Some content => op_sha256 content =s rp_content_sha256 r
                   end
       end.

(** ** Runbooks *)
Record Runbook := { rb_id : string; rb_description : string; rb_action : string; rb_required_parameters : list string }.
Definition runbook (id description action : string) (required : list string) : Runbook :=
  {| rb_id := id; rb_description := description; rb_action := action; rb_required_parameters := required |}.
Definition DEFAULT_RUNBOOKS : list Runbook :=
  [runbook "service-recovery" "Diagnose and queue service recovery through Core." "diagnose" ["service"];
   runbook "sensor-failure" "Diagnose failed sensor without disabling security controls." "diagnose" ["sensor_id"];
   runbook "no-ai" "Continue deterministic degraded operation while AI is unavailable." "diagnose" [];
   runbook "rollback" "Queue rollback to a verified checkpoint." "rollback" ["checkpoint_id"];
   runbook "mission-blocked" "Diagnose a blocked mission and gather the concrete blocker." "diagnose" [];
   runbook "restore" "Queue restoration from a verified checkpoint or backup reference." "restore" ["checkpoint_id"];
   runbook "degraded-operation" "Diagnose degraded operation while preserving containment." "diagnose" []].

Definition run_runbook (identity : IdentityAuthority) (guard : PolicyGuard) (runbooks : list Runbook)
    (runbook_id mission_id operator_token : string) (parameters : dict) (now : option Z) : IO OperatorCommandRef :=
  match List.find (λ rb, rb_id rb =s runbook_id) runbooks with
  | None => throw OperationsError "unknown runbook"
  | Some rb =>
      let missing := List.filter (λ name, blank (get_str parameters name "")) (rb_required_parameters rb) in
      _ ← raise_if (negb (bool_decide (missing = []))) OperationsError
            ("runbook missing parameters: " +:+ String.concat ", " missing);
      submit_command identity guard mission_id (rb_action rb) operator_token (Some runbook_id)
        (dupdate [("runbook", JStr runbook_id)] parameters) None now
  end.

(** ** The dispatcher *)
Record ControlledAction := {
  ca_action_id : string; ca_task_kind : string; ca_argv : list string; ca_material_change : bool; ca_timeout_seconds : Q;
}.
(** [__post_init__] *)
Definition controlled_action_ok (a : ControlledAction) : result ControlledAction :=
  if blank (ca_action_id a) || blank (ca_task_kind a) || bool_decide (ca_argv a = [])
  then Raise (Exn ValueError "controlled action requires id, task kind and argv")
  else if qle (ca_timeout_seconds a) 0 then Raise (Exn ValueError "controlled action timeout must be positive")
  else Ok a.

Record DispatchOutcome := {
  do_operator_task_id : option string; do_state : string; do_child_task_id : option string; do_detail : string;
}.
Definition outcome (task : option string) (state : string) (child : option string) (detail : string) : DispatchOutcome :=
  {| do_operator_task_id := task; do_state := state; do_child_task_id := child; do_detail := detail |}.

(** [RunbookActionRegistry]: later entries of one key replace earlier ones *)
Definition registry_key (p : string * string) : string * string := (strip (fst p), strip (snd p)).
Fixpoint action_registry (actions : list (string * string * ControlledAction))
    : result (list (string * string * ControlledAction)) :=
  match actions with
  | [] => Ok []
  | (key, a) :: rest =>
      let key := registry_key key in
      if (fst key =s "") || (snd key =s "") then Raise (Exn ValueError "runbook and target ids are required")
      else match action_registry rest with
           | Raise e => Raise e
           | Ok l => Ok (if existsb (λ e, bool_decide (fst e = key)) l then l else (key, a) :: l)
           end
  end.
Definition registry_resolve (registry : list (string * string * ControlledAction)) (runbook_id target_id : string)
    : result ControlledAction :=
  match List.find (λ e, bool_decide (fst e = (strip runbook_id, strip target_id))) registry with
  | Some e => Ok (snd e)
  | None => Raise (Exn DispatchError "runbook target is not registered by Core")
  end.

(** The [try] block of [run_once]. *)
Definition controlled_for (registry : list (string * string * ControlledAction)) (action target : string)
    (parameters : dict) : result ControlledAction :=
  if negb (action =s "diagnose") || negb (target =s "service-recovery")
  then Raise (Exn DispatchError "dispatcher supports only registered service-recovery in Phase 9")
  else if negb (strip (get_str parameters "runbook" "") =s "service-recovery")
  then Raise (Exn DispatchError "runbook identity mismatch")
  else registry_resolve registry "service-recovery" (strip (get_str parameters "service" "")).

Definition command_set_state (state : string) (r : command_row) : command_row :=
  {| oc_id := oc_id r; oc_mission_id := oc_mission_id r; oc_action := oc_action r; oc_target := oc_target r;
     oc_parameters_json := oc_parameters_json r; oc_requested_by := oc_requested_by r;
     oc_policy_decision := oc_policy_decision r; oc_state := state; oc_task_id := oc_task_id r;
     oc_human_exception_id := oc_human_exception_id r; oc_created_at := oc_created_at r |}.

Definition child_payload (command_id : string) (a : ControlledAction) : dict :=
  [("mode", JStr "safe"); ("argv", JList (map JStr (ca_argv a))); ("material_change", JBool (ca_material_change a));
   ("timeout_seconds", JNum (ca_timeout_seconds a)); ("source_operator_command_id", JStr command_id)].

Definition dispatch_once (dispatcher_id : string) (registry : list (string * string * ControlledAction)) (now : option Q)
    : IO DispatchOutcome :=
  claimed ← engine_claim_next dispatcher_id 30 now None;
  match claimed with
  | None => mret (outcome None "IDLE" None "")
  | Some lease =>
      if negb (l_kind lease =s "operator_command") then
        _ ← engine_fail_task lease "dispatcher received non-operator task" 0 now;
        mret (outcome (Some (l_id lease)) "REJECTED" None "non-operator task")
      else match l_payload lease with
      | JObj payload =>
          let command_id := strip (get_str payload "operator_command_id" "") in
          let action := lower (strip (get_str payload "action" "")) in
          let target := strip (get_str payload "target" "") in
          match dget payload "parameters" with
          | Some (JObj parameters) =>
              if command_id =s "" then
                _ ← engine_block_task lease "malformed operator command" now;
                mret (outcome (Some (l_id lease)) "BLOCKED" None "malformed operator command")
              else
                row ← query (λ d, List.find (λ r, (oc_id r =s command_id) && bool_decide (oc_task_id r = Some (l_id lease)))
                                    (op_commands d));
                if match row with Some r => negb (oc_state r =s "QUEUED") | None => true end then
                  _ ← engine_block_task lease "operator command record is missing or not queued" now;
                  mret (outcome (Some (l_id lease)) "BLOCKED" None "operator command state mismatch")
                else match controlled_for registry action target parameters with
                | Raise e =>
                    _ ← engine_block_task lease (exn_msg e) now;
                    _ ← exec (set_op_commands (update_row oc_id command_id (command_set_state "BLOCKED")));
                    _ ← audit dispatcher_id "operator_command_blocked" (Some (l_mission_id lease))
                          [("operator_command_id", JStr command_id); ("reason", JStr (exn_msg e))] now;
                    mret (outcome (Some (l_id lease)) "BLOCKED" None (exn_msg e))
                | Ok controlled =>
                    child_id ← engine_submit_task (l_mission_id lease) (ca_task_kind controlled)
                      (child_payload command_id controlled)
                      ("operator-dispatch:" +:+ command_id +:+ ":" +:+ ca_action_id controlled) 90 1 now;
                    _ ← engine_complete_task lease now;
                    _ ← exec (set_op_commands (update_row oc_id command_id (command_set_state "DISPATCHED")));
                    _ ← audit dispatcher_id "operator_command_dispatched" (Some (l_mission_id lease))
                          [("operator_command_id", JStr command_id);
                           ("controlled_action_id", JStr (ca_action_id controlled)); ("child_task_id", JStr child_id);
                           ("task_kind", JStr (ca_task_kind controlled))] now;
                    mret (outcome (Some (l_id lease)) "DISPATCHED" (Some child_id) "")
                end
          | _ =>
              _ ← engine_block_task lease "malformed operator command" now;
              mret (outcome (Some (l_id lease)) "BLOCKED" None "malformed operator command")
          end
      | _ => throw AttributeError "object has no attribute 'get'"
      end
  end.
End operations.
