(* ===== verification/OperationsProps.v ===== *)
(** Operator commands enter the queue only under authority; health is green only on
    evidence; notifications are not repeated, exceptions are decided once and
    reports verify; the dispatcher runs only registered actions. *)

From stdpp Require Import pretty.
From S2P Require Import Prelude Json Base64 Sha256 Schema Storage StorageProps Ledger LedgerProps Engine.
From S2P Require Import EngineProps Tokens TokenProps Policy PolicyProps Observability Operations.

Section operations_props.
Context `{JsonText, Entropy}.

(** ** Health *)
Lemma filter_names {R} (key : R → string) (f : R → bool) l :
  map key (List.filter f l) = [] ↔ existsb f l = false.
Proof. induction l as [|x l IH]; simpl; [done|]. destruct (f x); simpl; [done|]. exact IH. Qed.
Lemma existsb_orb {R} (f g : R → bool) l : existsb (λ r, f r || g r) l = existsb f l || existsb g l.
Proof. induction l as [|x l IH]; simpl; [done|]. rewrite IH. by destruct (f x), (g x), (existsb f l). Qed.
Lemma existsb_elem {R} (f : R → bool) l : existsb f l = true ↔ ∃ r, r ∈ l ∧ f r = true.
Proof. rewrite existsb_exists. by setoid_rewrite list_elem_of_In. Qed.
Lemma existsb_none {R} (f : R → bool) l : existsb f l = false ↔ ∀ r, r ∈ l → f r = false.
Proof.
  rewrite <- not_true_iff_false, existsb_elem. split.
  - intros Hn r Hr. apply not_true_iff_false. eauto.
  - intros Hall (r & Hr & Hf). rewrite (Hall r Hr) in Hf. done.
Qed.
Lemma existsb_perm {R} (f : R → bool) (l k : list R) : l ≡ₚ k → existsb f l = existsb f k.
Proof. induction 1; simpl; [done|congruence|destruct (f x), (f y); done|congruence]. Qed.

Definition unhealthy (freshness when : Q) (r : health_row) : bool :=
  (hl_state r =s "DEGRADED") || stale_sensor freshness when r.

Lemma health_state freshness when rows :
  sh_state (health_of freshness when rows)
  = match rows with
    | [] => "UNKNOWN"
    | _ => if existsb (λ r, hl_state r =s "FAILED") rows then "FAILED"
           else if existsb (unhealthy freshness when) rows then "DEGRADED" else "HEALTHY"
    end.
Proof.
  unfold health_of. set (leb := λ r s, String.leb (hl_sensor_id r) (hl_sensor_id s)).
  pose proof (order_by_perm leb rows) as Hp.
  rewrite <- (existsb_perm _ _ _ Hp), <- (existsb_perm (unhealthy _ _) _ _ Hp).
  destruct rows as [|r0 rows]; [done|]. destruct (order_by leb (r0 :: rows)) as [|x l].
  { by apply Permutation_nil_cons in Hp. }
  assert (∀ f : health_row → bool, existsb f (x :: l) = match map hl_sensor_id (List.filter f (x :: l)) with
                                                        | [] => false | _ => true end) as He.
  { intros f. destruct (map hl_sensor_id _) eqn:E; [by apply filter_names in E|].
    destruct (existsb f (x :: l)) eqn:E2; [done|]. apply (filter_names hl_sensor_id) in E2. congruence. }
  rewrite (He (λ r, hl_state r =s "FAILED")). destruct (map _ (List.filter (λ r, hl_state r =s "FAILED") _)); [|done].
  unfold unhealthy. rewrite existsb_orb, !He.
  destruct (map _ (List.filter (λ r, hl_state r =s "DEGRADED") _)); [|done].
  by destruct (map _ (List.filter (stale_sensor _ _) _)).
Qed.

(** Green needs evidence: the read model reports HEALTHY exactly when there is
    a sensor, no sensor is FAILED or DEGRADED, and each has succeeded within the
    freshness window; without sensors it reports UNKNOWN, and FAILED exactly when
    some sensor is FAILED. *)
Theorem healthy_iff_evidence freshness when rows :
  let v := health_of freshness when rows in
  (sh_state v = "HEALTHY" ↔ rows ≠ [] ∧ ∀ r, r ∈ rows →
     hl_state r ≠ "FAILED" ∧ hl_state r ≠ "DEGRADED"
     ∧ ∃ t, hl_last_success r = Some t ∧ (when - t <= freshness)%Q)
  ∧ (sh_state v = "UNKNOWN" ↔ rows = [])
  ∧ (sh_state v = "FAILED" ↔ ∃ r, r ∈ rows ∧ hl_state r = "FAILED").
Proof.
  intros v. subst v. rewrite health_state. destruct rows as [|r0 rows].
  { split_and!; try done; [naive_solver|]. split; [done|]. intros (r & Hr & _). by apply elem_of_nil in Hr. }
  cbn iota. assert (∃ l, l = r0 :: rows ∧ l ≠ []) as (l & <- & Hne) by (by exists (r0 :: rows)).
  destruct (existsb (λ r, hl_state r =s "FAILED") l) eqn:Ef.
  - apply existsb_elem in Ef as (r & Hr & Hf%String.eqb_eq). split_and!; [|naive_solver|].
    + split; [done|]. intros [_ Hall]. by destruct (Hall r Hr).
    + split; [|done]. intros _. by exists r.
  - rewrite existsb_none in Ef. setoid_rewrite String.eqb_neq in Ef.
    destruct (existsb (unhealthy freshness when) l) eqn:Eu.
    + apply existsb_elem in Eu as (r & Hr & Hu). split_and!; [|naive_solver|split; [done|intros (x & Hx & ?); by destruct (Ef x Hx)]].
      split; [done|]. intros [_ Hall]. destruct (Hall r Hr) as (_ & Hd & t & Ht & Hle). exfalso.
      unfold unhealthy, stale_sensor in Hu. rewrite Ht in Hu. apply orb_true_iff in Hu as [?%String.eqb_eq|?%qlt_true]; [done|lra].
    + rewrite existsb_none in Eu. split_and!; [|naive_solver|split; [done|intros (x & Hx & ?); by destruct (Ef x Hx)]].
      split; [|done]. intros _. split; [done|]. intros r Hr. specialize (Eu r Hr). unfold unhealthy, stale_sensor in Eu.
      apply orb_false_iff in Eu as [?%String.eqb_neq Hst]. split_and!; [by apply Ef|done|].
      destruct (hl_last_success r) as [t|]; [|done]. exists t. split; [done|]. by apply qlt_false.
Qed.

(** ** Operator commands *)

(** A command adds a queued task and a command record, and changes nothing else. *)
Definition command_frame (d d' : DB) : Prop :=
  store_queues (db_store d) (db_store d')
  ∧ db_authority d' = db_authority d ∧ db_knowledge d' = db_knowledge d ∧ db_obs d' = db_obs d
  ∧ db_diag d' = db_diag d ∧ db_runtime d' = db_runtime d ∧ db_gateway d' = db_gateway d
  ∧ op_notifications d' = op_notifications d ∧ op_human_exceptions d' = op_human_exceptions d
  ∧ op_reports d' = op_reports d ∧ ∃ l, op_commands d' = op_commands d ++ l.
#[export] Instance command_frame_preorder : PreOrder command_frame.
Proof.
  split.
  - intros d. split_and!; try done. exists []. by rewrite app_nil_r.
  - intros a b c (S1 & A1 & K1 & O1 & D1 & R1 & G1 & N1 & X1 & P1 & l1 & C1)
      (S2 & A2 & K2 & O2 & D2 & R2 & G2 & N2 & X2 & P2 & l2 & C2).
    split_and!; try congruence; [by etrans|]. exists (l1 ++ l2). by rewrite C2, C1, app_assoc.
Qed.
Lemma command_frame_store (d d' : DB) :
  store_queues (db_store d) (db_store d') → db_authority d' = db_authority d → db_knowledge d' = db_knowledge d →
  db_obs d' = db_obs d → db_diag d' = db_diag d → db_runtime d' = db_runtime d → db_gateway d' = db_gateway d →
  db_ops d' = db_ops d → command_frame d d'.
Proof.
  intros ? ? ? ? ? ? ? E. unfold command_frame, op_notifications, op_human_exceptions, op_reports, op_commands.
  rewrite E. split_and!; try done. exists []. by rewrite app_nil_r.
Qed.
Lemma audit_command_frame actor action mid payload now :
  respects (on_db command_frame) (audit actor action mid payload now).
Proof. apply audit_frame; [typeclasses eauto|]. intros f g d. by apply command_frame_store. Qed.
Lemma submit_command_frame mid kind payload key prio maxa now :
  respects (on_db command_frame) (engine_submit_task mid kind payload key prio maxa now).
Proof.
  apply submit_respects; [typeclasses eauto|..]; [| |apply audit_command_frame].
  - intros f d. apply command_frame_store; try done. apply store_queues_transitions.
  - intros t d Hs Ha. apply command_frame_store; try done. by apply store_queues_task.
Qed.
Lemma command_respects_frame identity guard mid action token target params xid now :
  respects (on_db command_frame) (submit_command identity guard mid action token target params xid now).
Proof.
  pose proof audit_command_frame. pose proof submit_command_frame.
  assert (∀ r d, command_frame d (set_op_commands (λ l, l ++ [r]) d)) as Hc.
  { intros r d. split_and!; try done. by exists [r]. }
  unfold submit_command, exception_approved, evaluate_token, evaluate_verified, policy_record, get_mission. io_respects.
Qed.

Lemma command_request_flags mid action scope st params risk :
  let q := command_request mid action scope st params risk in
  is_true q "mission_authorized" = negb (str_in st ["CANCELLED"; "COMPLETED"])
  ∧ is_true q "new_cost" = get_truthy risk "new_cost" false ∧ is_true q "purchase" = get_truthy risk "purchase" false
  ∧ is_true q "subscription" = get_truthy risk "subscription" false
  ∧ is_true q "disables_security_control" = get_truthy risk "disables_security_control" false
  ∧ is_true q "irreversible" = get_truthy risk "irreversible" false
  ∧ is_true q "recovery_verified" = get_truthy risk "recovery_verified" (str_in action ["rollback"; "restore"]).
Proof. cbv zeta. unfold is_true. cbn -[str_in get_truthy]. by split_and!; match goal with |- context [if ?b then _ else _] => destruct b | |- context [JBool ?b] => destruct b end. Qed.

(** What [submit] established about a command. *)
Record command_authorised (identity : IdentityAuthority) (guard : PolicyGuard) (mid action token : string)
    (params : dict) (xid : option string) (now : option Z) (w : World) (scope : string) : Prop := {
  cd_scope : action_scope action = Some scope;
  cd_mission : ∃ m, find_row m_id mid (missions (w_db w)) = Some m ∧ m_state m ∉ ["CANCELLED"; "COMPLETED"];
  cd_operator : ∃ p w1, ia_verify identity token (Some scope) now w = (Ok p, w1);
  cd_guard : ∃ p w1 w2, ia_verify (pg_identity guard) token (Some scope) now w1 = (Ok p, w2) ∧ has_scope p scope = true;
  cd_constitution :
    constitution_ok (w_files w) (pg_constitution_path guard) (pg_expected_constitution_sha256 guard) = true;
  cd_approved : action = "approve" → ∃ r, Some (hx_id r) = xid ∧ r ∈ op_human_exceptions (w_db w)
    ∧ hx_mission_id r = mid ∧ hx_state r = "APPROVED";
  cd_risk : ∃ risk, command_risk params = Ok risk
    ∧ (∀ k, k ∈ ["new_cost"; "purchase"; "subscription"; "disables_security_control"] → get_truthy risk k false = false)
    ∧ (get_truthy risk "irreversible" false = true →
       get_truthy risk "recovery_verified" (str_in action ["rollback"; "restore"]) = true);
}.

Lemma exception_approved_Ok mid xid w u w' :
  exception_approved mid xid w = (Ok u, w') →
  w' = w ∧ ∃ r, Some (hx_id r) = xid ∧ r ∈ op_human_exceptions (w_db w) ∧ hx_mission_id r = mid ∧ hx_state r = "APPROVED".
Proof.
  unfold exception_approved. destruct xid as [x|]; [|done].
  intros (? & ? & [_ ->]%raise_if_Ok_inv & Hr)%bind_Ok_inv. apply bind_Ok_inv in Hr as (row & ? & [-> ->]%query_Ok_inv & Hr).
  apply raise_if_Ok_inv in Hr as [Hb ->]. split; [done|]. destruct (List.find _ _) as [r|] eqn:Ef; [|done].
  apply List.find_some in Ef as [Hin%list_elem_of_In [Hi%String.eqb_eq Hm%String.eqb_eq]%andb_true_iff].
  exists r. subst. split_and!; try done. by apply negb_false_iff, String.eqb_eq in Hb.
Qed.

(** What the policy guard's permission says of a command. *)
Lemma command_permitted ok p mid action scope st params risk :
  scope ≠ "" ∧ strip scope = scope → permitted (decide_verified ok p (command_request mid action scope st params risk)) = true →
  ok = true ∧ has_scope p scope = true ∧ st ∉ ["CANCELLED"; "COMPLETED"]
  ∧ (∀ k, k ∈ ["new_cost"; "purchase"; "subscription"; "disables_security_control"] → get_truthy risk k false = false)
  ∧ (get_truthy risk "irreversible" false = true →
     get_truthy risk "recovery_verified" (str_in action ["rollback"; "restore"]) = true).
Proof.
  intros [Hne Hstrip] [Hok [Hf Hs Hfree Hsec _ Hrec _ _]]%decide_permits_iff.
  assert (request_scope (command_request mid action scope st params risk) = scope) as Hscope by exact Hstrip.
  rewrite Hscope in Hs.
  destruct (command_request_flags mid action scope st params risk) as (Fm & Fc & Fp & Fsub & Fsec & Fi & Fr).
  split_and!; [done| | | |].
  - destruct Hs as [Hs|Hs]; [by destruct (Hne Hs)|exact Hs].
  - pose proof (Hf "mission_authorized" ltac:(set_solver)) as Hm. rewrite Fm in Hm.
    rewrite <- str_in_iff. by destruct (str_in _ _).
  - intros k Hk. repeat (apply elem_of_cons in Hk as [->|Hk]); [..|by apply elem_of_nil in Hk].
    all: rewrite <- ?Fc, <- ?Fp, <- ?Fsub, <- ?Fsec; try done; apply Hfree; set_solver.
  - rewrite <- Fi, <- Fr. done.
Qed.
Lemma action_scope_named action scope : action_scope action = Some scope → scope ≠ "" ∧ strip scope = scope.
Proof.
  unfold action_scope. destruct (List.find _ _) as [[a s]|] eqn:E; [|done]. intros [= <-]. simpl.
  apply List.find_some in E as [Hin%list_elem_of_In _]. unfold ACTION_SCOPES in Hin.
  repeat (apply elem_of_cons in Hin as [[= _ ->]|Hin]; [done|]). by apply elem_of_nil in Hin.
Qed.

Lemma command_scope_asked mid action scope st params risk :
  scope ≠ "" ∧ strip scope = scope → scope_asked (command_request mid action scope st params risk) = Some scope.
Proof.
  intros [Hne Hs]. unfold scope_asked.
  assert (request_scope (command_request mid action scope st params risk) = scope) as -> by exact Hs.
  by destruct (String.eqb_spec scope "").
Qed.

(** An operator command only enters the queue under authority: when [submit]
    returns, the action is one of the catalogue, the stored mission is neither
    cancelled nor completed, the operator's token verified for the action's scope
    and holds it under an intact constitution, an approval refers to an approved
    exception of this mission, and no forbidden risk is set; a QUEUED command record
    names a stored task under the command's key.  Nothing is executed: files,
    missions and all other tables stay, and tasks are only added, QUEUED. *)
Theorem operator_command_gated identity guard mid action token target params xid now w ref w'
    (Hrun : submit_command identity guard mid action token target params xid now w = (Ok ref, w')) :
  (∃ scope, command_authorised identity guard mid (lower (strip action)) token params xid now w scope)
  ∧ w_files w' = w_files w ∧ command_frame (w_db w) (w_db w')
  ∧ ∃ row t, row ∈ op_commands (w_db w') ∧ oc_id row = cm_id ref ∧ oc_state row = "QUEUED"
      ∧ oc_task_id row = Some (t_id t) ∧ cm_task_id ref = Some (t_id t)
      ∧ t ∈ tasks (w_db w') ∧ t_idempotency_key t = "operator:" +:+ cm_id ref.
Proof.
  pose proof (respects_run _ _ _ _ _ (command_respects_frame _ _ _ _ _ _ _ _ _) Hrun) as Hframe.
  unfold submit_command in Hrun. destruct (action_scope _) as [scope|] eqn:Hscope; [|done].
  apply bind_Ok_inv in Hrun as (mission & ? & [-> ->]%query_Ok_inv & Hrun).
  destruct (find_row m_id mid _) as [m|] eqn:Hm; [|done].
  apply bind_Ok_inv in Hrun as (p & w1 & Hp & Hrun). pose proof (ia_verify_world _ _ _ _ _ _ _ Hp) as [D1 F1].
  apply bind_Ok_inv in Hrun as (? & w2 & Happ & Hrun).
  assert (w2 = w1 ∧ (lower (strip action) = "approve" → ∃ r, Some (hx_id r) = xid ∧ r ∈ op_human_exceptions (w_db w)
    ∧ hx_mission_id r = mid ∧ hx_state r = "APPROVED")) as [-> Hx].
  { destruct (String.eqb_spec (lower (strip action)) "approve"); [|by injection Happ as _ <-].
    apply exception_approved_Ok in Happ as [-> Hx]. rewrite D1 in Hx. done. }
  apply bind_Ok_inv in Hrun as (risk & ? & [Hrisk ->]%lift_Ok_inv & Hrun).
  apply bind_Ok_inv in Hrun as (d & w3 & Hd & Hrun).
  pose proof (respects_run _ _ _ _ _ (files_evaluate_token _ _ _ _) Hd) as F3.
  apply bind_Ok_inv in Hrun as (? & ? & [Hperm%negb_false_iff ->]%raise_if_Ok_inv & Hrun).
  apply evaluate_token_run in Hd as (? & ? & _ & _ & _ & _ & [[? _]|(pg & wv & Hv & _ & ->)]); [congruence|].
  rewrite command_scope_asked in Hv by by eapply action_scope_named.
  apply command_permitted in Hperm as (Hcon & Hsc & Hst & Hfree & Hrec); [|by eapply action_scope_named].
  apply bind_Ok_inv in Hrun as (cid & w4 & Hcid%(respects_run same_files) & Hrun); [|apply files_uuid].
  apply bind_Ok_inv in Hrun as (when & w5 & Hwhen%(respects_run same_files) & Hrun); [|apply files_now].
  apply bind_Ok_inv in Hrun as (tid & w6 & Htid & Hrun).
  pose proof (respects_run same_files _ _ _ _ (files_submit _ _ _ _ _ _ _) Htid) as F6.
  apply engine_submit_stored in Htid as (t & Ht & Hid & Hk).
  apply bind_Ok_inv in Hrun as (rows & ? & [-> ->]%query_Ok_inv & Hrun).
  apply bind_Ok_inv in Hrun as (? & ? & [_ ->]%raise_if_Ok_inv & Hrun).
  apply bind_Ok_inv in Hrun as (? & w7 & [= _ <-] & Hrun).
  apply bind_Ok_inv in Hrun as (? & w8 & (e & ts & D & F & _)%audit_Ok_run & [= <- <-]).
  split_and!; [| |done|].
  - exists scope. split; try done.
    + by exists m.
    + by exists p, w1.
    + by exists pg, w1, wv.
    + by rewrite <- F1.
    + by exists risk.
  - unfold same_files in *. simpl in *. congruence.
  - eexists _, t. rewrite D. cbn. split_and!; [apply elem_of_app; right; by apply list_elem_of_singleton|..]; cbn; try done; by f_equal.
Qed.

(** ** Reports *)
Definition same_ops (d d' : DB) : Prop := db_ops d' = db_ops d.
#[export] Instance same_ops_preorder : PreOrder same_ops.
Proof. split; [done|]. intros a b c E1 E2. unfold same_ops in *. congruence. Qed.
Lemma audit_same_ops actor action mid payload now : respects (on_db same_ops) (audit actor action mid payload now).
Proof. apply audit_frame; [typeclasses eauto|done]. Qed.

(** Reports verify: the report [build_incident] returns is stored under its id,
    with the digest of its content, and [verify] accepts it. *)
Theorem built_report_verifies incident reqs now w r w'
    (Hrun : build_incident incident reqs now w = (Ok r, w')) :
  br_sha256 r = op_sha256 (br_content r) ∧ verify_report (br_id r) w' = (Ok true, w')
  ∧ ∃ row, find_row rp_id (br_id r) (op_reports (w_db w')) = Some row ∧ rp_incident_id row = Some incident
      ∧ rp_content_sha256 row = br_sha256 r ∧ loads (rp_content_json row) = Some (jcanon (br_content r)).
Proof.
  unfold build_incident in Hrun. apply bind_Ok_inv in Hrun as (row & ? & [-> ->]%query_Ok_inv & Hrun).
  destruct (find_row in_id incident _) as [inc|]; [|done].
  apply bind_Ok_inv in Hrun as (d & ? & [-> ->]%query_Ok_inv & Hrun). cbv zeta in Hrun.
  apply bind_Ok_inv in Hrun as (tests & w1 & _ & Hrun). apply bind_Ok_inv in Hrun as (gen & w2 & _ & Hrun).
  match type of Hrun with context [op_canonical ?c] => set (content := c) in Hrun end.
  apply bind_Ok_inv in Hrun as (rid & w3 & _ & Hrun).
  apply bind_Ok_inv in Hrun as (rows & ? & [-> ->]%query_Ok_inv & Hrun).
  apply bind_Ok_inv in Hrun as (? & ? & [Hfresh%row_exists_false ->]%raise_if_Ok_inv & Hrun).
  apply bind_Ok_inv in Hrun as (? & w4 & [= _ <-] & Hrun).
  apply bind_Ok_inv in Hrun as (? & w5 & (e & ts & D & _)%audit_Ok_run & [= <- <-]). cbn [br_id br_sha256 br_content].
  assert (find_row rp_id rid (op_reports (w_db w5)) = Some {| rp_id := rid; rp_report_type := "incident";
    rp_mission_id := Some (in_mission_id inc); rp_incident_id := Some incident; rp_content_json := op_canonical content;
    rp_content_sha256 := op_sha256 content; rp_created_at := gen |}) as Hfind.
  { rewrite D. simpl. rewrite find_row_snoc by done. simpl. by rewrite String.eqb_refl. }
  split; [done|]. split; [|eexists; split_and!; [exact Hfind|done..|by apply loads_dumps]].
  unfold verify_report. run_io. rewrite Hfind. simpl. unfold op_canonical. rewrite loads_dumps. simpl.
  unfold op_sha256, op_canonical. rewrite dumps_jcanon by done. by rewrite String.eqb_refl.
Qed.

(** ** The dispatcher *)
Lemma claim_same_ops worker secs now mid : respects (on_db same_ops) (engine_claim_next worker secs now mid).
Proof. pose proof audit_same_ops. unfold engine_claim_next, claim_next, recover_expired_leases, recover_row. io_respects. Qed.
Lemma submit_same_ops mid kind payload key prio maxa now :
  respects (on_db same_ops) (engine_submit_task mid kind payload key prio maxa now).
Proof. pose proof audit_same_ops. unfold engine_submit_task, submit_task, insert_task. io_respects. Qed.
Lemma complete_same_ops lease now : respects (on_db same_ops) (engine_complete_task lease now).
Proof. pose proof audit_same_ops. unfold engine_complete_task, complete_task, finish_running. io_respects. Qed.
Lemma same_ops_commands d d' : same_ops d d' → op_commands d' = op_commands d.
Proof. unfold same_ops, op_commands. by intros ->. Qed.

Lemma controlled_for_Ok registry action target params a :
  controlled_for registry action target params = Ok a →
  action = "diagnose" ∧ target = "service-recovery" ∧ strip (get_str params "runbook" "") = "service-recovery"
  ∧ (("service-recovery", strip (strip (get_str params "service" ""))), a) ∈ registry.
Proof.
  unfold controlled_for. destruct (String.eqb_spec action "diagnose"); [|done].
  destruct (String.eqb_spec target "service-recovery"); [|done]. cbn [negb orb].
  destruct (String.eqb_spec (strip (get_str params "runbook" "")) "service-recovery"); [|done]. cbn [negb].
  unfold registry_resolve. destruct (List.find _ registry) as [[k a']|] eqn:E; [|done]. intros [= <-].
  apply List.find_some in E as [Hin%list_elem_of_In Hk%bool_decide_eq_true]. simpl in Hk. by subst k.
Qed.

(** What a dispatched command was, and the work it became. *)
Record dispatched (registry : list (string * string * ControlledAction)) (w : World) (o : DispatchOutcome)
    (w' : World) (order : task_row) (payload params : dict) (cmd : command_row) (service : string)
    (a : ControlledAction) (child : task_row) : Prop := {
  dp_order : task_core order ∈ map task_core (tasks (w_db w)) ∧ t_kind order = "operator_command"
             ∧ do_operator_task_id o = Some (t_id order);
  dp_payload : loads (t_payload_json order) = Some (JObj payload) ∧ dget payload "parameters" = Some (JObj params);
  dp_command : cmd ∈ op_commands (w_db w) ∧ oc_id cmd = strip (get_str payload "operator_command_id" "")
               ∧ oc_task_id cmd = Some (t_id order) ∧ oc_state cmd = "QUEUED";
  dp_registered : (("service-recovery", service), a) ∈ registry ∧ service = strip (strip (get_str params "service" ""));
  dp_child : child ∈ tasks (w_db w') ∧ do_child_task_id o = Some (t_id child)
             ∧ t_idempotency_key child = "operator-dispatch:" +:+ oc_id cmd +:+ ":" +:+ ca_action_id a;
  dp_work : task_core child ∈ map task_core (tasks (w_db w))
            ∨ t_mission_id child = t_mission_id order ∧ t_kind child = ca_task_kind a ∧ t_max_attempts child = 1%Z
              ∧ loads (t_payload_json child) = Some (jcanon (JObj (child_payload (oc_id cmd) a)));
  dp_marked : op_commands (w_db w')
              = update_row oc_id (oc_id cmd) (command_set_state "DISPATCHED") (op_commands (w_db w));
}.

(** The dispatcher only turns operator commands into registered work: when it
    reports DISPATCHED, the task it claimed is an operator command whose record was
    QUEUED for this very task, the service it names is registered for the recovery
    runbook, and the child task under the command's key carries the registered
    action and its registered argument vector, in safe mode with one attempt (or
    was already stored); nothing of the command's own text reaches it.  The record
    is marked DISPATCHED. *)
Theorem dispatch_uses_registry dispatcher registry now w o w'
    (Hrun : dispatch_once dispatcher registry now w = (Ok o, w'))
    (Hstate : do_state o = "DISPATCHED") :
  ∃ order payload params cmd service a child,
    dispatched registry w o w' order payload params cmd service a child.
Proof.
  unfold dispatch_once in Hrun. apply bind_Ok_inv in Hrun as (lo & w1 & Hc & Hrun).
  destruct lo as [l|]; [|by injection Hrun as <- _].
  pose proof (respects_run _ _ _ _ _ (same_cores_claim _ _ _ _) Hc) as Hcores.
  pose proof (respects_run _ _ _ _ _ (claim_same_ops _ _ _ _) Hc) as Hops.
  apply engine_claim_Some in Hc as (order & Hin & Hid & Hmid & Hkind & Hpay & _).
  destruct (String.eqb_spec (l_kind l) "operator_command") as [Hop|]; cbn [negb] in Hrun; [|by minv Hrun].
  destruct (l_payload l) as [| | | | | |payload] eqn:Hpl; try done.
  destruct (dget payload "parameters") as [[]|] eqn:Hpar; try (by minv Hrun).
  rename kvs into params. destruct (String.eqb_spec (strip (get_str payload "operator_command_id" "")) ""); [by minv Hrun|].
  apply bind_Ok_inv in Hrun as (row & ? & [-> ->]%query_Ok_inv & Hrun). rewrite (same_ops_commands _ _ Hops) in Hrun.
  destruct (List.find _ _) as [cmd|] eqn:Hcmd; [|by minv Hrun].
  destruct (String.eqb_spec (oc_state cmd) "QUEUED") as [Hq|]; cbn [negb] in Hrun; [|by minv Hrun].
  destruct (controlled_for _ _ _ _) as [a|e] eqn:Hctl; [|by minv Hrun].
  apply controlled_for_Ok in Hctl as (_ & _ & _ & Hreg).
  apply List.find_some in Hcmd as [Hcin%list_elem_of_In [Hcid%String.eqb_eq Htask%bool_decide_eq_true]%andb_true_iff].
  rewrite <- Hcid in *.
  apply bind_Ok_inv in Hrun as (child & w2 & Hsub & Hrun).
  pose proof (respects_run _ _ _ _ _ (submit_same_ops _ _ _ _ _ _ _) Hsub) as Hops2.
  apply engine_submit_run in Hsub as (t & Ht & Htid & Hkey & Hor).
  apply bind_Ok_inv in Hrun as (? & w3 & Hcomp & Hrun).
  pose proof (respects_run _ _ _ _ _ (complete_same_ops _ _) Hcomp) as Hops3.
  apply (respects_run _ _ _ _ _ (cores_complete _ _)) in Hcomp. destruct (cores_in _ _ _ Hcomp Ht) as (t' & Ht' & Hcore).
  apply bind_Ok_inv in Hrun as (? & w4 & [= _ <-] & Hrun).
  apply bind_Ok_inv in Hrun as (? & w5 & (ev & ts & D & _)%audit_Ok_run & [= <- <-]).
  pose proof Hcore as [= C1 C2 C3 C4 C5 _ C7].
  exists order, payload, params, cmd, (strip (strip (get_str params "service" ""))), a, t'. split; rewrite ?D; cbn.
  - split_and!; [rewrite <- Hcores; by apply list_elem_of_fmap_2|congruence|by f_equal].
  - split; congruence.
  - split_and!; congruence.
  - done.
  - split_and!; [done|congruence|congruence].
  - destruct Hor as [Hold|[tsn ->]].
    + left. rewrite Hcore, <- Hcores. by apply list_elem_of_fmap_2.
    + right. cbn in C2, C3, C4, C7. split_and!; [congruence..|]. rewrite C4. apply loads_dumps.
  - f_equal. rewrite (same_ops_commands _ _ Hops3), (same_ops_commands _ _ Hops2). by apply same_ops_commands.
Qed.

(** The commands and the dispatcher keep the store well formed. *)
Lemma audit_keeps_store actor action mid payload now : respects keeps_store (audit actor action mid payload now).
Proof. apply audit_frame; [typeclasses eauto|]. intros f g d Hd. exact Hd. Qed.
Lemma command_keeps_store identity guard mid action token target params xid now :
  respects keeps_store (submit_command identity guard mid action token target params xid now).
Proof.
  pose proof audit_keeps_store.
  unfold submit_command, exception_approved, evaluate_token, evaluate_verified, policy_record, get_mission, engine_submit_task.
  io_respects.
Qed.
Lemma dispatch_keeps_store dispatcher registry now : respects keeps_store (dispatch_once dispatcher registry now).
Proof.
  pose proof audit_keeps_store.
  unfold dispatch_once, engine_claim_next, engine_fail_task, engine_block_task, engine_complete_task, engine_submit_task.
  io_respects.
Qed.

(** The dispatcher claims from the whole queue: when the next claimable task is
    not an operator command, the dispatcher takes its lease and fails it instead
    of leaving it to a worker, and on its last attempt (such as the single attempt
    of the dispatcher's own child tasks) the task ends FAILED without having run. *)
Theorem dispatcher_fails_foreign_task dispatcher registry ts w r o w'
    (Hwf : db_wf (w_db w))
    (Hnext : claim_row ts None (recover_rows ts (tasks (w_db w))) = Some r)
    (Hkind : t_kind r ≠ "operator_command") (Hlast : (t_max_attempts r ≤ t_attempts r + 1)%Z)
    (Hrun : dispatch_once dispatcher registry (Some ts) w = (Ok o, w')) :
  o = outcome (Some (t_id r)) "REJECTED" None "non-operator task"
  ∧ ∃ r', find_row t_id (t_id r) (tasks (w_db w')) = Some r' ∧ t_state r' = "FAILED".
Proof.
  destruct (claim_run dispatcher 30 ts None w Hwf) as (res & w1 & Hc & Hout & _); [lra|].
  unfold claim_outcome in Hout. rewrite Hnext in Hout. destruct Hout as (payload & _ & -> & Htasks).
  apply claim_row_Some in Hnext as [Hin _].
  set (lease := lease_of r dispatcher (ts + 30)%Q payload) in *. set (r1 := task_lease dispatcher (ts + 30)%Q ts r).
  assert (find_row t_id (t_id r) (tasks (w_db w1)) = Some r1) as Hfind.
  { rewrite Htasks, find_update_eq by done. rewrite find_row_unique; [done| |done].
    unfold unique_key, recover_rows. rewrite update_where_keys by done. exact (wf_tasks _ Hwf). }
  unfold dispatch_once in Hrun. apply bind_Ok_inv in Hrun as (lo & w2 & Hcl & Hrun).
  unfold engine_claim_next in Hcl. rewrite (bind_Ok _ _ _ _ _ Hc) in Hcl.
  apply bind_Ok_inv in Hcl as (? & w3 & (e & tsa & D & _)%audit_Ok_run & [= <- <-]).
  unfold lease in Hrun at 1. cbn [l_kind lease_of] in Hrun. rewrite (proj2 (String.eqb_neq _ _) Hkind) in Hrun. cbn [negb] in Hrun.
  apply bind_Ok_inv in Hrun as (st & w4 & Hf & [= <- <-]). split; [done|].
  unfold engine_fail_task in Hf. apply bind_Ok_inv in Hf as (st' & w5 & Hf & Hrun).
  apply bind_Ok_inv in Hrun as (? & w6 & (e2 & tsb & D2 & _)%audit_Ok_run & [= <- <-]).
  assert (tasks (w_db w3) = tasks (w_db w1)) as T3 by (by rewrite D).
  destruct (fail_task_run (t_id r) dispatcher "dispatcher received non-operator task" 0 ts w3 r1)
    as (w7 & r2 & E & Hr2 & Hst & _); [by rewrite T3|unfold leased_by; simpl; by rewrite ?String.eqb_refl|].
  cbn [lease_of l_id l_lease_owner lease] in Hf. rewrite E in Hf. injection Hf as <- <-. exists r2. rewrite D2. split; [exact Hr2|].
  rewrite Hst. cbn. by rewrite (proj2 (Z.ltb_ge _ _)).
Qed.

(** ** Human exceptions *)

(** A human exception is decided once, under authority: a decision that returns
    found the exception PENDING and verified the token for human:approve; it leaves
    exactly that row APPROVED or REJECTED in the name of the verified subject, and
    any later decision on it, with any token, raises and changes nothing. *)
Theorem exception_decided_once identity xid token approve note now w h w'
    (Hrun : decide_human_exception identity xid token approve note now w = (Ok h, w')) :
  ∃ r p w1 row, find_row hx_id xid (op_human_exceptions (w_db w)) = Some r ∧ hx_state r = "PENDING"
    ∧ ia_verify identity token (Some "human:approve") now w = (Ok p, w1)
    ∧ find_row hx_id xid (op_human_exceptions (w_db w')) = Some row
    ∧ hx_state row = (if approve then "APPROVED" else "REJECTED") ∧ hr_state h = hx_state row
    ∧ hx_decided_by row = Some (pr_subject p) ∧ hx_mission_id row = hx_mission_id r
    ∧ (∀ id, id ≠ xid →
         find_row hx_id id (op_human_exceptions (w_db w')) = find_row hx_id id (op_human_exceptions (w_db w)))
    ∧ ∀ identity2 token2 approve2 note2 now2,
        decide_human_exception identity2 xid token2 approve2 note2 now2 w'
        = (Raise (Exn OperationsError "human exception already decided"), w').
Proof.
  unfold decide_human_exception in Hrun. apply bind_Ok_inv in Hrun as (row & ? & [-> ->]%query_Ok_inv & Hrun).
  destruct (find_row hx_id xid _) as [r|] eqn:Hr; [|done].
  apply bind_Ok_inv in Hrun as (? & ? & [Hp%negb_false_iff%String.eqb_eq ->]%raise_if_Ok_inv & Hrun).
  apply bind_Ok_inv in Hrun as (p & w1 & Hv & Hrun). pose proof (ia_verify_world _ _ _ _ _ _ _ Hv) as [D1 _].
  apply bind_Ok_inv in Hrun as (when & w2 & Hw & Hrun).
  assert (w_db w2 = w_db w1) as D2 by (destruct now; by injection Hw as _ <-).
  apply bind_Ok_inv in Hrun as (? & w3 & [= _ <-] & Hrun).
  apply bind_Ok_inv in Hrun as (? & w4 & (e & ts & D & _)%audit_Ok_run & [= <- <-]).
  set (f := exception_decide (if approve then "APPROVED" else "REJECTED") when (pr_subject p) (strip note)) in *.
  assert (op_human_exceptions (w_db w4) = update_row hx_id xid f (op_human_exceptions (w_db w))) as Hx.
  { rewrite D. simpl. by rewrite D2, D1. }
  assert (find_row hx_id xid (op_human_exceptions (w_db w4)) = Some (f r)) as Hf.
  { rewrite Hx, find_update_eq by done. by rewrite Hr. }
  exists r, p, w1, (f r). split_and!; try done.
  - intros id Hne. by rewrite Hx, find_update_ne.
  - intros. unfold decide_human_exception. run_io. rewrite Hf. by destruct approve.
Qed.

(** ** Notifications *)

Lemma find_snoc {R} (f : R → bool) l x : List.find f l = None → f x = true → List.find f (l ++ [x]) = Some x.
Proof. intros Hl Hx. induction l as [|y l IH]; simpl in *; [by rewrite Hx|]. destruct (f y); [done|auto]. Qed.

(** After [notify] an open notification with the fingerprint is found under the
    returned id. *)
Lemma notify_open kind sev subject payload mid inc now w r w' :
  notify kind sev subject payload mid inc now w = (Ok r, w') →
  ∃ row, List.find (open_with (notification_fingerprint kind subject mid inc)) (op_notifications (w_db w')) = Some row
    ∧ no_id row = nr_id r.
Proof.
  set (fp := notification_fingerprint kind subject mid inc). unfold notify. fold fp.
  intros (? & ? & [_ ->]%raise_if_Ok_inv & Hrun)%bind_Ok_inv. apply bind_Ok_inv in Hrun as (when & w1 & _ & Hrun).
  apply bind_Ok_inv in Hrun as (? & ? & [_ ->]%raise_if_Ok_inv & Hrun).
  apply bind_Ok_inv in Hrun as (ex & ? & [-> ->]%query_Ok_inv & Hrun).
  destruct (List.find _ _) as [row|] eqn:Hf.
  - apply bind_Ok_inv in Hrun as (? & w2 & [= _ <-] & [= <- <-]). cbn [nr_id w_db with_db].
    set (g := notification_refresh _ _ _). exists (g row). split; [|done]. simpl.
    unfold update_row, update_where. revert Hf. induction (op_notifications (w_db w1)) as [|n l IH]; [done|]. simpl.
    destruct (open_with fp n) eqn:En.
    + intros [= ->]. unfold has_key. rewrite String.eqb_refl. by replace (open_with fp (g row)) with true.
    + intros Hl. replace (open_with fp (if has_key no_id (no_id row) n then g n else n)) with false; [by apply IH|].
      by destruct (has_key no_id (no_id row) n).
  - apply bind_Ok_inv in Hrun as (nid & w2 & Hn & Hrun). assert (w_db w2 = w_db w1) as D2 by (by injection Hn as _ <-).
    apply bind_Ok_inv in Hrun as (? & w3 & Hi & Hrun). unfold insert_notification in Hi.
    apply bind_Ok_inv in Hi as (? & ? & [-> ->]%query_Ok_inv & Hi).
    apply bind_Ok_inv in Hi as (? & ? & [_ ->]%raise_if_Ok_inv & Hi).
    apply bind_Ok_inv in Hi as (? & ? & [_ ->]%raise_if_Ok_inv & [= _ <-]).
    apply bind_Ok_inv in Hrun as (? & w4 & (e & ts & D & _)%audit_Ok_run & [= <- <-]). cbn [nr_id]. rewrite D. simpl.
    rewrite D2. eexists. split; [apply find_snoc; [exact Hf|]|done]. unfold open_with. simpl. by rewrite String.eqb_refl.
Qed.

(** Notifications are not repeated: once an event of some kind, subject, mission
    and incident has been notified, notifying it again returns the same
    notification, adds no row and no ledger entry, and refreshes only that row. *)
Theorem notify_deduplicates kind sev subject payload mid inc now w r w1 sev2 payload2 now2 r2 w2
    (Hfirst : notify kind sev subject payload mid inc now w = (Ok r, w1))
    (Hagain : notify kind sev2 subject payload2 mid inc now2 w1 = (Ok r2, w2)) :
  nr_id r2 = nr_id r ∧ map no_id (op_notifications (w_db w2)) = map no_id (op_notifications (w_db w1))
  ∧ audit_events (w_db w2) = audit_events (w_db w1)
  ∧ ∀ id, id ≠ nr_id r → find_row no_id id (op_notifications (w_db w2)) = find_row no_id id (op_notifications (w_db w1)).
Proof.
  apply notify_open in Hfirst as (row & Hf & Hid). unfold notify in Hagain.
  apply bind_Ok_inv in Hagain as (? & ? & [_ ->]%raise_if_Ok_inv & Hrun).
  apply bind_Ok_inv in Hrun as (when & w3 & Hw & Hrun).
  assert (w_db w3 = w_db w1) as D3 by (destruct now2; by injection Hw as _ <-).
  apply bind_Ok_inv in Hrun as (? & ? & [_ ->]%raise_if_Ok_inv & Hrun).
  apply bind_Ok_inv in Hrun as (ex & ? & [-> ->]%query_Ok_inv & Hrun). rewrite D3, Hf in Hrun.
  apply bind_Ok_inv in Hrun as (? & w4 & [= _ <-] & [= <- <-]). cbn. rewrite D3. split_and!; [done| |done|].
  - by apply update_row_keys.
  - intros id Hne. apply find_update_ne; [done|]. by rewrite Hid.
Qed.
End operations_props.
