(* ===== verification/Checkpoints.v ===== *)
(** immune_core/checkpoints.py: derived workspaces, file-system checkpoints with
    content hashes, and verified rollback. *)

From S2P Require Import Prelude Json Sha256 Schema Files Ledger.

Record CheckpointRef := {
  cr_id : string; cr_mission_id : string; cr_task_id : string; cr_path : path; cr_manifest_sha256 : string;
}.

(** The first [n] characters of a hex digest. *)
Fixpoint str_take (n : nat) (s : string) : string :=
  match n, s with
  | S n', String c s' => String c (str_take n' s')
  | _, _ => EmptyString
  end.

Section checkpoints.
Context `{JsonText, Entropy}.
(** The roots of the workspace manager and of the checkpoint manager. *)
Context (ws_root cp_root : path).

(** ** Workspaces *)
Definition safe_component (value : string) : IO string :=
  _ ← raise_if (value =s "") CheckpointError "empty scope identifier";
  mret (str_take 24 (sha256_hex value)).

Definition for_task (mission_id task_id : string) : IO path :=
  m ← safe_component mission_id;
  t ← safe_component task_id;
  let resolved := ws_root ++ [m; t] in
  _ ← raise_if (negb (inside ws_root resolved)) CheckpointError "workspace escaped root";
  mret resolved.

Definition ws_contains (p : path) : bool := within ws_root p.

(** ** Inventory and manifest *)
Definition inventory_entry (e : path * string) : json :=
  JObj [("path", JStr (posix e.1)); ("size", JInt (Z.of_nat (String.length e.2))); ("sha256", JStr (sha256_hex e.2))].
Definition cp_inventory (data_root : path) (files : gmap path string) : json :=
  JList (map inventory_entry (inventory_of data_root files)).

Definition manifest_of (checkpoint_id mission_id task_id : string) (created_at : Q) (inventory : json) : dict :=
  [("schema", JInt 1); ("id", JStr checkpoint_id); ("mission_id", JStr mission_id); ("task_id", JStr task_id);
   ("created_at", JNum created_at); ("inventory", inventory)].
Definition manifest_digest (manifest : dict) : string := sha256_hex (dumps Compact (JObj manifest)).

Definition cp_create (ws : path) (mission_id task_id : string) (now : option Q) : IO CheckpointRef :=
  _ ← raise_if (negb (ws_contains ws)) CheckpointError "workspace outside managed root";
  checkpoint_id ← uuid4;
  let cp_dir := cp_root ++ [checkpoint_id] in
  files ← gets w_files;
  _ ← raise_if (path_exists cp_dir files) OSError "File exists";
  _ ← modify (with_files (λ f, graft (cp_dir ++ ["data"]) (subtree ws f) f));
  copied ← gets w_files;
  let inventory := cp_inventory (cp_dir ++ ["data"]) copied in
  created_at ← now_or_time now;
  let manifest := manifest_of checkpoint_id mission_id task_id created_at inventory in
  let manifest_sha := manifest_digest manifest in
  _ ← modify (with_files (<[cp_dir ++ ["manifest.json"] :=
        dumps Indented (JObj (dset manifest "manifest_sha256" (JStr manifest_sha))) +:+ newline]>));
  _ ← audit "checkpoint-manager" "checkpoint_created" (Some mission_id)
        [("checkpoint_id", JStr checkpoint_id); ("task_id", JStr task_id); ("manifest_sha256", JStr manifest_sha)] None;
  mret {| cr_id := checkpoint_id; cr_mission_id := mission_id; cr_task_id := task_id; cr_path := cp_dir;
          cr_manifest_sha256 := manifest_sha |}.

(** [str(data["k"])] *)
Definition item_str (d : dict) (k : string) : IO string :=
  match dget d k with Some v => mret (py_str v) | None => throw KeyError k end.

Definition cp_get (checkpoint_id : string) : IO CheckpointRef :=
  let cp_dir := resolve_join cp_root checkpoint_id in
  _ ← raise_if (negb (inside cp_root cp_dir)) CheckpointError "checkpoint escaped root";
  files ← gets w_files;
  match files !! (cp_dir ++ ["manifest.json"]) with
  | None => throw CheckpointError "checkpoint not found"
  | Some text =>
      match loads text with
      | None => throw JSONDecodeError "Expecting value"
      | Some (JObj data) =>
          cid ← item_str data "id";
          mid ← item_str data "mission_id";
          tid ← item_str data "task_id";
          sha ← item_str data "manifest_sha256";
          mret {| cr_id := cid; cr_mission_id := mid; cr_task_id := tid; cr_path := cp_dir;
                  cr_manifest_sha256 := sha |}
      | Some _ => throw TypeError "indices must be integers or slices"
      end
  end.

(** [a == b] of two JSON values: key order does not matter *)
Definition json_eq (a b : json) : bool := dumps Compact a =s dumps Compact b.

(** The [try] block of [verify] on the manifest text. *)
Definition manifest_ok (text manifest_sha256 : string) (actual : json) : result bool :=
  match loads text with
  | None => Ok false
  | Some (JObj raw) =>
      match dget raw "manifest_sha256" with
      | None => Ok false
      | Some expected =>
          let raw' := dpop raw "manifest_sha256" in
          match expected with
          | JStr e =>
              Ok ((manifest_digest raw' =s e) && (e =s manifest_sha256)
                  && json_eq actual (default (JList []) (dget raw' "inventory")))
          | _ => Ok false
          end
      end
  | Some (JList _) => Raise (Exn TypeError "'str' object cannot be interpreted as an integer")
  | Some _ => Raise (Exn AttributeError "object has no attribute 'pop'")
  end.

Definition cp_verify (c : CheckpointRef) : IO bool :=
  if negb (inside cp_root (cr_path c)) then mret false
  else
    files ← gets w_files;
    match files !! (cr_path c ++ ["manifest.json"]) with
    | None => mret false
    | Some text =>
        lift_result (manifest_ok text (cr_manifest_sha256 c) (cp_inventory (cr_path c ++ ["data"]) files))
    end.

Definition cp_restore (c : CheckpointRef) (ws : path) : IO unit :=
  _ ← raise_if (negb (ws_contains ws)) CheckpointError "workspace outside managed root";
  ok ← cp_verify c;
  _ ← raise_if (negb ok) CheckpointError "checkpoint integrity verification failed";
  _ ← modify (with_files (clear ws));
  _ ← modify (with_files (λ f, graft ws (subtree (cr_path c ++ ["data"]) f) f));
  _ ← audit "checkpoint-manager" "checkpoint_restored" (Some (cr_mission_id c))
        [("checkpoint_id", JStr (cr_id c)); ("task_id", JStr (cr_task_id c))] None;
  mret tt.
End checkpoints.
