(* ===== verification/CheckpointProps.v ===== *)
(** A checkpoint restores exactly the workspace it captured, and a verified
    checkpoint cannot be altered without a SHA-256 collision. *)

From S2P Require Import Prelude Json Sha256 Schema Files Ledger LedgerProps Checkpoints.

(** ** Disjoint directories *)
Definition apart (a b : path) : Prop := ¬ a `prefix_of` b ∧ ¬ b `prefix_of` a.

Lemma apart_strip a b rel : apart a b → strip_prefix a (b ++ rel) = None.
Proof.
  intros [Hab Hba]. destruct (strip_prefix a (b ++ rel)) as [r|] eqn:E; [|done].
  apply strip_prefix_Some in E. exfalso.
  destruct (prefix_weak_total a b (b ++ rel)) as [?|?]; [rewrite E; by apply prefix_app_r|by apply prefix_app_r|auto|auto].
Qed.
Lemma apart_extend a b x y : apart a b → apart (a ++ x) (b ++ y).
Proof.
  intros [Hab Hba].
  assert (∀ u v s t : path, u ++ s `prefix_of` v ++ t → u `prefix_of` v ∨ v `prefix_of` u) as Hp.
  { intros u v s t Hpre. apply (prefix_weak_total u v (v ++ t)); [|by apply prefix_app_r].
    etrans; [|exact Hpre]. by apply prefix_app_r. }
  split; intros Hx; apply Hp in Hx; tauto.
Qed.

Section checkpoint_props.
Context `{JsonText, Entropy}.
Context (ws_root cp_root : path).

Lemma inventory_same root files files' :
  subtree root files = subtree root files' → cp_inventory root files = cp_inventory root files'.
Proof. intros E. unfold cp_inventory, inventory_of. by rewrite E. Qed.

Lemma subtree_extend a b files files' :
  subtree a files = subtree a files' → subtree (a ++ b) files = subtree (a ++ b) files'.
Proof.
  intros E. apply map_eq. intros rel. rewrite !lookup_subtree, <- !app_assoc, <- !lookup_subtree. by rewrite E.
Qed.
Lemma lookup_in_subtree a b files files' :
  subtree a files = subtree a files' → files !! (a ++ b) = files' !! (a ++ b).
Proof. intros E. rewrite <- !lookup_subtree. by rewrite E. Qed.

(** The manifest [create] writes verifies against its own digest. *)
Definition signed_manifest (cid mid tid : string) (t : Q) (inv : json) (digest : string) : dict :=
  [("created_at", JNum t); ("id", JStr cid); ("inventory", jcanon inv); ("manifest_sha256", JStr digest);
   ("mission_id", JStr mid); ("schema", JInt 1); ("task_id", JStr tid)].
Lemma jcanon_manifest cid mid tid t inv digest :
  jcanon (JObj (dset (manifest_of cid mid tid t inv) "manifest_sha256" (JStr digest)))
  = JObj (signed_manifest cid mid tid t inv digest).
Proof. reflexivity. Qed.
Lemma dpop_manifest cid mid tid t inv digest :
  JObj (dpop (signed_manifest cid mid tid t inv digest) "manifest_sha256") = jcanon (JObj (manifest_of cid mid tid t inv)).
Proof. reflexivity. Qed.

Lemma manifest_verifies cid mid tid t inv :
  let manifest := manifest_of cid mid tid t inv in
  let text := dumps Indented (JObj (dset manifest "manifest_sha256" (JStr (manifest_digest manifest)))) +:+ newline in
  manifest_ok text (manifest_digest manifest) inv = Ok true.
Proof.
  intros manifest text. unfold manifest_ok, text. rewrite loads_newline, loads_dumps.
  unfold printed. cbn [sorts]. unfold manifest at 1. rewrite jcanon_manifest.
  set (dg := manifest_digest manifest). change (dget (signed_manifest _ _ _ _ _ dg) "manifest_sha256") with (Some (JStr dg)).
  assert (manifest_digest (dpop (signed_manifest cid mid tid t inv dg) "manifest_sha256") = dg) as ->.
  { unfold manifest_digest at 1. rewrite dpop_manifest. by rewrite dumps_jcanon. }
  rewrite String.eqb_refl. change (default (JList []) (dget (dpop _ _) "inventory")) with (jcanon inv).
  unfold json_eq. by rewrite dumps_jcanon, String.eqb_refl.
Qed.

Lemma path_exists_extend a b files : path_exists a files = false → path_exists (a ++ b) files = false.
Proof.
  unfold path_exists. intros Ha. destruct (below (a ++ b) files) as [|[rel c] l] eqn:E; [done|].
  assert ((rel, c) ∈ below (a ++ b) files) as Hx by (rewrite E; by left).
  apply elem_of_below in Hx. rewrite <- app_assoc in Hx. apply elem_of_below in Hx.
  destruct (below a files); [by apply elem_of_nil in Hx | done].
Qed.

(** What [create] left behind. *)
Lemma cp_create_run ws mid tid now w c w' :
  cp_create ws_root cp_root ws mid tid now w = (Ok c, w') → apart ws (cr_path c) →
  ∃ cid t, within ws_root ws = true ∧ cr_path c = cp_root ++ [cid]
    ∧ subtree (cr_path c ++ ["data"]) (w_files w') = subtree ws (w_files w)
    ∧ cr_manifest_sha256 c = manifest_digest (manifest_of cid mid tid t (cp_inventory (cr_path c ++ ["data"]) (w_files w')))
    ∧ w_files w' !! (cr_path c ++ ["manifest.json"]) = Some (
        let m := manifest_of cid mid tid t (cp_inventory (cr_path c ++ ["data"]) (w_files w')) in
        dumps Indented (JObj (dset m "manifest_sha256" (JStr (manifest_digest m)))) +:+ newline).
Proof.
  unfold cp_create. intros Hrun Hap.
  apply bind_Ok_inv in Hrun as (? & ? & [Hws%negb_false_iff ->]%raise_if_Ok_inv & Hrun).
  apply bind_Ok_inv in Hrun as (cid & w1 & [= <- <-] & Hrun). cbv zeta in Hrun.
  apply bind_Ok_inv in Hrun as (fs & ? & [= <- <-] & Hrun).
  apply bind_Ok_inv in Hrun as (? & ? & [Hex ->]%raise_if_Ok_inv & Hrun).
  apply bind_Ok_inv in Hrun as (? & ? & [= _ <-] & Hrun).
  apply bind_Ok_inv in Hrun as (fs & ? & [= <- <-] & Hrun).
  apply bind_Ok_inv in Hrun as (t & w2 & Ht & Hrun).
  assert (w_files w2 = graft ((cp_root ++ [uuid_at (w_tick w)]) ++ ["data"]) (subtree ws (w_files w)) (w_files w)) as F2.
  { by destruct now; injection Ht as _ <-. }
  apply bind_Ok_inv in Hrun as (? & ? & [= _ <-] & Hrun).
  apply bind_Ok_inv in Hrun as (? & w3 & (e & at_ & _ & F3 & _)%audit_Ok_run & Hrun). injection Hrun as <- <-.
  cbn [cr_path cr_manifest_sha256 w_files with_files] in *. set (cid := uuid_at (w_tick w)) in *.
  set (cp := cp_root ++ [cid]) in *. set (tree := subtree ws (w_files w)) in *.
  assert (subtree (cp ++ ["data"]) (w_files w3) = tree) as Ht3.
  { apply map_eq. intros rel. rewrite F3, lookup_subtree.
    rewrite lookup_insert_ne by (rewrite <- app_assoc; intros [=]%app_inv_head).
    rewrite F2, <- lookup_subtree. by rewrite subtree_graft_fresh by (by apply path_exists_extend). }
  assert (cp_inventory (cp ++ ["data"]) (graft (cp ++ ["data"]) tree (w_files w))
          = cp_inventory (cp ++ ["data"]) (w_files w3)) as Ei.
  { apply inventory_same. rewrite Ht3. by apply subtree_graft_fresh, path_exists_extend. }
  exists cid, t. rewrite <- Ei. split_and!; try done. rewrite F3. apply lookup_insert_eq.
Qed.

Lemma cp_verify_run c w :
  inside cp_root (cr_path c) = true →
  cp_verify cp_root c w
  = match w_files w !! (cr_path c ++ ["manifest.json"]) with
    | None => (Ok false, w)
    | Some text => (manifest_ok text (cr_manifest_sha256 c) (cp_inventory (cr_path c ++ ["data"]) (w_files w)), w)
    end.
Proof.
  intros Hin. unfold cp_verify, mbind, M_bind, gets, lift_result. rewrite Hin. simpl. by destruct (_ !! _).
Qed.

Lemma cp_get_path i w c w' : cp_get cp_root i w = (Ok c, w') → cr_path c = resolve_join cp_root i.
Proof.
  unfold cp_get. intros (? & ? & _ & Hc)%bind_Ok_inv. rewrite bind_gets_run in Hc.
  destruct (_ !! _) as [text|]; [|done]. destruct (loads text) as [[| | | | | |d]|]; try done.
  do 4 (apply bind_Ok_inv in Hc as (? & ? & _ & Hc)). by injection Hc as <- _.
Qed.

Lemma inside_snoc root x : inside root (root ++ [x]) = true.
Proof.
  apply bool_decide_eq_true. split; [by apply prefix_app_r|]. intros E.
  apply (f_equal length) in E. rewrite length_app in E. simpl in E. lia.
Qed.

Lemma cp_create_at ws mid tid now w c w' :
  cp_create ws_root cp_root ws mid tid now w = (Ok c, w') →
  within ws_root ws = true ∧ ∃ cid, cr_path c = cp_root ++ [cid].
Proof.
  unfold cp_create. intros (? & ? & [Hws%negb_false_iff ->]%raise_if_Ok_inv & Hrun)%bind_Ok_inv. split; [done|].
  do 8 (apply bind_Ok_inv in Hrun as (? & ? & _ & Hrun)). injection Hrun as <- _. by eexists.
Qed.
Lemma restore_undoes ws mid tid now w c w1 w2 r w3 :
  apart ws_root cp_root → cp_create ws_root cp_root ws mid tid now w = (Ok c, w1) →
  subtree (cr_path c) (w_files w2) = subtree (cr_path c) (w_files w1) →
  cp_restore ws_root cp_root c ws w2 = (r, w3) →
  cp_verify cp_root c w2 = (Ok true, w2)
  ∧ subtree ws (w_files w3) = subtree ws (w_files w)
  ∧ (∀ p, strip_prefix ws p = None → w_files w3 !! p = w_files w2 !! p)
  ∧ (∀ e, r = Raise e → exn_cls e = IntegrityError).
Proof.
  intros Hapart Hcreate Hkept Hrestore.
  pose proof (cp_create_at _ _ _ _ _ _ _ Hcreate) as [Hws [cid0 Hcp]].
  assert (apart ws (cr_path c)) as Hap.
  { apply bool_decide_eq_true in Hws as [x ->]. rewrite Hcp. by apply apart_extend. }
  destruct (cp_create_run _ _ _ _ _ _ _ Hcreate Hap) as (cid & t & _ & Ecp & Hdata & Esha & Hman).
  assert (cp_verify cp_root c w2 = (Ok true, w2)) as Hv.
  { rewrite cp_verify_run by (rewrite Ecp; apply inside_snoc).
    rewrite (lookup_in_subtree _ _ _ _ Hkept), Hman, Esha.
    rewrite (inventory_same _ (w_files w2) (w_files w1)) by (by apply subtree_extend).
    by rewrite manifest_verifies. }
  split; [done|].
  unfold cp_restore, ws_contains in Hrestore. rewrite bind_raise_if_run in Hrestore by (by rewrite Hws).
  rewrite (bind_Ok _ _ _ _ _ Hv), bind_raise_if_run, !bind_modify_run in Hrestore by done.
  set (wr := with_files _ (with_files _ w2)) in Hrestore.
  assert (w_files w3 = w_files wr ∧ ∀ e, r = Raise e → exn_cls e = IntegrityError) as [-> He].
  { unfold mbind, M_bind in Hrestore. destruct (audit _ _ _ _ _ wr) as [[h|e] w4] eqn:Ea;
      apply audit_outcome in Ea as [<- Hc]; injection Hrestore as <- <-; split; try done; by intros e' [= <-]; apply Hc. }
  unfold wr. cbn [w_files with_files].
  assert (subtree (cr_path c ++ ["data"]) (clear ws (w_files w2)) = subtree ws (w_files w)) as Ed.
  { rewrite <- Hdata. apply map_eq. intros rel. rewrite !lookup_subtree, lookup_clear.
    rewrite <- !app_assoc, apart_strip by done. by apply lookup_in_subtree. }
  rewrite Ed. split_and!; [apply subtree_restore| |done].
  intros p Hp. rewrite lookup_graft_out, lookup_clear by done. by rewrite Hp.
Qed.

(** C15. Rollback restores exactly what was captured: after [create] on a
    workspace, as long as the checkpoint's own directory is left alone,
    [verify] accepts the checkpoint and [restore] brings the workspace back to
    the very files it had, removing what was added since, and touches nothing
    outside the workspace, whatever happened in between. *)
Theorem checkpoint_restores_workspace ws mid tid now w c w1 w2 r w3
    (Hapart : apart ws_root cp_root)
    (Hcreate : cp_create ws_root cp_root ws mid tid now w = (Ok c, w1))
    (Hkept : subtree (cr_path c) (w_files w2) = subtree (cr_path c) (w_files w1))
    (Hrestore : cp_restore ws_root cp_root c ws w2 = (r, w3)) :
  cp_verify cp_root c w2 = (Ok true, w2)
  ∧ subtree ws (w_files w3) = subtree ws (w_files w)
  ∧ (∀ p, strip_prefix ws p = None → w_files w3 !! p = w_files w2 !! p)
  ∧ (∀ e, r = Raise e → exn_cls e = IntegrityError).
Proof. by eapply restore_undoes. Qed.

(** ** Tampering *)
Lemma manifest_ok_true text sha actual :
  manifest_ok text sha actual = Ok true →
  ∃ raw inv, loads text = Some (JObj raw) ∧ manifest_digest (dpop raw "manifest_sha256") = sha
    ∧ inv = default (JList []) (dget (dpop raw "manifest_sha256") "inventory")
    ∧ jcanon actual = jcanon inv.
Proof.
  unfold manifest_ok. destruct (loads text) as [[| | | | | |raw]|]; try done.
  destruct (dget raw "manifest_sha256") as [[| | | |e| |]|]; try done. intros [= Hb].
  rewrite !andb_true_iff, !String.eqb_eq in Hb. destruct Hb as [[Hd <-] Hj].
  eexists raw, _. split_and!; try done. unfold json_eq in Hj. apply String.eqb_eq in Hj.
  by apply dumps_inj in Hj.
Qed.

Definition files_ok (files : gmap path string) : Prop := ∀ p c, files !! p = Some c → path_ok p.

Lemma entries_same l l' :
  map jcanon (map inventory_entry l) = map jcanon (map inventory_entry l') →
  Forall (λ e, path_ok e.1) l → Forall (λ e, path_ok e.1) l' →
  l = l' ∨ sha256_collide_in l.*2 l'.*2.
Proof.
  revert l'. induction l as [|[p c] l IH]; intros [|[p' c'] l']; try done; [by left|].
  intros Heq Hl Hl'. inversion_clear Hl as [|? ? Hp Hl2]. inversion_clear Hl' as [|? ? Hp' Hl2'].
  cbn [map] in Heq. injection Heq as Ep Es Esz Erest.
  assert (p = p') as <- by (rewrite <- (split_posix p), <- (split_posix p') by done; by rewrite Ep).
  apply sha256_eq_or_collide in Es as [<-|Hc]; [|right; eapply sha256_collide_here; [| |exact Hc]; simpl; by left].
  destruct (IH l' Erest Hl2 Hl2') as [<-|Hc]; [by left|right].
  eapply sha256_collide_in_mono; [| |exact Hc]; simpl; set_solver.
Qed.

(** Below a directory there are only files with a name of their own. *)
Definition tree_ok (root : path) (files : gmap path string) : Prop :=
  ∀ rel c, files !! (root ++ rel) = Some c → path_ok rel.
Lemma inventory_paths_ok root files : tree_ok root files → Forall (λ e, path_ok e.1) (inventory_of root files).
Proof.
  intros Hok. unfold inventory_of. apply Forall_forall. intros [rel x] Hin. rewrite order_by_perm in Hin.
  apply elem_of_map_to_list in Hin. rewrite lookup_subtree in Hin. by apply (Hok rel x).
Qed.

(** The texts [verify] hashes: the manifest without its digest, every file. *)
Definition signed_text (c : CheckpointRef) (w : World) : string :=
  match w_files w !! (cr_path c ++ ["manifest.json"]) ≫= loads with
  | Some (JObj raw) => dumps Compact (JObj (dpop raw "manifest_sha256"))
  | _ => ""
  end.
Definition hashed_texts (c : CheckpointRef) (w : World) : list string :=
  signed_text c w :: (inventory_of (cr_path c ++ ["data"]) (w_files w)).*2.

(** A checkpoint cannot be altered unnoticed: if [verify] accepts the same
    reference in two states, its data directory holds the same files with the
    same contents in both, or two of the hashed texts (the signed part of the
    manifest, the file contents) are a SHA-256 collision. *)
Theorem checkpoint_tamper_evident c w1 w2 w1' w2'
    (H1 : cp_verify cp_root c w1 = (Ok true, w1'))
    (H2 : cp_verify cp_root c w2 = (Ok true, w2'))
    (Hok1 : tree_ok (cr_path c ++ ["data"]) (w_files w1))
    (Hok2 : tree_ok (cr_path c ++ ["data"]) (w_files w2)) :
  subtree (cr_path c ++ ["data"]) (w_files w1) = subtree (cr_path c ++ ["data"]) (w_files w2)
  ∨ sha256_collide_in (hashed_texts c w1) (hashed_texts c w2).
Proof.
  destruct (inside cp_root (cr_path c)) eqn:Hin; [|unfold cp_verify in H1; by rewrite Hin in H1].
  rewrite cp_verify_run in H1, H2 by done.
  destruct (w_files w1 !! _) as [t1|] eqn:F1; [|done]. destruct (w_files w2 !! _) as [t2|] eqn:F2; [|done].
  injection H1 as H1 _. injection H2 as H2 _.
  apply manifest_ok_true in H1 as (raw1 & inv1 & L1 & D1 & -> & J1).
  apply manifest_ok_true in H2 as (raw2 & inv2 & L2 & D2 & -> & J2).
  rewrite <- D2 in D1. apply sha256_eq_or_collide in D1 as [D1|Hc].
  2:{ right. eapply sha256_collide_here; [| |exact Hc]; unfold hashed_texts, signed_text;
        rewrite ?F1, ?F2; simpl; rewrite ?L1, ?L2; by left. }
  apply dumps_inj in D1. apply (jcanon_obj_dget _ _ "inventory") in D1.
  set (i1 := dget (dpop raw1 _) _) in *. set (i2 := dget (dpop raw2 _) _) in *.
  assert (jcanon (default (JList []) i1) = jcanon (default (JList []) i2)) as E
    by (destruct i1, i2; simpl in *; congruence).
  rewrite <- J1, <- J2 in E. unfold cp_inventory in E. cbn [jcanon] in E. injection E as E.
  apply entries_same in E as [E|Hc]; [left | right | by apply inventory_paths_ok | by apply inventory_paths_ok].
  2:{ eapply sha256_collide_in_mono; [| |exact Hc]; unfold hashed_texts; set_solver. }
  apply map_to_list_inj. rewrite <- (order_by_perm entry_leb), <- (order_by_perm entry_leb (map_to_list (subtree _ (w_files w2)))).
  unfold inventory_of in E. by rewrite E.
Qed.
End checkpoint_props.
