(* ===== verification/Execution.v ===== *)
(** immune_core/execution.py, immune_core/workers.py and immune_execution_broker
    (execution.py, workers.py): worker manifests, the executors that gate a process
    and roll a failed change back, and the worker's turn over the task queue.

    The process itself is an argument: [spawn] runs an argument vector in a directory
    under an environment with a deadline, may do anything to the world, and ends,
    overruns its deadline or cannot be started. *)

From stdpp Require Import pretty.
From S2P Require Import Prelude Json Sha256 Schema Files Storage Ledger Engine Tokens Policy Fortress Checkpoints.

Definition ACTIVE_EXECUTION_STATES : list string := ["AUTHORIZED"; "DISCOVERING"; "RUNNING"; "DEGRADED"; "VALIDATING"].

Record WorkerManifest := {
  wm_id : string; wm_kinds : list string; wm_capabilities : list string; wm_authority : string;
  wm_allowed_executables : list string; wm_max_runtime_seconds : Q; wm_max_output_bytes : Z;
  wm_env_allowlist : list string;
}.
(** [__post_init__] *)
Definition worker_manifest (m : WorkerManifest) : result WorkerManifest :=
  if (wm_id m =s "") || bool_decide (wm_kinds m = []) || bool_decide (wm_capabilities m = [])
     || bool_decide (wm_allowed_executables m = [])
  then Raise (Exn ValueError "worker manifest requires identity, kinds, capabilities and executable allowlist")
  else if negb (str_in (wm_authority m) ["task-scoped"; "privileged-ephemeral"])
  then Raise (Exn ValueError "invalid worker authority")
  else if qle (wm_max_runtime_seconds m) 0 || (wm_max_output_bytes m <? 1024)%Z
  then Raise (Exn ValueError "invalid worker limits")
  else Ok m.

Record ExecutionResult := {
  xr_returncode : Z; xr_stdout : string; xr_stderr : string; xr_duration_seconds : Q; xr_checkpoint_id : option string;
  xr_rolled_back : bool; xr_policy_decision : string;
}.
Record WorkerOutcome := {
  wo_task_id : option string; wo_state : string; wo_returncode : option Z; wo_rolled_back : bool; wo_detail : string;
}.

(** How [subprocess.run] ends when it does not raise anything else: with decoded
    text, or past its deadline with the bytes read so far. *)
Inductive process_end :=
| Completed (returncode : Z) (stdout stderr : string)
| TimeoutExpired (stdout stderr : string).

(** Well-formed UTF-8: no overlong forms, no surrogates, up to U+10FFFF. *)
Definition byte_in (lo hi : N) (c : ascii) : bool := N.leb lo (N_of_ascii c) && N.leb (N_of_ascii c) hi.
Fixpoint utf8_ok (s : string) : bool :=
  match s with
  | EmptyString => true
  | String a s1 =>
      if N.ltb (N_of_ascii a) 128 then utf8_ok s1
      else match s1 with
      | EmptyString => false
      | String b s2 =>
          if byte_in 194 223 a then continuation b && utf8_ok s2
          else match s2 with
          | EmptyString => false
          | String c s3 =>
              if byte_in 224 239 a
              then byte_in (if byte_in 224 224 a then 160 else 128) (if byte_in 237 237 a then 159 else 191) b
                   && continuation c && utf8_ok s3
              else match s3 with
              | EmptyString => false
              | String d s4 =>
                  byte_in 240 244 a
                  && byte_in (if byte_in 240 240 a then 144 else 128) (if byte_in 244 244 a then 143 else 191) b
                  && continuation c && continuation d && utf8_ok s4
              end
          end
      end
  end.
(** [raw.decode()] *)
Definition decode_utf8 (raw : string) : result string :=
  if utf8_ok raw then Ok raw else Raise (Exn ValueError "'utf-8' codec can't decode byte").

(** [Path(p).name] *)
Definition path_name (p : string) : string := List.last (List.filter name_part (split_slash p)) "".
(** [_executable_name] *)
Definition executable_name (argv0 : string) : string := lower (path_name argv0).

(** ["\x00" in s] *)
Fixpoint has_nul (s : string) : bool :=
  match s with EmptyString => false | String c s' => Ascii.eqb c (ascii_of_nat 0) || has_nul s' end.

(** [raw[:limit].decode("utf-8", errors="replace")] of valid UTF-8: a character cut
    in the middle becomes U+FFFD *)
Definition REPLACEMENT : string :=
  String (ascii_of_nat 239) (String (ascii_of_nat 191) (String (ascii_of_nat 189) EmptyString)).
Fixpoint all_continuation (s : string) : bool :=
  match s with EmptyString => true | String c s' => continuation c && all_continuation s' end.
Fixpoint drop_cut (s : string) : string :=
  match s with
  | EmptyString => EmptyString
  | String c s' => if negb (continuation c) && all_continuation s' then EmptyString else String c (drop_cut s')
  end.
Fixpoint byte_drop (n : nat) (s : string) : string :=
  match n, s with S n', String _ s' => byte_drop n' s' | _, _ => s end.
Definition decode_cut (limit : nat) (s : string) : string :=
  match byte_drop limit s with
  | String c _ => if continuation c then drop_cut (str_take limit s) +:+ REPLACEMENT else str_take limit s
  | EmptyString => s
  end.
(** [_truncate] *)
Definition truncate (value : string) (limit : Z) : string :=
  if (Z.of_nat (String.length value) <=? limit)%Z then value
  else decode_cut (Z.to_nat limit) value +:+ newline +:+ "...[truncated]".

Section execution.
Context `{JsonText, Entropy}.
(** The policy guard, the roots of workspaces and checkpoints, the process
    environment, and the process. *)
Context (policy : PolicyGuard) (ws_root cp_root : path) (environ : string → option string)
  (spawn : list string → path → list (string * string) → Q → IO process_end).

(** [_binding] *)
Definition lease_binding (lease : TaskLease) (manifest : WorkerManifest) : IO mission_row :=
  _ ← raise_if (negb (l_lease_owner lease =s wm_id manifest)) AuthorizationError "worker does not own task lease";
  _ ← raise_if (negb (str_in (l_kind lease) (wm_kinds manifest))) AuthorizationError "task kind outside worker manifest";
  mission ← get_mission (l_mission_id lease);
  match mission with
  | None => throw AuthorizationError "mission not found"
  | Some m =>
      _ ← raise_if (negb (str_in (m_state m) ACTIVE_EXECUTION_STATES)) AuthorizationError
            ("mission state does not permit execution: " +:+ m_state m);
      mret m
  end.

(** The items as texts without NUL, if they all are. *)
Definition plain_args (argv : list json) : option (list string) :=
  mapM (λ v, match v with JStr s => if has_nul s then None else Some s | _ => None end) argv.
Definition validate_command (manifest : WorkerManifest) (argv : list json) : result (list string) :=
  match plain_args argv with
  | None | Some [] => Raise (Exn ExecutionError "invalid argv")
  | Some ((argv0 :: _) as command) =>
      if str_in (executable_name argv0) (map executable_name (wm_allowed_executables manifest)) then Ok command
      else Raise (Exn AuthorizationError "executable outside worker allowlist")
  end.

Definition BASE_ENVIRONMENT : list string := ["PATH"; "SYSTEMROOT"; "WINDIR"; "PATHEXT"; "COMSPEC"].
Definition base_environment : list (string * string) :=
  omap (λ k, match environ k with Some v => if v =s "" then None else Some (k, v) | None => None end) BASE_ENVIRONMENT.
Fixpoint add_requested (manifest : WorkerManifest) (requested : dict) (base : list (string * string))
    : result (list (string * string)) :=
  match requested with
  | [] => Ok base
  | (key, value) :: rest =>
      if str_in key (wm_env_allowlist manifest) then add_requested manifest rest (sset base key (py_str value))
      else Raise (Exn AuthorizationError ("environment variable not allowlisted: " +:+ key))
  end.
(** [_environment]; [requested or {}] must have [items] *)
Definition environment (manifest : WorkerManifest) (requested : option json) : result (list (string * string)) :=
  match requested with
  | None => Ok base_environment
  | Some v =>
      if negb (truthy v) then Ok base_environment
      else match v with
           | JObj d => add_requested manifest d base_environment
           | _ => Raise (Exn AttributeError "object has no attribute 'items'")
           end
  end.

(** [bool(checkpoint and self.checkpoints.verify(checkpoint))] *)
Definition checkpoint_verified (checkpoint : option CheckpointRef) : IO bool :=
  match checkpoint with Some c => cp_verify cp_root c | None => mret false end.

(** [_policy_request] *)
Definition execution_request (lease : TaskLease) (manifest : WorkerManifest) (scope : string) (material_change : bool)
    (checkpoint : option CheckpointRef) : IO dict :=
  mission ← get_mission (l_mission_id lease);
  let mission_authorized :=
    match mission with Some m => str_in (m_state m) ACTIVE_EXECUTION_STATES | None => false end in
  let system_authorized := match mission with Some m => negb (blank (m_system_id m)) | None => false end in
  let scope_ok := (l_lease_owner lease =s wm_id manifest) && str_in (l_kind lease) (wm_kinds manifest) in
  valid_checkpoint ← checkpoint_verified checkpoint;
  mret [("mission_id", JStr (l_mission_id lease)); ("action", JStr "execute_task"); ("required_scope", JStr scope);
        ("mission_authorized", JBool mission_authorized); ("system_authorized", JBool system_authorized);
        ("scope_ok", JBool scope_ok); ("material_change", JBool material_change);
        ("checkpoint_valid", JBool valid_checkpoint); ("irreversible", JBool false);
        ("recovery_verified", JBool (if material_change then valid_checkpoint else true))].

(** [privilege: tuple[PrivilegeAuthority, str, str] | None] *)
Record privilege_use := {
  pu_secret : string; pu_issuer : string; pu_grant_token : string; pu_action : string;
}.

(** The gates of [_execute], up to the call of the process: the command, the
    workspace, the checkpoint, the decision and the deadline. *)
Definition authorize_execution (lease : TaskLease) (manifest : WorkerManifest) (worker_token : string)
    (argv : list json) (scope : string) (checkpoint : option CheckpointRef) (material_change : bool)
    (timeout_seconds : option json) (now : option Z) (privilege : option privilege_use)
    : IO (list string * path * option CheckpointRef * PolicyDecision * Q) :=
  _ ← lease_binding lease manifest;
  command ← lift_result (validate_command manifest argv);
  workspace ← for_task ws_root (l_mission_id lease) (l_id lease);
  checkpoint ← match checkpoint with
               | None => if material_change
                         then c ← cp_create ws_root cp_root workspace (l_mission_id lease) (l_id lease) None; mret (Some c)
                         else mret None
               | Some c => mret (Some c)
               end;
  request ← execution_request lease manifest scope material_change checkpoint;
  d ← evaluate_token policy worker_token request now;
  _ ← raise_if (negb (permitted d)) AuthorizationError ("PolicyGuard: " +:+ pd_decision d +:+ ": " +:+ pd_reason d);
  _ ← match privilege with
      | None => mret ""
      | Some u =>
          _ ← raise_if (negb (wm_authority manifest =s "privileged-ephemeral")) AuthorizationError
                "worker manifest has no privileged authority";
          verified ← checkpoint_verified checkpoint;
          match checkpoint, verified with
          | Some c, true =>
              privilege_consume (pu_secret u) (pu_issuer u) (pu_grant_token u) (l_mission_id lease) (l_id lease)
                (wm_id manifest) (pu_action u) (cr_id c) now
          | _, _ => throw AuthorizationError "privileged execution requires verified checkpoint"
          end
      end;
  asked ← match default JNull timeout_seconds with
          | JNull => mret (wm_max_runtime_seconds manifest)
          | v => lift_result (py_float v)
          end;
  let timeout := py_min asked (wm_max_runtime_seconds manifest) in
  _ ← raise_if (qle timeout 0) ExecutionError "timeout must be positive";
  mret (command, workspace, checkpoint, d, timeout).

(** The [try] block: the process and its bounded output. *)
Definition run_process (manifest : WorkerManifest) (command : list string) (workspace : path) (env : option json)
    (timeout : Q) : IO (Z * string * string) :=
  env ← lift_result (environment manifest env);
  ended ← spawn command workspace env timeout;
  let limit := wm_max_output_bytes manifest in
  match ended with
  | Completed rc out err => mret (rc, truncate out limit, truncate err limit)
  | TimeoutExpired out err =>
      out ← lift_result (decode_utf8 out);
      err ← lift_result (decode_utf8 err);
      mret (124%Z, truncate out limit, truncate err limit)
  end.

(** [_execute] *)
Definition execute (lease : TaskLease) (manifest : WorkerManifest) (worker_token : string) (argv : list json)
    (scope : string) (checkpoint : option CheckpointRef) (material_change : bool) (timeout_seconds : option json)
    (env : option json) (now : option Z) (privilege : option privilege_use) : IO ExecutionResult :=
  gated ← authorize_execution lease manifest worker_token argv scope checkpoint material_change timeout_seconds now privilege;
  let '(command, workspace, checkpoint, d, timeout) := gated in
  started ← monotonic;
  ended ← run_process manifest command workspace env timeout;
  let '(returncode, stdout, stderr) := ended in
  rolled_back ← match checkpoint with
                | Some c => if negb (returncode =? 0)%Z && material_change
                            then _ ← cp_restore ws_root cp_root c workspace; mret true
                            else mret false
                | None => mret false
                end;
  finished ← monotonic;
  let duration := (finished - started)%Q in
  let checkpoint_id := cr_id <$> checkpoint in
  _ ← audit (wm_id manifest) (if privilege then "privileged_execution" else "safe_execution") (Some (l_mission_id lease))
        [("task_id", JStr (l_id lease)); ("executable", JStr (path_name (hd "" command)));
         ("argument_count", JInt (Z.max 0 (Z.of_nat (length command) - 1))); ("returncode", JInt returncode);
         ("duration_seconds", JNum duration); ("checkpoint_id", jopt_str checkpoint_id);
         ("rolled_back", JBool rolled_back); ("policy_decision", JStr (pd_decision d))] None;
  mret {| xr_returncode := returncode; xr_stdout := stdout; xr_stderr := stderr; xr_duration_seconds := duration;
          xr_checkpoint_id := checkpoint_id; xr_rolled_back := rolled_back; xr_policy_decision := pd_decision d |}.

(** [SafeExecutor.run] *)
Definition run_safe (lease : TaskLease) (manifest : WorkerManifest) (worker_token : string) (argv : list json)
    (material_change : bool) (timeout_seconds env : option json) (now : option Z) : IO ExecutionResult :=
  execute lease manifest worker_token argv "execute:safe" None material_change timeout_seconds env now None.

(** [PrivilegedExecutor.run_privileged] *)
Definition run_privileged (lease : TaskLease) (manifest : WorkerManifest) (worker_token : string) (argv : list json)
    (use : privilege_use) (checkpoint : CheckpointRef) (timeout_seconds env : option json) (now : option Z)
    : IO ExecutionResult :=
  _ ← raise_if (negb (str_in (pu_action use) (wm_capabilities manifest))) AuthorizationError
        "privileged action outside worker capability";
  execute lease manifest worker_token argv "execute:privileged" (Some checkpoint) true timeout_seconds env now (Some use).

(** ** The worker's turn *)
Context (grant_secret grant_issuer : string) (grant_identities : IdentityAuthority).

(** The [try] block of [run_once]. *)
Definition run_leased (lease : TaskLease) (manifest : WorkerManifest) (worker_token : string)
    (privilege_authorizer_token : option string) (now : option Z) : IO ExecutionResult :=
  _ ← raise_if (negb (str_in (l_kind lease) (wm_kinds manifest))) AuthorizationError "task kind outside worker manifest";
  match l_payload lease with
  | JObj payload =>
      let mode := get_str payload "mode" "safe" in
      match dget payload "argv" with
      | Some (JList ((_ :: _) as argv)) =>
          if mode =s "safe" then
            run_safe lease manifest worker_token argv (get_truthy payload "material_change" false)
              (dget payload "timeout_seconds") (dget payload "env") now
          else if mode =s "privileged" then
            match privilege_authorizer_token with
            | None => throw AuthorizationError "privileged task requires external authorizer identity"
            | Some authorizer =>
                let action := strip (get_str payload "action" "") in
                _ ← raise_if (action =s "") AuthorizationError "privileged task requires exact action";
                workspace ← for_task ws_root (l_mission_id lease) (l_id lease);
                checkpoint ← cp_create ws_root cp_root workspace (l_mission_id lease) (l_id lease) None;
                grant ← privilege_issue grant_secret grant_issuer grant_identities authorizer (l_mission_id lease)
                          (l_id lease) (wm_id manifest) action (cr_id checkpoint) 120 now;
                run_privileged lease manifest worker_token argv
                  {| pu_secret := grant_secret; pu_issuer := grant_issuer; pu_grant_token := g_token grant; pu_action := action |}
                  checkpoint (dget payload "timeout_seconds") (dget payload "env") now
            end
          else throw AuthorizationError "unknown execution mode"
      | _ => throw ExecutionError "task payload requires argv list"
      end
  | _ => throw AttributeError "object has no attribute 'get'"
  end.

Definition worker_outcome (task : option string) (state : string) (returncode : option Z) (rolled_back : bool)
    (detail : string) : WorkerOutcome :=
  {| wo_task_id := task; wo_state := state; wo_returncode := returncode; wo_rolled_back := rolled_back; wo_detail := detail |}.

Definition worker_run_once (manifest : WorkerManifest) (worker_token : string)
    (privilege_authorizer_token : option string) (now : option Z) (mission_id : option string) : IO WorkerOutcome :=
  claimed ← engine_claim_next (wm_id manifest) 30 (float_now now) mission_id;
  match claimed with
  | None => mret (worker_outcome None "IDLE" None false "")
  | Some lease =>
      ended ← attempt (run_leased lease manifest worker_token privilege_authorizer_token now);
      match ended with
      | Raise e =>
          match exn_cls e with
          | AuthorizationError | PrivilegeError =>
              _ ← engine_block_task lease (exn_msg e) (float_now now);
              mret (worker_outcome (Some (l_id lease)) "BLOCKED" None false (exn_msg e))
          | ExecutionError =>
              state ← engine_fail_task lease (exn_msg e) 0 (float_now now);
              mret (worker_outcome (Some (l_id lease)) state None false (exn_msg e))
          | _ => reraise e
          end
      | Ok r =>
          if (xr_returncode r =? 0)%Z then
            _ ← engine_complete_task lease (float_now now);
            mret (worker_outcome (Some (l_id lease)) "COMPLETED" (Some 0%Z) (xr_rolled_back r) "")
          else
            let detail := "process exited with " +:+ pretty (xr_returncode r) in
            state ← engine_fail_task lease detail 0 (float_now now);
            mret (worker_outcome (Some (l_id lease)) state (Some (xr_returncode r)) (xr_rolled_back r) detail)
      end
  end.
End execution.
