(* ===== verification/Remediation.v ===== *)
(** immune_core/remediation.py: correction planning, the correction lab and the
    validation engine with rollback. *)

From stdpp Require Import pretty.
From S2P Require Import Prelude Json Sha256 Schema Files Storage Ledger Engine Tokens Policy Observability.
From S2P Require Import Diagnosis Checkpoints.

Record CorrectionCandidate := {
  cc_id : string; cc_incident_id : string; cc_mission_id : string; cc_hypothesis_id : string;
  cc_description : string; cc_state : string; cc_task_id : option string; cc_checkpoint_id : option string;
}.

(** One entry of the list of checks. *)
Record check := { ck_name : string; ck_passed : bool; ck_detail : string }.
Definition check_json (c : check) : json :=
  JObj [("name", JStr (ck_name c)); ("passed", JBool (ck_passed c)); ("detail", JStr (ck_detail c))].

Record ValidationResult := {
  vr_correction_id : string; vr_passed : bool; vr_rolled_back : bool; vr_evidence_id : string;
  vr_checks : list check;
}.

(** ** Row updates *)
Definition correction_set (state : string) (task checkpoint : option string) (ts : Q) (r : correction_row) : correction_row :=
  {| co_id := co_id r; co_incident_id := co_incident_id r; co_mission_id := co_mission_id r;
     co_hypothesis_id := co_hypothesis_id r; co_description := co_description r; co_task_kind := co_task_kind r;
     co_argv_json := co_argv_json r; co_risk_json := co_risk_json r; co_validation_json := co_validation_json r;
     co_state := state; co_task_id := task; co_checkpoint_id := checkpoint;
     co_plan_evidence_id := co_plan_evidence_id r; co_created_at := co_created_at r; co_updated_at := ts |}.
Definition correction_state (state : string) (ts : Q) (r : correction_row) : correction_row :=
  correction_set state (co_task_id r) (co_checkpoint_id r) ts r.

Definition correction_ref (r : correction_row) : CorrectionCandidate :=
  {| cc_id := co_id r; cc_incident_id := co_incident_id r; cc_mission_id := co_mission_id r;
     cc_hypothesis_id := co_hypothesis_id r; cc_description := co_description r; cc_state := co_state r;
     cc_task_id := co_task_id r; cc_checkpoint_id := co_checkpoint_id r |}.

Definition ACTIVE_MISSION_STATES : list string :=
  ["AUTHORIZED"; "DISCOVERING"; "RUNNING"; "DEGRADED"; "VALIDATING"; "CONTAINED"].

Section remediation.
Context `{JsonText, Entropy}.
Context (audited : bool) (guard : PolicyGuard) (ws_root cp_root : path).

(** ** Planner *)
Definition correction_row_of (correction_id : string) : IO correction_row :=
  row ← query (λ d, find_row co_id correction_id (diag_corrections d));
  match row with
  | None => throw RemediationError "correction not found"
  | Some r => mret r
  end.
Definition correction_get (correction_id : string) : IO CorrectionCandidate :=
  r ← correction_row_of correction_id; mret (correction_ref r).

Definition plan_payload (correction_id incident_id hypothesis_id description task_kind : string)
    (argv : list string) (risk validation : dict) : dict :=
  [("correction_id", JStr correction_id); ("incident_id", JStr incident_id); ("hypothesis_id", JStr hypothesis_id);
   ("description", JStr (strip description)); ("task_kind", JStr (strip task_kind));
   ("argv_digest", JStr (sha256_hex (dumps CompactAscii (JList (map JStr argv)))));
   ("risk", JObj risk); ("validation", JObj validation)].

Definition plan (incident_id description task_kind : string) (argv : list string) (validation risk : dict)
    (now : option Q) : IO CorrectionCandidate :=
  inc ← incident incident_id;
  let root := default "" (ir_root_hypothesis_id inc) in
  _ ← raise_if (negb (ir_state inc =s "ROOT_CAUSE_CONFIRMED") || (root =s "")) RemediationError
        "correction requires a causally confirmed root cause";
  _ ← raise_if (blank description || blank task_kind || match argv with [] => true | _ => false end
                || existsb (λ item, item =s "") argv) RemediationError
        "correction description, task kind and argv are required";
  _ ← raise_if (match validation with [] => true | _ => false end) RemediationError
        "explicit validation rules are required";
  when ← now_or_time now;
  correction_id ← uuid4;
  ev ← evidence audited "correction_plan"
        (plan_payload correction_id incident_id root description task_kind argv risk validation)
        (Some (ir_mission_id inc)) (Some when);
  rows ← query diag_corrections;
  _ ← raise_if (row_exists co_id correction_id rows) IntegrityError "UNIQUE constraint failed: diag_corrections.id";
  _ ← exec (set_diag_corrections (λ l, l ++
        [{| co_id := correction_id; co_incident_id := incident_id; co_mission_id := ir_mission_id inc;
            co_hypothesis_id := root; co_description := strip description; co_task_kind := strip task_kind;
            co_argv_json := dumps Plain (JList (map JStr argv)); co_risk_json := dumps Sorted (JObj risk);
            co_validation_json := dumps Sorted (JObj validation); co_state := "PLANNED"; co_task_id := None;
            co_checkpoint_id := None; co_plan_evidence_id := er_id ev; co_created_at := when;
            co_updated_at := when |}]));
  _ ← audit "remediation-planner" "correction_planned" (Some (ir_mission_id inc))
        [("incident_id", JStr incident_id); ("correction_id", JStr correction_id); ("hypothesis_id", JStr root);
         ("evidence_id", JStr (er_id ev))] (Some when);
  correction_get correction_id.

(** ** Correction lab *)
Definition queue_request (mission_id : string) (risk : dict) : dict :=
  let flag k := (k, JBool (get_truthy risk k false)) in
  [("mission_id", JStr mission_id); ("action", JStr "queue_remediation");
   ("required_scope", JStr "remediation:authorize"); ("mission_authorized", JBool true);
   ("system_authorized", JBool true); ("scope_ok", JBool true); ("material_change", JBool false);
   ("checkpoint_valid", JBool false); flag "irreversible";
   ("recovery_verified", JBool (get_truthy risk "recovery_verified" (negb (get_truthy risk "irreversible" false))));
   flag "new_cost"; flag "purchase"; flag "subscription"; flag "trial_with_billing_risk";
   flag "commercial_license"; flag "disables_security_control"].

Definition parsed (text : string) : IO json :=
  match loads text with Some v => mret v | None => throw JSONDecodeError "Expecting value" end.
Definition parsed_dict (text : string) : IO dict :=
  v ← parsed text;
  match v with JObj d => mret d | _ => throw AttributeError "object has no attribute 'get'" end.

Definition queue (correction_id controller_token : string) (now : option Z) : IO CorrectionCandidate :=
  row ← correction_row_of correction_id;
  _ ← raise_if (negb (co_state row =s "PLANNED")) RemediationError "only planned corrections can enter the lab";
  mission ← get_mission (co_mission_id row);
  _ ← raise_if (match mission with Some m => negb (str_in (m_state m) ACTIVE_MISSION_STATES) | None => true end)
        RemediationError "mission state does not permit remediation";
  risk ← parsed_dict (co_risk_json row);
  d ← evaluate_token guard controller_token (queue_request (co_mission_id row) risk) now;
  _ ← raise_if (negb (permitted d)) RemediationError
        ("PolicyGuard: " +:+ pd_decision d +:+ ": " +:+ pd_reason d);
  argv ← parsed (co_argv_json row);
  task_id ← engine_submit_task (co_mission_id row) (co_task_kind row)
        [("mode", JStr "safe"); ("material_change", JBool true); ("argv", argv); ("correction_id", JStr correction_id)]
        ("remediation:" +:+ correction_id) 0 1 (float_now now);
  workspace ← for_task ws_root (co_mission_id row) task_id;
  checkpoint ← cp_create ws_root cp_root workspace (co_mission_id row) task_id (float_now now);
  when ← now_or_time (float_now now);
  _ ← exec (set_diag_corrections (update_row co_id correction_id
        (correction_set "QUEUED" (Some task_id) (Some (cr_id checkpoint)) when)));
  _ ← set_incident_state (co_incident_id row) "REMEDIATING" (Some when);
  _ ← audit "correction-lab" "correction_queued" (Some (co_mission_id row))
        [("incident_id", JStr (co_incident_id row)); ("correction_id", JStr correction_id);
         ("task_id", JStr task_id); ("checkpoint_id", JStr (cr_id checkpoint));
         ("policy_decision", JStr (pd_decision d))] (Some when);
  correction_get correction_id.

(** ** Validation *)
Definition safe_target (workspace : path) (relative : string) : result path :=
  let target := resolve_join workspace relative in
  if within workspace target then Ok target
  else Raise (Exn RemediationError "validation path escaped workspace").

(** [read_text]: line ends are translated *)
Definition file_checks (workspace : path) (files : gmap path string) (relative expected : string) : result (list check) :=
  match safe_target workspace relative with
  | Raise e => Raise e
  | Ok target =>
      match files !! target with
      | None => Ok [{| ck_name := "file_exists:" +:+ relative; ck_passed := false; ck_detail := "" |}]
      | Some raw =>
          let actual := canonical_text raw in
          Ok [{| ck_name := "file_exists:" +:+ relative; ck_passed := true; ck_detail := "" |};
              {| ck_name := "file_content:" +:+ relative; ck_passed := actual =s expected;
                 ck_detail := "actual_sha256=" +:+ sha256_hex actual |}]
      end
  end.
Definition absent_check (workspace : path) (files : gmap path string) (relative : string) : result (list check) :=
  match safe_target workspace relative with
  | Raise e => Raise e
  | Ok target => Ok [{| ck_name := "file_absent:" +:+ relative; ck_passed := negb (path_exists target files);
                        ck_detail := "" |}]
  end.

(** [dict(rules.get(k) or {}).items()] and [list(rules.get(k) or [])] *)
Definition rule_items (rules : dict) (k : string) : result dict :=
  match truthy_get rules k with
  | None => Ok []
  | Some (JObj d) => Ok d
  | Some _ => Raise (Exn TypeError "cannot convert to a dictionary")
  end.
Definition rule_list (rules : dict) (k : string) : result (list json) :=
  match truthy_get rules k with
  | None => Ok []
  | Some (JList l) => Ok l
  | Some (JObj d) => Ok (map (λ p, JStr p.1) d)
  | Some (JStr s) => Ok (map JStr (chars s))
  | Some _ => Raise (Exn TypeError "object is not iterable")
  end.

Definition chain_checks (rules : dict) : IO (list check) :=
  if get_truthy rules "audit_chain_required" true
  then '(valid, bad_seq) ← verify_chain;
       mret [{| ck_name := "audit_chain_valid";
                ck_passed := valid && match bad_seq with None => true | Some _ => false end;
                ck_detail := match bad_seq with None => "None" | Some n => pretty n end |}]
  else mret [].

Definition run_checks (workspace : path) (task_state : string) (rules : dict) : IO (list check) :=
  files ← gets w_files;
  expected ← lift_result (rule_items rules "expected_files");
  fcs ← for_each expected (λ kv, lift_result (file_checks workspace files kv.1 (py_str kv.2)));
  absent ← lift_result (rule_list rules "absent_files");
  acs ← for_each absent (λ v, lift_result (absent_check workspace files (py_str v)));
  ccs ← chain_checks rules;
  mret ({| ck_name := "task_completed"; ck_passed := task_state =s "COMPLETED"; ck_detail := task_state |}
        :: concat fcs ++ concat acs ++ ccs).

Definition nonempty (o : option string) : option string :=
  match o with Some s => if s =s "" then None else Some s | None => None end.

Definition validate (correction_id : string) (now : option Q) : IO ValidationResult :=
  row ← correction_row_of correction_id;
  match nonempty (co_task_id row), nonempty (co_checkpoint_id row) with
  | Some task_id, Some checkpoint_id =>
      task ← get_task task_id;
      match task with
      | None => throw RemediationError "remediation task not found"
      | Some (t, _) =>
          workspace ← for_task ws_root (co_mission_id row) task_id;
          rules ← parsed_dict (co_validation_json row);
          checks ← run_checks workspace (t_state t) rules;
          let passed := forallb ck_passed checks in
          checkpoint ← cp_get cp_root checkpoint_id;
          _ ← (if passed then mret tt else cp_restore ws_root cp_root checkpoint workspace);
          let rolled_back := negb passed in
          when ← now_or_time now;
          ev ← evidence audited "remediation_validation"
                [("correction_id", JStr correction_id); ("incident_id", JStr (co_incident_id row));
                 ("task_id", JStr task_id); ("passed", JBool passed); ("rolled_back", JBool rolled_back);
                 ("checks", JList (map check_json checks))] (Some (co_mission_id row)) (Some when);
          vid ← uuid4;
          rows ← query diag_validations;
          _ ← raise_if (row_exists va_id vid rows) IntegrityError "UNIQUE constraint failed: diag_validations.id";
          _ ← exec (set_diag_validations (λ l, l ++
                [{| va_id := vid; va_correction_id := correction_id; va_passed := passed;
                    va_rolled_back := rolled_back; va_checks_json := dumps Sorted (JList (map check_json checks));
                    va_evidence_id := er_id ev; va_created_at := when |}]));
          _ ← exec (set_diag_corrections (update_row co_id correction_id
                (correction_state (if passed then "VALIDATED" else "ROLLED_BACK") when)));
          _ ← set_incident_state (co_incident_id row) (if passed then "VALIDATING" else "INVESTIGATING") (Some when);
          _ ← audit "validation-engine" "correction_validated" (Some (co_mission_id row))
                [("incident_id", JStr (co_incident_id row)); ("correction_id", JStr correction_id);
                 ("passed", JBool passed); ("rolled_back", JBool rolled_back); ("evidence_id", JStr (er_id ev))]
                (Some when);
          mret {| vr_correction_id := correction_id; vr_passed := passed; vr_rolled_back := rolled_back;
                  vr_evidence_id := er_id ev; vr_checks := checks |}
      end
  | _, _ => throw RemediationError "correction has not entered the lab"
  end.

Definition finalize_incident (correction_id : string) (validation : ValidationResult)
    (recovery_verified regression_verified : bool) (now : option Q) : IO unit :=
  row ← correction_row_of correction_id;
  _ ← raise_if (negb (vr_passed validation) || negb (vr_correction_id validation =s correction_id))
        RemediationError "failed validation cannot resolve incident";
  _ ← resolve_incident (co_incident_id row) (vr_evidence_id validation) recovery_verified regression_verified now;
  when ← now_or_time now;
  _ ← exec (set_diag_corrections (update_row co_id correction_id (correction_state "ACCEPTED" when)));
  _ ← audit "validation-engine" "correction_accepted" (Some (co_mission_id row))
        [("incident_id", JStr (co_incident_id row)); ("correction_id", JStr correction_id);
         ("validation_evidence_id", JStr (vr_evidence_id validation));
         ("recovery_verified", JBool recovery_verified); ("regression_verified", JBool regression_verified)]
        (Some when);
  mret tt.
End remediation.
