(* ===== verification/RemediationProps.v ===== *)
(** Corrections are planned only for confirmed root causes, queued only under an
    active mission and a policy permit, and rolled back when validation fails. *)

From S2P Require Import Prelude Json Sha256 Schema Files Storage Ledger LedgerProps Engine Tokens TokenProps.
From S2P Require Import Policy PolicyProps Observability Diagnosis DiagnosisProps Checkpoints CheckpointProps.
From S2P Require Import Remediation.

Section remediation_props.
Context `{JsonText, Entropy}.
Context (audited : bool) (guard : PolicyGuard) (ws_root cp_root : path).

(** ** Steps that leave the files alone *)
Lemma files_incident_row id : respects same_files (incident_row_of id).
Proof. unfold incident_row_of. solve_respects. Qed.
Hint Resolve files_incident_row : respects.
Lemma files_set_incident id st now : respects same_files (set_incident_state id st now).
Proof. unfold set_incident_state, incident. solve_respects. Qed.
Lemma files_evidence kind payload mid ts : respects same_files (evidence audited kind payload mid ts).
Proof. unfold evidence. solve_respects. Qed.
Lemma files_correction_row id : respects same_files (correction_row_of id).
Proof. unfold correction_row_of. solve_respects. Qed.
Lemma files_get_task id : respects same_files (get_task id).
Proof. unfold get_task. solve_respects. Qed.
Lemma files_for_task m t : respects same_files (for_task ws_root m t).
Proof. unfold for_task, safe_component. solve_respects. Qed.
Lemma files_parsed_dict text : respects same_files (parsed_dict text).
Proof. unfold parsed_dict, parsed. solve_respects. Qed.
Lemma files_cp_get id : respects same_files (cp_get cp_root id).
Proof. unfold cp_get, item_str. solve_respects. Qed.
Lemma files_run_checks ws st rules : respects same_files (run_checks ws st rules).
Proof. unfold run_checks, chain_checks, verify_chain. solve_respects. Qed.

(** Reads that leave the world alone. *)
Lemma query_pure {A} (f : DB → A) : respects eq (query f).
Proof. by intros w. Qed.
Hint Resolve query_pure : respects.
Lemma pure_run {A} (m : IO A) w r w' : respects eq m → m w = (r, w') → w' = w.
Proof. intros Hm E. symmetry. exact (respects_run _ _ _ _ _ Hm E). Qed.
Lemma cp_get_inv id w c w' :
  cp_get cp_root id w = (Ok c, w') → w' = w ∧ inside cp_root (cr_path c) = true.
Proof.
  intros E. split.
  - refine (pure_run _ _ _ _ _ E). unfold cp_get, item_str. solve_respects.
  - unfold cp_get in E. apply bind_Ok_inv in E as (? & ? & [Hi%negb_false_iff ->]%raise_if_Ok_inv & E).
    rewrite bind_gets_run in E. destruct (_ !! _) as [text|]; [|done]. destruct (loads text) as [[]|]; try done.
    do 4 (apply bind_Ok_inv in E as (? & ? & _ & E)). by injection E as <- _.
Qed.
Lemma for_task_inv m t w ws w' :
  for_task ws_root m t w = (Ok ws, w') → w' = w ∧ ∃ x, ws = ws_root ++ x.
Proof.
  intros E. split.
  - refine (pure_run _ _ _ _ _ E). unfold for_task, safe_component. solve_respects.
  - unfold for_task in E. do 3 (apply bind_Ok_inv in E as (? & ? & _ & E)). injection E as <- _. by eexists.
Qed.
Lemma inside_extend root p : inside root p = true → ∃ x, p = root ++ x.
Proof. intros [[x ->] _]%bool_decide_eq_true. by exists x. Qed.

(** The rest of [validate] after the rollback decision leaves the files alone. *)
Lemma clear_apart ws p files : apart ws p → subtree p (clear ws files) = subtree p files.
Proof. intros Ha. apply map_eq. intros rel. rewrite !lookup_subtree, lookup_clear. by rewrite apart_strip. Qed.

(** The first check is that the task completed. *)
Lemma run_checks_head ws st rules w checks w' :
  run_checks ws st rules w = (Ok checks, w') →
  ∃ rest, checks = {| ck_name := "task_completed"; ck_passed := st =s "COMPLETED"; ck_detail := st |} :: rest.
Proof.
  unfold run_checks. intros Hrun.
  do 6 (apply bind_Ok_inv in Hrun as (? & ? & _ & Hrun)). injection Hrun as <- _. by eexists.
Qed.

(** What [restore] does once it returns. *)
Lemma cp_restore_Ok c ws w w' :
  cp_restore ws_root cp_root c ws w = (Ok tt, w') →
  (∃ wv, cp_verify cp_root c w = (Ok true, wv))
  ∧ subtree ws (w_files w') = subtree (cr_path c ++ ["data"]) (clear ws (w_files w))
  ∧ ∀ p, strip_prefix ws p = None → w_files w' !! p = w_files w !! p.
Proof.
  unfold cp_restore. intros Hrun.
  apply bind_Ok_inv in Hrun as (? & ? & [_ ->]%raise_if_Ok_inv & Hrun).
  apply bind_Ok_inv in Hrun as (ok & wv & Hv & Hrun).
  assert (w_files wv = w_files w) as Fv.
  { revert Hv. unfold cp_verify, gets, mbind, M_bind, lift_result. destruct (inside _ _); simpl; [|by intros [= _ <-]].
    destruct (_ !! _); by intros [= _ <-]. }
  apply bind_Ok_inv in Hrun as (? & ? & [Hok%negb_false_iff ->]%raise_if_Ok_inv & Hrun). subst ok.
  rewrite !bind_modify_run in Hrun.
  apply bind_Ok_inv in Hrun as (? & w2 & (_ & _ & _ & F & _)%audit_Ok_run & Hrun). injection Hrun as <-.
  cbn [w_files with_files] in F. rewrite Fv in F. rewrite F. split_and!; [by exists wv|apply subtree_restore|].
  intros p Hp. rewrite lookup_graft_out, lookup_clear by done. by rewrite Hp.
Qed.

(** A correction that does not validate is rolled back: when [validate]
    returns, it passed exactly when every check passed, among them that the
    task completed; a passed validation changes no file; after a failed one the
    stored checkpoint of the correction was intact and the task's workspace
    holds exactly the checkpoint's data, with nothing outside it touched. *)
Theorem validate_rolls_back cid now w v w'
    (Hapart : apart ws_root cp_root)
    (Hrun : validate audited ws_root cp_root cid now w = (Ok v, w')) :
  vr_passed v = forallb ck_passed (vr_checks v) ∧ vr_rolled_back v = negb (vr_passed v)
  ∧ ∃ row t task_id checkpoint_id c ws wm wx,
      find_row co_id cid (diag_corrections (w_db w)) = Some row
      ∧ co_task_id row = Some task_id ∧ co_checkpoint_id row = Some checkpoint_id
      ∧ find_row t_id task_id (tasks (w_db w)) = Some t
      ∧ for_task ws_root (co_mission_id row) task_id w = (Ok ws, wm)
      ∧ cp_get cp_root checkpoint_id wx = (Ok c, wx) ∧ w_files wx = w_files w
      ∧ (vr_passed v = true → t_state t = "COMPLETED" ∧ w_files w' = w_files w)
      ∧ (vr_passed v = false →
           (∃ wv, cp_verify cp_root c wx = (Ok true, wv))
           ∧ subtree ws (w_files w') = subtree (cr_path c ++ ["data"]) (w_files w)
           ∧ ∀ p, strip_prefix ws p = None → w_files w' !! p = w_files w !! p).
Proof.
  unfold validate in Hrun. apply bind_Ok_inv in Hrun as (row & w1 & Hrow & Hrun).
  unfold correction_row_of in Hrow. apply bind_Ok_inv in Hrow as (o & ? & [-> ->]%query_Ok_inv & Hrow).
  destruct (find_row co_id cid _) as [row'|] eqn:Hf; [|done]. injection Hrow as <- <-.
  destruct (nonempty (co_task_id row')) as [tid|] eqn:Et; [|done].
  destruct (nonempty (co_checkpoint_id row')) as [kid|] eqn:Ek; [|done].
  apply bind_Ok_inv in Hrun as (task & w2 & Htask & Hrun).
  assert (w2 = w) as -> by (refine (pure_run _ _ _ _ _ Htask); unfold get_task; solve_respects).
  destruct task as [[t payload]|]; [|done].
  assert (find_row t_id tid (tasks (w_db w)) = Some t) as Hft.
  { unfold get_task in Htask. apply bind_Ok_inv in Htask as (o & ? & [-> ->]%query_Ok_inv & Htask).
    destruct (find_row t_id tid _) as [t'|]; [|done]. destruct (loads _); [|done]. by injection Htask as <- _. }
  apply bind_Ok_inv in Hrun as (ws & w2 & Hws & Hrun). pose proof (for_task_inv _ _ _ _ _ Hws) as [-> [x ->]].
  apply bind_Ok_inv in Hrun as (rules & w2 & Hr & Hrun).
  pose proof (respects_run _ _ _ _ _ (files_parsed_dict _) Hr) as F2.
  apply bind_Ok_inv in Hrun as (checks & wx & Hc & Hrun).
  pose proof (respects_run _ _ _ _ _ (files_run_checks _ _ _) Hc) as F3.
  pose proof (run_checks_head _ _ _ _ _ _ Hc) as [rest Hhead]. cbv zeta in Hrun.
  apply bind_Ok_inv in Hrun as (c & w4 & Hcp & Hrun). pose proof (cp_get_inv _ _ _ _ Hcp) as [-> Hin].
  apply bind_Ok_inv in Hrun as (u & wr & Hroll & Hrun). destruct u.
  assert (v = {| vr_correction_id := cid; vr_passed := forallb ck_passed checks;
    vr_rolled_back := negb (forallb ck_passed checks); vr_evidence_id := vr_evidence_id v; vr_checks := checks |}
    ∧ w_files w' = w_files wr) as [Ev Fw].
  { split.
    - do 9 (apply bind_Ok_inv in Hrun as (? & ? & _ & Hrun)). injection Hrun as <- _. done.
    - refine (respects_run same_files _ _ _ _ _ Hrun). pose proof files_evidence. pose proof files_set_incident.
      solve_respects. }
  rewrite Ev. cbn [vr_passed vr_checks vr_rolled_back]. split_and!; try done.
  unfold same_files in *. rewrite F2 in F3.
  assert (∀ o s, nonempty o = Some s → o = Some s) as Hne
    by (intros [y|] s'; simpl; [destruct (y =s ""); [done|by intros [= ->]]|done]).
  exists row', t, tid, kid, c, (ws_root ++ x), w, wx. rewrite Fw. split_and!; auto.
  - intros Hp. rewrite Hp in Hroll. injection Hroll as <-. split; [|done].
    rewrite Hhead in Hp. simpl in Hp. apply andb_true_iff in Hp as [Hp _]. by apply String.eqb_eq.
  - intros Hp. rewrite Hp in Hroll. apply cp_restore_Ok in Hroll as (Hv & Hsub & Hout).
    split_and!; [done| |by rewrite <- F3]. rewrite Hsub, <- F3. apply clear_apart.
    apply inside_extend in Hin as [y ->]. rewrite <- app_assoc. by apply apart_extend.
Qed.

(** ** Steps that leave the corrections alone *)
Definition same_corrections : relation DB := λ d d', diag_corrections d' = diag_corrections d.
#[local] Instance same_corrections_preorder : PreOrder same_corrections.
Proof. split; [by intros d | intros x y z; unfold same_corrections; congruence]. Qed.
Lemma corrections_audit actor action mid payload now :
  respects (on_db same_corrections) (audit actor action mid payload now).
Proof. by apply audit_frame; [typeclasses eauto|]. Qed.
Hint Resolve corrections_audit : respects.
Lemma corrections_evaluate token request now :
  respects (on_db same_corrections) (evaluate_token guard token request now).
Proof. unfold evaluate_token, evaluate_verified, policy_record. io_respects. Qed.
Lemma corrections_submit m k p key prio n now :
  respects (on_db same_corrections) (engine_submit_task m k p key prio n now).
Proof. unfold engine_submit_task, submit_task, insert_task. io_respects. Qed.
Lemma corrections_create ws m t now : respects (on_db same_corrections) (cp_create ws_root cp_root ws m t now).
Proof. unfold cp_create. io_respects. Qed.
Lemma corrections_incident id st now : respects (on_db same_corrections) (set_incident_state id st now).
Proof. unfold set_incident_state. io_respects. Qed.

(** A correction enters the lab only under authority: when [queue] returns,
    the correction was PLANNED, its mission is stored in an active state, and
    the policy guard permitted the controller's token for remediation:authorize
    under an intact constitution, with no financial or security-disabling risk
    and with proven recovery for irreversible work; the correction is then
    QUEUED with its task and its checkpoint. *)
Theorem queue_gated cid token now w ref w'
    (Hrun : queue guard ws_root cp_root cid token now w = (Ok ref, w')) :
  ∃ row m risk p wv, find_row co_id cid (diag_corrections (w_db w)) = Some row ∧ co_state row = "PLANNED"
    ∧ find_row m_id (co_mission_id row) (missions (w_db w)) = Some m ∧ m_state m ∈ ACTIVE_MISSION_STATES
    ∧ loads (co_risk_json row) = Some (JObj risk)
    ∧ ia_verify (pg_identity guard) token (Some "remediation:authorize") now w = (Ok p, wv)
    ∧ has_scope p "remediation:authorize" = true
    ∧ constitution_ok (w_files w) (pg_constitution_path guard) (pg_expected_constitution_sha256 guard) = true
    ∧ (∀ k, k ∈ FINANCIAL_FLAGS → get_truthy risk k false = false)
    ∧ get_truthy risk "disables_security_control" false = false
    ∧ (get_truthy risk "irreversible" false = true → get_truthy risk "recovery_verified" false = true)
    ∧ cc_state ref = "QUEUED" ∧ is_Some (cc_task_id ref) ∧ is_Some (cc_checkpoint_id ref).
Proof.
  unfold queue in Hrun. apply bind_Ok_inv in Hrun as (row & w1 & Hrow & Hrun).
  unfold correction_row_of in Hrow. apply bind_Ok_inv in Hrow as (o & ? & [-> ->]%query_Ok_inv & Hrow).
  destruct (find_row co_id cid _) as [row'|] eqn:Hf; [|done]. injection Hrow as <- <-.
  apply bind_Ok_inv in Hrun as (? & ? & [Hst%negb_false_iff%String.eqb_eq ->]%raise_if_Ok_inv & Hrun).
  apply bind_Ok_inv in Hrun as (m & ? & [-> ->]%query_Ok_inv & Hrun).
  apply bind_Ok_inv in Hrun as (? & ? & [Hact ->]%raise_if_Ok_inv & Hrun).
  destruct (find_row m_id _ _) as [m|] eqn:Hm; [|done]. apply negb_false_iff, str_in_iff in Hact.
  apply bind_Ok_inv in Hrun as (risk & w2 & Hrisk & Hrun).
  assert (w2 = w ∧ loads (co_risk_json row') = Some (JObj risk)) as [-> Hl].
  { unfold parsed_dict, parsed in Hrisk. destruct (loads _) as [v|]; [|done].
    rewrite bind_ret_run in Hrisk. destruct v; try done. by injection Hrisk as <- <-. }
  apply bind_Ok_inv in Hrun as (d & w3 & Hd & Hrun).
  pose proof (respects_run _ _ _ _ _ (corrections_evaluate _ _ _) Hd) as C3.
  apply bind_Ok_inv in Hrun as (? & ? & [Hperm%negb_false_iff ->]%raise_if_Ok_inv & Hrun).
  apply evaluate_token_run in Hd as (? & ? & _ & _ & _ & _ & [[? _]|(p & wv & Hv & _ & ->)]); [congruence|].
  pose proof (proj1 (decide_permits_iff _ _ _) Hperm) as [Hcon Hall]. clear Hperm.
  apply bind_Ok_inv in Hrun as (argv & w4 & Hargv & Hrun).
  assert (w4 = w3) as -> by (unfold parsed in Hargv; destruct (loads _); [by injection Hargv|done]).
  apply bind_Ok_inv in Hrun as (tid & w5 & Hsub & Hrun).
  pose proof (respects_run _ _ _ _ _ (corrections_submit _ _ _ _ _ _ _) Hsub) as C5.
  apply bind_Ok_inv in Hrun as (ws & w6 & [-> _]%for_task_inv & Hrun).
  apply bind_Ok_inv in Hrun as (cp & w7 & Hcp & Hrun).
  pose proof (respects_run _ _ _ _ _ (corrections_create _ _ _ _) Hcp) as C7.
  apply bind_Ok_inv in Hrun as (when & w8 & Hn & Hrun).
  assert (w_db w8 = w_db w7) as C8 by (refine (steady_run _ _ _ _ _ Hn); auto with respects typeclass_instances).
  apply bind_Ok_inv in Hrun as (? & ? & [= _ <-] & Hrun).
  apply bind_Ok_inv in Hrun as (? & w9 & Hinc & Hrun).
  pose proof (respects_run _ _ _ _ _ (corrections_incident _ _ _) Hinc) as C9.
  apply bind_Ok_inv in Hrun as (? & w10 & Hau & Hrun).
  pose proof (respects_run _ _ _ _ _ (corrections_audit _ _ _ _ _) Hau) as C10.
  unfold correction_get, correction_row_of in Hrun. apply bind_Ok_inv in Hrun as (r & ? & Hr & [= <- <-]).
  apply bind_Ok_inv in Hr as (o & ? & [-> ->]%query_Ok_inv & Hr).
  assert (find_row co_id cid (diag_corrections (w_db w10))
          = Some (correction_set "QUEUED" (Some tid) (Some (cr_id cp)) when row')) as Hf'.
  { unfold on_db, same_corrections in *. rewrite C10, C9. simpl. rewrite C8, C7, C5, C3.
    by rewrite find_update_eq, Hf. }
  rewrite Hf' in Hr. injection Hr as <- <-.
  destruct Hall as [_ [Hs|Hs] Hfree Hsec _ Hrec _ _]; [done|].
  exists row', m, risk, p, wv. split_and!; try done.
  - intros k Hk. specialize (Hfree k Hk). unfold FINANCIAL_FLAGS in Hk.
    repeat (apply elem_of_cons in Hk as [->|Hk]; [revert Hfree; unfold is_true; simpl; by destruct (get_truthy risk _ _)|]).
    by apply elem_of_nil in Hk.
  - revert Hsec. unfold is_true. simpl. by destruct (get_truthy risk "disables_security_control" false).
  - revert Hrec. unfold is_true. simpl. intros Hrec Hi. rewrite Hi in Hrec. simpl in Hrec.
    destruct (get_truthy risk "recovery_verified" false); [done|]. by specialize (Hrec eq_refl).
Qed.
End remediation_props.
