(* ===== verification/Learning.v ===== *)
(** immune_core/learning.py: the controlled learning engine.  Knowledge is drawn from
    accepted corrections, kept in quarantine, counted up and down by validated
    outcomes, reviewed, promoted by a second identity, and retired.

    The statements run in autocommit mode: what was written before an exception
    stays.  [_table_exists] holds of every table of the model.  Confidences are exact
    rationals, and the evidence ids of a stored provenance are texts, as [create]
    writes them. *)

From S2P Require Import Prelude Json Sha256 Schema Storage Ledger Tokens Observability Skills.

Record KnowledgeRecord := {
  kr_id : string; kr_lineage_key : string; kr_version : Z; kr_mission_id : string; kr_system_id : string;
  kr_incident_id : string; kr_correction_id : string; kr_kind : string; kr_target_scope : string; kr_state : string;
  kr_confidence : Q; kr_content : json; kr_content_sha256 : string; kr_remediation_signature : string;
  kr_provenance : json; kr_created_at : Q; kr_promoted_at : option Q; kr_supersedes_id : option string;
}.

(** [_correction_snapshot]: what an accepted correction proves. *)
Record snapshot := {
  sn_correction_id : string; sn_incident_id : string; sn_root_hypothesis_id : string; sn_mission_id : string;
  sn_system_id : string; sn_validation_id : string; sn_evidence_id : string; sn_evidence_ids : list string;
  sn_remediation_signature : string;
}.

Definition PROMOTION_THRESHOLDS : list (string * Q) := [("SYSTEM", 60 # 100); ("GLOBAL", 70 # 100)].
Definition threshold_of (scope : string) : option Q :=
  snd <$> List.find (λ p : string * Q, fst p =s scope) PROMOTION_THRESHOLDS.

(** The columns the [UPDATE] statements set. *)
Definition knowledge_set (state : string) (confidence : Q) (promoted_at reviewed_at : option Q) (supersedes_id : option string)
    (r : knowledge_row) : knowledge_row :=
  {| kn_id := kn_id r; kn_lineage_key := kn_lineage_key r; kn_version := kn_version r; kn_mission_id := kn_mission_id r;
     kn_system_id := kn_system_id r; kn_incident_id := kn_incident_id r; kn_correction_id := kn_correction_id r;
     kn_kind := kn_kind r; kn_target_scope := kn_target_scope r; kn_state := state; kn_confidence := confidence;
     kn_content_json := kn_content_json r; kn_content_sha256 := kn_content_sha256 r;
     kn_remediation_signature := kn_remediation_signature r; kn_provenance_json := kn_provenance_json r;
     kn_skill_id := kn_skill_id r; kn_skill_version := kn_skill_version r; kn_created_at := kn_created_at r;
     kn_promoted_at := promoted_at; kn_reviewed_at := reviewed_at; kn_supersedes_id := supersedes_id |}.
Definition set_confidence (c : Q) (r : knowledge_row) : knowledge_row :=
  knowledge_set (kn_state r) c (kn_promoted_at r) (kn_reviewed_at r) (kn_supersedes_id r) r.
(** [SET state=?, reviewed_at=?] *)
Definition set_reviewed (state : string) (ts : Q) (r : knowledge_row) : knowledge_row :=
  knowledge_set state (kn_confidence r) (kn_promoted_at r) (Some ts) (kn_supersedes_id r) r.
(** [SET state='PROMOTED', confidence=?, promoted_at=?, supersedes_id=?] *)
Definition set_promoted (c ts : Q) (supersedes_id : option string) (r : knowledge_row) : knowledge_row :=
  knowledge_set "PROMOTED" c (Some ts) (kn_reviewed_at r) supersedes_id r.

(** Laplace's rule of succession over the recorded outcomes. *)
Definition outcomes_of (knowledge_id : string) (rows : list outcome_row) : list outcome_row :=
  List.filter (λ r, lo_knowledge_id r =s knowledge_id) rows.
Definition count_outcome (outcome : string) (rows : list outcome_row) : Z :=
  Z.of_nat (length (List.filter (λ r, lo_outcome r =s outcome) rows)).
Definition success_systems (rows : list outcome_row) : Z :=
  Z.of_nat (length (sorted_set (map lo_system_id (List.filter (λ r, lo_outcome r =s "SUCCESS") rows)))).
Definition laplace (rows : list outcome_row) : Q :=
  let successes := inject_Z (count_outcome "SUCCESS" rows) in
  let failures := inject_Z (count_outcome "FAILURE" rows) in
  ((successes + 1) / (successes + failures + 2))%Q.

(** [ORDER BY created_at DESC], and with [id DESC]; [ORDER BY version DESC]; [ORDER BY
    promoted_at DESC, version DESC], NULL last *)
Definition validation_newest (r s : validation_row) : bool := qle (va_created_at s) (va_created_at r).
Definition review_newest (r s : review_row) : bool :=
  qlt (lr_created_at s) (lr_created_at r)
  || (Qeq_bool (lr_created_at s) (lr_created_at r) && String.leb (lr_id s) (lr_id r)).
Definition version_highest (r s : knowledge_row) : bool := (kn_version s <=? kn_version r)%Z.
Definition knowledge_newest (r s : knowledge_row) : bool :=
  match kn_promoted_at r, kn_promoted_at s with
  | Some a, Some b => qlt b a || (Qeq_bool b a && version_highest r s)
  | Some _, None => true
  | None, Some _ => false
  | None, None => version_highest r s
  end.

Section learning.
Context `{JsonText, Entropy}.
(** The identities, and whether a skill registry is attached. *)
Context (identity : IdentityAuthority) (skills : bool).

Definition knowledge_sha256 (value : json) : string := sha256_hex (dumps Compact value).

(** [_row_to_record] *)
Definition knowledge_record (r : knowledge_row) : result KnowledgeRecord :=
  match loads (kn_content_json r) with
  | None => Raise (Exn JSONDecodeError "Expecting value")
  | Some content =>
      if negb (knowledge_sha256 content =s kn_content_sha256 r)
      then Raise (Exn LearningError ("knowledge integrity mismatch: " +:+ kn_id r))
      else match loads (kn_provenance_json r) with
           | None => Raise (Exn JSONDecodeError "Expecting value")
           | Some provenance => Ok
               {| kr_id := kn_id r; kr_lineage_key := kn_lineage_key r; kr_version := kn_version r;
                  kr_mission_id := kn_mission_id r; kr_system_id := kn_system_id r; kr_incident_id := kn_incident_id r;
                  kr_correction_id := kn_correction_id r; kr_kind := kn_kind r; kr_target_scope := kn_target_scope r;
                  kr_state := kn_state r; kr_confidence := kn_confidence r; kr_content := content;
                  kr_content_sha256 := kn_content_sha256 r; kr_remediation_signature := kn_remediation_signature r;
                  kr_provenance := provenance; kr_created_at := kn_created_at r; kr_promoted_at := kn_promoted_at r;
                  kr_supersedes_id := kn_supersedes_id r |}
           end
  end.
Definition knowledge_get (knowledge_id : string) : IO KnowledgeRecord :=
  row ← query (λ d, find_row kn_id knowledge_id (learning_knowledge d));
  match row with
  | None => throw LearningError "knowledge not found"
  | Some r => lift_result (knowledge_record r)
  end.

(** [SELECT MAX(version)] *)
Definition max_version (lineage_key : string) (rows : list knowledge_row) : option Z :=
  fold_right (λ r acc, match acc with None => Some (kn_version r) | Some v => Some (Z.max (kn_version r) v) end) None
    (List.filter (λ r, kn_lineage_key r =s lineage_key) rows).
Definition next_version (lineage_key : string) : IO Z :=
  v ← query (λ d, max_version lineage_key (learning_knowledge d));
  mret (match v with None => 1 | Some v => v + 1 end)%Z.

Definition evidence_ok (evidence_id : string) : IO bool :=
  if evidence_id =s "" then mret false else verify_evidence evidence_id.
(** [sorted(eid for eid in set(ids) if not self._evidence_ok(eid))] *)
Definition invalid_evidence (ids : list string) : IO (list string) :=
  checked ← for_each (sorted_set ids) (λ e, ok ← evidence_ok e; mret (e, ok));
  mret (map fst (List.filter (λ c : string * bool, negb (snd c)) checked)).

Definition remediation_signature (c : correction_row) : result string :=
  match loads (co_validation_json c) with
  | None => Raise (Exn JSONDecodeError "Expecting value")
  | Some v => Ok (knowledge_sha256 (JObj [("task_kind", JStr (co_task_kind c)); ("description", JStr (co_description c));
                                          ("validation", v)]))
  end.

Definition correction_snapshot (correction_id : string) : IO snapshot :=
  correction ← query (λ d, find_row co_id correction_id (diag_corrections d));
  match correction with
  | None => throw LearningError "correction not found"
  | Some c =>
      _ ← raise_if (negb (co_state c =s "ACCEPTED")) LearningError "learning requires an accepted correction";
      incident ← query (λ d, find_row in_id (co_incident_id c) (diag_incidents d));
      let unresolved := (throw LearningError "learning requires a resolved incident with confirmed root cause" : IO snapshot) in
      match incident with
      | None => unresolved
      | Some i =>
          match in_root_hypothesis_id i with
          | None => unresolved
          | Some root =>
              if negb (in_state i =s "RESOLVED") || (root =s "") then unresolved
              else
                validation ← query (λ d, head (order_by validation_newest
                  (List.filter (λ v, va_correction_id v =s correction_id) (diag_validations d))));
                match validation with
                | None => throw LearningError "learning requires successful semantic validation"
                | Some v =>
                    _ ← raise_if (negb (va_passed v) || va_rolled_back v) LearningError
                          "learning requires successful semantic validation";
                    mission ← query (λ d, find_row m_id (co_mission_id c) (missions d));
                    match mission with
                    | None => throw LearningError "mission not found for correction"
                    | Some m =>
                        attempts ← query (λ d, List.filter (λ a, at_incident_id a =s in_id i) (diag_attempts d));
                        signals ← query (λ d, List.filter (λ s, is_incident_id s =s in_id i) (diag_incident_signals d));
                        let evidence_ids := [co_plan_evidence_id c; va_evidence_id v] ++ map at_evidence_id attempts
                                            ++ map is_evidence_id signals in
                        invalid ← invalid_evidence evidence_ids;
                        _ ← raise_if (match invalid with [] => false | _ => true end) LearningError
                              ("provenance contains invalid evidence: " +:+ py_str (JList (map JStr invalid)));
                        signature ← lift_result (remediation_signature c);
                        mret {| sn_correction_id := co_id c; sn_incident_id := in_id i; sn_root_hypothesis_id := root;
                                sn_mission_id := co_mission_id c; sn_system_id := m_system_id m; sn_validation_id := va_id v;
                                sn_evidence_id := va_evidence_id v; sn_evidence_ids := sorted_set evidence_ids;
                                sn_remediation_signature := signature |}
                    end
                end
          end
      end
  end.

(** [_negative_validation_snapshot] *)
Definition negative_snapshot (validation_id : string) : IO snapshot :=
  validation ← query (λ d, find_row va_id validation_id (diag_validations d));
  match validation with
  | None => throw LearningError "validation not found"
  | Some v =>
      _ ← raise_if (va_passed v && negb (va_rolled_back v)) LearningError
            "regression requires a failed or rolled-back validation";
      correction ← query (λ d, find_row co_id (va_correction_id v) (diag_corrections d));
      match correction with
      | None => throw LearningError "validation correction not found"
      | Some c =>
          mission ← query (λ d, find_row m_id (co_mission_id c) (missions d));
          match mission with
          | None => throw LearningError "validation mission not found"
          | Some m =>
              ok ← evidence_ok (va_evidence_id v);
              _ ← raise_if (negb ok) LearningError "regression evidence integrity verification failed";
              signature ← lift_result (remediation_signature c);
              mret {| sn_correction_id := co_id c; sn_incident_id := ""; sn_root_hypothesis_id := "";
                      sn_mission_id := co_mission_id c; sn_system_id := m_system_id m; sn_validation_id := va_id v;
                      sn_evidence_id := va_evidence_id v; sn_evidence_ids := []; sn_remediation_signature := signature |}
          end
      end
  end.

(** [_recompute_confidence]: confidence, successes, failures, distinct systems *)
Definition recompute_confidence (knowledge_id : string) : IO (Q * Z * Z * Z) :=
  rows ← query (λ d, outcomes_of knowledge_id (learning_outcomes d));
  let confidence := laplace rows in
  _ ← exec (set_learning_knowledge (update_row kn_id knowledge_id (set_confidence confidence)));
  mret (confidence, count_outcome "SUCCESS" rows, count_outcome "FAILURE" rows, success_systems rows).

(** [_append_outcome]; any failure of the statement is a LearningError *)
Definition same_outcome (knowledge_id correction_id validation_id : string) (r : outcome_row) : bool :=
  (lo_knowledge_id r =s knowledge_id) && (lo_correction_id r =s correction_id) && (lo_validation_id r =s validation_id).
Definition append_outcome (knowledge_id outcome : string) (s : snapshot) (now : Q) : IO unit :=
  id ← uuid4;
  rows ← query learning_outcomes;
  _ ← raise_if (row_exists lo_id id rows || existsb (same_outcome knowledge_id (sn_correction_id s) (sn_validation_id s)) rows)
        LearningError "outcome already recorded or invalid";
  exec (set_learning_outcomes (λ l, l ++
    [{| lo_id := id; lo_knowledge_id := knowledge_id; lo_correction_id := sn_correction_id s;
        lo_validation_id := sn_validation_id s; lo_mission_id := sn_mission_id s; lo_system_id := sn_system_id s;
        lo_outcome := outcome; lo_evidence_id := sn_evidence_id s;
        lo_remediation_signature := sn_remediation_signature s; lo_created_at := now |}])).

(** [time.time() if now is None else now] as a float *)
Definition learning_now (now : option Z) : IO Q := now_or_time (float_now now).

(** The truth of an optional text. *)
Definition text_given (s : option string) : bool := match s with Some x => negb (x =s "") | None => false end.

Definition provenance_of (s : snapshot) : dict :=
  [("source", JStr "accepted_remediation"); ("incident_id", JStr (sn_incident_id s));
   ("root_hypothesis_id", JStr (sn_root_hypothesis_id s)); ("correction_id", JStr (sn_correction_id s));
   ("validation_id", JStr (sn_validation_id s)); ("evidence_ids", JList (map JStr (sn_evidence_ids s)));
   ("system_id", JStr (sn_system_id s))].
(** The inserted row. *)
Definition candidate_row (id lineage_key : string) (version : Z) (s : snapshot) (kind scope : string) (content : dict)
    (skill_id skill_version : option string) (ts : Q) : knowledge_row :=
  {| kn_id := id; kn_lineage_key := lineage_key; kn_version := version; kn_mission_id := sn_mission_id s;
     kn_system_id := sn_system_id s; kn_incident_id := sn_incident_id s; kn_correction_id := sn_correction_id s;
     kn_kind := kind; kn_target_scope := scope; kn_state := "QUARANTINED"; kn_confidence := 0;
     kn_content_json := dumps Compact (JObj content); kn_content_sha256 := knowledge_sha256 (JObj content);
     kn_remediation_signature := sn_remediation_signature s;
     kn_provenance_json := dumps Compact (JObj (provenance_of s)); kn_skill_id := skill_id; kn_skill_version := skill_version;
     kn_created_at := ts; kn_promoted_at := None; kn_reviewed_at := None; kn_supersedes_id := None |}.
(** PRIMARY KEY and UNIQUE(lineage_key, version) *)
Definition insert_knowledge (r : knowledge_row) : IO unit :=
  rows ← query learning_knowledge;
  _ ← raise_if (row_exists kn_id (kn_id r) rows) IntegrityError "UNIQUE constraint failed: learning_knowledge.id";
  _ ← raise_if (existsb (λ x, (kn_lineage_key x =s kn_lineage_key r) && (kn_version x =? kn_version r)%Z) rows) IntegrityError
        "UNIQUE constraint failed: learning_knowledge.lineage_key, learning_knowledge.version";
  exec (set_learning_knowledge (λ l, l ++ [r])).
Definition insert_review (r : review_row) : IO unit :=
  rows ← query learning_reviews;
  _ ← raise_if (row_exists lr_id (lr_id r) rows) IntegrityError "UNIQUE constraint failed: learning_reviews.id";
  exec (set_learning_reviews (λ l, l ++ [r])).

Definition create_candidate (registrar_token correction_id lineage_key kind : string) (content : dict) (target_scope : string)
    (skill_id skill_version : option string) (now : option Z) : IO KnowledgeRecord :=
  principal ← ia_verify identity registrar_token (Some "knowledge:register") now;
  _ ← raise_if (blank lineage_key || blank kind) LearningError "lineage, kind and object content are required";
  let scope := upper (strip target_scope) in
  _ ← raise_if (match threshold_of scope with Some _ => false | None => true end) LearningError
        "target_scope must be SYSTEM or GLOBAL";
  s ← correction_snapshot correction_id;
  _ ← (if strip kind =s "skill" then
         _ ← raise_if (negb skills || negb (text_given skill_id) || negb (text_given skill_version)) LearningError
               "skill learning requires an attached SkillRegistry and skill reference";
         skill ← catch (resolve_approved (default "" skill_id) skill_version)
                   (λ e, if bool_decide (exn_cls e = SkillError)
                         then throw LearningError "skill must already be laboratory-approved" else reraise e);
         raise_if (negb (sk_authority skill =s "adapter-only") || sk_executable skill) LearningError
           "skill authority boundary violated"
       else mret tt);
  ts ← learning_now now;
  knowledge_id ← uuid4;
  version ← next_version (strip lineage_key);
  _ ← insert_knowledge (candidate_row knowledge_id (strip lineage_key) version s (strip kind) scope content skill_id skill_version ts);
  _ ← append_outcome knowledge_id "SUCCESS" s ts;
  counted ← recompute_confidence knowledge_id;
  let '(confidence, _, _, _) := counted in
  _ ← audit (pr_subject principal) "knowledge_quarantined" (Some (sn_mission_id s))
        [("knowledge_id", JStr knowledge_id); ("lineage_key", JStr (strip lineage_key)); ("version", JInt version);
         ("kind", JStr (strip kind)); ("target_scope", JStr scope); ("confidence", JNum confidence);
         ("source_correction_id", JStr correction_id)] (Some ts);
  knowledge_get knowledge_id.

Definition add_reproduction (validator_token knowledge_id correction_id : string) (now : option Z) : IO KnowledgeRecord :=
  principal ← ia_verify identity validator_token (Some "knowledge:validate") now;
  record ← knowledge_get knowledge_id;
  _ ← raise_if (negb (str_in (kr_state record) ["QUARANTINED"; "PROMOTED"])) LearningError
        "knowledge is not eligible for reproduction";
  s ← correction_snapshot correction_id;
  _ ← raise_if (negb (sn_remediation_signature s =s kr_remediation_signature record)) LearningError
        "reproduction does not match remediation signature";
  ts ← learning_now now;
  _ ← append_outcome knowledge_id "SUCCESS" s ts;
  counted ← recompute_confidence knowledge_id;
  let '(confidence, successes, failures, systems) := counted in
  _ ← audit (pr_subject principal) "knowledge_reproduction_recorded" (Some (sn_mission_id s))
        [("knowledge_id", JStr knowledge_id); ("correction_id", JStr correction_id); ("confidence", JNum confidence);
         ("successes", JInt successes); ("failures", JInt failures); ("distinct_success_systems", JInt systems)] (Some ts);
  knowledge_get knowledge_id.

Definition regressed_state (failures : Z) (state : string) : string :=
  if (2 <=? failures)%Z then "RETIRED" else if state =s "PROMOTED" then "SUSPENDED" else state.
Definition record_regression (reviewer_token knowledge_id validation_id : string) (now : option Z) : IO KnowledgeRecord :=
  principal ← ia_verify identity reviewer_token (Some "knowledge:review") now;
  record ← knowledge_get knowledge_id;
  _ ← raise_if (str_in (kr_state record) ["RETIRED"; "SUPERSEDED"]) LearningError
        "retired/superseded knowledge cannot accept regression";
  s ← negative_snapshot validation_id;
  _ ← raise_if (negb (sn_remediation_signature s =s kr_remediation_signature record)) LearningError
        "regression does not match remediation signature";
  ts ← learning_now now;
  let before := kr_confidence record in
  _ ← append_outcome knowledge_id "FAILURE" s ts;
  counted ← recompute_confidence knowledge_id;
  let '(confidence, successes, failures, _) := counted in
  let new_state := regressed_state failures (kr_state record) in
  _ ← exec (set_learning_knowledge (update_row kn_id knowledge_id (set_reviewed new_state ts)));
  review_id ← uuid4;
  _ ← insert_review {| lr_id := review_id; lr_knowledge_id := knowledge_id; lr_reviewer_subject := pr_subject principal;
                       lr_verdict := "REGRESSION"; lr_confidence_before := before; lr_confidence_after := confidence;
                       lr_evidence_json := dumps Compact (JList [JStr (sn_evidence_id s)]); lr_created_at := ts |};
  _ ← audit (pr_subject principal) "knowledge_regression_recorded" (Some (sn_mission_id s))
        [("knowledge_id", JStr knowledge_id); ("validation_id", JStr validation_id); ("confidence_before", JNum before);
         ("confidence_after", JNum confidence); ("successes", JInt successes); ("failures", JInt failures);
         ("state", JStr new_state)] (Some ts);
  knowledge_get knowledge_id.

(** [list(record.provenance.get("evidence_ids") or [])], texts *)
Definition recorded_evidence (provenance : json) : result (list string) :=
  match provenance with
  | JObj d =>
      match truthy_get d "evidence_ids" with
      | None => Ok []
      | Some (JList l) =>
          match mapM (λ v, match v with JStr s => Some s | _ => None end) l with
          | Some ids => Ok ids
          | None => Raise (Exn TypeError "evidence ids are texts")
          end
      | Some (JStr s) => Ok (chars s)
      | Some (JObj kvs) => Ok (map fst kvs)
      | Some _ => Raise (Exn TypeError "object is not iterable")
      end
  | _ => Raise (Exn AttributeError "object has no attribute 'get'")
  end.
Definition reviewed_state (bad : bool) (failures : Z) (state : string) : string :=
  let state := if bad && (state =s "PROMOTED") then "SUSPENDED" else state in
  if bad && (2 <=? failures)%Z then "RETIRED" else state.
Definition review_integrity (reviewer_token knowledge_id : string) (now : option Z) : IO KnowledgeRecord :=
  principal ← ia_verify identity reviewer_token (Some "knowledge:review") now;
  record ← knowledge_get knowledge_id;
  recorded ← lift_result (recorded_evidence (kr_provenance record));
  rows ← query (λ d, outcomes_of knowledge_id (learning_outcomes d));
  let evidence_ids := recorded ++ map lo_evidence_id rows in
  bad ← invalid_evidence evidence_ids;
  ts ← learning_now now;
  let before := kr_confidence record in
  counted ← recompute_confidence knowledge_id;
  let '(confidence, _, failures, _) := counted in
  let found := match bad with [] => false | _ => true end in
  let verdict := if found then "INVALID_EVIDENCE" else "VALID" in
  let state := reviewed_state found failures (kr_state record) in
  _ ← exec (set_learning_knowledge (update_row kn_id knowledge_id (set_reviewed state ts)));
  review_id ← uuid4;
  _ ← insert_review {| lr_id := review_id; lr_knowledge_id := knowledge_id; lr_reviewer_subject := pr_subject principal;
                       lr_verdict := verdict; lr_confidence_before := before; lr_confidence_after := confidence;
                       lr_evidence_json := dumps Compact (JList (map JStr evidence_ids)); lr_created_at := ts |};
  _ ← audit (pr_subject principal) "knowledge_reviewed" (Some (kr_mission_id record))
        [("knowledge_id", JStr knowledge_id); ("verdict", JStr verdict); ("bad_evidence_ids", JList (map JStr bad));
         ("state", JStr state)] (Some ts);
  knowledge_get knowledge_id.

(** The gates of [promote]: the counts and the superseded record, if any. *)
Definition promotion_gates (subject : string) (record : KnowledgeRecord) : IO (Q * Z * Z * option string) :=
  let knowledge_id := kr_id record in
  _ ← raise_if (negb (kr_state record =s "QUARANTINED")) LearningError "only quarantined knowledge can be promoted";
  review ← query (λ d, head (order_by review_newest (List.filter (λ r, lr_knowledge_id r =s knowledge_id) (learning_reviews d))));
  match review with
  | None => throw LearningError "knowledge promotion requires a prior valid review"
  | Some v =>
      _ ← raise_if (negb (lr_verdict v =s "VALID")) LearningError "knowledge promotion requires a prior valid review";
      _ ← raise_if (lr_reviewer_subject v =s subject) LearningError "knowledge reviewer and promoter must be different identities";
      counted ← recompute_confidence knowledge_id;
      let '(confidence, successes, failures, systems) := counted in
      _ ← raise_if (negb (failures =? 0)%Z) LearningError "knowledge with regression evidence cannot be promoted";
      threshold ← match threshold_of (kr_target_scope record) with
                  | Some t => mret t
                  | None => throw KeyError (kr_target_scope record)
                  end;
      _ ← raise_if (qlt confidence threshold) LearningError "knowledge confidence below promotion threshold";
      _ ← (if kr_target_scope record =s "SYSTEM"
           then raise_if (successes <? 1)%Z LearningError "system knowledge requires one proven successful remediation"
           else raise_if ((successes <? 2) || (systems <? 2))%Z LearningError
                  "global knowledge requires two successful reproductions on distinct systems");
      row ← query (λ d, find_row kn_id knowledge_id (learning_knowledge d));
      _ ← (if kr_kind record =s "skill" then
             let skill_id := row ≫= kn_skill_id in
             let skill_version := row ≫= kn_skill_version in
             _ ← raise_if (negb skills || negb (text_given skill_id) || negb (text_given skill_version)) LearningError
                   "skill registry unavailable at promotion";
             skill ← resolve_approved (default "" skill_id) skill_version;
             raise_if (negb (sk_authority skill =s "adapter-only") || sk_executable skill) LearningError
               "skill is no longer eligible"
           else mret tt);
      prior ← query (λ d, head (order_by version_highest (List.filter
                (λ r, (kn_lineage_key r =s kr_lineage_key record) && (kn_state r =s "PROMOTED") && negb (kn_id r =s knowledge_id))
                (learning_knowledge d))));
      match prior with
      | None => mret (confidence, successes, systems, None)
      | Some p =>
          prior_record ← lift_result (knowledge_record p);
          _ ← raise_if (kr_version record <=? kr_version prior_record)%Z LearningError
                "new knowledge version must advance lineage";
          _ ← raise_if (qlt confidence (kr_confidence prior_record)) LearningError
                "new knowledge cannot supersede higher-confidence promoted knowledge";
          mret (confidence, successes, systems, Some (kr_id prior_record))
      end
  end.

Definition promote_knowledge (approver_token knowledge_id : string) (now : option Z) : IO KnowledgeRecord :=
  principal ← ia_verify identity approver_token (Some "knowledge:promote") now;
  record ← knowledge_get knowledge_id;
  gated ← promotion_gates (pr_subject principal) record;
  let '(confidence, successes, systems, supersedes_id) := gated in
  ts ← learning_now now;
  _ ← exec (set_learning_knowledge (update_row kn_id knowledge_id (set_promoted confidence ts supersedes_id)));
  _ ← match supersedes_id with
      | None => mret tt
      | Some old => if old =s "" then mret tt
                    else exec (set_learning_knowledge (update_row kn_id old (set_reviewed "SUPERSEDED" ts)))
      end;
  _ ← audit (pr_subject principal) "knowledge_promoted" (Some (kr_mission_id record))
        [("knowledge_id", JStr knowledge_id); ("lineage_key", JStr (kr_lineage_key record));
         ("version", JInt (kr_version record)); ("confidence", JNum confidence);
         ("target_scope", JStr (kr_target_scope record)); ("successes", JInt successes);
         ("distinct_success_systems", JInt systems); ("supersedes_id", jopt_str supersedes_id)] (Some ts);
  knowledge_get knowledge_id.

Definition retire_knowledge (operator_token knowledge_id reason : string) (evidence_id : option string) (now : option Z)
    : IO KnowledgeRecord :=
  principal ← ia_verify identity operator_token (Some "knowledge:retire") now;
  record ← knowledge_get knowledge_id;
  _ ← raise_if (negb (str_in (kr_state record) ["PROMOTED"; "SUSPENDED"; "QUARANTINED"])) LearningError
        "knowledge cannot be retired from current state";
  _ ← raise_if (blank reason) LearningError "retirement reason is required";
  ok ← match evidence_id with None => mret true | Some e => evidence_ok e end;
  _ ← raise_if (negb ok) LearningError "retirement evidence is invalid";
  ts ← learning_now now;
  _ ← exec (set_learning_knowledge (update_row kn_id knowledge_id (set_reviewed "RETIRED" ts)));
  _ ← audit (pr_subject principal) "knowledge_retired" (Some (kr_mission_id record))
        [("knowledge_id", JStr knowledge_id); ("reason", JStr (strip reason)); ("evidence_id", jopt_str evidence_id)] (Some ts);
  knowledge_get knowledge_id.

Definition knowledge_recalled (kind system_id : option string) (r : knowledge_row) : bool :=
  (kn_state r =s "PROMOTED")
  && (match kind with Some k => (k =s "") || (kn_kind r =s k) | None => true end)
  && match system_id with Some s => (s =s "") || (kn_target_scope r =s "GLOBAL") || (kn_system_id r =s s) | None => true end.
Definition recall_knowledge (kind system_id : option string) (limit : Z) : IO (list KnowledgeRecord) :=
  _ ← raise_if ((limit <? 1) || (200 <? limit))%Z LearningError "recall limit outside 1..200";
  rows ← query (λ d, take (Z.to_nat limit) (order_by knowledge_newest
           (List.filter (knowledge_recalled kind system_id) (learning_knowledge d))));
  for_each rows (λ r, lift_result (knowledge_record r)).

(** [ORDER BY created_at, id] *)
Definition outcome_order (r s : outcome_row) : bool :=
  qlt (lo_created_at r) (lo_created_at s) || (Qeq_bool (lo_created_at r) (lo_created_at s) && String.leb (lo_id r) (lo_id s)).
Definition review_order (r s : review_row) : bool :=
  qlt (lr_created_at r) (lr_created_at s) || (Qeq_bool (lr_created_at r) (lr_created_at s) && String.leb (lr_id r) (lr_id s)).
Definition outcome_dict (r : outcome_row) : json :=
  JObj [("id", JStr (lo_id r)); ("knowledge_id", JStr (lo_knowledge_id r)); ("correction_id", JStr (lo_correction_id r));
        ("validation_id", JStr (lo_validation_id r)); ("mission_id", JStr (lo_mission_id r));
        ("system_id", JStr (lo_system_id r)); ("outcome", JStr (lo_outcome r)); ("evidence_id", JStr (lo_evidence_id r));
        ("remediation_signature", JStr (lo_remediation_signature r)); ("created_at", JNum (lo_created_at r))].
Definition review_dict (r : review_row) : json :=
  JObj [("id", JStr (lr_id r)); ("knowledge_id", JStr (lr_knowledge_id r)); ("reviewer_subject", JStr (lr_reviewer_subject r));
        ("verdict", JStr (lr_verdict r)); ("confidence_before", JNum (lr_confidence_before r));
        ("confidence_after", JNum (lr_confidence_after r)); ("evidence_json", JStr (lr_evidence_json r));
        ("created_at", JNum (lr_created_at r))].
Definition knowledge_provenance (knowledge_id : string) : IO dict :=
  record ← knowledge_get knowledge_id;
  outcomes ← query (λ d, order_by outcome_order (outcomes_of knowledge_id (learning_outcomes d)));
  reviews ← query (λ d, order_by review_order (List.filter (λ r, lr_knowledge_id r =s knowledge_id) (learning_reviews d)));
  mret [("knowledge", JObj [("id", JStr (kr_id record)); ("lineage_key", JStr (kr_lineage_key record));
           ("version", JInt (kr_version record)); ("state", JStr (kr_state record)); ("confidence", JNum (kr_confidence record));
           ("content_sha256", JStr (kr_content_sha256 record)); ("provenance", kr_provenance record)]);
        ("outcomes", JList (map outcome_dict outcomes)); ("reviews", JList (map review_dict reviews))].
End learning.
