(* ===== verification/LearningSpec.v ===== *)
(** What the learning engine may do to its tables: an abstract transition system whose
    steps are the engine's writes with the facts they rest on, and its invariant.
    LearningProps shows that every operation refines it. *)

From S2P Require Import Prelude Json Sha256 Schema Tokens TokenProps Learning.

(** ** Lifecycle *)
Definition KNOWLEDGE_STATES : list string := ["QUARANTINED"; "PROMOTED"; "SUSPENDED"; "SUPERSEDED"; "RETIRED"].
(** The states knowledge can still reach. *)
Definition later (s : string) : list string :=
  if s =s "QUARANTINED" then KNOWLEDGE_STATES
  else if s =s "PROMOTED" then ["PROMOTED"; "SUSPENDED"; "SUPERSEDED"; "RETIRED"]
  else if s =s "SUSPENDED" then ["SUSPENDED"; "RETIRED"]
  else if s =s "SUPERSEDED" then ["SUPERSEDED"; "RETIRED"]
  else [s; "RETIRED"].
Lemma later_other s : s ∉ ["QUARANTINED"; "PROMOTED"; "SUSPENDED"; "SUPERSEDED"] → later s = [s; "RETIRED"].
Proof.
  rewrite !elem_of_cons, elem_of_nil. intros Hs. unfold later.
  repeat (rewrite (proj2 (String.eqb_neq _ _)) by tauto). done.
Qed.
Ltac by_members := repeat match goal with
  | H : _ ∈ _ :: _ |- _ => apply elem_of_cons in H as [->|H]
  | H : _ ∈ [] |- _ => by apply elem_of_nil in H
  | H : _ ∈ later (String ?c ?s) |- _ => let l := eval vm_compute in (later (String c s)) in change (later (String c s)) with l in H
  end.
Lemma later_refl s : s ∈ later s.
Proof.
  destruct (decide (s ∈ ["QUARANTINED"; "PROMOTED"; "SUSPENDED"; "SUPERSEDED"])) as [Hs|Hs].
  - by_members; apply str_in_iff; reflexivity.
  - rewrite later_other by done. by left.
Qed.
Lemma later_retired s : "RETIRED" ∈ later s.
Proof.
  destruct (decide (s ∈ ["QUARANTINED"; "PROMOTED"; "SUSPENDED"; "SUPERSEDED"])) as [Hs|Hs].
  - by_members; apply str_in_iff; reflexivity.
  - rewrite later_other by done. by right; left.
Qed.
Lemma later_trans a b c : b ∈ later a → c ∈ later b → c ∈ later a.
Proof.
  destruct (decide (a ∈ ["QUARANTINED"; "PROMOTED"; "SUSPENDED"; "SUPERSEDED"])) as [Ha|Ha].
  - intros Hb Hc. by_members; apply str_in_iff; reflexivity.
  - rewrite later_other by done. intros Hb Hc. by_members; [by rewrite later_other in Hc|by right; left..].
Qed.

(** The columns no statement changes. *)
Definition knowledge_core (r : knowledge_row) : list string * Z * Q * option string * option string :=
  ([kn_id r; kn_lineage_key r; kn_mission_id r; kn_system_id r; kn_incident_id r; kn_correction_id r; kn_kind r;
    kn_target_scope r; kn_content_json r; kn_content_sha256 r; kn_remediation_signature r; kn_provenance_json r],
   kn_version r, kn_created_at r, kn_skill_id r, kn_skill_version r).
Definition knowledge_moves (r r' : knowledge_row) : Prop :=
  knowledge_core r' = knowledge_core r ∧ kn_state r' ∈ later (kn_state r).
#[export] Instance knowledge_moves_preorder : PreOrder knowledge_moves.
Proof.
  split; [intros r; split; [done|apply later_refl]|]. intros a b c [E1 H1] [E2 H2]. split; [congruence|by eapply later_trans].
Qed.

Lemma set_confidence_moves c r : knowledge_moves r (set_confidence c r).
Proof. split; [done|apply later_refl]. Qed.
Lemma set_reviewed_moves st ts r : st ∈ later (kn_state r) → knowledge_moves r (set_reviewed st ts r).
Proof. by split. Qed.
Lemma set_promoted_moves c ts s r : kn_state r = "QUARANTINED" → knowledge_moves r (set_promoted c ts s r).
Proof. intros E. split; [done|]. rewrite E. apply str_in_iff. reflexivity. Qed.

(** ** The steps *)
Section spec.
Context `{JsonText}.

Definition put_knowledge (f : list knowledge_row → list knowledge_row) (t : LearningTables) : LearningTables :=
  {| learning_knowledge := f (learning_knowledge t); learning_outcomes := learning_outcomes t; learning_reviews := learning_reviews t |}.
Definition put_outcome (o : outcome_row) (t : LearningTables) : LearningTables :=
  {| learning_knowledge := learning_knowledge t; learning_outcomes := learning_outcomes t ++ [o];
     learning_reviews := learning_reviews t |}.
Definition put_review (v : review_row) (t : LearningTables) : LearningTables :=
  {| learning_knowledge := learning_knowledge t; learning_outcomes := learning_outcomes t;
     learning_reviews := learning_reviews t ++ [v] |}.
(** Sets the confidence of [id] by its outcomes. *)
Definition recounted (id : string) (t : LearningTables) : LearningTables :=
  put_knowledge (update_row kn_id id (set_confidence (laplace (outcomes_of id (learning_outcomes t))))) t.
Definition superseded (ts : Q) (old : option string) (t : LearningTables) : LearningTables :=
  match old with
  | None => t
  | Some o => if o =s "" then t else put_knowledge (update_row kn_id o (set_reviewed "SUPERSEDED" ts)) t
  end.

(** The stored digest is that of the stored content. *)
Definition content_intact (r : knowledge_row) : Prop :=
  ∃ content, loads (kn_content_json r) = Some content ∧ kn_content_sha256 r = knowledge_sha256 content.
(** The promoted knowledge of a lineage apart from [id]. *)
Definition rival (id lineage : string) (r : knowledge_row) : Prop :=
  kn_lineage_key r = lineage ∧ kn_state r = "PROMOTED" ∧ kn_id r ≠ id.

Inductive learning_write : LearningTables → LearningTables → Prop :=
| write_candidate t r :
    kn_id r ∉ map kn_id (learning_knowledge t) → kn_id r ≠ "" → kn_state r = "QUARANTINED" → kn_confidence r = 0%Q → content_intact r →
    learning_write t (put_knowledge (λ l, l ++ [r]) t)
| write_outcome t id o r :
    find_row kn_id id (learning_knowledge t) = Some r → lo_knowledge_id o = id →
    learning_write t (recounted id (put_outcome o t))
| write_count t id : learning_write t (recounted id t)
| write_state t id r st ts :
    find_row kn_id id (learning_knowledge t) = Some r → st ∈ later (kn_state r) → (st = "PROMOTED" → kn_state r = "PROMOTED") →
    learning_write t (put_knowledge (update_row kn_id id (set_reviewed st ts)) t)
| write_review t v : learning_write t (put_review v t)
| write_promotion t id r ts old :
    find_row kn_id id (learning_knowledge t) = Some r → kn_state r = "QUARANTINED" →
    match old with
    | None => ∀ x, x ∈ learning_knowledge t → ¬ rival id (kn_lineage_key r) x
    | Some o => ∃ p, p ∈ learning_knowledge t ∧ kn_id p = o ∧ rival id (kn_lineage_key r) p
    end →
    learning_write t (superseded ts old
      (put_knowledge (update_row kn_id id (set_promoted (laplace (outcomes_of id (learning_outcomes t))) ts old)) t)).

(** ** The invariant *)
(** Of the rows: unique, named, in a known state, intact, one promoted per lineage. *)
Record rows_wf (l : list knowledge_row) : Prop := {
  lw_ids : unique_key kn_id l;
  lw_named : Forall (λ r, kn_id r ≠ "") l;
  lw_states : Forall (λ r, kn_state r ∈ KNOWLEDGE_STATES) l;
  lw_intact : Forall content_intact l;
  lw_one_promoted : ∀ r s, r ∈ l → s ∈ l →
    kn_lineage_key r = kn_lineage_key s → kn_state r = "PROMOTED" → kn_state s = "PROMOTED" → kn_id r = kn_id s;
}.
(** Of the counts: outcomes belong to stored knowledge, and the confidence is theirs. *)
Definition confidence_ok (outcomes : list outcome_row) (r : knowledge_row) : Prop :=
  let l := outcomes_of (kn_id r) outcomes in kn_confidence r = laplace l ∨ l = [] ∧ kn_confidence r = 0%Q.
Record learning_wf (t : LearningTables) : Prop := {
  lw_rows : rows_wf (learning_knowledge t);
  lw_outcomes : Forall (λ o, lo_knowledge_id o ∈ map kn_id (learning_knowledge t)) (learning_outcomes t);
  lw_confidence : Forall (confidence_ok (learning_outcomes t)) (learning_knowledge t);
}.

Lemma in_update id g (l : list knowledge_row) x :
  x ∈ update_row kn_id id g l → ∃ y, y ∈ l ∧ (kn_id y = id ∧ x = g y ∨ kn_id y ≠ id ∧ x = y).
Proof.
  unfold update_row, update_where, has_key. intros (y & -> & Hy)%list_elem_of_fmap. exists y. split; [done|].
  destruct (String.eqb_spec (kn_id y) id); [by left|by right].
Qed.
Lemma found_is id (l : list knowledge_row) r y :
  unique_key kn_id l → find_row kn_id id l = Some r → y ∈ l → kn_id y = id → y = r.
Proof. intros Hu Hf Hy E. pose proof (find_row_unique kn_id l y Hu Hy) as Ey. rewrite E, Hf in Ey. congruence. Qed.

Definition learning_evolves (t t' : LearningTables) : Prop :=
  learning_wf t → learning_wf t' ∧ ∀ id r, find_row kn_id id (learning_knowledge t) = Some r →
    ∃ r', find_row kn_id id (learning_knowledge t') = Some r' ∧ knowledge_moves r r'.
#[export] Instance learning_evolves_preorder : PreOrder learning_evolves.
Proof.
  split; [intros t Hw; split; [done|]; intros id r Hr; by exists r|].
  intros a b c H1 H2 Hw. destruct (H1 Hw) as [Hb M1]. destruct (H2 Hb) as [Hc M2]. split; [done|].
  intros id r (r1 & Hr1 & Hm1)%M1. destruct (M2 id r1 Hr1) as (r2 & Hr2 & Hm2). exists r2. split; [done|by etrans].
Qed.

Lemma later_states a b : a ∈ KNOWLEDGE_STATES → b ∈ later a → b ∈ KNOWLEDGE_STATES.
Proof. unfold KNOWLEDGE_STATES. intros Ha Hb. by_members; apply str_in_iff; reflexivity. Qed.

(** A row updated in place. *)
Lemma updated_row id r g (l : list knowledge_row) x :
  unique_key kn_id l → find_row kn_id id l = Some r → x ∈ update_row kn_id id g l → x = g r ∨ x ∈ l ∧ kn_id x ≠ id.
Proof.
  intros Hu Hf (y & Hy & [[E ->]|[E ->]])%in_update; [left|by right]. by rewrite (found_is id _ r y Hu Hf Hy E).
Qed.
Lemma updated_Forall id r g (l : list knowledge_row) (P : knowledge_row → Prop) :
  unique_key kn_id l → find_row kn_id id l = Some r → Forall P l → (P r → P (g r)) → Forall P (update_row kn_id id g l).
Proof.
  intros Hu Hf HP Hg. rewrite Forall_forall in *. intros x [->|[Hx _]]%(updated_row id r g l); [|by apply HP|done|done].
  apply Hg, HP. by apply find_row_Some in Hf as [? _].
Qed.
Lemma rows_update l id r g :
  find_row kn_id id l = Some r → (∀ x, kn_id (g x) = kn_id x) → knowledge_moves r (g r) →
  (kn_state (g r) = "PROMOTED" → ∀ x, x ∈ l → kn_state x = "PROMOTED" → kn_lineage_key x = kn_lineage_key r → kn_id x = id) →
  rows_wf l → rows_wf (update_row kn_id id g l).
Proof.
  intros Hf Hg [Hcore Hst] Hone [Hu Hn Hs Hi Hp]. pose proof (find_row_Some _ _ _ _ Hf) as [Hin Hid].
  injection Hcore as Ei El _ _ _ _ _ _ Ec Es _ _ _ _ _ _. split.
  - unfold unique_key. by rewrite update_row_keys.
  - apply (updated_Forall id r); try done. by rewrite Hg.
  - apply (updated_Forall id r); try done. intros Hr. by eapply later_states.
  - apply (updated_Forall id r); try done. unfold content_intact. by rewrite Ec, Es.
  - intros x y Hx Hy Hl Hpx Hpy. apply (updated_row id r) in Hx; [|done..]. apply (updated_row id r) in Hy; [|done..].
    destruct Hx as [->|[Hxi Hxn]], Hy as [->|[Hyi Hyn]]; rewrite ?Hg, ?Hid; try done.
    + exfalso. apply Hyn. apply (Hone Hpx y Hyi Hpy). by rewrite <- Hl, El.
    + exfalso. apply Hxn. apply (Hone Hpy x Hxi Hpx). by rewrite Hl, El.
    + by apply Hp.
Qed.
(** Where every row goes. *)
Lemma moves_update l id r g :
  find_row kn_id id l = Some r → (∀ x, kn_id (g x) = kn_id x) → knowledge_moves r (g r) →
  ∀ id' r', find_row kn_id id' l = Some r' → ∃ r'', find_row kn_id id' (update_row kn_id id g l) = Some r'' ∧ knowledge_moves r' r''.
Proof.
  intros Hf Hg Hm id' r' Hr'. destruct (decide (id' = id)) as [->|Hne].
  - rewrite Hf in Hr'. injection Hr' as <-. exists (g r). by rewrite find_update_eq, Hf.
  - exists r'. rewrite find_update_ne by done. split; [done|reflexivity].
Qed.
Lemma evolves_update t id r g :
  find_row kn_id id (learning_knowledge t) = Some r → (∀ x, kn_id (g x) = kn_id x) → knowledge_moves r (g r) →
  (learning_wf t → kn_state (g r) = "PROMOTED" →
    ∀ x, x ∈ learning_knowledge t → kn_state x = "PROMOTED" → kn_lineage_key x = kn_lineage_key r → kn_id x = id) →
  kn_confidence (g r) = kn_confidence r ∨ kn_confidence (g r) = laplace (outcomes_of id (learning_outcomes t)) →
  learning_evolves t (put_knowledge (update_row kn_id id g) t).
Proof.
  intros Hf Hg Hm Hone Hconf Hw. split; [|by apply (moves_update _ _ r)]. pose proof (lw_rows t Hw) as Hrows. split.
  - apply (rows_update _ _ r); try done. by apply Hone.
  - cbn. rewrite update_row_keys by done. apply Hw.
  - cbn. apply (updated_Forall id r); [apply Hrows|done|apply Hw|]. pose proof (find_row_Some _ _ _ _ Hf) as [_ Hid].
    unfold confidence_ok. rewrite Hg, Hid. destruct Hconf as [-> | ->]; [done|by left].
Qed.

(** Already promoted knowledge has no rival. *)
Lemma promoted_alone l id r x :
  rows_wf l → find_row kn_id id l = Some r → kn_state r = "PROMOTED" → x ∈ l → kn_state x = "PROMOTED" →
  kn_lineage_key x = kn_lineage_key r → kn_id x = id.
Proof. intros Hw [Hin <-]%find_row_Some Hs Hx Hp Hl. by apply (lw_one_promoted l Hw). Qed.

Lemma evolves_candidate t r :
  kn_id r ∉ map kn_id (learning_knowledge t) → kn_id r ≠ "" → kn_state r = "QUARANTINED" → kn_confidence r = 0%Q → content_intact r →
  learning_evolves t (put_knowledge (λ l, l ++ [r]) t).
Proof.
  intros Hn Hne Hq Hc Hi [[Hu Hnm Hs Hin Hp] Ho Hcf]. split.
  - split; cbn [put_knowledge learning_knowledge learning_outcomes]; [split| |].
    + by apply unique_key_snoc.
    + apply Forall_app. split; [done|by apply Forall_singleton].
    + apply Forall_app. split; [done|]. apply Forall_singleton. rewrite Hq. by left.
    + apply Forall_app. split; [done|by apply Forall_singleton].
    + intros x y Hx Hy Hl Hpx Hpy. apply elem_of_app in Hx as [Hx| ->%list_elem_of_singleton]; [|congruence].
      apply elem_of_app in Hy as [Hy| ->%list_elem_of_singleton]; [|congruence]. by apply Hp.
    + eapply Forall_impl; [done|]. cbn. intros o Hm. rewrite map_app. apply elem_of_app. by left.
    + apply Forall_app. split; [done|]. apply Forall_singleton. right. split; [|done].
      destruct (outcomes_of (kn_id r) (learning_outcomes t)) as [|o l] eqn:E; [done|].
      assert (o ∈ outcomes_of (kn_id r) (learning_outcomes t)) as Hoc by (rewrite E; by left).
      apply list_elem_of_In, filter_In in Hoc as [Hoc Ek%String.eqb_eq]. apply list_elem_of_In in Hoc.
      rewrite Forall_forall in Ho. destruct Hn. rewrite <- Ek. by apply Ho.
  - intros id x Hx. exists x. split; [|reflexivity]. cbn [put_knowledge learning_knowledge]. rewrite find_row_snoc by done.
    destruct (String.eqb_spec (kn_id r) id) as [E|]; [|done]. apply find_row_Some in Hx as [Hxi Eid]. destruct Hn.
    rewrite E, <- Eid. by apply list_elem_of_fmap_2.
Qed.

(** A table whose key is absent is not updated. *)
Lemma update_absent id g (l : list knowledge_row) : find_row kn_id id l = None → update_row kn_id id g l = l.
Proof.
  intros Hf%find_row_None. unfold update_row, update_where, has_key. rewrite <- (map_id l) at 2. apply map_ext_in.
  intros x Hx%list_elem_of_In. destruct (String.eqb_spec (kn_id x) id) as [E|]; [|done].
  destruct Hf. rewrite <- E. by apply list_elem_of_fmap_2.
Qed.
Lemma evolves_count t id : learning_evolves t (recounted id t).
Proof.
  unfold recounted. destruct (find_row kn_id id (learning_knowledge t)) as [r|] eqn:Hf.
  - eapply evolves_update; [done|done|apply set_confidence_moves| |by right].
    intros Hw Hp x Hx Hs Hl. by apply (promoted_alone (learning_knowledge t) id r x); try apply Hw.
  - unfold put_knowledge. rewrite update_absent by done. intros Hw. split; [by destruct t|]. intros id' r Hr. by exists r.
Qed.

(** One outcome more, and the confidence that follows from it. *)
Lemma outcomes_of_snoc id o l : outcomes_of id (l ++ [o]) = outcomes_of id l ++ (if lo_knowledge_id o =s id then [o] else []).
Proof. unfold outcomes_of. by rewrite List.filter_app. Qed.
Lemma evolves_outcome t id o r :
  find_row kn_id id (learning_knowledge t) = Some r → lo_knowledge_id o = id → learning_evolves t (recounted id (put_outcome o t)).
Proof.
  intros Hf Ho [Hrows Hout Hconf]. pose proof (find_row_Some _ _ _ _ Hf) as [Hin Hid]. unfold recounted.
  set (c := laplace _). split; [split|]; cbn [put_knowledge put_outcome learning_knowledge learning_outcomes] in *.
  - apply (rows_update _ _ r); try done; [apply set_confidence_moves|]. intros Hp x Hx Hs Hl. by apply (promoted_alone (learning_knowledge t) id r x).
  - rewrite update_row_keys by done. apply Forall_app. split; [done|]. apply Forall_singleton. rewrite Ho, <- Hid.
    by apply list_elem_of_fmap_2.
  - rewrite Forall_forall in *. intros x Hx. destruct (updated_row id r _ _ x (lw_ids _ Hrows) Hf Hx) as [->|[Hx' Hne]].
    + left. unfold c, set_confidence. cbn. by rewrite Hid.
    + specialize (Hconf x Hx'). unfold confidence_ok in *. rewrite outcomes_of_snoc, Ho, (proj2 (String.eqb_neq id (kn_id x))) by congruence.
      by rewrite app_nil_r.
  - apply (moves_update _ _ r); try done. apply set_confidence_moves.
Qed.

Lemma evolves_review t v : learning_evolves t (put_review v t).
Proof. intros [? ? ?]. split; [by split|]. intros id r Hr. by exists r. Qed.

(** A promotion, with the rival it supersedes. *)
Lemma evolves_promote_alone t id r c ts old :
  find_row kn_id id (learning_knowledge t) = Some r → kn_state r = "QUARANTINED" →
  (∀ x, x ∈ learning_knowledge t → ¬ rival id (kn_lineage_key r) x) → c = laplace (outcomes_of id (learning_outcomes t)) →
  learning_evolves t (put_knowledge (update_row kn_id id (set_promoted c ts old)) t).
Proof.
  intros Hf Hq Hno ->. apply (evolves_update _ _ r); try done; [by apply set_promoted_moves| |by right].
  intros Hw _ x Hx Hs Hl. destruct (decide (kn_id x = id)) as [|Hne]; [done|]. destruct (Hno x Hx). by split_and!.
Qed.
Lemma update_swap id id' g g' (l : list knowledge_row) :
  id ≠ id' → (∀ x, kn_id (g x) = kn_id x) → (∀ x, kn_id (g' x) = kn_id x) →
  update_row kn_id id g (update_row kn_id id' g' l) = update_row kn_id id' g' (update_row kn_id id g l).
Proof.
  intros Hne Hg Hg'. unfold update_row, update_where, has_key. rewrite !map_map. apply map_ext. intros x.
  destruct (String.eqb_spec (kn_id x) id') as [E'|], (String.eqb_spec (kn_id x) id) as [E|]; rewrite ?Hg, ?Hg', ?E, ?E', ?String.eqb_refl;
    try congruence; repeat (rewrite (proj2 (String.eqb_neq _ _)) by congruence); done.
Qed.
Lemma evolves_promotion t id r ts old :
  find_row kn_id id (learning_knowledge t) = Some r → kn_state r = "QUARANTINED" →
  match old with
  | None => ∀ x, x ∈ learning_knowledge t → ¬ rival id (kn_lineage_key r) x
  | Some o => ∃ p, p ∈ learning_knowledge t ∧ kn_id p = o ∧ rival id (kn_lineage_key r) p
  end →
  learning_evolves t (superseded ts old
    (put_knowledge (update_row kn_id id (set_promoted (laplace (outcomes_of id (learning_outcomes t))) ts old)) t)).
Proof.
  intros Hf Hq Hold. destruct old as [o|]; [|by apply (evolves_promote_alone _ _ r)]. intros Hw.
  destruct Hold as (p & Hp & <- & Hl & Hs & Hne). pose proof (lw_rows t Hw) as Hrows.
  pose proof (find_row_unique kn_id _ p (lw_ids _ Hrows) Hp) as Hfp. cbn [superseded].
  rewrite (proj2 (String.eqb_neq (kn_id p) "")) by (pose proof (lw_named _ Hrows) as Hn; rewrite Forall_forall in Hn; by apply Hn).
  set (t1 := put_knowledge (update_row kn_id (kn_id p) (set_reviewed "SUPERSEDED" ts)) t).
  assert (learning_evolves t t1) as H1.
  { apply (evolves_update _ _ p); try done; [|by left]. apply set_reviewed_moves. rewrite Hs. apply str_in_iff. reflexivity. }
  assert (find_row kn_id id (learning_knowledge t1) = Some r) as Hf1.
  { unfold t1, put_knowledge. cbn [learning_knowledge]. by rewrite find_update_ne by (done || congruence). }
  assert (learning_evolves t1 (put_knowledge (update_row kn_id id (set_promoted (laplace (outcomes_of id (learning_outcomes t))) ts
    (Some (kn_id p)))) t1)) as H2.
  { apply (evolves_promote_alone _ _ r); try done. intros x Hx (Hxl & Hxs & Hxn).
    destruct (updated_row (kn_id p) p _ _ x (lw_ids _ Hrows) Hfp Hx) as [->|[Hxi Hxp]]; [done|].
    apply Hxp. apply (lw_one_promoted _ Hrows); try done. congruence. }
  unfold t1, put_knowledge in H2. cbn [learning_knowledge learning_outcomes learning_reviews] in H2.
  rewrite (update_swap id (kn_id p)) in H2 by (done || congruence). exact (transitivity H1 H2 Hw).
Qed.

(** Every write keeps the invariant, and no row leaves its lifecycle. *)
Theorem learning_write_evolves t t' : learning_write t t' → learning_evolves t t'.
Proof.
  destruct 1 as [t r ? ? ? ? ?|t id o r ? ?|t id|t id r st ts Hf Hl Hp|t v|t id r ts old ? ? ?].
  - by apply evolves_candidate.
  - by apply (evolves_outcome t id o r).
  - apply evolves_count.
  - apply (evolves_update _ _ r); [done|done|by apply set_reviewed_moves| |by left]. cbn. intros Hw Hst%Hp x Hx Hs Hlk.
    by apply (promoted_alone (learning_knowledge t) id r x); try apply Hw.
  - apply evolves_review.
  - by apply (evolves_promotion t id r).
Qed.
Lemma learning_writes_evolve t t' : rtc learning_write t t' → learning_evolves t t'.
Proof. induction 1 as [|a b c Hab _ IH]; [reflexivity|]. etrans; [by apply learning_write_evolves|done]. Qed.
Lemma empty_learning_wf : learning_wf {| learning_knowledge := []; learning_outcomes := []; learning_reviews := [] |}.
Proof.
  split; [split|..]; try constructor. cbn. intros r s Hr. by apply elem_of_nil in Hr.
Qed.
End spec.
