(* ===== verification/LearningProps.v ===== *)
(** Every operation of the learning engine refines the abstract transition system of
    LearningSpec, returning or raising; what a promotion rests on. *)

From S2P Require Import Prelude Json Sha256 Schema Storage Ledger LedgerProps Tokens TokenProps Observability Skills.
From S2P Require Import Learning LearningSpec.

Section refinement.
Context `{JsonText, Entropy} (identity : IdentityAuthority) (skills : bool).
(** uuid4 texts are never empty. *)
Context (Huuid : ∀ n, uuid_at n ≠ "").

Definition learns (d d' : DB) : Prop := rtc learning_write (db_learning d) (db_learning d').
#[export] Instance learns_preorder : PreOrder learns.
Proof. split; [intros d; apply rtc_refl|]. intros a b c. unfold learns. apply transitivity. Qed.
Abbreviation keeps_learning := (on_db learns).

Lemma learns_same d d' : db_learning d' = db_learning d → learns d d'.
Proof. unfold learns. intros ->. apply rtc_refl. Qed.
Lemma learns_once d d' : learning_write (db_learning d) (db_learning d') → learns d d'.
Proof. apply rtc_once. Qed.
Lemma audit_learns actor action mid payload now : respects keeps_learning (audit actor action mid payload now).
Proof. apply audit_frame; [typeclasses eauto|]. intros. by apply learns_same. Qed.
Hint Resolve audit_learns : respects.

(** ** The reads *)
Lemma knowledge_get_steady R `{!PreOrder R} id : respects (on_db R) (knowledge_get id).
Proof. unfold knowledge_get. io_respects. Qed.
Lemma invalid_evidence_steady R `{!PreOrder R} ids : respects (on_db R) (invalid_evidence ids).
Proof. unfold invalid_evidence, evidence_ok, verify_evidence. io_respects. Qed.
Hint Resolve knowledge_get_steady invalid_evidence_steady : respects.
Lemma correction_snapshot_steady R `{!PreOrder R} id : respects (on_db R) (correction_snapshot id).
Proof. unfold correction_snapshot. io_respects. Qed.
Lemma negative_snapshot_steady R `{!PreOrder R} id : respects (on_db R) (negative_snapshot id).
Proof. unfold negative_snapshot, evidence_ok, verify_evidence. io_respects. Qed.
Lemma resolve_steady R `{!PreOrder R} id v : respects (on_db R) (resolve_approved id v).
Proof. unfold resolve_approved, skill_get. io_respects. Qed.
Lemma learning_now_steady R `{!PreOrder R} now : respects (on_db R) (learning_now now).
Proof. unfold learning_now. auto with respects. Qed.
Lemma evidence_ok_steady R `{!PreOrder R} id : respects (on_db R) (evidence_ok id).
Proof. unfold evidence_ok, verify_evidence. io_respects. Qed.
Lemma next_version_steady R `{!PreOrder R} lk : respects (on_db R) (next_version lk).
Proof. unfold next_version. io_respects. Qed.
Hint Resolve next_version_steady correction_snapshot_steady negative_snapshot_steady resolve_steady learning_now_steady evidence_ok_steady : respects.

Lemma knowledge_record_inv r rec :
  knowledge_record r = Ok rec →
  kr_id rec = kn_id r ∧ kr_state rec = kn_state r ∧ kr_lineage_key rec = kn_lineage_key r ∧ kr_version rec = kn_version r
  ∧ kr_target_scope rec = kn_target_scope r ∧ kr_confidence rec = kn_confidence r ∧ kr_kind rec = kn_kind r.
Proof.
  unfold knowledge_record. destruct (loads (kn_content_json r)); [|done]. destruct (negb _); [done|].
  destruct (loads _); [|done]. by intros [= <-].
Qed.
Lemma knowledge_get_inv id w rec w' :
  knowledge_get id w = (Ok rec, w') → w' = w ∧ ∃ r, find_row kn_id id (learning_knowledge (w_db w)) = Some r ∧ knowledge_record r = Ok rec.
Proof.
  unfold knowledge_get. intros (row & ? & [-> ->]%query_Ok_inv & Hrun)%bind_Ok_inv.
  destruct (find_row kn_id id _) as [r|]; [|done]. apply lift_Ok_inv in Hrun as [Hr ->]. split; [done|]. by exists r.
Qed.

(** ** The writes *)
Lemma bind_assoc_run {A B C} (m : IO A) (n : A → IO B) (k : B → IO C) w : (m ≫= λ a, n a ≫= k) w = ((m ≫= n) ≫= k) w.
Proof. unfold mbind, M_bind. by destruct (m w) as [[a|e] w1]. Qed.
Lemma respects_at_assoc {A B C} R (m : IO A) (n : A → IO B) (k : B → IO C) w :
  respects_at R ((m ≫= n) ≫= k) w → respects_at R (m ≫= λ a, n a ≫= k) w.
Proof. unfold respects_at. by rewrite bind_assoc_run. Qed.

Lemma recompute_run id w :
  let rows := outcomes_of id (learning_outcomes (w_db w)) in
  ∃ w', recompute_confidence id w = (Ok (laplace rows, count_outcome "SUCCESS" rows, count_outcome "FAILURE" rows, success_systems rows), w')
    ∧ db_learning (w_db w') = recounted id (db_learning (w_db w)).
Proof. intros rows. exists (with_db (set_learning_knowledge (update_row kn_id id (set_confidence (laplace rows)))) w). by split. Qed.
Lemma recompute_learns id : respects keeps_learning (recompute_confidence id).
Proof.
  intros w. destruct (recompute_run id w) as (w' & -> & E). apply learns_once. cbn [snd]. rewrite E. apply write_count.
Qed.
Hint Resolve recompute_learns : respects.

(** An outcome and its count. *)
Lemma counted_outcome id outcome s ts w r :
  find_row kn_id id (learning_knowledge (w_db w)) = Some r →
  let '(res, w') := (append_outcome id outcome s ts ≫= λ _, recompute_confidence id) w in
  match res with
  | Ok _ => ∃ o, lo_knowledge_id o = id ∧ db_learning (w_db w') = recounted id (put_outcome o (db_learning (w_db w)))
  | Raise _ => w_db w' = w_db w
  end.
Proof.
  intros Hf. unfold append_outcome, mbind at 1, M_bind at 1. cbn [uuid4].
  unfold uuid4, mbind at 1, M_bind at 1, mbind at 1, M_bind at 1, query, gets, raise_if.
  cbn. destruct (_ || _); cbn; [done|]. eexists. split; [|reflexivity]. done.
Qed.

Lemma counted_learns id outcome s ts w r {C} (k : Q * Z * Z * Z → IO C) :
  find_row kn_id id (learning_knowledge (w_db w)) = Some r →
  (∀ c w', (∃ q, find_row kn_id id (learning_knowledge (w_db w')) = Some (set_confidence q r)) → respects_at keeps_learning (k c) w') →
  respects_at keeps_learning (append_outcome id outcome s ts ≫= λ _, recompute_confidence id ≫= k) w.
Proof.
  intros Hf Hk. apply respects_at_assoc. pose proof (counted_outcome id outcome s ts w r Hf) as Hc.
  unfold respects_at, mbind at 1, M_bind at 1. destruct ((append_outcome id outcome s ts ≫= _) w) as [[c|e] w'].
  - destruct Hc as (o & Ho & E). etrans; [|apply Hk].
    + apply learns_once. rewrite E. by apply (write_outcome _ id o r).
    + eexists. rewrite E. unfold recounted, put_knowledge, put_outcome. cbn [learning_knowledge].
      rewrite find_update_eq, Hf by done. reflexivity.
  - apply learns_same. cbn [snd]. by rewrite Hc.
Qed.

Lemma recount_learns id w {C} (k : Q * Z * Z * Z → IO C) :
  (∀ su fa sy w', let t := db_learning (w_db w) in let q := laplace (outcomes_of id (learning_outcomes t)) in
     db_learning (w_db w') = recounted id t → su = count_outcome "SUCCESS" (outcomes_of id (learning_outcomes t)) →
     fa = count_outcome "FAILURE" (outcomes_of id (learning_outcomes t)) → sy = success_systems (outcomes_of id (learning_outcomes t)) →
     respects_at keeps_learning (k (q, su, fa, sy)) w') →
  respects_at keeps_learning (recompute_confidence id ≫= k) w.
Proof.
  intros Hk. unfold respects_at, mbind, M_bind. destruct (recompute_run id w) as (w' & -> & E).
  etrans; [|by apply Hk]. apply learns_once. rewrite E. apply write_count.
Qed.
Lemma recounted_row id t r :
  find_row kn_id id (learning_knowledge t) = Some r →
  find_row kn_id id (learning_knowledge (recounted id t)) = Some (set_confidence (laplace (outcomes_of id (learning_outcomes t))) r).
Proof. intros Hf. unfold recounted, put_knowledge. cbn [learning_knowledge]. by rewrite find_update_eq, Hf. Qed.

Lemma insert_knowledge_at r w :
  kn_id r ≠ "" → kn_state r = "QUARANTINED" → kn_confidence r = 0%Q → content_intact r →
  respects_at keeps_learning (insert_knowledge r) w
  ∧ ∀ u w', insert_knowledge r w = (Ok u, w') → find_row kn_id (kn_id r) (learning_knowledge (w_db w')) = Some r.
Proof.
  intros Hne Hq Hc Hi. unfold respects_at, insert_knowledge, query. rewrite !bind_gets_run.
  destruct (row_exists kn_id (kn_id r) (learning_knowledge (w_db w))) eqn:Ee; [by split; [apply learns_same|]|].
  rewrite !bind_raise_if_run by done. destruct (existsb _ _); [by split; [apply learns_same|]|].
  rewrite !bind_raise_if_run by done. apply row_exists_false in Ee. split.
  - apply learns_once. by apply (write_candidate (db_learning (w_db w)) r).
  - intros u w' [= _ <-]. cbn [w_db with_db].
    change (find_row kn_id (kn_id r) (learning_knowledge (w_db w) ++ [r]) = Some r).
    rewrite find_row_snoc by done. by rewrite String.eqb_refl.
Qed.
Lemma candidate_intact id lk v s kind scope content si sv ts : content_intact (candidate_row id lk v s kind scope content si sv ts).
Proof.
  exists (jcanon (JObj content)). split; [apply loads_dumps|]. unfold knowledge_sha256. cbn [kn_content_sha256 candidate_row].
  by rewrite dumps_jcanon.
Qed.

Lemma create_learns tok cid lk kind content scope si sv now :
  respects keeps_learning (create_candidate identity skills tok cid lk kind content scope si sv now).
Proof.
  unfold create_candidate. apply respects_of_at. intros w. do 4 at_step. at_step. at_step. at_step.
  assert (x5 ≠ "") as Hne by (injection Hm3 as <- _; apply Huuid).
  at_step. cbv beta zeta. set (r := candidate_row _ _ _ _ _ _ _ _ _ _).
  destruct (insert_knowledge_at r w5 Hne eq_refl eq_refl (candidate_intact _ _ _ _ _ _ _ _ _ _)) as [Hi Hfound].
  apply respects_at_bind; [typeclasses eauto|exact Hi|]. intros u w6 Hf%Hfound.
  apply (counted_learns _ _ _ _ _ r); [exact Hf|]. intros c w7 _. apply respects_at_any. destruct c as [[[? ?] ?] ?]. io_respects.
Qed.
Lemma reproduction_learns tok id cid now : respects keeps_learning (add_reproduction identity tok id cid now).
Proof.
  unfold add_reproduction. apply respects_of_at. intros w. at_step. at_step. apply knowledge_get_inv in Hm0 as [-> (r & Hf & _)].
  do 4 at_step. apply (counted_learns _ _ _ _ _ r); [congruence|]. intros c w7 _. apply respects_at_any. destruct c as [[[? ?] ?] ?]. io_respects.
Qed.

(** A state recorded by a review. *)
Lemma reviewed_learns id st ts w r {C} (k : unit → IO C) :
  find_row kn_id id (learning_knowledge (w_db w)) = Some r → st ∈ later (kn_state r) → (st = "PROMOTED" → kn_state r = "PROMOTED") →
  (∀ u, respects keeps_learning (k u)) →
  respects_at keeps_learning (exec (set_learning_knowledge (update_row kn_id id (set_reviewed st ts))) ≫= k) w.
Proof.
  intros Hf Hl Hp Hk. apply respects_at_bind; [typeclasses eauto| |intros; by apply respects_at_any].
  apply learns_once. by apply (write_state (db_learning (w_db w)) id r).
Qed.
Lemma insert_review_learns v : respects keeps_learning (insert_review v).
Proof.
  unfold insert_review. apply respects_of_at. intros w. do 2 at_step. apply learns_once. apply (write_review (db_learning (w_db _))).
Qed.
Hint Resolve insert_review_learns : respects.
Lemma regressed_later failures state :
  regressed_state failures state ∈ later state ∧ (regressed_state failures state = "PROMOTED" → state = "PROMOTED").
Proof.
  unfold regressed_state. destruct (2 <=? failures)%Z; [split; [apply later_retired|done]|].
  destruct (String.eqb_spec state "PROMOTED") as [->|]; [split; [apply str_in_iff; reflexivity|done]|].
  split; [apply later_refl|done].
Qed.
Lemma reviewed_later bad failures state :
  reviewed_state bad failures state ∈ later state ∧ (reviewed_state bad failures state = "PROMOTED" → state = "PROMOTED").
Proof.
  unfold reviewed_state. destruct (bad && (2 <=? failures)%Z); [split; [apply later_retired|done]|].
  destruct bad; [|split; [apply later_refl|done]]. cbn.
  destruct (String.eqb_spec state "PROMOTED") as [->|]; [split; [apply str_in_iff; reflexivity|done]|].
  split; [apply later_refl|done].
Qed.
Lemma regression_learns tok id vid now : respects keeps_learning (record_regression identity tok id vid now).
Proof.
  unfold record_regression. apply respects_of_at. intros w. at_step. at_step. apply knowledge_get_inv in Hm0 as [-> (r & Hf & Hrec)].
  apply knowledge_record_inv in Hrec as (_ & Est & _). do 4 at_step. cbv zeta.
  apply (counted_learns _ _ _ _ _ r); [congruence|]. intros c w7 [q Hq]. destruct c as [[[cf su] fa] sy].
  destruct (regressed_later fa (kr_state x0)) as [Hl Hp]. rewrite Est in Hl, Hp.
  apply (reviewed_learns _ _ _ _ (set_confidence q r)); [exact Hq|by rewrite Est|by rewrite Est|]. intros u. io_respects.
Qed.
Lemma review_learns tok id now : respects keeps_learning (review_integrity identity tok id now).
Proof.
  unfold review_integrity. apply respects_of_at. intros w. at_step. at_step. apply knowledge_get_inv in Hm0 as [-> (r & Hf & Hrec)].
  apply knowledge_record_inv in Hrec as (_ & Est & _). do 4 at_step. cbv zeta.
  apply recount_learns. intros su fa sy w7 t q E7 _ _ _.
  set (found := match _ with [] => false | _ => true end). destruct (reviewed_later found fa (kr_state x0)) as [Hlater Hp]. rewrite Est in Hlater, Hp.
  apply (reviewed_learns _ _ _ _ (set_confidence q r)); [|by rewrite Est|by rewrite Est|intros u; io_respects].
  rewrite E7. apply recounted_row. unfold t. congruence.
Qed.
Lemma retire_learns tok id reason ev now : respects keeps_learning (retire_knowledge identity tok id reason ev now).
Proof.
  unfold retire_knowledge. apply respects_of_at. intros w. at_step. at_step. apply knowledge_get_inv in Hm0 as [-> (r & Hf & Hrec)].
  do 5 at_step. apply (reviewed_learns _ _ _ _ r); [congruence|apply later_retired|done|]. intros u. io_respects.
Qed.

(** ** Promotion *)
Definition newest_review (id : string) (t : LearningTables) : option review_row :=
  head (order_by review_newest (List.filter (λ r, lr_knowledge_id r =s id) (learning_reviews t))).
(** What the gates establish of [record] in the tables [t] they started from. *)
Record promotable_knowledge (subject : string) (record : KnowledgeRecord) (t : LearningTables) (confidence : Q) : Prop := {
  pk_state : kr_state record = "QUARANTINED";
  pk_review : ∃ v, newest_review (kr_id record) t = Some v ∧ lr_verdict v = "VALID" ∧ lr_reviewer_subject v ≠ subject;
  pk_confidence : confidence = laplace (outcomes_of (kr_id record) (learning_outcomes t));
  pk_no_failure : count_outcome "FAILURE" (outcomes_of (kr_id record) (learning_outcomes t)) = 0%Z;
  pk_threshold : ∃ q, threshold_of (kr_target_scope record) = Some q ∧ (q <= confidence)%Q;
  pk_successes : if kr_target_scope record =s "SYSTEM"
    then (1 <= count_outcome "SUCCESS" (outcomes_of (kr_id record) (learning_outcomes t)))%Z
    else (2 <= success_systems (outcomes_of (kr_id record) (learning_outcomes t)))%Z;
}.
(** The promoted knowledge it replaces. *)
Definition replaces (record : KnowledgeRecord) (confidence : Q) (old : option string) (l : list knowledge_row) : Prop :=
  match old with
  | None => ∀ x, x ∈ l → ¬ rival (kr_id record) (kr_lineage_key record) x
  | Some o => ∃ p, p ∈ l ∧ kn_id p = o ∧ rival (kr_id record) (kr_lineage_key record) p
      ∧ (kn_version p < kr_version record)%Z ∧ (kn_confidence p <= confidence)%Q
  end.
Lemma is_rival id lk r : (kn_lineage_key r =s lk) && (kn_state r =s "PROMOTED") && negb (kn_id r =s id) = true ↔ rival id lk r.
Proof. unfold rival. rewrite !andb_true_iff, negb_true_iff, !String.eqb_eq, String.eqb_neq. tauto. Qed.

Lemma promotion_gates_Ok subject record w c su sy old w' :
  promotion_gates skills subject record w = (Ok (c, su, sy, old), w') →
  db_learning (w_db w') = recounted (kr_id record) (db_learning (w_db w))
  ∧ promotable_knowledge subject record (db_learning (w_db w)) c
  ∧ replaces record c old (learning_knowledge (w_db w')).
Proof.
  unfold promotion_gates. intros (? & ? & [Hq%negb_false_iff ->]%raise_if_Ok_inv & Hrun)%bind_Ok_inv.
  apply bind_Ok_inv in Hrun as (review & ? & [-> ->]%query_Ok_inv & Hrun). fold (newest_review (kr_id record) (db_learning (w_db w))) in Hrun.
  destruct (newest_review _ _) as [v|] eqn:Ev; [|done].
  apply bind_Ok_inv in Hrun as (? & ? & [Hv%negb_false_iff ->]%raise_if_Ok_inv & Hrun).
  apply bind_Ok_inv in Hrun as (? & ? & [Hsub ->]%raise_if_Ok_inv & Hrun).
  destruct (recompute_run (kr_id record) w) as (w1 & E1 & D1). rewrite (bind_Ok _ _ _ _ _ E1) in Hrun. cbv beta iota zeta in Hrun.
  set (rows := outcomes_of (kr_id record) (learning_outcomes (w_db w))) in *.
  apply bind_Ok_inv in Hrun as (? & ? & [Hfail%negb_false_iff ->]%raise_if_Ok_inv & Hrun).
  apply bind_Ok_inv in Hrun as (q & ? & Hth & Hrun). destruct (threshold_of _) as [q'|] eqn:Et; [|done]. injection Hth as -> <-.
  apply bind_Ok_inv in Hrun as (? & ? & [Hc ->]%raise_if_Ok_inv & Hrun). apply qlt_false in Hc.
  apply bind_Ok_inv in Hrun as (? & w2 & Hs & Hrun).
  assert (w2 = w1 ∧ if kr_target_scope record =s "SYSTEM" then (1 <= count_outcome "SUCCESS" rows)%Z else (2 <= success_systems rows)%Z) as [-> Hsu].
  { destruct (_ =s "SYSTEM"); apply raise_if_Ok_inv in Hs as [Hs ->]; (split; [done|]); [by apply Z.ltb_ge in Hs|].
    apply orb_false_iff in Hs as [_ Hs]. by apply Z.ltb_ge in Hs. }
  apply bind_Ok_inv in Hrun as (row & ? & [-> ->]%query_Ok_inv & Hrun). apply bind_Ok_inv in Hrun as (? & w3 & Hskill & Hrun).
  assert (w_db w3 = w_db w1) as D3.
  { destruct (_ =s "skill"); [|by injection Hskill as _ <-].
    apply bind_Ok_inv in Hskill as (? & ? & [_ ->]%raise_if_Ok_inv & Hskill).
    apply bind_Ok_inv in Hskill as (sk & ? & Hres & [_ ->]%raise_if_Ok_inv). exact (steady_run _ _ _ _ (resolve_steady eq _ _) Hres). }
  apply bind_Ok_inv in Hrun as (prior & ? & [-> ->]%query_Ok_inv & Hrun).
  set (l := List.filter _ _) in Hrun.
  assert (promotable_knowledge subject record (db_learning (w_db w)) (laplace rows)) as Hpk.
  { split; [by apply String.eqb_eq in Hq| |done|by apply Z.eqb_eq in Hfail|by exists q|done].
    exists v. split_and!; [done|by apply String.eqb_eq in Hv|by apply String.eqb_neq in Hsub]. }
  assert (∀ k, k ∈ l ↔ k ∈ learning_knowledge (w_db w3) ∧ rival (kr_id record) (kr_lineage_key record) k) as Hl.
  { intros k. unfold l. rewrite list_elem_of_In, filter_In, is_rival, <- list_elem_of_In. done. }
  destruct (head (order_by version_highest l)) as [p|] eqn:Eh.
  - apply bind_Ok_inv in Hrun as (prec & ? & [Hprec ->]%lift_Ok_inv & Hrun).
    apply bind_Ok_inv in Hrun as (? & ? & [Hver%Z.leb_gt ->]%raise_if_Ok_inv & Hrun).
    apply bind_Ok_inv in Hrun as (? & ? & [Hcf%qlt_false ->]%raise_if_Ok_inv & [= <- <- <- <- <-]). rewrite D3.
    split_and!; [done|done|]. apply knowledge_record_inv in Hprec as (-> & _ & _ & Ev' & _ & Ecf & _). rewrite Ev', Ecf in *.
    assert (p ∈ l) as Hp.
    { rewrite <- (order_by_perm version_highest l). destruct (order_by _ _); [done|]. injection Eh as ->. by left. }
    apply Hl in Hp as [Hp Hr]. rewrite D3 in Hp. by exists p.
  - injection Hrun as <- <- <- <- <-. rewrite D3. split_and!; [done|done|]. intros k Hk Hr.
    apply order_by_head_None in Eh. assert (k ∈ l) as Hin by (apply Hl; by rewrite D3). rewrite Eh in Hin. by apply elem_of_nil in Hin.
Qed.
Lemma promotion_gates_learns subject record : respects keeps_learning (promotion_gates skills subject record).
Proof. unfold promotion_gates. io_respects. Qed.

(** The two statements of a promotion. *)
Definition promotion_writes (id : string) (c ts : Q) (old : option string) : IO unit :=
  _ ← exec (set_learning_knowledge (update_row kn_id id (set_promoted c ts old)));
  match old with
  | None => mret tt
  | Some o => if o =s "" then mret tt else exec (set_learning_knowledge (update_row kn_id o (set_reviewed "SUPERSEDED" ts)))
  end.
Lemma promotion_writes_run id c ts old w :
  ∃ w', promotion_writes id c ts old w = (Ok tt, w')
    ∧ db_learning (w_db w') = superseded ts old (put_knowledge (update_row kn_id id (set_promoted c ts old)) (db_learning (w_db w))).
Proof. unfold promotion_writes, superseded. destruct old as [o|]; [destruct (o =s "")|]; (eexists; split; reflexivity). Qed.
Lemma promote_learns tok id now : respects keeps_learning (promote_knowledge identity skills tok id now).
Proof.
  unfold promote_knowledge. apply respects_of_at. intros w. at_step. at_step. apply knowledge_get_inv in Hm0 as [-> (r & Hf & Hrec)].
  pose proof Hrec as (Eid & Est & Elk & _)%knowledge_record_inv. apply find_row_Some in Hf as Hin. destruct Hin as [_ Ekid].
  apply respects_at_bind; [typeclasses eauto|apply promotion_gates_learns|]. intros [[[c su] sy] old] w1 Hg.
  apply promotion_gates_Ok in Hg as (D1 & Hpk & Hold). at_step.
  apply (respects_at_assoc _ _ (λ _, match old with None => mret tt | Some o => _ end)). fold (promotion_writes id c x1 old).
  apply respects_at_bind; [typeclasses eauto| |intros u w3 _; apply respects_at_any; io_respects].
  destruct (promotion_writes_run id c x1 old w2) as (w3 & E3 & D3). unfold respects_at. rewrite E3. apply learns_once. cbn [snd].
  rewrite D3, Hdb1, D1, (pk_confidence _ _ _ _ Hpk), Eid, Ekid. rewrite D1, Eid, Ekid in Hold.
  apply (write_promotion (recounted id (w_db w0)) id (set_confidence (laplace (outcomes_of id (learning_outcomes (w_db w0)))) r)).
  - by apply recounted_row.
  - cbn. rewrite <- Est. apply Hpk.
  - unfold replaces in Hold. rewrite Eid, Ekid, Elk in Hold. destruct old; [|done]. destruct Hold as (p & ? & ? & ? & _). by exists p.
Qed.

(** ** The operations as steps *)
Inductive learning_step (w : World) : World → Prop :=
| step_candidate tok cid lk kind content scope si sv now :
    learning_step w (snd (create_candidate identity skills tok cid lk kind content scope si sv now w))
| step_reproduction tok id cid now : learning_step w (snd (add_reproduction identity tok id cid now w))
| step_regression tok id vid now : learning_step w (snd (record_regression identity tok id vid now w))
| step_review tok id now : learning_step w (snd (review_integrity identity tok id now w))
| step_promote tok id now : learning_step w (snd (promote_knowledge identity skills tok id now w))
| step_retire tok id reason ev now : learning_step w (snd (retire_knowledge identity tok id reason ev now w))
| step_elsewhere w' : db_learning (w_db w') = db_learning (w_db w) → learning_step w w'.
Lemma learning_step_learns w w' : learning_step w w' → keeps_learning w w'.
Proof.
  destruct 1 as [| | | | | |w' E]; [apply create_learns|apply reproduction_learns|apply regression_learns|apply review_learns
    |apply promote_learns|apply retire_learns|by apply learns_same].
Qed.
Lemma learning_run_learns w w' : rtc learning_step w w' → keeps_learning w w'.
Proof. induction 1 as [|a b c Hab _ IH]; [reflexivity|]. etrans; [by apply learning_step_learns|done]. Qed.
End refinement.

Section theorems.
Context `{JsonText, Entropy}.

Definition same_learning (d d' : DB) : Prop := db_learning d' = db_learning d.
#[local] Instance same_learning_preorder : PreOrder same_learning.
Proof. split; [by intros d|]. unfold same_learning. intros a b c. congruence. Qed.
Lemma audit_same_learning actor action mid payload now : respects (on_db same_learning) (audit actor action mid payload now).
Proof. apply audit_frame; [typeclasses eauto|]. by intros. Qed.
Hint Resolve audit_same_learning knowledge_get_steady : respects.

(** C30. The learning engine keeps its promises over any history of its operations
    (candidates, reproductions, regressions, reviews, promotions and retirements, each
    returning or raising, mixed with steps that leave its tables alone): it refines the
    abstract transition system of LearningSpec.  From well-formed tables the tables stay
    well formed (unique ids, known states, content that matches its stored digest, one
    promoted version per lineage, a confidence that is Laplace's rule over the recorded
    outcomes), and knowledge only moves forward in its lifecycle with every other column
    unchanged: nothing returns to quarantine, nothing suspended, superseded or retired is
    promoted again. *)
Theorem knowledge_lifecycle identity skills w w' :
  (∀ n, uuid_at n ≠ "") → learning_wf (db_learning (w_db w)) → rtc (learning_step identity skills) w w' →
  learning_wf (db_learning (w_db w'))
  ∧ ∀ id r, find_row kn_id id (learning_knowledge (w_db w)) = Some r →
      ∃ r', find_row kn_id id (learning_knowledge (w_db w')) = Some r' ∧ knowledge_moves r r'.
Proof. intros Hu Hw Hr%learning_run_learns; [|done]. by apply learning_writes_evolve. Qed.

(** C31. Knowledge is promoted only when every gate holds: a token with knowledge:promote,
    quarantined knowledge whose stored content is intact, a newest review that is VALID
    and by another subject, no failure among its outcomes, a confidence by Laplace's rule
    at or above the threshold of its scope, for SYSTEM scope one success and for GLOBAL
    scope successes on two systems, and no promoted rival of its lineage that is as new
    or of higher confidence.  The tables then differ exactly by the promotion and the
    superseding of that rival. *)
Theorem knowledge_promotion_gated identity skills tok id now w rec w' :
  promote_knowledge identity skills tok id now w = (Ok rec, w') →
  ∃ principal w0 row record c ts old,
    ia_verify identity tok (Some "knowledge:promote") now w = (Ok principal, w0)
    ∧ find_row kn_id id (learning_knowledge (w_db w)) = Some row ∧ knowledge_record row = Ok record
    ∧ promotable_knowledge (pr_subject principal) record (db_learning (w_db w)) c
    ∧ replaces record c old (learning_knowledge (recounted id (db_learning (w_db w))))
    ∧ db_learning (w_db w') = superseded ts old
        (put_knowledge (update_row kn_id id (set_promoted c ts old)) (recounted id (db_learning (w_db w)))).
Proof.
  unfold promote_knowledge. intros (x & w0 & Hv & Hrun)%bind_Ok_inv.
  assert (w_db w0 = w_db w) as D0 by exact (steady_run _ _ _ _ (ia_verify_respects eq identity tok _ now) Hv).
  apply bind_Ok_inv in Hrun as (record & ? & [-> (r & Hf & Hrec)]%knowledge_get_inv & Hrun).
  pose proof Hrec as (Eid & _)%knowledge_record_inv. apply find_row_Some in Hf as Hin. destruct Hin as [_ Ekid].
  apply bind_Ok_inv in Hrun as ([[[c su] sy] old] & w1 & Hg & Hrun). apply promotion_gates_Ok in Hg as (D1 & Hpk & Hold).
  apply bind_Ok_inv in Hrun as (ts & w2 & Ht & Hrun). pose proof (steady_run _ _ _ _ (learning_now_steady eq now) Ht) as D2.
  rewrite (bind_assoc_run _ (λ _, match old with None => mret tt | Some o => _ end)) in Hrun. fold (promotion_writes id c ts old) in Hrun.
  destruct (promotion_writes_run id c ts old w2) as (w3 & E3 & D3). rewrite (bind_Ok _ _ _ _ _ E3) in Hrun.
  exists x, w0, r, record, c, ts, old. rewrite D0 in *. rewrite D1, Eid, Ekid in Hold. split_and!; try done.
  rewrite D2, D1, Eid, Ekid in D3. rewrite <- D3. refine (respects_run (on_db same_learning) _ _ _ _ _ Hrun). io_respects.
Qed.
End theorems.
