(* ===== verification/ExecutionProps.v ===== *)
(** A process only runs under every gate, in its task's workspace, with an allowed
    environment and bounded output; a failed change is rolled back; a worker
    completes a task only when its process succeeded. *)

From stdpp Require Import pretty.
From S2P Require Import Prelude Json Sha256 Schema Files Storage StorageProps Ledger LedgerProps Engine.
From S2P Require Import EngineProps Tokens TokenProps Policy PolicyProps Fortress Checkpoints CheckpointProps.
From S2P Require Import RemediationProps Execution.

(** ** Bounded output *)
Lemma length_append s t : String.length (s +:+ t) = String.length s + String.length t.
Proof. induction s as [|c s IH]; [done|]. simpl. by rewrite IH. Qed.
Lemma str_take_length n s : String.length (str_take n s) ≤ n.
Proof. revert s. induction n as [|n IH]; intros [|c s]; simpl; try lia. specialize (IH s). lia. Qed.
Lemma byte_drop_empty n s : byte_drop n s = "" → String.length s ≤ n.
Proof. revert s. induction n as [|n IH]; intros [|c s]; simpl; try done; try lia. intros E%IH. lia. Qed.
Lemma drop_cut_length s : String.length (drop_cut s) ≤ String.length s.
Proof. induction s as [|c s IH]; simpl; [lia|]. destruct (_ && _); simpl; lia. Qed.
Lemma decode_cut_length n s : String.length (decode_cut n s) ≤ n + 3.
Proof.
  unfold decode_cut. destruct (byte_drop n s) as [|c r] eqn:E.
  - apply byte_drop_empty in E. lia.
  - pose proof (str_take_length n s). destruct (continuation c); [|lia].
    rewrite length_append. pose proof (drop_cut_length (str_take n s)). simpl. lia.
Qed.
Lemma truncate_bounded v limit :
  (0 <= limit)%Z → (Z.of_nat (String.length (truncate v limit)) <= limit + 18)%Z.
Proof.
  intros Hl. unfold truncate. destruct (_ <=? _)%Z eqn:E; [apply Z.leb_le in E; lia|].
  rewrite !length_append. pose proof (decode_cut_length (Z.to_nat limit) v). simpl. lia.
Qed.

Lemma py_min_le a b : (py_min a b <= b)%Q.
Proof. unfold py_min. destruct (qlt b a) eqn:E; [lra|]. by apply qlt_false in E. Qed.

Section execution_props.
Context `{JsonText, Entropy}.
Context (policy : PolicyGuard) (ws_root cp_root : path) (environ : string → option string)
  (spawn : list string → path → list (string * string) → Q → IO process_end).

(** ** The environment of a process *)
Lemma sset_keys d k v e : e ∈ sset d k v → e = (k, v) ∨ e ∈ d.
Proof.
  induction d as [|[k' v'] d IH]; simpl; [intros ->%list_elem_of_singleton; by left|].
  destruct (k' =s k); rewrite !elem_of_cons; naive_solver.
Qed.
Lemma add_requested_keys manifest requested base env :
  add_requested manifest requested base = Ok env →
  ∀ e, e ∈ env → e ∈ base ∨ fst e ∈ wm_env_allowlist manifest.
Proof.
  revert base. induction requested as [|[k v] rest IH]; intros base; simpl; [intros [= ->]; by left|].
  destruct (str_in k _) eqn:Ek; [|done]. apply str_in_iff in Ek. intros Hrun e He.
  destruct (IH _ Hrun e He) as [[->|?]%sset_keys|?]; auto.
Qed.
Lemma environment_keys manifest requested env :
  environment environ manifest requested = Ok env →
  ∀ e, e ∈ env → fst e ∈ BASE_ENVIRONMENT ∨ fst e ∈ wm_env_allowlist manifest.
Proof.
  assert (∀ e, e ∈ base_environment environ → fst e ∈ BASE_ENVIRONMENT) as Hbase.
  { intros e (k & Hk & He)%list_elem_of_omap. destruct (environ k) as [v|]; [|done]. by destruct (v =s ""); [|injection He as <-]. }
  unfold environment. destruct requested as [v|]; [|intros [= <-] e He; left; by apply Hbase].
  destruct (negb (truthy v)); [intros [= <-] e He; left; by apply Hbase|]. destruct v; try done.
  intros Hrun e He. destruct (add_requested_keys _ _ _ _ Hrun e He); auto.
Qed.

(** ** The gates *)
Lemma cp_verify_world c w r w' : cp_verify cp_root c w = (r, w') → w' = w.
Proof.
  unfold cp_verify. destruct (negb _); [by intros [= _ <-]|]. rewrite bind_gets_run.
  destruct (_ !! _); [|by intros [= _ <-]]. unfold lift_result. destruct (manifest_ok _ _ _); by intros [= _ <-].
Qed.
Lemma checkpoint_verified_world cp w b w' :
  checkpoint_verified cp_root cp w = (Ok b, w') →
  w' = w ∧ (b = true → ∃ c, cp = Some c ∧ cp_verify cp_root c w = (Ok true, w)).
Proof.
  unfold checkpoint_verified. destruct cp as [c|]; [|by intros [= <- <-]]. intros Hv.
  pose proof (cp_verify_world _ _ _ _ Hv) as ->. split; [done|]. intros ->. by exists c.
Qed.

Lemma validate_command_Ok manifest argv command :
  validate_command manifest argv = Ok command →
  plain_args argv = Some command ∧ ∃ argv0, head command = Some argv0
    ∧ executable_name argv0 ∈ map executable_name (wm_allowed_executables manifest).
Proof.
  unfold validate_command. destruct (plain_args argv) as [[|argv0 rest]|]; try done.
  destruct (str_in _ _) eqn:Ein; [|done]. intros [= <-]. split; [done|]. exists argv0. by rewrite <- str_in_iff.
Qed.

Lemma lease_binding_Ok lease manifest w m w' :
  lease_binding lease manifest w = (Ok m, w') →
  w' = w ∧ l_lease_owner lease = wm_id manifest ∧ l_kind lease ∈ wm_kinds manifest
  ∧ find_row m_id (l_mission_id lease) (missions (w_db w)) = Some m ∧ m_state m ∈ ACTIVE_EXECUTION_STATES.
Proof.
  unfold lease_binding.
  intros (? & ? & [Ho%negb_false_iff%String.eqb_eq ->]%raise_if_Ok_inv & Hrun)%bind_Ok_inv.
  apply bind_Ok_inv in Hrun as (? & ? & [Hk%negb_false_iff%str_in_iff ->]%raise_if_Ok_inv & Hrun).
  apply bind_Ok_inv in Hrun as (mo & ? & [-> ->]%query_Ok_inv & Hrun). destruct (find_row _ _ _) as [m'|] eqn:Em; [|done].
  apply bind_Ok_inv in Hrun as (? & ? & [Hs%negb_false_iff%str_in_iff ->]%raise_if_Ok_inv & [= <- <-]). done.
Qed.

(** What the policy guard's permission says of a request to execute. *)
Lemma execution_permitted ok p mid scope ma sa so mc cv :
  scope ≠ "" → strip scope = scope →
  let request := [("mission_id", JStr mid); ("action", JStr "execute_task"); ("required_scope", JStr scope);
    ("mission_authorized", JBool ma); ("system_authorized", JBool sa); ("scope_ok", JBool so);
    ("material_change", JBool mc); ("checkpoint_valid", JBool cv); ("irreversible", JBool false);
    ("recovery_verified", JBool (if mc then cv else true))] in
  scope_asked request = Some scope
  ∧ (permitted (decide_verified ok p request) = true →
     ok = true ∧ has_scope p scope = true ∧ sa = true ∧ (mc = true → cv = true)).
Proof.
  intros Hne Hstrip request. assert (request_scope request = scope) as Hscope by exact Hstrip. split.
  { unfold scope_asked. rewrite Hscope. by destruct (String.eqb_spec scope ""). }
  intros [Hok [Hf Hs _ _ _ _ Hc _]]%decide_permits_iff. rewrite Hscope in Hs. split_and!; [done|by destruct Hs| |].
  - pose proof (Hf "system_authorized" ltac:(set_solver)) as Hsa. unfold is_true in Hsa. simpl in Hsa. by destruct sa.
  - revert Hc. unfold is_true. simpl. by destruct mc, cv; auto.
Qed.

(** What [_execute] established before it started the process, called in the state [w]:
    [w1] is the state the checkpoint's capture left, [w2] the one the policy guard
    left after its decision, and [w'] the one the process is started from. *)
Record execution_allowed (lease : TaskLease) (manifest : WorkerManifest) (token : string) (argv : list json)
    (scope : string) (checkpoint : option CheckpointRef) (material : bool) (now : option Z)
    (privilege : option privilege_use) (w : World) (command : list string) (ws : path) (cp : option CheckpointRef)
    (timeout : Q) (w1 w2 w' : World) : Prop := {
  xa_lease : l_lease_owner lease = wm_id manifest ∧ l_kind lease ∈ wm_kinds manifest;
  xa_mission : ∃ m, find_row m_id (l_mission_id lease) (missions (w_db w)) = Some m
    ∧ m_state m ∈ ACTIVE_EXECUTION_STATES;
  xa_command : plain_args argv = Some command ∧ ∃ argv0, head command = Some argv0
    ∧ executable_name argv0 ∈ map executable_name (wm_allowed_executables manifest);
  xa_workspace : for_task ws_root (l_mission_id lease) (l_id lease) w = (Ok ws, w);
  xa_capture : match checkpoint with
    | Some c => cp = Some c ∧ w1 = w
    | None => if material
              then ∃ c, cp = Some c
                     ∧ cp_create ws_root cp_root ws (l_mission_id lease) (l_id lease) None w = (Ok c, w1)
              else cp = None ∧ w1 = w
    end;
  xa_checkpoint : material = true → ∃ c, cp = Some c ∧ cp_verify cp_root c w1 = (Ok true, w1);
  xa_policy : ∃ request d, execution_request cp_root lease manifest scope material cp w1 = (Ok request, w1)
    ∧ evaluate_token policy token request now w1 = (Ok d, w2) ∧ permitted d = true;
  xa_identity : ∃ p wv, ia_verify (pg_identity policy) token (Some scope) now w1 = (Ok p, wv) ∧ has_scope p scope = true;
  xa_constitution :
    constitution_ok (w_files w1) (pg_constitution_path policy) (pg_expected_constitution_sha256 policy) = true;
  xa_privilege : match privilege with
    | None => w' = w2
    | Some u => wm_authority manifest = "privileged-ephemeral" ∧ ∃ c g, cp = Some c ∧ cp_verify cp_root c w2 = (Ok true, w2)
        ∧ privilege_consume (pu_secret u) (pu_issuer u) (pu_grant_token u) (l_mission_id lease) (l_id lease)
            (wm_id manifest) (pu_action u) (cr_id c) now w2 = (Ok g, w')
        ∧ row_exists u_id g (used_privilege_grants (w_db w)) = false
        ∧ row_exists u_id g (used_privilege_grants (w_db w')) = true
    end;
  xa_files : w_files w' = w_files w1;
  xa_deadline : (0 < timeout)%Q ∧ (timeout <= wm_max_runtime_seconds manifest)%Q;
}.

Lemma files_privilege_consume s i tok m t wk a c now : respects same_files (privilege_consume s i tok m t wk a c now).
Proof.
  assert (∀ now, respects same_files (int_now now)) by (by intros [?|] ?).
  unfold privilege_consume. repeat (cbn beta iota zeta; first [respects_step | apply files_transaction]).
Qed.

(** A grant that was consumed had not been used before, and is now. *)
Lemma row_unused_prefix {R} (key : R → string) k l l' :
  l `prefix_of` l' → row_exists key k l' = false → row_exists key k l = false.
Proof. intros Hp Hn. apply not_true_iff_false. intros E. by rewrite (row_exists_prefix key k l l' Hp E) in Hn. Qed.
Lemma consume_spends s i tok m t wk a c now w0 w g w' :
  used_ext (w_db w0) (w_db w) → privilege_consume s i tok m t wk a c now w = (Ok g, w') →
  row_exists u_id g (used_privilege_grants (w_db w0)) = false
  ∧ row_exists u_id g (used_privilege_grants (w_db w')) = true.
Proof.
  intros [Hp _] (v & _ & _ & Hn & [Hu _])%privilege_consume_Ok_inv. split; [by eapply row_unused_prefix|].
  eapply row_exists_prefix; [exact Hu|]. simpl. exact (row_exists_snoc u_id {| u_id := g; u_used_at := _ |} _).
Qed.
Lemma create_used_ext ws mid tid now : respects (on_db used_ext) (cp_create ws_root cp_root ws mid tid now).
Proof.
  assert (∀ actor action mid payload now, respects (on_db used_ext) (audit actor action mid payload now)).
  { intros. apply audit_frame; [typeclasses eauto|]. intros e ts d. by apply used_ext_frame. }
  unfold cp_create. io_respects.
Qed.

Lemma execution_request_Ok lease manifest scope material cp w request w' :
  execution_request cp_root lease manifest scope material cp w = (Ok request, w') →
  w' = w ∧ ∃ ma sa so cv, (cv = true → ∃ c, cp = Some c ∧ cp_verify cp_root c w = (Ok true, w))
    ∧ request = [("mission_id", JStr (l_mission_id lease)); ("action", JStr "execute_task"); ("required_scope", JStr scope);
        ("mission_authorized", JBool ma); ("system_authorized", JBool sa); ("scope_ok", JBool so);
        ("material_change", JBool material); ("checkpoint_valid", JBool cv); ("irreversible", JBool false);
        ("recovery_verified", JBool (if material then cv else true))].
Proof.
  unfold execution_request. intros (mo & ? & [-> ->]%query_Ok_inv & Hreq)%bind_Ok_inv.
  apply bind_Ok_inv in Hreq as (cv & ? & [-> Hcv]%checkpoint_verified_world & [= <- <-]).
  split; [done|]. by eexists _, _, _, cv.
Qed.

(** The capture of the checkpoint, and the use of the grant. *)
Lemma capture_Ok checkpoint material ws mid tid w cp w1 :
  (match checkpoint with
   | None => if material : bool then c ← cp_create ws_root cp_root ws mid tid None; mret (Some c) else mret None
   | Some c => mret (Some c)
   end) w = (Ok cp, w1) →
  match checkpoint with
  | Some c => cp = Some c ∧ w1 = w
  | None => if material then ∃ c, cp = Some c ∧ cp_create ws_root cp_root ws mid tid None w = (Ok c, w1)
            else cp = None ∧ w1 = w
  end ∧ used_ext (w_db w) (w_db w1).
Proof.
  destruct checkpoint as [c|]; [by intros [= <- <-]|]. destruct material; [|by intros [= <- <-]].
  intros (c & w6 & Hc & [= <- <-])%bind_Ok_inv. split; [by exists c|].
  exact (respects_run _ _ _ _ _ (create_used_ext _ _ _ _) Hc).
Qed.
Lemma privilege_Ok u manifest mid tid wid cp now w0 w g w' :
  used_ext (w_db w0) (w_db w) →
  (_ ← raise_if (negb (wm_authority manifest =s "privileged-ephemeral")) AuthorizationError
         "worker manifest has no privileged authority";
   verified ← checkpoint_verified cp_root cp;
   match cp, verified with
   | Some c, true => privilege_consume (pu_secret u) (pu_issuer u) (pu_grant_token u) mid tid wid (pu_action u) (cr_id c) now
   | _, _ => throw AuthorizationError "privileged execution requires verified checkpoint"
   end) w = (Ok g, w') →
  w_files w' = w_files w ∧ wm_authority manifest = "privileged-ephemeral"
  ∧ ∃ c, cp = Some c ∧ cp_verify cp_root c w = (Ok true, w)
      ∧ privilege_consume (pu_secret u) (pu_issuer u) (pu_grant_token u) mid tid wid (pu_action u) (cr_id c) now w = (Ok g, w')
      ∧ row_exists u_id g (used_privilege_grants (w_db w0)) = false
      ∧ row_exists u_id g (used_privilege_grants (w_db w')) = true.
Proof.
  intros Hused (? & ? & [Hau%negb_false_iff%String.eqb_eq ->]%raise_if_Ok_inv & Hrun)%bind_Ok_inv.
  apply bind_Ok_inv in Hrun as (v & ? & [-> Hver]%checkpoint_verified_world & Hrun).
  destruct cp as [c|]; [|done]. destruct v; [|done]. destruct (Hver eq_refl) as (c' & [= <-] & Hver').
  split_and!; [exact (respects_run same_files _ _ _ _ (files_privilege_consume _ _ _ _ _ _ _ _ _) Hrun)|done|].
  exists c. destruct (consume_spends _ _ _ _ _ _ _ _ _ _ _ _ _ Hused Hrun). done.
Qed.

Lemma authorize_execution_Ok lease manifest token argv scope checkpoint material tmo now privilege w command ws cp d timeout w' :
  scope ∈ ["execute:safe"; "execute:privileged"] →
  authorize_execution policy ws_root cp_root lease manifest token argv scope checkpoint material tmo now privilege w
    = (Ok (command, ws, cp, d, timeout), w') →
  ∃ w1 w2, execution_allowed lease manifest token argv scope checkpoint material now privilege w command ws cp timeout w1 w2 w'.
Proof.
  intros Hscope Hrun. assert (scope ≠ "" ∧ strip scope = scope) as [Hne Hstrip].
  { repeat (apply elem_of_cons in Hscope as [->|Hscope]; [done|]). by apply elem_of_nil in Hscope. }
  unfold authorize_execution in Hrun.
  apply bind_Ok_inv in Hrun as (m & ? & (-> & Ho & Hk & Hm & Hst)%lease_binding_Ok & Hrun).
  apply bind_Ok_inv in Hrun as (cmd & ? & [Hcmd%validate_command_Ok ->]%lift_Ok_inv & Hrun).
  apply bind_Ok_inv in Hrun as (ws' & w0 & Hws & Hrun). pose proof (for_task_inv _ _ _ _ _ _ Hws) as [-> _].
  apply bind_Ok_inv in Hrun as (cp' & w1 & Hcp & Hrun).
  apply capture_Ok in Hcp as [Hcapture Hused1].
  apply bind_Ok_inv in Hrun as (request & wr & Hreq & Hrun).
  pose proof (execution_request_Ok _ _ _ _ _ _ _ _ Hreq) as (-> & ma & sa & so & cv & Hcv & Er).
  apply bind_Ok_inv in Hrun as (d' & w2 & Hd & Hrun).
  pose proof (respects_run _ _ _ _ _ (files_evaluate_token _ _ _ _) Hd) as F2.
  apply bind_Ok_inv in Hrun as (? & ? & [Hperm%negb_false_iff ->]%raise_if_Ok_inv & Hrun).
  pose proof (evaluate_token_run _ _ _ _ _ _ _ Hd) as (? & ? & _ & _ & _ & Hau & [[? _]|(pg & wv & Hv & _ & Ed)]); [congruence|].
  pose proof Hperm as Hallow. rewrite Ed, Er in Hallow. rewrite Er in Hv.
  edestruct (execution_permitted) as [Hasked Hallowed]; [exact Hne|exact Hstrip|].
  rewrite Hasked in Hv. apply Hallowed in Hallow as (Hcon & Hsc & _ & Hmc). clear Hasked Hallowed.
  assert (used_ext (w_db w) (w_db w2)) as Hused2 by (etrans; [exact Hused1|by apply used_ext_frame]).
  apply bind_Ok_inv in Hrun as (g & w4 & Hpriv & Hrun).
  apply bind_Ok_inv in Hrun as (asked & w5 & Hasked & Hrun).
  assert (w5 = w4) as ->. { destruct (default _ _); first [by injection Hasked as _ <- | by apply lift_Ok_inv in Hasked as [_ ->]]. }
  apply bind_Ok_inv in Hrun as (? & ? & [Hpos%qle_false ->]%raise_if_Ok_inv & Hrun). injection Hrun as <- <- <- <- <- <-.
  exists w1, w2. unfold same_files in F2. destruct privilege as [u|];
    [apply (privilege_Ok u _ _ _ _ _ _ w) in Hpriv as (F4 & Hau' & c & Hpriv); [|done]|injection Hpriv as _ <-].
  all: split; try done; try congruence.
  all: try solve [by exists m | intros ->; by apply Hcv, Hmc | by exists request, d' | by exists pg, wv
                 | split; [done|]; first [apply py_min_le | by exists c, g]].
Qed.

(** C25. No process without every gate: when an execution returns, the worker owns the
    lease and its kind, the stored mission is active, the arguments are plain texts
    whose program name is on the worker's list, a material change has a checkpoint that
    verified, in that state the token verified for the scope under an intact
    constitution and the guard permitted; privileged work then consumed a grant for
    exactly this mission, task, worker, action and checkpoint, which had not been used
    before the execution and is recorded as used when the process starts; and from
    that state the process was started with exactly those arguments, in the task's
    workspace, under a positive deadline within the worker's limit, with the environment
    [_environment] builds, no variable of which is outside the base and the worker's
    list; the recorded output is bounded. *)
Theorem execution_gated lease manifest token argv scope checkpoint material tmo env now privilege w r w'
    (Hscope : scope ∈ ["execute:safe"; "execute:privileged"]) (Hlimit : (0 <= wm_max_output_bytes manifest)%Z)
    (Hrun : execute policy ws_root cp_root environ spawn lease manifest token argv scope checkpoint material tmo env now
              privilege w = (Ok r, w')) :
  ∃ command ws cp timeout w1 w2 w3 env' ended w4,
    execution_allowed lease manifest token argv scope checkpoint material now privilege w command ws cp timeout w1 w2 w3
    ∧ environment environ manifest env = Ok env'
    ∧ (∀ e, e ∈ env' → fst e ∈ BASE_ENVIRONMENT ∨ fst e ∈ wm_env_allowlist manifest)
    ∧ spawn command ws env' timeout (tick w3) = (Ok ended, w4)
    ∧ xr_returncode r = match ended with Completed rc _ _ => rc | TimeoutExpired _ _ => 124%Z end
    ∧ (Z.of_nat (String.length (xr_stdout r)) <= wm_max_output_bytes manifest + 18)%Z
    ∧ (Z.of_nat (String.length (xr_stderr r)) <= wm_max_output_bytes manifest + 18)%Z.
Proof.
  unfold execute in Hrun. apply bind_Ok_inv in Hrun as ([[[[command ws] cp] d] timeout] & w0 & Hgate & Hrun).
  apply authorize_execution_Ok in Hgate as (wc & wp & Hgate); [|done].
  apply bind_Ok_inv in Hrun as (started & w1 & [= _ <-] & Hrun).
  apply bind_Ok_inv in Hrun as ([[rc out] err] & w3 & Hproc & Hrun).
  unfold run_process in Hproc. apply bind_Ok_inv in Hproc as (env' & ? & [Henv ->]%lift_Ok_inv & Hproc).
  apply bind_Ok_inv in Hproc as (ended & w2 & Hsp & Hproc).
  apply bind_Ok_inv in Hrun as (rb & w4 & _ & Hrun). apply bind_Ok_inv in Hrun as (fin & w5 & _ & Hrun).
  apply bind_Ok_inv in Hrun as (? & w6 & _ & [= <- <-]). cbn.
  exists command, ws, cp, timeout, wc, wp, w0, env', ended, w2.
  assert (rc = (match ended with Completed rc _ _ => rc | TimeoutExpired _ _ => 124%Z end)
    ∧ (∃ v, out = truncate v (wm_max_output_bytes manifest)) ∧ ∃ v, err = truncate v (wm_max_output_bytes manifest))
    as (-> & [o ->] & [e ->]).
  { destruct ended; [injection Hproc as <- <- <- _; naive_solver|].
    apply bind_Ok_inv in Hproc as (o & ? & _ & Hproc). apply bind_Ok_inv in Hproc as (e & ? & _ & [= <- <- <- _]). naive_solver. }
  split_and!; try done; [by eapply environment_keys|by apply truncate_bounded..].
Qed.



(** ** The worker *)
Context (grant_secret grant_issuer : string) (grant_identities : IdentityAuthority).
Abbreviation leased lease manifest token auth now :=
  (run_leased policy ws_root cp_root environ spawn grant_secret grant_issuer grant_identities lease manifest token auth now).
Abbreviation turn manifest token auth now mid :=
  (worker_run_once policy ws_root cp_root environ spawn grant_secret grant_issuer grant_identities manifest token auth now mid).

Lemma engine_complete_Ok lease now w u w' :
  engine_complete_task lease now w = (Ok u, w') →
  ∃ r, find_row t_id (l_id lease) (tasks (w_db w')) = Some r ∧ t_state r = "COMPLETED".
Proof.
  unfold engine_complete_task. intros (? & w1 & (r & Hr & Hs)%finish_running_Ok & Hrun)%bind_Ok_inv.
  apply bind_Ok_inv in Hrun as (? & w2 & (e & ts & D & _)%audit_Ok_run & [= _ <-]). exists r. by rewrite D.
Qed.
Lemma engine_block_Ok lease reason now w u w' :
  engine_block_task lease reason now w = (Ok u, w') →
  ∃ r, find_row t_id (l_id lease) (tasks (w_db w')) = Some r ∧ t_state r = "BLOCKED".
Proof.
  unfold engine_block_task. intros (? & w1 & (r & Hr & Hs)%finish_running_Ok & Hrun)%bind_Ok_inv.
  apply bind_Ok_inv in Hrun as (? & w2 & (e & ts & D & _)%audit_Ok_run & [= _ <-]). exists r. by rewrite D.
Qed.
Lemma engine_fail_Ok lease err delay now w st w' :
  engine_fail_task lease err delay now w = (Ok st, w') →
  (st = "QUEUED" ∨ st = "FAILED") ∧ ∃ r, find_row t_id (l_id lease) (tasks (w_db w')) = Some r ∧ t_state r = st.
Proof.
  unfold engine_fail_task. intros (? & w1 & (Hst & r & Hr & Hs)%fail_task_Ok & Hrun)%bind_Ok_inv.
  apply bind_Ok_inv in Hrun as (? & w2 & (e & ts & D & _)%audit_Ok_run & [= <- <-]). split; [done|]. exists r. by rewrite D.
Qed.

(** What a worker reports about the task it took. *)
Definition reported (res : result ExecutionResult) (o : WorkerOutcome) : Prop :=
  match res with
  | Ok r => if (xr_returncode r =? 0)%Z then wo_state o = "COMPLETED" ∧ wo_returncode o = Some 0%Z
            else wo_state o ∈ ["QUEUED"; "FAILED"] ∧ wo_returncode o = Some (xr_returncode r)
                 ∧ wo_rolled_back o = xr_rolled_back r
  | Raise e => (exn_cls e ∈ [AuthorizationError; PrivilegeError] ∧ wo_state o = "BLOCKED"
                ∨ exn_cls e = ExecutionError ∧ wo_state o ∈ ["QUEUED"; "FAILED"])
               ∧ wo_returncode o = None ∧ wo_detail o = exn_msg e
  end.

(** C27. A worker's report is what happened: a turn that returns either found no task, or
    ran the task it claimed once; the stored task is in the state it reports, which
    is COMPLETED exactly when the process exited with 0, BLOCKED exactly when an
    authorisation or privilege was refused, and otherwise requeued or FAILED. *)
Theorem worker_reports_truth manifest token auth now mid w o w'
    (Hrun : turn manifest token auth now mid w = (Ok o, w')) :
  (wo_task_id o = None ∧ wo_state o = "IDLE")
  ∨ ∃ lease w1 res w2 row,
      engine_claim_next (wm_id manifest) 30 (float_now now) mid w = (Ok (Some lease), w1)
      ∧ leased lease manifest token auth now w1 = (res, w2) ∧ wo_task_id o = Some (l_id lease) ∧ reported res o
      ∧ find_row t_id (l_id lease) (tasks (w_db w')) = Some row ∧ t_state row = wo_state o.
Proof.
  unfold worker_run_once in Hrun. apply bind_Ok_inv in Hrun as (lo & w1 & Hc & Hrun).
  destruct lo as [lease|]; [right|by injection Hrun as <- _; left].
  apply bind_Ok_inv in Hrun as (res & w2 & Hres & Hrun). unfold attempt in Hres.
  destruct (leased lease manifest token auth now w1) as [res' w2'] eqn:Hl. injection Hres as -> ->.
  destruct res as [r|e].
  - destruct (xr_returncode r =? 0)%Z eqn:Erc.
    + apply bind_Ok_inv in Hrun as (? & w3 & (row & Hr & Hs)%engine_complete_Ok & [= <- <-]).
      exists lease, w1, (Ok r), w2, row. cbn. rewrite Erc. done.
    + apply bind_Ok_inv in Hrun as (st & w3 & (Hst & row & Hr & Hs)%engine_fail_Ok & [= <- <-]).
      exists lease, w1, (Ok r), w2, row. cbn. rewrite Erc. split_and!; try done. set_solver.
  - destruct (exn_cls e) eqn:Ec; try done.
    all: apply bind_Ok_inv in Hrun as (st & w3 & Hrep & [= <- <-]).
    all: first [apply engine_block_Ok in Hrep as (row & Hr & Hs) | apply engine_fail_Ok in Hrep as (Hst & row & Hr & Hs)].
    all: exists lease, w1, (Raise e), w2, row; cbn; rewrite Ec; split_and!; try done; set_solver.
Qed.

(** Reports only fail on the lease or on the ledger. *)
Definition report_error (c : exn_class) : Prop := c = StateError ∨ c = IntegrityError.
Lemma raises_transaction {A} P (m : IO A) : raises P m → raises P (transaction m).
Proof.
  intros Hm w e w'. unfold transaction. destruct (m w) as [[a|e1] w1] eqn:E; [done|]. intros [= <- _]. exact (Hm _ _ _ E).
Qed.
Lemma raises_now (P : exn_class → Prop) now : raises P (now_or_time now).
Proof. by destruct now. Qed.
Lemma audit_raises actor action mid payload now : raises report_error (audit actor action mid payload now).
Proof. intros w e w' [_ He]%audit_outcome. right. by apply He. Qed.
Lemma finish_running_raises id worker st reason now : raises report_error (finish_running id worker st reason now).
Proof.
  assert (report_error StateError) by by left. pose proof (raises_now report_error). unfold finish_running, query, exec.
  repeat (cbn beta iota zeta; first [raises_step | apply raises_transaction]).
Qed.
Lemma fail_task_raises id worker err delay now : raises report_error (fail_task id worker err delay now).
Proof.
  assert (report_error StateError) by by left. pose proof (raises_now report_error). unfold fail_task, query, exec.
  repeat (cbn beta iota zeta; first [raises_step | apply raises_transaction]).
Qed.
Hint Resolve audit_raises finish_running_raises fail_task_raises : raises.
Ltac by_raises Hrun :=
  match type of Hrun with ?m _ = _ =>
    refine ((_ : raises report_error m) _ _ _ Hrun);
    unfold engine_complete_task, engine_block_task, engine_fail_task, complete_task, block_task; solve_raises
  end.

(** Running a leased task does not touch missions, tasks or the transition log, if the
    process does not: it respects every relation that only looks at them. *)
Lemma run_leased_frame (R : relation DB) `{!PreOrder R} lease manifest token auth now :
  (∀ d d', db_store d' = db_store d → R d d') →
  (∀ command cwd env timeout, respects (on_db R) (spawn command cwd env timeout)) →
  respects (on_db R) (leased lease manifest token auth now).
Proof.
  intros HR Hspawn.
  assert (∀ actor action mid payload now, respects (on_db R) (audit actor action mid payload now)).
  { intros. apply audit_frame; [typeclasses eauto|]. intros. by apply HR. }
  assert (∀ f, (∀ d, db_store (f d) = db_store d) → respects (on_db R) (exec f)).
  { intros f Hf. apply respects_exec. intros d. by apply HR. }
  unfold run_leased, run_safe, run_privileged, execute, authorize_execution, run_process, lease_binding, execution_request,
    checkpoint_verified, evaluate_token, evaluate_verified, policy_record, get_mission, for_task, safe_component, cp_create,
    cp_restore, cp_verify, privilege_consume, privilege_issue, wrap_identity.
  repeat (cbn beta iota zeta; first [match goal with |- respects _ (exec _) => solve [auto] end | io_respects_step]).
Qed.

Definition same_tasks (d d' : DB) : Prop := tasks d' = tasks d.
#[export] Instance same_tasks_preorder : PreOrder same_tasks.
Proof. split; [done|]. intros a b c E1 E2. unfold same_tasks in *. congruence. Qed.
Lemma run_leased_tasks lease manifest token auth now :
  (∀ command cwd env timeout, respects (on_db same_tasks) (spawn command cwd env timeout)) →
  respects (on_db same_tasks) (leased lease manifest token auth now).
Proof. apply run_leased_frame; [typeclasses eauto|]. intros d d' E. unfold same_tasks. by rewrite E. Qed.

(** A process that cannot be started strands its task: when a turn ends in an
    operating-system error (such as [spawn] finding no such program), with a process
    that does not write the queue itself, the turn raises it and the task it claimed
    stays RUNNING under the worker's lease: it is neither failed nor blocked, and its
    attempt limit is not looked at. *)
Theorem start_failure_strands_task manifest token auth now mid w lease w1 e w'
    (Hspawn : ∀ command cwd env timeout w0,
       tasks (w_db (snd (spawn command cwd env timeout w0))) = tasks (w_db w0))
    (Hclaim : engine_claim_next (wm_id manifest) 30 (float_now now) mid w = (Ok (Some lease), w1))
    (Hrun : turn manifest token auth now mid w = (Raise e, w')) (Hos : exn_cls e = OSError) :
  (∃ w2, leased lease manifest token auth now w1 = (Raise e, w2))
  ∧ ∃ row, find_row t_id (l_id lease) (tasks (w_db w')) = Some row ∧ t_state row = "RUNNING"
      ∧ t_lease_owner row = Some (wm_id manifest).
Proof.
  unfold worker_run_once in Hrun. rewrite (bind_Ok _ _ _ _ _ Hclaim) in Hrun.
  destruct (leased lease manifest token auth now w1) as [res w2] eqn:Hl.
  rewrite (bind_Ok _ _ w1 res w2) in Hrun by (unfold attempt; by rewrite Hl).
  assert (report_error (exn_cls e) → False) as Hno by (rewrite Hos; by intros [|]).
  pose proof (respects_run _ _ _ _ _ (run_leased_tasks lease manifest token auth now Hspawn) Hl) as Ht.
  apply engine_claim_leased in Hclaim as (row & Hrow & Hst & Hown).
  destruct res as [r|e'].
  - destruct Hno. destruct (_ =? 0)%Z; by_raises Hrun.
  - destruct (exn_cls e') eqn:Ec.
    all: try (injection Hrun as <- <-; split; [by exists w2|]; exists row; by rewrite Ht).
    all: destruct Hno; by_raises Hrun.
Qed.
End execution_props.
