(* ===== verification/Autonomy.v ===== *)
(** immune_core/autonomy.py: the registry of internal agents and the maintenance
    cycle, in which a provider proposes, the policy guard authorises, workers execute
    and what was learned is promoted only on proof.  The worker runner is an argument
    ([WorkerRunner] of immune_core/workers.py), as in the source; the update agent is
    in Updates. *)

From stdpp Require Import pretty.
From S2P Require Import Prelude Json Schema Storage Ledger Engine Tokens Policy Memory Providers Cognition Execution.

(** ** Internal agents *)
Record InternalAgentSpec := {
  ag_id : string; ag_purpose : string; ag_uses_cognitive_provider : bool; ag_can_authorize : bool;
  ag_can_execute : bool; ag_provider_scope : option string;
}.
Definition agent (id purpose : string) (uses_cognitive_provider can_authorize can_execute : bool)
    (provider_scope : option string) : InternalAgentSpec :=
  {| ag_id := id; ag_purpose := purpose; ag_uses_cognitive_provider := uses_cognitive_provider;
     ag_can_authorize := can_authorize; ag_can_execute := can_execute; ag_provider_scope := provider_scope |}.
Definition DEFAULT_AGENTS : list InternalAgentSpec :=
  [agent "observer" "collect and normalize health evidence" false false false None;
   agent "diagnostician" "form and discriminate causal hypotheses" true false false (Some "immune-core");
   agent "researcher" "research unknown technology and candidate repairs" true false false (Some "immune-core");
   agent "repair-planner" "propose bounded reversible repair tasks" true false false (Some "immune-core");
   agent "policy-guardian" "evaluate authority, cost, reversibility and safety" false true false None;
   agent "executor" "execute only policy-approved task leases" false false true None;
   agent "validator" "verify recovery, regression and acceptance evidence" false false false None;
   agent "recovery" "restore checkpoints and contain failed changes" false false true None;
   agent "learner" "promote only independently validated reusable knowledge" false false false None;
   agent "updater" "activate verified releases and roll back failed health checks" false false true None].

(** [InternalAgentRegistry.__init__]; [agents or self.DEFAULTS] *)
Definition agent_registry (agents : list InternalAgentSpec) : result (list InternalAgentSpec) :=
  let values := match agents with [] => DEFAULT_AGENTS | _ => agents end in
  if negb (bool_decide (NoDup (map ag_id values))) then Raise (Exn ValueError "internal agent ids must be unique")
  else if existsb (λ a, ag_uses_cognitive_provider a && negb (opt_eqs (ag_provider_scope a) "immune-core")) values
  then Raise (Exn ValueError "cognitive agents must use immune-core-exclusive provider scope")
  else Ok values.
Definition agent_get (registry : list InternalAgentSpec) (agent_id : string) : result InternalAgentSpec :=
  match find_row ag_id agent_id registry with
  | Some a => Ok a
  | None => Raise (Exn AutonomyError ("internal agent not registered: " +:+ agent_id))
  end.
Definition agents_view (registry : list InternalAgentSpec) : list dict :=
  map (λ a, [("id", JStr (ag_id a)); ("purpose", JStr (ag_purpose a));
             ("uses_cognitive_provider", JBool (ag_uses_cognitive_provider a)); ("can_authorize", JBool (ag_can_authorize a));
             ("can_execute", JBool (ag_can_execute a)); ("provider_scope", jopt_str (ag_provider_scope a))]) registry.

(** ** The maintenance controller *)
Definition ACTIVE_MISSION_STATES : list string := ["AUTHORIZED"; "DISCOVERING"; "RUNNING"; "DEGRADED"; "VALIDATING"].

Record WorkerBinding := {
  wb_manifest : WorkerManifest; wb_worker_token : string; wb_privilege_authorizer_token : option string;
}.
Record AutonomyCycleResult := {
  cy_mission_id : string; cy_state : string; cy_provider_id : string; cy_proposal_degraded : bool;
  cy_queued_task_ids : list string; cy_rejected : list (nat * string); cy_worker_outcomes : list WorkerOutcome;
  cy_learning_memory_id : option string; cy_learning_promoted : bool; cy_evidence_id : string;
  cy_started_at : Q; cy_completed_at : Q;
}.

(** The core-side contract: [run_once(manifest, worker_token, privilege_authorizer_token, now, mission_id)]. *)
Definition WorkerRunner : Type :=
  WorkerManifest → string → option string → option Z → option string → IO WorkerOutcome.

(** [_next_queued_task]: the key [(-priority, created_at, id)] *)
Definition queued_leb (r s : task_row) : bool :=
  (t_priority s <? t_priority r)%Z
  || ((t_priority s =? t_priority r)%Z
      && (qlt (t_created_at r) (t_created_at s)
          || (Qeq_bool (t_created_at r) (t_created_at s) && String.leb (t_id r) (t_id s)))).
Definition next_queued_task (rows : list task_row) : option task_row :=
  head (order_by queued_leb (List.filter (λ r, t_state r =s "QUEUED") rows)).
(** [_binding_for_task] *)
Definition binding_for_task (task : task_row) (bindings : list WorkerBinding) : option WorkerBinding :=
  List.find (λ b, str_in (t_kind task) (wm_kinds (wb_manifest b))) bindings.

Section autonomy.
Context `{JsonText, Entropy}.
(** The cognitive core's providers and memory authority, the coordinator's guard, and
    the runner. *)
Context (providers : ProviderManager) (memory_identity : IdentityAuthority) (guard : PolicyGuard) (run_once : WorkerRunner).

(** [_mission_state] *)
Definition mission_state (mission_id : string) : IO string :=
  mission ← get_mission mission_id;
  match mission with
  | None => throw AutonomyError "mission not found"
  | Some m =>
      _ ← raise_if (negb (str_in (m_state m) ACTIVE_MISSION_STATES)) AutonomyError
            ("mission is not autonomous-active: " +:+ m_state m);
      mret (m_state m)
  end.

(** [for _ in range(max_worker_steps)] *)
Fixpoint worker_steps (workers : list WorkerBinding) (mission_id : string) (now : option Z) (steps : nat)
    : IO (list WorkerOutcome) :=
  match steps with
  | O => mret []
  | S steps' =>
      rows ← list_tasks mission_id;
      match next_queued_task rows with
      | None => mret []
      | Some task =>
          match binding_for_task task workers with
          | None =>
              _ ← audit "agent:executor" "autonomy_worker_unavailable" (Some mission_id)
                    [("task_id", JStr (t_id task)); ("kind", JStr (t_kind task))] None;
              mret []
          | Some b =>
              outcome ← run_once (wb_manifest b) (wb_worker_token b) (wb_privilege_authorizer_token b) now (Some mission_id);
              if wo_state outcome =s "IDLE" then mret [outcome]
              else rest ← worker_steps workers mission_id now steps'; mret (outcome :: rest)
          end
      end
  end.

(** [all(get_task(i) and get_task(i)["state"] == "COMPLETED" for i in ids)] *)
Fixpoint all_completed (ids : list string) : IO bool :=
  match ids with
  | [] => mret true
  | task_id :: rest =>
      found ← get_task task_id;
      match found with
      | None => mret false
      | Some _ =>
          again ← get_task task_id;
          match again with
          | None => throw TypeError "'NoneType' object is not subscriptable"
          | Some (r, _) => if t_state r =s "COMPLETED" then all_completed rest else mret false
          end
      end
  end.
Definition cycle_state_of (degraded : bool) (states : list string) (queued : list string) : IO string :=
  if degraded then mret "DEGRADED_NO_AI"
  else if existsb (λ s, str_in s ["FAILED"; "BLOCKED"]) states then mret "FAILED_SAFE"
  else if existsb (λ s, str_in s ["QUEUED"; "RUNNING"]) states then mret "PARTIAL"
  else match queued with
       | [] => mret "IDLE"
       | _ => done ← all_completed queued; mret (if done : bool then "COMPLETED" else "IDLE")
       end.

Definition outcome_view (o : WorkerOutcome) : json :=
  JObj [("task_id", jopt_str (wo_task_id o)); ("state", JStr (wo_state o));
        ("returncode", match wo_returncode o with Some z => JInt z | None => JNull end);
        ("rolled_back", JBool (wo_rolled_back o))].
Definition rejected_view (r : nat * string) : json := JObj [("index", JStr (pretty r.1)); ("reason", JStr r.2)].
(** The truth of an optional text. *)
Definition given (s : option string) : option string := match s with Some x => if x =s "" then None else Some x | None => None end.

(** Proposal, queue, workers and the recorded verdict: everything before learning. *)
Definition act (mission_id objective controller_token : string) (workers : list WorkerBinding) (observations : list dict)
    (requested_skills : list (string * option string)) (memory_kind : option string) (max_worker_steps : Z)
    (timeout_seconds : Q) (paid_authorizer_token : option string) (max_cost : Q) (now : option Z)
    : IO (ProviderProposal * QueueResult * list string * AutonomyCycleResult) :=
  _ ← mission_state mission_id;
  started ← now_or_time (float_now now);
  _ ← audit "agent:observer" "autonomy_observation_cycle" (Some mission_id)
        [("objective", JStr objective); ("observation_count", JInt (Z.of_nat (length observations)))] (Some started);
  proposal ← core_propose providers mission_id objective observations requested_skills memory_kind paid_authorizer_token
               max_cost timeout_seconds now;
  queue ← queue_proposal guard mission_id proposal controller_token 0 3 now;
  outcomes ← worker_steps workers mission_id now (Z.to_nat max_worker_steps);
  rows ← list_tasks mission_id;
  let task_states := map t_state rows in
  cycle_state ← cycle_state_of (pp_degraded proposal) task_states (qr_queued_task_ids queue);
  completed ← now_or_time (float_now now);
  evidence_id ← audit "agent:validator" "autonomy_cycle_validated" (Some mission_id)
        [("state", JStr cycle_state); ("provider_id", JStr (pp_provider_id proposal));
         ("queued", JInt (Z.of_nat (length (qr_queued_task_ids queue))));
         ("rejected", JInt (Z.of_nat (length (qr_rejected queue))));
         ("worker_outcomes", JList (map outcome_view outcomes))] (Some completed);
  mret (proposal, queue, task_states,
        {| cy_mission_id := mission_id; cy_state := cycle_state; cy_provider_id := pp_provider_id proposal;
           cy_proposal_degraded := pp_degraded proposal; cy_queued_task_ids := qr_queued_task_ids queue;
           cy_rejected := qr_rejected queue; cy_worker_outcomes := outcomes; cy_learning_memory_id := None;
           cy_learning_promoted := false; cy_evidence_id := evidence_id; cy_started_at := started;
           cy_completed_at := completed |}).

Definition with_learning (memory_id : option string) (promoted : bool) (r : AutonomyCycleResult) : AutonomyCycleResult :=
  {| cy_mission_id := cy_mission_id r; cy_state := cy_state r; cy_provider_id := cy_provider_id r;
     cy_proposal_degraded := cy_proposal_degraded r; cy_queued_task_ids := cy_queued_task_ids r;
     cy_rejected := cy_rejected r; cy_worker_outcomes := cy_worker_outcomes r; cy_learning_memory_id := memory_id;
     cy_learning_promoted := promoted; cy_evidence_id := cy_evidence_id r; cy_started_at := cy_started_at r;
     cy_completed_at := cy_completed_at r |}.

(** [if learning_memory_id and memory_validator_token and independent_validation and ...] *)
Definition promotable (provisional : AutonomyCycleResult) (proposal : ProviderProposal) (queue : QueueResult)
    (memory_validator_token : option string) (independent_validation : option (AutonomyCycleResult → IO bool))
    (min_learning_confidence : Q) : IO (option (string * string)) :=
  match given (cy_learning_memory_id provisional), given memory_validator_token, independent_validation with
  | Some memory_id, Some token, Some validate =>
      if (cy_state provisional =s "COMPLETED") && (match qr_rejected queue with [] => true | _ => false end)
         && qle min_learning_confidence (pp_confidence proposal)
      then ok ← validate provisional; mret (if ok : bool then Some (memory_id, token) else None)
      else mret None
  | _, _, _ => mret None
  end.

Definition run_cycle (mission_id objective controller_token : string) (workers : list WorkerBinding) (observations : list dict)
    (requested_skills : list (string * option string)) (memory_kind : option string) (max_worker_steps : Z)
    (timeout_seconds : Q) (paid_authorizer_token : option string) (max_cost : Q) (memory_validator_token : option string)
    (independent_validation : option (AutonomyCycleResult → IO bool)) (min_learning_confidence : Q) (now : option Z)
    : IO AutonomyCycleResult :=
  _ ← raise_if (blank objective) ValueError "objective is required";
  _ ← raise_if ((max_worker_steps <? 0) || (256 <? max_worker_steps))%Z ValueError "max_worker_steps outside 0..256";
  _ ← raise_if (negb (qle 0 min_learning_confidence && qle min_learning_confidence 1)) ValueError
        "min_learning_confidence outside 0..1";
  acted ← act mission_id objective controller_token workers observations requested_skills memory_kind max_worker_steps
            timeout_seconds paid_authorizer_token max_cost now;
  let '(proposal, queue, task_states, verdict) := acted in
  learning_memory_id ←
    (if negb (pp_degraded proposal)
        && (match qr_queued_task_ids queue with [] => false | _ => true end
            || match pp_hypotheses proposal with [] => false | _ => true end)
     then memory_id ← quarantine_learning mission_id proposal
            [("cycle_state", JStr (cy_state verdict)); ("task_states", JList (map JStr task_states));
             ("rejected", JList (map rejected_view (qr_rejected queue)))] [cy_evidence_id verdict];
          mret (Some memory_id)
     else mret None);
  let provisional := with_learning learning_memory_id false verdict in
  promote ← promotable provisional proposal queue memory_validator_token independent_validation min_learning_confidence;
  match promote with
  | None => mret provisional
  | Some (memory_id, token) =>
      promoted ← memory_promote memory_identity memory_id token [cy_evidence_id verdict] true true now;
      _ ← audit "agent:learner" "autonomy_learning_promoted" (Some mission_id)
            [("memory_id", JStr memory_id); ("evidence_id", JStr (cy_evidence_id verdict))] (Some (cy_completed_at verdict));
      mret (with_learning learning_memory_id (mr_state promoted =s "PROMOTED") verdict)
  end.
End autonomy.
