(* ===== verification/AutonomyProps.v ===== *)
(** The maintenance cycle against the worker contract: the loop uses up the queue,
    learning is promoted only from proven success.  The contract is discharged by the
    execution broker. *)

From S2P Require Import Prelude Json Schema Storage StorageProps Ledger LedgerProps Engine EngineProps Tokens.
From S2P Require Import Policy Memory MemoryProps Providers Cognition Execution ExecutionProps Autonomy.

(** Nothing of the mission is due. *)
Definition no_due (t : Z) (mid : string) (w : World) : Prop :=
  ∀ r, r ∈ tasks (w_db w) → claimable (inject_Z t) (Some mid) r = false.
(** The claims the mission's queue can still take at [t]. *)
Definition work_left (t : Z) (mid : string) (w : World) : nat := work (inject_Z t) mid (tasks (w_db w)).

(** What the controller relies on: a turn keeps the store well formed, says IDLE only
    when nothing of the mission is due, and otherwise has used up an attempt. *)
Class WorkerContract `{JsonText} (run_once : WorkerRunner) : Prop := {
  turn_keeps manifest token auth now mid : respects keeps_store (run_once manifest token auth now mid);
  turn_idle manifest token auth t mid w o w' :
    db_wf (w_db w) → run_once manifest token auth (Some t) (Some mid) w = (Ok o, w') →
    wo_state o = "IDLE" → no_due t mid w';
  turn_works manifest token auth t mid w o w' :
    db_wf (w_db w) → run_once manifest token auth (Some t) (Some mid) w = (Ok o, w') →
    wo_state o ≠ "IDLE" → work_left t mid w' < work_left t mid w;
}.

(** ** The broker meets the contract *)
Definition same_store (d d' : DB) : Prop := db_store d' = db_store d.
#[export] Instance same_store_preorder : PreOrder same_store.
Proof. split; [done|]. intros a b c E1 E2. unfold same_store in *. congruence. Qed.

Section broker.
Context `{JsonText, Entropy} (policy : PolicyGuard) (ws_root cp_root : path) (environ : string → option string)
  (spawn : list string → path → list (string * string) → Q → IO process_end)
  (grant_secret grant_issuer : string) (grant_identities : IdentityAuthority).
(** Processes do not write the broker's database. *)
Context (Hspawn : ∀ command cwd env timeout, respects (on_db same_store) (spawn command cwd env timeout)).
Abbreviation broker := (worker_run_once policy ws_root cp_root environ spawn grant_secret grant_issuer grant_identities).
Abbreviation leased := (run_leased policy ws_root cp_root environ spawn grant_secret grant_issuer grant_identities).

Lemma leased_store lease manifest token auth now : respects (on_db same_store) (leased lease manifest token auth now).
Proof. by apply run_leased_frame; [typeclasses eauto| |]. Qed.
Lemma leased_keeps lease manifest token auth now : respects keeps_store (leased lease manifest token auth now).
Proof. intros w Hw. pose proof (leased_store lease manifest token auth now w) as E. unfold on_db, same_store, db_wf in *. by rewrite E. Qed.

Lemma broker_keeps manifest token auth now mid : respects keeps_store (broker manifest token auth now mid).
Proof.
  pose proof leased_keeps. unfold worker_run_once, engine_claim_next, engine_complete_task, engine_fail_task, engine_block_task.
  io_respects; apply respects_attempt; auto.
Qed.

(** The outcomes of a turn: idle, or one claim and one report. *)
Lemma broker_turn manifest token auth t mid w o w' :
  broker manifest token auth (Some t) (Some mid) w = (Ok o, w') →
  (wo_state o = "IDLE" ∧ engine_claim_next (wm_id manifest) 30 (Some (inject_Z t)) (Some mid) w = (Ok None, w'))
  ∨ (wo_state o ≠ "IDLE" ∧ ∃ l w1 w2 g r,
       engine_claim_next (wm_id manifest) 30 (Some (inject_Z t)) (Some mid) w = (Ok (Some l), w1)
       ∧ tasks (w_db w2) = tasks (w_db w1) ∧ find_row t_id (l_id l) (tasks (w_db w2)) = Some r ∧ reported_by g r
       ∧ tasks (w_db w') = update_row t_id (l_id l) g (tasks (w_db w2))).
Proof.
  unfold worker_run_once. intros Hrun. apply bind_Ok_inv in Hrun as (lo & w1 & Hc & Hrun).
  change (float_now (Some t)) with (Some (inject_Z t)) in *.
  destruct lo as [l|]; [right|left; by injection Hrun as <- <-].
  apply bind_Ok_inv in Hrun as (res & w2 & Hres & Hrun). unfold attempt in Hres.
  destruct (leased l manifest token auth (Some t) w1) as [res' w2'] eqn:Hl. injection Hres as -> ->.
  pose proof (respects_run _ _ _ _ _ (leased_store _ _ _ _ _) Hl) as E2. apply (f_equal tasks) in E2.
  assert (∀ g r, find_row t_id (l_id l) (tasks (w_db w2)) = Some r → reported_by g r →
    tasks (w_db w') = update_row t_id (l_id l) g (tasks (w_db w2)) → wo_state o ≠ "IDLE" →
    wo_state o ≠ "IDLE" ∧ ∃ l w1 w2 g r, engine_claim_next (wm_id manifest) 30 (Some (inject_Z t)) (Some mid) w = (Ok (Some l), w1)
       ∧ tasks (w_db w2) = tasks (w_db w1) ∧ find_row t_id (l_id l) (tasks (w_db w2)) = Some r ∧ reported_by g r
       ∧ tasks (w_db w') = update_row t_id (l_id l) g (tasks (w_db w2))) as Hdone.
  { intros g r Hf Hg Ht Hi. split; [done|]. by exists l, w1, w2, g, r. }
  assert (∀ e d st u, engine_fail_task l e d (Some (inject_Z t)) w2 = (Ok st, u) → st ≠ "IDLE") as Hst.
  { intros e d st u Hf. unfold engine_fail_task in Hf. apply bind_Ok_inv in Hf as (st' & ? & Hf & Hr).
    apply fail_task_Ok in Hf as [Hs _]. apply bind_Ok_inv in Hr as (? & ? & _ & [= <- _]). by destruct Hs as [-> | ->]. }
  destruct res as [x|e].
  - destruct (_ =? 0)%Z.
    + apply bind_Ok_inv in Hrun as (? & w3 & (g & r & ? & ? & ?)%complete_reports & [= <- <-]). by apply (Hdone g r).
    + apply bind_Ok_inv in Hrun as (st & w3 & Hf & [= <- <-]). pose proof (Hst _ _ _ _ Hf).
      apply fail_reports in Hf as (g & r & ? & ? & ?). by apply (Hdone g r).
  - destruct (exn_cls e); try done; apply bind_Ok_inv in Hrun as (st & w3 & Hf & [= <- <-]).
    all: first [apply block_reports in Hf as (g & r & ? & ? & ?); by apply (Hdone g r)
               |pose proof (Hst _ _ _ _ Hf); apply fail_reports in Hf as (g & r & ? & ? & ?); by apply (Hdone g r)].
Qed.

(** Recovery requeues the mission's most urgent task: it is the one claimed. *)
Lemma recovered_first t mid w B l w1 worker :
  db_wf (w_db w) → B ∈ tasks (w_db w) → t_mission_id B = mid → lease_expired (inject_Z t) B = true →
  (t_next_run_at B <= inject_Z t)%Q →
  (∀ s, s ∈ tasks (w_db w) → t_mission_id s = mid → t_id s ≠ t_id B → (t_priority s < t_priority B)%Z) →
  engine_claim_next worker 30 (Some (inject_Z t)) (Some mid) w = (Ok (Some l), w1) → l_id l = t_id B ∧ l_kind l = t_kind B.
Proof.
  intros Hw HB Hm Hexp Hdue Htop Hc. apply (engine_claim_run _ _ _ _ Hw) in Hc as (Hu & r & Hin & Hcl & Hbest & -> & -> & _ & _).
  set (release := λ x, if lease_expired (inject_Z t) x then task_release "QUEUED" (inject_Z t) x else x) in *.
  assert (release B = task_release "QUEUED" (inject_Z t) B) as EB by (unfold release; by rewrite Hexp).
  apply list_elem_of_fmap in Hin as (x & Ex & Hx).
  assert (t_id r = t_id x ∧ t_mission_id r = t_mission_id x ∧ t_priority r = t_priority x ∧ t_kind r = t_kind x) as (Ei & Em & Ep & Ek).
  { rewrite Ex. by destruct (lease_expired (inject_Z t) x). }
  destruct (decide (t_id x = t_id B)) as [Heq|Hne].
  { assert (x = B) as ->; [|by rewrite Ei, Ek]. pose proof (find_row_unique t_id _ x (wf_tasks _ Hw) Hx) as E1.
    rewrite Heq, (find_row_unique t_id _ B (wf_tasks _ Hw) HB) in E1. congruence. }
  exfalso. unfold claimable in Hcl. apply andb_true_iff in Hcl as [_ Hmr%String.eqb_eq].
  specialize (Htop x Hx ltac:(congruence) Hne).
  assert (claim_leb r (task_release "QUEUED" (inject_Z t) B) = true) as Hle.
  { apply Hbest; [rewrite <- EB; by apply (list_elem_of_fmap_2 release)|]. unfold claimable. cbn.
    rewrite (proj2 (qle_true _ _) Hdue), Hm, String.eqb_refl. done. }
  unfold claim_leb in Hle. cbn in Hle. rewrite Ep in Hle. apply orb_true_iff in Hle as [?%Z.ltb_lt|[?%Z.eqb_eq _]%andb_true_iff]; lia.
Qed.

(** The loop can hand a recovered task to the wrong worker: the binding is chosen by
    the queue as read, but the claim first requeues expired leases.  When the mission's
    most urgent task is a due one whose lease expired, and the worker chosen for the
    queue does not do its kind, the turn claims that task and blocks it for good,
    whichever workers are bound. *)
Theorem recovered_task_blocked manifest token auth t mid w B o w'
    (Hw : db_wf (w_db w)) (HB : B ∈ tasks (w_db w)) (Hmission : t_mission_id B = mid)
    (Hexpired : lease_expired (inject_Z t) B = true) (Hdue : (t_next_run_at B <= inject_Z t)%Q)
    (Htop : ∀ s, s ∈ tasks (w_db w) → t_mission_id s = mid → t_id s ≠ t_id B → (t_priority s < t_priority B)%Z)
    (Hkind : t_kind B ∉ wm_kinds manifest)
    (Hrun : broker manifest token auth (Some t) (Some mid) w = (Ok o, w')) (Hbusy : wo_state o ≠ "IDLE") :
  wo_task_id o = Some (t_id B) ∧ wo_state o = "BLOCKED" ∧ wo_detail o = "task kind outside worker manifest"
  ∧ ∃ row, find_row t_id (t_id B) (tasks (w_db w')) = Some row ∧ t_state row = "BLOCKED".
Proof.
  unfold worker_run_once in Hrun. apply bind_Ok_inv in Hrun as (lo & w1 & Hc & Hrun).
  change (float_now (Some t)) with (Some (inject_Z t)) in *.
  destruct lo as [l|]; [|by injection Hrun as <- _].
  destruct (recovered_first t mid w B l w1 _ Hw HB Hmission Hexpired Hdue Htop Hc) as [Hid Hk].
  assert (str_in (l_kind l) (wm_kinds manifest) = false) as Hno.
  { apply not_true_iff_false. rewrite Hk. by intros Hi%str_in_iff. }
  rewrite (bind_Ok _ _ w1 (Raise (Exn AuthorizationError "task kind outside worker manifest")) w1) in Hrun.
  2:{ unfold attempt, run_leased. by rewrite Hno. }
  apply bind_Ok_inv in Hrun as (? & w2 & (row & Hr & Hs)%engine_block_Ok & [= <- <-]). rewrite <- Hid.
  split_and!; try done. by exists row.
Qed.

#[export] Instance broker_contract : WorkerContract broker.
Proof.
  split.
  - apply broker_keeps.
  - intros manifest token auth t mid w o w' Hw Hrun Hi. apply broker_turn in Hrun as [[_ Hc]|[Hne _]]; [|done].
    apply (engine_claim_run _ _ _ _ Hw) in Hc as (_ & Ht & Hn). intros r Hr. apply Hn. by rewrite <- Ht.
  - intros manifest token auth t mid w o w' Hw Hrun Hi. apply broker_turn in Hrun as [[? _]|(_ & l & w1 & w2 & g & r & Hc & E2 & Hf & Hg & Ht)];
      [done|]. by eapply claim_report_progress.
Qed.
End broker.

(** ** The controller's loop *)
Section loop.
Context `{JsonText, Entropy} (run_once : WorkerRunner) `{!WorkerContract run_once} (workers : list WorkerBinding).
Abbreviation steps := (worker_steps run_once workers).

(** The mission's rows, as the loop reads them. *)
Definition mission_rows (mid : string) (w : World) : list task_row :=
  order_by task_order (List.filter (λ r, t_mission_id r =s mid) (tasks (w_db w))).
Lemma next_queued_none t mid w : next_queued_task (mission_rows mid w) = None → no_due t mid w.
Proof.
  unfold next_queued_task. rewrite order_by_head_None. intros E r Hr. destruct (claimable _ _ r) eqn:Hc; [|done].
  unfold claimable in Hc. apply andb_true_iff in Hc as [[Hq _]%andb_true_iff Hm].
  assert (In r (List.filter (λ r, t_state r =s "QUEUED") (mission_rows mid w))) as Hin.
  { apply filter_In. split; [|done]. apply list_elem_of_In. unfold mission_rows. rewrite order_by_perm.
    apply list_elem_of_In, filter_In. split; [by apply list_elem_of_In|done]. }
  by rewrite E in Hin.
Qed.
(** One turn of the loop. *)
Lemma worker_steps_S mid now n w :
  steps mid now (S n) w =
  match next_queued_task (mission_rows mid w) with
  | None => (Ok [], w)
  | Some task =>
      match binding_for_task task workers with
      | None => (_ ← audit "agent:executor" "autonomy_worker_unavailable" (Some mid)
                       [("task_id", JStr (t_id task)); ("kind", JStr (t_kind task))] None; mret []) w
      | Some b =>
          (o ← run_once (wb_manifest b) (wb_worker_token b) (wb_privilege_authorizer_token b) now (Some mid);
           if wo_state o =s "IDLE" then mret [o] else rest ← steps mid now n; mret (o :: rest)) w
      end
  end.
Proof.
  cbn [worker_steps]. unfold list_tasks, query. rewrite bind_gets_run. fold (mission_rows mid w).
  destruct (next_queued_task _); [|done]. by destruct (binding_for_task _ _).
Qed.

(** C28. The worker loop ends by itself: at a fixed time every turn that is not idle uses up
    an attempt of the mission's queue, so once the bound on the steps exceeds the
    attempts left, it makes no difference to the outcome, returning or raising. *)
Theorem worker_loop_terminates t mid w n m
    (Hw : db_wf (w_db w)) (Hn : work_left t mid w < n) (Hm : work_left t mid w < m) :
  steps mid (Some t) n w = steps mid (Some t) m w.
Proof.
  revert w m Hw Hn Hm. induction n as [|n IH]; intros w [|m] Hw Hn Hm; try lia. rewrite !worker_steps_S.
  destruct (next_queued_task _) as [task|]; [|done]. destruct (binding_for_task _ _) as [b|]; [|done].
  set (turn := run_once _ _ _ _ _). pose proof (turn_keeps (wb_manifest b) (wb_worker_token b)
    (wb_privilege_authorizer_token b) (Some t) (Some mid) w Hw) as Hk. fold turn in Hk.
  unfold mbind at 1 3, M_bind at 1 3. destruct (turn w) as [[o|e] w1] eqn:Ht; [|done]. cbn in Hk.
  destruct (String.eqb_spec (wo_state o) "IDLE") as [|Hne]; [done|].
  pose proof (turn_works _ _ _ _ _ _ _ _ Hw Ht Hne). unfold mbind, M_bind. by rewrite (IH w1 m) by (done || lia).
Qed.

(** C29. The worker loop drains the queue: when it returns within a bound that covers the
    attempts left in the mission's queue, nothing of the mission is due any more, unless
    the task it would take next has no worker; and it reported at most one outcome per
    attempt left, and one idle turn. *)
Theorem worker_loop_drains t mid w n outcomes w'
    (Hw : db_wf (w_db w)) (Hn : work_left t mid w ≤ n) (Hrun : steps mid (Some t) n w = (Ok outcomes, w')) :
  (no_due t mid w'
   ∨ ∃ task, next_queued_task (mission_rows mid w') = Some task ∧ binding_for_task task workers = None)
  ∧ length outcomes ≤ S (work_left t mid w).
Proof.
  revert w outcomes Hw Hn Hrun. induction n as [|n IH]; intros w outcomes Hw Hn Hrun.
  { injection Hrun as <- <-. split; [|cbn; lia]. left. intros r Hr. apply (work_zero _ _ (tasks (w_db w))); [|done]. unfold work_left in Hn. lia. }
  rewrite worker_steps_S in Hrun. destruct (next_queued_task (mission_rows mid w)) as [task|] eqn:Enext.
  2:{ injection Hrun as <- <-. split; [|cbn; lia]. left. by apply next_queued_none. }
  destruct (binding_for_task task workers) as [b|] eqn:Eb.
  2:{ apply bind_Ok_inv in Hrun as (? & w1 & (e & tsa & D & _)%audit_Ok_run & [= <- <-]). split; [|cbn; lia].
      right. exists task. split; [|done]. unfold mission_rows in *. by rewrite D. }
  apply bind_Ok_inv in Hrun as (o & w1 & Ht & Hrun). pose proof (turn_keeps (wb_manifest b) (wb_worker_token b)
    (wb_privilege_authorizer_token b) (Some t) (Some mid) w Hw) as Hk. rewrite Ht in Hk. cbn in Hk.
  destruct (String.eqb_spec (wo_state o) "IDLE") as [Hi|Hne].
  { injection Hrun as <- <-. split; [|cbn; lia]. left. exact (turn_idle _ _ _ _ _ _ _ _ Hw Ht Hi). }
  pose proof (turn_works _ _ _ _ _ _ _ _ Hw Ht Hne). apply bind_Ok_inv in Hrun as (rest & w2 & Hrest & [= <- <-]).
  apply IH in Hrest as [Hend Hlen]; [|done|lia]. split; [done|]. cbn. lia.
Qed.
End loop.

(** ** Learning *)
Section learning.
Context `{JsonText, Entropy} (providers : ProviderManager) (memory_identity : IdentityAuthority) (guard : PolicyGuard)
  (run_once : WorkerRunner).

(** Every task of the mission was finished well when the verdict was taken. *)
Definition all_proven (mid : string) (queued : list string) (w : World) : Prop :=
  (∀ r, r ∈ tasks (w_db w) → t_mission_id r = mid → t_state r ∉ ["FAILED"; "BLOCKED"; "QUEUED"; "RUNNING"])
  ∧ queued ≠ []
  ∧ ∀ id, id ∈ queued → ∃ r, find_row t_id id (tasks (w_db w)) = Some r ∧ t_state r = "COMPLETED".

Lemma get_task_Ok id w x w' :
  get_task id w = (Ok x, w') → w' = w ∧ match x with Some (r, _) => find_row t_id id (tasks (w_db w)) = Some r | None => True end.
Proof.
  unfold get_task. intros (row & ? & [-> ->]%query_Ok_inv & Hrun)%bind_Ok_inv.
  destruct (find_row t_id id _) as [r|]; [|by injection Hrun as <- <-].
  destruct (loads _); [by injection Hrun as <- <-|done].
Qed.
Lemma all_completed_true ids : ∀ w w',
  all_completed ids w = (Ok true, w') → w' = w ∧ ∀ id, id ∈ ids → ∃ r, find_row t_id id (tasks (w_db w)) = Some r ∧ t_state r = "COMPLETED".
Proof.
  induction ids as [|id ids IH]; intros w w' Hrun; cbn [all_completed] in Hrun.
  { injection Hrun as <-. split; [done|]. intros x Hx. by apply elem_of_nil in Hx. }
  apply bind_Ok_inv in Hrun as ([x|] & w1 & [-> _]%get_task_Ok & Hrun); [|done].
  apply bind_Ok_inv in Hrun as ([[r y]|] & w2 & [-> Hf]%get_task_Ok & Hrun); [|done].
  destruct (String.eqb_spec (t_state r) "COMPLETED") as [Es|]; [|done]. apply IH in Hrun as [-> Hall]. split; [done|].
  intros i [->|Hi]%elem_of_cons; [by exists r|by apply Hall].
Qed.
Lemma cycle_state_completed degraded mid queued w w' :
  cycle_state_of degraded (map t_state (mission_rows mid w)) queued w = (Ok "COMPLETED", w') →
  degraded = false ∧ all_proven mid queued w.
Proof.
  unfold cycle_state_of. destruct degraded; [done|]. destruct (existsb _ _) eqn:Ef; [done|].
  destruct (existsb (λ s, str_in s ["QUEUED"; "RUNNING"]) _) eqn:Eq; [done|]. destruct queued as [|q queued]; [done|].
  intros (ok & w1 & Hall & Hrun)%bind_Ok_inv. destruct ok; [|done]. apply all_completed_true in Hall as [_ Hall].
  split; [done|]. split_and!; [|done|done]. intros r Hr Hm Hs.
  assert (t_state r ∈ map t_state (mission_rows mid w)) as Hin.
  { apply list_elem_of_fmap_2. unfold mission_rows. rewrite order_by_perm. apply list_elem_of_In, filter_In.
    split; [by apply list_elem_of_In|]. by apply String.eqb_eq. }
  assert (∀ l, existsb (λ s, str_in s l) (map t_state (mission_rows mid w)) = false → t_state r ∉ l) as Hno.
  { intros l Hl Hi. apply str_in_iff in Hi. rewrite <- not_true_iff_false, existsb_exists in Hl. apply Hl.
    exists (t_state r). split; [by apply list_elem_of_In|done]. }
  apply Hno in Ef. apply Hno in Eq. set_solver.
Qed.

(** The verdict of the acting part. *)
Lemma act_verdict mid objective ctok workers obs skills kind steps timeout paid cost now w proposal queue states v w' :
  act providers guard run_once mid objective ctok workers obs skills kind steps timeout paid cost now w
    = (Ok (proposal, queue, states, v), w') →
  cy_proposal_degraded v = pp_degraded proposal ∧ cy_queued_task_ids v = qr_queued_task_ids queue
  ∧ cy_rejected v = qr_rejected queue ∧ cy_learning_promoted v = false
  ∧ (cy_state v = "COMPLETED" → pp_degraded proposal = false ∧ ∃ wv, all_proven mid (qr_queued_task_ids queue) wv).
Proof.
  unfold act. intros Hrun. apply bind_Ok_inv in Hrun as (? & w1 & _ & Hrun). apply bind_Ok_inv in Hrun as (started & w2 & _ & Hrun).
  apply bind_Ok_inv in Hrun as (? & w3 & _ & Hrun). apply bind_Ok_inv in Hrun as (prop & w4 & _ & Hrun).
  apply bind_Ok_inv in Hrun as (q & w5 & _ & Hrun). apply bind_Ok_inv in Hrun as (outs & w6 & _ & Hrun).
  apply bind_Ok_inv in Hrun as (rows & w7 & [-> ->]%query_Ok_inv & Hrun). fold (mission_rows mid w6) in Hrun.
  apply bind_Ok_inv in Hrun as (st & w8 & Hst & Hrun). apply bind_Ok_inv in Hrun as (fin & w9 & _ & Hrun).
  apply bind_Ok_inv in Hrun as (ev & w10 & _ & [= <- <- <- <- <-]). cbn. split_and!; try done.
  intros ->. apply cycle_state_completed in Hst as [? ?]. split; [done|]. by exists w6.
Qed.
Lemma given_Some s x : given s = Some x → s = Some x.
Proof. unfold given. destruct s as [y|]; [|done]. by destruct (y =s ""). Qed.

(** The system learns only from proven success: when a cycle reports its learning
    promoted, its state is COMPLETED, the proposal came from a provider (not degraded),
    nothing of it was rejected and its confidence reached the minimum; at the verdict
    every queued task was stored COMPLETED and no task of the mission failed, was blocked
    or was left over; the independent validation accepted exactly this cycle, and the
    validator's token verified for memory:promote. *)
Theorem learning_needs_proof mid objective ctok workers obs skills kind steps timeout paid cost vtok validation minc now w r w'
    (Hrun : run_cycle providers memory_identity guard run_once mid objective ctok workers obs skills kind steps timeout paid cost
              vtok validation minc now w = (Ok r, w'))
    (Hpromoted : cy_learning_promoted r = true) :
  cy_state r = "COMPLETED" ∧ cy_proposal_degraded r = false ∧ cy_rejected r = []
  ∧ (∃ wv, all_proven mid (cy_queued_task_ids r) wv)
  ∧ ∃ memory_id token validate w1 w2 w3 p,
      cy_learning_memory_id r = Some memory_id ∧ vtok = Some token ∧ validation = Some validate
      ∧ validate (with_learning (Some memory_id) false r) w1 = (Ok true, w2)
      ∧ ia_verify memory_identity token (Some "memory:promote") now w2 = (Ok p, w3).
Proof.
  unfold run_cycle in Hrun. apply bind_Ok_inv in Hrun as (? & ? & [_ ->]%raise_if_Ok_inv & Hrun).
  apply bind_Ok_inv in Hrun as (? & ? & [_ ->]%raise_if_Ok_inv & Hrun).
  apply bind_Ok_inv in Hrun as (? & ? & [_ ->]%raise_if_Ok_inv & Hrun).
  apply bind_Ok_inv in Hrun as ([[[proposal queue] states] verdict] & wa & Hact & Hrun).
  apply act_verdict in Hact as (Hdeg & Hq & Hrej & Hp0 & Hstate).
  apply bind_Ok_inv in Hrun as (lid & wl & _ & Hrun). apply bind_Ok_inv in Hrun as (pr & wp & Hpr & Hrun).
  destruct pr as [[memory_id token]|]; [|injection Hrun as <- <-; by rewrite <- Hpromoted].
  unfold promotable in Hpr. cbn [cy_learning_memory_id with_learning cy_state] in Hpr.
  destruct (given lid) as [lm|] eqn:El; [|done]. destruct (given vtok) as [tok|] eqn:Ev; [|done]. destruct validation as [validate|]; [|done].
  apply given_Some in El as ->. apply given_Some in Ev as ->.
  destruct ((cy_state verdict =s "COMPLETED") && _ && _) eqn:Ec; [|done].
  apply andb_true_iff in Ec as [[Hs%String.eqb_eq Hr]%andb_true_iff _].
  apply bind_Ok_inv in Hpr as (ok & w2 & Hval & Hpr). destruct ok; [|done]. injection Hpr as -> -> ->.
  apply bind_Ok_inv in Hrun as (rec & w3 & (p & w4 & row & ts & Hv & _)%memory_promote_Ok_inv & Hrun).
  apply bind_Ok_inv in Hrun as (? & w5 & _ & [= <- <-]). destruct (Hstate Hs) as [Hd Hall].
  cbn [cy_state cy_proposal_degraded cy_rejected cy_queued_task_ids cy_learning_memory_id with_learning]. rewrite Hdeg, Hq, Hrej.
  split_and!; try done; [by destruct (qr_rejected queue)|].
  exists memory_id, token, validate, wl, wp, w4, p. split_and!; try done.
Qed.
End learning.
