(* ===== verification/StateBackup.v ===== *)
(** immune_core/state_backup.py: consistent copies of the state database, their
    verification and restoration.

    What SQLite's backup API writes for a database, and which bytes pass
    [PRAGMA integrity_check], is an interface: [SqliteImage]. *)

From S2P Require Import Prelude Json Sha256 Schema Files Ledger Checkpoints.

(** The bytes [Connection.backup] writes; whether a file opens as a database whose
    integrity check answers ok.  A completed backup is a consistent database. *)
Class SqliteImage := {
  db_image : DB → string;
  integrity_ok : string → bool;
  db_image_ok : ∀ d, integrity_ok (db_image d) = true;
}.

Record BackupRef := {
  bk_id : string; bk_path : path; bk_manifest_path : path; bk_sha256 : string; bk_created_at : Q;
}.

Section backup.
Context `{JsonText, Entropy, SqliteImage}.
(** [self.root] *)
Context (root : path).

(** [_integrity]: a file that cannot be opened is not a database *)
Definition bk_integrity (p : path) (files : gmap path string) : bool :=
  match files !! p with Some bytes => integrity_ok bytes | None => false end.

(** [_hash_file] *)
Definition hash_file (p : path) : IO string :=
  files ← gets w_files;
  match files !! p with
  | Some bytes => mret (sha256_hex bytes)
  | None => throw OSError "No such file or directory"
  end.

Definition bk_manifest (backup_id : string) (when : Q) (digest : string) (size : nat) : dict :=
  [("schema", JInt 1); ("id", JStr backup_id); ("created_at", JNum when); ("sha256", JStr digest);
   ("size", JInt (Z.of_nat size))].

Definition bk_create (now : option Q) : IO BackupRef :=
  when ← now_or_time now;
  backup_id ← uuid4;
  let backup_path := root ++ [backup_id +:+ ".sqlite3"] in
  let manifest_path := root ++ [backup_id +:+ ".json"] in
  image ← query db_image;
  _ ← modify (with_files (<[backup_path := image]>));
  files ← gets w_files;
  if negb (bk_integrity backup_path files) then
    _ ← modify (with_files (delete backup_path));
    throw BackupError "created backup failed integrity_check"
  else
    digest ← hash_file backup_path;
    let size := String.length (default "" (files !! backup_path)) in
    _ ← modify (with_files (<[manifest_path :=
          dumps Indented (JObj (bk_manifest backup_id when digest size)) +:+ newline]>));
    _ ← audit "state-backup-manager" "state_backup_created" None
          [("backup_id", JStr backup_id); ("sha256", JStr digest); ("size", JInt (Z.of_nat size))] (Some when);
    mret {| bk_id := backup_id; bk_path := backup_path; bk_manifest_path := manifest_path; bk_sha256 := digest;
            bk_created_at := when |}.

Definition bk_get (backup_id : string) : IO BackupRef :=
  let manifest_path := resolve_join root (backup_id +:+ ".json") in
  _ ← raise_if (negb (inside root manifest_path)) BackupError "backup manifest escaped root";
  files ← gets w_files;
  match files !! manifest_path ≫= loads with
  | None => throw BackupError "backup manifest unavailable"
  | Some (JObj manifest) =>
      let backup_path := resolve_join root (backup_id +:+ ".sqlite3") in
      id ← item_str manifest "id";
      sha ← item_str manifest "sha256";
      created ← lift_result (item manifest "created_at");
      created_at ← lift_result (py_float created);
      mret {| bk_id := id; bk_path := backup_path; bk_manifest_path := manifest_path; bk_sha256 := sha;
              bk_created_at := created_at |}
  | Some _ => throw TypeError "indices must be integers or slices, not str"
  end.

(** The [try] block of [verify] on the parsed manifest. *)
Definition bk_check (ref : BackupRef) (files : gmap path string) (manifest : dict) : IO bool :=
  id ← item_str manifest "id";
  if negb (id =s bk_id ref) then mret false
  else
    sha ← item_str manifest "sha256";
    if negb (sha =s bk_sha256 ref) then mret false
    else match files !! bk_path ref with
         | None => mret false
         | Some bytes =>
             size ← lift_result (item_int manifest "size");
             if negb (Z.of_nat (String.length bytes) =? size)%Z then mret false
             else mret ((sha256_hex bytes =s bk_sha256 ref) && integrity_ok bytes)
         end.

(** [except (OSError, ValueError, KeyError, json.JSONDecodeError): return False] *)
Definition bk_caught (c : exn_class) : bool :=
  match c with OSError | ValueError | KeyError | JSONDecodeError => true | _ => false end.

Definition bk_verify (ref : BackupRef) : IO bool :=
  if negb (inside root (bk_path ref)) || negb (inside root (bk_manifest_path ref)) then mret false
  else
    files ← gets w_files;
    match files !! bk_manifest_path ref ≫= loads with
    | None => mret false
    | Some (JObj manifest) =>
        catch (bk_check ref files manifest) (λ e, if bk_caught (exn_cls e) then mret false else reraise e)
    | Some _ => throw TypeError "indices must be integers or slices, not str"
    end.

(** [target_path.with_name(...)] *)
Definition restore_name (target : path) (name hex : string) : path :=
  removelast target ++ ["." +:+ name +:+ "." +:+ hex +:+ ".restore"].

(** [os.replace(src, dst)] *)
Definition os_replace (src dst : path) : IO unit :=
  files ← gets w_files;
  match files !! src with
  | None => throw OSError "No such file or directory"
  | Some bytes =>
      _ ← raise_if (negb (is_file dst files) && path_exists dst files) OSError "Is a directory";
      modify (with_files (λ f, <[dst := bytes]> (delete src f)))
  end.

Definition restore_to (ref : BackupRef) (target : path) (now : option Q) : IO path :=
  ok ← bk_verify ref;
  _ ← raise_if (negb ok) BackupError "backup verification failed";
  match last target with
  | None => throw ValueError "has an empty name"
  | Some name =>
      hex ← uuid_hex;
      let tmp := restore_name target name hex in
      files ← gets w_files;
      _ ← match files !! bk_path ref with
          | None => throw OSError "No such file or directory"
          | Some bytes =>
              _ ← raise_if (bool_decide (tmp = bk_path ref)) OSError "are the same file";
              modify (with_files (<[tmp := bytes]>))
          end;
      copied ← hash_file tmp;
      files' ← gets w_files;
      if negb (copied =s bk_sha256 ref) || negb (bk_integrity tmp files') then
        _ ← modify (with_files (delete tmp));
        throw BackupError "restored copy failed verification"
      else
        _ ← os_replace tmp target;
        when ← now_or_time now;
        _ ← audit "state-backup-manager" "state_backup_restored" None
              [("backup_id", JStr (bk_id ref)); ("target_name", JStr name); ("sha256", JStr (bk_sha256 ref))] (Some when);
        mret target
  end.
End backup.
