(* ===== verification/StateBackupProps.v ===== *)
(** A backup verifies and restores to the database it was taken of; a restore
    never leaves anything else at its target. *)

From S2P Require Import Prelude Json Sha256 Schema Files Ledger LedgerProps Checkpoints StateBackup.

(** ** Names *)
Fixpoint last_char (s : string) : option ascii :=
  match s with EmptyString => None | String c EmptyString => Some c | String _ s' => last_char s' end.
Lemma last_char_app s t :
  last_char (s +:+ t) = match last_char t with Some c => Some c | None => last_char s end.
Proof.
  assert (∀ u, last_char u = None → u = "") as Hn.
  { induction u as [|c u IH]; [done|]. destruct u as [|d u]; [done|]. intros E. by apply IH in E. }
  induction s as [|a s IH].
  - simpl. by destruct (last_char t) eqn:E; [|apply Hn in E as ->].
  - change (String a s +:+ t) with (String a (s +:+ t)). destruct s as [|b s].
    + destruct t as [|c t]; [done|]. change (last_char (String c t) = match last_char (String c t) with
        Some x => Some x | None => Some a end). destruct (last_char (String c t)) eqn:E; [done|]. by apply Hn in E.
    + change (last_char (String b s +:+ t) = match last_char t with Some c => Some c | None => last_char (String b s) end).
      exact IH.
Qed.
Lemma no_slash_app s t : no_slash (s +:+ t) = no_slash s && no_slash t.
Proof.
  induction s as [|c s IH]; [done|]. change (String c s +:+ t) with (String c (s +:+ t)). simpl.
  rewrite IH. by destruct (negb _).
Qed.
Lemma resolve_join_name base s :
  no_slash s = true → 2 < String.length s → resolve_join base s = base ++ [s].
Proof.
  intros Hs Hl. unfold resolve_join. destruct s as [|c s]; [simpl in Hl; lia|].
  rewrite split_slash_plain by done.
  assert (Ascii.eqb c "/" = false) as -> by (simpl in Hs; by destruct (Ascii.eqb c "/")).
  cbn [walk]. destruct (String.eqb_spec (String c s) ""); [done|].
  destruct (String.eqb_spec (String c s) ".") as [E|]; [rewrite E in Hl; simpl in Hl; lia|].
  destruct (String.eqb_spec (String c s) "..") as [E|]; [rewrite E in Hl; simpl in Hl; lia|]. done.
Qed.

Lemma restore_name_eq front name x hex :
  restore_name (front ++ [x]) name hex = front ++ ["." +:+ name +:+ "." +:+ hex +:+ ".restore"].
Proof. unfold restore_name. by rewrite removelast_last. Qed.
Lemma restore_name_ne front name hex : restore_name (front ++ [name]) name hex ≠ front ++ [name].
Proof.
  rewrite restore_name_eq. intros [= E]%app_inv_head. apply (f_equal String.length) in E.
  rewrite !length_app_s in E. simpl in E. lia.
Qed.
Lemma restore_name_not_image target name hex root id :
  restore_name target name hex ≠ root ++ [id +:+ ".sqlite3"].
Proof.
  unfold restore_name. intros [_ [= E]]%app_inj_tail. apply (f_equal last_char) in E.
  rewrite !last_char_app in E. done.
Qed.

Lemma path_exists_insert_other p q b files :
  length p = length q → p ≠ q → path_exists p (<[q := b]> files) = path_exists p files.
Proof.
  intros Hl Hne.
  assert (∀ m : gmap path string, path_exists p m = true ↔ ∃ rel c, m !! (p ++ rel) = Some c) as Hx.
  { intros m. unfold path_exists. setoid_rewrite <- elem_of_below. destruct (below p m) as [|[r c] l].
    - split; [done|]. intros (? & ? & Hin). by apply elem_of_nil in Hin.
    - split; [|done]. intros _. exists r, c. by left. }
  apply eq_true_iff_eq. rewrite !Hx.
  assert (∀ rel, q ≠ p ++ rel) as Hq.
  { intros [|y rel] ->; [by rewrite app_nil_r in Hne|]. rewrite length_app in Hl. simpl in Hl. lia. }
  split; intros (rel & c & E); exists rel, c; rewrite lookup_insert_ne in *; done.
Qed.

Section backup_props.
Context `{JsonText, Entropy, SqliteImage}.
Context (root : path).

(** The manifest [create] writes, read back. *)
Definition read_manifest (id : string) (t : Q) (digest : string) (size : nat) : dict :=
  [("created_at", JNum t); ("id", JStr id); ("schema", JInt 1); ("sha256", JStr digest); ("size", JInt (Z.of_nat size))].
Lemma bk_manifest_read id t digest size :
  loads (dumps Indented (JObj (bk_manifest id t digest size)) +:+ newline) = Some (JObj (read_manifest id t digest size)).
Proof. rewrite loads_newline, loads_dumps. reflexivity. Qed.

(** What [create] left behind. *)
Lemma bk_create_run now w ref w1 :
  bk_create root now w = (Ok ref, w1) →
  let image := db_image (w_db w) in
  bk_path ref = root ++ [bk_id ref +:+ ".sqlite3"] ∧ bk_manifest_path ref = root ++ [bk_id ref +:+ ".json"]
  ∧ bk_sha256 ref = sha256_hex image ∧ w_files w1 !! bk_path ref = Some image
  ∧ w_files w1 !! bk_manifest_path ref ≫= loads
    = Some (JObj (read_manifest (bk_id ref) (bk_created_at ref) (bk_sha256 ref) (String.length image))).
Proof.
  unfold bk_create. intros Hrun.
  apply bind_Ok_inv in Hrun as (when & wa & Hwhen & Hrun).
  assert (w_db wa = w_db w) as D by (destruct now; injection Hwhen as _ <-; done).
  apply bind_Ok_inv in Hrun as (id & wb & [= <- <-] & Hrun). cbv zeta in Hrun.
  set (id := uuid_at (w_tick wa)) in *. set (bp := root ++ [id +:+ ".sqlite3"]) in *.
  apply bind_Ok_inv in Hrun as (image & ? & [-> ->]%query_Ok_inv & Hrun).
  rewrite bind_modify_run, bind_gets_run in Hrun. cbn [w_db w_files with_files tick] in Hrun. rewrite D in Hrun.
  unfold bk_integrity in Hrun. rewrite lookup_insert_eq, db_image_ok in Hrun. cbn [negb default] in Hrun.
  unfold hash_file in Hrun. apply bind_Ok_inv in Hrun as (dg & ? & Hdg & Hrun).
  rewrite bind_gets_run in Hdg. cbn [w_files with_files tick] in Hdg. rewrite lookup_insert_eq in Hdg.
  injection Hdg as <- <-. rewrite bind_modify_run in Hrun.
  apply bind_Ok_inv in Hrun as (? & w3 & (e & t & _ & F & _)%audit_Ok_run & Hrun). injection Hrun as <- <-.
  cbn [w_files with_files tick] in F. rewrite F. cbn [bk_id bk_path bk_manifest_path bk_sha256 bk_created_at].
  split_and!; try done.
  - rewrite lookup_insert_ne; [apply lookup_insert_eq|]. intros [_ [= E]]%app_inj_tail.
    apply (f_equal last_char) in E. by rewrite !last_char_app in E.
  - rewrite lookup_insert_eq. cbn [mbind option_bind]. apply bk_manifest_read.
Qed.
Lemma inside_name x : inside root (root ++ [x]) = true.
Proof.
  apply bool_decide_eq_true. split; [by apply prefix_app_r|]. intros E.
  apply (f_equal length) in E. rewrite length_app in E. simpl in E. lia.
Qed.

(** [verify] on a manifest of the right shape. *)
Lemma bk_verify_run ref w t size bytes :
  bk_path ref = root ++ [bk_id ref +:+ ".sqlite3"] → bk_manifest_path ref = root ++ [bk_id ref +:+ ".json"] →
  w_files w !! bk_path ref = Some bytes →
  w_files w !! bk_manifest_path ref ≫= loads = Some (JObj (read_manifest (bk_id ref) t (bk_sha256 ref) size)) →
  bk_verify root ref w
  = (Ok ((Z.of_nat (String.length bytes) =? Z.of_nat size)%Z
         && ((sha256_hex bytes =s bk_sha256 ref) && integrity_ok bytes)), w).
Proof.
  intros Ep Em Hb Hm. unfold bk_verify. rewrite Ep, Em, !inside_name, <- Em. cbn [negb orb].
  rewrite bind_gets_run, Hm. unfold catch, bk_check, item_str.
  unfold mbind, M_bind, lift_result, mret, M_ret. cbn -[sha256_hex]. rewrite !String.eqb_refl. cbn -[sha256_hex].
  rewrite Hb. cbn -[sha256_hex]. by destruct (_ =? _)%Z.
Qed.

(** A backup is found, verifies and holds the state: after [create], as long
    as its two files are left alone, [get] returns the same reference, [verify]
    accepts it, and the backup file is the image of the database as it was
    before the call. *)
Theorem backup_roundtrip now w ref w1 w2
    (Hcreate : bk_create root now w = (Ok ref, w1))
    (Hid : no_slash (bk_id ref) = true)
    (Hkept : w_files w2 !! bk_path ref = w_files w1 !! bk_path ref)
    (Hkept' : w_files w2 !! bk_manifest_path ref = w_files w1 !! bk_manifest_path ref) :
  bk_verify root ref w2 = (Ok true, w2)
  ∧ bk_get root (bk_id ref) w2 = (Ok ref, w2)
  ∧ w_files w2 !! bk_path ref = Some (db_image (w_db w)).
Proof.
  apply bk_create_run in Hcreate as (Ep & Em & Es & Hb & Hm). rewrite <- Hkept in Hb. rewrite <- Hkept' in Hm.
  split_and!; [| |done].
  - rewrite (bk_verify_run _ _ _ _ _ Ep Em Hb Hm), Z.eqb_refl, Es, String.eqb_refl, db_image_ok. done.
  - unfold bk_get.
    rewrite !resolve_join_name by (rewrite ?no_slash_app, ?Hid, ?length_app_s; simpl; done || lia).
    rewrite <- Em, <- Ep, bind_raise_if_run by (by rewrite Em, inside_name). rewrite bind_gets_run, Hm.
    unfold item_str, mbind, M_bind, lift_result, mret, M_ret. cbn. by destruct ref.
Qed.

(** What a verified file is. *)
Lemma bk_verify_true ref w w' :
  bk_verify root ref w = (Ok true, w') →
  w' = w ∧ ∃ bytes, w_files w !! bk_path ref = Some bytes ∧ sha256_hex bytes = bk_sha256 ref
                    ∧ integrity_ok bytes = true.
Proof.
  unfold bk_verify. destruct (_ || _); [done|]. rewrite bind_gets_run.
  destruct (_ ≫= loads) as [[| | | | | |m]|]; try done. unfold catch.
  destruct (bk_check ref (w_files w) m w) as [[b|e] w0] eqn:E.
  2:{ by destruct (bk_caught _). }
  intros [= -> <-]. revert E. unfold bk_check, item_str.
  destruct (dget m "id") as [i|]; [|done]. rewrite bind_ret_run. destruct (negb _); [done|].
  destruct (dget m "sha256") as [h|]; [|done]. rewrite bind_ret_run. destruct (negb _); [done|].
  destruct (w_files w !! bk_path ref) as [bytes|]; [|done].
  intros (size & ? & [_ ->]%lift_Ok_inv & E)%bind_Ok_inv. destruct (negb _); [done|].
  injection E as [Eh%String.eqb_eq Ei]%andb_true_iff <-. split; [done|]. by exists bytes.
Qed.

Lemma bk_verify_world ref w r w' : bk_verify root ref w = (r, w') → w' = w.
Proof.
  intros Hrun. assert (respects eq (bk_verify root ref)) as Hk.
  { unfold bk_verify, bk_check, item_str. solve_respects. }
  pose proof (respects_run _ _ _ _ _ Hk Hrun). done.
Qed.

(** The steps of [restore_to] once the backup verified. *)
Lemma restore_to_run ref front name now w bytes r w' :
  bk_verify root ref w = (Ok true, w) → w_files w !! bk_path ref = Some bytes →
  sha256_hex bytes = bk_sha256 ref → integrity_ok bytes = true →
  let target := front ++ [name] in
  let tmp := restore_name target name (drop_dashes (uuid_at (w_tick w))) in
  restore_to root ref target now w = (r, w') →
  (w_files w' = w_files w ∧ tmp = bk_path ref ∧ ∃ m, r = Raise (Exn OSError m))
  ∨ (w_files w' = <[tmp := bytes]> (w_files w) ∧ is_file target (w_files w) = false
     ∧ path_exists target (w_files w) = true ∧ ∃ m, r = Raise (Exn OSError m))
  ∨ (w_files w' = <[target := bytes]> (delete tmp (w_files w)) ∧ (∀ x, r = Ok x → x = target)
     ∧ ∀ e, r = Raise e → exn_cls e = IntegrityError).
Proof.
  intros Hv Hb Hs Hi target tmp Hrun. unfold restore_to in Hrun.
  rewrite (bind_Ok _ _ _ _ _ Hv), bind_raise_if_run in Hrun by done.
  unfold target in Hrun at 1. rewrite last_snoc in Hrun. unfold uuid_hex in Hrun.
  rewrite (bind_Ok _ _ w (drop_dashes (uuid_at (w_tick w))) (Schema.tick w)) in Hrun by done.
  cbv zeta in Hrun. fold tmp in Hrun. rewrite bind_gets_run in Hrun. cbn [w_files Schema.tick] in Hrun.
  rewrite Hb in Hrun. case_bool_decide as Et.
  { left. injection Hrun as <- <-. split_and!; [done|done|by eexists]. }
  right. change (raise_if false OSError "are the same file") with (mret tt : IO unit) in Hrun.
  unfold hash_file in Hrun.
  set (w1 := with_files (<[tmp := bytes]>) (Schema.tick w)) in *.
  rewrite (bind_Ok _ _ _ tt w1) in Hrun by done.
  assert (w_files w1 = <[tmp := bytes]> (w_files w)) as F1 by done.
  rewrite (bind_Ok _ _ w1 (bk_sha256 ref) w1) in Hrun.
  2:{ rewrite bind_gets_run, F1, lookup_insert_eq, Hs. done. }
  rewrite bind_gets_run in Hrun. unfold bk_integrity in Hrun. rewrite F1, lookup_insert_eq, Hi, String.eqb_refl in Hrun.
  cbn [negb orb] in Hrun.
  assert (tmp ≠ target) as Hne by apply restore_name_ne.
  assert (length target = length tmp) as Hlen.
  { unfold tmp, target. rewrite restore_name_eq. by rewrite !length_app. }
  assert (is_file target (<[tmp := bytes]> (w_files w)) = is_file target (w_files w)) as Ef.
  { unfold is_file. by rewrite lookup_insert_ne by done. }
  assert (path_exists target (<[tmp := bytes]> (w_files w)) = path_exists target (w_files w)) as Ex
    by (by apply path_exists_insert_other).
  unfold os_replace in Hrun.
  destruct (negb (is_file target (w_files w)) && path_exists target (w_files w)) eqn:Ed.
  - left. rewrite (bind_Raise _ _ w1 (Exn OSError "Is a directory") w1) in Hrun.
    + apply andb_true_iff in Ed as [Ed%negb_true_iff ?]. injection Hrun as <- <-. split_and!; try done. by eexists.
    + rewrite bind_gets_run, F1, lookup_insert_eq, Ef, Ex, Ed. done.
  - right. set (w2 := with_files (λ f, <[target := bytes]> (delete tmp f)) w1) in *.
    rewrite (bind_Ok _ _ w1 tt w2) in Hrun.
    2:{ rewrite bind_gets_run, F1, lookup_insert_eq, Ef, Ex, Ed. done. }
    assert (w_files w2 = <[target := bytes]> (delete tmp (w_files w))) as F2.
    { unfold w2. cbn [w_files with_files]. rewrite F1. by rewrite delete_insert_eq. }
    destruct (now_or_time now w2) as [[t|e] w3] eqn:Et3; [|by destruct now].
    assert (w_files w3 = w_files w2) as F3 by (destruct now; injection Et3 as _ <-; done).
    rewrite (bind_Ok _ _ _ _ _ Et3) in Hrun. unfold mbind, M_bind in Hrun.
    destruct (audit _ _ _ _ _ w3) as [[h|e] w4] eqn:Ea; apply audit_outcome in Ea as [F4 Hc];
      injection Hrun as <- <-; rewrite F4, F3, F2; split_and!; try done.
    + by intros x [= <-].
    + intros e' [= <-]. by apply Hc.
Qed.
(** C16. A restore brings the saved state back: after [create], as long as the two
    backup files are left alone and the target is not a directory, whatever else
    happened in between, [restore_to] leaves at the target exactly the image of
    the database as it was when the backup was taken and changes no other file;
    the only failure left is a duplicate id of the final audit entry. *)
Theorem backup_restores_state now w ref w1 w2 front name now2 r w3
    (Hcreate : bk_create root now w = (Ok ref, w1))
    (Hkept : w_files w2 !! bk_path ref = w_files w1 !! bk_path ref)
    (Hkept' : w_files w2 !! bk_manifest_path ref = w_files w1 !! bk_manifest_path ref)
    (Hdir : is_file (front ++ [name]) (w_files w2) = path_exists (front ++ [name]) (w_files w2))
    (Hrestore : restore_to root ref (front ++ [name]) now2 w2 = (r, w3)) :
  w_files w3 !! (front ++ [name]) = Some (db_image (w_db w))
  ∧ (∀ p, p ≠ front ++ [name] →
       p ≠ restore_name (front ++ [name]) name (drop_dashes (uuid_at (w_tick w2))) →
       w_files w3 !! p = w_files w2 !! p)
  ∧ (∀ e, r = Raise e → exn_cls e = IntegrityError).
Proof.
  apply bk_create_run in Hcreate as (Ep & Em & Es & Hb & Hm). rewrite <- Hkept in Hb. rewrite <- Hkept' in Hm.
  pose proof (bk_verify_run _ _ _ _ _ Ep Em Hb Hm) as Hv.
  rewrite Z.eqb_refl, Es, String.eqb_refl, db_image_ok in Hv. symmetry in Es.
  destruct (restore_to_run ref front name now2 w2 _ r w3 Hv Hb Es (db_image_ok _) Hrestore)
    as [(_ & Ht & _)|[(_ & Hf & Hx & _)|(-> & _ & He)]].
  - rewrite Ep in Ht. by apply restore_name_not_image in Ht.
  - congruence.
  - split_and!; [apply lookup_insert_eq| |done]. intros p Hp Ht. by rewrite lookup_insert_ne, lookup_delete_ne by done.
Qed.

(** A restore never leaves a bad database behind: however [restore_to] ends,
    and for any reference, the target is either as it was or holds the bytes of
    the backup file, which have the referenced digest and pass the integrity
    check; when it returns, the latter. *)
Theorem restore_leaves_valid_target ref front name now w r w'
    (Hrestore : restore_to root ref (front ++ [name]) now w = (r, w')) :
  let restored := ∃ bytes, w_files w' !! (front ++ [name]) = Some bytes ∧ w_files w !! bk_path ref = Some bytes
                    ∧ sha256_hex bytes = bk_sha256 ref ∧ integrity_ok bytes = true in
  (w_files w' !! (front ++ [name]) = w_files w !! (front ++ [name]) ∨ restored)
  ∧ (is_Ok r = true → restored).
Proof.
  intros restored. destruct (bk_verify root ref w) as [b wv] eqn:Hv. pose proof (bk_verify_world _ _ _ _ Hv) as ->.
  destruct b as [[]|e].
  2,3: unfold restore_to, mbind, M_bind in Hrestore; rewrite Hv in Hrestore;
    injection Hrestore as <- <-; by split; [left|].
  destruct (bk_verify_true _ _ _ Hv) as (_ & bytes & Hf & Hs & Hi).
  destruct (restore_to_run ref front name now w bytes r w' Hv Hf Hs Hi Hrestore)
    as [(-> & _ & m & ->)|[(F & _ & _ & m & ->)|(F & _ & _)]]; [by split; [left|] | |].
  - split; [left | done]. rewrite F, lookup_insert_ne; [done|]. apply restore_name_ne.
  - assert (restored) as Hr by (exists bytes; rewrite F; split_and!; [apply lookup_insert_eq|done..]).
    by split; [right|].
Qed.
End backup_props.
