(* ===== verification/Updates.v ===== *)
(** immune_core/update_manager.py and the update agent of immune_core/autonomy.py:
    release bundles, staging with an integrity gate, activation with a health check
    and rollback of the pointer.

    The theorems follow the definitions. *)

From stdpp Require Import pretty.
From S2P Require Import Prelude Json Sha256 Schema Files Ledger Policy Checkpoints Gateway StateBackup.
From S2P Require Import LedgerProps CheckpointProps StateBackupProps.

Record StagedRelease := { sg_id : string; sg_version : string; sg_path : path; sg_manifest_sha256 : string }.
Record ActivationResult := {
  ac_version : string; ac_active : bool; ac_rolled_back : bool; ac_backup_id : string; ac_previous_version : option string;
}.

(** ** Versions *)

(** [s.split(".")] *)
Fixpoint split_dot (s : string) : list string :=
  match s with
  | EmptyString => [""]
  | String c s' =>
      if Ascii.eqb c "." then "" :: split_dot s'
      else match split_dot s' with x :: rest => String c x :: rest | [] => [String c ""] end
  end.
(** [p.isdigit()] and [int(p)] *)
Definition digit (c : ascii) : option Z :=
  let n := Z.of_nat (nat_of_ascii c) in if ((48 <=? n) && (n <=? 57))%Z then Some (n - 48)%Z else None.
Fixpoint digits_value (acc : Z) (s : string) : option Z :=
  match s with
  | EmptyString => Some acc
  | String c s' => match digit c with Some d => digits_value (10 * acc + d) s' | None => None end
  end.
Definition number (p : string) : option Z := if p =s "" then None else digits_value 0 p.
Definition version_tuple (value : string) : result (list Z) :=
  match mapM number (split_dot (strip value)) with
  | Some l => Ok l
  | None => Raise (Exn UpdateError "release version must be numeric dotted form")
  end.
(** [a <= b] of two tuples *)
Fixpoint tuple_leb (a b : list Z) : bool :=
  match a, b with
  | [], _ => true
  | _ :: _, [] => false
  | x :: a', y :: b' => (x <? y)%Z || ((x =? y)%Z && tuple_leb a' b')
  end.

Section updates.
Context `{JsonText, Entropy, SqliteImage}.
(** The roots of the releases and of the state backups. *)
Context (root backup_root : path).

Definition MANIFEST : string := "release-manifest.json".
Definition staging : path := root ++ ["staging"].
Definition releases : path := root ++ ["releases"].
Definition pointer : path := root ++ ["current.json"].

(** [p.is_dir()]: some file lies strictly below *)
Definition is_dir (p : path) (files : gmap path string) : bool :=
  existsb (λ e, negb (bool_decide (fst e = []))) (below p files).
(** [path.name == MANIFEST] *)
Definition is_manifest (rel : path) : bool := bool_decide (List.last rel "" = MANIFEST).
Definition release_files (src : path) (files : gmap path string) : dict :=
  map (λ e, (posix e.1, JStr (sha256_hex e.2))) (List.filter (λ e, negb (is_manifest e.1)) (inventory_of src files)).

Definition build_manifest (src : path) (version : string) (files : gmap path string) : result dict :=
  match release_files src files with
  | [] => Raise (Exn UpdateError "release bundle is empty")
  | l => Ok [("schema", JInt 1); ("version", JStr version); ("files", JObj l)]
  end.

Definition write_manifest (src : path) (version : string) : IO path :=
  _ ← lift_result (version_tuple version);
  files ← gets w_files;
  manifest ← lift_result (build_manifest src version files);
  let target := src ++ [MANIFEST] in
  _ ← modify (with_files (<[target := dumps Indented (JObj manifest) +:+ newline]>));
  mret target.

(** [_verify_tree]; [manifest.get] raises on anything but an object *)
Definition verify_tree (dir : path) (manifest : json) (files : gmap path string) : result bool :=
  match manifest with
  | JObj m =>
      Ok (equals_one (dget m "schema")
          && match dget m "files" with
             | Some (JObj expected) => json_eq (JObj (release_files dir files)) (JObj expected)
             | _ => false
             end)
  | _ => Raise (Exn AttributeError "object has no attribute 'get'")
  end.

(** The parsed pointer; a stored null counts as none. *)
Definition current : IO (option json) :=
  files ← gets w_files;
  match files !! pointer with
  | None => mret None
  | Some text => match loads text with
                 | None => throw UpdateError "current release pointer is invalid"
                 | Some JNull => mret None
                 | Some data => mret (Some data)
                 end
  end.

(** [str(data["version"])] *)
Definition data_version (data : json) : result string :=
  match data with
  | JObj d => match dget d "version" with Some v => Ok (py_str v) | None => Raise (Exn KeyError "version") end
  | _ => Raise (Exn TypeError "indices must be integers or slices, not str")
  end.
(** [m.get("version", default)] as text *)
Definition manifest_version (manifest : json) (default : string) : result string :=
  match manifest with
  | JObj m => Ok (get_str m "version" default)
  | _ => Raise (Exn AttributeError "object has no attribute 'get'")
  end.

Definition stage (src : path) : IO StagedRelease :=
  files ← gets w_files;
  match files !! (src ++ [MANIFEST]) ≫= loads with
  | None => throw UpdateError "release manifest unavailable"
  | Some manifest =>
      version ← lift_result (manifest_version manifest "");
      tuple ← lift_result (version_tuple version);
      ok ← lift_result (verify_tree src manifest files);
      _ ← raise_if (negb ok) UpdateError "release bundle integrity failed";
      installed ← current;
      _ ← match installed with
          | None => mret tt
          | Some data =>
              v ← lift_result (data_version data);
              t ← lift_result (version_tuple v);
              raise_if (tuple_leb tuple t) UpdateError "release version must advance monotonically"
          end;
      stage_id ← uuid_hex;
      let dst := staging ++ [stage_id] in
      _ ← raise_if (path_exists dst files) OSError "File exists";
      _ ← modify (with_files (λ f, graft dst (subtree src f) f));
      copied ← gets w_files;
      again ← lift_result (verify_tree dst manifest copied);
      if negb again then
        _ ← modify (with_files (clear dst));
        throw UpdateError "staged release verification failed"
      else
        let manifest_sha := sha256_hex (dumps Compact manifest) in
        _ ← audit "release-manager" "release_staged" None
              [("stage_id", JStr stage_id); ("version", JStr version); ("manifest_sha256", JStr manifest_sha)] None;
        mret {| sg_id := stage_id; sg_version := version; sg_path := dst; sg_manifest_sha256 := manifest_sha |}
  end.

Definition write_pointer (payload : json) : IO unit :=
  hex ← uuid_hex;
  let tmp := root ++ [".current." +:+ hex +:+ ".tmp"] in
  _ ← modify (with_files (<[tmp := dumps Indented payload +:+ newline]>));
  modify (with_files (λ f, <[pointer := default "" (f !! tmp)]> (delete tmp f))).

(** [previous.get("version") if previous else None] *)
Definition previous_get (previous : option json) : result json :=
  match previous with
  | None => Ok JNull
  | Some v => if negb (truthy v) then Ok JNull
              else match v with
                   | JObj d => Ok (default JNull (dget d "version"))
                   | _ => Raise (Exn AttributeError "object has no attribute 'get'")
                   end
  end.
(** [str(previous["version"]) if previous else None] *)
Definition previous_version (previous : option json) : result (option string) :=
  match previous with
  | None => Ok None
  | Some v => if negb (truthy v) then Ok None
              else match data_version v with Ok s => Ok (Some s) | Raise e => Raise e end
  end.

(** The checks of [activate] before anything is installed: the previous pointer and
    a verified backup. *)
Definition prepare (staged : StagedRelease) (when : Q) : IO (option json * BackupRef) :=
  files ← gets w_files;
  let stage_path := sg_path staged in
  _ ← raise_if (negb (inside staging stage_path) || negb (is_dir stage_path files)) UpdateError "staged release escaped root";
  manifest ← match files !! (stage_path ++ [MANIFEST]) with
             | None => throw OSError "No such file or directory"
             | Some text => match loads text with
                            | None => throw JSONDecodeError "Expecting value"
                            | Some m => mret m
                            end
             end;
  version ← lift_result (manifest_version manifest "None");
  changed ← (if negb (version =s sg_version staged) then mret true
             else ok ← lift_result (verify_tree stage_path manifest files); mret (negb ok));
  _ ← raise_if changed UpdateError "staged release changed after verification";
  previous ← current;
  backup ← bk_create backup_root (Some when);
  ok ← bk_verify backup_root backup;
  _ ← raise_if (negb ok) UpdateError "pre-update state backup failed verification";
  mret (previous, backup).

Definition activate (staged : StagedRelease) (health_check : path → IO bool) (now : option Q) : IO ActivationResult :=
  when ← now_or_time now;
  prepared ← prepare staged when;
  let '(previous, backup) := prepared in
  let release_path := resolve_join releases (sg_version staged) in
  files ← gets w_files;
  _ ← raise_if (path_exists release_path files) UpdateError "release version already installed";
  _ ← modify (with_files (λ f, graft release_path (subtree (sg_path staged) f) f));
  _ ← write_pointer (JObj [("version", JStr (sg_version staged)); ("path", JStr ("/" +:+ posix release_path));
                           ("activated_at", JNum when); ("backup_id", JStr (bk_id backup))]);
  healthy ← catch (health_check release_path) (λ _, mret false);
  _ ← (if healthy then mret tt
       else
         _ ← match previous with None => modify (with_files (delete pointer)) | Some data => write_pointer data end;
         modify (with_files (clear release_path)));
  v ← lift_result (previous_get previous);
  _ ← audit "release-manager" (if healthy then "release_activated" else "release_activation_rolled_back") None
        [("version", JStr (sg_version staged)); ("backup_id", JStr (bk_id backup)); ("previous_version", v)] (Some when);
  pv ← lift_result (previous_version previous);
  mret {| ac_version := sg_version staged; ac_active := healthy; ac_rolled_back := negb healthy;
          ac_backup_id := bk_id backup; ac_previous_version := pv |}.

Definition rollback_to (version : string) (now : option Q) : IO json :=
  let release_path := resolve_join releases version in
  files ← gets w_files;
  _ ← raise_if (negb (inside releases release_path) || negb (is_dir release_path files)) UpdateError
        "rollback release is unavailable";
  manifest ← match files !! (release_path ++ [MANIFEST]) with
             | None => throw OSError "No such file or directory"
             | Some text => match loads text with
                            | None => throw JSONDecodeError "Expecting value"
                            | Some m => mret m
                            end
             end;
  ok ← lift_result (verify_tree release_path manifest files);
  _ ← raise_if (negb ok) UpdateError "rollback release failed integrity verification";
  when ← now_or_time now;
  let payload := JObj [("version", JStr version); ("path", JStr ("/" +:+ posix release_path));
                       ("activated_at", JNum when); ("rollback", JBool true)] in
  _ ← write_pointer payload;
  _ ← audit "release-manager" "release_rollback" None [("version", JStr version)] (Some when);
  mret payload.

(** ** The update agent *)
Definition agent_activate (mission_id : string) (staged : StagedRelease) (policy_decision : PolicyDecision)
    (health_check : path → IO bool) (now : option Q) : IO ActivationResult :=
  _ ← raise_if (negb (permitted policy_decision)) AutonomyError
        ("update blocked by policy: " +:+ pd_decision policy_decision);
  result ← activate staged health_check now;
  _ ← audit "agent:updater" "autonomous_update_result" (Some mission_id)
        [("version", JStr (ac_version result)); ("active", JBool (ac_active result));
         ("rolled_back", JBool (ac_rolled_back result)); ("backup_id", JStr (ac_backup_id result))] now;
  mret result.
End updates.

(** * Activation is all or nothing: a healthy release is installed as it was staged and
    pointed to, an unhealthy one leaves releases and pointer as they were; staged
    versions only advance. *)

Section updates_props.
Context `{JsonText, Entropy, SqliteImage}.
Context (root backup_root : path).

(** ** Trees that a run leaves alone *)
Definition keeps_tree (a : path) : relation World := λ w w', subtree a (w_files w') = subtree a (w_files w).
#[export] Instance keeps_tree_preorder a : PreOrder (keeps_tree a).
Proof. split; [done|]. intros x y z E1 E2. unfold keeps_tree in *. congruence. Qed.
Lemma keeps_tree_files {A} a (m : IO A) : respects same_files m → respects (keeps_tree a) m.
Proof. intros Hm w. unfold keeps_tree. by rewrite (Hm w). Qed.
Lemma keeps_tree_modify a f : (∀ files, subtree a (f files) = subtree a files) → respects (keeps_tree a) (modify (with_files f)).
Proof. intros Hf w. apply Hf. Qed.
Lemma apart_ne a b rel x : apart a b → a ++ rel ≠ b ++ x.
Proof. intros [Hab Hba] E. destruct (prefix_weak_total a b (a ++ rel)); [by apply prefix_app_r|rewrite E; by apply prefix_app_r|auto|auto]. Qed.
Lemma insert_apart a b x v files : apart a b → subtree a (<[b ++ x := v]> files) = subtree a files.
Proof.
  intros Hab. apply map_eq. intros rel. rewrite !lookup_subtree. apply lookup_insert_ne. intros E. by apply (apart_ne a b rel x).
Qed.
Lemma delete_apart a b x files : apart a b → subtree a (delete (b ++ x) files) = subtree a files.
Proof.
  intros Hab. apply map_eq. intros rel. rewrite !lookup_subtree. apply lookup_delete_ne. intros E. by apply (apart_ne a b rel x).
Qed.
Lemma bk_create_keeps a now : apart a backup_root → respects (keeps_tree a) (bk_create backup_root now).
Proof.
  intros Ha. unfold bk_create, hash_file.
  assert (∀ now, respects (keeps_tree a) (now_or_time now)) by (intros; apply keeps_tree_files, files_now).
  assert (respects (keeps_tree a) uuid4) by apply keeps_tree_files, files_uuid.
  assert (∀ {A} (f : DB → A), respects (keeps_tree a) (query f)) by (intros; apply keeps_tree_files, files_query).
  assert (∀ actor action mid payload now, respects (keeps_tree a) (audit actor action mid payload now))
    by (intros; apply keeps_tree_files, files_audit).
  repeat (cbn beta iota zeta; first [respects_step
    | apply keeps_tree_modify; intros ?; first [by apply insert_apart | by apply delete_apart]]).
Qed.

(** ** The pointer *)
Definition other (x : string) : Prop := x ≠ "current.json" ∧ x ≠ "releases" ∧ x ≠ "staging".
Lemma tmp_other hex : other (".current." +:+ hex +:+ ".tmp").
Proof. done. Qed.
Lemma write_pointer_run payload w u w' :
  write_pointer root payload w = (Ok u, w') →
  w_db w' = w_db w ∧ ∃ x, other x ∧ w_files w' = <[pointer root := dumps Indented payload +:+ newline]> (delete (root ++ [x]) (w_files w)).
Proof.
  unfold write_pointer. intros (hex & w1 & Hh & Hrun)%bind_Ok_inv.
  assert (w_db w1 = w_db w ∧ w_files w1 = w_files w) as [D F]. { unfold uuid_hex in Hh. minv Hh. by injection Hm as _ <-. }
  apply bind_Ok_inv in Hrun as (? & w2 & [= _ <-] & [= _ <-]). cbn. split; [done|].
  exists (".current." +:+ hex +:+ ".tmp"). split; [apply tmp_other|]. rewrite F, lookup_insert_eq, delete_insert_eq. done.
Qed.
Lemma current_run w :
  current root w = (match w_files w !! pointer root with
                    | None => Ok None
                    | Some text => match loads text with
                                   | None => Raise (Exn UpdateError "current release pointer is invalid")
                                   | Some JNull => Ok None
                                   | Some data => Ok (Some data)
                                   end
                    end, w).
Proof.
  unfold current. rewrite bind_gets_run. destruct (_ !! _) as [text|]; [|done]. destruct (loads text) as [[]|]; done.
Qed.
Lemma current_pointer w payload :
  w_files w !! pointer root = Some (dumps Indented payload +:+ newline) → payload ≠ JNull →
  current root w = (Ok (Some (jcanon payload)), w).
Proof.
  intros Hf Hn. rewrite current_run, Hf, loads_newline, loads_dumps. cbn [printed sorts]. by destruct payload.
Qed.

(** ** Activation *)
Lemma prepare_Ok staged when w previous backup w' :
  apart root backup_root → prepare root backup_root staged when w = (Ok (previous, backup), w') →
  inside (staging root) (sg_path staged) = true
  ∧ (∃ manifest, w_files w !! (sg_path staged ++ [MANIFEST]) ≫= loads = Some manifest
       ∧ manifest_version manifest "None" = Ok (sg_version staged)
       ∧ verify_tree (sg_path staged) manifest (w_files w) = Ok true)
  ∧ current root w = (Ok previous, w) ∧ subtree root (w_files w') = subtree root (w_files w).
Proof.
  intros Hapart. unfold prepare. rewrite bind_gets_run.
  intros (? & ? & [[Hin%negb_false_iff _]%orb_false_iff ->]%raise_if_Ok_inv & Hrun)%bind_Ok_inv.
  apply bind_Ok_inv in Hrun as (manifest & w1 & Hm & Hrun).
  destruct (w_files w !! (sg_path staged ++ [MANIFEST])) as [text|] eqn:Ht; [|done].
  destruct (loads text) as [m|] eqn:Hl; [|done]. injection Hm as -> <-.
  apply bind_Ok_inv in Hrun as (version & ? & [Hv ->]%lift_Ok_inv & Hrun).
  apply bind_Ok_inv in Hrun as (changed & w2 & Hch & Hrun).
  apply bind_Ok_inv in Hrun as (? & ? & [-> ->]%raise_if_Ok_inv & Hrun).
  assert (w2 = w ∧ version = sg_version staged ∧ verify_tree (sg_path staged) manifest (w_files w) = Ok true) as (-> & -> & Hok).
  { destruct (String.eqb_spec version (sg_version staged)) as [->|]; cbn [negb] in Hch; [|done].
    apply bind_Ok_inv in Hch as (ok & ? & [Hok ->]%lift_Ok_inv & [= Hb <-]). by destruct ok. }
  apply bind_Ok_inv in Hrun as (prev & w3 & Hcur & Hrun). pose proof Hcur as Hc2. rewrite current_run in Hc2.
  injection Hc2 as _ <-.
  apply bind_Ok_inv in Hrun as (bk & w4 & Hbk & Hrun). apply bind_Ok_inv in Hrun as (ok & w5 & ->%bk_verify_world & Hrun).
  apply bind_Ok_inv in Hrun as (? & ? & [_ ->]%raise_if_Ok_inv & [= <- <- <-]).
  split_and!; [done|by exists manifest|done|].
  exact (respects_run _ _ _ _ _ (bk_create_keeps root _ Hapart) Hbk).
Qed.

Lemma previous_kept {A} (m : IO A) : respects same_files m → ∀ w a w', m w = (Ok a, w') → w_files w' = w_files w.
Proof. intros Hm w a w' E. exact (respects_run _ _ _ _ _ Hm E). Qed.

(** What [activate] did to the files under the root, step by step. *)
Lemma activate_files staged health now w r w' :
  apart root backup_root → (∀ p w0, w_files (snd (health p w0)) = w_files w0) →
  activate root backup_root staged health now w = (Ok r, w') →
  let rp := resolve_join (releases root) (sg_version staged) in
  ∃ previous backup when files x, prepare root backup_root staged when (snd (now_or_time now w)) = (Ok (previous, backup), files)
    ∧ path_exists rp (w_files files) = false ∧ other x ∧ ac_rolled_back r = negb (ac_active r)
    ∧ let payload := JObj [("version", JStr (sg_version staged)); ("path", JStr ("/" +:+ posix rp));
                           ("activated_at", JNum when); ("backup_id", JStr (bk_id backup))] in
      let installed := <[pointer root := dumps Indented payload +:+ newline]>
        (delete (root ++ [x]) (graft rp (subtree (sg_path staged) (w_files files)) (w_files files))) in
      if ac_active r then w_files w' = installed
      else match previous with
           | None => w_files w' = clear rp (delete (pointer root) installed)
           | Some data => ∃ y, other y
               ∧ w_files w' = clear rp (<[pointer root := dumps Indented data +:+ newline]> (delete (root ++ [y]) installed))
           end.
Proof.
  intros Hapart Hhealth Hrun rp. unfold activate in Hrun. fold rp in Hrun.
  apply bind_Ok_inv in Hrun as (when & w0 & Hw & Hrun).
  apply bind_Ok_inv in Hrun as ([previous backup] & w1 & Hprep & Hrun).
  rewrite bind_gets_run in Hrun. apply bind_Ok_inv in Hrun as (? & ? & [Hfresh ->]%raise_if_Ok_inv & Hrun).
  rewrite bind_modify_run in Hrun.
  apply bind_Ok_inv in Hrun as (? & w2 & (_ & y & Hy & F2)%write_pointer_run & Hrun).
  apply bind_Ok_inv in Hrun as (healthy & w3 & Hh & Hrun).
  assert (w_files w3 = w_files w2) as F3.
  { unfold catch in Hh. specialize (Hhealth rp w2). destruct (health rp w2) as [[b|e] w2'];
      injection Hh as _ <-; exact Hhealth. }
  apply bind_Ok_inv in Hrun as (? & w4 & Hundo & Hrun).
  apply bind_Ok_inv in Hrun as (v & ? & [_ ->]%lift_Ok_inv & Hrun).
  apply bind_Ok_inv in Hrun as (? & w5 & (e & ts & _ & F5 & _)%audit_Ok_run & Hrun).
  apply bind_Ok_inv in Hrun as (pv & ? & [_ ->]%lift_Ok_inv & [= <- <-]). cbn [ac_active ac_rolled_back].
  exists previous, backup, when, w1, y. rewrite Hw. cbn [snd]. split_and!; try done. cbv zeta.
  cbn [w_files with_files] in F2. rewrite <- F2, <- F3, F5.
  destruct healthy; [by injection Hundo as _ <-|].
  apply bind_Ok_inv in Hundo as (? & w6 & Hback & [= _ <-]). destruct previous as [data|].
  - apply write_pointer_run in Hback as (_ & z & Hz & F6). exists z. split; [done|]. cbn. by rewrite F6.
  - injection Hback as _ <-. done.
Qed.

(** The pointer and the temporary files lie beside the trees. *)
Lemma beside_tree x d rel : other x ∨ x = "current.json" → d = "releases" ∨ d = "staging" → root ++ [x] ≠ (root ++ [d]) ++ rel.
Proof.
  intros Hx Hd. rewrite <- app_assoc. intros E%app_inv_head. injection E as -> _. unfold other in Hx. naive_solver.
Qed.
Lemma pointer_lookup (x d : string) (rel : path) (payload : string) (files : gmap path string) :
  other x → d = "releases" ∨ d = "staging" →
  <[pointer root := payload]> (delete (root ++ [x]) files) !! ((root ++ [d]) ++ rel) = files !! ((root ++ [d]) ++ rel).
Proof.
  intros Hx Hd. rewrite lookup_insert_ne by (apply beside_tree; [by right|done]).
  apply lookup_delete_ne. apply beside_tree; [by left|done].
Qed.
Lemma not_under a b : ¬ a `prefix_of` b → strip_prefix a b = None.
Proof. intros Hn. destruct (strip_prefix a b) as [r|] eqn:E; [|done]. apply strip_prefix_Some in E as ->. by destruct Hn; apply prefix_app_r. Qed.

Lemma path_exists_false p files : path_exists p files = false ↔ ∀ rel, files !! (p ++ rel) = None.
Proof.
  unfold path_exists. split.
  - intros Hb rel. destruct (files !! _) as [c|] eqn:E; [|done]. apply elem_of_below in E.
    destruct (below p files); [by apply elem_of_nil in E|done].
  - intros Hn. destruct (below p files) as [|[rel c] l] eqn:E; [done|].
    assert ((rel, c) ∈ below p files) as Hin by (rewrite E; by left). apply elem_of_below in Hin. by rewrite Hn in Hin.
Qed.

(** The trees around an installation that was undone. *)
Lemma undo_tree rp tree files d rel :
  rp = releases root ++ [d] → path_exists rp files = false →
  clear rp (graft rp tree files) !! (releases root ++ rel) = files !! (releases root ++ rel).
Proof.
  intros -> Hfresh. rewrite lookup_clear. destruct (strip_prefix _ _) as [r|] eqn:E; [|by apply lookup_graft_out].
  apply strip_prefix_Some in E. rewrite E. symmetry. by apply path_exists_false.
Qed.

Lemma clear_lookup_ext (rp p : path) (f g : gmap path string) : f !! p = g !! p → clear rp f !! p = clear rp g !! p.
Proof. intros E. rewrite !lookup_clear. by destruct (strip_prefix rp p). Qed.
Lemma current_not_null w v : current root w = (Ok (Some v), w) → v ≠ JNull.
Proof.
  rewrite current_run. destruct (_ !! _) as [text|]; [|done]. destruct (loads text) as [[]|]; intros [= <-]; done.
Qed.
Lemma current_files w w' cur :
  current root w = (Ok cur, w) → w_files w' !! pointer root = w_files w !! pointer root → current root w' = (Ok cur, w').
Proof. rewrite !current_run. intros E ->. injection E as ->. done. Qed.
Lemma pointer_beside v : strip_prefix (releases root ++ [v]) (pointer root) = None.
Proof.
  apply not_under. unfold releases, pointer. rewrite <- !app_assoc. intros Hp%prefix_app_inv.
  by apply prefix_cons_inv_1 in Hp.
Qed.

(** The files of an undone activation: the pointer rewritten or removed, the release
    cleared. *)
Lemma undone_trees rp tree files x text v final :
  rp = releases root ++ [v] → path_exists rp files = false → other x →
  (final = delete (pointer root) (<[pointer root := text]> (delete (root ++ [x]) (graft rp tree files)))
   ∨ ∃ y text2, other y ∧ final = <[pointer root := text2]> (delete (root ++ [y])
        (<[pointer root := text]> (delete (root ++ [x]) (graft rp tree files))))) →
  (∀ rel, clear rp final !! (releases root ++ rel) = files !! (releases root ++ rel))
  ∧ ∀ rel, clear rp final !! (staging root ++ rel) = files !! (staging root ++ rel).
Proof.
  intros -> Hfresh Hx Hfinal. set (rp := releases root ++ [v]) in *.
  assert (∀ d rel, d = "releases" ∨ d = "staging" →
    final !! ((root ++ [d]) ++ rel) = graft rp tree files !! ((root ++ [d]) ++ rel)) as Hf.
  { intros d rel Hd. destruct Hfinal as [->|(y & text2 & Hy & ->)].
    - rewrite lookup_delete_ne by (apply beside_tree; [by right|done]). by apply pointer_lookup.
    - rewrite pointer_lookup by done. by apply pointer_lookup. }
  split; intros rel.
  - rewrite (clear_lookup_ext _ _ _ _ (Hf "releases" rel (or_introl eq_refl))). by apply (undo_tree rp tree files v).
  - rewrite (clear_lookup_ext _ _ _ _ (Hf "staging" rel (or_intror eq_refl))).
    assert (strip_prefix rp (staging root ++ rel) = None) as Hst.
    { apply not_under. unfold rp, releases, staging. rewrite <- !app_assoc. intros Hp%prefix_app_inv. by apply prefix_cons_inv_1 in Hp. }
    rewrite lookup_clear. fold (staging root). rewrite Hst. by apply lookup_graft_out.
Qed.

(** C38. Activation is all or nothing: when [activate] returns, with a health check that
    writes no files, the version was not installed before, the staged tree verified
    against its manifest, and staging is untouched.  If the release is active, the
    installed tree is the staged one, the pointer names it, and every other release
    is as before; if not, it was rolled back: the releases are exactly as before and
    the current pointer reads as it did. *)
Theorem activation_atomic staged health now w r w'
    (Hapart : apart root backup_root)
    (Hversion : resolve_join (releases root) (sg_version staged) = releases root ++ [sg_version staged])
    (Hhealth : ∀ p w0, w_files (snd (health p w0)) = w_files w0)
    (Hrun : activate root backup_root staged health now w = (Ok r, w')) :
  let rp := releases root ++ [sg_version staged] in
  path_exists rp (w_files w) = false
  ∧ (∃ manifest, w_files w !! (sg_path staged ++ [MANIFEST]) ≫= loads = Some manifest
       ∧ verify_tree (sg_path staged) manifest (w_files w) = Ok true)
  ∧ subtree (staging root) (w_files w') = subtree (staging root) (w_files w)
  ∧ if ac_active r
    then subtree rp (w_files w') = subtree (sg_path staged) (w_files w)
         ∧ (∀ rel, strip_prefix rp (releases root ++ rel) = None →
              w_files w' !! (releases root ++ rel) = w_files w !! (releases root ++ rel))
         ∧ ∃ d, current root w' = (Ok (Some (JObj d)), w') ∧ dget d "version" = Some (JStr (sg_version staged))
             ∧ dget d "path" = Some (JStr ("/" +:+ posix rp))
    else ac_rolled_back r = true
         ∧ subtree (releases root) (w_files w') = subtree (releases root) (w_files w)
         ∧ ∃ cur, current root w = (Ok cur, w) ∧ current root w' = (Ok (jcanon <$> cur), w').
Proof.
  intros rp. apply activate_files in Hrun; [|done..]. rewrite Hversion in Hrun. fold rp in Hrun.
  destruct Hrun as (previous & backup & when & wp & x & Hprep & Hfresh & Hx & Hrb & Hfiles).
  set (w0 := snd (now_or_time now w)) in *. assert (w_files w0 = w_files w) as F0 by (unfold w0; by destruct now).
  apply prepare_Ok in Hprep as (Hin & (manifest & Hman & _ & Hver) & Hcur & Htree); [|done].
  rewrite F0 in *. assert (∀ rel, w_files wp !! (root ++ rel) = w_files w !! (root ++ rel)) as HT
    by (intros; by apply lookup_in_subtree).
  assert (∀ d rel, w_files wp !! ((root ++ [d]) ++ rel) = w_files w !! ((root ++ [d]) ++ rel)) as HD
    by (intros; rewrite <- !app_assoc; apply HT).
  assert (∀ rel, strip_prefix rp (staging root ++ rel) = None) as Hst.
  { intros rel. apply not_under. unfold rp, releases, staging. rewrite <- !app_assoc. intros Hp%prefix_app_inv.
    by apply prefix_cons_inv_1 in Hp. }
  split; [|split; [by exists manifest|]].
  { apply path_exists_false. intros rel. unfold rp, releases. rewrite <- (app_assoc root), <- app_assoc, <- HT.
    rewrite path_exists_false in Hfresh. specialize (Hfresh rel). unfold rp, releases in Hfresh.
    by rewrite <- (app_assoc root), <- app_assoc in Hfresh. }
  destruct (ac_active r).
  - rewrite Hfiles. split_and!.
    + apply map_eq. intros rel. rewrite !lookup_subtree. unfold staging. rewrite pointer_lookup by auto.
      rewrite lookup_graft_out by apply Hst. apply HD.
    + apply bool_decide_eq_true in Hin as [[y Hy] _]. rewrite Hy in *.
      rewrite <- (subtree_extend (staging root) y (w_files wp) (w_files w)) by (apply map_eq; intros; rewrite !lookup_subtree; apply HD).
      etrans; [|exact (subtree_graft_fresh rp _ (w_files wp) Hfresh)]. apply map_eq. intros rel. rewrite !lookup_subtree.
      replace (rp ++ rel) with ((root ++ ["releases"]) ++ (sg_version staged :: rel))
        by (unfold rp, releases; by rewrite <- !app_assoc).
      by rewrite pointer_lookup by auto.
    + intros rel Hrel. unfold releases. rewrite pointer_lookup by auto. rewrite lookup_graft_out by done. apply HD.
    + cbv zeta in Hfiles. match type of Hfiles with context [dumps Indented ?v] => pose proof (current_pointer w' v) as Hc end.
      rewrite Hfiles in Hc. specialize (Hc (lookup_insert_eq _ _ _) ltac:(done)).
      eexists. split; [exact Hc|]. split; reflexivity.
  - rewrite Hrb. assert (∃ final, w_files w' = clear rp final ∧ final !! pointer root = match previous with
        | None => None | Some data => Some (dumps Indented data +:+ newline) end
      ∧ (∀ rel, clear rp final !! (releases root ++ rel) = w_files wp !! (releases root ++ rel))
      ∧ ∀ rel, clear rp final !! (staging root ++ rel) = w_files wp !! (staging root ++ rel)) as (final & Ef & Hp & Hr & Hs).
    { destruct previous as [data|].
      - destruct Hfiles as (y & Hy & Ef). eexists. split; [exact Ef|]. split; [apply lookup_insert_eq|].
        eapply (undone_trees rp _ _ x); [done..|]. right. eexists _, _. split; [exact Hy|reflexivity].
      - eexists. split; [exact Hfiles|]. split; [apply lookup_delete_eq|]. eapply (undone_trees rp _ _ x); [done..|]. by left. }
    rewrite Ef. split_and!; [|done| |].
    + apply map_eq. intros rel. rewrite !lookup_subtree, Hs. apply HD.
    + apply map_eq. intros rel. rewrite !lookup_subtree, Hr. apply HD.
    + exists previous. split; [eapply current_files; [exact Hcur|by rewrite F0]|].
      assert (w_files w' !! pointer root = final !! pointer root) as Hp'.
      { rewrite Ef, lookup_clear. unfold rp. by rewrite pointer_beside. }
      destruct previous as [data|]; cbn.
      * apply current_pointer; [by rewrite Hp'|]. by eapply current_not_null.
      * rewrite current_run, Hp', Hp. done.
Qed.

(** ** Staging *)

(** Only newer, intact bundles are staged: when [stage] returns, the bundle matches
    its manifest, its version is numeric and strictly above the current one, the
    staged copy has exactly the bundle's files, verifies itself, and no other file
    changed. *)
Theorem staged_version_advances src w s w'
    (Hrun : stage root src w = (Ok s, w')) :
  ∃ manifest tuple cur, w_files w !! (src ++ [MANIFEST]) ≫= loads = Some manifest
    ∧ verify_tree src manifest (w_files w) = Ok true ∧ verify_tree (sg_path s) manifest (w_files w') = Ok true
    ∧ version_tuple (sg_version s) = Ok tuple ∧ current root w = (Ok cur, w)
    ∧ (∀ data, cur = Some data → ∃ v t, data_version data = Ok v ∧ version_tuple v = Ok t ∧ tuple_leb tuple t = false)
    ∧ inside (staging root) (sg_path s) = true ∧ subtree (sg_path s) (w_files w') = subtree src (w_files w)
    ∧ ∀ p, strip_prefix (sg_path s) p = None → w_files w' !! p = w_files w !! p.
Proof.
  unfold stage in Hrun. rewrite bind_gets_run in Hrun.
  destruct (w_files w !! (src ++ [MANIFEST]) ≫= loads) as [manifest|] eqn:Hm; [|done].
  apply bind_Ok_inv in Hrun as (version & ? & [Hv ->]%lift_Ok_inv & Hrun).
  apply bind_Ok_inv in Hrun as (tuple & ? & [Ht ->]%lift_Ok_inv & Hrun).
  apply bind_Ok_inv in Hrun as (ok & ? & [Hok ->]%lift_Ok_inv & Hrun).
  apply bind_Ok_inv in Hrun as (? & ? & [->%negb_false_iff ->]%raise_if_Ok_inv & Hrun).
  apply bind_Ok_inv in Hrun as (cur & w1 & Hcur & Hrun). pose proof Hcur as Hc. rewrite current_run in Hc. injection Hc as _ <-.
  apply bind_Ok_inv in Hrun as (? & w2 & Hmono & Hrun).
  assert (w2 = w ∧ ∀ data, cur = Some data → ∃ v t, data_version data = Ok v ∧ version_tuple v = Ok t
    ∧ tuple_leb tuple t = false) as [-> Hadv].
  { destruct cur as [data|]; [|by injection Hmono as _ <-].
    apply bind_Ok_inv in Hmono as (v & ? & [Hdv ->]%lift_Ok_inv & Hmono).
    apply bind_Ok_inv in Hmono as (t & ? & [Htv ->]%lift_Ok_inv & [Hle ->]%raise_if_Ok_inv).
    split; [done|]. intros ? [= <-]. by exists v, t. }
  apply bind_Ok_inv in Hrun as (hex & w3 & Hh & Hrun).
  assert (w_files w3 = w_files w) as F3. { unfold uuid_hex in Hh. minv Hh. by injection Hm0 as _ <-. }
  apply bind_Ok_inv in Hrun as (? & ? & [Hfresh ->]%raise_if_Ok_inv & Hrun).
  rewrite bind_modify_run, bind_gets_run in Hrun.
  apply bind_Ok_inv in Hrun as (again & ? & [Hagain ->]%lift_Ok_inv & Hrun). destruct again; cbn [negb] in Hrun; [|by minv Hrun].
  apply bind_Ok_inv in Hrun as (? & w5 & (e & ts & _ & F5 & _)%audit_Ok_run & [= <- <-]). cbn [sg_path sg_version].
  cbn [w_files with_files] in F5, Hagain. rewrite F5. rewrite F3 in *.
  exists manifest, tuple, cur. split_and!; try done.
  - apply inside_snoc.
  - by apply subtree_graft_fresh.
  - intros p Hp. by apply lookup_graft_out.
Qed.
End updates_props.
