(* ===== verification/Lock.v ===== *)
(** The SupervisorLock of immune_core/continuous.py, twice: as the operations one
    process runs, and as the system calls several processes interleave. *)

From S2P Require Import Prelude Json Schema Files.

Record SupervisorLock := {
  lk_path : path; lk_stale_after_seconds : Q; lk_token : string; lk_owned : bool;
}.
Definition set_owned (b : bool) (lk : SupervisorLock) : SupervisorLock :=
  {| lk_path := lk_path lk; lk_stale_after_seconds := lk_stale_after_seconds lk; lk_token := lk_token lk;
     lk_owned := b |}.

Section lock.
Context `{JsonText, Entropy}.

Definition lock_init (p : path) (stale_after_seconds : Q) : IO SupervisorLock :=
  _ ← raise_if (qle stale_after_seconds 0) ValueError "stale_after_seconds must be positive";
  token ← uuid_hex;
  mret {| lk_path := p; lk_stale_after_seconds := stale_after_seconds; lk_token := token; lk_owned := false |}.

Definition lock_payload (pid : Z) (when : Q) (token : string) : string :=
  dumps Sorted (JObj [("pid", JInt pid); ("created_at", JNum when); ("token", JStr token)]).

(** [float(current.get("created_at", 0))], 0.0 when the file cannot be read or
    parsed or the value is no number; a JSON value that is no object has no
    [get] *)
Definition lock_created_at (text : option string) : result Q :=
  match text ≫= loads with
  | None => Ok 0%Q
  | Some (JObj current) =>
      match py_float (default (JInt 0) (dget current "created_at")) with
      | Ok t => Ok t
      | Raise _ => Ok 0%Q
      end
  | Some _ => Raise (Exn AttributeError "object has no attribute 'get'")
  end.

(** ** One process *)

(** the loop of [acquire] *)
Fixpoint lock_attempts (n : nat) (lk : SupervisorLock) (when : Q) (payload : string) : IO SupervisorLock :=
  match n with
  | O => throw ContinuousOperationError "could not acquire supervisor lock"
  | S n' =>
      files ← gets w_files;
      if negb (path_exists (lk_path lk) files) then
        _ ← modify (with_files (<[lk_path lk := payload]>));
        mret (set_owned true lk)
      else
        created_at ← lift_result (lock_created_at (files !! lk_path lk));
        _ ← raise_if (qle (when - created_at) (lk_stale_after_seconds lk))
              ContinuousOperationError "supervisor already active";
        _ ← raise_if (negb (is_file (lk_path lk) files)) OSError "Is a directory";
        _ ← modify (with_files (delete (lk_path lk)));
        lock_attempts n' lk when payload
  end.

Definition lock_acquire (pid : Z) (lk : SupervisorLock) (now : option Q) : IO SupervisorLock :=
  when ← now_or_time now;
  lock_attempts 2 lk when (lock_payload pid when (lk_token lk)).

Definition lock_release (lk : SupervisorLock) : IO SupervisorLock :=
  if negb (lk_owned lk) then mret lk
  else
    files ← gets w_files;
    match files !! lk_path lk ≫= loads with
    | None => mret (set_owned false lk)
    | Some (JObj current) =>
        _ ← (if py_str (default JNull (dget current "token")) =s lk_token lk
             then modify (with_files (delete (lk_path lk))) else mret tt);
        mret (set_owned false lk)
    | Some _ => throw AttributeError "object has no attribute 'get'"
    end.

(** ** Several processes

    The system calls of [acquire], one per step.  The lock file has an inode, so
    that a write through an old descriptor does not reach a new file of the same
    name. *)
Record lock_file := { lf_inode : nat; lf_text : string }.
Record lock_fs := { ls_next : nat; ls_file : option lock_file }.

Inductive lock_pc :=
| AtOpen (attempts : nat)     (* os.open(O_CREAT | O_EXCL) *)
| AtWrite (fd : nat)          (* os.write, os.close *)
| AtRead (attempts : nat)     (* read_text and the staleness test *)
| AtUnlink (attempts : nat)   (* unlink(missing_ok=True) *)
| Acquired
| Refused (e : exn).

(** A contender: when it started and what it writes. *)
Record contender := { ct_when : Q; ct_stale : Q; ct_payload : string }.

Definition lock_step (c : contender) (pc : lock_pc) (fs : lock_fs) : option (lock_pc * lock_fs) :=
  match pc with
  | AtOpen O => Some (Refused (Exn ContinuousOperationError "could not acquire supervisor lock"), fs)
  | AtOpen (S n) =>
      match ls_file fs with
      | None => Some (AtWrite (ls_next fs),
                      {| ls_next := S (ls_next fs); ls_file := Some {| lf_inode := ls_next fs; lf_text := "" |} |})
      | Some _ => Some (AtRead n, fs)
      end
  | AtWrite fd =>
      Some (Acquired,
        match ls_file fs with
        | Some f => if Nat.eqb (lf_inode f) fd
                    then {| ls_next := ls_next fs; ls_file := Some {| lf_inode := fd; lf_text := ct_payload c |} |}
                    else fs
        | None => fs
        end)
  | AtRead n =>
      match lock_created_at (lf_text <$> ls_file fs) with
      | Raise e => Some (Refused e, fs)
      | Ok created_at =>
          if qle (ct_when c - created_at) (ct_stale c)
          then Some (Refused (Exn ContinuousOperationError "supervisor already active"), fs)
          else Some (AtUnlink n, fs)
      end
  | AtUnlink n => Some (AtOpen n, {| ls_next := ls_next fs; ls_file := None |})
  | Acquired | Refused _ => None
  end.

(** One contender moves. *)
Record lock_system := { ss_fs : lock_fs; ss_pcs : list lock_pc }.
Inductive system_step (cs : list contender) : lock_system → lock_system → Prop :=
| contender_moves i c pc pc' s fs' :
    cs !! i = Some c → ss_pcs s !! i = Some pc → lock_step c pc (ss_fs s) = Some (pc', fs') →
    system_step cs s {| ss_fs := fs'; ss_pcs := <[i := pc']> (ss_pcs s) |}.
End lock.
