(* ===== verification/LockProps.v ===== *)
(** The supervisor lock excludes a second supervisor while it is fresh; two
    processes that find the same stale lock can both take it. *)

From S2P Require Import Prelude Json Schema Files Lock.

Lemma path_exists_file p files text : files !! p = Some text → path_exists p files = true.
Proof.
  intros Hf. unfold path_exists. destruct (below p files) as [|] eqn:E; [|done].
  assert (([] : path, text) ∈ below p files) as Hx by (apply elem_of_below; by rewrite app_nil_r).
  rewrite E in Hx. by apply elem_of_nil in Hx.
Qed.

(** Nothing lies below a path. *)
Definition plain_path (p : path) (files : gmap path string) : Prop := ∀ rel, rel ≠ [] → files !! (p ++ rel) = None.
Lemma plain_path_file p files : plain_path p files → path_exists p files = is_file p files.
Proof.
  intros Hp. unfold is_file. destruct (files !! p) as [text|] eqn:Ef.
  - rewrite bool_decide_eq_true_2 by done. by eapply path_exists_file.
  - rewrite bool_decide_eq_false_2 by (by intros [? ?]). unfold path_exists.
    destruct (below p files) as [|[rel c] l] eqn:E; [done|].
    assert ((rel, c) ∈ below p files) as Hx by (rewrite E; by left). apply elem_of_below in Hx.
    destruct rel as [|x rel]; [by rewrite app_nil_r, Ef in Hx|]. by rewrite Hp in Hx.
Qed.
Lemma plain_path_delete p files : plain_path p files → plain_path p (delete p files).
Proof.
  intros Hp rel Hr. rewrite lookup_delete_ne; [by apply Hp|]. intros E.
  apply (f_equal length) in E. rewrite length_app in E. destruct rel; [done|simpl in E; lia].
Qed.

Section lock_props.
Context `{JsonText, Entropy}.

Lemma lock_payload_created pid t token : lock_created_at (Some (lock_payload pid t token)) = Ok t.
Proof. unfold lock_created_at, lock_payload. cbn [mbind option_bind]. rewrite loads_dumps. reflexivity. Qed.

Lemma lock_acquire_writes pid lk t w lk' w' :
  lock_acquire pid lk (Some t) w = (Ok lk', w') →
  lk' = set_owned true lk ∧ w_files w' !! lk_path lk = Some (lock_payload pid t (lk_token lk)).
Proof.
  unfold lock_acquire. cbn [now_or_time]. rewrite bind_ret_run. generalize (lock_payload pid t (lk_token lk)) as text.
  generalize 2 as n. intros n text. revert w. induction n as [|n IH]; intros w; cbn [lock_attempts]; [done|].
  rewrite bind_gets_run. destruct (negb _).
  - intros (? & ? & [= _ <-] & [= <- <-])%bind_Ok_inv. split; [done|]. apply lookup_insert_eq.
  - intros (c & ? & [_ ->]%lift_Ok_inv & Hrun)%bind_Ok_inv.
    apply bind_Ok_inv in Hrun as (? & ? & [_ ->]%raise_if_Ok_inv & Hrun).
    apply bind_Ok_inv in Hrun as (? & ? & [_ ->]%raise_if_Ok_inv & Hrun).
    apply bind_Ok_inv in Hrun as (? & ? & [= _ <-] & Hrun). by apply IH in Hrun.
Qed.

Lemma fresh_lock_refuses lk t created payload n w text :
  w_files w !! lk_path lk = Some text → lock_created_at (Some text) = Ok created →
  (t - created <= lk_stale_after_seconds lk)%Q →
  lock_attempts (S n) lk t payload w = (Raise (Exn ContinuousOperationError "supervisor already active"), w).
Proof.
  intros Hf Hc Ht. cbn [lock_attempts]. rewrite bind_gets_run, (path_exists_file _ _ _ Hf), Hf, Hc. cbn [negb].
  rewrite bind_lift_Ok. by rewrite (proj2 (qle_true _ _) Ht).
Qed.

(** One supervisor at a time: once a process acquired the lock at time [t1],
    as long as its file is left alone every other acquire that starts at most
    the stale limit later is refused and changes nothing; the holder's release
    removes the file, and nobody else's release does. *)
Theorem lock_excludes pid1 lk1 t1 w lk1' w1 w2 pid2 lk2 t2
    (Hacquire : lock_acquire pid1 lk1 (Some t1) w = (Ok lk1', w1))
    (Hkept : w_files w2 !! lk_path lk1 = w_files w1 !! lk_path lk1)
    (Hsame : lk_path lk2 = lk_path lk1) (Hother : lk_token lk2 ≠ lk_token lk1)
    (Hfresh : (t2 - t1 <= lk_stale_after_seconds lk2)%Q) :
  lock_acquire pid2 lk2 (Some t2) w2
    = (Raise (Exn ContinuousOperationError "supervisor already active"), w2)
  ∧ lock_release lk1' w2 = (Ok (set_owned false lk1), with_files (delete (lk_path lk1)) w2)
  ∧ w_files (snd (lock_release lk2 w2)) = w_files w2.
Proof.
  apply lock_acquire_writes in Hacquire as [-> Hf]. rewrite <- Hkept in Hf. split_and!.
  - unfold lock_acquire. cbn [now_or_time]. rewrite bind_ret_run.
    eapply fresh_lock_refuses; [by rewrite Hsame | apply lock_payload_created | done].
  - unfold lock_release. cbn [lk_owned set_owned negb lk_path]. rewrite bind_gets_run, Hf.
    cbn [mbind option_bind]. unfold lock_payload. rewrite loads_dumps. cbn -[String.eqb].
    by rewrite String.eqb_refl.
  - unfold lock_release. destruct (negb (lk_owned lk2)); [done|]. rewrite bind_gets_run, Hsame, Hf.
    cbn [mbind option_bind]. unfold lock_payload. rewrite loads_dumps. cbn -[String.eqb].
    rewrite (proj2 (String.eqb_neq _ _)); [done|]. by apply not_eq_sym.
Qed.

(** ** The system calls of one process are [acquire] *)
Fixpoint run_alone (fuel : nat) (c : contender) (pc : lock_pc) (fs : lock_fs) : lock_pc * lock_fs :=
  match fuel with
  | O => (pc, fs)
  | S n => match lock_step c pc fs with Some (pc', fs') => run_alone n c pc' fs' | None => (pc, fs) end
  end.
Definition file_text (fs : lock_fs) : option string := lf_text <$> ls_file fs.

Definition contender_of (lk : SupervisorLock) (t : Q) (text : string) : contender :=
  {| ct_when := t; ct_stale := lk_stale_after_seconds lk; ct_payload := text |}.

Lemma run_alone_stuck fuel c pc fs : lock_step c pc fs = None → run_alone fuel c pc fs = (pc, fs).
Proof. intros E. destruct fuel; simpl; [done|]. by rewrite E. Qed.

Lemma alone_refines lk t text n : ∀ fuel w fs r w',
  3 * n + 1 ≤ fuel → file_text fs = w_files w !! lk_path lk →
  plain_path (lk_path lk) (w_files w) →
  lock_attempts n lk t text w = (r, w') →
  let '(pc, fs') := run_alone fuel (contender_of lk t text) (AtOpen n) fs in
  pc = match r with Ok _ => Acquired | Raise e => Refused e end
  ∧ file_text fs' = w_files w' !! lk_path lk.
Proof.
  induction n as [|n IH]; intros fuel w fs r w' Hfuel Hfs Hdir; cbn [lock_attempts].
  - intros [= <- <-]. destruct fuel as [|fuel]; [lia|]. cbn [run_alone lock_step].
    by rewrite run_alone_stuck.
  - rewrite bind_gets_run, (plain_path_file _ _ Hdir). unfold is_file. destruct (w_files w !! lk_path lk) as [cur|] eqn:Ef.
    + rewrite bool_decide_eq_true_2 by done. cbn [negb]. intros Hrun.
      unfold file_text in Hfs. destruct (ls_file fs) as [f|] eqn:El; [|done]. simpl in Hfs. apply Some_inj in Hfs.
      do 2 (destruct fuel as [|fuel]; [lia|]). cbn [run_alone lock_step]. rewrite El. cbn [lock_step].
      rewrite El. change (lf_text <$> Some f) with (Some (lf_text f)). rewrite Hfs. unfold mbind, M_bind, lift_result in Hrun.
      destruct (lock_created_at (Some cur)) as [created|e].
      2:{ injection Hrun as <- <-. rewrite run_alone_stuck by done. split; [done|]. unfold file_text. by rewrite El, Ef, <- Hfs. }
      unfold raise_if in Hrun. cbn [ct_when ct_stale contender_of].
      destruct (qle _ _).
      { injection Hrun as <- <-. rewrite run_alone_stuck by done. split; [done|]. unfold file_text. by rewrite El, Ef, <- Hfs. }
      destruct fuel as [|fuel]; [lia|]. cbn [run_alone lock_step].
      change (lock_attempts n lk t text (with_files (delete (lk_path lk)) w) = (r, w')) in Hrun.
      refine (IH fuel _ _ r w' _ _ _ Hrun); [lia| |].
      * unfold file_text. cbn. by rewrite lookup_delete_eq.
      * by apply plain_path_delete.
    + rewrite bool_decide_eq_false_2 by (by intros [? ?]). cbn [negb]. intros [= <- <-].
      unfold file_text in Hfs. destruct (ls_file fs) as [f|] eqn:El; [done|].
      do 2 (destruct fuel as [|fuel]; [lia|]). cbn [run_alone lock_step]. rewrite El. cbn [lock_step ls_file lf_inode].
      rewrite Nat.eqb_refl. rewrite run_alone_stuck by done. split; [done|]. unfold file_text. cbn.
      by rewrite lookup_insert_eq.
Qed.
(** C40. The interleaved model is the code: a process that runs its system calls
    without interference ends as [acquire] does, acquired or refused with the
    same exception, with the same lock file; seven steps are enough. *)
Theorem lock_steps_refine_acquire pid lk t w fs r w'
    (Hfs : file_text fs = w_files w !! lk_path lk)
    (Hplain : plain_path (lk_path lk) (w_files w))
    (Hrun : lock_acquire pid lk (Some t) w = (r, w')) :
  let '(pc, fs') := run_alone 7 (contender_of lk t (lock_payload pid t (lk_token lk))) (AtOpen 2) fs in
  pc = match r with Ok _ => Acquired | Raise e => Refused e end
  ∧ file_text fs' = w_files w' !! lk_path lk.
Proof.
  unfold lock_acquire in Hrun. cbn [now_or_time] in Hrun. rewrite bind_ret_run in Hrun.
  refine (alone_refines lk t _ 2 7 w fs r w' _ Hfs Hplain Hrun). lia.
Qed.

(** ** Interleavings *)

(** Contenders that all find the lock fresh. *)
Definition fresh_for (created : Q) (c : contender) : Prop := (ct_when c - created <= ct_stale c)%Q.
Definition harmless (pc : lock_pc) : Prop :=
  match pc with AtOpen (S _) | AtRead _ | Refused _ => True | _ => False end.

(** A fresh lock holds against every interleaving: when a lock file names a
    time that is fresh for all contenders, however many there are and however
    their system calls interleave, none acquires the lock and the file stays. *)
Theorem fresh_lock_holds cs f created n s
    (Htext : lock_created_at (Some (lf_text f)) = Ok created)
    (Hfresh : Forall (fresh_for created) cs)
    (Hreach : rtc (system_step cs)
                {| ss_fs := {| ls_next := n; ls_file := Some f |}; ss_pcs := replicate (length cs) (AtOpen 2) |} s) :
  ls_file (ss_fs s) = Some f ∧ Acquired ∉ ss_pcs s.
Proof.
  assert (ls_file (ss_fs s) = Some f ∧ Forall harmless (ss_pcs s)) as [Hf Hh].
  { revert Hreach. generalize (replicate (length cs) (AtOpen 2)) as pcs, (Forall_replicate harmless (length cs) (AtOpen 2) I).
    intros pcs Hpcs Hreach. revert s Hreach. refine (rtc_ind_r _ _ _ _); [by split|].
    intros s1 s2 _ Hstep [Hf Hh]. destruct Hstep as [i c pc pc' s1 fs' Hc Hpc Hs]. cbn [ss_fs ss_pcs].
    pose proof (Forall_lookup_1 _ _ _ _ Hh Hpc) as Hp. pose proof (Forall_lookup_1 _ _ _ _ Hfresh Hc) as Hfc.
    unfold lock_step in Hs. destruct pc as [[|k]|fd|k|k| |e]; try done; rewrite Hf in Hs.
    - injection Hs as <- <-. split; [done|]. by apply Forall_insert.
    - change (lf_text <$> Some f) with (Some (lf_text f)) in Hs. rewrite Htext, (proj2 (qle_true _ _) Hfc) in Hs.
      injection Hs as <- <-. split; [done|]. by apply Forall_insert. }
  split; [done|]. intros Hin. rewrite Forall_forall in Hh. by apply Hh in Hin.
Qed.

(** C18. Stale recovery is not atomic: whenever two processes find the same stale
    lock file, there is an interleaving of their system calls after which both
    have acquired the lock. *)
Theorem stale_takeover_race c1 c2 f created n
    (Htext : lock_created_at (Some (lf_text f)) = Ok created)
    (Hstale1 : (ct_stale c1 < ct_when c1 - created)%Q)
    (Hstale2 : (ct_stale c2 < ct_when c2 - created)%Q) :
  ∃ s, rtc (system_step [c1; c2])
         {| ss_fs := {| ls_next := n; ls_file := Some f |}; ss_pcs := [AtOpen 2; AtOpen 2] |} s
       ∧ ss_pcs s = [Acquired; Acquired].
Proof.
  apply qle_false in Hstale1, Hstale2. eexists. split.
  - eapply rtc_l; [by eapply (contender_moves _ 0)|]. cbn.
    eapply rtc_l; [by eapply (contender_moves _ 1)|]. cbn.
    eapply rtc_l; [eapply (contender_moves _ 0); [done|done|]; cbn; rewrite Htext, Hstale1; done|]. cbn.
    eapply rtc_l; [eapply (contender_moves _ 1); [done|done|]; cbn; rewrite Htext, Hstale2; done|]. cbn.
    do 3 (eapply rtc_l; [by eapply (contender_moves _ 0)|]; cbn).
    do 3 (eapply rtc_l; [by eapply (contender_moves _ 1)|]; cbn).
    apply rtc_refl.
  - done.
Qed.
End lock_props.
