(* ===== verification/Continuous.v ===== *)
(** immune_core/continuous.py (the supervisor) and immune_core/watchdog.py.

    A probe is a callable given from outside: any computation that answers a
    boolean or raises. *)

From S2P Require Import Prelude Json Schema Files Storage Ledger Engine Observability Checkpoints StateBackup.

(** The configuration of a supervisor. *)
Record ContinuousSupervisor := {
  su_backup_root : path;                 (* backups.root *)
  su_tmp_root : path;                    (* where tempfile creates directories *)
  su_audited : bool;                     (* whether the observability store has a ledger *)
  su_probes : list (string * IO bool);
  su_backup_interval : Q;
  su_restore_drill_interval : Q;
  su_backup_retention : Z;
}.

Definition RUNTIME_STATES : list string := ["STARTING"; "RUNNING"; "DEGRADED"; "FAILED_SAFE"; "STOPPED"].

(** *** Updates of the singleton row *)
Definition initial_runtime : runtime_row :=
  {| rt_state := "STOPPED"; rt_boot_count := 0; rt_started_at := None; rt_heartbeat_at := None;
     rt_last_backup_at := None; rt_last_backup_id := None; rt_last_restore_drill_at := None;
     rt_last_restore_drill_ok := None; rt_last_error := None |}.
Definition runtime_starting (when : Q) (r : runtime_row) : runtime_row :=
  {| rt_state := "STARTING"; rt_boot_count := rt_boot_count r + 1; rt_started_at := Some when;
     rt_heartbeat_at := Some when; rt_last_backup_at := rt_last_backup_at r; rt_last_backup_id := rt_last_backup_id r;
     rt_last_restore_drill_at := rt_last_restore_drill_at r; rt_last_restore_drill_ok := rt_last_restore_drill_ok r;
     rt_last_error := None |}.
Definition runtime_set (state : string) (now : Q) (error : option string) (backup : option BackupRef)
    (restore_drill : option bool) (r : runtime_row) : runtime_row :=
  {| rt_state := state; rt_boot_count := rt_boot_count r; rt_started_at := rt_started_at r;
     rt_heartbeat_at := Some now;
     rt_last_backup_at := match backup with Some b => Some (bk_created_at b) | None => rt_last_backup_at r end;
     rt_last_backup_id := match backup with Some b => Some (bk_id b) | None => rt_last_backup_id r end;
     rt_last_restore_drill_at := match restore_drill with Some _ => Some now | None => rt_last_restore_drill_at r end;
     rt_last_restore_drill_ok := match restore_drill with Some b => Some b | None => rt_last_restore_drill_ok r end;
     rt_last_error := error |}.

(** [name.endswith(".json")] *)
Fixpoint ends_with (suffix s : string) : bool :=
  (s =s suffix) || match s with EmptyString => false | String _ s' => ends_with suffix s' end.

(** [with tempfile.TemporaryDirectory(prefix=...) as td: f td] *)
Definition removed_after {A} (td : path) (m : IO A) : IO A :=
  λ w, let '(r, w') := m w in (r, with_files (clear td) w').
Definition with_tempdir `{Entropy} {A} (tmp_root : path) (prefix : string) (f : path → IO A) : IO A :=
  name ← token_hex;
  let td := tmp_root ++ [prefix +:+ name] in removed_after td (f td).

Section supervisor.
Context `{JsonText, Entropy, SqliteImage}.
Context (su : ContinuousSupervisor).

(** [__init__] and [_init_schema] *)
Definition supervisor_init : IO unit :=
  _ ← raise_if (qle (su_backup_interval su) 0 || qle (su_restore_drill_interval su) 0)
        ValueError "supervisor intervals must be positive";
  _ ← raise_if (su_backup_retention su <? 2)%Z ValueError "backup_retention must be >= 2";
  _ ← exec (set_runtime_table true);
  exec (set_runtime_state (λ r, Some (default initial_runtime r))).

Definition status : IO runtime_row :=
  table ← query runtime_table;
  _ ← raise_if (negb table) OperationalError "no such table: runtime_state";
  row ← query runtime_state;
  match row with
  | None => throw ContinuousOperationError "runtime state disappeared"
  | Some r => mret r
  end.

Definition update_state (state : string) (now : Q) (error : option string) (backup : option BackupRef)
    (restore_drill : option bool) : IO unit :=
  _ ← raise_if (negb (str_in state RUNTIME_STATES)) ValueError "invalid runtime state";
  exec (set_runtime_state (fmap (runtime_set state now error backup restore_drill))).

Definition boot (now : option Q) : IO dict :=
  when ← now_or_time now;
  _ ← exec (set_runtime_state (fmap (runtime_starting when)));
  summary ← resume (Some when);
  _ ← update_state "RUNNING" when None None None;
  _ ← audit "continuous-supervisor" "continuous_runtime_booted" None
        [("recovered_leases", default (JInt 0) (dget summary "recovered_leases"))] (Some when);
  mret summary.

(** [_sqlite_integrity] *)
Definition sqlite_integrity (p : path) : IO bool :=
  files ← gets w_files; mret (bk_integrity p files).

Definition restore_drill (ref : BackupRef) (now : Q) : IO bool :=
  with_tempdir (su_tmp_root su) "immune-restore-drill-" (λ td,
    catch (restored ← restore_to (su_backup_root su) ref (td ++ ["state.sqlite3"]) (Some now);
           sqlite_integrity restored)
      (λ e, _ ← audit "continuous-supervisor" "restore_drill_failed" None
                  [("backup_id", JStr (bk_id ref)); ("error", JStr (class_name (exn_cls e)))] (Some now);
            mret false)).

(** ** Pruning *)

(** [self.backups.root.glob("*.json")] with their contents *)
Definition manifest_files (files : gmap path string) : list string :=
  omap (λ e : path * string, match e with ([name], text) => if ends_with ".json" name then Some text else None | _ => None end)
    (map_to_list (subtree (su_backup_root su) files)).

(** [(float(data["created_at"]), str(data["id"]))] of one manifest; None where the
    loop continues *)
Definition manifest_entry (text : string) : result (option (Q * string)) :=
  match loads text with
  | None => Ok None
  | Some (JObj data) =>
      match item data "created_at" with
      | Raise _ => Ok None
      | Ok created =>
          match py_float created with
          | Raise e => if bk_caught (exn_cls e) then Ok None else Raise e
          | Ok t => match dget data "id" with
                    | None => Ok None
                    | Some i => Ok (Some (t, py_str i))
                    end
          end
      end
  | Some _ => Raise (Exn TypeError "indices must be integers or slices, not str")
  end.

(** [sort(reverse=True)] on the pairs *)
Definition entry_geb (a b : Q * string) : bool :=
  if qlt (fst b) (fst a) then true
  else if qlt (fst a) (fst b) then false
  else String.leb (snd b) (snd a).

Definition unlink_existing (target : path) : IO Z :=
  files ← gets w_files;
  if is_file target files then _ ← modify (with_files (delete target)); mret 1%Z
  else if path_exists target files then throw OSError "Is a directory" else mret 0%Z.

Definition remove_backup (backup_id : string) : IO Z :=
  a ← unlink_existing (resolve_join (su_backup_root su) (backup_id +:+ ".json"));
  b ← unlink_existing (resolve_join (su_backup_root su) (backup_id +:+ ".sqlite3"));
  mret (a + b)%Z.

Definition prune_backups : IO Z :=
  files ← gets w_files;
  entries ← for_each (manifest_files files) (λ text, lift_result (manifest_entry text));
  let manifests := order_by entry_geb (omap id entries) in
  removed ← for_each (drop (Z.to_nat (su_backup_retention su)) manifests) (λ e, remove_backup (snd e));
  mret (fold_right Z.add 0%Z removed).

(** ** One cycle *)

Definition probe_leb (p q : string * IO bool) : bool := String.leb (fst p) (fst q).
Definition check_entry (ok : bool) (error : option string) : json :=
  JObj [("ok", JBool ok); ("error", jopt_str error)].

(** The body of the loop over the probes. *)
Definition run_probe (started : Q) (p : string * IO bool) : IO (string * (bool * option string)) :=
  r ← catch (ok ← snd p; mret (ok, if ok : bool then None else Some "probe returned false"))
        (λ e, mret (false, Some (class_name (exn_cls e) +:+ ": " +:+ exn_text e)));
  _ ← update_sensor_health ("self:" +:+ fst p) (fst r) (snd r) (Some started);
  mret (fst p, r).

Definition count_ok (l : list (string * (bool * option string))) : Z :=
  Z.of_nat (length (List.filter (λ r, fst (snd r)) l)).
Definition count_failed (l : list (string * (bool * option string))) : Z :=
  Z.of_nat (length (List.filter (λ r, negb (fst (snd r))) l)).

(** [last is None or started - float(last) >= interval] *)
Definition due (last : option Q) (started interval : Q) : bool :=
  match last with None => true | Some t => qle interval (started - t) end.

(** The periodic backup: the reference, once created, and the class of what went
    wrong. *)
Definition periodic_backup (started : Q) : IO (option BackupRef * option exn_class) :=
  created ← attempt (bk_create (su_backup_root su) (Some started));
  match created with
  | Raise e => mret (None, Some (exn_cls e))
  | Ok b =>
      checked ← attempt (
        ok ← bk_verify (su_backup_root su) b;
        _ ← raise_if (negb ok) ContinuousOperationError "periodic backup verification failed";
        _ ← prune_backups;
        mret tt);
      mret (Some b, match checked with Ok _ => None | Raise e => Some (exn_cls e) end)
  end.

Definition effective_backup (backup : option BackupRef) (last_backup_id : option string) : IO (option BackupRef) :=
  match backup, last_backup_id with
  | Some b, _ => mret (Some b)
  | None, Some i =>
      if i =s "" then mret None
      else r ← attempt (bk_get (su_backup_root su) i); mret (match r with Ok b => Some b | Raise _ => None end)
  | None, None => mret None
  end.

Definition tick_payload (state : string) (recovered : Z) (results : dict) (backup : option BackupRef)
    (restore_ok : option bool) : dict :=
  [("state", JStr state); ("recovered_leases", JInt recovered); ("probes", JObj results);
   ("backup_id", jopt_str (bk_id <$> backup));
   ("restore_drill_ok", match restore_ok with Some b => JBool b | None => JNull end)].

Definition supervisor_tick (now : option Q) : IO cycle_row :=
  started ← now_or_time now;
  recovered ← recover_expired_leases (Some started);
  results ← for_each (order_by probe_leb (su_probes su)) (run_probe started);
  state_row ← status;
  '(backup, failed) ← (if due (rt_last_backup_at state_row) started (su_backup_interval su)
                       then periodic_backup started else mret (None, None));
  effective ← effective_backup backup (rt_last_backup_id state_row);
  restore_ok ← (match effective with
                | Some b => if due (rt_last_restore_drill_at state_row) started (su_restore_drill_interval su)
                            then ok ← restore_drill b started; mret (Some ok) else mret None
                | None => mret None
                end);
  let probes_ok := count_ok results in
  let probes_failed := (count_failed results + (if failed : option exn_class then 1 else 0)
                        + (match restore_ok with Some false => 1 | _ => 0 end))%Z in
  let entries := map (λ r : string * (bool * option string), (fst r, check_entry (fst (snd r)) (snd (snd r)))) results in
  let entries1 := match failed with
                  | Some c => dset entries "periodic_backup" (check_entry false (Some (class_name c)))
                  | None => entries
                  end in
  let entries2 := match restore_ok with
                  | Some false => dset entries1 "restore_drill" (check_entry false (Some "restore drill failed"))
                  | _ => entries1
                  end in
  let state := if (probes_failed =? 0)%Z then "RUNNING" else "DEGRADED" in
  completed ← now_or_time now;
  ev ← evidence (su_audited su) "continuous_runtime_cycle" (tick_payload state recovered entries2 backup restore_ok)
         None (Some completed);
  cycle_id ← uuid4;
  rows ← query runtime_cycles;
  _ ← raise_if (row_exists cy_id cycle_id rows) IntegrityError "UNIQUE constraint failed: runtime_cycles.id";
  let cycle := {| cy_id := cycle_id; cy_started_at := started; cy_completed_at := completed; cy_state := state;
                  cy_recovered_leases := recovered; cy_probes_ok := probes_ok; cy_probes_failed := probes_failed;
                  cy_backup_id := bk_id <$> backup; cy_restore_drill_ok := restore_ok; cy_evidence_id := er_id ev |} in
  _ ← exec (set_runtime_cycles (λ l, l ++ [cycle]));
  _ ← update_state state completed (if (probes_failed =? 0)%Z then None else Some "one or more runtime checks failed")
        backup restore_ok;
  _ ← audit "continuous-supervisor" "continuous_runtime_cycle" None
        [("cycle_id", JStr cycle_id); ("state", JStr state); ("recovered_leases", JInt recovered);
         ("probes_failed", JInt probes_failed); ("backup_id", jopt_str (bk_id <$> backup));
         ("evidence_id", JStr (er_id ev))] (Some completed);
  mret cycle.

(** ** Running *)

(** The pause at the end of a cycle reads the monotonic clock; sleeping changes
    nothing else. *)
Definition pause (interval : Q) : IO unit :=
  if Qeq_bool interval 0 then mret tt else _ ← monotonic; mret tt.

(** One turn of either loop: whether the cycle was degraded. *)
Definition supervised_cycle (interval : Q) : IO bool :=
  _ ← monotonic;
  result ← supervisor_tick None;
  _ ← pause interval;
  mret (negb (cy_state result =s "RUNNING")).

Fixpoint cycle_loop (n : nat) (interval : Q) (degraded : Z) : IO Z :=
  match n with
  | O => mret degraded
  | S n' => d ← supervised_cycle interval; cycle_loop n' interval (degraded + (if d : bool then 1 else 0))
  end.

Record RunSummary := { rs_duration : Q; rs_cycles : Z; rs_degraded : Z; rs_state : string }.

Definition run_cycles (cycle_count : Z) (interval : Q) : IO RunSummary :=
  _ ← raise_if ((cycle_count <? 1)%Z || qlt interval 0) ValueError "invalid continuous runtime cycle bounds";
  started ← monotonic;
  degraded ← cycle_loop (Z.to_nat cycle_count) interval 0;
  ended ← monotonic;
  row ← status;
  mret {| rs_duration := ended - started; rs_cycles := cycle_count; rs_degraded := degraded; rs_state := rt_state row |}.

(** [while time.monotonic() - started < duration and cycles < max_cycles]: with
    [n] cycles left *)
Fixpoint timed_loop (n : nat) (started duration interval : Q) (cycles degraded : Z) : IO (Z * Z) :=
  t ← monotonic;
  if negb (qlt (t - started) duration) then mret (cycles, degraded)
  else match n with
       | O => mret (cycles, degraded)
       | S n' => d ← supervised_cycle interval;
                 timed_loop n' started duration interval (cycles + 1) (degraded + (if d : bool then 1 else 0))
       end.

Definition run_for (duration interval : Q) (max_cycles : Z) : IO RunSummary :=
  _ ← raise_if (qle duration 0 || qlt interval 0 || (max_cycles <? 1)%Z) ValueError "invalid continuous runtime bounds";
  started ← monotonic;
  '(cycles, degraded) ← timed_loop (Z.to_nat max_cycles) started duration interval 0 0;
  ended ← monotonic;
  row ← status;
  mret {| rs_duration := ended - started; rs_cycles := cycles; rs_degraded := degraded; rs_state := rt_state row |}.

Definition stop (now : option Q) : IO unit :=
  when ← now_or_time now;
  _ ← update_state "STOPPED" when None None None;
  _ ← audit "continuous-supervisor" "continuous_runtime_stopped" None [] (Some when);
  mret tt.
End supervisor.

(** ** The watchdog *)
Record WatchdogStatus := {
  wd_state : string; wd_runtime_state : option string; wd_heartbeat_age : option Q; wd_reason : string;
}.

Section watchdog.
Context `{Entropy}.
Context (stale_after_seconds : Q).

Definition watchdog_init : IO unit :=
  raise_if (qle stale_after_seconds 0) ValueError "stale_after_seconds must be positive".

Definition watchdog_check (now : option Q) : IO WatchdogStatus :=
  when ← now_or_time now;
  table ← query runtime_table;
  if negb table then mret {| wd_state := "UNKNOWN"; wd_runtime_state := None; wd_heartbeat_age := None;
                             wd_reason := "runtime state not initialized" |}
  else
    row ← query runtime_state;
    match row ≫= (λ r, (λ t, (r, t)) <$> rt_heartbeat_at r) with
    | None => mret {| wd_state := "STALE"; wd_runtime_state := rt_state <$> row; wd_heartbeat_age := None;
                      wd_reason := "heartbeat missing" |}
    | Some (r, beat) =>
        let age := py_max 0 (when - beat) in
        let answer state reason := {| wd_state := state; wd_runtime_state := Some (rt_state r);
                                      wd_heartbeat_age := Some age; wd_reason := reason |} in
        mret (if rt_state r =s "STOPPED" then answer "STOPPED" "runtime stopped intentionally"
              else if qlt stale_after_seconds age then answer "STALE" "supervisor heartbeat expired"
              else if str_in (rt_state r) ["DEGRADED"; "FAILED_SAFE"]
                   then answer "DEGRADED" "supervisor reports degraded state"
              else answer "HEALTHY" "heartbeat fresh")
    end.
End watchdog.
