(* ===== verification/ContinuousProps.v ===== *)
(** Every supervisor cycle is recorded as it went, the watchdog reports what the
    runtime row says, and pruning removes exactly the oldest backups. *)

From S2P Require Import Prelude Json Schema Files Storage Ledger LedgerProps Engine Observability.
From S2P Require Import ObservabilityProps Checkpoints StateBackup StateBackupProps Continuous.

Lemma respects_for_each_in {S A B} (R : relation S) `{!PreOrder R} (l : list A) (f : A → M S B) :
  (∀ x, x ∈ l → respects R (f x)) → respects R (for_each l f).
Proof.
  intros Hf. induction l as [|x l IH]; [apply respects_ret; typeclasses eauto|]. cbn [for_each].
  apply respects_bind; [typeclasses eauto | apply Hf; by left |]. intros y.
  apply respects_bind; [typeclasses eauto | apply IH; intros; apply Hf; by right |]. intros ys. apply respects_ret.
  typeclasses eauto.
Qed.

(** ** Steps that leave the supervisor's tables alone *)
Definition same_runtime : relation DB := λ d d', db_runtime d' = db_runtime d.
#[export] Instance same_runtime_preorder : PreOrder same_runtime.
Proof. split; [by intros d | intros x y z; unfold same_runtime; congruence]. Qed.
#[export] Hint Extern 1 (same_runtime _ _) => reflexivity : respects.

Lemma string_app_inj_r (a b c : string) : a +:+ c = b +:+ c → a = b.
Proof.
  revert b. induction a as [|x a IH]; intros [|y b] E; [done| | |].
  - apply (f_equal String.length) in E. rewrite !length_app_s in E. simpl in E. lia.
  - apply (f_equal String.length) in E. rewrite !length_app_s in E. simpl in E. lia.
  - change (String x (a +:+ c) = String y (b +:+ c)) in E. injection E as -> E. f_equal. by apply IH.
Qed.

Section runtime.
Context `{JsonText, Entropy, SqliteImage}.

Lemma recover_same_runtime now : respects (on_db same_runtime) (recover_expired_leases now).
Proof. unfold recover_expired_leases, recover_row. io_respects. Qed.
Lemma health_same_runtime s ok e ts : respects (on_db same_runtime) (update_sensor_health s ok e ts).
Proof. unfold update_sensor_health. io_respects. Qed.
Lemma evidence_same_runtime audited k p m ts : respects (on_db same_runtime) (evidence audited k p m ts).
Proof. unfold evidence. io_respects. Qed.
Lemma create_same_runtime root now : respects (on_db same_runtime) (bk_create root now).
Proof. unfold bk_create, hash_file. io_respects. Qed.
Lemma verify_same_runtime root ref : respects (on_db same_runtime) (bk_verify root ref).
Proof. unfold bk_verify, bk_check, item_str. io_respects. Qed.
Lemma get_same_runtime root i : respects (on_db same_runtime) (bk_get root i).
Proof. unfold bk_get, item_str. io_respects. Qed.
#[local] Hint Resolve verify_same_runtime : respects.
Lemma restore_same_runtime root ref t now : respects (on_db same_runtime) (restore_to root ref t now).
Proof. unfold restore_to, hash_file, os_replace, uuid_hex. io_respects. Qed.
Lemma prune_same_runtime su : respects (on_db same_runtime) (prune_backups su).
Proof. unfold prune_backups, remove_backup, unlink_existing. io_respects. Qed.
Lemma drill_same_runtime su ref now : respects (on_db same_runtime) (restore_drill su ref now).
Proof.
  unfold restore_drill, with_tempdir. apply respects_bind; [typeclasses eauto|io_respects|]. intros name. cbv zeta.
  intros w. unfold removed_after.
  match goal with |- context [catch ?m ?h w] => assert (respects (on_db same_runtime) (catch m h)) as Hk end.
  { apply respects_catch; [typeclasses eauto| |intros e; io_respects].
    apply respects_bind; [typeclasses eauto|apply restore_same_runtime|intros x; unfold sqlite_integrity; io_respects]. }
  specialize (Hk w). by destruct (catch _ _ w).
Qed.
#[local] Hint Resolve recover_same_runtime health_same_runtime evidence_same_runtime create_same_runtime get_same_runtime
  prune_same_runtime drill_same_runtime : respects.
Lemma periodic_same_runtime su t : respects (on_db same_runtime) (periodic_backup su t).
Proof. unfold periodic_backup. io_respects. Qed.
Lemma effective_same_runtime su b i : respects (on_db same_runtime) (effective_backup su b i).
Proof. unfold effective_backup. io_respects. Qed.

(** Probes that do not write the supervisor's own tables. *)
Definition quiet_probes (su : ContinuousSupervisor) : Prop :=
  ∀ p, p ∈ su_probes su → respects (on_db same_runtime) (snd p).

Lemma probes_same_runtime su t :
  quiet_probes su → respects (on_db same_runtime) (for_each (order_by probe_leb (su_probes su)) (run_probe t)).
Proof.
  intros Hq. apply respects_for_each_in; [typeclasses eauto|]. intros p Hp. rewrite order_by_perm in Hp.
  unfold run_probe. apply respects_bind; [typeclasses eauto| |intros r; io_respects].
  apply respects_catch; [typeclasses eauto| |intros e; io_respects].
  apply respects_bind; [typeclasses eauto|by apply Hq|intros b; io_respects].
Qed.
Lemma for_each_length {S A B} (f : A → M S B) l w ys w' :
  for_each l f w = (Ok ys, w') → length ys = length l.
Proof.
  revert w ys. induction l as [|x l IH]; intros w ys; cbn [for_each]; [by intros [= <- _]|].
  intros (y & w1 & _ & (zs & w2 & Hz & [= <- <-])%bind_Ok_inv)%bind_Ok_inv. simpl. f_equal. by eapply IH.
Qed.
Lemma counts_total l : (count_ok l + count_failed l = Z.of_nat (length l))%Z.
Proof.
  unfold count_ok, count_failed. induction l as [|[n [b e]] l IH]; [done|]. simpl in *. destruct b; simpl; lia.
Qed.

Definition cycle_error (c : cycle_row) : option string :=
  if (cy_probes_failed c =? 0)%Z then None else Some "one or more runtime checks failed".

(** What a returning cycle did to the supervisor's tables. *)
Lemma tick_run su now w c w' :
  quiet_probes su → supervisor_tick su now w = (Ok c, w') →
  ∃ r backup, runtime_state (w_db w) = Some r ∧ bk_id <$> backup = cy_backup_id c
    ∧ (∀ t, now = Some t → cy_started_at c = t ∧ cy_completed_at c = t)
    ∧ db_runtime (w_db w') = {| runtime_table := true;
        runtime_state := Some (runtime_set (cy_state c) (cy_completed_at c) (cycle_error c) backup (cy_restore_drill_ok c) r);
        runtime_cycles := runtime_cycles (w_db w) ++ [c] |}
    ∧ cy_state c = (if (cy_probes_failed c =? 0)%Z then "RUNNING" else "DEGRADED")
    ∧ (Z.of_nat (length (su_probes su)) <= cy_probes_ok c + cy_probes_failed c)%Z
    ∧ (0 <= cy_probes_failed c)%Z ∧ (cy_restore_drill_ok c = Some false → cy_probes_failed c ≠ 0%Z).
Proof.
  intros Hq Hrun. unfold supervisor_tick in Hrun.
  apply bind_Ok_inv in Hrun as (st & w1 & K1 & Hrun).
  apply bind_Ok_inv in Hrun as (rec & w2 & K2 & Hrun).
  apply bind_Ok_inv in Hrun as (res & w3 & K3 & Hrun).
  apply bind_Ok_inv in Hrun as (row & w4 & K4 & Hrun).
  apply bind_Ok_inv in Hrun as ([bk failed] & w5 & K5 & Hrun).
  apply bind_Ok_inv in Hrun as (eff & w6 & K6 & Hrun).
  apply bind_Ok_inv in Hrun as (drill & w7 & K7 & Hrun). cbv zeta in Hrun.
  apply bind_Ok_inv in Hrun as (comp & w8 & K8 & Hrun).
  apply bind_Ok_inv in Hrun as (ev & w9 & K9 & Hrun).
  apply bind_Ok_inv in Hrun as (cid & w10 & [= _ <-] & Hrun).
  apply bind_Ok_inv in Hrun as (rows & ? & [_ ->]%query_Ok_inv & Hrun).
  apply bind_Ok_inv in Hrun as (? & ? & [_ ->]%raise_if_Ok_inv & Hrun).
  apply bind_Ok_inv in Hrun as (? & w11 & [= _ <-] & Hrun).
  apply bind_Ok_inv in Hrun as (? & w12 & Hup & Hrun).
  apply bind_Ok_inv in Hrun as (? & w13 & (ae & at_ & D13 & _)%audit_Ok_run & Hrun). injection Hrun as <- <-.
  set (failures := (_ + _ + _)%Z) in *.
  unfold update_state in Hup. apply bind_Ok_inv in Hup as (? & ? & [_ ->]%raise_if_Ok_inv & [= _ <-]).
  assert (∀ t, now = Some t → st = t ∧ comp = t) as Htime
    by (intros t ->; unfold now_or_time, mret, M_ret in K1, K8; split; congruence).
  (* the steps before the insertion leave the runtime tables alone *)
  apply (respects_run _ _ _ _ _ (respects_now same_runtime now)) in K1.
  apply (respects_run _ _ _ _ _ (recover_same_runtime _)) in K2.
  pose proof (for_each_length _ _ _ _ _ K3) as Hlen.
  apply (respects_run _ _ _ _ _ (probes_same_runtime su st Hq)) in K3.
  unfold status in K4. apply bind_Ok_inv in K4 as (tb & ? & [-> ->]%query_Ok_inv & K4).
  apply bind_Ok_inv in K4 as (? & ? & [Htb%negb_false_iff ->]%raise_if_Ok_inv & K4).
  apply bind_Ok_inv in K4 as (row0 & ? & [-> ->]%query_Ok_inv & K4).
  destruct (runtime_state (w_db w3)) as [r|] eqn:Er; [|done]. injection K4 as -> <-.
  assert (on_db same_runtime w3 w5) as S5.
  { destruct (due _ _ _); [by apply (respects_run _ _ _ _ _ (periodic_same_runtime su st)) in K5|].
    injection K5 as _ _ <-. reflexivity. }
  apply (respects_run _ _ _ _ _ (effective_same_runtime su bk _)) in K6.
  assert (on_db same_runtime w6 w7) as S7.
  { assert (∀ o, (mret o : IO (option bool)) w6 = (Ok drill, w7) → on_db same_runtime w6 w7) as Hret.
    { intros o E. assert (w6 = w7) as <- by (unfold mret, M_ret in E; congruence). reflexivity. }
    destruct eff as [b|]; [destruct (due (rt_last_restore_drill_at row) _ _)|]; [|exact (Hret None K7)..].
    by apply bind_Ok_inv in K7 as (ok & ? & K7%(respects_run _ _ _ _ _ (drill_same_runtime su b st)) & [= _ <-]). }
  apply (respects_run _ _ _ _ _ (respects_now same_runtime now)) in K8.
  apply (respects_run _ _ _ _ _ (evidence_same_runtime _ _ _ _ _)) in K9.
  unfold on_db, same_runtime in *.
  assert (db_runtime (w_db w3) = db_runtime (w_db w)) as E3 by congruence.
  assert (db_runtime (w_db w9) = db_runtime (w_db w)) as E9 by congruence.
  exists row, bk. cbn [cy_state cy_completed_at cy_started_at cy_restore_drill_ok cy_backup_id cy_probes_failed cy_probes_ok].
  split_and!; try done.
  - by rewrite <- E3.
  - rewrite D13. cbn. rewrite E9. rewrite E3 in Er, Htb. by rewrite Er, Htb.
  - pose proof (counts_total res). rewrite Hlen, (Permutation_length (order_by_perm _ _)) in *.
    unfold failures. destruct failed, drill as [[]|]; lia.
  - unfold failures, count_failed. destruct failed, drill as [[]|]; lia.
  - unfold failures, count_failed. intros ->. destruct failed; lia.
Qed.
(** ** Cycles and the watchdog *)
Lemma watchdog_run stale t w r beat :
  runtime_table (w_db w) = true → runtime_state (w_db w) = Some r → rt_heartbeat_at r = Some beat → (0 < stale)%Q →
  ∃ s, watchdog_check stale (Some t) w = (Ok s, w)
    ∧ wd_state s = if rt_state r =s "STOPPED" then "STOPPED"
                   else if qlt stale (t - beat) then "STALE"
                   else if str_in (rt_state r) ["DEGRADED"; "FAILED_SAFE"] then "DEGRADED" else "HEALTHY".
Proof.
  intros Htb Hr Hb Hs. unfold watchdog_check. cbn [now_or_time]. rewrite bind_ret_run.
  unfold query. rewrite bind_gets_run, Htb. cbn [negb]. rewrite bind_gets_run, Hr. cbn [mbind option_bind]. rewrite Hb.
  cbn [fmap option_fmap option_map]. eexists. split; [reflexivity|].
  assert (qlt stale (py_max 0 (t - beat)) = qlt stale (t - beat)) as ->.
  { unfold py_max. destruct (qlt 0 (t - beat)) eqn:E; [done|]. apply qlt_false in E.
    rewrite (proj2 (qlt_false _ _)) by lra. symmetry. apply qlt_false. lra. }
  destruct (rt_state r =s "STOPPED"); [done|]. destruct (qlt _ _); [done|]. by destruct (str_in _ _).
Qed.

(** A cycle is recorded as it went and the watchdog sees it: when [tick]
    returns (with probes that do not write the supervisor's tables), exactly its
    cycle was added; it is RUNNING exactly when nothing failed and DEGRADED
    otherwise, every probe counted and a failed restore drill included; from then
    on a watchdog answers HEALTHY or DEGRADED accordingly until the heartbeat is
    older than its limit, and STALE after. *)
Theorem supervisor_cycle_recorded su now w c w' stale t
    (Hquiet : quiet_probes su)
    (Htick : supervisor_tick su now w = (Ok c, w'))
    (Hstale : (0 < stale)%Q) :
  runtime_cycles (w_db w') = runtime_cycles (w_db w) ++ [c]
  ∧ cy_state c = (if (cy_probes_failed c =? 0)%Z then "RUNNING" else "DEGRADED")
  ∧ (Z.of_nat (length (su_probes su)) <= cy_probes_ok c + cy_probes_failed c)%Z
  ∧ (cy_restore_drill_ok c = Some false → cy_state c = "DEGRADED")
  ∧ ∃ s, watchdog_check stale (Some t) w' = (Ok s, w')
       ∧ wd_state s = if qlt stale (t - cy_completed_at c) then "STALE"
                      else if (cy_probes_failed c =? 0)%Z then "HEALTHY" else "DEGRADED".
Proof.
  apply tick_run in Htick as (r & bk & Hr & Hbk & _ & D & Hst & Hcount & Hpos & Hdrill); [|done].
  set (r' := runtime_set _ _ _ _ _ _) in D. split_and!; [by rewrite D|done|done| |].
  - intros Hd. rewrite Hst. by rewrite (proj2 (Z.eqb_neq _ _) (Hdrill Hd)).
  - destruct (watchdog_run stale t w' r' (cy_completed_at c)) as (s & Hs & Es); [by rewrite D|by rewrite D|done|done|].
    exists s. split; [done|]. rewrite Es. unfold r'. cbn [rt_state runtime_set]. rewrite Hst.
    by destruct (cy_probes_failed c =? 0)%Z.
Qed.

(** ** Loops *)
Definition degraded_in (cs : list cycle_row) : Z :=
  Z.of_nat (length (List.filter (λ c, negb (cy_state c =s "RUNNING")) cs)).

Lemma monotonic_db (w w' : World) t : monotonic w = (Ok t, w') → w_db w' = w_db w.
Proof. by intros [= _ <-]. Qed.
Lemma supervised_cycle_run su interval w d w' :
  quiet_probes su → supervised_cycle su interval w = (Ok d, w') →
  ∃ c, runtime_cycles (w_db w') = runtime_cycles (w_db w) ++ [c] ∧ d = negb (cy_state c =s "RUNNING")
       ∧ rt_state <$> runtime_state (w_db w') = Some (cy_state c).
Proof.
  intros Hq Hrun. unfold supervised_cycle in Hrun.
  apply bind_Ok_inv in Hrun as (? & w1 & D1%monotonic_db & Hrun).
  apply bind_Ok_inv in Hrun as (c & w2 & (r & bk & _ & _ & _ & D2 & _)%tick_run & Hrun); [|done].
  apply bind_Ok_inv in Hrun as (? & w3 & D3 & [= <- <-]).
  assert (w_db w3 = w_db w2) as ->.
  { unfold pause in D3. destruct (Qeq_bool interval 0); [by injection D3 as _ <-|].
    by apply bind_Ok_inv in D3 as (? & ? & D3%monotonic_db & [= _ <-]). }
  exists c. rewrite D2, D1. done.
Qed.

Lemma degraded_cons c cs : degraded_in (c :: cs) = ((if negb (cy_state c =s "RUNNING") then 1 else 0) + degraded_in cs)%Z.
Proof. unfold degraded_in. cbn [List.filter]. destruct (negb _); cbn [length]; lia. Qed.

Lemma cycle_loop_run su interval n : quiet_probes su → ∀ k w d w',
  cycle_loop su n interval k w = (Ok d, w') →
  ∃ cs, runtime_cycles (w_db w') = runtime_cycles (w_db w) ++ cs ∧ length cs = n ∧ d = (k + degraded_in cs)%Z
    ∧ (cs = [] → w' = w) ∧ (∀ c, last cs = Some c → rt_state <$> runtime_state (w_db w') = Some (cy_state c)).
Proof.
  intros Hq. induction n as [|n IH]; intros k w d w'; cbn [cycle_loop].
  - intros [= <- <-]. exists []. rewrite app_nil_r. split_and!; try done. unfold degraded_in. simpl. lia.
  - intros (b & w1 & (c & E1 & -> & S1)%supervised_cycle_run & (cs & E2 & L2 & -> & N2 & S2)%IH)%bind_Ok_inv; [|done].
    exists (c :: cs). rewrite E2, E1, <- app_assoc. split_and!; [done|simpl; lia|rewrite degraded_cons; lia|done|].
    intros x Hx. destruct cs as [|y cs]; [|by apply S2]. injection Hx as <-. by rewrite N2.
Qed.

(** The endurance run is exact: when [run_cycles n] returns it has run
    exactly [n] cycles, each recorded; the degraded count it reports is the
    number of those that were not RUNNING, and the state it reports is that of
    the last cycle.  A count below one is refused without running any. *)
Theorem run_cycles_exact su n interval w r w'
    (Hquiet : quiet_probes su)
    (Hrun : run_cycles su n interval w = (r, w')) :
  match r with
  | Ok s => ∃ cs c, runtime_cycles (w_db w') = runtime_cycles (w_db w) ++ cs
              ∧ Z.of_nat (length cs) = n ∧ rs_cycles s = n ∧ rs_degraded s = degraded_in cs
              ∧ last cs = Some c ∧ rs_state s = cy_state c
  | Raise e => (n < 1)%Z → w' = w ∧ exn_cls e = ValueError
  end.
Proof.
  unfold run_cycles in Hrun. destruct ((n <? 1)%Z || qlt interval 0) eqn:Eb.
  { injection Hrun as <- <-. done. }
  apply orb_false_iff in Eb as [En%Z.ltb_ge _]. destruct r as [s|e]; [|lia]. change (raise_if false ?c ?m) with (mret tt : IO unit) in Hrun.
  apply bind_Ok_inv in Hrun as (? & w0 & [= _ <-] & Hrun).
  apply bind_Ok_inv in Hrun as (t0 & w1 & D1%monotonic_db & Hrun).
  apply bind_Ok_inv in Hrun as (d & w2 & (cs & E2 & L2 & -> & _ & S2)%cycle_loop_run & Hrun); [|done].
  apply bind_Ok_inv in Hrun as (t1 & w3 & D3%monotonic_db & Hrun).
  apply bind_Ok_inv in Hrun as (row & w4 & Hst & [= <- <-]). unfold status in Hst.
  apply bind_Ok_inv in Hst as (? & ? & [-> ->]%query_Ok_inv & Hst).
  apply bind_Ok_inv in Hst as (? & ? & [_ ->]%raise_if_Ok_inv & Hst).
  apply bind_Ok_inv in Hst as (o & ? & [-> ->]%query_Ok_inv & Hst).
  destruct (runtime_state (w_db w3)) as [r|] eqn:Er; [|done]. injection Hst as <- <-.
  destruct (last cs) as [c|] eqn:Ec; [|apply last_None in Ec as ->; simpl in L2; lia].
  exists cs, c. cbn [rs_cycles rs_degraded rs_state]. rewrite D3, E2, D1. split_and!; try done; [lia|].
  specialize (S2 c eq_refl). rewrite <- D3, Er in S2. by injection S2.
Qed.
Lemma timed_loop_run su started duration interval n : quiet_probes su → ∀ k d w k' d' w',
  timed_loop su n started duration interval k d w = (Ok (k', d'), w') →
  ∃ cs, runtime_cycles (w_db w') = runtime_cycles (w_db w) ++ cs ∧ length cs ≤ n
    ∧ k' = (k + Z.of_nat (length cs))%Z ∧ d' = (d + degraded_in cs)%Z.
Proof.
  intros Hq. induction n as [|n IH]; intros k d w k' d' w'; cbn [timed_loop];
    intros (t & w1 & D1%monotonic_db & Hrun)%bind_Ok_inv; destruct (negb _).
  1,2,3: injection Hrun as <- <- <-; exists []; rewrite app_nil_r, D1; unfold degraded_in; simpl; split_and!; done || lia.
  apply bind_Ok_inv in Hrun as (b & w2 & (c & E1 & -> & S1)%supervised_cycle_run & Hrun); [|done].
  apply IH in Hrun as (cs & E2 & L2 & -> & ->).
  exists (c :: cs). rewrite E2, E1, D1, <- app_assoc, degraded_cons. simpl. split_and!; done || lia.
Qed.

(** A timed run is bounded: when [run_for] returns, it ran at most
    [max_cycles] cycles, all of them recorded, and reports their number and how
    many were not RUNNING. *)
Theorem run_for_bounded su duration interval max_cycles w s w'
    (Hquiet : quiet_probes su)
    (Hrun : run_for su duration interval max_cycles w = (Ok s, w')) :
  ∃ cs, runtime_cycles (w_db w') = runtime_cycles (w_db w) ++ cs
    ∧ rs_cycles s = Z.of_nat (length cs) ∧ (rs_cycles s <= max_cycles)%Z ∧ rs_degraded s = degraded_in cs.
Proof.
  unfold run_for in Hrun.
  apply bind_Ok_inv in Hrun as (? & ? & [Hb ->]%raise_if_Ok_inv & Hrun).
  apply orb_false_iff in Hb as [_ Hmax%Z.ltb_ge].
  apply bind_Ok_inv in Hrun as (t0 & w1 & D1%monotonic_db & Hrun).
  apply bind_Ok_inv in Hrun as ([k d] & w2 & (cs & E2 & L2 & -> & ->)%timed_loop_run & Hrun); [|done].
  apply bind_Ok_inv in Hrun as (t1 & w3 & D3%monotonic_db & Hrun).
  apply bind_Ok_inv in Hrun as (row & w4 & Hst & [= <- <-]).
  assert (respects (on_db eq) status) as Hk by (unfold status; io_respects).
  apply (steady_run _ _ _ _ Hk) in Hst. exists cs. rewrite Hst, D3, E2, D1. cbn [rs_cycles rs_degraded].
  split_and!; done || lia.
Qed.

(** ** Pruning *)
Lemma unlink_run target w z w' :
  unlink_existing target w = (Ok z, w') → w_files w' = delete target (w_files w).
Proof.
  unfold unlink_existing. rewrite bind_gets_run. unfold is_file.
  destruct (w_files w !! target) as [text|] eqn:Ef.
  - rewrite bool_decide_eq_true_2 by done. by intros (? & ? & [= _ <-] & [= _ <-])%bind_Ok_inv.
  - rewrite bool_decide_eq_false_2 by (by intros [? ?]). destruct (path_exists _ _); [done|].
    intros [= _ <-]. by rewrite delete_id.
Qed.

Definition backup_files (su : ContinuousSupervisor) (backup_id : string) : list path :=
  [resolve_join (su_backup_root su) (backup_id +:+ ".json"); resolve_join (su_backup_root su) (backup_id +:+ ".sqlite3")].

Lemma remove_all_run su l w rs w' p :
  for_each l (λ e : Q * string, remove_backup su (snd e)) w = (Ok rs, w') →
  w_files w' !! p = if decide (p ∈ l ≫= (λ e, backup_files su (snd e))) then None else w_files w !! p.
Proof.
  revert w rs w'. induction l as [|e l IH]; intros w rs w'; cbn [for_each].
  - intros [= _ <-]. by rewrite decide_False by set_solver.
  - intros (z & w1 & H1' & (zs & w2 & H2'%IH & [= _ <-])%bind_Ok_inv)%bind_Ok_inv. rewrite H2'.
    unfold remove_backup in H1'.
    apply bind_Ok_inv in H1' as (a & wa & Ea%unlink_run & (b & wb & Eb%unlink_run & [= _ <-])%bind_Ok_inv).
    rewrite Eb, Ea. cbn [mbind list_bind]. repeat case_decide; unfold backup_files in *; try done; try set_solver.
    + destruct (decide (p = resolve_join (su_backup_root su) (snd e +:+ ".sqlite3"))) as [->|];
        [by rewrite lookup_delete_eq|]. rewrite lookup_delete_ne by done.
      destruct (decide (p = resolve_join (su_backup_root su) (snd e +:+ ".json"))) as [->|];
        [by rewrite lookup_delete_eq|]. set_solver.
    + rewrite !lookup_delete_ne; [done| |]; set_solver.
Qed.
Lemma entry_geb_total a b : entry_geb a b = true ∨ entry_geb b a = true.
Proof.
  unfold entry_geb. destruct (qlt b.1 a.1) eqn:E1; [by left|]. destruct (qlt a.1 b.1) eqn:E2; [by right|].
  destruct (String.leb_total b.2 a.2); auto.
Qed.
Lemma entry_geb_iff a b :
  entry_geb a b = true ↔ (b.1 < a.1)%Q ∨ (a.1 == b.1)%Q ∧ String.leb b.2 a.2 = true.
Proof.
  unfold entry_geb. destruct (qlt b.1 a.1) eqn:E1; [apply qlt_true in E1; tauto|]. apply qlt_false in E1.
  destruct (qlt a.1 b.1) eqn:E2.
  - apply qlt_true in E2. split; [done|]. intros [?|[? _]]; exfalso; lra.
  - apply qlt_false in E2. split; [right; split; [lra|done]|]. intros [?|[_ ?]]; [exfalso; lra|done].
Qed.
Lemma entry_geb_trans a b c : entry_geb a b = true → entry_geb b c = true → entry_geb a c = true.
Proof.
  rewrite !entry_geb_iff. intros [?|[? S1]] [?|[? S2]]; [left; lra|left; lra|left; lra|].
  right. split; [lra|]. by eapply string_leb_trans.
Qed.

(** The backups a root holds, the newest first. *)
Definition manifests_of (su : ContinuousSupervisor) (files : gmap path string) : list (Q * string) :=
  order_by entry_geb
    (omap (λ text, match manifest_entry text with Ok (Some e) => Some e | _ => None end) (manifest_files su files)).

Lemma read_entries l (w : World) entries w' :
  for_each l (λ text, lift_result (manifest_entry text)) w = (Ok entries, w') →
  w' = w ∧ omap id entries = omap (λ text, match manifest_entry text with Ok (Some e) => Some e | _ => None end) l.
Proof.
  revert entries w'. induction l as [|x l IH]; intros entries w'; cbn [for_each]; [by intros [= <- <-]|].
  intros (y & w1 & [Hy ->]%lift_Ok_inv & (zs & w2 & (-> & Hz)%IH & [= <- <-])%bind_Ok_inv)%bind_Ok_inv.
  split; [done|]. cbn. rewrite Hy. destruct y as [e|]; cbn; [f_equal|]; exact Hz.
Qed.

(** Pruning removes exactly the oldest backups: when it returns, the files of
    every backup after the newest [backup_retention] are gone, every other path
    is as before, everything kept is at least as new as everything removed, and
    with distinct plain ids the kept backups are untouched. *)
Theorem prune_removes_oldest su w z w'
    (Hrun : prune_backups su w = (Ok z, w')) :
  let n := Z.to_nat (su_backup_retention su) in
  let kept := take n (manifests_of su (w_files w)) in
  let pruned := drop n (manifests_of su (w_files w)) in
  (∀ p, w_files w' !! p = if decide (p ∈ pruned ≫= (λ e, backup_files su (snd e))) then None else w_files w !! p)
  ∧ (∀ a b, a ∈ kept → b ∈ pruned → entry_geb a b = true)
  ∧ (NoDup (manifests_of su (w_files w)).*2 → Forall (λ e, no_slash (snd e) = true) (manifests_of su (w_files w)) →
     ∀ e p, e ∈ kept → p ∈ backup_files su (snd e) → w_files w' !! p = w_files w !! p).
Proof.
  intros n kept pruned. unfold prune_backups in Hrun. rewrite bind_gets_run in Hrun.
  apply bind_Ok_inv in Hrun as (entries & w1 & [-> Ee]%read_entries & Hrun).
  rewrite Ee in Hrun. fold (manifests_of su (w_files w)) in Hrun.
  apply bind_Ok_inv in Hrun as (rs & w2 & Hrem & [= _ <-]).
  assert (∀ p, w_files w2 !! p = if decide (p ∈ pruned ≫= (λ e, backup_files su (snd e))) then None else w_files w !! p)
    as Hp by (intros p; by apply remove_all_run with (p := p) in Hrem).
  pose proof (take_drop n (manifests_of su (w_files w))) as Etd. fold kept pruned in Etd.
  split_and!; [done| |].
  - pose proof (order_by_sorted _ entry_geb_total entry_geb_trans
      (omap (λ text, match manifest_entry text with Ok (Some e) => Some e | _ => None end) (manifest_files su (w_files w)))) as Hs.
    fold (manifests_of su (w_files w)) in Hs. rewrite <- Etd in Hs. clear -Hs.
    induction kept as [|x kept IH]; intros a b Ha Hb; [by apply elem_of_nil in Ha|].
    inversion_clear Hs as [|? ? Hs' Hall]. apply elem_of_cons in Ha as [->|Ha]; [|by apply IH].
    rewrite Forall_forall in Hall. apply Hall. apply elem_of_app. by right.
  - intros Hnd Hplain e p He Hpe. rewrite Hp, decide_False; [done|]. intros Hin.
    apply list_elem_of_bind in Hin as (e' & Hpe' & He').
    rewrite <- Etd in Hnd, Hplain. rewrite fmap_app in Hnd. apply NoDup_app in Hnd as (_ & Hdis & _).
    apply (Hdis (snd e)); [by apply list_elem_of_fmap_2|].
    rewrite Forall_app, !Forall_forall in Hplain. destruct Hplain as [Hk Hd].
    assert (snd e = snd e') as ->; [|by apply list_elem_of_fmap_2]. apply Hk in He. apply Hd in He'.
    unfold backup_files in *. revert Hpe Hpe'.
    rewrite !resolve_join_name by (rewrite ?no_slash_app, ?He, ?He', ?length_app_s; simpl; done || lia).
    assert (∀ a b c, a +:+ c = b +:+ c → a = b) as Hinj by (intros a b c; apply string_app_inj_r).
    assert (∀ a b : string, a +:+ ".json" ≠ b +:+ ".sqlite3") as Hne.
    { intros a b E%(f_equal last_char). by rewrite !last_char_app in E. }
    rewrite !elem_of_cons, elem_of_nil. intros [->|[->|[]]] [E|[E|[]]]; apply app_inj_tail in E as [_ E];
      first [by apply Hinj in E | by apply Hne in E | by symmetry in E; apply Hne in E].
Qed.
End runtime.
