(* ===== verification/Discovery.v ===== *)
(** immune_core/discovery.py: sensors and the discovery cycle that records what they
    see.

    A sensor's [collect] is its own code: a record of operations, like the [Sensor]
    protocol.  An observation is a dict; a field that should hold a dict and holds
    something else truthy raises TypeError. *)

From S2P Require Import Prelude Json Sha256 Schema Files Storage Ledger Skills Observability.

Record Sensor := { se_sensor_id : string; se_collect : IO (list dict) }.

Record DiscoveryCycle := {
  dy_started_at : Q; dy_completed_at : Q; dy_sensors_total : Z; dy_sensors_ok : Z; dy_sensors_failed : Z;
  dy_resources_seen : Z; dy_dependencies_seen : Z; dy_signals_seen : Z; dy_duplicates_suppressed : Z; dy_anomalies : Z;
  dy_evidence_id : string; dy_inventory_sha256 : string;
}.

(** The running counters of a cycle, and its events. *)
Record tally := {
  ta_ok : Z; ta_failed : Z; ta_resources : Z; ta_dependencies : Z; ta_signals : Z; ta_duplicates : Z; ta_anomalies : Z;
  ta_events : list json;
}.
Definition no_tally : tally :=
  {| ta_ok := 0; ta_failed := 0; ta_resources := 0; ta_dependencies := 0; ta_signals := 0; ta_duplicates := 0;
     ta_anomalies := 0; ta_events := [] |}.
Definition tally_resource (t : tally) : tally :=
  {| ta_ok := ta_ok t; ta_failed := ta_failed t; ta_resources := ta_resources t + 1; ta_dependencies := ta_dependencies t;
     ta_signals := ta_signals t; ta_duplicates := ta_duplicates t; ta_anomalies := ta_anomalies t; ta_events := ta_events t |}.
Definition tally_dependency (t : tally) : tally :=
  {| ta_ok := ta_ok t; ta_failed := ta_failed t; ta_resources := ta_resources t; ta_dependencies := ta_dependencies t + 1;
     ta_signals := ta_signals t; ta_duplicates := ta_duplicates t; ta_anomalies := ta_anomalies t; ta_events := ta_events t |}.
(** [signals+=1; duplicates+=int(processed.duplicate)], and [anomalies+=1] for an anomaly *)
Definition tally_signal (anomaly : bool) (p : ProcessedSignal) (t : tally) : tally :=
  {| ta_ok := ta_ok t; ta_failed := ta_failed t; ta_resources := ta_resources t; ta_dependencies := ta_dependencies t;
     ta_signals := ta_signals t + 1; ta_duplicates := ta_duplicates t + (if ps_duplicate p then 1 else 0);
     ta_anomalies := ta_anomalies t + (if anomaly then 1 else 0); ta_events := ta_events t |}.
Definition tally_sensor (ok : bool) (t : tally) : tally :=
  {| ta_ok := ta_ok t + (if ok then 1 else 0); ta_failed := ta_failed t + (if ok then 0 else 1);
     ta_resources := ta_resources t; ta_dependencies := ta_dependencies t; ta_signals := ta_signals t;
     ta_duplicates := ta_duplicates t; ta_anomalies := ta_anomalies t; ta_events := ta_events t |}.
Definition tally_event (e : json) (t : tally) : tally :=
  {| ta_ok := ta_ok t; ta_failed := ta_failed t; ta_resources := ta_resources t; ta_dependencies := ta_dependencies t;
     ta_signals := ta_signals t; ta_duplicates := ta_duplicates t; ta_anomalies := ta_anomalies t;
     ta_events := ta_events t ++ [e] |}.

(** [obs[k]] *)
Definition required (d : dict) (k : string) : result json :=
  match dget d k with Some v => Ok v | None => Raise (Exn KeyError k) end.
(** [dict(obs.get(k) or {})] *)
Definition dict_field (d : dict) (k : string) : result dict :=
  match truthy_get d k with
  | None => Ok []
  | Some (JObj v) => Ok v
  | Some _ => Raise (Exn TypeError "cannot convert to a dictionary")
  end.

Section discovery.
Context `{JsonText, Entropy}.
(** Whether the observability store and the engine have an audit ledger; the windows of
    the signal processor and the parameters of the anomaly detector. *)
Context (obs_audited audited : bool) (dedupe_window correlation_window : Q) (min_samples : Z) (threshold : Q) (history_limit : Z).

(** [float(obs.get("ts", started))] *)
Definition observed_ts (obs : dict) (started : Q) : result Q := py_float (default (JNum started) (dget obs "ts")).

Definition metric_anomaly (subject name : json) (value : Q) (a : Anomaly) : dict :=
  [("kind", JStr "metric_anomaly"); ("subject", JStr (py_str subject)); ("severity", JStr "warning");
   ("attributes", JObj [("metric", JStr (py_str name)); ("value", JNum value);
     ("baseline", match an_baseline a with Some b => JNum b | None => JNull end); ("score", JNum (an_score a));
     ("correlation_key", JStr ("metric:" +:+ py_str subject +:+ ":" +:+ py_str name))])].
Definition invalid_observation (sensor_id typ : string) : dict :=
  [("kind", JStr "invalid_sensor_observation"); ("subject", JStr sensor_id); ("severity", JStr "warning");
   ("attributes", JObj [("observation_type", JStr (str_or typ "missing")); ("correlation_key", JStr ("sensor:" +:+ sensor_id))])].
Definition sensor_failure (sensor_id : string) (e : exn) : dict :=
  [("kind", JStr "sensor_failure"); ("subject", JStr sensor_id); ("severity", JStr "error");
   ("attributes", JObj [("sensor_id", JStr sensor_id); ("error_type", JStr (class_name (exn_cls e)));
     ("correlation_key", JStr ("sensor:" +:+ sensor_id))])].

Definition ingest_as (source : string) (observation : dict) (ts : Q) : IO ProcessedSignal :=
  ingest dedupe_window correlation_window source observation (Some ts).

(** One observation, by its type. *)
Definition process_observation (sensor_id : string) (started : Q) (obs : dict) (t : tally) : IO tally :=
  let typ := lower (get_str obs "type" "") in
  if typ =s "resource" then
    rid ← lift_result (required obs "resource_id");
    attributes ← lift_result (dict_field obs "attributes");
    _ ← upsert_resource (py_str rid) (get_str obs "kind" "resource") (get_str obs "name" (py_str rid)) attributes started;
    mret (tally_resource t)
  else if typ =s "dependency" then
    src ← lift_result (required obs "src");
    dst ← lift_result (required obs "dst");
    attributes ← lift_result (dict_field obs "attributes");
    _ ← graph_add (py_str src) (py_str dst) (get_str obs "relation" "depends_on") attributes (Some started);
    mret (tally_dependency t)
  else if typ =s "metric" then
    metric_ts ← lift_result (observed_ts obs started);
    name ← lift_result (required obs "name");
    subject ← lift_result (required obs "subject");
    raw ← lift_result (required obs "value");
    value ← lift_result (py_float raw);
    labels ← lift_result (dict_field obs "labels");
    a ← observe min_samples threshold history_limit (py_str name) (py_str subject) value metric_ts labels;
    if an_anomaly a then
      p ← ingest_as "anomaly-detector" (metric_anomaly subject name value a) metric_ts;
      mret (tally_signal true p t)
    else mret t
  else if typ =s "signal" then
    p ← ingest_as sensor_id obs started;
    mret (tally_signal false p t)
  else if typ =s "log" then
    fields ← lift_result (dict_field obs "fields");
    ts ← lift_result (observed_ts obs started);
    _ ← record_log sensor_id (get_str obs "level" "INFO") (get_str obs "message" "") fields (Some ts);
    mret t
  else
    p ← ingest_as "discovery-engine" (invalid_observation sensor_id typ) started;
    mret (tally_signal false p t).
Fixpoint process_observations (sensor_id : string) (started : Q) (l : list dict) (t : tally) : IO tally :=
  match l with
  | [] => mret t
  | obs :: rest => t' ← process_observation sensor_id started obs t; process_observations sensor_id started rest t'
  end.

(** One sensor's turn: what it collected, or the exception it raised. *)
Definition collect_from (started : Q) (s : Sensor) : IO (list dict + exn) :=
  catch (observations ← se_collect s;
         _ ← update_sensor_health (se_sensor_id s) true None (Some started);
         mret (inl observations))
        (λ e, mret (inr e)).
Definition sensor_turn (started : Q) (s : Sensor) (t : tally) : IO tally :=
  let sensor_id := se_sensor_id s in
  collected ← collect_from started s;
  match collected with
  | inr e =>
      _ ← update_sensor_health sensor_id false (Some (class_name (exn_cls e) +:+ ": " +:+ exn_text e)) (Some started);
      p ← ingest_as "discovery-engine" (sensor_failure sensor_id e) started;
      mret (tally_event (JObj [("sensor", JStr sensor_id); ("status", JStr "failed"); ("error_type", JStr (class_name (exn_cls e)))])
             (tally_signal false p (tally_sensor false t)))
  | inl observations =>
      t' ← process_observations sensor_id started observations (tally_sensor true t);
      mret (tally_event (JObj [("sensor", JStr sensor_id); ("status", JStr "ok");
                               ("observations", JInt (Z.of_nat (length observations)))]) t')
  end.
Fixpoint sensor_turns (started : Q) (l : list Sensor) (t : tally) : IO tally :=
  match l with
  | [] => mret t
  | s :: rest => t' ← sensor_turn started s t; sensor_turns started rest t'
  end.

(** [DiscoveryEngine.__init__] *)
Definition discovery_engine (sensors : list Sensor) : result (list Sensor) :=
  match sensors with
  | [] => Raise (Exn ValueError "at least one sensor is required")
  | _ => if bool_decide (NoDup (map se_sensor_id sensors)) then Ok sensors
         else Raise (Exn ValueError "sensor ids must be unique")
  end.

Definition cycle_payload (started completed : Q) (total : Z) (t : tally) (inventory : json) : dict :=
  [("started_at", JNum started); ("completed_at", JNum completed); ("sensors_total", JInt total); ("sensors_ok", JInt (ta_ok t));
   ("sensors_failed", JInt (ta_failed t)); ("events", JList (ta_events t)); ("inventory_sha256", inventory);
   ("resources_seen", JInt (ta_resources t)); ("dependencies_seen", JInt (ta_dependencies t));
   ("signals_seen", JInt (ta_signals t)); ("duplicates_suppressed", JInt (ta_duplicates t)); ("anomalies", JInt (ta_anomalies t))].
Definition discovery_cycle (sensors : list Sensor) (mission_id : option string) (now : option Q) : IO DiscoveryCycle :=
  started ← now_or_time now;
  t ← sensor_turns started sensors no_tally;
  snapshot ← inventory_snapshot;
  completed ← now_or_time now;
  let total := Z.of_nat (length sensors) in
  let sha := get_str snapshot "sha256" "" in
  ev ← evidence obs_audited "discovery_cycle" (cycle_payload started completed total t (JStr sha)) mission_id (Some completed);
  _ ← (if audited then audit "discovery-engine" "discovery_cycle_completed" mission_id
         [("evidence_id", JStr (er_id ev)); ("inventory_sha256", JStr sha); ("sensors_failed", JInt (ta_failed t))] (Some completed)
       else mret "");
  mret {| dy_started_at := started; dy_completed_at := completed; dy_sensors_total := total; dy_sensors_ok := ta_ok t;
          dy_sensors_failed := ta_failed t; dy_resources_seen := ta_resources t; dy_dependencies_seen := ta_dependencies t;
          dy_signals_seen := ta_signals t; dy_duplicates_suppressed := ta_duplicates t; dy_anomalies := ta_anomalies t;
          dy_evidence_id := er_id ev; dy_inventory_sha256 := sha |}.

(** ** The sensors of the module *)

(** What the operating system tells about the host. *)
Record host_facts := {
  hf_hostname : string; hf_system : string; hf_release : string; hf_machine : string; hf_python : string; hf_pid : Z;
  hf_executable_name : string; hf_executable : string; hf_root : string; hf_disk_used : Z; hf_disk_total : Z;
  hf_load : option Q;
}.
Definition host_observations (f : host_facts) (now : Q) : list dict :=
  let hostname := str_or (hf_hostname f) "localhost" in
  let root := str_or (hf_root f) "/" in
  let host := JStr ("host:" +:+ hostname) in
  let process := JStr ("process:" +:+ py_str (JInt (hf_pid f))) in
  [ [("type", JStr "resource"); ("resource_id", host); ("kind", JStr "host"); ("name", JStr hostname);
     ("attributes", JObj [("platform", JStr (hf_system f)); ("release", JStr (hf_release f)); ("machine", JStr (hf_machine f));
       ("python", JStr (hf_python f))])];
    [("type", JStr "resource"); ("resource_id", process); ("kind", JStr "process"); ("name", JStr (hf_executable_name f));
     ("attributes", JObj [("pid", JInt (hf_pid f)); ("executable", JStr (hf_executable f))])];
    [("type", JStr "dependency"); ("src", process); ("dst", host); ("relation", JStr "runs_on"); ("attributes", JObj [])];
    [("type", JStr "metric"); ("name", JStr "disk.used_ratio"); ("subject", host);
     ("value", JNum (if (hf_disk_total f =? 0)%Z then 0 else inject_Z (hf_disk_used f) / inject_Z (hf_disk_total f))%Q);
     ("labels", JObj [("path", JStr root)]); ("ts", JNum now)] ]
  ++ match hf_load f with
     | Some l => [[("type", JStr "metric"); ("name", JStr "load.1m"); ("subject", host); ("value", JNum l); ("labels", JObj []);
                   ("ts", JNum now)]]
     | None => []
     end.
Definition host_sensor (facts : host_facts) : Sensor :=
  {| se_sensor_id := "builtin-host"; se_collect := now ← now_or_time None; mret (host_observations facts now) |}.

(** [PathSensor], with what [stat] says of an existing path: its size, its mtime_ns, and
    whether it is a directory. *)
Definition path_observations (stat : path → option (Z * Z * bool)) (p : path) : list dict :=
  let text := "/" +:+ posix p in
  let exists_ := match stat p with Some _ => true | None => false end in
  let attrs := [("path", JStr text); ("exists", JBool exists_)]
    ++ match stat p with
       | Some (size, mtime_ns, dir) => [("size", JInt size); ("mtime_ns", JInt mtime_ns); ("is_dir", JBool dir)]
       | None => []
       end in
  let rid := "path:" +:+ text in
  [ [("type", JStr "resource"); ("resource_id", JStr rid); ("kind", JStr "filesystem");
     ("name", JStr (str_or (List.last p "") text)); ("attributes", JObj attrs)];
    [("type", JStr "signal"); ("kind", JStr "path_health"); ("subject", JStr rid);
     ("severity", JStr (if exists_ then "info" else "error"));
     ("attributes", JObj [("exists", JBool exists_); ("correlation_key", JStr rid)])] ].
Definition path_sensor (stat : path → option (Z * Z * bool)) (sensor_id : string) (paths : list path) : Sensor :=
  {| se_sensor_id := sensor_id; se_collect := mret (concat (map (path_observations stat) paths)) |}.

(** [DonorSensorAdapter] *)
Definition donor_sensor (lab : LabResult) (collector : IO (list dict)) : result Sensor :=
  if negb (bool_decide (lr_decision lab = APPROVED)) then Raise (Exn PermissionError "donor sensor is not laboratory-approved")
  else if negb (lr_authority lab =s "adapter-only") then Raise (Exn PermissionError "donor sensor authority must be adapter-only")
  else if lr_executable lab then Raise (Exn PermissionError "donor sensor may not be directly executable")
  else Ok {| se_sensor_id := "donor:" +:+ lr_donor_id lab; se_collect := collector |}.
End discovery.
