(* ===== verification/DiscoveryProps.v ===== *)
(** The discovery cycle isolates failing sensors, and what breaks that isolation. *)

From S2P Require Import Prelude Json Sha256 Schema Storage Ledger LedgerProps Skills Observability ObservabilityProps Discovery.

Section cycle.
Context `{JsonText, Entropy}.
Context (obs_audited audited : bool) (dedupe_window correlation_window : Q) (min_samples : Z) (threshold : Q) (history_limit : Z).
Abbreviation process := (process_observation dedupe_window correlation_window min_samples threshold history_limit).
Abbreviation process_all := (process_observations dedupe_window correlation_window min_samples threshold history_limit).
Abbreviation turn := (sensor_turn dedupe_window correlation_window min_samples threshold history_limit).
Abbreviation turns := (sensor_turns dedupe_window correlation_window min_samples threshold history_limit).
Abbreviation cycle := (discovery_cycle obs_audited audited dedupe_window correlation_window min_samples threshold history_limit).
Abbreviation ingested := (ingest_as dedupe_window correlation_window).

(** ** What observations leave alone *)
Definition stored_json (text : string) : Prop := is_Some (loads text).
Definition inventory_loads (d : DB) : Prop :=
  Forall (λ r, stored_json (rs_attributes_json r)) (obs_resources d) ∧ Forall (λ r, stored_json (dp_attributes_json r)) (obs_dependencies d).
(** The health, the evidence, and that the inventory can be read. *)
Definition observes (d d' : DB) : Prop :=
  obs_sensor_health d' = obs_sensor_health d ∧ obs_evidence d' = obs_evidence d ∧ (inventory_loads d → inventory_loads d').
#[local] Instance observes_preorder : PreOrder observes.
Proof.
  split; [by intros d; split_and!|]. intros a b c (A1 & A2 & A3) (B1 & B2 & B3). split_and!; [congruence..|auto].
Qed.
Lemma observes_frame (d d' : DB) :
  obs_sensor_health d' = obs_sensor_health d → obs_evidence d' = obs_evidence d → obs_resources d' = obs_resources d →
  obs_dependencies d' = obs_dependencies d → observes d d'.
Proof. intros E1 E2 E3 E4. split_and!; [done..|]. unfold inventory_loads. by rewrite E3, E4. Qed.
Lemma stored_dumps v : stored_json (dumps Sorted v).
Proof. unfold stored_json. rewrite loads_dumps. by eexists. Qed.
Lemma update_where_Forall {R} (P : R → Prop) (f : R → bool) (g : R → R) l :
  Forall P l → (∀ r, P r → P (g r)) → Forall P (update_where f g l).
Proof. intros Hl Hg. apply Forall_map. eapply Forall_impl; [done|]. intros r Hr. cbn. destruct (f r); auto. Qed.

Lemma upsert_resource_observes rid kind name attributes ts :
  respects (on_db observes) (upsert_resource rid kind name attributes ts).
Proof.
  intros w. split_and!; [done..|]. intros [Hr Hd]. split; [|done]. cbn. unfold upsert. destruct (row_exists _ _ _).
  - apply update_where_Forall; [done|]. intros. apply stored_dumps.
  - apply Forall_app. split; [done|]. apply Forall_singleton. apply stored_dumps.
Qed.
Lemma graph_add_observes src dst relation attributes ts : respects (on_db observes) (graph_add src dst relation attributes ts).
Proof.
  unfold graph_add. apply respects_of_at. intros w. at_step. split_and!; [done..|]. intros [Hr Hd]. split; [done|]. cbn.
  destruct (existsb _ _); [apply update_where_Forall; [done|]; intros; apply stored_dumps|].
  apply Forall_app. split; [done|]. apply Forall_singleton. apply stored_dumps.
Qed.
Lemma ingested_observes source obs ts : respects (on_db observes) (ingested source obs ts).
Proof.
  unfold ingest_as, ingest, recent_fingerprint_count, recent_correlation_count, record_signal.
  io_respects; apply respects_exec; intros d; by apply observes_frame.
Qed.
Lemma observe_observes name subject value ts labels :
  respects (on_db observes) (observe min_samples threshold history_limit name subject value ts labels).
Proof. unfold observe, metric_values, record_metric. io_respects; apply respects_exec; intros d; by apply observes_frame. Qed.
Lemma record_log_observes source level message fields ts : respects (on_db observes) (record_log source level message fields ts).
Proof. unfold record_log. io_respects; apply respects_exec; intros d; by apply observes_frame. Qed.
Hint Resolve upsert_resource_observes graph_add_observes ingested_observes observe_observes record_log_observes : respects.
Lemma process_observes sensor started obs t : respects (on_db observes) (process sensor started obs t).
Proof. unfold process_observation. io_respects. Qed.
Hint Resolve process_observes : respects.
Lemma process_all_observes sensor started l t : respects (on_db observes) (process_all sensor started l t).
Proof. revert t. induction l as [|o l IH]; intros t; cbn [process_observations]; io_respects. Qed.

(** ** Observations that are recorded *)
(** The fields an observation of its type needs. *)
Definition given (obs : dict) (k : string) : bool := match dget obs k with Some _ => true | None => false end.
Definition ts_ok (obs : dict) : bool := match dget obs "ts" with Some v => is_Ok (py_float v) | None => true end.
Definition value_ok (obs : dict) : bool := match dget obs "value" with Some v => is_Ok (py_float v) | None => false end.
Definition observation_ok (obs : dict) : bool :=
  let typ := lower (get_str obs "type" "") in
  if typ =s "resource" then given obs "resource_id" && is_Ok (dict_field obs "attributes")
  else if typ =s "dependency" then given obs "src" && given obs "dst" && is_Ok (dict_field obs "attributes")
  else if typ =s "metric" then
    ts_ok obs && given obs "name" && given obs "subject" && value_ok obs && is_Ok (dict_field obs "labels")
  else if typ =s "signal" then ts_ok obs && is_Ok (observation_attributes obs)
  else if typ =s "log" then is_Ok (dict_field obs "fields") && ts_ok obs
  else true.
Lemma given_required obs k : given obs k = true → is_Ok (required obs k) = true.
Proof. unfold given, required. by destruct (dget obs k). Qed.
Lemma ts_ok_observed obs started : ts_ok obs = true → is_Ok (observed_ts obs started) = true.
Proof. unfold ts_ok, observed_ts. by destruct (dget obs "ts"). Qed.
Lemma value_ok_required obs : value_ok obs = true → is_Ok (required obs "value") = true.
Proof. unfold value_ok, required. by destruct (dget obs "value"). Qed.
Lemma value_ok_float obs raw : value_ok obs = true → required obs "value" = Ok raw → is_Ok (py_float raw) = true.
Proof. unfold value_ok, required. destruct (dget obs "value"); [|done]. by intros Hv [= <-]. Qed.

Definition returns {A} (m : IO A) (w : World) (P : A → Prop) : Prop := ∃ a w', m w = (Ok a, w') ∧ P a.
Lemma returns_bind {A B} (m : IO A) (k : A → IO B) w P Q :
  returns m w P → (∀ a w', P a → returns (k a) w' Q) → returns (m ≫= k) w Q.
Proof. intros (a & w' & E & Ha) Hk. unfold returns. rewrite (bind_Ok _ _ _ _ _ E). by apply Hk. Qed.
Lemma returns_ret {A} (a : A) w (P : A → Prop) : P a → returns (mret a) w P.
Proof. intros Ha. by exists a, w. Qed.
Lemma returns_lift_bind {A B} (r : result A) (k : A → IO B) w P :
  is_Ok r = true → (∀ a, r = Ok a → returns (k a) w P) → returns (lift_result r ≫= k) w P.
Proof. destruct r as [a|]; [|done]. intros _ Hk. by apply (Hk a). Qed.
Lemma ingested_returns source obs ts w :
  ts_ok obs = true → is_Ok (observation_attributes obs) = true →
  returns (ingested source obs ts) w (λ _, True).
Proof.
  intros Hts Ha. unfold ingest_as, ingest. apply returns_bind with (λ _, True); [by eexists _, _|]. intros t w1 _.
  apply returns_lift_bind; [by apply ts_ok_observed|]. intros when _.
  apply returns_lift_bind; [done|]. intros attributes _.
  by eexists _, _.
Qed.
Lemma observe_returns name subject value ts labels w :
  (0 < min_samples)%Z → returns (observe min_samples threshold history_limit name subject value ts labels) w (λ _, True).
Proof.
  intros Hm. unfold observe, metric_values, query. rewrite <- (Z.leb_gt min_samples 0) in Hm. unfold returns. rewrite bind_gets_run. rewrite Hm.
  rewrite bind_raise_if_run by (by destruct (rev _)). by eexists _, _.
Qed.

Definition tally_same (t t' : tally) : Prop := ta_ok t' = ta_ok t ∧ ta_failed t' = ta_failed t.
Ltac returns_step :=
  match goal with
  | |- returns (mret _) _ _ => by apply returns_ret
  | |- returns (mbind _ (lift_result _)) _ _ => apply returns_lift_bind; [by eauto using given_required, ts_ok_observed, value_ok_required, value_ok_float|intros ? ?]
  | |- returns (mbind _ (ingested _ _ _)) _ _ => apply returns_bind with (λ _, True); [by apply ingested_returns|intros ? ? _]
  | |- returns (mbind _ (observe _ _ _ _ _ _ _ _)) _ _ => apply returns_bind with (λ _, True); [by apply observe_returns|intros ? ? _]
  | |- returns (mbind _ _) _ _ => apply returns_bind with (λ _, True); [by eexists _, _|intros ? ? _]
  | |- returns (if an_anomaly ?a then _ else _) _ _ => destruct (an_anomaly a)
  end.
Lemma process_returns sensor started obs t w :
  (0 < min_samples)%Z → observation_ok obs = true → returns (process sensor started obs t) w (tally_same t).
Proof.
  intros Hm. unfold observation_ok, process_observation. cbv zeta. set (typ := lower _).
  destruct (typ =s "resource"); [|destruct (typ =s "dependency"); [|destruct (typ =s "metric");
    [|destruct (typ =s "signal"); [|destruct (typ =s "log")]]]].
  all: rewrite ?andb_true_iff; intros Hok; destruct_and?; repeat returns_step.
  by eexists _, _.
Qed.
Lemma process_all_returns sensor started l t w :
  (0 < min_samples)%Z → forallb observation_ok l = true → returns (process_all sensor started l t) w (tally_same t).
Proof.
  intros Hm. revert t w. induction l as [|o l IH]; intros t w; cbn [forallb process_observations]; [by intros; apply returns_ret|].
  intros [Ho Hl]%andb_true_iff. eapply returns_bind; [by apply process_returns|]. intros t' w' [E1 E2].
  destruct (IH t' w' Hl) as (t2 & w2 & E & F1 & F2). exists t2, w2. split; [done|]. split; congruence.
Qed.

(** ** A sensor's turn *)
(** Sensors have no hand in the database, and what they return is well formed. *)
Definition sensor_sound (s : Sensor) : Prop :=
  respects (on_db eq) (se_collect s) ∧ ∀ w l w', se_collect s w = (Ok l, w') → forallb observation_ok l = true.
(** What the health table says of a sensor after its turn. *)
Definition reported (started : Q) (s : Sensor) (d : DB) : Prop :=
  ∃ r, find_row hl_sensor_id (se_sensor_id s) (obs_sensor_health d) = Some r
    ∧ (hl_state r = "HEALTHY" ∧ hl_last_success r = Some started ∧ (∃ w l w', se_collect s w = (Ok l, w'))
       ∨ hl_state r ∈ ["DEGRADED"; "FAILED"] ∧ hl_last_failure r = Some started
         ∧ ∃ w e w', se_collect s w = (Raise e, w') ∧ hl_last_error r = Some (class_name (exn_cls e) +:+ ": " +:+ exn_text e)).
Definition healthy_now (d : DB) (s : Sensor) : bool :=
  match find_row hl_sensor_id (se_sensor_id s) (obs_sensor_health d) with Some r => hl_state r =s "HEALTHY" | None => false end.

(** One report of a sensor's health. *)
Lemma health_run sensor ok error started w :
  ∃ w', update_sensor_health sensor ok error (Some started) w = (Ok tt, w')
    ∧ find_row hl_sensor_id sensor (obs_sensor_health (w_db w'))
      = Some (next_health sensor ok error started (find_row hl_sensor_id sensor (obs_sensor_health (w_db w))))
    ∧ (∀ k, k ≠ sensor → find_row hl_sensor_id k (obs_sensor_health (w_db w')) = find_row hl_sensor_id k (obs_sensor_health (w_db w)))
    ∧ obs_evidence (w_db w') = obs_evidence (w_db w) ∧ (inventory_loads (w_db w) → inventory_loads (w_db w')).
Proof.
  set (r := next_health sensor ok error started (find_row hl_sensor_id sensor (obs_sensor_health (w_db w)))).
  exists (with_db (set_obs_sensor_health (upsert hl_sensor_id r (λ _, r))) w).
  assert (hl_sensor_id r = sensor) as Er by apply next_health_id. split_and!; [reflexivity| | |reflexivity|exact (λ x, x)].
  - pose proof (find_upsert hl_sensor_id r (obs_sensor_health (w_db w))) as E. rewrite Er in E. exact E.
  - intros k Hk. apply find_upsert_ne. by rewrite Er.
Qed.

(** What a sensor's turn establishes. *)
Record turn_done (started : Q) (s : Sensor) (t : tally) (d : DB) (t' : tally) (d' : DB) : Prop := {
  td_reported : reported started s d';
  td_others : ∀ k, k ≠ se_sensor_id s → find_row hl_sensor_id k (obs_sensor_health d') = find_row hl_sensor_id k (obs_sensor_health d);
  td_evidence : obs_evidence d' = obs_evidence d;
  td_inventory : inventory_loads d → inventory_loads d';
  td_ok : ta_ok t' = (ta_ok t + if healthy_now d' s then 1 else 0)%Z;
  td_failed : ta_failed t' = (ta_failed t + if healthy_now d' s then 0 else 1)%Z;
}.
Lemma collect_run started s w :
  respects (on_db eq) (se_collect s) →
  (∃ l w1 w2, se_collect s w = (Ok l, w1) ∧ collect_from started s w = (Ok (inl l), w2)
     ∧ update_sensor_health (se_sensor_id s) true None (Some started) w1 = (Ok tt, w2) ∧ w_db w1 = w_db w)
  ∨ (∃ e w1, se_collect s w = (Raise e, w1) ∧ collect_from started s w = (Ok (inr e), w1) ∧ w_db w1 = w_db w).
Proof.
  intros Hs. pose proof (Hs w) as Hd. unfold on_db in Hd. unfold collect_from, catch.
  destruct (se_collect s w) as [[l|e] w1] eqn:Ec; cbn [snd] in Hd.
  - left. destruct (health_run (se_sensor_id s) true None started w1) as (w2 & E & _). exists l, w1, w2.
    rewrite (bind_Ok _ _ _ _ _ Ec), (bind_Ok _ _ _ _ _ E). by split_and!.
  - right. exists e, w1. unfold mbind, M_bind. rewrite Ec. by split_and!.
Qed.
Lemma turn_run started s t w :
  (0 < min_samples)%Z → sensor_sound s → ∃ t' w', turn started s t w = (Ok t', w') ∧ turn_done started s t (w_db w) t' (w_db w').
Proof.
  intros Hm [Hs Hok]. unfold sensor_turn.
  destruct (collect_run started s w Hs) as [(l & w1 & w2 & Hc & E & Hh & D1)|(e & w1 & Hc & E & D1)]; rewrite (bind_Ok _ _ _ _ _ E).
  - destruct (health_run (se_sensor_id s) true None started w1) as (w2' & Hh' & F & O & V & L). rewrite Hh in Hh'. injection Hh' as <-.
    destruct (process_all_returns (se_sensor_id s) started l (tally_sensor true t) w2 Hm (Hok _ _ _ Hc)) as (t' & w3 & E3 & T1 & T2).
    pose proof (process_all_observes (se_sensor_id s) started l (tally_sensor true t) w2) as (P1 & P2 & P3).
    rewrite (bind_Ok _ _ _ _ _ E3). rewrite E3 in P1, P2, P3. cbn [snd] in P1, P2, P3. eexists _, w3. split; [reflexivity|].
    assert (healthy_now (w_db w3) s = true) as Hh3 by (unfold healthy_now; by rewrite P1, F).
    split; rewrite ?Hh3; [| |by rewrite P2, V, D1|by rewrite <- D1; auto|exact T1|exact T2].
    + eexists. rewrite P1. split; [exact F|]. left. split_and!; [done..|by eauto].
    + intros k Hk. by rewrite P1, O, D1.
  - destruct (health_run (se_sensor_id s) false (Some (class_name (exn_cls e) +:+ ": " +:+ exn_text e)) started w1) as (w2 & Hh & F & O & V & L).
    rewrite (bind_Ok _ _ _ _ _ Hh).
    destruct (ingested_returns "discovery-engine" (sensor_failure (se_sensor_id s) e) started w2 eq_refl eq_refl) as (p & w3 & E3 & _).
    pose proof (ingested_observes "discovery-engine" (sensor_failure (se_sensor_id s) e) started w2) as (P1 & P2 & P3).
    rewrite (bind_Ok _ _ _ _ _ E3). rewrite E3 in P1, P2, P3. cbn [snd] in P1, P2, P3. eexists _, w3. split; [reflexivity|].
    set (row := next_health _ _ _ _ _) in F.
    assert (hl_state row ∈ ["DEGRADED"; "FAILED"]) as Hst by (unfold row, next_health; cbn; destruct (_ <? 3)%Z; set_solver).
    assert (healthy_now (w_db w3) s = false) as Hh3.
    { unfold healthy_now. rewrite P1, F. by repeat (apply elem_of_cons in Hst as [->|Hst]; [done|]); apply elem_of_nil in Hst. }
    split; rewrite ?Hh3; [| |by rewrite P2, V, D1|by rewrite <- D1; auto|reflexivity|reflexivity].
    + exists row. rewrite P1. split; [exact F|]. right. split_and!; [done..|by eauto].
    + intros k Hk. by rewrite P1, O, D1.
Qed.
(** ** The cycle *)
Definition count_of (f : Sensor → bool) (l : list Sensor) : Z := Z.of_nat (length (List.filter f l)).
Lemma healthy_now_eq (d d' : DB) s :
  find_row hl_sensor_id (se_sensor_id s) (obs_sensor_health d') = find_row hl_sensor_id (se_sensor_id s) (obs_sensor_health d) →
  healthy_now d' s = healthy_now d s.
Proof. unfold healthy_now. by intros ->. Qed.
Lemma turns_run started l t w :
  (0 < min_samples)%Z → NoDup (map se_sensor_id l) → Forall sensor_sound l →
  ∃ t' w', turns started l t w = (Ok t', w') ∧ Forall (λ s, reported started s (w_db w')) l
    ∧ (∀ k, k ∉ map se_sensor_id l →
         find_row hl_sensor_id k (obs_sensor_health (w_db w')) = find_row hl_sensor_id k (obs_sensor_health (w_db w)))
    ∧ obs_evidence (w_db w') = obs_evidence (w_db w) ∧ (inventory_loads (w_db w) → inventory_loads (w_db w'))
    ∧ ta_ok t' = (ta_ok t + count_of (healthy_now (w_db w')) l)%Z
    ∧ ta_failed t' = (ta_failed t + count_of (λ s, negb (healthy_now (w_db w') s)) l)%Z.
Proof.
  intros Hm. revert t w. induction l as [|s l IH]; intros t w; cbn [map sensor_turns].
  - intros _ _. exists t, w. split_and!; try done; unfold count_of; cbn; lia.
  - intros [Hn Hnd]%NoDup_cons [Hs Hl]%Forall_cons. destruct (turn_run started s t w Hm Hs) as (t1 & w1 & E1 & [R1 O1 V1 L1 A1 B1]).
    destruct (IH t1 w1 Hnd Hl) as (t2 & w2 & E2 & R2 & O2 & V2 & L2 & A2 & B2). rewrite (bind_Ok _ _ _ _ _ E1).
    exists t2, w2. pose proof (O2 _ Hn) as Hsame. pose proof (healthy_now_eq _ _ _ Hsame) as Hsame'.
    split_and!; [done| | |congruence|auto| |].
    + constructor; [|done]. destruct R1 as (r & Hr & Hcase). exists r. by rewrite Hsame.
    + intros k [Hk1 Hk2]%not_elem_of_cons. by rewrite O2, O1.
    + rewrite A2, A1, <- Hsame'. unfold count_of. cbn. destruct (healthy_now (w_db w2) s); cbn [length]; lia.
    + rewrite B2, B1, <- Hsame'. unfold count_of. cbn. destruct (healthy_now (w_db w2) s); cbn [negb length]; lia.
Qed.

Lemma for_each_returns {A B} (f : A → IO B) l w :
  (∀ x, x ∈ l → ∃ y, ∀ w, f x w = (Ok y, w)) → ∃ ys, for_each l f w = (Ok ys, w).
Proof.
  induction l as [|x l IH]; intros Hf; [by exists []|]. destruct (Hf x) as [y Hy]; [by left|].
  destruct IH as [ys Hys]; [intros; apply Hf; by right|]. exists (y :: ys). cbn [for_each].
  by rewrite (bind_Ok _ _ _ _ _ (Hy w)), (bind_Ok _ _ _ _ _ Hys).
Qed.
Lemma inventory_run w : inventory_loads (w_db w) → ∃ d, inventory_snapshot w = (Ok d, w).
Proof.
  intros [Hr Hd]. pose proof (proj1 (Forall_forall _ _) Hr) as Hr'. pose proof (proj1 (Forall_forall _ _) Hd) as Hd'.
  unfold inventory_snapshot, query. rewrite bind_gets_run.
  set (lr := order_by _ (obs_resources (w_db w))). destruct (for_each_returns resource_json lr w) as [rs Er].
  { intros r Hin. unfold lr in Hin. rewrite order_by_perm in Hin. destruct (Hr' r Hin) as [v Hv]. eexists. intros u.
    unfold resource_json, load_json. rewrite Hv. reflexivity. }
  rewrite (bind_Ok _ _ _ _ _ Er), bind_gets_run.
  set (ld := order_by _ (obs_dependencies (w_db w))). destruct (for_each_returns dependency_json ld w) as [ds Ed].
  { intros r Hin. unfold ld in Hin. rewrite order_by_perm in Hin. destruct (Hd' r Hin) as [v Hv]. eexists. intros u.
    unfold dependency_json, load_json. rewrite Hv. reflexivity. }
  rewrite (bind_Ok _ _ _ _ _ Ed). by eexists.
Qed.

(** Recording the evidence and the ledger entry leaves the health alone, and fails only
    when a drawn id is taken. *)
Definition same_health (d d' : DB) : Prop := obs_sensor_health d' = obs_sensor_health d.
#[local] Instance same_health_preorder : PreOrder same_health.
Proof. split; [by intros d|]. unfold same_health. intros a b c. congruence. Qed.
Lemma audit_same_health actor action mid payload now : respects (on_db same_health) (audit actor action mid payload now).
Proof. apply audit_frame; [typeclasses eauto|]. by intros. Qed.
Hint Resolve audit_same_health : respects.
Lemma evidence_same_health kind payload mid ts : respects (on_db same_health) (evidence obs_audited kind payload mid ts).
Proof. unfold evidence. io_respects. Qed.
Hint Resolve evidence_same_health : respects.
Lemma audit_integrity_only actor action mid payload now : raises (λ c, c = IntegrityError) (audit actor action mid payload now).
Proof. intros w e w' E. apply audit_outcome in E as [_ E]. by apply E. Qed.
Hint Resolve audit_integrity_only : raises.
Lemma evidence_integrity_only kind payload mid ts : raises (λ c, c = IntegrityError) (evidence obs_audited kind payload mid ts).
Proof. unfold evidence, query, exec. destruct ts; solve_raises; unfold now_or_time; auto with raises; by intros w e w'. Qed.
Hint Resolve evidence_integrity_only : raises.

(** C32. A discovery cycle isolates its sensors: with sensors that do not touch the database
    and return well-formed observations, whatever any of them raises, every sensor has its
    turn and the health table records its outcome (HEALTHY with the time of success, or
    DEGRADED or FAILED with the time and the text of its exception); the loop over the
    sensors never raises, and the cycle returns, with counts of healthy and failed sensors
    that are those of the table, unless an id drawn for its evidence or ledger entry is
    already taken (IntegrityError). *)
Theorem discovery_isolates_sensors sensors mission now w r w' :
  (0 < min_samples)%Z → discovery_engine sensors = Ok sensors → Forall sensor_sound sensors → inventory_loads (w_db w) →
  cycle sensors mission now w = (r, w') →
  ∃ started, Forall (λ s, reported started s (w_db w')) sensors
    ∧ match r with
      | Ok c => dy_started_at c = started ∧ dy_sensors_total c = Z.of_nat (length sensors)
          ∧ dy_sensors_ok c = count_of (healthy_now (w_db w')) sensors
          ∧ dy_sensors_failed c = count_of (λ s, negb (healthy_now (w_db w') s)) sensors
      | Raise e => exn_cls e = IntegrityError
      end.
Proof.
  intros Hm Hnew Hs Hinv Hrun.
  assert (NoDup (map se_sensor_id sensors)) as Hnd.
  { unfold discovery_engine in Hnew. destruct sensors; [done|]. by destruct (bool_decide_reflect (NoDup (map se_sensor_id (s :: sensors)))). }
  unfold discovery_cycle in Hrun.
  assert (∃ started w0, now_or_time now w = (Ok started, w0) ∧ w_db w0 = w_db w) as (started & w0 & E0 & D0) by (destruct now; by eexists _, _).
  rewrite (bind_Ok _ _ _ _ _ E0) in Hrun. destruct (turns_run started sensors no_tally w0 Hm Hnd Hs) as
    (t & w1 & E1 & R1 & _ & _ & L1 & A1 & B1). rewrite (bind_Ok _ _ _ _ _ E1) in Hrun. rewrite D0 in L1.
  destruct (inventory_run w1 (L1 Hinv)) as (snap & E2). rewrite (bind_Ok _ _ _ _ _ E2) in Hrun.
  match type of Hrun with ?m w1 = _ => set (rest := m) in Hrun end.
  assert (obs_sensor_health (w_db w') = obs_sensor_health (w_db w1)) as Hh.
  { refine (respects_run (on_db same_health) rest _ _ _ _ Hrun). unfold rest. io_respects. }
  exists started. unfold reported, healthy_now. rewrite Hh. split; [exact R1|]. destruct r as [c|e].
  - unfold rest in Hrun. apply bind_Ok_inv in Hrun as (completed & w2 & _ & Hrun). cbv zeta in Hrun.
    apply bind_Ok_inv in Hrun as (ev & w3 & _ & Hrun). apply bind_Ok_inv in Hrun as (? & w4 & _ & [= <- _]). cbn. by rewrite A1, B1.
  - refine ((_ : raises (λ c, c = IntegrityError) rest) _ _ _ Hrun). unfold rest, now_or_time, time_time.
    destruct now; solve_raises; by intros u x u'.
Qed.

(** The isolation does not cover what a sensor returns: one resource observation without
    a resource_id, from any sensor, ends the whole cycle with a KeyError.  The sensor
    that sent it has just been marked HEALTHY, the sensors after it have no turn and no
    health report, and no evidence of the cycle is recorded. *)
Theorem malformed_observation_aborts_cycle s rest obs more mission started w w1 :
  respects (on_db eq) (se_collect s) → se_collect s w = (Ok (obs :: more), w1) →
  lower (get_str obs "type" "") = "resource" → dget obs "resource_id" = None →
  ∃ w', cycle (s :: rest) mission (Some started) w = (Raise (Exn KeyError "resource_id"), w')
    ∧ healthy_now (w_db w') s = true ∧ obs_evidence (w_db w') = obs_evidence (w_db w)
    ∧ ∀ k, k ≠ se_sensor_id s →
        find_row hl_sensor_id k (obs_sensor_health (w_db w')) = find_row hl_sensor_id k (obs_sensor_health (w_db w)).
Proof.
  intros Hs Hc Htyp Hno. destruct (collect_run started s w Hs) as [(l & w1' & w2 & Hc' & E & Hh & D1)|(e & w1' & Hc' & _)];
    rewrite Hc in Hc'; [injection Hc' as <- <-|done].
  destruct (health_run (se_sensor_id s) true None started w1) as (w2' & Hh' & F & O & V & _). rewrite Hh in Hh'. injection Hh' as <-.
  exists w2. split_and!.
  - unfold discovery_cycle, sensor_turns, sensor_turn. unfold mbind, M_bind. cbn [now_or_time]. unfold mret, M_ret. rewrite E.
    cbn [process_observations]. unfold process_observation, required. rewrite Htyp, Hno. reflexivity.
  - unfold healthy_now. by rewrite F.
  - by rewrite V, D1.
  - intros k Hk. by rewrite O, D1.
Qed.
End cycle.
