(* ===== verification/Isolation.v ===== *)
(** immune_execution_broker/isolation.py: the container policy and the runner that
    creates, inspects, runs and destroys a disposable container.

    The docker command is code outside the sources: [docker] runs an argument vector
    and gives the return code and standard output, or raises (a timeout, a missing
    executable).  CPU shares are exact rationals.

    The theorems follow the definitions. *)

From S2P Require Import Prelude Json Sha256 Schema Tokens Observability Fortress Gateway ProviderProxy.

Record ContainerIsolationPolicy := {
  ci_network_mode : string; ci_pids_limit : Z; ci_memory_bytes : Z; ci_cpus : Q; ci_read_only_root : bool;
  ci_cap_drop : list string; ci_no_new_privileges : bool; ci_tmpfs : string; ci_env_allowlist : list string;
}.
Definition default_isolation : ContainerIsolationPolicy :=
  {| ci_network_mode := "none"; ci_pids_limit := 1; ci_memory_bytes := 134217728; ci_cpus := 1 # 2; ci_read_only_root := true;
     ci_cap_drop := ["ALL"]; ci_no_new_privileges := true; ci_tmpfs := "/tmp:rw,noexec,nosuid,nodev,size=16m"; ci_env_allowlist := [] |}.
(** [__post_init__] *)
Definition isolation_policy (p : ContainerIsolationPolicy) : result ContainerIsolationPolicy :=
  if negb (ci_network_mode p =s "none") then Raise (Exn SandboxIsolationError "closed-lab sandbox network must be deny-all")
  else if negb ((1 <=? ci_pids_limit p) && (ci_pids_limit p <=? 64))%Z
  then Raise (Exn SandboxIsolationError "sandbox pids limit outside sovereign bounds")
  else if negb ((32 * 1024 * 1024 <=? ci_memory_bytes p) && (ci_memory_bytes p <=? 2 * 1024 * 1024 * 1024))%Z
  then Raise (Exn SandboxIsolationError "sandbox memory limit outside sovereign bounds")
  else if negb (qle (1 # 10) (ci_cpus p) && qle (ci_cpus p) 2)
  then Raise (Exn SandboxIsolationError "sandbox cpu limit outside sovereign bounds")
  else if negb (ci_read_only_root p) || negb (str_in "ALL" (ci_cap_drop p)) || negb (ci_no_new_privileges p)
  then Raise (Exn SandboxIsolationError "sandbox cannot relax root/capability/privilege containment")
  else Ok p.

(** [_SENSITIVE_ENV.search(key)]: the alternatives of the pattern, in upper case *)
Definition SENSITIVE_ENV : list string :=
  ["SECRET"; "TOKEN"; "PASSWORD"; "APIKEY"; "API_KEY"; "API-KEY"; "PRIVATEKEY"; "PRIVATE_KEY"; "PRIVATE-KEY"; "CREDENTIAL"].
Definition sensitive_env (key : string) : bool := existsb (λ n, contains n (upper key)) SENSITIVE_ENV.

(** [[A-Za-z0-9][A-Za-z0-9_.-]{0,62}] *)
Definition alnum (c : ascii) : bool :=
  let n := N_of_ascii c in
  ((N.leb 48 n && N.leb n 57) || (N.leb 65 n && N.leb n 90) || (N.leb 97 n && N.leb n 122))%bool.
Definition name_char (c : ascii) : bool := alnum c || Ascii.eqb c "_" || Ascii.eqb c "." || Ascii.eqb c "-".
Definition container_name_ok (name : string) : bool :=
  match name with
  | EmptyString => false
  | String c rest => alnum c && forallb name_char (String.list_ascii_of_string rest) && (String.length rest <=? 62)%nat
  end.
(** [any(ch.isspace() for ch in s)] *)
Definition has_space (s : string) : bool := existsb is_space (String.list_ascii_of_string s).

(** [str.splitlines()] on ASCII text *)
Definition line_break (c : ascii) : bool := bool_decide (nat_of_ascii c ∈ [10; 11; 12; 13; 28; 29; 30]).
Fixpoint split_breaks (s : string) : list string :=
  match s with
  | EmptyString => [EmptyString]
  | String c s' =>
      if line_break c then EmptyString :: split_breaks s'
      else match split_breaks s' with x :: rest => String c x :: rest | [] => [String c EmptyString] end
  end.
(** [[line.strip() for line in s.splitlines() if line.strip()]] *)
Definition text_lines (s : string) : list string := List.filter (λ l, negb (l =s "")) (map strip (split_breaks s)).

Section isolation.
Context `{JsonText, Entropy} (policy : ContainerIsolationPolicy) (docker : list string → Q → IO (Z * string)).

Fixpoint check_env (requested : list (string * string)) : result unit :=
  match requested with
  | [] => Ok tt
  | (key, _) :: rest =>
      if negb (str_in key (ci_env_allowlist policy))
      then Raise (Exn SandboxIsolationError ("sandbox environment key not allowlisted: " +:+ key))
      else if sensitive_env key
      then Raise (Exn SandboxIsolationError ("secret-like environment key forbidden in sandbox: " +:+ key))
      else check_env rest
  end.
(** [sorted(requested.items())] *)
Definition env_leb (p q : string * string) : bool := String.leb (fst p) (fst q).
Definition docker_arguments (image_ref name : string) (command : list string) (env : list (string * string)) : list string :=
  ["docker"; "create"; "--name"; name; "--network"; ci_network_mode policy; "--pids-limit"; py_str (JInt (ci_pids_limit policy));
   "--memory"; py_str (JInt (ci_memory_bytes policy)); "--cpus"; py_str (JNum (ci_cpus policy)); "--read-only";
   "--tmpfs"; ci_tmpfs policy; "--security-opt"; "no-new-privileges:true"]
  ++ concat (map (λ c, ["--cap-drop"; c]) (ci_cap_drop policy))
  ++ concat (map (λ kv : string * string, ["--env"; fst kv +:+ "=" +:+ snd kv]) (order_by env_leb env))
  ++ [image_ref] ++ command.
(** [create_args] with a given, non-empty container name *)
Definition create_args (image_ref name : string) (command : list string) (env : list (string * string)) : result (list string) :=
  let image_ref := strip image_ref in
  if (image_ref =s "") || has_space image_ref then Raise (Exn SandboxIsolationError "bounded image_ref is required")
  else if negb (container_name_ok name) then Raise (Exn SandboxIsolationError "invalid sandbox container name")
  else match check_env env with
       | Raise e => Raise e
       | Ok _ => Ok (docker_arguments image_ref name command env)
       end.

Definition image_sha256 (image_ref : string) (timeout : Q) : IO string :=
  completed ← docker ["docker"; "image"; "inspect"; "--format"; "{{.Id}}"; image_ref] timeout;
  let '(rc, out) := completed in
  _ ← raise_if (negb (rc =? 0)%Z) SandboxIsolationError "sandbox image inspection failed";
  let value := removeprefix "sha256:" (lower (strip out)) in
  _ ← raise_if (negb (String.length value =? 64)%nat || negb (all_hex value))
        SandboxIsolationError "sandbox image sha256 digest invalid";
  mret value.

(** [json.loads(out)[0]["HostConfig"]] when nothing raises *)
Definition host_config (out : string) : option json :=
  match loads out with
  | Some (JList (JObj meta :: _)) => dget meta "HostConfig"
  | _ => None
  end.
(** [int(host.get(k) or 0)] *)
Definition host_int (host : dict) (k : string) : result Z :=
  match truthy_get host k with Some v => py_int v | None => Ok 0%Z end.
(** The elements of [host.get(k) or []]. *)
Definition host_items (host : dict) (k : string) : result (list json) :=
  match truthy_get host k with
  | None => Ok []
  | Some (JList l) => Ok l
  | Some (JStr s) => Ok (map JStr (chars s))
  | Some (JObj d) => Ok (map (λ kv, JStr (fst kv)) d)
  | Some _ => Raise (Exn TypeError "object is not iterable")
  end.
(** ["/tmp" in (host.get("Tmpfs") or {})] *)
Definition tmpfs_mounted (host : dict) : result bool :=
  match truthy_get host "Tmpfs" with
  | None => Ok false
  | Some (JObj d) => Ok (match dget d "/tmp" with Some _ => true | None => false end)
  | Some (JList l) => Ok (existsb (λ v, match v with JStr s => s =s "/tmp" | _ => false end) l)
  | Some (JStr s) => Ok (contains "/tmp" s)
  | Some _ => Raise (Exn TypeError "argument is not iterable")
  end.
(** What docker says of the created container, against the policy. *)
Definition check_host (host : dict) : IO unit :=
  _ ← raise_if (match dget host "NetworkMode" with Some (JStr s) => negb (s =s "none") | _ => true end) SandboxIsolationError
        "sandbox network isolation not enforced";
  pids ← lift_result (host_int host "PidsLimit");
  _ ← raise_if (negb (pids =? ci_pids_limit policy)%Z) SandboxIsolationError "sandbox pids isolation not enforced";
  memory ← lift_result (host_int host "Memory");
  _ ← raise_if (negb (memory =? ci_memory_bytes policy)%Z) SandboxIsolationError "sandbox memory isolation not enforced";
  let cpus := (ci_cpus policy * 1000000000)%Q in
  nano ← lift_result (host_int host "NanoCpus");
  _ ← raise_if (negb (nano =? Z.quot (Qnum cpus) (Zpos (Qden cpus)))%Z) SandboxIsolationError "sandbox cpu isolation not enforced";
  _ ← raise_if (negb (get_truthy host "ReadonlyRootfs" false)) SandboxIsolationError "sandbox root filesystem is writable";
  tmp ← lift_result (tmpfs_mounted host);
  _ ← raise_if (negb tmp) SandboxIsolationError "sandbox ephemeral tmpfs missing";
  caps ← lift_result (host_items host "CapDrop");
  _ ← raise_if (negb (str_in "ALL" (map (λ v, upper (py_str v)) caps))) SandboxIsolationError "sandbox capabilities were not dropped";
  opts ← lift_result (host_items host "SecurityOpt");
  raise_if (negb (existsb (λ v, contains "no-new-privileges" (lower (py_str v))) opts)) SandboxIsolationError
    "sandbox no-new-privileges missing".

(** The body of the [try]: inspect, check, start, parse the last line. *)
Definition probe_body (name : string) (timeout : Q) : IO dict :=
  inspect ← docker ["docker"; "inspect"; name] timeout;
  _ ← raise_if (negb (fst inspect =? 0)%Z) SandboxIsolationError "sandbox inspect failed";
  config ← match host_config (snd inspect) with
           | Some v => mret v
           | None => throw SandboxIsolationError "sandbox inspect contract invalid"
           end;
  host ← match config with JObj d => mret d | _ => throw AttributeError "object has no attribute 'get'" end;
  _ ← check_host host;
  started ← docker ["docker"; "start"; "--attach"; name] timeout;
  _ ← raise_if (negb (fst started =? 0)%Z) SandboxIsolationError ("sandbox probe failed rc=" +:+ py_str (JInt (fst started)));
  match List.last (map Some (text_lines (snd started))) None with
  | None => throw SandboxIsolationError "sandbox probe produced no structured result"
  | Some line =>
      match loads line with
      | None => throw SandboxIsolationError "sandbox probe result is not JSON"
      | Some (JObj d) => mret d
      | Some _ => throw SandboxIsolationError "sandbox probe result must be an object"
      end
  end.
(** [finally:] the container is removed whatever the body did; a failed removal replaces
    the outcome. *)
Definition torn_down (name : string) (timeout : Q) (body : IO dict) : IO dict :=
  outcome ← attempt body;
  removed ← docker ["docker"; "rm"; "--force"; name] timeout;
  _ ← raise_if (negb (fst removed =? 0)%Z) SandboxIsolationError "sandbox teardown failed";
  lift_result outcome.
Definition container_probe (image_ref : string) (command : list string) (env : list (string * string)) (timeout : Q) : IO dict :=
  id ← uuid_hex;
  let name := "immune-sandbox-" +:+ String.substring 0 16 id in
  args ← lift_result (create_args image_ref name command env);
  create ← docker args timeout;
  _ ← raise_if (negb (fst create =? 0)%Z) SandboxIsolationError ("sandbox create failed rc=" +:+ py_str (JInt (fst create)));
  torn_down name timeout (probe_body name timeout).

(** The runner the adapter sandbox is given. *)
Definition container_runner : SandboxRunner := {| sr_image_sha256 := image_sha256; sr_run_json_probe := container_probe |}.
End isolation.

(** * Disposable containers: what a probe that returned rests on, and that the container
    is always removed. *)

(** What docker reported of the container, within the bounds of any accepted policy. *)
Record host_contained `{JsonText} (p : ContainerIsolationPolicy) (host : dict) : Prop := {
  hc_network : dget host "NetworkMode" = Some (JStr "none");
  hc_pids : host_int host "PidsLimit" = Ok (ci_pids_limit p) ∧ (1 <= ci_pids_limit p <= 64)%Z;
  hc_memory : host_int host "Memory" = Ok (ci_memory_bytes p) ∧ (33554432 <= ci_memory_bytes p <= 2147483648)%Z;
  hc_root : get_truthy host "ReadonlyRootfs" false = true;
  hc_tmp : tmpfs_mounted host = Ok true;
  hc_caps : ∃ l, host_items host "CapDrop" = Ok l ∧ "ALL" ∈ map (λ v, upper (py_str v)) l;
  hc_privileges : ∃ l v, host_items host "SecurityOpt" = Ok l ∧ v ∈ l ∧ contains "no-new-privileges" (lower (py_str v)) = true;
}.
(** The command line that created it. *)
Record args_contained (p : ContainerIsolationPolicy) (env : list (string * string)) (args : list string) : Prop := {
  ac_network : ∃ pre post, args = pre ++ ["--network"; "none"] ++ post;
  ac_read_only : "--read-only" ∈ args;
  ac_caps : ∃ pre post, args = pre ++ ["--cap-drop"; "ALL"] ++ post;
  ac_privileges : ∃ pre post, args = pre ++ ["--security-opt"; "no-new-privileges:true"] ++ post;
  ac_env : Forall (λ kv, fst kv ∈ ci_env_allowlist p ∧ sensitive_env (fst kv) = false) env;
}.
Section probe.
Context `{JsonText, Entropy} (p : ContainerIsolationPolicy) (docker : list string → Q → IO (Z * string)).

Lemma policy_bounds :
  isolation_policy p = Ok p →
  ci_network_mode p = "none" ∧ (1 <= ci_pids_limit p <= 64)%Z ∧ (33554432 <= ci_memory_bytes p <= 2147483648)%Z ∧ "ALL" ∈ ci_cap_drop p.
Proof.
  unfold isolation_policy. destruct (ci_network_mode p =s "none") eqn:E1; [|done].
  destruct ((1 <=? ci_pids_limit p) && (ci_pids_limit p <=? 64))%Z eqn:E2; [|done].
  destruct ((32 * 1024 * 1024 <=? ci_memory_bytes p) && (ci_memory_bytes p <=? 2 * 1024 * 1024 * 1024))%Z eqn:E3; [|done].
  destruct (qle _ _ && _); [|done]. destruct (_ || _) eqn:E5; [done|]. intros _.
  apply orb_false_iff in E5 as [[_ E5%negb_false_iff]%orb_false_iff _]. apply str_in_iff in E5. apply String.eqb_eq in E1.
  rewrite andb_true_iff, !Z.leb_le in E2, E3. done.
Qed.
Lemma check_env_ok env u : check_env p env = Ok u → Forall (λ kv, fst kv ∈ ci_env_allowlist p ∧ sensitive_env (fst kv) = false) env.
Proof.
  induction env as [|[k v] env IH]; [constructor|]. cbn [check_env]. destruct (str_in k _) eqn:E1; [|done]. cbn [negb].
  destruct (sensitive_env k) eqn:E2; [done|]. intros Hr. constructor; [|auto]. split; [by apply str_in_iff|done].
Qed.
Lemma cap_pair (l : list string) c : c ∈ l → ∃ pre post, concat (map (λ c, ["--cap-drop"; c]) l) = pre ++ ["--cap-drop"; c] ++ post.
Proof.
  intros (l1 & l2 & ->)%list_elem_of_split. eexists _, _. rewrite map_app, concat_app. cbn [map concat]. done.
Qed.
Lemma create_args_contained image name command env args :
  isolation_policy p = Ok p → create_args p image name command env = Ok args → args_contained p env args.
Proof.
  intros (Hn & _ & _ & Hc)%policy_bounds. unfold create_args. destruct (_ || _); [done|]. destruct (negb _); [done|].
  destruct (check_env p env) as [u|] eqn:Ee; [|done]. intros [= <-]. unfold docker_arguments. rewrite Hn. split.
  - eexists ["docker"; "create"; "--name"; name], _. reflexivity.
  - cbn [app]. do 12 apply list_elem_of_further. apply list_elem_of_here.
  - destruct (cap_pair _ _ Hc) as (pre & post & ->). rewrite <- (app_assoc pre), (app_assoc _ pre). eexists _, _. rewrite <- (app_assoc ["--cap-drop"; "ALL"]). reflexivity.
  - eexists [_; _; _; _; _; _; _; _; _; _; _; _; _; _; _], _. reflexivity.
  - by eapply check_env_ok.
Qed.
Lemma check_host_ok host w u w' : isolation_policy p = Ok p → check_host p host w = (Ok u, w') → host_contained p host ∧ w' = w.
Proof.
  intros (_ & Hp & Hm & _)%policy_bounds. unfold check_host.
  intros (? & ? & [Hnet ->]%raise_if_Ok_inv & Hrun)%bind_Ok_inv.
  apply bind_Ok_inv in Hrun as (pids & ? & [Ep ->]%lift_Ok_inv & Hrun). apply bind_Ok_inv in Hrun as (? & ? & [Hpid%negb_false_iff ->]%raise_if_Ok_inv & Hrun).
  apply bind_Ok_inv in Hrun as (mem & ? & [Em ->]%lift_Ok_inv & Hrun). apply bind_Ok_inv in Hrun as (? & ? & [Hmem%negb_false_iff ->]%raise_if_Ok_inv & Hrun).
  cbv zeta in Hrun. apply bind_Ok_inv in Hrun as (nano & ? & [_ ->]%lift_Ok_inv & Hrun). apply bind_Ok_inv in Hrun as (? & ? & [_ ->]%raise_if_Ok_inv & Hrun).
  apply bind_Ok_inv in Hrun as (? & ? & [Hro%negb_false_iff ->]%raise_if_Ok_inv & Hrun).
  apply bind_Ok_inv in Hrun as (tmp & ? & [Et ->]%lift_Ok_inv & Hrun). apply bind_Ok_inv in Hrun as (? & ? & [Htmp%negb_false_iff ->]%raise_if_Ok_inv & Hrun).
  apply bind_Ok_inv in Hrun as (caps & ? & [Ec ->]%lift_Ok_inv & Hrun). apply bind_Ok_inv in Hrun as (? & ? & [Hcap%negb_false_iff ->]%raise_if_Ok_inv & Hrun).
  apply bind_Ok_inv in Hrun as (opts & ? & [Eo ->]%lift_Ok_inv & [Hopt%negb_false_iff ->]%raise_if_Ok_inv).
  apply Z.eqb_eq in Hpid as ->, Hmem as ->. split; [|done]. split; [|done|done|done|by rewrite Et, Htmp| |].
  - destruct (dget host "NetworkMode") as [[]|]; try done. by apply negb_false_iff, String.eqb_eq in Hnet as ->.
  - exists caps. split; [done|by apply str_in_iff].
  - apply existsb_exists in Hopt as (v & Hv%list_elem_of_In & Hc). by exists opts, v.
Qed.

Abbreviation removal name := ["docker"; "rm"; "--force"; name].
Lemma torn_down_run name timeout body w r w' :
  torn_down docker name timeout body w = (r, w') →
  ∃ res wx, body w = (res, wx) ∧ w' = snd (docker (removal name) timeout wx)
    ∧ ∀ d, r = Ok d → res = Ok d ∧ ∃ out, docker (removal name) timeout wx = (Ok (0%Z, out), w').
Proof.
  unfold torn_down, attempt. unfold mbind at 1, M_bind at 1. destruct (body w) as [res wx]. intros Hrun. exists res, wx. split; [done|].
  revert Hrun. unfold mbind at 1, M_bind at 1. destruct (docker (removal name) timeout wx) as [[[rc out]|e] wy]; cbn [fst snd].
  - destruct (Z.eqb_spec rc 0) as [->|]; cbn [negb]; [|by intros [= <- <-]].
    rewrite bind_raise_if_run by done. intros [= <- <-]. split; [done|]. intros d ->. by eauto.
  - by intros [= <- <-].
Qed.
Lemma probe_body_ok name timeout w d w' :
  isolation_policy p = Ok p → probe_body p docker name timeout w = (Ok d, w') →
  ∃ out w1 host out', docker ["docker"; "inspect"; name] timeout w = (Ok (0%Z, out), w1) ∧ host_config out = Some (JObj host)
    ∧ host_contained p host ∧ docker ["docker"; "start"; "--attach"; name] timeout w1 = (Ok (0%Z, out'), w').
Proof.
  intros Hp. unfold probe_body. intros ([rc out] & w1 & Hi & Hrun)%bind_Ok_inv. cbn [fst snd] in Hrun.
  apply bind_Ok_inv in Hrun as (? & ? & [Hrc%negb_false_iff%Z.eqb_eq ->]%raise_if_Ok_inv & Hrun).
  apply bind_Ok_inv in Hrun as (config & ? & Hc & Hrun). destruct (host_config out) as [v|] eqn:Eh; [|done]. injection Hc as -> <-.
  apply bind_Ok_inv in Hrun as (host & ? & Ho & Hrun). destruct config as [| | | | | |host']; try done. injection Ho as -> <-.
  apply bind_Ok_inv in Hrun as (? & ? & [Hok ->]%check_host_ok & Hrun); [|done].
  apply bind_Ok_inv in Hrun as ([rc' out'] & w2 & Hs & Hrun). cbn [fst snd] in Hrun.
  apply bind_Ok_inv in Hrun as (? & ? & [Hrc'%negb_false_iff%Z.eqb_eq ->]%raise_if_Ok_inv & Hrun). subst rc rc'.
  exists out, w1, host, out'. split_and!; try done. rewrite Hs. f_equal.
  destruct (List.last _ _); [|done]. destruct (loads _) as [[]|]; try done. by injection Hrun.
Qed.

(** C33. A container probe is contained and disposable.  Whatever happens once docker has
    created the container (a refused inspection, a failing or unreadable probe, an
    exception of docker itself), the last thing the runner does is to remove it.  A probe
    that returns was created by a command line with no network, a read-only root, all
    capabilities dropped, no new privileges and only allowlisted environment keys that do
    not look like secrets; docker's own description of the container confirmed that,
    within the sovereign bounds on processes and memory, before it was started; and it
    was started and removed with return code 0. *)
Theorem container_probe_contained image command env timeout w r w' :
  isolation_policy p = Ok p → container_probe p docker image command env timeout w = (r, w') →
  ∃ id w0, uuid_hex w = (Ok id, w0) ∧
    let name := "immune-sandbox-" +:+ String.substring 0 16 id in
    (∀ args out w1, create_args p image name command env = Ok args → docker args timeout w0 = (Ok (0%Z, out), w1) →
       ∃ wx, w' = snd (docker (removal name) timeout wx))
    ∧ ∀ d, r = Ok d → ∃ args out0 w1 out1 w2 host out2 w3 out3,
        create_args p image name command env = Ok args ∧ args_contained p env args ∧ docker args timeout w0 = (Ok (0%Z, out0), w1)
        ∧ docker ["docker"; "inspect"; name] timeout w1 = (Ok (0%Z, out1), w2)
        ∧ host_config out1 = Some (JObj host) ∧ host_contained p host
        ∧ docker ["docker"; "start"; "--attach"; name] timeout w2 = (Ok (0%Z, out2), w3)
        ∧ docker (removal name) timeout w3 = (Ok (0%Z, out3), w').
Proof.
  intros Hp. unfold container_probe. assert (∃ id w0, uuid_hex w = (Ok id, w0)) as (id & w0 & Eid) by (by eexists _, _).
  rewrite (bind_Ok _ _ _ _ _ Eid). cbv zeta. intros Hrun. exists id, w0. split; [done|]. set (name := _ +:+ _) in *.
  destruct (create_args p image name command env) as [args|e] eqn:Ea; [|by injection Hrun as <- <-].
  rewrite (bind_Ok (lift_result (Ok args)) _ w0 args w0 eq_refl) in Hrun. split.
  - intros ? out w1 [= <-] Ed. rewrite (bind_Ok _ _ _ _ _ Ed) in Hrun. cbn [fst] in Hrun. rewrite bind_raise_if_run in Hrun by done.
    apply torn_down_run in Hrun as (res & wx & _ & -> & _). by exists wx.
  - intros d ->. apply bind_Ok_inv in Hrun as ([rc out0] & w1 & Ed & Hrun). cbn [fst] in Hrun.
    apply bind_Ok_inv in Hrun as (? & ? & [Hrc%negb_false_iff%Z.eqb_eq ->]%raise_if_Ok_inv & Hrun). subst rc.
    apply torn_down_run in Hrun as (res & w3 & Hb & _ & Hok). destruct (Hok d eq_refl) as [-> [out3 E3]].
    apply probe_body_ok in Hb as (out1 & w2 & host & out2 & H1' & H2' & H3' & H4'); [|done].
    exists args, out0, w1, out1, w2, host, out2, w3, out3. pose proof (create_args_contained _ _ _ _ _ Hp Ea). by split_and!.
Qed.
End probe.
