(* ===== verification/Twin.v ===== *)
(** immune_twin/sandbox.py and immune_twin/gateway_adapter.py: the closed digital twin
    (a virtual world of services with snapshots inside a sandbox directory), its
    actuator, the guard against external effects, and the gateway adapter.

    The twin runs on its own state: the virtual world and the files of the sandbox.
    Directories are implicit in the file map.  A field that should hold a dict and holds
    something else raises TypeError.

    The theorems follow the definitions. *)

From S2P Require Import Prelude Json Sha256 Schema Files Tokens Observability Operations Gateway Updates.
From S2P Require Import Discovery TokenProps.

(** ** The virtual world *)
Record TwinService := { ts_name : string; ts_running : bool; ts_config : dict; ts_dependencies : list json }.
Record TwinWorld := {
  tw_clock : Q; tw_services : list (string * TwinService); tw_ai_available : bool; tw_release_version : string;
  tw_human_gate_open : bool; tw_events : list dict;
}.
Definition new_twin_world : TwinWorld :=
  {| tw_clock := 2100000000; tw_services := []; tw_ai_available := true; tw_release_version := "1.0.0";
     tw_human_gate_open := false; tw_events := [] |}.

Fixpoint sv_get (l : list (string * TwinService)) (k : string) : option TwinService :=
  match l with [] => None | (k', v) :: l' => if k' =s k then Some v else sv_get l' k end.
Fixpoint sv_set (l : list (string * TwinService)) (k : string) (v : TwinService) : list (string * TwinService) :=
  match l with [] => [(k, v)] | (k', v') :: l' => if k' =s k then (k, v) :: l' else (k', v') :: sv_set l' k v end.

(** ** The closed twin *)
Record Sandbox := { sb_world : TwinWorld; sb_files : gmap path string }.
Abbreviation Twin := (M Sandbox).
Definition put_world (f : TwinWorld → TwinWorld) : Twin unit :=
  modify (λ s, {| sb_world := f (sb_world s); sb_files := sb_files s |}).
Definition set_services (f : list (string * TwinService) → list (string * TwinService)) (w : TwinWorld) : TwinWorld :=
  {| tw_clock := tw_clock w; tw_services := f (tw_services w); tw_ai_available := tw_ai_available w;
     tw_release_version := tw_release_version w; tw_human_gate_open := tw_human_gate_open w; tw_events := tw_events w |}.
Definition set_clock (q : Q) (w : TwinWorld) : TwinWorld :=
  {| tw_clock := q; tw_services := tw_services w; tw_ai_available := tw_ai_available w;
     tw_release_version := tw_release_version w; tw_human_gate_open := tw_human_gate_open w; tw_events := tw_events w |}.
Definition set_ai (b : bool) (w : TwinWorld) : TwinWorld :=
  {| tw_clock := tw_clock w; tw_services := tw_services w; tw_ai_available := b;
     tw_release_version := tw_release_version w; tw_human_gate_open := tw_human_gate_open w; tw_events := tw_events w |}.
Definition set_release (v : string) (w : TwinWorld) : TwinWorld :=
  {| tw_clock := tw_clock w; tw_services := tw_services w; tw_ai_available := tw_ai_available w;
     tw_release_version := v; tw_human_gate_open := tw_human_gate_open w; tw_events := tw_events w |}.
Definition set_human_gate (b : bool) (w : TwinWorld) : TwinWorld :=
  {| tw_clock := tw_clock w; tw_services := tw_services w; tw_ai_available := tw_ai_available w;
     tw_release_version := tw_release_version w; tw_human_gate_open := b; tw_events := tw_events w |}.

(** [self.events.append({"ts": self.clock.tick(), ...})] *)
Definition tick_event (fields : dict) (w : TwinWorld) : TwinWorld :=
  {| tw_clock := tw_clock w + 1; tw_services := tw_services w; tw_ai_available := tw_ai_available w;
     tw_release_version := tw_release_version w; tw_human_gate_open := tw_human_gate_open w;
     tw_events := tw_events w ++ [("ts", JNum (tw_clock w + 1)) :: fields] |}.

Definition add_service (name : string) (running : bool) (config : dict) (dependencies : list json) (w : TwinWorld) : TwinWorld :=
  set_services (λ l, sv_set l name {| ts_name := name; ts_running := running; ts_config := config; ts_dependencies := dependencies |}) w.
Definition with_running (b : bool) (s : TwinService) : TwinService :=
  {| ts_name := ts_name s; ts_running := b; ts_config := ts_config s; ts_dependencies := ts_dependencies s |}.
Definition with_config (f : dict → dict) (s : TwinService) : TwinService :=
  {| ts_name := ts_name s; ts_running := ts_running s; ts_config := f (ts_config s); ts_dependencies := ts_dependencies s |}.
(** [self.services[name]], changed in place *)
Definition on_service (name : string) (f : TwinService → TwinService) : Twin unit :=
  w ← gets sb_world;
  match sv_get (tw_services w) name with
  | None => throw KeyError name
  | Some s => put_world (set_services (λ l, sv_set l name (f s)))
  end.

Definition fail_service (name reason : string) : Twin unit :=
  _ ← on_service name (with_running false);
  put_world (tick_event [("kind", JStr "failure"); ("service", JStr name); ("reason", JStr reason)]).
Definition restart_service (name : string) : Twin unit :=
  _ ← on_service name (with_running true);
  put_world (tick_event [("kind", JStr "restart"); ("service", JStr name)]).
Definition set_config (name key : string) (value : json) : Twin unit :=
  _ ← on_service name (with_config (λ c, dset c key value));
  put_world (tick_event [("kind", JStr "config"); ("service", JStr name); ("key", JStr key); ("value", value)]).

(** [sorted(self.services.items())] *)
Definition service_leb (p q : string * TwinService) : bool := String.leb (fst p) (fst q).
Definition service_json (s : TwinService) : json :=
  JObj [("running", JBool (ts_running s)); ("config", JObj (sort_keys (ts_config s))); ("dependencies", JList (ts_dependencies s))].
Definition snapshot_of (w : TwinWorld) : json :=
  JObj [("clock", JNum (tw_clock w)); ("ai_available", JBool (tw_ai_available w)); ("release_version", JStr (tw_release_version w));
        ("human_gate_open", JBool (tw_human_gate_open w));
        ("services", JObj (map (λ p, (fst p, service_json (snd p))) (order_by service_leb (tw_services w))))].

Section twin.
Context `{JsonText} (root : path).

Definition twin_digest (w : TwinWorld) : string := sha256_hex (dumps Compact (snapshot_of w)).

(** [TwinSensor.collect] *)
Definition twin_observations (w : TwinWorld) (service_name : string) : result (list dict) :=
  match sv_get (tw_services w) service_name with
  | None => Raise (Exn KeyError service_name)
  | Some s =>
      let subject := JStr ("service:" +:+ service_name) in
      Ok ([[("type", JStr "resource"); ("resource_id", subject); ("kind", JStr "service"); ("name", JStr service_name);
            ("attributes", JObj [("virtual", JBool true); ("running", JBool (ts_running s)); ("config", JObj (ts_config s))])]]
          ++ map (λ dep, [("type", JStr "dependency"); ("src", subject); ("dst", JStr ("service:" +:+ py_str dep));
                          ("relation", JStr "depends_on"); ("attributes", JObj [("virtual", JBool true)])]) (ts_dependencies s)
          ++ [[("type", JStr "signal"); ("kind", JStr "health"); ("subject", subject);
               ("severity", JStr (if ts_running s then "info" else "error"));
               ("attributes", JObj [("status", JStr (if ts_running s then "up" else "down")); ("incident_key", subject);
                                    ("virtual", JBool true)])]])
  end.
Definition twin_sensor (w : TwinWorld) (service_name : string) : Sensor :=
  {| se_sensor_id := "twin-service:" +:+ service_name; se_collect := lift_result (twin_observations w service_name) |}.

(** ** The actuator *)
Record actuation := { au_action : string; au_before : string; au_after : string; au_changed : bool }.
Definition ALLOWED_VIRTUAL : list string := ["restart_service"; "set_config"; "set_ai"; "activate_release"].
Definition actuator_apply (action : string) (params : dict) : Twin actuation :=
  _ ← raise_if (negb (str_in action ALLOWED_VIRTUAL)) SandboxViolation ("unregistered_virtual_action:" +:+ action);
  before ← gets (λ s, twin_digest (sb_world s));
  _ ← (if action =s "restart_service" then
         service ← lift_result (required params "service"); restart_service (py_str service)
       else if action =s "set_config" then
         service ← lift_result (required params "service");
         key ← lift_result (required params "key");
         set_config (py_str service) (py_str key) (default JNull (dget params "value"))
       else if action =s "set_ai" then
         available ← lift_result (required params "available");
         _ ← put_world (set_ai (truthy available));
         put_world (tick_event [("kind", JStr "ai"); ("available", JBool (truthy available))])
       else if action =s "activate_release" then
         version ← lift_result (required params "version");
         _ ← put_world (set_release (py_str version));
         put_world (tick_event [("kind", JStr "release"); ("version", JStr (py_str version))])
       else mret tt);
  after ← gets (λ s, twin_digest (sb_world s));
  mret {| au_action := action; au_before := before; au_after := after; au_changed := negb (before =s after) |}.

(** ** Snapshots *)
(** [ClosedDigitalTwin.path]; making the parent fails when a file is in its way *)
Definition in_the_way (p : path) (files : gmap path string) : bool :=
  existsb (λ n, is_file (take n p) files) (List.seq 0 (length p)).
Definition twin_path (parts : list string) : Twin path :=
  let p := fold_left resolve_join parts root in
  _ ← raise_if (negb (within root p)) SandboxViolation ("path_escape:/" +:+ posix p);
  files ← gets sb_files;
  _ ← raise_if (in_the_way p files) OSError "File exists";
  mret p.
(** [write_text] refuses a directory. *)
Definition snapshot_to (name : string) : Twin path :=
  p ← twin_path ["snapshots"; name];
  files ← gets sb_files;
  _ ← raise_if (bool_decide (p = root) || is_dir p files) OSError "Is a directory";
  text ← gets (λ s, dumps Indented (snapshot_of (sb_world s)) +:+ newline);
  _ ← modify (λ s, {| sb_world := sb_world s; sb_files := <[p := text]> (sb_files s) |});
  mret p.

(** [v[k]] with a text key *)
Definition json_item (v : json) (k : string) : result json :=
  match v with
  | JObj d => required d k
  | _ => Raise (Exn TypeError "object is not subscriptable by a text")
  end.
Definition as_dict (v : json) : result dict :=
  match v with JObj d => Ok d | _ => Raise (Exn TypeError "cannot convert to a dictionary") end.
(** [tuple(v)] *)
Definition as_tuple (v : json) : result (list json) :=
  match v with
  | JList l => Ok l
  | JStr s => Ok (map JStr (chars s))
  | JObj d => Ok (map (λ kv, JStr (fst kv)) d)
  | _ => Raise (Exn TypeError "object is not iterable")
  end.
Definition restore_service (kv : string * json) : Twin unit :=
  running ← lift_result (json_item (snd kv) "running");
  config ← lift_result (json_item (snd kv) "config");
  config' ← lift_result (as_dict config);
  dependencies ← lift_result (json_item (snd kv) "dependencies");
  dependencies' ← lift_result (as_tuple dependencies);
  put_world (add_service (fst kv) (truthy running) config' dependencies').
Definition restore_snapshot (p : path) : Twin unit :=
  _ ← raise_if (negb (inside root p)) SandboxViolation "snapshot_outside_sandbox";
  files ← gets sb_files;
  text ← match files !! p with Some t => mret t | None => throw OSError "No such file or directory" end;
  data ← match loads text with Some v => mret v | None => throw JSONDecodeError "Expecting value" end;
  clock ← lift_result (json_item data "clock");
  now ← lift_result (py_float clock);
  _ ← put_world (set_clock now);
  ai ← lift_result (json_item data "ai_available");
  _ ← put_world (set_ai (truthy ai));
  version ← lift_result (json_item data "release_version");
  _ ← put_world (set_release (py_str version));
  gate ← lift_result (json_item data "human_gate_open");
  _ ← put_world (set_human_gate (truthy gate));
  _ ← put_world (set_services (λ _, []));
  services ← lift_result (json_item data "services");
  entries ← match services with JObj d => mret d | _ => throw AttributeError "object has no attribute 'items'" end;
  _ ← for_each entries restore_service;
  mret tt.

(** ** The gateway adapter *)
Context (system_id : string).
Definition twin_policy : AdapterActionPolicy :=
  {| ap_required_scope := "gateway:egress"; ap_material_change := true; ap_irreversible := false; ap_checkpoint_required := true |}.
Definition TWIN_ACTIONS : list string := ["set_config"; "restart_service"; "restore_snapshot"].
(** [DigitalTwinGatewayAdapter.__init__] *)
Definition twin_adapter : result string :=
  if blank system_id then Raise (Exn ValueError "system_id is required") else Ok (strip system_id).
Definition twin_collect (now : Q) : Twin GatewayObservation :=
  w ← gets sb_world;
  let all_running := forallb (λ p : string * TwinService, ts_running (snd p)) (tw_services w) in
  mret {| go_system_id := system_id; go_kind := "digital_twin.health"; go_subject := system_id;
          go_severity := if all_running then "info" else "error";
          go_attributes := [("ok", JBool all_running); ("virtual", JBool true);
            ("service_count", JInt (Z.of_nat (length (tw_services w)))); ("world_digest", JStr (twin_digest w))];
          go_ts := Some now |}.
Definition twin_action_policy (action : string) : result AdapterActionPolicy :=
  if str_in (strip action) TWIN_ACTIONS then Ok twin_policy
  else Raise (Exn GatewayAdapterError "unregistered digital twin action").
Definition bounded_name (checkpoint_id : string) : bool :=
  negb ((checkpoint_id =s "") || has_char "/" checkpoint_id || has_char "\" checkpoint_id || str_in checkpoint_id ["."; ".."]).
Definition twin_verify_checkpoint (checkpoint_id : option string) : Twin bool :=
  match checkpoint_id with
  | Some c => if bounded_name c then p ← twin_path ["snapshots"; c]; gets (λ s, is_file p (sb_files s)) else mret false
  | None => mret false
  end.
Definition twin_recovery_ready (checkpoint_id : option string) (action : string) : Twin bool := twin_verify_checkpoint checkpoint_id.

Definition py_bool_text (b : bool) : string := if b then "True" else "False".
Definition twin_result (action before after : string) (changed : bool) : dict :=
  [("ok", JBool true); ("external_reference", JStr after);
   ("detail", JStr ("digital_twin:" +:+ action +:+ ":changed=" +:+ py_bool_text changed)); ("before", JStr before); ("after", JStr after)].
Definition twin_execute (action : string) (parameters : dict) (timeout_seconds : Q) : Twin dict :=
  let action := strip action in
  _ ← lift_result (twin_action_policy action);
  _ ← raise_if (qle timeout_seconds 0) GatewayAdapterError "digital twin timeout must be positive";
  if str_in action ["set_config"; "restart_service"] then
    a ← actuator_apply action parameters;
    mret (twin_result action (au_before a) (au_after a) (au_changed a))
  else if action =s "restore_snapshot" then
    let snapshot_name := strip (match truthy_get parameters "snapshot_name" with Some v => py_str v | None => "" end) in
    ok ← twin_verify_checkpoint (Some snapshot_name);
    _ ← raise_if (negb ok) GatewayAdapterError "bounded existing snapshot_name is required";
    before ← gets (λ s, twin_digest (sb_world s));
    p ← twin_path ["snapshots"; snapshot_name];
    _ ← restore_snapshot p;
    after ← gets (λ s, twin_digest (sb_world s));
    mret (twin_result "restore_snapshot" before after (negb (before =s after)))
  else throw GatewayAdapterError ("unsupported digital twin gateway action: " +:+ action).
End twin.

(** ** The guard against external effects *)
(** What an attribute of a module holds: the function the interpreter put there, or one of
    the functions [__enter__] defines. *)
Inductive callable :=
| Builtin (name : string)
| blocked_create_connection | blocked_connect | blocked_urlopen | blocked_run | blocked_popen | blocked_system
| guarded_open (original_open : callable).
Abbreviation attribute := (string * string)%type.
(** The attributes of the modules, and the guard's own lists. *)
Record Interpreter := { it_attributes : gmap attribute callable; it_violations : list string; it_patches : list (attribute * callable) }.
Abbreviation Py := (M Interpreter).

(** [_patch] *)
Definition patch (a : attribute) (replacement : callable) : Py unit :=
  it ← get_world;
  match it_attributes it !! a with
  | None => throw AttributeError ("module has no attribute " +:+ snd a)
  | Some original =>
      modify (λ i, {| it_attributes := <[a := replacement]> (it_attributes i); it_violations := it_violations i;
                      it_patches := it_patches i ++ [(a, original)] |})
  end.
(** [_violate] *)
Definition violate {A} (message : string) : Py A :=
  _ ← modify (λ i, {| it_attributes := it_attributes i; it_violations := it_violations i ++ [message]; it_patches := it_patches i |});
  throw SandboxViolation message.
(** [__enter__] *)
Definition guard_enter : Py unit :=
  it ← get_world;
  original_open ← match it_attributes it !! ("builtins", "open") with
                  | Some f => mret f
                  | None => throw AttributeError "module has no attribute open"
                  end;
  _ ← patch ("socket", "create_connection") blocked_create_connection;
  _ ← patch ("socket.socket", "connect") blocked_connect;
  _ ← patch ("urllib.request", "urlopen") blocked_urlopen;
  _ ← patch ("subprocess", "run") blocked_run;
  _ ← patch ("subprocess", "Popen") blocked_popen;
  _ ← patch ("os", "system") blocked_system;
  _ ← patch ("builtins", "open") (guarded_open original_open);
  _ ← patch ("io", "open") (guarded_open original_open);
  mret tt.
(** [__exit__] *)
Definition restore_attributes (patches : list (attribute * callable)) (m : gmap attribute callable) : gmap attribute callable :=
  fold_left (λ m p, <[fst p := snd p]> m) (rev patches) m.
Definition guard_exit : Py bool :=
  _ ← modify (λ i, {| it_attributes := restore_attributes (it_patches i) (it_attributes i); it_violations := it_violations i;
                      it_patches := [] |});
  mret false.
Definition guard_clean (i : Interpreter) : bool := match it_violations i with [] => true | _ => false end.

(** Calling what an attribute holds, with an address or a resolved file and mode: the
    bodies of the functions of [__enter__]; of the interpreter's own, the name of the one
    that runs. *)
Definition writes (mode : string) : bool := existsb (λ c, has_char c mode) ["w"; "a"; "x"; "+"]%char.
Fixpoint invoke (root : path) (f : callable) (address mode : string) (file : path) : Py string :=
  match f with
  | Builtin name => mret name
  | blocked_create_connection => violate ("network:" +:+ address)
  | blocked_connect => violate ("network:" +:+ address)
  | blocked_urlopen => violate "urllib"
  | blocked_run => violate "subprocess.run"
  | blocked_popen => violate "subprocess.Popen"
  | blocked_system => violate "os.system"
  | guarded_open original_open =>
      if writes mode && negb (within root file) then violate ("write_outside:/" +:+ posix file)
      else invoke root original_open address mode file
  end.

(** ** The context of the closed twin *)
(** The interpreter, the default temporary directory, the one remembered, the files. *)
Record TwinContext := {
  tc_interpreter : Interpreter; tc_tempdir : option string; tc_previous_tempdir : option string; tc_files : gmap path string;
}.
(** [ClosedDigitalTwin.__enter__] and [__exit__] *)
Definition twin_enter (root : path) : M TwinContext unit := λ c,
  let set_tempdir i := {| tc_interpreter := i; tc_tempdir := Some ("/" +:+ posix (root ++ ["tmp"]));
                          tc_previous_tempdir := tc_tempdir c; tc_files := tc_files c |} in
  match guard_enter (tc_interpreter c) with
  | (Ok _, i) => (Ok tt, set_tempdir i)
  | (Raise e, i) => (Raise e, set_tempdir i)
  end.
Definition twin_exit (root : path) : M TwinContext bool := λ c,
  let '(r, i) := guard_exit (tc_interpreter c) in
  (r, {| tc_interpreter := i; tc_tempdir := tc_previous_tempdir c; tc_previous_tempdir := tc_previous_tempdir c;
         tc_files := clear root (tc_files c) |}).

(** * The digital twin: snapshots restore, the actuator's receipts, the adapter's
    confinement and the guard. *)

(** ** Services *)
Lemma sv_set_absent l k v : k ∉ map fst l → sv_set l k v = l ++ [(k, v)].
Proof.
  induction l as [|[k' v'] l IH]; [done|]. cbn. intros [Hne Hl]%not_elem_of_cons.
  rewrite (proj2 (String.eqb_neq _ _)) by congruence. by rewrite IH.
Qed.
Lemma service_leb_total p q : service_leb p q = true ∨ service_leb q p = true.
Proof. apply String.leb_total. Qed.
Lemma service_leb_trans p q r : service_leb p q = true → service_leb q r = true → service_leb p r = true.
Proof. apply string_leb_trans. Qed.
Definition sorted_services (l : list (string * TwinService)) : Prop := StronglySorted (λ a b, service_leb a b = true) l.
Lemma order_services l : sorted_services (order_by service_leb l).
Proof. apply order_by_sorted; [apply service_leb_total|apply service_leb_trans]. Qed.
(** A map over the services that keeps their names keeps their order. *)
Lemma sorted_entries (f : string * TwinService → json) l :
  sorted_services l → sort_keys (map (λ p, (fst p, f p)) l) = map (λ p, (fst p, f p)) l.
Proof.
  intros Hl. apply order_by_fixed. induction Hl as [|x l Hl IH Hx]; [constructor|]. cbn. constructor; [done|].
  apply Forall_map. eapply Forall_impl; [exact Hx|]. done.
Qed.
Lemma sorted_map_services (f : string * TwinService → TwinService) l :
  sorted_services l → sorted_services (map (λ p, (fst p, f p)) l).
Proof.
  induction 1 as [|x l Hl IH Hx]; [constructor|]. cbn. constructor; [done|]. apply Forall_map. eapply Forall_impl; [exact Hx|]. done.
Qed.

(** ** Snapshots *)
Definition canon_config (c : dict) : dict := sort_keys (map (λ p, (p.1, jcanon p.2)) (sort_keys c)).
(** A service as a snapshot brings it back. *)
Definition canon_service (p : string * TwinService) : TwinService :=
  {| ts_name := fst p; ts_running := ts_running (snd p); ts_config := canon_config (ts_config (snd p));
     ts_dependencies := map jcanon (ts_dependencies (snd p)) |}.
Lemma jcanon_obj_ext (d d' : dict) :
  map (λ p, (p.1, jcanon p.2)) d = map (λ p, (p.1, jcanon p.2)) d' → jcanon (JObj d) = jcanon (JObj d').
Proof. cbn [jcanon]. by intros ->. Qed.
Lemma jcanon_config c : jcanon (JObj (sort_keys (canon_config c))) = jcanon (JObj (sort_keys c)).
Proof.
  assert (sort_keys (canon_config c) = canon_config c) as ->
    by (apply order_by_fixed, order_by_sorted; [apply key_leb_total|apply key_leb_trans]).
  exact (jcanon_idem (JObj (sort_keys c))).
Qed.
Lemma jcanon_list l : jcanon (JList (map jcanon l)) = jcanon (JList l).
Proof. exact (jcanon_idem (JList l)). Qed.
Lemma jcanon_service p : jcanon (service_json (canon_service p)) = jcanon (service_json (snd p)).
Proof.
  apply jcanon_obj_ext. cbn [map fst snd canon_service ts_running ts_config ts_dependencies]. by rewrite jcanon_config, jcanon_list.
Qed.
Definition service_entries (l : list (string * TwinService)) : dict := map (λ p, (fst p, service_json (snd p))) (order_by service_leb l).
Definition restored_services (l : list (string * TwinService)) : list (string * TwinService) :=
  map (λ p, (fst p, canon_service p)) (order_by service_leb l).
Lemma jcanon_services l : jcanon (JObj (service_entries (restored_services l))) = jcanon (JObj (service_entries l)).
Proof.
  unfold service_entries, restored_services. rewrite order_by_fixed by (apply sorted_map_services, order_services).
  apply jcanon_obj_ext. rewrite !map_map. apply map_ext. intros p. cbn [fst snd]. by rewrite jcanon_service.
Qed.
(** The services of a parsed snapshot. *)
Lemma parsed_services l :
  jcanon (JObj (service_entries l)) = JObj (map (λ p, (fst p, jcanon (service_json (snd p)))) (order_by service_leb l)).
Proof.
  unfold service_entries. cbn [jcanon]. rewrite map_map. cbn [fst snd].
  by rewrite (sorted_entries (λ p, jcanon (service_json (snd p)))) by apply order_services.
Qed.

Section twin.
Context `{JsonText} (root : path).

(** The fields of a parsed object. *)
Lemma item_jcanon d k : json_item (jcanon (JObj d)) k = match dget d k with Some v => Ok (jcanon v) | None => Raise (Exn KeyError k) end.
Proof. cbn [jcanon json_item]. unfold required. rewrite dget_sort_keys, dget_map_jcanon. by destruct (dget d k). Qed.

Lemma restore_service_run p s :
  restore_service (fst p, jcanon (service_json (snd p))) s
  = (Ok tt, {| sb_world := set_services (λ l, sv_set l (fst p) (canon_service p)) (sb_world s); sb_files := sb_files s |}).
Proof. unfold restore_service, service_json, lift_result, mbind, M_bind. cbn [fst snd]. by rewrite !item_jcanon. Qed.
Lemma restore_services_run l s :
  NoDup (map fst (tw_services (sb_world s) ++ l)) →
  ∃ us, for_each (map (λ p, (fst p, jcanon (service_json (snd p)))) l) restore_service s
  = (Ok us, {| sb_world := set_services (λ l0, l0 ++ map (λ p, (fst p, canon_service p)) l) (sb_world s); sb_files := sb_files s |}).
Proof.
  revert s. induction l as [|p l IH]; intros s Hnd; cbn [map for_each].
  - exists []. unfold set_services. rewrite app_nil_r. by destruct s as [[] ?].
  - set (w1 := set_services (λ l, sv_set l (fst p) (canon_service p)) (sb_world s)).
    assert (tw_services w1 = tw_services (sb_world s) ++ [(fst p, canon_service p)]) as E1.
    { apply sv_set_absent. rewrite map_app, NoDup_app in Hnd. destruct Hnd as (_ & Hd & _). intros Hin. apply (Hd _ Hin). by left. }
    destruct (IH {| sb_world := w1; sb_files := sb_files s |}) as [us Hus].
    { cbn [sb_world]. rewrite E1, <- app_assoc. rewrite !map_app in *. exact Hnd. }
    exists (tt :: us). rewrite (bind_Ok _ _ _ _ _ (restore_service_run p s)). fold w1. rewrite (bind_Ok _ _ _ _ _ Hus).
    unfold mret, M_ret, set_services. cbn [sb_world sb_files]. rewrite E1, <- app_assoc. done.
Qed.
(** The world a snapshot of [w0] brings back in [w]. *)
Definition restored (w0 w : TwinWorld) : TwinWorld :=
  {| tw_clock := tw_clock w0; tw_services := restored_services (tw_services w0); tw_ai_available := tw_ai_available w0;
     tw_release_version := tw_release_version w0; tw_human_gate_open := tw_human_gate_open w0; tw_events := tw_events w |}.
Lemma jcanon_restored w0 w : jcanon (snapshot_of (restored w0 w)) = jcanon (snapshot_of w0).
Proof.
  unfold snapshot_of. fold (service_entries (tw_services w0)). fold (service_entries (tw_services (restored w0 w))).
  apply jcanon_obj_ext. cbn [map fst snd]. cbn [restored tw_services]. by rewrite jcanon_services.
Qed.
Lemma bind_lift_run {S A B} (r : result A) a (f : A → M S B) w : r = Ok a → (lift_result r ≫= f) w = f a w.
Proof. by intros ->. Qed.
Lemma snapshot_fields w0 :
  let data := jcanon (snapshot_of w0) in
  json_item data "clock" = Ok (JNum (tw_clock w0)) ∧ json_item data "ai_available" = Ok (JBool (tw_ai_available w0))
  ∧ json_item data "release_version" = Ok (JStr (tw_release_version w0)) ∧ json_item data "human_gate_open" = Ok (JBool (tw_human_gate_open w0))
  ∧ json_item data "services" = Ok (JObj (map (λ p, (fst p, jcanon (service_json (snd p)))) (order_by service_leb (tw_services w0)))).
Proof.
  cbv zeta. rewrite <- parsed_services. unfold snapshot_of. fold (service_entries (tw_services w0)). rewrite !item_jcanon. by split_and!.
Qed.
Lemma restore_run p w0 s :
  inside root p = true → NoDup (map fst (tw_services w0)) →
  sb_files s !! p = Some (dumps Indented (snapshot_of w0) +:+ newline) →
  restore_snapshot root p s = (Ok tt, {| sb_world := restored w0 (sb_world s); sb_files := sb_files s |}).
Proof.
  intros Hin Hnd Hf. destruct (snapshot_fields w0) as (F1 & F2 & F3 & F4 & F5). unfold restore_snapshot. rewrite Hin.
  rewrite bind_raise_if_run by done. rewrite bind_gets_run, Hf.
  rewrite (bind_Ok (mret _) _ s _ s eq_refl), loads_newline, loads_dumps. cbn [printed sorts].
  rewrite (bind_Ok (mret _) _ s _ s eq_refl).
  do 2 (erewrite bind_lift_run; [|first [exact F1|reflexivity]]). unfold put_world. rewrite bind_modify_run.
  rewrite (bind_lift_run _ _ _ _ F2), bind_modify_run, (bind_lift_run _ _ _ _ F3), bind_modify_run.
  rewrite (bind_lift_run _ _ _ _ F4), !bind_modify_run, (bind_lift_run _ _ _ _ F5).
  rewrite (bind_Ok (mret _) _ _ _ _ eq_refl).
  edestruct restore_services_run as [us Hus]; [|rewrite (bind_Ok _ _ _ _ _ Hus)].
  - cbn. by rewrite order_by_perm.
  - unfold mret, M_ret. by destruct s as [[] ?].
Qed.

Lemma snapshot_to_run name s p s1 :
  snapshot_to root name s = (Ok p, s1) →
  inside root p = true ∧ sb_world s1 = sb_world s ∧ sb_files s1 = <[p := dumps Indented (snapshot_of (sb_world s)) +:+ newline]> (sb_files s).
Proof.
  unfold snapshot_to, twin_path. intros (? & s0 & Hp & Hrun)%bind_Ok_inv. cbv zeta in Hp.
  apply bind_Ok_inv in Hp as (? & ? & [Hw%negb_false_iff ->]%raise_if_Ok_inv & Hp).
  rewrite bind_gets_run in Hp.
  apply bind_Ok_inv in Hp as (? & ? & [_ ->]%raise_if_Ok_inv & [= <- <-]).
  rewrite bind_gets_run in Hrun. apply bind_Ok_inv in Hrun as (? & ? & [[Hr _]%orb_false_iff ->]%raise_if_Ok_inv & Hrun).
  rewrite bind_gets_run, bind_modify_run in Hrun. injection Hrun as <- <-. split; [|by split].
  unfold within, inside in *. apply bool_decide_eq_true. apply bool_decide_eq_true in Hw. apply bool_decide_eq_false in Hr. by split; [|intros E; apply Hr].
Qed.

(** The twin's snapshots restore: after a snapshot, whatever happens to the virtual world
    and to other files of the sandbox, restoring from the path it returned succeeds and
    brings back the clock, the flags, the release and the services, so that the world's
    digest is the one before; the event history and the files are left as they are. *)
Theorem twin_snapshot_restores name s p s1 s2 r s3 :
  NoDup (map fst (tw_services (sb_world s))) →
  snapshot_to root name s = (Ok p, s1) → sb_files s2 !! p = sb_files s1 !! p → restore_snapshot root p s2 = (r, s3) →
  r = Ok tt ∧ jcanon (snapshot_of (sb_world s3)) = jcanon (snapshot_of (sb_world s))
  ∧ twin_digest (sb_world s3) = twin_digest (sb_world s)
  ∧ tw_events (sb_world s3) = tw_events (sb_world s2) ∧ sb_files s3 = sb_files s2.
Proof.
  intros Hnd (Hin & _ & Hf)%snapshot_to_run H2 Hr. rewrite Hf, lookup_insert_eq in H2.
  rewrite (restore_run p (sb_world s) s2 Hin Hnd H2) in Hr. injection Hr as <- <-. cbn [sb_world sb_files].
  pose proof (jcanon_restored (sb_world s) (sb_world s2)) as E. split_and!; [done|done| |done|done].
  unfold twin_digest. by rewrite <- (dumps_jcanon Compact (snapshot_of (restored _ _)) eq_refl), E, dumps_jcanon.
Qed.

(** ** The actuator *)
Lemma snapshot_clock w w' : jcanon (snapshot_of w) = jcanon (snapshot_of w') → tw_clock w = tw_clock w'.
Proof. intros E. destruct (snapshot_fields w) as [F _]. destruct (snapshot_fields w') as [F' _]. rewrite E in F. congruence. Qed.
Lemma later_clock (q : Q) : q ≠ (q + 1)%Q.
Proof. intros E. assert (q == q + 1)%Q as F by (rewrite <- E at 1; reflexivity). lra. Qed.
(** What every registered action does: one event and one second. *)
Definition ticked (w w' : TwinWorld) : Prop :=
  tw_clock w' = (tw_clock w + 1)%Q ∧ ∃ e, tw_events w' = tw_events w ++ [e].
Lemma on_service_run name f s u s' :
  on_service name f s = (Ok u, s') → tw_clock (sb_world s') = tw_clock (sb_world s) ∧ tw_events (sb_world s') = tw_events (sb_world s)
    ∧ sb_files s' = sb_files s.
Proof. unfold on_service. rewrite bind_gets_run. destruct (sv_get _ _); [|done]. by intros [= _ <-]. Qed.
Lemma acted name f e s u s' :
  (on_service name f ≫= λ _, put_world (tick_event e)) s = (Ok u, s') → ticked (sb_world s) (sb_world s') ∧ sb_files s' = sb_files s.
Proof.
  intros (? & s1 & (E1 & E2 & E3)%on_service_run & [= _ <-])%bind_Ok_inv. cbn. unfold ticked. cbn. rewrite E1, E2. split; [|done]. by eauto.
Qed.
Lemma apply_run action params s a s' :
  actuator_apply action params s = (Ok a, s') →
  action ∈ ALLOWED_VIRTUAL ∧ au_before a = twin_digest (sb_world s) ∧ au_after a = twin_digest (sb_world s')
  ∧ au_changed a = negb (twin_digest (sb_world s) =s twin_digest (sb_world s'))
  ∧ ticked (sb_world s) (sb_world s') ∧ sb_files s' = sb_files s.
Proof.
  unfold actuator_apply. intros (? & ? & [Hall%negb_false_iff ->]%raise_if_Ok_inv & Hrun)%bind_Ok_inv. apply str_in_iff in Hall.
  rewrite bind_gets_run in Hrun. apply bind_Ok_inv in Hrun as (u & s1 & Hact & Hrun). rewrite bind_gets_run in Hrun.
  injection Hrun as <- <-. do 4 (split; [done|]).
  apply elem_of_cons in Hall as [->|Hall]; [|apply elem_of_cons in Hall as [->|Hall]; [|apply elem_of_cons in Hall as [->|Hall];
    [|apply list_elem_of_singleton in Hall as ->]]]; cbn [String.eqb Ascii.eqb Bool.eqb] in Hact;
    apply bind_Ok_inv in Hact as (x0 & ? & [_ ->]%lift_Ok_inv & Hact).
  - exact (acted _ _ _ _ _ _ Hact).
  - apply bind_Ok_inv in Hact as (x1 & ? & [_ ->]%lift_Ok_inv & Hact). exact (acted _ _ _ _ _ _ Hact).
  - injection Hact as _ <-. split; [|done]. split; [done|by eexists].
  - injection Hact as _ <-. split; [|done]. split; [done|by eexists].
Qed.

(** The receipt of the virtual actuator says nothing about the services: every action
    that returns moves the virtual clock, which is part of the digested snapshot, so
    [changed] is true (or SHA-256 collides) even when a running service was restarted or
    a value was set to what it was. *)
Theorem virtual_change_always_reported action params s a s' :
  actuator_apply action params s = (Ok a, s') →
  au_changed a = true
  ∨ sha256_collide (dumps Compact (snapshot_of (sb_world s))) (dumps Compact (snapshot_of (sb_world s'))).
Proof.
  intros (_ & _ & _ & -> & [Hclock _] & _)%apply_run. destruct (String.eqb_spec (twin_digest (sb_world s)) (twin_digest (sb_world s'))) as [E|];
    [|by left]. right. apply sha256_eq_or_collide in E as [E|]; [|done]. apply dumps_inj in E. apply snapshot_clock in E.
  rewrite Hclock in E. by apply later_clock in E.
Qed.

(** ** The adapter *)
Definition same_sandbox (s s' : Sandbox) : Prop := sb_files s' = sb_files s.
#[local] Instance same_sandbox_preorder : PreOrder same_sandbox.
Proof. split; [by intros s|]. unfold same_sandbox. intros a b c. congruence. Qed.
Lemma put_world_files f : respects same_sandbox (put_world f).
Proof. by intros s. Qed.
Hint Resolve put_world_files : respects.
Lemma twin_path_files parts : respects same_sandbox (twin_path root parts).
Proof. unfold twin_path. solve_respects. Qed.
Lemma on_service_files name f : respects same_sandbox (on_service name f).
Proof. unfold on_service. solve_respects. Qed.
Hint Resolve twin_path_files on_service_files : respects.
Lemma apply_files action params : respects same_sandbox (actuator_apply action params).
Proof. unfold actuator_apply, restart_service, set_config. solve_respects. Qed.
Lemma restore_files p : respects same_sandbox (restore_snapshot root p).
Proof. unfold restore_snapshot, restore_service. solve_respects. Qed.
Lemma verify_files_kept c : respects same_sandbox (twin_verify_checkpoint root c).
Proof. unfold twin_verify_checkpoint. solve_respects. Qed.
Hint Resolve apply_files restore_files verify_files_kept : respects.
Lemma execute_files action parameters timeout : respects same_sandbox (twin_execute root action parameters timeout).
Proof. unfold twin_execute. solve_respects. Qed.

Lemma has_char_plain s0 : has_char "/" s0 = false → no_slash s0 = true.
Proof.
  induction s0 as [|c s0 IH]; [done|]. unfold has_char in *. cbn [String.index String.prefix no_slash].
  destruct (ascii_dec "/" c) as [<-|Hc]; [destruct s0; done|]. rewrite (proj2 (Ascii.eqb_neq c "/")) by congruence. cbn [negb andb].
  intros Hi. apply IH. by destruct (String.index 0 "/" s0).
Qed.
Lemma bounded_path name : bounded_name name = true → fold_left resolve_join ["snapshots"; name] root = root ++ ["snapshots"; name].
Proof.
  unfold bounded_name. rewrite negb_true_iff, !orb_false_iff. intros [[[He Hs%has_char_plain] _] Hd]. cbn [fold_left].
  change (resolve_join root "snapshots") with (root ++ ["snapshots"]). unfold resolve_join. destruct name as [|c name]; [done|].
  assert (Ascii.eqb c "/" = false) as -> by (by apply andb_true_iff in Hs as [Hs%negb_true_iff _]).
  rewrite split_slash_plain by done. assert (∀ x, str_in x ["."; ".."] = true → (String c name =s x) = false) as Hx.
  { intros x Hx. apply String.eqb_neq. intros E. rewrite E in Hd. congruence. }
  unfold walk. rewrite (Hx ".") by done. rewrite (Hx "..") by done. rewrite He. cbn [orb]. by rewrite <- app_assoc.
Qed.
Lemma twin_path_run parts s p s' : twin_path root parts s = (Ok p, s') → p = fold_left resolve_join parts root ∧ s' = s.
Proof.
  unfold twin_path. intros (? & ? & [_ ->]%raise_if_Ok_inv & Hp)%bind_Ok_inv. rewrite bind_gets_run in Hp.
  by apply bind_Ok_inv in Hp as (? & ? & [_ ->]%raise_if_Ok_inv & [= <- <-]).
Qed.

(** The gateway adapter of the twin stays inside it: whatever the outcome no file of the
    sandbox changes; an action that is not registered raises and leaves the state as it
    was; and an action that returns had a positive timeout, reports the digests of the
    world before and after it, and is either a configuration change or restart through
    the actuator, or a restore from an existing file directly in the snapshots directory. *)
Theorem twin_execute_confined action parameters timeout s r s' :
  twin_execute root action parameters timeout s = (r, s') →
  sb_files s' = sb_files s
  ∧ (strip action ∉ TWIN_ACTIONS → r = Raise (Exn GatewayAdapterError "unregistered digital twin action") ∧ s' = s)
  ∧ ∀ d, r = Ok d → (0 < timeout)%Q
      ∧ dget d "before" = Some (JStr (twin_digest (sb_world s))) ∧ dget d "after" = Some (JStr (twin_digest (sb_world s')))
      ∧ (strip action ∈ ["set_config"; "restart_service"] ∧ ticked (sb_world s) (sb_world s')
         ∨ strip action = "restore_snapshot"
           ∧ ∃ name text, bounded_name name = true ∧ sb_files s !! (root ++ ["snapshots"; name]) = Some text).
Proof.
  intros Hrun. split; [exact (respects_run same_sandbox _ _ _ _ (execute_files action parameters timeout) Hrun)|].
  unfold twin_execute, twin_action_policy in Hrun. rewrite strip_idem in Hrun. cbv zeta in Hrun. split.
  - intros Hno. destruct (str_in (strip action) TWIN_ACTIONS) eqn:E; [by apply str_in_iff in E|]. by injection Hrun as <- <-.
  - intros d ->. apply bind_Ok_inv in Hrun as (? & ? & [_ ->]%lift_Ok_inv & Hrun).
    apply bind_Ok_inv in Hrun as (? & ? & [Ht%qle_false ->]%raise_if_Ok_inv & Hrun). split; [done|].
    destruct (str_in (strip action) ["set_config"; "restart_service"]) eqn:Ea.
    + apply str_in_iff in Ea. apply bind_Ok_inv in Hrun as (a & s1 & (_ & Hb & Hf & _ & Hk & _)%apply_run & [= <- <-]).
      unfold twin_result. cbn [dget String.eqb Ascii.eqb Bool.eqb]. rewrite Hb, Hf. split_and!; [done..|by left].
    + destruct (String.eqb_spec (strip action) "restore_snapshot") as [Er|]; [|done]. set (name := strip _) in Hrun.
      apply bind_Ok_inv in Hrun as (ok & s1 & Hv & Hrun). apply bind_Ok_inv in Hrun as (? & ? & [Hok%negb_false_iff ->]%raise_if_Ok_inv & Hrun).
      unfold twin_verify_checkpoint in Hv. destruct (bounded_name name) eqn:Hb; [|by injection Hv as <- _].
      apply bind_Ok_inv in Hv as (p & ? & [-> ->]%twin_path_run & Hv). pose proof (bounded_path name Hb) as Ep. rewrite Ep in Hv. injection Hv as <- <-.
      rewrite bind_gets_run in Hrun. apply bind_Ok_inv in Hrun as (p & ? & [-> ->]%twin_path_run & Hrun).
      apply bind_Ok_inv in Hrun as (? & s2 & _ & Hrun). rewrite bind_gets_run in Hrun. injection Hrun as <- <-.
      unfold is_file in Hok. apply bool_decide_eq_true in Hok as [text Htext].
      unfold twin_result. cbn [dget String.eqb Ascii.eqb Bool.eqb]. split_and!; [done..|]. right. split; [done|]. by exists name, text.
Qed.
End twin.

(** ** The guard *)
Lemma restore_cons x saved m : restore_attributes (x :: saved) m = <[fst x := snd x]> (restore_attributes saved m).
Proof. unfold restore_attributes. cbn [rev]. by rewrite fold_left_app. Qed.
Definition patch_list (l : list (attribute * callable)) : Py unit :=
  foldr (λ p rest, _ ← patch (fst p) (snd p); rest) (mret tt) l.
Lemma patch_all l it :
  NoDup (map fst l) → (∀ a, a ∈ map fst l → is_Some (it_attributes it !! a)) →
  ∃ it' saved, patch_list l it = (Ok tt, it') ∧ it_violations it' = it_violations it
    ∧ it_patches it' = it_patches it ++ saved ∧ restore_attributes saved (it_attributes it') = it_attributes it
    ∧ (∀ a f, (a, f) ∈ l → it_attributes it' !! a = Some f)
    ∧ (∀ a, a ∉ map fst l → it_attributes it' !! a = it_attributes it !! a).
Proof.
  revert it. induction l as [|[a f] l IH]; intros it; cbn [map fst snd].
  { intros _ _. exists it, []. rewrite app_nil_r. split_and!; try done. intros a f Hin. by apply elem_of_nil in Hin. }
  intros [Hn Hnd]%NoDup_cons Hall. destruct (Hall a) as [orig Ho]; [by left|].
  set (it1 := {| it_attributes := <[a := f]> (it_attributes it); it_violations := it_violations it;
                 it_patches := it_patches it ++ [(a, orig)] |}).
  destruct (IH it1 Hnd) as (it' & saved & E & V & P & R & F & O).
  { intros b Hb. cbn. rewrite lookup_insert_ne by (intros ->; contradiction). apply Hall. by right. }
  exists it', ((a, orig) :: saved).
  assert (patch a f it = (Ok tt, it1)) as Ep by (unfold patch, get_world, mbind, M_bind; by rewrite Ho).
  unfold patch_list. cbn [foldr fst snd]. rewrite (bind_Ok _ _ _ _ _ Ep). split_and!; try done.
  - rewrite P. cbn. by rewrite <- app_assoc.
  - rewrite restore_cons, R. cbn. rewrite insert_insert_eq. by apply insert_id.
  - intros b g [[= -> ->]|Hin]%elem_of_cons; [|by apply F]. rewrite O by done. cbn. apply lookup_insert_eq.
  - intros b [Hb Hbl]%not_elem_of_cons. rewrite O by done. cbn. by rewrite lookup_insert_ne by congruence.
Qed.

(** The attributes the guard puts its functions in. *)
Definition GUARDED : list attribute :=
  [("socket", "create_connection"); ("socket.socket", "connect"); ("urllib.request", "urlopen"); ("subprocess", "run");
   ("subprocess", "Popen"); ("os", "system"); ("builtins", "open"); ("io", "open")].
Definition guarded_by (open : callable) : list (attribute * callable) :=
  zip GUARDED [blocked_create_connection; blocked_connect; blocked_urlopen; blocked_run; blocked_popen; blocked_system;
               guarded_open open; guarded_open open].
Lemma guard_enters it :
  (∀ a, a ∈ GUARDED → is_Some (it_attributes it !! a)) → it_patches it = [] →
  ∃ it1 open, guard_enter it = (Ok tt, it1) ∧ it_attributes it !! ("builtins", "open") = Some open
    ∧ it_violations it1 = it_violations it
    ∧ (∀ a f, (a, f) ∈ guarded_by open → it_attributes it1 !! a = Some f)
    ∧ (∀ a, a ∉ GUARDED → it_attributes it1 !! a = it_attributes it !! a)
    ∧ ∀ i, it_attributes i = it_attributes it1 → it_patches i = it_patches it1 →
        guard_exit i = (Ok false, {| it_attributes := it_attributes it; it_violations := it_violations i; it_patches := [] |}).
Proof.
  intros Hall Hp. destruct (Hall ("builtins", "open")) as [open Hopen]; [set_solver|].
  destruct (patch_all (guarded_by open) it) as (it1 & saved & E & V & P & R & F & O).
  { change (map fst (guarded_by open)) with GUARDED. by apply (bool_decide_unpack _). }
  { done. }
  exists it1, open. rewrite Hp in P. cbn in P. split_and!; [|done..|].
  - unfold guard_enter. rewrite (bind_Ok get_world _ it it it eq_refl), Hopen, (bind_Ok (mret open) _ it _ it eq_refl). exact E.
  - intros i Ea Epi. unfold guard_exit. rewrite bind_modify_run, Ea, Epi, P, R. reflexivity.
Qed.

(** The message of each function that refuses, for the address it was given. *)
Definition violation (message : string) (i : Interpreter) : Interpreter :=
  {| it_attributes := it_attributes i; it_violations := it_violations i ++ [message]; it_patches := it_patches i |}.

(** C34. The guard fails closed and leaves no trace: once entered,
    [socket.create_connection], [socket.socket.connect], [urllib.request.urlopen],
    [subprocess.run], [subprocess.Popen] and [os.system] raise SandboxViolation from any
    state and record the violation under their own name (or the address), and [open] and
    [io.open] do so for a file outside the sandbox in a writing mode and are the
    interpreter's [open] otherwise, while every other attribute is as it was; leaving it
    puts every patched attribute back, so the modules are exactly those of before,
    whatever violations were recorded in between. *)
Theorem guard_fail_closed root it :
  (∀ a, a ∈ GUARDED → is_Some (it_attributes it !! a)) → it_patches it = [] →
  ∃ it1 open, guard_enter it = (Ok tt, it1) ∧ it_violations it1 = it_violations it
    ∧ (∀ a message,
         (a, message) ∈ [(("socket", "create_connection"), λ address, "network:" +:+ address);
                         (("socket.socket", "connect"), λ address, "network:" +:+ address);
                         (("urllib.request", "urlopen"), λ _, "urllib");
                         (("subprocess", "run"), λ _, "subprocess.run");
                         (("subprocess", "Popen"), λ _, "subprocess.Popen");
                         (("os", "system"), λ _, "os.system")] →
         ∃ f, it_attributes it1 !! a = Some f ∧ ∀ address mode file i,
           invoke root f address mode file i = (Raise (Exn SandboxViolation (message address)), violation (message address) i))
    ∧ it_attributes it !! ("builtins", "open") = Some open
    ∧ (∀ a, a ∈ [("builtins", "open"); ("io", "open")] → ∃ f, it_attributes it1 !! a = Some f ∧ ∀ address mode file i,
         invoke root f address mode file i =
         if writes mode && negb (within root file)
         then let message := "write_outside:/" +:+ posix file in (Raise (Exn SandboxViolation message), violation message i)
         else invoke root open address mode file i)
    ∧ (∀ a, a ∉ GUARDED → it_attributes it1 !! a = it_attributes it !! a)
    ∧ ∀ i, it_attributes i = it_attributes it1 → it_patches i = it_patches it1 →
        guard_exit i = (Ok false, {| it_attributes := it_attributes it; it_violations := it_violations i; it_patches := [] |}).
Proof.
  intros Hall Hp. destruct (guard_enters it Hall Hp) as (it1 & open & E & Hopen & V & F & O & X).
  exists it1, open. split_and!; [done|done| |done| |done|done].
  - intros a message Ha. repeat (apply elem_of_cons in Ha as [Ha|Ha];
      [injection Ha as -> ->; eexists; split; [apply F; repeat constructor|reflexivity]|]). by apply elem_of_nil in Ha.
  - intros a Ha. exists (guarded_open open). split.
    + apply F. unfold guarded_by, GUARDED. cbn [zip zip_with]. set_solver.
    + intros address mode file i. cbn [invoke]. by destruct (writes mode && _).
Qed.

(** A twin that was entered and left has put everything back, and its files are gone. *)
Lemma twin_context_closed root c c1 c2 :
  (∀ a, a ∈ GUARDED → is_Some (it_attributes (tc_interpreter c) !! a)) → it_patches (tc_interpreter c) = [] →
  twin_enter root c = (Ok tt, c1) →
  it_attributes (tc_interpreter c2) = it_attributes (tc_interpreter c1) → it_patches (tc_interpreter c2) = it_patches (tc_interpreter c1) →
  tc_previous_tempdir c2 = tc_previous_tempdir c1 →
  ∃ c3, twin_exit root c2 = (Ok false, c3) ∧ it_attributes (tc_interpreter c3) = it_attributes (tc_interpreter c)
    ∧ tc_tempdir c3 = tc_tempdir c ∧ tc_files c3 = clear root (tc_files c2).
Proof.
  intros Hall Hp He Ea Ep Et. destruct (guard_enters (tc_interpreter c) Hall Hp) as (it1 & open & E & _ & _ & _ & _ & Hx).
  unfold twin_enter in He. rewrite E in He. injection He as <-. cbn in Ea, Ep, Et. unfold twin_exit. rewrite (Hx _ Ea Ep), Et.
  eexists. by split_and!.
Qed.
