(* ===== verification/Adapters.v ===== *)
(** immune_gateway/adapters.py: the adapters the gateway ships, as values of the
    [ProtectedSystemAdapter] protocol.

    The network is an argument: [connect] opens a TCP connection, [urlopen] makes an HTTP
    request and gives the status and the body; they raise the classes of the model
    (OSError for what urllib and socket raise).  Bodies are byte strings, and what does
    not parse as JSON raises JSONDecodeError.  None of the three classes defines
    [action_policy], [verify_checkpoint] or [recovery_ready]: looking one up raises
    AttributeError.

    The theorems follow the definitions. *)

From S2P Require Import Prelude Json Schema Files Tokens Observability Fortress Gateway ProviderProxy Storage.
From S2P Require Import TokenProps PolicyProps GatewayProps.

Record http_call := { ht_url : string; ht_method : string; ht_headers : list (string * string); ht_data : option string }.

(** [urllib.request.Request(...)]: an address without a scheme is refused ([_splittype]) *)
Fixpoint scheme_from (seen : bool) (s : string) : bool :=
  match s with
  | EmptyString => false
  | String c r => if Ascii.eqb c ":" then seen else if Ascii.eqb c "/" then false else scheme_from true r
  end.
Definition http_request_for (c : http_call) : result http_call :=
  if scheme_from false (strip (ht_url c)) then Ok c else Raise (Exn ValueError ("unknown url type: " +:+ ht_url c)).

Section adapters.
Context `{JsonText, Entropy} (environ : string → option string).
Context (connect : string → Z → Q → IO unit) (urlopen : http_call → Q → IO (Z * string)).

(** Missing methods. *)
Definition no_method {A} (name : string) : IO A := throw AttributeError ("object has no attribute '" +:+ name +:+ "'").

(** [except (OSError, ValueError, ...)]; JSONDecodeError is a ValueError *)
Definition network_error (c : exn_class) : bool :=
  match c with OSError | PermissionError | ValueError | JSONDecodeError => true | _ => false end.
Definition transport_error (c : exn_class) : bool :=
  match c with OSError | PermissionError | JSONDecodeError => true | _ => false end.
Definition except {A} (caught : exn_class → bool) (m : IO A) (h : exn → IO A) : IO A :=
  catch m (λ e, if caught (exn_cls e) then h e else reraise e).
(** [response.read(n)], then [json.loads] *)
Definition read_json (limit : nat) (body : string) : IO json :=
  match loads (String.substring 0 limit body) with Some v => mret v | None => throw JSONDecodeError "Expecting value" end.

Definition port_open (host : string) (port : Z) (timeout : Q) : IO bool :=
  except (λ c, match c with OSError | PermissionError => true | _ => false end)
    (_ ← connect host port timeout; mret true) (λ _, mret false).

(** ** WMCP2 *)
Record WMCP2GatewayAdapter := {
  wa_url : string; wa_heartbeat : path; wa_gateway_host : string; wa_gateway_port : Z; wa_legacy_host : string; wa_legacy_port : Z;
}.
Definition wmcp2_http_ok (a : WMCP2GatewayAdapter) (timeout : Q) : IO bool :=
  request ← lift_result (http_request_for {| ht_url := wa_url a; ht_method := "GET"; ht_headers := []; ht_data := None |});
  except network_error
    (response ← urlopen request timeout;
     payload ← read_json 65536 (snd response);
     mret ((fst response =? 200)%Z && match payload with JObj _ => true | _ => false end))
    (λ _, mret false).
Definition tunnel_state (a : WMCP2GatewayAdapter) (now : Q) : IO (string * option Q) :=
  except (λ c, network_error c || bool_decide (c = TypeError))
    (files ← gets w_files;
     text ← match files !! wa_heartbeat a with Some t => mret (drop_bom t) | None => throw OSError "No such file or directory" end;
     payload ← match loads text with Some v => mret v | None => throw JSONDecodeError "Expecting value" end;
     d ← match payload with JObj d => mret d | _ => no_method "get" end;
     at_ ← lift_result (py_float (default JNull (dget d "at")));
     mret (get_str d "state" "unknown", Some (py_max 0 (now - at_)%Q)))
    (λ _, mret ("unavailable", None)).
Definition wmcp2_collect (a : WMCP2GatewayAdapter) (timeout_seconds : Q) : IO (option GatewayObservation) :=
  now ← now_or_time None;
  let timeout := py_max (1 # 20) timeout_seconds in
  http_ok ← wmcp2_http_ok a timeout;
  tunnel ← tunnel_state a now;
  let '(state, age) := tunnel in
  gateway_ok ← port_open (wa_gateway_host a) (wa_gateway_port a) timeout;
  legacy_ok ← port_open (wa_legacy_host a) (wa_legacy_port a) timeout;
  let tunnel_ok := (state =s "healthy") && match age with Some q => qle q 30 | None => false end in
  let ok := http_ok && tunnel_ok && gateway_ok in
  mret (Some {| go_system_id := "wmcp2"; go_kind := "wmcp2.health"; go_subject := "wmcp2"; go_severity := if ok then "info" else "error";
    go_attributes := [("ok", JBool ok); ("wmcp2_http_ok", JBool http_ok); ("tunnel_core_state", JStr state);
      ("tunnel_core_heartbeat_age_seconds", match age with Some q => JNum q | None => JNull end);
      ("wmcp2_gateway_port_open", JBool gateway_ok); ("legacy_port_open", JBool legacy_ok)];
    go_ts := Some now |}).
Definition wmcp2_adapter (a : WMCP2GatewayAdapter) : ProtectedSystemAdapter :=
  {| pa_adapter_id := "wmcp2-local"; pa_system_id := "wmcp2"; pa_collect := wmcp2_collect a;
     pa_action_policy := λ _, no_method "action_policy"; pa_verify_checkpoint := λ _, no_method "verify_checkpoint";
     pa_recovery_ready := λ _ _, no_method "recovery_ready";
     pa_execute := λ _ _ _, throw GatewayAdapterError "WMCP2 mutation adapter is not configured; no direct core fallback is allowed" |}.

(** ** HTTP with JSON *)
Record HTTPJSONGatewayAdapter := {
  ha_system_id : string; ha_adapter_id : string; ha_action_endpoint : string; ha_credential_env : option string;
  ha_health_endpoint : option string;
}.
(** [s or None] for an optional text *)
Definition given_text (s : option string) : option string :=
  match s with Some x => if x =s "" then None else Some x | None => None end.
(** [__init__] *)
Definition http_json_adapter (a : HTTPJSONGatewayAdapter) : result HTTPJSONGatewayAdapter :=
  if blank (ha_system_id a) || blank (ha_adapter_id a) then Raise (Exn ValueError "system_id and adapter_id are required")
  else if negb (String.prefix "http://" (ha_action_endpoint a) || String.prefix "https://" (ha_action_endpoint a))
  then Raise (Exn ValueError "action endpoint must be http(s)")
  else if match given_text (ha_credential_env a) with Some e => negb (String.prefix "IMMUNE_GATEWAY_" e) | None => false end
  then Raise (Exn ValueError "gateway adapter credentials must use IMMUNE_GATEWAY_ namespace")
  else Ok {| ha_system_id := strip (ha_system_id a); ha_adapter_id := strip (ha_adapter_id a); ha_action_endpoint := ha_action_endpoint a;
             ha_credential_env := ha_credential_env a; ha_health_endpoint := ha_health_endpoint a |}.
Definition adapter_headers (a : HTTPJSONGatewayAdapter) : result (list (string * string)) :=
  let headers := [("Accept", "application/json"); ("Content-Type", "application/json")] in
  match given_text (ha_credential_env a) with
  | None => Ok headers
  | Some env =>
      let secret := default "" (environ env) in
      if secret =s "" then Raise (Exn GatewayAdapterError ("missing gateway adapter credential environment: " +:+ env))
      else Ok (headers ++ [("Authorization", "Bearer " +:+ secret)])
  end.
Definition health_observation (a : HTTPJSONGatewayAdapter) (severity : string) (attributes : dict) : IO (option GatewayObservation) :=
  now ← now_or_time None;
  mret (Some {| go_system_id := ha_system_id a; go_kind := "adapter.health"; go_subject := ha_system_id a; go_severity := severity;
                go_attributes := attributes; go_ts := Some now |}).
Definition http_json_collect (a : HTTPJSONGatewayAdapter) (timeout_seconds : Q) : IO (option GatewayObservation) :=
  match given_text (ha_health_endpoint a) with
  | None => mret None
  | Some endpoint =>
      headers ← lift_result (adapter_headers a);
      request ← lift_result (http_request_for {| ht_url := endpoint; ht_method := "GET"; ht_headers := headers; ht_data := None |});
      answer ← except network_error
        (response ← urlopen request timeout_seconds;
         payload ← read_json 262144 (snd response); mret (inl payload))
        (λ e, mret (inr e));
      match answer with
      | inr e => health_observation a "error" [("ok", JBool false); ("error", JStr (class_name (exn_cls e)))]
      | inl payload => health_observation a "info" [("ok", JBool true); ("payload", payload)]
      end
  end.
(** [len(s) > n] *)
Definition longer_than (n : nat) (s : string) : bool := negb (char_take n s =s s).
(** [payload.setdefault(k, v)] *)
Definition set_default (d : dict) (k : string) (v : json) : dict := match dget d k with Some _ => d | None => dset d k v end.
Definition http_json_execute (a : HTTPJSONGatewayAdapter) (action : string) (parameters : dict) (timeout_seconds : Q) : IO json :=
  _ ← raise_if (blank action || longer_than 160 action) GatewayAdapterError "gateway action is invalid";
  let body := dumps CompactInOrder (JObj [("action", JStr action); ("parameters", JObj parameters)]) in
  headers ← lift_result (adapter_headers a);
  request ← lift_result (http_request_for {| ht_url := ha_action_endpoint a; ht_method := "POST"; ht_headers := headers; ht_data := Some body |});
  except transport_error
    (response ← urlopen request timeout_seconds;
     let raw := String.substring 0 262144 (snd response) in
     payload ← (if raw =s "" then mret (JObj []) else read_json 262144 raw);
     match payload with
     | JObj d => mret (JObj (set_default d "ok" (JBool ((200 <=? fst response) && (fst response <? 300))%Z)))
     | _ => throw GatewayAdapterError "protected system returned non-object response"
     end)
    (λ e, throw GatewayAdapterError ("protected-system adapter failed: " +:+ class_name (exn_cls e))).
Definition http_adapter (a : HTTPJSONGatewayAdapter) : ProtectedSystemAdapter :=
  {| pa_adapter_id := ha_adapter_id a; pa_system_id := ha_system_id a; pa_collect := http_json_collect a;
     pa_action_policy := λ _, no_method "action_policy"; pa_verify_checkpoint := λ _, no_method "verify_checkpoint";
     pa_recovery_ready := λ _ _, no_method "recovery_ready"; pa_execute := http_json_execute a |}.

(** ** TCP *)
Record TCPHealthGatewayAdapter := { ta_system_id : string; ta_adapter_id : string; ta_host : string; ta_port : Z }.
Definition tcp_health_adapter (system_id host : string) (port : Z) (adapter_id : string) : result TCPHealthGatewayAdapter :=
  if blank system_id || blank host || negb ((1 <=? port) && (port <=? 65535))%Z
  then Raise (Exn ValueError "system_id, host and valid port are required")
  else Ok {| ta_system_id := strip system_id; ta_adapter_id := strip adapter_id; ta_host := strip host; ta_port := port |}.
Definition tcp_collect (a : TCPHealthGatewayAdapter) (timeout_seconds : Q) : IO (option GatewayObservation) :=
  started ← monotonic;
  error ← except (λ c, match c with OSError | PermissionError => true | _ => false end)
            (_ ← connect (ta_host a) (ta_port a) timeout_seconds; mret None) (λ e, mret (Some (class_name (exn_cls e))));
  ended ← monotonic;
  now ← now_or_time None;
  let ok := match error with None => true | Some _ => false end in
  mret (Some {| go_system_id := ta_system_id a; go_kind := "tcp.health";
    go_subject := "tcp:" +:+ ta_host a +:+ ":" +:+ py_str (JInt (ta_port a)); go_severity := if ok then "info" else "error";
    go_attributes := [("reachable", JBool ok); ("error", JStr (default "" error)); ("latency_ms", JNum ((ended - started) * 1000)%Q)];
    go_ts := Some now |}).
Definition tcp_adapter (a : TCPHealthGatewayAdapter) : ProtectedSystemAdapter :=
  {| pa_adapter_id := ta_adapter_id a; pa_system_id := ta_system_id a; pa_collect := tcp_collect a;
     pa_action_policy := λ _, no_method "action_policy"; pa_verify_checkpoint := λ _, no_method "verify_checkpoint";
     pa_recovery_ready := λ _ _, no_method "recovery_ready";
     pa_execute := λ _ _ _, throw GatewayAdapterError "TCP health adapter is observation-only" |}.

(** The adapters of the module. *)
Inductive shipped : ProtectedSystemAdapter → Prop :=
| shipped_wmcp2 a : shipped (wmcp2_adapter a)
| shipped_http a : shipped (http_adapter a)
| shipped_tcp a : shipped (tcp_adapter a).
End adapters.

(** * What the gateway can do with the adapters it ships: observe, not act. *)

Section egress.
Context `{JsonText, Entropy} (environ : string → option string).
Context (connect : string → Z → Q → IO unit) (urlopen : http_call → Q → IO (Z * string)).
Context (identity : IdentityAuthority) (capability_secret capability_issuer : string) (config : GatewayRuntimeConfig)
  (adapters : gmap string ProtectedSystemAdapter).
Abbreviation egress := (egress_execute identity capability_secret capability_issuer config adapters).

Lemma shipped_policy a action w :
  shipped environ connect urlopen a →
  catch (pa_action_policy a action) (λ _, throw GatewayAuthorizationError "adapter action is not registered") w
  = (Raise (Exn GatewayAuthorizationError "adapter action is not registered"), w).
Proof. by destruct 1. Qed.

Definition egress_matches (request : EgressRequest) (itok : string) (now : option Z) (w : World) : Prop :=
  ∃ p w1 m b a, ia_verify identity itok (Some "gateway:egress") now w = (Ok p, w1)
    ∧ find_row m_id (eq_mission_id request) (missions (w_db w)) = Some m ∧ str_in (m_state m) EGRESS_MISSION_STATES = true
    ∧ m_system_id m = eq_system_id request ∧ binding config (eq_system_id request) = Ok b
    ∧ adapters !! eq_system_id request = Some a ∧ pa_system_id a = eq_system_id request ∧ pa_adapter_id a = sb_adapter b.
Definition not_registered : exn := Exn GatewayAuthorizationError "adapter action is not registered".
Lemma authorize_stops request itok ctok now w :
  (∀ id a, adapters !! id = Some a → shipped environ connect urlopen a) →
  ∃ e w', egress_authorize identity capability_secret capability_issuer config adapters request itok ctok now w = (Raise e, w')
    ∧ w_db w' = w_db w ∧ (egress_matches request itok now w → e = not_registered).
Proof.
  intros Hall. unfold egress_authorize. set (verified := deny_on _ _ (ia_verify _ _ _ _)).
  assert (respects (on_db eq) verified) as Hst by (unfold verified, deny_on; io_respects).
  destruct (verified w) as [[p|e] w1] eqn:Ev; pose proof (steady_run _ _ _ _ Hst Ev) as D1.
  2:{ rewrite (bind_Raise _ _ _ _ _ Ev). exists e, w1. split_and!; [done|done|]. intros (p & ? & m & b & a & Hv & _).
      unfold verified, deny_on, catch in Ev. by rewrite Hv in Ev. }
  rewrite (bind_Ok _ _ _ _ _ Ev). unfold get_mission, query. rewrite bind_gets_run, D1.
  assert (∀ e, w_db w1 = w_db w ∧ (egress_matches request itok now w → e = not_registered) →
    ∃ e' w', (Raise e : result (Principal * ProtectedSystemAdapter * string), w1) = (Raise e', w') ∧ w_db w' = w_db w
      ∧ (egress_matches request itok now w → e' = not_registered)) as Hstop by (intros e He; by exists e, w1).
  destruct (find_row m_id _ _) as [m|] eqn:Em.
  2:{ apply Hstop. split; [done|]. intros (? & ? & m & b & a & _ & Hm & _). congruence. }
  destruct (str_in (m_state m) _) eqn:Est.
  2:{ apply Hstop. split; [done|]. intros (? & ? & m' & b & a & _ & Hm & Hs & _). congruence. }
  rewrite bind_raise_if_run by done. destruct (String.eqb_spec (m_system_id m) (eq_system_id request)) as [Esys|Hsys].
  2:{ apply Hstop. split; [done|]. intros (? & ? & m' & b & a & _ & Hm & _ & Hs & _). congruence. }
  rewrite bind_raise_if_run by done. destruct (binding config (eq_system_id request)) as [b|e] eqn:Eb.
  2:{ apply Hstop. split; [done|]. intros (? & ? & m' & b & a & _ & _ & _ & _ & Hb & _). congruence. }
  rewrite (bind_Ok (lift_result (Ok b)) _ w1 b w1 eq_refl). destruct (adapters !! eq_system_id request) as [a|] eqn:Ea.
  2:{ apply Hstop. split; [done|]. intros (? & ? & m' & b' & a & _ & _ & _ & _ & _ & Ha & _). congruence. }
  destruct (negb _ || negb _) eqn:Emt.
  { apply Hstop. split; [done|]. intros (? & ? & m' & b' & a' & _ & _ & _ & _ & Hb & Ha & Hs & Hi).
    assert (b' = b) as -> by congruence. assert (a' = a) as -> by congruence. apply orb_true_iff in Emt as [Ex%negb_true_iff%String.eqb_neq|Ex%negb_true_iff%String.eqb_neq]; congruence. }
  rewrite bind_raise_if_run by done.
  rewrite (bind_Raise _ _ _ _ _ (shipped_policy a (eq_action request) w1 (Hall _ _ Ea))). by apply Hstop.
Qed.

(** The adapters the gateway ships cannot act: none of them has an action policy, and the
    egress gateway asks for one before anything else of the adapter.  With only shipped
    adapters configured every egress request raises, with the tables unchanged (no
    capability is spent, nothing is recorded); a request with a valid identity, an active
    mission that owns the target and a matching adapter is told that its action is not
    registered, whatever the action. *)
Theorem shipped_adapters_refuse_egress request itok ctok timeout now w r w' :
  (∀ id a, adapters !! id = Some a → shipped environ connect urlopen a) →
  egress request itok ctok timeout now w = (r, w') →
  (∃ e, r = Raise e) ∧ w_db w' = w_db w
  ∧ (egress_matches request itok now w → r = Raise not_registered).
Proof.
  intros Hall Hrun. destruct (authorize_stops request itok ctok now w Hall) as (e & w1 & E & D & He).
  unfold egress_execute in Hrun. rewrite (bind_Raise _ _ _ _ _ E) in Hrun. injection Hrun as <- <-.
  split_and!; [by eauto|done|]. intros Hm. by rewrite (He Hm).
Qed.
End egress.
