(* ===== verification/Boundary.v ===== *)
(** immune_fortress/boundary.py: the static inspection that keeps transport, process,
    dynamic-loading and environment authority out of immune_core.

    Syntax trees keep the nodes the inspection looks at, with their line numbers and
    children; every other node is [Other].  Leaves that no test matches (the alias
    nodes of an import, expression contexts) are left out of the children.  The Python
    parser is an argument: [parse] gives the module's tree, or nothing on a syntax
    error.

    The theorems follow the definitions. *)

From stdpp Require Import pretty.
From S2P Require Import Prelude Json Sha256 Schema Files Tokens Fortress TokenProps.

(** ** Syntax *)

(** [ast.alias]: a name and its [asname] *)
Record alias := Alias { al_name : string; al_asname : option string }.

Inductive node :=
| Import (lineno : Z) (names : list alias)
| ImportFrom (lineno : Z) (module : option string) (names : list alias)
| Name (id : string)
| Attribute (lineno : Z) (value : node) (attr : string)
| Call (lineno : Z) (func : node) (args : list node)
| Other (body : list node).

Definition children (n : node) : list node :=
  match n with
  | Import _ _ | ImportFrom _ _ _ | Name _ => []
  | Attribute _ v _ => [v]
  | Call _ f args => f :: args
  | Other body => body
  end.

(** The number of nodes of a tree. *)
Fixpoint node_size (n : node) : nat :=
  S match n with
    | Import _ _ | ImportFrom _ _ _ | Name _ => 0
    | Attribute _ v _ => node_size v
    | Call _ f args => node_size f + list_sum (map node_size args)
    | Other body => list_sum (map node_size body)
    end.

(** [ast.walk(tree)]: a queue of nodes, each followed by its children *)
Fixpoint walk_from (fuel : nat) (todo : list node) : list node :=
  match fuel, todo with
  | S fuel', n :: rest => n :: walk_from fuel' (rest ++ children n)
  | _, _ => []
  end.
Definition ast_walk (tree : node) : list node := walk_from (node_size tree) [tree].

(** ** The forbidden names *)
Definition FORBIDDEN_CORE_IMPORTS : list string :=
  ["socket"; "subprocess"; "urllib"; "requests"; "http"; "httpx"; "ssl"; "ftplib"; "smtplib"; "telnetlib"; "xmlrpc";
   "webbrowser"; "multiprocessing"; "ctypes"; "pty"; "importlib"].
Definition FORBIDDEN_CORE_PREFIXES : list string :=
  ["immune_gateway"; "immune_execution_broker"; "immune_provider_proxy"; "immune_twin"; "immune_presentation";
   "immune_control_plane"].
Definition FORBIDDEN_DYNAMIC_CALLS : list string := ["eval"; "exec"; "__import__"].
Definition FORBIDDEN_OS_CALLS : list string :=
  ["system"; "popen"; "startfile"; "spawnl"; "spawnle"; "spawnlp"; "spawnlpe"; "spawnv"; "spawnve"; "spawnvp";
   "spawnvpe"; "execl"; "execle"; "execlp"; "execlpe"; "execv"; "execve"; "execvp"; "execvpe"].
Definition FORBIDDEN_ASYNCIO_CALLS : list string := ["create_subprocess_exec"; "create_subprocess_shell"].

(** [name.split(".", 1)[0]] *)
Fixpoint root_name (name : string) : string :=
  match name with
  | EmptyString => ""
  | String c s => if Ascii.eqb c "." then "" else String c (root_name s)
  end.
Fixpoint has_dot (s : string) : bool :=
  match s with EmptyString => false | String c s' => Ascii.eqb c "." || has_dot s' end.
(** [name.rsplit(".", 1)[-1]] *)
Fixpoint last_name (name : string) : string :=
  match name with
  | EmptyString => ""
  | String _ s => if has_dot s then last_name s else if has_dot name then s else name
  end.

(** ** The inspection of one file *)

(** [top in FORBIDDEN_CORE_IMPORTS or top in FORBIDDEN_CORE_PREFIXES] *)
Definition forbidden_module (full : string) : bool :=
  let top := root_name full in str_in top FORBIDDEN_CORE_IMPORTS || str_in top FORBIDDEN_CORE_PREFIXES.

(** [asname or default] *)
Definition local_name (a : alias) (default : string) : string :=
  match al_asname a with Some n => if n =s "" then default else n | None => default end.
(** [isinstance(node, ast.ImportFrom) and node.module] *)
Definition imported_module (m : option string) : option string :=
  match m with Some full => if full =s "" then None else Some full | None => None end.

(** The names an import statement binds, with what they stand for. *)
Definition bindings (n : node) : list (string * string) :=
  match n with
  | Import _ names => map (λ a, (local_name a (root_name (al_name a)), al_name a)) names
  | ImportFrom _ m names =>
      match imported_module m with
      | Some full => map (λ a, (local_name a (al_name a), full +:+ "." +:+ al_name a)) names
      | None => []
      end
  | _ => []
  end.
(** [aliases] after the first walk: each binding overwrites the one before *)
Definition aliases_of (nodes : list node) : gmap string string :=
  fold_left (λ m (b : string * string), <[b.1 := b.2]> m) (flat_map bindings nodes) ∅.

Section file.
Context (file : string).

Definition report (lineno : Z) (kind what : string) : string :=
  file +:+ ":" +:+ pretty lineno +:+ ":" +:+ kind +:+ ":" +:+ what.
Definition report_if (b : bool) (lineno : Z) (kind what : string) : list string :=
  if b then [report lineno kind what] else [].

(** The three walks. *)
Definition import_violations (n : node) : list string :=
  match n with
  | Import lineno names =>
      flat_map (λ a, report_if (forbidden_module (al_name a)) lineno "import" (al_name a)) names
  | ImportFrom lineno m _ =>
      match imported_module m with
      | Some full => report_if (forbidden_module full) lineno "import" full
      | None => []
      end
  | _ => []
  end.
Definition call_violations (aliases : gmap string string) (n : node) : list string :=
  match n with
  | Call lineno (Name name) _ =>
      let target := default "" (aliases !! name) in
      report_if (str_in name FORBIDDEN_DYNAMIC_CALLS) lineno "dynamic" name
      ++ report_if (String.prefix "os." target && str_in (last_name target) FORBIDDEN_OS_CALLS) lineno "process" target
      ++ report_if (String.prefix "asyncio." target && str_in (last_name target) FORBIDDEN_ASYNCIO_CALLS)
           lineno "process" target
  | Call lineno (Attribute _ (Name base) attr) _ =>
      let resolved_base := default base (aliases !! base) in
      report_if ((root_name resolved_base =s "os") && str_in attr FORBIDDEN_OS_CALLS) lineno "process" ("os." +:+ attr)
      ++ report_if ((root_name resolved_base =s "asyncio") && str_in attr FORBIDDEN_ASYNCIO_CALLS)
           lineno "process" ("asyncio." +:+ attr)
  | _ => []
  end.
Definition environment_violations (aliases : gmap string string) (n : node) : list string :=
  match n with
  | Attribute lineno (Name id) attr =>
      report_if ((root_name (default id (aliases !! id)) =s "os") && str_in attr ["environ"; "getenv"])
        lineno "environment" attr
  | _ => []
  end.

Definition file_violations (tree : node) : list string :=
  let nodes := ast_walk tree in
  let aliases := aliases_of nodes in
  flat_map import_violations nodes ++ flat_map (call_violations aliases) nodes
  ++ flat_map (environment_violations aliases) nodes.
End file.

(** ** The inspection of the core *)

(** [path.read_text(encoding="utf-8-sig")] drops a byte order mark *)
Definition strip_bom (text : string) : string :=
  removeprefix (String (ascii_of_nat 239) (String (ascii_of_nat 187) (String (ascii_of_nat 191) ""))) text.

(** [sorted((root / "immune_core").glob("*.py"))]: the entries of the directory *)
Definition has_suffix (suffix s : string) : bool :=
  let n := String.length s - String.length suffix in String.substring n (String.length s) s =s suffix.
Definition core_sources (root : path) (files : gmap path string) : list string :=
  List.filter (has_suffix ".py")
    (sorted_set (omap (λ kv : path * string, head kv.1) (below (root ++ ["immune_core"]) files))).

Section boundary.
Context (parse : string → option node).

(** One turn of the loop over the files; a directory of that name cannot be read. *)
Definition inspect_source (root : path) (files : gmap path string) (name : string) : result (list string) :=
  match files !! (root ++ ["immune_core"; name]) with
  | None => Raise (Exn OSError ("Is a directory: " +:+ name))
  | Some text => match parse (strip_bom text) with
                 | None => Raise (Exn SyntaxError name)
                 | Some tree => Ok (file_violations name tree)
                 end
  end.
Fixpoint inspect_sources (root : path) (files : gmap path string) (names : list string) : result (list string) :=
  match names with
  | [] => Ok []
  | name :: rest =>
      match inspect_source root files name, inspect_sources root files rest with
      | Raise e, _ => Raise e
      | Ok _, Raise e => Raise e
      | Ok v, Ok vs => Ok (v ++ vs)
      end
  end.
Definition core_boundary_violations (root : path) (files : gmap path string) : result (list string) :=
  match inspect_sources root files (core_sources root files) with
  | Ok vs => Ok (sorted_set vs)
  | Raise e => Raise e
  end.
End boundary.

(** * What the inspection of immune_core finds: exactly the breaches of its rules at any
    depth of any core file, so that a clean core imports no forbidden module and calls
    no process, dynamic or environment primitive through a name with one meaning; and
    the two ways round it that the rules leave. *)

(** ** The walk visits every node *)
Inductive subnode : node → node → Prop :=
| sub_self n : subnode n n
| sub_child n c x : c ∈ children n → subnode c x → subnode n x.
#[export] Hint Constructors subnode : core.

Lemma node_size_children n : node_size n = S (list_sum (map node_size (children n))).
Proof. destruct n; simpl; lia. Qed.

Lemma subnode_inv n x : subnode n x ↔ x = n ∨ ∃ c, c ∈ children n ∧ subnode c x.
Proof. split; [inversion_clear 1; eauto | intros [->|(c & ? & ?)]; eauto]. Qed.

Lemma walk_from_elem fuel todo x :
  list_sum (map node_size todo) ≤ fuel → x ∈ walk_from fuel todo ↔ ∃ t, t ∈ todo ∧ subnode t x.
Proof.
  revert todo. induction fuel as [|fuel IH]; intros [|n rest] Hf; simpl in *.
  - set_solver.
  - rewrite node_size_children in Hf. lia.
  - set_solver.
  - rewrite node_size_children in Hf. rewrite elem_of_cons, IH.
    + setoid_rewrite elem_of_cons. setoid_rewrite elem_of_app. split.
      * intros [->|(t & [Ht|Ht] & Hs)]; [eauto..|]. exists n. split; [by left|]. eauto.
      * intros (t & [->|Ht] & Hs); [|eauto]. apply subnode_inv in Hs as [->|(c & Hc & Hs)]; eauto.
    + rewrite map_app, list_sum_app. lia.
Qed.
Lemma ast_walk_elem tree x : x ∈ ast_walk tree ↔ subnode tree x.
Proof.
  unfold ast_walk. rewrite walk_from_elem by (simpl; lia). split.
  - by intros (t & ->%list_elem_of_singleton & Hs).
  - intros Hs. exists tree. split; [by left|done].
Qed.

(** ** Aliases *)
Definition binds (tree : node) (x full : string) : Prop := ∃ n, subnode tree n ∧ (x, full) ∈ bindings n.

Lemma insert_all_lookup {A} (l : list (string * A)) (m : gmap string A) x v :
  fold_left (λ m (b : string * A), <[b.1 := b.2]> m) l m !! x = Some v → m !! x = Some v ∨ (x, v) ∈ l.
Proof.
  revert m. induction l as [|[k a] l IH]; intros m; simpl; [auto|]. intros [Hm|Hl]%IH; [|right; by right].
  destruct (decide (k = x)) as [->|Hk].
  - rewrite lookup_insert_eq in Hm. injection Hm as ->. right. by left.
  - rewrite lookup_insert_ne in Hm by done. by left.
Qed.
Lemma insert_all_is_Some {A} (l : list (string * A)) (m : gmap string A) x v :
  is_Some (m !! x) ∨ (x, v) ∈ l → is_Some (fold_left (λ m (b : string * A), <[b.1 := b.2]> m) l m !! x).
Proof.
  revert m. induction l as [|[k a] l IH]; intros m; simpl; [set_solver|]. intros Hor. apply IH.
  destruct (decide (k = x)) as [->|Hk]; [left; by rewrite lookup_insert_eq|].
  rewrite lookup_insert_ne by done. destruct Hor as [?|[[= -> ->]|?]%elem_of_cons]; [by left|done|by right].
Qed.

Lemma elem_of_flat_map {A B} (f : A → list B) l y : y ∈ flat_map f l ↔ ∃ x, x ∈ l ∧ y ∈ f x.
Proof. rewrite list_elem_of_In, in_flat_map. by setoid_rewrite list_elem_of_In. Qed.

Lemma elem_of_bindings tree x full : (x, full) ∈ flat_map bindings (ast_walk tree) ↔ binds tree x full.
Proof. rewrite elem_of_flat_map. unfold binds. by setoid_rewrite ast_walk_elem. Qed.

(** An alias stands for what some import of the file binds it to, and every bound
    name is an alias. *)
Lemma alias_bound tree x full : aliases_of (ast_walk tree) !! x = Some full → binds tree x full.
Proof. intros [?|Hb]%insert_all_lookup; [done|]. by apply elem_of_bindings. Qed.
Lemma bound_alias tree x full : binds tree x full → is_Some (aliases_of (ast_walk tree) !! x).
Proof. intros Hb. eapply insert_all_is_Some. right. by apply elem_of_bindings. Qed.

(** [x] stands for module [m] (or something in it) wherever the file binds it. *)
Definition stands_for (tree : node) (x m : string) : Prop :=
  (∀ full, binds tree x full → root_name full = m) ∧ (x = m ∨ ∃ full, binds tree x full).

Lemma stands_for_root tree x m :
  root_name m = m → stands_for tree x m → root_name (default x (aliases_of (ast_walk tree) !! x)) = m.
Proof.
  intros Hm [Hall Hsome]. destruct (aliases_of _ !! x) as [full|] eqn:E; simpl.
  - by apply Hall, alias_bound.
  - destruct Hsome as [->|[full Hb]]; [done|]. apply bound_alias in Hb as [? Hb]. congruence.
Qed.

(** ** The rules *)

(** What the inspection reports of one node, given what names stand for. *)
Inductive breach (aliases : gmap string string) (file : string) : node → string → Prop :=
| breach_import l names a :
    a ∈ names → forbidden_module (al_name a) = true →
    breach aliases file (Import l names) (report file l "import" (al_name a))
| breach_from l full names :
    full ≠ "" → forbidden_module full = true →
    breach aliases file (ImportFrom l (Some full) names) (report file l "import" full)
| breach_dynamic l name args :
    name ∈ FORBIDDEN_DYNAMIC_CALLS → breach aliases file (Call l (Name name) args) (report file l "dynamic" name)
| breach_imported l name target args :
    aliases !! name = Some target →
    (String.prefix "os." target = true ∧ last_name target ∈ FORBIDDEN_OS_CALLS
     ∨ String.prefix "asyncio." target = true ∧ last_name target ∈ FORBIDDEN_ASYNCIO_CALLS) →
    breach aliases file (Call l (Name name) args) (report file l "process" target)
| breach_method l l' x attr args m :
    root_name (default x (aliases !! x)) = m →
    (m = "os" ∧ attr ∈ FORBIDDEN_OS_CALLS ∨ m = "asyncio" ∧ attr ∈ FORBIDDEN_ASYNCIO_CALLS) →
    breach aliases file (Call l (Attribute l' (Name x) attr) args) (report file l "process" (m +:+ "." +:+ attr))
| breach_environment l x attr :
    root_name (default x (aliases !! x)) = "os" → attr ∈ ["environ"; "getenv"] →
    breach aliases file (Attribute l (Name x) attr) (report file l "environment" attr).
#[export] Hint Constructors breach : core.

Lemma elem_of_report_if file b l kind what v :
  v ∈ report_if file b l kind what ↔ b = true ∧ v = report file l kind what.
Proof. destruct b; simpl; set_solver. Qed.

(** The three walks of a file give exactly its breaches. *)
Lemma breach_iff aliases file n v :
  v ∈ import_violations file n ∨ v ∈ call_violations file aliases n ∨ v ∈ environment_violations file aliases n
  ↔ breach aliases file n v.
Proof.
  split.
  - intros [Hv|[Hv|Hv]]; destruct n as [l names|l m names|id|l value attr|l func args|body];
      cbn [import_violations call_violations environment_violations imported_module] in Hv; try by apply elem_of_nil in Hv.
    + apply elem_of_flat_map in Hv as (a & Ha & [Hf ->]%elem_of_report_if). eauto.
    + destruct m as [full|]; cbn [import_violations call_violations environment_violations imported_module] in Hv; [|by apply elem_of_nil in Hv].
      destruct (String.eqb_spec full ""); [by apply elem_of_nil in Hv|].
      apply elem_of_report_if in Hv as [Hf ->]. eauto.
    + destruct func as [| |name| l' [| |x| | |] attr| |]; cbn [import_violations call_violations environment_violations imported_module] in Hv; try by apply elem_of_nil in Hv.
      * rewrite !elem_of_app, !elem_of_report_if, !andb_true_iff, !str_in_iff in Hv.
        destruct (aliases !! name) as [target|] eqn:E; cbn [from_option] in Hv;
          destruct Hv as [[Hd ->]|[[[Hp Hl] ->]|[[Hp Hl] ->]]]; try done; eauto.
      * rewrite !elem_of_app, !elem_of_report_if, !andb_true_iff, !str_in_iff, !String.eqb_eq in Hv.
        destruct Hv as [[[Hm Ha] ->]|[[Hm Ha] ->]].
        -- apply (breach_method _ _ l l' x attr args "os"); auto.
        -- apply (breach_method _ _ l l' x attr args "asyncio"); auto.
    + destruct value as [| |x| | |]; cbn [import_violations call_violations environment_violations imported_module] in Hv; try by apply elem_of_nil in Hv.
      apply elem_of_report_if in Hv as [[Hm%String.eqb_eq Ha%str_in_iff]%andb_true_iff ->]. eauto.
  - destruct 1 as [l names a Ha Hf|l full names Hn Hf|l name args Hd|l name target args E Hor|
                   l l' x attr args m Hm Hor|l x attr Hm Ha].
    + left. apply elem_of_flat_map. exists a. by rewrite elem_of_report_if.
    + left. cbn [import_violations imported_module]. rewrite (proj2 (String.eqb_neq full "") Hn). by rewrite elem_of_report_if.
    + right; left. cbn [call_violations]. apply elem_of_app. left. apply elem_of_report_if. split; [by apply str_in_iff|done].
    + right; left. cbn [call_violations]. rewrite E. cbn [from_option id]. rewrite !elem_of_app, !elem_of_report_if, !andb_true_iff, !str_in_iff.
      naive_solver.
    + right; left. cbn [call_violations]. rewrite !elem_of_app, !elem_of_report_if, !andb_true_iff, !str_in_iff, !String.eqb_eq.
      destruct Hor as [[-> Ha]|[-> Ha]]; rewrite Hm; [left|right]; auto.
    + right; right. cbn [environment_violations]. rewrite elem_of_report_if, andb_true_iff, str_in_iff, String.eqb_eq. auto.
Qed.

Lemma file_violations_elem file tree v :
  v ∈ file_violations file tree ↔ ∃ n, subnode tree n ∧ breach (aliases_of (ast_walk tree)) file n v.
Proof.
  unfold file_violations. rewrite !elem_of_app, !elem_of_flat_map.
  setoid_rewrite <- breach_iff. setoid_rewrite ast_walk_elem. naive_solver.
Qed.

(** ** The core *)
Lemma core_sources_elem root files name text :
  files !! (root ++ ["immune_core"; name]) = Some text → has_suffix ".py" name = true → name ∈ core_sources root files.
Proof.
  intros Hf He. unfold core_sources. apply list_elem_of_In, filter_In. split; [|done].
  apply list_elem_of_In, sorted_set_in, list_elem_of_omap. exists ([name], text). split; [|done].
  apply elem_of_below. by rewrite <- app_assoc.
Qed.

Section boundary_props.
Context (parse : string → option node) (root : path) (files : gmap path string).

(** The tree of a core file. *)
Definition core_tree (name : string) (tree : node) : Prop :=
  ∃ text, files !! (root ++ ["immune_core"; name]) = Some text ∧ parse (strip_bom text) = Some tree.

Lemma inspect_source_Ok name vs :
  inspect_source parse root files name = Ok vs ↔ ∃ tree, core_tree name tree ∧ vs = file_violations name tree.
Proof.
  unfold inspect_source, core_tree. destruct (files !! _) as [text|]; [|naive_solver].
  destruct (parse (strip_bom text)) as [tree|] eqn:E; naive_solver.
Qed.
Lemma core_tree_unique name t1 t2 : core_tree name t1 → core_tree name t2 → t1 = t2.
Proof. unfold core_tree. naive_solver. Qed.

Lemma inspect_sources_elem names vs v :
  inspect_sources parse root files names = Ok vs →
  v ∈ vs ↔ ∃ name tree, name ∈ names ∧ core_tree name tree ∧ v ∈ file_violations name tree.
Proof.
  revert vs. induction names as [|name rest IH]; intros vs; simpl; [intros [= <-]; set_solver|].
  destruct (inspect_source parse root files name) as [v1|] eqn:E1; [|done].
  destruct (inspect_sources parse root files rest) as [v2|]; [|done]. intros [= <-].
  apply inspect_source_Ok in E1 as (tree & Ht & ->). rewrite elem_of_app, (IH v2 eq_refl). split.
  - intros [Hv|(name' & t & Hin & Ht' & Hv)].
    + exists name, tree. split_and!; [by left|done|done].
    + exists name', t. split_and!; [by right|done|done].
  - intros (name' & t & [->|Hin]%elem_of_cons & Ht' & Hv); [|eauto 10].
    left. by rewrite (core_tree_unique _ _ _ Ht Ht').
Qed.

(** The inspection's answer, when it can read every source, is the sorted list
    without repetition of the breaches of every node, at any depth, of every core
    file: nothing else is reported and nothing is missed. *)
Theorem boundary_exact l :
  core_boundary_violations parse root files = Ok l →
  NoDup l ∧ StronglySorted (λ a b, String.leb a b = true) l
  ∧ ∀ v, v ∈ l ↔ ∃ name tree n, name ∈ core_sources root files ∧ core_tree name tree ∧ subnode tree n
                                ∧ breach (aliases_of (ast_walk tree)) name n v.
Proof.
  unfold core_boundary_violations. destruct (inspect_sources _ _ _ _) as [vs|] eqn:E; [|done]. intros [= <-].
  split_and!.
  - unfold sorted_set. rewrite order_by_perm. apply NoDup_remove_dups.
  - apply order_by_sorted; [apply String.leb_total | apply string_leb_trans].
  - intros v. rewrite sorted_set_in, (inspect_sources_elem _ _ v E).
    setoid_rewrite file_violations_elem. naive_solver.
Qed.

(** A core file that could not be inspected is an error, never a clean answer. *)
Lemma boundary_fails_closed name :
  name ∈ core_sources root files → (∀ tree, ¬ core_tree name tree) →
  ∃ e, core_boundary_violations parse root files = Raise e ∧ (exn_cls e = OSError ∨ exn_cls e = SyntaxError).
Proof.
  intros Hin Hno. unfold core_boundary_violations. revert Hin. generalize (core_sources root files) as names.
  induction names as [|n rest IH]; [by intros ?%elem_of_nil|]. intros Hin. simpl.
  destruct (inspect_source parse root files n) as [v1|e] eqn:E1.
  - apply inspect_source_Ok in E1 as (tree & Ht & _).
    assert (name ∈ rest) as Hr by (apply elem_of_cons in Hin as [->|]; [by destruct (Hno tree)|done]).
    destruct (IH Hr) as (e & He & Hc). exists e. split; [|done]. by destruct (inspect_sources _ _ _ rest).
  - exists e. split; [done|]. unfold inspect_source in E1. destruct (files !! _) as [text|]; [|left; by injection E1 as <-].
    destruct (parse _); [done|]. injection E1 as <-. by right.
Qed.

(** A core the inspection finds clean is confined: no core file, at any depth,
    imports a forbidden module or calls a dynamic-evaluation builtin; and none
    calls a process primitive, or touches the environment, through a name that stands
    for that module wherever the file binds it. *)
Theorem clean_core_confined name tree n :
  core_boundary_violations parse root files = Ok [] →
  has_suffix ".py" name = true → core_tree name tree → subnode tree n →
  (∀ l names a, n = Import l names → a ∈ names → forbidden_module (al_name a) = false)
  ∧ (∀ l full names, n = ImportFrom l (Some full) names → full ≠ "" → forbidden_module full = false)
  ∧ (∀ l f args, n = Call l (Name f) args → f ∉ FORBIDDEN_DYNAMIC_CALLS)
  ∧ (∀ l l' x attr args, n = Call l (Attribute l' (Name x) attr) args →
       (stands_for tree x "os" → attr ∉ FORBIDDEN_OS_CALLS)
       ∧ (stands_for tree x "asyncio" → attr ∉ FORBIDDEN_ASYNCIO_CALLS))
  ∧ (∀ l x attr, n = Attribute l (Name x) attr → stands_for tree x "os" → attr ≠ "environ" ∧ attr ≠ "getenv").
Proof.
  intros Hclean He Ht Hn.
  assert (∀ v, ¬ breach (aliases_of (ast_walk tree)) name n v) as Hno.
  { intros v Hv. destruct (boundary_exact _ Hclean) as (_ & _ & Hall). apply (not_elem_of_nil v), Hall.
    exists name, tree, n. split_and!; try done. destruct Ht as (text & Hf & _). by eapply core_sources_elem. }
  split_and!.
  - intros l names a -> Ha. apply not_true_iff_false. intros Hf. by eapply Hno, breach_import.
  - intros l full names -> Hne. apply not_true_iff_false. intros Hf. by eapply Hno, breach_from.
  - intros l f args -> Hf. by eapply Hno, breach_dynamic.
  - intros l l' x attr args ->. split; intros Hs Ha; eapply Hno, breach_method; eauto;
      rewrite (stands_for_root _ _ _ eq_refl Hs); auto.
  - intros l x attr -> Hs. split; intros ->; eapply Hno, (breach_environment _ _ l x);
      (by apply stands_for_root || set_solver).
Qed.
End boundary_props.

(** ** What the rules leave open *)

(** The alias table has one entry per name for a whole file, the last in breadth-first
    order: an import in a nested scope that rebinds [os] hides a module-level call of
    [os.system]; and a name imported from [os] is not looked at when it is
    [environ] or [getenv]. *)
Theorem boundary_gaps file :
  file_violations file
    (Other [Import 1 [Alias "os" None];
            Other [Call 2 (Attribute 2 (Name "os") "system") [Name "command"]];
            Other [Other [Import 9 [Alias "json" (Some "os")]]]]) = []
  ∧ file_violations file
      (Other [ImportFrom 1 (Some "os") [Alias "environ" None; Alias "getenv" None];
              Other [Call 2 (Name "getenv") [Other []]]; Other [Other [Name "environ"; Other []]]]) = []
  ∧ file_violations file
      (Other [Import 1 [Alias "os" None]; Other [Call 2 (Attribute 2 (Name "os") "system") [Name "command"]]])
    = [report file 2 "process" "os.system"].
Proof. split_and!; vm_compute; reflexivity. Qed.
