(* ===== verification/Text.v ===== *)
(** Text encodings of the outer programs, from the standard library: [html.escape],
    [shlex.quote], [bytes.fromhex] and [str.join], with reference decoders and the
    round trips that make an encoded text carry its data and nothing else. *)

From S2P Require Import Prelude.

(** ** Strings character by character *)
Definition one (c : ascii) : string := String c "".
Fixpoint concat_map (f : ascii → string) (s : string) : string :=
  match s with EmptyString => "" | String c s' => f c +:+ concat_map f s' end.
(** [s.replace(c, rep)] for a character [c] *)
Definition replace_char (c : ascii) (rep : string) : string → string :=
  concat_map (λ x, if Ascii.eqb x c then rep else one x).
Fixpoint all_chars (p : ascii → bool) (s : string) : bool :=
  match s with EmptyString => true | String c s' => p c && all_chars p s' end.
Fixpoint keep_chars (p : ascii → bool) (s : string) : string :=
  match s with
  | EmptyString => ""
  | String c s' => if p c then String c (keep_chars p s') else keep_chars p s'
  end.

Lemma app_nil_l t : "" +:+ t = t.
Proof. done. Qed.
Lemma concat_map_app f s t : concat_map f (s +:+ t) = concat_map f s +:+ concat_map f t.
Proof. induction s as [|c s IH]; [done|]. rewrite app_cons. simpl. by rewrite IH, app_assoc_s. Qed.
Lemma concat_map_comp f g s : concat_map f (concat_map g s) = concat_map (λ c, concat_map f (g c)) s.
Proof. induction s as [|c s IH]; [done|]. simpl. by rewrite concat_map_app, IH. Qed.
Lemma concat_map_ext f g s : (∀ c, f c = g c) → concat_map f s = concat_map g s.
Proof. intros E. induction s as [|c s IH]; [done|]. simpl. by rewrite E, IH. Qed.
Lemma all_chars_app p s t : all_chars p (s +:+ t) = all_chars p s && all_chars p t.
Proof. induction s as [|c s IH]; [done|]. rewrite app_cons. simpl. by rewrite IH, andb_assoc. Qed.
Lemma all_chars_concat_map p f s : (∀ c, all_chars p (f c) = true) → all_chars p (concat_map f s) = true.
Proof. intros Hf. induction s as [|c s IH]; [done|]. simpl. by rewrite all_chars_app, Hf, IH. Qed.
Lemma keep_chars_app p s t : keep_chars p (s +:+ t) = keep_chars p s +:+ keep_chars p t.
Proof. induction s as [|c s IH]; [done|]. rewrite app_cons. simpl. destruct (p c); by rewrite IH. Qed.
Lemma keep_chars_none p s : all_chars (λ c, negb (p c)) s = true → keep_chars p s = "".
Proof. induction s as [|c s IH]; [done|]. simpl. intros [Hc%negb_true_iff Hs]%andb_true_iff. rewrite Hc. auto. Qed.

(** A text without [c] is cut off at the first [c] that follows it. *)
Definition without (c : ascii) : string → bool := all_chars (λ x, negb (Ascii.eqb x c)).
Lemma without_cut c s s' t t' :
  without c s = true → without c s' = true → s +:+ String c t = s' +:+ String c t' → s = s' ∧ t = t'.
Proof.
  unfold without. revert s'. induction s as [|a s IH]; intros [|b s']; simpl; rewrite ?app_nil_l, ?app_cons.
  - intros _ _ [= ->]. done.
  - intros _ Hb%andb_true_iff [= -> _]. by rewrite Ascii.eqb_refl in Hb; destruct Hb.
  - intros Ha%andb_true_iff _ [= -> _]. by rewrite Ascii.eqb_refl in Ha; destruct Ha.
  - intros [_ Ha]%andb_true_iff [_ Hb]%andb_true_iff [= -> E]. apply IH in E as [-> ->]; auto.
Qed.

(** [s.split(c)] for a character [c] *)
Fixpoint split_on (c : ascii) (s : string) : list string :=
  match s with
  | EmptyString => [""]
  | String x s' =>
      if Ascii.eqb x c then "" :: split_on c s'
      else match split_on c s' with
           | y :: rest => String x y :: rest
           | [] => [one x]
           end
  end.
Lemma split_on_cons c s t : without c s = true → split_on c (s +:+ String c t) = s :: split_on c t.
Proof.
  unfold without. induction s as [|x s IH]; cbn [all_chars].
  - intros _. rewrite app_nil_l. cbn [split_on]. by rewrite Ascii.eqb_refl.
  - intros [Hx%negb_true_iff Hs]%andb_true_iff. rewrite app_cons. cbn [split_on]. by rewrite Hx, (IH Hs).
Qed.
Lemma without_app c s t : without c (s +:+ t) = without c s && without c t.
Proof. apply all_chars_app. Qed.

(** Lines, each with its line end. *)
Definition LINE_FEED : ascii := ascii_of_nat 10.
Definition one_line (s : string) : bool := without LINE_FEED s.
Fixpoint text_of_lines (l : list string) : string :=
  match l with [] => "" | x :: l' => x +:+ String LINE_FEED (text_of_lines l') end.
Lemma split_text_of_lines l rest :
  Forall (λ x, one_line x = true) l → split_on LINE_FEED (text_of_lines l +:+ rest) = l ++ split_on LINE_FEED rest.
Proof.
  induction 1 as [|x l Hx Hl IH]; [done|]. cbn [text_of_lines].
  rewrite app_assoc_s, app_cons, split_on_cons by done. by rewrite IH.
Qed.

(** ** [html.escape(s, quote=True)] *)
Definition dquote : ascii := ascii_of_nat 34.
Definition squote : ascii := ascii_of_nat 39.
Definition html_escape (s : string) : string :=
  replace_char squote "&#x27;" (replace_char dquote "&quot;" (replace_char ">" "&gt;" (replace_char "<" "&lt;"
    (replace_char "&" "&amp;" s)))).

(** The character references the escaped text can hold, read back. *)
Fixpoint html_unescape (s : string) : string :=
  match s with
  | String "&" (String "a" (String "m" (String "p" (String ";" r)))) => String "&" (html_unescape r)
  | String "&" (String "l" (String "t" (String ";" r))) => String "<" (html_unescape r)
  | String "&" (String "g" (String "t" (String ";" r))) => String ">" (html_unescape r)
  | String "&" (String "q" (String "u" (String "o" (String "t" (String ";" r))))) => String dquote (html_unescape r)
  | String "&" (String "#" (String "x" (String "2" (String "7" (String ";" r))))) => String squote (html_unescape r)
  | String c r => String c (html_unescape r)
  | EmptyString => ""
  end.

(** The characters that can open or close a tag or an attribute value. *)
Definition markup_char (c : ascii) : bool :=
  Ascii.eqb c "<" || Ascii.eqb c ">" || Ascii.eqb c dquote || Ascii.eqb c squote.
Definition markup : string → string := keep_chars markup_char.

(** The five replacements are one substitution per character. *)
Definition escape_char (c : ascii) : string :=
  if Ascii.eqb c "&" then "&amp;" else if Ascii.eqb c "<" then "&lt;" else if Ascii.eqb c ">" then "&gt;"
  else if Ascii.eqb c dquote then "&quot;" else if Ascii.eqb c squote then "&#x27;" else one c.
Lemma html_escape_chars s : html_escape s = concat_map escape_char s.
Proof.
  unfold html_escape, replace_char. rewrite !concat_map_comp. apply concat_map_ext.
  intros c. unfold escape_char.
  destruct (Ascii.eqb_spec c "&") as [->|]; [done|].
  destruct (Ascii.eqb_spec c "<") as [->|]; [done|].
  destruct (Ascii.eqb_spec c ">") as [->|]; [done|].
  destruct (Ascii.eqb_spec c dquote) as [->|]; [done|].
  destruct (Ascii.eqb_spec c squote) as [->|]; [done|].
  unfold one. simpl.
  repeat match goal with |- context [Ascii.eqb ?x ?y] => destruct (Ascii.eqb_spec x y); [done|]; simpl end. done.
Qed.

Lemma unescape_plain c r : c ≠ "&"%char → html_unescape (String c r) = String c (html_unescape r).
Proof. intros Hc. destruct c as [[] [] [] [] [] [] [] []]; reflexivity || by destruct Hc. Qed.
Lemma unescape_escape_char c r : html_unescape (escape_char c +:+ r) = String c (html_unescape r).
Proof.
  unfold escape_char.
  destruct (Ascii.eqb_spec c "&") as [->|Ha]; [done|].
  destruct (Ascii.eqb_spec c "<") as [->|]; [done|]. destruct (Ascii.eqb_spec c ">") as [->|]; [done|].
  destruct (Ascii.eqb_spec c dquote) as [->|]; [done|]. destruct (Ascii.eqb_spec c squote) as [->|]; [done|].
  by apply unescape_plain.
Qed.
Lemma html_unescape_escape s : html_unescape (html_escape s) = s.
Proof.
  rewrite html_escape_chars. induction s as [|c s IH]; [done|]. simpl. by rewrite unescape_escape_char, IH.
Qed.
Lemma html_escape_inj s t : html_escape s = html_escape t → s = t.
Proof. intros E. by rewrite <- (html_unescape_escape s), E, html_unescape_escape. Qed.

Lemma html_escape_plain s : all_chars (λ c, negb (markup_char c)) (html_escape s) = true.
Proof.
  rewrite html_escape_chars. apply all_chars_concat_map. intros c. unfold escape_char.
  destruct (Ascii.eqb_spec c "&"); [done|]. destruct (Ascii.eqb_spec c "<"); [done|].
  destruct (Ascii.eqb_spec c ">"); [done|]. destruct (Ascii.eqb_spec c dquote); [done|].
  destruct (Ascii.eqb_spec c squote); [done|]. unfold one, markup_char. simpl.
  repeat match goal with |- context [Ascii.eqb c ?y] => destruct (Ascii.eqb_spec c y); [done|]; simpl end. done.
Qed.
(** Escaped data adds no markup. *)
Lemma markup_escape s : markup (html_escape s) = "".
Proof. apply keep_chars_none, html_escape_plain. Qed.
Lemma markup_app s t : markup (s +:+ t) = markup s +:+ markup t.
Proof. apply keep_chars_app. Qed.
Lemma escape_no_tag s : without "<" (html_escape s) = true.
Proof.
  pose proof (html_escape_plain s) as Hp. revert Hp. unfold without. induction (html_escape s) as [|c t IH]; [done|].
  simpl. rewrite !andb_true_iff, !negb_true_iff. intros [Hc Ht]. split; [|auto].
  unfold markup_char in Hc. by destruct (Ascii.eqb c "<").
Qed.

(** ** [sep.join(l)] *)
Definition join (sep : string) (l : list string) : string := String.concat sep l.
Lemma join_cons sep x l : l ≠ [] → join sep (x :: l) = x +:+ sep +:+ join sep l.
Proof. by destruct l. Qed.

(** ** [shlex.quote] *)

(** [\w@%+=:,./-] with [re.ASCII] *)
Definition shell_safe (c : ascii) : bool :=
  let n := N_of_ascii c in
  ((N.leb 48 n && N.leb n 57) || (N.leb 65 n && N.leb n 90) || (N.leb 97 n && N.leb n 122) || Ascii.eqb c "_"
   || Ascii.eqb c "@" || Ascii.eqb c "%" || Ascii.eqb c "+" || Ascii.eqb c "=" || Ascii.eqb c ":" || Ascii.eqb c ","
   || Ascii.eqb c "." || Ascii.eqb c "/" || Ascii.eqb c "-")%bool.
Definition quoted_squote : string :=
  String squote (String dquote (String squote (String dquote (String squote "")))).
Definition shlex_quote (s : string) : string :=
  if s =s "" then String squote (one squote)
  else if all_chars shell_safe s then s
  else String squote (replace_char squote quoted_squote s +:+ one squote).

(** ** [shlex.split] in POSIX mode, without comments: the words of a command line *)
Inductive shell_mode := Between | Word | InSingle | InDouble | Escaped (in_double : bool).
Definition backslash : ascii := ascii_of_nat 92.
Definition shell_blank (c : ascii) : bool :=
  Ascii.eqb c " " || Ascii.eqb c (ascii_of_nat 9) || Ascii.eqb c (ascii_of_nat 10) || Ascii.eqb c (ascii_of_nat 13).
(** [word] is the word read so far; the result is [None] when a quotation is open at the end. *)
Fixpoint shell_split (m : shell_mode) (word : string) (s : string) : option (list string) :=
  match s with
  | EmptyString =>
      match m with Between => Some [] | Word => Some [word] | _ => None end
  | String c r =>
      match m with
      | Between | Word =>
          if shell_blank c then
            match m with Word => (word ::.) <$> shell_split Between "" r | _ => shell_split Between "" r end
          else if Ascii.eqb c squote then shell_split InSingle word r
          else if Ascii.eqb c dquote then shell_split InDouble word r
          else if Ascii.eqb c backslash then shell_split (Escaped false) word r
          else shell_split Word (word +:+ one c) r
      | InSingle => if Ascii.eqb c squote then shell_split Word word r else shell_split InSingle (word +:+ one c) r
      | InDouble => if Ascii.eqb c dquote then shell_split Word word r
                    else if Ascii.eqb c backslash then shell_split (Escaped true) word r
                    else shell_split InDouble (word +:+ one c) r
      | Escaped false => shell_split Word (word +:+ one c) r
      | Escaped true => shell_split InDouble
          (if Ascii.eqb c dquote || Ascii.eqb c backslash then word +:+ one c else word +:+ one backslash +:+ one c) r
      end
  end.
Definition shlex_split (s : string) : option (list string) := shell_split Between "" s.

Lemma snoc_app w c s : (w +:+ one c) +:+ s = w +:+ String c s.
Proof. by rewrite app_assoc_s. Qed.

Lemma split_single s w rest :
  shell_split InSingle w (replace_char squote quoted_squote s +:+ String squote rest) = shell_split Word (w +:+ s) rest.
Proof.
  revert w. induction s as [|c s IH]; intros w; [by rewrite app_nil_s|].
  unfold replace_char in *. cbn [concat_map]. rewrite app_assoc_s, <- (snoc_app w c s), <- (IH (w +:+ one c)).
  destruct (Ascii.eqb_spec c squote) as [->|Hc]; [done|].
  unfold one at 1. rewrite app_cons, app_nil_l. cbn [shell_split]. by rewrite (proj2 (Ascii.eqb_neq c squote) Hc).
Qed.

Lemma shell_safe_plain c :
  shell_safe c = true →
  shell_blank c = false ∧ Ascii.eqb c squote = false ∧ Ascii.eqb c dquote = false ∧ Ascii.eqb c backslash = false.
Proof. destruct c as [[] [] [] [] [] [] [] []]; vm_compute; auto. Qed.
Lemma split_safe_char m w c rest :
  m = Between ∨ m = Word → shell_safe c = true → shell_split m w (String c rest) = shell_split Word (w +:+ one c) rest.
Proof. intros Hm (H1 & H2 & H3 & H4)%shell_safe_plain. cbn [shell_split]. rewrite H1, H2, H3, H4. by destruct Hm as [-> | ->]. Qed.
Lemma split_safe s w rest :
  all_chars shell_safe s = true → shell_split Word w (s +:+ rest) = shell_split Word (w +:+ s) rest.
Proof.
  revert w. induction s as [|c s IH]; intros w; [by rewrite app_nil_s|]. cbn [all_chars].
  intros [Hc Hs]%andb_true_iff. rewrite app_cons, split_safe_char by auto. by rewrite IH, snoc_app.
Qed.

(** A quoted word is read back as that word. *)
Lemma split_quote s rest : shell_split Between "" (shlex_quote s +:+ rest) = shell_split Word s rest.
Proof.
  unfold shlex_quote. destruct (String.eqb_spec s "") as [->|Hne]; [done|].
  destruct (all_chars shell_safe s) eqn:Hs.
  - destruct s as [|c s]; [done|]. simpl in Hs. apply andb_true_iff in Hs as [Hc Hs].
    rewrite app_cons, split_safe_char by auto. rewrite app_nil_l, split_safe by done. done.
  - rewrite app_cons, app_assoc_s. cbn [shell_split].
    change (shell_blank squote) with false. cbn iota.
    change (one squote +:+ rest) with (String squote rest). by rewrite split_single.
Qed.

Lemma shlex_split_quote l : shlex_split (join " " (map shlex_quote l)) = Some l.
Proof.
  unfold shlex_split. induction l as [|x l IH]; [done|]. destruct l as [|y l].
  - simpl. unfold join. simpl. rewrite <- (app_nil_s (shlex_quote x)), split_quote. done.
  - cbn [map]. rewrite join_cons by done. rewrite split_quote. cbn [map] in IH.
    change (" " +:+ ?s) with (String " " s). cbn [shell_split].
    change (shell_blank " ") with true. cbn iota. by rewrite IH.
Qed.
Lemma shlex_join_inj l l' : join " " (map shlex_quote l) = join " " (map shlex_quote l') → l = l'.
Proof. intros E. pose proof (shlex_split_quote l) as H. rewrite E, shlex_split_quote in H. congruence. Qed.

(** ** [bytes.fromhex] *)
Definition hex_value (c : ascii) : option N :=
  let n := N_of_ascii c in
  (if N.leb 48 n && N.leb n 57 then Some (n - 48)
   else if N.leb 97 n && N.leb n 102 then Some (n - 87)
   else if N.leb 65 n && N.leb n 70 then Some (n - 55) else None)%N.
Definition hex_blank (c : ascii) : bool :=
  let n := N_of_ascii c in (N.leb 9 n && N.leb n 13) || N.eqb n 32.
(** ASCII white space is skipped between bytes, never inside one. *)
Fixpoint bytes_fromhex (s : string) : option string :=
  match s with
  | EmptyString => Some ""
  | String c r =>
      if hex_blank c then bytes_fromhex r
      else match r with
           | EmptyString => None
           | String c' r' => match hex_value c, hex_value c', bytes_fromhex r' with
                             | Some h, Some l, Some b => Some (String (ascii_of_N (16 * h + l)%N) b)
                             | _, _, _ => None
                             end
           end
  end.
