(* ===== verification/Autostart.v ===== *)
(** immune_core/autostart.py: the service definitions that start the runtime, a systemd
    unit and a Windows scheduled task.

    The theorems follow the definitions. *)

From stdpp Require Import pretty.
From S2P Require Import Prelude Json Sha256 Schema Files Fortress Text.

Record AutostartPlan := {
  ap_name : string; ap_command : list string; ap_working_directory : string; ap_restart_seconds : Z;
}.

(** [__post_init__] *)
Definition NUL : ascii := ascii_of_nat 0.
Definition autostart_plan (p : AutostartPlan) : result AutostartPlan :=
  if blank (ap_name p) || bool_decide (ap_command p = [])
  then Raise (Exn AutostartError "service name and command are required")
  else if (ap_restart_seconds p <? 1)%Z || (300 <? ap_restart_seconds p)%Z
  then Raise (Exn AutostartError "restart_seconds outside 1..300")
  else if existsb (λ part, negb (without NUL part)) (ap_command p)
  then Raise (Exn AutostartError "invalid service command")
  else Ok p.

(** [" ".join(shlex.quote(part) for part in self.command)] *)
Definition exec_text (command : list string) : string := join " " (map shlex_quote command).

Definition unit_lines (p : AutostartPlan) : list string :=
  ["[Unit]"; "Description=Sistema Imunologico Continuous Runtime"; "After=network-online.target";
   "Wants=network-online.target"; ""; "[Service]"; "Type=simple";
   "WorkingDirectory=" +:+ shlex_quote (as_posix (ap_working_directory p)); "ExecStart=" +:+ exec_text (ap_command p);
   "Restart=always"; "RestartSec=" +:+ pretty (ap_restart_seconds p); "NoNewPrivileges=true"; "PrivateTmp=true"; "";
   "[Install]"; "WantedBy=multi-user.target"].
Definition systemd_unit (p : AutostartPlan) : string := text_of_lines (unit_lines p).

(** An attribute with its value in double quotes. *)
Definition attribute (name value : string) : string := name +:+ "=" +:+ one dquote +:+ value +:+ one dquote.
Definition task_head (restart_seconds : Z) : string :=
  text_of_lines
    ["<?xml " +:+ attribute "version" "1.0" +:+ " " +:+ attribute "encoding" "UTF-16" +:+ "?>";
     "<Task " +:+ attribute "version" "1.4" +:+ " "
       +:+ attribute "xmlns" "http://schemas.microsoft.com/windows/2004/02/mit/task" +:+ ">";
     "  <Triggers><BootTrigger><Enabled>true</Enabled></BootTrigger></Triggers>"; "  <Settings>";
     "    <MultipleInstancesPolicy>IgnoreNew</MultipleInstancesPolicy>";
     "    <DisallowStartIfOnBatteries>false</DisallowStartIfOnBatteries>";
     "    <StopIfGoingOnBatteries>false</StopIfGoingOnBatteries>"; "    <StartWhenAvailable>true</StartWhenAvailable>";
     "    <RestartOnFailure><Interval>PT" +:+ pretty restart_seconds +:+ "S</Interval><Count>999</Count></RestartOnFailure>";
     "  </Settings>"; "  <Actions " +:+ attribute "Context" "Author" +:+ ">"].
Definition windows_task_xml (p : AutostartPlan) : string :=
  task_head (ap_restart_seconds p)
  +:+ "    <Exec><Command>" +:+ html_escape (hd "" (ap_command p))
  +:+ "</Command><Arguments>" +:+ html_escape (join " " (tl (ap_command p)))
  +:+ "</Arguments><WorkingDirectory>" +:+ html_escape (as_posix (ap_working_directory p))
  +:+ "</WorkingDirectory></Exec>" +:+ newline +:+ text_of_lines ["  </Actions>"; "</Task>"].

(** [str(path)] of a resolved path *)
Definition path_text (p : path) : string := "/" +:+ posix p.
Definition build_runtime_plan (cwd : path) (python_executable repository_root : string) (extra_args : list string)
    : result AutostartPlan :=
  let root := resolve_join cwd repository_root in
  autostart_plan {|
    ap_name := "immune-system";
    ap_command := path_text (resolve_join cwd python_executable) :: path_text (root ++ ["scripts"; "immune_runtime.py"])
                  :: extra_args;
    ap_working_directory := path_text root; ap_restart_seconds := 5 |}.

(** * The systemd unit runs the planned command, the scheduled task's markup is not
    touched by its data; and where the two texts do not carry the plan: a line feed in an
    argument adds a directive to the unit, and the task forgets how its arguments were
    divided. *)

(** ** One line per directive *)
Lemma without_concat_map c f s :
  without c s = true → (∀ x, x ≠ c → without c (f x) = true) → without c (concat_map f s) = true.
Proof.
  intros Hs Hf. induction s as [|x s IH]; [done|]. unfold without in *. simpl in *.
  apply andb_true_iff in Hs as [Hx%negb_true_iff Hs]. rewrite all_chars_app, (IH Hs), (Hf x); [done|].
  by apply Ascii.eqb_neq.
Qed.
Lemma quote_one_line s : one_line s = true → one_line (shlex_quote s) = true.
Proof.
  intros Hs. unfold shlex_quote. destruct (s =s ""); [done|]. destruct (all_chars shell_safe s); [done|].
  change (one_line (String squote ?t)) with (one_line t). unfold one_line in *. rewrite without_app, andb_true_iff.
  split; [|done]. apply without_concat_map; [done|]. intros x Hx. destruct (Ascii.eqb x squote); [done|].
  unfold without, one. simpl. by rewrite (proj2 (Ascii.eqb_neq _ _) Hx).
Qed.
Lemma join_one_line sep l :
  one_line sep = true → Forall (λ x, one_line x = true) l → one_line (join sep l) = true.
Proof.
  intros Hsep. induction 1 as [|x l Hx Hl IH]; [done|]. destruct l as [|y l]; [done|].
  rewrite join_cons by done. unfold one_line in *. by rewrite !without_app, Hx, Hsep, IH.
Qed.
Lemma posix_join l : posix l = join "/" l.
Proof. induction l as [|x [|y l] IH]; [done..|]. rewrite join_cons by done. by rewrite <- IH. Qed.
Lemma split_slash_one_line s : one_line s = true → Forall (λ x, one_line x = true) (split_slash s).
Proof.
  unfold one_line, without. induction s as [|c s IH]; simpl; [by repeat constructor|].
  intros [Hc Hs]%andb_true_iff. specialize (IH Hs). destruct (Ascii.eqb c "/"); [by constructor|].
  destruct (split_slash s) as [|x rest] eqn:E; [by apply split_slash_ne in E|]. inversion_clear IH as [|? ? Hx Hr].
  constructor; [|done]. simpl. by rewrite Hc.
Qed.
Lemma anchor_one_line s : one_line (anchor s) = true.
Proof.
  unfold anchor. destruct s as [|a [|b rest]]; [done|by destruct (Ascii.eqb a "/")|].
  destruct (Ascii.eqb a "/"), (Ascii.eqb b "/"); try done. destruct rest as [|c rest]; [done|]. by destruct (Ascii.eqb c "/").
Qed.
Lemma as_posix_one_line s : one_line s = true → one_line (as_posix s) = true.
Proof.
  intros Hs. unfold as_posix. destruct (_ =s ""); [done|]. unfold one_line. rewrite without_app, andb_true_iff.
  split; [apply anchor_one_line|]. rewrite posix_join. apply join_one_line; [done|].
  apply Forall_forall. intros x [Hx _]%list_elem_of_In%filter_In.
  apply (proj1 (Forall_forall _ _) (split_slash_one_line s Hs)). by apply list_elem_of_In.
Qed.

Lemma autostart_plan_Ok p p' :
  autostart_plan p = Ok p' →
  p' = p ∧ blank (ap_name p) = false ∧ ap_command p ≠ [] ∧ (1 <= ap_restart_seconds p <= 300)%Z
  ∧ Forall (λ part, without NUL part = true) (ap_command p).
Proof.
  unfold autostart_plan. destruct (blank (ap_name p)); [done|]. case_bool_decide as Hc; [done|]. simpl.
  destruct ((_ <? 1)%Z || _) eqn:Hr; [done|]. destruct (existsb _ _) eqn:Hn; [done|]. intros [= <-].
  apply orb_false_iff in Hr as [H1%Z.ltb_ge H2%Z.ltb_ge]. split_and!; try done; [lia..|].
  apply Forall_forall. intros x Hx. apply not_false_iff_true. intros Hf. apply not_true_iff_false in Hn. apply Hn.
  apply existsb_exists. exists x. rewrite Hf. split; [by apply list_elem_of_In|done].
Qed.
Lemma restart_text z : (1 <= z <= 300)%Z → one_line (pretty z) = true.
Proof.
  intros Hz. replace z with (Z.of_nat (Z.to_nat z)) by lia.
  assert (forallb (λ n, one_line (pretty (Z.of_nat n))) (seq 0 301) = true) as Hall by (vm_compute; reflexivity).
  apply (proj1 (forallb_forall _ _) Hall), in_seq. lia.
Qed.

Lemma unit_lines_one_line p :
  (1 <= ap_restart_seconds p <= 300)%Z → one_line (ap_working_directory p) = true →
  Forall (λ x, one_line x = true) (ap_command p) → Forall (λ x, one_line x = true) (unit_lines p).
Proof.
  intros Hr Hw Hc. unfold unit_lines. repeat (constructor; [try done|]); try done; unfold one_line;
    rewrite without_app, andb_true_iff; (split; [done|]).
  - by apply quote_one_line, as_posix_one_line.
  - apply join_one_line; [done|]. rewrite Forall_map.
    eapply Forall_impl; [exact Hc|]. intros x. apply quote_one_line.
  - by apply restart_text.
Qed.

(** The value of a directive and the words of the command line, read from a unit's text. *)
Definition directive (key text : string) : option string :=
  removeprefix (key +:+ "=") <$> List.find (String.prefix (key +:+ "=")) (split_on LINE_FEED text).
Definition unit_command (text : string) : option (list string) := directive "ExecStart" text ≫= shlex_split.

Lemma prefix_empty s : String.prefix "" s = true.
Proof. by destruct s. Qed.

(** A unit written for an accepted plan whose command and directory have no line
    feed has exactly its sixteen lines, and reading [ExecStart] back with the quoting
    rules it was written with gives the planned command, word for word. *)
Theorem unit_runs_planned_command p p' :
  autostart_plan p = Ok p' → Forall (λ x, one_line x = true) (ap_command p) → one_line (ap_working_directory p) = true →
  unit_command (systemd_unit p') = Some (ap_command p)
  ∧ split_on LINE_FEED (systemd_unit p') = unit_lines p ++ [""].
Proof.
  intros (-> & _ & _ & Hr & _)%autostart_plan_Ok Hc Hw.
  assert (split_on LINE_FEED (systemd_unit p) = unit_lines p ++ [""]) as Hlines.
  { unfold systemd_unit. rewrite <- (app_nil_s (text_of_lines _)).
    by rewrite (split_text_of_lines _ "" (unit_lines_one_line p Hr Hw Hc)). }
  split; [|done]. unfold unit_command, directive. change (?a +:+ "=") with "ExecStart=". rewrite Hlines.
  assert (List.find (String.prefix "ExecStart=") (unit_lines p ++ [""]) = Some ("ExecStart=" +:+ exec_text (ap_command p)))
    as -> by (simpl; by rewrite prefix_empty).
  change (shlex_split (exec_text (ap_command p)) = Some (ap_command p)). apply shlex_split_quote.
Qed.

(** ** Line feeds *)
Lemma text_of_lines_split A a x b B :
  text_of_lines (A ++ (a +:+ String LINE_FEED (x +:+ String LINE_FEED b)) :: B) = text_of_lines (A ++ a :: x :: b :: B).
Proof.
  induction A as [|l A IH]; cbn [app text_of_lines]; [|by rewrite IH].
  by rewrite !app_assoc_s, !app_cons, !app_assoc_s, !app_cons.
Qed.
Lemma replace_absent c rep s : without c s = true → replace_char c rep s = s.
Proof.
  unfold without, replace_char. induction s as [|x s IH]; simpl; [done|].
  intros [Hx%negb_true_iff Hs]%andb_true_iff. by rewrite Hx, (IH Hs).
Qed.
Lemma quote_lines x :
  without squote x = true →
  shlex_quote (newline +:+ x +:+ newline) = String squote (String LINE_FEED (x +:+ String LINE_FEED (one squote))).
Proof.
  intros Hx. change (newline +:+ x +:+ newline) with (String LINE_FEED (x +:+ one LINE_FEED)).
  change (shlex_quote (String LINE_FEED ?t))
    with (String squote (replace_char squote quoted_squote (String LINE_FEED t) +:+ one squote)).
  rewrite replace_absent; [by rewrite app_cons, app_assoc_s|].
  change (without squote (String LINE_FEED ?t)) with (without squote t). by rewrite without_app, Hx.
Qed.

(** An argument may hold line feeds, which quoting keeps: the text between two of them
    becomes a line of the unit, such as [ExecStartPost=...], in a plan that is accepted. *)
Theorem line_feed_adds_directive name exe line cwd z :
  blank name = false → (1 <= z <= 300)%Z → one_line exe = true → without NUL exe = true → one_line cwd = true →
  one_line line = true → without squote line = true → without NUL line = true →
  let p := {| ap_name := name; ap_command := [exe; newline +:+ line +:+ newline]; ap_working_directory := cwd;
              ap_restart_seconds := z |} in
  autostart_plan p = Ok p ∧ line ∈ split_on LINE_FEED (systemd_unit p).
Proof.
  intros Hname Hz Hexe Hexe0 Hcwd Hline Hq Hline0 p. split.
  - unfold autostart_plan, p. cbn [ap_name ap_command ap_restart_seconds existsb]. rewrite Hname, Hexe0, !without_app, Hline0.
    rewrite bool_decide_eq_false_2 by done. simpl.
    destruct (Z.ltb_spec z 1); [lia|]. destruct (Z.ltb_spec 300 z); [lia|]. done.
  - unfold systemd_unit.
    pose proof (unit_lines_one_line {| ap_name := name; ap_command := [exe]; ap_working_directory := cwd;
      ap_restart_seconds := z |} Hz Hcwd (Forall_cons_2 _ _ _ Hexe (Forall_nil_2 _))) as Hplain.
    set (A := take 8 (unit_lines p)). set (B := drop 9 (unit_lines p)).
    assert (unit_lines p = A ++ (("ExecStart=" +:+ shlex_quote exe +:+ " '") +:+ String LINE_FEED
                                 (line +:+ String LINE_FEED (one squote))) :: B) as ->.
    { unfold A, B, unit_lines, exec_text, p. cbn [take drop app ap_command map]. do 8 f_equal.
      rewrite join_cons by done. cbn [join String.concat]. rewrite quote_lines by done. by rewrite !app_assoc_s. }
    rewrite text_of_lines_split, <- (app_nil_s (text_of_lines _)), split_text_of_lines; [set_solver|].
    apply Forall_app. split; [exact (Forall_take _ 8 _ Hplain)|]. apply Forall_cons_2; [|apply Forall_cons_2; [done|apply Forall_cons_2; [done|]]].
    + unfold one_line. rewrite !without_app. pose proof (quote_one_line _ Hexe) as Hqe. unfold one_line in Hqe. by rewrite Hqe.
    + exact (Forall_drop _ 9 _ Hplain).
Qed.

(** ** The scheduled task *)

(** Whatever the executable, the arguments and the directory hold, the task's tags,
    attributes and quotes are those of the template; the three fields are in it in the
    order of the template, so that a task says which executable, argument line
    and directory it was written for. *)
Theorem task_fields_confined p q :
  ap_restart_seconds p = ap_restart_seconds q →
  markup (windows_task_xml p) = markup (windows_task_xml q)
  ∧ (windows_task_xml p = windows_task_xml q →
     hd "" (ap_command p) = hd "" (ap_command q) ∧ join " " (tl (ap_command p)) = join " " (tl (ap_command q))
     ∧ as_posix (ap_working_directory p) = as_posix (ap_working_directory q)).
Proof.
  intros Hz. split.
  - unfold windows_task_xml. by rewrite !markup_app, !markup_escape, Hz.
  - unfold windows_task_xml. rewrite Hz. intros E. apply (inj (String.append _)) in E.
    apply (inj (String.append "    <Exec><Command>")) in E.
    apply without_cut in E as [E1 E]; [|apply escape_no_tag..].
    apply (inj (String.append "/Command><Arguments>")) in E.
    apply without_cut in E as [E2 E]; [|apply escape_no_tag..].
    apply (inj (String.append "/Arguments><WorkingDirectory>")) in E.
    apply without_cut in E as [E3 E]; [|apply escape_no_tag..].
    split_and!; by apply html_escape_inj.
Qed.

(** The argument line is joined without quoting: plans with different arguments give
    the same task, as soon as an argument has a space. *)
Theorem task_forgets_arguments name exe a b rest cwd z :
  let plan command := {| ap_name := name; ap_command := command; ap_working_directory := cwd; ap_restart_seconds := z |} in
  windows_task_xml (plan (exe :: (a +:+ " " +:+ b) :: rest)) = windows_task_xml (plan (exe :: a :: b :: rest)).
Proof.
  intros plan. unfold windows_task_xml, plan. cbn [ap_command ap_restart_seconds ap_working_directory hd tl].
  assert (join " " ((a +:+ " " +:+ b) :: rest) = join " " (a :: b :: rest)) as ->; [|done].
  destruct rest as [|c rest]; [done|]. rewrite !join_cons by done. by rewrite !app_assoc_s.
Qed.
