(* ===== verification/Panel.v ===== *)
(** immune_presentation/panel.py: the read-only dashboard over HTTP.  The read model's
    projections as JSON are those of immune_core/operations.py.

    Each request opens its own read-only connection to the store's file, which is the
    database of the world; a handler that raises sends no answer.

    The theorems follow the definitions. *)

From stdpp Require Import pretty.
From S2P Require Import Prelude Json Sha256 Schema Operations Text OperationsProps.

(** ** The projections as JSON *)
Definition jopt_num (o : option Q) : json := match o with Some q => JNum q | None => JNull end.
Definition mission_json (r : mission_row) : json :=
  JObj [("id", JStr (m_id r)); ("system_id", JStr (m_system_id r)); ("state", JStr (m_state r));
        ("version", JInt (m_version r)); ("created_at", JNum (m_created_at r)); ("updated_at", JNum (m_updated_at r))].
Definition task_json (r : task_row) : json :=
  JObj [("id", JStr (t_id r)); ("mission_id", JStr (t_mission_id r)); ("kind", JStr (t_kind r));
        ("state", JStr (t_state r)); ("priority", JInt (t_priority r)); ("attempts", JInt (t_attempts r));
        ("max_attempts", JInt (t_max_attempts r)); ("last_error", jopt_str (t_last_error r));
        ("created_at", JNum (t_created_at r)); ("updated_at", JNum (t_updated_at r))].
Definition worker_json (r : string * nat * option Q) : json :=
  let '(owner, running, until) := r in
  JObj [("worker_id", JStr owner); ("running_tasks", JInt (Z.of_nat running)); ("lease_until", jopt_num until)].
Definition notification_json (r : notification_row) : json :=
  JObj [("id", JStr (no_id r)); ("kind", JStr (no_kind r)); ("severity", JStr (no_severity r));
        ("subject", JStr (no_subject r)); ("mission_id", jopt_str (no_mission_id r));
        ("incident_id", jopt_str (no_incident_id r)); ("state", JStr (no_state r));
        ("created_at", JNum (no_created_at r)); ("updated_at", JNum (no_updated_at r))].
Definition exception_json (r : exception_row) : json :=
  JObj [("id", JStr (hx_id r)); ("mission_id", JStr (hx_mission_id r)); ("incident_id", jopt_str (hx_incident_id r));
        ("reason", JStr (hx_reason r)); ("required_action", JStr (hx_required_action r));
        ("consequence", JStr (hx_consequence r)); ("continuation", JStr (hx_continuation r));
        ("state", JStr (hx_state r)); ("requested_at", JNum (hx_requested_at r));
        ("decided_at", jopt_num (hx_decided_at r)); ("decided_by", jopt_str (hx_decided_by r));
        ("decision_note", jopt_str (hx_decision_note r))].
Definition sensor_json (r : health_row) : json :=
  JObj [("sensor_id", JStr (hl_sensor_id r)); ("state", JStr (hl_state r));
        ("consecutive_failures", JInt (hl_consecutive_failures r)); ("last_success", jopt_num (hl_last_success r));
        ("last_failure", jopt_num (hl_last_failure r)); ("last_error", jopt_str (hl_last_error r))].
(** The keys of the four answers of [system_health]. *)
Definition health_json (v : system_health_view) : json :=
  let names l := JList (map JStr l) in
  JObj ([("state", JStr (sh_state v)); ("reason", JStr (sh_reason v)); ("fresh", JBool (sh_fresh v))]
        ++ (if sh_state v =s "FAILED" then [("failed", names (sh_failed v)); ("stale", names (sh_stale v))]
            else if sh_state v =s "DEGRADED" then [("degraded", names (sh_degraded v)); ("stale", names (sh_stale v))]
            else [])
        ++ [("sensors", JList (map sensor_json (sh_sensors v)))]).

Definition TRUTH_RULE : string := "HEALTHY requires current sensor evidence; absence or staleness is never green.".

Section panel.
Context `{JsonText, Entropy}.

Definition metric_json (r : metric_row) : result json :=
  match loads_or_raise (mt_labels_json r) with
  | Ok labels => Ok (JObj [("name", JStr (mt_name r)); ("subject", JStr (mt_subject r)); ("ts", JNum (mt_ts r));
                           ("value", JNum (mt_value r)); ("labels", labels)])
  | Raise e => Raise e
  end.
Definition dashboard_json (d : dashboard_view) : IO json :=
  metrics ← for_each (db_metrics d) (λ r, lift_result (metric_json r));
  mret (JObj [("health", health_json (db_health d)); ("missions", JList (map mission_json (db_missions d)));
    ("active_incidents", JList (map incident_json (db_active_incidents d)));
    ("active_tasks", JList (map task_json (db_active_tasks d))); ("workers", JList (map worker_json (db_workers d)));
    ("metrics", JList metrics); ("notifications", JList (map notification_json (db_notifications d)));
    ("pending_human_exceptions", JList (map exception_json (db_pending d)));
    ("generated_at", JNum (db_generated_at d)); ("truth_rule", JStr TRUTH_RULE)]).

(** ** Rendering *)
Definition panel_row (m : mission_row) : string :=
  "<tr><td>" +:+ html_escape (m_id m) +:+ "</td><td>" +:+ html_escape (m_state m)
  +:+ "</td><td>" +:+ html_escape (m_system_id m) +:+ "</td></tr>".
Definition page_head : string :=
  "<!doctype html><html><head><meta charset='utf-8'><title>Immune System</title></head><body>"
  +:+ "<h1>Sistema Imunológico</h1><p id='health'>Health: ".
Definition page_foot : string :=
  "<p>Operational panel is read-only. Commands must use the authenticated Core command endpoint/CLI.</p></body></html>".
Definition render (d : dashboard_view) : string :=
  page_head +:+ html_escape (sh_state (db_health d))
  +:+ "</p><p>" +:+ html_escape TRUTH_RULE
  +:+ "</p><table><thead><tr><th>Mission</th><th>State</th><th>System</th></tr></thead><tbody>"
  +:+ join "" (map panel_row (db_missions d)) +:+ "</tbody></table>" +:+ page_foot.

(** ** The panel *)
Record OperationalPanel := { op_store_path : string; op_freshness : Q }.

(** [_ReadOnlyStore(path)] *)
Definition read_only_store (store_path : string) : IO unit :=
  raise_if (store_path =s ":memory:") PanelError "HTTP panel requires file-backed SQLite state".
Definition panel_snapshot (p : OperationalPanel) (now : option Q) : IO dashboard_view := dashboard (op_freshness p) now.
Definition snapshot_threadsafe (p : OperationalPanel) (now : option Q) : IO dashboard_view :=
  _ ← read_only_store (op_store_path p);
  dashboard (op_freshness p) now.
Definition render_html (p : OperationalPanel) (now : option Q) : IO string := render <$> panel_snapshot p now.
Definition render_html_threadsafe (p : OperationalPanel) (now : option Q) : IO string := render <$> snapshot_threadsafe p now.

(** ** The HTTP handler *)
Record http_answer := { an_status : Z; an_type : string; an_length : Z; an_body : string }.
Definition answer (status : Z) (content_type body : string) : http_answer :=
  {| an_status := status; an_type := content_type; an_length := Z.of_nat (String.length body); an_body := body |}.
(** [{"error": message}], written out *)
Definition error_body (message : string) : string :=
  "{" +:+ one dquote +:+ "error" +:+ one dquote +:+ ":" +:+ one dquote +:+ message +:+ one dquote +:+ "}".
Definition do_GET (p : OperationalPanel) (target : string) : IO http_answer :=
  if target =s "/api/status" then
    d ← snapshot_threadsafe p None;
    v ← dashboard_json d;
    mret (answer 200 "application/json; charset=utf-8" (dumps SortedUnicode v))
  else if str_in target ["/"; "/index.html"] then
    body ← render_html_threadsafe p None;
    mret (answer 200 "text/html; charset=utf-8" body)
  else mret (answer 404 "application/json" (error_body "not found")).
Definition do_POST (p : OperationalPanel) (target : string) : IO http_answer :=
  mret (answer 405 "application/json" (error_body "read-only panel; use authenticated Core command channel")).
End panel.

(** * The panel shows what the store's evidence says and can change nothing: every request
    leaves the database and the files as they were, the page's health is the one computed
    from the stored sensors, and stored text cannot alter the page's markup. *)

(** A run that leaves the database and the files alone. *)
Definition untouched : relation World := λ w w', w_db w' = w_db w ∧ w_files w' = w_files w.
#[export] Instance untouched_preorder : PreOrder untouched.
Proof. split; [done|]. intros a b c [? ?] [? ?]. split; congruence. Qed.

Section panel_props.
Context `{JsonText, Entropy}.

Lemma untouched_query {A} (f : DB → A) : respects untouched (query f).
Proof. by intros w. Qed.
Lemma untouched_time : respects untouched time_time.
Proof. by intros w. Qed.
Lemma untouched_now now : respects untouched (now_or_time now).
Proof. destruct now; [by intros w|apply untouched_time]. Qed.
#[local] Hint Resolve untouched_query untouched_now : respects.

Lemma dashboard_untouched freshness now : respects untouched (dashboard freshness now).
Proof. unfold dashboard, system_health. solve_respects. Qed.
#[local] Hint Resolve dashboard_untouched : respects.
Lemma dashboard_json_untouched d : respects untouched (dashboard_json d).
Proof. unfold dashboard_json. solve_respects. Qed.
#[local] Hint Resolve dashboard_json_untouched : respects.
Lemma request_untouched p target : respects untouched (do_GET p target) ∧ respects untouched (do_POST p target).
Proof.
  split; unfold do_GET, do_POST, render_html_threadsafe, snapshot_threadsafe, read_only_store; solve_respects.
  apply respects_fmap. solve_respects.
Qed.

(** ** What a page shows *)

(** The text before the first [<], references read back. *)
Fixpoint before (c : ascii) (s : string) : string :=
  match s with EmptyString => "" | String x s' => if Ascii.eqb x c then "" else String x (before c s') end.
Lemma before_cut c s t : without c s = true → before c (s +:+ String c t) = s.
Proof.
  unfold without. induction s as [|x s IH]; cbn [all_chars]; [intros _; rewrite app_nil_l; cbn; by rewrite Ascii.eqb_refl|].
  intros [Hx%negb_true_iff Hs]%andb_true_iff. rewrite app_cons. cbn. by rewrite Hx, IH.
Qed.
Fixpoint drop_chars (n : nat) (s : string) : string :=
  match n, s with S n', String _ s' => drop_chars n' s' | _, _ => s end.
Lemma drop_chars_app s t : drop_chars (String.length s) (s +:+ t) = t.
Proof. induction s as [|c s IH]; [done|]. by rewrite app_cons. Qed.
(** The health a reader of the page sees. *)
Definition page_health (page : string) : string :=
  html_unescape (before "<" (drop_chars (String.length page_head) page)).

Lemma render_health d : page_health (render d) = sh_state (db_health d).
Proof.
  unfold page_health, render. rewrite drop_chars_app.
  change ("</p><p>" +:+ ?t) with (String "<" ("/p><p>" +:+ t)).
  by rewrite before_cut, html_unescape_escape by apply escape_no_tag.
Qed.

(** Stored text cannot forge markup: the tags, quotes and attributes of a page depend
    on nothing but the number of missions. *)
Lemma markup_join_rows (l k : list mission_row) :
  length l = length k → markup (join "" (map panel_row l)) = markup (join "" (map panel_row k)).
Proof.
  assert (∀ m, markup (panel_row m) = markup "<tr><td></td><td></td><td></td></tr>") as Hrow.
  { intros m. unfold panel_row. by rewrite !markup_app, !markup_escape. }
  revert k. induction l as [|x l IH]; intros [|y k]; try done. cbn [map]. intros [= E].
  assert (∀ a (r : list string), join "" (a :: r) = a +:+ join "" r) as Hj.
  { intros a [|b r]; [by rewrite app_nil_s|done]. }
  by rewrite !Hj, !markup_app, !Hrow, (IH k E).
Qed.
Lemma render_markup_fixed d e : length (db_missions d) = length (db_missions e) → markup (render d) = markup (render e).
Proof. intros E. unfold render. by rewrite !markup_app, !markup_escape, (markup_join_rows _ _ E). Qed.

Lemma dashboard_health freshness now w d w' :
  dashboard freshness now w = (Ok d, w') →
  db_health d = health_of freshness (default (time_at (w_tick w)) now) (obs_sensor_health (w_db w))
  ∧ db_missions d = missions_view (w_db w).
Proof.
  unfold dashboard, system_health. intros (h & w1 & (t & w2 & Ht & [-> ->]%query_Ok_inv)%bind_Ok_inv & Hrun)%bind_Ok_inv.
  assert (w_db w2 = w_db w) as Hdb by exact (proj1 (respects_run _ _ _ _ _ (untouched_now now) Ht)).
  apply bind_Ok_inv in Hrun as (d0 & w3 & [-> ->]%query_Ok_inv & Hrun).
  apply bind_Ok_inv in Hrun as (u & w4 & _ & Hrun). apply bind_Ok_inv in Hrun as (t' & w5 & _ & [= <- _]).
  rewrite Hdb. split; [|done]. by destruct now; injection Ht as <- _.
Qed.

(** C37. A page served at [/] is truthful and inert: the health it shows is computed
    from the stored sensor evidence at the time of the request, which is the clock
    read when the request came in, so it is HEALTHY only when there is a sensor,
    none failed or degraded, and each succeeded within the freshness window
    before that time; its markup is that of a page with as many blank
    missions, whatever text the store holds; and serving it, or refusing a write,
    changes neither the database nor the files. *)
Theorem panel_page_truthful p target w a w' :
  target ∈ ["/"; "/index.html"] → do_GET p target w = (Ok a, w') →
  an_status a = 200%Z ∧ an_length a = Z.of_nat (String.length (an_body a))
  ∧ page_health (an_body a) = sh_state (health_of (op_freshness p) (time_at (w_tick w)) (obs_sensor_health (w_db w)))
  ∧ (page_health (an_body a) = "HEALTHY" →
     obs_sensor_health (w_db w) ≠ [] ∧ ∀ r, r ∈ obs_sensor_health (w_db w) →
       hl_state r ≠ "FAILED" ∧ hl_state r ≠ "DEGRADED"
       ∧ ∃ s, hl_last_success r = Some s ∧ (time_at (w_tick w) - s <= op_freshness p)%Q)
  ∧ (∀ d, length (db_missions d) = length (missions (w_db w)) → markup (an_body a) = markup (render d))
  ∧ untouched w w' ∧ op_store_path p ≠ ":memory:".
Proof.
  intros Ht Hrun. pose proof (respects_run _ _ _ _ _ (proj1 (request_untouched p target)) Hrun) as Hu.
  unfold do_GET in Hrun.
  assert (target =s "/api/status" = false) as E1 by (apply String.eqb_neq; set_solver).
  rewrite E1, (proj2 (str_in_iff _ _) Ht) in Hrun. apply bind_Ok_inv in Hrun as (body & w1 & Hr & [= <- _]).
  unfold render_html_threadsafe, fmap, M_fmap in Hr.
  destruct (snapshot_threadsafe p None w) as [[d|] w2] eqn:Hs; [|done]. injection Hr as <- <-.
  unfold snapshot_threadsafe in Hs. apply bind_Ok_inv in Hs as (? & w3 & [Hm ->]%raise_if_Ok_inv & Hd).
  apply dashboard_health in Hd as (Hh & Hmis). cbn [an_status an_length an_body answer default] in *.
  split; [reflexivity|]. split; [reflexivity|]. split_and!; [| | |exact Hu|].
  - by rewrite render_health, Hh.
  - rewrite render_health, Hh. by intros Hgreen%healthy_iff_evidence.
  - intros e He. apply render_markup_fixed. rewrite Hmis, He. unfold missions_view. by rewrite order_by_perm.
  - by apply String.eqb_neq.
Qed.
End panel_props.
