(* ===== verification/ControlPlane.v ===== *)
(** immune_control_plane/cli.py: the operator's command line, and the constructors it
    calls ([IdentityAuthority], [PolicyGuard.from_repository]).

    [args] is the parsed command line (argparse enforces the required options; the
    choices of [action] are checked here); [cwd] is the working directory and [secret_hex]
    the value of IMMUNE_IDENTITY_SECRET_HEX, empty when unset.  The store named by [--db]
    is the database of the world.

    The theorems follow the definitions. *)

From S2P Require Import Prelude Json Base64 Sha256 Schema Files Tokens Policy Operations Text Panel Storage.
From S2P Require Import StorageProps Ledger LedgerProps Engine EngineProps TokenProps PolicyProps.
From S2P Require Import Observability OperationsProps.

Inductive cli_args :=
| CliStatus
| CliMissions
| CliIncidents (mission : option string)
| CliTasks (mission : option string)
| CliNotifications
| CliHuman
| CliCommand (action mission token : string) (target checkpoint_id human_exception_id : option string)
| CliRunbook (runbook_id mission token : string) (parameter : list string).

Definition ACTION_CHOICES : list string := ["diagnose"; "rollback"; "cancel"; "approve"; "restore"].
(** [parse_args]: an action outside the choices ends the program *)
Definition parse_args (a : cli_args) : result cli_args :=
  match a with
  | CliCommand action _ _ _ _ _ =>
      if str_in action ACTION_CHOICES then Ok a else Raise (Exn SystemExit "2")
  | _ => Ok a
  end.

(** [item.split("=", 1)] *)
Fixpoint split_pair (s : string) : option (string * string) :=
  match s with
  | EmptyString => None
  | String c r => if Ascii.eqb c "=" then Some ("", r)
                  else match split_pair r with Some (k, v) => Some (String c k, v) | None => None end
  end.
Fixpoint pairs_from (acc : dict) (values : list string) : result dict :=
  match values with
  | [] => Ok acc
  | item :: rest => match split_pair item with
                    | None => Raise (Exn SystemExit ("invalid --parameter: " +:+ item))
                    | Some (k, v) => pairs_from (dset acc k (JStr v)) rest
                    end
  end.
Definition pairs (values : list string) : result dict := pairs_from [] values.

(** [IdentityAuthority(secret)] *)
Definition identity_authority (secret : string) : result IdentityAuthority :=
  match demand_key "identity secret" secret with
  | Raise e => Raise e
  | Ok _ => Ok {| ia_secret := secret; ia_issuer := "immune-core" |}
  end.

(** [v[k]] on a value of JSON *)
Definition subscript (v : json) (k : string) : result json :=
  match v with
  | JObj d => match dget d k with Some x => Ok x | None => Raise (Exn KeyError k) end
  | _ => Raise (Exn TypeError "indices must be integers or slices, not str")
  end.
Definition command_ref_json (r : OperatorCommandRef) : json :=
  JObj [("id", JStr (cm_id r)); ("mission_id", JStr (cm_mission_id r)); ("action", JStr (cm_action r));
        ("state", JStr (cm_state r)); ("task_id", jopt_str (cm_task_id r))].

Section control_plane.
Context `{JsonText, Entropy}.

(** [json.loads(path.read_text())] *)
Definition read_json (p : path) : IO json :=
  file ← gets (λ w, w_files w !! p);
  match file with
  | None => throw FileNotFoundError (posix p)
  | Some text => lift_result (loads_or_raise text)
  end.

(** [PolicyGuard.from_repository]; an expected digest that is not a string equals no
    digest, like the empty one *)
Definition from_repository (root : path) (identity : IdentityAuthority) : IO PolicyGuard :=
  evidence ← read_json (root ++ ["evidence"; "phase1-validation.json"]);
  files ← lift_result (subscript evidence "controlled_file_sha256");
  expected ← lift_result (subscript files "constitution/IMUNE-DNA-001.md");
  mret {| pg_identity := identity; pg_constitution_path := root ++ ["constitution"; "IMUNE-DNA-001.md"];
          pg_expected_constitution_sha256 := match expected with JStr s => s | _ => "" end |}.

Definition FRESHNESS_SECONDS : Q := 120.

(** [os.environ] and [bytes.fromhex], and the authority built of them *)
Definition write_authority (cwd : path) (secret_hex : string) : IO (IdentityAuthority * PolicyGuard) :=
  _ ← raise_if (Nat.ltb (char_count secret_hex) 64) SystemExit "IMMUNE_IDENTITY_SECRET_HEX is required for write commands";
  secret ← lift_result match bytes_fromhex secret_hex with
                       | Some b => Ok b
                       | None => Raise (Exn ValueError "non-hexadecimal number found in fromhex() arg")
                       end;
  identity ← lift_result (identity_authority secret);
  guard ← from_repository cwd identity;
  mret (identity, guard).

Definition cli_value (cwd : path) (secret_hex : string) (a : cli_args) : IO json :=
  match a with
  | CliStatus => d ← dashboard FRESHNESS_SECONDS None; dashboard_json d
  | CliMissions => query (λ d, JList (map mission_json (missions_view d)))
  | CliIncidents mission => query (λ d, JList (map incident_json (incidents_view mission d)))
  | CliTasks mission => query (λ d, JList (map task_json (tasks_view mission d)))
  | CliNotifications => query (λ d, JList (map notification_json (notifications_view false d)))
  | CliHuman => query (λ d, JList (map exception_json (exceptions_view false d)))
  | CliCommand action mission token target checkpoint_id human_exception_id =>
      authority ← write_authority cwd secret_hex;
      let params := match checkpoint_id with
                    | Some c => if c =s "" then [] else [("checkpoint_id", JStr c)]
                    | None => []
                    end in
      command_ref_json <$> submit_command (fst authority) (snd authority) mission action token target params
                             human_exception_id None
  | CliRunbook runbook_id mission token parameter =>
      authority ← write_authority cwd secret_hex;
      parameters ← lift_result (pairs parameter);
      command_ref_json <$> run_runbook (fst authority) (snd authority) DEFAULT_RUNBOOKS runbook_id mission token
                             parameters None
  end.

(** The exit code and the printed text. *)
Definition cli_main (cwd : path) (secret_hex : string) (args : cli_args) : IO (Z * string) :=
  a ← lift_result (parse_args args);
  value ← cli_value cwd secret_hex a;
  mret (0%Z, dumps IndentedUnicode value).
End control_plane.

(** * The command line reads without writing, and writes only through the command gateway
    under an operator's authority. *)

Section control_plane_props.
Context `{JsonText, Entropy}.

(** Whether a command line asks for a write. *)
Definition writes (a : cli_args) : bool :=
  match a with CliCommand _ _ _ _ _ _ | CliRunbook _ _ _ _ => true | _ => false end.
#[local] Hint Resolve untouched_query dashboard_untouched dashboard_json_untouched : respects.

Lemma read_json_untouched p : respects untouched (read_json p).
Proof. unfold read_json. solve_respects. Qed.
#[local] Hint Resolve read_json_untouched : respects.
Lemma write_authority_untouched cwd hex : respects untouched (write_authority cwd hex).
Proof. unfold write_authority, from_repository. solve_respects. Qed.

Lemma reads_untouched cwd hex a : writes a = false → respects untouched (cli_value cwd hex a).
Proof. destruct a; try done; intros _; unfold cli_value; solve_respects. Qed.

(** What the write authority of a run is made of. *)
Lemma write_authority_Ok cwd hex w identity guard w' :
  write_authority cwd hex w = (Ok (identity, guard), w') →
  w' = w ∧ 64 ≤ char_count hex ∧ bytes_fromhex hex = Some (ia_secret identity) ∧ 32 ≤ String.length (ia_secret identity)
  ∧ ia_issuer identity = "immune-core" ∧ pg_identity guard = identity
  ∧ pg_constitution_path guard = cwd ++ ["constitution"; "IMUNE-DNA-001.md"].
Proof.
  unfold write_authority, from_repository, read_json, identity_authority, demand_key.
  intros (? & ? & [Hl ->]%raise_if_Ok_inv & Hrun)%bind_Ok_inv. apply Nat.ltb_ge in Hl.
  apply bind_Ok_inv in Hrun as (secret & ? & [Hs ->]%lift_Ok_inv & Hrun).
  apply bind_Ok_inv in Hrun as (ident & ? & [Hi ->]%lift_Ok_inv & Hrun).
  destruct (bytes_fromhex hex) as [b|]; [|done]. injection Hs as ->.
  destruct (Nat.ltb_spec (String.length secret) 32); [done|]. injection Hi as <-.
  apply bind_Ok_inv in Hrun as (g & w1 & Hg & [= <- <- <-]).
  apply bind_Ok_inv in Hg as (ev & w2 & Hev & Hg).
  assert (w2 = w) as ->.
  { apply bind_Ok_inv in Hev as (f & ? & [= <- <-] & Hev). destruct (w_files w !! _); [|done]. by apply lift_Ok_inv in Hev as [_ ->]. }
  apply bind_Ok_inv in Hg as (fs & ? & [_ ->]%lift_Ok_inv & Hg).
  apply bind_Ok_inv in Hg as (ex & ? & [_ ->]%lift_Ok_inv & [= <- <-]). done.
Qed.

(** ** Every run *)
Lemma submit_command_files identity guard mid action token target params xid now :
  respects same_files (submit_command identity guard mid action token target params xid now).
Proof.
  pose proof files_ia_verify. pose proof files_evaluate_token. unfold submit_command, exception_approved, get_mission.
  io_respects.
Qed.

(** A run that adds queued commands and tasks at most. *)
Definition commands_only (w w' : World) : Prop := w_files w' = w_files w ∧ command_frame (w_db w) (w_db w').
#[export] Instance commands_only_preorder : PreOrder commands_only.
Proof. split; [intros w; split; [done|reflexivity]|]. intros x y z [? ?] [? ?]. split; [congruence|by etrans]. Qed.
Lemma untouched_commands w w' : untouched w w' → commands_only w w'.
Proof. intros [E F]. split; [done|]. rewrite E. reflexivity. Qed.
Lemma submit_commands_only identity guard mid action token target params xid now :
  respects commands_only (submit_command identity guard mid action token target params xid now).
Proof. intros w. split; [apply submit_command_files|apply command_respects_frame]. Qed.
Lemma runbook_commands_only identity guard books id mid token params now :
  respects commands_only (run_runbook identity guard books id mid token params now).
Proof. pose proof submit_commands_only. unfold run_runbook. solve_respects. Qed.

Lemma fmap_Ok_inv {A B} (f : A → B) (m : IO A) w b w' :
  (f <$> m) w = (Ok b, w') → ∃ a, m w = (Ok a, w') ∧ b = f a.
Proof. unfold fmap, M_fmap. destruct (m w) as [[a|e] w1]; naive_solver. Qed.
Lemma runbook_Ok identity guard books id mid token params now w ref w' :
  run_runbook identity guard books id mid token params now w = (Ok ref, w') →
  ∃ action params', submit_command identity guard mid action token (Some id) params' None now w = (Ok ref, w').
Proof.
  unfold run_runbook. destruct (List.find _ _) as [rb|]; [|done]. intros (? & ? & [_ ->]%raise_if_Ok_inv & Hr)%bind_Ok_inv.
  eauto.
Qed.

(** The mission and the operator's token a write names. *)
Definition operator_of (a : cli_args) : option (string * string) :=
  match a with
  | CliCommand _ mid token _ _ _ | CliRunbook _ mid token _ => Some (mid, token)
  | _ => None
  end.

(** Writing needs the secret: without it, or with a malformed one, the run raises before it touches anything. *)
Lemma write_value cwd hex a w out w' :
  writes a = true → cli_value cwd hex a w = (out, w') →
  (∃ e, out = Raise e ∧ untouched w w')
  ∨ ∃ identity guard mid token w1, write_authority cwd hex w = (Ok (identity, guard), w1)
      ∧ operator_of a = Some (mid, token) ∧ commands_only w w'
      ∧ (∀ v, out = Ok v → ∃ action target params xid ref,
           submit_command identity guard mid action token target params xid None w = (Ok ref, w')).
Proof.
  destruct a as [| | | | | |action mid token target cid xid|rid mid token values]; try done; intros _; cbn [cli_value];
    unfold mbind, M_bind; pose proof (write_authority_untouched cwd hex w) as Hu;
    destruct (write_authority cwd hex w) as [[[identity guard]|e] w1] eqn:Ha; simpl in Hu;
    (try by intros [= <- <-]; left; eauto);
    pose proof Ha as Ha'; apply write_authority_Ok in Ha' as (-> & _); cbn beta iota zeta.
  - intros Hrun. right. exists identity, guard, mid, token, w. split_and!; [done|done| |].
    + refine (respects_run _ _ _ _ _ _ Hrun). apply respects_fmap, submit_commands_only.
    + intros v ->. apply fmap_Ok_inv in Hrun as (ref & Hr & _). eauto 10.
  - unfold lift_result. destruct (pairs values) as [params|e]; [|intros [= <- <-]; left; eauto].
    intros Hrun. right. exists identity, guard, mid, token, w. split_and!; [done|done| |].
    + refine (respects_run _ _ _ _ _ _ Hrun). apply respects_fmap, runbook_commands_only.
    + intros v ->. apply fmap_Ok_inv in Hrun as (ref & Hr & _). apply runbook_Ok in Hr as (act & params' & Hr).
      by exists act, (Some rid), params', None, ref.
Qed.

(** The command line is a gate, whatever its arguments and its outcome: it never
    touches a file, and the database changes only by adding queued operator commands
    with their tasks (and audit entries), only for a write command, and only when the
    environment holds the identity secret, at least 64 characters that decode to at least
    32 bytes.  A write that is reported as done was authorised for the mission and
    token of the command line under that secret: scope, mission state,
    constitution, human approval and risk, as the command gateway requires. *)
Theorem cli_writes_gated cwd hex a w out w' :
  cli_main cwd hex a w = (out, w') →
  w_files w' = w_files w ∧ command_frame (w_db w) (w_db w')
  ∧ (w_db w' ≠ w_db w → writes a = true ∧ 64 ≤ char_count hex
       ∧ ∃ secret, bytes_fromhex hex = Some secret ∧ 32 ≤ String.length secret)
  ∧ (is_Ok out = true → writes a = true →
       ∃ identity guard mid token action params xid scope,
         bytes_fromhex hex = Some (ia_secret identity) ∧ pg_identity guard = identity
         ∧ operator_of a = Some (mid, token)
         ∧ command_authorised identity guard mid action token params xid None w scope).
Proof.
  unfold cli_main, lift_result, mbind, M_bind. destruct (parse_args a) as [a'|e] eqn:Hp.
  2:{ intros [= <- <-]. split_and!; done. }
  assert (a' = a) as -> by (destruct a; cbn [parse_args] in Hp; try destruct (str_in _ _); congruence).
  destruct (cli_value cwd hex a w) as [r w1] eqn:Hv. intros Hrun.
  assert (w' = w1 ∧ is_Ok out = is_Ok r) as [-> Hok] by (destruct r; by injection Hrun as <- <-).
  destruct (writes a) eqn:Hw.
  - apply write_value in Hv as [(e & -> & Hu)|(identity & guard & mid & token & w2 & Ha & Hop & Hc & Hr)]; [| |done].
    + rewrite Hok. destruct Hu as [-> ->]. split_and!; done.
    + apply write_authority_Ok in Ha as (_ & Hl & Hhex & Hlen & _ & Hg & _). destruct Hc as [Hf Hc].
      split_and!; [done|done|by eauto|]. rewrite Hok. destruct r as [v|]; [|done]. intros _ _.
      destruct (Hr v eq_refl) as (action & target & params & xid & ref & Hsub).
      apply operator_command_gated in Hsub as [[scope Hauth] _]. by exists identity, guard, mid, token, (lower (strip action)), params, xid, scope.
  - pose proof (respects_run _ _ _ _ _ (reads_untouched cwd hex a Hw) Hv) as [-> ->]. split_and!; done.
Qed.

End control_plane_props.
