(* ===== verification/Runtime.v ===== *)
(** scripts/immune_runtime.py: the sovereign runtime.  It attests the source tree, opens
    the state, takes the supervisor lock and runs the continuous supervisor.

    [root] is the repository the script belongs to, [cwd] the working directory
    and [root_key_hex] the value of IMMUNE_FORTRESS_ROOT_KEY_HEX, empty when unset.  The
    loop runs until the operator interrupts it: a run has [turns] cycles before the
    interrupt, which is taken between two cycles.

    The theorems follow the definitions. *)

From S2P Require Import Prelude Json Sha256 Schema Files Storage Ledger Engine Tokens Observability.
From S2P Require Import Checkpoints Policy Operations StateBackup Continuous Lock Fortress Text Panel.
From S2P Require Import ControlPlane LedgerProps ContinuousProps LockProps FortressProps.

Definition CONTAINED_EXIT : Z := 23.

(** The parsed command line; [--db] names the database of the world. *)
Record runtime_args := {
  ra_db : string; ra_backups : string; ra_lock : string; ra_interval : Q; ra_backup_interval : Q; ra_restore_drill_interval : Q;
  ra_retention : Z; ra_fortress_manifest : option string; ra_fortress_signature : option string;
  ra_fortress_min_generation : Z; ra_closed_lab_root : bool; ra_attest_only : bool;
}.
(** [build_parser]: the defaults *)
Definition runtime_defaults (root : path) : runtime_args :=
  {| ra_db := "/" +:+ posix (root ++ ["runtime"; "state.sqlite3"]); ra_backups := "/" +:+ posix (root ++ ["runtime"; "backups"]); ra_lock := "/" +:+ posix (root ++ ["runtime"; "supervisor.lock"]);
     ra_interval := 2; ra_backup_interval := 300; ra_restore_drill_interval := 900; ra_retention := 5;
     ra_fortress_manifest := None; ra_fortress_signature := None; ra_fortress_min_generation := 1;
     ra_closed_lab_root := false; ra_attest_only := false |}.

(** [bool(option)]: given and not empty *)
Definition given (o : option string) : option string :=
  match o with Some s => if s =s "" then None else Some s | None => None end.

Section runtime.
Context `{JsonText, Entropy, SqliteImage}.
Context (root cwd tmp_root : path) (pid : Z) (root_key_hex : string).

Definition read_text (p : path) : IO string :=
  file ← gets (λ w, w_files w !! p);
  match file with None => throw FileNotFoundError (posix p) | Some text => mret text end.

Definition load_manifest (p : path) : IO RootManifest :=
  raw ← read_json p;
  match raw with
  | JObj d =>
      match dget d "files" with
      | Some (JObj (e :: files)) =>
          generation ← lift_result (subscript raw "generation");
          generation ← lift_result (py_int generation);
          commit ← lift_result (subscript raw "source_commit");
          signer ← lift_result (subscript raw "signer");
          mret {| rm_generation := generation; rm_source_commit := py_str commit;
                  rm_files := map (λ kv, (fst kv, py_str (snd kv))) (e :: files); rm_signer := py_str signer |}
      | _ => throw ValueError "fortress manifest files are required"
      end
  | _ => throw ValueError "fortress manifest must be an object"
  end.

(** The [try] block of [attest_fortress]. *)
Definition closed_lab_attestation (manifest_path signature_path secret : string) (min_generation : Z) : IO (bool * string) :=
  manifest ← load_manifest (resolve_join cwd manifest_path);
  signature ← read_text (resolve_join cwd signature_path);
  kp ← lift_result (root_key_init secret);
  files ← gets w_files;
  a ← lift_result (attest root kp files manifest (strip signature) min_generation false);
  mret (ba_operational a, ba_reason a).

Definition attest_fortress (args : runtime_args) : IO (bool * string) :=
  match given (ra_fortress_manifest args), given (ra_fortress_signature args) with
  | Some m, Some s =>
      if negb (ra_closed_lab_root args) then mret (false, "physical runtime requires hardware-backed RootKeyProvider")
      else match bytes_fromhex root_key_hex with
           | None => mret (false, "closed-lab root key encoding invalid")
           | Some secret =>
               if Nat.ltb (String.length secret) 32 then mret (false, "closed-lab root key missing or weak")
               else catch (closed_lab_attestation m s secret (ra_fortress_min_generation args))
                      (λ e, mret (false, "root attestation load failure: " +:+ class_name (exn_cls e)))
           end
  | _, _ => mret (false, "root attestation files are required")
  end.

(** The probes the runtime gives its supervisor. *)
Definition db_integrity : IO bool := query (λ d, integrity_ok (db_image d)).
Definition audit_integrity : IO bool :=
  '(valid, bad_seq) ← verify_chain;
  mret (valid && match bad_seq with None => true | Some _ => false end).
Definition runtime_supervisor (args : runtime_args) : ContinuousSupervisor :=
  {| su_backup_root := resolve_join cwd (ra_backups args); su_tmp_root := tmp_root; su_audited := true;
     su_probes := [("sqlite", db_integrity); ("audit-chain", audit_integrity)];
     su_backup_interval := ra_backup_interval args; su_restore_drill_interval := ra_restore_drill_interval args;
     su_backup_retention := ra_retention args |}.

(** [while True: supervisor.tick(); time.sleep(...)], interrupted after [turns] cycles *)
Fixpoint tick_loop (su : ContinuousSupervisor) (turns : nat) : IO unit :=
  match turns with
  | O => mret tt
  | S n => _ ← supervisor_tick su None; tick_loop su n
  end.

(** [try: m finally: f] *)
Definition finally {A} (m : IO A) (f : IO unit) : IO A :=
  r ← attempt m;
  _ ← f;
  lift_result r.

(** [SQLiteStateStore(db)]: a database that is not there is created, its file holding the
    tables of the world, which are then those of a new database ([CREATE TABLE IF NOT
    EXISTS]); one that is there keeps its tables, which are those of the world.  Later
    writes go to its log: the file is not looked at again. *)
Definition open_store (db : path) : IO unit :=
  files ← gets w_files;
  if is_file db files then mret tt
  else
    _ ← raise_if (path_exists db files) OperationalError "unable to open database file";
    image ← gets (λ w, db_image (w_db w));
    modify (with_files (<[db := image]>)).

(** From [db.parent.mkdir] on.  A lock that was not acquired is not owned, so releasing it does nothing. *)
Definition supervise (args : runtime_args) (turns : nat) : IO Z :=
  let su := runtime_supervisor args in
  _ ← open_store (resolve_join cwd (ra_db args));
  _ ← supervisor_init su;
  lock ← lock_init (resolve_join cwd (ra_lock args)) 120;
  taken ← attempt (lock_acquire pid lock None);
  match taken with
  | Raise e => reraise e
  | Ok lock =>
      finally (_ ← boot None;
               _ ← tick_loop su turns;
               _ ← stop None;
               mret 0%Z)
        (_ ← lock_release lock; mret tt)
  end.

(** The exit code and the lines printed. *)
Definition runtime_main (args : runtime_args) (turns : nat) : IO (Z * list string) :=
  _ ← raise_if (qle (ra_interval args) 0) SystemExit "--interval must be positive";
  '(operational, reason) ← attest_fortress args;
  if negb operational then mret (CONTAINED_EXIT, ["BRAIN_FORTRESS_MODE=CONTAINED_READ_ONLY reason=" +:+ reason])
  else if ra_attest_only args then mret (0%Z, ["BRAIN_FORTRESS_BOOT_ATTESTED=true"])
  else code ← supervise args turns; mret (code, ["BRAIN_FORTRESS_BOOT_ATTESTED=true"]).
End runtime.

(** * The runtime opens nothing before the root of trust has attested the source tree; a
    broken audit chain degrades its next cycle; and its lock lapses while it runs. *)

Section runtime_props.
Context `{JsonText, Entropy, SqliteImage}.
Context (root cwd tmp_root : path) (pid : Z) (root_key_hex : string).
Let main := runtime_main root cwd tmp_root pid root_key_hex.

(** ** The gate *)
#[local] Hint Resolve read_json_untouched : respects.
Lemma load_manifest_untouched p : respects untouched (load_manifest p).
Proof. unfold load_manifest. solve_respects. Qed.
#[local] Hint Resolve load_manifest_untouched : respects.
Lemma closed_lab_untouched m s secret g : respects untouched (closed_lab_attestation root cwd m s secret g).
Proof. unfold closed_lab_attestation, read_text. solve_respects. Qed.
#[local] Hint Resolve closed_lab_untouched : respects.
Lemma attest_untouched args : respects untouched (attest_fortress root cwd root_key_hex args).
Proof. unfold attest_fortress. solve_respects. Qed.

(** What a positive attestation established: [m] is the manifest in the file the arguments
    name, and the text of the signature file they name is the root key's signature of it. *)
Record tree_attested (args : runtime_args) (w : World) (secret : string) (m : RootManifest) : Prop := {
  ta_lab : ra_closed_lab_root args = true;
  ta_secret : bytes_fromhex root_key_hex = Some secret;
  ta_strong : 32 ≤ String.length secret;
  ta_manifest : ∃ p w1, given (ra_fortress_manifest args) = Some p
    ∧ load_manifest (resolve_join cwd p) w = (Ok m, w1);
  ta_generation : (ra_fortress_min_generation args <= rm_generation m)%Z;
  ta_signed : ∃ p text, given (ra_fortress_signature args) = Some p ∧ w_files w !! resolve_join cwd p = Some text
    ∧ kp_verify (hmac_root_key secret) (rm_canonical m) (strip text) = Ok true;
  ta_files : Forall (file_matches root (w_files w)) (rm_files m);
  ta_some : rm_files m ≠ [];
}.

Lemma load_manifest_Ok p w m w' : load_manifest p w = (Ok m, w') → rm_files m ≠ [].
Proof.
  unfold load_manifest. intros (raw & w1 & _ & Hrun)%bind_Ok_inv. destruct raw as [| | | | | |d]; try done.
  destruct (dget d "files") as [[| | | | | |[|e fs]]|]; try done.
  apply bind_Ok_inv in Hrun as (? & ? & _ & Hrun). apply bind_Ok_inv in Hrun as (? & ? & _ & Hrun).
  apply bind_Ok_inv in Hrun as (? & ? & _ & Hrun). apply bind_Ok_inv in Hrun as (? & ? & _ & [= <- _]). done.
Qed.
Lemma attest_fortress_true args w reason w' :
  attest_fortress root cwd root_key_hex args w = (Ok (true, reason), w') →
  ∃ secret m, tree_attested args w secret m.
Proof.
  unfold attest_fortress. destruct (given (ra_fortress_manifest args)) as [mp|] eqn:Hmp; [|done].
  destruct (given (ra_fortress_signature args)) as [sp|] eqn:Hsp; [|done].
  destruct (ra_closed_lab_root args) eqn:Hlab; [|done]. cbn [negb].
  destruct (bytes_fromhex root_key_hex) as [secret|] eqn:Hhex; [|done].
  destruct (Nat.ltb_spec (String.length secret) 32) as [|Hlen]; [done|]. unfold catch.
  destruct (closed_lab_attestation _ _ _ _ _ _ w) as [[a|e] w1] eqn:Hc; [|done]. intros [= -> <-].
  unfold closed_lab_attestation in Hc. apply bind_Ok_inv in Hc as (m & w2 & Hm & Hc).
  pose proof (respects_run _ _ _ _ _ (load_manifest_untouched _) Hm) as [_ F2]. pose proof (load_manifest_Ok _ _ _ _ Hm).
  apply bind_Ok_inv in Hc as (sig & w3 & Hs & Hc).
  assert (w_files w3 = w_files w2 ∧ w_files w2 !! resolve_join cwd sp = Some sig) as [F3 Hsig].
  { unfold read_text in Hs. apply bind_Ok_inv in Hs as (f & ? & [= <- <-] & Hs). destruct (w_files w2 !! _); [|done].
    by injection Hs as <- <-. }
  apply bind_Ok_inv in Hc as (kp & ? & [Hk ->]%lift_Ok_inv & Hc).
  apply bind_Ok_inv in Hc as (fs & ? & [= <- <-] & Hc). apply bind_Ok_inv in Hc as (a & ? & [Ha ->]%lift_Ok_inv & [= Hop _]).
  unfold root_key_init in Hk. destruct (Nat.ltb_spec (String.length secret) 32); [lia|]. injection Hk as <-.
  apply boot_gate_fails_closed in Ha as [[? _]|(_ & _ & Hg & Hv & Hf & _)]; [congruence|].
  exists secret, m. split; try done; [by exists mp, w2|exists sp, sig; by rewrite <- F2|by rewrite <- F2, <- F3].
Qed.

(** C13. No state before trust: whatever its arguments, its environment and its outcome, a
    run of the runtime that changed the database or a file had attested the tree it
    was started in: the manifest file its arguments name holds a manifest of at least
    the demanded generation, the signature file they name holds the signature of that
    manifest under the root key of the environment, and every listed file had the
    listed digest; when the attestation is refused
    the run ends with the containment exit code and its reason, and changes nothing. *)
Theorem no_state_before_trust args turns w out w' :
  main args turns w = (out, w') →
  (¬ untouched w w' → ra_attest_only args = false ∧ ∃ secret m, tree_attested args w secret m)
  ∧ (∀ reason w1, (0 < ra_interval args)%Q → attest_fortress root cwd root_key_hex args w = (Ok (false, reason), w1) →
       out = Ok (CONTAINED_EXIT, ["BRAIN_FORTRESS_MODE=CONTAINED_READ_ONLY reason=" +:+ reason]) ∧ untouched w w').
Proof.
  unfold main, runtime_main. intros Hrun. pose proof (attest_untouched args w) as Hu. unfold raise_if in Hrun.
  destruct (qle (ra_interval args) 0) eqn:Hi.
  { injection Hrun as <- <-. split; [intros Hn; by destruct Hn|]. intros reason w1 Hpos. apply qle_true in Hi. lra. }
  rewrite bind_ret_run in Hrun. unfold mbind at 1, M_bind at 1 in Hrun.
  destruct (attest_fortress root cwd root_key_hex args w) as [[[op reason0]|e] w1] eqn:Ha; simpl in Hu.
  2:{ injection Hrun as <- <-. split; [done|]. naive_solver. }
  destruct op; cbn [negb] in Hrun.
  - split; [|naive_solver]. intros Hn. destruct (ra_attest_only args); [injection Hrun as <- <-; done|].
    split; [done|]. by eapply attest_fortress_true.
  - injection Hrun as <- <-. split; [done|]. intros reason w2 _ [= <- <-]. done.
Qed.

(** ** The audit probe *)
Definition same_ledger (d d' : DB) : Prop := db_ledger d' = db_ledger d.
#[export] Instance same_ledger_preorder : PreOrder same_ledger.
Proof. split; [done|]. intros a b c E1 E2. unfold same_ledger in *. congruence. Qed.
Lemma recover_same_ledger now : respects (on_db same_ledger) (recover_expired_leases now).
Proof. unfold recover_expired_leases, recover_row. io_respects. Qed.

Lemma audit_probe_fails w started r w' :
  check_rows ZERO_HASH (audit_events (w_db w)) ≠ Ok (true, None) →
  run_probe started ("audit-chain", audit_integrity) w = (Ok r, w') → fst (snd r) = false.
Proof.
  intros Hbad. unfold run_probe. intros (res & w1 & Hc & Hrun)%bind_Ok_inv.
  apply bind_Ok_inv in Hrun as (? & w2 & _ & [= <- _]). cbn [fst snd].
  unfold catch, audit_integrity, verify_chain, query in Hc. cbn [fst snd] in Hc.
  unfold mbind, M_bind, gets, lift_result in Hc.
  destruct (check_rows ZERO_HASH (audit_events (w_db w))) as [[[] [bad|]]|e]; try (by injection Hc as <- _); done.
Qed.

Lemma count_failed_pos l r : r ∈ l → fst (snd r) = false → (0 < count_failed l)%Z.
Proof.
  intros Hr Hf. unfold count_failed. assert (r ∈ List.filter (λ r, negb (fst (snd r))) l) as Hin.
  { apply list_elem_of_In, filter_In. split; [by apply list_elem_of_In|by rewrite Hf]. }
  destruct (List.filter _ l); [by apply elem_of_nil in Hin|]. simpl. lia.
Qed.

(** A stored ledger whose chain does not verify is never reported as healthy: the next
    cycle of the runtime's supervisor, if it completes, is DEGRADED. *)
Theorem tampering_degrades_cycle args now w c w' :
  check_rows ZERO_HASH (audit_events (w_db w)) ≠ Ok (true, None) →
  supervisor_tick (runtime_supervisor cwd tmp_root args) now w = (Ok c, w') →
  cy_state c = "DEGRADED" ∧ (0 < cy_probes_failed c)%Z.
Proof.
  intros Hbad Hrun. unfold supervisor_tick in Hrun.
  apply bind_Ok_inv in Hrun as (st & w1 & K1%(respects_run _ _ _ _ _ (respects_now same_ledger now)) & Hrun).
  apply bind_Ok_inv in Hrun as (rec & w2 & K2%(respects_run _ _ _ _ _ (recover_same_ledger _)) & Hrun).
  apply bind_Ok_inv in Hrun as (res & w3 & K3 & Hrun).
  assert (0 < count_failed res)%Z as Hfail.
  { cbn [su_probes runtime_supervisor] in K3. change (order_by probe_leb _) with [("audit-chain", audit_integrity); ("sqlite", db_integrity)] in K3.
    cbn [for_each] in K3. apply bind_Ok_inv in K3 as (r & w4 & Hp & K3).
    apply bind_Ok_inv in K3 as (rs & w5 & _ & [= <- _]). apply (count_failed_pos _ r); [by left|].
    eapply audit_probe_fails; [|exact Hp]. unfold on_db, same_ledger, audit_events in *.
    by rewrite K2, K1. }
  apply bind_Ok_inv in Hrun as (row & w4 & _ & Hrun).
  apply bind_Ok_inv in Hrun as ([bk failed] & w5 & _ & Hrun).
  apply bind_Ok_inv in Hrun as (eff & w6 & _ & Hrun).
  apply bind_Ok_inv in Hrun as (drill & w7 & _ & Hrun). cbv zeta in Hrun.
  set (failures := (_ + _ + _)%Z) in *. assert (0 < failures)%Z as Hpos by (unfold failures; destruct failed, drill as [[]|]; lia).
  do 8 apply bind_Ok_inv in Hrun as (? & ? & _ & Hrun). injection Hrun as <- _. cbn [cy_state cy_probes_failed].
  split; [|done]. by rewrite (proj2 (Z.eqb_neq failures 0)) by lia.
Qed.

(** ** The lock while the runtime runs *)

(** The runtime never renews its lock file: once the time since it acquired exceeds
    the limit of staleness, another runtime takes the lock, whatever the holder
    has done since, as long as the lock file is as it wrote it: both then own it. *)
Theorem runtime_lock_lapses pid1 pid2 lk1 lk2 t1 t2 w1 lk1' w2 w3 :
  lk_path lk2 = lk_path lk1 → lock_acquire pid1 lk1 (Some t1) w1 = (Ok lk1', w2) →
  w_files w3 !! lk_path lk1 = w_files w2 !! lk_path lk1 → plain_path (lk_path lk1) (w_files w3) →
  (lk_stale_after_seconds lk2 < t2 - t1)%Q →
  ∃ lk2' w4, lock_acquire pid2 lk2 (Some t2) w3 = (Ok lk2', w4) ∧ lk_owned lk1' = true ∧ lk_owned lk2' = true.
Proof.
  intros Hp Hacq Hsame Hplain Hlate. apply lock_acquire_writes in Hacq as [-> Hfile]. rewrite Hfile in Hsame.
  unfold lock_acquire. cbn [now_or_time]. rewrite bind_ret_run. cbn [lock_attempts]. rewrite Hp.
  rewrite bind_gets_run, (path_exists_file _ _ _ Hsame), Hsame, lock_payload_created. cbn [negb]. rewrite bind_lift_Ok.
  rewrite bind_raise_if_run by (by apply qle_false). unfold is_file. rewrite Hsame.
  rewrite bind_raise_if_run by done. rewrite bind_modify_run, bind_gets_run. cbn [w_files with_files].
  rewrite plain_path_file by by apply plain_path_delete. unfold is_file.
  rewrite lookup_delete_eq. cbn [negb]. eexists _, _. split; [reflexivity|done].
Qed.
End runtime_props.
