(* ===== verification/Gates.v ===== *)
(** scripts/final_mission_gate.py and scripts/verify_provider_live_attestation.py: the two
    gates a release passes.

    git and the GitHub API are arguments: [head] is what [git rev-parse HEAD] printed, or
    nothing when it failed; [git] runs an argument vector and gives its return code;
    [api] fetches a URL and gives the JSON value, or raises.  Files are those of
    the world.

    The theorems follow the definitions. *)

From stdpp Require Import pretty.
From S2P Require Import Prelude Json Sha256 Schema Files Tokens Observability Fortress ProviderProxy.
From S2P Require Import Operations Panel ControlPlane Boundary Text Runtime.

(** ** Values of JSON, as the scripts use them *)

(** [(v or {})] where a [.get] follows *)
Definition as_record (v : option json) : result dict :=
  match v with
  | None => Ok []
  | Some v => if truthy v then match v with
                               | JObj d => Ok d
                               | _ => Raise (Exn AttributeError "object has no attribute 'get'")
                               end
              else Ok []
  end.
(** [(v or [])] iterated: a value that is no list gives keys or characters, which have no [get] *)
Definition as_records (v : option json) : result (list json) :=
  match v with
  | None => Ok []
  | Some v => if truthy v then match v with
                               | JList l => Ok l
                               | JObj _ | JStr _ => Raise (Exn AttributeError "'str' object has no attribute 'get'")
                               | _ => Raise (Exn TypeError "object is not iterable")
                               end
              else Ok []
  end.
(** [item.get(k)] *)
Definition item_get (item : json) (k : string) : result (option json) :=
  match item with JObj d => Ok (dget d k) | _ => Raise (Exn AttributeError "object has no attribute 'get'") end.
(** [v == n] for a number [n] *)
Definition equals_int (v : json) (n : Z) : bool :=
  match v with
  | JInt z => (z =? n)%Z
  | JBool b => ((if b then 1 else 0) =? n)%Z
  | JNum q => Qeq_bool q (inject_Z n)
  | _ => false
  end.
Fixpoint equals_ints (l : list json) (ns : list Z) : bool :=
  match l, ns with
  | [], [] => true
  | v :: l', n :: ns' => equals_int v n && equals_ints l' ns'
  | _, _ => false
  end.
Definition is_text (v : option json) (s : string) : bool :=
  match v with Some (JStr t) => t =s s | _ => false end.

Section gates.
Context `{JsonText, Entropy}.

(** [int(d.get(k, default))] *)
Definition int_get (d : dict) (k : string) (default_value : Z) : IO Z :=
  lift_result (py_int (default (JInt default_value) (dget d k))).

(** ** The final gate *)
Section final.
Context (root : path) (head : option string).

Definition load_json (relative : string) : IO dict :=
  file ← gets (λ w, w_files w !! (root ++ split_slash relative));
  match file with
  | None => throw SystemExit ("MISSING_EVIDENCE:" +:+ relative)
  | Some text =>
      v ← lift_result (loads_or_raise text);
      match v with JObj d => mret d | _ => throw SystemExit ("INVALID_EVIDENCE_OBJECT:" +:+ relative) end
  end.
Definition require (condition : bool) (label : string) : IO unit :=
  raise_if (negb condition) SystemExit ("FINAL_GATE_FAILED:" +:+ label).

(** [all(item.get("passed") is True for item in checks)] *)
Fixpoint all_passed (checks : list json) : result bool :=
  match checks with
  | [] => Ok true
  | item :: rest => match item_get item "passed" with
                    | Raise e => Raise e
                    | Ok (Some (JBool true)) => all_passed rest
                    | Ok _ => Ok false
                    end
  end.

(** One turn of the loop over the phases. *)
Definition phase_gate (phase : nat) : IO (string * json) :=
  let n := pretty (Z.of_nat phase) in
  data ← load_json ("evidence/phase" +:+ n +:+ "-validation.json");
  _ ← require (is_text (dget data "result") ("PHASE" +:+ n +:+ "_PROVEN")) ("phase" +:+ n +:+ "_result");
  summary ← lift_result (as_record (dget data "summary"));
  failed ← int_get summary "failed" 1;
  _ ← require (failed =? 0)%Z ("phase" +:+ n +:+ "_failed_zero");
  checks ← lift_result (as_records (dget data "checks"));
  passed ← lift_result (all_passed checks);
  _ ← require (negb (bool_decide (checks = [])) && passed) ("phase" +:+ n +:+ "_all_checks");
  np ← int_get summary "passed" 0;
  nt ← int_get summary "total" 0;
  mret (n, JObj [("result", default JNull (dget data "result")); ("passed", JInt np); ("total", JInt nt)]).

(** [(phase9.get("metrics") or {}).get(k) or {}] *)
Definition metrics_of (data : dict) (k : string) : IO dict :=
  metrics ← lift_result (as_record (dget data "metrics"));
  lift_result (as_record (dget metrics k)).

Definition phase9_gate : IO Z :=
  data ← load_json "evidence/phase9-validation.json";
  load ← metrics_of data "load";
  endurance ← metrics_of data "endurance";
  _ ← require match dget load "levels" with Some (JList l) => equals_ints l [1; 4; 8; 16; 32]%Z | _ => false end
        "phase9_load_levels";
  tasks ← int_get load "tasks" 0;
  _ ← require (tasks =? 61)%Z "phase9_load_tasks";
  cycles ← int_get endurance "cycles" 0;
  _ ← require (128 <=? cycles)%Z "phase9_endurance_cycles";
  failures ← int_get endurance "failures" 1;
  _ ← require (failures =? 0)%Z "phase9_endurance_zero_failures";
  mret cycles.

Definition phase10_gate : IO Z :=
  data ← load_json "evidence/phase10-validation.json";
  proof ← lift_result (as_record (dget data "mission_proof"));
  _ ← require (is_true proof "proven") "phase10_scoped_mission_proven";
  _ ← require (negb (get_truthy proof "missing_gates" false)) "phase10_no_missing_gates";
  endurance ← lift_result (as_record (dget data "endurance"));
  cycles ← int_get endurance "cycles" 0;
  _ ← require (50 <=? cycles)%Z "phase10_endurance_cycles";
  degraded ← int_get endurance "degraded_cycles" 1;
  _ ← require (degraded =? 0)%Z "phase10_zero_degraded_cycles";
  mret cycles.

Definition GATEWAY_GATES : list string :=
  ["gateway_adapter_artifact"; "gateway_adapter_no_network_or_subprocess_imports"; "gateway_adapter_bounded_actions";
   "scenario_gateway_egress"; "scenario_gateway_checkpoint_gate"; "scenario_gateway_twin_adapter";
   "scenario_gateway_rollback"].
(** [{str(item.get("name")): bool(item.get("passed")) for item in ...}] *)
Fixpoint twin_checks (acc : dict) (items : list json) : result dict :=
  match items with
  | [] => Ok acc
  | item :: rest =>
      match item with
      | JObj d => twin_checks (dset acc (py_str (default JNull (dget d "name")))
                                 (JBool (truthy (default JNull (dget d "passed"))))) rest
      | _ => Raise (Exn AttributeError "object has no attribute 'get'")
      end
  end.
Definition twin_gate : IO Z :=
  twin ← load_json "evidence/digital-twin-validation.json";
  _ ← require (is_text (dget twin "status") "DIGITAL_TWIN_PROVEN") "digital_twin_proven";
  failed ← int_get twin "checks_failed" 1;
  _ ← require (failed =? 0)%Z "digital_twin_zero_failures";
  effects ← int_get twin "external_effects_performed" 1;
  _ ← require (effects =? 0)%Z "digital_twin_zero_external_effects";
  _ ← require (is_text (dget twin "external_effect_policy") "SEM_EFEITO_EXTERNO") "digital_twin_external_policy";
  items ← lift_result (as_records (dget twin "checks"));
  checks ← lift_result (twin_checks [] items);
  _ ← for_each GATEWAY_GATES (λ g, require (is_true checks g) ("digital_twin:" +:+ g));
  int_get twin "checks_passed" 0.

Definition gateway_gate : IO unit :=
  gateway ← load_json "config/gateway-runtime.json";
  _ ← require (is_text (dget gateway "owner_scope") "immune-gateway") "gateway_owner";
  require match dget gateway "systems" with Some (JList []) => true | _ => false end
    "gateway_default_has_no_protected_systems".

(** [len(profiles)] and [profiles[0]] of [provider.get("providers") or []] *)
Definition profile_count (v : option json) : result nat :=
  match v with
  | None => Ok 0
  | Some v => if truthy v then match v with
                               | JList l => Ok (length l)
                               | JObj d => Ok (length d)
                               | JStr s => Ok (char_count s)
                               | _ => Raise (Exn TypeError "object has no len()")
                               end
              else Ok 0
  end.
Definition first_profile (v : option json) : result dict :=
  match v with
  | Some (JList (JObj p :: _)) => Ok p
  | Some (JObj _) => Raise (Exn KeyError "0")
  | _ => Raise (Exn AttributeError "object has no attribute 'get'")
  end.
Definition FORBIDDEN_TARGETS : list string :=
  ["127.0.0.1"; "localhost"; "windows-mcp"; "wmcp"; "tunel-core"; "tunnel-core"].
Definition provider_gate : IO unit :=
  provider ← load_json "config/provider-live-test.json";
  _ ← require (is_text (dget provider "owner_scope") "immune-provider-proxy") "provider_owner_outside_core";
  n ← lift_result (profile_count (dget provider "providers"));
  _ ← require (Nat.eqb n 1) "isolated_provider_count";
  profile ← lift_result (first_profile (dget provider "providers"));
  _ ← require (String.prefix "https://api.z.ai/" (get_str profile "endpoint" "")) "isolated_provider_endpoint";
  let encoded := lower (dumps Plain (JObj provider)) in
  _ ← for_each FORBIDDEN_TARGETS
        (λ f, require (negb (contains f encoded)) ("isolated_provider_forbidden:" +:+ f));
  mret tt.

Definition status_gate : IO unit :=
  text ← read_text (root ++ ["MISSION_STATUS.md"]);
  require (contains "MISSION_PROVEN" text) "mission_status_proven".

Definition final_gate : IO (Z * string) :=
  phases ← for_each (seq 1 10) phase_gate;
  cycles9 ← phase9_gate;
  cycles10 ← phase10_gate;
  twin ← twin_gate;
  _ ← gateway_gate;
  _ ← provider_gate;
  _ ← status_gate;
  mret (0%Z, dumps Sorted (JObj
    [("MISSION_PROVEN", JBool true); ("scope", JStr "IMMUNE_SYSTEM_V1_ISOLATED_INTEGRAL_PROOF");
     ("commit", JStr match head with Some s => strip s | None => "unknown" end); ("phases", JObj phases);
     ("phase9_endurance_cycles", JInt cycles9); ("phase10_endurance_cycles", JInt cycles10);
     ("digital_twin_checks", JInt twin); ("external_effects", JInt 0); ("protected_systems_attached", JInt 0);
     ("live_provider_gate", JStr "SEPARATE_REQUIRED_JOB")])).
End final.

(** ** The provider's live attestation *)
Section attestation.
Context (git : list string → result Z) (api : string → result json).

Record attestation_config := {
  ac_repository : string; ac_baseline : string; ac_run_id : Z; ac_workflow : string; ac_job : string; ac_paths : list string;
}.
(** [tuple(str(x).strip() for x in v if str(x).strip())] *)
Definition surface_paths (v : option json) : result (list string) :=
  let clean l := List.filter (λ x, negb (x =s "")) (map strip l) in
  match v with
  | None => Ok []
  | Some (JList l) => Ok (clean (map py_str l))
  | Some (JObj d) => Ok (clean (map fst d))
  | Some (JStr s) => Ok (clean (chars s))
  | Some _ => Raise (Exn TypeError "object is not iterable")
  end.
Definition foreign_path (p : string) : bool :=
  String.prefix "/" p || String.prefix ".." p || has_char backslash p.

Definition attestation_checked (c : attestation_config) : result attestation_config :=
  if negb (ac_repository c =s "andrebarros78/Immune-System")
  then Raise (Exn ProviderAttestationError "provider attestation repository mismatch")
  else if negb (Nat.eqb (String.length (ac_baseline c)) 40 && all_hex (ac_baseline c)) || (ac_run_id c <=? 0)%Z
          || (ac_workflow c =s "") || (ac_job c =s "") || bool_decide (ac_paths c = [])
  then Raise (Exn ProviderAttestationError "provider attestation metadata incomplete")
  else if existsb foreign_path (ac_paths c)
  then Raise (Exn ProviderAttestationError "provider surface path is not repository-relative")
  else Ok c.
Definition attestation_loaded (raw : json) : result attestation_config :=
  match raw with
  | JObj d =>
      if negb match dget d "schema" with Some v => equals_int v 1 | None => false end
      then Raise (Exn ProviderAttestationError "provider attestation schema invalid")
      else match py_int (default (JInt 0) (dget d "github_run_id")), surface_paths (dget d "surface_paths") with
           | Raise e, _ => Raise e
           | Ok _, Raise e => Raise e
           | Ok run_id, Ok paths =>
               attestation_checked
                 {| ac_repository := strip (get_str d "repository" "");
                    ac_baseline := lower (strip (get_str d "baseline_commit" "")); ac_run_id := run_id;
                    ac_workflow := strip (get_str d "workflow_name" ""); ac_job := strip (get_str d "required_job_name" "");
                    ac_paths := paths |}
           end
  | _ => Raise (Exn AttributeError "object has no attribute 'get'")
  end.

(** The proof run and its jobs, as the API answers them. *)
Definition run_proves (c : attestation_config) (run : dict) : bool :=
  (lower (get_str run "head_sha" "") =s ac_baseline c) && is_text (dget run "status") "completed"
  && is_text (dget run "conclusion") "success" && is_text (dget run "name") (ac_workflow c).
Fixpoint matching_jobs (name : string) (jobs : list json) : result (list dict) :=
  match jobs with
  | [] => Ok []
  | JObj d :: rest => match matching_jobs name rest with
                      | Ok l => Ok (if is_text (dget d "name") name then d :: l else l)
                      | Raise e => Raise e
                      end
  | _ :: _ => Raise (Exn AttributeError "object has no attribute 'get'")
  end.
Definition job_proves (job : dict) : bool :=
  is_text (dget job "status") "completed" && is_text (dget job "conclusion") "success".

Definition run_url (c : attestation_config) : string :=
  "https://api.github.com/repos/" +:+ ac_repository c +:+ "/actions/runs/" +:+ pretty (ac_run_id c).
Definition attestation_answer (status : string) (reusable : bool) (c : attestation_config) (job : option Z) : dict :=
  [("status", JStr status); ("reusable", JBool reusable); ("baseline_commit", JStr (ac_baseline c));
   ("github_run_id", JInt (ac_run_id c))]
  ++ match job with Some id => [("provider_job_id", JInt id)] | None => [] end
  ++ [("surface_paths", JList (map JStr (ac_paths c)))].

Definition invalid {A} (msg : string) : IO A := throw ProviderAttestationError msg.
Definition proved_remotely (c : attestation_config) : IO dict :=
  run ← lift_result (api (run_url c));
  match run with
  | JObj run =>
      _ ← raise_if (negb (run_proves c run)) ProviderAttestationError "external provider proof run is not valid";
      doc ← lift_result (api (run_url c +:+ "/jobs?per_page=100"));
      match (match doc with JObj d => dget d "jobs" | _ => None end) with
      | Some (JList jobs) =>
          found ← lift_result (matching_jobs (ac_job c) jobs);
          match found with
          | [job] =>
              _ ← raise_if (negb (job_proves job)) ProviderAttestationError "external provider live job is not successful";
              id ← int_get job "id" 0;
              mret (attestation_answer "LIVE_PROVIDER_ATTESTATION_REUSED" true c (Some id))
          | _ => invalid "external provider live job is not successful"
          end
      | _ => invalid "provider proof jobs response invalid"
      end
  | _ => invalid "provider proof run response invalid"
  end.

Definition evaluate (config_path : path) : IO dict :=
  text ← read_text config_path;
  raw ← lift_result (loads_or_raise (strip_bom text));
  c ← lift_result (attestation_loaded raw);
  exists_ ← lift_result (git ["cat-file"; "-e"; ac_baseline c +:+ "^{commit}"]);
  _ ← raise_if (negb (exists_ =? 0)%Z) ProviderAttestationError "provider attestation baseline commit unavailable";
  diff ← lift_result (git (["diff"; "--quiet"; ac_baseline c; "HEAD"; "--"] ++ ac_paths c));
  if (diff =? 1)%Z then mret (attestation_answer "LIVE_PROVIDER_REQUIRED" false c None)
  else
    _ ← raise_if (negb (diff =? 0)%Z) ProviderAttestationError "provider surface comparison failed";
    proved_remotely c.

(** [main]: the exit code and the printed line; [github_output] is the file GITHUB_OUTPUT names *)
Definition attestation_main (config_path : path) (github_output : option path) : IO (Z * string) :=
  r ← attempt (evaluate config_path);
  match r with
  | Raise e => mret (2%Z, dumps Sorted (JObj [("status", JStr "PROVIDER_ATTESTATION_INVALID");
                                              ("error_class", JStr (class_name (exn_cls e)))]))
  | Ok result =>
      _ ← match github_output with
          | None => mret tt
          | Some p => modify (with_files (λ f, <[p := default "" (f !! p) +:+ "reuse="
                        +:+ (if is_true result "reusable" then "true" else "false") +:+ newline]> f))
          end;
      mret (0%Z, dumps Sorted (JObj result))
  end.
End attestation.
End gates.

(** * What a passed release gate establishes of the evidence it read, and what it does not
    look at. *)

Section gates_props.
Context `{JsonText, Entropy}.

(** ** Inversion of the steps *)
Lemma require_Ok c label w u w' : require c label w = (Ok u, w') → c = true ∧ w' = w.
Proof. unfold require. intros [Hc ->]%raise_if_Ok_inv. by apply negb_false_iff in Hc. Qed.
Lemma int_get_Ok d k n w z w' : int_get d k n w = (Ok z, w') → py_int (default (JInt n) (dget d k)) = Ok z ∧ w' = w.
Proof. apply lift_Ok_inv. Qed.

(** A file of the repository that holds an object. *)
Definition holds (root : path) (w : World) (relative : string) (d : dict) : Prop :=
  ∃ text, w_files w !! (root ++ split_slash relative) = Some text ∧ loads text = Some (JObj d).
Lemma load_json_Ok root rel w d w' : load_json root rel w = (Ok d, w') → holds root w rel d ∧ w' = w.
Proof.
  unfold load_json, holds. intros (f & ? & [= <- <-] & Hr)%bind_Ok_inv. destruct (w_files w !! _) as [text|]; [|done].
  apply bind_Ok_inv in Hr as (v & ? & [Hv ->]%lift_Ok_inv & Hr). unfold loads_or_raise in Hv.
  destruct (loads text) eqn:E; [|done]. injection Hv as ->. destruct v; try done. injection Hr as -> ->. eauto.
Qed.

(** Peels one step of a gate off a successful run. *)
Ltac gate_step Hrun :=
  let x := fresh "x" in let w := fresh "w" in
  first
    [ let Hc := fresh "Hc" in apply bind_Ok_inv in Hrun as (x & w & [Hc ->]%require_Ok & Hrun)
    | let Hi := fresh "Hi" in apply bind_Ok_inv in Hrun as (x & w & [Hi ->]%int_get_Ok & Hrun)
    | let Hl := fresh "Hl" in apply bind_Ok_inv in Hrun as (x & w & [Hl ->]%load_json_Ok & Hrun)
    | let Hv := fresh "Hv" in apply bind_Ok_inv in Hrun as (x & w & [Hv ->]%lift_Ok_inv & Hrun) ].

(** ** The evidence of each part *)
Record phase_proven (root : path) (w : World) (n : nat) : Prop := {
  pp_evidence : ∃ d summary checks,
    holds root w ("evidence/phase" +:+ pretty (Z.of_nat n) +:+ "-validation.json") d
    ∧ is_text (dget d "result") ("PHASE" +:+ pretty (Z.of_nat n) +:+ "_PROVEN") = true
    ∧ as_record (dget d "summary") = Ok summary ∧ py_int (default (JInt 1) (dget summary "failed")) = Ok 0%Z
    ∧ as_records (dget d "checks") = Ok checks ∧ checks ≠ []
    ∧ ∀ c, c ∈ checks → ∃ item, c = JObj item ∧ is_true item "passed" = true;
}.
Lemma all_passed_Ok checks : all_passed checks = Ok true → ∀ c, c ∈ checks → ∃ item, c = JObj item ∧ is_true item "passed" = true.
Proof.
  induction checks as [|c0 rest IH]; [intros _ c Hc; by apply elem_of_nil in Hc|]. cbn [all_passed].
  destruct c0 as [| | | | | |d]; try done. cbn [item_get]. intros Ha c [->|Hc]%elem_of_cons.
  - exists d. split; [done|]. unfold is_true. by destruct (dget d "passed") as [[|[]| | | | |]|].
  - apply IH; [|done]. by destruct (dget d "passed") as [[|[]| | | | |]|].
Qed.
Lemma phase_gate_Ok root n w r w' : phase_gate root n w = (Ok r, w') → w' = w ∧ phase_proven root w n.
Proof.
  unfold phase_gate. cbv zeta. intros Hrun. repeat gate_step Hrun.
  injection Hrun as <- <-. split; [done|]. split.
  match goal with Hx : negb _ && _ = true |- _ => apply andb_true_iff in Hx as [He%negb_true_iff%bool_decide_eq_false Hp] end.
  subst. eexists _, _, _. split_and!; try done.
  - match goal with Hx : (_ =? 0)%Z = true |- _ => apply Z.eqb_eq in Hx; by subst end.
  - by apply all_passed_Ok.
Qed.

Definition metric (d : dict) (part : string) (m : dict) : Prop :=
  ∃ metrics, as_record (dget d "metrics") = Ok metrics ∧ as_record (dget metrics part) = Ok m.
Definition phase9_proven (root : path) (w : World) : Prop :=
  ∃ d load endurance levels cycles,
    holds root w "evidence/phase9-validation.json" d ∧ metric d "load" load ∧ metric d "endurance" endurance
    ∧ dget load "levels" = Some (JList levels) ∧ equals_ints levels [1; 4; 8; 16; 32]%Z = true
    ∧ py_int (default (JInt 0) (dget load "tasks")) = Ok 61%Z
    ∧ py_int (default (JInt 0) (dget endurance "cycles")) = Ok cycles ∧ (128 <= cycles)%Z
    ∧ py_int (default (JInt 1) (dget endurance "failures")) = Ok 0%Z.
Lemma metrics_of_Ok d k w m w' : metrics_of d k w = (Ok m, w') → metric d k m ∧ w' = w.
Proof.
  unfold metrics_of, metric. intros Hrun. gate_step Hrun. apply lift_Ok_inv in Hrun as [Hm ->]. eauto.
Qed.
Lemma phase9_gate_Ok root w z w' : phase9_gate root w = (Ok z, w') → w' = w ∧ phase9_proven root w.
Proof.
  unfold phase9_gate. intros Hrun. gate_step Hrun.
  apply bind_Ok_inv in Hrun as (load & ? & [Hm1 ->]%metrics_of_Ok & Hrun).
  apply bind_Ok_inv in Hrun as (endurance & ? & [Hm2 ->]%metrics_of_Ok & Hrun).
  repeat gate_step Hrun. injection Hrun as <- <-. split; [done|].
  destruct (dget load "levels") as [[| | | | |levels|]|] eqn:El; try done.
  repeat match goal with Hx : (_ =? _)%Z = true |- _ => apply Z.eqb_eq in Hx; subst
                       | Hx : (_ <=? _)%Z = true |- _ => apply Z.leb_le in Hx end.
  eexists _, load, endurance, levels, _. split_and!; done.
Qed.

Definition phase10_proven (root : path) (w : World) : Prop :=
  ∃ d proof endurance cycles,
    holds root w "evidence/phase10-validation.json" d ∧ as_record (dget d "mission_proof") = Ok proof
    ∧ is_true proof "proven" = true ∧ get_truthy proof "missing_gates" false = false
    ∧ as_record (dget d "endurance") = Ok endurance
    ∧ py_int (default (JInt 0) (dget endurance "cycles")) = Ok cycles ∧ (50 <= cycles)%Z
    ∧ py_int (default (JInt 1) (dget endurance "degraded_cycles")) = Ok 0%Z.
Lemma phase10_gate_Ok root w z w' : phase10_gate root w = (Ok z, w') → w' = w ∧ phase10_proven root w.
Proof.
  unfold phase10_gate. intros Hrun. repeat gate_step Hrun. injection Hrun as <- <-. split; [done|].
  repeat match goal with Hx : (_ =? _)%Z = true |- _ => apply Z.eqb_eq in Hx; subst
                       | Hx : (_ <=? _)%Z = true |- _ => apply Z.leb_le in Hx
                       | Hx : negb _ = true |- _ => apply negb_true_iff in Hx end.
  eexists _, _, _, _. split_and!; done.
Qed.

Definition twin_proven (root : path) (w : World) : Prop :=
  ∃ d items checks,
    holds root w "evidence/digital-twin-validation.json" d ∧ is_text (dget d "status") "DIGITAL_TWIN_PROVEN" = true
    ∧ py_int (default (JInt 1) (dget d "checks_failed")) = Ok 0%Z
    ∧ py_int (default (JInt 1) (dget d "external_effects_performed")) = Ok 0%Z
    ∧ is_text (dget d "external_effect_policy") "SEM_EFEITO_EXTERNO" = true
    ∧ as_records (dget d "checks") = Ok items ∧ twin_checks [] items = Ok checks
    ∧ ∀ g, g ∈ GATEWAY_GATES → is_true checks g = true.
Lemma for_each_require {A} (l : list A) (c : A → bool) (label : A → string) w r w' :
  for_each l (λ x, require (c x) (label x)) w = (Ok r, w') → w' = w ∧ ∀ x, x ∈ l → c x = true.
Proof.
  revert w r w'. induction l as [|x l IH]; intros w r w'; cbn [for_each].
  - intros [= _ <-]. split; [done|]. intros x Hx; by apply elem_of_nil in Hx.
  - intros Hrun. gate_step Hrun. apply bind_Ok_inv in Hrun as (? & ? & [-> Hall]%IH & [= _ <-]).
    split; [done|]. intros y [->|Hy]%elem_of_cons; auto.
Qed.
Lemma twin_gate_Ok root w z w' : twin_gate root w = (Ok z, w') → w' = w ∧ twin_proven root w.
Proof.
  unfold twin_gate. intros Hrun. do 9 gate_step Hrun.
  apply bind_Ok_inv in Hrun as (? & ? & [-> Hall]%for_each_require & [_ ->]%int_get_Ok). split; [done|].
  repeat match goal with Hx : (_ =? _)%Z = true |- _ => apply Z.eqb_eq in Hx; subst end.
  eexists _, _, _. split_and!; done.
Qed.

Definition gateway_detached (root : path) (w : World) : Prop :=
  ∃ d, holds root w "config/gateway-runtime.json" d ∧ is_text (dget d "owner_scope") "immune-gateway" = true
    ∧ dget d "systems" = Some (JList []).
Lemma gateway_gate_Ok root w u w' : gateway_gate root w = (Ok u, w') → w' = w ∧ gateway_detached root w.
Proof.
  unfold gateway_gate. intros Hrun. repeat gate_step Hrun. apply require_Ok in Hrun as [Hs ->]. split; [done|].
  eexists. split_and!; [done..|]. by destruct (dget x "systems") as [[| | | | |[]|]|].
Qed.

Definition provider_isolated (root : path) (w : World) : Prop :=
  ∃ d profile, holds root w "config/provider-live-test.json" d
    ∧ is_text (dget d "owner_scope") "immune-provider-proxy" = true
    ∧ profile_count (dget d "providers") = Ok 1 ∧ first_profile (dget d "providers") = Ok profile
    ∧ String.prefix "https://api.z.ai/" (get_str profile "endpoint" "") = true
    ∧ ∀ f, f ∈ FORBIDDEN_TARGETS → contains f (lower (dumps Plain (JObj d))) = false.
Lemma provider_gate_Ok root w u w' : provider_gate root w = (Ok u, w') → w' = w ∧ provider_isolated root w.
Proof.
  unfold provider_gate. intros Hrun. do 6 gate_step Hrun. cbv zeta in Hrun.
  apply bind_Ok_inv in Hrun as (? & ? & [-> Hall]%for_each_require & [= _ <-]). split; [done|].
  match goal with Hx : Nat.eqb _ 1 = true |- _ => apply Nat.eqb_eq in Hx; subst end.
  eexists _, _. split_and!; [done..|]. intros f Hf. by apply negb_true_iff, Hall.
Qed.

Lemma phases_Ok root l w rs w' :
  for_each l (phase_gate root) w = (Ok rs, w') → w' = w ∧ ∀ n, n ∈ l → phase_proven root w n.
Proof.
  revert w rs w'. induction l as [|n l IH]; intros w rs w'; cbn [for_each].
  - intros [= _ <-]. split; [done|]. intros n Hn. by apply elem_of_nil in Hn.
  - intros (r & ? & [-> Hp]%phase_gate_Ok & Hrun)%bind_Ok_inv. apply bind_Ok_inv in Hrun as (? & ? & [-> Hall]%IH & [= _ <-]).
    split; [done|]. intros k [->|Hk]%elem_of_cons; auto.
Qed.

(** C35. The final gate declares the mission proven only on evidence: each of the ten phases
    has a validation file that says it is proven, with no failure and every check
    passed; the load and endurance runs reached their bounds without failure; the
    mission proof has no missing gate; the twin was proven without external effect and
    passed every gateway gate; no protected system is attached; and the live test
    uses exactly one provider, on the isolated endpoint, that names no local target.
    The gate itself changes nothing. *)
Theorem final_gate_sound root head w out w' :
  final_gate root head w = (Ok out, w') →
  w' = w ∧ fst out = 0%Z ∧ (∀ n, 1 ≤ n ≤ 10 → phase_proven root w n)
  ∧ phase9_proven root w ∧ phase10_proven root w ∧ twin_proven root w ∧ gateway_detached root w ∧ provider_isolated root w.
Proof.
  unfold final_gate. intros (phases & ? & [-> Hp]%phases_Ok & Hrun)%bind_Ok_inv.
  apply bind_Ok_inv in Hrun as (c9 & ? & [-> H9]%phase9_gate_Ok & Hrun).
  apply bind_Ok_inv in Hrun as (c10 & ? & [-> H10]%phase10_gate_Ok & Hrun).
  apply bind_Ok_inv in Hrun as (tw & ? & [-> Ht]%twin_gate_Ok & Hrun).
  apply bind_Ok_inv in Hrun as (? & ? & [-> Hg]%gateway_gate_Ok & Hrun).
  apply bind_Ok_inv in Hrun as (? & ? & [-> Hv]%provider_gate_Ok & Hrun).
  apply bind_Ok_inv in Hrun as (? & w2 & Hs & [= <- <-]).
  assert (w2 = w) as ->.
  { unfold status_gate, read_text in Hs. apply bind_Ok_inv in Hs as (text & w3 & Hr & [_ ->]%require_Ok).
    apply bind_Ok_inv in Hr as (f & ? & [= <- <-] & Hr). destruct (w_files w !! _); [|done]. by injection Hr as _ <-. }
  split_and!; try done. intros n Hn. apply Hp, elem_of_seq. lia.
Qed.

(** ** What the final gate does not look at *)

(** The status file is searched for the word: any text that contains it passes, and so
    does one that says the product remains without it. *)
Lemma prefix_app_s s t : String.prefix s (s +:+ t) = true.
Proof. induction s as [|c s IH]; [by destruct t|]. rewrite app_cons. simpl. by destruct (ascii_dec c c). Qed.
Lemma contains_app needle before after : contains needle (before +:+ needle +:+ after) = true.
Proof.
  induction before as [|c before IH].
  - rewrite app_nil_l. destruct needle as [|a needle]; [by destruct after|].
    rewrite app_cons. cbn [contains]. rewrite <- app_cons, prefix_app_s. done.
  - rewrite app_cons. cbn [contains]. rewrite IH. by rewrite orb_true_r.
Qed.
Theorem status_denial_accepted root w before :
  w_files w !! (root ++ ["MISSION_STATUS.md"])
    = Some (before +:+ "O produto completo permanece sem MISSION_PROVEN." +:+ newline) →
  status_gate root w = (Ok tt, w).
Proof.
  intros Hf. unfold status_gate, read_text. rewrite (bind_Ok _ _ w (before +:+ "O produto completo permanece sem MISSION_PROVEN." +:+ newline) w).
  - unfold require.
    change ("O produto completo permanece sem MISSION_PROVEN." +:+ newline)
      with ("O produto completo permanece sem " +:+ "MISSION_PROVEN" +:+ "." +:+ newline).
    rewrite <- app_assoc_s, contains_app. done.
  - rewrite bind_gets_run, Hf. done.
Qed.

(** The evidence is not tied to a commit: a run that passes at one commit passes, on
    the same files, at every other one, and reports that commit as proven. *)
Theorem final_gate_commit_blind root head head' w out w' :
  final_gate root head w = (Ok out, w') → ∃ out', final_gate root head' w = (Ok out', w') ∧ fst out' = 0%Z.
Proof.
  unfold final_gate. intros (phases & w1 & Hp & Hrun)%bind_Ok_inv. rewrite (bind_Ok _ _ _ _ _ Hp).
  apply bind_Ok_inv in Hrun as (c9 & w2 & H9 & Hrun). rewrite (bind_Ok _ _ _ _ _ H9).
  apply bind_Ok_inv in Hrun as (c10 & w3 & H10 & Hrun). rewrite (bind_Ok _ _ _ _ _ H10).
  apply bind_Ok_inv in Hrun as (tw & w4 & Ht & Hrun). rewrite (bind_Ok _ _ _ _ _ Ht).
  apply bind_Ok_inv in Hrun as (u1 & w5 & Hg & Hrun). rewrite (bind_Ok _ _ _ _ _ Hg).
  apply bind_Ok_inv in Hrun as (u2 & w6 & Hv & Hrun). rewrite (bind_Ok _ _ _ _ _ Hv).
  apply bind_Ok_inv in Hrun as (u3 & w7 & Hs & [= _ <-]). rewrite (bind_Ok _ _ _ _ _ Hs).
  eexists. split; reflexivity.
Qed.

(** ** The live attestation *)
Section attestation_props.
Context (git : list string → result Z) (api : string → result json).

(** What makes an attestation reusable. *)
Record surface_proven (c : attestation_config) : Prop := {
  sv_repository : ac_repository c = "andrebarros78/Immune-System";
  sv_baseline : String.length (ac_baseline c) = 40 ∧ all_hex (ac_baseline c) = true;
  sv_paths : ac_paths c ≠ [] ∧ ∀ p, p ∈ ac_paths c → foreign_path p = false;
  sv_exists : git ["cat-file"; "-e"; ac_baseline c +:+ "^{commit}"] = Ok 0%Z;
  sv_unchanged : git (["diff"; "--quiet"; ac_baseline c; "HEAD"; "--"] ++ ac_paths c) = Ok 0%Z;
  sv_run : ∃ run, api (run_url c) = Ok (JObj run) ∧ run_proves c run = true;
  sv_job : ∃ d jobs job, api (run_url c +:+ "/jobs?per_page=100") = Ok (JObj d) ∧ dget d "jobs" = Some (JList jobs)
    ∧ matching_jobs (ac_job c) jobs = Ok [job] ∧ job_proves job = true;
}.

Lemma attestation_checked_Ok c c' :
  attestation_checked c = Ok c' →
  c' = c ∧ ac_repository c = "andrebarros78/Immune-System" ∧ (String.length (ac_baseline c) = 40 ∧ all_hex (ac_baseline c) = true)
  ∧ (ac_paths c ≠ [] ∧ ∀ p, p ∈ ac_paths c → foreign_path p = false).
Proof.
  unfold attestation_checked. destruct (String.eqb_spec (ac_repository c) "andrebarros78/Immune-System"); [|done]. cbn [negb].
  destruct (negb _ || _ || _ || _ || _) eqn:E; [done|]. destruct (existsb foreign_path _) eqn:Ef; [done|]. intros [= <-].
  rewrite !orb_false_iff in E. destruct E as [[[[Eb _] _] _] Ep].
  apply negb_false_iff, andb_true_iff in Eb as [Hl%Nat.eqb_eq Hh]. apply bool_decide_eq_false in Ep.
  split_and!; try done. intros p Hp. apply not_true_iff_false. intros Hf. apply not_true_iff_false in Ef. apply Ef.
  apply existsb_exists. exists p. split; [by apply list_elem_of_In|done].
Qed.
Lemma attestation_loaded_Ok raw c :
  attestation_loaded raw = Ok c →
  ac_repository c = "andrebarros78/Immune-System" ∧ (String.length (ac_baseline c) = 40 ∧ all_hex (ac_baseline c) = true)
  ∧ (ac_paths c ≠ [] ∧ ∀ p, p ∈ ac_paths c → foreign_path p = false).
Proof.
  unfold attestation_loaded. destruct raw; try done. destruct (negb _); [done|].
  destruct (py_int _); [|done]. destruct (surface_paths _); [|done]. by intros (-> & ? & ? & ?)%attestation_checked_Ok.
Qed.

Lemma read_text_same p w r w' : read_text p w = (r, w') → w' = w.
Proof. unfold read_text. rewrite bind_gets_run. destruct (w_files w !! p); by intros [= _ <-]. Qed.
Lemma evaluate_same config_path w r w' : evaluate git api config_path w = (r, w') → w' = w.
Proof.
  intros Hrun.
  assert (respects (λ w w', w' = w) (evaluate git api config_path)) as Hresp.
  { assert (PreOrder (λ w w' : World, w' = w)) by (split; [done|intros a b c; congruence]).
    assert (∀ p, respects (λ w w', w' = w) (read_text p)) as Hr.
    { intros p w0. destruct (read_text p w0) eqn:E. by apply read_text_same in E. }
    unfold evaluate, proved_remotely, int_get, invalid. solve_respects. }
  exact (respects_run _ _ _ _ _ Hresp Hrun).
Qed.

Lemma evaluate_reusable config_path w d w' :
  evaluate git api config_path w = (Ok d, w') → is_true d "reusable" = true → ∃ c, surface_proven c.
Proof.
  unfold evaluate. intros (text & w1 & _ & Hrun)%bind_Ok_inv Hreuse. gate_step Hrun.
  apply bind_Ok_inv in Hrun as (c & ? & [Hc%attestation_loaded_Ok ->]%lift_Ok_inv & Hrun). destruct Hc as (Hrep & Hbase & Hpaths).
  apply bind_Ok_inv in Hrun as (ex & ? & [Hex ->]%lift_Ok_inv & Hrun).
  apply bind_Ok_inv in Hrun as (? & ? & [Hz%negb_false_iff%Z.eqb_eq ->]%raise_if_Ok_inv & Hrun). subst ex.
  apply bind_Ok_inv in Hrun as (diff & ? & [Hd ->]%lift_Ok_inv & Hrun).
  destruct (diff =? 1)%Z; [injection Hrun as <- <-; done|].
  apply bind_Ok_inv in Hrun as (? & ? & [Hz%negb_false_iff%Z.eqb_eq ->]%raise_if_Ok_inv & Hrun). subst diff.
  unfold proved_remotely in Hrun. apply bind_Ok_inv in Hrun as (run & ? & [Hrun1 ->]%lift_Ok_inv & Hrun).
  destruct run as [| | | | | |run]; try done.
  apply bind_Ok_inv in Hrun as (? & ? & [Hp%negb_false_iff ->]%raise_if_Ok_inv & Hrun).
  apply bind_Ok_inv in Hrun as (doc & ? & [Hdoc ->]%lift_Ok_inv & Hrun).
  destruct doc as [| | | | | |doc]; try done. destruct (dget doc "jobs") as [[| | | | |jobs|]|] eqn:Ej; try done.
  apply bind_Ok_inv in Hrun as (found & ? & [Hf ->]%lift_Ok_inv & Hrun). destruct found as [|job [|]]; try done.
  apply bind_Ok_inv in Hrun as (? & ? & [Hj%negb_false_iff ->]%raise_if_Ok_inv & _).
  exists c. split; eauto 10.
Qed.

(** The workflow skips the live provider run only on proof: [reuse=true] is written
    to the output file exactly when the evaluation answered so, and then the provider
    surface is unchanged, by git, since a baseline commit whose run of the named
    workflow completed with success and had exactly one job of the required name, which
    succeeded too.  Every failure, whatever its class, exits with 2 and writes
    nothing. *)
Theorem attestation_reuse_proven config_path output w out w' :
  attestation_main git api config_path output w = (out, w') →
  w_db w' = w_db w
  ∧ ((∃ text, out = Ok (2%Z, text)) ∧ w' = w
     ∨ ∃ d, evaluate git api config_path w = (Ok d, w) ∧ out = Ok (0%Z, dumps Sorted (JObj d))
         ∧ (is_true d "reusable" = true → ∃ c, surface_proven c)
         ∧ w_files w' = match output with
                        | None => w_files w
                        | Some p => <[p := default "" (w_files w !! p) +:+ "reuse="
                                        +:+ (if is_true d "reusable" then "true" else "false") +:+ newline]> (w_files w)
                        end).
Proof.
  unfold attestation_main, attempt. intros Hrun. unfold mbind at 1, M_bind at 1 in Hrun.
  destruct (evaluate git api config_path w) as [[d|e] w1] eqn:He; pose proof (evaluate_same _ _ _ _ He) as ->.
  - destruct output as [p|]; injection Hrun as <- <-; (split; [done|]); right; exists d;
      (split_and!; [done|done|by eapply evaluate_reusable|done]).
  - injection Hrun as <- <-. split; [done|]. left. eauto.
Qed.
End attestation_props.
End gates_props.
