(* ===== verification/Collector.v ===== *)
(** scripts/collect_donors.py and scripts/run_donor_lab.py: third-party sources are
    collected with their licence and provenance, and the laboratory's catalogue is
    built of them.

    git and the network are arguments, which may answer differently each time they are
    asked (the first argument numbers the call): [run] gives the standard output of a
    command, or raises CalledProcessError; [cloned] the files a clone command leaves in
    its destination, which is all it writes; [fetch] the text of a file of a repository
    at a commit.  The four fields of a donor that the collector reads are strings.

    The theorems follow the definitions. *)

From stdpp Require Import pretty.
From S2P Require Import Prelude Json Sha256 Schema Files Tokens Observability Fortress ProviderProxy.
From S2P Require Import StateBackup Continuous Operations Skills Panel ControlPlane Boundary Text Runtime.
From S2P Require Import Gates.

Definition ALLOWED_LICENSES : list string := ["MIT"; "Apache-2.0"; "BSD-2-Clause"; "BSD-3-Clause"; "MPL-2.0"].
Definition LICENSE_NAMES : list string :=
  ["LICENSE"; "LICENSE.txt"; "LICENSE.md"; "LICENSE-Apache-2.0"; "LICENSE-APACHE"; "apache-2.0.LICENSE"; "LICENSE-MIT";
   "MIT-LICENSE"; "COPYING"; "COPYING.txt"; "COPYRIGHT"].
Definition README_NAMES : list string := ["README.md"; "README.rst"; "README.txt"; "README"].

Definition AS_IS : string := "the software is provided " +:+ one dquote +:+ "as is" +:+ one dquote.
Definition verify_license (expected text : string) : bool :=
  let t := lower text in
  if negb (str_in expected ALLOWED_LICENSES) then false
  else if expected =s "MIT" then
    (contains "permission is hereby granted, free of charge" t && contains AS_IS t)
    || contains "spdx-license-identifier: mit" t
  else if expected =s "Apache-2.0" then
    (contains "apache license" t && contains "version 2.0" t) || contains "spdx-license-identifier: apache-2.0" t
  else if str_in expected ["BSD-2-Clause"; "BSD-3-Clause"] then
    contains "redistribution and use in source and binary forms" t
  else if expected =s "MPL-2.0" then
    (contains "mozilla public license" t && (contains "version 2.0" t || contains "v 2.0" t || contains "v2.0" t))
    || contains "spdx-license-identifier: mpl-2.0" t
  else false.

(** [len(rel).to_bytes(8, "big")] *)
Definition length_field (s : string) : string := string_of_bytes (be_bytes 8 (N.of_nat (String.length s))).
(** The bytes [tree_hash] hashes, file by file in path order. *)
Definition tree_bytes (tree : gmap path string) : string :=
  join "" (map (λ e : path * string, length_field (posix (fst e)) +:+ posix (fst e) +:+ snd e)
    (inventory_of [] tree)).
Definition tree_hash (tree : gmap path string) : string := sha256_hex (tree_bytes tree).
Definition size_bytes (tree : gmap path string) : Z :=
  Z.of_nat (list_sum (map (λ e : path * string, String.length (snd e)) (map_to_list tree))).

(** [output.splitlines()[0].split()[0]] of a stripped text that is not empty *)
Fixpoint first_word (s : string) : string :=
  match s with EmptyString => "" | String c s' => if is_space c then "" else String c (first_word s') end.

(** [donor[k]], a string *)
Definition text_item (d : dict) (k : string) : result string :=
  match dget d k with
  | Some (JStr s) => Ok s
  | Some _ => Raise (Exn TypeError "expected str")
  | None => Raise (Exn KeyError k)
  end.

Section collector.
Context `{JsonText, Entropy}.
Context (run : nat → list string → option path → result string) (cloned : nat → list string → gmap path string).
Context (fetch : nat → string → string → string → result string).
Context (root tmp_root : path).

(** A call to the outside. *)
Definition external {A} (f : nat → A) : IO A := λ w, (Ok (f (w_tick w)), tick w).
Definition run_command (argv : list string) (cwd : option path) : IO string :=
  r ← external (λ t, run t argv cwd); lift_result r.
(** [URLError] stands for itself and its subclass HTTPError. *)
Definition fetch_text (repo sha name : string) : IO (option string) :=
  r ← external (λ t, fetch t repo sha name);
  match r with
  | Ok text => mret (Some text)
  | Raise e => if str_in (class_name (exn_cls e)) ["URLError"; "TimeoutError"] then mret None else reraise e
  end.

Definition OUT : path := root ++ ["donors"; "collected"].
Definition LOCK : path := root ++ ["donors"; "LOCK.json"].

Fixpoint fetch_first (repo sha : string) (names : list string) : IO (option (string * string)) :=
  match names with
  | [] => mret None
  | name :: rest =>
      text ← fetch_text repo sha name;
      match text with Some text => mret (Some (name, text)) | None => fetch_first repo sha rest end
  end.
(** The loop of [fetch_matching_license]. *)
Fixpoint fetch_license (repo sha expected : string) (names : list string) : IO (option (string * string)) :=
  match names with
  | [] => mret None
  | name :: rest =>
      text ← fetch_text repo sha name;
      match text with
      | Some text => if verify_license expected text then mret (Some (name, text)) else fetch_license repo sha expected rest
      | None => fetch_license repo sha expected rest
      end
  end.
Definition fetch_matching_license (repo sha expected : string) : IO (option (string * string)) :=
  fetch_license repo sha expected LICENSE_NAMES.

Definition remote (repo : string) : string := "https://github.com/" +:+ repo +:+ ".git".
Fixpoint resolve_candidates (repo ref : string) (candidates : list string) : IO string :=
  match candidates with
  | [] => throw RuntimeError ("cannot resolve " +:+ repo +:+ "@" +:+ ref)
  | c :: rest =>
      output ← attempt (run_command ["git"; "ls-remote"; remote repo; c] None);
      match output with
      | Raise e => if bool_decide (exn_cls e = CalledProcessError) then resolve_candidates repo ref rest else reraise e
      | Ok output => let o := strip output in if o =s "" then resolve_candidates repo ref rest else mret (first_word o)
      end
  end.
Definition resolve_sha (repo ref : string) : IO string :=
  resolve_candidates repo ref ["refs/heads/" +:+ ref; "refs/tags/" +:+ ref +:+ "^{}"; "refs/tags/" +:+ ref; ref].

(** [p.unlink()] when [p.exists()] *)
Definition unlink_if_exists (p : path) : IO unit :=
  files ← gets w_files;
  if is_file p files then modify (with_files (delete p))
  else raise_if (path_exists p files) OSError "Is a directory".

(** [shutil.rmtree(p, ignore_errors=True)]: a file stays *)
Definition rmtree_ignore (p : path) : IO unit := modify (with_files (λ f, if is_file p f then f else clear p f)).

(** The commit the clone is at: the resolved one, or where the branch is now. *)
Definition cloned_commit (repo ref sha : string) (checkout : path) : IO string :=
  actual ← run_command ["git"; "rev-parse"; "HEAD"] (Some checkout);
  let actual := strip actual in
  if actual =s sha then mret sha
  else
    current ← resolve_sha repo ref;
    _ ← raise_if (negb (actual =s current)) RuntimeError
          ("upstream moved inconsistently: expected=" +:+ sha +:+ " clone=" +:+ actual +:+ " now=" +:+ current);
    mret actual.

Definition clean_snapshot (repo ref sha : string) (destination : path) (max_mb : Z) : IO dict :=
  with_tempdir tmp_root "immune-donor-" (λ temp,
    let checkout := temp ++ ["repo"] in
    let argv := ["git"; "clone"; "--depth"; "1"; "--branch"; ref; "--single-branch"; remote repo; "/" +:+ posix checkout] in
    _ ← run_command argv None;
    tree ← external (λ t, cloned t argv);
    _ ← modify (with_files (graft checkout tree));
    sha ← cloned_commit repo ref sha checkout;
    _ ← rmtree_ignore (checkout ++ [".git"]);
    _ ← rmtree_ignore (checkout ++ [".github"]);
    _ ← unlink_if_exists (checkout ++ [".gitmodules"]);
    _ ← unlink_if_exists (checkout ++ [".gitattributes"]);
    files ← gets w_files;
    let tree := subtree checkout files in
    let nbytes := size_bytes tree in
    if (max_mb * 1024 * 1024 <? nbytes)%Z
    then mret [("snapshot", JBool false); ("snapshot_reason", JStr ("working tree " +:+ pretty nbytes +:+ " bytes exceeds " +:+ pretty max_mb +:+ " MiB vault limit"));
               ("resolved_commit", JStr sha)]
    else
      _ ← raise_if (is_file destination files) OSError "Not a directory";
      _ ← modify (with_files (λ f, graft destination tree (clear destination f)));
      files ← gets w_files;
      mret [("snapshot", JBool true); ("snapshot_bytes", JInt nbytes);
            ("snapshot_tree_sha256", JStr (tree_hash (subtree destination files))); ("resolved_commit", JStr sha)]).

Definition write_json (p : path) (v : json) : IO unit :=
  modify (with_files (<[p := dumps Indented v +:+ newline]>)).

(** The [try] block: the entry as it is when the block ends, and what it raised. *)
Definition collect_try (repo ref license : string) (capsule : path) (max_mb : Z) (donor entry : dict) : IO (dict * option exn) :=
  if negb (str_in license ALLOWED_LICENSES)
  then mret (entry, Some (Exn RuntimeError ("license " +:+ license +:+ " is not in OSS allowlist")))
  else
  resolved ← attempt (resolve_sha repo ref);
  match resolved with
  | Raise e => mret (entry, Some e)
  | Ok sha =>
      let entry := dset (dset entry "resolved_commit" (JStr sha)) "source_archive"
                     (JStr ("https://github.com/" +:+ repo +:+ "/archive/" +:+ sha +:+ ".tar.gz")) in
      license_result ← attempt (fetch_matching_license repo sha license);
      match license_result with
      | Raise e => mret (entry, Some e)
      | Ok None => mret (entry, Some (Exn RuntimeError ("no root license text matching declared SPDX " +:+ license)))
      | Ok (Some (license_name, license_text)) =>
          _ ← modify (with_files (<[capsule ++ ["UPSTREAM_LICENSE.txt"] := license_text]>));
          let entry := dset (dset (dset entry "license_file" (JStr license_name)) "license_verified" (JBool true))
                         "license_sha256" (JStr (sha256_hex license_text)) in
          readme_result ← attempt (fetch_first repo sha README_NAMES);
          match readme_result with
          | Raise e => mret (entry, Some e)
          | Ok readme =>
          entry ← match readme with
                  | None => mret entry
                  | Some (readme_name, readme_text) =>
                      _ ← modify (with_files (<[capsule ++ ["UPSTREAM_README.txt"] := readme_text]>));
                      mret (dset (dset entry "readme_file" (JStr readme_name)) "readme_sha256" (JStr (sha256_hex readme_text)))
                  end;
          match dget donor "capture" with
          | None => mret (entry, Some (Exn KeyError "capture"))
          | Some v =>
              if is_text (Some v) "snapshot" then
                snap ← attempt (clean_snapshot repo ref sha (capsule ++ ["src"]) max_mb);
                match snap with
                | Raise e => mret (entry, Some e)
                | Ok snap => mret (dset (dupdate entry snap) "status" (JStr "collected"), None)
                end
              else mret (dset (dset (dset entry "snapshot" (JBool false)) "snapshot_reason"
                      (JStr "capsule mode: upstream runtime is kept external and replaceable")) "status" (JStr "collected"), None)
          end
          end
      end
  end.

(** One turn of the loop over the donors. *)
Definition collect_donor (collected_at : string) (max_mb : Z) (donor : dict) : IO dict :=
  donor_id ← lift_result (text_item donor "id");
  repo ← lift_result (text_item donor "repo");
  ref ← lift_result (text_item donor "ref");
  license ← lift_result (text_item donor "license");
  let capsule := OUT ++ [donor_id] in
  let entry := dset (dset donor "collected_at" (JStr collected_at)) "status" (JStr "failed") in
  '(entry, failure) ← collect_try repo ref license capsule max_mb donor entry;
  entry ← match failure with
          | None => mret entry
          | Some e =>
              _ ← rmtree_ignore (capsule ++ ["src"]);
              mret (dset (dset entry "status" (JStr "rejected_or_failed"))
                      "error" (JStr (class_name (exn_cls e) +:+ ": " +:+ exn_text e)))
          end;
  _ ← write_json (capsule ++ ["DONOR.json"]) (JObj entry);
  mret entry.

Definition collected (entry : dict) : bool := is_text (dget entry "status") "collected".
Definition lock_of (collected_at : string) (registry : dict) (entries : list dict) : dict :=
  let n l := JInt (Z.of_nat (length l)) in
  [("schema", JInt 1); ("generated_at", JStr collected_at); ("policy", default JNull (dget registry "policy"));
   ("donor_count", n entries); ("collected", n (List.filter collected entries));
   ("rejected_or_failed", n (List.filter (λ e, negb (collected e)) entries)); ("donors", JList (map JObj entries))].

Definition donor_dict (v : json) : result dict :=
  match v with JObj d => Ok d | _ => Raise (Exn TypeError "indices must be integers or slices, not str") end.
Definition collect_main (collected_at : string) : IO (Z * list dict) :=
  raw ← read_json (root ++ ["donors"; "registry.json"]);
  registry ← lift_result (as_dict raw);
  max_mb ← lift_result (py_int (default (JInt 30) (dget registry "snapshot_max_mb")));
  donors ← lift_result (subscript (JObj registry) "donors");
  entries ← match donors with
            | JList l => for_each l (λ v, d ← lift_result (donor_dict v); collect_donor collected_at max_mb d)
            | _ => throw TypeError "donors is not a list"
            end;
  _ ← write_json LOCK (JObj (lock_of collected_at registry entries));
  mret (0%Z, entries).

(** ** The laboratory run *)

(** [evidence] as the catalogue takes it: the evidence of each donor is an object *)
Fixpoint evidence_table (d : dict) : result (list (string * dict)) :=
  match d with
  | [] => Ok []
  | (k, JObj e) :: rest => match evidence_table rest with Ok l => Ok ((k, e) :: l) | Raise e => Raise e end
  | _ => Raise (Exn AttributeError "object has no attribute 'get'")
  end.
Fixpoint donor_dicts (l : list json) : result (list dict) :=
  match l with
  | [] => Ok []
  | JObj d :: rest => match donor_dicts rest with Ok ds => Ok (d :: ds) | Raise e => Raise e end
  | _ => Raise (Exn AttributeError "object has no attribute 'get'")
  end.
Definition lab_main (lock_path evidence_path output_path : path) : IO (Z * string) :=
  lock ← read_json lock_path;
  files ← gets w_files;
  evidence ← (if path_exists evidence_path files then read_json evidence_path else mret (JObj []));
  donors ← lift_result (subscript lock "donors");
  donors ← lift_result match donors with JList l => donor_dicts l | _ => Raise (Exn TypeError "not a list") end;
  table ← lift_result match evidence with JObj d => evidence_table d | _ => Raise (Exn AttributeError "no attribute 'get'") end;
  catalog ← lift_result (build_catalog donors table);
  _ ← write_json output_path (JObj catalog);
  summary ← lift_result (subscript (JObj catalog) "summary");
  rejected ← lift_result (subscript summary "rejected");
  mret (if equals_int rejected 0 then 0%Z else 2%Z, dumps Sorted summary).
End collector.

(** * What a collected donor is, that a failed one leaves no source behind, and that it is
    rejected by the laboratory; and where the provenance is weaker than it reads. *)

Section collector_props.
Context `{JsonText, Entropy}.
Context (run : nat → list string → option path → result string) (cloned : nat → list string → gmap path string).
Context (fetch : nat → string → string → string → result string).
Context (root tmp_root : path).
(** The directory for temporary files and the repository do not contain each other. *)
Context (tmp_apart : ∀ rel, strip_prefix tmp_root (root ++ rel) = None).

(** ** Licences *)
Lemma attempt_Ok_inv {A} (m : IO A) w a w' : attempt m w = (Ok (Ok a), w') → m w = (Ok a, w').
Proof. unfold attempt. by destruct (m w) as [r w1]; intros [= -> ->]. Qed.
Lemma fetch_text_Some repo sha name text w w' :
  fetch_text fetch repo sha name w = (Ok (Some text), w') → ∃ t, fetch t repo sha name = Ok text.
Proof.
  unfold fetch_text. intros (r & w1 & [= Hr <-] & Hrun)%bind_Ok_inv. destruct r as [x|e].
  - injection Hrun as <- _. by eexists.
  - by destruct (str_in _ _).
Qed.
Lemma fetch_license_Some repo sha expected names w name text w' :
  fetch_license fetch repo sha expected names w = (Ok (Some (name, text)), w') →
  name ∈ names ∧ (∃ t, fetch t repo sha name = Ok text) ∧ verify_license expected text = true.
Proof.
  revert w. induction names as [|n names IH]; intros w; [done|]. cbn [fetch_license].
  intros (o & w1 & Hf & Hrun)%bind_Ok_inv. destruct o as [t|]; [destruct (verify_license expected t) eqn:Ev|].
  - apply fetch_text_Some in Hf as [n0 Hf]. injection Hrun as <- <- <-. split_and!; [by left|by exists n0|done].
  - apply IH in Hrun as (? & ? & ?). split_and!; [by right|done|done].
  - apply IH in Hrun as (? & ? & ?). split_and!; [by right|done|done].
Qed.
Lemma verified_allowed expected text : verify_license expected text = true → expected ∈ ALLOWED_LICENSES.
Proof.
  unfold verify_license. destruct (str_in expected ALLOWED_LICENSES) eqn:E; [|done]. intros _. by apply str_in_iff.
Qed.

(** ** Paths outside the temporary directory *)
Lemma strip_prefix_None_app a b p : strip_prefix a p = None → strip_prefix (a ++ b) p = None.
Proof.
  destruct (strip_prefix (a ++ b) p) as [rel|] eqn:E; [|done]. apply strip_prefix_Some in E as ->. intros Hn.
  exfalso. revert Hn. rewrite <- app_assoc. by rewrite (proj2 (strip_prefix_Some a (a ++ b ++ rel) (b ++ rel)) eq_refl).
Qed.
Definition outside (dest p : path) : Prop := strip_prefix tmp_root p = None ∧ strip_prefix dest p = None.
(** A run that leaves alone every path outside the temporary directory and [dest]. *)
Definition only_in (dest : path) : relation World :=
  λ w w', w_db w' = w_db w ∧ ∀ p, outside dest p → w_files w' !! p = w_files w !! p.
#[local] Instance only_in_preorder (dest : path) : PreOrder (only_in dest).
Proof. split; [done|]. intros a b c [E1 F1] [E2 F2]. split; [congruence|]. intros p Hp. by rewrite F2, F1. Qed.

Lemma only_in_query dest {A} (f : World → A) : respects (only_in dest) (gets f).
Proof. by intros w. Qed.
Lemma only_in_external dest {A} (f : nat → A) : respects (only_in dest) (external f).
Proof. by intros w. Qed.
Lemma only_in_token dest : respects (only_in dest) token_hex.
Proof. by intros w. Qed.
Lemma only_in_files dest f :
  (∀ files p, outside dest p → f files !! p = files !! p) → respects (only_in dest) (modify (with_files f)).
Proof. intros Hf w. split; [done|]. intros p Hp. by apply Hf. Qed.

(** Paths in the temporary directory. *)
Definition in_tmp (q : path) : Prop := ∃ rel, q = tmp_root ++ rel.
Lemma in_tmp_root rel : in_tmp (tmp_root ++ rel).
Proof. by exists rel. Qed.
Lemma in_tmp_app q rel : in_tmp q → in_tmp (q ++ rel).
Proof. intros [r ->]. exists (r ++ rel). by rewrite app_assoc. Qed.
#[local] Hint Resolve in_tmp_root in_tmp_app : core.
Lemma in_tmp_apart q p : in_tmp q → strip_prefix tmp_root p = None → strip_prefix q p = None.
Proof. intros [rel ->]. apply strip_prefix_None_app. Qed.
Lemma in_tmp_neq q p : in_tmp q → strip_prefix tmp_root p = None → q ≠ p.
Proof. intros [rel ->] Hp <-. by rewrite (proj2 (strip_prefix_Some tmp_root (tmp_root ++ rel) rel) eq_refl) in Hp. Qed.

Lemma clear_elsewhere q files p : strip_prefix q p = None → clear q files !! p = files !! p.
Proof. intros E. by rewrite lookup_clear, E. Qed.
Lemma rmtree_only_in dest q : in_tmp q → respects (only_in dest) (rmtree_ignore q).
Proof.
  intros Hq. apply only_in_files. intros files p [Hp _]. destruct (is_file _ _); [done|]. by apply clear_elsewhere, in_tmp_apart.
Qed.
Lemma unlink_only_in dest q : in_tmp q → respects (only_in dest) (unlink_if_exists q).
Proof.
  intros Hq. unfold unlink_if_exists. apply respects_bind; [typeclasses eauto|apply only_in_query|]. intros files.
  destruct (is_file _ _); [|by apply respects_raise_if; typeclasses eauto]. apply only_in_files. intros fs p [Hp _].
  by apply lookup_delete_ne, in_tmp_neq.
Qed.
Lemma graft_only_in dest q tree : in_tmp q → respects (only_in dest) (modify (with_files (graft q tree))).
Proof. intros Hq. apply only_in_files. intros files p [Hp _]. by apply lookup_graft_out, in_tmp_apart. Qed.
Lemma install_only_in dest tree : respects (only_in dest) (modify (with_files (λ f, graft dest tree (clear dest f)))).
Proof. apply only_in_files. intros files p [_ Hp]. rewrite lookup_graft_out by done. by apply clear_elsewhere. Qed.

#[local] Hint Resolve only_in_external : respects.
Lemma command_only_in dest argv cwd : respects (only_in dest) (run_command run argv cwd).
Proof. unfold run_command. solve_respects. Qed.
#[local] Hint Resolve command_only_in : respects.
Lemma resolve_only_in dest repo ref : respects (only_in dest) (resolve_sha run repo ref).
Proof.
  unfold resolve_sha. generalize ["refs/heads/" +:+ ref; "refs/tags/" +:+ ref +:+ "^{}"; "refs/tags/" +:+ ref; ref] as l.
  induction l as [|c l IH]; cbn [resolve_candidates]; solve_respects.
Qed.
#[local] Hint Resolve resolve_only_in : respects.
Lemma fetches_only_in dest repo sha expected :
  respects (only_in dest) (fetch_matching_license fetch repo sha expected)
  ∧ ∀ names, respects (only_in dest) (fetch_first fetch repo sha names).
Proof.
  split; [unfold fetch_matching_license; generalize LICENSE_NAMES as l|]; intros l; induction l as [|c l IH];
    cbn [fetch_license fetch_first]; unfold fetch_text; solve_respects.
Qed.
Lemma commit_only_in dest repo ref sha checkout : respects (only_in dest) (cloned_commit run repo ref sha checkout).
Proof. unfold cloned_commit. solve_respects. Qed.
#[local] Hint Resolve rmtree_only_in unlink_only_in graft_only_in install_only_in commit_only_in only_in_query : respects.

Lemma tempdir_only_in dest {A} prefix (f : path → IO A) :
  (∀ td, in_tmp td → respects (only_in dest) (f td)) → respects (only_in dest) (with_tempdir tmp_root prefix f).
Proof.
  intros Hf. unfold with_tempdir. apply respects_bind; [typeclasses eauto|apply only_in_token|]. intros name w.
  unfold removed_after. pose proof (Hf (tmp_root ++ [prefix +:+ name]) (in_tmp_root _) w) as [Hd Hfiles].
  destruct (f _ w) as [r w1]. split; [done|]. intros p Hp. cbn [snd w_files with_files].
  rewrite clear_elsewhere by (apply in_tmp_apart; [done|apply Hp]). by apply Hfiles.
Qed.
Lemma snapshot_only_in repo ref sha dest max_mb :
  respects (only_in dest) (clean_snapshot run cloned tmp_root repo ref sha dest max_mb).
Proof.
  unfold clean_snapshot. apply tempdir_only_in. intros td Htd.
  assert (in_tmp (td ++ ["repo"])) as Hco by auto.
  solve_respects.
Qed.

(** ** Snapshots *)

(** What the four removals leave of a checkout. *)
Definition cleaned (checkout : path) (files : gmap path string) : Prop :=
  (∀ name, name ∈ [".git"; ".github"] → is_Some (files !! (checkout ++ [name])) ∨ ∀ rel, files !! (checkout ++ name :: rel) = None)
  ∧ files !! (checkout ++ [".gitmodules"]) = None ∧ files !! (checkout ++ [".gitattributes"]) = None.

Lemma strip_prefix_sibling (a : path) x y rel : x ≠ y → strip_prefix (a ++ [x]) (a ++ y :: rel) = None.
Proof.
  intros Hne. destruct (strip_prefix (a ++ [x]) (a ++ y :: rel)) as [r|] eqn:E; [|done].
  apply strip_prefix_Some in E. rewrite <- app_assoc in E. apply app_inv_head in E. injection E as ->. done.
Qed.
Lemma rmtree_run q w u w' :
  rmtree_ignore q w = (Ok u, w') →
  w_files w' = (if is_file q (w_files w) then w_files w else clear q (w_files w)).
Proof. by intros [= _ <-]. Qed.
Lemma rmtree_gone checkout name files files' :
  files' = (if is_file (checkout ++ [name]) files then files else clear (checkout ++ [name]) files) →
  (is_Some (files' !! (checkout ++ [name])) ∨ ∀ rel, files' !! (checkout ++ name :: rel) = None)
  ∧ ∀ y rel, y ≠ name → files' !! (checkout ++ y :: rel) = files !! (checkout ++ y :: rel).
Proof.
  intros ->. unfold is_file. case_bool_decide as Hf; [by auto|]. split.
  - right. intros rel. rewrite lookup_clear.
    rewrite (proj2 (strip_prefix_Some (checkout ++ [name]) (checkout ++ name :: rel) rel)) by (by rewrite <- app_assoc). done.
  - intros y rel Hy. apply clear_elsewhere, strip_prefix_sibling. congruence.
Qed.
Lemma unlink_gone q w u w' :
  unlink_if_exists q w = (Ok u, w') →
  w_files w' !! q = None ∧ ∀ p, p ≠ q → w_files w' !! p = w_files w !! p.
Proof.
  unfold unlink_if_exists. rewrite bind_gets_run. unfold is_file. case_bool_decide as Hf.
  - intros [= _ <-]. split; [apply lookup_delete_eq|]. intros p Hp. by apply lookup_delete_ne.
  - intros [_ ->]%raise_if_Ok_inv. split; [|done]. by apply eq_None_not_Some.
Qed.

Lemma child_name (a : path) x y r t : a ++ x :: r = a ++ y :: t → x = y.
Proof. intros E. apply app_inv_head in E. congruence. Qed.
Lemma removals_clean checkout w u1 w1 u2 w2 u3 w3 u4 w4 :
  rmtree_ignore (checkout ++ [".git"]) w = (Ok u1, w1) → rmtree_ignore (checkout ++ [".github"]) w1 = (Ok u2, w2) →
  unlink_if_exists (checkout ++ [".gitmodules"]) w2 = (Ok u3, w3) →
  unlink_if_exists (checkout ++ [".gitattributes"]) w3 = (Ok u4, w4) → cleaned checkout (w_files w4).
Proof.
  intros [G1 S1]%rmtree_run%rmtree_gone [G2 S2]%rmtree_run%rmtree_gone [G3 S3]%unlink_gone [G4 S4]%unlink_gone.
  assert (∀ y rel, y ∈ [".git"; ".github"] → w_files w4 !! (checkout ++ y :: rel) = w_files w2 !! (checkout ++ y :: rel)) as Hkeep.
  { intros y rel Hy. rewrite S4, S3; [done|..]; intros E; apply child_name in E; subst; set_solver. }
  split_and!.
  - intros name Hn. setoid_rewrite (Hkeep name); [|done..].
    apply elem_of_cons in Hn as [-> | ->%list_elem_of_singleton]; [|done].
    destruct G1 as [Hs|Hn]; [left|right; intros rel]; by rewrite S2.
  - rewrite S4; [done|]. intros E. by apply child_name in E.
  - done.
Qed.

Lemma snapshot_Ok repo ref sha dest max_mb w snap w' :
  (∀ rel, strip_prefix tmp_root (dest ++ rel) = None) →
  clean_snapshot run cloned tmp_root repo ref sha dest max_mb w = (Ok snap, w') →
  (∃ reason commit, snap = [("snapshot", JBool false); ("snapshot_reason", JStr reason); ("resolved_commit", JStr commit)])
  ∨ ∃ n commit, let tree := subtree dest (w_files w') in
      snap = [("snapshot", JBool true); ("snapshot_bytes", JInt n); ("snapshot_tree_sha256", JStr (tree_hash tree));
              ("resolved_commit", JStr commit)]
      ∧ (size_bytes tree <= max_mb * 1024 * 1024)%Z ∧ cleaned [] tree.
Proof.
  intros Happ Hrun. unfold clean_snapshot, with_tempdir in Hrun. apply bind_Ok_inv in Hrun as (name & w0 & _ & Hrun).
  unfold removed_after in Hrun. set (td := tmp_root ++ [_]) in *. set (checkout := td ++ ["repo"]) in *.
  match type of Hrun with (let '(_, _) := ?m ?x in _) = _ => destruct (m x) as [r w1] eqn:Hin end.
  injection Hrun as -> <-. apply bind_Ok_inv in Hin as (? & w20 & _ & Hin).
  apply bind_Ok_inv in Hin as (? & w21 & _ & Hin). apply bind_Ok_inv in Hin as (? & w2 & _ & Hin). apply bind_Ok_inv in Hin as (sha' & w3 & _ & Hin).
  apply bind_Ok_inv in Hin as (? & w4 & K1 & Hin). apply bind_Ok_inv in Hin as (? & w5 & K2 & Hin).
  apply bind_Ok_inv in Hin as (? & w6 & K3 & Hin). apply bind_Ok_inv in Hin as (? & w7 & K4 & Hin).
  pose proof (removals_clean _ _ _ _ _ _ _ _ _ _ K1 K2 K3 K4) as Hclean.
  apply bind_Ok_inv in Hin as (fs & ? & [= <- <-] & Hin). cbv zeta in Hin.
  destruct (Z.ltb_spec (max_mb * 1024 * 1024) (size_bytes (subtree checkout (w_files w7)))) as [|Hsize].
  { injection Hin as <- _. left. eauto. }
  apply bind_Ok_inv in Hin as (? & ? & [_ ->]%raise_if_Ok_inv & Hin).
  apply bind_Ok_inv in Hin as (? & w8 & [= _ <-] & Hin). apply bind_Ok_inv in Hin as (fs2 & ? & [= <- <-] & Hin).
  injection Hin as <- <-. cbn [w_files with_files].
  assert (subtree dest (clear td (graft dest (subtree checkout (w_files w7)) (clear dest (w_files w7))))
          = subtree checkout (w_files w7)) as ->.
  { rewrite <- (subtree_restore dest (subtree checkout (w_files w7)) (w_files w7)). apply map_eq. intros rel.
    rewrite subtree_restore, lookup_subtree, clear_elsewhere by (apply in_tmp_apart; [apply in_tmp_root|done]).
    rewrite <- lookup_subtree, subtree_restore. done. }
  rewrite subtree_restore. right. eexists _, _. split_and!; [done|done|].
  destruct Hclean as (Hg & Hm & Ha). split_and!; [|by rewrite lookup_subtree..].
  intros n Hn. setoid_rewrite lookup_subtree. cbn [app]. by apply Hg.
Qed.

(** ** Donors *)
Ltac dict_keys := repeat first [rewrite dget_dset_eq | rewrite dget_dset_ne by done].

(** What a collected donor is, in the directory [capsule]. *)
Definition donor_verified (donor entry : dict) (capsule : path) (max_mb : Z) (w' : World) : Prop :=
  ∃ repo license sha name text,
    text_item donor "repo" = Ok repo ∧ text_item donor "license" = Ok license
    ∧ license ∈ ALLOWED_LICENSES ∧ name ∈ LICENSE_NAMES ∧ (∃ t, fetch t repo sha name = Ok text)
    ∧ verify_license license text = true ∧ is_true entry "license_verified" = true
    ∧ dget entry "license_sha256" = Some (JStr (sha256_hex text))
    ∧ w_files w' !! (capsule ++ ["UPSTREAM_LICENSE.txt"]) = Some text
    ∧ (is_true entry "snapshot" = true →
       let tree := subtree (capsule ++ ["src"]) (w_files w') in
       dget entry "snapshot_tree_sha256" = Some (JStr (tree_hash tree))
       ∧ (size_bytes tree <= max_mb * 1024 * 1024)%Z ∧ cleaned [] tree).

Lemma is_true_dget (d d' : dict) k : dget d k = dget d' k → is_true d k = is_true d' k.
Proof. unfold is_true. by intros ->. Qed.

(** The record of the licence, before and after what is added to an entry. *)
Definition licensed (entry : dict) (text : string) : Prop :=
  dget entry "license_verified" = Some (JBool true) ∧ dget entry "license_sha256" = Some (JStr (sha256_hex text)).
Lemma licensed_dset entry text k v :
  k ≠ "license_verified" → k ≠ "license_sha256" → licensed entry text → licensed (dset entry k v) text.
Proof. intros H1 H2 [L1 L2]. split; by rewrite dget_dset_ne. Qed.

Ltac keeps_licence text :=
  match goal with |- context [dset ?e "status" _] =>
    let L1 := fresh "L" in let L2 := fresh "L" in
    assert (licensed (dset e "status" (JStr "collected")) text) as [L1 L2]
      by (repeat (apply licensed_dset; [done..|]); done);
    unfold is_true at 1; rewrite L1
  end.

Lemma sibling_subtree (a : path) x v files : x ≠ "src" → subtree (a ++ ["src"]) (<[a ++ [x] := v]> files) = subtree (a ++ ["src"]) files.
Proof.
  intros Hx. apply map_eq. intros rel. rewrite !lookup_subtree. apply lookup_insert_ne. rewrite <- app_assoc.
  intros E. apply child_name in E. done.
Qed.

Lemma collect_try_run repo ref license capsule max_mb donor entry w entry' failure w' :
  (∀ rel, strip_prefix tmp_root (capsule ++ rel) = None) →
  text_item donor "repo" = Ok repo → text_item donor "license" = Ok license →
  collect_try run cloned fetch tmp_root repo ref license capsule max_mb donor entry w = (Ok (entry', failure), w') →
  w_db w' = w_db w ∧ (failure = None → collected entry' = true ∧ donor_verified donor entry' capsule max_mb w').
Proof.
  intros Happ Hrepo Hlic Hrun. unfold collect_try in Hrun.
  destruct (negb (str_in license ALLOWED_LICENSES)) eqn:Hall; [by injection Hrun as _ <- <-|].
  apply negb_false_iff, str_in_iff in Hall.
  set (dest := capsule ++ ["src"]) in *.
  assert (outside dest (capsule ++ ["UPSTREAM_LICENSE.txt"])) as Hapart by (split; [apply Happ|by apply strip_prefix_sibling]).
  apply bind_Ok_inv in Hrun as (resolved & w01 & Hr01 & Hrun).
  pose proof (respects_run _ _ _ _ _ (respects_attempt (only_in dest) _ (resolve_only_in dest repo ref)) Hr01) as [Hdb01 _].
  destruct resolved as [sha|e]; [|injection Hrun as _ <- <-; split; [congruence|done]]. cbv zeta in Hrun.
  apply bind_Ok_inv in Hrun as (lic & w02 & Hf & Hrun).
  pose proof (respects_run _ _ _ _ _ (respects_attempt (only_in dest) _ (proj1 (fetches_only_in dest repo sha license))) Hf) as [Hdb02 _].
  destruct lic as [[[name text]|]|e]; [|injection Hrun as _ <- <-; split; [congruence|done]..].
  apply attempt_Ok_inv, fetch_license_Some in Hf as (Hn & Ht & Hv). rewrite bind_modify_run in Hrun.
  apply bind_Ok_inv in Hrun as (readme & w03 & Hr & Hrun).
  pose proof (respects_run _ _ _ _ _ (respects_attempt (only_in dest) _ (proj2 (fetches_only_in dest repo sha license) README_NAMES)) Hr) as [Hdb03 Hf03].
  destruct readme as [readme|e]; [|injection Hrun as _ <- <-; split; [cbn in *; congruence|done]].
  specialize (Hf03 _ Hapart). cbn [w_db w_files with_files] in Hdb03, Hf03. rewrite lookup_insert_eq in Hf03. clear Hr.
  apply bind_Ok_inv in Hrun as (e2 & w2 & Hr & Hrun).
  assert (licensed e2 text ∧ w_db w2 = w_db w ∧ w_files w2 !! (capsule ++ ["UPSTREAM_LICENSE.txt"]) = Some text) as (Hl2 & Hdb2 & Hf2).
  { destruct readme as [[rn rt]|].
    - rewrite bind_modify_run in Hr. injection Hr as <- <-. split_and!; [|cbn; congruence|].
      + do 2 (apply licensed_dset; [done..|]). by split; dict_keys.
      + cbn. rewrite lookup_insert_ne by (intros E; by apply child_name in E). done.
    - injection Hr as <- <-. split_and!; [by split; dict_keys|congruence|done]. }
  clear Hr. destruct (dget donor "capture") as [v|]; [|injection Hrun as _ <- <-; split; [congruence|done]].
  destruct (is_text (Some v) "snapshot").
  - unfold attempt in Hrun. unfold mbind at 1, M_bind at 1 in Hrun.
    pose proof (snapshot_only_in repo ref sha dest max_mb w2) as [Hdb3 Hout].
    destruct (clean_snapshot _ _ _ _ _ _ _ _ w2) as [[snap|e] w3] eqn:Hsnap; cbn [snd] in *; injection Hrun as <- <- <-.
    2:{ split; [congruence|done]. }
    split; [congruence|]. intros _.
    assert (w_files w3 !! (capsule ++ ["UPSTREAM_LICENSE.txt"]) = Some text) as Hf3.
    { by rewrite Hout. }
    apply snapshot_Ok in Hsnap; [|intros rel; unfold dest; rewrite <- app_assoc; apply Happ].
    split; [unfold collected; by rewrite dget_dset_eq|]. exists repo, license, sha, name, text.
    destruct Hsnap as [(reason & commit & ->)|(n & commit & -> & Hsize & Hclean)]; unfold dupdate; cbn [fold_left fst snd].
    + keeps_licence text. split_and!; try done. unfold is_true. by dict_keys.
    + keeps_licence text. split_and!; try done. intros _. split_and!; [by dict_keys|done|done].
  - injection Hrun as <- <- <-. split; [congruence|]. intros _.
    split; [unfold collected; by rewrite dget_dset_eq|]. exists repo, license, sha, name, text.
    keeps_licence text. split_and!; try done. unfold is_true. by dict_keys.
Qed.

(** C36. A donor is collected only with its licence: an entry recorded as collected has
    an allowed licence whose text, fetched from the donor's repository, passed the
    licence check, is stored in the capsule and is the one whose digest is recorded; a
    snapshot in it has the recorded tree digest and keeps within the size limit, without
    git metadata.  A donor that is not collected leaves no source tree, and the
    recorded entry is the returned one.  The database is never touched. *)
Theorem collected_donor_verified at_ max_mb donor w entry w' :
  collect_donor run cloned fetch root tmp_root at_ max_mb donor w = (Ok entry, w') →
  ∃ id, text_item donor "id" = Ok id ∧ let capsule := OUT root ++ [id] in
    w_db w' = w_db w
    ∧ (collected entry = true → donor_verified donor entry capsule max_mb w')
    ∧ (collected entry = false → w_files w' !! (capsule ++ ["src"]) = None →
       path_exists (capsule ++ ["src"]) (w_files w') = false)
    ∧ w_files w' !! (capsule ++ ["DONOR.json"]) = Some (dumps Indented (JObj entry) +:+ newline).
Proof.
  unfold collect_donor. intros (id & ? & [Hid ->]%lift_Ok_inv & Hrun)%bind_Ok_inv. exists id. split; [done|].
  apply bind_Ok_inv in Hrun as (repo & ? & [Hrepo ->]%lift_Ok_inv & Hrun).
  apply bind_Ok_inv in Hrun as (ref & ? & [_ ->]%lift_Ok_inv & Hrun).
  apply bind_Ok_inv in Hrun as (license & ? & [Hlic ->]%lift_Ok_inv & Hrun). cbv zeta in *.
  set (capsule := OUT root ++ [id]) in *.
  apply bind_Ok_inv in Hrun as ([e1 failure] & w1 & Htry & Hrun).
  apply collect_try_run in Htry as [Hdb Hok]; [|intros rel; unfold capsule, OUT; rewrite <- !app_assoc; apply tmp_apart|done..].
  apply bind_Ok_inv in Hrun as (e2 & w2 & Hh & Hrun). apply bind_Ok_inv in Hrun as (? & w3 & [= _ <-] & [= <- <-]).
  cbn [w_db w_files with_files].
  assert (w_files (with_files (<[capsule ++ ["DONOR.json"] := dumps Indented (JObj e2) +:+ newline]>) w2) !! (capsule ++ ["DONOR.json"])
          = Some (dumps Indented (JObj e2) +:+ newline)) as Hdonor by apply lookup_insert_eq.
  destruct failure as [e|].
  - apply bind_Ok_inv in Hh as (? & w4 & [= _ <-] & [= <- <-]). split_and!; [done| | |done].
    + unfold collected. rewrite dget_dset_ne, dget_dset_eq by done. done.
    + intros _ Hnone. cbn [w_files with_files] in *. unfold path_exists. destruct (below _ _) as [|[rel c] l] eqn:Eb; [done|].
      exfalso. assert ((rel, c) ∈ (rel, c) :: l) as Hin by by left. rewrite <- Eb in Hin. apply elem_of_below in Hin.
      rewrite lookup_insert_ne in Hnone, Hin; [|rewrite <- ?app_assoc; intros E; by apply child_name in E..].
      unfold is_file in *. case_bool_decide as Hf; [destruct Hf; congruence|].
      rewrite lookup_clear, (proj2 (strip_prefix_Some _ _ rel) eq_refl) in Hin. done.
  - injection Hh as <- <-. destruct (Hok eq_refl) as [Hc (repo' & license' & sha & name & text & H1 & H2 & H3 & H4 & H5 & H6 & H7 & H8 & H9 & H10)].
    split_and!; [done| |congruence|done]. intros _. exists repo', license', sha, name, text. split_and!; try done.
    + cbn. rewrite lookup_insert_ne by (intros E; by apply child_name in E). done.
    + cbn [w_files with_files]. by rewrite sibling_subtree.
Qed.

(** ** The laboratory *)

(** What the collector could not collect the laboratory rejects: a lock with an entry
    that is not collected, for a donor whose provenance is otherwise complete, gives
    a catalogue with a rejection and a run that ends with 2. *)
Lemma failed_entry_rejected entry evidence r :
  dget entry "status" = Some (JStr "rejected_or_failed") → evaluate_donor entry evidence = Ok r → lr_decision r = REJECTED.
Proof.
  intros Hs. unfold evaluate_donor, status_known. rewrite Hs. destruct (_ || _); [by intros [= <-]|].
  by intros [= <-].
Qed.

Lemma evaluate_all_elem donors table results d :
  evaluate_all donors table = Ok results → d ∈ donors → ∃ evidence r, evaluate_donor d evidence = Ok r ∧ r ∈ results.
Proof.
  revert results. induction donors as [|d0 rest IH]; intros results; cbn [evaluate_all]; [intros _ Hd; by apply elem_of_nil in Hd|].
  cbv zeta. destruct (evaluate_donor d0 _) as [r0|] eqn:E0; [|done]. destruct (evaluate_all rest table) as [rs|] eqn:Er; [|done].
  intros [= <-] [->|Hd]%elem_of_cons; [eexists _, r0; split; [exact E0|by left]|].
  destruct (IH rs eq_refl Hd) as (ev & r & Hr & Hin). exists ev, r. split; [done|by right].
Qed.
Lemma donor_dicts_elem l ds d : donor_dicts l = Ok ds → JObj d ∈ l → d ∈ ds.
Proof.
  revert ds. induction l as [|v l IH]; intros ds; cbn [donor_dicts]; [intros _ Hd; by apply elem_of_nil in Hd|].
  destruct v as [| | | | | |d0]; try done. destruct (donor_dicts l) as [ds0|]; [|done].
  intros [= <-] [[= ->]|Hd]%elem_of_cons; [by left|]. right. by apply IH.
Qed.
Lemma count_pos d results r : r ∈ results → lr_decision r = d → (0 < count_decision d results)%Z.
Proof.
  intros Hr Hd. unfold count_decision. assert (r ∈ List.filter (λ r, bool_decide (lr_decision r = d)) results) as Hin.
  { apply list_elem_of_In, filter_In. split; [by apply list_elem_of_In|by apply bool_decide_eq_true]. }
  destruct (List.filter _ results); [by apply elem_of_nil in Hin|]. simpl. lia.
Qed.

(** The laboratory does not pass over a failed collection: if the lock has a donor the
    collector recorded as failed, a run that completes ends with 2, and the stored
    catalogue is the one whose rejections it counted. *)
Theorem lab_rejects_failed_collection lock_path evidence_path output_path w code text w' lock donors entry :
  lab_main lock_path evidence_path output_path w = (Ok (code, text), w') →
  w_files w !! lock_path = Some lock → loads lock = Some (JObj donors) →
  (∃ l, dget donors "donors" = Some (JList l) ∧ JObj entry ∈ l) →
  dget entry "status" = Some (JStr "rejected_or_failed") →
  code = 2%Z ∧ ∃ catalog, w_files w' !! output_path = Some (dumps Indented (JObj catalog) +:+ newline).
Proof.
  intros Hrun Hf Hl (l & Hd & Hin) Hs. unfold lab_main in Hrun.
  apply bind_Ok_inv in Hrun as (lk & w1 & Hlk & Hrun).
  assert (lk = JObj donors) as ->.
  { unfold read_json in Hlk. rewrite bind_gets_run, Hf in Hlk. unfold loads_or_raise in Hlk. rewrite Hl in Hlk.
    by injection Hlk as <- _. }
  apply bind_Ok_inv in Hrun as (fs & w2 & _ & Hrun). apply bind_Ok_inv in Hrun as (ev & w3 & _ & Hrun).
  apply bind_Ok_inv in Hrun as (ds & ? & [Hds ->]%lift_Ok_inv & Hrun). cbn [subscript] in Hds. rewrite Hd in Hds.
  injection Hds as <-. apply bind_Ok_inv in Hrun as (ds & ? & [Hds ->]%lift_Ok_inv & Hrun).
  apply bind_Ok_inv in Hrun as (table & ? & [_ ->]%lift_Ok_inv & Hrun).
  apply bind_Ok_inv in Hrun as (catalog & ? & [Hcat ->]%lift_Ok_inv & Hrun). unfold build_catalog in Hcat.
  destruct (evaluate_all ds table) as [results|] eqn:Ee; [|done]. injection Hcat as <-.
  apply bind_Ok_inv in Hrun as (? & w4 & [= _ <-] & Hrun).
  apply bind_Ok_inv in Hrun as (summary & ? & [[= <-] ->]%lift_Ok_inv & Hrun).
  apply bind_Ok_inv in Hrun as (rejected & ? & [[= <-] ->]%lift_Ok_inv & [= <- _ <-]).
  split; [|eexists; apply lookup_insert_eq].
  destruct (evaluate_all_elem _ _ _ entry Ee (donor_dicts_elem _ _ _ Hds Hin)) as (evd & r & Hr & Hri).
  pose proof (count_pos _ _ _ Hri (failed_entry_rejected _ _ _ Hs Hr)). cbn [equals_int].
  by rewrite (proj2 (Z.eqb_neq _ 0)) by lia.
Qed.

(** ** Weak provenance *)

(** A BSD licence is recognised by a sentence that both variants have: the three-clause
    licence is accepted with the text of the two-clause one, and the other way round. *)
Theorem bsd_variants_not_distinguished text : verify_license "BSD-3-Clause" text = verify_license "BSD-2-Clause" text.
Proof. reflexivity. Qed.

End collector_props.

(** The digest of a tree frames names but not contents: a file that holds the frame of
    another one gives the same bytes as the two files. *)
Theorem tree_digest_ambiguous c d :
  let one_file : gmap path string := {[ ["a"] := c +:+ length_field "b" +:+ "b" +:+ d ]} in
  let two_files : gmap path string := <[ ["a"] := c ]> {[ ["b"] := d ]} in
  one_file ≠ two_files ∧ tree_hash one_file = tree_hash two_files.
Proof.
  intros t1 t2. split.
  - intros E. assert (t1 !! ["b"] = t2 !! ["b"]) as Hb by by rewrite E. unfold t1, t2 in Hb.
    by rewrite lookup_singleton_ne, lookup_insert_ne, lookup_singleton_eq in Hb.
  - unfold tree_hash, tree_bytes. f_equal.
Qed.
