(* ===== verification/Phase1.v ===== *)
(** scripts/phase1_validator.py: the validation of the specification, the contracts and the
    policies, whose evidence file the policy guard and the release gate read; and the
    reference functions of its scenario matrix.

    The texts are UTF-8; [lower] is that of ASCII letters; the detail of a check that
    failed with an exception gives its class and the model's message.

    The theorems follow the definitions. *)

From stdpp Require Import pretty.
From S2P Require Import Prelude Json Sha256 Schema Files Tokens Fortress ProviderProxy Operations Skills.
From S2P Require Import ControlPlane Boundary Text Panel Runtime Gates Engine Policy Checkpoints.
From S2P Require Import CheckpointProps Diagnosis.

(** ** The reference functions *)
Definition authority (i : dict) : string :=
  if forallb (is_true i) ["mission_authorized"; "system_authorized"; "requester_authorized"; "scope_ok"]
  then "PERMITIR" else "BLOQUEAR".
Definition financial (i : dict) : string :=
  if existsb (is_true i) ["new_cost"; "purchase"; "subscription"; "trial_with_billing_risk"; "commercial_license"]
  then "EXIGIR_APROVAÇÃO_HUMANA" else "PERMITIR".
Definition material (i : dict) : string :=
  if is_true i "disables_security_control" then "BLOQUEAR"
  else if is_true i "irreversible" && negb (is_true i "recovery_verified") then "EXIGIR_APROVAÇÃO_HUMANA"
  else if is_true i "material_change" && negb (is_true i "checkpoint_valid") then "EXIGIR_CHECKPOINT"
  else "PERMITIR".
Definition donor (i : dict) : string :=
  if forallb (is_true i) ["open_source"; "license_verified"; "origin_pinned"; "artifact_hash_verified";
                          "security_scanned"; "laboratory_approved"] && claim_is i "authority" "adapter-only"
  then "PERMITIR_COM_RESTRIÇÕES" else "BLOQUEAR".
Definition PROOF_GATES : list string :=
  ["scope_explicit"; "observable_result_achieved"; "relevant_tests_passed"; "regression_validated"; "recovery_validated";
   "security_validated"; "evidence_preserved"; "no_critical_blocker"; "independent_audit_passed"].
Definition mission_proven (i : dict) : bool := forallb (is_true i) PROOF_GATES.

Definition scenarios : list (string * bool) :=
  let yes k := (k, JBool true) in
  [("invalid_mission_blocked", authority [] =s "BLOQUEAR");
   ("worker_scope_expansion_blocked",
    authority [yes "mission_authorized"; yes "system_authorized"; yes "requester_authorized"; ("scope_ok", JBool false)]
      =s "BLOQUEAR");
   ("paid_action_requires_human", financial [yes "purchase"] =s "EXIGIR_APROVAÇÃO_HUMANA");
   ("material_change_without_checkpoint_blocked", material [yes "material_change"] =s "EXIGIR_CHECKPOINT");
   ("irreversible_without_recovery_requires_human", material [yes "irreversible"] =s "EXIGIR_APROVAÇÃO_HUMANA");
   ("disable_security_control_blocked", material [yes "disables_security_control"] =s "BLOQUEAR");
   ("non_oss_donor_blocked", donor [("open_source", JBool false)] =s "BLOQUEAR");
   ("oss_donor_without_lab_blocked",
    donor [yes "open_source"; yes "license_verified"; yes "origin_pinned"; yes "artifact_hash_verified";
           yes "security_scanned"; ("laboratory_approved", JBool false); ("authority", JStr "adapter-only")] =s "BLOQUEAR");
   ("mission_proven_missing_gate_false", negb (mission_proven [yes "scope_explicit"]));
   ("mission_proven_all_gates_true", mission_proven (map yes PROOF_GATES))].

(** ** The checks *)
Record check := Check { ck_name : string; ck_passed : bool; ck_detail : string }.
(** [ok(name, condition)] *)
Definition ok (name : string) (condition : bool) : check := Check name condition "".

Definition EXPECTED_CONTRACTS : list string :=
  ["system.schema.json"; "mission.schema.json"; "incident.schema.json"; "task.schema.json"; "worker.schema.json";
   "evidence.schema.json"; "checkpoint.schema.json"; "policy-decision.schema.json"; "donor-component.schema.json";
   "human-exception.schema.json"].
Definition DECISIONS : list string :=
  ["PERMITIR"; "PERMITIR_COM_RESTRIÇÕES"; "EXIGIR_CHECKPOINT"; "EXIGIR_APROVAÇÃO_HUMANA"; "BLOQUEAR"; "CONTER_E_ESCALAR"].
Definition MISSION_STATES : list string :=
  ["CREATED"; "AUTHORIZED"; "DISCOVERING"; "RUNNING"; "DEGRADED"; "BLOCKED"; "WAITING_HUMAN"; "CONTAINED"; "VALIDATING";
   "COMPLETED"; "FAILED_SAFE"; "CANCELLED"].
Definition INCIDENT_STATES : list string :=
  ["DETECTED"; "CONFIRMED"; "TRIAGED"; "INVESTIGATING"; "CAUSE_IDENTIFIED"; "FIX_PLANNED"; "FIX_TESTING"; "FIX_APPROVED";
   "APPLYING"; "VALIDATING"; "MONITORING_RECOVERY"; "RESOLVED"; "ROLLED_BACK"; "CONTAINED"; "ESCALATED"; "CLOSED_WITH_RISK"].
Definition DNA_MARKERS : list string :=
  ["Fail-closed"; "Open Source Only"; "Separação de funções"; "checkpoint"; "MISSION_PROVEN"; "Loop Engineering"].
Definition CONTROLLED_ROOTS : list string :=
  ["specification"; "constitution"; "contracts"; "state-machines"; "policies"; "acceptance"; "adr"].

(** [dir.glob("*" + suffix)], sorted *)
Definition names_in (dir : path) (suffix : string) (files : gmap path string) : list string :=
  List.filter (has_suffix suffix) (sorted_set (omap (λ kv : path * string, head kv.1) (below dir files))).
(** [default decision := "BLOQUEAR"] *)
Definition BLOCKED_DEFAULT : string := "default decision := " +:+ one dquote +:+ "BLOQUEAR" +:+ one dquote.

(** [set(v) == {...}] for strings of more than one character *)
Definition same_names (l expected : list string) : bool :=
  forallb (λ x, str_in x expected) l && forallb (λ x, str_in x l) expected.
Definition enum_is (v : json) (expected : list string) : result bool :=
  match v with
  | JList l =>
      if existsb (λ x, match x with JList _ | JObj _ => true | _ => false end) l
      then Raise (Exn TypeError "unhashable type")
      else Ok (forallb (λ x, match x with JStr _ => true | _ => false end) l
               && same_names (omap (λ x, match x with JStr s => Some s | _ => None end) l) expected)
  | JObj d => Ok (same_names (map fst d) expected)
  | JStr _ => Ok false
  | _ => Raise (Exn TypeError "object is not iterable")
  end.

Section phase1.
Context `{JsonText, Entropy}.

(** [repr(exc)] *)
Definition exn_repr (e : exn) : string := class_name (exn_cls e) +:+ "('" +:+ exn_msg e +:+ "')".

(** The [try] block of one contract, with its handler. *)
Definition contract_checks (name : string) (text : option string) : list check :=
  let failed e := [Check ("json_parse:" +:+ name) false (exn_repr e)] in
  match text with
  | None => failed (Exn OSError "Is a directory")
  | Some text =>
      match loads text with
      | None => failed (Exn JSONDecodeError "Expecting value")
      | Some v =>
          ok ("json_parse:" +:+ name) true ::
          match v with
          | JObj d =>
              match default (JStr "") (dget d "$schema") with
              | JStr s =>
                  [ok ("draft2020:" +:+ name) (has_suffix "2020-12/schema" s);
                   ok ("strict_object:" +:+ name)
                      (is_text (dget d "type") "object" && match dget d "additionalProperties" with Some (JBool false) => true | _ => false end);
                   ok ("required_nonempty:" +:+ name) (get_truthy d "required" false);
                   ok ("properties_present:" +:+ name) (get_truthy d "properties" false)]
              | _ => failed (Exn AttributeError "object has no attribute 'endswith'")
              end
          | _ => failed (Exn AttributeError "object has no attribute 'get'")
          end
      end
  end.

(** [v.get(k)] on a value of JSON *)
Definition get_of (v : json) (k : string) : result (option json) := item_get v k.

Section root.
Context (root : path).

Definition contract_set_checks : IO (list check) :=
  files ← gets w_files;
  let dir := root ++ ["contracts"] in
  let found := names_in dir ".schema.json" files in
  let checks := Check "contract_set_complete" (same_names found EXPECTED_CONTRACTS) ("found=" +:+ py_str (JList (map JStr found)))
                :: flat_map (λ name, contract_checks name (files !! (dir ++ [name]))) found in
  v ← ControlPlane.read_json (dir ++ ["policy-decision.schema.json"]);
  properties ← lift_result (subscript v "properties");
  decision ← lift_result (subscript properties "decision");
  enum ← lift_result (subscript decision "enum");
  exact ← lift_result (enum_is enum DECISIONS);
  mret (checks ++ [ok "policy_decisions_exact" exact]).

Definition state_machine_checks : IO (list check) :=
  mission ← read_text (root ++ ["state-machines"; "mission.yaml"]);
  incident ← read_text (root ++ ["state-machines"; "incident.yaml"]);
  attempt ← read_text (root ++ ["state-machines"; "attempt.yaml"]);
  mret (map (λ state, ok ("mission_state:" +:+ state) (contains state mission)) MISSION_STATES
        ++ map (λ state, ok ("incident_state:" +:+ state) (contains state incident)) INCIDENT_STATES
        ++ [ok "completed_requires_mission_proven" (contains "COMPLETED requires MISSION_PROVEN" mission);
            ok "attempt_no_blind_retry" (contains "equivalent_retry_requires_new_evidence" attempt
                                         && contains "each_retry_requires_technical_delta" attempt)]).

Definition policy_checks : IO (list check) :=
  dna ← read_text (root ++ ["constitution"; "IMUNE-DNA-001.md"]);
  files ← gets w_files;
  let names := names_in (root ++ ["policies"]) ".rego" files in
  texts ← for_each names (λ name, text ← read_text (root ++ ["policies"; name]); mret (name, text));
  authority ← read_text (root ++ ["policies"; "authority.rego"]);
  donor ← read_text (root ++ ["policies"; "donor-oss.rego"]);
  proven ← read_text (root ++ ["policies"; "mission-proven.rego"]);
  mret (map (λ marker, ok ("dna:" +:+ marker) (contains (lower marker) (lower dna))) DNA_MARKERS
        ++ [Check "rego_policy_count" (Nat.eqb (length names) 7) ("count=" +:+ pretty.pretty (Z.of_nat (length names)))]
        ++ flat_map (λ p : string * string,
             [ok ("rego_package:" +:+ fst p) (String.prefix "package immune." (snd p));
              ok ("rego_has_default:" +:+ fst p) (contains "default " (snd p))]) texts
        ++ [ok "authority_fail_closed" (contains BLOCKED_DEFAULT authority);
            ok "donor_fail_closed" (contains BLOCKED_DEFAULT donor);
            ok "mission_proven_default_false" (contains "default mission_proven := false" proven)]).

Definition donor_checks : IO (list check) :=
  files ← gets w_files;
  if path_exists (root ++ ["donors"; "LOCK.json"]) files then
    lock ← ControlPlane.read_json (root ++ ["donors"; "LOCK.json"]);
    policy ← lift_result (get_of lock "policy");
    rejected ← lift_result (get_of lock "rejected_or_failed");
    mret [ok "donor_inventory_policy_oss_only" (is_text policy "open-source-only");
          ok "donor_inventory_no_failed_collection" match rejected with Some v => equals_int v 0 | None => false end]
  else mret [].

Definition source_checks : IO (json * list check) :=
  manifest ← ControlPlane.read_json (root ++ ["specification"; "SOURCE_MANIFEST.json"]);
  digest ← lift_result (get_of manifest "sha256");
  version ← lift_result (get_of manifest "version");
  mret (manifest, [ok "source_manifest_sha256_shape" match digest with Some (JStr s) => Nat.eqb (char_count s) 64 | _ => false end;
                   ok "source_manifest_version" (is_text version "1.0")]).

(** [hashes]: every file below a controlled folder *)
Definition folder_hashes (files : gmap path string) (folder : string) : dict :=
  map (λ e : path * string, (posix (folder :: fst e), JStr (sha256_hex (snd e))))
    (List.filter (λ e : path * string, match fst e with [] => false | _ => true end) (inventory_of (root ++ [folder]) files)).
Definition controlled_hashes (files : gmap path string) : dict := flat_map (folder_hashes files) CONTROLLED_ROOTS.

Definition check_json (c : check) : json :=
  JObj [("name", JStr (ck_name c)); ("passed", JBool (ck_passed c)); ("detail", JStr (ck_detail c))].
Definition failures (checks : list check) : list check := List.filter (λ c, negb (ck_passed c)) checks.
Definition phase1_state (checks : list check) : string :=
  match failures checks with [] => "PHASE1_PROVEN" | _ => "PHASE1_FAILED" end.
Definition phase1_summary (checks : list check) : dict :=
  let n (l : list check) := JInt (Z.of_nat (length l)) in
  [("total", n checks); ("passed", n (List.filter ck_passed checks)); ("failed", n (failures checks))].
Definition phase1_evidence (validated_at : string) (source : json) (checks : list check) (hashes : dict) : dict :=
  [("schema", JInt 1); ("phase", JStr "PHASE_1_SPECIFICATION_AND_CONTRACTS"); ("validated_at", JStr validated_at);
   ("source_sha256", source); ("checks", JList (map check_json checks)); ("summary", JObj (phase1_summary checks));
   ("controlled_file_sha256", JObj hashes); ("result", JStr (phase1_state checks));
   ("scope_note", JStr "PHASE1_PROVEN prova somente consistência de especificação e contratos; não é MISSION_PROVEN do produto completo.")].
Definition phase1_status (checks : list check) : string :=
  text_of_lines
    ["# Fase 1 — Especificação e Contratos"; ""; "**Estado: " +:+ phase1_state checks +:+ "**"; "";
     "Checks: " +:+ pretty.pretty (Z.of_nat (length (List.filter ck_passed checks))) +:+ "/"
       +:+ pretty.pretty (Z.of_nat (length checks)) +:+ " aprovados."; "";
     "Este estado prova somente a Fase 1. O produto completo permanece sem MISSION_PROVEN."].

(** The checks in the order of the script, with the source manifest. *)
Definition phase1_checks : IO (json * list check) :=
  contracts ← contract_set_checks;
  machines ← state_machine_checks;
  policies ← policy_checks;
  donors ← donor_checks;
  '(manifest, sources) ← source_checks;
  mret (manifest, contracts ++ machines ++ policies
                  ++ map (λ s : string * bool, ok ("scenario:" +:+ fst s) (snd s)) scenarios ++ donors ++ sources).

(** The script: the lines it prints. *)
Definition EVIDENCE : path := root ++ ["evidence"; "phase1-validation.json"].
Definition phase1_main (validated_at : string) : IO (list string) :=
  '(manifest, checks) ← phase1_checks;
  files ← gets w_files;
  source ← lift_result (subscript manifest "sha256");
  let evidence := phase1_evidence validated_at source checks (controlled_hashes files) in
  _ ← modify (with_files (<[EVIDENCE := dumps IndentedUnicode (JObj evidence) +:+ newline]>));
  _ ← modify (with_files (<[root ++ ["PHASE1_STATUS.md"] := phase1_status checks]>));
  _ ← raise_if match failures checks with [] => false | _ => true end SystemExit "1";
  mret [dumps Sorted (JObj (phase1_summary checks)); "PHASE1_PROVEN"].
End root.
End phase1.

(** * The evidence the validator writes is what its two readers expect. *)

Lemma dget_unique (d : dict) k v : (k, v) ∈ d → (∀ v', (k, v') ∈ d → v' = v) → dget d k = Some v.
Proof.
  induction d as [|[k0 v0] d IH]; [by intros Hin%elem_of_nil|]. intros Hin Hu. cbn [dget].
  destruct (String.eqb_spec k0 k) as [->|Hk].
  - f_equal. apply Hu. by left.
  - apply IH; [|intros v' Hv'; apply Hu; by right]. apply elem_of_cons in Hin as [[= -> ->]|?]; done.
Qed.

(** The states the diagnosis engine knows and the ones the validator demands of the declared
    machine of incidents, state-machines/incident.yaml: they share three.  A new incident is
    OPEN, a state the declared machine does not have. *)
Theorem incident_states_diverge s :
  (s ∈ ACTIVE_INCIDENT_STATES ++ ["RESOLVED"] ∧ s ∈ INCIDENT_STATES) ↔ s ∈ ["INVESTIGATING"; "VALIDATING"; "RESOLVED"].
Proof.
  rewrite <- !str_in_iff, <- andb_true_iff. split.
  - intros [Ha Hi]%andb_true_iff. apply str_in_iff in Ha.
    repeat (apply elem_of_cons in Ha as [->|Ha]; [first [reflexivity|discriminate Hi]|]). by apply elem_of_nil in Ha.
  - intros Hs%str_in_iff. repeat (apply elem_of_cons in Hs as [->|Hs]; [reflexivity|]). by apply elem_of_nil in Hs.
Qed.

Section evidence.
Context `{JsonText, Entropy}.
Context (root : path).

(** The names of the controlled files have no slash. *)
Definition named_files (files : gmap path string) : Prop :=
  ∀ folder rel c, folder ∈ CONTROLLED_ROOTS → files !! (root ++ folder :: rel) = Some c → Forall (λ x, no_slash x = true) rel.

Lemma controlled_hash files folder rel c :
  named_files files → folder ∈ CONTROLLED_ROOTS → rel ≠ [] → files !! (root ++ folder :: rel) = Some c →
  dget (controlled_hashes root files) (posix (folder :: rel)) = Some (JStr (sha256_hex c)).
Proof.
  intros Hn Hf Hrel Hc.
  assert (∀ f r x, (r, x) ∈ inventory_of (root ++ [f]) files ↔ files !! (root ++ f :: r) = Some x) as Hinv.
  { intros f r x. unfold inventory_of. rewrite order_by_perm, elem_of_map_to_list, lookup_subtree, <- app_assoc. done. }
  assert (∀ f, f ∈ CONTROLLED_ROOTS → no_slash f = true) as Hr.
  { apply Forall_forall. repeat (constructor; [vm_compute; reflexivity|]). constructor. }
  apply dget_unique.
  - apply list_elem_of_In, in_flat_map. exists folder. split; [by apply list_elem_of_In|]. apply list_elem_of_In. apply list_elem_of_In, in_map_iff. exists (rel, c). split; [done|].
    apply filter_In. split; [apply list_elem_of_In, Hinv, Hc|by destruct rel].
  - intros v Hin. apply list_elem_of_In, in_flat_map in Hin as (f & Hf'%list_elem_of_In & Hin%list_elem_of_In). apply list_elem_of_In, in_map_iff in Hin as ([r x] & [= Hp <-] & [Hin _]%filter_In).
    apply list_elem_of_In, Hinv in Hin. assert (f :: r = folder :: rel) as [= -> ->].
    { assert (split_slash (posix (f :: r)) = split_slash (posix (folder :: rel))) as Hs by (f_equal; exact Hp).
      rewrite !split_posix in Hs; [exact Hs|..]; (split; [done|]); (constructor; [by apply Hr|]).
      - exact (Hn folder rel c Hf Hc).
      - exact (Hn f r x Hf' Hin). }
    congruence.
Qed.

(** ** A completed run *)
Lemma flat_no_failures checks : failures checks = [] → ∀ c, c ∈ checks → ck_passed c = true.
Proof.
  intros Hf c Hc. destruct (ck_passed c) eqn:E; [done|]. assert (c ∈ failures checks) as Hin.
  { apply list_elem_of_In, filter_In. split; [by apply list_elem_of_In|by rewrite E]. }
  rewrite Hf in Hin. by apply elem_of_nil in Hin.
Qed.
#[local] Hint Resolve read_json_untouched : respects.
Lemma phase1_checks_untouched : respects untouched (phase1_checks root).
Proof.
  unfold phase1_checks, contract_set_checks, state_machine_checks, policy_checks, donor_checks, source_checks, read_text.
  solve_respects.
Qed.
(** The checks read the constitution. *)
Lemma phase1_checks_read w r w' :
  phase1_checks root w = (Ok r, w') → (∃ dna, w_files w !! (root ++ ["constitution"; "IMUNE-DNA-001.md"]) = Some dna) ∧ snd r ≠ [].
Proof.
  unfold phase1_checks. intros (contracts & w1 & Hc & Hr)%bind_Ok_inv. apply bind_Ok_inv in Hr as (machines & w2 & Hm & Hr).
  apply bind_Ok_inv in Hr as (policies & w3 & Hp & Hr). apply bind_Ok_inv in Hr as (donors & w4 & _ & Hr).
  apply bind_Ok_inv in Hr as ([manifest sources] & w5 & _ & [= <- _]).
  assert (untouched w w2) as [_ F].
  { etrans.
    - refine (respects_run _ _ _ _ _ _ Hc). unfold contract_set_checks. solve_respects.
    - refine (respects_run _ _ _ _ _ _ Hm). unfold state_machine_checks, read_text. solve_respects. }
  split.
  - unfold policy_checks in Hp. apply bind_Ok_inv in Hp as (dna & w6 & Hp & _). unfold read_text in Hp.
    apply bind_Ok_inv in Hp as (file & ? & [= <- _] & Hp). rewrite F in Hp. destruct (w_files w !! _) as [t|]; [by exists t|done].
  - cbn [snd]. intros E. do 3 apply app_eq_nil in E as [_ E]. discriminate E.
Qed.

(** What is read back of the evidence. *)
Lemma evidence_get at_ source checks hashes :
  ∃ e, loads (dumps IndentedUnicode (JObj (phase1_evidence at_ source checks hashes)) +:+ newline) = Some (JObj e)
    ∧ ∀ k, dget e k = jcanon <$> dget (phase1_evidence at_ source checks hashes) k.
Proof.
  rewrite loads_newline, loads_dumps. eexists. split; [reflexivity|]. fold jcanon. intros k. by rewrite dget_sort_keys, dget_map_jcanon.
Qed.

(** The two files of a run that got through its checks. *)
Definition written (at_ : string) (source : json) (checks : list check) (w w' : World) : Prop :=
  w_db w' = w_db w
  ∧ w_files w' = <[root ++ ["PHASE1_STATUS.md"] := phase1_status checks]>
      (<[EVIDENCE root := dumps IndentedUnicode (JObj (phase1_evidence at_ source checks (controlled_hashes root (w_files w)))) +:+ newline]>
        (w_files w)).
Lemma phase1_main_written at_ w manifest checks w1 source :
  phase1_checks root w = (Ok (manifest, checks), w1) → subscript manifest "sha256" = Ok source →
  ∃ out w', phase1_main root at_ w = (out, w') ∧ written at_ source checks w w'
    ∧ (if bool_decide (failures checks = []) then is_Ok out = true else out = Raise (Exn SystemExit "1")).
Proof.
  intros Hc Hs. pose proof (phase1_checks_untouched w) as Hu. rewrite Hc in Hu. destruct Hu as [D F]. cbn [snd] in D, F.
  unfold phase1_main. rewrite (bind_Ok _ _ _ _ _ Hc), bind_gets_run, F, Hs, bind_lift_Ok, !bind_modify_run.
  destruct (failures checks) as [|c l] eqn:Ef; (eexists _, _; split; [reflexivity|]; split; [|reflexivity]; split; [exact D|]);
    unfold with_files; cbn [w_files]; by rewrite F.
Qed.
Lemma phase1_main_run at_ w out w' :
  phase1_main root at_ w = (out, w') →
  (∃ e, out = Raise e ∧ untouched w w')
  ∨ ∃ source checks dna, written at_ source checks w w' ∧ checks ≠ []
      ∧ w_files w !! (root ++ ["constitution"; "IMUNE-DNA-001.md"]) = Some dna
      ∧ (if bool_decide (failures checks = []) then is_Ok out = true else out = Raise (Exn SystemExit "1")).
Proof.
  intros Hrun. pose proof (phase1_checks_untouched w) as Hu.
  destruct (phase1_checks root w) as [[[manifest checks]|e] w1] eqn:Ec; cbn [snd] in Hu.
  2:{ unfold phase1_main in Hrun. rewrite (bind_Raise _ _ _ _ _ Ec) in Hrun. injection Hrun as <- <-. left. by eexists. }
  destruct (subscript manifest "sha256") as [source|e] eqn:Es.
  - right. destruct (phase1_main_written at_ w manifest checks w1 source Ec Es) as (out' & w2 & E & Hw & Hout).
    rewrite E in Hrun. injection Hrun as <- <-. apply phase1_checks_read in Ec as [[dna ?] ?]. by exists source, checks, dna.
  - left. unfold phase1_main in Hrun. rewrite (bind_Ok _ _ _ _ _ Ec), bind_gets_run, Es in Hrun. injection Hrun as <- <-. by eexists.
Qed.

Lemma status_apart : root ++ ["PHASE1_STATUS.md"] ≠ EVIDENCE root.
Proof. unfold EVIDENCE. intros E. by apply app_inv_head in E. Qed.
Lemma written_evidence at_ source checks w w' :
  written at_ source checks w w' →
  w_files w' !! EVIDENCE root
  = Some (dumps IndentedUnicode (JObj (phase1_evidence at_ source checks (controlled_hashes root (w_files w)))) +:+ newline).
Proof. intros [_ ->]. rewrite lookup_insert_ne by apply status_apart. apply lookup_insert_eq. Qed.
Lemma written_elsewhere at_ source checks w w' p :
  written at_ source checks w w' → p ≠ EVIDENCE root → p ≠ root ++ ["PHASE1_STATUS.md"] → w_files w' !! p = w_files w !! p.
Proof. intros [_ ->] H1 H2. by rewrite !lookup_insert_ne by done. Qed.

Lemma read_json_run p w text v : w_files w !! p = Some text → loads text = Some v → ControlPlane.read_json p w = (Ok v, w).
Proof. intros Hf Hl. unfold ControlPlane.read_json. rewrite bind_gets_run, Hf. unfold lift_result, loads_or_raise. by rewrite Hl. Qed.
(** The digest of the constitution the guard is built with is the one in the evidence. *)
Lemma written_guard at_ source checks identity w w' dna :
  named_files (w_files w) → w_files w !! (root ++ ["constitution"; "IMUNE-DNA-001.md"]) = Some dna → written at_ source checks w w' →
  ∃ g, from_repository root identity w' = (Ok g, w') ∧ pg_identity g = identity
    ∧ constitution_ok (w_files w') (pg_constitution_path g) (pg_expected_constitution_sha256 g) = true.
Proof.
  intros Hn Hdna Hw. assert (w_files w' !! (root ++ ["constitution"; "IMUNE-DNA-001.md"]) = Some dna) as Hdna'.
  { rewrite (written_elsewhere _ _ _ _ _ _ Hw); [done|unfold EVIDENCE|]; intros E; by apply app_inv_head in E. }
  destruct (evidence_get at_ source checks (controlled_hashes root (w_files w))) as (e & Hl & He).
  assert (dget (controlled_hashes root (w_files w)) "constitution/IMUNE-DNA-001.md" = Some (JStr (sha256_hex dna))) as Hh.
  { apply (controlled_hash (w_files w) "constitution" ["IMUNE-DNA-001.md"]); [done|by right; left|done|done]. }
  eexists. unfold from_repository. rewrite (bind_Ok _ _ _ _ _ (read_json_run _ _ _ _ (written_evidence _ _ _ _ _ Hw) Hl)).
  cbn [subscript]. rewrite He. cbn [phase1_evidence dget String.eqb Ascii.eqb Bool.eqb fmap option_fmap option_map jcanon].
  rewrite bind_lift_Ok. cbn [subscript]. fold jcanon. rewrite dget_sort_keys, dget_map_jcanon, Hh. cbn [fmap option_fmap option_map jcanon].
  rewrite bind_lift_Ok. split; [reflexivity|]. split; [reflexivity|]. cbn [pg_constitution_path pg_expected_constitution_sha256].
  unfold constitution_ok. rewrite Hdna', String.eqb_refl. reflexivity.
Qed.

(** The gate on the first phase, on the evidence of a run without failures. *)
Lemma all_passed_checks checks :
  failures checks = [] → all_passed (map jcanon (map check_json checks)) = Ok true.
Proof.
  intros Hf. pose proof (flat_no_failures checks Hf) as Hp. clear Hf. induction checks as [|c checks IH]; [done|].
  cbn [map all_passed check_json jcanon item_get sort_keys foldr insert_by]. rewrite (Hp c) by (by left).
  cbn. apply IH. intros x Hx. apply Hp. by right.
Qed.
Lemma written_gate at_ source checks w w' :
  checks ≠ [] → failures checks = [] → written at_ source checks w w' → ∃ r, phase_gate root 1 w' = (Ok r, w').
Proof.
  intros Hne Hf Hw. destruct (evidence_get at_ source checks (controlled_hashes root (w_files w))) as (e & Hl & He).
  assert (load_json root "evidence/phase1-validation.json" w' = (Ok e, w')) as Hload.
  { unfold load_json. rewrite bind_gets_run. change (root ++ split_slash "evidence/phase1-validation.json") with (EVIDENCE root).
    rewrite (written_evidence _ _ _ _ _ Hw). unfold loads_or_raise. by rewrite Hl, bind_lift_Ok. }
  unfold phase_gate. cbv zeta. change (pretty (Z.of_nat 1)) with "1". change ("evidence/phase" +:+ "1" +:+ "-validation.json") with "evidence/phase1-validation.json".
  rewrite (bind_Ok _ _ _ _ _ Hload), !He.
  cbn [phase1_evidence dget String.eqb Ascii.eqb Bool.eqb fmap option_fmap option_map]. unfold phase1_state, phase1_summary. rewrite Hf.
  unfold require, int_get. rewrite bind_raise_if_run by reflexivity.
  set (np := Z.of_nat (length (List.filter ck_passed checks))).
  change (as_record _) with (Ok [("failed", JInt 0); ("passed", JInt np); ("total", JInt (Z.of_nat (length checks)))]) at 1.
  rewrite bind_lift_Ok. cbn [dget String.eqb Ascii.eqb Bool.eqb from_option id py_int]. rewrite bind_lift_Ok, bind_raise_if_run by reflexivity.
  assert (as_records (Some (jcanon (JList (map check_json checks)))) = Ok (map jcanon (map check_json checks))) as -> by (by destruct checks).
  rewrite bind_lift_Ok, all_passed_checks, bind_lift_Ok by done.
  rewrite bind_raise_if_run by (rewrite bool_decide_eq_false_2; [done|by destruct checks]).
  rewrite !bind_lift_Ok. by eexists.
Qed.

(** C17. The validator's evidence is what its readers expect: a run that completes writes its
    two files and nothing else, and then the release gate accepts the first phase, and
    the policy guard built from the repository finds its constitution intact, as long as
    the names of the controlled files have no slash. *)
Theorem phase1_evidence_accepted at_ identity w lines w' :
  named_files (w_files w) → phase1_main root at_ w = (Ok lines, w') →
  w_db w' = w_db w
  ∧ (∀ p, p ≠ EVIDENCE root → p ≠ root ++ ["PHASE1_STATUS.md"] → w_files w' !! p = w_files w !! p)
  ∧ (∃ r, phase_gate root 1 w' = (Ok r, w'))
  ∧ ∃ g, from_repository root identity w' = (Ok g, w') ∧ pg_identity g = identity
      ∧ constitution_ok (w_files w') (pg_constitution_path g) (pg_expected_constitution_sha256 g) = true.
Proof.
  intros Hn [(e & E & _)|(source & checks & dna & Hw & Hne & Hdna & Hout)]%phase1_main_run; [done|].
  destruct (bool_decide_reflect (failures checks = [])) as [Hf|Hf]; [|done].
  split_and!; [apply Hw|intros p ? ?; by eapply written_elsewhere|by eapply written_gate|by eapply written_guard].
Qed.

(** A failed validation is trusted all the same: the evidence it leaves says so, and the
    guard, which reads the digest and not the result, accepts the constitution the failed
    run found. *)
Theorem failed_validation_still_trusted at_ identity w source checks w' :
  named_files (w_files w) → phase1_checks root w = (Ok (source, checks), w') → failures checks ≠ [] →
  is_Ok (subscript source "sha256") = true →
  ∃ w'', phase1_main root at_ w = (Raise (Exn SystemExit "1"), w'')
    ∧ ∃ g, from_repository root identity w'' = (Ok g, w'')
        ∧ constitution_ok (w_files w'') (pg_constitution_path g) (pg_expected_constitution_sha256 g) = true.
Proof.
  intros Hn Hc Hf Hs. destruct (subscript source "sha256") as [digest|] eqn:Es; [|done].
  destruct (phase1_main_written at_ w source checks w' digest Hc Es) as (out & w'' & E & Hw & Hout).
  rewrite bool_decide_eq_false_2 in Hout by done. subst out. exists w''. split; [exact E|].
  apply phase1_checks_read in Hc as [[dna Hdna] _]. destruct (written_guard at_ digest checks identity w w'' dna Hn Hdna Hw) as (g & ? & _ & ?).
  by exists g.
Qed.
End evidence.
