(* ===== verification/Policies.v ===== *)
(** policies/*.rego: the declared policies, and how the policy guard and the acceptance
    gate of immune_core relate to them and to the reference functions of the validator of
    phase 1.

    Rego, as its documentation defines it: a reference to a key the input does not have is
    undefined, and an expression with it fails; [==] and [!=] compare JSON values;
    [not e] holds when [e] is undefined or false; a body holds when each of its expressions
    does; a complete rule has the value of the bodies that hold, its default when none
    does, and is an evaluation error when two of them differ.

    The theorems follow the definitions. *)

From S2P Require Import Prelude Json Schema Tokens TokenProps Policy PolicyProps Engine Phase1.

(** ** Rego *)

(** [input.k != true] *)
Definition differs_true (i : dict) (k : string) : bool :=
  match dget i k with None => false | Some (JBool true) => false | Some _ => true end.
(** [not input.k] *)
Definition not_input (i : dict) (k : string) : bool :=
  match dget i k with None => true | Some (JBool false) => true | Some _ => false end.
(** A complete rule: its default, and its values with their bodies. *)
Definition complete {A} `{EqDecision A} (default : A) (rules : list (A * bool)) : result A :=
  match List.filter snd rules with
  | [] => Ok default
  | (v, _) :: rest =>
      if forallb (λ r, bool_decide (fst r = v)) rest then Ok v
      else Raise (Exn RuntimeError "eval_conflict_error: complete rules must not produce multiple outputs")
  end.

(** ** The policies *)
Definition authority_rego (i : dict) : result string :=
  let authorised := is_true i "mission_authorized" && is_true i "system_authorized" && is_true i "requester_authorized"
                    && is_true i "scope_ok" in
  complete "BLOQUEAR"
    [("PERMITIR", authorised && not_input i "restrictions_required");
     ("PERMITIR_COM_RESTRIÇÕES", authorised && is_true i "restrictions_required")].
Definition checkpoint_rego (i : dict) : result string :=
  complete "PERMITIR"
    [("EXIGIR_CHECKPOINT", is_true i "material_change" && differs_true i "checkpoint_valid");
     ("BLOQUEAR", is_true i "checkpoint_required" && differs_true i "recovery_procedure_defined")].
Definition destructive_rego (i : dict) : result string :=
  complete "PERMITIR"
    [("EXIGIR_CHECKPOINT", is_true i "material_change" && differs_true i "checkpoint_valid");
     ("EXIGIR_APROVAÇÃO_HUMANA", is_true i "irreversible" && differs_true i "recovery_verified");
     ("BLOQUEAR", is_true i "disables_security_control")].
Definition donor_rego (i : dict) : result string :=
  complete "BLOQUEAR"
    [("PERMITIR_COM_RESTRIÇÕES",
      is_true i "open_source" && is_true i "license_verified" && is_true i "origin_pinned" && is_true i "artifact_hash_verified"
      && is_true i "security_scanned" && is_true i "laboratory_approved" && claim_is i "authority" "adapter-only")].
Definition financial_rego (i : dict) : result string :=
  complete "PERMITIR"
    [("EXIGIR_APROVAÇÃO_HUMANA", is_true i "new_cost"); ("EXIGIR_APROVAÇÃO_HUMANA", is_true i "purchase");
     ("EXIGIR_APROVAÇÃO_HUMANA", is_true i "subscription"); ("EXIGIR_APROVAÇÃO_HUMANA", is_true i "trial_with_billing_risk");
     ("EXIGIR_APROVAÇÃO_HUMANA", is_true i "commercial_license")].
Definition secrets_rego (i : dict) : result string :=
  complete "PERMITIR"
    [("BLOQUEAR", is_true i "exposes_secret"); ("BLOQUEAR", is_true i "logs_plaintext_secret");
     ("BLOQUEAR", is_true i "prompt_contains_unredacted_secret")].
Definition mission_rego (i : dict) : result bool :=
  complete false
    [(true, is_true i "scope_explicit" && is_true i "observable_result_achieved" && is_true i "relevant_tests_passed"
            && is_true i "regression_validated" && is_true i "recovery_validated" && is_true i "security_validated"
            && is_true i "evidence_preserved" && is_true i "no_critical_blocker" && is_true i "independent_audit_passed")].

(** * The guard enforces the declared policies where the request gives them what they read,
    and the divergences where it does not. *)

(** A policy that decides, and permits. *)
Definition allows (r : result string) : bool :=
  match r with Ok d => str_in d ["PERMITIR"; "PERMITIR_COM_RESTRIÇÕES"] | Raise _ => false end.
(** The request as the guard takes it once the requester's token verified. *)
Definition authenticated (request : dict) : dict := dset request "requester_authorized" (JBool true).

(** What the policies decide on and the guard does not read is as the guard takes it, and what
    the policies compare with true is there to be compared. *)
Record covered (request : dict) : Prop := {
  cv_secret : is_true request "exposes_secret" = false;
  cv_restrictions : not_input request "restrictions_required" = true ∨ is_true request "restrictions_required" = true;
  cv_procedure : is_true request "checkpoint_required" = true → differs_true request "recovery_procedure_defined" = false;
  cv_checkpoint : is_true request "material_change" = true → dget request "checkpoint_valid" ≠ None;
  cv_recovery : is_true request "irreversible" = true → dget request "recovery_verified" ≠ None;
}.

Section policies.
Context `{JsonText, Entropy}.

Lemma differs_true_given i k : dget i k ≠ None → differs_true i k = negb (is_true i k).
Proof. unfold differs_true, is_true. by destruct (dget i k) as [[|[]| | | | |]|]. Qed.
Lemma is_true_authenticated request k :
  is_true (authenticated request) k = (("requester_authorized" =s k) || is_true request k).
Proof.
  unfold is_true, authenticated. destruct (String.eqb_spec "requester_authorized" k) as [<-|Hk]; [by rewrite dget_dset_eq|].
  by rewrite dget_dset_ne.
Qed.
Lemma not_input_authenticated request : not_input (authenticated request) "restrictions_required" = not_input request "restrictions_required".
Proof. unfold not_input, authenticated. by rewrite dget_dset_ne. Qed.

Lemma authority_allows request :
  allows (authority_rego (authenticated request)) = true ↔
  (is_true request "mission_authorized" && is_true request "system_authorized" && is_true request "scope_ok" = true)
  ∧ (not_input request "restrictions_required" = true ∨ is_true request "restrictions_required" = true).
Proof.
  unfold authority_rego. rewrite !is_true_authenticated, not_input_authenticated. cbn [String.eqb Ascii.eqb Bool.eqb orb].
  assert (is_true request "restrictions_required" = true → not_input request "restrictions_required" = false) as Hx.
  { unfold is_true, not_input. by destruct (dget request "restrictions_required") as [[|[]| | | | |]|]. }
  destruct (is_true request "mission_authorized"), (is_true request "system_authorized"), (is_true request "scope_ok");
    destruct (is_true request "restrictions_required"); rewrite ?Hx by done; destruct (not_input request "restrictions_required");
    vm_compute; intuition discriminate.
Qed.
Lemma financial_allows request : allows (financial_rego request) = negb (existsb (is_true request) FINANCIAL_FLAGS).
Proof.
  unfold financial_rego, FINANCIAL_FLAGS. cbn [existsb].
  destruct (is_true request "new_cost"), (is_true request "purchase"), (is_true request "subscription"),
    (is_true request "trial_with_billing_risk"), (is_true request "commercial_license"); vm_compute; reflexivity.
Qed.
Lemma secrets_allows request :
  allows (secrets_rego request) = negb (is_true request "exposes_secret"
    || (is_true request "logs_plaintext_secret" || is_true request "prompt_contains_unredacted_secret")).
Proof.
  unfold secrets_rego. destruct (is_true request "exposes_secret"), (is_true request "logs_plaintext_secret"),
    (is_true request "prompt_contains_unredacted_secret"); vm_compute; reflexivity.
Qed.
Lemma donor_allows request :
  allows (donor_rego request) = forallb (is_true request) DONOR_GATES && claim_is request "authority" "adapter-only".
Proof.
  unfold donor_rego, DONOR_GATES. cbn [forallb]. rewrite andb_true_r, !andb_assoc.
  match goal with |- context [(?v, ?b)] => destruct b; vm_compute; reflexivity end.
Qed.
Lemma changes_allow request :
  (allows (checkpoint_rego request) && allows (destructive_rego request)) =
  negb (is_true request "material_change" && differs_true request "checkpoint_valid")
  && negb (is_true request "checkpoint_required" && differs_true request "recovery_procedure_defined")
  && negb (is_true request "irreversible" && differs_true request "recovery_verified")
  && negb (is_true request "disables_security_control").
Proof.
  unfold checkpoint_rego, destructive_rego.
  destruct (is_true request "material_change" && _), (is_true request "checkpoint_required" && _),
    (is_true request "irreversible" && _), (is_true request "disables_security_control"); vm_compute; reflexivity.
Qed.
Lemma covered_guard (a : bool) i k :
  (a = true → dget i k ≠ None) → a && differs_true i k = a && negb (is_true i k).
Proof. destruct a; [|done]. intros Hk. by rewrite differs_true_given by auto. Qed.
Lemma request_allowed_bool principal request :
  request_allowed principal request ↔
  (is_true request "mission_authorized" && is_true request "system_authorized" && is_true request "scope_ok" = true)
  ∧ (request_scope request = "" ∨ has_scope principal (request_scope request) = true)
  ∧ existsb (is_true request) FINANCIAL_FLAGS = false ∧ is_true request "disables_security_control" = false
  ∧ is_true request "logs_plaintext_secret" || is_true request "prompt_contains_unredacted_secret" = false
  ∧ is_true request "irreversible" && negb (is_true request "recovery_verified") = false
  ∧ is_true request "material_change" && negb (is_true request "checkpoint_valid") = false
  ∧ (is_true request "donor_component" = true →
       forallb (is_true request) DONOR_GATES && claim_is request "authority" "adapter-only" = true).
Proof.
  rewrite existsb_keys, orb_false_iff, !guard_passed, !andb_true_iff, forallb_keys. split.
  - intros [Hf Hs Hfree Hsec Hp Hr Hc Hd]. split_and!; try done; try apply Hp.
    all: apply Hf; apply str_in_iff; reflexivity.
  - intros ([[? ?] ?] & ? & ? & ? & ? & ? & ? & ?). split; try done.
    intros k Hk. repeat (apply elem_of_cons in Hk as [->|Hk]; [done|]). by apply elem_of_nil in Hk.
Qed.
Lemma mission_proven_rego i : mission_rego i = Ok (mission_proven i).
Proof.
  unfold mission_rego, mission_proven, PROOF_GATES. cbn [forallb]. rewrite andb_true_r, !andb_assoc.
  match goal with |- complete _ [(_, ?b)] = _ => by destruct b end.
Qed.
Lemma mission_gate secret scope_id gates : mission_rego gates = Ok (p_proven (evaluated_proof secret scope_id gates)).
Proof.
  rewrite mission_proven_rego. f_equal. unfold mission_proven, evaluated_proof. cbn [p_proven]. unfold missing_gates.
  change REQUIRED_GATES with PROOF_GATES.
  induction PROOF_GATES as [|g l IH]; [done|]. cbn [List.filter forallb]. by destruct (is_true gates g).
Qed.

(** ** The guard and the policies *)

(** C11. The guard enforces the declared policies: on a request that is [covered], a verified
    identity is permitted exactly when the constitution is intact, the identity holds the
    scope, and each of policies/authority.rego (told that the requester was verified),
    financial.rego, secrets.rego, checkpoint.rego and destructive-actions.rego decides and
    permits, and for a donor component donor-oss.rego too.  The acceptance gate proves a
    mission exactly when policies/mission-proven.rego does, on every input. *)
Theorem guard_enforces_policies constitution principal request (Hcovered : covered request) :
  (permitted (decide_verified constitution principal request) = true ↔
     constitution = true
     ∧ (request_scope request = "" ∨ has_scope principal (request_scope request) = true)
     ∧ allows (authority_rego (authenticated request)) = true
     ∧ allows (financial_rego request) = true ∧ allows (secrets_rego request) = true
     ∧ allows (checkpoint_rego request) = true ∧ allows (destructive_rego request) = true
     ∧ (is_true request "donor_component" = true → allows (donor_rego request) = true))
  ∧ ∀ secret scope_id gates, mission_rego gates = Ok (p_proven (evaluated_proof secret scope_id gates)).
Proof.
  split; [|intros; apply mission_gate].
  destruct Hcovered as [Hsecret Hrestr Hproc Hcheck Hrec].
  rewrite (assoc (∧) (allows (checkpoint_rego request) = true)), <- andb_true_iff, changes_allow.
  rewrite authority_allows, financial_allows, secrets_allows, donor_allows, Hsecret.
  rewrite (covered_guard _ _ _ Hcheck), (covered_guard _ _ _ Hrec).
  assert (is_true request "checkpoint_required" && differs_true request "recovery_procedure_defined" = false) as ->.
  { destruct (is_true request "checkpoint_required"); [by apply Hproc|done]. }
  rewrite decide_permits_iff, request_allowed_bool. cbn [orb negb].
  rewrite !andb_true_iff, !negb_true_iff. tauto.
Qed.

(** What the policies decide on and the guard does not read: a request that exposes a secret, or
    that asks for restrictions, gets the decision it would get without saying so, where
    secrets.rego blocks and authority.rego permits with restrictions only; and a material
    change that says nothing of a checkpoint passes checkpoint.rego, where the guard asks
    for one. *)
Theorem policies_not_read constitution principal request :
  let exposed := dset request "exposes_secret" (JBool true) in
  let restricted := dset request "restrictions_required" (JBool true) in
  decide_verified constitution principal exposed = decide_verified constitution principal request
  ∧ secrets_rego exposed = Ok "BLOQUEAR"
  ∧ decide_verified constitution principal restricted = decide_verified constitution principal request
  ∧ (allows (authority_rego (authenticated restricted)) = true →
     authority_rego (authenticated restricted) = Ok "PERMITIR_COM_RESTRIÇÕES")
  ∧ checkpoint_rego [("material_change", JBool true)] = Ok "PERMITIR".
Proof.
  intros exposed restricted. split_and!; [| | | |done].
  - apply decide_reads. intros k Hk. apply dget_dset_ne. intros <-. by apply str_in_iff in Hk.
  - unfold secrets_rego, exposed. assert (is_true (dset request "exposes_secret" (JBool true)) "exposes_secret" = true) as ->
      by (unfold is_true; by rewrite dget_dset_eq).
    by destruct (is_true _ "logs_plaintext_secret"), (is_true _ "prompt_contains_unredacted_secret").
  - apply decide_reads. intros k Hk. apply dget_dset_ne. intros <-. by apply str_in_iff in Hk.
  - unfold authority_rego. assert (is_true (authenticated restricted) "restrictions_required" = true) as ->
      by (rewrite is_true_authenticated; unfold restricted, is_true; by rewrite dget_dset_eq).
    assert (not_input (authenticated restricted) "restrictions_required" = false) as ->
      by (rewrite not_input_authenticated; unfold restricted, not_input; by rewrite dget_dset_eq).
    rewrite andb_false_r, andb_true_r. match goal with |- context [(_, ?b)] => match b with false => fail 1 | _ => destruct b; done end end.
Qed.

(** The reference functions of phase 1 decide as the policies do: those of costs, donors and
    proof on every input, that of authority where no restrictions are asked for, and that of
    changes where the policy decides and is given what it compares. *)
Theorem references_match_policies i :
  financial_rego i = Ok (financial i) ∧ donor_rego i = Ok (donor i) ∧ mission_rego i = Ok (mission_proven i)
  ∧ (not_input i "restrictions_required" = true → authority_rego i = Ok (authority i))
  ∧ ∀ d, destructive_rego i = Ok d →
      (is_true i "material_change" = true → dget i "checkpoint_valid" ≠ None) →
      (is_true i "irreversible" = true → dget i "recovery_verified" ≠ None) → d = material i.
Proof.
  split_and!; [| |apply mission_proven_rego| |].
  - unfold financial_rego, financial. cbn [existsb].
    destruct (is_true i "new_cost"), (is_true i "purchase"), (is_true i "subscription"), (is_true i "trial_with_billing_risk"),
      (is_true i "commercial_license"); vm_compute; reflexivity.
  - unfold donor_rego, donor. cbn [forallb]. rewrite andb_true_r, !andb_assoc.
    match goal with |- complete _ [(_, ?b)] = _ => by destruct b end.
  - intros Hn. unfold authority_rego, authority. cbn [forallb].
    assert (is_true i "restrictions_required" = false) as ->.
    { revert Hn. unfold not_input, is_true. by destruct (dget i "restrictions_required") as [[|[]| | | | |]|]. }
    rewrite Hn, andb_true_r, andb_false_r, andb_true_r, !andb_assoc.
    match goal with |- context [(_, ?b)] => destruct b; done end.
  - intros d Hd Hc Hr. unfold destructive_rego in Hd. rewrite (covered_guard _ _ _ Hc), (covered_guard _ _ _ Hr) in Hd.
    unfold material. revert Hd.
    destruct (is_true i "disables_security_control"), (is_true i "irreversible" && _), (is_true i "material_change" && _);
      vm_compute; congruence.
Qed.
End policies.
