(* ===== verification/GatewayRuntime.v ===== *)
(** scripts/immune_gateway_runtime.py: the process that owns the network boundary; and the
    status scripts, scripts/gateway_status.py and scripts/provider_status.py.

    [cwd] is the working directory and [environ] the environment; [connect] and [urlopen]
    are the network of the adapters and [listen] binds the address of the server.  A run
    of the main loop has a list of turns, one per poll interval, and then the interrupt;
    a turn carries the POST requests that reach the server during it.

    The server is a ThreadingHTTPServer: it handles each request in a thread of its own,
    with the connection the main thread opened.  sqlite3 raises ProgrammingError when a
    connection is used outside the thread that made it (storage.py does not pass
    check_same_thread=False), and socketserver drops the connection of a handler that
    raised.

    The theorems follow the definitions. *)

From S2P Require Import Prelude Json Schema Files Storage Ledger Tokens Observability Fortress Gateway.
From S2P Require Import Providers ProviderProxy Autonomy Adapters ControlPlane Text Runtime LedgerProps.
From S2P Require Import TokenProps GatewayProps Panel Discovery DiscoveryProps.

(** The command line. *)
Record gateway_args := { ga_config : string; ga_poll_interval : Q }.
Definition gateway_defaults (root : path) : gateway_args :=
  {| ga_config := "/" +:+ posix (root ++ ["config"; "gateway-runtime.json"]); ga_poll_interval := 2 |}.

(** A call with keyword arguments: one that is not a parameter, or a parameter without a
    value, is a TypeError (and so is a positional parameter named again). *)
Definition keywords (names required : list string) (options : dict) : result unit :=
  match unknown_keys names options with
  | k :: _ => Raise (Exn TypeError ("got an unexpected keyword argument '" +:+ k +:+ "'"))
  | [] => match List.filter (λ k, negb (has_key options k)) required with
          | [] => Ok tt
          | k :: _ => Raise (Exn TypeError ("missing a required argument: '" +:+ k +:+ "'"))
          end
  end.
(** A method of [str] on a value of JSON. *)
Definition as_text (v : json) : result string :=
  match v with JStr s => Ok s | _ => Raise (Exn AttributeError "object has no attribute 'strip'") end.
(** An optional text of which the adapter asks first whether it is truthy. *)
Definition optional_text (text : json → result string) (v : json) : result (option string) :=
  if truthy v then rbind (text v) (λ s, Ok (Some s)) else Ok None.

(** ** The adapters *)
Section build.
Context `{JsonText, Entropy} (cwd : path) (environ : string → option string).
Context (connect : string → Z → Q → IO unit) (urlopen : http_call → Q → IO (Z * string)).

Definition WMCP2_URL : string := "http://127.0.0.1:8766/.well-known/oauth-protected-resource".
Definition TUNNEL_HEARTBEAT : string := "C:\Projetos\WINDOWS-MCP\.wmcp2\tunel-core\state\supervisor-heartbeat.json".
(** [WMCP2GatewayAdapter] with the options as keywords *)
Definition build_wmcp2 (options : dict) : result ProtectedSystemAdapter :=
  rbind (keywords ["wmcp2_url"; "tunnel_core_heartbeat"; "gateway_host"; "gateway_port"; "legacy_host"; "legacy_port"] [] options) (λ _,
  rbind (match default (JStr TUNNEL_HEARTBEAT) (dget options "tunnel_core_heartbeat") with
         | JStr p => Ok (resolve_join cwd p)
         | _ => Raise (Exn TypeError "expected str, bytes or os.PathLike object")
         end) (λ heartbeat,
  rbind (get_int options "gateway_port" 4010) (λ gateway_port,
  rbind (get_int options "legacy_port" 8765) (λ legacy_port,
  Ok (wmcp2_adapter connect urlopen
        {| wa_url := get_str options "wmcp2_url" WMCP2_URL; wa_heartbeat := heartbeat;
           wa_gateway_host := get_str options "gateway_host" "127.0.0.1"; wa_gateway_port := gateway_port;
           wa_legacy_host := get_str options "legacy_host" "127.0.0.1"; wa_legacy_port := legacy_port |}))))).

(** [TCPHealthGatewayAdapter], its host and port among the options; the identifiers of a
    binding are not blank, so the host is looked at before the port is converted *)
Definition build_tcp (system_id adapter_id : string) (options : dict) : result ProtectedSystemAdapter :=
  rbind (keywords ["host"; "port"] ["host"; "port"] options) (λ _,
  rbind (as_text (default JNull (dget options "host"))) (λ host,
  rbind (if blank host then Ok 0%Z else py_int (default JNull (dget options "port"))) (λ port,
  rbind (tcp_health_adapter system_id host port adapter_id) (λ a,
  Ok (tcp_adapter connect a))))).

(** [HTTPJSONGatewayAdapter], its keywords the options; urllib takes the text of the address *)
Definition build_http (system_id adapter_id : string) (options : dict) : result ProtectedSystemAdapter :=
  rbind (keywords ["action_endpoint"; "credential_env"; "health_endpoint"] ["action_endpoint"] options) (λ _,
  rbind (as_text (default JNull (dget options "action_endpoint"))) (λ action_endpoint,
  rbind (if String.prefix "http://" action_endpoint || String.prefix "https://" action_endpoint
         then optional_text as_text (default JNull (dget options "credential_env")) else Ok None) (λ credential_env,
  rbind (optional_text (λ v, Ok (py_str v)) (default JNull (dget options "health_endpoint"))) (λ health_endpoint,
  rbind (http_json_adapter {| ha_system_id := system_id; ha_adapter_id := adapter_id; ha_action_endpoint := action_endpoint;
                              ha_credential_env := credential_env; ha_health_endpoint := health_endpoint |}) (λ a,
  Ok (http_adapter environ urlopen a)))))).

(** One binding: an adapter of another name is not built here. *)
Definition build_adapter (b : SystemBinding) : result (option ProtectedSystemAdapter) :=
  let some r := rbind r (λ a, Ok (Some a)) in
  if sb_adapter b =s "wmcp2-local" then some (build_wmcp2 (sb_config b))
  else if sb_adapter b =s "tcp-health" then some (build_tcp (sb_system_id b) (sb_adapter b) (sb_config b))
  else if sb_adapter b =s "http-json" then some (build_http (sb_system_id b) (sb_adapter b) (sb_config b))
  else Ok None.
Fixpoint build_each (adapters : gmap string ProtectedSystemAdapter) (bindings : list SystemBinding)
    : result (gmap string ProtectedSystemAdapter) :=
  match bindings with
  | [] => Ok adapters
  | b :: rest =>
      if negb (sb_enabled b) then build_each adapters rest
      else match build_adapter b with
           | Raise e => Raise e
           | Ok (Some a) => build_each (<[sb_system_id b := a]> adapters) rest
           | Ok None => build_each adapters rest
           end
  end.
Definition build_adapters (config : GatewayRuntimeConfig) : result (gmap string ProtectedSystemAdapter) :=
  build_each ∅ (gc_systems config).
End build.

(** ** The process *)
Section process.
Context `{JsonText, Entropy} (cwd : path) (environ : string → option string).
Context (connect : string → Z → Q → IO unit) (urlopen : http_call → Q → IO (Z * string)) (listen : string → Z → IO unit).

Section serving.
Context (config : GatewayRuntimeConfig) (adapters : gmap string ProtectedSystemAdapter).

(** [_claim_nonce] in the thread of a request: its first statement of SQL raises. *)
Definition claim_nonce_in_thread (_ nonce : string) (_ : Q) : IO unit :=
  _ ← raise_if (Nat.ltb (char_count nonce) 16 || Nat.ltb 128 (char_count nonce) || has_space nonce)
        GatewayAuthenticationError "invalid gateway nonce";
  throw ProgrammingError "SQLite objects created in a thread can only be used in that same thread.".
(** [ingest_signed] there; it does not get past the claim. *)
Definition ingest_in_thread (system_id body : string) (timestamp : Z) (nonce signature : string) : IO IngressReceipt :=
  _ ← verify_signature_with environ config claim_nonce_in_thread system_id body timestamp nonce signature None;
  throw ProgrammingError "SQLite objects created in a thread can only be used in that same thread.".
(** A POST as the server answers it: [None] is the connection it drops. *)
Definition serve_post (q : http_request) : IO (option http_response) :=
  answer ← attempt (do_POST_with config ingest_in_thread q);
  mret match answer with Ok response => Some response | Raise _ => None end.

(** The [for] loop of a turn. *)
Definition pull (b : SystemBinding) : IO unit :=
  if sb_enabled b && (sb_ingress b =s "pull")
  then except (λ c, negb (bool_decide (c = SystemExit)))
         (_ ← collect_once config adapters (sb_system_id b) 2 None; mret tt)
         (λ e, _ ← audit "immune-gateway" "gateway_pull_failed" None
                    [("system_id", JStr (sb_system_id b)); ("error", JStr (class_name (exn_cls e)))] None;
               mret tt)
  else mret tt.
Definition gateway_turn (requests : list http_request) : IO (list (option http_response)) :=
  _ ← for_each (gc_systems config) pull;
  for_each requests serve_post.
End serving.

(** The exit code and what each request was answered. *)
Definition gateway_main (args : gateway_args) (turns : list (list http_request))
    : IO (Z * list (list (option http_response))) :=
  _ ← raise_if (qle (ga_poll_interval args) 0) SystemExit "--poll-interval must be positive";
  files ← gets w_files;
  config ← lift_result (load_config files (resolve_join cwd (ga_config args)));
  adapters ← lift_result (build_adapters cwd environ connect urlopen config);
  _ ← listen (gc_bind_host config) (gc_bind_port config);
  _ ← audit "immune-gateway" "gateway_runtime_started" None
        [("bind_host", JStr (gc_bind_host config)); ("bind_port", JInt (gc_bind_port config))] None;
  finally (answers ← for_each turns (gateway_turn config adapters); mret (0%Z, answers))
    (_ ← audit "immune-gateway" "gateway_runtime_stopped" None [] None; mret tt).

(** ** The status *)
Definition BOUNDARY_STATEMENT : dict :=
  [("external_input", JStr "data-only"); ("external_core_identity", JBool false); ("external_control_api", JBool false);
   ("protected_system_specific_code_location", JStr "immune_gateway.adapters"); ("core_specific_protocol_dependency", JBool false)].
Definition gateway_status (config : string) : IO (Z * string) :=
  files ← gets w_files;
  config ← lift_result (load_config files (resolve_join cwd config));
  mret (0%Z, dumps IndentedUnicode (JObj (dset (public_status environ config) "boundary" (JObj BOUNDARY_STATEMENT)))).
Definition provider_status (config : string) : IO (Z * string) :=
  files ← gets w_files;
  cfg ← lift_result (load_providers files (resolve_join cwd config));
  agents ← lift_result (agent_registry []);
  mret (0%Z, dumps IndentedUnicode (JObj [("provider_runtime", JObj (providers_view environ cfg));
                                          ("internal_agents", JList (map JObj (agents_view agents)))])).
End process.

(** * The gateway's process: it brings data in and no authority, and a system that fails does
    not stop the others; but the pushes its handler accepts are dropped. *)

Section gateway_runtime_props.
Context `{JsonText, Entropy} (cwd : path) (environ : string → option string).
Context (connect : string → Z → Q → IO unit) (urlopen : http_call → Q → IO (Z * string)) (listen : string → Z → IO unit).

(** ** Pushes *)
Section serving.
Context (config : GatewayRuntimeConfig).
Abbreviation accepting := (Gateway.do_POST environ config).
Abbreviation serving := (serve_post environ config).

Lemma in_thread_untouched sid body ts nonce sig : respects untouched (ingest_in_thread environ config sid body ts nonce sig).
Proof.
  pose proof untouched_now. unfold ingest_in_thread, verify_signature_with, claim_nonce_in_thread. solve_respects.
Qed.
Lemma in_thread_raises sid body ts nonce sig w : ∃ e w', ingest_in_thread environ config sid body ts nonce sig w = (Raise e, w').
Proof.
  unfold ingest_in_thread, mbind, M_bind. destruct (verify_signature_with _ _ _ _ _ _ _ _ _ w) as [[[]|e] w']; by eexists _, _.
Qed.
(** What the handler accepts in the thread of the connection is refused by sqlite3 in its own. *)
Lemma in_thread_dropped sid body ts nonce sig w w1 :
  verify_signature environ config sid body ts nonce sig None w = (Ok tt, w1) →
  ∃ e w2, ingest_in_thread environ config sid body ts nonce sig w = (Raise e, w2) ∧ exn_cls e = ProgrammingError.
Proof.
  unfold verify_signature, verify_signature_with. intros (t & w2 & Ht & Hr)%bind_Ok_inv.
  apply bind_Ok_inv in Hr as (b & ? & [Hb ->]%lift_Ok_inv & Hr).
  apply bind_Ok_inv in Hr as (? & ? & [H1 ->]%raise_if_Ok_inv & Hr).
  apply bind_Ok_inv in Hr as (? & ? & [H2 ->]%raise_if_Ok_inv & Hr).
  apply bind_Ok_inv in Hr as (? & ? & [H3 ->]%raise_if_Ok_inv & Hr).
  apply bind_Ok_inv in Hr as (secret & ? & [H4 ->]%lift_Ok_inv & Hr).
  apply bind_Ok_inv in Hr as (ok & ? & [H5 ->]%lift_Ok_inv & Hr).
  apply bind_Ok_inv in Hr as (? & ? & [H6 ->]%raise_if_Ok_inv & Hr).
  unfold claim_nonce in Hr. apply bind_Ok_inv in Hr as (? & ? & [H7 ->]%raise_if_Ok_inv & _).
  eexists (Exn ProgrammingError _), w2. split; [|reflexivity]. unfold ingest_in_thread. apply bind_Raise. unfold verify_signature_with.
  rewrite (bind_Ok _ _ _ _ _ Ht), Hb, bind_lift_Ok, bind_raise_if_run, bind_raise_if_run, bind_raise_if_run by done.
  rewrite H4, bind_lift_Ok, H5, bind_lift_Ok, bind_raise_if_run by done.
  unfold claim_nonce_in_thread. by rewrite bind_raise_if_run.
Qed.

(** The handler either answers without taking the observation, or takes it and answers 202;
    what the taking raised is answered 403 or raised, ProgrammingError always raised. *)
Definition taken_as (take : string → string → Z → string → string → IO IngressReceipt) (q : http_request) (w : World)
    (r : result IngressReceipt * World) : Prop :=
  match r with
  | (Ok _, w') => ∃ payload, do_POST_with config take q w = (Ok (respond 202 payload), w')
  | (Raise e, w') => do_POST_with config take q w = (Raise e, w')
                     ∨ exn_cls e ≠ ProgrammingError ∧ ∃ payload, do_POST_with config take q w = (Ok (respond 403 payload), w')
  end.
Lemma do_POST_cases q w :
  (∃ response, hr_status response ≠ 202%Z ∧ ∀ take, do_POST_with config take q w = (Ok response, w))
  ∨ ∃ sid body ts nonce sig, ∀ take, taken_as take q w (take sid body ts nonce sig w).
Proof.
  unfold taken_as, do_POST_with. destruct (removeprefix_go _ _) as [rest|]; [|left; eexists; split; cycle 1; [intros take; reflexivity|done]].
  destruct (int_header (default "0" _)) as [len|]; [|left; eexists; split; cycle 1; [intros take; reflexivity|done]]. destruct (_ || _); [left; eexists; split; cycle 1; [intros take; reflexivity|done]|].
  destruct (int_header (default "" (hq_timestamp q))) as [ts|[c msg]] eqn:Ets.
  - right. exists (lstrip_slash (rstrip_slash rest)), (String.substring 0 (Z.to_nat len) (hq_stream q)), ts,
      (default "" (hq_nonce q)), (default "" (hq_signature q)). intros take. unfold catch, mbind, M_bind, lift_result.
    destruct (take _ _ ts _ _ w) as [[rc|[cls msg]] w']; [eexists; reflexivity|].
    cbn [exn_cls]. destruct cls; (by left) || (right; split; [discriminate|by eexists]).
  - left. unfold int_header, py_int in Ets. destruct (parse_int _); [done|]. injection Ets as <- <-. eexists; split; cycle 1; [intros take; reflexivity|done].
Qed.

(** C24. No push is accepted: whatever a request carries, the server of the runtime changes no
    table and no file and does not answer 202; and the requests its handler would accept,
    signed, fresh and within the limits, are those it drops without an answer. *)
Theorem runtime_drops_signed_pushes q w :
  ∃ answer w', serving q w = (Ok answer, w') ∧ untouched w w' ∧ (∀ response, answer = Some response → hr_status response ≠ 202%Z)
    ∧ ∀ response w1, accepting q w = (Ok response, w1) → hr_status response = 202%Z → answer = None.
Proof.
  unfold serve_post, attempt, mbind, M_bind, Gateway.do_POST. set (take := ingest_in_thread environ config).
  destruct (do_POST_cases q w) as [(r & Hr & Hall)|(sid & body & ts & nonce & sig & Hall)].
  { rewrite !Hall. eexists _, w. split_and!; [reflexivity|done|congruence|]. intros ? ? [= <- _]. done. }
  pose proof (in_thread_untouched sid body ts nonce sig w) as Hu. destruct (in_thread_raises sid body ts nonce sig w) as (e & w2 & Et).
  rewrite Et in Hu. cbn [snd] in Hu. pose proof (Hall take) as Hm. unfold taken_as, take in Hm. rewrite Et in Hm. fold take in Hm.
  assert (∀ response w1, do_POST_with config (λ sid body ts nonce sig, ingest_signed environ config sid body ts nonce sig None) q w
            = (Ok response, w1) → hr_status response = 202%Z → exn_cls e = ProgrammingError) as Hdrop.
  { intros response w1 Ha H202. pose proof (Hall (λ sid body ts nonce sig, ingest_signed environ config sid body ts nonce sig None)) as Hi.
    unfold taken_as in Hi. destruct (ingest_signed _ _ _ _ _ _ _ _ w) as [[rc|e'] w3] eqn:Ei.
    2:{ exfalso. destruct Hi as [Hi|(_ & ? & Hi)]; rewrite Hi in Ha; [done|]. by injection Ha as <- _. }
    unfold ingest_signed in Ei. apply bind_Ok_inv in Ei as ([] & w5 & Ei & _).
    apply in_thread_dropped in Ei as (e1 & w6 & Ei & ?). congruence. }
  destruct Hm as [Hm|(Hne & payload & Hm)]; rewrite Hm; (eexists _, _; split_and!; [reflexivity|done|..]).
  - done.
  - done.
  - by intros ? [= <-].
  - intros r w1 Ha Hr. by destruct (Hne (Hdrop r w1 Ha Hr)).
Qed.
End serving.

(** ** Pulls *)
Context (Hconnect : ∀ host port timeout, respects untouched (connect host port timeout)).
Context (Hurlopen : ∀ call timeout, respects untouched (urlopen call timeout)).
Context (Hlisten : ∀ host port, respects untouched (listen host port)).
Abbreviation collects a := (∀ timeout, respects untouched (pa_collect a timeout)).

(** A signal the gateway marked as data from outside. *)
Definition marked_untrusted (s : signal_row) : Prop :=
  ∃ attrs, loads (sg_attributes_json s) = Some (JObj attrs) ∧ dget attrs "trust" = Some (JStr "UNTRUSTED_EXTERNAL_DATA").
(** What enters is data: files and authority stay, and every new signal is marked. *)
Definition brings_data (w w' : World) : Prop :=
  data_only w w' ∧ ∀ s, s ∈ obs_signals (w_db w') → s ∈ obs_signals (w_db w) ∨ marked_untrusted s.
#[export] Instance brings_data_preorder : PreOrder brings_data.
Proof.
  split; [intros w; split; [by split|auto]|]. intros a b c [[F1 N1] S1] [[F2 N2] S2].
  split; [split; [congruence|by etrans]|]. intros s [Hs|?]%S2; auto.
Qed.
Lemma untouched_brings_data {A} (m : IO A) : respects untouched m → respects brings_data m.
Proof. intros Hm w. destruct (Hm w) as [E F]. unfold brings_data, data_only. rewrite E. split; [by split|auto]. Qed.
Lemma exec_brings_data f : (∀ d, no_authority d (f d) ∧ ∀ s, s ∈ obs_signals (f d) → s ∈ obs_signals d ∨ marked_untrusted s) →
  respects brings_data (exec f).
Proof. intros Hf w. destruct (Hf (w_db w)). by split. Qed.
Lemma audit_brings_data actor action mid payload now : respects brings_data (audit actor action mid payload now).
Proof.
  pose proof (files_audit actor action mid payload now) as Hf. pose proof (audit_no_authority actor action mid payload now) as Ha.
  assert (respects (on_db same_signals) (audit actor action mid payload now)) as Hs by (by apply audit_frame; [typeclasses eauto|]).
  intros w. split; [split; [apply Hf|apply Ha]|]. intros s. rewrite (Hs w). auto.
Qed.
Lemma uuid4_untouched : respects untouched uuid4.
Proof. by intros w. Qed.
Hint Resolve untouched_brings_data uuid4_untouched untouched_now untouched_query audit_brings_data : respects.

Lemma ingest_brings_data o source ts :
  respects brings_data (ingest 60 300 ("gateway:" +:+ go_system_id o)
    [("ts", JNum ts); ("kind", JStr (go_kind o)); ("subject", JStr (go_subject o));
     ("severity", JStr (go_severity o)); ("attributes", JObj (marked_attributes o source))] (Some ts)).
Proof.
  set (obs := [_; _; _; _; _]). destruct (marked_attributes_trust o source) as [Ht _].
  assert (observation_attributes obs = Ok (marked_attributes o source)) as E.
  { unfold obs. by destruct (marked_attributes o source). }
  unfold ingest. apply respects_bind; [typeclasses eauto|auto with respects|]. intros t.
  apply respects_bind; [typeclasses eauto|apply respects_lift; typeclasses eauto|]. intros when. rewrite E.
  intros w. rewrite bind_lift_Ok. revert w. match goal with |- ∀ w, brings_data w (snd (?m w)) => change (respects brings_data m) end.
  unfold recent_fingerprint_count, recent_correlation_count, record_signal. solve_respects.
  apply exec_brings_data. intros d. split; [done|]. intros s. cbn [obs_signals set_obs_signals]. unfold replace_signal.
  intros Hs. apply elem_of_app in Hs as [Hs|Hs].
  - left. apply list_elem_of_In, filter_In in Hs as [Hs _]. by apply list_elem_of_In.
  - right. apply list_elem_of_singleton in Hs as ->. eexists. split; [exact (loads_dumps Sorted (JObj _))|].
    rewrite dget_sort_keys. fold jcanon. rewrite dget_map_jcanon. cbn [ps_signal si_attributes make_signal]. by rewrite Ht.
Qed.
Lemma accept_brings_data config o source now : respects brings_data (accept config o source now).
Proof.
  pose proof ingest_brings_data.
  assert (∀ f, respects brings_data (exec (set_obs_evidence f))) by (intros; apply exec_brings_data; intros d; split; [done|auto]).
  unfold accept, evidence. solve_respects.
Qed.

Lemma except_untouched {A} caught (m : IO A) h :
  respects untouched m → (∀ e, respects untouched (h e)) → respects untouched (except caught m h).
Proof.
  intros Hm Hh. unfold except. apply respects_catch; [typeclasses eauto|done|]. intros e.
  destruct (caught _); [auto|apply respects_reraise; typeclasses eauto].
Qed.
Ltac guarded_respects :=
  repeat (cbn beta iota zeta;
          first [ apply except_untouched | match goal with |- ∀ _ : exn, _ => intros ? end
                | match goal with |- respects _ (no_method _) => apply respects_throw; typeclasses eauto end | respects_step ]).
Lemma shipped_collects a : shipped environ connect urlopen a → collects a.
Proof.
  intros Ha timeout.
  pose proof untouched_now. destruct Ha as [c|c|c]; cbn [pa_collect wmcp2_adapter http_adapter tcp_adapter].
  - unfold wmcp2_collect, wmcp2_http_ok, tunnel_state, port_open, Adapters.read_json. guarded_respects.
  - unfold http_json_collect, health_observation, Adapters.read_json. guarded_respects.
  - unfold tcp_collect, monotonic. guarded_respects.
Qed.
Lemma built_shipped b a : build_adapter cwd environ connect urlopen b = Ok (Some a) → shipped environ connect urlopen a.
Proof.
  unfold build_adapter, build_wmcp2, build_tcp, build_http, rbind. repeat case_match; intros; simplify_eq; constructor.
Qed.
Lemma build_each_shipped bs adapters0 adapters :
  (∀ id a, adapters0 !! id = Some a → shipped environ connect urlopen a) →
  build_each cwd environ connect urlopen adapters0 bs = Ok adapters →
  ∀ id a, adapters !! id = Some a → shipped environ connect urlopen a.
Proof.
  revert adapters0. induction bs as [|b bs IH]; intros adapters0 Hinit; cbn [build_each]; [by intros [= <-]|].
  destruct (sb_enabled b); cbn [negb]; [|by apply IH].
  destruct (build_adapter _ _ _ _ b) as [[a|]|] eqn:Eb; [|by apply IH|done]. apply IH.
  intros id x. rewrite lookup_insert_Some. intros [[_ <-]|[_ ?]]; [by eapply built_shipped|by eapply Hinit].
Qed.
Lemma collect_once_brings_data config adapters sid timeout now :
  (∀ id a, adapters !! id = Some a → collects a) → respects brings_data (collect_once config adapters sid timeout now).
Proof.
  intros Hall. unfold collect_once. pose proof accept_brings_data.
  apply respects_bind; [typeclasses eauto|apply respects_lift; typeclasses eauto|]. intros b.
  apply respects_bind; [typeclasses eauto|apply respects_raise_if; typeclasses eauto|]. intros _.
  destruct (adapters !! sid) as [a|] eqn:E; [|apply respects_throw; typeclasses eauto].
  apply respects_bind; [typeclasses eauto|apply untouched_brings_data; by eapply Hall|]. intros o. solve_respects.
Qed.
Lemma pull_brings_data config adapters b :
  (∀ id a, adapters !! id = Some a → collects a) → respects brings_data (pull config adapters b).
Proof.
  intros Hall. unfold pull, except. destruct (_ && _); [|apply respects_ret; typeclasses eauto].
  pose proof (collect_once_brings_data config adapters (sb_system_id b) 2 None Hall). solve_respects.
Qed.
Lemma serve_post_brings_data config q : respects brings_data (serve_post environ config q).
Proof.
  apply untouched_brings_data. unfold serve_post. apply respects_bind; [typeclasses eauto| |intros; apply respects_ret; typeclasses eauto].
  apply respects_attempt. intros w. destruct (do_POST_cases config q w) as [(r & _ & Hm)|(sid & body & ts & nonce & sig & Hm)].
  { by rewrite Hm. }
  specialize (Hm (ingest_in_thread environ config)). pose proof (in_thread_untouched config sid body ts nonce sig w) as Hu.
  unfold taken_as in Hm. destruct (ingest_in_thread _ _ _ _ _ _ _ w) as [[rc|e] w2]; cbn [snd] in Hu.
  - destruct Hm as [payload ->]. done.
  - destruct Hm as [->|(_ & payload & ->)]; done.
Qed.

(** C23. The gateway's process lets data in and no authority: whatever its configuration,
    the requests that reach it and the answers of the protected systems, and however the run
    ends, files, missions, tasks, used tokens, memory, skills, diagnosis, runtime, operator
    records and egress receipts stay as they were, and every signal it stored is marked as
    untrusted external data. *)
Theorem gateway_process_brings_data args turns w out w' :
  gateway_main cwd environ connect urlopen listen args turns w = (out, w') → brings_data w w'.
Proof.
  intros Hrun. refine (eq_ind _ (λ x, brings_data w (snd x)) _ _ Hrun). clear Hrun. unfold gateway_main.
  match goal with |- brings_data w (snd (?m w)) => cut (respects brings_data m); [by intros Hm|] end.
  apply respects_bind; [typeclasses eauto|apply respects_raise_if; typeclasses eauto|]. intros _.
  apply respects_bind; [typeclasses eauto|apply respects_gets; typeclasses eauto|]. intros files.
  apply respects_bind; [typeclasses eauto|apply respects_lift; typeclasses eauto|]. intros config.
  assert (∀ adapters, build_adapters cwd environ connect urlopen config = Ok adapters →
    ∀ id a, adapters !! id = Some a → collects a) as Hall.
  { intros adapters Hb id a Ha. eapply shipped_collects, build_each_shipped; [|exact Hb|exact Ha]. done. }
  destruct (build_adapters cwd environ connect urlopen config) as [adapters|e] eqn:Eb.
  2:{ intros u. by split; [split|auto]. }
  specialize (Hall adapters eq_refl). intros u. rewrite bind_lift_Ok. revert u.
  match goal with |- ∀ u, brings_data u (snd (?m u)) => change (respects brings_data m) end.
  pose proof (λ b, pull_brings_data config adapters b Hall). pose proof (serve_post_brings_data config).
  unfold gateway_turn, finally. solve_respects.
Qed.

(** ** A system that fails *)
Lemma raises_for_each {A B} P (f : A → IO B) l : (∀ x, raises P (f x)) → raises P (for_each l f).
Proof.
  intros Hf. induction l as [|x l IH]; cbn [for_each]; [apply raises_ret|].
  apply raises_bind; [apply Hf|]. intros y. apply raises_bind; [exact IH|]. intros ys. apply raises_ret.
Qed.
Definition stops (c : exn_class) : Prop := c = IntegrityError ∨ c = SystemExit.
Lemma pull_raises config adapters b : raises stops (pull config adapters b).
Proof.
  unfold pull, except. destruct (_ && _); [|apply raises_ret]. intros w e w' Hrun. unfold catch in Hrun.
  match type of Hrun with context [(?m ≫= ?k) w] => destruct ((m ≫= k) w) as [[r|e1] w1] end; [done|].
  destruct (bool_decide_reflect (exn_cls e1 = SystemExit)) as [Hx|Hx]; cbn [negb] in Hrun; [injection Hrun as <- _; by right|].
  left. revert Hrun. refine ((_ : raises (λ c, c = IntegrityError) _) w1 e w'). apply raises_bind; [|intros; apply raises_ret].
  intros u e2 u' E. apply audit_outcome in E as [_ E]. by apply E.
Qed.

(** A system that fails does not stop the others: whatever its adapter raises, a turn of
    the process pulls from every system and answers every request; only a ledger that
    cannot be written (or an adapter that exits the interpreter) ends it. *)
Theorem turn_isolates_systems config adapters requests w r w' :
  gateway_turn environ config adapters requests w = (r, w') →
  (∃ answers, r = Ok answers ∧ length answers = length requests) ∨ ∃ e, r = Raise e ∧ stops (exn_cls e).
Proof.
  intros Hrun. destruct r as [answers|e].
  - left. exists answers. split; [done|]. unfold gateway_turn in Hrun. apply bind_Ok_inv in Hrun as (? & w1 & _ & Hrun).
    clear w. revert w1 answers Hrun. induction requests as [|q qs IH]; intros w1 answers; cbn [for_each]; [by intros [= <- _]|].
    intros (a & w2 & _ & Hrun)%bind_Ok_inv. apply bind_Ok_inv in Hrun as (rest & w3 & Hrest & [= <- ->]). cbn [length].
    f_equal. by eapply IH.
  - right. exists e. split; [done|]. revert Hrun. refine ((_ : raises stops (gateway_turn environ config adapters requests)) w e w').
    unfold gateway_turn. apply raises_bind; [apply raises_for_each, pull_raises|]. intros _. apply raises_for_each.
    intros q. unfold serve_post. apply raises_bind; [|intros; apply raises_ret].
    intros u e1 u' E. unfold attempt in E. by destruct (do_POST_with _ _ _ _).
Qed.

(** ** The WMCP2 adapter under another name *)

(** A binding of the WMCP2 adapter whose system is not called wmcp2 is accepted by the
    loader and never collected from: the adapter reports for wmcp2 whatever its binding is
    called, and every pull ends in an error. *)
Theorem wmcp2_answers_for_itself config adapters b a timeout now w r w' :
  sb_adapter b = "wmcp2-local" → build_adapter cwd environ connect urlopen b = Ok (Some a) →
  adapters !! sb_system_id b = Some a → sb_system_id b ≠ "wmcp2" →
  collect_once config adapters (sb_system_id b) timeout now w = (r, w') → ∃ e, r = Raise e.
Proof.
  intros Hname Hb Ha Hne Hrun. destruct r as [o|e]; [exfalso|by exists e].
  assert (∃ c, a = wmcp2_adapter connect urlopen c) as [c ->].
  { unfold build_adapter in Hb. rewrite Hname in Hb. cbn [String.eqb Ascii.eqb Bool.eqb] in Hb. unfold build_wmcp2, rbind in Hb.
    repeat case_match; simplify_eq; by eexists. }
  unfold collect_once in Hrun. apply bind_Ok_inv in Hrun as (b' & ? & _ & Hrun). apply bind_Ok_inv in Hrun as (? & ? & _ & Hrun).
  rewrite Ha in Hrun. apply bind_Ok_inv in Hrun as (obs & w1 & Hc & Hrun). cbn [pa_collect wmcp2_adapter] in Hc.
  assert (∃ ob, obs = Some ob ∧ go_system_id ob = "wmcp2") as (ob & -> & Hob).
  { unfold wmcp2_collect in Hc. do 2 apply bind_Ok_inv in Hc as (? & ? & _ & Hc). apply bind_Ok_inv in Hc as ([st age] & ? & _ & Hc).
    do 2 apply bind_Ok_inv in Hc as (? & ? & _ & Hc). injection Hc as <- _. by eexists. }
  apply bind_Ok_inv in Hrun as (? & ? & [Hbad%negb_false_iff%String.eqb_eq _]%raise_if_Ok_inv & _). congruence.
Qed.
End gateway_runtime_props.

(** ** The status scripts *)

(** The status scripts tell which credentials are present and nothing of what they are:
    in two environments that agree on which variables are empty they print the same. *)
Theorem status_hides_secrets `{JsonText, Entropy} cwd environ environ' config
    (Hagree : ∀ name, (default "" (environ name) =s "") = (default "" (environ' name) =s "")) w :
  gateway_status cwd environ config w = gateway_status cwd environ' config w
  ∧ provider_status cwd environ config w = provider_status cwd environ' config w.
Proof.
  assert (∀ c, public_status environ c = public_status environ' c) as Hg.
  { intros c. unfold public_status. do 2 f_equal. f_equal. f_equal. f_equal. apply map_ext. intros b. do 6 f_equal.
    destruct (sb_peer_secret_env b); [by rewrite Hagree|done]. }
  assert (∀ c, providers_view environ c = providers_view environ' c) as Hp.
  { intros c. unfold providers_view. do 5 f_equal. f_equal. f_equal. apply map_ext. intros p. do 9 f_equal.
    destruct (pf_api_key_env p); [by rewrite Hagree|done]. }
  unfold gateway_status, provider_status, mbind, M_bind, gets, lift_result. split.
  - destruct (load_config _ _); [|done]. by rewrite Hg.
  - destruct (load_providers _ _); [|done]. by rewrite Hp.
Qed.
