(* ===== verification/Concrete.v ===== *)
(** An instance of the JSON text interface, for evaluating the model, and the
    environment of the examples.

    A value is written as a tagged prefix code: strings are terminated by the
    character 0 with the characters 0 and 1 escaped, integers are binary, a final
    dot closes the text.  The instance shows the laws of [JsonText] can hold, and
    lets examples run; nothing else depends on it. *)

From S2P Require Import Prelude Json Schema StateBackup.

(** ** Strings and numbers *)
Definition NUL : ascii := ascii_of_nat 0.
Definition ESC : ascii := ascii_of_nat 1.
Definition special (c : ascii) : bool := Ascii.eqb c NUL || Ascii.eqb c ESC.

Fixpoint enc_str (s : string) : string :=
  match s with
  | EmptyString => String NUL EmptyString
  | String c s' => if special c then String ESC (String c (enc_str s')) else String c (enc_str s')
  end.
Fixpoint dec_str (s : string) : option (string * string) :=
  match s with
  | EmptyString => None
  | String c s' =>
      if Ascii.eqb c NUL then Some (EmptyString, s')
      else if Ascii.eqb c ESC then
        match s' with
        | String d s'' => match dec_str s'' with Some (a, r) => Some (String d a, r) | None => None end
        | EmptyString => None
        end
      else match dec_str s' with Some (a, r) => Some (String c a, r) | None => None end
  end.

Fixpoint enc_pos (p : positive) : string :=
  match p with
  | xH => ";"
  | xO p' => String "0" (enc_pos p')
  | xI p' => String "1" (enc_pos p')
  end.
Fixpoint dec_pos (s : string) : option (positive * string) :=
  match s with
  | EmptyString => None
  | String c s' =>
      if Ascii.eqb c ";" then Some (xH, s')
      else match dec_pos s' with
           | Some (p, r) => if Ascii.eqb c "0" then Some (xO p, r)
                            else if Ascii.eqb c "1" then Some (xI p, r) else None
           | None => None
           end
  end.
Definition enc_Z (z : Z) : string :=
  match z with Z0 => "z" | Zpos p => String "+" (enc_pos p) | Zneg p => String "-" (enc_pos p) end.
Definition dec_Z (s : string) : option (Z * string) :=
  match s with
  | String c s' =>
      if Ascii.eqb c "z" then Some (0%Z, s')
      else if Ascii.eqb c "+" then '(p, r) ← dec_pos s'; Some (Zpos p, r)
      else if Ascii.eqb c "-" then '(p, r) ← dec_pos s'; Some (Zneg p, r)
      else None
  | EmptyString => None
  end.

Lemma empty_app_s s : "" +:+ s = s.
Proof. reflexivity. Qed.

Lemma dec_enc_str s r : dec_str (enc_str s +:+ r) = Some (s, r).
Proof.
  induction s as [|c s IH]; [done|]. cbn [enc_str]. unfold special.
  destruct (Ascii.eqb c NUL) eqn:E1; cbn [orb].
  - rewrite !app_cons. cbn [dec_str]. change (Ascii.eqb ESC NUL) with false. rewrite Ascii.eqb_refl. by rewrite IH.
  - destruct (Ascii.eqb c ESC) eqn:E2; rewrite !app_cons; cbn [dec_str].
    + change (Ascii.eqb ESC NUL) with false. rewrite Ascii.eqb_refl. by rewrite IH.
    + by rewrite E1, E2, IH.
Qed.
Lemma dec_enc_pos p r : dec_pos (enc_pos p +:+ r) = Some (p, r).
Proof. induction p as [p IH|p IH|]; [| |done]; cbn [enc_pos]; rewrite app_cons; simpl; by rewrite IH. Qed.
Lemma dec_enc_Z z r : dec_Z (enc_Z z +:+ r) = Some (z, r).
Proof. destruct z as [|p|p]; [done| |]; simpl enc_Z; rewrite app_cons; simpl; by rewrite dec_enc_pos. Qed.

#[local] Arguments enc_Z : simpl never.
#[local] Arguments dec_Z : simpl never.

(** ** Values *)
Fixpoint enc (v : json) : string :=
  match v with
  | JNull => "n"
  | JBool true => "t"
  | JBool false => "f"
  | JInt z => "i" +:+ enc_Z z
  | JNum q => "q" +:+ enc_Z (Qnum q) +:+ enc_pos (Qden q)
  | JStr s => "s" +:+ enc_str s
  | JList l => "[" +:+ fold_right (λ x acc, "," +:+ enc x +:+ acc) "]" l
  | JObj kvs => "{" +:+ fold_right (λ p acc, "," +:+ enc_str p.1 +:+ enc p.2 +:+ acc) "}" kvs
  end.

Fixpoint dec (n : nat) (s : string) : option (json * string) :=
  match n, s with
  | S n', String c s' =>
      if Ascii.eqb c "n" then Some (JNull, s')
      else if Ascii.eqb c "t" then Some (JBool true, s')
      else if Ascii.eqb c "f" then Some (JBool false, s')
      else if Ascii.eqb c "i" then '(z, r) ← dec_Z s'; Some (JInt z, r)
      else if Ascii.eqb c "q" then '(z, r) ← dec_Z s'; '(p, r') ← dec_pos r; Some (JNum (z # p), r')
      else if Ascii.eqb c "s" then '(a, r) ← dec_str s'; Some (JStr a, r)
      else if Ascii.eqb c "[" then '(l, r) ← dec_list n' s'; Some (JList l, r)
      else if Ascii.eqb c "{" then '(l, r) ← dec_obj n' s'; Some (JObj l, r)
      else None
  | _, _ => None
  end
with dec_list (n : nat) (s : string) : option (list json * string) :=
  match n, s with
  | S n', String c s' =>
      if Ascii.eqb c "]" then Some ([], s')
      else if Ascii.eqb c "," then
        '(x, r) ← dec n' s'; '(l, r') ← dec_list n' r; Some (x :: l, r')
      else None
  | _, _ => None
  end
with dec_obj (n : nat) (s : string) : option (list (string * json) * string) :=
  match n, s with
  | S n', String c s' =>
      if Ascii.eqb c "}" then Some ([], s')
      else if Ascii.eqb c "," then
        '(k, r0) ← dec_str s'; '(x, r) ← dec n' r0; '(l, r') ← dec_obj n' r; Some ((k, x) :: l, r')
      else None
  | _, _ => None
  end.

(** Fuel: one unit per value and per item. *)
Fixpoint fuel (v : json) : nat :=
  match v with
  | JList l => S (fold_right (λ x acc, S (Nat.max (fuel x) acc)) 1 l)
  | JObj kvs => S (fold_right (λ p acc, S (Nat.max (fuel p.2) acc)) 1 kvs)
  | _ => 1
  end.

Lemma dec_enc v : ∀ n r, fuel v <= n → dec n (enc v +:+ r) = Some (v, r).
Proof.
  induction v as [|[]|z|[a d]|s|l IH|kvs IH] using json_ind'; intros [|n] r Hn; simpl in Hn; try lia; try done;
    cbn [enc]; rewrite ?app_assoc_s.
  - change ("i" +:+ enc_Z z +:+ r) with (String "i" (enc_Z z +:+ r)). simpl. by rewrite dec_enc_Z.
  - change ("q" +:+ enc_Z a +:+ enc_pos d +:+ r) with (String "q" (enc_Z a +:+ enc_pos d +:+ r)). simpl.
    rewrite empty_app_s, dec_enc_Z. simpl. by rewrite dec_enc_pos.
  - change ("s" +:+ enc_str s +:+ r) with (String "s" (enc_str s +:+ r)). simpl. by rewrite dec_enc_str.
  - set (body := fold_right _ "]" l). change ("[" +:+ body +:+ r) with (String "[" (body +:+ r)).
    assert (dec_list n (body +:+ r) = Some (l, r)) as E; [|simpl; by rewrite E].
    subst body. apply le_S_n in Hn. revert n Hn. induction IH as [|x l Hx _ IHl]; intros n Hn.
    + destruct n as [|n]; [simpl in Hn; lia|]. done.
    + cbn [fold_right] in Hn |- *. destruct n as [|n]; [lia|]. apply le_S_n in Hn.
      set (rest := fold_right _ "]" l) in *. rewrite !app_assoc_s.
      change ("," +:+ enc x +:+ rest +:+ r) with (String "," (enc x +:+ rest +:+ r)). simpl.
      rewrite Hx by lia. simpl. rewrite IHl by lia. done.
  - set (body := fold_right _ "}" kvs). change ("{" +:+ body +:+ r) with (String "{" (body +:+ r)).
    assert (dec_obj n (body +:+ r) = Some (kvs, r)) as E; [|simpl; by rewrite E].
    subst body. apply le_S_n in Hn. revert n Hn. induction IH as [|[k x] l Hx _ IHl]; intros n Hn.
    + destruct n as [|n]; [simpl in Hn; lia|]. done.
    + cbn [fold_right fst snd] in Hn |- *. destruct n as [|n]; [lia|]. apply le_S_n in Hn.
      set (rest := fold_right _ "}" l) in *. rewrite !app_assoc_s.
      change ("," +:+ enc_str k +:+ enc x +:+ rest +:+ r) with (String "," (enc_str k +:+ enc x +:+ rest +:+ r)). simpl.
      rewrite dec_enc_str. simpl. simpl in Hx. rewrite Hx by lia. simpl. rewrite IHl by lia. done.
Qed.

(** The length of the text is enough fuel. *)
Lemma fuel_length v : fuel v <= String.length (enc v).
Proof.
  induction v as [|[]|z|[a d]|s|l IH|kvs IH] using json_ind'; cbn [enc fuel]; rewrite ?length_app_s; simpl; try lia.
  - apply le_n_S. induction IH as [|x l Hx _ IHl]; [done|]. cbn [fold_right]. rewrite !length_app_s. simpl. lia.
  - apply le_n_S. induction IH as [|[k x] l Hx _ IHl]; [done|]. cbn [fold_right]. simpl in Hx.
    rewrite !length_app_s. simpl. lia.
Qed.

(** ** Texts *)
Definition text_dumps (st : dump_style) (v : json) : string := enc (printed st v) +:+ ".".
Definition text_loads (s : string) : option json :=
  match dec (String.length (rstrip s)) (rstrip s) with
  | Some (v, r) => if r =s "." then Some v else None
  | None => None
  end.

Lemma rstrip_dot s : rstrip (s +:+ ".") = s +:+ ".".
Proof. induction s as [|c s IH]; [done|]. rewrite app_cons. cbn [rstrip]. rewrite IH. by destruct s. Qed.

Lemma printed_idem st v : printed st (printed st v) = printed st v.
Proof. unfold printed. destruct (sorts st); [apply jcanon_idem | done]. Qed.

Lemma text_loads_dumps st v : text_loads (text_dumps st v) = Some (printed st v).
Proof.
  unfold text_loads, text_dumps. rewrite rstrip_dot, dec_enc, String.eqb_refl; [done|].
  rewrite length_app_s. pose proof (fuel_length (printed st v)). lia.
Qed.

Lemma text_dumps_printed st v : text_dumps st (printed st v) = text_dumps st v.
Proof. unfold text_dumps. by rewrite printed_idem. Qed.

Lemma text_loads_newline s : text_loads (s +:+ newline) = text_loads s.
Proof. unfold text_loads. by rewrite rstrip_newline. Qed.

(** Decimal numerals with an optional minus sign. *)
Fixpoint digits (acc : Z) (s : string) : option Z :=
  match s with
  | EmptyString => Some acc
  | String c s' => let d := (Z.of_nat (nat_of_ascii c) - 48)%Z in
                   if ((0 <=? d) && (d <=? 9))%Z then digits (10 * acc + d)%Z s' else None
  end.
Definition decimal (s : string) : option Z :=
  match s with
  | EmptyString => None
  | String c s' => if Ascii.eqb c "-" then (if s' =s "" then None else Z.opp <$> digits 0 s') else digits 0 s
  end.

#[export] Instance json_text : JsonText := {|
  dumps := text_dumps;
  loads := text_loads;
  repr := text_dumps Plain;
  parse_int := decimal;
  parse_float := λ s, inject_Z <$> decimal s;
  loads_dumps := text_loads_dumps;
  loads_newline := text_loads_newline;
  dumps_printed := text_dumps_printed;
|}.

Example dumps_sorted_demo :
  loads (dumps Compact (JObj [("b", JInt 2); ("a", JBool true)]))
  = Some (JObj [("a", JBool true); ("b", JInt 2)]).
Proof. vm_compute. reflexivity. Qed.

(** * A concrete environment in which the model runs: a clock that counts draws,
    numbered ids, and the JSON text instance. *)

Fixpoint unary (n : nat) : string := match n with O => EmptyString | S n' => String "i" (unary n') end.

#[export] Instance counting : Entropy := {|
  time_at := λ n, inject_Z (Z.of_nat n);
  monotonic_at := λ n, inject_Z (Z.of_nat n);
  uuid_at := λ n, String "u" (unary n);
  token_at := λ n, String "t" (unary n);
|}.

(** The value and the world a returning run leaves. *)
Definition value {A} `{!Inhabited A} (r : result A) : A := match r with Ok a => a | Raise _ => inhabitant end.
Lemma run_value {S A} `{!Inhabited A} (m : M S A) w :
  is_Ok (fst (m w)) = true → m w = (Ok (value (fst (m w))), snd (m w)).
Proof. by destruct (m w) as [[a|e] w']. Qed.

(** Runs a step for its effect. *)
Definition after {A} (m : IO A) (w : World) : World := snd (m w).
Definition got {A} `{!Inhabited A} (m : IO A) (w : World) : A := value (fst (m w)).
Lemma run_got {A} `{!Inhabited A} (m : IO A) w : is_Ok (fst (m w)) = true → m w = (Ok (got m w), after m w).
Proof. apply run_value. Qed.
Lemma run_pair {A} (m : IO A) w : m w = (fst (m w), after m w).
Proof. apply surjective_pairing. Qed.
Lemma after_respects {A} (R : relation DB) (m : IO A) w : respects (on_db R) m → R (w_db w) (w_db (after m w)).
Proof. apply respects_db. Qed.
Lemma run_some {A} (m : IO A) w : is_Ok (fst (m w)) = true → ∃ a, m w = (Ok a, after m w).
Proof. unfold after. destruct (m w) as [[a|e] w']; [by eexists | done]. Qed.
(** A field of what a run returned. *)
Definition field {A B} (f : A → B) (d : B) (r : result A) : B := match r with Ok a => f a | Raise _ => d end.
Lemma field_run {A B} (f : A → B) d (m : IO A) w a w' : m w = (Ok a, w') → field f d (fst (m w)) = f a.
Proof. by intros ->. Qed.
Lemma run_raised {A} (m : IO A) w e : fst (m w) = Raise e → m w = (Raise e, after m w).
Proof. unfold after. destruct (m w) as [r w']. simpl. by intros ->. Qed.

(** A stand-in for SQLite's file format: it tells apart databases by the number of
    their audit entries and missions. *)
#[export] Instance image : SqliteImage := {|
  db_image := λ d, String "S" (unary (length (audit_events d)) +:+ String "m" (unary (length (missions d))));
  integrity_ok := λ s, match s with String c _ => Ascii.eqb c "S" | EmptyString => false end;
  db_image_ok := λ d, eq_refl;
|}.
