(* ===== verification/WitnessStore.v ===== *)
(** The properties of the store, the ledger, its seals and the engine, at concrete
    runs. *)

From S2P Require Import Prelude Json Concrete Sha256 Schema Storage StorageProps Ledger LedgerProps Engine.
From S2P Require Import EngineProps.

#[local] Opaque sha256_hex hmac_hex.

(** ** A store with a mission, two tasks, one of them running *)
Definition busy_ops : list store_op :=
  [OpCreate "m" "s" "CREATED" (Some 0%Q);
   OpSubmit "m" "k" [] "key-a" 5 3 (Some "a") (Some 1%Q);
   OpSubmit "m" "k" [] "key-b" 9 1 (Some "b") (Some 1%Q);
   OpClaim "w" 10 (Some 2%Q) None].
Definition busy : World := run_store_ops busy_ops init_world.

Lemma busy_wf : db_wf (w_db busy).
Proof. apply run_store_ops_wf, empty_db_wf. Qed.

Lemma store_invariant_witness : db_wf (w_db (run_store_ops busy_ops init_world)).
Proof. apply store_invariant. Defined.

Lemma recover_expired_leases_witness :
  ∃ w', recover_expired_leases (Some 20%Q) busy = (Ok 1%Z, w')
    ∧ tasks (w_db w') = recover_rows 20 (tasks (w_db busy)).
Proof.
  destruct (recover_expired_leases_correct 20%Q busy busy_wf) as (w' & E & Ht & _). exists w'. split; [exact E | exact Ht].
Defined.

(** Task a is the only one left to claim at time 3. *)
Lemma claim_next_witness :
  ∃ r payload w', claim_next "w2" 10 (Some 3%Q) None busy
    = (Ok (Some (lease_of r "w2" (3 + 10)%Q payload)), w') ∧ t_id r = "a".
Proof.
  destruct (claim_next_best "w2" 10%Q 3%Q None busy busy_wf ltac:(reflexivity))
    as [(r & p & w' & E & Hr & Hc & _)|(w' & E & Hn & _)].
  - exists r, p, w'. split; [exact E|]. vm_compute in E. injection E as E _. symmetry. exact E.
  - vm_compute in E. discriminate.
Defined.

(** The lease of b (until 12) excludes everyone else, through another claim, a report by a
    worker that does not hold it and a recovery. *)
Definition idle : World := run_store_ops (take 3 busy_ops) init_world.
Lemma idle_wf : db_wf (w_db idle).
Proof. apply run_store_ops_wf, empty_db_wf. Qed.
#[local] Instance lease_inhabited : Inhabited TaskLease.
Proof. refine (populate _). split; try exact "". exact JNull. all: exact 0%Z || exact 0%Q. Defined.
Definition meanwhile : list store_op :=
  [OpClaim "w2" 10 (Some 5%Q) None; OpComplete "b" "w2" (Some 6%Q); OpRecover (Some 7%Q)].
Lemma lease_exclusive_witness :
  let claim1 := claim_next "w" 10 (Some 2%Q) None in
  let claim3 := claim_next "w3" 10 (Some 8%Q) None in
  let later := run_store_ops meanwhile (after claim1 idle) in
  (l_id <$> got claim3 later) ≠ Some "b"
  ∧ ∃ r, find_row t_id "b" (tasks (w_db later)) = Some r ∧ t_lease_owner r = Some "w".
Proof.
  intros claim1 claim3 later.
  destruct (got claim1 idle) as [l|] eqn:El; [|vm_compute in El; discriminate].
  assert (l_id l = "b") as Eb by (vm_compute in El; injection El as <-; reflexivity).
  assert (claim1 idle = (Ok (Some l), after claim1 idle)) as E1.
  { rewrite <- El. apply run_got. vm_compute. reflexivity. }
  destruct (lease_exclusive "w" 10%Q 2%Q None idle l (after claim1 idle) meanwhile idle_wf ltac:(reflexivity) E1)
    as [(r & Hr & _ & Ho & _) Hother].
  { rewrite Eb. split; [reflexivity|]. split; [intros [_ ?]; discriminate|]. split; [reflexivity|exact I]. }
  rewrite Eb in *. split; [|exists r; split; [exact Hr|exact Ho]].
  destruct (got claim3 later) as [l'|] eqn:E3; [|discriminate]. simpl.
  assert (claim3 later = (Ok (Some l'), after claim3 later)) as E3'.
  { rewrite <- E3. apply run_got. vm_compute. reflexivity. }
  intros [= E]. exact (Hother "w3" 10%Q (Some 8%Q) None l' (after claim3 later) ltac:(reflexivity) E3' E).
Defined.

(** A running task of one attempt fails for good. *)
Lemma fail_task_witness :
  ∃ w', fail_task "b" "w" "boom" 3 (Some 4%Q) busy = (Ok "FAILED", w').
Proof.
  destruct (find_row t_id "b" (tasks (w_db busy))) as [r|] eqn:E; [|vm_compute in E; discriminate].
  destruct (fail_task_correct "b" "w" "boom" 3%Q 4%Q busy r E) as (w' & r' & Ef & _).
  - vm_compute in E. injection E as <-. reflexivity.
  - exists w'. rewrite Ef. vm_compute in E. injection E as <-. reflexivity.
Defined.

Lemma submit_task_witness :
  let first := submit_task "m" "k" [] "key-c" 1 1 None (Some 4%Q) in
  submit_task "m" "other" [("x", JInt 1)] "key-c" 7 2 (Some "z") (Some 9%Q) (after first busy)
  = (Ok (got first busy), after first busy).
Proof.
  intros first. apply (submit_task_idempotent "m" "k" [] "key-c" 1 1 None (Some 4%Q) busy).
  - apply run_got. vm_compute. reflexivity.
  - discriminate.
Defined.

Lemma attempts_unbounded_witness :
  ∃ r, tasks (w_db (run_store_ops (crash_ops 4) init_world)) = [r] ∧ t_max_attempts r = 1%Z ∧ t_attempts r = 4%Z.
Proof. exact (attempts_unbounded_on_crash 4). Defined.

(** ** The ledger *)
Abbreviation note action n := (audit_append "a" action [("n", JInt n)] (Some "m") None (Some 1%Q)).
Definition one_event : World := after (note "x" 1) init_world.

Lemma empty_ledger_wf : ledger_wf empty_db.
Proof. split; reflexivity. Qed.
Lemma one_event_wf : ledger_wf (w_db one_event).
Proof. apply (respects_db ledger_ext (note "x" 1) init_world); [apply audit_append_ext | apply empty_ledger_wf]. Qed.

Lemma append_keeps_chain_valid_witness :
  verify_chain (after (note "y" 2) one_event) = (Ok (true, None), after (note "y" 2) one_event).
Proof.
  exact (proj1 (append_keeps_chain_valid "a" "y" [("n", JInt 2)] (Some "m") None (Some 1%Q) one_event
           (fst (note "y" 2 one_event)) (after (note "y" 2) one_event) one_event_wf
           (run_pair (note "y" 2) one_event))).
Defined.

(** Two ledgers that differ in how the payload text is spelled. *)
Definition respelled (r : audit_row) : audit_row :=
  {| a_seq := a_seq r; a_event_id := a_event_id r; a_ts := a_ts r; a_actor := a_actor r; a_action := a_action r;
     a_mission_id := a_mission_id r; a_payload_json := a_payload_json r +:+ newline;
     a_prev_hash := a_prev_hash r; a_event_hash := a_event_hash r |}.
Lemma verified_ledger_witness :
  let rows := audit_events (w_db one_event) in
  let rows' := map respelled rows in
  map view rows = map view rows' ∨ sha256_collide_in (map hashed_text rows) (map hashed_text rows').
Proof.
  intros rows rows'. apply verified_ledger_determined; [| |reflexivity|reflexivity].
  - apply check_rows_true, (lw_chain _ one_event_wf).
  - vm_compute. reflexivity.
Defined.

(** ** Seals *)
#[local] Instance dict_inhabited : Inhabited dict := populate [].
Definition sealed : World := after (seal "k" 1 (Some 2%Q)) one_event.

Lemma seal_valid_under_growth_witness :
  verify_against_ledger "k" (after (note "y" 2) sealed) = (Ok true, after (note "y" 2) sealed).
Proof.
  apply (seal_valid_under_growth "k" 1 (Some 2%Q) one_event 0 (-1) (got (seal "k" 1 (Some 2%Q)) one_event) sealed).
  - apply one_event_wf.
  - vm_compute. discriminate.
  - reflexivity.
  - reflexivity.
  - vm_compute. discriminate.
  - apply run_got. reflexivity.
  - exact (after_respects ledger_ext (note "y" 2) sealed (audit_append_ext _ _ _ _ _ _)).
  - exact (append_seal_file _ _ _ _ _ _ sealed).
Defined.

Lemma sealed_history_unchanged_witness :
  let grown := after (note "y" 2) sealed in
  map view (audit_events (w_db one_event)) = map view (take 1 (audit_events (w_db grown)))
  ∨ sha256_collide_in (map hashed_text (audit_events (w_db one_event)))
      (map hashed_text (take 1 (audit_events (w_db grown)))).
Proof.
  apply (sealed_history_unchanged "k" (w_db one_event) [] 1 2 (after (note "y" 2) sealed)).
  - apply one_event_wf.
  - vm_compute. discriminate.
  - exact (proj2 (after_respects ledger_ext (note "y" 2) sealed (audit_append_ext _ _ _ _ _ _)) one_event_wf).
  - exact (append_seal_file _ _ _ _ _ _ sealed).
  - vm_compute. reflexivity.
Defined.

Lemma empty_seal_rejects_growth_witness :
  let sealed_empty := after (seal "k" 1 (Some 2%Q)) init_world in
  verify_against_ledger "k" (after (note "x" 1) sealed_empty) = (Ok false, after (note "x" 1) sealed_empty).
Proof.
  intros sealed_empty.
  apply (empty_seal_rejects_growth "k" 1 (Some 2%Q) init_world 0 (-1) (got (seal "k" 1 (Some 2%Q)) init_world) sealed_empty
           "a" "x" [("n", JInt 1)] (Some "m") None (Some 1%Q) (got (note "x" 1) sealed_empty)).
  - apply empty_ledger_wf.
  - reflexivity.
  - reflexivity.
  - reflexivity.
  - discriminate.
  - apply run_got. reflexivity.
  - apply run_got. reflexivity.
Defined.

(** ** The engine *)
Definition all_gates : dict := map (λ g, (g, JBool true)) REQUIRED_GATES.
Definition finishing_ops : list engine_op :=
  ECreate "m" "s"
  :: map (λ to, ETransition "m" to "next" None)
       ["AUTHORIZED"; "RUNNING"; "VALIDATING"]
  ++ [ETransition "m" "COMPLETED" "done" (Some (evaluated_proof "k" "m" all_gates))].

Lemma engine_history_legal_witness :
  let d := w_db (run_engine (Some "k") finishing_ops init_world) in history_legal d ∧ log_ok (transitions d).
Proof.
  intros d. destruct (engine_history_legal (Some "k") finishing_ops) as (H1 & H2 & _). split; [exact H1 | exact H2].
Defined.

Lemma completed_requires_proof_witness :
  ∃ reason proof secret, ETransition "m" "COMPLETED" reason (Some proof) ∈ finishing_ops
    ∧ Some "k" = Some secret ∧ verify_proof secret proof "m" = true.
Proof.
  apply (completed_requires_proof (Some "k") finishing_ops "m"). vm_compute. reflexivity.
Defined.

Lemma evaluate_verify_iff_witness :
  verify_proof "k" (evaluated_proof "k" "m" all_gates) "m" = true.
Proof.
  apply evaluate_verify_iff. split; [reflexivity|]. intros g Hg.
  repeat (apply elem_of_cons in Hg as [->|Hg]; [reflexivity|]). by apply elem_of_nil in Hg.
Defined.
