(* ===== verification/WitnessAuthority.v ===== *)
(** The properties of the tokens, the policy, the skills and the memory, at
    concrete runs. *)

From S2P Require Import Prelude Json Concrete Base64 Sha256 Schema Storage Ledger LedgerProps Tokens.
From S2P Require Import TokenProps Policy PolicyProps Skills Memory MemoryProps.

#[local] Opaque sha256_hex hmac_hex.

Definition ia : IdentityAuthority := {| ia_secret := "k"; ia_issuer := "i" |}.
Abbreviation token_for scopes := (got (identity_issue "k" "i" "a" "operator" scopes 60 (Some 100%Z)) init_world).

(** ** Identity tokens *)
Lemma identity_issue_verify_witness :
  ∃ p, identity_verify "k" "i" (token_for ["x"; "y"]) (Some "y") (Some 120%Z) init_world = (Ok p, init_world)
    ∧ pr_subject p = "a" ∧ pr_expires_at p = 160%Z.
Proof.
  destruct (identity_issue_verify "k" "i" "a" "operator" ["x"; "y"] 60 (Some 100%Z) init_world (token_for ["x"; "y"])
    (after (identity_issue "k" "i" "a" "operator" ["x"; "y"] 60 (Some 100%Z)) init_world) (Some 120%Z) init_world "y")
    as (p & Hv & Hs & _ & _ & _ & _ & He).
  - apply run_got. reflexivity.
  - intros n. discriminate.
  - discriminate.
  - reflexivity.
  - set_solver.
  - exists p. split; [exact Hv|]. split; [exact Hs|exact He].
Defined.

Lemma identity_verify_sound_witness :
  ∃ p, identity_verify "k" "i" (token_for ["x"]) (Some "x") (Some 120%Z) init_world
         = (Ok p, after (identity_verify "k" "i" (token_for ["x"]) (Some "x") (Some 120%Z)) init_world)
    ∧ has_scope p "x" = true ∧ (120 < pr_expires_at p)%Z.
Proof.
  destruct (run_some (identity_verify "k" "i" (token_for ["x"]) (Some "x") (Some 120%Z)) init_world) as (p & E).
  { vm_compute. reflexivity. }
  destruct (identity_verify_sound "k" "i" _ _ _ _ _ _ E) as (_ & _ & [_ Hexp] & _ & _ & _ & Hsc & _).
  exists p. split; [exact E|]. split; [by apply (Hsc "x")|exact Hexp].
Defined.

(** ** Privileges and capabilities *)
Abbreviation grant := (privilege_issue "s" "pi" ia (token_for ["grant:privileged"]) "m" "t" "w" "act" "cp" 120 (Some 100%Z)).
Lemma privilege_exactly_bound_witness :
  ∃ g id, grant init_world = (Ok g, after grant init_world)
    ∧ privilege_consume "s" "pi" (g_token g) "m" "t" "w" "act" "cp" (Some 110%Z) init_world
        = (Ok id, after (privilege_consume "s" "pi" (g_token g) "m" "t" "w" "act" "cp" (Some 110%Z)) init_world)
    ∧ id = g_grant_id g.
Proof.
  destruct (run_some grant init_world) as (g & E); [vm_compute; reflexivity|].
  assert (g_token g = field g_token "" (fst (grant init_world))) as Et by (symmetry; exact (field_run _ _ _ _ _ _ E)).
  destruct (run_some (privilege_consume "s" "pi" (g_token g) "m" "t" "w" "act" "cp" (Some 110%Z)) init_world) as (id & Ec).
  { rewrite Et. vm_compute. reflexivity. }
  exists g, id. split; [exact E|]. split; [exact Ec|].
  edestruct privilege_exactly_bound as (_ & Hid & _); [exact E|exact Ec|exact Hid].
Defined.

Abbreviation grant_cap := (capability_issue "s" "ci" ia (token_for ["capability:issue"]) "m" "sys" "act"
  [("x", JInt 1); ("y", JInt 2)] None 45 (Some 100%Z)).
(** The parameters may be given in another order. *)
Lemma capability_exactly_bound_witness :
  ∃ g w3, grant_cap init_world = (Ok g, after grant_cap init_world)
    ∧ capability_consume "s" "ci" (c_token g) "m" "sys" "act" [("y", JInt 2); ("x", JInt 1)] None (Some 110%Z) init_world
      = (Ok (c_capability_id g), w3).
Proof.
  destruct (run_some grant_cap init_world) as (g & E); [vm_compute; reflexivity|].
  assert (c_capability_id g = "t" ∧ c_expires_at g = 145%Z) as [Hid Hexp].
  { rewrite <- (field_run c_capability_id "" _ _ _ _ E), <- (field_run c_expires_at 0%Z _ _ _ _ E).
    split; vm_compute; reflexivity. }
  destruct (capability_exactly_bound "s" "ci" ia (token_for ["capability:issue"]) "m" "sys" "act"
      [("x", JInt 1); ("y", JInt 2)] None 45 (Some 100%Z) init_world g _ "m" "sys" "act" [("y", JInt 2); ("x", JInt 1)]
      None (Some 110%Z) init_world E) as ([w3 Hacc] & _).
  - rewrite Hid. discriminate.
  - split; [reflexivity|]. split; [reflexivity|]. rewrite Hexp, Hid. split; reflexivity.
  - exists g, w3. split; [exact E|exact Hacc].
Defined.

Definition cap_token : string := field c_token "" (fst (grant_cap init_world)).
Abbreviation use_cap := (capability_consume "s" "ci" cap_token "m" "sys" "act" [("x", JInt 1); ("y", JInt 2)] None).
Lemma capability_single_use_witness :
  ∃ msg, fst (use_cap (Some 111%Z) (after (use_cap (Some 110%Z)) init_world)) = Raise (Exn CapabilityError msg).
Proof.
  apply (capability_single_use "s" "ci" cap_token "m" "sys" "act" [("x", JInt 1); ("y", JInt 2)] None (Some 110%Z)
    init_world (got (use_cap (Some 110%Z)) init_world) (after (use_cap (Some 110%Z)) init_world)
    (after (use_cap (Some 110%Z)) init_world)
    cap_token "m" "sys" "act" [("x", JInt 1); ("y", JInt 2)] None (Some 111%Z) _
    (after (use_cap (Some 111%Z)) (after (use_cap (Some 110%Z)) init_world))).
  - apply run_got. vm_compute. reflexivity.
  - apply rtc_refl.
  - reflexivity.
  - apply run_pair.
Defined.

(** ** Policy *)
Definition constitution : string := "law".
Definition guard : PolicyGuard :=
  {| pg_identity := ia; pg_constitution_path := ["c"]; pg_expected_constitution_sha256 := sha256_hex constitution |}.
Definition rule : ActionRule :=
  {| ar_required_scope := "go"; ar_material_change := true; ar_irreversible := false; ar_checkpoint_required := true |}.
Definition authority : SovereignPolicyAuthority :=
  {| sa_identities := ia; sa_policy := guard; sa_capability_secret := "s"; sa_capability_issuer := "ci";
     sa_capability_identities := ia; sa_action_catalog := {[ "sys" := {[ "act" := rule ]} ]};
     sa_checkpoint_verifier := λ _ _, mret true; sa_recovery_verifier := λ _ _, mret true |}.
Definition intent : ActionIntent :=
  {| ai_mission_id := "m"; ai_system_id := "sys"; ai_action := "act"; ai_parameters := [("x", JInt 1)];
     ai_checkpoint_id := Some "cp" |}.
Definition governed : World :=
  after (create_mission "m" "sys" "RUNNING" (Some 1%Q)) (with_files (<[["c"] := constitution]>) init_world).

Lemma policy_permits_witness :
  let request := [("mission_authorized", JBool true); ("system_authorized", JBool true); ("scope_ok", JBool true)] in
  let p := {| pr_subject := "a"; pr_kind := "k"; pr_scopes := []; pr_issuer := "i"; pr_issued_at := 0;
              pr_expires_at := 1; pr_token_id := "t" |} in
  request_allowed p request.
Proof.
  intros request p. apply (proj1 (policy_permits_iff true p request)). vm_compute. reflexivity.
Defined.

Abbreviation authorized := (authorize authority (token_for ["go"]) intent (Some 100%Z)).
Lemma authorize_sound_witness :
  ∃ aa m rl cv rv p w1 w2, authorized governed = (Ok aa, after authorized governed)
    ∧ intent_authorised authority (token_for ["go"]) intent (Some 100%Z) governed m rl cv rv p w1 w2.
Proof.
  destruct (run_some authorized governed) as (aa & E); [vm_compute; reflexivity|].
  edestruct authorize_sound as ((m & rl & cv & rv & p & w1 & w2 & Hi) & _); [exact E|]. exists aa, m, rl, cv, rv, p, w1, w2.
  split; [exact E|exact Hi].
Defined.

Lemma checkpoint_required_witness :
  let minor := {| ar_required_scope := "go"; ar_material_change := false; ar_irreversible := false;
                  ar_checkpoint_required := true |} in
  let p := {| pr_subject := "a"; pr_kind := "k"; pr_scopes := ["go"]; pr_issuer := "i"; pr_issued_at := 0;
              pr_expires_at := 1; pr_token_id := "t" |} in
  permitted (decide_verified true p (intent_request intent minor true true false true)) = true.
Proof.
  intros minor p. rewrite (checkpoint_required_not_enforced true p intent minor true true true false true) by reflexivity.
  vm_compute. reflexivity.
Defined.

(** ** Skills *)
Definition donor : dict :=
  [("id", JStr "d"); ("purpose", JStr "p"); ("resolved_commit", JStr "c"); ("status", JStr "collected")].
Definition full_evidence : dict := map (λ n, (n, JBool true)) REQUIRED_EVIDENCE.
Lemma evaluate_donor_witness :
  ∃ lab, evaluate_donor donor full_evidence = Ok lab ∧ lr_decision lab = APPROVED.
Proof.
  destruct (evaluate_donor donor full_evidence) as [lab|e] eqn:E; [|vm_compute in E; discriminate].
  exists lab. split; [reflexivity|]. apply (proj1 (evaluate_donor_approves_iff _ _ _ E)).
  repeat split; try (vm_compute; reflexivity). intros name Hn.
  repeat (apply elem_of_cons in Hn as [->|Hn]; [reflexivity|]). by apply elem_of_nil in Hn.
Defined.

Abbreviation register := (register_donor_skill ia (token_for ["skill:register"]) "sk" "1" "cap" donor (Some 100%Z)).
Abbreviation retire := (skill_retire ia (token_for ["skill:approve"; "skill:retire"]) "sk" "1" "old" (Some 100%Z)).
Definition registered : World := after register init_world.
Lemma registered_wf : skills_wf (w_db registered).
Proof.
  assert (rtc (skill_step ia) init_world registered) as Hr by (eapply rtc_once, step_register).
  exact (proj1 (skill_steps_evolve ia _ _ Hr (skills_wf_empty (w_db init_world) eq_refl))).
Qed.
Lemma skill_lifecycle_monotone_witness :
  ∃ r r', r ∈ cognitive_skills (w_db registered) ∧ r' ∈ cognitive_skills (w_db (after retire registered)) ∧ skill_moves r r'.
Proof.
  destruct (cognitive_skills (w_db registered)) as [|r l] eqn:E; [vm_compute in E; discriminate|].
  assert (r ∈ cognitive_skills (w_db registered)) as Hr by (rewrite E; left).
  destruct (skill_lifecycle_monotone ia registered (after retire registered) r registered_wf) as (r' & Hr' & Hm).
  - eapply rtc_once. apply step_retire.
  - exact Hr.
  - exists r, r'. split; [left|]. split; [exact Hr'|exact Hm].
Defined.

(** ** Memory *)
Abbreviation recorded := (memory_record "k" "src" [("b", JInt 2); ("a", JInt 1)] ["e1"] None (1 # 2) (Some 1%Q)).
Definition remembered : World := after recorded init_world.
Abbreviation promoted := (memory_promote ia "u" (token_for ["memory:promote"]) ["e1"] true true (Some 100%Z)).
Lemma memory_promotion_gated_witness :
  ∃ rec r, promoted remembered = (Ok rec, after promoted remembered)
    ∧ find_row mm_id "u" (cognitive_memory (w_db remembered)) = Some r ∧ mm_state r = "QUARANTINED".
Proof.
  destruct (run_some promoted remembered) as (rec & E); [vm_compute; reflexivity|].
  edestruct memory_promotion_gated as (_ & _ & p & w0 & r & r' & _ & Hr & Hst & _); [exact E|].
  exists rec, r. split; [exact E|]. split; [exact Hr|exact Hst].
Defined.

Lemma remembered_wf : memory_wf (w_db remembered).
Proof.
  apply (after_respects memory_evolves recorded init_world (record_evolves _ _ _ _ _ _ _)). by split; constructor.
Qed.
Abbreviation vaulted := (vault_promote ia "v" "u" (token_for ["memory:promote"]) ["e1"] true true (Some 100%Z)).
Lemma vault_promote_verifies_witness :
  let w1 := after vaulted remembered in vault_verify "v" "u" (after recorded w1) = (Ok true, after recorded w1).
Proof.
  intros w1. destruct (run_some vaulted remembered) as (rec & E); [vm_compute; reflexivity|].
  apply (vault_promote_verifies ia "v" "u" (token_for ["memory:promote"]) ["e1"] true true (Some 100%Z) remembered rec w1).
  - apply remembered_wf.
  - exact E.
  - eapply rtc_once. apply step_record.
Defined.

(** The same memory with its content text spelled differently. *)
Definition respell (r : memory_row) : memory_row :=
  {| mm_id := mm_id r; mm_mission_id := mm_mission_id r; mm_kind := mm_kind r; mm_source := mm_source r;
     mm_content_json := mm_content_json r +:+ newline; mm_evidence_json := mm_evidence_json r;
     mm_confidence := mm_confidence r; mm_state := mm_state r; mm_content_sha256 := mm_content_sha256 r;
     mm_created_at := mm_created_at r; mm_promoted_at := mm_promoted_at r;
     mm_validator_subject := mm_validator_subject r |}.
Definition vault1 : World := after vaulted remembered.
Definition vault2 : World := with_db (set_cognitive_memory (map respell)) vault1.
Lemma seals_kept f w id :
  find_row ms_memory_id id (memory_promotion_seals (w_db (with_db (set_cognitive_memory f) w)))
  = find_row ms_memory_id id (memory_promotion_seals (w_db w)).
Proof. reflexivity. Qed.
Lemma vault_verify_pins_content_witness :
  ∃ r1 r2 c1 c2, mm_content_json r1 ≠ mm_content_json r2
    ∧ loads (mm_content_json r1) = Some c1 ∧ loads (mm_content_json r2) = Some c2
    ∧ (jcanon c1 = jcanon c2 ∨ sha256_collide (memory_canonical c1) (memory_canonical c2)).
Proof.
  destruct (find_row mm_id "u" (cognitive_memory (w_db vault1))) as [r1|] eqn:R1; [|vm_compute in R1; discriminate].
  destruct (find_row mm_id "u" (cognitive_memory (w_db vault2))) as [r2|] eqn:R2; [|vm_compute in R2; discriminate].
  destruct (find_row ms_memory_id "u" (memory_promotion_seals (w_db vault1))) as [row|] eqn:S1; [|vm_compute in S1; discriminate].
  edestruct (vault_verify_pins_content "v" "u" vault1 vault2) as ((c1 & c2 & L1 & L2 & Hc) & _).
  - instantiate (1 := vault1). vm_compute. reflexivity.
  - instantiate (1 := vault2). vm_compute. reflexivity.
  - exact R1.
  - exact R2.
  - exact S1.
  - exact (eq_trans (seals_kept (map respell) vault1 "u") S1).
  - exists r1, r2, c1, c2. split; [|split; [exact L1|split; [exact L2|exact Hc]]].
    vm_compute in R1, R2. injection R1 as <-. injection R2 as <-. discriminate.
Defined.
