(* ===== verification/WitnessOps.v ===== *)
(** The properties of observability, diagnosis, checkpoints, remediation, backups,
    the lock and the supervisor, at concrete runs. *)

From S2P Require Import Prelude Json Concrete Sha256 Schema Files Storage Ledger LedgerProps Tokens Policy.
From S2P Require Import Observability ObservabilityProps Diagnosis DiagnosisProps Checkpoints CheckpointProps.
From S2P Require Import Remediation RemediationProps StateBackup StateBackupProps Lock LockProps Continuous.
From S2P Require Import ContinuousProps.

#[local] Opaque sha256_hex hmac_hex.

(** ** Evidence *)
Abbreviation noted := (evidence true "k" [("x", JInt 1)] None (Some 1%Q)).
Lemma evidence_tamper_evident_witness :
  ∃ ref, noted init_world = (Ok ref, after noted init_world)
    ∧ verify_evidence (er_id ref) (after noted (after noted init_world)) = (Ok true, after noted (after noted init_world)).
Proof.
  destruct (run_some noted init_world) as (ref & E); [vm_compute; reflexivity|]. exists ref. split; [exact E|].
  apply (evidence_tamper_evident true "k" [("x", JInt 1)] None (Some 1%Q) init_world ref (after noted init_world)).
  - exact E.
  - eapply rtc_once. apply step_evidence.
Defined.

(** ** Diagnosis *)
Definition incident0 : incident_row :=
  {| in_id := "in"; in_mission_id := "m"; in_correlation_key := "c"; in_title := "t"; in_state := "INVESTIGATING";
     in_root_hypothesis_id := None; in_created_at := 0; in_updated_at := 0 |}.
Definition attempt0 (i : string) : attempt_row :=
  {| at_id := i; at_incident_id := "in"; at_hypothesis_id := "h"; at_strategy := "s"; at_test_name := "n";
     at_outcome := "INCONCLUSIVE"; at_progress_score := 0; at_evidence_id := "e";
     at_strategy_fingerprint := strategy_digest "s" "n"; at_created_at := 0 |}.
Definition stuck : World :=
  with_db (λ d, set_diag_attempts (λ _, [attempt0 "a"; attempt0 "b"]) (set_diag_incidents (λ _, [incident0]) d)) init_world.
Lemma stuck_wf : diag_wf (w_db stuck).
Proof.
  split; cbn [stuck w_db with_db].
  - apply NoDup_singleton.
  - constructor.
  - apply Forall_singleton. cbn. set_solver.
  - apply Forall_singleton. done.
  - constructor.
  - constructor.
  - repeat constructor.
Qed.

Abbreviation hypothesised := (add_hypothesis "in" "cause" (1 # 2) (Some 2%Q)).
Lemma diagnosis_invariant_witness : diag_wf (w_db (after hypothesised stuck)).
Proof.
  apply (diagnosis_invariant false stuck).
  - apply stuck_wf.
  - eapply rtc_once. apply step_hypothesis.
Defined.

(** Two attempts without progress: the same strategy is refused. *)
Lemma stalled_requires_change_witness :
  ∃ msg, require_strategy_change 2 "in" " s" "n " stuck = (Raise (Exn DiagnosisError msg), stuck).
Proof.
  assert (last_attempts 2 "in" (diag_attempts (w_db stuck)) = [attempt0 "a"; attempt0 "b"]
          ∨ last_attempts 2 "in" (diag_attempts (w_db stuck)) = [attempt0 "b"; attempt0 "a"]) as Hrows
    by (first [left; reflexivity | right; reflexivity]).
  destruct (stalled_requires_change 2 "in" " s" "n " stuck stuck_wf ltac:(discriminate)) as (_ & Hr & _).
  apply Hr. destruct Hrows as [-> | ->]; (split; [split; [reflexivity|split]|]).
  all: repeat match goal with |- ∀ r, r ∈ _ → _ => intros ? Hx | |- _ → _ => intros ? end.
  all: repeat match goal with H : _ ∈ _ :: _ |- _ => apply elem_of_cons in H as [->|H] | H : _ ∈ [] |- _ => by apply elem_of_nil in H end.
  all: first [reflexivity | split; reflexivity | discriminate].
Defined.

(** ** Checkpoints *)
Definition ws : path := ["ws"; "a"].
Definition working : World := with_files (<[ws ++ ["f"] := "old"]>) init_world.
Abbreviation capture := (cp_create ["ws"] ["cp"] ws "m" "t" (Some 1%Q)).
(** After the checkpoint a file changed and one was added. *)
Definition damage (w : World) : World := with_files (λ f, <[ws ++ ["g"] := "x"]> (<[ws ++ ["f"] := "new"]> f)) w.
Lemma roots_apart : apart ["ws"] ["cp"].
Proof. split; intros [x Hx]; discriminate. Qed.
Lemma damage_keeps w c : apart ws (cr_path c) → subtree (cr_path c) (w_files (damage w)) = subtree (cr_path c) (w_files w).
Proof.
  intros Hap. apply map_eq. intros rel. rewrite !lookup_subtree. unfold damage. cbn [w_files with_files].
  rewrite !lookup_insert_ne; [done| |]; intros E; apply (apart_strip ws (cr_path c) rel) in Hap;
    rewrite <- E in Hap; by rewrite (proj2 (strip_prefix_Some _ _ _) eq_refl) in Hap.
Qed.

Lemma checkpoint_restores_workspace_witness :
  ∃ c w3, capture working = (Ok c, after capture working)
    ∧ cp_restore ["ws"] ["cp"] c ws (damage (after capture working)) = (Ok tt, w3)
    ∧ subtree ws (w_files w3) = {[ ["f"] := "old" ]}.
Proof.
  destruct (run_some capture working) as (c & E); [vm_compute; reflexivity|].
  assert (cr_path c = ["cp"; "u"]) as Hcp.
  { rewrite <- (field_run cr_path [] _ _ _ _ E). vm_compute. reflexivity. }
  assert (c = field id c (fst (capture working))) as Hc by (symmetry; exact (field_run id c _ _ _ _ E)).
  destruct (cp_restore ["ws"] ["cp"] c ws (damage (after capture working))) as [r w3] eqn:Hr.
  destruct (checkpoint_restores_workspace ["ws"] ["cp"] ws "m" "t" (Some 1%Q) working c (after capture working)
              (damage (after capture working)) r w3 roots_apart E) as (_ & Ht & _).
  - apply damage_keeps. rewrite Hcp. split; intros [x Hx]; discriminate.
  - exact Hr.
  - exists c, w3. split; [exact E|]. assert (r = Ok tt) as ->.
    { apply (f_equal fst) in Hr. cbn [fst] in Hr. rewrite <- Hr. rewrite Hc. vm_compute. reflexivity. }
    split; [exact Hr|]. rewrite Ht. apply map_eq. intros rel. rewrite lookup_subtree.
    unfold working. cbn [w_files with_files init_world].
    destruct (decide (rel = ["f"])) as [->|Hne]; [reflexivity|].
    rewrite lookup_singleton_ne by done. rewrite lookup_insert_ne; [reflexivity|].
    intros Eq. apply app_inv_head in Eq. by apply Hne.
Defined.

Definition no_ref : CheckpointRef :=
  {| cr_id := ""; cr_mission_id := ""; cr_task_id := ""; cr_path := []; cr_manifest_sha256 := "" |}.
Definition captured : CheckpointRef := field id no_ref (fst (capture working)).
Lemma captured_tree_ok w :
  w_files w = w_files (after capture working) → tree_ok ["cp"; "u"; "data"] (w_files w).
Proof.
  intros Ew rel c Hl. rewrite Ew in Hl. apply elem_of_map_to_list in Hl.
  assert (Forall (λ kv, match strip_prefix ["cp"; "u"; "data"] kv.1 with
                        | Some rel => rel ≠ [] ∧ Forall (λ x, no_slash x = true) rel | None => True end)
            (map_to_list (w_files (after capture working)))) as Hall.
  { vm_compute. repeat first [constructor | discriminate]. }
  rewrite Forall_forall in Hall. apply Hall in Hl. cbn [fst] in Hl.
  by rewrite (proj2 (strip_prefix_Some ["cp"; "u"; "data"] _ rel) eq_refl) in Hl.
Qed.
(** Later work elsewhere leaves the checkpoint valid. *)
Definition elsewhere (w : World) : World := after (audit "a" "x" None [] (Some 9%Q)) w.
Lemma elsewhere_files w : w_files (elsewhere w) = w_files w.
Proof.
  unfold elsewhere, after. destruct (audit "a" "x" None [] (Some 9%Q) w) as [r w'] eqn:E.
  apply audit_outcome in E as [E _]. exact E.
Qed.
Lemma checkpoint_tamper_evident_witness :
  let w1 := after capture working in
  let w2 := elsewhere w1 in
  subtree (cr_path captured ++ ["data"]) (w_files w1) = subtree (cr_path captured ++ ["data"]) (w_files w2)
  ∨ sha256_collide_in (hashed_texts captured w1) (hashed_texts captured w2).
Proof.
  intros w1 w2.
  assert (cr_path captured ++ ["data"] = ["cp"; "u"; "data"]) as Ep by (vm_compute; reflexivity).
  apply (checkpoint_tamper_evident ["cp"] captured w1 w2 w1 w2).
  - vm_compute. reflexivity.
  - vm_compute. reflexivity.
  - rewrite Ep. by apply captured_tree_ok.
  - rewrite Ep. apply captured_tree_ok. apply elsewhere_files.
Defined.

(** ** Remediation: a task that did not complete is rolled back *)
Definition lab_ws : path := got (for_task ["ws"] "m" "t") init_world.
Definition correction0 : correction_row :=
  {| co_id := "co"; co_incident_id := "in"; co_mission_id := "m"; co_hypothesis_id := "h"; co_description := "d";
     co_task_kind := "k"; co_argv_json := dumps Plain (JList []); co_risk_json := dumps Plain (JObj []);
     co_validation_json := dumps Plain (JObj [("expected_files", JObj [("f", JStr "fixed")])]); co_state := "QUEUED";
     co_task_id := Some "t"; co_checkpoint_id := Some "u"; co_plan_evidence_id := "e"; co_created_at := 0;
     co_updated_at := 0 |}.
Definition lab0 : World := with_files (<[lab_ws ++ ["f"] := "old"]>) stuck.
Definition lab1 : World := after (cp_create ["ws"] ["cp"] lab_ws "m" "t" (Some 1%Q)) lab0.
Definition lab2 : World :=
  with_files (<[lab_ws ++ ["f"] := "broken"]>)
    (with_db (set_diag_corrections (λ _, [correction0]))
       (after (submit_task "m" "k" [] "key" 0 1 (Some "t") (Some 2%Q)) (after (create_mission "m" "s" "RUNNING" (Some 2%Q)) lab1))).
Abbreviation validated := (validate false ["ws"] ["cp"] "co" (Some 5%Q)).
Lemma validate_rolls_back_witness :
  ∃ v, validated lab2 = (Ok v, after validated lab2) ∧ vr_passed v = false ∧ vr_rolled_back v = true
    ∧ w_files (after validated lab2) !! (lab_ws ++ ["f"]) = Some "old".
Proof.
  destruct (run_some validated lab2) as (v & E); [vm_compute; reflexivity|]. exists v. split; [exact E|].
  assert (vr_passed v = false) as Hp.
  { rewrite <- (field_run vr_passed true _ _ _ _ E). vm_compute. reflexivity. }
  destruct (validate_rolls_back false ["ws"] ["cp"] "co" (Some 5%Q) lab2 v (after validated lab2) roots_apart E)
    as (_ & Hr & row & t & tid & cid & c & ws' & wm & wx & Hrow & Htid & Hcid & _ & Hws & Hc & Hfx & _ & Hback).
  destruct (Hback Hp) as (_ & Hsub & _). split; [exact Hp|]. split; [by rewrite Hr, Hp|].
  assert (ws' = lab_ws) as ->.
  { vm_compute in Hrow. injection Hrow as <-. cbn in Htid. injection Htid as <-.
    etransitivity; [symmetry; exact (field_run (λ x, x) [] _ _ _ _ Hws)|]. vm_compute. reflexivity. }
  assert (cr_path c = ["cp"; "u"]) as Hcp.
  { vm_compute in Hrow. injection Hrow as <-. cbn in Hcid. injection Hcid as <-.
    exact (cp_get_path _ _ _ _ _ Hc). }
  rewrite <- lookup_subtree, Hsub, Hcp, lookup_subtree. vm_compute. reflexivity.
Defined.

(** ** Backups *)

Abbreviation backed_up := (bk_create ["bk"] (Some 1%Q)).
Definition one_mission : World := after (create_mission "m" "s" "RUNNING" (Some 0%Q)) init_world.
(** The restore comes after another mission was added. *)
Definition moved_on : World := after (create_mission "m2" "s" "RUNNING" (Some 2%Q)) (after backed_up one_mission).
Lemma backup_restores_state_witness :
  ∃ ref r w3, backed_up one_mission = (Ok ref, after backed_up one_mission)
    ∧ restore_to ["bk"] ref ["out"; "db"] (Some 3%Q) moved_on = (r, w3)
    ∧ w_files w3 !! ["out"; "db"] = Some (db_image (w_db one_mission)).
Proof.
  destruct (run_some backed_up one_mission) as (ref & E); [vm_compute; reflexivity|].
  destruct (restore_to ["bk"] ref ["out"; "db"] (Some 3%Q) moved_on) as [r w3] eqn:Er.
  exists ref, r, w3. split; [exact E|]. split; [exact Er|].
  apply (backup_restores_state ["bk"] (Some 1%Q) one_mission ref (after backed_up one_mission) moved_on ["out"] "db"
           (Some 3%Q) r w3 E).
  - reflexivity.
  - reflexivity.
  - vm_compute. reflexivity.
  - exact Er.
Defined.

(** ** The lock *)
Definition lock1 : SupervisorLock :=
  {| lk_path := ["run"; "lock"]; lk_stale_after_seconds := 120; lk_token := "one"; lk_owned := false |}.
Definition lock2 : SupervisorLock :=
  {| lk_path := ["run"; "lock"]; lk_stale_after_seconds := 120; lk_token := "two"; lk_owned := false |}.
Abbreviation take_lock := (lock_acquire 7 lock1 (Some 1000%Q)).
Lemma lock_excludes_witness :
  lock_acquire 8 lock2 (Some 1060%Q) (after take_lock init_world)
  = (Raise (Exn ContinuousOperationError "supervisor already active"), after take_lock init_world).
Proof.
  destruct (run_some take_lock init_world) as (lk & E); [vm_compute; reflexivity|].
  apply (lock_excludes 7 lock1 1000%Q init_world lk (after take_lock init_world) (after take_lock init_world) 8 lock2 1060%Q E).
  - reflexivity.
  - reflexivity.
  - discriminate.
  - discriminate.
Defined.

Definition lock_text (t : Q) : lock_file := {| lf_inode := 0; lf_text := lock_payload 7 t "one" |}.
Definition racer (t : Q) (token : string) : contender :=
  {| ct_when := t; ct_stale := 120; ct_payload := lock_payload 8 t token |}.

Lemma lock_steps_refine_acquire_witness :
  let fs := {| ls_next := 1; ls_file := Some (lock_text 0) |} in
  let w := after (lock_acquire 7 lock1 (Some 0%Q)) init_world in
  let '(pc, fs') := run_alone 7 (contender_of lock2 1000 (lock_payload 8 1000 "two")) (AtOpen 2) fs in
  pc = Acquired ∧ file_text fs' = w_files (after (lock_acquire 8 lock2 (Some 1000%Q)) w) !! ["run"; "lock"].
Proof.
  intros fs w. destruct (run_some (lock_acquire 8 lock2 (Some 1000%Q)) w) as (lk & E); [vm_compute; reflexivity|].
  refine (lock_steps_refine_acquire 8 lock2 1000%Q w fs (Ok lk) _ _ _ E).
  - vm_compute. reflexivity.
  - intros rel Hr. unfold w. destruct rel as [|x rel]; [exfalso; apply Hr; exact eq_refl|]. change (w_files (after _ init_world))
      with ({[ ["run"; "lock"] := lock_payload 7 0 "one" ]} : gmap path string).
    apply lookup_singleton_ne. discriminate.
Defined.

Lemma fresh_lock_holds_witness :
  let fs := {| ls_next := 1; ls_file := Some (lock_text 1000) |} in
  let start := {| ss_fs := fs; ss_pcs := [AtOpen 2; AtOpen 2] |} in
  let s := {| ss_fs := fs; ss_pcs := [AtOpen 2; AtRead 1] |} in
  rtc (system_step [racer 1060 "two"; racer 1070 "three"]) start s
  ∧ ls_file (ss_fs s) = Some (lock_text 1000) ∧ Acquired ∉ ss_pcs s.
Proof.
  intros fs start s.
  assert (rtc (system_step [racer 1060 "two"; racer 1070 "three"]) start s) as Hs.
  { apply rtc_once. by apply (contender_moves [racer 1060 "two"; racer 1070 "three"] 1 (racer 1070 "three") (AtOpen 2) (AtRead 1) start fs). }
  split; [exact Hs|]. refine (fresh_lock_holds _ (lock_text 1000) 1000%Q 1 s _ _ Hs).
  - apply lock_payload_created.
  - repeat constructor; discriminate.
Defined.

Lemma stale_takeover_race_witness :
  ∃ s, rtc (system_step [racer 1000 "two"; racer 1001 "three"])
         {| ss_fs := {| ls_next := 1; ls_file := Some (lock_text 0) |}; ss_pcs := [AtOpen 2; AtOpen 2] |} s
       ∧ ss_pcs s = [Acquired; Acquired].
Proof.
  apply (stale_takeover_race (racer 1000 "two") (racer 1001 "three") (lock_text 0) 0 1).
  - apply lock_payload_created.
  - reflexivity.
  - reflexivity.
Defined.

(** ** The supervisor *)
Definition supervisor : ContinuousSupervisor :=
  {| su_backup_root := ["bk"]; su_tmp_root := ["tmp"]; su_audited := false;
     su_probes := [("disk", mret true); ("net", throw OSError "down")];
     su_backup_interval := 300; su_restore_drill_interval := 900; su_backup_retention := 2 |}.
Definition started : World := after (supervisor_init supervisor) init_world.
Lemma supervisor_quiet : quiet_probes supervisor.
Proof.
  intros p Hp. repeat (apply elem_of_cons in Hp as [->|Hp]; [cbn [snd]; solve_respects|]). by apply elem_of_nil in Hp.
Qed.
Abbreviation cycle := (supervisor_tick supervisor (Some 10%Q)).
(** One probe fails: the cycle is degraded, and 20 seconds later the watchdog says so. *)
Lemma supervisor_cycle_recorded_witness :
  ∃ c s, cycle started = (Ok c, after cycle started) ∧ cy_state c = "DEGRADED"
    ∧ runtime_cycles (w_db (after cycle started)) = [c]
    ∧ watchdog_check 30 (Some 30%Q) (after cycle started) = (Ok s, after cycle started) ∧ wd_state s = "DEGRADED".
Proof.
  destruct (run_some cycle started) as (c & E); [vm_compute; reflexivity|].
  assert (cy_probes_failed c = 1%Z ∧ cy_completed_at c = 10%Q) as [Hf Hc].
  { rewrite <- (field_run cy_probes_failed 0%Z _ _ _ _ E), <- (field_run cy_completed_at 0%Q _ _ _ _ E).
    split; vm_compute; reflexivity. }
  destruct (supervisor_cycle_recorded supervisor (Some 10%Q) started c (after cycle started) 30 30 supervisor_quiet E
              ltac:(reflexivity)) as (Hr & Hst & _ & _ & s & Hw & Hs).
  exists c, s. rewrite Hf in Hst, Hs. rewrite Hc in Hs. split; [exact E|]. split; [exact Hst|]. split; [exact Hr|].
  split; [exact Hw|exact Hs].
Defined.
