(* ===== verification/WitnessGateway.v ===== *)
(** The properties of the gateway, the boot gate, the coordinator and the operator
    commands, at concrete runs. *)

From stdpp Require Import pretty.
From S2P Require Import Prelude Json Concrete Base64 Sha256 Schema Files Storage StorageProps Ledger.
From S2P Require Import LedgerProps Engine EngineProps Tokens TokenProps Policy PolicyProps Fortress.
From S2P Require Import FortressProps Skills Providers Cognition CognitionProps Observability Gateway.
From S2P Require Import GatewayProps Operations OperationsProps WitnessAuthority.

#[local] Opaque sha256_hex hmac_hex.

(** ** The gateway *)
Definition secret32 : string := "0123456789abcdef0123456789abcdef".
Definition environ (name : string) : option string := if name =s "IMMUNE_GATEWAY_S" then Some secret32 else None.

(** A configuration the loader accepts. *)
Definition config_json (skew ttl : Z) : json :=
  JObj [("schema", JInt 1); ("owner_scope", JStr "immune-gateway");
        ("limits", JObj [("max_clock_skew_seconds", JInt skew); ("nonce_ttl_seconds", JInt ttl)]);
        ("systems", JList [JObj [("id", JStr "sys"); ("adapter", JStr "ad");
                                 ("peer_secret_env", JStr "IMMUNE_GATEWAY_S")]])].
Definition config_files (skew ttl : Z) : gmap path string := {[ ["g"] := dumps Plain (config_json skew ttl) ]}.
Definition config (skew ttl : Z) : GatewayRuntimeConfig :=
  {| gc_owner_scope := "immune-gateway"; gc_bind_host := "127.0.0.1"; gc_bind_port := 4020; gc_max_body_bytes := 65536;
     gc_max_clock_skew_seconds := skew; gc_nonce_ttl_seconds := ttl;
     gc_systems := [{| sb_system_id := "sys"; sb_adapter := "ad"; sb_enabled := true; sb_ingress := "push-signed";
                       sb_peer_secret_env := Some "IMMUNE_GATEWAY_S"; sb_config := [] |}];
     gc_source_path := "/g" |}.
Definition config_loads (skew ttl : Z) : Prop := load_config (config_files skew ttl) ["g"] = Ok (config skew ttl).

Lemma config_binding skew ttl sid b : binding (config skew ttl) sid = Ok b → sid = "sys".
Proof. unfold binding. cbn -[String.eqb]. by destruct (String.eqb_spec "sys" sid). Qed.

Definition body : string := dumps Plain (JObj [("kind", JStr "cpu"); ("subject", JStr "host")]).
Definition nonce : string := "nonce-0123456789".
Definition signed : string := external_signature secret32 "sys" 1000 nonce body.
Abbreviation checked skew ttl t := (verify_signature environ (config skew ttl) "sys" body 1000 nonce signed (Some t)).

Lemma no_replay_witness :
  config_loads 60 300 ∧ ∃ e, fst (checked 60 300 1010%Q (after (checked 60 300 990%Q) init_world)) = Raise e.
Proof.
  split; [vm_compute; reflexivity|].
  apply (no_replay environ (config 60 300) "sys" body 1000 nonce signed 990%Q init_world (after (checked 60 300 990%Q) init_world)
    (after (checked 60 300 990%Q) init_world) body signed 1010%Q _
    (after (checked 60 300 1010%Q) (after (checked 60 300 990%Q) init_world))).
  - reflexivity.
  - vm_compute. reflexivity.
  - apply rtc_refl.
  - apply run_pair.
Defined.

(** The widest skew with the shortest nonce life, both within the loader's bounds. *)
Lemma replay_window_open_witness :
  config_loads 300 30
  ∧ ∃ w2, checked 300 30 (inject_Z 1000 + inject_Z 300)%Q
            (after (checked 300 30 (inject_Z 1000 - inject_Z 300)%Q) init_world) = (Ok tt, w2).
Proof.
  split; [vm_compute; reflexivity|].
  apply (replay_window_open environ (config 300 30) "sys" body 1000 nonce signed init_world
    (after (checked 300 30 (inject_Z 1000 - inject_Z 300)%Q) init_world)).
  - cbn. lia.
  - vm_compute. reflexivity.
Defined.

(** A telemetry message sent when the clock reads 0. *)
Definition post : http_request :=
  {| hq_path := "/v1/telemetry/sys"; hq_content_length := Some (pretty (Z.of_nat (String.length body)));
     hq_timestamp := Some "5"; hq_nonce := Some nonce; hq_signature := Some (external_signature secret32 "sys" 5 nonce body);
     hq_stream := body |}.
Abbreviation posted := (do_POST environ (config 60 300) post).
Lemma post_brings_data_only_witness :
  field hr_status 0%Z (fst (posted init_world)) = 202%Z
  ∧ no_authority (w_db init_world) (w_db (after posted init_world))
  ∧ ∃ o signal_id, go_system_id o = "sys" ∧ decode_observation "sys" body = Ok o
      ∧ untrusted_signal o "signed-push" signal_id (w_db (after posted init_world)).
Proof.
  assert (field hr_status 0%Z (fst (posted init_world)) = 202%Z) as Hst by (vm_compute; reflexivity).
  split; [exact Hst|].
  destruct (post_brings_data_only environ (config 60 300) post init_world (fst (posted init_world)) (after posted init_world))
    as (_ & Hno & Hacc); [apply run_pair|]. split; [exact Hno|].
  destruct (fst (posted init_world)) as [resp|e] eqn:E; [|discriminate Hst].
  destruct (Hacc resp eq_refl Hst) as (rest & len & ts & secret & o & signal_id & Hrest & Hlen & _ & _ & _ & _ & _ & Hd & Hs & _ & Hu).
  vm_compute in Hrest. injection Hrest as <-. vm_compute in Hlen. injection Hlen as <-.
  exists o, signal_id. split; [exact Hs|]. split; [|exact Hu].
  etransitivity; [|exact Hd]. vm_compute. reflexivity.
Defined.

(** An adapter that performs one registered action. *)
Definition adapter : ProtectedSystemAdapter :=
  {| pa_adapter_id := "ad"; pa_system_id := "sys"; pa_collect := λ _, mret None;
     pa_action_policy := λ _, mret {| ap_required_scope := "go"; ap_material_change := true; ap_irreversible := false;
                                      ap_checkpoint_required := true |};
     pa_verify_checkpoint := λ _, mret true; pa_recovery_ready := λ _ _, mret true;
     pa_execute := λ _ _ _, mret (JObj [("ok", JBool true); ("detail", JStr "done")]) |}.
Definition egress_request : EgressRequest :=
  {| eq_mission_id := "m"; eq_system_id := "sys"; eq_action := "act"; eq_parameters := [("x", JInt 1)];
     eq_checkpoint_id := Some "cp" |}.
Definition egress_capability : string :=
  field (λ aa, c_token (aa_capability aa)) "" (fst (authorize authority (token_for ["go"]) intent (Some 100%Z) governed)).
Abbreviation egressed := (egress_execute ia "s" "ci" (config 60 300) {[ "sys" := adapter ]} egress_request
  (token_for ["gateway:egress"]) egress_capability 5%Q (Some 101%Z)).
Lemma egress_authorised_and_recorded_witness :
  ∃ rc row, egressed governed = (Ok rc, after egressed governed) ∧ ec_ok rc = true
    ∧ row ∈ gateway_egress_receipts (w_db (after egressed governed)) ∧ ge_evidence_id row = ec_evidence_id rc.
Proof.
  destruct (run_some egressed governed) as (rc & E); [vm_compute; reflexivity|].
  destruct (egress_authorised_and_recorded ia "s" "ci" (config 60 300) {[ "sys" := adapter ]} egress_request
    (token_for ["gateway:egress"]) egress_capability 5%Q (Some 101%Z) governed rc _ E)
    as (p & a & cid & result & wa & wb & row & Ha & _ & Hx & Hok & _ & Hin & Hid & _).
  exists rc, row. split; [exact E|]. split; [|split; [exact Hin|exact Hid]].
  destruct Ha as [_ _ [Had _] _ _]. simpl in Had. rewrite lookup_singleton in Had. injection Had as <-.
  injection Hx as <- <-. rewrite Hok. reflexivity.
Defined.

(** ** The boot gate *)
Definition tree : gmap path string := {[ ["r"; "a"] := "x"; ["r"; "b"] := "y" ]}.
Definition built : result (RootManifest * string) := root_build ["r"] (hmac_root_key "k") tree ["a"; "b"] 3 "commit".
Lemma built_manifest_boots_witness :
  ∃ m s a, built = Ok (m, s) ∧ attest ["r"] (hmac_root_key "k") (<[["r"; "c"] := "z"]> tree) m s 2 false = Ok a
    ∧ ba_operational a = true.
Proof.
  destruct built as [[m s]|e] eqn:E; [|vm_compute in E; discriminate E].
  destruct (built_manifest_boots ["r"] (hmac_root_key "k") tree ["a"; "b"] 3 "commit" m s (<[["r"; "c"] := "z"]> tree) 2 E)
    as (a & Ha & Hop & _).
  - intros e He. apply lookup_insert_ne. vm_compute in E. injection E as <- <-.
    apply elem_of_cons in He as [->|He]; [vm_compute; discriminate|].
    apply elem_of_cons in He as [->|He]; [vm_compute; discriminate|]. apply elem_of_nil in He. destruct He.
  - discriminate.
  - exists m, s, a. split; [reflexivity|]. split; [exact Ha|exact Hop].
Defined.

(** ** The coordinator *)
Definition proposal : ProviderProposal :=
  {| pp_provider_id := "p"; pp_summary := "s"; pp_hypotheses := [];
     pp_recommended_tasks := [[("kind", JStr "check"); ("payload", JObj [])]; [("kind", JStr "buy"); ("risk", JObj [("purchase", JBool true)])]];
     pp_confidence := 1; pp_degraded := false; pp_metadata := [] |}.
Abbreviation queued := (queue_proposal guard "m" proposal (token_for ["cognition:authorize"]) 5 3 (Some 100%Z)).
Lemma queue_proposal_gated_witness :
  ∃ qr, queued governed = (Ok qr, after queued governed)
    ∧ length (qr_queued_task_ids qr) + length (qr_rejected qr) = 2
    ∧ only_queues (w_db governed) (w_db (after queued governed)).
Proof.
  destruct (run_some queued governed) as (qr & E); [vm_compute; reflexivity|].
  destruct (queue_proposal_gated guard "m" proposal (token_for ["cognition:authorize"]) 5 3 (Some 100%Z) governed qr _
    (skills_wf_empty (w_db governed) eq_refl) E) as (m & _ & Hn & _ & Hq & _).
  exists qr. split; [exact E|]. split; [exact Hn|exact Hq].
Defined.

(** ** Operator commands *)
Abbreviation recover_service := (submit_command ia guard "m" "diagnose" (token_for ["operator:diagnose"])
  (Some "service-recovery") [("runbook", JStr "service-recovery"); ("service", JStr "web")] None (Some 100%Z)).
Lemma operator_command_gated_witness :
  ∃ ref row, recover_service governed = (Ok ref, after recover_service governed)
    ∧ row ∈ op_commands (w_db (after recover_service governed)) ∧ oc_state row = "QUEUED"
    ∧ command_frame (w_db governed) (w_db (after recover_service governed)).
Proof.
  destruct (run_some recover_service governed) as (ref & E); [vm_compute; reflexivity|].
  destruct (operator_command_gated _ _ _ _ _ _ _ _ _ _ _ _ E) as (_ & _ & Hf & row & t & Hin & _ & Hst & _).
  exists ref, row. split; [exact E|]. split; [exact Hin|]. split; [exact Hst|exact Hf].
Defined.

Definition restart : ControlledAction :=
  {| ca_action_id := "restart"; ca_task_kind := "service"; ca_argv := ["systemctl"; "restart"; "web"];
     ca_material_change := true; ca_timeout_seconds := 30 |}.
Definition registry : list (string * string * ControlledAction) := [(("service-recovery", "web"), restart)].
Definition commanded : World := after recover_service governed.
Abbreviation dispatch ts := (dispatch_once "dispatcher" registry (Some ts)).
Lemma dispatch_uses_registry_witness :
  ∃ o order payload params cmd child, dispatch 200%Q commanded = (Ok o, after (dispatch 200%Q) commanded)
    ∧ dispatched registry commanded o (after (dispatch 200%Q) commanded) order payload params cmd "web" restart child.
Proof.
  destruct (run_some (dispatch 200%Q) commanded) as (o & E); [vm_compute; reflexivity|].
  assert (do_state o = "DISPATCHED") as Hst by (rewrite <- (field_run do_state "" _ _ _ _ E); vm_compute; reflexivity).
  destruct (dispatch_uses_registry _ _ _ _ _ _ E Hst) as (order & payload & params & cmd & service & a & child & Hd).
  pose proof (dp_registered _ _ _ _ _ _ _ _ _ _ _ Hd) as [Hreg _].
  apply list_elem_of_singleton in Hreg. injection Hreg as -> ->.
  exists o, order, payload, params, cmd, child. split; [exact E|exact Hd].
Defined.

(** The dispatcher's second turn fails the child task of its first. *)
Definition dispatched_once : World := after (dispatch 200%Q) commanded.
Lemma dispatched_once_wf : db_wf (w_db dispatched_once).
Proof.
  apply (after_respects (keeps db_wf)); [apply dispatch_keeps_store|].
  apply (after_respects (keeps db_wf)); [apply command_keeps_store|].
  apply (after_respects (keeps db_wf)); [apply create_mission_keeps|]. exact empty_db_wf.
Qed.
Lemma dispatcher_fails_foreign_task_witness :
  ∃ r o r', claim_row 300%Q None (recover_rows 300%Q (tasks (w_db dispatched_once))) = Some r
    ∧ t_kind r = "service" ∧ dispatch 300%Q dispatched_once = (Ok o, after (dispatch 300%Q) dispatched_once)
    ∧ find_row t_id (t_id r) (tasks (w_db (after (dispatch 300%Q) dispatched_once))) = Some r' ∧ t_state r' = "FAILED".
Proof.
  destruct (claim_row 300%Q None (recover_rows 300%Q (tasks (w_db dispatched_once)))) as [r|] eqn:Hr;
    [|vm_compute in Hr; discriminate Hr].
  assert (t_kind r = "service" ∧ t_max_attempts r = 1%Z ∧ t_attempts r = 0%Z) as (Hk & Hm & Ha).
  { vm_compute in Hr. injection Hr as <-. repeat split. }
  destruct (run_some (dispatch 300%Q) dispatched_once) as (o & E); [vm_compute; reflexivity|].
  destruct (dispatcher_fails_foreign_task "dispatcher" registry 300%Q dispatched_once r o (after (dispatch 300%Q) dispatched_once) dispatched_once_wf Hr)
    as (_ & r' & Hf & Hst); [rewrite Hk; discriminate|rewrite Hm, Ha; discriminate|exact E|].
  exists r, o, r'. split; [reflexivity|]. split; [exact Hk|]. split; [exact E|]. split; [exact Hf|exact Hst].
Defined.

(** ** Exceptions and reports *)
Abbreviation ask_human := (request_human_exception "m" "why" "approve it" "it stops" "it goes on" None (Some 100%Q)).
Definition asked : World := after ask_human governed.
Definition exception_id : string := field hr_id "" (fst (ask_human governed)).
Abbreviation decided := (decide_human_exception ia exception_id (token_for ["human:approve"]) true "yes" (Some 101%Z)).
Lemma exception_decided_once_witness :
  ∃ h row, decided asked = (Ok h, after decided asked)
    ∧ find_row hx_id exception_id (op_human_exceptions (w_db (after decided asked))) = Some row ∧ hx_state row = "APPROVED"
    ∧ decided (after decided asked)
      = (Raise (Exn OperationsError "human exception already decided"), after decided asked).
Proof.
  destruct (run_some decided asked) as (h & E); [vm_compute; reflexivity|].
  destruct (exception_decided_once _ _ _ _ _ _ _ _ _ E) as (r & p & w1 & row & _ & _ & _ & Hrow & Hst & _ & _ & _ & _ & Hlater).
  exists h, row. split; [exact E|]. split; [exact Hrow|]. split; [exact Hst|]. apply Hlater.
Defined.

Definition diagnosed : World :=
  with_db (set_diag_incidents (λ _, [{| in_id := "inc"; in_mission_id := "m"; in_correlation_key := "c"; in_title := "t";
    in_state := "OPEN"; in_root_hypothesis_id := None; in_created_at := 1; in_updated_at := 1 |}])) governed.
Abbreviation reported := (build_incident "inc" [] (Some 100%Q)).
Lemma built_report_verifies_witness :
  ∃ r, reported diagnosed = (Ok r, after reported diagnosed)
    ∧ verify_report (br_id r) (after reported diagnosed) = (Ok true, after reported diagnosed).
Proof.
  destruct (run_some reported diagnosed) as (r & E); [vm_compute; reflexivity|].
  destruct (built_report_verifies _ _ _ _ _ _ E) as (_ & Hv & _). exists r. split; [exact E|exact Hv].
Defined.
