(* ===== verification/WitnessExecution.v ===== *)
(** The properties of the execution broker, the release manager and the provider
    configuration, at concrete runs. *)

From S2P Require Import Prelude Json Concrete Sha256 Schema Files Storage Ledger LedgerProps Tokens Policy.
From S2P Require Import Engine Checkpoints CheckpointProps Execution ExecutionProps StateBackup Updates.
From S2P Require Import Providers ProviderProxy ProviderProxyProps WitnessAuthority.

#[local] Opaque sha256_hex hmac_hex.

(** ** Execution *)
Definition worker : WorkerManifest :=
  {| wm_id := "w"; wm_kinds := ["k"]; wm_capabilities := ["c"]; wm_authority := "task-scoped";
     wm_allowed_executables := ["/bin/Tool"]; wm_max_runtime_seconds := 60; wm_max_output_bytes := 1024;
     wm_env_allowlist := ["LANG"] |}.
Definition no_environ : string → option string := λ k, if k =s "PATH" then Some "/bin" else None.
Definition changing : dict := [("argv", JList [JStr "/usr/bin/tool"; JStr "-x"]); ("material_change", JBool true)].
Definition busy : World := after (submit_task "m" "k" changing "key" 0 1 (Some "t") (Some 2%Q)) governed.
Abbreviation claim := (engine_claim_next "w" 30 (Some 100%Q) None).
Definition lease0 : TaskLease :=
  {| l_id := "t"; l_mission_id := "m"; l_kind := "k"; l_payload := JObj changing; l_attempts := 1; l_max_attempts := 1;
     l_lease_owner := "w"; l_lease_until := 130 |}.
Definition task_ws : path := got (for_task ["ws"] "m" "t") init_world.
(** A process that writes a file of the task and exits with [rc]. *)
Definition scribble (rc : Z) (command : list string) (cwd : path) (env : list (string * string)) (timeout : Q) : IO process_end :=
  _ ← modify (with_files (<[task_ws ++ ["f"] := "new"]>)); mret (Completed rc "out" "").
Definition prepared : World := with_files (<[task_ws ++ ["f"] := "old"]>) busy.
Abbreviation roots m := (m guard ["ws"] ["cp"] no_environ).
Abbreviation executed rc := (roots execute (scribble rc) lease0 worker (token_for ["execute:safe"])
  [JStr "/usr/bin/tool"; JStr "-x"] "execute:safe" None true None None (Some 100%Z) None).
Lemma execution_gated_witness :
  ∃ r command ws cp timeout w1 w2 w3, executed 0%Z prepared = (Ok r, after (executed 0%Z) prepared)
    ∧ execution_allowed guard ["ws"] ["cp"] lease0 worker (token_for ["execute:safe"]) [JStr "/usr/bin/tool"; JStr "-x"]
        "execute:safe" None true (Some 100%Z) None prepared command ws cp timeout w1 w2 w3
    ∧ (Z.of_nat (String.length (xr_stdout r)) <= 1024 + 18)%Z.
Proof.
  destruct (run_some (executed 0%Z) prepared) as (r & E); [vm_compute; reflexivity|].
  assert ("execute:safe" ∈ ["execute:safe"; "execute:privileged"]) as Hs by (left).
  assert (0 <= wm_max_output_bytes worker)%Z as Hl by discriminate.
  destruct (execution_gated guard ["ws"] ["cp"] no_environ (scribble 0) lease0 worker _ _ _ _ _ _ _ _ _ _ _ _ Hs Hl E) as
    (command & ws & cp & timeout & w1 & w2 & w3 & env' & ended & w4 & Ha & _ & _ & _ & _ & Ho & _).
  exists r, command, ws, cp, timeout, w1, w2, w3. split; [exact E|]. split; [exact Ha|exact Ho].
Defined.

Abbreviation ran_safe rc := (roots run_safe (scribble rc) lease0 worker (token_for ["execute:safe"])
  [JStr "/usr/bin/tool"; JStr "-x"] true None None (Some 100%Z)).
Abbreviation gates := (authorize_execution guard ["ws"] ["cp"] lease0 worker (token_for ["execute:safe"])
  [JStr "/usr/bin/tool"; JStr "-x"] "execute:safe" None true None (Some 100%Z) None).

Abbreviation turned spawn := (worker_run_once guard ["ws"] ["cp"] no_environ spawn "s" "pi" ia worker
  (token_for ["execute:safe"]) None (Some 100%Z) None).
Lemma worker_reports_truth_witness :
  ∃ o row, turned (scribble 0) prepared = (Ok o, after (turned (scribble 0)) prepared)
    ∧ find_row t_id "t" (tasks (w_db (after (turned (scribble 0)) prepared))) = Some row
    ∧ wo_state o = "COMPLETED" ∧ t_state row = "COMPLETED".
Proof.
  destruct (run_some (turned (scribble 0)) prepared) as (o & E); [vm_compute; reflexivity|].
  assert (wo_state o = "COMPLETED" ∧ wo_task_id o = Some "t") as [Hs Hid].
  { rewrite <- (field_run wo_state "" _ _ _ _ E), <- (field_run wo_task_id None _ _ _ _ E). split; vm_compute; reflexivity. }
  destruct (worker_reports_truth guard ["ws"] ["cp"] no_environ (scribble 0) "s" "pi" ia worker _ _ _ _ _ _ _ E)
    as [[Hn _]|(lease & w1 & res & w2 & row & _ & _ & Ht & _ & Hrow & Hst)].
  - rewrite Hid in Hn. discriminate Hn.
  - exists o, row. rewrite Hid in Ht. injection Ht as Ht. rewrite <- Ht in Hrow. split; [exact E|]. split; [exact Hrow|].
    split; [exact Hs|]. rewrite Hst. exact Hs.
Defined.

(** No such program. *)
Definition missing (command : list string) (cwd : path) (env : list (string * string)) (timeout : Q) : IO process_end :=
  throw OSError "No such file or directory".
Lemma start_failure_strands_task_witness :
  ∃ lease, claim prepared = (Ok (Some lease), after claim prepared)
    ∧ ∃ row, find_row t_id (l_id lease) (tasks (w_db (after (turned missing) prepared))) = Some row ∧ t_state row = "RUNNING".
Proof.
  destruct (run_some claim prepared) as ([lease|] & E); [vm_compute; reflexivity| |].
  2: { exfalso. apply (field_run (λ x : option TaskLease, bool_decide (is_Some x)) false) in E. vm_compute in E. discriminate E. }
  exists lease. split; [exact E|].
  destruct (start_failure_strands_task guard ["ws"] ["cp"] no_environ missing "s" "pi" ia worker (token_for ["execute:safe"]) None
    (Some 100%Z) None prepared lease (after claim prepared) (Exn OSError "No such file or directory") (after (turned missing) prepared))
    as (_ & row & Hrow & Hst & _).
  - intros. reflexivity.
  - exact E.
  - apply run_raised. vm_compute. reflexivity.
  - reflexivity.
  - exists row. split; [exact Hrow|exact Hst].
Defined.

(** ** Releases *)
Definition bundle : World := after (write_manifest ["src"] "1.10") (with_files (<[["src"; "bin"; "app"] := "code"]>) init_world).
(** Version 1.9 is installed. *)
Definition installed : World :=
  with_files (<[["rel"; "current.json"] := dumps Indented (JObj [("version", JStr "1.9"); ("path", JStr "/rel/releases/1.9")])]>)
    (with_files (<[["rel"; "releases"; "1.9"; "app"] := "old code"]>) bundle).
Abbreviation staged_run := (stage ["rel"] ["src"]).
Lemma staged_version_advances_witness :
  ∃ s, staged_run installed = (Ok s, after staged_run installed) ∧ sg_version s = "1.10"
    ∧ subtree (sg_path s) (w_files (after staged_run installed)) = subtree ["src"] (w_files installed).
Proof.
  destruct (run_some staged_run installed) as (s & E); [vm_compute; reflexivity|].
  destruct (staged_version_advances ["rel"] ["src"] installed s _ E) as (m & t & cur & _ & _ & _ & _ & _ & _ & _ & Hsub & _).
  exists s. split; [exact E|]. split; [|exact Hsub].
  rewrite <- (field_run sg_version "" _ _ _ _ E). vm_compute. reflexivity.
Defined.

Definition staged0 : StagedRelease :=
  field id {| sg_id := ""; sg_version := ""; sg_path := []; sg_manifest_sha256 := "" |} (fst (staged_run installed)).
Definition sick (p : path) : IO bool := throw OSError "unhealthy".
Abbreviation activated := (activate ["rel"] ["bk"] staged0 sick (Some 5%Q)).
(** The health check raises: the release is gone and 1.9 is current again. *)
Lemma activation_atomic_witness :
  let w := after staged_run installed in
  ∃ r, activated w = (Ok r, after activated w) ∧ ac_active r = false ∧ ac_rolled_back r = true
    ∧ subtree ["rel"; "releases"] (w_files (after activated w)) = subtree ["rel"; "releases"] (w_files w).
Proof.
  intros w. destruct (run_some activated w) as (r & E); [vm_compute; reflexivity|].
  assert (apart ["rel"] ["bk"]) as Hap by (split; intros [x Hx]; discriminate).
  assert (resolve_join (releases ["rel"]) (sg_version staged0) = releases ["rel"] ++ [sg_version staged0]) as Hv
    by (vm_compute; reflexivity).
  assert (∀ p w0, w_files (snd (sick p w0)) = w_files w0) as Hh by (intros; reflexivity).
  assert (ac_active r = false) as Ha.
  { rewrite <- (field_run ac_active true _ _ _ _ E). vm_compute. reflexivity. }
  destruct (activation_atomic ["rel"] ["bk"] staged0 sick (Some 5%Q) w r _ Hap Hv Hh E) as (_ & _ & _ & Hout).
  rewrite Ha in Hout. destruct Hout as (Hrb & Hrel & _). exists r. split; [exact E|]. split; [exact Ha|]. split; [exact Hrb|exact Hrel].
Defined.

(** ** Providers *)
Definition config_text : string := dumps Indented (JObj
  [("schema", JInt 1); ("owner_scope", JStr "immune-provider-proxy");
   ("providers", JList [
      JObj [("id", JStr "low"); ("adapter", JStr "openai-compatible-http"); ("endpoint", JStr "http://localhost/v1");
            ("model", JStr "m1"); ("locality", JStr "local")];
      JObj [("id", JStr "high"); ("adapter", JStr "openai-compatible-http"); ("endpoint", JStr "https://host/v1");
            ("model", JStr "m2"); ("api_key_env", JStr "IMMUNE_KEY"); ("priority", JInt 5);
            ("request_options", JObj [("top_p", JInt 1)])]])]).
Definition config_files : gmap path string := {[ ["etc"; "providers.json"] := config_text ]}.
Definition key_environ (k : string) : option string := if k =s "IMMUNE_KEY" then Some "sk" else None.
(** A provider that answers one proposal. *)
Definition answer : string := dumps Compact (JObj [("choices", JList [JObj [("message", JObj [("content", JStr
  (dumps Compact (JObj [("summary", JStr "restart it"); ("confidence", JNum (1 # 2))])))])]])]).
Definition answering (endpoint body : string) (headers : list (string * string)) (timeout : Q) : IO string := mret answer.
Definition never_late (r : ProviderRequest) (t : Q) (w : World) : bool := false.
Lemma loaded_config_builds_witness :
  ∃ c m, load_providers config_files ["etc"; "providers.json"] = Ok c
    ∧ build_manager key_environ answering c never_late ia = Ok m
    ∧ map cp_provider_id (pm_providers m) = ["high"; "low"].
Proof.
  destruct (load_providers config_files ["etc"; "providers.json"]) as [c|e] eqn:E; [|exfalso; vm_compute in E; discriminate E].
  destruct (loaded_config_builds key_environ answering config_files ["etc"; "providers.json"] c never_late ia E)
    as (_ & _ & _ & m & Hm & Hids).
  exists c, m. split; [reflexivity|]. split; [exact Hm|]. rewrite Hids. vm_compute in E. injection E as <-. reflexivity.
Defined.

Definition remote : HTTPProvider :=
  {| hp_provider_id := "high"; hp_endpoint := "https://host/v1"; hp_model := "m2"; hp_locality := "external";
     hp_cost_per_call := 0; hp_api_key_env := Some "IMMUNE_KEY"; hp_request_options := [("top_p", JInt 1)];
     hp_owner_scope := "immune-provider-proxy" |}.
Definition asking : ProviderRequest :=
  {| rq_mission_id := "m"; rq_objective := "diagnose"; rq_untrusted_observations := [[("password", JStr "hunter2")]];
     rq_validated_memory := []; rq_skill_context := []; rq_max_tokens := 256 |}.
Abbreviation proposed := (http_propose key_environ answering remote asking 10%Q).
Lemma provider_call_confined_witness :
  ∃ proposal, proposed init_world = (Ok proposal, after proposed init_world) ∧ pp_provider_id proposal = "high"
    ∧ (0 <= pp_confidence proposal <= 1)%Q.
Proof.
  destruct (run_some proposed init_world) as (proposal & E); [vm_compute; reflexivity|].
  assert (http_provider remote = Ok remote) as Hp by (vm_compute; reflexivity).
  destruct (provider_call_confined key_environ answering remote asking 10%Q init_world proposal _ Hp E)
    as (wire & headers & text & _ & _ & _ & _ & _ & _ & _ & Hid & _ & _ & Hc).
  exists proposal. split; [exact E|]. split; [exact Hid|exact Hc].
Defined.
