(* ===== verification/WitnessAutonomy.v ===== *)
(** The properties of the maintenance cycle at concrete runs. *)

From S2P Require Import Prelude Json Concrete Sha256 Schema Files Storage StorageProps Ledger LedgerProps.
From S2P Require Import Tokens Policy Engine EngineProps Memory Providers Cognition Checkpoints Execution.
From S2P Require Import ExecutionProps Autonomy AutonomyProps WitnessAuthority WitnessExecution.

#[local] Opaque sha256_hex hmac_hex.

Abbreviation broker spawn := (worker_run_once guard ["ws"] ["cp"] no_environ spawn "s" "pi" ia).
Definition bound : list WorkerBinding :=
  [{| wb_manifest := worker; wb_worker_token := token_for ["execute:safe"]; wb_privilege_authorizer_token := None |}].
Lemma scribble_store rc command cwd env timeout : respects (on_db same_store) (scribble rc command cwd env timeout).
Proof. intros w. reflexivity. Qed.
Lemma prepared_wf : db_wf (w_db prepared).
Proof.
  unfold prepared. cbn [w_db with_files]. unfold busy. apply (after_respects (keeps db_wf)); [apply submit_task_keeps|].
  unfold governed. apply (after_respects (keeps db_wf)); [apply create_mission_keeps|]. exact empty_db_wf.
Qed.

(** One task with one attempt is queued: two steps or ten end alike. *)
Lemma worker_loop_terminates_witness :
  worker_steps (broker (scribble 3)) bound "m" (Some 100%Z) 2 prepared
  = worker_steps (broker (scribble 3)) bound "m" (Some 100%Z) 10 prepared.
Proof.
  apply (worker_loop_terminates (broker (scribble 3))
    (WorkerContract0 := broker_contract guard ["ws"] ["cp"] no_environ (scribble 3) "s" "pi" ia (scribble_store 3)) bound).
  - exact prepared_wf.
  - assert (work_left 100 "m" prepared = 1) as -> by (vm_compute; reflexivity). repeat constructor.
  - assert (work_left 100 "m" prepared = 1) as -> by (vm_compute; reflexivity). repeat constructor.
Defined.
Abbreviation drained := (worker_steps (broker (scribble 3)) bound "m" (Some 100%Z) 1).
Lemma worker_loop_drains_witness :
  ∃ outcomes, drained prepared = (Ok outcomes, after drained prepared)
    ∧ (no_due 100 "m" (after drained prepared)
       ∨ ∃ task, next_queued_task (mission_rows "m" (after drained prepared)) = Some task
           ∧ binding_for_task task bound = None).
Proof.
  destruct (run_some drained prepared) as (outcomes & E); [vm_compute; reflexivity|]. exists outcomes. split; [exact E|].
  refine (proj1 (worker_loop_drains (broker (scribble 3))
    (WorkerContract0 := broker_contract guard ["ws"] ["cp"] no_environ (scribble 3) "s" "pi" ia (scribble_store 3)) bound
    100 "m" prepared 1 outcomes _ prepared_wf _ E)).
  assert (work_left 100 "m" prepared = 1) as -> by (vm_compute; reflexivity). constructor.
Defined.

(** A crashed worker left a more urgent task of another kind behind. *)
Definition crashed : World :=
  after (claim_next "x" 30 (Some 50%Q) (Some "m")) (after (submit_task "m" "other" [] "key2" 9 3 (Some "t2") (Some 3%Q)) prepared).
Lemma crashed_wf : db_wf (w_db crashed).
Proof.
  unfold crashed. apply (after_respects (keeps db_wf)); [apply claim_keeps|].
  apply (after_respects (keeps db_wf)); [apply submit_task_keeps|]. exact prepared_wf.
Qed.
Definition left_behind : task_row := default (new_task "" "" "" [] "" 0 0 0%Q) (find_row t_id "t2" (tasks (w_db crashed))).
Abbreviation turn0 := (broker (scribble 0) worker (token_for ["execute:safe"]) None (Some 100%Z) (Some "m")).
Lemma recovered_task_blocked_witness :
  ∃ o row, turn0 crashed = (Ok o, after turn0 crashed) ∧ wo_task_id o = Some "t2"
    ∧ find_row t_id "t2" (tasks (w_db (after turn0 crashed))) = Some row ∧ t_state row = "BLOCKED".
Proof.
  destruct (run_some turn0 crashed) as (o & E); [vm_compute; reflexivity|].
  assert (t_id left_behind = "t2") as Hid by (vm_compute; reflexivity).
  destruct (recovered_task_blocked guard ["ws"] ["cp"] no_environ (scribble 0) "s" "pi" ia worker
    (token_for ["execute:safe"]) None 100 "m" crashed left_behind o (after turn0 crashed)) as (Ht & _ & _ & row & Hr & Hs).
  - exact crashed_wf.
  - apply (find_row_Some t_id "t2"). vm_compute. reflexivity.
  - vm_compute. reflexivity.
  - vm_compute. reflexivity.
  - apply Qle_bool_iff. vm_compute. reflexivity.
  - intros s Hs _ Hne. apply list_elem_of_In in Hs.
    assert (forallb (λ s, (t_id s =s "t2") || (t_priority s <? 9)%Z) (tasks (w_db crashed)) = true) as Hall by (vm_compute; reflexivity).
    rewrite forallb_forall in Hall. specialize (Hall s Hs). apply orb_true_iff in Hall as [Hx|Hx].
    + apply String.eqb_eq in Hx. rewrite Hid in Hne. contradiction (Hne Hx).
    + apply Z.ltb_lt in Hx. assert (t_priority left_behind = 9%Z) as -> by (vm_compute; reflexivity). exact Hx.
  - intros Hi%str_in_iff. vm_compute in Hi. discriminate Hi.
  - exact E.
  - rewrite <- (field_run wo_state "IDLE" _ _ _ _ E). vm_compute. discriminate.
  - rewrite Hid in *. exists o, row. split; [exact E|]. split; [exact Ht|]. split; [exact Hr|exact Hs].
Defined.

(** A cycle whose proposal is one harmless task, done well and validated. *)
Definition proposal0 : ProviderProposal :=
  {| pp_provider_id := "p"; pp_summary := "restart"; pp_hypotheses := ["stuck"];
     pp_recommended_tasks := [[("kind", JStr "k"); ("payload", JObj [("argv", JList [JStr "tool"])]); ("skill_id", JNull);
                               ("risk", JObj [])]];
     pp_confidence := 9 # 10; pp_degraded := false; pp_metadata := [] |}.
Definition proposer : CognitiveProvider :=
  {| cp_provider_id := "p"; cp_locality := Some "local"; cp_cost_per_call := Some 0%Q; cp_propose := λ _ _, mret proposal0;
     cp_late := λ _ _ _, false |}.
Definition manager : ProviderManager := {| pm_providers := [proposer]; pm_identity := ia; pm_fallback := proposer |}.
Abbreviation cycle := (run_cycle manager ia guard (broker (scribble 0)) "m" "keep it up" (token_for ["cognition:authorize"]) bound
  [] [] None 16 15%Q None 0%Q (Some (token_for ["memory:promote"])) (Some (λ _, mret true)) (7 # 10) (Some 100%Z)).
Lemma learning_needs_proof_witness :
  ∃ r, cycle governed = (Ok r, after cycle governed) ∧ cy_learning_promoted r = true ∧ cy_state r = "COMPLETED"
    ∧ ∃ wv, all_proven "m" (cy_queued_task_ids r) wv.
Proof.
  destruct (run_some cycle governed) as (r & E); [vm_compute; reflexivity|].
  assert (cy_learning_promoted r = true) as Hp.
  { rewrite <- (field_run cy_learning_promoted false _ _ _ _ E). vm_compute. reflexivity. }
  edestruct learning_needs_proof as (Hs & _ & _ & Hv & _); [exact E|exact Hp|].
  exists r. split; [exact E|]. split; [exact Hp|]. split; [exact Hs|exact Hv].
Defined.
