(* ===== verification/WitnessLearning.v ===== *)
(** The properties of the learning engine at a concrete history: two versions of one
    lineage, the second superseding the first. *)

From S2P Require Import Prelude Json Concrete Sha256 Schema Storage Ledger LedgerProps Tokens Observability.
From S2P Require Import Learning LearningSpec LearningProps WitnessAuthority WitnessOps.

#[local] Opaque sha256_hex hmac_hex.

Abbreviation token_of subject scopes := (got (identity_issue "k" "i" subject "operator" scopes 60 (Some 100%Z)) init_world).
Definition accepted : correction_row :=
  {| co_id := "co"; co_incident_id := "in"; co_mission_id := "m"; co_hypothesis_id := "h"; co_description := "d";
     co_task_kind := "k"; co_argv_json := dumps Plain (JList []); co_risk_json := dumps Plain (JObj []);
     co_validation_json := dumps Plain (JObj []); co_state := "ACCEPTED"; co_task_id := Some "t";
     co_checkpoint_id := Some "u"; co_plan_evidence_id := "u"; co_created_at := 0; co_updated_at := 0 |}.
Definition resolved : incident_row :=
  {| in_id := "in"; in_mission_id := "m"; in_correlation_key := "c"; in_title := "t"; in_state := "RESOLVED";
     in_root_hypothesis_id := Some "h"; in_created_at := 0; in_updated_at := 0 |}.
Definition passed : validation_row :=
  {| va_id := "v"; va_correction_id := "co"; va_passed := true; va_rolled_back := false; va_checks_json := "";
     va_evidence_id := "u"; va_created_at := 0 |}.
(** An accepted correction of mission m, with intact evidence. *)
Definition corrected : World :=
  after (create_mission "m" "s" "RUNNING" (Some 0%Q))
    (with_db (λ d, set_diag_validations (λ _, [passed]) (set_diag_corrections (λ _, [accepted])
       (set_diag_incidents (λ _, [resolved]) d))) (after noted init_world)).

Abbreviation draft v := (create_candidate ia false (token_of "maker" ["knowledge:register"]) "co" "line" "procedure" [("step", JInt v)]
  "SYSTEM" None None (Some 110%Z)).
Definition ident (w : World) (m : IO KnowledgeRecord) : string := field kr_id "" (fst (m w)).
Definition w1 : World := after (draft 1%Z) corrected.
Definition first_id : string := ident corrected (draft 1%Z).
Abbreviation check_by id := (review_integrity ia (token_of "checker" ["knowledge:review"]) id (Some 111%Z)).
Abbreviation promoted id := (promote_knowledge ia false (token_of "boss" ["knowledge:promote"]) id (Some 112%Z)).
Definition w2 : World := after (check_by first_id) w1.
Definition w3 : World := after (promoted first_id) w2.
Definition w4 : World := after (draft 2%Z) w3.
Definition second_id : string := ident w3 (draft 2%Z).
Definition w5 : World := after (check_by second_id) w4.
Definition w6 : World := after (promoted second_id) w5.

Lemma corrected_empty : db_learning (w_db corrected) = {| learning_knowledge := []; learning_outcomes := []; learning_reviews := [] |}.
Proof. vm_compute. reflexivity. Qed.
(** The first version ends superseded, in the invariant. *)
Lemma knowledge_lifecycle_witness :
  learning_wf (db_learning (w_db w6)) ∧ map kn_state (learning_knowledge (w_db w6)) = ["SUPERSEDED"; "PROMOTED"].
Proof.
  split; [|vm_compute; reflexivity]. apply (knowledge_lifecycle ia false corrected).
  - intros n. discriminate.
  - rewrite corrected_empty. apply empty_learning_wf.
  - apply (rtc_l _ _ w1); [apply step_candidate|]. apply (rtc_l _ _ w2); [apply step_review|].
    apply (rtc_l _ _ w3); [apply step_promote|]. apply (rtc_l _ _ w4); [apply step_candidate|].
    apply (rtc_l _ _ w5); [apply step_review|]. apply rtc_once. apply step_promote.
Defined.
Lemma knowledge_promotion_gated_witness :
  ∃ rec principal w0 row record c, promoted second_id w5 = (Ok rec, w6)
    ∧ ia_verify ia (token_of "boss" ["knowledge:promote"]) (Some "knowledge:promote") (Some 112%Z) w5 = (Ok principal, w0)
    ∧ find_row kn_id second_id (learning_knowledge (w_db w5)) = Some row ∧ knowledge_record row = Ok record
    ∧ promotable_knowledge (pr_subject principal) record (db_learning (w_db w5)) c.
Proof.
  destruct (run_some (promoted second_id) w5) as (rec & E); [vm_compute; reflexivity|].
  destruct (knowledge_promotion_gated ia false _ _ _ _ _ _ E) as (principal & w0 & row & record & c & ts & old & Hv & Hf & Hr & Hp & _).
  exists rec, principal, w0, row, record, c. split; [exact E|]. split; [exact Hv|]. split; [exact Hf|]. split; [exact Hr|exact Hp].
Defined.
