(* ===== verification/WitnessDiscovery.v ===== *)
(** The properties of the discovery cycle at concrete runs. *)

From S2P Require Import Prelude Json Concrete Sha256 Schema Storage Ledger LedgerProps Skills Observability.
From S2P Require Import ObservabilityProps Discovery DiscoveryProps.

#[local] Opaque sha256_hex hmac_hex.

Definition seen : dict := [("type", JStr "resource"); ("resource_id", JStr "r"); ("attributes", JObj [("x", JInt 1)])].
Definition good : Sensor := {| se_sensor_id := "good"; se_collect := mret [seen; [("type", JStr "odd")]] |}.
Definition bad : Sensor := {| se_sensor_id := "bad"; se_collect := throw OSError "unreachable" |}.
Definition careless : Sensor := {| se_sensor_id := "careless"; se_collect := mret [[("type", JStr "Resource")]] |}.
Lemma good_sound : sensor_sound good.
Proof. split; [by intros w|]. intros w l w' E. injection E as <- _. vm_compute. reflexivity. Qed.
Lemma bad_sound : sensor_sound bad.
Proof. split; [by intros w|]. intros w l w' E. discriminate E. Qed.

Abbreviation discovered sensors := (discovery_cycle true true 60 300 5 6 50 sensors (Some "m") (Some 10%Q)).
(** The first sensor fails, the second still has its turn. *)
Lemma discovery_isolates_sensors_witness :
  ∃ c, discovered [bad; good] init_world = (Ok c, after (discovered [bad; good]) init_world)
    ∧ dy_sensors_failed c = 1%Z ∧ dy_sensors_ok c = 1%Z
    ∧ ∃ started, Forall (λ s, reported started s (w_db (after (discovered [bad; good]) init_world))) [bad; good].
Proof.
  destruct (run_some (discovered [bad; good]) init_world) as (c & E); [vm_compute; reflexivity|].
  destruct (discovery_isolates_sensors true true 60 300 5 6 50 [bad; good] (Some "m") (Some 10%Q) init_world (Ok c)
      (after (discovered [bad; good]) init_world)) as
    (started & Hr & _ & _ & Ho & Hf).
  - reflexivity.
  - reflexivity.
  - constructor; [exact bad_sound|]. constructor; [exact good_sound|constructor].
  - split; constructor.
  - exact E.
  - exists c. split; [exact E|]. rewrite Hf, Ho. split; [vm_compute; reflexivity|]. split; [vm_compute; reflexivity|].
    exists started. exact Hr.
Defined.
(** The good sensor has no turn. *)
Lemma malformed_observation_aborts_cycle_witness :
  ∃ w', discovered [careless; good] init_world = (Raise (Exn KeyError "resource_id"), w')
    ∧ find_row hl_sensor_id "good" (obs_sensor_health (w_db w')) = None.
Proof.
  destruct (malformed_observation_aborts_cycle true true 60 300 5 6 50 careless [good] [("type", JStr "Resource")] [] (Some "m") 10
    init_world init_world) as (w' & E & _ & _ & Ho).
  - by intros w.
  - reflexivity.
  - reflexivity.
  - reflexivity.
  - exists w'. split; [exact E|]. rewrite Ho; [reflexivity|discriminate].
Defined.
