(* ===== verification/WitnessIsolation.v ===== *)
(** The properties of the container runner, the digital twin and the shipped adapters at
    concrete runs. *)

From S2P Require Import Prelude Json Concrete Sha256 Schema Observability Gateway ProviderProxy Isolation.
From S2P Require Import Files Discovery Twin Storage Tokens TokenProps GatewayProps Adapters WitnessAuthority.
From S2P Require Import WitnessGateway.

#[local] Opaque sha256_hex hmac_hex.

(** A docker that honours the policy. *)
Definition described : string := dumps Plain (JList [JObj [("HostConfig", JObj [("NetworkMode", JStr "none"); ("PidsLimit", JInt 1);
  ("Memory", JInt 134217728); ("NanoCpus", JInt 500000000); ("ReadonlyRootfs", JBool true); ("Tmpfs", JObj [("/tmp", JStr "rw")]);
  ("CapDrop", JList [JStr "all"]); ("SecurityOpt", JList [JStr "no-new-privileges:true"])])]]).
Definition docker0 (args : list string) (timeout : Q) : IO (Z * string) :=
  mret (0%Z, if str_in "inspect" args then described else if str_in "start" args then dumps Plain (JObj [("ok", JBool true)]) else "").
Abbreviation probed := (container_probe default_isolation docker0 "image" ["run"] [] 20).
Lemma container_probe_contained_witness :
  ∃ d name args, probed init_world = (Ok d, after probed init_world)
    ∧ create_args default_isolation "image" name ["run"] [] = Ok args ∧ args_contained default_isolation [] args.
Proof.
  destruct (run_some probed init_world) as (d & E); [vm_compute; reflexivity|].
  destruct (container_probe_contained default_isolation docker0 "image" ["run"] [] 20 init_world (Ok d) (after probed init_world)) as
    (id & w0 & _ & _ & Hd).
  - reflexivity.
  - exact E.
  - destruct (Hd d eq_refl) as (args & _ & _ & _ & _ & _ & _ & _ & _ & Ha & Hc & _).
    exists d, ("immune-sandbox-" +:+ String.substring 0 16 id), args. split; [exact E|]. split; [exact Ha|exact Hc].
Defined.

(** * The properties of the digital twin at concrete runs. *)

#[local] Opaque sha256_hex hmac_hex.

Definition box : path := ["tmp"; "box"].
Definition web : TwinService := {| ts_name := "web"; ts_running := true; ts_config := [("port", JInt 80)]; ts_dependencies := [JStr "db"] |}.
Definition db : TwinService := {| ts_name := "db"; ts_running := true; ts_config := []; ts_dependencies := [] |}.
Definition twin0 : Sandbox := {| sb_world := set_services (λ _, [("web", web); ("db", db)]) new_twin_world; sb_files := ∅ |}.
Definition effect {A} (m : M Sandbox A) (s : Sandbox) : Sandbox := snd (m s).
Lemma twin_pair {A} (m : M Sandbox A) s : m s = (fst (m s), effect m s).
Proof. apply surjective_pairing. Qed.
Lemma two_names : NoDup (map fst (tw_services (sb_world twin0))).
Proof. by apply (bool_decide_unpack _). Qed.

(** A snapshot, a failure and a change of configuration, the restore. *)
Abbreviation saved := (snapshot_to box "one").
Definition damaged : Sandbox := effect (set_config "web" "port" (JInt 81)) (effect (fail_service "db" "test") (effect saved twin0)).
Lemma twin_snapshot_restores_witness :
  ∃ s3, restore_snapshot box (box ++ ["snapshots"; "one"]) damaged = (Ok tt, s3)
    ∧ twin_digest (sb_world s3) = twin_digest (sb_world twin0).
Proof.
  destruct (restore_snapshot box (box ++ ["snapshots"; "one"]) damaged) as [r s3] eqn:E.
  destruct (twin_snapshot_restores box "one" twin0 (box ++ ["snapshots"; "one"]) (effect saved twin0) damaged r s3) as (Hr & _ & Hd & _).
  - exact two_names.
  - reflexivity.
  - reflexivity.
  - exact E.
  - exists s3. rewrite Hr in *. split; [reflexivity|exact Hd].
Defined.

Abbreviation restarted := (actuator_apply "restart_service" [("service", JStr "web")]).
(** A running service is restarted. *)
Lemma virtual_change_always_reported_witness :
  ∃ a, restarted twin0 = (Ok a, effect restarted twin0)
    ∧ (au_changed a = true
       ∨ sha256_collide (dumps Compact (snapshot_of (sb_world twin0))) (dumps Compact (snapshot_of (sb_world (effect restarted twin0))))).
Proof.
  destruct (restarted twin0) as [[a|e] s'] eqn:E; [|vm_compute in E; discriminate E].
  assert (effect restarted twin0 = s') as Es by (unfold effect; by rewrite E). rewrite Es.
  exists a. split; [reflexivity|]. exact (virtual_change_always_reported _ _ _ _ _ E).
Defined.

Abbreviation commanded := (twin_execute box " set_config " [("service", JStr "web"); ("key", JStr "port"); ("value", JInt 81)] 10).
Lemma twin_execute_confined_witness :
  ∃ d, commanded twin0 = (Ok d, effect commanded twin0) ∧ dget d "after" = Some (JStr (twin_digest (sb_world (effect commanded twin0)))).
Proof.
  destruct (commanded twin0) as [[d|e] s'] eqn:E; [|vm_compute in E; discriminate E].
  assert (effect commanded twin0 = s') as Es by (unfold effect; by rewrite E). rewrite Es.
  exists d. split; [reflexivity|]. destruct (twin_execute_confined box _ _ _ _ _ _ E) as (_ & _ & Hd). apply (Hd d eq_refl).
Defined.

Definition python0 : Interpreter :=
  {| it_attributes := list_to_map (map (λ a, (a, Builtin (snd a))) GUARDED); it_violations := []; it_patches := [] |}.
Lemma guard_fail_closed_witness :
  ∃ it1, guard_enter python0 = (Ok tt, it1)
    ∧ guard_exit it1 = (Ok false, {| it_attributes := it_attributes python0; it_violations := it_violations it1; it_patches := [] |}).
Proof.
  destruct (guard_fail_closed box python0) as (it1 & open & E & _ & _ & _ & _ & _ & Hx).
  - intros a Ha. assert (forallb (λ a, bool_decide (is_Some (it_attributes python0 !! a))) GUARDED = true) as Hall by (vm_compute; reflexivity).
    rewrite forallb_forall in Hall. apply list_elem_of_In in Ha. apply Hall in Ha. by apply bool_decide_eq_true in Ha.
  - reflexivity.
  - exists it1. split; [exact E|]. apply Hx; reflexivity.
Defined.

(** * The shipped adapters at a concrete egress request. *)

#[local] Opaque sha256_hex hmac_hex.

Definition rest : HTTPJSONGatewayAdapter :=
  {| ha_system_id := "sys"; ha_adapter_id := "ad"; ha_action_endpoint := "http://sys"; ha_credential_env := None; ha_health_endpoint := None |}.
Definition no_env : string → option string := λ _, None.
Definition no_connect (host : string) (port : Z) (timeout : Q) : IO unit := throw OSError "refused".
Definition answering (c : http_call) (timeout : Q) : IO (Z * string) := mret (200%Z, "").
Definition shipped0 : gmap string ProtectedSystemAdapter := {[ "sys" := http_adapter no_env answering rest ]}.
Abbreviation refused := (egress_execute ia "s" "ci" (config 60 300) shipped0 egress_request
  (token_for ["gateway:egress"]) egress_capability 5%Q (Some 101%Z)).
(** The request another adapter would serve. *)
Lemma shipped_adapters_refuse_egress_witness :
  refused governed = (Raise not_registered, after refused governed) ∧ w_db (after refused governed) = w_db governed.
Proof.
  destruct (shipped_adapters_refuse_egress no_env no_connect answering ia "s" "ci" (config 60 300) shipped0 egress_request
    (token_for ["gateway:egress"]) egress_capability 5%Q (Some 101%Z) governed (fst (refused governed)) (after refused governed))
    as (_ & Hdb & Hr).
  - intros id a Ha. unfold shipped0 in Ha. apply lookup_singleton_Some in Ha as [_ <-]. apply shipped_http.
  - apply run_pair.
  - split; [|exact Hdb]. rewrite (run_pair refused governed) at 1. rewrite Hr; [reflexivity|].
    destruct (run_some (ia_verify ia (token_for ["gateway:egress"]) (Some "gateway:egress") (Some 101%Z)) governed) as (p & Ev);
      [vm_compute; reflexivity|].
    eexists p, _, _, _, _. split; [exact Ev|]. split; [vm_compute; reflexivity|]. split; [vm_compute; reflexivity|].
    split; [vm_compute; reflexivity|]. split; [vm_compute; reflexivity|]. split; [apply lookup_singleton_eq|]. split; reflexivity.
Defined.
