(* ===== verification/WitnessScripts.v ===== *)
(** The properties of the service definitions, the panel, the runtime, the release gate, the
    collector, the validation of phase 1 and the gateway's process, at concrete runs. *)

From S2P Require Import Prelude Json Concrete Sha256 Schema Files Storage Fortress Operations Skills Text.
From S2P Require Import Autostart Panel ControlPlane Continuous Lock Runtime Gates Collector Tokens Policy.
From S2P Require Import Phase1 WitnessAuthority Gateway GatewayProps Adapters GatewayRuntime WitnessGateway.
From S2P Require Import WitnessIsolation PolicyProps Policies.

#[local] Opaque sha256_hex hmac_hex.

(** ** The service definitions *)

(** An argument with a space and one with a quote. *)
Definition service : AutostartPlan :=
  {| ap_name := "immune-system"; ap_command := ["/usr/bin/python3"; "/srv/immune runtime.py"; "--lock"; "it's"; ""];
     ap_working_directory := "/srv//immune/"; ap_restart_seconds := 5 |}.
Lemma unit_runs_planned_command_witness :
  unit_command (systemd_unit service) = Some ["/usr/bin/python3"; "/srv/immune runtime.py"; "--lock"; "it's"; ""]
  ∧ split_on LINE_FEED (systemd_unit service) = unit_lines service ++ [""].
Proof.
  apply (unit_runs_planned_command service service); [vm_compute; reflexivity| |vm_compute; reflexivity].
  repeat (constructor; [vm_compute; reflexivity|]). constructor.
Defined.

(** ** The panel *)

(** A mission whose name is markup, and a sensor that succeeded a moment ago. *)
Definition shown : World := with_db (λ d, set_missions (λ _, [{| m_id := "<b>m</b>"; m_system_id := "sys"; m_state := "RUNNING";
    m_version := 1; m_created_at := 0; m_updated_at := 0 |}])
  (set_obs_sensor_health (λ _, [{| hl_sensor_id := "s"; hl_state := "HEALTHY"; hl_consecutive_failures := 0;
    hl_last_success := Some 0%Q; hl_last_failure := None; hl_last_error := None |}]) d)) init_world.
Definition the_panel : OperationalPanel := {| op_store_path := "/db"; op_freshness := 120 |}.
Abbreviation page := (Panel.do_GET the_panel "/").
Lemma panel_page_truthful_witness :
  field (λ a, page_health (an_body a)) "" (fst (page shown)) = "HEALTHY" ∧ untouched shown (after page shown).
Proof.
  destruct (run_some page shown) as [a Ha]; [vm_compute; reflexivity|].
  split; [vm_compute; reflexivity|].
  assert ("/" ∈ ["/"; "/index.html"]) as Hin by (by left).
  destruct (panel_page_truthful the_panel "/" shown a (after page shown) Hin Ha) as (_ & _ & _ & _ & _ & Hu & _). exact Hu.
Defined.

(** ** The runtime *)
Definition key_hex : string := "6162636465666768696a6b6c6d6e6f707172737475767778797a303132333435".
Definition key : string := "abcdefghijklmnopqrstuvwxyz012345".
Definition tree_manifest : RootManifest :=
  {| rm_generation := 2; rm_source_commit := "c0"; rm_files := [("core.py", sha256_hex "source")]; rm_signer := "external-hmac-lab" |}.
Definition tree_files : gmap path string :=
  list_to_map [(["r"; "core.py"], "source");
    (["m.json"], dumps Plain (JObj [("generation", JInt 2); ("source_commit", JStr "c0");
       ("files", JObj [("core.py", JStr (sha256_hex "source"))]); ("signer", JStr "external-hmac-lab")]));
    (["m.sig"], hmac_hex key (rm_canonical tree_manifest) +:+ newline)].
Definition repository : World := with_files (λ _, tree_files) init_world.
Definition arguments : runtime_args :=
  {| ra_db := "/d"; ra_backups := "/b"; ra_lock := "/l"; ra_interval := 2; ra_backup_interval := 300; ra_restore_drill_interval := 900;
     ra_retention := 5; ra_fortress_manifest := Some "/m.json"; ra_fortress_signature := Some "/m.sig";
     ra_fortress_min_generation := 1; ra_closed_lab_root := true; ra_attest_only := false |}.
Abbreviation started := (runtime_main ["r"] [] ["tmp"] 7 key_hex arguments 1).
(** One cycle over an attested tree: the run writes, so the tree was attested. *)
Lemma no_state_before_trust_witness :
  field fst 1%Z (fst (started repository)) = 0%Z
  ∧ ∃ secret m, tree_attested ["r"] [] key_hex arguments repository secret m.
Proof.
  split; [vm_compute; reflexivity|].
  destruct (no_state_before_trust ["r"] [] ["tmp"] 7 key_hex arguments 1 repository (fst (started repository))
    (after started repository)) as [Htrust _]; [apply run_pair|].
  destruct Htrust as [_ Ht]; [|exact Ht]. intros [Hdb _].
  assert (length (audit_events (w_db (after started repository))) =? 0 = false) as Hne by (vm_compute; reflexivity).
  rewrite Hdb in Hne. discriminate Hne.
Defined.

(** ** The release gate *)
Definition evidence_file (name : string) (d : dict) : path * string := (["r"; "evidence"; name], dumps Plain (JObj d)).
Definition phase_file (n : nat) (more : dict) : path * string :=
  let k := pretty.pretty (Z.of_nat n) in
  evidence_file ("phase" +:+ k +:+ "-validation.json")
    ([("result", JStr ("PHASE" +:+ k +:+ "_PROVEN"));
      ("summary", JObj [("failed", JInt 0); ("passed", JInt 1); ("total", JInt 1)]);
      ("checks", JList [JObj [("passed", JBool true)]])] ++ more).
Definition phase9_more : dict :=
  [("metrics", JObj [("load", JObj [("levels", JList (map JInt [1; 4; 8; 16; 32]%Z)); ("tasks", JInt 61)]);
                     ("endurance", JObj [("cycles", JInt 128); ("failures", JInt 0)])])].
Definition phase10_more : dict :=
  [("mission_proof", JObj [("proven", JBool true); ("missing_gates", JList [])]);
   ("endurance", JObj [("cycles", JInt 50); ("degraded_cycles", JInt 0)])].
Definition twin_evidence : dict :=
  [("status", JStr "DIGITAL_TWIN_PROVEN"); ("checks_failed", JInt 0); ("external_effects_performed", JInt 0);
   ("external_effect_policy", JStr "SEM_EFEITO_EXTERNO"); ("checks_passed", JInt 7);
   ("checks", JList (map (λ g, JObj [("name", JStr g); ("passed", JBool true)]) GATEWAY_GATES))].
Definition released_files : gmap path string :=
  list_to_map (map (λ n, phase_file n []) (seq 1 8)
    ++ [phase_file 9 phase9_more; phase_file 10 phase10_more; evidence_file "digital-twin-validation.json" twin_evidence;
        (["r"; "config"; "gateway-runtime.json"],
         dumps Plain (JObj [("owner_scope", JStr "immune-gateway"); ("systems", JList [])]));
        (["r"; "config"; "provider-live-test.json"],
         dumps Plain (JObj [("owner_scope", JStr "immune-provider-proxy");
                            ("providers", JList [JObj [("endpoint", JStr "https://api.z.ai/v4")]])]));
        (["r"; "MISSION_STATUS.md"], "MISSION_PROVEN")]).
Definition release : World := with_files (λ _, released_files) init_world.
Abbreviation gate := (final_gate ["r"] (Some "c0")).
Lemma final_gate_sound_witness :
  is_Ok (fst (gate release)) = true ∧ phase_proven ["r"] release 10 ∧ twin_proven ["r"] release ∧ provider_isolated ["r"] release.
Proof.
  split; [vm_compute; reflexivity|]. destruct (run_some gate release) as [out Hout]; [vm_compute; reflexivity|].
  destruct (final_gate_sound ["r"] (Some "c0") release out (after gate release) Hout) as (_ & _ & Hp & _ & _ & Ht & _ & Hi).
  split; [apply Hp; split; [lia|reflexivity]|]. split; [exact Ht|exact Hi].
Defined.

(** ** The collector *)

(** An upstream whose branch is at [c0], with a licence and one source file. *)
Definition upstream_run (t : nat) (argv : list string) (cwd : option path) : result string :=
  match argv with
  | ["git"; "ls-remote"; _; "refs/heads/main"] => Ok ("c0 refs/heads/main" +:+ newline)
  | ["git"; "rev-parse"; "HEAD"] => Ok ("c0" +:+ newline)
  | _ => Ok ""
  end.
Definition upstream_tree (t : nat) (argv : list string) : gmap path string :=
  list_to_map [(["src.py"], "print()"); ([".git"; "HEAD"], "ref"); ([".gitattributes"], "")].
Definition upstream_fetch (t : nat) (repo sha name : string) : result string :=
  if name =s "LICENSE" then Ok "SPDX-License-Identifier: MIT" else Raise (Exn URLError "HTTP Error 404: Not Found").
Definition wanted : dict :=
  [("id", JStr "d"); ("repo", JStr "o/n"); ("ref", JStr "main"); ("license", JStr "MIT"); ("capture", JStr "snapshot")].
Abbreviation collecting := (collect_donor upstream_run upstream_tree upstream_fetch ["r"] ["tmp"] "now" 1 wanted).
Lemma tmp_apart_r rel : strip_prefix ["tmp"] (["r"] ++ rel) = None.
Proof. reflexivity. Qed.
Lemma collected_donor_verified_witness :
  ∃ entry, collecting init_world = (Ok entry, after collecting init_world) ∧ collected entry = true
    ∧ ∃ id, donor_verified upstream_fetch wanted entry (OUT ["r"] ++ [id]) 1 (after collecting init_world).
Proof.
  destruct (run_some collecting init_world) as [entry He]; [vm_compute; reflexivity|].
  exists entry. split; [exact He|].
  assert (collected entry = true) as Hc.
  { rewrite <- (field_run collected false collecting init_world entry _ He). vm_compute. reflexivity. }
  split; [exact Hc|].
  destruct (collected_donor_verified upstream_run upstream_tree upstream_fetch ["r"] ["tmp"] tmp_apart_r "now" 1 wanted init_world entry
    (after collecting init_world) He) as (id & _ & _ & Hv & _).
  exists id. exact (Hv Hc).
Defined.

(** An upstream that moves to [c1], under another licence, once the commit to collect was
    resolved: the clone is at [c1], the branch too, and the snapshot is kept. *)
Definition moving_run (t : nat) (argv : list string) (cwd : option path) : result string :=
  match argv with
  | ["git"; "ls-remote"; _; "refs/heads/main"] => Ok (if Nat.eqb t 0 then "c0" else "c1")
  | ["git"; "rev-parse"; "HEAD"] => Ok "c1"
  | _ => Ok ""
  end.
Definition moving_fetch (t : nat) (repo sha name : string) : result string :=
  if name =s "LICENSE" then Ok (if sha =s "c0" then "SPDX-License-Identifier: MIT" else "All rights reserved.")
  else Raise (Exn URLError "HTTP Error 404: Not Found").
Abbreviation moved := (collect_donor moving_run upstream_tree moving_fetch ["r"] ["tmp"] "now" 1 wanted).
(** The entry is collected and its licence verified, of the commit before: the snapshot's
    commit has no acceptable licence, and the archive it names is of another tree. *)
Example moved_upstream_keeps_old_licence :
  field (λ e, collected e) false (fst (moved init_world)) = true
  ∧ field (λ e, dget e "resolved_commit") None (fst (moved init_world)) = Some (JStr "c1")
  ∧ field (λ e, dget e "source_archive") None (fst (moved init_world)) = Some (JStr "https://github.com/o/n/archive/c0.tar.gz")
  ∧ field (λ e, dget e "license_verified") None (fst (moved init_world)) = Some (JBool true)
  ∧ ∀ t, verify_license "MIT" (match moving_fetch t "o/n" "c1" "LICENSE" with Ok text => text | Raise _ => "" end) = false.
Proof.
  split; [vm_compute; reflexivity|]. split; [vm_compute; reflexivity|]. split; [vm_compute; reflexivity|].
  split; [vm_compute; reflexivity|]. intros t. vm_compute. reflexivity.
Qed.

(** * A repository that passes the validation of phase 1, and its readers. *)

#[local] Opaque sha256_hex hmac_hex.

Definition contract_text : string :=
  dumps Plain (JObj [("$schema", JStr "https://json-schema.org/draft/2020-12/schema"); ("type", JStr "object");
    ("additionalProperties", JBool false); ("required", JList [JStr "id"]);
    ("properties", JObj [("decision", JObj [("enum", JList (map JStr DECISIONS))])])]).
Definition machine_text : string :=
  join " " (MISSION_STATES ++ INCIDENT_STATES
            ++ ["COMPLETED requires MISSION_PROVEN"; "equivalent_retry_requires_new_evidence"; "each_retry_requires_technical_delta"]).
Definition rego_text : string :=
  join newline ["package immune.p"; BLOCKED_DEFAULT; "default mission_proven := false"].
Definition in_folder (folder name text : string) : path * string := (["r"; folder; name], text).
Definition specified_files : gmap path string :=
  list_to_map (map (λ n, in_folder "contracts" n contract_text) EXPECTED_CONTRACTS
    ++ map (λ n, in_folder "state-machines" n machine_text) ["mission.yaml"; "incident.yaml"; "attempt.yaml"]
    ++ map (λ n, in_folder "policies" n rego_text)
         ["authority.rego"; "checkpoint.rego"; "destructive.rego"; "donor-oss.rego"; "financial.rego"; "mission-proven.rego"; "secrets.rego"]
    ++ [in_folder "constitution" "IMUNE-DNA-001.md" (join " " DNA_MARKERS);
        in_folder "specification" "SOURCE_MANIFEST.json"
          (dumps Plain (JObj [("sha256", JStr (sha256_hex "spec")); ("version", JStr "1.0")]))]).
Definition specified : World := with_files (λ _, specified_files) init_world.
Lemma specified_named : named_files ["r"] (w_files specified).
Proof.
  intros folder rel c _ Hc. apply elem_of_map_to_list in Hc.
  assert (forallb (λ e : path * string, forallb no_slash e.1) (map_to_list (w_files specified)) = true) as Hall by (vm_compute; reflexivity).
  rewrite forallb_forall in Hall. apply list_elem_of_In in Hc. specialize (Hall _ Hc). cbn [fst app forallb] in Hall.
  apply andb_true_iff in Hall as [_ Hall]. apply andb_true_iff in Hall as [_ Hall].
  apply Forall_forall. intros x Hx. rewrite forallb_forall in Hall. apply Hall. by apply list_elem_of_In.
Qed.
Abbreviation validated := (phase1_main ["r"] "now").
Lemma phase1_evidence_accepted_witness :
  w_files specified !! EVIDENCE ["r"] = None
  ∧ (∃ r, phase_gate ["r"] 1 (after validated specified) = (Ok r, after validated specified))
  ∧ ∃ g, from_repository ["r"] ia (after validated specified) = (Ok g, after validated specified)
      ∧ constitution_ok (w_files (after validated specified)) (pg_constitution_path g) (pg_expected_constitution_sha256 g) = true.
Proof.
  split; [vm_compute; reflexivity|]. destruct (run_some validated specified) as [lines Hrun]; [vm_compute; reflexivity|].
  destruct (phase1_evidence_accepted ["r"] "now" ia specified lines (after validated specified) specified_named Hrun)
    as (_ & _ & Hgate & g & Hg & _ & Hok).
  split; [exact Hgate|]. exists g. split; [exact Hg|exact Hok].
Defined.

(** * The gateway's process at a concrete run: a system that does not answer is recorded, and
    a correctly signed push is dropped. *)

#[local] Opaque sha256_hex hmac_hex.

(** ** A push *)
Abbreviation dropped := (serve_post environ (config 60 300) post).
(** The handler accepts it in the thread of the connection; the server drops it. *)
Lemma runtime_drops_signed_pushes_witness :
  field hr_status 0%Z (fst (Gateway.do_POST environ (config 60 300) post init_world)) = 202%Z
  ∧ dropped init_world = (Ok None, after dropped init_world).
Proof.
  assert (field hr_status 0%Z (fst (Gateway.do_POST environ (config 60 300) post init_world)) = 202%Z) as Hst by (vm_compute; reflexivity).
  split; [exact Hst|]. destruct (runtime_drops_signed_pushes environ (config 60 300) post init_world) as (a & w' & E & _ & _ & Hd).
  unfold after. rewrite E. cbn [snd].
  destruct (Gateway.do_POST environ (config 60 300) post init_world) as [[r|e] w1] eqn:Ep; [|discriminate Hst].
  rewrite (Hd r w1 eq_refl Hst). reflexivity.
Defined.

(** ** A run *)

(** Two systems to pull from, over TCP and over HTTP, and a push. *)
Definition process_config : json :=
  JObj [("schema", JInt 1); ("owner_scope", JStr "immune-gateway");
        ("systems", JList
          [JObj [("id", JStr "down"); ("adapter", JStr "http-json"); ("ingress", JStr "pull");
                 ("config", JObj [("action_endpoint", JStr "http://h"); ("health_endpoint", JStr "h")])];
           JObj [("id", JStr "tcp"); ("adapter", JStr "tcp-health"); ("ingress", JStr "pull");
                 ("config", JObj [("host", JStr "h"); ("port", JInt 80)])]])].
Definition process_world : World := with_files (λ _, {[ ["g"] := dumps Plain process_config ]}) init_world.
Definition bound (host : string) (port : Z) : IO unit := mret tt.
Abbreviation process := (gateway_main [] no_env no_connect answering bound {| ga_config := "/g"; ga_poll_interval := 2 |} [[post]]).
(** The first system fails (its address has no scheme) and is recorded, the second is
    collected from, the push is not answered 202. *)
Lemma gateway_process_brings_data_witness :
  field fst 1%Z (fst (process process_world)) = 0%Z
  ∧ length (obs_signals (w_db (after process process_world))) = 1
  ∧ brings_data process_world (after process process_world).
Proof.
  split; [vm_compute; reflexivity|]. split; [vm_compute; reflexivity|].
  apply (gateway_process_brings_data [] no_env no_connect answering bound) with
    (args := {| ga_config := "/g"; ga_poll_interval := 2 |}) (turns := [[post]]) (out := fst (process process_world)).
  - intros host port timeout w. split; reflexivity.
  - intros call timeout w. split; reflexivity.
  - intros host port w. split; reflexivity.
  - apply run_pair.
Defined.

(** ** The declared policies *)
Definition change_request : dict :=
  [("mission_authorized", JBool true); ("system_authorized", JBool true); ("scope_ok", JBool true);
   ("material_change", JBool true); ("checkpoint_valid", JBool true); ("irreversible", JBool true);
   ("recovery_verified", JBool true)].
Definition nobody : Principal :=
  {| pr_subject := "a"; pr_kind := "k"; pr_scopes := []; pr_issuer := "i"; pr_issued_at := 0; pr_expires_at := 1;
     pr_token_id := "t" |}.
Lemma guard_enforces_policies_witness :
  permitted (decide_verified true nobody change_request) = true
  ∧ allows (checkpoint_rego change_request) = true ∧ allows (destructive_rego change_request) = true.
Proof.
  assert (covered change_request) as Hc.
  { split; [reflexivity|left; reflexivity|discriminate|discriminate|discriminate]. }
  assert (permitted (decide_verified true nobody change_request) = true) as Hp by (vm_compute; reflexivity).
  split; [exact Hp|].
  destruct (proj1 (proj1 (guard_enforces_policies true nobody change_request Hc)) Hp) as (_ & _ & _ & _ & _ & Hcp & Hd & _).
  split; [exact Hcp|exact Hd].
Defined.
